(* ===== verification/_CoqProject ===== *)
-Q . S2P
Prelude.v
Endian.v
Buffer.v
Callbacks.v
Queue.v
Timer.v
H4.v
Addr.v
Hci.v
DeviceRegistry.v
L2cap.v
Signaling.v
Att.v
Sdp.v
ChannelManager.v
CommandQueue.v
Controller.v
Smp.v
SmpCrypto.v
SmpManager.v
SmpLifecycle.v
BondStore.v
HidReport.v
HidInput.v
GattClient.v
GattLink.v
GattProcedures.v
SdpClient.v
SdpLink.v
SdpProcedures.v
Hogp.v
InputBridge.v
UartTransport.v
VirtualTransport.v
