(* ===== verification/Prelude.v ===== *)
(** * Verification development for the portable Bluetooth host core

    The program is a Bluetooth host stack in C: byte-level codecs at the
    bottom, state machines above them, and profile code that turns what a
    device sends into input events.  The development translates the core into
    executable Rocq definitions, one file per component, and proves the
    contracts the components rely on.  Names follow the C names; the
    definitions can be evaluated, and the witnesses do.

    ** Conventions (this file)

    - An [outcome] is what a C call comes to: [Ret v] is BT_OK with the value
      stored through the out-parameter, [Fail e] the error status, and [Fault]
      an access outside an object, through NULL, or to a node that does not
      exist.  "Never [Fault]" in a theorem is memory safety.
    - [M S A] is code that changes an object of type [S] and may fail; the
      object is kept on every exit.  [let!], [do!] bind in [M], [let?] binds
      outcomes.
    - An object in memory is the list of its elements; a pointer is a suffix of
      the object, or the object with an offset.  [ld], [ldn], [st1], [stn] are
      the accesses, and fault out of range.  Structures linked by pointers live
      in a heap, [gmap loc V].
    - Integers are [Z] with the width written out ([u8] .. [u64], [s8], [s32])
      where the C type truncates.  [size_t] is [Z]: each component's invariant
      shows that its differences do not go below zero.
    - A loop that is not structural carries fuel, and is a [Fault] when it runs
      out, so that a theorem that excludes [Fault] also proves termination.
      The fuel is the number of bytes left plus one in loops over a buffer
      (every iteration consumes one), the number of nodes plus one in loops
      over a list, and the potential of the calls still to come in the
      re-entrant loops of the command queue.  The tick of the channel manager
      has one more than the number of its timers, and nested callbacks have
      their depth.
    - Callbacks are functions on the state their [user_data] points to, or
      programs ([CommandQueue.cprog], [CommandQueue.tprog],
      [ChannelManager.chprog], [Callbacks.prog]) where they call back into the
      component.  A user that calls back has a budget of calls, and the depth of
      nested calls is more than that budget.
    - What a component did is a history in its world ([w_trace] and the like),
      which the code does not have and no definition reads.

    ** The parts

    Codecs.
    - [Endian] (core/buffer/endian.c): the accessors are the reference codecs
      [le_enc]/[le_dec]/[be_enc]/[be_dec].
    - [Buffer] (core/buffer/buffer.c): bounded readers and writers.  Its
      predicates are the interface of all codecs: [reads] (consumes exactly
      these bytes), [writes] (emits exactly these bytes, or overflows with a
      prefix), [rspec] and [sat] (safe on any bytes).
    - [Hci], [L2cap], [Signaling], [Att], [Sdp], [Smp] (protocols/...): the
      wire formats of each protocol.  Every encoder is proved to emit its
      format and every parser to read it back; parsers and iterators of
      untrusted data are proved safe and terminating on any bytes; [Smp] and
      [BondStore] accept exactly their formats.
    - [H4] (core/transport/h4.c): the receiver state machine of the UART
      transport recovers the packets from any fragmentation of the stream.
    - [L2cap] also has the reassembler, which implements a specification over
      plain byte lists and inverts the fragmenter.

    Data structures.
    - [Queue] (core/event/queue.c), [Timer] (core/timer/timer.c): intrusive
      pointer lists that implement a FIFO and a sorted list.
    - [Addr], [DeviceRegistry] (core/device): a bounded table that implements a
      map from address to device, the name ladder, the advertising parser.
    - [BondStore] (core/security/bond_store.c): a bounded table that implements
      a map from identities to bonds, and its image on disk: serialising and
      loading are inverse, loading accepts exactly the images, and the CRC-32
      finds every corrupted byte.

    Cryptography.
    - [SmpCrypto] (core/security/smp_crypto.c, smp_pairing.c): AES-CMAC is that
      of RFC 4493 over any block cipher, which is the port's; the key functions
      are their formulas; the negotiation of features and the association model
      are the tables of the standard, but where they are not.

    State machines.
    - [Callbacks]: components whose callers are called back: the programs, the
      rules [wp] (returns, with) and [wlp] (if it returns, then with) that run a
      handler, and the budget that bounds the calls.
    - [SmpManager], [SmpLifecycle] (core/security/smp_manager.c): pairing as
      the initiator, over [Smp] and [SmpCrypto].  A key is used only when the
      history proves it, in the order of its exchanges, under ports that may
      call back from all their operations but the random numbers, the local key
      pair and the display of a passkey; over ports that do not call back a
      pairing reports once and ends in time.
    - [CommandQueue] (core/controller/command_queue.c): every accepted command
      is sent once, completed once and in order, under re-entrant completion
      callbacks and transports that deliver events from inside the send; the
      outstanding command always gets its result.
    - [Controller] (core/controller/controller.c, core/manager/manager.c): the
      client of the command queue; bring-up, its failures, discovery, and the
      manager above.  It is proved against the laws [CommandQueue.laws] that
      the queue asks of any client.
    - [ChannelManager] (protocols/l2cap/channel_manager.c): the channels of an
      ACL link, over [L2cap], [Signaling] and [Timer], under clients whose
      callbacks open, close and send, in a tick only with times whose timeout is
      still to come.  Every channel goes through its phases in
      order, live channels have distinct CIDs, a tick fires what is due and
      nothing else, the handshake opens a channel on either order of the
      configuration messages, and data arrives unchanged.
    - [GattClient] (protocols/gatt/gatt_client.c): the client's state, its calls
      and the events of its channel, over [Att], under users whose callbacks
      call it again.  Every operation that is started completes once and with a
      result that fits it, and what is unanswered times out; the MTU exchange of
      a connection is one of these operations in the history.  The channel is the
      interface [GattClient.FixedChannels], which [GattLink] shows the channel
      manager to keep, with an inbox for the events it fires.  A completion
      holds the entries its pointers lead to; in the code they are the client's
      own arrays, which the next operation overwrites.
    - [GattProcedures]: what the client finds out from a server that answers:
      a long read returns the server's value, and discovery its attributes.
      Servers are functions or, for discovery, any function that obeys
      [GattProcedures.serves]; the fuel of the exchange is the number of
      requests, bounded by the parts of the value or the attributes.
    - [SdpClient] (protocols/sdp/sdp_client.c): service searches and attribute
      requests over a channel of their own, with [Sdp], under users whose
      callbacks call again.  Every operation completes once, and succeeds only
      while it handles the response to its latest request.  The channel is the
      interface [SdpClient.DynamicChannels], which [SdpLink] shows the channel
      manager to keep.  The local structure that the C code leaves
      uninitialised is a parameter.
    - [SdpProcedures]: a result that a server sends in parts, however it cuts
      it, arrives whole or is reported as too large; the fuel of the exchange
      is the number of parts.
    - [Hogp] (profiles/hogp/hogp_client.c): the HID client over GATT, with
      [HidReport] and [HidInput]: discovery and configuration of the service,
      notifications, output reports and the boot protocol, under users whose
      callbacks call again.  Every operation ends once, and is under way exactly
      while a request of it is.  The GATT client is the interface
      [Hogp.GattLayer]; what it does by itself are inputs, of which
      [Hogp.possible] admits those that fit the request under way.
    - [HidReport] (core/hid/report_parser.c): the descriptor parser interprets
      a sequence of items and leaves a descriptor whose fields tile their
      reports; decoding is bit extraction from one little-endian number.
    - [HidInput] (core/hid/input.c): events are exactly the changes of a map of
      variables and of a set of held keys.

    Ports.
    - [InputBridge] (ports/aros/input/input_bridge.c): those events as the
      raw keys, buttons and motion of AROS.  With [HidReport] and [HidInput]
      below it, what AROS was told of a key is what the last report that
      describes the key says of it.
    - [UartTransport] (ports/aros/transport-uart/uart_transport.c): packets over
      a UART, with [H4], for receive callbacks that send, whatever bytes come in.  The resource of the
      operating system is the interface [UartTransport.BtUart]; the fuel of a
      poll is the number of bytes that are still to come plus one.
    - [VirtualTransport] (ports/test-host/virtual_transport): the controller of
      the test host, a [CommandQueue.CmdqTransport] that answers from inside
      the send; the manager, controller and queue come up on it in one call.

    ** Shared lemmas

    This file has the integer, list and memory lemmas, linked segments
    ([lseg]) for [Queue] and [Timer], and tables as finite maps ([keyed]) for
    [DeviceRegistry], [BondStore] and [HidInput].  The hint database [wire]
    holds the primitives of [Buffer]; [parse_step], [safe_step], [print_all],
    [run_read] and [case_read] drive the codec proofs.

    ** Not modelled

    The rest of the AROS ports (processes and signals, the USB transport, the
    input device, the library), the command-line tools, the tests and the image
    scripts are calls of an operating system, or tests, and are left out.
    Vendor initialisation is one function that completes at once. *)

From Stdlib Require Import ZArith Lia.
From stdpp Require Import base list list_numbers gmap.

#[global] Open Scope Z_scope.

(** ** Status codes: include/bluetooth/status.h *)

Inductive bt_status : Set :=
| BT_OK
| BT_ERR_INVALID_ARGUMENT
| BT_ERR_BUFFER_OVERFLOW
| BT_ERR_BUFFER_UNDERFLOW
| BT_ERR_NO_RESOURCES
| BT_ERR_IO.

#[global] Instance bt_status_eq_dec : EqDecision bt_status.
Proof. solve_decision. Defined.

(** ** Results of C functions

    [Ret a]   the function returned BT_OK (or the value [a]);
    [Fail e]  it returned the error status [e];
    [Fault]   it touched memory outside the extent it was given, or
              dereferenced a null or dangling pointer. *)

Inductive outcome (A : Type) : Type :=
| Ret (a : A)
| Fail (e : bt_status)
| Fault.
Arguments Ret {A} a.
Arguments Fail {A} e.
Arguments Fault {A}.

#[global] Instance outcome_eq_dec {A} `{EqDecision A} : EqDecision (outcome A).
Proof. solve_decision. Defined.

Definition obind {A B} (o : outcome A) (k : A -> outcome B) : outcome B :=
  match o with
  | Ret a => k a
  | Fail e => Fail e
  | Fault => Fault
  end.

(** Code that threads a mutable object and can fail: the object is kept on
    every exit, because the C callers go on using it after an error. *)
Definition M (S A : Type) : Type := S -> outcome A * S.

Definition ret {S A} (a : A) : M S A := fun s => (Ret a, s).
Definition fail {S A} (e : bt_status) : M S A := fun s => (Fail e, s).
Definition lift {S A} (o : outcome A) : M S A := fun s => (o, s).
Definition gets {S A} (f : S -> A) : M S A := fun s => (Ret (f s), s).
Definition modify {S} (f : S -> S) : M S unit := fun s => (Ret tt, f s).
Definition bind {S A B} (m : M S A) (k : A -> M S B) : M S B := fun s =>
  match m s with
  | (Ret a, s') => k a s'
  | (Fail e, s') => (Fail e, s')
  | (Fault, s') => (Fault, s')
  end.

Lemma bind_ret {S A B} (a : A) (k : A -> M S B) : bind (ret a) k = k a.
Proof. done. Qed.

Lemma bind_lift {S A B} (a : A) (k : A -> M S B) s : bind (lift (Ret a)) k s = k a s.
Proof. done. Qed.
Lemma bind_gets {S A B} (f : S -> A) (k : A -> M S B) s : bind (gets f) k s = k (f s) s.
Proof. done. Qed.

Declare Scope bt_scope.
Delimit Scope bt_scope with bt.
#[global] Open Scope bt_scope.

Notation "'let!' x := m 'in' k" := (bind m (fun x => k))
  (at level 10, x binder, m at level 100, k at level 200,
   format "'[v' 'let!'  x  :=  m  'in' '/' k ']'") : bt_scope.
Notation "'do!' m 'in' k" := (bind m (fun _ => k))
  (at level 10, m at level 100, k at level 200,
   format "'[v' 'do!'  m  'in' '/' k ']'") : bt_scope.
Notation "'let?' x := o 'in' k" := (obind o (fun x => k))
  (at level 10, x binder, o at level 100, k at level 200,
   format "'[v' 'let?'  x  :=  o  'in' '/' k ']'") : bt_scope.
Abbreviation zlen l := (Z.of_nat (length l)).

(** ** Fixed-width integers *)

Definition u8 (x : Z) : Z := x mod 2 ^ 8.
Definition u16 (x : Z) : Z := x mod 2 ^ 16.
Definition u32 (x : Z) : Z := x mod 2 ^ 32.
Definition u64 (x : Z) : Z := x mod 2 ^ 64.
Definition s8 (x : Z) : Z := (x + 2 ^ 7) mod 2 ^ 8 - 2 ^ 7.
Definition s16 (x : Z) : Z := (x + 2 ^ 15) mod 2 ^ 16 - 2 ^ 15.
Definition s32 (x : Z) : Z := (x + 2 ^ 31) mod 2 ^ 32 - 2 ^ 31.

Definition UINT8_MAX : Z := 2 ^ 8 - 1.
Definition UINT16_MAX : Z := 2 ^ 16 - 1.
Definition UINT32_MAX : Z := 2 ^ 32 - 1.
Definition UINT64_MAX : Z := 2 ^ 64 - 1.

Definition is_byte (b : Z) : Prop := 0 <= b < 2 ^ 8.
Definition is_u16 (v : Z) : Prop := 0 <= v < 2 ^ 16.
Abbreviation bytes := (Forall is_byte).

(** ** Memory: an object is the list of its bytes, a pointer into it an
    offset; an access outside the object is a [Fault]. *)

Definition ld {A} (m : list A) (i : Z) : outcome A :=
  if 0 <=? i then
    match m !! Z.to_nat i with Some b => Ret b | None => Fault end
  else Fault.

Definition ldn {A} (m : list A) (i n : Z) : outcome (list A) :=
  if (0 <=? i) && (0 <=? n) && (i + n <=? zlen m)
  then Ret (take (Z.to_nat n) (drop (Z.to_nat i) m))
  else Fault.

(** A byte-by-byte copy loop: [n] loads from [i] on. *)
Fixpoint ld_loop {A} (m : list A) (i : Z) (n : nat) : outcome (list A) :=
  match n with
  | O => Ret []
  | S n => let? b := ld m i in let? bs := ld_loop m (i + 1) n in Ret (b :: bs)
  end.

(** The bytes from [i] on replaced by [bs]. *)
Definition splice {A} (m : list A) (i : Z) (bs : list A) : list A :=
  take (Z.to_nat i) m ++ bs ++ drop (Z.to_nat i + length bs) m.

Definition stn {A} (m : list A) (i : Z) (bs : list A) : outcome (list A) :=
  if (0 <=? i) && (i + zlen bs <=? zlen m) then Ret (splice m i bs) else Fault.

Definition st1 {A} (m : list A) (i : Z) (b : A) : outcome (list A) := stn m i [b].

(** ** Heap: intrusive structures linked by pointers.  [None] is NULL;
    dereferencing an address that holds no object is a [Fault]. *)

Abbreviation loc := positive.

Definition hld {V} (h : gmap loc V) (l : loc) : outcome V :=
  match h !! l with Some v => Ret v | None => Fault end.

Definition hst {V} (h : gmap loc V) (l : loc) (v : V) : outcome (gmap loc V) :=
  match h !! l with Some _ => Ret (<[l := v]> h) | None => Fault end.

(** The nodes [l], linked by [nx], lead from pointer [p] to pointer [q]. *)
Fixpoint lseg {V} (nx : V -> option loc) (h : gmap loc V) (p : option loc) (l : list loc)
    (q : option loc) : Prop :=
  match l with
  | [] => p = q
  | n :: l => p = Some n /\ exists v, h !! n = Some v /\ lseg nx h (nx v) l q
  end.

(** ** Reference codecs: the little- and big-endian bytes of an integer *)

Fixpoint le_enc (n : nat) (v : Z) : list Z :=
  match n with
  | O => []
  | S n => v mod 256 :: le_enc n (v / 256)
  end.

Fixpoint le_dec (bs : list Z) : Z :=
  match bs with
  | [] => 0
  | b :: bs => b + 256 * le_dec bs
  end.

Definition be_enc (n : nat) (v : Z) : list Z := reverse (le_enc n v).
Definition be_dec (bs : list Z) : Z := le_dec (reverse bs).

(** ** Automation *)

Create HintDb wire.
Create HintDb bt_arith.
Create Rewrite HintDb bt_rw.

(** List lengths and integer arithmetic together. *)
Ltac zlist :=
  unfold splice in *; simpl length in *;
  repeat progress (rewrite ?length_app, ?length_take, ?length_drop, ?length_insert,
    ?length_replicate, ?length_reverse, ?length_fmap in *; simpl length in * );
  try lia.

(** [lia] with division and modulo by constants. *)
Ltac dlia := Z.div_mod_to_equations; lia.

(** Run the monad's combinators. *)
Ltac mrun := cbv beta iota zeta delta [bind gets lift ret fail modify]; cbn [fst snd negb].
Tactic Notation "mrun" "in" hyp(H) :=
  cbv beta iota zeta delta [bind gets lift ret fail modify] in H; cbn [fst snd negb] in H.

(** A record with one field replaced, as the body of a definition: [eta r] is
    [r] rebuilt from its fields. *)
Ltac put_field eta field v r :=
  let e := eval cbv beta delta [eta] in (eta r) in
  let e := eval pattern (field r) in e in
  match e with ?f _ => let b := eval cbv beta in (f v) in exact b end.

(** Split a boolean guard and record both sides as propositions. *)
Ltac zcase :=
  match goal with
  | |- context [if ?a <=? ?b then _ else _] => destruct (Z.leb_spec a b)
  | |- context [if ?a <? ?b then _ else _] => destruct (Z.ltb_spec a b)
  | |- context [if ?a =? ?b then _ else _] => destruct (Z.eqb_spec a b)
  | |- context [if ?a >? ?b then _ else _] =>
      rewrite (Z.gtb_ltb a b); destruct (Z.ltb_spec b a)
  | |- context [if ?a >=? ?b then _ else _] =>
      rewrite (Z.geb_leb a b); destruct (Z.leb_spec b a)
  | |- context [?a =? ?b] => destruct (Z.eqb_spec a b); cbn [negb orb andb]
  | |- context [?a <? ?b] => destruct (Z.ltb_spec a b); cbn [negb orb andb]
  | |- context [?a <=? ?b] => destruct (Z.leb_spec a b); cbn [negb orb andb]
  | |- context [?a >? ?b] => rewrite (Z.gtb_ltb a b)
  | |- context [?a >=? ?b] => rewrite (Z.geb_leb a b)
  end.

(** ** Integer lemmas *)

Lemma lor_shiftl a b n : 0 <= n -> 0 <= a < 2 ^ n -> Z.lor a (Z.shiftl b n) = a + b * 2 ^ n.
Proof.
  intros Hn Ha. rewrite Z.shiftl_mul_pow2 by lia.
  symmetry. apply Z.add_nocarry_lor. apply Z.bits_inj'. intros i Hi.
  rewrite Z.land_spec, Z.bits_0.
  destruct (Z.lt_ge_cases i n).
  - rewrite Z.mul_pow2_bits_low by lia. apply andb_false_r.
  - rewrite <- (Z.mod_small a (2 ^ n)) by lia. rewrite Z.mod_pow2_bits_high by lia. done.
Qed.

Lemma lor_shiftl_l a b n : 0 <= n -> 0 <= a < 2 ^ n -> Z.lor (Z.shiftl b n) a = b * 2 ^ n + a.
Proof. intros. rewrite Z.lor_comm, lor_shiftl by done. lia. Qed.

Lemma land_255 v : Z.land v 255 = v mod 256.
Proof. change 255 with (Z.ones 8). by rewrite Z.land_ones by lia. Qed.

(** What holds of each of the 256 bytes. *)
Lemma byte_forall (P : Z -> bool) : forallb P (seqZ 0 256) = true -> forall b, is_byte b -> P b = true.
Proof. rewrite forallb_forall. intros H b Hb. apply H, list_elem_of_In, elem_of_seqZ. unfold is_byte in Hb. lia. Qed.

(** Concrete byte lists, by evaluation. *)
Lemma bytes_check l : forallb (fun b => (0 <=? b) && (b <? 256)) l = true -> bytes l.
Proof.
  rewrite forallb_forall. intros H. apply Forall_forall. intros b Hb. unfold is_byte.
  specialize (H b ltac:(by apply list_elem_of_In)). lia.
Qed.
Ltac concrete_bytes := apply bytes_check; vm_compute; reflexivity.

Lemma u8_byte v : is_byte (u8 v).
Proof. unfold is_byte, u8. apply Z.mod_pos_bound. lia. Qed.

Lemma u8_small v : 0 <= v < 256 -> u8 v = v.
Proof. intros. unfold u8. apply Z.mod_small. lia. Qed.
Lemma u16_small v : 0 <= v < 65536 -> u16 v = v.
Proof. intros. unfold u16. apply Z.mod_small. lia. Qed.
Lemma u32_small v : 0 <= v < 4294967296 -> u32 v = v.
Proof. intros. unfold u32. apply Z.mod_small. lia. Qed.
Lemma u64_small v : 0 <= v < 18446744073709551616 -> u64 v = v.
Proof. intros. unfold u64. apply Z.mod_small. lia. Qed.

#[export] Hint Resolve u8_byte : bt_arith.
#[export] Hint Rewrite u8_small u16_small u32_small u64_small using lia : bt_rw.

Lemma le_enc_length n v : length (le_enc n v) = n.
Proof. revert v. induction n; intros; simpl; auto. Qed.

Lemma le_enc_bytes n v : bytes (le_enc n v).
Proof.
  revert v. induction n; intros; simpl; constructor; auto.
  unfold is_byte. pose proof (Z.mod_pos_bound v 256). lia.
Qed.

Lemma le_dec_enc n v : le_dec (le_enc n v) = v mod 2 ^ (8 * Z.of_nat n).
Proof.
  revert v. induction n as [|n IH]; intros v; simpl le_enc; simpl le_dec.
  { simpl. by rewrite Z.mod_1_r. }
  rewrite IH. replace (8 * Z.of_nat (S n)) with (8 + 8 * Z.of_nat n) by lia.
  rewrite Z.pow_add_r by lia. rewrite Z.rem_mul_r by lia.
  change (2 ^ 8) with 256. lia.
Qed.

Lemma le_dec_bound bs : bytes bs -> 0 <= le_dec bs < 2 ^ (8 * zlen bs).
Proof.
  induction 1 as [|b bs Hb _ IH]; simpl le_dec; [simpl; lia|].
  simpl length. replace (8 * Z.of_nat (S (length bs))) with (8 + 8 * zlen bs) by lia.
  rewrite Z.pow_add_r by lia. unfold is_byte in Hb. lia.
Qed.

Lemma le_enc_dec bs : bytes bs -> le_enc (length bs) (le_dec bs) = bs.
Proof.
  induction 1 as [|b bs Hb _ IH]; simpl; [done|].
  unfold is_byte in Hb.
  replace ((b + 256 * le_dec bs) mod 256) with b
    by (rewrite Z.mul_comm, Z.mod_add, Z.mod_small; lia).
  replace ((b + 256 * le_dec bs) / 256) with (le_dec bs)
    by (rewrite Z.mul_comm, Z.div_add, Z.div_small; lia).
  by rewrite IH.
Qed.

Lemma le_enc_trunc n v : le_enc n v = le_enc n (v mod 2 ^ (8 * Z.of_nat n)).
Proof.
  rewrite <- le_dec_enc. symmetry. pose proof (le_enc_dec _ (le_enc_bytes n v)) as E.
  by rewrite le_enc_length in E.
Qed.

Lemma le_enc_mod n k v : 8 * Z.of_nat n <= k -> le_enc n (v mod 2 ^ k) = le_enc n v.
Proof.
  intros Hk. rewrite (le_enc_trunc n v), (le_enc_trunc n (v mod 2 ^ k)). f_equal.
  replace k with (8 * Z.of_nat n + (k - 8 * Z.of_nat n)) by lia.
  rewrite Z.pow_add_r, Z.rem_mul_r by lia.
  rewrite (Z.mul_comm (2 ^ _)), Z.mod_add, Z.mod_mod by lia. done.
Qed.

Lemma le_dec_app a b : le_dec (a ++ b) = le_dec a + 2 ^ (8 * zlen a) * le_dec b.
Proof.
  induction a as [|x a IH]; simpl le_dec; [simpl length; lia|]. simpl app. simpl le_dec.
  rewrite IH. simpl length. replace (8 * Z.of_nat (S (length a))) with (8 + 8 * zlen a) by lia.
  rewrite Z.pow_add_r by lia. lia.
Qed.

Lemma be_enc_length n v : length (be_enc n v) = n.
Proof. unfold be_enc. by rewrite length_reverse, le_enc_length. Qed.
Lemma be_enc_bytes n v : bytes (be_enc n v).
Proof. apply Forall_reverse, le_enc_bytes. Qed.
Lemma be_dec_enc n v : be_dec (be_enc n v) = v mod 2 ^ (8 * Z.of_nat n).
Proof. unfold be_dec, be_enc. by rewrite reverse_involutive, le_dec_enc. Qed.
Lemma be_dec_bound bs : bytes bs -> 0 <= be_dec bs < 2 ^ (8 * zlen bs).
Proof.
  intros H. unfold be_dec. rewrite <- (length_reverse bs).
  by apply le_dec_bound, Forall_reverse.
Qed.
Lemma be_enc_dec bs : bytes bs -> be_enc (length bs) (be_dec bs) = bs.
Proof.
  intros H. unfold be_enc, be_dec. rewrite <- (length_reverse bs), le_enc_dec.
  - apply reverse_involutive.
  - by apply Forall_reverse.
Qed.

(** Byte lists, piece by piece. *)
Ltac bys :=
  repeat first
    [ assumption | apply u8_byte | apply le_enc_bytes | apply be_enc_bytes
    | apply Forall_nil_2 | apply Forall_cons; split | apply Forall_app; split
    | apply Forall_take | apply Forall_drop | unfold is_byte; lia ].

#[export] Hint Resolve le_enc_bytes be_enc_bytes : bt_arith.
#[export] Hint Rewrite le_enc_length be_enc_length : bt_rw.

(** [n] bytes. *)
Definition sized (n : Z) (v : list Z) : Prop := zlen v = n /\ bytes v.

Lemma split_sized (l : list Z) a b : bytes l -> zlen l = a + b -> 0 <= a -> 0 <= b ->
  exists x y, l = x ++ y /\ sized a x /\ sized b y.
Proof.
  intros Hb Hl Ha Hbb. exists (take (Z.to_nat a) l), (drop (Z.to_nat a) l).
  split; [by rewrite take_drop|]. split; (split; [zlist|bys]).
Qed.

Lemma length_one (l : list Z) : zlen l = 1 -> exists x, l = [x].
Proof. destruct l as [|x [|y l]]; simpl; [lia|by exists x|lia]. Qed.

(** Bytes of a known width are the little-endian bytes of a number. *)
Lemma sized_le n (l : list Z) : sized (Z.of_nat n) l -> l = le_enc n (le_dec l) /\ 0 <= le_dec l < 2 ^ (8 * Z.of_nat n).
Proof.
  intros [Hl Hb]. assert (length l = n) as <- by lia. rewrite le_enc_dec by done. split; [done|by apply le_dec_bound].
Qed.

Lemma sized_num n (l : list Z) : sized (Z.of_nat n) l -> exists v, l = le_enc n v /\ 0 <= v < 2 ^ (8 * Z.of_nat n).
Proof. intros H. destruct (sized_le n l H). by exists (le_dec l). Qed.

(** ** Memory lemmas *)

Lemma ld_spec {A} (m : list A) i : 0 <= i < zlen m ->
  exists b, ld m i = Ret b /\ m !! Z.to_nat i = Some b.
Proof.
  intros Hi. unfold ld. rewrite (proj2 (Z.leb_le 0 i)) by lia.
  destruct (lookup_lt_is_Some_2 m (Z.to_nat i)) as [b Hb]; [lia|].
  rewrite Hb. eauto.
Qed.

Lemma ld_lookup {A} (m : list A) i b : 0 <= i -> m !! Z.to_nat i = Some b -> ld m i = Ret b.
Proof. intros Hi Hm. unfold ld. rewrite (proj2 (Z.leb_le 0 i)) by lia. by rewrite Hm. Qed.

Lemma ld_byte m i b : bytes m -> ld m i = Ret b -> is_byte b.
Proof.
  intros Hm. unfold ld. destruct (0 <=? i); [|done].
  destruct (m !! Z.to_nat i) eqn:E; [|done]. intros [= <-].
  by eapply Forall_lookup_1.
Qed.

Lemma ld_app_l {A} (a b : list A) i : i < zlen a -> ld (a ++ b) i = ld a i.
Proof.
  intros Hi. unfold ld. destruct (Z.leb_spec 0 i); [|done].
  by rewrite lookup_app_l by lia.
Qed.

Lemma ld_app_r {A} (a b : list A) i : zlen a <= i -> ld (a ++ b) i = ld b (i - zlen a).
Proof.
  intros Hi. unfold ld. rewrite (proj2 (Z.leb_le 0 i)), (proj2 (Z.leb_le 0 (i - zlen a))) by lia.
  rewrite lookup_app_r by lia. by replace (Z.to_nat i - length a)%nat with (Z.to_nat (i - zlen a)) by lia.
Qed.

Lemma ld_cons_0 {A} (b : A) m : ld (b :: m) 0 = Ret b.
Proof. done. Qed.
Lemma ld_cons_S {A} (b : A) m i : 0 < i -> ld (b :: m) i = ld m (i - 1).
Proof.
  intros Hi. unfold ld. rewrite (proj2 (Z.leb_le 0 i)), (proj2 (Z.leb_le 0 (i - 1))) by lia.
  by replace (Z.to_nat i) with (S (Z.to_nat (i - 1))) by lia.
Qed.

Lemma ld_drop {A} (m : list A) i j : 0 <= i -> 0 <= j -> ld (drop (Z.to_nat i) m) j = ld m (i + j).
Proof.
  intros Hi Hj. unfold ld. rewrite (proj2 (Z.leb_le 0 j)), (proj2 (Z.leb_le 0 (i + j))) by lia.
  rewrite lookup_drop. by replace (Z.to_nat i + Z.to_nat j)%nat with (Z.to_nat (i + j)) by lia.
Qed.

Lemma ldn_spec {A} (m : list A) i n : 0 <= i -> 0 <= n -> i + n <= zlen m ->
  ldn m i n = Ret (take (Z.to_nat n) (drop (Z.to_nat i) m)).
Proof. intros. unfold ldn. by rewrite !(proj2 (Z.leb_le _ _)) by lia. Qed.

Lemma ldn_whole {A} (l : list A) : ldn l 0 (zlen l) = Ret l.
Proof.
  unfold ldn. rewrite (proj2 (Z.leb_le 0 (zlen l))), (proj2 (Z.leb_le (0 + zlen l) _)) by lia. cbn [Z.leb andb].
  change (Z.to_nat 0) with 0%nat. by rewrite drop_0, Nat2Z.id, firstn_all.
Qed.

Lemma stn_spec {A} (m : list A) i bs : 0 <= i -> i + zlen bs <= zlen m ->
  stn m i bs = Ret (splice m i bs).
Proof. intros. unfold stn. by rewrite !(proj2 (Z.leb_le _ _)) by lia. Qed.

Lemma splice_length {A} (m : list A) i bs : 0 <= i -> i + zlen bs <= zlen m ->
  length (splice m i bs) = length m.
Proof. intros. zlist. Qed.

Lemma splice_nil {A} (m : list A) i : splice m i [] = m.
Proof. unfold splice. simpl. rewrite Nat.add_0_r. apply take_drop. Qed.

Lemma splice_splice {A} (m : list A) i a b : 0 <= i -> i + zlen a + zlen b <= zlen m ->
  splice (splice m i a) (i + zlen a) b = splice m i (a ++ b).
Proof.
  intros Hi Hl. unfold splice.
  replace (Z.to_nat (i + zlen a)) with (length (take (Z.to_nat i) m ++ a))%nat by zlist.
  rewrite (app_assoc (take _ _) a), take_app_length.
  rewrite drop_app_ge by lia.
  rewrite drop_drop, <- !app_assoc, length_app. do 4 f_equal. zlist.
Qed.

Lemma splice_bytes m i bs : bytes m -> bytes bs -> bytes (splice m i bs).
Proof.
  intros Hm Hb. unfold splice. rewrite !Forall_app.
  split; [by apply Forall_take|]. split; [done|by apply Forall_drop].
Qed.

Lemma splice_take {A} (m : list A) i bs : 0 <= i -> i + zlen bs <= zlen m ->
  take (Z.to_nat (i + zlen bs)) (splice m i bs) = take (Z.to_nat i) m ++ bs.
Proof.
  intros Hi Hl. unfold splice. rewrite app_assoc.
  replace (Z.to_nat (i + zlen bs)) with (length (take (Z.to_nat i) m ++ bs)) by zlist.
  apply take_app_length.
Qed.

Lemma ld_mid {A} (pre bs post : list A) k : 0 <= k < zlen bs ->
  ld (pre ++ bs ++ post) (zlen pre + k) = ld bs k.
Proof.
  intros Hk. rewrite ld_app_r by lia. replace (zlen pre + k - zlen pre) with k by lia.
  by rewrite ld_app_l by lia.
Qed.

Lemma ld_loop_mid {A} (mid : list A) : forall pre post,
  ld_loop (pre ++ mid ++ post) (zlen pre) (length mid) = Ret mid.
Proof.
  induction mid as [|b mid IH]; intros pre post; simpl; [done|].
  rewrite ld_app_r by lia. rewrite Z.sub_diag. cbn [ld Z.leb Z.to_nat lookup list_lookup obind].
  specialize (IH (pre ++ [b]) post). rewrite <- app_assoc in IH. simpl in IH.
  replace (zlen (pre ++ [b])) with (zlen pre + 1) in IH by (rewrite length_app; simpl; lia).
  change (ld (b :: mid ++ post) 0) with (Ret b). cbn [obind]. by rewrite IH.
Qed.

Lemma mem_split {A} (m : list A) i n : 0 <= i -> 0 <= n -> i + n <= zlen m ->
  exists pre mid post, m = pre ++ mid ++ post /\ zlen pre = i /\ zlen mid = n.
Proof.
  intros. exists (take (Z.to_nat i) m), (take (Z.to_nat n) (drop (Z.to_nat i) m)),
    (drop (Z.to_nat n) (drop (Z.to_nat i) m)).
  rewrite (take_drop (Z.to_nat n)), take_drop. split; [done|]. zlist.
Qed.

Lemma splice_mid {A} (pre mid post bs : list A) : length bs = length mid ->
  splice (pre ++ mid ++ post) (zlen pre) bs = pre ++ bs ++ post.
Proof.
  intros Hl. unfold splice. rewrite Nat2Z.id, take_app_length.
  do 2 f_equal. rewrite drop_app_ge by lia.
  replace (length pre + length bs - length pre)%nat with (length mid) by lia.
  apply drop_app_length.
Qed.

Lemma st1_middle {A} (l : list A) x r y : st1 (l ++ x :: r) (zlen l) y = Ret (l ++ y :: r).
Proof. unfold st1. rewrite stn_spec by zlist. f_equal. exact (splice_mid l [x] r [y] eq_refl). Qed.

Lemma st1_insert {A} (m : list A) i x : 0 <= i < zlen m -> st1 m i x = Ret (<[Z.to_nat i := x]> m).
Proof.
  intros Hi. destruct (lookup_lt_is_Some_2 m (Z.to_nat i)) as [y Hy]; [lia|].
  pose proof (take_drop_middle m (Z.to_nat i) y Hy) as E. rewrite <- E at 1.
  assert (i = zlen (take (Z.to_nat i) m)) as Ei by (rewrite length_take; lia). rewrite Ei at 3. rewrite st1_middle.
  f_equal. symmetry. apply insert_take_drop. lia.
Qed.

Lemma ld_middle {A} (l : list A) x r : ld (l ++ x :: r) (zlen l) = Ret x.
Proof. rewrite ld_app_r by lia. by rewrite Z.sub_diag. Qed.

Lemma ldn_mid {A} (pre mid post : list A) :
  ldn (pre ++ mid ++ post) (zlen pre) (zlen mid) = Ret mid.
Proof.
  rewrite ldn_spec by (rewrite ?length_app; lia).
  by rewrite !Nat2Z.id, drop_app_length, take_app_length.
Qed.

Lemma ld_loop_ldn {A} (m : list A) i n : 0 <= i -> i + Z.of_nat n <= zlen m ->
  ld_loop m i n = Ret (take n (drop (Z.to_nat i) m)).
Proof.
  intros Hi Hn. destruct (mem_split m i (Z.of_nat n)) as (pre & mid & post & -> & <- & Hm); [lia..|].
  replace n with (length mid) by lia. rewrite ld_loop_mid.
  by rewrite Nat2Z.id, drop_app_length, take_app_length.
Qed.

Lemma mjoin_cons {A B} (f : A -> list B) x l : mjoin (f <$> x :: l) = f x ++ mjoin (f <$> l).
Proof. done. Qed.

Lemma table_length {A B} (f : A -> list B) (es : list A) k :
  (forall e, e ∈ es -> length (f e) = k) -> length (mjoin (f <$> es)) = (length es * k)%nat.
Proof.
  induction es as [|x l IH]; intros H; [done|]. rewrite mjoin_cons, length_app.
  rewrite IH by (intros; apply H; by right). rewrite H by left. done.
Qed.

(** Row [i] of a table of [k]-byte rows. *)
Lemma table_row {A B} (f : A -> list B) (es : list A) i e k :
  (forall e, e ∈ es -> length (f e) = k) -> es !! i = Some e ->
  exists pre post, mjoin (f <$> es) = pre ++ f e ++ post /\ length pre = (i * k)%nat.
Proof.
  intros Hk Hi. exists (mjoin (f <$> take i es)), (mjoin (f <$> drop (S i) es)).
  pose proof (lookup_lt_Some _ _ _ Hi) as Hlt. split.
  - rewrite <- (take_drop_middle es i e Hi) at 1. rewrite fmap_app, fmap_cons.
    by rewrite join_app.
  - rewrite (table_length f _ k); [rewrite length_take; f_equal; lia|].
    intros x Hx. apply Hk. apply list_elem_of_lookup in Hx as [j Hj].
    apply lookup_take_Some in Hj as [Hj _]. by eapply list_elem_of_lookup_2.
Qed.

Lemma ld_at {A} (pre mid post : list A) i k b : i = zlen pre + Z.of_nat k ->
  mid !! k = Some b -> ld (pre ++ mid ++ post) i = Ret b.
Proof.
  intros -> Hk. pose proof (lookup_lt_Some _ _ _ Hk).
  rewrite ld_mid by lia. apply ld_lookup; [lia|]. by rewrite Nat2Z.id.
Qed.

(** ** Linked segments *)

Section lseg.
  Context {V : Type} (nx : V -> option loc).
  Implicit Types (h : gmap loc V) (l : list loc).

Lemma lseg_app h p q a b :
  lseg nx h p (a ++ b) q <-> exists m, lseg nx h p a m /\ lseg nx h m b q.
Proof.
  revert p. induction a as [|n a IH]; intros p; simpl; [naive_solver|].
  setoid_rewrite IH. naive_solver.
Qed.

Lemma lseg_insert h p q l n v : n ∉ l -> lseg nx h p l q -> lseg nx (<[n := v]> h) p l q.
Proof.
  revert p. induction l as [|x l IH]; intros p; simpl; [done|].
  rewrite not_elem_of_cons. intros [Hne Hn] (-> & w & Hw & Hl). split; [done|]. exists w.
  by rewrite lookup_insert_ne by done; auto.
Qed.

Lemma lseg_lookup h p q l n : lseg nx h p l q -> n ∈ l -> exists v, h !! n = Some v.
Proof.
  revert p. induction l as [|x l IH]; intros p; simpl; [by rewrite elem_of_nil|].
  rewrite elem_of_cons. intros (_ & w & Hw & Hl) [->|Hn]; eauto.
Qed.

Lemma lseg_size h p q l : NoDup l -> lseg nx h p l q -> (length l <= size h)%nat.
Proof.
  intros Hnd Hl. rewrite <- size_dom, <- (size_list_to_set (C := gset loc) l) by done.
  apply subseteq_size. intros n. rewrite elem_of_list_to_set, elem_of_dom.
  intros Hn. by eapply lseg_lookup.
Qed.

Lemma lseg_head h p l : lseg nx h p l None -> p = head l.
Proof. destruct l; simpl; naive_solver. Qed.
End lseg.

Lemma filter_keep {A} (P : A -> Prop) `{forall x, Decision (P x)} (l : list A) :
  (forall x, x ∈ l -> P x) -> filter P l = l.
Proof.
  induction l as [|x l IH]; intros Hl; [done|]. rewrite filter_cons_True by (apply Hl; left).
  by rewrite IH by (intros; apply Hl; by right).
Qed.

(** ** Tables: lists of records with distinct keys, as finite maps *)

Section keyed.
  Context {K A : Type} `{Countable K} (key : A -> K).
  Implicit Types l : list A.

Definition keyed l : gmap K A := list_to_map ((fun d => (key d, d)) <$> l).

Lemma keyed_fst l : ((fun d => (key d, d)) <$> l).*1 = key <$> l.
Proof. rewrite <- list_fmap_compose. done. Qed.

Lemma keyed_middle l1 d l2 : NoDup (key <$> l1 ++ d :: l2) ->
  keyed (l1 ++ d :: l2) = <[key d := d]> (keyed (l1 ++ l2)).
Proof.
  intros Hnd. unfold keyed. transitivity (list_to_map (M := gmap K A) ((fun d => (key d, d)) <$> d :: l1 ++ l2)).
  - apply list_to_map_proper; [by rewrite keyed_fst|]. apply fmap_Permutation. by rewrite Permutation_middle.
  - done.
Qed.

Lemma keyed_lookup_None l a : keyed l !! a = None <-> (a ∉ key <$> l).
Proof. unfold keyed. by rewrite <- (keyed_fst l), not_elem_of_list_to_map. Qed.

Lemma keyed_lookup_middle l1 d l2 : NoDup (key <$> l1 ++ d :: l2) -> keyed (l1 ++ d :: l2) !! key d = Some d.
Proof. intros. rewrite keyed_middle by done. apply lookup_insert_eq. Qed.

Lemma keyed_replace l1 d d' l2 : NoDup (key <$> l1 ++ d :: l2) -> key d' = key d ->
  keyed (l1 ++ d' :: l2) = <[key d := d']> (keyed (l1 ++ d :: l2)).
Proof.
  intros Hnd Ha. rewrite (keyed_middle l1 d), insert_insert_eq by done. rewrite <- Ha. apply keyed_middle.
  rewrite fmap_app, fmap_cons in *. by rewrite Ha.
Qed.

Lemma keyed_snoc l d : NoDup (key <$> l ++ [d]) -> keyed (l ++ [d]) = <[key d := d]> (keyed l).
Proof. intros. rewrite keyed_middle by done. by rewrite app_nil_r. Qed.

Lemma keyed_remove l1 d l2 : NoDup (key <$> l1 ++ d :: l2) -> keyed (l1 ++ l2) = delete (key d) (keyed (l1 ++ d :: l2)).
Proof.
  intros Hnd. rewrite keyed_middle, delete_insert_id; [done| |done]. apply keyed_lookup_None.
  rewrite fmap_app, fmap_cons in *. apply NoDup_app in Hnd as (_ & Hd & Hnd). apply NoDup_cons in Hnd as [Hn _].
  intros [Hi|Hi]%elem_of_app; [|done]. by apply (Hd _ Hi); left.
Qed.

Lemma keyed_size l : NoDup (key <$> l) -> size (keyed l) = length l.
Proof. intros. unfold keyed. rewrite map_size_list_to_map; [by rewrite length_fmap|]. by rewrite keyed_fst. Qed.
End keyed.

Lemma hst_spec {V} (h : gmap loc V) l v w : h !! l = Some w -> hst h l v = Ret (<[l := v]> h).
Proof. intros H. unfold hst. by rewrite H. Qed.
Lemma hld_spec {V} (h : gmap loc V) l v : h !! l = Some v -> hld h l = Ret v.
Proof. intros H. unfold hld. by rewrite H. Qed.

(** Resolve the next load of a byte at a known place. *)
Ltac load k := erewrite (ld_at _ _ _ _ k); [|lia|reflexivity]; cbn [obind].
