(* ===== verification/Endian.v ===== *)
(** * Byte-order helpers: core/buffer/endian.c

    A pointer argument [p] is an object and an offset into it.  The
    functions are shown to be the reference codecs of [Prelude]. *)

From Stdlib Require Import ZArith Lia.
From stdpp Require Import base list.
From S2P Require Import Prelude.

Module Endian.

Definition bt_read_le16 (p : list Z) (o : Z) : outcome Z :=
  let? p0 := ld p o in
  let? p1 := ld p (o + 1) in
  Ret (u16 (Z.lor p0 (Z.shiftl p1 8))).

Definition bt_read_le24 (p : list Z) (o : Z) : outcome Z :=
  let? p0 := ld p o in
  let? p1 := ld p (o + 1) in
  let? p2 := ld p (o + 2) in
  Ret (Z.lor (Z.lor p0 (u32 (Z.shiftl p1 8))) (u32 (Z.shiftl p2 16))).

Definition bt_read_le32 (p : list Z) (o : Z) : outcome Z :=
  let? p0 := ld p o in
  let? p1 := ld p (o + 1) in
  let? p2 := ld p (o + 2) in
  let? p3 := ld p (o + 3) in
  Ret (Z.lor (Z.lor (Z.lor p0 (u32 (Z.shiftl p1 8))) (u32 (Z.shiftl p2 16)))
             (u32 (Z.shiftl p3 24))).

Definition bt_read_le64 (p : list Z) (o : Z) : outcome Z :=
  let? lo := bt_read_le32 p o in
  let? hi := bt_read_le32 p (o + 4) in
  Ret (Z.lor lo (u64 (Z.shiftl hi 32))).

Definition bt_read_be16 (p : list Z) (o : Z) : outcome Z :=
  let? p0 := ld p o in
  let? p1 := ld p (o + 1) in
  Ret (u16 (Z.lor (Z.shiftl p0 8) p1)).

Definition bt_read_be24 (p : list Z) (o : Z) : outcome Z :=
  let? p0 := ld p o in
  let? p1 := ld p (o + 1) in
  let? p2 := ld p (o + 2) in
  Ret (Z.lor (Z.lor (u32 (Z.shiftl p0 16)) (u32 (Z.shiftl p1 8))) p2).

Definition bt_read_be32 (p : list Z) (o : Z) : outcome Z :=
  let? p0 := ld p o in
  let? p1 := ld p (o + 1) in
  let? p2 := ld p (o + 2) in
  let? p3 := ld p (o + 3) in
  Ret (Z.lor (Z.lor (Z.lor (u32 (Z.shiftl p0 24)) (u32 (Z.shiftl p1 16)))
                    (u32 (Z.shiftl p2 8))) p3).

Definition bt_read_be64 (p : list Z) (o : Z) : outcome Z :=
  let? hi := bt_read_be32 p o in
  let? lo := bt_read_be32 p (o + 4) in
  Ret (Z.lor (u64 (Z.shiftl hi 32)) lo).

Definition bt_write_le16 (p : list Z) (o v : Z) : outcome (list Z) :=
  let? p := st1 p o (u8 (Z.land v 255)) in
  st1 p (o + 1) (u8 (Z.land (Z.shiftr v 8) 255)).

Definition bt_write_le24 (p : list Z) (o v : Z) : outcome (list Z) :=
  let? p := st1 p o (u8 (Z.land v 255)) in
  let? p := st1 p (o + 1) (u8 (Z.land (Z.shiftr v 8) 255)) in
  st1 p (o + 2) (u8 (Z.land (Z.shiftr v 16) 255)).

Definition bt_write_le32 (p : list Z) (o v : Z) : outcome (list Z) :=
  let? p := st1 p o (u8 (Z.land v 255)) in
  let? p := st1 p (o + 1) (u8 (Z.land (Z.shiftr v 8) 255)) in
  let? p := st1 p (o + 2) (u8 (Z.land (Z.shiftr v 16) 255)) in
  st1 p (o + 3) (u8 (Z.land (Z.shiftr v 24) 255)).

Definition bt_write_le64 (p : list Z) (o v : Z) : outcome (list Z) :=
  let? p := bt_write_le32 p o (u32 (Z.land v 4294967295)) in
  bt_write_le32 p (o + 4) (u32 (Z.shiftr v 32)).

Definition bt_write_be16 (p : list Z) (o v : Z) : outcome (list Z) :=
  let? p := st1 p o (u8 (Z.land (Z.shiftr v 8) 255)) in
  st1 p (o + 1) (u8 (Z.land v 255)).

Definition bt_write_be24 (p : list Z) (o v : Z) : outcome (list Z) :=
  let? p := st1 p o (u8 (Z.land (Z.shiftr v 16) 255)) in
  let? p := st1 p (o + 1) (u8 (Z.land (Z.shiftr v 8) 255)) in
  st1 p (o + 2) (u8 (Z.land v 255)).

Definition bt_write_be32 (p : list Z) (o v : Z) : outcome (list Z) :=
  let? p := st1 p o (u8 (Z.land (Z.shiftr v 24) 255)) in
  let? p := st1 p (o + 1) (u8 (Z.land (Z.shiftr v 16) 255)) in
  let? p := st1 p (o + 2) (u8 (Z.land (Z.shiftr v 8) 255)) in
  st1 p (o + 3) (u8 (Z.land v 255)).

Definition bt_write_be64 (p : list Z) (o v : Z) : outcome (list Z) :=
  let? p := bt_write_be32 p o (u32 (Z.shiftr v 32)) in
  bt_write_be32 p (o + 4) (u32 (Z.land v 4294967295)).

(** ** Specification

    [reads_as n rd dec]: reading [n] in-bounds bytes yields their value under
    [dec] and touches nothing else; [writes_as n wr enc]: writing puts exactly
    the [n] bytes [enc v] at the offset. *)

Definition reads_as (n : nat) (rd : list Z -> Z -> outcome Z) (dec : list Z -> Z) : Prop :=
  forall pre mid post, length mid = n -> bytes mid ->
  rd (pre ++ mid ++ post) (zlen pre) = Ret (dec mid).

Definition writes_as (n : nat) (wr : list Z -> Z -> Z -> outcome (list Z))
    (enc : Z -> list Z) : Prop :=
  forall m o v, 0 <= o -> o + Z.of_nat n <= zlen m -> wr m o v = Ret (splice m o (enc v)).

Lemma land_ffffffff v : Z.land v 4294967295 = v mod 2 ^ 32.
Proof. change 4294967295 with (Z.ones 32). by rewrite Z.land_ones by lia. Qed.

Lemma st1_app (m : list Z) o bs b i : 0 <= o -> i = o + zlen bs -> i + 1 <= zlen m ->
  st1 (splice m o bs) i b = Ret (splice m o (bs ++ [b])).
Proof.
  intros Ho -> Hm. unfold st1. rewrite stn_spec; simpl length; try lia.
  - by rewrite splice_splice by (simpl; lia).
  - rewrite splice_length; lia.
Qed.

Lemma st1_first (m : list Z) o b : 0 <= o -> o + 1 <= zlen m -> st1 m o b = Ret (splice m o [b]).
Proof. intros. unfold st1. by rewrite stn_spec by (simpl; lia). Qed.

(** Split the bytes read into variables with their bounds. *)
Ltac read_bytes mid Hl Hb :=
  repeat (destruct mid as [|? mid]; [discriminate Hl|]);
  destruct mid as [|? mid]; [clear Hl|discriminate Hl];
  repeat match type of Hb with
  | Forall _ (_ :: _) => let H := fresh "Hb" in
      apply Forall_cons in Hb as [H Hb]; unfold is_byte in H
  end.

Ltac bits :=
  unfold u8, u16, u32, u64, be_dec, be_enc; simpl reverse; simpl le_dec;
  rewrite ?Z.shiftl_mul_pow2, ?Z.shiftr_div_pow2, ?land_255, ?land_ffffffff by lia.

Lemma u_shiftl x n k : 0 <= x < 256 -> 0 <= n -> n + 8 <= k ->
  Z.shiftl x n mod 2 ^ k = Z.shiftl x n.
Proof.
  intros Hx Hn Hk. rewrite Z.shiftl_mul_pow2 by lia. apply Z.mod_small.
  replace k with (n + (8 + (k - n - 8))) by lia.
  rewrite !Z.pow_add_r by lia. change (2 ^ 8) with 256.
  pose proof (Z.pow_pos_nonneg 2 n). pose proof (Z.pow_pos_nonneg 2 (k - n - 8)). nia.
Qed.

(** The byte [b] above an [n]-bit value. *)
Lemma lor_byte a b n : 0 <= n -> 0 <= a < 2 ^ n ->
  Z.lor a (Z.shiftl b n) = a + 2 ^ n * b.
Proof. intros. rewrite lor_shiftl by lia. lia. Qed.

Ltac lors :=
  repeat match goal with
  | |- context [Z.lor ?a (Z.shiftl ?b ?n)] =>
      lazymatch a with context [Z.lor _ _] => fail | _ => rewrite (lor_byte a b n) by lia end
  end.

Lemma bt_read_le16_spec : reads_as 2 bt_read_le16 le_dec.
Proof.
  intros pre mid post Hl Hb. read_bytes mid Hl Hb. unfold bt_read_le16.
  load 0%nat. load 1%nat.
  lors. simpl le_dec. rewrite u16_small by lia. apply (f_equal Ret). lia.
Qed.

Lemma bt_read_le24_spec : reads_as 3 bt_read_le24 le_dec.
Proof.
  intros pre mid post Hl Hb. read_bytes mid Hl Hb. unfold bt_read_le24.
  load 0%nat. load 1%nat. load 2%nat.
  unfold u32. rewrite !u_shiftl by lia. lors.
  simpl le_dec. apply (f_equal Ret). lia.
Qed.

Lemma bt_read_le32_spec : reads_as 4 bt_read_le32 le_dec.
Proof.
  intros pre mid post Hl Hb. read_bytes mid Hl Hb. unfold bt_read_le32.
  load 0%nat. load 1%nat. load 2%nat. load 3%nat.
  unfold u32. rewrite !u_shiftl by lia. lors.
  simpl le_dec. apply (f_equal Ret). lia.
Qed.

Lemma bt_read_le64_spec : reads_as 8 bt_read_le64 le_dec.
Proof.
  intros pre mid post Hl Hb. rewrite <- (take_drop 4 mid) in Hb |- *.
  apply Forall_app in Hb as [Hlo Hhi].
  set (lo := take 4 mid) in *. set (hi := drop 4 mid) in *.
  assert (length lo = 4%nat /\ length hi = 4%nat) as [Ll Lh] by (subst lo hi; zlist).
  clearbody lo hi. clear mid Hl. unfold bt_read_le64.
  rewrite <- app_assoc, bt_read_le32_spec by done. cbn [obind].
  replace (zlen pre + 4) with (zlen (pre ++ lo)) by zlist.
  rewrite app_assoc, bt_read_le32_spec by done. cbn [obind].
  pose proof (le_dec_bound lo Hlo). pose proof (le_dec_bound hi Hhi).
  rewrite Ll in *. rewrite Lh in *.
  rewrite u64_small by (rewrite Z.shiftl_mul_pow2; lia).
  rewrite lor_byte by lia. by rewrite le_dec_app, Ll.
Qed.

Lemma bt_read_be16_spec : reads_as 2 bt_read_be16 be_dec.
Proof.
  intros pre mid post Hl Hb. read_bytes mid Hl Hb. unfold bt_read_be16.
  load 0%nat. load 1%nat.
  rewrite Z.lor_comm, lor_byte by lia. unfold be_dec. simpl.
  rewrite u16_small by lia. apply (f_equal Ret). lia.
Qed.

Lemma bt_read_be24_spec : reads_as 3 bt_read_be24 be_dec.
Proof.
  intros pre mid post Hl Hb. read_bytes mid Hl Hb. unfold bt_read_be24.
  load 0%nat. load 1%nat. load 2%nat.
  unfold u32. rewrite !u_shiftl by lia.
  rewrite (Z.lor_comm (Z.lor _ _)), (Z.lor_comm (Z.shiftl _ 16)), Z.lor_assoc. lors.
  unfold be_dec. simpl. apply (f_equal Ret). lia.
Qed.

Lemma bt_read_be32_spec : reads_as 4 bt_read_be32 be_dec.
Proof.
  intros pre mid post Hl Hb. read_bytes mid Hl Hb. unfold bt_read_be32.
  load 0%nat. load 1%nat. load 2%nat. load 3%nat.
  unfold u32. rewrite !u_shiftl by lia.
  rewrite (Z.lor_comm (Z.lor _ _)), (Z.lor_comm (Z.lor _ _)), (Z.lor_comm (Z.shiftl _ 24)).
  rewrite !Z.lor_assoc. lors.
  unfold be_dec. simpl. apply (f_equal Ret). lia.
Qed.

Lemma bt_read_be64_spec : reads_as 8 bt_read_be64 be_dec.
Proof.
  intros pre mid post Hl Hb. rewrite <- (take_drop 4 mid) in Hb |- *.
  apply Forall_app in Hb as [Hhi Hlo].
  set (hi := take 4 mid) in *. set (lo := drop 4 mid) in *.
  assert (length lo = 4%nat /\ length hi = 4%nat) as [Ll Lh] by (subst lo hi; zlist).
  clearbody lo hi. clear mid Hl. unfold bt_read_be64.
  rewrite <- app_assoc, bt_read_be32_spec by done. cbn [obind].
  replace (zlen pre + 4) with (zlen (pre ++ hi)) by zlist.
  rewrite app_assoc, bt_read_be32_spec by done. cbn [obind].
  pose proof (be_dec_bound lo Hlo). pose proof (be_dec_bound hi Hhi).
  rewrite Ll in *. rewrite Lh in *.
  rewrite u64_small by (rewrite Z.shiftl_mul_pow2; lia).
  rewrite Z.lor_comm, lor_byte by lia. unfold be_dec.
  rewrite reverse_app, le_dec_app, length_reverse, Ll. done.
Qed.

(** *** Writers *)

Ltac store :=
  repeat first [ rewrite st1_first by lia; cbn [obind]
               | erewrite st1_app by (simpl; lia); cbn [obind app] ].

Lemma byte_of v k : 0 <= k -> u8 (Z.land (Z.shiftr v k) 255) = (v / 2 ^ k) mod 256.
Proof.
  intros. unfold u8. rewrite land_255, Z.shiftr_div_pow2 by done.
  apply Z.mod_mod. lia.
Qed.
Lemma byte_of_0 v : u8 (Z.land v 255) = v mod 256.
Proof. unfold u8. rewrite land_255. apply Z.mod_mod. lia. Qed.

Ltac same_bytes :=
  cbn [le_enc]; rewrite ?byte_of, ?byte_of_0 by lia; rewrite ?Z.div_div by lia; reflexivity.

Lemma bt_write_le16_spec : writes_as 2 bt_write_le16 (le_enc 2).
Proof. intros m o v Ho Hl. unfold bt_write_le16. store. same_bytes. Qed.
Lemma bt_write_le24_spec : writes_as 3 bt_write_le24 (le_enc 3).
Proof. intros m o v Ho Hl. unfold bt_write_le24. store. same_bytes. Qed.
Lemma bt_write_le32_spec : writes_as 4 bt_write_le32 (le_enc 4).
Proof. intros m o v Ho Hl. unfold bt_write_le32. store. same_bytes. Qed.
Lemma bt_write_be16_spec : writes_as 2 bt_write_be16 (be_enc 2).
Proof. intros m o v Ho Hl. unfold bt_write_be16. store. unfold be_enc. same_bytes. Qed.
Lemma bt_write_be24_spec : writes_as 3 bt_write_be24 (be_enc 3).
Proof. intros m o v Ho Hl. unfold bt_write_be24. store. unfold be_enc. same_bytes. Qed.
Lemma bt_write_be32_spec : writes_as 4 bt_write_be32 (be_enc 4).
Proof. intros m o v Ho Hl. unfold bt_write_be32. store. unfold be_enc. same_bytes. Qed.

Lemma bt_write_le64_spec : writes_as 8 bt_write_le64 (le_enc 8).
Proof.
  intros m o v Ho Hl. unfold bt_write_le64.
  rewrite bt_write_le32_spec by lia. cbn [obind].
  rewrite bt_write_le32_spec; [|lia|rewrite splice_length; rewrite ?le_enc_length; lia].
  replace (o + 4) with (o + zlen (le_enc 4 (u32 (Z.land v 4294967295)))) by (rewrite le_enc_length; lia).
  rewrite splice_splice by (rewrite ?le_enc_length; lia). f_equal. f_equal.
  unfold u32. rewrite land_ffffffff, !le_enc_mod, Z.shiftr_div_pow2 by lia.
  cbn [le_enc app]. rewrite !Z.div_div by lia. reflexivity.
Qed.

Lemma bt_write_be64_spec : writes_as 8 bt_write_be64 (be_enc 8).
Proof.
  intros m o v Ho Hl. unfold bt_write_be64.
  rewrite bt_write_be32_spec by lia. cbn [obind].
  rewrite bt_write_be32_spec; [|lia|rewrite splice_length; rewrite ?be_enc_length; lia].
  replace (o + 4) with (o + zlen (be_enc 4 (u32 (Z.shiftr v 32)))) by (rewrite be_enc_length; lia).
  rewrite splice_splice by (rewrite ?be_enc_length; lia). f_equal. f_equal.
  unfold be_enc. rewrite <- reverse_app. f_equal.
  unfold u32. rewrite land_ffffffff, !le_enc_mod, Z.shiftr_div_pow2 by lia.
  cbn [le_enc app]. rewrite !Z.div_div by lia. reflexivity.
Qed.

(** ** Round trips *)

(** What the writer stored at [o] in [m] the reader of the same width gets
    back from there, as the value modulo the width, and every byte outside the
    field keeps its value. *)
Definition field_roundtrip (n : nat) (rd : list Z -> Z -> outcome Z)
    (wr : list Z -> Z -> Z -> outcome (list Z)) : Prop :=
  forall m o v, 0 <= o -> o + Z.of_nat n <= zlen m ->
  exists m', wr m o v = Ret m' /\ zlen m' = zlen m /\
    rd m' o = Ret (v mod 2 ^ (8 * Z.of_nat n)) /\
    forall i, 0 <= i < o \/ o + Z.of_nat n <= i -> ld m' i = ld m i.

Lemma roundtrip_of n rd wr dec enc :
  reads_as n rd dec -> writes_as n wr enc ->
  (forall v, length (enc v) = n) -> (forall v, bytes (enc v)) ->
  (forall v, dec (enc v) = v mod 2 ^ (8 * Z.of_nat n)) ->
  field_roundtrip n rd wr.
Proof.
  intros Hr Hw Hlen Hby Hde m o v Ho Hm.
  exists (splice m o (enc v)). rewrite Hw by done.
  destruct (mem_split m o (Z.of_nat n)) as (pre & mid & post & -> & Hp & Hmid); [lia..|].
  rewrite <- Hp, splice_mid by (rewrite Hlen; lia).
  split; [done|]. split; [rewrite !length_app, Hlen; lia|]. split.
  { rewrite Hr by auto. by rewrite Hde. }
  intros i [Hi|Hi].
  - by rewrite !ld_app_l by lia.
  - rewrite !(ld_app_r pre) by lia. rewrite !(ld_app_r _ post) by (rewrite ?Hlen; lia).
    by rewrite Hlen, Hmid.
Qed.

(** Every multi-byte accessor is a faithful codec at its own width and
    byte order: for 16-, 24-, 32- and 64-bit fields, little- and big-endian,
    a write inside the object succeeds, touches exactly the bytes of the
    field, and the reader of the same name recovers the value truncated to
    the width.  Within the width nothing is lost. *)
Theorem endian_field_roundtrips :
  field_roundtrip 2 bt_read_le16 bt_write_le16 /\ field_roundtrip 3 bt_read_le24 bt_write_le24 /\
  field_roundtrip 4 bt_read_le32 bt_write_le32 /\ field_roundtrip 8 bt_read_le64 bt_write_le64 /\
  field_roundtrip 2 bt_read_be16 bt_write_be16 /\ field_roundtrip 3 bt_read_be24 bt_write_be24 /\
  field_roundtrip 4 bt_read_be32 bt_write_be32 /\ field_roundtrip 8 bt_read_be64 bt_write_be64.
Proof.
  repeat split; (eapply roundtrip_of;
    [ first [ exact bt_read_le16_spec | exact bt_read_le24_spec | exact bt_read_le32_spec
            | exact bt_read_le64_spec | exact bt_read_be16_spec | exact bt_read_be24_spec
            | exact bt_read_be32_spec | exact bt_read_be64_spec ]
    | first [ exact bt_write_le16_spec | exact bt_write_le24_spec | exact bt_write_le32_spec
            | exact bt_write_le64_spec | exact bt_write_be16_spec | exact bt_write_be24_spec
            | exact bt_write_be32_spec | exact bt_write_be64_spec ]
    | intros v; first [apply le_enc_length | apply be_enc_length]
    | intros v; first [apply le_enc_bytes | apply be_enc_bytes]
    | intros v; first [apply le_dec_enc | apply be_dec_enc] ]).
Qed.

End Endian.
