(* ===== verification/Buffer.v ===== *)
(** * Bounded readers and writers: core/buffer/buffer.c

    Every codec of the stack goes through these two cursors.  A pointer is
    the list of the bytes from it to the end of its object, so a cursor whose
    [len] or [cap] exceeds its object faults when it gets there.  [size_t]
    differences are plain subtractions: the invariants [reader_ok] and
    [writer_ok], which every operation keeps, say they never go below zero.

    [reads] and [writes] are the interface the codecs are proved against:
    a parser consumes exactly these bytes, a printer emits exactly these
    bytes or stops with an overflow having emitted a prefix. *)

From Stdlib Require Import ZArith Lia.
From stdpp Require Import base list.
From S2P Require Import Prelude Endian.

Module Buffer.
Import Endian.

(** ** Reader *)

Record bt_buf_reader : Type := {
  br_data : list Z;
  br_len : Z;
  br_pos : Z;
}.

Definition bt_buf_reader_init (data : list Z) (len : Z) : bt_buf_reader :=
  {| br_data := data; br_len := len; br_pos := 0 |}.

Definition bt_buf_reader_remaining (r : bt_buf_reader) : Z := br_len r - br_pos r.

Definition reader_check (n : Z) : M bt_buf_reader unit := fun r =>
  if n >? bt_buf_reader_remaining r then (Fail BT_ERR_BUFFER_UNDERFLOW, r) else (Ret tt, r).

(** [f (r->data + r->pos)] *)
Definition at_pos {A} (f : list Z -> Z -> outcome A) : M bt_buf_reader A :=
  fun r => (f (br_data r) (br_pos r), r).

(** [r->pos += n] *)
Definition radvance (n : Z) (r : bt_buf_reader) : bt_buf_reader :=
  {| br_data := br_data r; br_len := br_len r; br_pos := br_pos r + n |}.

Definition bt_buf_reader_read_u8 : M bt_buf_reader Z :=
  do! reader_check 1 in
  let! out := at_pos ld in
  do! modify (radvance 1) in
  ret out.

Definition bt_buf_reader_read_le16 : M bt_buf_reader Z :=
  do! reader_check 2 in
  let! out := at_pos bt_read_le16 in
  do! modify (radvance 2) in
  ret out.

Definition bt_buf_reader_read_le24 : M bt_buf_reader Z :=
  do! reader_check 3 in
  let! out := at_pos bt_read_le24 in
  do! modify (radvance 3) in
  ret out.

Definition bt_buf_reader_read_le32 : M bt_buf_reader Z :=
  do! reader_check 4 in
  let! out := at_pos bt_read_le32 in
  do! modify (radvance 4) in
  ret out.

Definition bt_buf_reader_read_le64 : M bt_buf_reader Z :=
  do! reader_check 8 in
  let! out := at_pos bt_read_le64 in
  do! modify (radvance 8) in
  ret out.

Definition bt_buf_reader_read_be16 : M bt_buf_reader Z :=
  do! reader_check 2 in
  let! out := at_pos bt_read_be16 in
  do! modify (radvance 2) in
  ret out.

Definition bt_buf_reader_read_be24 : M bt_buf_reader Z :=
  do! reader_check 3 in
  let! out := at_pos bt_read_be24 in
  do! modify (radvance 3) in
  ret out.

Definition bt_buf_reader_read_be32 : M bt_buf_reader Z :=
  do! reader_check 4 in
  let! out := at_pos bt_read_be32 in
  do! modify (radvance 4) in
  ret out.

Definition bt_buf_reader_read_be64 : M bt_buf_reader Z :=
  do! reader_check 8 in
  let! out := at_pos bt_read_be64 in
  do! modify (radvance 8) in
  ret out.

(** The [n] bytes copied to [out]. *)
Definition bt_buf_reader_read_bytes (n : Z) : M bt_buf_reader (list Z) :=
  do! reader_check n in
  let! out := (if n >? 0 then at_pos (fun p o => ldn p o n) else ret []) in
  do! modify (radvance n) in
  ret out.

(** The pointer returned carries the extent that was asked for, so a caller
    that reads past the [n] bytes it peeked faults. *)
Definition bt_buf_reader_peek (n : Z) : M bt_buf_reader (option (list Z)) := fun r =>
  match reader_check n r with
  | (Ret _, _) => ((let? p := ldn (br_data r) (br_pos r) n in Ret (Some p)), r)
  | _ => (Ret None, r)
  end.

Definition bt_buf_reader_skip (n : Z) : M bt_buf_reader unit :=
  do! reader_check n in
  modify (radvance n).

(** ** Writer *)

Record bt_buf_writer : Type := {
  bw_data : list Z;
  bw_cap : Z;
  bw_pos : Z;
}.

Definition bt_buf_writer_init (data : list Z) (cap : Z) : bt_buf_writer :=
  {| bw_data := data; bw_cap := cap; bw_pos := 0 |}.

Definition bt_buf_writer_len (w : bt_buf_writer) : Z := bw_pos w.

Definition bt_buf_writer_remaining (w : bt_buf_writer) : Z := bw_cap w - bw_pos w.

Definition writer_check (n : Z) : M bt_buf_writer unit := fun w =>
  if n >? bt_buf_writer_remaining w then (Fail BT_ERR_BUFFER_OVERFLOW, w) else (Ret tt, w).

(** [f (w->data + w->pos, ...)] for an [f] that stores there. *)
Definition put_at (f : list Z -> Z -> outcome (list Z)) : M bt_buf_writer unit := fun w =>
  match f (bw_data w) (bw_pos w) with
  | Ret d => (Ret tt, {| bw_data := d; bw_cap := bw_cap w; bw_pos := bw_pos w |})
  | Fail e => (Fail e, w)
  | Fault => (Fault, w)
  end.

(** [w->pos += n] *)
Definition wadvance (n : Z) (w : bt_buf_writer) : bt_buf_writer :=
  {| bw_data := bw_data w; bw_cap := bw_cap w; bw_pos := bw_pos w + n |}.

Definition bt_buf_writer_write_u8 (value : Z) : M bt_buf_writer unit :=
  do! writer_check 1 in
  do! put_at (fun p o => st1 p o (u8 value)) in
  modify (wadvance 1).

Definition bt_buf_writer_write_le16 (value : Z) : M bt_buf_writer unit :=
  do! writer_check 2 in
  do! put_at (fun p o => bt_write_le16 p o value) in
  modify (wadvance 2).

Definition bt_buf_writer_write_le24 (value : Z) : M bt_buf_writer unit :=
  do! writer_check 3 in
  do! put_at (fun p o => bt_write_le24 p o value) in
  modify (wadvance 3).

Definition bt_buf_writer_write_le32 (value : Z) : M bt_buf_writer unit :=
  do! writer_check 4 in
  do! put_at (fun p o => bt_write_le32 p o value) in
  modify (wadvance 4).

Definition bt_buf_writer_write_le64 (value : Z) : M bt_buf_writer unit :=
  do! writer_check 8 in
  do! put_at (fun p o => bt_write_le64 p o value) in
  modify (wadvance 8).

Definition bt_buf_writer_write_be16 (value : Z) : M bt_buf_writer unit :=
  do! writer_check 2 in
  do! put_at (fun p o => bt_write_be16 p o value) in
  modify (wadvance 2).

Definition bt_buf_writer_write_be24 (value : Z) : M bt_buf_writer unit :=
  do! writer_check 3 in
  do! put_at (fun p o => bt_write_be24 p o value) in
  modify (wadvance 3).

Definition bt_buf_writer_write_be32 (value : Z) : M bt_buf_writer unit :=
  do! writer_check 4 in
  do! put_at (fun p o => bt_write_be32 p o value) in
  modify (wadvance 4).

Definition bt_buf_writer_write_be64 (value : Z) : M bt_buf_writer unit :=
  do! writer_check 8 in
  do! put_at (fun p o => bt_write_be64 p o value) in
  modify (wadvance 8).

Definition bt_buf_writer_write_bytes (src : list Z) (n : Z) : M bt_buf_writer unit :=
  do! writer_check n in
  do! (if n >? 0 then put_at (fun p o => let? bs := ldn src 0 n in stn p o bs) else ret tt) in
  modify (wadvance n).

(** A parser run on a buffer of its own. *)
Definition parse {A} (data : list Z) (len : Z) (m : M bt_buf_reader A) : outcome A :=
  (m (bt_buf_reader_init data len)).1.

(** [while (next(&it, &entry) == OK)]: the entries and the status that ended
    the loop.  [n] bounds the iterations. *)
Fixpoint drain {S A} (next : M S A) (n : nat) (it : S) : list A * outcome A :=
  match n with
  | O => ([], Fault)
  | Datatypes.S n =>
      match next it with
      | (Ret a, it) => let '(l, o) := drain next n it in (a :: l, o)
      | (o, _) => ([], o)
      end
  end.

(** ** Reader invariant, view and specifications *)

Definition reader_ok (r : bt_buf_reader) : Prop :=
  0 <= br_pos r <= br_len r /\ br_len r <= zlen (br_data r) /\ bytes (br_data r).

(** The bytes not read yet. *)
Definition rview (r : bt_buf_reader) : list Z :=
  take (Z.to_nat (br_len r - br_pos r)) (drop (Z.to_nat (br_pos r)) (br_data r)).

(** Complete behaviour of a fixed-width read: it consumes exactly [n] bytes and
    decodes them, or reports underflow and leaves the cursor where it was. *)
Definition read_field (n : Z) {A} (dec : list Z -> A) (m : M bt_buf_reader A) : Prop :=
  forall r, reader_ok r -> m r =
    if n <=? bt_buf_reader_remaining r
    then (Ret (dec (take (Z.to_nat n) (rview r))), radvance n r)
    else (Fail BT_ERR_BUFFER_UNDERFLOW, r).

(** [m] consumes [bs] from a cursor in front of [bs ++ post] and returns [v]. *)
Definition reads {A} (m : M bt_buf_reader A) (bs post : list Z) (v : A) : Prop :=
  forall r, reader_ok r -> rview r = bs ++ post -> m r = (Ret v, radvance (zlen bs) r).

(** Whatever the bytes are, [m] stays inside the object, keeps the invariant,
    never moves the cursor back, and what it returns satisfies [Q]. *)
Definition rpost {A} (Q : A -> Prop) (r : bt_buf_reader) (res : outcome A * bt_buf_reader) : Prop :=
  let '(o, r') := res in
  o <> Fault /\ reader_ok r' /\ br_data r' = br_data r /\ br_len r' = br_len r /\
  br_pos r <= br_pos r' /\ forall v, o = Ret v -> Q v.

Definition rspec {A} (m : M bt_buf_reader A) (Q : A -> Prop) : Prop :=
  forall r, reader_ok r -> rpost Q r (m r).

(** The same for a parser run on a buffer of its own. *)
Definition sat {A} (o : outcome A) (Q : A -> Prop) : Prop :=
  match o with Ret v => Q v | Fail _ => True | Fault => False end.

Definition writer_ok (w : bt_buf_writer) : Prop :=
  0 <= bw_pos w <= bw_cap w /\ bw_cap w <= zlen (bw_data w).

(** [bs] appended to what was written. *)
Definition wput (bs : list Z) (w : bt_buf_writer) : bt_buf_writer :=
  {| bw_data := splice (bw_data w) (bw_pos w) bs; bw_cap := bw_cap w;
     bw_pos := bw_pos w + zlen bs |}.

(** The bytes written so far. *)
Definition wout (w : bt_buf_writer) : list Z := take (Z.to_nat (bw_pos w)) (bw_data w).

(** [m] emits exactly [bs] when there is room and otherwise reports overflow,
    having emitted only a prefix that fits. *)
Definition writes (m : M bt_buf_writer unit) (bs : list Z) : Prop :=
  forall w, writer_ok w ->
    (bw_pos w + zlen bs <= bw_cap w -> m w = (Ret tt, wput bs w)) /\
    (bw_cap w < bw_pos w + zlen bs -> exists k, (k <= length bs)%nat /\
       bw_pos w + Z.of_nat k <= bw_cap w /\
       m w = (Fail BT_ERR_BUFFER_OVERFLOW, wput (take k bs) w)).

(** As [writes], but a write that does not fit leaves the buffer as it was. *)
Definition write_field (bs : list Z) (m : M bt_buf_writer unit) : Prop :=
  forall w, writer_ok w -> m w =
    if zlen bs <=? bt_buf_writer_remaining w then (Ret tt, wput bs w)
    else (Fail BT_ERR_BUFFER_OVERFLOW, w).

(** ** Reader lemmas *)

Lemma reader_init_ok data len : 0 <= len <= zlen data -> bytes data ->
  reader_ok (bt_buf_reader_init data len).
Proof. intros. split; simpl; [lia|]. split; [lia|done]. Qed.

Lemma rview_init data len : 0 <= len <= zlen data ->
  rview (bt_buf_reader_init data len) = take (Z.to_nat len) data.
Proof. intros. unfold rview. simpl. by rewrite Z.sub_0_r. Qed.

Lemma rview_init_all data : rview (bt_buf_reader_init data (zlen data)) = data.
Proof. rewrite rview_init by lia. by rewrite Nat2Z.id, firstn_all. Qed.

Lemma rview_length r : reader_ok r -> zlen (rview r) = bt_buf_reader_remaining r.
Proof. intros (? & ? & ?). unfold rview, bt_buf_reader_remaining. zlist. Qed.

Lemma rview_bytes r : reader_ok r -> bytes (rview r).
Proof. intros (? & ? & ?). by apply Forall_take, Forall_drop. Qed.

Lemma radvance_ok n r : reader_ok r -> 0 <= n <= bt_buf_reader_remaining r ->
  reader_ok (radvance n r).
Proof. unfold reader_ok, bt_buf_reader_remaining. simpl. intros (? & ? & ?) ?. repeat split; try lia; done. Qed.

Lemma radvance_view n r : reader_ok r -> 0 <= n <= bt_buf_reader_remaining r ->
  rview (radvance n r) = drop (Z.to_nat n) (rview r).
Proof.
  unfold reader_ok, rview, bt_buf_reader_remaining. simpl. intros (? & ? & ?) ?.
  rewrite skipn_firstn_comm, drop_drop. f_equal; [lia|]. f_equal. lia.
Qed.

Lemma radvance_view_app r bs post : reader_ok r -> rview r = bs ++ post ->
  reader_ok (radvance (zlen bs) r) /\ rview (radvance (zlen bs) r) = post.
Proof.
  intros Hok Hv. pose proof (rview_length r Hok) as Hl. rewrite Hv, length_app in Hl.
  split; [apply radvance_ok; [done|lia]|].
  rewrite radvance_view, Hv by (done || lia). rewrite Nat2Z.id. apply drop_app_length.
Qed.

Lemma radvance_radvance a b r : radvance b (radvance a r) = radvance (a + b) r.
Proof. unfold radvance. simpl. f_equal. lia. Qed.

Lemma radvance_0 r : radvance 0 r = r.
Proof. destruct r. unfold radvance. simpl. f_equal. lia. Qed.

(** The object splits around the cursor. *)
Lemma reader_split r n : reader_ok r -> 0 <= n <= bt_buf_reader_remaining r ->
  exists pre post, br_data r = pre ++ take (Z.to_nat n) (rview r) ++ post /\
    zlen pre = br_pos r /\ length (take (Z.to_nat n) (rview r)) = Z.to_nat n.
Proof.
  intros Hok Hn. pose proof (rview_length r Hok). pose proof (rview_bytes r Hok).
  destruct Hok as (? & ? & ?). unfold bt_buf_reader_remaining in *.
  exists (take (Z.to_nat (br_pos r)) (br_data r)),
    (drop (Z.to_nat n) (drop (Z.to_nat (br_pos r)) (br_data r))).
  unfold rview. rewrite take_take, Nat.min_l by lia. rewrite take_drop, take_drop.
  split; [done|]. zlist.
Qed.

Lemma reader_check_spec n r : reader_check n r =
  if n <=? bt_buf_reader_remaining r then (Ret tt, r) else (Fail BT_ERR_BUFFER_UNDERFLOW, r).
Proof.
  unfold reader_check. rewrite Z.gtb_ltb.
  destruct (Z.leb_spec n (bt_buf_reader_remaining r)), (Z.ltb_spec (bt_buf_reader_remaining r) n);
    done || lia.
Qed.

Lemma read_field_of n rd dec : 0 <= n -> reads_as (Z.to_nat n) rd dec ->
  read_field n dec (do! reader_check n in let! out := at_pos rd in
                    do! modify (radvance n) in ret out).
Proof.
  intros Hn Hrd r Hok. unfold bind. rewrite reader_check_spec. zcase; [|done].
  destruct (reader_split r n) as (pre & post & Hd & Hp & Hl); [done|lia|].
  unfold at_pos. rewrite Hd, <- Hp, Hrd; [done|done|].
  apply Forall_take, rview_bytes, Hok.
Qed.

Lemma ld_reads_as : reads_as 1 ld le_dec.
Proof.
  intros pre mid post Hl Hb. read_bytes mid Hl Hb. replace (zlen pre) with (zlen pre + 0) by lia.
  rewrite ld_mid by (simpl; lia). unfold ld; simpl. apply (f_equal Ret). lia.
Qed.

Lemma read_u8_field : read_field 1 le_dec bt_buf_reader_read_u8.
Proof. apply read_field_of; [lia|]. exact ld_reads_as. Qed.
Lemma read_le16_field : read_field 2 le_dec bt_buf_reader_read_le16.
Proof. apply read_field_of; [lia|]. exact bt_read_le16_spec. Qed.
Lemma read_le24_field : read_field 3 le_dec bt_buf_reader_read_le24.
Proof. apply read_field_of; [lia|]. exact bt_read_le24_spec. Qed.
Lemma read_le32_field : read_field 4 le_dec bt_buf_reader_read_le32.
Proof. apply read_field_of; [lia|]. exact bt_read_le32_spec. Qed.
Lemma read_le64_field : read_field 8 le_dec bt_buf_reader_read_le64.
Proof. apply read_field_of; [lia|]. exact bt_read_le64_spec. Qed.
Lemma read_be16_field : read_field 2 be_dec bt_buf_reader_read_be16.
Proof. apply read_field_of; [lia|]. exact bt_read_be16_spec. Qed.
Lemma read_be24_field : read_field 3 be_dec bt_buf_reader_read_be24.
Proof. apply read_field_of; [lia|]. exact bt_read_be24_spec. Qed.
Lemma read_be32_field : read_field 4 be_dec bt_buf_reader_read_be32.
Proof. apply read_field_of; [lia|]. exact bt_read_be32_spec. Qed.
Lemma read_be64_field : read_field 8 be_dec bt_buf_reader_read_be64.
Proof. apply read_field_of; [lia|]. exact bt_read_be64_spec. Qed.

Lemma ldn_reads r n : reader_ok r -> 0 <= n <= bt_buf_reader_remaining r ->
  ldn (br_data r) (br_pos r) n = Ret (take (Z.to_nat n) (rview r)).
Proof.
  intros Hok Hn. destruct (reader_split r n) as (pre & post & Hd & Hp & Hl); [done..|].
  rewrite Hd, <- Hp. replace n with (zlen (take (Z.to_nat n) (rview r))) at 2 by lia.
  apply ldn_mid.
Qed.

Lemma read_bytes_field n : 0 <= n -> read_field n id (bt_buf_reader_read_bytes n).
Proof.
  intros Hn r Hok. unfold bt_buf_reader_read_bytes, bind. rewrite reader_check_spec.
  zcase; [|done]. rewrite Z.gtb_ltb. destruct (Z.ltb_spec 0 n).
  - unfold at_pos. by rewrite ldn_reads by (done || lia).
  - by replace n with 0 by lia.
Qed.

Lemma skip_field n : 0 <= n -> read_field n (fun _ => tt) (bt_buf_reader_skip n).
Proof.
  intros Hn r Hok. unfold bt_buf_reader_skip, bind. rewrite reader_check_spec. by zcase.
Qed.

Lemma peek_spec n r : 0 <= n -> reader_ok r -> bt_buf_reader_peek n r =
  (Ret (if n <=? bt_buf_reader_remaining r then Some (take (Z.to_nat n) (rview r)) else None), r).
Proof.
  intros Hn Hok. unfold bt_buf_reader_peek. rewrite reader_check_spec. zcase; [|done].
  by rewrite ldn_reads by (done || lia).
Qed.

(** *** Exact parsing: [reads] *)

Lemma reads_field n {A} (dec : list Z -> A) m bs post v : read_field n dec m ->
  zlen bs = n -> dec bs = v -> reads m bs post v.
Proof.
  intros Hf Hn <- r Hok Hv. rewrite Hf by done. pose proof (rview_length r Hok) as Hl.
  rewrite Hv, length_app in Hl. rewrite (proj2 (Z.leb_le _ _)) by lia.
  by rewrite Hv, <- Hn, Nat2Z.id, take_app_length.
Qed.

Lemma reads_bind {A B} (m : M bt_buf_reader A) (k : A -> M bt_buf_reader B) a b post v w :
  reads m a (b ++ post) v -> reads (k v) b post w -> reads (bind m k) (a ++ b) post w.
Proof.
  intros Hm Hk r Hok Hv. rewrite <- app_assoc in Hv. unfold bind. rewrite Hm by done.
  destruct (radvance_view_app r a (b ++ post)) as [Hok' Hv']; [done..|].
  rewrite Hk by done. rewrite radvance_radvance. do 2 f_equal. zlist.
Qed.

Lemma reads_ret {A} (v : A) post : reads (ret v) [] post v.
Proof. intros r _ _. unfold ret. simpl. by rewrite radvance_0. Qed.

Lemma reads_map {A B} (m : M bt_buf_reader A) (k : A -> M bt_buf_reader B) a post v w :
  reads m a post v -> reads (k v) [] post w -> reads (bind m k) a post w.
Proof.
  intros Hm Hk. rewrite <- (app_nil_r a). eapply reads_bind; [|done]. done.
Qed.

(** A test that consumes nothing. *)
Lemma reads_nil_bind {A B} (m : M bt_buf_reader A) (k : A -> M bt_buf_reader B) b post v w :
  reads m [] (b ++ post) v -> reads (k v) b post w -> reads (bind m k) b post w.
Proof. intros Hm Hk. by apply (reads_bind m k [] b post v w). Qed.

Lemma reads_u8 b post : 0 <= b < 256 -> reads bt_buf_reader_read_u8 [b] post b.
Proof. intros Hb. eapply reads_field; [apply read_u8_field|done|]. simpl. lia. Qed.
Lemma reads_le16 v post : 0 <= v < 2 ^ 16 -> reads bt_buf_reader_read_le16 (le_enc 2 v) post v.
Proof.
  intros Hb. eapply reads_field; [apply read_le16_field|done|].
  rewrite le_dec_enc. by apply Z.mod_small.
Qed.
Lemma reads_le24 v post : 0 <= v < 2 ^ 24 -> reads bt_buf_reader_read_le24 (le_enc 3 v) post v.
Proof.
  intros Hb. eapply reads_field; [apply read_le24_field|done|].
  rewrite le_dec_enc. by apply Z.mod_small.
Qed.
Lemma reads_le32 v post : 0 <= v < 2 ^ 32 -> reads bt_buf_reader_read_le32 (le_enc 4 v) post v.
Proof.
  intros Hb. eapply reads_field; [apply read_le32_field|done|].
  rewrite le_dec_enc. by apply Z.mod_small.
Qed.
Lemma reads_le64 v post : 0 <= v < 2 ^ 64 -> reads bt_buf_reader_read_le64 (le_enc 8 v) post v.
Proof.
  intros Hb. eapply reads_field; [apply read_le64_field|done|].
  rewrite le_dec_enc. by apply Z.mod_small.
Qed.
Lemma reads_be16 v post : 0 <= v < 2 ^ 16 -> reads bt_buf_reader_read_be16 (be_enc 2 v) post v.
Proof.
  intros Hb. eapply reads_field; [apply read_be16_field|done|].
  rewrite be_dec_enc. by apply Z.mod_small.
Qed.
Lemma reads_be32 v post : 0 <= v < 2 ^ 32 -> reads bt_buf_reader_read_be32 (be_enc 4 v) post v.
Proof.
  intros Hb. eapply reads_field; [apply read_be32_field|done|].
  rewrite be_dec_enc. by apply Z.mod_small.
Qed.
Lemma reads_bytes bs post : reads (bt_buf_reader_read_bytes (zlen bs)) bs post bs.
Proof. eapply reads_field; [apply read_bytes_field; lia|done|done]. Qed.
Lemma reads_bytes_n n bs post : zlen bs = n -> reads (bt_buf_reader_read_bytes n) bs post bs.
Proof. intros <-. apply reads_bytes. Qed.
Lemma reads_skip bs post : reads (bt_buf_reader_skip (zlen bs)) bs post tt.
Proof. eapply reads_field; [apply skip_field; lia|done|done]. Qed.
Lemma reads_peek bs post n : zlen bs = n -> reads (bt_buf_reader_peek n) [] (bs ++ post) (Some bs).
Proof.
  intros <- r Hok Hv. rewrite peek_spec by (done || lia). pose proof (rview_length r Hok) as Hl.
  rewrite Hv, !length_app in Hl. simpl in Hl. rewrite (proj2 (Z.leb_le _ _)) by lia.
  rewrite Hv. simpl. by rewrite Nat2Z.id, take_app_length, radvance_0.
Qed.
Lemma reads_gets_remaining post : reads (gets bt_buf_reader_remaining) [] post (zlen post).
Proof.
  intros r Hok Hv. unfold gets. simpl. rewrite radvance_0. do 2 f_equal.
  rewrite <- (rview_length r Hok), Hv. done.
Qed.

Lemma reads_peek_bind {B} n (k : option (list Z) -> M bt_buf_reader B) bs b post w :
  zlen bs = n -> reads (k (Some bs)) (bs ++ b) post w ->
  reads (bind (bt_buf_reader_peek n) k) (bs ++ b) post w.
Proof.
  intros Hn Hk. eapply reads_nil_bind; [|exact Hk]. rewrite <- app_assoc. by apply reads_peek.
Qed.

(** A complete buffer holding exactly [bs]. *)
Lemma reads_all {A} (m : M bt_buf_reader A) bs v : reads m bs [] v -> bytes bs ->
  m (bt_buf_reader_init bs (zlen bs)) = (Ret v, radvance (zlen bs) (bt_buf_reader_init bs (zlen bs))).
Proof.
  intros Hm Hb. apply Hm; [apply reader_init_ok; [lia|done]|].
  by rewrite rview_init_all, app_nil_r.
Qed.

Lemma parse_reads {A} (m : M bt_buf_reader A) bs v : reads m bs [] v -> bytes bs ->
  parse bs (zlen bs) m = Ret v.
Proof. intros Hm Hb. unfold parse. by rewrite (reads_all m bs v). Qed.

Lemma parse_reads_prefix {A} (m : M bt_buf_reader A) bs post v : reads m bs post v -> bytes (bs ++ post) ->
  parse (bs ++ post) (zlen (bs ++ post)) m = Ret v.
Proof.
  intros Hm Hb. unfold parse. rewrite Hm; [done|apply reader_init_ok; [lia|done]|apply rview_init_all].
Qed.

(** *** Memory safety on any input: [rspec] *)

Lemma rspec_field n {A} (dec : list Z -> A) m (Q : A -> Prop) : 0 <= n -> read_field n dec m ->
  (forall bs, zlen bs = n -> bytes bs -> Q (dec bs)) -> rspec m Q.
Proof.
  intros Hn Hf HQ r Hok. rewrite Hf by done. pose proof (rview_length r Hok).
  pose proof (rview_bytes r Hok). destruct (Z.leb_spec n (bt_buf_reader_remaining r)).
  - split; [done|]. split; [apply radvance_ok; [done|lia]|]. simpl.
    do 2 (split; [done|]). split; [lia|]. intros v [= <-]. apply HQ; [zlist|by apply Forall_take].
  - split; [done|]. do 3 (split; [done|]). split; [lia|]. done.
Qed.

Ltac conj6 := split; [|split; [|split; [|split; [|split]]]].

Lemma rspec_bind {A B} (m : M bt_buf_reader A) (k : A -> M bt_buf_reader B) P Q :
  rspec m P -> (forall v, P v -> rspec (k v) Q) -> rspec (bind m k) Q.
Proof.
  intros Hm Hk r Hok. specialize (Hm r Hok). unfold bind.
  destruct (m r) as [[a|e|] r']; destruct Hm as (Hf & Hok' & Hd & Hl & Hp & Hv); try done.
  specialize (Hk a (Hv a eq_refl) r' Hok').
  destruct (k a r') as [o r'']. destruct Hk as (? & ? & ? & ? & ? & ?).
  conj6; try congruence; try done; lia.
Qed.

Lemma rspec_ret {A} (v : A) (Q : A -> Prop) : Q v -> rspec (ret v) Q.
Proof. intros HQ r Hok. conj6; try done; try lia. by intros ? [= <-]. Qed.

Lemma rspec_fail {A} e (Q : A -> Prop) : rspec (fail e) Q.
Proof. intros r Hok. conj6; done || lia. Qed.

Lemma rspec_weaken {A} (m : M bt_buf_reader A) (P Q : A -> Prop) :
  rspec m P -> (forall v, P v -> Q v) -> rspec m Q.
Proof.
  intros Hm HPQ r Hok. specialize (Hm r Hok). destruct (m r).
  destruct Hm as (? & ? & ? & ? & ? & ?). conj6; auto.
Qed.

Lemma rpost_bind {A B} (m : M bt_buf_reader A) (k : A -> M bt_buf_reader B) P Q r :
  rpost P r (m r) ->
  (forall v r', P v -> reader_ok r' -> br_pos r <= br_pos r' -> br_len r' = br_len r -> rpost Q r' (k v r')) ->
  rpost Q r (bind m k r).
Proof.
  intros Hm Hk. unfold bind. destruct (m r) as [[a|e|] r']; destruct Hm as (Hf & Hok' & Hd & Hl & Hp & Hv); try done.
  specialize (Hk a r' (Hv a eq_refl) Hok' Hp Hl).
  destruct (k a r') as [o r'']. destruct Hk as (? & ? & ? & ? & ? & ?).
  conj6; try congruence; try done; lia.
Qed.

Lemma parse_safe {A} (m : M bt_buf_reader A) Q data len : rspec m Q -> 0 <= len <= zlen data -> bytes data ->
  sat (parse data len m) Q.
Proof.
  intros Hm Hl Hb. specialize (Hm _ (reader_init_ok data len Hl Hb)). unfold parse.
  destruct (m _) as [[v|e|] r]; destruct Hm as (Hf & _ & _ & _ & _ & Hv); simpl; auto.
Qed.

Lemma rspec_u8 : rspec bt_buf_reader_read_u8 (fun v => 0 <= v < 2 ^ 8).
Proof.
  eapply rspec_field; [|apply read_u8_field|]; [lia|]. intros bs Hn Hb.
  pose proof (le_dec_bound bs Hb) as H. by rewrite Hn in H.
Qed.
Lemma rspec_le16 : rspec bt_buf_reader_read_le16 (fun v => 0 <= v < 2 ^ 16).
Proof.
  eapply rspec_field; [|apply read_le16_field|]; [lia|]. intros bs Hn Hb.
  pose proof (le_dec_bound bs Hb) as H. by rewrite Hn in H.
Qed.
Lemma rspec_le24 : rspec bt_buf_reader_read_le24 (fun v => 0 <= v < 2 ^ 24).
Proof.
  eapply rspec_field; [|apply read_le24_field|]; [lia|]. intros bs Hn Hb.
  pose proof (le_dec_bound bs Hb) as H. by rewrite Hn in H.
Qed.
Lemma rspec_le32 : rspec bt_buf_reader_read_le32 (fun v => 0 <= v < 2 ^ 32).
Proof.
  eapply rspec_field; [|apply read_le32_field|]; [lia|]. intros bs Hn Hb.
  pose proof (le_dec_bound bs Hb) as H. by rewrite Hn in H.
Qed.
Lemma rspec_le64 : rspec bt_buf_reader_read_le64 (fun v => 0 <= v < 2 ^ 64).
Proof.
  eapply rspec_field; [|apply read_le64_field|]; [lia|]. intros bs Hn Hb.
  pose proof (le_dec_bound bs Hb) as H. by rewrite Hn in H.
Qed.
Lemma rspec_be16 : rspec bt_buf_reader_read_be16 (fun v => 0 <= v < 2 ^ 16).
Proof.
  eapply rspec_field; [|apply read_be16_field|]; [lia|]. intros bs Hn Hb.
  pose proof (be_dec_bound bs Hb) as H. by rewrite Hn in H.
Qed.
Lemma rspec_be32 : rspec bt_buf_reader_read_be32 (fun v => 0 <= v < 2 ^ 32).
Proof.
  eapply rspec_field; [|apply read_be32_field|]; [lia|]. intros bs Hn Hb.
  pose proof (be_dec_bound bs Hb) as H. by rewrite Hn in H.
Qed.
Lemma rspec_bytes n : 0 <= n ->
  rspec (bt_buf_reader_read_bytes n) (fun bs => zlen bs = n /\ bytes bs).
Proof. intros. eapply rspec_field; [|by apply read_bytes_field|]; [lia|]. done. Qed.
Lemma rspec_skip n : 0 <= n -> rspec (bt_buf_reader_skip n) (fun _ => True).
Proof. intros. eapply rspec_field; [|by apply skip_field|]; [lia|]. done. Qed.
Lemma rspec_peek n : 0 <= n ->
  rspec (bt_buf_reader_peek n) (fun p => forall bs, p = Some bs -> zlen bs = n /\ bytes bs).
Proof.
  intros Hn r Hok. rewrite peek_spec by done. pose proof (rview_length r Hok).
  pose proof (rview_bytes r Hok). split; [done|]. do 3 (split; [done|]). split; [lia|].
  intros v [= <-] bs. zcase; [|done]. intros [= <-]. split; [zlist|by apply Forall_take].
Qed.
Lemma rspec_gets_remaining : rspec (gets bt_buf_reader_remaining) (fun n => 0 <= n).
Proof.
  intros r Hok. conj6; try done; try lia. intros v [= <-].
  unfold bt_buf_reader_remaining. destruct Hok. lia.
Qed.

(** *** Writers *)

Lemma writer_init_ok data cap : 0 <= cap <= zlen data -> writer_ok (bt_buf_writer_init data cap).
Proof. intros. split; simpl; lia. Qed.

Lemma wout_init data cap : wout (bt_buf_writer_init data cap) = [].
Proof. done. Qed.

Lemma wput_ok w bs : writer_ok w -> bw_pos w + zlen bs <= bw_cap w -> writer_ok (wput bs w).
Proof. intros [? ?] ?. split; simpl; [lia|]. rewrite splice_length; lia. Qed.

Lemma wput_out w bs : writer_ok w -> bw_pos w + zlen bs <= bw_cap w ->
  wout (wput bs w) = wout w ++ bs.
Proof. intros [? ?] ?. unfold wout. simpl. apply splice_take; lia. Qed.

Lemma wput_wput w a b : writer_ok w -> bw_pos w + zlen a + zlen b <= bw_cap w ->
  wput b (wput a w) = wput (a ++ b) w.
Proof.
  intros [? ?] ?. unfold wput. simpl. rewrite splice_splice by lia. f_equal. zlist.
Qed.

Lemma wput_nil w : wput [] w = w.
Proof. destruct w. unfold wput. simpl. rewrite splice_nil. f_equal. lia. Qed.

Lemma writer_check_spec n w : writer_check n w =
  if n <=? bt_buf_writer_remaining w then (Ret tt, w) else (Fail BT_ERR_BUFFER_OVERFLOW, w).
Proof.
  unfold writer_check. rewrite Z.gtb_ltb.
  destruct (Z.leb_spec n (bt_buf_writer_remaining w)), (Z.ltb_spec (bt_buf_writer_remaining w) n);
    done || lia.
Qed.

Lemma write_field_of n wr enc v : 0 <= n -> writes_as (Z.to_nat n) wr enc ->
  length (enc v) = Z.to_nat n ->
  write_field (enc v) (do! writer_check n in do! put_at (fun p o => wr p o v) in modify (wadvance n)).
Proof.
  intros Hn Hw Hl w Hok. unfold bind. rewrite writer_check_spec.
  replace (zlen (enc v)) with n by lia. unfold bt_buf_writer_remaining in *. zcase; [|done].
  destruct Hok. unfold put_at. rewrite Hw by lia. unfold modify, wadvance, wput. simpl.
  by replace (zlen (enc v)) with n by lia.
Qed.

Lemma write_u8_field v : write_field [u8 v] (bt_buf_writer_write_u8 v).
Proof.
  apply (write_field_of 1 (fun p o v => st1 p o (u8 v)) (fun v => [u8 v])); [lia| |done].
  intros m o x Ho Hm. apply st1_first; lia.
Qed.
Lemma write_le16_field v : write_field (le_enc 2 v) (bt_buf_writer_write_le16 v).
Proof. apply write_field_of; [lia|exact bt_write_le16_spec|apply le_enc_length]. Qed.
Lemma write_le24_field v : write_field (le_enc 3 v) (bt_buf_writer_write_le24 v).
Proof. apply write_field_of; [lia|exact bt_write_le24_spec|apply le_enc_length]. Qed.
Lemma write_le32_field v : write_field (le_enc 4 v) (bt_buf_writer_write_le32 v).
Proof. apply write_field_of; [lia|exact bt_write_le32_spec|apply le_enc_length]. Qed.
Lemma write_le64_field v : write_field (le_enc 8 v) (bt_buf_writer_write_le64 v).
Proof. apply write_field_of; [lia|exact bt_write_le64_spec|apply le_enc_length]. Qed.
Lemma write_be16_field v : write_field (be_enc 2 v) (bt_buf_writer_write_be16 v).
Proof. apply write_field_of; [lia|exact bt_write_be16_spec|apply be_enc_length]. Qed.
Lemma write_be24_field v : write_field (be_enc 3 v) (bt_buf_writer_write_be24 v).
Proof. apply write_field_of; [lia|exact bt_write_be24_spec|apply be_enc_length]. Qed.
Lemma write_be32_field v : write_field (be_enc 4 v) (bt_buf_writer_write_be32 v).
Proof. apply write_field_of; [lia|exact bt_write_be32_spec|apply be_enc_length]. Qed.
Lemma write_be64_field v : write_field (be_enc 8 v) (bt_buf_writer_write_be64 v).
Proof. apply write_field_of; [lia|exact bt_write_be64_spec|apply be_enc_length]. Qed.

Lemma write_bytes_field src n : 0 <= n <= zlen src ->
  write_field (take (Z.to_nat n) src) (bt_buf_writer_write_bytes src n).
Proof.
  intros Hn w Hok. unfold bt_buf_writer_write_bytes, bind. rewrite writer_check_spec.
  assert (zlen (take (Z.to_nat n) src) = n) as Hl by zlist.
  rewrite Hl. zcase; [|done]. unfold bt_buf_writer_remaining in *. destruct Hok.
  rewrite Z.gtb_ltb. destruct (Z.ltb_spec 0 n).
  - unfold put_at. rewrite ldn_spec by lia. cbn [obind]. change (drop (Z.to_nat 0) src) with src.
    rewrite stn_spec by lia. unfold modify, wput, wadvance. simpl. by rewrite Hl.
  - replace n with 0 by lia. simpl. rewrite wput_nil. destruct w. unfold modify, wadvance, ret.
    simpl. do 2 f_equal. lia.
Qed.

(** *** Exact printing: [writes] *)

Lemma writes_field m bs : write_field bs m -> writes m bs.
Proof.
  intros Hf w Hok. specialize (Hf w Hok). unfold bt_buf_writer_remaining in Hf. destruct Hok.
  split; intros.
  - rewrite Hf. by rewrite (proj2 (Z.leb_le _ _)) by lia.
  - exists 0%nat. rewrite Hf, (proj2 (Z.leb_gt _ _)) by lia. simpl. rewrite wput_nil.
    repeat split; lia.
Qed.

Lemma writes_bind m (k : unit -> M bt_buf_writer unit) a b :
  writes m a -> writes (k tt) b -> writes (bind m k) (a ++ b).
Proof.
  intros Hm Hk w Hok. destruct (Hm w Hok) as [Hm1 Hm2]. rewrite length_app. unfold bind.
  pose proof Hok as [? ?].
  destruct (Z.le_gt_cases (bw_pos w + zlen a) (bw_cap w)) as [Ha|Ha].
  - rewrite Hm1 by done.
    destruct (Hk (wput a w) (wput_ok w a Hok Ha)) as [Hk1 Hk2]. simpl in Hk1, Hk2. split; intros Hb.
    + rewrite Hk1 by lia. by rewrite wput_wput by (done || lia).
    + destruct Hk2 as (j & Hj & Hr & ->); [lia|]. exists (length a + j)%nat.
      split; [lia|]. split; [lia|].
      rewrite take_app_add. rewrite wput_wput; [done..|]. zlist.
  - split; intros; [lia|]. destruct Hm2 as (j & Hj & Hr & ->); [lia|]. exists j.
    split; [lia|]. split; [lia|]. by rewrite take_app_le by lia.
Qed.

Lemma writes_ret : writes (ret tt) [].
Proof.
  intros w [? ?]. simpl. rewrite wput_nil. split; [done|]. intros. lia.
Qed.

Lemma writes_last m a b (k : unit -> M bt_buf_writer unit) :
  writes m a -> writes (k tt) b -> forall c, c = a ++ b -> writes (bind m k) c.
Proof. intros Hm Hk c ->. by apply writes_bind. Qed.

Lemma writes_u8 v : writes (bt_buf_writer_write_u8 v) [u8 v].
Proof. apply writes_field, write_u8_field. Qed.
Lemma writes_le16 v : writes (bt_buf_writer_write_le16 v) (le_enc 2 v).
Proof. apply writes_field, write_le16_field. Qed.
Lemma writes_le24 v : writes (bt_buf_writer_write_le24 v) (le_enc 3 v).
Proof. apply writes_field, write_le24_field. Qed.
Lemma writes_le32 v : writes (bt_buf_writer_write_le32 v) (le_enc 4 v).
Proof. apply writes_field, write_le32_field. Qed.
Lemma writes_le64 v : writes (bt_buf_writer_write_le64 v) (le_enc 8 v).
Proof. apply writes_field, write_le64_field. Qed.
Lemma writes_be16 v : writes (bt_buf_writer_write_be16 v) (be_enc 2 v).
Proof. apply writes_field, write_be16_field. Qed.
Lemma writes_be32 v : writes (bt_buf_writer_write_be32 v) (be_enc 4 v).
Proof. apply writes_field, write_be32_field. Qed.
Lemma writes_bytes bs : writes (bt_buf_writer_write_bytes bs (zlen bs)) bs.
Proof.
  pose proof (write_bytes_field bs (zlen bs)) as H. rewrite Nat2Z.id, firstn_all in H.
  apply writes_field, H. lia.
Qed.
Lemma writes_bytes_n src n bs : 0 <= n <= zlen src -> bs = take (Z.to_nat n) src ->
  writes (bt_buf_writer_write_bytes src n) bs.
Proof. intros Hn ->. by apply writes_field, write_bytes_field. Qed.

(** The printer never faults, keeps the invariant and only appends. *)
(** What a print emits is determined. *)
Lemma writes_unique m a b : writes m a -> writes m b -> a = b.
Proof.
  intros Ha Hb. set (n := (length a + length b)%nat).
  assert (writer_ok (bt_buf_writer_init (replicate n 0) (Z.of_nat n))) as Hok
    by (apply writer_init_ok; rewrite length_replicate; lia).
  destruct (Ha _ Hok) as [Ea _]. destruct (Hb _ Hok) as [Eb _].
  rewrite Ea in Eb by (cbn; lia). specialize (Eb ltac:(cbn; lia)).
  apply (f_equal (fun r => wout r.2)) in Eb. cbn [snd] in Eb. by rewrite !wput_out, !wout_init in Eb by (done || cbn; lia).
Qed.

Lemma writes_safe m bs : writes m bs -> forall w, writer_ok w ->
  exists o k, m w = (o, wput (take k bs) w) /\ o <> Fault /\
    writer_ok (wput (take k bs) w) /\ wout (wput (take k bs) w) = wout w ++ take k bs.
Proof.
  intros Hm w Hok. destruct (Hm w Hok) as [H1 H2].
  destruct (Z.le_gt_cases (bw_pos w + zlen bs) (bw_cap w)) as [Hr|Hr].
  - exists (Ret tt), (length bs). rewrite firstn_all. rewrite H1 by done.
    split; [done|]. split; [done|]. split; [by apply wput_ok|by apply wput_out].
  - destruct H2 as (k & Hk & Hr' & ->); [lia|]. exists (Fail BT_ERR_BUFFER_OVERFLOW), k.
    split; [done|]. split; [done|].
    assert (bw_pos w + zlen (take k bs) <= bw_cap w) by zlist.
    split; [by apply wput_ok|by apply wput_out].
Qed.

Lemma remaining_nonneg r : reader_ok r -> 0 <= bt_buf_reader_remaining r.
Proof. unfold bt_buf_reader_remaining. intros [? _]. lia. Qed.

(** The invariant of a reading loop: fewer bytes are left than [n]. *)
Definition rbelow {A} (n : nat) (m : M bt_buf_reader A) (Q : A -> Prop) : Prop :=
  forall r, reader_ok r -> bt_buf_reader_remaining r < Z.of_nat n -> rpost Q r (m r).

Lemma rbelow_bind {A B} n (m : M bt_buf_reader A) (k : A -> M bt_buf_reader B) P Q :
  rspec m P -> (forall v, P v -> rbelow n (k v) Q) -> rbelow n (bind m k) Q.
Proof.
  intros Hm Hk r Hok Hn. eapply rpost_bind; [by apply Hm|]. intros v r' Hv Hok' Hp Hl.
  apply Hk; [done..|]. unfold bt_buf_reader_remaining in *. lia.
Qed.

Lemma rbelow_spec {A} n (m : M bt_buf_reader A) Q : rspec m Q -> rbelow n m Q.
Proof. intros Hm r Hok _. by apply Hm. Qed.

(** Reading a byte makes progress. *)
Lemma rbelow_u8 {B} n (k : Z -> M bt_buf_reader B) Q :
  (forall v, is_byte v -> rbelow n (k v) Q) -> rbelow (S n) (bind bt_buf_reader_read_u8 k) Q.
Proof.
  intros Hk r Hok Hn. pose proof (rspec_u8 r Hok) as Hs. unfold bind.
  rewrite read_u8_field in Hs |- * by done.
  destruct (Z.leb_spec 1 (bt_buf_reader_remaining r)); [|exact (rspec_fail BT_ERR_BUFFER_UNDERFLOW Q r Hok)].
  destruct Hs as (_ & Hok1 & _ & _ & _ & Hv). specialize (Hk _ (Hv _ eq_refl) _ Hok1).
  set (b := le_dec _) in *. clearbody b. destruct (k b (radvance 1 r)) as [o r'] eqn:E.
  rewrite ?E in *. destruct Hk as (? & ? & ? & ? & ? & ?).
  { unfold bt_buf_reader_remaining in *. simpl. lia. }
  conj6; try done. simpl in *. lia.
Qed.

Lemma rbelow_remaining {B} n (k : Z -> M bt_buf_reader B) Q :
  (forall v, 0 <= v < Z.of_nat n -> rbelow n (k v) Q) -> rbelow n (bind (gets bt_buf_reader_remaining) k) Q.
Proof.
  intros Hk r Hok Hn. unfold bind, gets. apply Hk; [|done..]. split; [by apply remaining_nonneg|done].
Qed.

(** Fuel computed from what is left is enough. *)
Lemma rspec_fuel {B} (k : Z -> M bt_buf_reader B) Q :
  (forall v, rbelow (S (Z.to_nat v)) (k v) Q) -> rspec (bind (gets bt_buf_reader_remaining) k) Q.
Proof.
  intros Hk r Hok. unfold bind, gets. apply Hk; [done|]. pose proof (remaining_nonneg r Hok). lia.
Qed.

(** A safe step that consumes something whenever it succeeds. *)
Definition rprogress {A} (m : M bt_buf_reader A) (Q : A -> Prop) : Prop :=
  forall r, reader_ok r -> rpost Q r (m r) /\ forall v r', m r = (Ret v, r') -> br_pos r < br_pos r'.

Lemma rprogress_field {A B} n (dec : list Z -> A) m (k : A -> M bt_buf_reader B) P Q :
  0 < n -> read_field n dec m -> rspec m P -> (forall v, P v -> rspec (k v) Q) -> rprogress (bind m k) Q.
Proof.
  intros Hn Hf Hm Hk r Hok. split; [by eapply rspec_bind|].
  intros w r'. pose proof (Hm r Hok) as Hs. unfold bind. rewrite Hf in Hs |- * by done.
  destruct (n <=? bt_buf_reader_remaining r); [|done].
  destruct Hs as (_ & Hok1 & _ & _ & _ & Hv).
  pose proof (Hk _ (Hv _ eq_refl) _ Hok1) as Hp. set (b := dec _) in *. clearbody b.
  intros E. rewrite E in Hp. destruct Hp as (_ & _ & _ & _ & Hp & _). simpl in Hp. lia.
Qed.

Lemma rprogress_u8 {B} (k : Z -> M bt_buf_reader B) Q :
  (forall v, 0 <= v < 2 ^ 8 -> rspec (k v) Q) -> rprogress (bind bt_buf_reader_read_u8 k) Q.
Proof. intros. eapply rprogress_field; [|apply read_u8_field|apply rspec_u8|done]. lia. Qed.

Lemma rprogress_le16 {B} (k : Z -> M bt_buf_reader B) Q :
  (forall v, 0 <= v < 2 ^ 16 -> rspec (k v) Q) -> rprogress (bind bt_buf_reader_read_le16 k) Q.
Proof. intros. eapply rprogress_field; [|apply read_le16_field|apply rspec_le16|done]. lia. Qed.

Lemma rprogress_remaining {B} (k : Z -> M bt_buf_reader B) Q :
  (forall v, 0 <= v -> rprogress (k v) Q) -> rprogress (bind (gets bt_buf_reader_remaining) k) Q.
Proof. intros Hk r Hok. unfold bind, gets. apply Hk; [by apply remaining_nonneg|done]. Qed.

Lemma rprogress_fail {A} e (Q : A -> Prop) : rprogress (fail e) Q.
Proof. intros r Hok. split; [by apply rspec_fail|done]. Qed.

(** Iterating it ends, with an error, after finitely many good values. *)
Lemma drain_reader_safe {A} (m : M bt_buf_reader A) Q n : forall r, rprogress m Q -> reader_ok r ->
  bt_buf_reader_remaining r < Z.of_nat n ->
  exists l e, drain m n r = (l, Fail e) /\ Forall Q l.
Proof.
  induction n as [|n IH]; intros r Hm Hok Hn; [pose proof (remaining_nonneg r Hok); lia|]. cbn [drain].
  destruct (Hm r Hok) as [Hp Hlt]. destruct (m r) as [[v|e|] r'] eqn:E.
  - specialize (Hlt v r' eq_refl). destruct Hp as (_ & Hok' & _ & Hl & _ & Hq).
    destruct (IH r' Hm Hok') as (l & e & -> & Hf); [unfold bt_buf_reader_remaining in *; lia|].
    exists (v :: l), e. split; [done|]. constructor; [by apply Hq|done].
  - by exists [], e.
  - by destruct Hp.
Qed.

(** Iterating over encoded values returns exactly them. *)
Lemma drain_reader_exact {A} (m : M bt_buf_reader A) (enc : A -> list Z) es e :
  (forall x post, x ∈ es -> reads m (enc x) post x) ->
  (forall r, reader_ok r -> rview r = [] -> (m r).1 = Fail e) ->
  forall r n, reader_ok r -> rview r = mjoin (enc <$> es) -> (length es < n)%nat ->
  drain m n r = (es, Fail e).
Proof.
  intros Hm He. induction es as [|x es IH]; intros r [|n] Hok Hv Hn; simpl in Hn; try lia; cbn [drain].
  - specialize (He r Hok Hv). destruct (m r) as [[]]; simpl in He; simplify_eq; done.
  - rewrite mjoin_cons in Hv. rewrite (Hm x (mjoin (enc <$> es)) ltac:(left) r Hok Hv).
    destruct (radvance_view_app r _ _ Hok Hv) as [Hok' Hv'].
    rewrite IH; [done|intros; apply Hm; by right|done|done|lia].
Qed.

#[export] Hint Resolve reads_u8 reads_le16 reads_le24 reads_le32 reads_le64 reads_be16 reads_be32
  reads_bytes reads_skip reads_ret reads_peek : wire.
#[export] Hint Resolve writes_u8 writes_le16 writes_le24 writes_le32 writes_le64 writes_be16 writes_be32
  writes_bytes writes_ret : wire.
#[export] Hint Resolve rspec_u8 rspec_le16 rspec_le24 rspec_le32 rspec_le64 rspec_be16 rspec_be32
  rspec_bytes rspec_skip rspec_peek rspec_ret rspec_fail rspec_gets_remaining : wire.


#[export] Hint Extern 1 (_ <= _) => lia : wire.
#[export] Hint Extern 1 (_ <= _ < _) => lia : wire.
#[export] Hint Extern 3 (_ = _ :> Z) => lia : wire.

(** Parse in pieces: one monadic step per piece of the concatenation. *)
Ltac parse_step :=
  first
    [ eapply reads_peek_bind; [solve [lia]|]
    | eapply reads_nil_bind; [solve [eauto with wire | apply reads_peek; lia | apply reads_gets_remaining]|]
    | match goal with |- reads (bind _ _) (_ ++ _) _ _ => idtac end;
      eapply reads_bind; [solve [eauto with wire]|]
    | eapply reads_map; [solve [eauto with wire]|] ];
  cbv beta.

(** Safety of a parser, step by step. *)
Ltac safe_step :=
  first
    [ apply rspec_fail
    | eapply rspec_bind; [solve [eauto with wire]|]; cbv beta; intros ? ? ];
  cbv beta.

(** Print in pieces: each primitive's bytes are found by unification, and the
    concatenation is compared with the goal at the end. *)
Ltac print_all :=
  repeat (eapply writes_last; [solve [eauto with wire] | cbv beta | ]);
  try solve [eauto with wire | reflexivity].

(** One read of a sequence, run. *)
Lemma bind_reads {A B} (m : M bt_buf_reader A) (k : A -> M bt_buf_reader B) a post v r :
  reads m a post v -> reader_ok r -> rview r = a ++ post ->
  exists r', bind m k r = k v r' /\ reader_ok r' /\ rview r' = post /\
    bt_buf_reader_remaining r' = bt_buf_reader_remaining r - zlen a.
Proof.
  intros Hm Hok Hv. exists (radvance (zlen a) r). unfold bind. rewrite (Hm r Hok Hv). split; [done|].
  destruct (radvance_view_app r a post Hok Hv) as [Hok' Hv']. split; [done|]. split; [done|].
  unfold bt_buf_reader_remaining, radvance. cbn. lia.
Qed.

Lemma bind_short {A B} n (dec : list Z -> A) (m : M bt_buf_reader A) (k : A -> M bt_buf_reader B) r :
  read_field n dec m -> reader_ok r -> zlen (rview r) < n -> bind m k r = (Fail BT_ERR_BUFFER_UNDERFLOW, r).
Proof.
  intros Hm Hok Hl. rewrite rview_length in Hl by done. unfold bind. rewrite (Hm r Hok).
  by rewrite (proj2 (Z.leb_gt _ _)).
Qed.

(** A read of an unknown buffer: it is refused, or the view starts with a piece of that width. *)
Lemma bind_field {A B} n (dec : list Z -> A) (m : M bt_buf_reader A) (k : A -> M bt_buf_reader B) r :
  read_field n dec m -> 0 <= n -> reader_ok r ->
  (exists e, bind m k r = (Fail e, r)) \/
  exists bs r', sized n bs /\ rview r = bs ++ rview r' /\ reader_ok r' /\ bind m k r = k (dec bs) r'.
Proof.
  intros Hm Hn Hok. pose proof (rview_length r Hok) as Hl. pose proof (rview_bytes r Hok) as Hb.
  unfold bind. rewrite (Hm r Hok). destruct (Z.leb_spec n (bt_buf_reader_remaining r)) as [Hle|Hlt].
  - right. exists (take (Z.to_nat n) (rview r)), (radvance n r). split; [split; [zlist|bys]|].
    rewrite radvance_view by done. rewrite take_drop. split; [done|]. split; [by apply radvance_ok|done].
  - left. by eexists.
Qed.

(** Run the next read of the goal's sequence on the next piece of the view. *)
Tactic Notation "run_read" open_constr(lem) :=
  match goal with
  | Hok : reader_ok ?r, Hv : rview ?r = _ |- context [bind ?m ?k ?r] =>
      let r' := fresh "r" in let E := fresh "E" in let Hok' := fresh "Hok" in
      let Hv' := fresh "Hv" in let Hr' := fresh "Hrem" in
      edestruct (bind_reads m k _ _ _ r lem Hok Hv) as (r' & E & Hok' & Hv' & Hr');
      rewrite E; clear E Hv Hok; cbv beta
  end.

(** Run the next read of an unknown buffer; the piece, the cursor after it and the view. *)
Tactic Notation "case_read" open_constr(lem) "as" ident(bs) ident(r') ident(Hs) ident(Hv) ident(Hok') :=
  match goal with
  | Hok : reader_ok ?r |- context [bind ?m ?k ?r] =>
      edestruct (bind_field _ _ m k r lem) as [[? ->]|(bs & r' & Hs & Hv & Hok' & ->)];
      [lia|exact Hok| |clear Hok; cbv beta]
  end.

(** One print of a sequence, run: the bytes fit, or a prefix of them was kept. *)
Lemma bind_writes {A} m (k : unit -> M bt_buf_writer A) bs w : writes m bs -> writer_ok w ->
  (bw_pos w + zlen bs <= bw_cap w /\ bind m k w = k tt (wput bs w)) \/
  (bw_cap w < bw_pos w + zlen bs /\ exists j, (j <= length bs)%nat /\ bw_pos w + Z.of_nat j <= bw_cap w /\
     bind m k w = (Fail BT_ERR_BUFFER_OVERFLOW, wput (take j bs) w)).
Proof.
  intros Hm Hok. destruct (Hm w Hok) as [H1 H2]. unfold bind.
  destruct (Z.le_gt_cases (bw_pos w + zlen bs) (bw_cap w)) as [Hle|Hlt].
  - left. split; [done|]. by rewrite H1.
  - right. split; [lia|]. destruct H2 as (j & ? & ? & ->); [lia|]. by exists j.
Qed.

Lemma bind_assoc {S A B C} (m : M S A) (k : A -> M S B) (h : B -> M S C) s :
  bind (bind m k) h s = bind m (fun x => bind (k x) h) s.
Proof. unfold bind. by destruct (m s) as [[a|e|] s']. Qed.

(** ** Contracts *)

(** C39.  Complete behaviour of every reader operation.  A read of [n] bytes
    (one to eight bytes in either byte order, [read_bytes], [skip]) consumes
    exactly [n] bytes and returns their value when [n] bytes are left;
    otherwise it reports underflow and the cursor has not moved.  [peek]
    returns the next [n] bytes without moving, or NULL.  None of them touches
    memory outside the buffer, and the invariant is kept. *)
Theorem reader_contract :
  read_field 1 le_dec bt_buf_reader_read_u8 /\
  read_field 2 le_dec bt_buf_reader_read_le16 /\ read_field 3 le_dec bt_buf_reader_read_le24 /\
  read_field 4 le_dec bt_buf_reader_read_le32 /\ read_field 8 le_dec bt_buf_reader_read_le64 /\
  read_field 2 be_dec bt_buf_reader_read_be16 /\ read_field 3 be_dec bt_buf_reader_read_be24 /\
  read_field 4 be_dec bt_buf_reader_read_be32 /\ read_field 8 be_dec bt_buf_reader_read_be64 /\
  (forall n, 0 <= n ->
     read_field n id (bt_buf_reader_read_bytes n) /\
     read_field n (fun _ => tt) (bt_buf_reader_skip n) /\
     (forall r, reader_ok r -> bt_buf_reader_peek n r =
        (Ret (if n <=? bt_buf_reader_remaining r then Some (take (Z.to_nat n) (rview r)) else None), r)) /\
     (forall r, reader_ok r -> n <= bt_buf_reader_remaining r ->
        reader_ok (radvance n r) /\ rview (radvance n r) = drop (Z.to_nat n) (rview r))).
Proof.
  split; [exact read_u8_field|]. split; [exact read_le16_field|]. split; [exact read_le24_field|].
  split; [exact read_le32_field|]. split; [exact read_le64_field|]. split; [exact read_be16_field|].
  split; [exact read_be24_field|]. split; [exact read_be32_field|]. split; [exact read_be64_field|].
  intros n Hn. split; [by apply read_bytes_field|]. split; [by apply skip_field|].
  split; [intros; by apply peek_spec|]. intros r Hok Hr.
  split; [by apply radvance_ok|by apply radvance_view].
Qed.

Lemma reader_contract_witness :
  let r := bt_buf_reader_init [1; 2; 3] 3 in
  reader_ok r /\ bt_buf_reader_read_bytes 2 r = (Ret [1; 2], radvance 2 r).
Proof.
  pose proof reader_contract as (_ & _ & _ & _ & _ & _ & _ & _ & _ & H).
  assert (reader_ok (bt_buf_reader_init [1; 2; 3] 3)) as Hok.
  { apply reader_init_ok; [simpl; lia|]. concrete_bytes. }
  split; [exact Hok|]. destruct (H 2 ltac:(lia)) as [Hb _]. rewrite (Hb _ Hok). reflexivity.
Defined.

(** C40.  Complete behaviour of every writer operation.  When the field fits,
    its bytes are appended to what was written and nothing before or after
    them changes; otherwise overflow is reported and the buffer and the cursor
    are as they were.  The invariant is kept, and no byte beyond the capacity
    is ever touched. *)
Theorem writer_contract : forall v src n, 0 <= n <= zlen src ->
  write_field [u8 v] (bt_buf_writer_write_u8 v) /\
  write_field (le_enc 2 v) (bt_buf_writer_write_le16 v) /\
  write_field (le_enc 3 v) (bt_buf_writer_write_le24 v) /\
  write_field (le_enc 4 v) (bt_buf_writer_write_le32 v) /\
  write_field (le_enc 8 v) (bt_buf_writer_write_le64 v) /\
  write_field (be_enc 2 v) (bt_buf_writer_write_be16 v) /\
  write_field (be_enc 3 v) (bt_buf_writer_write_be24 v) /\
  write_field (be_enc 4 v) (bt_buf_writer_write_be32 v) /\
  write_field (be_enc 8 v) (bt_buf_writer_write_be64 v) /\
  write_field (take (Z.to_nat n) src) (bt_buf_writer_write_bytes src n) /\
  (forall w bs, writer_ok w -> zlen bs <= bt_buf_writer_remaining w ->
     writer_ok (wput bs w) /\ wout (wput bs w) = wout w ++ bs /\
     forall i, bw_pos w + zlen bs <= i -> ld (bw_data (wput bs w)) i = ld (bw_data w) i).
Proof.
  intros v src n Hn.
  split; [apply write_u8_field|]. split; [apply write_le16_field|]. split; [apply write_le24_field|].
  split; [apply write_le32_field|]. split; [apply write_le64_field|]. split; [apply write_be16_field|].
  split; [apply write_be24_field|]. split; [apply write_be32_field|]. split; [apply write_be64_field|].
  split; [by apply write_bytes_field|]. unfold bt_buf_writer_remaining. intros w bs Hok Hr.
  split; [apply wput_ok; [done|lia]|]. split; [apply wput_out; [done|lia]|].
  destruct Hok. intros i Hi. simpl.
  destruct (mem_split (bw_data w) (bw_pos w) (zlen bs)) as (pre & mid & post & -> & Hp & Hm); [lia..|].
  rewrite <- Hp, splice_mid by lia.
  rewrite !(ld_app_r pre), !(ld_app_r _ post) by lia. by replace (zlen mid) with (zlen bs).
Qed.

Lemma writer_contract_witness :
  let w := bt_buf_writer_init [0; 0; 0] 3 in
  bt_buf_writer_write_bytes [7; 8; 9] 2 w = (Ret tt, wput [7; 8] w).
Proof.
  destruct (writer_contract 0 [7; 8; 9] 2) as (_ & _ & _ & _ & _ & _ & _ & _ & _ & H & _).
  { simpl. lia. }
  apply H. apply writer_init_ok. simpl. lia.
Defined.

End Buffer.
