(* ===== verification/Callbacks.v ===== *)
(** * Callbacks: components whose callers are called back

    A callback is a program [prog] over the state [U] its [user_data] points
    to: it reads and writes that state and may call the component again, whose
    operations are an inductive type [A] with results [R].  A component's
    functions take the run of such a call as a parameter, and a fixpoint on the
    depth of nested calls closes the recursion.

    The rules below run code against an invariant that holds whenever a
    callback is called: [wp m w Q] is "from [w], [m] returns, with [Q] of its
    value and the world then".  A user that calls back must run out of calls: it
    has a [budget], a function of its state, and [wp_prog] runs a callback
    whose calls each cost one. *)

From Stdlib Require Import ZArith Lia.
From stdpp Require Import base list list_numbers.
From S2P Require Import Prelude Buffer.

Module Callbacks.
Import Buffer.

Section Prog.
  Context {U A R X : Type}.

Inductive prog : Type :=
| Done (x : X)
| Get (k : U -> prog)
| Put (u : U) (k : prog)
| Call (a : A) (k : R -> prog).

End Prog.
Arguments prog : clear implicits.

(** The component's state, its user's, and the history of what it did. *)
Record world (S U H : Type) : Type := { w_self : S; w_user : U; w_trace : list H }.
Arguments w_self {S U H}.
Arguments w_user {S U H}.
Arguments w_trace {S U H}.

Section Run.
  Context {S U H : Type}.
Abbreviation W := (world S U H).

Definition with_self (s : S) (w : W) : W := {| w_self := s; w_user := w_user w; w_trace := w_trace w |}.
Definition with_user (u : U) (w : W) : W := {| w_self := w_self w; w_user := u; w_trace := w_trace w |}.

Definition emit (h : H) : M W unit := fun w =>
  (Ret tt, {| w_self := w_self w; w_user := w_user w; w_trace := w_trace w ++ [h] |}).

(** Assignments to the component's fields. *)
Definition set (f : S -> S) : M W unit := modify (fun w => with_self (f (w_self w)) w).
Definition get {B} (f : S -> B) : M W B := gets (fun w => f (w_self w)).

(** A call that acts on the user's state only. *)
Definition on_user {B} (m : M U B) : M W B := fun w =>
  match m (w_user w) with (o, u) => (o, with_user u w) end.

Fixpoint run_prog {A R X} (call : A -> M W R) (p : prog U A R X) : M W X :=
  match p with
  | Done x => ret x
  | Get k => let! u := gets w_user in run_prog call (k u)
  | Put u k => do! modify (with_user u) in run_prog call k
  | Call a k => let! r := call a in run_prog call (k r)
  end.
End Run.

(** A call whose status the caller looks at, or ignores. *)
Definition try {W A} (m : M W A) : M W (outcome A) := fun w =>
  match m w with
  | (Fault, w) => (Fault, w)
  | (o, w) => (Ret o, w)
  end.

(** An encoder run on a local array of [cap] bytes: its status and the bytes
    written. *)
Definition encode_into {W} (cap : Z) (m : M bt_buf_writer unit) : M W (bt_status * list Z) := fun w =>
  match m (bt_buf_writer_init (replicate (Z.to_nat cap) 0) cap) with
  | (Ret _, b) => (Ret (BT_OK, wout b), w)
  | (Fail e, b) => (Ret (e, wout b), w)
  | (Fault, _) => (Fault, w)
  end.

(** ** Lemmas *)

Lemma bind_eq {S A B} (m : M S A) (k : A -> M S B) s a s' : m s = (Ret a, s') -> bind m k s = k a s'.
Proof. unfold bind. by intros ->. Qed.

Lemma try_run {W A} (m : M W A) w o w' : m w = (o, w') -> o <> Fault -> try m w = (Ret o, w').
Proof. unfold try. intros ->. by destruct o. Qed.

Lemma encode_run {W} cap m bs (w : W) : writes m bs -> zlen bs <= cap ->
  encode_into cap m w = (Ret (BT_OK, bs), w).
Proof.
  intros Hw Hl. unfold encode_into.
  assert (writer_ok (bt_buf_writer_init (replicate (Z.to_nat cap) 0) cap)) as Hok
    by (apply writer_init_ok; rewrite length_replicate; lia).
  destruct (Hw _ Hok) as [Hroom _]. rewrite Hroom by (cbn; lia).
  rewrite wput_out by (done || cbn; lia). by rewrite wout_init.
Qed.

Section Wp.
  Context {S U H : Type}.
Abbreviation W := (world S U H).
  Implicit Types (I : W -> Prop) (w : W).

Definition with_event (h : H) (w : W) : W :=
  {| w_self := w_self w; w_user := w_user w; w_trace := w_trace w ++ [h] |}.

(** From [w], [m] returns, with [Q] of its result and the world then. *)
Definition wp {B} (m : M W B) w (Q : B -> W -> Prop) : Prop := exists b w', m w = (Ret b, w') /\ Q b w'.

Lemma wp_ret {B} (b : B) w (Q : B -> W -> Prop) : Q b w -> wp (ret b) w Q.
Proof. intros HQ. by exists b, w. Qed.

Lemma wp_bind {B C} (m : M W B) (k : B -> M W C) w Q : wp m w (fun b w' => wp (k b) w' Q) -> wp (bind m k) w Q.
Proof. intros (b & w' & E & c & w'' & E' & HQ). exists c, w''. split; [|done]. by rewrite (bind_eq _ _ _ _ _ E). Qed.

Lemma wp_mono {B} (m : M W B) w (Q Q' : B -> W -> Prop) : wp m w Q -> (forall b w', Q b w' -> Q' b w') -> wp m w Q'.
Proof. intros (b & w' & E & HQ) HQ'. exists b, w'. eauto. Qed.

Lemma wp_and {B} (m : M W B) w (Q Q' : B -> W -> Prop) : wp m w Q -> wp m w Q' -> wp m w (fun b w' => Q b w' /\ Q' b w').
Proof. intros (b & w' & E & HQ) (b2 & w2 & E2 & HQ2). rewrite E in E2. injection E2 as <- <-. by exists b, w'. Qed.

Lemma wp_get {B C} (f : S -> B) (k : B -> M W C) w Q : wp (k (f (w_self w))) w Q -> wp (bind (get f) k) w Q.
Proof. done. Qed.
Lemma wp_set {C} f (k : unit -> M W C) w Q : wp (k tt) (with_self (f (w_self w)) w) Q -> wp (bind (set f) k) w Q.
Proof. done. Qed.
Lemma wp_set_last f w (Q : unit -> W -> Prop) : Q tt (with_self (f (w_self w)) w) -> wp (set f) w Q.
Proof. intros HQ. by exists tt, (with_self (f (w_self w)) w). Qed.
Lemma wp_emit {C} h (k : unit -> M W C) w Q : wp (k tt) (with_event h w) Q -> wp (bind (emit h) k) w Q.
Proof. done. Qed.
Lemma wp_lift {B C} (o : outcome B) b (k : B -> M W C) w Q : o = Ret b -> wp (k b) w Q -> wp (bind (lift o) k) w Q.
Proof. by intros ->. Qed.
Lemma wp_encode {C} cap m bs (k : bt_status * list Z -> M W C) w Q : writes m bs -> zlen bs <= cap ->
  wp (k (BT_OK, bs)) w Q -> wp (bind (encode_into cap m) k) w Q.
Proof. intros Hm Hl Hk. apply wp_bind. eexists _, w. by rewrite (encode_run cap m bs w Hm Hl). Qed.

(** *** Callbacks that call back: [budget] bounds the calls a user still makes *)

Section Budget.
  Context {A R : Type} (budget : U -> nat).

(** Run from a state [u], the program makes only calls of [P], each after the
    user's budget has dropped below [b], returns a value of [Q], and never
    raises the budget. *)
Fixpoint pays_from {X} (P : A -> Prop) (Q : X -> Prop) (b : nat) (p : prog U A R X) (u : U) : Prop :=
  match p with
  | Done x => Q x
  | Get k => pays_from P Q b (k u) u
  | Put u' k => (budget u' <= budget u)%nat /\ pays_from P Q b k u'
  | Call a k => P a /\ (budget u < b)%nat /\ forall r u', (budget u' <= budget u)%nat -> pays_from P Q b (k r) u'
  end.
Definition pays {X} (P : A -> Prop) (Q : X -> Prop) (p : prog U A R X) : Prop := forall u, pays_from P Q (budget u) p u.

(** A program that does not call back. *)
Definition quiet {X} (Q : X -> Prop) (p : prog U A R X) : Prop := pays (fun _ => False) Q p.

(** An invariant, and how many calls the user has left. *)
Definition within I (n : nat) (w : W) : Prop := I w /\ (budget (w_user w) <= n)%nat.

(** Calls are safe while the budget is less than [n]. *)
Definition callable I (P : A -> Prop) (call : A -> M W R) (n : nat) : Prop := forall a, P a -> forall k, (k < n)%nat ->
  forall w, within I k w -> wp (call a) w (fun _ => within I k).

Lemma wp_prog {X} I (P : A -> Prop) (Q : X -> Prop) (call : A -> M W R) n (p : prog U A R X) w R' :
  (forall w u, I w -> I (with_user u w)) -> callable I P call n -> pays P Q p -> within I n w ->
  (forall x w', Q x -> within I n w' -> R' x w') -> wp (run_prog call p) w R'.
Proof.
  intros Hu Hc Hp.
  assert (forall b w, (b <= n)%nat -> I w -> (budget (w_user w) <= b)%nat -> pays_from P Q b p (w_user w) ->
    exists x w', run_prog call p w = (Ret x, w') /\ Q x /\ within I b w') as H0.
  { clear Hp w R'. intros b w Hn. revert w. induction p as [x|k IH|u k IH|a k IH]; cbn [pays_from run_prog]; intros w Hw Hb Hp.
    - by exists x, w.
    - rewrite bind_gets. by apply IH.
    - destruct Hp as [Hle Hp]. unfold bind, modify. apply (IH (with_user u w)); [by apply Hu|cbn; lia|done].
    - destruct Hp as (Ha & Hlt & Hk). destruct (Hc a Ha (budget (w_user w)) ltac:(lia) w ltac:(by split))
        as (r & w' & E & Hw' & Hb'). rewrite (bind_eq _ _ _ _ _ E).
      apply IH; [done|lia|]. by apply Hk. }
  intros [Hw Hb] HR. destruct (H0 (budget (w_user w)) w Hb Hw ltac:(lia) (Hp _)) as (x & w' & E & HQ & Hw' & Hb').
  exists x, w'. split; [done|]. apply HR; [done|]. split; [done|lia].
Qed.

(** A quiet program changes its own state only. *)
Lemma wp_quiet {X} (call : A -> M W R) (Q : X -> Prop) (p : prog U A R X) w R' : quiet Q p ->
  (forall x u, Q x -> (budget u <= budget (w_user w))%nat -> R' x (with_user u w)) -> wp (run_prog call p) w R'.
Proof.
  unfold quiet, pays. intros Hp. specialize (Hp (w_user w)). revert Hp. generalize (budget (w_user w)) at 1 as b.
  intros b. revert w R'. induction p as [x|k IH|u k IH|a k IH]; cbn [pays_from run_prog]; intros w R' Hp HR.
  - apply wp_ret. specialize (HR x (w_user w) Hp ltac:(lia)). by destruct w.
  - by apply (IH (w_user w)).
  - destruct Hp as [Hle Hp]. apply (IH (with_user u w)); [done|]. intros x u' HQ Hu. cbn in Hu. apply (HR x u'); [done|lia].
  - by destruct Hp.
Qed.
End Budget.
End Wp.

(** *** Partial correctness: if [m] returns, then with [Q] *)

Section Wlp.
  Context {S U H : Type}.
Abbreviation W := (world S U H).
  Implicit Types (w : W).

Definition wlp {B} (m : M W B) w (Q : B -> W -> Prop) : Prop := forall b w', m w = (Ret b, w') -> Q b w'.

Lemma wlp_ret {B} (b : B) w (Q : B -> W -> Prop) : Q b w -> wlp (ret b) w Q.
Proof. by intros HQ ? ? [= <- <-]. Qed.

Lemma wlp_bind {B C} (m : M W B) (k : B -> M W C) w Q : wlp m w (fun b w' => wlp (k b) w' Q) -> wlp (bind m k) w Q.
Proof. intros Hm b w'. unfold bind. destruct (m w) as [[a|e|] w1] eqn:E; [|done..]. by apply Hm. Qed.

Lemma wlp_mono {B} (m : M W B) w (Q Q' : B -> W -> Prop) : wlp m w Q -> (forall b w', Q b w' -> Q' b w') -> wlp m w Q'.
Proof. intros Hm HQ b w' E. auto. Qed.

Lemma wp_wlp {B} (m : M W B) w (Q Q' : B -> W -> Prop) : wp m w Q -> wlp m w Q' -> wp m w (fun b w' => Q b w' /\ Q' b w').
Proof. intros (b & w' & E & HQ) HQ'. exists b, w'. auto. Qed.

Lemma wlp_get {B C} (f : S -> B) (k : B -> M W C) w Q : wlp (k (f (w_self w))) w Q -> wlp (bind (get f) k) w Q.
Proof. done. Qed.
Lemma wlp_set {C} f (k : unit -> M W C) w Q : wlp (k tt) (with_self (f (w_self w)) w) Q -> wlp (bind (set f) k) w Q.
Proof. done. Qed.
Lemma wlp_set_last f w (Q : unit -> W -> Prop) : Q tt (with_self (f (w_self w)) w) -> wlp (set f) w Q.
Proof. by intros HQ ? ? [= <- <-]. Qed.
Lemma wlp_emit {C} h (k : unit -> M W C) w Q : wlp (k tt) (with_event h w) Q -> wlp (bind (emit h) k) w Q.
Proof. done. Qed.
Lemma wlp_lift {B C} (o : outcome B) (k : B -> M W C) w Q : (forall b, o = Ret b -> wlp (k b) w Q) -> wlp (bind (lift o) k) w Q.
Proof. intros Hk. apply wlp_bind. intros b w' [= -> <-]. by apply Hk. Qed.
Lemma wlp_encode {C} cap m (k : bt_status * list Z -> M W C) w Q : (forall e, wlp (k e) w Q) -> wlp (bind (encode_into cap m) k) w Q.
Proof. intros Hk. apply wlp_bind. intros b w'. unfold encode_into. destruct (m _) as [[] ?]; intros [= <- <-]; apply Hk. Qed.
Lemma wlp_try {B} (o : outcome B) w Q : (forall o', Q o' w) -> wlp (try (lift o)) w Q.
Proof. intros HQ b w'. unfold try, lift. destruct o; intros [= <- <-]; apply HQ. Qed.
Lemma wlp_on_user {B} (m : M U B) w Q : (forall b u, Q b (with_user u w)) -> wlp (try (on_user m)) w Q.
Proof. intros HQ b w'. unfold try, on_user. destruct (m (w_user w)) as [[] u]; intros [= <- <-]; apply HQ. Qed.

(** Without a budget, a program does not call. *)
Lemma pays_nothing {A R X} (P : A -> Prop) (Q : X -> Prop) (p : prog U A R X) :
  pays (fun _ => 0%nat) P Q p -> quiet (fun _ => 0%nat) Q p.
Proof.
  unfold quiet, pays. intros Hp u. specialize (Hp u). revert u Hp.
  induction p as [x|k IH|u' k IH|a k IH]; cbn [pays_from]; intros u Hp; [done|by apply IH|by destruct Hp; auto|lia].
Qed.

Lemma wlp_quiet {A R X} (call : A -> M W R) (P : A -> Prop) (Q : X -> Prop) (p : prog U A R X) w R' :
  pays (fun _ => 0%nat) P Q p -> (forall x u, Q x -> R' x (with_user u w)) -> wlp (run_prog call p) w R'.
Proof.
  intros Hp HR b w' E. apply pays_nothing in Hp.
  destruct (wp_quiet _ call Q p w R' Hp) as (b' & w'' & E' & HQ); [by auto|]. rewrite E in E'. by injection E' as -> ->.
Qed.
End Wlp.

(** One statement on the component's own state, and the resulting world. *)
Ltac world_simpl := unfold with_self, with_user, with_event; cbn [w_self w_user w_trace id].
Ltac wp_step := first [apply wp_get | apply wp_set | apply wp_emit | apply wp_set_last]; world_simpl.

End Callbacks.
