(* ===== verification/Queue.v ===== *)
(** * Intrusive FIFO: core/event/queue.c

    Nodes live in a heap; the queue is a head and a tail pointer.  The
    representation predicate [queue_rep] says which list of nodes a queue
    stands for, and any legal sequence of operations behaves as on lists. *)

From stdpp Require Import base list gmap.
From S2P Require Import Prelude.

Module Queue.

(** [struct bt_queue_node]: its only field is the link. *)
Record bt_queue_node : Type := { qn_next : option loc }.

Record bt_queue : Type := {
  q_head : option loc;
  q_tail : option loc;
}.

Abbreviation heap := (gmap loc bt_queue_node).

Definition bt_queue_init : bt_queue := {| q_head := None; q_tail := None |}.

Definition bt_queue_is_empty (q : bt_queue) : bool :=
  match q_head q with None => true | Some _ => false end.

Definition bt_queue_push (h : heap) (q : bt_queue) (node : loc) : outcome (bt_queue * heap) :=
  let? h := hst h node {| qn_next := None |} in
  match q_tail q with
  | Some t =>
      let? h := hst h t {| qn_next := Some node |} in
      Ret ({| q_head := q_head q; q_tail := Some node |}, h)
  | None => Ret ({| q_head := Some node; q_tail := Some node |}, h)
  end.

Definition bt_queue_pop (h : heap) (q : bt_queue) : outcome (option loc * bt_queue * heap) :=
  match q_head q with
  | None => Ret (None, q, h)
  | Some node =>
      let? n := hld h node in
      let hd := qn_next n in
      let q := {| q_head := hd;
                  q_tail := match hd with None => None | Some _ => q_tail q end |} in
      let? h := hst h node {| qn_next := None |} in
      Ret (Some node, q, h)
  end.

(** ** Specification *)

Definition queue_rep (h : heap) (q : bt_queue) (l : list loc) : Prop :=
  NoDup l /\ lseg qn_next h (q_head q) l None /\ q_tail q = last l.

Inductive qop : Type := Push (n : loc) | Pop.

(** The code run on a sequence of operations, collecting what [pop] returns. *)
Fixpoint run (ops : list qop) (h : heap) (q : bt_queue) : outcome (list (option loc) * bt_queue * heap) :=
  match ops with
  | [] => Ret ([], q, h)
  | Push n :: ops => let? r := bt_queue_push h q n in run ops r.2 r.1
  | Pop :: ops =>
      let? r := bt_queue_pop h q in
      let? s := run ops r.2 r.1.2 in
      Ret (r.1.1 :: s.1.1, s.1.2, s.2)
  end.

(** The same on lists.  Pushing a node that is queued already is not a legal
    operation of an intrusive queue: the whole run is then undefined. *)
Fixpoint spec_run (ops : list qop) (l : list loc) : option (list (option loc) * list loc) :=
  match ops with
  | [] => Some ([], l)
  | Push n :: ops => if decide (n ∈ l) then None else spec_run ops (l ++ [n])
  | Pop :: ops =>
      match spec_run ops (tail l) with
      | Some (out, l') => Some (head l :: out, l')
      | None => None
      end
  end.

(** ** Lemmas *)

Lemma init_rep h : queue_rep h bt_queue_init [].
Proof. split; [constructor|done]. Qed.

Lemma is_empty_spec h q l : queue_rep h q l ->
  bt_queue_is_empty q = match l with [] => true | _ => false end.
Proof.
  intros (_ & Hl & _). unfold bt_queue_is_empty. apply lseg_head in Hl as ->. by destruct l.
Qed.

Lemma push_spec h q l n : queue_rep h q l -> n ∈ dom h -> n ∉ l ->
  exists q' h', bt_queue_push h q n = Ret (q', h') /\ queue_rep h' q' (l ++ [n]) /\ dom h' = dom h.
Proof.
  intros (Hnd & Hl & Ht) Hn Hni. pose proof Hn as Hd. apply elem_of_dom in Hn as [v Hv].
  assert (NoDup (l ++ [n])) as Hnd'.
  { apply NoDup_app. split; [done|]. split; [|apply NoDup_singleton]. set_solver. }
  unfold bt_queue_push. rewrite (hst_spec _ _ _ _ Hv). cbn [obind]. rewrite Ht.
  destruct l as [|t l _] using rev_ind.
  - simpl. do 2 eexists. split; [done|]. split; [|set_solver].
    split; [done|]. split; [|done]. simpl. split; [done|]. eexists. by rewrite lookup_insert_eq.
  - rewrite last_snoc. apply lseg_app in Hl as (m & Hl & Htl). simpl in Htl.
    destruct Htl as (-> & w & Hw & _).
    assert (n <> t) as Hnt by set_solver.
    erewrite hst_spec by (by rewrite lookup_insert_ne). cbn [obind].
    do 2 eexists. split; [done|]. split.
    + split; [done|]. split; [|by rewrite last_snoc]. rewrite <- app_assoc. simpl.
      apply lseg_app. exists (Some t). split.
      * apply NoDup_app in Hnd as (_ & Hnd & _).
        apply lseg_insert; [set_solver|]. apply lseg_insert; [set_solver|done].
      * simpl. split; [done|]. eexists. rewrite lookup_insert_eq. split; [done|]. simpl.
        split; [done|]. eexists. rewrite lookup_insert_ne by done. by rewrite lookup_insert_eq.
    + rewrite !dom_insert_L. apply elem_of_dom_2 in Hw. set_solver.
Qed.

Lemma queue_pop_spec h q l : queue_rep h q l ->
  exists q' h', bt_queue_pop h q = Ret (head l, q', h') /\ queue_rep h' q' (tail l) /\
    dom h' = dom h.
Proof.
  intros (Hnd & Hl & Ht). unfold bt_queue_pop. pose proof (lseg_head _ _ _ _ Hl) as Hh.
  rewrite Hh in *. destruct l as [|n l]; simpl in *.
  { eexists _, _. split; [done|]. split; [|done]. split; [done|]. by rewrite Hh. }
  destruct Hl as (_ & v & Hv & Hl). rewrite (hld_spec _ _ _ Hv). cbn [obind].
  rewrite (hst_spec _ _ _ _ Hv). cbn [obind]. apply NoDup_cons in Hnd as [Hn Hnd].
  do 2 eexists. split; [done|]. split; [|apply elem_of_dom_2 in Hv; set_solver].
  split; [done|]. simpl. split; [by apply lseg_insert|].
  apply lseg_head in Hl as ->. rewrite Ht. by destruct l.
Qed.

(** The queue is a FIFO.  Starting from any queue that stands for the
    list [l], any sequence of pushes of allocated, not yet queued nodes and of
    pops runs without touching a dangling pointer, every pop returns exactly
    the node (or NULL) the list model returns, and the final pointers stand
    for the model's final list, so order, emptiness and the tail pointer are
    right after any interleaving, including a drain to empty and a refill. *)
Theorem queue_refines_fifo : forall ops h q l out l',
  queue_rep h q l -> (forall n, Push n ∈ ops -> n ∈ dom h) ->
  spec_run ops l = Some (out, l') ->
  exists q' h', run ops h q = Ret (out, q', h') /\ queue_rep h' q' l' /\
    bt_queue_is_empty q' = match l' with [] => true | _ => false end.
Proof.
  induction ops as [|[n|] ops IH]; intros h q l out l' Hrep Hin Hs; simpl in *.
  - injection Hs as <- <-. do 2 eexists. split; [done|]. split; [done|]. by eapply is_empty_spec.
  - case_decide as Hn; [done|].
    destruct (push_spec h q l n Hrep) as (q1 & h1 & -> & Hrep1 & Hd); [set_solver..|].
    cbn [obind fst snd]. eapply IH; [done| |done]. intros m Hm. rewrite Hd. set_solver.
  - destruct (spec_run ops (tail l)) as [[o1 l1]|] eqn:E; [|done]. injection Hs as <- <-.
    destruct (queue_pop_spec h q l Hrep) as (q1 & h1 & -> & Hrep1 & Hd). cbn [obind fst snd].
    edestruct (IH h1 q1) as (q2 & h2 & -> & Hrep2 & He); [done| |done|].
    { intros m Hm. rewrite Hd. set_solver. }
    cbn [obind fst snd]. do 2 eexists. split; [done|]. by split.
Qed.

Lemma queue_refines_fifo_witness :
  let h : heap := <[1%positive := Build_bt_queue_node None]>
                  {[2%positive := Build_bt_queue_node (Some 7%positive)]} in
  exists q' h', run [Push 1%positive; Push 2%positive; Pop; Pop; Pop] h bt_queue_init =
    Ret ([Some 1%positive; Some 2%positive; None], q', h') /\ queue_rep h' q' [] /\
    bt_queue_is_empty q' = true.
Proof.
  apply (queue_refines_fifo [Push 1%positive; Push 2%positive; Pop; Pop; Pop] _ bt_queue_init []).
  - apply init_rep.
  - intros n. rewrite !elem_of_cons, elem_of_nil. intros [[= ->]|[[= ->]|[?|[?|[?|?]]]]]; done || set_solver.
  - reflexivity.
Defined.

End Queue.
