(* ===== verification/Timer.v ===== *)
(** * Pending-timer list: core/timer/timer.c

    A list of timers sorted by expiry, linked through the timers themselves.
    The [struct bt_timer **cur] of the C loops is a [link]: the address of the
    list head or of some timer's [next].  The loops carry fuel, one more than
    the number of timers in memory; running out is a [Fault], which the
    refinement theorem excludes. *)

From Stdlib Require Import ZArith Lia Sorted.
From stdpp Require Import base list gmap sorting.
From S2P Require Import Prelude.

Module Timer.

Section Timer.
  (** [bt_timer_fn] and what [void *user_data] points to: the list never
      calls the one nor reads the other. *)
  Context {CB UD : Type}.

Record bt_timer : Type := {
  t_next : option loc;
  t_expiry_us : Z;
  t_callback : CB;
  t_user_data : UD;
  t_pending : bool;
}.

Abbreviation heap := (gmap loc bt_timer).

(** A [struct bt_timer_list] is its head pointer; the operations work on it
    and on the memory the timers live in. *)
Record tstate : Type := { tl_head : option loc; tl_mem : heap }.

(** [struct bt_timer **] *)
Inductive link : Type := LHead | LNext (t : loc).

Definition set_next (v : bt_timer) (p : option loc) : bt_timer :=
  {| t_next := p; t_expiry_us := t_expiry_us v; t_callback := t_callback v;
     t_user_data := t_user_data v; t_pending := t_pending v |}.

(** [*cur] and [*cur = p] *)
Definition deref (s : tstate) (cur : link) : outcome (option loc) :=
  match cur with
  | LHead => Ret (tl_head s)
  | LNext t => let? v := hld (tl_mem s) t in Ret (t_next v)
  end.

Definition assign (s : tstate) (cur : link) (p : option loc) : outcome tstate :=
  match cur with
  | LHead => Ret {| tl_head := p; tl_mem := tl_mem s |}
  | LNext t =>
      let? v := hld (tl_mem s) t in
      let? m := hst (tl_mem s) t (set_next v p) in
      Ret {| tl_head := tl_head s; tl_mem := m |}
  end.

Definition store (s : tstate) (t : loc) (v : bt_timer) : outcome tstate :=
  let? m := hst (tl_mem s) t v in Ret {| tl_head := tl_head s; tl_mem := m |}.

Definition bt_timer_init (s : tstate) (timer : loc) (callback : CB) (user_data : UD) : outcome tstate :=
  store s timer {| t_next := None; t_expiry_us := 0; t_callback := callback;
                   t_user_data := user_data; t_pending := false |}.

Definition bt_timer_list_init (s : tstate) : tstate := {| tl_head := None; tl_mem := tl_mem s |}.

(** The [while] of [bt_timer_list_cancel]. *)
Fixpoint cancel_loop (fuel : nat) (s : tstate) (cur : link) (timer : loc) : outcome tstate :=
  match fuel with
  | O => Fault
  | S fuel =>
      let? p := deref s cur in
      match p with
      | None => Ret s
      | Some t =>
          if decide (t = timer) then
            let? v := hld (tl_mem s) timer in assign s cur (t_next v)
          else cancel_loop fuel s (LNext t) timer
      end
  end.

Definition bt_timer_list_cancel (s : tstate) (timer : loc) : outcome tstate :=
  let? v := hld (tl_mem s) timer in
  if negb (t_pending v) then Ret s else
  let? s := cancel_loop (S (size (tl_mem s))) s LHead timer in
  let? v := hld (tl_mem s) timer in
  store s timer {| t_next := None; t_expiry_us := t_expiry_us v; t_callback := t_callback v;
                   t_user_data := t_user_data v; t_pending := false |}.

(** The [while] of [bt_timer_list_add]: where the timer goes. *)
Fixpoint add_loop (fuel : nat) (s : tstate) (cur : link) (expiry_us : Z) : outcome link :=
  match fuel with
  | O => Fault
  | S fuel =>
      let? p := deref s cur in
      match p with
      | None => Ret cur
      | Some t =>
          let? v := hld (tl_mem s) t in
          if t_expiry_us v <=? expiry_us then add_loop fuel s (LNext t) expiry_us
          else Ret cur
      end
  end.

Definition bt_timer_list_add (s : tstate) (timer : loc) (expiry_us : Z) : outcome tstate :=
  let? s := bt_timer_list_cancel s timer in
  let? v := hld (tl_mem s) timer in
  let? s := store s timer {| t_next := t_next v; t_expiry_us := expiry_us;
                             t_callback := t_callback v; t_user_data := t_user_data v;
                             t_pending := true |} in
  let? cur := add_loop (S (size (tl_mem s))) s LHead expiry_us in
  let? p := deref s cur in
  let? v := hld (tl_mem s) timer in
  let? s := store s timer (set_next v p) in
  assign s cur (Some timer).

Definition bt_timer_list_pop_expired (s : tstate) (now_us : Z) : outcome (option loc * tstate) :=
  match tl_head s with
  | None => Ret (None, s)
  | Some timer =>
      let? v := hld (tl_mem s) timer in
      if t_expiry_us v >? now_us then Ret (None, s) else
      let? s := store {| tl_head := t_next v; tl_mem := tl_mem s |} timer
                  {| t_next := None; t_expiry_us := t_expiry_us v; t_callback := t_callback v;
                     t_user_data := t_user_data v; t_pending := false |} in
      Ret (Some timer, s)
  end.

Definition bt_timer_list_next_expiry (s : tstate) : outcome Z :=
  match tl_head s with
  | None => Ret UINT64_MAX
  | Some t => let? v := hld (tl_mem s) t in Ret (t_expiry_us v)
  end.

(** ** Specification: a list of (timer, expiry) *)

Definition sp_cancel (t : loc) (l : list (loc * Z)) : list (loc * Z) :=
  filter (fun x => x.1 <> t) l.

(** After every timer that expires no later. *)
Fixpoint sp_insert (t : loc) (e : Z) (l : list (loc * Z)) : list (loc * Z) :=
  match l with
  | [] => [(t, e)]
  | x :: l => if x.2 <=? e then x :: sp_insert t e l else (t, e) :: x :: l
  end.

Definition sp_add (t : loc) (e : Z) (l : list (loc * Z)) : list (loc * Z) :=
  sp_insert t e (sp_cancel t l).

Definition sp_pop (now : Z) (l : list (loc * Z)) : option loc * list (loc * Z) :=
  match l with
  | [] => (None, [])
  | x :: l' => if x.2 <=? now then (Some x.1, l') else (None, l)
  end.

Inductive top : Type := Add (t : loc) (e : Z) | Cancel (t : loc) | PopExpired (now : Z).

Definition op_timer (o : top) : option loc :=
  match o with Add t _ => Some t | Cancel t => Some t | PopExpired _ => None end.

Fixpoint run (ops : list top) (s : tstate) : outcome (list (option loc) * tstate) :=
  match ops with
  | [] => Ret ([], s)
  | Add t e :: ops => let? s := bt_timer_list_add s t e in run ops s
  | Cancel t :: ops => let? s := bt_timer_list_cancel s t in run ops s
  | PopExpired now :: ops =>
      let? r := bt_timer_list_pop_expired s now in
      let? r' := run ops r.2 in
      Ret (r.1 :: r'.1, r'.2)
  end.

Fixpoint sp_run (ops : list top) (l : list (loc * Z)) : list (option loc) * list (loc * Z) :=
  match ops with
  | [] => ([], l)
  | Add t e :: ops => sp_run ops (sp_add t e l)
  | Cancel t :: ops => sp_run ops (sp_cancel t l)
  | PopExpired now :: ops =>
      let '(o, l) := sp_pop now l in
      let '(os, l) := sp_run ops l in (o :: os, l)
  end.

(** The timers of [l] are linked in order from the head, exactly they are
    marked pending, each with its expiry. *)
Definition timer_rep (s : tstate) (l : list (loc * Z)) : Prop :=
  NoDup l.*1 /\ lseg t_next (tl_mem s) (tl_head s) l.*1 None /\
  (forall t e, (t, e) ∈ l -> t_expiry_us <$> (tl_mem s !! t) = Some e) /\
  (forall t v, tl_mem s !! t = Some v -> t_pending v = bool_decide (t ∈ l.*1)).

(** Everything about the timers but their links. *)
Definition attrs (s : tstate) : gmap loc (Z * CB * UD * bool) :=
  (fun v => (t_expiry_us v, t_callback v, t_user_data v, t_pending v)) <$> tl_mem s.

Definition link_after (a : list loc) : link :=
  match last a with None => LHead | Some t => LNext t end.

(** ** Lemmas *)

Lemma deref_link s a b : lseg t_next (tl_mem s) (tl_head s) (a ++ b) None ->
  deref s (link_after a) = Ret (head b).
Proof.
  intros H. apply lseg_app in H as (m & Ha & Hb). apply lseg_head in Hb as ->.
  unfold link_after. destruct a as [|t a _] using rev_ind; simpl in *; [by rewrite Ha|].
  rewrite last_snoc. apply lseg_app in Ha as (m & _ & Hm). simpl in *.
  destruct Hm as (_ & v & Hv & Hm). rewrite (hld_spec _ _ _ Hv). simpl. by rewrite Hm.
Qed.

Lemma attrs_lookup s t : attrs s !! t =
  (fun v => (t_expiry_us v, t_callback v, t_user_data v, t_pending v)) <$> tl_mem s !! t.
Proof. apply lookup_fmap. Qed.

Lemma attrs_insert h m t v : attrs {| tl_head := h; tl_mem := <[t := v]> m |} =
  <[t := (t_expiry_us v, t_callback v, t_user_data v, t_pending v)]> (attrs {| tl_head := h; tl_mem := m |}).
Proof. unfold attrs. simpl. by rewrite fmap_insert. Qed.

Lemma attrs_set_next h h' m t v p : m !! t = Some v ->
  attrs {| tl_head := h; tl_mem := <[t := set_next v p]> m |} = attrs {| tl_head := h'; tl_mem := m |}.
Proof.
  intros Hv. rewrite attrs_insert. simpl. apply insert_id. rewrite attrs_lookup. simpl. by rewrite Hv.
Qed.

Lemma attrs_size s s' : attrs s = attrs s' -> size (tl_mem s) = size (tl_mem s').
Proof.
  intros H. apply (f_equal size) in H. unfold attrs in H. by rewrite !map_size_fmap in H.
Qed.

Lemma store_spec s t v w : tl_mem s !! t = Some w ->
  store s t v = Ret {| tl_head := tl_head s; tl_mem := <[t := v]> (tl_mem s) |}.
Proof. intros H. unfold store. by rewrite (hst_spec _ _ _ _ H). Qed.

Lemma assign_link s a b p : NoDup a -> lseg t_next (tl_mem s) (tl_head s) (a ++ b) None ->
  exists s', assign s (link_after a) p = Ret s' /\
    lseg t_next (tl_mem s') (tl_head s') a p /\ attrs s' = attrs s /\
    forall t, t ∉ a -> tl_mem s' !! t = tl_mem s !! t.
Proof.
  intros Hnd H. apply lseg_app in H as (m & Ha & _). unfold link_after.
  destruct a as [|t a _] using rev_ind; [by eexists|].
  rewrite last_snoc. apply lseg_app in Ha as (m' & Ha & (-> & v & Hv & _)). simpl.
  rewrite (hld_spec _ _ _ Hv). cbn [obind]. rewrite (hst_spec _ _ _ _ Hv). cbn [obind].
  apply NoDup_app in Hnd as (Hnd & Hni & _).
  eexists. split; [done|]. simpl. split.
  { apply lseg_app. exists (Some t). split; [apply lseg_insert; [set_solver|done]|].
    simpl. split; [done|]. eexists. by rewrite lookup_insert_eq. }
  split.
  { rewrite (attrs_set_next _ (tl_head s)) by done. by destruct s. }
  intros x Hx. rewrite lookup_insert_ne; [done|]. set_solver.
Qed.

Lemma lseg_frame m m' p q (l : list loc) : (forall t, t ∈ l -> m' !! t = m !! t) ->
  lseg t_next m p l q -> lseg t_next m' p l q.
Proof.
  revert p. induction l as [|t l IH]; intros p Hf; simpl; [done|].
  intros (-> & v & Hv & Hl). split; [done|]. exists v. rewrite Hf by set_solver.
  split; [done|]. apply IH; [|done]. intros. apply Hf. set_solver.
Qed.

Lemma cancel_loop_spec t b2 : forall b1 fuel s a, (length b1 < fuel)%nat ->
  NoDup (a ++ b1 ++ t :: b2) ->
  lseg t_next (tl_mem s) (tl_head s) (a ++ b1 ++ t :: b2) None ->
  exists s', cancel_loop fuel s (link_after a) t = Ret s' /\
    lseg t_next (tl_mem s') (tl_head s') (a ++ b1 ++ b2) None /\ attrs s' = attrs s.
Proof.
  induction b1 as [|x b1 IH]; intros [|fuel] s a Hf Hnd Hl; simpl in Hf; try lia; simpl.
  - rewrite (deref_link s a (t :: b2)) by done. cbn [obind head]. rewrite decide_True by done.
    pose proof Hl as Hl'. apply lseg_app in Hl' as (m & Ha & (-> & v & Hv & Hb)).
    rewrite (hld_spec _ _ _ Hv). cbn [obind].
    apply NoDup_app in Hnd as (Hna & Hd & Hnb).
    destruct (assign_link s a (t :: b2) (t_next v)) as (s' & -> & Ha' & Hat & Hfr); [done..|].
    exists s'. split; [done|]. split; [|done]. apply lseg_app. exists (t_next v). split; [done|].
    eapply lseg_frame; [|done]. intros y Hy. apply Hfr. intros Hya. apply (Hd y Hya). set_solver.
  - rewrite (deref_link s a (x :: b1 ++ t :: b2)) by done. cbn [obind head].
    assert (x <> t).
    { apply NoDup_app in Hnd as (_ & _ & Hnd). apply NoDup_cons in Hnd as [Hx _]. set_solver. }
    rewrite decide_False by done.
    destruct (IH fuel s (a ++ [x])) as (s' & Hc & Hl' & Hat); [lia|by rewrite <- app_assoc..|].
    unfold link_after in Hc. rewrite last_snoc in Hc. rewrite Hc. exists s'. split; [done|].
    by rewrite <- app_assoc in Hl'.
Qed.

Lemma sp_cancel_absent t l : t ∉ l.*1 -> sp_cancel t l = l.
Proof.
  intros Ht. unfold sp_cancel. induction l as [|[x e] l IH]; [done|].
  rewrite filter_cons. simpl in *. rewrite decide_True by set_solver. f_equal. apply IH. set_solver.
Qed.

Lemma sp_cancel_all t l : (forall x, x ∈ l -> x.1 = t) -> sp_cancel t l = [].
Proof.
  intros Hl. unfold sp_cancel. induction l as [|x l IH]; [done|].
  rewrite filter_cons, decide_False; [|intros Hx; apply Hx, Hl; by left].
  apply IH. intros y Hy. apply Hl. by right.
Qed.

Lemma sp_cancel_split t e b1 b2 : t ∉ b1.*1 -> t ∉ b2.*1 ->
  sp_cancel t (b1 ++ (t, e) :: b2) = b1 ++ b2.
Proof.
  intros H1 H2. unfold sp_cancel. rewrite filter_app, filter_cons, decide_False by naive_solver.
  f_equal; by apply sp_cancel_absent.
Qed.

Lemma sp_insert_split t e l : exists b1 b2, l = b1 ++ b2 /\ sp_insert t e l = b1 ++ (t, e) :: b2.
Proof.
  induction l as [|x l (b1 & b2 & -> & IH)]; simpl; [by exists [], []|].
  destruct (x.2 <=? e).
  - exists (x :: b1), b2. split; [done|]. by rewrite IH.
  - by exists [], (x :: b1 ++ b2).
Qed.

Lemma sp_insert_fst t e l x : x ∈ (sp_insert t e l).*1 <-> x = t \/ x ∈ l.*1.
Proof.
  destruct (sp_insert_split t e l) as (b1 & b2 & -> & ->).
  rewrite !fmap_app, fmap_cons. set_solver.
Qed.

(** What is known of a timer in memory, from the representation. *)
Lemma rep_attrs s l t v : timer_rep s l -> tl_mem s !! t = Some v ->
  t_pending v = bool_decide (t ∈ l.*1) /\ forall e, (t, e) ∈ l -> t_expiry_us v = e.
Proof.
  intros (_ & _ & He & Hp) Hv. split; [by apply Hp|]. intros e Hin.
  specialize (He t e Hin). rewrite Hv in He. by injection He.
Qed.

Definition attr4 (v : bt_timer) (e : Z) (p : bool) : Z * CB * UD * bool :=
  (e, t_callback v, t_user_data v, p).

(** The representation from its parts: the links, and one timer whose
    attributes changed. *)
Lemma rep_update s s' l l' t v e p : timer_rep s l -> tl_mem s !! t = Some v ->
  attrs s' = <[t := attr4 v e p]> (attrs s) ->
  NoDup l'.*1 -> lseg t_next (tl_mem s') (tl_head s') l'.*1 None ->
  p = bool_decide (t ∈ l'.*1) -> (forall e', (t, e') ∈ l' -> e' = e) ->
  (forall x, x.1 <> t -> (x ∈ l' <-> x ∈ l)) ->
  timer_rep s' l'.
Proof.
  intros (_ & _ & He & Hp) Hv Ha Hnd Hl Hpt Het Hrest.
  assert (forall x, x <> t -> attrs s' !! x = attrs s !! x) as Hne.
  { intros x Hx. rewrite Ha. by apply lookup_insert_ne. }
  assert (attrs s' !! t = Some (attr4 v e p)) as Heq by (rewrite Ha; apply lookup_insert_eq).
  split; [done|]. split; [done|]. split.
  - intros x ex Hx. destruct (decide (x = t)) as [->|Hxt].
    + rewrite attrs_lookup in Heq. destruct (tl_mem s' !! t); [|done]. simpl in *.
      injection Heq as -> _ _ _. by rewrite (Het ex).
    + specialize (Hne x Hxt). rewrite !attrs_lookup in Hne.
      apply Hrest in Hx; [|done]. specialize (He x ex Hx).
      destruct (tl_mem s' !! x), (tl_mem s !! x); simpl in *; congruence.
  - intros x w Hw. destruct (decide (x = t)) as [->|Hxt].
    + rewrite attrs_lookup, Hw in Heq. simpl in Heq. unfold attr4 in Heq. congruence.
    + specialize (Hne x Hxt). rewrite !attrs_lookup, Hw in Hne.
      destruct (tl_mem s !! x) as [u|] eqn:Hu; [|done]. simpl in Hne.
      specialize (Hp x u Hu). injection Hne as _ _ _ ->. rewrite Hp.
      apply bool_decide_ext. rewrite !list_elem_of_fmap.
      split; intros ([y ey] & -> & Hy); exists (y, ey); (split; [done|]); by apply Hrest.
Qed.

Lemma cancel_spec s l t v : timer_rep s l -> tl_mem s !! t = Some v ->
  exists s', bt_timer_list_cancel s t = Ret s' /\ timer_rep s' (sp_cancel t l) /\
    attrs s' = <[t := attr4 v (t_expiry_us v) false]> (attrs s).
Proof.
  intros Hrep Hv. pose proof Hrep as (Hnd & Hl & He & Hp). pose proof (Hp t v Hv) as Hpt.
  unfold bt_timer_list_cancel. rewrite (hld_spec _ _ _ Hv). cbn [obind].
  case_bool_decide as Hin; rewrite Hpt; cbn [negb].
  - pose proof Hin as Hin'. apply list_elem_of_fmap in Hin' as ([t' e] & Heq & Hte). simpl in Heq. subst t'.
    apply list_elem_of_split in Hte as (b1 & b2 & ->).
    rewrite fmap_app, fmap_cons in Hnd, Hl. simpl in Hnd, Hl.
    pose proof (lseg_size _ _ _ _ _ Hnd Hl) as Hsz. rewrite length_app in Hsz. simpl in Hsz.
    destruct (cancel_loop_spec t b2.*1 b1.*1 (S (size (tl_mem s))) s []) as (s1 & Hc & Hl1 & Ha1);
      [lia|done..|].
    unfold link_after in Hc. simpl last in Hc. rewrite Hc. cbn [obind].
    assert (exists v1, tl_mem s1 !! t = Some v1 /\ t_expiry_us v1 = t_expiry_us v /\
      t_callback v1 = t_callback v /\ t_user_data v1 = t_user_data v) as (v1 & Hv1 & E1 & E2 & E3).
    { pose proof (f_equal (lookup t) Ha1) as H. rewrite !attrs_lookup, Hv in H.
      destruct (tl_mem s1 !! t) as [v1|]; [|done]. simpl in H. exists v1. by injection H. }
    rewrite (hld_spec _ _ _ Hv1). cbn [obind]. rewrite (store_spec _ _ _ _ Hv1).
    assert ((t ∉ b1.*1) /\ (t ∉ b2.*1)) as [Hn1 Hn2].
    { apply NoDup_app in Hnd as (_ & Hd & Hnd). apply NoDup_cons in Hnd as [? _].
      split; [|done]. intros Ht. apply (Hd t Ht). set_solver. }
    eexists. split; [done|]. rewrite sp_cancel_split by done.
    match goal with |- timer_rep ?x _ /\ _ => assert (attrs x = <[t := attr4 v (t_expiry_us v) false]> (attrs s)) as Ha end.
    { rewrite attrs_insert. simpl. replace {| tl_head := tl_head s1; tl_mem := tl_mem s1 |} with s1 by (by destruct s1).
      by rewrite Ha1, E1, E2, E3. }
    split; [|done]. simpl app in Hl1. rewrite <- fmap_app in Hl1.
    eapply (rep_update s _ _ _ t v); try done.
    + rewrite fmap_app. apply NoDup_app in Hnd as (? & Hd & Hnd). apply NoDup_cons in Hnd as [_ Hnd].
      apply NoDup_app. split; [done|]. split; [|done]. intros x Hx Hx2. apply (Hd x Hx). set_solver.
    + simpl. apply lseg_insert; [|done]. rewrite fmap_app. set_solver.
    + rewrite bool_decide_false; [done|]. rewrite fmap_app. set_solver.
    + intros e' He'. exfalso. assert (t ∈ (b1 ++ b2).*1) by (apply list_elem_of_fmap; by exists (t, e')).
      rewrite fmap_app in *. set_solver.
    + intros x Hx. rewrite !elem_of_app, elem_of_cons. naive_solver.
  - rewrite sp_cancel_absent by done. exists s. split; [done|]. split; [done|].
    symmetry. apply insert_id. rewrite attrs_lookup, Hv. simpl. unfold attr4. by rewrite Hpt.
Qed.

Lemma add_loop_spec t e : forall l fuel s a, (length l < fuel)%nat ->
  lseg t_next (tl_mem s) (tl_head s) (a ++ l.*1) None ->
  (forall x ex, (x, ex) ∈ l -> t_expiry_us <$> (tl_mem s !! x) = Some ex) ->
  exists b1 b2, l = b1 ++ b2 /\ add_loop fuel s (link_after a) e = Ret (link_after (a ++ b1.*1)) /\
    sp_insert t e l = b1 ++ (t, e) :: b2.
Proof.
  induction l as [|[x ex] l IH]; intros [|fuel] s a Hf Hl He; simpl in Hf; try lia; simpl.
  - rewrite (deref_link _ _ _ Hl). cbn [obind head]. exists [], []. by rewrite !app_nil_r.
  - rewrite (deref_link _ _ _ Hl). cbn [obind head fmap list_fmap fst].
    pose proof (He x ex ltac:(left)) as Hx. apply fmap_Some in Hx as (v & Hv & ->).
    rewrite (hld_spec _ _ _ Hv). cbn [obind]. destruct (t_expiry_us v <=? e) eqn:Hle.
    + destruct (IH fuel s (a ++ [x])) as (b1 & b2 & -> & Hc & Hi); [lia|by rewrite <- app_assoc| |].
      { intros y ey Hy. apply He. by right. }
      exists ((x, t_expiry_us v) :: b1), b2. split; [done|].
      unfold link_after at 1 in Hc. rewrite last_snoc in Hc. rewrite Hc, Hi.
      split; [|done]. by rewrite <- app_assoc.
    + exists [], ((x, t_expiry_us v) :: l). by rewrite app_nil_r.
Qed.

Lemma add_spec s l t e v : timer_rep s l -> tl_mem s !! t = Some v ->
  exists s', bt_timer_list_add s t e = Ret s' /\ timer_rep s' (sp_add t e l) /\
    attrs s' = <[t := attr4 v e true]> (attrs s).
Proof.
  intros Hrep Hv. destruct (cancel_spec s l t v Hrep Hv) as (s1 & Hc & Hrep1 & Ha1).
  unfold bt_timer_list_add. rewrite Hc. cbn [obind]. unfold sp_add.
  remember (sp_cancel t l) as l1 eqn:El. pose proof Hrep1 as (Hnd & Hl & He & Hp).
  assert (t ∉ l1.*1) as Hni.
  { subst l1. unfold sp_cancel. rewrite list_elem_of_fmap. intros (y & -> & Hy).
    apply list_elem_of_filter in Hy. naive_solver. }
  assert (exists v1, tl_mem s1 !! t = Some v1 /\ t_callback v1 = t_callback v /\
    t_user_data v1 = t_user_data v) as (v1 & Hv1 & E2 & E3).
  { pose proof (f_equal (lookup t) Ha1) as H. rewrite attrs_lookup, lookup_insert_eq in H.
    destruct (tl_mem s1 !! t) as [v1|]; [|done]. exists v1. by injection H. }
  rewrite (hld_spec _ _ _ Hv1). cbn [obind]. rewrite (store_spec _ _ _ _ Hv1). cbn [obind].
  set (w := {| t_next := t_next v1; t_expiry_us := e; t_callback := t_callback v1;
               t_user_data := t_user_data v1; t_pending := true |}).
  set (s2 := {| tl_head := tl_head s1; tl_mem := <[t := w]> (tl_mem s1) |}).
  assert (lseg t_next (tl_mem s2) (tl_head s2) l1.*1 None) as Hl2 by by apply lseg_insert.
  destruct (add_loop_spec t e l1 (S (size (tl_mem s2))) s2 []) as (b1 & b2 & -> & Hloop & Hins).
  { pose proof (lseg_size _ _ _ _ _ Hnd Hl2) as Hsz. rewrite length_fmap in Hsz. lia. }
  { done. }
  { intros x ex Hx. simpl. rewrite lookup_insert_ne; [by apply He|].
    intros ->. apply Hni, list_elem_of_fmap. by exists (x, ex). }
  unfold link_after at 1 in Hloop. simpl last in Hloop. rewrite Hloop. cbn [obind app].
  rewrite fmap_app in *. rewrite (deref_link s2 b1.*1 b2.*1) by done. cbn [obind].
  assert (tl_mem s2 !! t = Some w) as Hw by apply lookup_insert_eq.
  rewrite (hld_spec _ _ _ Hw). cbn [obind]. rewrite (store_spec _ _ _ _ Hw). cbn [obind].
  set (s3 := {| tl_head := tl_head s2; tl_mem := <[t := set_next w (head b2.*1)]> (tl_mem s2) |}).
  assert (lseg t_next (tl_mem s3) (tl_head s3) (b1.*1 ++ b2.*1) None) as Hl3 by by apply lseg_insert.
  apply NoDup_app in Hnd as Hnd'. destruct Hnd' as (Hnd1 & Hdis & Hnd2).
  destruct (assign_link s3 b1.*1 b2.*1 (Some t)) as (s4 & -> & Hl4 & Ha4 & Hfr); [done..|].
  exists s4. split; [done|].
  assert (attrs s4 = <[t := attr4 v e true]> (attrs s)) as Ha.
  { rewrite Ha4. subst s3. rewrite (attrs_set_next _ (tl_head s2)) by done. simpl.
    rewrite attrs_insert. simpl. replace {| tl_head := tl_head s1; tl_mem := tl_mem s1 |} with s1 by (by destruct s1).
    rewrite Ha1, insert_insert_eq. unfold attr4. by rewrite E2, E3. }
  split; [|done]. rewrite Hins.
  assert (lseg t_next (tl_mem s4) (tl_head s4) (b1 ++ (t, e) :: b2).*1 None) as Hlf.
  { rewrite fmap_app, fmap_cons. simpl fst. apply lseg_app. exists (Some t). split; [done|]. split; [done|].
    exists (set_next w (head b2.*1)). rewrite Hfr by set_solver. simpl. rewrite lookup_insert_eq.
    split; [done|]. apply lseg_app in Hl3 as (m & _ & Hl3). pose proof (lseg_head _ _ _ _ Hl3) as ->.
    eapply lseg_frame; [|done]. intros y Hy. apply Hfr. intros ?. by apply (Hdis y). }
  apply (rep_update s _ l _ t v e true); try done.
  - rewrite fmap_app, fmap_cons. simpl. apply NoDup_app. split; [done|]. split; [|by apply NoDup_cons; set_solver].
    intros x Hx. rewrite elem_of_cons. intros [->|Hx2]; [set_solver|by apply (Hdis x)].
  - rewrite bool_decide_true; [done|]. rewrite fmap_app, fmap_cons. set_solver.
  - intros e'. rewrite elem_of_app, elem_of_cons. intros [Hb|[[=]|Hb]]; [|done|];
      exfalso; apply Hni, elem_of_app; [left|right]; apply list_elem_of_fmap; by exists (t, e').
  - intros x Hx. transitivity (x ∈ b1 ++ b2); [rewrite !elem_of_app, elem_of_cons; naive_solver|].
    rewrite El. unfold sp_cancel. rewrite list_elem_of_filter. naive_solver.
Qed.

Lemma timer_pop_spec s l now : timer_rep s l ->
  exists s', bt_timer_list_pop_expired s now = Ret ((sp_pop now l).1, s') /\
    timer_rep s' (sp_pop now l).2 /\ dom (tl_mem s') = dom (tl_mem s).
Proof.
  intros Hrep. pose proof Hrep as (Hnd & Hl & He & Hp). unfold bt_timer_list_pop_expired.
  rewrite (lseg_head _ _ _ _ Hl). destruct l as [|[t e] l]; simpl in *; [by exists s|].
  destruct Hl as (Hh & v & Hv & Hl). rewrite (hld_spec _ _ _ Hv). cbn [obind].
  assert (t_expiry_us v = e) as Ee.
  { specialize (He t e ltac:(left)). rewrite Hv in He. by injection He. }
  rewrite Ee. rewrite Z.gtb_ltb, Z.ltb_antisym. destruct (e <=? now); simpl; [|by exists s].
  erewrite store_spec by done. cbn [obind]. eexists. split; [done|].
  apply NoDup_cons in Hnd as [Hni Hnd].
  split; [|simpl; apply elem_of_dom_2 in Hv; set_solver].
  eapply (rep_update s _ _ _ t v e false); try done.
  - rewrite attrs_insert. by destruct s.
  - simpl. by apply lseg_insert.
  - by rewrite bool_decide_false.
  - intros e' Hin. exfalso. apply Hni, list_elem_of_fmap. by exists (t, e').
  - intros x Hx. rewrite elem_of_cons. naive_solver.
Qed.

(** Popping changes no timer's callback. *)
Lemma pop_callbacks s now o s' t v' : bt_timer_list_pop_expired s now = Ret (o, s') ->
  tl_mem s' !! t = Some v' -> exists v, tl_mem s !! t = Some v /\
    t_callback v' = t_callback v /\ t_user_data v' = t_user_data v.
Proof.
  unfold bt_timer_list_pop_expired. destruct (tl_head s) as [x|]; [|intros [= <- <-]; eauto].
  unfold hld. destruct (tl_mem s !! x) as [u|] eqn:Hu; [|done]. cbn [obind].
  destruct (_ >? _); [intros [= <- <-]; eauto|]. rewrite (store_spec _ _ _ u) by done. cbn [obind].
  intros [= <- <-]. cbn [tl_mem]. rewrite lookup_insert_Some. intros [[<- <-]|[_ ?]]; eauto.
Qed.

Lemma attrs_dom s s' t x v : attrs s' = <[t := x]> (attrs s) -> tl_mem s !! t = Some v ->
  dom (tl_mem s') = dom (tl_mem s).
Proof.
  intros H Hv. apply (f_equal dom) in H. unfold attrs in H. rewrite dom_insert_L, !dom_fmap_L in H.
  apply elem_of_dom_2 in Hv. set_solver.
Qed.

Lemma next_expiry_spec s l : timer_rep s l ->
  bt_timer_list_next_expiry s = Ret (match l with [] => UINT64_MAX | x :: _ => x.2 end).
Proof.
  intros (_ & Hl & He & _). unfold bt_timer_list_next_expiry. rewrite (lseg_head _ _ _ _ Hl).
  destruct l as [|[t e] l]; [done|]. simpl in *. destruct Hl as (_ & v & Hv & _).
  rewrite (hld_spec _ _ _ Hv). specialize (He t e ltac:(left)). rewrite Hv in He.
  simpl in *. by injection He as ->.
Qed.

(** ** Properties *)

Lemma run_refines ops : forall s l,
  timer_rep s l -> (forall o t, o ∈ ops -> op_timer o = Some t -> t ∈ dom (tl_mem s)) ->
  exists s', run ops s = Ret ((sp_run ops l).1, s') /\ timer_rep s' (sp_run ops l).2.
Proof.
  induction ops as [|[t e|t|now] ops IH]; intros s l Hrep Hd; simpl.
  - by exists s.
  - assert (is_Some (tl_mem s !! t)) as [v Hv].
    { apply (elem_of_dom (D := gset loc)), (Hd (Add t e)); [left|done]. }
    destruct (add_spec s l t e v Hrep Hv) as (s1 & -> & Hrep1 & Ha). cbn [obind].
    apply IH; [done|]. intros o x Ho Hx. rewrite (attrs_dom _ _ _ _ _ Ha Hv). eapply Hd; [by right|done].
  - assert (is_Some (tl_mem s !! t)) as [v Hv].
    { apply (elem_of_dom (D := gset loc)), (Hd (Cancel t)); [left|done]. }
    destruct (cancel_spec s l t v Hrep Hv) as (s1 & -> & Hrep1 & Ha). cbn [obind].
    apply IH; [done|]. intros o x Ho Hx. rewrite (attrs_dom _ _ _ _ _ Ha Hv). eapply Hd; [by right|done].
  - destruct (timer_pop_spec s l now Hrep) as (s1 & -> & Hrep1 & Hdom). cbn [obind fst snd].
    destruct (sp_pop now l) as [o l1]. simpl in *.
    destruct (IH s1 l1 Hrep1) as (s2 & -> & Hrep2).
    { intros o' x Ho Hx. rewrite Hdom. eapply Hd; [by right|done]. }
    cbn [obind fst snd]. destruct (sp_run ops l1). by exists s2.
Qed.

Definition by_expiry (x y : loc * Z) : Prop := x.2 <= y.2.

Lemma sp_cancel_sorted t l : StronglySorted by_expiry l -> StronglySorted by_expiry (sp_cancel t l).
Proof.
  unfold sp_cancel. induction 1 as [|x l Hs IH Hx]; [constructor|]. rewrite filter_cons.
  case_decide; [|done]. constructor; [done|]. rewrite Forall_forall in *. intros y Hy.
  apply list_elem_of_filter in Hy as [_ Hy]. by apply Hx.
Qed.

Lemma sp_add_sorted t e l : StronglySorted by_expiry l -> StronglySorted by_expiry (sp_add t e l).
Proof.
  intros H. apply (sp_cancel_sorted t) in H. unfold sp_add. revert H.
  generalize (sp_cancel t l). clear l. induction 1 as [|x l Hs IH Hx]; simpl; [repeat constructor|].
  destruct (Z.leb_spec x.2 e).
  - constructor; [done|]. rewrite Forall_forall in *. intros y Hy.
    destruct (sp_insert_split t e l) as (b1 & b2 & -> & Hi). rewrite Hi in Hy.
    rewrite elem_of_app, elem_of_cons in Hy. destruct Hy as [Hy|[->|Hy]];
      [apply Hx; set_solver|done|apply Hx; set_solver].
  - constructor; [by constructor|]. constructor; [unfold by_expiry; simpl; lia|].
    eapply Forall_impl; [exact Hx|]. unfold by_expiry. simpl. lia.
Qed.

Lemma sp_run_sorted ops : forall l, StronglySorted by_expiry l ->
  StronglySorted by_expiry (sp_run ops l).2.
Proof.
  induction ops as [|[t e|t|n] ops IH]; intros l Hl; simpl; [done| | |].
  - by apply IH, sp_add_sorted.
  - by apply IH, sp_cancel_sorted.
  - destruct (sp_pop n l) as [o l'] eqn:E. specialize (IH l').
    destruct (sp_run ops l'). apply IH. unfold sp_pop in E. destruct l as [|x l]; [by injection E as <- <-|].
    destruct (x.2 <=? n); injection E as <- <-; [|done]. by inv Hl.
Qed.

(** The timers marked pending in memory are the listed ones. *)
Lemma rep_pending s l t v : timer_rep s l -> tl_mem s !! t = Some v ->
  t_pending v = true -> (t, t_expiry_us v) ∈ l.
Proof.
  intros (_ & _ & He & Hp) Hv Ht. rewrite (Hp t v Hv), bool_decide_eq_true in Ht.
  apply list_elem_of_fmap in Ht as ([x e] & -> & Hx). simpl in *. specialize (He x e Hx).
  rewrite Hv in He. by injection He as ->.
Qed.

(** C38.  The pointer code implements the sorted list.  From any list that
    stands for [l], any sequence of add, cancel and pop-expired on timers that
    exist (pending or not: re-adding moves, cancelling an idle timer does
    nothing) terminates without touching a dangling pointer, every pop returns
    the timer the list model returns, the links, the pending flags and the
    expiries stay consistent with the model's list, and [next_expiry] reports
    its head. *)
Theorem timer_list_refines_sorted_list : forall ops s l,
  timer_rep s l -> (forall o t, o ∈ ops -> op_timer o = Some t -> t ∈ dom (tl_mem s)) ->
  exists s', run ops s = Ret ((sp_run ops l).1, s') /\ timer_rep s' (sp_run ops l).2 /\
    bt_timer_list_next_expiry s' =
      Ret (match (sp_run ops l).2 with [] => UINT64_MAX | x :: _ => x.2 end).
Proof.
  intros ops s l Hrep Hd. destruct (run_refines ops s l Hrep Hd) as (s' & Hr & Hrep').
  exists s'. split; [done|]. split; [done|]. by apply next_expiry_spec.
Qed.

(** Timers fire in order and never early.  After any sequence of add,
    cancel and pop-expired starting from an empty list, a further pop at time
    [now] returns a timer exactly when some pending timer is due: the timer
    returned was pending and due, and no pending timer expires before it; NULL
    means that every pending timer lies in the future. *)
Theorem timer_pop_earliest : forall ops s now,
  timer_rep s [] -> (forall o t, o ∈ ops -> op_timer o = Some t -> t ∈ dom (tl_mem s)) ->
  exists outs s1 o s2, run ops s = Ret (outs, s1) /\
    bt_timer_list_pop_expired s1 now = Ret (o, s2) /\
    match o with
    | Some t => exists v, tl_mem s1 !! t = Some v /\ t_pending v = true /\ t_expiry_us v <= now /\
        forall t' v', tl_mem s1 !! t' = Some v' -> t_pending v' = true -> t_expiry_us v <= t_expiry_us v'
    | None => forall t' v', tl_mem s1 !! t' = Some v' -> t_pending v' = true -> now < t_expiry_us v'
    end.
Proof.
  intros ops s now Hrep Hd. destruct (run_refines ops s [] Hrep Hd) as (s1 & Hr & Hrep1).
  pose proof (sp_run_sorted ops [] ltac:(constructor)) as Hs.
  destruct (timer_pop_spec s1 _ now Hrep1) as (s2 & Hp & _).
  do 4 eexists. split; [exact Hr|]. split; [exact Hp|].
  revert Hrep1 Hs. generalize (sp_run ops []).2. intros l Hrep1 Hs. unfold sp_pop.
  destruct l as [|[x e] l]; simpl.
  { intros t' v' Hv' Hp'. pose proof (rep_pending _ _ _ _ Hrep1 Hv' Hp'). set_solver. }
  assert (forall t' v', tl_mem s1 !! t' = Some v' -> t_pending v' = true -> e <= t_expiry_us v') as Hmin.
  { intros t' v' Hv' Hp'. pose proof (rep_pending _ _ _ _ Hrep1 Hv' Hp') as Hin. inv Hs.
    apply elem_of_cons in Hin as [[= -> ->]|Hin]; [lia|].
    by eapply (proj1 (Forall_forall _ _)) in Hin; [|eassumption]. }
  destruct (Z.leb_spec e now); simpl.
  - pose proof Hrep1 as (_ & _ & He & Hpd). specialize (He x e ltac:(left)).
    destruct (tl_mem s1 !! x) as [v|] eqn:Hv; [|done]. injection He as <-.
    exists v. split; [done|]. split; [|done]. rewrite (Hpd x v Hv). apply bool_decide_eq_true. left.
  - intros t' v' Hv' Hp'. specialize (Hmin t' v' Hv' Hp'). lia.
Qed.

End Timer.
Arguments bt_timer : clear implicits.
Arguments tstate : clear implicits.

(** Three timers in memory; the witnesses add, re-add, cancel and pop them. *)
Definition demo_timer : bt_timer unit unit := Build_bt_timer None 0 tt tt false.
Definition demo : tstate unit unit :=
  {| tl_head := None; tl_mem := <[1%positive := demo_timer]> (<[2%positive := demo_timer]>
                                 {[3%positive := demo_timer]}) |}.

Lemma demo_rep : timer_rep demo [].
Proof.
  split; [constructor|]. split; [done|]. split; [intros t e H; inv H|].
  intros t v. unfold demo. simpl. rewrite !lookup_insert_Some, lookup_singleton_Some. naive_solver.
Qed.

Definition demo_ops : list top :=
  [Add 1%positive 10; Add 2%positive 5; Add 3%positive 5; Add 1%positive 5; Cancel 2%positive].

Lemma demo_legal : forall o t, o ∈ demo_ops -> op_timer o = Some t -> t ∈ dom (tl_mem demo).
Proof.
  intros o t Ho Ht. unfold demo_ops in Ho. rewrite !elem_of_cons, elem_of_nil in Ho.
  destruct_or! Ho; subst; simpl in Ht; simplify_eq; set_solver.
Qed.

Lemma timer_list_refines_sorted_list_witness :
  exists s', run demo_ops demo = Ret ([], s') /\ timer_rep s' [(3%positive, 5); (1%positive, 5)] /\
    bt_timer_list_next_expiry s' = Ret 5.
Proof. exact (timer_list_refines_sorted_list demo_ops demo [] demo_rep demo_legal). Defined.

Lemma timer_pop_earliest_witness :
  exists outs s1 o s2, run demo_ops demo = Ret (outs, s1) /\
    bt_timer_list_pop_expired s1 7 = Ret (o, s2) /\
    match o with
    | Some t => exists v, tl_mem s1 !! t = Some v /\ t_pending v = true /\ t_expiry_us v <= 7 /\
        forall t' v', tl_mem s1 !! t' = Some v' -> t_pending v' = true -> t_expiry_us v <= t_expiry_us v'
    | None => forall t' v', tl_mem s1 !! t' = Some v' -> t_pending v' = true -> 7 < t_expiry_us v'
    end.
Proof. exact (timer_pop_earliest demo_ops demo 7 demo_rep demo_legal). Defined.

End Timer.
