(* ===== verification/H4.v ===== *)
(** * H4 (UART) packet framing: core/transport/h4.c

    The receiver is a state machine fed with arbitrary pieces of a byte
    stream.  The callback receives the finished packets; it is modelled by the
    list of packets delivered so far, next to the receiver's state.  The loop
    of [bt_h4_rx_feed] carries fuel: every iteration consumes at least one
    byte, so one more than the bytes given is enough (a [Fault] otherwise,
    excluded by [loop_spec]).  The receiver itself and the callback are never
    NULL in the model; [data] can be. *)

From Stdlib Require Import ZArith Lia.
From stdpp Require Import base list.
From S2P Require Import Prelude.

Module H4.

Definition BT_H4_MAX_PACKET_SIZE : Z := 4100.

Inductive bt_hci_packet_type : Set :=
| BT_HCI_PACKET_COMMAND
| BT_HCI_PACKET_EVENT
| BT_HCI_PACKET_ACL
| BT_HCI_PACKET_SCO
| BT_HCI_PACKET_ISO.

#[global] Instance bt_hci_packet_type_eq_dec : EqDecision bt_hci_packet_type.
Proof. solve_decision. Defined.

Record bt_h4_rx : Type := {
  rx_packet : list Z;
  rx_length : Z;
  rx_expected : Z;
  rx_header_length : Z;
  rx_type : bt_hci_packet_type;
  rx_have_type : bool;
}.

(** The receiver and the packets handed to the callback, oldest first. *)
Abbreviation h4_state := (bt_h4_rx * list (bt_hci_packet_type * list Z))%type.

Definition on_rx (f : bt_h4_rx -> bt_h4_rx) : M h4_state unit := modify (fun s => (f s.1, s.2)).

Definition reset_rx (rx : bt_h4_rx) : bt_h4_rx :=
  {| rx_packet := rx_packet rx; rx_length := 0; rx_expected := 0; rx_header_length := 0;
     rx_type := rx_type rx; rx_have_type := false |}.

Definition reset_packet : M h4_state unit := on_rx reset_rx.

Definition bt_h4_rx_init : bt_h4_rx :=
  {| rx_packet := replicate (Z.to_nat BT_H4_MAX_PACKET_SIZE) 0; rx_length := 0; rx_expected := 0;
     rx_header_length := 0; rx_type := BT_HCI_PACKET_COMMAND; rx_have_type := false |}.

Definition bt_h4_wire_type (type : bt_hci_packet_type) : Z :=
  match type with
  | BT_HCI_PACKET_COMMAND => 1
  | BT_HCI_PACKET_ACL => 2
  | BT_HCI_PACKET_SCO => 3
  | BT_HCI_PACKET_EVENT => 4
  | BT_HCI_PACKET_ISO => 5
  end.

(** The type and header length a wire type byte stands for. *)
Definition wire_header (wire_type : Z) : option (bt_hci_packet_type * Z) :=
  if wire_type =? 2 then Some (BT_HCI_PACKET_ACL, 4)
  else if wire_type =? 3 then Some (BT_HCI_PACKET_SCO, 3)
  else if wire_type =? 4 then Some (BT_HCI_PACKET_EVENT, 2)
  else if wire_type =? 5 then Some (BT_HCI_PACKET_ISO, 4)
  else None.

Definition begin_packet (wire_type : Z) : M h4_state bool :=
  match wire_header wire_type with
  | None => ret false
  | Some (type, header_length) =>
      do! on_rx (fun rx =>
        {| rx_packet := rx_packet rx; rx_length := 0; rx_expected := header_length;
           rx_header_length := header_length; rx_type := type; rx_have_type := true |}) in
      ret true
  end.

Definition payload_length (rx : bt_h4_rx) : outcome Z :=
  match rx_type rx with
  | BT_HCI_PACKET_EVENT => ld (rx_packet rx) 1
  | BT_HCI_PACKET_ACL =>
      let? p2 := ld (rx_packet rx) 2 in
      let? p3 := ld (rx_packet rx) 3 in
      Ret (Z.lor p2 (Z.shiftl p3 8))
  | BT_HCI_PACKET_SCO => ld (rx_packet rx) 2
  | BT_HCI_PACKET_ISO =>
      let? p2 := ld (rx_packet rx) 2 in
      let? p3 := ld (rx_packet rx) 3 in
      Ret (Z.land (Z.lor p2 (Z.shiftl p3 8)) 16383)
  | BT_HCI_PACKET_COMMAND => Ret BT_H4_MAX_PACKET_SIZE
  end.

(** [packet(rx->type, rx->packet, rx->expected, user_data)] *)
Definition deliver : M h4_state unit := fun s =>
  match ldn (rx_packet s.1) 0 (rx_expected s.1) with
  | Ret d => (Ret tt, (s.1, s.2 ++ [(rx_type s.1, d)]))
  | Fail e => (Fail e, s)
  | Fault => (Fault, s)
  end.

(** The part of the loop body after [rx->length == rx->expected]. *)
Definition unit_complete : M h4_state unit :=
  let! rx := gets fst in
  if rx_expected rx =? rx_header_length rx then
    let! payload := lift (payload_length rx) in
    if payload >? BT_H4_MAX_PACKET_SIZE - rx_header_length rx then
      do! reset_packet in
      fail BT_ERR_BUFFER_OVERFLOW
    else
      do! on_rx (fun rx =>
        {| rx_packet := rx_packet rx; rx_length := rx_length rx;
           rx_expected := rx_header_length rx + payload;
           rx_header_length := rx_header_length rx; rx_type := rx_type rx;
           rx_have_type := rx_have_type rx |}) in
      if negb (payload =? 0) then ret tt
      else do! deliver in reset_packet
  else do! deliver in reset_packet.

(** [memcpy(rx->packet + rx->length, data + offset, take); rx->length += take] *)
Definition copy_in (data : list Z) (offset take : Z) : M h4_state unit := fun s =>
  let rx := s.1 in
  match (let? bs := ldn data offset take in stn (rx_packet rx) (rx_length rx) bs) with
  | Ret p => (Ret tt, ({| rx_packet := p; rx_length := rx_length rx + take;
                          rx_expected := rx_expected rx; rx_header_length := rx_header_length rx;
                          rx_type := rx_type rx; rx_have_type := rx_have_type rx |}, s.2))
  | Fail e => (Fail e, s)
  | Fault => (Fault, s)
  end.

Fixpoint feed_loop (fuel : nat) (data : list Z) (length offset : Z) : M h4_state unit :=
  match fuel with
  | O => lift Fault
  | S fuel =>
      if offset <? length then
        let! rx := gets fst in
        if negb (rx_have_type rx) then
          let! wire_type := lift (ld data offset) in
          let! known := begin_packet wire_type in
          if negb known then do! reset_packet in fail BT_ERR_IO
          else feed_loop fuel data length (offset + 1)
        else
          let available := length - offset in
          let needed := rx_expected rx - rx_length rx in
          let take := if available <? needed then available else needed in
          do! copy_in data offset take in
          let! rx := gets fst in
          if negb (rx_length rx =? rx_expected rx) then feed_loop fuel data length (offset + take)
          else do! unit_complete in feed_loop fuel data length (offset + take)
      else ret tt
  end.

Definition bt_h4_rx_feed (data : option (list Z)) (length : Z) : M h4_state unit :=
  match data with
  | None => if negb (length =? 0) then fail BT_ERR_INVALID_ARGUMENT else ret tt
  | Some data => feed_loop (S (Z.to_nat length)) data length 0
  end.

(** ** Specification: the same machine, one byte at a time *)

Definition spec_byte (b : Z) : M h4_state unit :=
  let! rx := gets fst in
  if negb (rx_have_type rx) then
    let! known := begin_packet b in
    if negb known then do! reset_packet in fail BT_ERR_IO else ret tt
  else
    do! copy_in [b] 0 1 in
    let! rx := gets fst in
    if negb (rx_length rx =? rx_expected rx) then ret tt else unit_complete.

Fixpoint spec_feed (bs : list Z) : M h4_state unit :=
  match bs with
  | [] => ret tt
  | b :: bs => do! spec_byte b in spec_feed bs
  end.

(** The transport hands over the stream piece by piece. *)
Fixpoint feed_pieces (pieces : list (list Z)) : M h4_state unit :=
  match pieces with
  | [] => ret tt
  | d :: pieces => do! bt_h4_rx_feed (Some d) (zlen d) in feed_pieces pieces
  end.

(** Between two calls the receiver is idle or inside a header or a payload,
    and always has room for what it expects. *)
Definition h4_ok (rx : bt_h4_rx) : Prop :=
  zlen (rx_packet rx) = BT_H4_MAX_PACKET_SIZE /\ bytes (rx_packet rx) /\
  if rx_have_type rx then
    2 <= rx_header_length rx <= 4 /\ 0 <= rx_length rx < rx_expected rx /\
    rx_expected rx <= BT_H4_MAX_PACKET_SIZE /\
    (rx_length rx < rx_header_length rx -> rx_expected rx = rx_header_length rx) /\
    (rx_header_length rx <= rx_length rx -> rx_header_length rx < rx_expected rx)
  else rx_length rx = 0 /\ rx_expected rx = 0 /\ rx_header_length rx = 0.

(** A packet of the stream: its header announces exactly its payload. *)
Definition header_length_of (type : bt_hci_packet_type) : Z :=
  match type with BT_HCI_PACKET_EVENT => 2 | BT_HCI_PACKET_SCO => 3 | _ => 4 end.

Definition announced (type : bt_hci_packet_type) (d : list Z) : Z :=
  match type with
  | BT_HCI_PACKET_EVENT => le_dec (take 1 (drop 1 d))
  | BT_HCI_PACKET_SCO => le_dec (take 1 (drop 2 d))
  | BT_HCI_PACKET_ACL => le_dec (take 2 (drop 2 d))
  | _ => le_dec (take 2 (drop 2 d)) mod 2 ^ 14
  end.

Definition wf_packet (p : bt_hci_packet_type * list Z) : Prop :=
  p.1 <> BT_HCI_PACKET_COMMAND /\ bytes p.2 /\
  zlen p.2 = header_length_of p.1 + announced p.1 p.2 /\ zlen p.2 <= BT_H4_MAX_PACKET_SIZE.

Definition on_wire (ps : list (bt_hci_packet_type * list Z)) : list Z :=
  mjoin ((fun p => bt_h4_wire_type p.1 :: p.2) <$> ps).

(** ** Lemmas *)

Lemma init_ok : h4_ok bt_h4_rx_init.
Proof.
  split; [unfold bt_h4_rx_init; cbn [rx_packet]; by rewrite length_replicate|]. split; [|done].
  apply Forall_replicate. unfold is_byte. lia.
Qed.

Lemma spec_feed_app a b s : spec_feed (a ++ b) s = bind (spec_feed a) (fun _ => spec_feed b) s.
Proof.
  revert s. induction a as [|x a IH]; intros s; [done|]. simpl. unfold bind in *.
  destruct (spec_byte x s) as [[[]|e|] s1]; [|done..]. by rewrite IH.
Qed.

Definition stored (rx : bt_h4_rx) (bs : list Z) : bt_h4_rx :=
  {| rx_packet := splice (rx_packet rx) (rx_length rx) bs; rx_length := rx_length rx + zlen bs;
     rx_expected := rx_expected rx; rx_header_length := rx_header_length rx;
     rx_type := rx_type rx; rx_have_type := rx_have_type rx |}.

Lemma copy_in_spec pre bs post s : 0 <= rx_length s.1 ->
  rx_length s.1 + zlen bs <= zlen (rx_packet s.1) ->
  copy_in (pre ++ bs ++ post) (zlen pre) (zlen bs) s = (Ret tt, (stored s.1 bs, s.2)).
Proof. intros. unfold copy_in. rewrite ldn_mid. cbn [obind]. by rewrite stn_spec by lia. Qed.

Lemma copy_in_one b s : 0 <= rx_length s.1 -> rx_length s.1 + 1 <= zlen (rx_packet s.1) ->
  copy_in [b] 0 1 s = (Ret tt, (stored s.1 [b], s.2)).
Proof. intros. apply (copy_in_spec [] [b] [] s); simpl; lia. Qed.

Lemma stored_stored rx a b : 0 <= rx_length rx ->
  rx_length rx + zlen a + zlen b <= zlen (rx_packet rx) ->
  stored (stored rx a) b = stored rx (a ++ b).
Proof. intros. unfold stored. simpl. rewrite splice_splice by lia. f_equal. zlist. Qed.

(** Bytes that do not reach the expected length are only stored. *)
Lemma spec_feed_partial bs : forall s, rx_have_type s.1 = true -> 0 <= rx_length s.1 ->
  rx_expected s.1 <= zlen (rx_packet s.1) -> rx_length s.1 + zlen bs < rx_expected s.1 ->
  spec_feed bs s = (Ret tt, (stored s.1 bs, s.2)).
Proof.
  induction bs as [|b bs IH]; intros [rx out] Ht H0 He Hl; simpl in *.
  - unfold ret, stored. rewrite splice_nil. simpl. destruct rx; simpl in *.
    do 3 f_equal. lia.
  - unfold spec_byte. mrun. rewrite Ht. mrun.
    rewrite copy_in_one by (simpl; lia). mrun. cbn [stored rx_length rx_expected].
    replace (rx_length rx + zlen [b] =? rx_expected rx) with false
      by (symmetry; apply Z.eqb_neq; simpl; lia). mrun.
    rewrite (IH (stored rx [b], out)); simpl; try lia; try done.
    + do 2 f_equal. apply (stored_stored rx [b] bs); simpl; lia.
    + rewrite splice_length by (simpl; lia). done.
Qed.

Lemma spec_feed_fill bs s : rx_have_type s.1 = true -> 0 <= rx_length s.1 < rx_expected s.1 ->
  rx_expected s.1 <= zlen (rx_packet s.1) -> rx_length s.1 + zlen bs = rx_expected s.1 ->
  spec_feed bs s = unit_complete (stored s.1 bs, s.2).
Proof.
  intros Ht H0 He Hl. destruct bs as [|b bs _] using rev_ind; simpl in *; [lia|].
  rewrite length_app in Hl. simpl in Hl. rewrite spec_feed_app. unfold bind at 1.
  rewrite spec_feed_partial by (done || lia). unfold spec_feed, spec_byte. mrun.
  cbn [stored rx_have_type]. rewrite Ht. mrun.
  rewrite copy_in_one by (simpl; rewrite ?splice_length; lia).
  cbn [fst]. rewrite stored_stored by (simpl; lia). mrun. cbn [stored rx_length rx_expected].
  replace (rx_length s.1 + zlen (bs ++ [b]) =? rx_expected s.1) with true
    by (symmetry; apply Z.eqb_eq; rewrite length_app; simpl; lia).
  mrun. fold (stored s.1 (bs ++ [b])).
  destruct (unit_complete _) as [[[]|e|] s']; done.
Qed.

(** Safety of the pieces: no fault, and the receiver stays well formed. *)
Definition safe (m : M h4_state unit) (s : h4_state) : Prop :=
  let '(o, s') := m s in o <> Fault /\ h4_ok s'.1.

Lemma reset_ok rx : zlen (rx_packet rx) = BT_H4_MAX_PACKET_SIZE -> bytes (rx_packet rx) -> h4_ok (reset_rx rx).
Proof. intros. by repeat split. Qed.

Lemma payload_bound rx : zlen (rx_packet rx) = BT_H4_MAX_PACKET_SIZE -> bytes (rx_packet rx) ->
  exists p, payload_length rx = Ret p /\ 0 <= p.
Proof.
  intros Hl Hb. unfold BT_H4_MAX_PACKET_SIZE in Hl.
  destruct (ld_spec (rx_packet rx) 1) as (b1 & E1 & _); [lia|].
  destruct (ld_spec (rx_packet rx) 2) as (b2 & E2 & _); [lia|].
  destruct (ld_spec (rx_packet rx) 3) as (b3 & E3 & _); [lia|].
  pose proof (ld_byte _ _ _ Hb E1). pose proof (ld_byte _ _ _ Hb E2). pose proof (ld_byte _ _ _ Hb E3).
  unfold is_byte in *. unfold payload_length.
  destruct (rx_type rx); rewrite ?E1, ?E2, ?E3; cbn [obind]; eexists; (split; [done|]);
    rewrite ?lor_shiftl by lia; try lia; [done|]. apply Z.land_nonneg. lia.
Qed.

Lemma stored_bytes rx bs : bytes bs -> bytes (rx_packet rx) -> bytes (rx_packet (stored rx bs)).
Proof. intros. by apply splice_bytes. Qed.

Lemma unit_complete_safe rx out : zlen (rx_packet rx) = BT_H4_MAX_PACKET_SIZE -> bytes (rx_packet rx) ->
  rx_have_type rx = true -> 2 <= rx_header_length rx <= 4 ->
  rx_length rx = rx_expected rx -> rx_header_length rx <= rx_expected rx <= BT_H4_MAX_PACKET_SIZE ->
  safe unit_complete (rx, out).
Proof.
  intros Hl Hb Ht Hh He Hx.
  assert (forall rx', rx_packet rx' = rx_packet rx -> 0 <= rx_expected rx' <= BT_H4_MAX_PACKET_SIZE ->
    safe (do! deliver in reset_packet) (rx', out)) as Hd.
  { intros rx' Hp Hx'. unfold safe, deliver, reset_packet, on_rx. mrun.
    rewrite ldn_spec by (rewrite ?Hp; lia). cbn [obind fst].
    split; [done|]. apply reset_ok; by rewrite Hp. }
  unfold safe in *. unfold unit_complete. cbv [gets bind on_rx lift modify]. cbn [fst snd].
  destruct (Z.eqb_spec (rx_expected rx) (rx_header_length rx)); [|by apply Hd; [|lia]].
  destruct (payload_bound rx Hl Hb) as (p & -> & Hp).
  rewrite Z.gtb_ltb. destruct (Z.ltb_spec (BT_H4_MAX_PACKET_SIZE - rx_header_length rx) p).
  - simpl. split; [done|]. by apply reset_ok.
  - destruct (Z.eqb_spec p 0); cbn [negb].
    + apply (Hd {| rx_packet := rx_packet rx; rx_length := rx_length rx;
                   rx_expected := rx_header_length rx + p; rx_header_length := rx_header_length rx;
                   rx_type := rx_type rx; rx_have_type := rx_have_type rx |}); simpl; [done|lia].
    + split; [done|]. split; [done|]. split; [done|]. simpl. rewrite Ht. lia.
Qed.

Lemma begin_packet_spec b s : begin_packet b s =
  match wire_header b with
  | None => (Ret false, s)
  | Some (ty, hl) =>
      (Ret true, ({| rx_packet := rx_packet s.1; rx_length := 0; rx_expected := hl;
                     rx_header_length := hl; rx_type := ty; rx_have_type := true |}, s.2))
  end.
Proof. unfold begin_packet. by destruct (wire_header b) as [[ty hl]|]. Qed.

Lemma wire_header_bound b ty hl : wire_header b = Some (ty, hl) -> 2 <= hl <= 4.
Proof.
  unfold wire_header. repeat (zcase; [intros [= <- <-]; lia|]). done.
Qed.

Lemma spec_byte_safe b s : h4_ok s.1 -> is_byte b -> safe (spec_byte b) s.
Proof.
  destruct s as [rx out]. simpl. intros (Hl & Hb & Hst) Hbb.
  unfold safe, spec_byte. mrun.
  destruct (rx_have_type rx) eqn:Ht; mrun.
  - destruct Hst as (? & ? & ? & ? & ?). rewrite copy_in_one by (simpl; lia). mrun.
    cbn [stored rx_length rx_expected length].
    assert (zlen (rx_packet (stored rx [b])) = BT_H4_MAX_PACKET_SIZE) as Hl'
      by (simpl; rewrite splice_length; simpl; lia).
    assert (bytes (rx_packet (stored rx [b]))) as Hb' by (apply stored_bytes; [by constructor|done]).
    destruct (Z.eqb_spec (rx_length rx + Z.of_nat 1) (rx_expected rx)); cbn [negb].
    + apply unit_complete_safe; simpl; done || lia.
    + split; [done|]. split; [done|]. split; [done|]. simpl. rewrite Ht. lia.
  - rewrite begin_packet_spec. destruct (wire_header b) as [[ty hl]|] eqn:E; cbn [negb].
    + split; [done|]. split; [done|]. split; [done|]. simpl.
      apply wire_header_bound in E. unfold BT_H4_MAX_PACKET_SIZE. lia.
    + simpl. split; [done|]. by apply reset_ok.
Qed.

Lemma spec_feed_safe bs : forall s, h4_ok s.1 -> bytes bs -> safe (spec_feed bs) s.
Proof.
  induction bs as [|b bs IH]; intros s Hok Hb; [done|]. apply Forall_cons in Hb as [Hb Hbs].
  pose proof (spec_byte_safe b s Hok Hb) as Hs. unfold safe in *. simpl. unfold bind.
  destruct (spec_byte b s) as [[[]|e|] s1]; destruct Hs as [Hf Hok1]; [|done..].
  by apply IH.
Qed.

(** The loop is the byte-at-a-time machine. *)
Lemma loop_spec fuel post : forall pre rest s, h4_ok s.1 -> bytes rest -> (length rest < fuel)%nat ->
  feed_loop fuel (pre ++ rest ++ post) (zlen pre + zlen rest) (zlen pre) s = spec_feed rest s.
Proof.
  induction fuel as [|fuel IH]; intros pre rest s Hok Hb Hf; [lia|]. simpl feed_loop.
  destruct (Z.ltb_spec (zlen pre) (zlen pre + zlen rest)) as [Hlt|];
    [|by replace rest with (@nil Z) by (symmetry; apply length_zero_iff_nil; lia)].
  mrun. destruct (rx_have_type s.1) eqn:Ht; mrun.
  - destruct Hok as (Hl & Hp & Hst). pose proof Hst as Hst'. rewrite Ht in Hst'.
    set (n := if zlen pre + zlen rest - zlen pre <? rx_expected s.1 - rx_length s.1
              then zlen pre + zlen rest - zlen pre else rx_expected s.1 - rx_length s.1).
    assert (0 < n <= zlen rest /\ rx_length s.1 + n <= rx_expected s.1) as Hn
      by (subst n; zcase; lia).
    clearbody n. rewrite <- (take_drop (Z.to_nat n) rest) in Hb |- *.
    assert (zlen (take (Z.to_nat n) rest) = n) as Hr1 by zlist.
    assert (length (drop (Z.to_nat n) rest) < fuel)%nat as Hr2 by zlist.
    revert Hb Hr1 Hr2. generalize (take (Z.to_nat n) rest), (drop (Z.to_nat n) rest).
    intros r1 r2 Hb <- Hr2. destruct Hn as [[Hn _] Hfit]. clear rest Hf Hlt. apply Forall_app in Hb as [Hb1 Hb2].
    rewrite spec_feed_app, <- (app_assoc r1). mrun. rewrite copy_in_spec by lia. mrun.
    pose proof (spec_feed_safe r1 s (conj Hl (conj Hp Hst)) Hb1) as Hsafe. unfold safe in Hsafe.
    change (rx_length (stored s.1 r1)) with (rx_length s.1 + zlen r1).
    change (rx_expected (stored s.1 r1)) with (rx_expected s.1).
    replace (zlen pre + zlen (r1 ++ r2)) with (zlen (pre ++ r1) + zlen r2) by zlist.
    replace (zlen pre + zlen r1) with (zlen (pre ++ r1)) by zlist.
    destruct (Z.eqb_spec (rx_length s.1 + zlen r1) (rx_expected s.1)) as [He|He]; cbn [negb].
    + rewrite spec_feed_fill in Hsafe |- * by (done || lia).
      destruct (unit_complete (stored s.1 r1, s.2)) as [[[]|e|] s1]; destruct Hsafe as [Hnf Hok1]; [|done..].
      rewrite app_assoc. by apply IH.
    + rewrite spec_feed_partial in Hsafe |- * by (done || lia). destruct Hsafe as [_ Hok1].
      rewrite app_assoc. by apply IH.
  - destruct rest as [|b rest]; [simpl in Hlt; lia|]. apply Forall_cons in Hb as [Hb1 Hb2].
    assert (ld (pre ++ (b :: rest) ++ post) (zlen pre) = Ret b) as ->.
    { change ((b :: rest) ++ post) with ([b] ++ rest ++ post). apply (ld_at _ _ _ _ 0); [simpl; lia|done]. }
    pose proof (spec_byte_safe b s Hok Hb1) as Hsafe. revert Hsafe.
    unfold safe. cbn [spec_feed]. unfold spec_byte. mrun. rewrite Ht. mrun. rewrite begin_packet_spec.
    destruct (wire_header b) as [[ty hl]|]; mrun; [|done].
    intros [_ Hok1].
    replace (zlen pre + zlen (b :: rest)) with (zlen (pre ++ [b]) + zlen rest) by zlist.
    replace (zlen pre + 1) with (zlen (pre ++ [b])) by zlist.
    change ((b :: rest) ++ post) with ([b] ++ rest ++ post). rewrite app_assoc. apply IH; [done..|]. simpl in Hf. lia.
Qed.

(** Only the first [n] bytes of the object are the transport's. *)
Lemma h4_feed_part data post s : h4_ok s.1 -> bytes data ->
  bt_h4_rx_feed (Some (data ++ post)) (zlen data) s = spec_feed data s.
Proof.
  intros Hok Hb. unfold bt_h4_rx_feed. rewrite Nat2Z.id. by apply (loop_spec _ post []); [..|lia].
Qed.

Lemma h4_feed_spec data s : h4_ok s.1 -> bytes data ->
  bt_h4_rx_feed (Some data) (zlen data) s = spec_feed data s.
Proof. intros Hok Hb. pose proof (h4_feed_part data [] s Hok Hb) as H. by rewrite app_nil_r in H. Qed.

Lemma feed_pieces_spec pieces : forall s, h4_ok s.1 -> bytes (mjoin pieces) ->
  feed_pieces pieces s = spec_feed (mjoin pieces) s.
Proof.
  induction pieces as [|d pieces IH]; intros s Hok Hb; [done|].
  change (mjoin (d :: pieces)) with (d ++ mjoin pieces) in Hb |- *.
  apply Forall_app in Hb as [Hd Hb]. rewrite spec_feed_app. cbn [feed_pieces]. unfold bind. rewrite h4_feed_spec by done.
  pose proof (spec_feed_safe d s Hok Hd) as Hs. unfold safe in Hs.
  destruct (spec_feed d s) as [[[]|e|] s1]; destruct Hs as [? Hok1]; [|done..]. by apply IH.
Qed.

(** *** One packet of the stream *)

Lemma deliver_spec rx out d post : rx_packet rx = d ++ post -> rx_expected rx = zlen d ->
  (do! deliver in reset_packet) (rx, out) = (Ret tt, (reset_rx rx, out ++ [(rx_type rx, d)])).
Proof.
  intros Hp He. unfold deliver, reset_packet, on_rx. mrun. rewrite Hp, He.
  pose proof (ldn_mid [] d post) as H. change (ldn (d ++ post) 0 (zlen d) = Ret d) in H. by rewrite H.
Qed.

Lemma ldn_le2 (a b : Z) : 0 <= a < 256 -> 0 <= b -> Z.lor a (Z.shiftl b 8) = le_dec [a; b].
Proof. intros. rewrite lor_shiftl by lia. simpl. lia. Qed.

Lemma payload_length_spec rx hd rest post : rx_packet rx = hd ++ post ->
  bytes hd -> rx_type rx <> BT_HCI_PACKET_COMMAND -> zlen hd = header_length_of (rx_type rx) ->
  payload_length rx = Ret (announced (rx_type rx) (hd ++ rest)).
Proof.
  intros Hp Hb Hc Hl. unfold payload_length, announced. rewrite Hp.
  do 2 (destruct hd as [|? hd]; [destruct (rx_type rx); simpl in Hl; done || lia|]).
  destruct (rx_type rx) eqn:Ht; simpl in Hl; [done| | | |].
  - unfold ld. simpl. apply (f_equal Ret). lia.
  - do 2 (destruct hd as [|? hd]; [simpl in Hl; lia|]).
    repeat (apply Forall_cons in Hb as [? Hb]). unfold is_byte in *.
    unfold ld. simpl. by rewrite ldn_le2 by lia.
  - destruct hd as [|? hd]; [simpl in Hl; lia|]. unfold ld. simpl. apply (f_equal Ret). lia.
  - do 2 (destruct hd as [|? hd]; [simpl in Hl; lia|]).
    repeat (apply Forall_cons in Hb as [? Hb]). unfold is_byte in *.
    unfold ld. simpl. rewrite ldn_le2 by lia. change 16383 with (Z.ones 14).
    by rewrite Z.land_ones by lia.
Qed.

Lemma wire_header_type ty : ty <> BT_HCI_PACKET_COMMAND ->
  wire_header (bt_h4_wire_type ty) = Some (ty, header_length_of ty).
Proof. by destruct ty. Qed.

Lemma unit_complete_header rx out hd rest post : rx_packet rx = hd ++ post -> bytes hd ->
  rx_type rx <> BT_HCI_PACKET_COMMAND -> zlen hd = header_length_of (rx_type rx) ->
  rx_header_length rx = zlen hd -> rx_expected rx = zlen hd -> rx_length rx = zlen hd ->
  announced (rx_type rx) (hd ++ rest) = zlen rest -> zlen hd + zlen rest <= BT_H4_MAX_PACKET_SIZE ->
  let rx' := {| rx_packet := rx_packet rx; rx_length := rx_length rx;
                rx_expected := zlen hd + zlen rest; rx_header_length := rx_header_length rx;
                rx_type := rx_type rx; rx_have_type := rx_have_type rx |} in
  unit_complete (rx, out) =
    match rest with
    | [] => (Ret tt, (reset_rx rx', out ++ [(rx_type rx, hd)]))
    | _ => (Ret tt, (rx', out))
    end.
Proof.
  intros Hp Hb Hc Hl Hh He Hlen Ha Hmax. unfold unit_complete.
  cbv [gets bind on_rx lift modify]. cbn [fst snd].
  rewrite He, Hh, Z.eqb_refl, (payload_length_spec rx hd rest post), Ha by done.
  rewrite Z.gtb_ltb, (proj2 (Z.ltb_ge _ _)) by lia.
  destruct rest as [|x rest]; cbn [fst snd]; rewrite Hh; [|done].
  change (zlen []) with 0. cbn [Z.eqb negb].
  pose proof (deliver_spec {| rx_packet := rx_packet rx; rx_length := rx_length rx;
                rx_expected := zlen hd + 0; rx_header_length := zlen hd;
                rx_type := rx_type rx; rx_have_type := rx_have_type rx |} out hd post) as H.
  rewrite Z.add_0_r in *. apply H; done.
Qed.

Lemma packet_spec p rx out : wf_packet p -> h4_ok rx -> rx_have_type rx = false ->
  exists rx', spec_feed (bt_h4_wire_type p.1 :: p.2) (rx, out) = (Ret tt, (rx', out ++ [p])) /\
    h4_ok rx' /\ rx_have_type rx' = false.
Proof.
  destruct p as [ty d]. intros (Hc & Hb & Hl & Hm) Hok Ht. simpl in *.
  assert (exists hd rest, d = hd ++ rest /\ zlen hd = header_length_of ty) as (hd & rest & -> & Hhd).
  { exists (take (Z.to_nat (header_length_of ty)) d), (drop (Z.to_nat (header_length_of ty)) d).
    rewrite take_drop. split; [done|]. assert (0 <= announced ty d); [|destruct ty; cbn [header_length_of] in *; zlist].
    unfold announced. destruct ty; try (apply Z.mod_pos_bound; lia);
      apply le_dec_bound; by apply Forall_take, Forall_drop. }
  apply Forall_app in Hb as [Hb1 Hb2]. rewrite length_app in Hl, Hm.
  destruct Hok as (Hpl & Hpb & _).
  assert (2 <= header_length_of ty) by (destruct ty; simpl; lia).
  unfold spec_byte. mrun. rewrite Ht. mrun. rewrite begin_packet_spec, wire_header_type by done. mrun.
  set (rx1 := {| rx_packet := rx_packet rx; rx_length := 0 |}).
  rewrite spec_feed_app. unfold bind.
  assert (splice (rx_packet rx) 0 hd = hd ++ drop (length hd) (rx_packet rx)) as Hsp by done.
  rewrite (spec_feed_fill hd (rx1, out)) by (simpl; unfold BT_H4_MAX_PACKET_SIZE in *; done || lia). simpl fst. simpl snd.
  rewrite (unit_complete_header _ _ hd rest (drop (length hd) (rx_packet rx))); simpl; try done; try lia.
  assert (zlen (splice (rx_packet rx) 0 hd) = BT_H4_MAX_PACKET_SIZE) as Hpl2
    by (rewrite splice_length; lia).
  assert (bytes (splice (rx_packet rx) 0 hd)) as Hpb2 by by apply splice_bytes.
  destruct rest as [|x rest].
  - eexists. split; [simpl; by rewrite app_nil_r|]. split; [|done]. by apply reset_ok.
  - set (rx2 := {| rx_packet := splice (rx_packet rx) 0 hd |}).
    rewrite (spec_feed_fill (x :: rest) (rx2, out)); simpl fst; simpl snd;
      [|done|cbn; lia|unfold rx2; cbn [rx_expected rx_packet]; lia|done].
    unfold unit_complete. cbv [gets bind on_rx lift modify]. cbn [fst snd].
    cbn [stored rx2 rx_expected rx_header_length].
    rewrite (proj2 (Z.eqb_neq _ _)) by (cbn; lia).
    pose proof (splice_splice (rx_packet rx) 0 hd (x :: rest)) as Hss.
    eexists. split.
    + apply (deliver_spec (stored rx2 (x :: rest)) out (hd ++ x :: rest)
        (drop (length (hd ++ x :: rest)) (rx_packet rx))); simpl.
      * rewrite Hss by lia. done.
      * rewrite length_app. simpl. lia.
    + split; [|done]. apply reset_ok; simpl; rewrite Hss by lia.
      * rewrite splice_length; [lia|lia|rewrite length_app; lia].
      * apply splice_bytes; [done|]. by apply Forall_app.
Qed.

Lemma stream_spec ps : forall rx out, Forall wf_packet ps -> h4_ok rx -> rx_have_type rx = false ->
  exists rx', spec_feed (on_wire ps) (rx, out) = (Ret tt, (rx', out ++ ps)) /\
    h4_ok rx' /\ rx_have_type rx' = false.
Proof.
  induction ps as [|p ps IH]; intros rx out Hwf Hok Ht.
  { exists rx. by rewrite app_nil_r. }
  apply Forall_cons in Hwf as [Hp Hps].
  destruct (packet_spec p rx out Hp Hok Ht) as (rx1 & E1 & Hok1 & Ht1).
  destruct (IH rx1 (out ++ [p]) Hps Hok1 Ht1) as (rx2 & E2 & Hok2 & Ht2).
  exists rx2. split; [|done]. change (on_wire (p :: ps)) with ((bt_h4_wire_type p.1 :: p.2) ++ on_wire ps).
  rewrite spec_feed_app. unfold bind. rewrite E1, E2. by rewrite <- app_assoc.
Qed.

(** *** What is delivered is added to what was delivered before *)

Definition adds {A} (m : M h4_state A) : Prop := forall rx out,
  m (rx, out) = let '(o, (r, l)) := m (rx, []) in (o, (r, out ++ l)).

Lemma adds_same {A} (m : M h4_state A) : (forall rx out, exists o r, m (rx, []) = (o, (r, [])) /\ m (rx, out) = (o, (r, out))) -> adds m.
Proof. intros Hm rx out. destruct (Hm rx out) as (o & r & -> & ->). by rewrite app_nil_r. Qed.

Lemma adds_bind {A B} (m : M h4_state A) (k : A -> M h4_state B) : adds m -> (forall a, adds (k a)) -> adds (bind m k).
Proof.
  intros Hm Hk rx out. unfold bind. rewrite (Hm rx out). destruct (m (rx, [])) as [[a|e|] [r l]]; [|done..].
  rewrite (Hk a r (out ++ l)), (Hk a r l). destruct (k a (r, [])) as [o [r' l']]. by rewrite app_assoc.
Qed.

Lemma adds_on_rx f : adds (on_rx f).
Proof. apply adds_same. intros rx out. by eexists _, _. Qed.
Lemma adds_gets {A} (f : bt_h4_rx -> A) : adds (gets (fun s => f s.1)).
Proof. apply adds_same. intros rx out. by eexists _, _. Qed.
Lemma adds_lift {A} (o : outcome A) : adds (lift o).
Proof. apply adds_same. intros rx out. by eexists _, _. Qed.
Lemma adds_fail {A} e : adds (fail (A := A) e).
Proof. apply (adds_lift (Fail e)). Qed.
Lemma adds_ret {A} (a : A) : adds (ret a).
Proof. apply (adds_lift (Ret a)). Qed.

Lemma adds_copy_in data offset n : adds (copy_in data offset n).
Proof. apply adds_same. intros rx out. unfold copy_in. cbn [fst snd]. destruct (obind _ _); by eexists _, _. Qed.

Lemma adds_deliver : adds deliver.
Proof. intros rx out. unfold deliver. cbn [fst snd]. destruct (ldn _ _ _); cbn; by rewrite ?app_nil_r. Qed.

Create HintDb adds.
#[export] Hint Resolve adds_bind adds_on_rx adds_gets adds_lift adds_fail adds_ret adds_copy_in adds_deliver : adds.

Lemma adds_byte b : adds (spec_byte b).
Proof.
  unfold spec_byte, begin_packet, unit_complete, reset_packet. apply adds_bind; [apply (adds_gets (fun r => r))|]. intros rx.
  destruct (negb _).
  - apply adds_bind; [destruct (wire_header b) as [[ty hl]|]; auto with adds|]. intros []; cbn [negb]; auto with adds.
  - apply adds_bind; [auto with adds|]. intros _. apply adds_bind; [apply (adds_gets (fun r => r))|]. intros rx'.
    destruct (negb _); [auto with adds|]. apply adds_bind; [apply (adds_gets (fun r => r))|]. intros rx2.
    destruct (_ =? _); [|auto with adds]. apply adds_bind; [auto with adds|]. intros n. destruct (_ >? _); [auto with adds|].
    apply adds_bind; [auto with adds|]. intros _. destruct (negb _); auto with adds.
Qed.

Lemma adds_feed bs : adds (spec_feed bs).
Proof. induction bs as [|b bs IH]; cbn [spec_feed]; [auto with adds|]. apply adds_bind; [apply adds_byte|done]. Qed.

(** The receiver only stores bytes, and only hands over what it stored. *)
Definition byte_state (s : h4_state) : Prop := bytes (rx_packet s.1) /\ Forall (fun x => bytes x.2) s.2.
Definition stores_bytes {A} (m : M h4_state A) : Prop := forall s, byte_state s -> byte_state (m s).2.

Lemma stores_bind {A B} (m : M h4_state A) (k : A -> M h4_state B) : stores_bytes m -> (forall a, stores_bytes (k a)) ->
  stores_bytes (bind m k).
Proof. intros Hm Hk s Hs. specialize (Hm s Hs). unfold bind. destruct (m s) as [[a|e|] s']; [by apply Hk|done..]. Qed.
Lemma stores_same {A} (o : h4_state -> outcome A) : stores_bytes (fun s => (o s, s)).
Proof. by intros s Hs. Qed.
Lemma stores_on_rx f : (forall rx, rx_packet (f rx) = rx_packet rx) -> stores_bytes (on_rx f).
Proof. intros Hf s [Hb Ho]. split; [cbn; by rewrite Hf|done]. Qed.
Lemma stores_deliver : stores_bytes deliver.
Proof.
  intros s [Hb Ho]. unfold deliver, ldn. destruct (_ && _); [|done]. split; [done|]. apply Forall_app. split; [done|].
  constructor; [|done]. cbn. by apply Forall_take, Forall_drop.
Qed.
Lemma stores_copy_in data offset n : bytes data -> stores_bytes (copy_in data offset n).
Proof.
  intros Hd s [Hb Ho]. unfold copy_in, ldn, stn. destruct (_ && _); [|done]. cbn [obind]. destruct (_ && _); [|done]. split; [|done].
  cbn. apply splice_bytes; [done|]. by apply Forall_take, Forall_drop.
Qed.

Lemma stores_unit_complete : stores_bytes unit_complete.
Proof.
  assert (stores_bytes (do! deliver in reset_packet)) as Hd
    by (apply stores_bind; [apply stores_deliver|intros _; by apply stores_on_rx]).
  apply stores_bind; [apply stores_same|]. intros rx. destruct (_ =? _); [|done].
  apply stores_bind; [apply stores_same|]. intros payload.
  destruct (_ >? _); [apply stores_bind; [by apply stores_on_rx|intros _; apply stores_same]|].
  apply stores_bind; [by apply stores_on_rx|]. intros _. destruct (negb _); [apply stores_same|done].
Qed.

Lemma stores_byte b : is_byte b -> stores_bytes (spec_byte b).
Proof.
  intros Hb. apply stores_bind; [apply stores_same|]. intros rx. destruct (negb _).
  - apply stores_bind.
    + intros s Hs. rewrite begin_packet_spec. by destruct (wire_header b) as [[ty hl]|].
    + intros known. destruct (negb known); [|apply stores_same]. apply stores_bind; [by apply stores_on_rx|intros _; apply stores_same].
  - apply stores_bind; [apply stores_copy_in; by constructor|]. intros _. apply stores_bind; [apply stores_same|]. intros rx'.
    destruct (negb _); [apply stores_same|apply stores_unit_complete].
Qed.

Lemma stores_feed bs : bytes bs -> stores_bytes (spec_feed bs).
Proof. induction 1 as [|b bs Hb _ IH]; [apply stores_same|]. apply stores_bind; [by apply stores_byte|by intros _]. Qed.

Lemma spec_feed_prefix a b s s' : spec_feed (a ++ b) s = (Ret tt, s') ->
  exists s1, spec_feed a s = (Ret tt, s1) /\ spec_feed b s1 = (Ret tt, s').
Proof.
  rewrite spec_feed_app. unfold bind. destruct (spec_feed a s) as [[[]|e|] s1]; intros H; [by exists s1|done..].
Qed.

(** ** Properties *)

(** C12.  Framing recovers the packets from any fragmentation of the stream.
    However the bytes of a sequence of event, ACL, SCO and ISO packets are cut
    into the pieces handed to [bt_h4_rx_feed] (inside a header, between type
    byte and header, several packets in one piece, empty pieces), the callback
    receives exactly these packets, whole and in order, and the receiver is
    idle again at the end. *)
Theorem h4_stream_roundtrip : forall ps pieces,
  Forall wf_packet ps -> mjoin pieces = on_wire ps -> bytes (on_wire ps) ->
  exists rx, feed_pieces pieces (bt_h4_rx_init, []) = (Ret tt, (rx, ps)) /\
    rx_have_type rx = false /\ h4_ok rx.
Proof.
  intros ps pieces Hwf Hj Hb.
  destruct (stream_spec ps bt_h4_rx_init [] Hwf init_ok eq_refl) as (rx & E & Hok & Ht).
  exists rx. split; [|done]. rewrite feed_pieces_spec by (rewrite ?Hj; done || apply init_ok).
  by rewrite Hj, E.
Qed.

Lemma h4_stream_roundtrip_witness :
  exists rx, feed_pieces [[4; 14]; []; [1; 7; 2; 1; 32; 2; 0; 9]; [8]] (bt_h4_rx_init, []) =
    (Ret tt, (rx, [(BT_HCI_PACKET_EVENT, [14; 1; 7]); (BT_HCI_PACKET_ACL, [1; 32; 2; 0; 9; 8])])) /\
    rx_have_type rx = false /\ h4_ok rx.
Proof.
  apply h4_stream_roundtrip; [|reflexivity|].
  - repeat constructor; simpl; unfold is_byte; lia || discriminate.
  - unfold on_wire. simpl. repeat constructor; lia.
Defined.

(** C35.  The receiver is safe and independent of chunking on arbitrary bytes,
    garbage included.  In any well-formed state, feeding any bytes never
    touches memory outside the packet buffer or the input, always returns, and
    leaves a well-formed state; and feeding [a ++ b] is feeding [a] and then,
    unless [a] was rejected, [b]: same status, same packets delivered, same
    state. *)
Theorem h4_feed_chunk_independent : forall a b s, h4_ok s.1 -> bytes a -> bytes b ->
  safe (bt_h4_rx_feed (Some a) (zlen a)) s /\
  bt_h4_rx_feed (Some (a ++ b)) (zlen (a ++ b)) s =
    match bt_h4_rx_feed (Some a) (zlen a) s with
    | (Ret _, s1) => bt_h4_rx_feed (Some b) (zlen b) s1
    | (Fail e, s1) => (Fail e, s1)
    | (Fault, s1) => (Fault, s1)
    end.
Proof.
  intros a b s Hok Ha Hb. pose proof (spec_feed_safe a s Hok Ha) as Hs. unfold safe in *.
  rewrite !h4_feed_spec by (done || by apply Forall_app). split; [done|]. rewrite spec_feed_app.
  unfold bind. destruct (spec_feed a s) as [[[]|e|] s1]; destruct Hs as [? Hok1]; [|done..].
  by rewrite h4_feed_spec.
Qed.

Lemma h4_feed_chunk_independent_witness :
  safe (bt_h4_rx_feed (Some [2; 0; 0; 255; 255]) 5) (bt_h4_rx_init, []) /\
  bt_h4_rx_feed (Some ([2; 0; 0; 255; 255] ++ [4])) 6 (bt_h4_rx_init, []) =
    match bt_h4_rx_feed (Some [2; 0; 0; 255; 255]) 5 (bt_h4_rx_init, []) with
    | (Ret _, s1) => bt_h4_rx_feed (Some [4]) 1 s1
    | (Fail e, s1) => (Fail e, s1)
    | (Fault, s1) => (Fault, s1)
    end.
Proof.
  apply (h4_feed_chunk_independent [2; 0; 0; 255; 255] [4]); [exact init_ok| |];
    repeat constructor; lia.
Defined.

End H4.
