(* ===== verification/Addr.v ===== *)
(** * Device addresses: core/addr/addr.c

    A [struct bt_addr] is its six bytes in wire order. *)

From Stdlib Require Import ZArith Lia.
From stdpp Require Import base list.
From S2P Require Import Prelude.

Module Addr.

Definition BT_ADDR_LEN : Z := 6.

Abbreviation bt_addr := (list Z) (only parsing).

Definition addr_ok (a : bt_addr) : Prop := zlen a = BT_ADDR_LEN /\ bytes a.

(** [memcmp(a->b, b->b, BT_ADDR_LEN) == 0] *)
Definition bt_addr_equal (a b : bt_addr) : bool :=
  bool_decide (take (Z.to_nat BT_ADDR_LEN) a = take (Z.to_nat BT_ADDR_LEN) b).

Lemma bt_addr_equal_spec a b : addr_ok a -> addr_ok b -> bt_addr_equal a b = bool_decide (a = b).
Proof.
  unfold addr_ok, BT_ADDR_LEN. intros [Ha _] [Hb _]. unfold bt_addr_equal, BT_ADDR_LEN.
  rewrite !firstn_all2 by lia. done.
Qed.

Lemma bt_addr_equal_refl a : bt_addr_equal a a = true.
Proof. by apply bool_decide_eq_true. Qed.

End Addr.
