(* ===== verification/Hci.v ===== *)
(** * HCI packet codec: protocols/hci/hci.c

    Command encoder, event and ACL header parsers, return-parameter parsers,
    and the two iterators over discovery reports (BR/EDR inquiry results, one
    array per field; LE advertising reports, one record after the other).  An
    out-parameter is the value returned on success; what a failing call left
    in it is not modelled, its callers do not look. *)

From Stdlib Require Import ZArith Lia.
From stdpp Require Import base list.
From S2P Require Import Prelude Buffer Addr.

Module Hci.
Import Buffer Addr.

Definition BT_HCI_OPCODE (ogf ocf : Z) : Z := u16 (Z.lor (Z.shiftl ogf 10) (Z.land ocf 1023)).

Definition BT_HCI_OPCODE_RESET : Z := BT_HCI_OPCODE 3 3.
Definition BT_HCI_OPCODE_WRITE_INQUIRY_MODE : Z := BT_HCI_OPCODE 3 69.
Definition BT_HCI_OPCODE_INQUIRY : Z := BT_HCI_OPCODE 1 1.
Definition BT_HCI_OPCODE_READ_LOCAL_VERSION_INFO : Z := BT_HCI_OPCODE 4 1.
Definition BT_HCI_OPCODE_READ_LOCAL_SUPPORTED_FEATURES : Z := BT_HCI_OPCODE 4 3.
Definition BT_HCI_OPCODE_READ_BUFFER_SIZE : Z := BT_HCI_OPCODE 4 5.

Definition BT_HCI_EVENT_INQUIRY_COMPLETE : Z := 1.
Definition BT_HCI_EVENT_INQUIRY_RESULT : Z := 2.
Definition BT_HCI_EVENT_COMMAND_COMPLETE : Z := 14.
Definition BT_HCI_EVENT_COMMAND_STATUS : Z := 15.
Definition BT_HCI_EVENT_EXTENDED_INQUIRY_RESULT : Z := 47.
Definition BT_HCI_EVENT_LE_META : Z := 62.
Definition BT_HCI_LE_META_SUBEVENT_ADVERTISING_REPORT : Z := 2.
Definition BT_HCI_MAX_PARAM_LEN : Z := 255.

(** ** Commands and events *)

Definition bt_hci_encode_command (opcode : Z) (params : list Z) (params_len : Z)
    : M bt_buf_writer unit :=
  if params_len >? BT_HCI_MAX_PARAM_LEN then fail BT_ERR_INVALID_ARGUMENT else
  do! bt_buf_writer_write_le16 opcode in
  do! bt_buf_writer_write_u8 (u8 params_len) in
  if params_len =? 0 then ret tt
  else bt_buf_writer_write_bytes params params_len.

Record bt_hci_event_header : Type := { eh_event_code : Z; eh_param_len : Z }.

Definition bt_hci_parse_event_header : M bt_buf_reader bt_hci_event_header :=
  let! event_code := bt_buf_reader_read_u8 in
  let! param_len := bt_buf_reader_read_u8 in
  let! remaining := gets bt_buf_reader_remaining in
  if remaining <? param_len then fail BT_ERR_BUFFER_UNDERFLOW
  else ret {| eh_event_code := event_code; eh_param_len := param_len |}.

Record bt_hci_command_complete : Type := {
  cc_num_hci_command_packets : Z;
  cc_command_opcode : Z;
  cc_return_params : list Z;
  cc_return_params_len : Z;
}.

Definition bt_hci_parse_command_complete (param_len : Z) : M bt_buf_reader bt_hci_command_complete :=
  if param_len <? 3 then fail BT_ERR_BUFFER_UNDERFLOW else
  let! num_pkts := bt_buf_reader_read_u8 in
  let! opcode := bt_buf_reader_read_le16 in
  let return_len := param_len - 3 in
  let! p := bt_buf_reader_peek return_len in
  match p with
  | None => fail BT_ERR_BUFFER_UNDERFLOW
  | Some p =>
      do! bt_buf_reader_skip return_len in
      ret {| cc_num_hci_command_packets := num_pkts; cc_command_opcode := opcode;
             cc_return_params := p; cc_return_params_len := return_len |}
  end.

Record bt_hci_command_status : Type := {
  cs_status : Z;
  cs_num_hci_command_packets : Z;
  cs_command_opcode : Z;
}.

Definition bt_hci_parse_command_status (param_len : Z) : M bt_buf_reader bt_hci_command_status :=
  if negb (param_len =? 4) then fail BT_ERR_INVALID_ARGUMENT else
  let! status := bt_buf_reader_read_u8 in
  let! num_pkts := bt_buf_reader_read_u8 in
  let! opcode := bt_buf_reader_read_le16 in
  ret {| cs_status := status; cs_num_hci_command_packets := num_pkts; cs_command_opcode := opcode |}.

(** ** ACL data header *)

Record bt_hci_acl_header : Type := {
  acl_handle : Z;
  acl_pb_flag : Z;
  acl_bc_flag : Z;
  acl_data_len : Z;
}.

Definition bt_hci_encode_acl_header (handle pb_flag bc_flag data_len : Z) : M bt_buf_writer unit :=
  if (handle >? 4095) || (pb_flag >? 3) || (bc_flag >? 3) then fail BT_ERR_INVALID_ARGUMENT else
  let handle_and_flags :=
    u16 (Z.lor (Z.lor handle (Z.shiftl pb_flag 12)) (Z.shiftl bc_flag 14)) in
  do! bt_buf_writer_write_le16 handle_and_flags in
  bt_buf_writer_write_le16 data_len.

Definition bt_hci_parse_acl_header : M bt_buf_reader bt_hci_acl_header :=
  let! handle_and_flags := bt_buf_reader_read_le16 in
  let! data_len := bt_buf_reader_read_le16 in
  ret {| acl_handle := u16 (Z.land handle_and_flags 4095);
         acl_pb_flag := u8 (Z.land (Z.shiftr handle_and_flags 12) 3);
         acl_bc_flag := u8 (Z.land (Z.shiftr handle_and_flags 14) 3);
         acl_data_len := data_len |}.

(** ** Return parameters of the bring-up commands *)

Record bt_hci_local_version : Type := {
  lv_status : Z;
  lv_hci_version : Z;
  lv_hci_revision : Z;
  lv_lmp_pal_version : Z;
  lv_manufacturer_name : Z;
  lv_lmp_pal_subversion : Z;
}.

Definition bt_hci_parse_local_version (return_params : list Z) (return_params_len : Z)
    : outcome bt_hci_local_version :=
  if negb (return_params_len =? 9) then Fail BT_ERR_INVALID_ARGUMENT else
  parse return_params return_params_len
   (let! status := bt_buf_reader_read_u8 in
    let! hci_version := bt_buf_reader_read_u8 in
    let! hci_revision := bt_buf_reader_read_le16 in
    let! lmp_pal_version := bt_buf_reader_read_u8 in
    let! manufacturer_name := bt_buf_reader_read_le16 in
    let! lmp_pal_subversion := bt_buf_reader_read_le16 in
    ret {| lv_status := status; lv_hci_version := hci_version; lv_hci_revision := hci_revision;
           lv_lmp_pal_version := lmp_pal_version; lv_manufacturer_name := manufacturer_name;
           lv_lmp_pal_subversion := lmp_pal_subversion |}).

Record bt_hci_local_features : Type := { lf_status : Z; lf_features : list Z }.

Definition bt_hci_parse_local_features (return_params : list Z) (return_params_len : Z)
    : outcome bt_hci_local_features :=
  if negb (return_params_len =? 9) then Fail BT_ERR_INVALID_ARGUMENT else
  parse return_params return_params_len
   (let! status := bt_buf_reader_read_u8 in
    let! features := bt_buf_reader_read_bytes 8 in
    ret {| lf_status := status; lf_features := features |}).

Record bt_hci_buffer_size : Type := {
  bs_status : Z;
  bs_acl_data_packet_length : Z;
  bs_sco_data_packet_length : Z;
  bs_total_num_acl_data_packets : Z;
  bs_total_num_sco_data_packets : Z;
}.

Definition bt_hci_parse_buffer_size (return_params : list Z) (return_params_len : Z)
    : outcome bt_hci_buffer_size :=
  if negb (return_params_len =? 8) then Fail BT_ERR_INVALID_ARGUMENT else
  parse return_params return_params_len
   (let! status := bt_buf_reader_read_u8 in
    let! acl_len := bt_buf_reader_read_le16 in
    let! sco_len := bt_buf_reader_read_u8 in
    let! acl_num := bt_buf_reader_read_le16 in
    let! sco_num := bt_buf_reader_read_le16 in
    ret {| bs_status := status; bs_acl_data_packet_length := acl_len;
           bs_sco_data_packet_length := sco_len; bs_total_num_acl_data_packets := acl_num;
           bs_total_num_sco_data_packets := sco_num |}).

(** ** Inquiry *)

Definition bt_hci_encode_inquiry (lap inquiry_length num_responses : Z) : M bt_buf_writer unit :=
  fun w =>
  let params := replicate 5 0 in
  match (do! bt_buf_writer_write_le24 lap in
         do! bt_buf_writer_write_u8 inquiry_length in
         bt_buf_writer_write_u8 num_responses) (bt_buf_writer_init params 5) with
  | (Ret _, pw) =>
      bt_hci_encode_command BT_HCI_OPCODE_INQUIRY (bw_data pw) (bt_buf_writer_len pw) w
  | (Fail st, _) => (Fail st, w)
  | (Fault, _) => (Fault, w)
  end.

Record bt_hci_inquiry_result_entry : Type := {
  ir_bd_addr : bt_addr;
  ir_page_scan_repetition_mode : Z;
  ir_class_of_device : Z;
  ir_clock_offset : Z;
}.

Record bt_hci_inquiry_result_iter : Type := {
  ii_base : list Z;
  ii_available : Z;
  ii_count : Z;
  ii_index : Z;
}.

Definition bt_hci_inquiry_result_iter_init (event_params : option (list Z)) (event_params_len : Z)
    : outcome bt_hci_inquiry_result_iter :=
  match event_params with
  | None => Fail BT_ERR_BUFFER_UNDERFLOW
  | Some event_params =>
      if event_params_len <? 1 then Fail BT_ERR_BUFFER_UNDERFLOW else
      let? count := ld event_params 0 in
      let it := {| ii_base := drop 1 event_params; ii_available := event_params_len - 1;
                   ii_count := count; ii_index := 0 |} in
      if ii_count it * 14 >? ii_available it then Fail BT_ERR_BUFFER_UNDERFLOW else Ret it
  end.

Definition bt_hci_inquiry_result_iter_next
    : M bt_hci_inquiry_result_iter bt_hci_inquiry_result_entry := fun it =>
  let n := ii_count it in
  let i := ii_index it in
  if ii_index it >=? ii_count it then (Fail BT_ERR_BUFFER_UNDERFLOW, it) else
  let addrs := 0 in
  let psrm := addrs + n * BT_ADDR_LEN in
  let cod := psrm + n * 1 + n * 2 in
  let clock := cod + n * 3 in
  let base := ii_base it in
  lift (let? addr := ld_loop base (addrs + i * BT_ADDR_LEN) (Z.to_nat BT_ADDR_LEN) in
        let? mode := ld base (psrm + i) in
        let? c0 := ld base (cod + i * 3) in
        let? c1 := ld base (cod + (i * 3 + 1)) in
        let? c2 := ld base (cod + (i * 3 + 2)) in
        let? k0 := ld base (clock + i * 2) in
        let? k1 := ld base (clock + (i * 2 + 1)) in
        Ret {| ir_bd_addr := addr; ir_page_scan_repetition_mode := mode;
               ir_class_of_device := Z.lor (Z.lor c0 (u32 (Z.shiftl c1 8))) (u32 (Z.shiftl c2 16));
               ir_clock_offset := u16 (Z.lor k0 (Z.shiftl k1 8)) |})
    {| ii_base := base; ii_available := ii_available it; ii_count := n; ii_index := u8 (i + 1) |}.

(** ** LE advertising reports *)

Record bt_hci_le_adv_report : Type := {
  ar_event_type : Z;
  ar_address_type : Z;
  ar_address : bt_addr;
  ar_data_len : Z;
  ar_data : list Z;
  ar_rssi : Z;
}.

Record bt_hci_le_adv_report_iter : Type := {
  ai_r : bt_buf_reader;
  ai_remaining : Z;
}.

Definition bt_hci_le_adv_report_iter_init (event_params : list Z) (event_params_len : Z)
    : outcome bt_hci_le_adv_report_iter :=
  match (let! subevent_code := bt_buf_reader_read_u8 in
         if negb (subevent_code =? BT_HCI_LE_META_SUBEVENT_ADVERTISING_REPORT)
         then fail BT_ERR_INVALID_ARGUMENT
         else bt_buf_reader_read_u8) (bt_buf_reader_init event_params event_params_len) with
  | (Ret num_reports, r) => Ret {| ai_r := r; ai_remaining := num_reports |}
  | (Fail st, _) => Fail st
  | (Fault, _) => Fault
  end.

(** [&it->r] passed to a reader operation. *)
Definition on_reader {A} (m : M bt_buf_reader A) : M bt_hci_le_adv_report_iter A := fun it =>
  let '(o, r) := m (ai_r it) in (o, {| ai_r := r; ai_remaining := ai_remaining it |}).

Definition read_le_adv_report : M bt_buf_reader bt_hci_le_adv_report :=
  let! event_type := bt_buf_reader_read_u8 in
  let! address_type := bt_buf_reader_read_u8 in
  let! address := bt_buf_reader_read_bytes BT_ADDR_LEN in
  let! data_len := bt_buf_reader_read_u8 in
  let! data := bt_buf_reader_peek data_len in
  match data with
  | None => fail BT_ERR_BUFFER_UNDERFLOW
  | Some data =>
      do! bt_buf_reader_skip data_len in
      let! rssi_raw := bt_buf_reader_read_u8 in
      ret {| ar_event_type := event_type; ar_address_type := address_type;
             ar_address := address; ar_data_len := data_len; ar_data := data;
             ar_rssi := s8 rssi_raw |}
  end.

Definition bt_hci_le_adv_report_iter_next : M bt_hci_le_adv_report_iter bt_hci_le_adv_report :=
  let! remaining := gets ai_remaining in
  if remaining =? 0 then fail BT_ERR_BUFFER_UNDERFLOW else
  let! report := on_reader read_le_adv_report in
  do! modify (fun it => {| ai_r := ai_r it; ai_remaining := u8 (ai_remaining it - 1) |}) in
  ret report.

(** ** Specification *)

Definition entry_ok (e : bt_hci_inquiry_result_entry) : Prop :=
  addr_ok (ir_bd_addr e) /\ is_byte (ir_page_scan_repetition_mode e) /\
  0 <= ir_class_of_device e < 2 ^ 24 /\ 0 <= ir_clock_offset e < 2 ^ 16.

(** An Inquiry Result event: one array per field. *)
Definition inquiry_params (es : list bt_hci_inquiry_result_entry) (reserved : list Z) : list Z :=
  [zlen es] ++ mjoin (ir_bd_addr <$> es)
  ++ (ir_page_scan_repetition_mode <$> es) ++ reserved
  ++ mjoin ((fun e => le_enc 3 (ir_class_of_device e)) <$> es)
  ++ mjoin ((fun e => le_enc 2 (ir_clock_offset e)) <$> es).

(** The handle-and-flags word of an ACL header. *)
Definition acl_word (h : bt_hci_acl_header) : Z :=
  acl_handle h + acl_pb_flag h * 2 ^ 12 + acl_bc_flag h * 2 ^ 14.

Definition acl_ok (h : bt_hci_acl_header) : Prop :=
  0 <= acl_handle h < 2 ^ 12 /\ 0 <= acl_pb_flag h < 4 /\ 0 <= acl_bc_flag h < 4 /\
  0 <= acl_data_len h < 2 ^ 16.

Definition acl_of (word len : Z) : bt_hci_acl_header :=
  {| acl_handle := word mod 2 ^ 12; acl_pb_flag := (word / 2 ^ 12) mod 4;
     acl_bc_flag := (word / 2 ^ 14) mod 4; acl_data_len := len |}.

Definition report_ok (a : bt_hci_le_adv_report) : Prop :=
  is_byte (ar_event_type a) /\ is_byte (ar_address_type a) /\ addr_ok (ar_address a) /\
  bytes (ar_data a) /\ ar_data_len a = zlen (ar_data a) /\ zlen (ar_data a) < 256 /\
  - 128 <= ar_rssi a < 128.

Definition report_bytes (a : bt_hci_le_adv_report) : list Z :=
  [ar_event_type a; ar_address_type a] ++ ar_address a ++ [ar_data_len a] ++ ar_data a
  ++ [u8 (ar_rssi a)].

(** ** Lemmas *)

Lemma encode_command_writes opcode params : zlen params <= BT_HCI_MAX_PARAM_LEN ->
  writes (bt_hci_encode_command opcode params (zlen params))
    (le_enc 2 opcode ++ [zlen params] ++ params).
Proof.
  unfold BT_HCI_MAX_PARAM_LEN. intros Hl. unfold bt_hci_encode_command, BT_HCI_MAX_PARAM_LEN.
  rewrite Z.gtb_ltb, (proj2 (Z.ltb_ge _ _)) by lia. rewrite (u8_small (zlen params)) by lia.
  eapply writes_last; [apply writes_le16| |reflexivity]. cbv beta.
  eapply writes_last; [apply writes_u8| |rewrite u8_small by lia; reflexivity]. cbv beta.
  zcase; [|auto with wire]. destruct params; [apply writes_ret|simpl in *; lia].
Qed.

Lemma event_header_reads code len params post : is_byte code -> is_byte len -> len <= zlen (params ++ post) ->
  reads bt_hci_parse_event_header ([code] ++ [len]) (params ++ post)
    {| eh_event_code := code; eh_param_len := len |}.
Proof.
  unfold is_byte. intros Hc Hl Hp. unfold bt_hci_parse_event_header.
  parse_step. parse_step. eapply reads_nil_bind; [apply reads_gets_remaining|]. cbv beta.
  cbn [app]. rewrite (proj2 (Z.ltb_ge _ _)) by lia. auto with wire.
Qed.

Lemma command_complete_reads n op params post : is_byte n -> 0 <= op < 2 ^ 16 ->
  reads (bt_hci_parse_command_complete (3 + zlen params)) ([n] ++ le_enc 2 op ++ params) post
    {| cc_num_hci_command_packets := n; cc_command_opcode := op; cc_return_params := params;
       cc_return_params_len := zlen params |}.
Proof.
  unfold is_byte. intros Hn Ho. unfold bt_hci_parse_command_complete.
  rewrite (proj2 (Z.ltb_ge _ _)) by lia. replace (3 + zlen params - 3) with (zlen params) by lia.
  do 2 parse_step. parse_step. eapply reads_map; [apply reads_skip|]. auto with wire.
Qed.

Lemma command_status_reads st n op post : is_byte st -> is_byte n -> 0 <= op < 2 ^ 16 ->
  reads (bt_hci_parse_command_status 4) ([st] ++ [n] ++ le_enc 2 op) post
    {| cs_status := st; cs_num_hci_command_packets := n; cs_command_opcode := op |}.
Proof.
  unfold is_byte. intros. unfold bt_hci_parse_command_status. simpl negb. cbv iota.
  repeat parse_step. auto with wire.
Qed.

Lemma event_header_safe : rspec bt_hci_parse_event_header
  (fun h => is_byte (eh_event_code h) /\ is_byte (eh_param_len h)).
Proof.
  unfold bt_hci_parse_event_header. do 3 safe_step. zcase; [safe_step|]. by apply rspec_ret.
Qed.

Lemma command_complete_safe n : rspec (bt_hci_parse_command_complete n)
  (fun c => is_byte (cc_num_hci_command_packets c) /\ 0 <= cc_command_opcode c < 2 ^ 16 /\
            zlen (cc_return_params c) = cc_return_params_len c /\ cc_return_params_len c = n - 3 /\
            bytes (cc_return_params c)).
Proof.
  unfold bt_hci_parse_command_complete. zcase; [safe_step|]. do 3 safe_step.
  case_match; [|safe_step]. safe_step. subst. apply rspec_ret. cbn.
  match goal with H : forall bs, _ = Some bs -> _ |- _ => destruct (H _ eq_refl) end.
  by repeat (split; [done|]).
Qed.

Lemma command_status_safe n : rspec (bt_hci_parse_command_status n)
  (fun c => is_byte (cs_status c) /\ is_byte (cs_num_hci_command_packets c) /\
            0 <= cs_command_opcode c < 2 ^ 16).
Proof.
  unfold bt_hci_parse_command_status. zcase; simpl negb; cbv iota; [|safe_step].
  do 3 safe_step. by apply rspec_ret.
Qed.

(** *** ACL header *)

Lemma acl_word_bound h : acl_ok h -> 0 <= acl_word h < 2 ^ 16.
Proof. unfold acl_ok, acl_word. lia. Qed.

Lemma encode_acl_writes h : acl_ok h ->
  writes (bt_hci_encode_acl_header (acl_handle h) (acl_pb_flag h) (acl_bc_flag h) (acl_data_len h))
    (le_enc 2 (acl_word h) ++ le_enc 2 (acl_data_len h)).
Proof.
  intros Hok. pose proof (acl_word_bound h Hok). destruct Hok as (? & ? & ? & ?).
  unfold bt_hci_encode_acl_header. rewrite !Z.gtb_ltb, !(proj2 (Z.ltb_ge _ _)) by lia. cbn [orb].
  rewrite (lor_shiftl (acl_handle h)), (lor_shiftl (acl_handle h + _)) by lia.
  fold (acl_word h). rewrite u16_small by lia.
  eapply writes_last; [apply writes_le16|apply writes_le16|done].
Qed.

Lemma acl_fields word len : 0 <= word < 2 ^ 16 ->
  {| acl_handle := u16 (Z.land word 4095); acl_pb_flag := u8 (Z.land (Z.shiftr word 12) 3);
     acl_bc_flag := u8 (Z.land (Z.shiftr word 14) 3); acl_data_len := len |} = acl_of word len.
Proof.
  intros. change 4095 with (Z.ones 12). change 3 with (Z.ones 2).
  rewrite !Z.land_ones, !Z.shiftr_div_pow2 by lia. unfold acl_of.
  rewrite u16_small by dlia. rewrite !u8_small by dlia. done.
Qed.

Lemma acl_of_word h : acl_ok h -> acl_of (acl_word h) (acl_data_len h) = h.
Proof.
  destruct h as [h p b l]. unfold acl_ok, acl_of, acl_word. simpl. intros (? & ? & ? & ?).
  f_equal; dlia.
Qed.

Lemma acl_word_of word len : 0 <= word < 2 ^ 16 -> acl_word (acl_of word len) = word.
Proof. intros. unfold acl_word, acl_of. cbn [acl_handle acl_pb_flag acl_bc_flag]. dlia. Qed.

Lemma parse_acl_reads word len post : 0 <= word < 2 ^ 16 -> 0 <= len < 2 ^ 16 ->
  reads bt_hci_parse_acl_header (le_enc 2 word ++ le_enc 2 len) post (acl_of word len).
Proof.
  intros. unfold bt_hci_parse_acl_header. repeat parse_step.
  rewrite acl_fields by done. auto with wire.
Qed.

(** *** Inquiry results *)

(** The loop invariant of the iterator. *)
Definition iter_ok (it : bt_hci_inquiry_result_iter) : Prop :=
  0 <= ii_index it <= ii_count it /\ ii_count it < 256 /\
  ii_count it * 14 <= zlen (ii_base it) /\ bytes (ii_base it).

Lemma inquiry_init_spec p len : 0 <= len <= zlen p -> bytes p ->
  bt_hci_inquiry_result_iter_init (Some p) len = Fail BT_ERR_BUFFER_UNDERFLOW \/
  exists it, bt_hci_inquiry_result_iter_init (Some p) len = Ret it /\ iter_ok it /\
    ii_index it = 0 /\ ii_base it = drop 1 p /\ p !! 0%nat = Some (ii_count it).
Proof.
  intros Hl Hb. unfold bt_hci_inquiry_result_iter_init. zcase; [by left|].
  destruct p as [|c p]; [simpl in Hl; lia|]. rewrite ld_cons_0. cbn [obind].
  apply Forall_cons in Hb as [Hc Hb]. unfold is_byte in Hc. cbn [ii_count ii_available].
  rewrite Z.gtb_ltb. zcase; [by left|]. right. eexists. split; [reflexivity|].
  split; [|by repeat split]. unfold iter_ok. cbn [ii_index ii_count ii_base drop]. simpl in Hl.
  rewrite drop_0. repeat split; try lia; done.
Qed.

Lemma inquiry_next_safe it : iter_ok it -> ii_index it < ii_count it ->
  exists e, bt_hci_inquiry_result_iter_next it =
    (Ret e, {| ii_base := ii_base it; ii_available := ii_available it; ii_count := ii_count it;
               ii_index := ii_index it + 1 |}) /\ entry_ok e.
Proof.
  intros (Hi & Hc & Hl & Hb) Hlt. unfold bt_hci_inquiry_result_iter_next, BT_ADDR_LEN.
  rewrite Z.geb_leb, (proj2 (Z.leb_gt _ _)) by lia. cbv zeta. unfold lift.
  set (n := ii_count it) in *. set (i := ii_index it) in *. set (base := ii_base it) in *.
  rewrite ld_loop_ldn by lia. cbn [obind].
  assert (forall k, 0 <= k < zlen base -> exists b, ld base k = Ret b /\ 0 <= b < 256) as Hld.
  { intros k Hk. destruct (ld_spec base k Hk) as (b & E & _). exists b. split; [done|].
    by apply (ld_byte base k). }
  destruct (Hld (0 + n * 6 + i)) as (b1 & -> & ?); [lia|].
  destruct (Hld (0 + n * 6 + n * 1 + n * 2 + i * 3)) as (b2 & -> & ?); [lia|].
  destruct (Hld (0 + n * 6 + n * 1 + n * 2 + (i * 3 + 1))) as (b3 & -> & ?); [lia|].
  destruct (Hld (0 + n * 6 + n * 1 + n * 2 + (i * 3 + 2))) as (b4 & -> & ?); [lia|].
  destruct (Hld (0 + n * 6 + n * 1 + n * 2 + n * 3 + i * 2)) as (b5 & -> & ?); [lia|].
  destruct (Hld (0 + n * 6 + n * 1 + n * 2 + n * 3 + (i * 2 + 1))) as (b6 & -> & ?); [lia|].
  cbn [obind]. rewrite (u8_small (i + 1)) by lia. eexists. split; [done|].
  unfold entry_ok, addr_ok, BT_ADDR_LEN. cbn [ir_bd_addr ir_page_scan_repetition_mode ir_class_of_device ir_clock_offset].
  unfold u32. rewrite !Endian.Endian.u_shiftl by lia.
  rewrite (Endian.Endian.lor_byte b2), (Endian.Endian.lor_byte (b2 + _)) by lia.
  unfold u16. split; [split; [zlist|by apply Forall_take, Forall_drop]|]. unfold is_byte.
  split; [lia|]. split; [lia|]. apply Z.mod_pos_bound. lia.
Qed.

(** Iterating a well-formed iterator ends, with one entry per response. *)
Lemma inquiry_drain_safe n : forall it, iter_ok it -> ii_count it - ii_index it < Z.of_nat n ->
  exists l, drain bt_hci_inquiry_result_iter_next n it = (l, Fail BT_ERR_BUFFER_UNDERFLOW) /\
    zlen l = ii_count it - ii_index it /\ Forall entry_ok l.
Proof.
  induction n as [|n IH]; intros it Hok Hn; [destruct Hok; lia|]. cbn [drain].
  destruct (Z.lt_ge_cases (ii_index it) (ii_count it)) as [Hlt|Hge].
  - destruct (inquiry_next_safe it Hok Hlt) as (e & -> & He).
    destruct (IH {| ii_base := ii_base it; ii_available := ii_available it;
                    ii_count := ii_count it; ii_index := ii_index it + 1 |}) as (l & -> & Hl & Hf).
    { destruct Hok as (? & ? & ? & ?). repeat split; simpl; try lia; done. }
    { simpl in *. lia. }
    simpl in Hl. exists (e :: l). split; [done|]. split; [simpl; lia|]. by constructor.
  - unfold bt_hci_inquiry_result_iter_next. rewrite Z.geb_leb, (proj2 (Z.leb_le _ _)) by lia.
    exists []. split; [done|]. destruct Hok. split; [simpl; lia|done].
Qed.

(** Reading byte [j] of row [i] of a column placed after [pre]. *)
Lemma ld_row {A} (f : A -> list Z) es pre post i e k j b o :
  (forall e, e ∈ es -> length (f e) = k) -> es !! i = Some e -> f e !! j = Some b ->
  o = zlen pre + Z.of_nat (i * k + j) ->
  ld (pre ++ mjoin (f <$> es) ++ post) o = Ret b.
Proof.
  intros Hk Hi Hj ->. destruct (table_row f es i e k Hk Hi) as (a & c & -> & Ha).
  pose proof (lookup_lt_Some _ _ _ Hj). rewrite <- !app_assoc. rewrite (app_assoc pre a).
  apply (ld_at (pre ++ a) (f e) (c ++ post) _ j); [zlist|done].
Qed.

Lemma lor_le3 b0 b1 b2 : is_byte b0 -> is_byte b1 -> is_byte b2 ->
  Z.lor (Z.lor b0 (u32 (Z.shiftl b1 8))) (u32 (Z.shiftl b2 16)) = le_dec [b0; b1; b2].
Proof.
  unfold is_byte, u32. intros. rewrite !Endian.Endian.u_shiftl by lia.
  rewrite (Endian.Endian.lor_byte b0), (Endian.Endian.lor_byte (b0 + _)) by lia. cbn [le_dec]. lia.
Qed.

Lemma lor_le2 b0 b1 : is_byte b0 -> is_byte b1 ->
  u16 (Z.lor b0 (Z.shiftl b1 8)) = le_dec [b0; b1].
Proof.
  unfold is_byte. intros. rewrite Endian.Endian.lor_byte by lia. rewrite u16_small by lia.
  cbn [le_dec]. lia.
Qed.

Lemma entries_addr_len es : Forall entry_ok es -> forall e, e ∈ es -> length (ir_bd_addr e) = 6%nat.
Proof.
  intros H e He. eapply Forall_forall in H; [|exact He]. destruct H as [[H _] _].
  unfold BT_ADDR_LEN in H. lia.
Qed.

Definition inquiry_tables (es : list bt_hci_inquiry_result_entry) (reserved post : list Z) : list Z :=
  mjoin (ir_bd_addr <$> es) ++ (ir_page_scan_repetition_mode <$> es) ++ reserved
  ++ mjoin ((fun e => le_enc 3 (ir_class_of_device e)) <$> es)
  ++ mjoin ((fun e => le_enc 2 (ir_clock_offset e)) <$> es) ++ post.

(** Response [i] is read from row [i] of each of the five tables. *)
Lemma inquiry_next_row es reserved post i e av :
  Forall entry_ok es -> zlen es < 256 -> zlen reserved = 2 * zlen es -> es !! i = Some e ->
  bt_hci_inquiry_result_iter_next
    {| ii_base := inquiry_tables es reserved post; ii_available := av; ii_count := zlen es;
       ii_index := Z.of_nat i |} =
  (Ret e, {| ii_base := inquiry_tables es reserved post; ii_available := av; ii_count := zlen es;
             ii_index := Z.of_nat (S i) |}).
Proof.
  intros Hok Hn Hr Hi. pose proof (lookup_lt_Some _ _ _ Hi) as Hlt.
  pose proof (Forall_lookup_1 _ _ _ _ Hok Hi) as (Ha & Hm & Hc & Hk).
  pose proof (entries_addr_len es Hok) as HA.
  pose proof (table_length ir_bd_addr es 6 HA) as LA.
  unfold bt_hci_inquiry_result_iter_next. cbn [ii_count ii_index ii_base ii_available].
  rewrite Z.geb_leb, (proj2 (Z.leb_gt _ _)) by lia. cbv zeta. unfold lift, BT_ADDR_LEN.
  unfold inquiry_tables.
  set (K := mjoin ((fun e => le_enc 2 (ir_clock_offset e)) <$> es)).
  assert (forall x k, length (le_enc k x) = k) as Hle by (intros; apply le_enc_length).
  pose proof (table_length (fun e => le_enc 3 (ir_class_of_device e)) es 3 (fun e _ => Hle _ 3%nat)) as LC.
  rewrite u8_small by lia. replace (Z.of_nat i + 1) with (Z.of_nat (S i)) by lia. f_equal.
  (* the address *)
  destruct (table_row ir_bd_addr es i e 6 HA Hi) as (pa & qa & EA & Lpa). rewrite EA at 1.
  rewrite <- (app_assoc pa), <- (app_assoc (ir_bd_addr e)).
  replace (0 + Z.of_nat i * 6) with (zlen pa) by lia.
  replace (Z.to_nat 6) with (length (ir_bd_addr e)) by (apply HA; by eapply list_elem_of_lookup_2).
  rewrite ld_loop_mid. cbn [obind].
  (* the page scan mode *)
  rewrite (ld_at (mjoin (ir_bd_addr <$> es)) (ir_page_scan_repetition_mode <$> es) _ _ i
             (ir_page_scan_repetition_mode e)) by (rewrite ?list_lookup_fmap, ?Hi; done || lia).
  cbn [obind]. rewrite !(app_assoc (mjoin (ir_bd_addr <$> es))).
  rewrite !(app_assoc _ reserved).
  set (P := (mjoin (ir_bd_addr <$> es) ++ (ir_page_scan_repetition_mode <$> es)) ++ reserved).
  assert (zlen P = zlen es * 9) as LP by (subst P; rewrite !length_app, length_fmap; lia).
  (* the class of device *)
  rewrite (ld_row _ es P (K ++ post) i e 3 0 _ _ (fun e _ => Hle _ 3%nat) Hi eq_refl) by lia.
  rewrite (ld_row _ es P (K ++ post) i e 3 1 _ _ (fun e _ => Hle _ 3%nat) Hi eq_refl) by lia.
  rewrite (ld_row _ es P (K ++ post) i e 3 2 _ _ (fun e _ => Hle _ 3%nat) Hi eq_refl) by lia.
  (* the clock offset *)
  rewrite (app_assoc P). subst K.
  set (Q := P ++ mjoin ((fun e => le_enc 3 (ir_class_of_device e)) <$> es)).
  assert (zlen Q = zlen es * 12) as LQ by (subst Q; rewrite length_app; lia).
  rewrite (ld_row _ es Q post i e 2 0 _ _ (fun e _ => Hle _ 2%nat) Hi eq_refl) by lia.
  rewrite (ld_row _ es Q post i e 2 1 _ _ (fun e _ => Hle _ 2%nat) Hi eq_refl) by lia.
  cbn [obind].
  pose proof (le_enc_bytes 3 (ir_class_of_device e)) as B3.
  pose proof (le_enc_bytes 2 (ir_clock_offset e)) as B2.
  pose proof (le_dec_enc 3 (ir_class_of_device e)) as D3.
  pose proof (le_dec_enc 2 (ir_clock_offset e)) as D2.
  cbn [le_enc] in B3, B2, D3, D2.
  repeat (apply Forall_cons in B3 as [? B3]). repeat (apply Forall_cons in B2 as [? B2]).
  rewrite lor_le3, lor_le2 by assumption. rewrite D3, D2.
  change (8 * Z.of_nat 3) with 24. change (8 * Z.of_nat 2) with 16.
  rewrite (Z.mod_small _ _ Hc), (Z.mod_small _ _ Hk). by destruct e.
Qed.

Lemma inquiry_drain es reserved post av : Forall entry_ok es -> zlen es < 256 ->
  zlen reserved = 2 * zlen es -> forall es2 es1 n, es = es1 ++ es2 -> (length es2 < n)%nat ->
  drain bt_hci_inquiry_result_iter_next n
    {| ii_base := inquiry_tables es reserved post; ii_available := av; ii_count := zlen es;
       ii_index := zlen es1 |} = (es2, Fail BT_ERR_BUFFER_UNDERFLOW).
Proof.
  intros Hok Hn Hr. induction es2 as [|e es2 IH]; intros es1 [|n] Hes Hl; simpl in Hl; try lia; cbn [drain].
  - unfold bt_hci_inquiry_result_iter_next. cbn [ii_index ii_count].
    rewrite Z.geb_leb, (proj2 (Z.leb_le _ _)); [done|]. subst es. rewrite app_nil_r. lia.
  - rewrite (inquiry_next_row es reserved post (length es1) e); [|done..|].
    + replace (S (length es1)) with (length (es1 ++ [e])) by zlist.
      rewrite (IH (es1 ++ [e]) n); [done|by rewrite <- app_assoc|lia].
    + subst es. by rewrite list_lookup_middle.
Qed.

(** *** Advertising reports *)

Lemma s8_u8 x : - 128 <= x < 128 -> s8 (u8 x) = x.
Proof. intros. unfold s8, u8. dlia. Qed.

Lemma report_reads a post : report_ok a -> reads read_le_adv_report (report_bytes a) post a.
Proof.
  destruct a as [et at_ ad dl d rs]. unfold report_ok, report_bytes, addr_ok, is_byte. simpl.
  intros (? & ? & (Hla & ?) & ? & -> & ? & ?). unfold read_le_adv_report.
  change (et :: at_ :: ad ++ zlen d :: d ++ [u8 rs]) with ([et] ++ [at_] ++ ad ++ [zlen d] ++ d ++ [u8 rs]).
  do 2 parse_step. eapply reads_bind; [rewrite <- Hla; apply reads_bytes|]. cbv beta.
  do 2 parse_step. eapply reads_bind; [apply reads_skip|]. cbv beta.
  assert (0 <= u8 rs < 256) by (unfold u8; apply Z.mod_pos_bound; lia).
  parse_step. rewrite s8_u8 by lia. auto with wire.
Qed.

Lemma report_safe : rspec read_le_adv_report report_ok.
Proof.
  unfold read_le_adv_report, BT_ADDR_LEN. do 5 safe_step. case_match; [|safe_step]. safe_step. safe_step.
  subst. apply rspec_ret. unfold report_ok, addr_ok, is_byte. cbn.
  match goal with H : forall bs, _ = Some bs -> _ |- _ => destruct (H _ eq_refl) as [Hl Hb] end.
  rewrite Hl. unfold s8. repeat split; try tauto; try lia; dlia.
Qed.

Lemma report_bytes_ok a : report_ok a -> bytes (report_bytes a).
Proof.
  intros (? & ? & [? ?] & ? & Hd & ? & ?). unfold report_bytes. rewrite Hd.
  bys.
Qed.

Definition adv_ok (it : bt_hci_le_adv_report_iter) : Prop :=
  reader_ok (ai_r it) /\ 0 <= ai_remaining it < 256.

Lemma adv_next_step r k : 0 <= k < 256 -> bt_hci_le_adv_report_iter_next {| ai_r := r; ai_remaining := k |} =
  if k =? 0 then (Fail BT_ERR_BUFFER_UNDERFLOW, {| ai_r := r; ai_remaining := k |}) else
  match read_le_adv_report r with
  | (Ret a, r') => (Ret a, {| ai_r := r'; ai_remaining := k - 1 |})
  | (Fail e, r') => (Fail e, {| ai_r := r'; ai_remaining := k |})
  | (Fault, r') => (Fault, {| ai_r := r'; ai_remaining := k |})
  end.
Proof.
  intros Hk. unfold bt_hci_le_adv_report_iter_next, on_reader. mrun. cbn [ai_remaining ai_r].
  destruct (Z.eqb_spec k 0); [done|]. cbn [ai_r].
  destruct (read_le_adv_report r) as [[a|e|] r']; cbn [ai_r ai_remaining]; [|done..].
  by rewrite u8_small by lia.
Qed.

Lemma adv_drain_safe n : forall it, adv_ok it -> ai_remaining it < Z.of_nat n ->
  exists l e, drain bt_hci_le_adv_report_iter_next n it = (l, Fail e) /\
    zlen l <= ai_remaining it /\ Forall report_ok l.
Proof.
  induction n as [|n IH]; intros [r k] [Hr Hk] Hn; simpl in Hr, Hk, Hn; [lia|].
  cbn [drain ai_remaining]. rewrite adv_next_step by done.
  destruct (Z.eqb_spec k 0); [exists [], BT_ERR_BUFFER_UNDERFLOW; split; [done|]; split; [simpl; lia|done]|].
  pose proof (report_safe r Hr) as Hs.
  destruct (read_le_adv_report r) as [[a|e|] r']; destruct Hs as (Hf & Hr' & _ & _ & _ & Hq); [| |done].
  - destruct (IH {| ai_r := r'; ai_remaining := k - 1 |}) as (l & e & -> & Hl & Hall).
    { split; simpl; [done|lia]. } { simpl. lia. }
    simpl in Hl. exists (a :: l), e. split; [done|]. split; [simpl; lia|]. constructor; [by apply Hq|done].
  - exists [], e. split; [done|]. split; [simpl; lia|done].
Qed.

Lemma adv_drain l : Forall report_ok l -> forall n r post, reader_ok r ->
  rview r = mjoin (report_bytes <$> l) ++ post -> zlen l < 256 -> (length l < n)%nat ->
  drain bt_hci_le_adv_report_iter_next n {| ai_r := r; ai_remaining := zlen l |} =
    (l, Fail BT_ERR_BUFFER_UNDERFLOW).
Proof.
  induction 1 as [|a l Ha _ IH]; intros [|n] r post Hr Hv Hl Hn; simpl in Hl, Hn; try lia; cbn [drain]; [done|].
  rewrite adv_next_step by (simpl; lia). rewrite (proj2 (Z.eqb_neq _ _)) by (simpl; lia).
  rewrite mjoin_cons, <- app_assoc in Hv.
  rewrite (report_reads a _ Ha r Hr Hv).
  destruct (radvance_view_app r _ _ Hr Hv) as [Hr' Hv'].
  replace (zlen (a :: l) - 1) with (zlen l) by (simpl; lia).
  rewrite (IH n _ post) by (done || lia). done.
Qed.

Lemma adv_init_spec p len : 0 <= len <= zlen p -> bytes p ->
  match bt_hci_le_adv_report_iter_init p len with
  | Ret it => adv_ok it
  | Fail _ => True
  | Fault => False
  end.
Proof.
  intros Hl Hb. unfold bt_hci_le_adv_report_iter_init.
  match goal with |- context [let (_, _) := ?m ?r in _] =>
    assert (rspec m is_byte) as Hs end.
  { safe_step. zcase; [|safe_step]. apply rspec_u8. }
  specialize (Hs _ (reader_init_ok p len Hl Hb)).
  destruct ((_ : M bt_buf_reader Z) _) as [[k|e|] r]; destruct Hs as (Hf & Hr & _ & _ & _ & Hk); [|done..].
  split; [done|]. by apply Hk.
Qed.

(** ** Properties *)

(** Commands and events have the wire format of the specification.  A
    command is its opcode, its parameter length and its parameters, written
    whole or refused (more than 255 parameter bytes are refused with nothing
    written); the event header, Command Complete and Command Status parsers
    recover exactly what such a packet carries; and on arbitrary bytes each of
    them stays in bounds and returns fields of the right width, Command
    Complete's return parameters being inside the event. *)
Theorem hci_command_event_formats :
  (forall opcode params, zlen params <= BT_HCI_MAX_PARAM_LEN ->
     writes (bt_hci_encode_command opcode params (zlen params))
       (le_enc 2 opcode ++ [zlen params] ++ params)) /\
  (forall opcode params n w, BT_HCI_MAX_PARAM_LEN < n ->
     bt_hci_encode_command opcode params n w = (Fail BT_ERR_INVALID_ARGUMENT, w)) /\
  (forall code params post, is_byte code -> zlen params < 256 ->
     reads bt_hci_parse_event_header ([code] ++ [zlen params]) (params ++ post)
       {| eh_event_code := code; eh_param_len := zlen params |}) /\
  (forall n op params post, is_byte n -> 0 <= op < 2 ^ 16 ->
     reads (bt_hci_parse_command_complete (3 + zlen params)) ([n] ++ le_enc 2 op ++ params) post
       {| cc_num_hci_command_packets := n; cc_command_opcode := op; cc_return_params := params;
          cc_return_params_len := zlen params |}) /\
  (forall st n op post, is_byte st -> is_byte n -> 0 <= op < 2 ^ 16 ->
     reads (bt_hci_parse_command_status 4) ([st] ++ [n] ++ le_enc 2 op) post
       {| cs_status := st; cs_num_hci_command_packets := n; cs_command_opcode := op |}) /\
  rspec bt_hci_parse_event_header (fun h => is_byte (eh_event_code h) /\ is_byte (eh_param_len h)) /\
  (forall n, rspec (bt_hci_parse_command_complete n)
     (fun c => is_byte (cc_num_hci_command_packets c) /\ 0 <= cc_command_opcode c < 2 ^ 16 /\
               zlen (cc_return_params c) = cc_return_params_len c /\ cc_return_params_len c = n - 3 /\
               bytes (cc_return_params c))) /\
  (forall n, rspec (bt_hci_parse_command_status n)
     (fun c => is_byte (cs_status c) /\ is_byte (cs_num_hci_command_packets c) /\
               0 <= cs_command_opcode c < 2 ^ 16)).
Proof.
  split; [exact encode_command_writes|]. split.
  { intros. unfold bt_hci_encode_command. by rewrite Z.gtb_ltb, (proj2 (Z.ltb_lt _ _)). }
  split. { intros. apply event_header_reads; unfold is_byte; rewrite ?length_app; done || lia. }
  split; [exact command_complete_reads|]. split; [exact command_status_reads|].
  split; [exact event_header_safe|]. split; [exact command_complete_safe|exact command_status_safe].
Qed.

(** The ACL header codec is a bijection.  Every header with a 12-bit
    handle, 2-bit flags and a 16-bit length is written as four bytes that parse
    back to it; out-of-range fields are refused with nothing written; and
    conversely every four bytes parse to an in-range header that encodes to
    the same four bytes. *)
Theorem hci_acl_header_bijection :
  (forall h post, acl_ok h -> exists bs, length bs = 4%nat /\
     writes (bt_hci_encode_acl_header (acl_handle h) (acl_pb_flag h) (acl_bc_flag h) (acl_data_len h)) bs /\
     reads bt_hci_parse_acl_header bs post h) /\
  (forall handle pb bc len w, 4095 < handle \/ 3 < pb \/ 3 < bc ->
     bt_hci_encode_acl_header handle pb bc len w = (Fail BT_ERR_INVALID_ARGUMENT, w)) /\
  (forall bs post, length bs = 4%nat -> bytes bs -> exists h, acl_ok h /\
     reads bt_hci_parse_acl_header bs post h /\
     writes (bt_hci_encode_acl_header (acl_handle h) (acl_pb_flag h) (acl_bc_flag h) (acl_data_len h)) bs).
Proof.
  split; [|split].
  - intros h post Hok. pose proof (acl_word_bound h Hok) as Hw. eexists.
    split; [|split; [by apply encode_acl_writes|]]; [by rewrite length_app, !le_enc_length|].
    rewrite <- (acl_of_word h Hok) at 3. apply parse_acl_reads; [done|]. apply Hok.
  - intros handle pb bc len w H. unfold bt_hci_encode_acl_header. rewrite !Z.gtb_ltb.
    by destruct (Z.ltb_spec 4095 handle), (Z.ltb_spec 3 pb), (Z.ltb_spec 3 bc); cbn [orb]; try lia.
  - intros bs post Hl Hb. rewrite <- (take_drop 2 bs) in Hb |- *.
    apply Forall_app in Hb as [H1 H2].
    assert (length (take 2 bs) = 2%nat /\ length (drop 2 bs) = 2%nat) as [L1 L2] by zlist.
    pose proof (le_dec_bound _ H1) as B1. pose proof (le_dec_bound _ H2) as B2.
    pose proof (le_enc_dec _ H1) as E1. pose proof (le_enc_dec _ H2) as E2.
    rewrite L1 in B1, E1. rewrite L2 in B2, E2. change (8 * Z.of_nat 2) with 16 in *.
    set (h := acl_of (le_dec (take 2 bs)) (le_dec (drop 2 bs))). exists h.
    assert (acl_ok h) as Hok by (unfold acl_ok, h, acl_of; cbn [acl_handle acl_pb_flag acl_bc_flag acl_data_len]; dlia).
    split; [done|]. split.
    + rewrite <- E1 at 1. rewrite <- E2 at 1. by apply parse_acl_reads.
    + pose proof (encode_acl_writes h Hok) as Hw. unfold h at 5 6 in Hw.
      rewrite acl_word_of in Hw by done. cbn [acl_of acl_data_len] in Hw. by rewrite E1, E2 in Hw.
Qed.

(** Inquiry results are read column by column.  For any event that
    carries the five parallel arrays of [es] (addresses, page scan modes,
    reserved bytes, classes of device, clock offsets) the iterator returns
    exactly the entries of [es], in order, and then the end; and for arbitrary
    parameter bytes it either refuses the event or returns exactly
    [Num_Responses] entries with in-range fields, never reading outside the
    parameters. *)
Theorem hci_inquiry_iterator :
  (forall es reserved post, Forall entry_ok es -> zlen es < 256 -> zlen reserved = 2 * zlen es ->
     exists it, bt_hci_inquiry_result_iter_init
       (Some (inquiry_params es reserved ++ post)) (zlen (inquiry_params es reserved ++ post)) = Ret it /\
     drain bt_hci_inquiry_result_iter_next (S (length es)) it = (es, Fail BT_ERR_BUFFER_UNDERFLOW)) /\
  (forall p len, 0 <= len <= zlen p -> bytes p ->
     bt_hci_inquiry_result_iter_init (Some p) len = Fail BT_ERR_BUFFER_UNDERFLOW \/
     exists it l, bt_hci_inquiry_result_iter_init (Some p) len = Ret it /\
       drain bt_hci_inquiry_result_iter_next 256 it = (l, Fail BT_ERR_BUFFER_UNDERFLOW) /\
       p !! 0%nat = Some (zlen l) /\ Forall entry_ok l).
Proof.
  split.
  - intros es reserved post Hok Hn Hr. unfold inquiry_params. rewrite <- !app_assoc.
    fold (inquiry_tables es reserved post). unfold bt_hci_inquiry_result_iter_init.
    assert (zlen es * 14 <= zlen (inquiry_tables es reserved post)) as Hlen.
    { unfold inquiry_tables. rewrite !length_app, length_fmap.
      rewrite (table_length ir_bd_addr es 6) by by apply entries_addr_len.
      rewrite (table_length _ es 3) by (intros; apply le_enc_length).
      rewrite (table_length _ es 2) by (intros; apply le_enc_length). lia. }
    rewrite length_app. cbn [length]. rewrite (proj2 (Z.ltb_ge _ _)) by lia.
    cbn [app]. rewrite ld_cons_0. cbn [obind ii_count ii_available].
    rewrite Z.gtb_ltb, (proj2 (Z.ltb_ge _ _)) by lia. eexists. split; [done|].
    change (drop 1 (zlen es :: inquiry_tables es reserved post)) with (inquiry_tables es reserved post).
    by apply (inquiry_drain es reserved post _ Hok Hn Hr es []); [|lia].
  - intros p len Hl Hb. destruct (inquiry_init_spec p len Hl Hb) as [->|(it & -> & Hok & Hi & _ & Hc)]; [by left|].
    right. destruct (inquiry_drain_safe 256 it Hok) as (l & Hd & Hll & Hall); [destruct Hok; lia|].
    exists it, l. split; [done|]. split; [done|]. split; [|done]. rewrite Hc. f_equal. lia.
Qed.

(** Advertising reports round-trip and are safe.  For any event that
    carries the reports [l] the iterator returns exactly [l], data and signed
    RSSI included, and then the end; for arbitrary parameter bytes it refuses
    the event or returns at most [Num_Reports] well-formed reports whose data
    lie inside the event, and the loop over it terminates. *)
Theorem hci_adv_report_iterator :
  (forall l post, Forall report_ok l -> zlen l < 256 -> bytes post ->
     let p := [BT_HCI_LE_META_SUBEVENT_ADVERTISING_REPORT] ++ [zlen l] ++ mjoin (report_bytes <$> l) ++ post in
     exists it, bt_hci_le_adv_report_iter_init p (zlen p) = Ret it /\
       drain bt_hci_le_adv_report_iter_next (S (length l)) it = (l, Fail BT_ERR_BUFFER_UNDERFLOW)) /\
  (forall p len, 0 <= len <= zlen p -> bytes p ->
     (exists e, bt_hci_le_adv_report_iter_init p len = Fail e) \/
     exists it l e, bt_hci_le_adv_report_iter_init p len = Ret it /\
       drain bt_hci_le_adv_report_iter_next 256 it = (l, Fail e) /\
       zlen l <= ai_remaining it < 256 /\ Forall report_ok l).
Proof.
  split.
  - intros l post Hok Hl Hpost p.
    assert (bytes p) as Hb.
    { unfold p, BT_HCI_LE_META_SUBEVENT_ADVERTISING_REPORT. bys.
      clear -Hok. induction Hok as [|a l Ha _ IH]; [constructor|]. rewrite mjoin_cons. apply Forall_app.
      split; [by apply report_bytes_ok|done]. }
    pose proof (reader_init_ok p (zlen p) ltac:(lia) Hb) as Hr.
    pose proof (rview_init_all p) as Hv.
    unfold bt_hci_le_adv_report_iter_init. unfold bind at 1.
    assert (reads bt_buf_reader_read_u8 [BT_HCI_LE_META_SUBEVENT_ADVERTISING_REPORT]
      ([zlen l] ++ mjoin (report_bytes <$> l) ++ post) BT_HCI_LE_META_SUBEVENT_ADVERTISING_REPORT) as R1
      by (apply reads_u8; unfold BT_HCI_LE_META_SUBEVENT_ADVERTISING_REPORT; lia).
    rewrite (R1 _ Hr Hv). rewrite Z.eqb_refl. cbn [negb].
    destruct (radvance_view_app _ _ _ Hr Hv) as [Hr1 Hv1].
    assert (reads bt_buf_reader_read_u8 [zlen l] (mjoin (report_bytes <$> l) ++ post) (zlen l)) as R2
      by (apply reads_u8; lia).
    rewrite (R2 _ Hr1 Hv1). eexists. split; [done|].
    destruct (radvance_view_app _ _ _ Hr1 Hv1) as [Hr2 Hv2].
    eapply adv_drain; [done|exact Hr2|exact Hv2|done|lia].
  - intros p len Hl Hb. pose proof (adv_init_spec p len Hl Hb) as Hi.
    destruct (bt_hci_le_adv_report_iter_init p len) as [it|e|]; [|by left; exists e|done].
    right. destruct (adv_drain_safe 256 it Hi) as (l & e & Hd & Hll & Hall); [destruct Hi; lia|].
    exists it, l, e. destruct Hi. split; [done|]. split; [done|]. split; [lia|done].
Qed.

End Hci.
