(* ===== verification/DeviceRegistry.v ===== *)
(** * Discovered-device registry: core/device/device_registry.c

    A fixed array of entries, filled in order, at most one per address; the
    advertising-data parser that recognises HID devices and names; and the
    label ladder for names.  A [struct bt_discovered_device *] that points
    into the array is its index. *)

From Stdlib Require Import ZArith Lia String Ascii.
From stdpp Require Import base list gmap strings.
From S2P Require Import Prelude Addr.

Module DeviceRegistry.
Import Addr.

Definition BT_DEVICE_FLAG_CLASSIC : Z := 1.
Definition BT_DEVICE_FLAG_LE : Z := 2.
Definition BT_DEVICE_FLAG_HID : Z := 4.
Definition BT_DEVICE_NAME_LEN : Z := 25.
Definition BT_DEVICE_REGISTRY_MAX : Z := 32.

Record bt_discovered_device : Type := {
  dd_addr : bt_addr;
  dd_flags : Z;
  dd_class_of_device : Z;
  dd_le_address_type : Z;
  dd_appearance : Z;
  dd_name : list Z;
  dd_name_state : Z;
  dd_last_rssi : Z;
  dd_sightings : Z;
}.

Record bt_device_registry : Type := {
  dr_count : Z;
  dr_devices : list bt_discovered_device;
}.

(** ** Lookup *)

(** The array keeps its old contents; only the count is reset. *)
Definition bt_device_registry_init (reg : bt_device_registry) : bt_device_registry :=
  {| dr_count := 0; dr_devices := dr_devices reg |}.

Definition bt_device_registry_count (reg : bt_device_registry) : Z := dr_count reg.

Definition bt_device_registry_get (reg : bt_device_registry) (index : Z)
    : outcome (option bt_discovered_device) :=
  if index >=? dr_count reg then Ret None
  else let? d := ld (dr_devices reg) index in Ret (Some d).

(** [for (i = 0; i < reg->count; i++)], [n] iterations to go. *)
Fixpoint find_loop (devices : list bt_discovered_device) (addr : bt_addr) (i : Z) (n : nat)
    : outcome (option Z) :=
  match n with
  | O => Ret None
  | S n =>
      let? d := ld devices i in
      if bt_addr_equal (dd_addr d) addr then Ret (Some i)
      else find_loop devices addr (i + 1) n
  end.

Definition bt_device_registry_find (reg : bt_device_registry) (addr : bt_addr) : outcome (option Z) :=
  find_loop (dr_devices reg) addr 0 (Z.to_nat (dr_count reg)).

(** [memset(dev, 0, sizeof( *dev)); dev->addr = *addr;] *)
Definition fresh_device (addr : bt_addr) : bt_discovered_device :=
  {| dd_addr := addr; dd_flags := 0; dd_class_of_device := 0; dd_le_address_type := 0;
     dd_appearance := 0; dd_name := replicate (Z.to_nat BT_DEVICE_NAME_LEN) 0; dd_name_state := 0;
     dd_last_rssi := 0; dd_sightings := 0 |}.

(** Store an entry of the array. *)
Definition put_device (reg : bt_device_registry) (i : Z) (d : bt_discovered_device)
    : outcome bt_device_registry :=
  if (0 <=? i) && (i <? zlen (dr_devices reg))
  then Ret {| dr_count := dr_count reg; dr_devices := <[Z.to_nat i := d]> (dr_devices reg) |}
  else Fault.

Definition find_or_create (reg : bt_device_registry) (addr : bt_addr)
    : outcome (option Z * bt_device_registry) :=
  let? found := find_loop (dr_devices reg) addr 0 (Z.to_nat (dr_count reg)) in
  match found with
  | Some i => Ret (Some i, reg)
  | None =>
      if dr_count reg >=? BT_DEVICE_REGISTRY_MAX then Ret (None, reg) else
      let i := dr_count reg in
      let? reg := put_device {| dr_count := i + 1; dr_devices := dr_devices reg |} i (fresh_device addr) in
      Ret (Some i, reg)
  end.

(** [update] applied to the entry [dev] points to. *)
Definition on_device (reg : bt_device_registry) (dev : Z)
    (update : bt_discovered_device -> outcome bt_discovered_device) : outcome bt_device_registry :=
  let? d := ld (dr_devices reg) dev in
  let? d := update d in
  put_device reg dev d.

(** ** Names and labels *)

(** A C string literal: its bytes and the terminating NUL. *)
Definition literal (s : string) : list Z :=
  ((fun a => Z.of_N (N_of_ascii a)) <$> list_ascii_of_string s) ++ [0].

Definition printable (c : Z) : Z := if (c >=? 32) && (c <=? 126) then c else 63.

(** The copying [for]: the name buffer and [i] when it stops. *)
Fixpoint name_copy (fuel : nat) (dst name : list Z) (length i : Z) : outcome (list Z * Z) :=
  match fuel with
  | O => Fault
  | S fuel =>
      if (i <? length) && (i + 1 <? BT_DEVICE_NAME_LEN) then
        let? c := ld name i in
        if c =? 0 then Ret (dst, i) else
        let? dst := st1 dst i (printable c) in
        name_copy fuel dst name length (i + 1)
      else Ret (dst, i)
  end.

(** [while (i > 0 && dev->name[i - 1] == ' ') i--] *)
Fixpoint name_trim (dst : list Z) (i : nat) : outcome nat :=
  match i with
  | O => Ret O
  | S j =>
      let? c := ld dst (Z.of_nat j) in
      if c =? 32 then name_trim dst j else Ret i
  end.

Definition bt_device_set_name (dev : bt_discovered_device) (name : option (list Z)) (length state : Z)
    : outcome bt_discovered_device :=
  match name with
  | None => Ret dev
  | Some name =>
      if state =? 0 then Ret dev else
      if state <=? dd_name_state dev then Ret dev else
      let? r := name_copy (Z.to_nat BT_DEVICE_NAME_LEN) (dd_name dev) name length 0 in
      let? i := name_trim r.1 (Z.to_nat r.2) in
      let? dst := st1 r.1 (Z.of_nat i) 0 in
      Ret {| dd_addr := dd_addr dev; dd_flags := dd_flags dev;
             dd_class_of_device := dd_class_of_device dev;
             dd_le_address_type := dd_le_address_type dev; dd_appearance := dd_appearance dev;
             dd_name := dst; dd_name_state := state;
             dd_last_rssi := dd_last_rssi dev; dd_sightings := dd_sightings dev |}
  end.

Definition bt_label_from_appearance (appearance : Z) : option (list Z) :=
  if appearance =? 961 then Some (literal "<keyboard>")
  else if appearance =? 962 then Some (literal "<mouse>")
  else if appearance =? 963 then Some (literal "<joystick>")
  else if appearance =? 964 then Some (literal "<gamepad>")
  else if Z.shiftr appearance 6 =? 15 then Some (literal "<HID device>") else None.

Definition bt_label_from_cod (class_of_device : Z) : option (list Z) :=
  if negb (Z.land (Z.shiftr class_of_device 8) 31 =? 5) then None else
  let gaming := Z.land (Z.shiftr class_of_device 2) 15 in
  if gaming =? 1 then Some (literal "<joystick>")
  else if gaming =? 2 then Some (literal "<gamepad>")
  else
    let kind := Z.land (Z.shiftr class_of_device 6) 3 in
    if kind =? 1 then Some (literal "<keyboard>")
    else if kind =? 2 then Some (literal "<mouse>")
    else if kind =? 3 then Some (literal "<keyboard+mouse>")
    else Some (literal "<HID device>").

Definition bt_cod_is_hid (class_of_device : Z) : bool :=
  let major := Z.land (Z.shiftr class_of_device 8) 31 in
  let minor := Z.land (Z.shiftr class_of_device 2) 63 in
  if negb (major =? 5) then false else negb (Z.land minor 48 =? 0).

Definition bt_le_addr_is_stable (addr : bt_addr) (address_type : Z) : outcome bool :=
  if address_type =? 0 then Ret true else
  let? b := ld addr (BT_ADDR_LEN - 1) in
  Ret (Z.land b 192 =? 192).

(** ** Recording a sighting *)

Definition classic_update (class_of_device : Z) (dev : bt_discovered_device)
    : outcome bt_discovered_device :=
  let flags := Z.lor (dd_flags dev) BT_DEVICE_FLAG_CLASSIC in
  let flags := if bt_cod_is_hid class_of_device then Z.lor flags BT_DEVICE_FLAG_HID else flags in
  let dev :=
    {| dd_addr := dd_addr dev; dd_flags := flags; dd_class_of_device := dd_class_of_device dev;
       dd_le_address_type := dd_le_address_type dev; dd_appearance := dd_appearance dev;
       dd_name := dd_name dev; dd_name_state := dd_name_state dev;
       dd_last_rssi := dd_last_rssi dev; dd_sightings := dd_sightings dev |} in
  let label := bt_label_from_cod class_of_device in
  let? dev := match label with
              | Some _ => bt_device_set_name dev label BT_DEVICE_NAME_LEN 1
              | None => Ret dev
              end in
  Ret {| dd_addr := dd_addr dev; dd_flags := dd_flags dev; dd_class_of_device := class_of_device;
         dd_le_address_type := dd_le_address_type dev; dd_appearance := dd_appearance dev;
         dd_name := dd_name dev; dd_name_state := dd_name_state dev;
         dd_last_rssi := dd_last_rssi dev; dd_sightings := u32 (dd_sightings dev + 1) |}.

Definition le_update (le_address_type rssi : Z) (dev : bt_discovered_device)
    : outcome bt_discovered_device :=
  Ret {| dd_addr := dd_addr dev; dd_flags := Z.lor (dd_flags dev) BT_DEVICE_FLAG_LE;
         dd_class_of_device := dd_class_of_device dev; dd_le_address_type := le_address_type;
         dd_appearance := dd_appearance dev; dd_name := dd_name dev;
         dd_name_state := dd_name_state dev; dd_last_rssi := rssi;
         dd_sightings := u32 (dd_sightings dev + 1) |}.

Definition bt_device_registry_note_classic (reg : bt_device_registry) (addr : bt_addr)
    (class_of_device : Z) : outcome (option Z * bt_device_registry) :=
  let? r := find_or_create reg addr in
  match r.1 with
  | None => Ret (None, r.2)
  | Some dev =>
      let? reg := on_device r.2 dev (classic_update class_of_device) in
      Ret (Some dev, reg)
  end.

Definition bt_device_registry_note_le (reg : bt_device_registry) (addr : bt_addr)
    (le_address_type rssi : Z) : outcome (option Z * bt_device_registry) :=
  let? r := find_or_create reg addr in
  match r.1 with
  | None => Ret (None, r.2)
  | Some dev =>
      let? reg := on_device r.2 dev (le_update le_address_type rssi) in
      Ret (Some dev, reg)
  end.

(** ** Advertising data *)

Record bt_le_adv_info : Type := {
  av_hid : bool;
  av_appearance : Z;
  av_name : option (list Z);
  av_name_len : Z;
  av_name_complete : bool;
}.

Definition adv_empty : bt_le_adv_info :=
  {| av_hid := false; av_appearance := 0; av_name := None; av_name_len := 0;
     av_name_complete := false |}.

(** [for (u = 0; u + 1 < payload_len; u += 2)]: is 0x1812 listed? *)
Fixpoint uuid_loop (fuel : nat) (payload : list Z) (payload_len u : Z) (hid : bool) : outcome bool :=
  match fuel with
  | O => Fault
  | S fuel =>
      if u + 1 <? payload_len then
        let? p0 := ld payload u in
        let? p1 := ld payload (u + 1) in
        let uuid := u16 (Z.lor p0 (Z.shiftl p1 8)) in
        uuid_loop fuel payload payload_len (u + 2) (if uuid =? 6162 then true else hid)
      else Ret hid
  end.

(** The [switch (type)]. *)
Definition adv_field (out : bt_le_adv_info) (type : Z) (payload : list Z) (payload_len : Z)
    : outcome bt_le_adv_info :=
  if (type =? 2) || (type =? 3) then
    let? hid := uuid_loop (S (Z.to_nat payload_len)) payload payload_len 0 (av_hid out) in
    Ret {| av_hid := hid; av_appearance := av_appearance out; av_name := av_name out;
           av_name_len := av_name_len out; av_name_complete := av_name_complete out |}
  else if (type =? 8) || (type =? 9) then
    if (match av_name out with None => true | Some _ => false end)
       || ((type =? 9) && negb (av_name_complete out))
    then Ret {| av_hid := av_hid out; av_appearance := av_appearance out; av_name := Some payload;
                av_name_len := payload_len; av_name_complete := type =? 9 |}
    else Ret out
  else if type =? 25 then
    if payload_len >=? 2 then
      let? p0 := ld payload 0 in
      let? p1 := ld payload 1 in
      let appearance := u16 (Z.lor p0 (Z.shiftl p1 8)) in
      Ret {| av_hid := if Z.shiftr appearance 6 =? 15 then true else av_hid out;
             av_appearance := appearance; av_name := av_name out;
             av_name_len := av_name_len out; av_name_complete := av_name_complete out |}
    else Ret out
  else Ret out.

(** [while (i < length)]; [fuel] bounds the fields, each at least two bytes. *)
Fixpoint adv_loop (fuel : nat) (data : list Z) (length i : Z) (out : bt_le_adv_info)
    : outcome bt_le_adv_info :=
  match fuel with
  | O => Fault
  | S fuel =>
      if i <? length then
        let? field_len := ld data i in
        if field_len =? 0 then Ret out else
        if i + 1 + field_len >? length then Ret out else
        let? type := ld data (i + 1) in
        let payload_len := field_len - 1 in
        let? payload := ldn data (i + 2) payload_len in
        let? out := adv_field out type payload payload_len in
        adv_loop fuel data length (i + (1 + field_len)) out
      else Ret out
  end.

Definition bt_le_adv_parse (data : option (list Z)) (length : Z) : outcome bt_le_adv_info :=
  match data with
  | None => Ret adv_empty
  | Some data => adv_loop (S (Z.to_nat length)) data length 0 adv_empty
  end.

(** The verdict and the appearance stored in [*appearance_out]. *)
Definition bt_le_adv_is_hid (data : option (list Z)) (length : Z) : outcome (bool * Z) :=
  let? info := bt_le_adv_parse data length in
  Ret (av_hid info, av_appearance info).

(** ** Specification *)

(** A name buffer holds a NUL-terminated string of printable characters that
    does not end in a space. *)
Definition name_string (name : list Z) (s : list Z) : Prop :=
  exists rest, name = s ++ 0 :: rest /\ Forall (fun c => 32 <= c <= 126) s /\ last s <> Some 32.

Definition device_ok (d : bt_discovered_device) : Prop :=
  addr_ok (dd_addr d) /\ zlen (dd_name d) = BT_DEVICE_NAME_LEN /\
  (exists s, name_string (dd_name d) s) /\ 0 <= dd_name_state d <= 2.

(** The entries in use. *)
Definition entries (reg : bt_device_registry) : list bt_discovered_device :=
  take (Z.to_nat (dr_count reg)) (dr_devices reg).

(** The registry as a map from address to entry. *)
Definition reg_map (reg : bt_device_registry) : gmap (list Z) bt_discovered_device :=
  keyed dd_addr (entries reg).

Definition registry_ok (reg : bt_device_registry) : Prop :=
  0 <= dr_count reg <= BT_DEVICE_REGISTRY_MAX /\ zlen (dr_devices reg) = BT_DEVICE_REGISTRY_MAX /\
  NoDup (dd_addr <$> entries reg) /\ Forall device_ok (entries reg).

(** The characters of a name up to its first NUL, at most [n]. *)
Fixpoint c_prefix (n : nat) (name : list Z) : list Z :=
  match n, name with
  | S n, c :: name => if c =? 0 then [] else c :: c_prefix n name
  | _, _ => []
  end.

(** Trailing spaces removed. *)
Fixpoint rtrim (s : list Z) : list Z :=
  match s with
  | [] => []
  | c :: s => match rtrim s with
              | [] => if c =? 32 then [] else [c]
              | t => c :: t
              end
  end.

(** Does a list of 16-bit UUIDs contain HID over GATT (0x1812)? *)
Fixpoint has_hid_uuid (payload : list Z) : bool :=
  match payload with
  | a :: b :: rest => (a + 256 * b =? 6162) || has_hid_uuid rest
  | _ => false
  end.

(** One advertising structure folded into what is known of the device. *)
Definition adv_spec (out : bt_le_adv_info) (f : Z * list Z) : bt_le_adv_info :=
  let '(type, payload) := f in
  if (type =? 2) || (type =? 3) then
    {| av_hid := av_hid out || has_hid_uuid payload; av_appearance := av_appearance out;
       av_name := av_name out; av_name_len := av_name_len out; av_name_complete := av_name_complete out |}
  else if (type =? 8) && bool_decide (av_name out = None) || (type =? 9) && negb (av_name_complete out) then
    {| av_hid := av_hid out; av_appearance := av_appearance out; av_name := Some payload;
       av_name_len := zlen payload; av_name_complete := type =? 9 |}
  else if (type =? 25) then
    match payload with
    | a :: b :: _ =>
        {| av_hid := av_hid out || ((a + 256 * b) / 64 =? 15); av_appearance := a + 256 * b;
           av_name := av_name out; av_name_len := av_name_len out; av_name_complete := av_name_complete out |}
    | _ => out
    end
  else out.

(** Both ways of recording a sighting have this shape. *)
Definition note_with (update : bt_discovered_device -> outcome bt_discovered_device)
    (reg : bt_device_registry) (addr : bt_addr) : outcome (option Z * bt_device_registry) :=
  let? r := find_or_create reg addr in
  match r.1 with
  | None => Ret (None, r.2)
  | Some dev => let? reg := on_device r.2 dev update in Ret (Some dev, reg)
  end.

(** [update] never fails on a well-formed entry and keeps it well formed and
    at its address. *)
Definition good_update (update : bt_discovered_device -> outcome bt_discovered_device) : Prop :=
  forall d, device_ok d -> exists d', update d = Ret d' /\ device_ok d' /\ dd_addr d' = dd_addr d.

(** [note] records a sighting: the map entry of the address, or a fresh one
    while there is room, goes through [update]; every other entry keeps its
    contents and its place; a full registry refuses unknown addresses. *)
Definition records_sighting (update : bt_discovered_device -> outcome bt_discovered_device)
    (note : bt_device_registry -> bt_addr -> outcome (option Z * bt_device_registry)) : Prop :=
  forall reg addr, registry_ok reg -> addr_ok addr ->
  if decide (reg_map reg !! addr = None /\ dr_count reg = BT_DEVICE_REGISTRY_MAX)
  then note reg addr = Ret (None, reg)
  else exists i d reg', note reg addr = Ret (Some (Z.of_nat i), reg') /\ registry_ok reg' /\
    update (default (fresh_device addr) (reg_map reg !! addr)) = Ret d /\
    reg_map reg' = <[addr := d]> (reg_map reg) /\ entries reg' !! i = Some d /\
    dr_count reg' = (if reg_map reg !! addr is Some _ then dr_count reg else dr_count reg + 1) /\
    forall j e, entries reg !! j = Some e -> dd_addr e <> addr -> entries reg' !! j = Some e.

(** Advertising structures on the wire. *)
Definition ad_bytes (fields : list (Z * list Z)) : list Z :=
  mjoin ((fun f => (1 + zlen f.2) :: f.1 :: f.2) <$> fields).

(** Where parsing stops: the end, a zero length, or a truncated structure. *)
Definition ad_end (tail : list Z) : Prop :=
  match tail with [] => True | n :: rest => n = 0 \/ zlen rest < n end.

(** ** Lemmas: names *)

Lemma rtrim_snoc s c : rtrim (s ++ [c]) = if c =? 32 then rtrim s else s ++ [c].
Proof.
  induction s as [|x s IH]; simpl; [done|]. rewrite IH. destruct (c =? 32); [done|].
  by destruct (s ++ [c]) eqn:E; [destruct s|].
Qed.

Lemma rtrim_prefix s : exists sp, s = rtrim s ++ sp.
Proof.
  induction s as [|c s [sp IH]] using rev_ind; [by exists []|]. rewrite rtrim_snoc.
  destruct (c =? 32); [|exists []; by rewrite app_nil_r].
  exists (sp ++ [c]). rewrite app_assoc. by rewrite <- IH.
Qed.

Lemma rtrim_last s : last (rtrim s) <> Some 32.
Proof.
  induction s as [|c s IH] using rev_ind; [done|]. rewrite rtrim_snoc.
  destruct (Z.eqb_spec c 32); [done|]. rewrite last_snoc. congruence.
Qed.

Lemma printable_range c : 32 <= printable c <= 126.
Proof. unfold printable. repeat zcase; lia. Qed.

Lemma name_trim_spec a : forall b, name_trim (a ++ b) (length a) = Ret (length (rtrim a)).
Proof.
  induction a as [|c a IH] using rev_ind; intros b; [done|].
  rewrite length_app. cbn [length]. rewrite Nat.add_1_r. cbn [name_trim].
  rewrite <- app_assoc. rewrite (ld_at a [c] b _ 0 c) by (simpl; done || lia). cbn [obind].
  rewrite rtrim_snoc. destruct (c =? 32); [apply IH|]. by rewrite length_app, Nat.add_1_r.
Qed.

Lemma c_prefix_length n s : (length (c_prefix n s) <= n)%nat.
Proof. revert s. induction n; intros [|c s]; simpl; try lia. destruct (c =? 0); simpl; [lia|]. specialize (IHn s). lia. Qed.

Lemma name_copy_spec fuel : forall dst pre rest len,
  zlen dst = BT_DEVICE_NAME_LEN -> 24 - zlen pre < Z.of_nat fuel -> zlen pre <= 24 ->
  (len <= zlen (pre ++ rest) \/ 0 ∈ rest) ->
  let t := printable <$> c_prefix (Z.to_nat (len `min` 24 - zlen pre)) rest in
  name_copy fuel dst (pre ++ rest) len (zlen pre) = Ret (splice dst (zlen pre) t, zlen pre + zlen t).
Proof.
  induction fuel as [|fuel IH]; intros dst pre rest len Hd Hf Hp Hr; cbv zeta; [lia|].
  unfold BT_DEVICE_NAME_LEN in *. set (t := printable <$> _).
  cbn [name_copy]. unfold BT_DEVICE_NAME_LEN.
  destruct (Z.ltb_spec (zlen pre) len), (Z.ltb_spec (zlen pre + 1) 25); cbn [andb];
    try (subst t; replace (Z.to_nat (len `min` 24 - zlen pre)) with 0%nat by lia;
         simpl; rewrite splice_nil; by rewrite Z.add_0_r).
  destruct rest as [|c rest].
  { exfalso. destruct Hr as [Hr|Hr]; [rewrite app_nil_r in Hr; lia|inv Hr]. }
  rewrite (ld_at pre [c] rest _ 0 c) by (simpl; done || lia). cbn [obind].
  subst t. replace (Z.to_nat (len `min` 24 - zlen pre)) with (S (Z.to_nat (len `min` 24 - zlen (pre ++ [c])))) by zlist.
  cbn [c_prefix]. destruct (Z.eqb_spec c 0).
  { simpl. rewrite splice_nil. by rewrite Z.add_0_r. }
  unfold st1. rewrite stn_spec by (simpl; lia). cbn [obind].
  replace (zlen pre + 1) with (zlen (pre ++ [c])) by zlist.
  replace (pre ++ c :: rest) with ((pre ++ [c]) ++ rest) in Hr |- * by (by rewrite <- app_assoc).
  rewrite IH; [|rewrite splice_length; simpl; lia|zlist|zlist|].
  - rewrite fmap_cons. set (t := printable <$> c_prefix _ rest).
    replace (zlen (pre ++ [c])) with (zlen pre + zlen [printable c]) by zlist.
    assert (zlen t <= 24 - zlen pre - 1).
    { subst t. rewrite length_fmap. pose proof (c_prefix_length (Z.to_nat (len `min` 24 - zlen (pre ++ [c]))) rest).
      rewrite length_app in *. simpl in *. lia. }
    rewrite splice_splice by (simpl; lia). do 2 f_equal. simpl. lia.
  - destruct Hr as [Hr|Hr]; [by left|]. right. by inv Hr.
Qed.

(** What [bt_device_set_name] stores. *)
Definition stored_name (name : list Z) (length : Z) : list Z :=
  rtrim (printable <$> c_prefix (Z.to_nat (length `min` 24)) name).

(** The name can be read: it is [length] bytes long or ends in a NUL. *)
Definition readable (name : list Z) (length : Z) : Prop := length <= zlen name \/ 0 ∈ name.

Lemma set_name_spec dev name len state : zlen (dd_name dev) = BT_DEVICE_NAME_LEN ->
  readable name len -> 0 <= dd_name_state dev -> dd_name_state dev < state ->
  exists dst, bt_device_set_name dev (Some name) len state =
    Ret {| dd_addr := dd_addr dev; dd_flags := dd_flags dev;
           dd_class_of_device := dd_class_of_device dev;
           dd_le_address_type := dd_le_address_type dev; dd_appearance := dd_appearance dev;
           dd_name := dst; dd_name_state := state;
           dd_last_rssi := dd_last_rssi dev; dd_sightings := dd_sightings dev |} /\
    name_string dst (stored_name name len) /\ zlen dst = BT_DEVICE_NAME_LEN.
Proof.
  intros Hd Hr Hs0 Hs. unfold bt_device_set_name.
  rewrite (proj2 (Z.eqb_neq state 0)) by lia. rewrite (proj2 (Z.leb_gt _ _)) by lia.
  pose proof (name_copy_spec (Z.to_nat BT_DEVICE_NAME_LEN) (dd_name dev) [] name len Hd) as Hc.
  cbn [app length] in Hc. cbv zeta in Hc. change (Z.of_nat 0) with 0 in Hc. rewrite Hc by (unfold BT_DEVICE_NAME_LEN; done || lia). clear Hc.
  cbn [obind fst snd]. rewrite Z.sub_0_r, !Z.add_0_l, Nat2Z.id.
  unfold stored_name. set (t := printable <$> c_prefix (Z.to_nat (len `min` 24)) name).
  assert (zlen t <= 24) as Ht.
  { subst t. rewrite length_fmap. pose proof (c_prefix_length (Z.to_nat (len `min` 24)) name). lia. }
  assert (Forall (fun c => 32 <= c <= 126) t) as Hpr.
  { subst t. apply Forall_fmap, Forall_true. intros c. apply printable_range. }
  assert (splice (dd_name dev) 0 t = t ++ drop (length t) (dd_name dev)) as -> by done.
  rewrite name_trim_spec. cbn [obind]. destruct (rtrim_prefix t) as [sp Hsp].
  unfold BT_DEVICE_NAME_LEN in *. unfold st1.
  rewrite stn_spec; [|lia|rewrite Hsp at 2; zlist]. cbn [obind]. eexists. split; [done|]. split.
  - set (r := rtrim t) in *. exists (drop 1 (sp ++ drop (length t) (dd_name dev))).
    split; [|split; [|subst r; apply rtrim_last]].
    + rewrite Hsp at 1. unfold splice. rewrite Nat2Z.id, <- app_assoc, take_app_length.
      cbn [length app]. do 2 f_equal. rewrite drop_app_ge by lia. f_equal. lia.
    + rewrite Hsp in Hpr. by apply Forall_app in Hpr as [? _].
  - rewrite splice_length; [zlist|lia|]. rewrite Hsp at 2. zlist.
Qed.

Lemma set_name_keep dev name len state : dd_name_state dev >= state -> 
  bt_device_set_name dev name len state = Ret dev.
Proof.
  intros Hs. unfold bt_device_set_name. destruct name; [|done]. destruct (state =? 0); [done|].
  by rewrite (proj2 (Z.leb_le _ _)) by lia.
Qed.

(** ** Lemmas: the registry as a map *)

Abbreviation lmap := (keyed dd_addr).

Lemma find_loop_spec addr es : forall pre rest, addr_ok addr -> Forall (fun d => addr_ok (dd_addr d)) es ->
  ((addr ∉ dd_addr <$> es) /\ find_loop (pre ++ es ++ rest) addr (zlen pre) (length es) = Ret None) \/
  exists e1 d e2, es = e1 ++ d :: e2 /\ dd_addr d = addr /\
    find_loop (pre ++ es ++ rest) addr (zlen pre) (length es) = Ret (Some (zlen (pre ++ e1))).
Proof.
  induction es as [|d es IH]; intros pre rest Ha Hf; [left; split; [set_solver|done]|].
  apply Forall_cons in Hf as [Hd Hf]. cbn [find_loop length].
  rewrite (ld_at pre [d] (es ++ rest) _ 0 d) by (simpl; done || lia). cbn [obind].
  rewrite bt_addr_equal_spec by done. case_bool_decide as Heq.
  - right. exists [], d, es. by rewrite app_nil_r.
  - replace (zlen pre + 1) with (zlen (pre ++ [d])) by zlist.
    replace (pre ++ (d :: es) ++ rest) with ((pre ++ [d]) ++ es ++ rest) by (by rewrite <- app_assoc).
    destruct (IH (pre ++ [d]) rest Ha Hf) as [[Hn ->]|(e1 & x & e2 & -> & Hx & ->)].
    + left. split; [set_solver|done].
    + right. exists (d :: e1), x, e2. split; [done|]. split; [done|]. by rewrite <- app_assoc.
Qed.

(** Replacing the entry after [pre]. *)
Lemma put_device_mid reg pre d d' post : dr_devices reg = pre ++ d :: post ->
  put_device reg (zlen pre) d' = Ret {| dr_count := dr_count reg; dr_devices := pre ++ d' :: post |}.
Proof.
  intros Hd. unfold put_device. rewrite Hd.
  rewrite (proj2 (Z.leb_le _ _)), (proj2 (Z.ltb_lt _ _)) by zlist. cbn [andb].
  by rewrite Nat2Z.id, insert_app_r_alt, Nat.sub_diag by lia.
Qed.

Lemma on_device_mid reg pre d d' post u : dr_devices reg = pre ++ d :: post -> u d = Ret d' ->
  on_device reg (zlen pre) u = Ret {| dr_count := dr_count reg; dr_devices := pre ++ d' :: post |}.
Proof.
  intros Hd Hu. unfold on_device. rewrite Hd, (ld_at pre [d] post _ 0 d) by (simpl; done || lia).
  cbn [obind]. rewrite Hu. cbn [obind]. by eapply put_device_mid.
Qed.

Lemma fresh_ok a : addr_ok a -> device_ok (fresh_device a).
Proof.
  intros Ha. split; [done|]. split; [done|]. split; [|simpl; lia].
  exists []. exists (replicate 24 0). done.
Qed.

Lemma entries_split reg : registry_ok reg -> exists rest, dr_devices reg = entries reg ++ rest /\
  zlen (entries reg) = dr_count reg /\ zlen rest = BT_DEVICE_REGISTRY_MAX - dr_count reg.
Proof.
  intros (Hc & Hl & _). exists (drop (Z.to_nat (dr_count reg)) (dr_devices reg)).
  unfold entries. rewrite take_drop. split; [done|]. zlist.
Qed.

Lemma registry_init_ok reg : zlen (dr_devices reg) = BT_DEVICE_REGISTRY_MAX -> registry_ok (bt_device_registry_init reg).
Proof.
  intros Hl. split; [unfold BT_DEVICE_REGISTRY_MAX; simpl; lia|]. split; [done|]. by repeat constructor.
Qed.

Lemma registry_ok_of c es rest : zlen es = c -> zlen es + zlen rest = BT_DEVICE_REGISTRY_MAX ->
  NoDup (dd_addr <$> es) -> Forall device_ok es ->
  registry_ok {| dr_count := c; dr_devices := es ++ rest |} /\
  entries {| dr_count := c; dr_devices := es ++ rest |} = es.
Proof.
  intros <- Hl Hnd Hf.
  assert (entries {| dr_count := zlen es; dr_devices := es ++ rest |} = es) as He
    by (unfold entries; cbn [dr_count dr_devices]; by rewrite Nat2Z.id, take_app_length).
  split; [|done]. unfold registry_ok. rewrite He. cbn [dr_count dr_devices].
  split; [lia|]. split; [zlist|done].
Qed.

Lemma note_records u : good_update u -> records_sighting u (note_with u).
Proof.
  intros Hu reg addr Hok Ha. destruct (entries_split reg Hok) as (rest & Hdev & Hlen & Hrest).
  pose proof Hok as (Hc & Hl & Hnd & Hf).
  assert (Forall (fun d => addr_ok (dd_addr d)) (entries reg)) as Hfa
    by (eapply Forall_impl; [exact Hf|]; by intros d [? _]).
  unfold note_with, find_or_create. rewrite Hdev.
  replace (Z.to_nat (dr_count reg)) with (length (entries reg)) by lia.
  change (reg_map reg) with (lmap (entries reg)).
  destruct (find_loop_spec addr (entries reg) [] rest Ha Hfa) as [[Hni Hfl]|(e1 & d & e2 & He & Hd & Hfl)];
    simpl app in Hfl; change (zlen []) with 0 in Hfl; rewrite Hfl; cbn [obind].
  - rewrite (proj2 (keyed_lookup_None dd_addr _ _) Hni). rewrite Z.geb_leb.
    destruct (Z.leb_spec BT_DEVICE_REGISTRY_MAX (dr_count reg)) as [Hmax|Hmax].
    { rewrite decide_True by (split; [done|lia]). cbn [obind fst snd]. done. }
    rewrite decide_False by (intros [_ ?]; lia).
    destruct rest as [|x rest]; [simpl in Hrest; lia|].
    rewrite <- Hlen. rewrite (put_device_mid _ (entries reg) x _ rest) by done.
    cbn [obind fst snd dr_count].
    destruct (Hu _ (fresh_ok addr Ha)) as (d' & Hud & Hdok & Hda).
    erewrite on_device_mid by done. cbn [obind dr_count].
    simpl in Hda. simpl in Hrest.
    destruct (registry_ok_of (zlen (entries reg) + 1) (entries reg ++ [d']) rest) as [Hok' He'].
    { zlist. } { zlist. }
    { rewrite fmap_app. apply NoDup_app. split; [done|]. split; [|apply NoDup_singleton].
      simpl. rewrite Hda. set_solver. }
    { apply Forall_app. by split; [|constructor]. }
    rewrite <- app_assoc in Hok', He'. simpl in Hok', He'.
    exists (length (entries reg)), d'. eexists. split; [do 3 f_equal; lia|]. split; [exact Hok'|].
    split; [done|]. unfold reg_map. rewrite He'. split.
    { fold (lmap (entries reg ++ [d'])) (lmap (entries reg)). rewrite keyed_snoc; [by rewrite Hda|].
      destruct Hok' as (_ & _ & Hnd' & _). by rewrite He' in Hnd'. }
    split; [by rewrite list_lookup_middle|]. split; [done|].
    intros j e Hj _. by apply lookup_app_l_Some.
  - rewrite He in *. pose proof (keyed_lookup_middle dd_addr _ _ _ Hnd) as Hlk. rewrite Hd in Hlk. rewrite Hlk.
    rewrite decide_False by (by intros [? _]). cbn [fst snd].
    apply Forall_app in Hf as Hf'. destruct Hf' as [Hf1 Hf2]. apply Forall_cons in Hf2 as [Hdok Hf2].
    destruct (Hu _ Hdok) as (d' & Hud & Hdok' & Hda).
    assert (dr_devices reg = e1 ++ d :: (e2 ++ rest)) as Hdev2 by (rewrite Hdev; by rewrite <- app_assoc).
    rewrite (on_device_mid reg e1 d d' (e2 ++ rest) u Hdev2 Hud). cbn [obind].
    destruct (registry_ok_of (dr_count reg) (e1 ++ d' :: e2) rest) as [Hok' He'].
    { rewrite <- Hlen. zlist. } { rewrite !length_app in *. simpl in *. lia. }
    { rewrite fmap_app, fmap_cons in *. by rewrite Hda. }
    { apply Forall_app. by split; [|constructor]. }
    rewrite <- app_assoc in Hok', He'. simpl in Hok', He'.
    exists (length e1), d'. eexists. split; [done|]. split; [exact Hok'|]. split; [done|].
    unfold reg_map. rewrite He'. split.
    { fold (lmap (e1 ++ d' :: e2)). rewrite (keyed_replace dd_addr e1 d) by done. by rewrite Hd. }
    split; [by rewrite list_lookup_middle|]. split; [done|].
    intros j e Hj Hne. destruct (decide (j = length e1)) as [->|Hj1].
    { rewrite list_lookup_middle in Hj by done. congruence. }
    destruct (Nat.lt_ge_cases j (length e1)).
    + by rewrite lookup_app_l in Hj |- * by lia.
    + rewrite lookup_app_r in Hj |- * by lia.
      destruct (j - length e1)%nat eqn:E; [lia|done].
Qed.

Lemma on_device_ok reg i u : registry_ok reg -> 0 <= i < dr_count reg -> good_update u ->
  exists reg', on_device reg i u = Ret reg' /\ registry_ok reg' /\ dr_count reg' = dr_count reg.
Proof.
  intros Hok Hi Hu. destruct (entries_split reg Hok) as (rest & Hdev & Hlen & Hrest).
  pose proof Hok as (Hc & Hl & Hnd & Hf).
  destruct (lookup_lt_is_Some_2 (entries reg) (Z.to_nat i)) as [d Hd]; [lia|].
  pose proof (take_drop_middle _ _ _ Hd) as Hsplit. set (e1 := take _ _) in *. set (e2 := drop _ _) in *.
  assert (zlen e1 = i) as He1 by (subst e1; rewrite length_take; lia). rewrite <- Hsplit in Hnd, Hf, Hdev.
  apply Forall_app in Hf as Hf'. destruct Hf' as [Hf1 Hf2]. apply Forall_cons in Hf2 as [Hdok Hf2].
  destruct (Hu _ Hdok) as (d' & Hud & Hdok' & Hda).
  assert (dr_devices reg = e1 ++ d :: (e2 ++ rest)) as Hdev2 by (rewrite Hdev; by rewrite <- app_assoc).
  rewrite <- He1, (on_device_mid reg e1 d d' (e2 ++ rest) u Hdev2 Hud).
  eexists. split; [done|]. split; [|done].
  replace (e1 ++ d' :: e2 ++ rest) with ((e1 ++ d' :: e2) ++ rest) by (by rewrite <- app_assoc).
  rewrite <- Hsplit in Hlen. apply registry_ok_of.
  - rewrite <- Hlen. zlist.
  - rewrite !length_app in *. simpl in *. lia.
  - rewrite fmap_app, fmap_cons in *. by rewrite Hda.
  - apply Forall_app. by split; [|constructor].
Qed.

Lemma le_update_good at_ rssi : good_update (le_update at_ rssi).
Proof. intros d Hd. eexists. split; [done|]. split; [|done]. destruct Hd as (? & ? & ? & ?). done. Qed.

Lemma label_from_cod_readable cod l : bt_label_from_cod cod = Some l -> readable l BT_DEVICE_NAME_LEN.
Proof.
  unfold bt_label_from_cod, readable. intros H. right.
  repeat case_match; simplify_eq; unfold literal; apply elem_of_app; right; left.
Qed.

Lemma classic_update_good cod : good_update (classic_update cod).
Proof.
  intros d (Ha & Hl & Hn & Hs). unfold classic_update.
  set (fl := if bt_cod_is_hid cod then _ else _).
  destruct (bt_label_from_cod cod) as [l|] eqn:El; [|eexists; split; [done|]; by split].
  destruct (Z.lt_ge_cases (dd_name_state d) 1) as [H1|H1].
  - match goal with |- context [bt_device_set_name ?x _ _ _] =>
      destruct (set_name_spec x l BT_DEVICE_NAME_LEN 1) as (dst & -> & Hstr & Hlen);
        [done|by eapply label_from_cod_readable|simpl; lia|done|] end.
    cbn [obind]. eexists. split; [done|]. split; [|done]. split; [done|]. split; [done|].
    split; [by eexists|simpl; lia].
  - rewrite set_name_keep by (simpl; lia). cbn [obind]. eexists. split; [done|]. by split.
Qed.

(** ** Lemmas: advertising data *)

Lemma le16_or a b : is_byte a -> is_byte b -> u16 (Z.lor a (Z.shiftl b 8)) = a + 256 * b.
Proof. unfold is_byte. intros. rewrite lor_shiftl by lia. rewrite u16_small by lia. lia. Qed.

Lemma uuid_loop_spec fuel : forall pre rest hid, bytes rest -> (length rest < fuel)%nat ->
  uuid_loop fuel (pre ++ rest) (zlen pre + zlen rest) (zlen pre) hid = Ret (hid || has_hid_uuid rest).
Proof.
  induction fuel as [|fuel IH]; intros pre rest hid Hb Hf; [lia|]. cbn [uuid_loop].
  destruct rest as [|a [|b rest]].
  - rewrite (proj2 (Z.ltb_ge _ _)) by (simpl; lia). by rewrite orb_false_r.
  - rewrite (proj2 (Z.ltb_ge _ _)) by (simpl; lia). by rewrite orb_false_r.
  - rewrite (proj2 (Z.ltb_lt _ _)) by (simpl; lia).
    rewrite (ld_at pre [a; b] rest _ 0 a), (ld_at pre [a; b] rest _ 1 b) by (simpl; done || lia).
    cbn [obind]. apply Forall_cons in Hb as [Ha Hb]. apply Forall_cons in Hb as [Hbb Hb].
    rewrite le16_or by done. simpl in Hf.
    specialize (IH (pre ++ [a; b]) rest (if a + 256 * b =? 6162 then true else hid) Hb ltac:(lia)).
    rewrite <- app_assoc in IH. rewrite length_app in IH. cbn [app length] in IH.
    replace (zlen pre + 2) with (Z.of_nat (length pre + 2)) by lia.
    replace (zlen pre + zlen (a :: b :: rest)) with (Z.of_nat (length pre + 2) + zlen rest) by (simpl; lia).
    rewrite IH. cbn [has_hid_uuid]. destruct (a + 256 * b =? 6162); [|done].
    by rewrite orb_true_r.
Qed.

Definition adv_inv (out : bt_le_adv_info) : Prop := av_name out = None -> av_name_complete out = false.

Lemma adv_field_spec out type payload : bytes payload -> adv_inv out ->
  adv_field out type payload (zlen payload) = Ret (adv_spec out (type, payload)) /\
  adv_inv (adv_spec out (type, payload)).
Proof.
  intros Hb Hi. unfold adv_field, adv_spec.
  destruct ((type =? 2) || (type =? 3)).
  { pose proof (uuid_loop_spec (S (length payload)) [] payload (av_hid out) Hb ltac:(lia)) as Hu.
    simpl app in Hu. change (zlen [] + zlen payload) with (zlen payload) in Hu.
    change (zlen []) with 0 in Hu. rewrite Nat2Z.id, Hu. done. }
  destruct (Z.eqb_spec type 8) as [->|]; [|destruct (Z.eqb_spec type 9) as [->|]]; cbn [orb andb Z.eqb].
  - rewrite orb_false_r. by destruct (av_name out) eqn:E; cbn; rewrite ?E.
  - destruct (av_name out) eqn:E; cbn [orb].
    + by destruct (av_name_complete out) eqn:Ec; cbn [negb].
    + rewrite Hi by done. done.
  - destruct (type =? 25); [|done]. rewrite Z.geb_leb.
    destruct payload as [|a [|b payload]]; [done|done|].
    rewrite (proj2 (Z.leb_le _ _)) by (simpl; lia). rewrite ld_cons_0, ld_cons_S by lia.
    rewrite ld_cons_0. cbn [obind]. apply Forall_cons in Hb as [Ha Hb]. apply Forall_cons in Hb as [Hbb Hb].
    rewrite le16_or by done. rewrite Z.shiftr_div_pow2 by lia. change (2 ^ 6) with 64.
    split; [|done]. destruct ((a + 256 * b) / 64 =? 15); by rewrite ?orb_true_r, ?orb_false_r.
Qed.

Definition ad_field_ok (f : Z * list Z) : Prop := is_byte f.1 /\ bytes f.2 /\ zlen f.2 < 255.

Lemma adv_loop_spec fuel : forall pre rest out, bytes rest -> adv_inv out -> (length rest < fuel)%nat ->
  exists fields tail, rest = ad_bytes fields ++ tail /\ ad_end tail /\ Forall ad_field_ok fields /\
    adv_loop fuel (pre ++ rest) (zlen pre + zlen rest) (zlen pre) out = Ret (foldl adv_spec out fields).
Proof.
  induction fuel as [|fuel IH]; intros pre rest out Hb Hi Hf; [lia|]. cbn [adv_loop].
  destruct rest as [|n rest].
  { rewrite (proj2 (Z.ltb_ge _ _)) by (simpl; lia). by exists [], []. }
  rewrite (proj2 (Z.ltb_lt _ _)) by (simpl; lia).
  rewrite (ld_at pre [n] rest _ 0 n) by (simpl; done || lia). cbn [obind].
  destruct (Z.eqb_spec n 0) as [->|Hn0]; [exists [], (0 :: rest); by repeat split; [left|]|].
  rewrite Z.gtb_ltb. destruct (Z.ltb_spec (zlen pre + zlen (n :: rest)) (zlen pre + 1 + n)) as [Ht|Ht].
  { exists [], (n :: rest). split; [done|]. split; [right; simpl in *; lia|done]. }
  apply Forall_cons in Hb as [Hn Hb]. unfold is_byte in Hn. simpl in Ht, Hf.
  destruct rest as [|type rest]; [simpl in *; lia|]. apply Forall_cons in Hb as [Hty Hb]. simpl in Ht, Hf.
  rewrite (ld_at pre [n; type] rest _ 1 type) by (simpl; done || lia). cbn [obind].
  rewrite <- (take_drop (Z.to_nat (n - 1)) rest) in Hb |- *.
  assert (zlen (take (Z.to_nat (n - 1)) rest) = n - 1) as Hpl by zlist.
  assert (length (drop (Z.to_nat (n - 1)) rest) < fuel)%nat as Hrl by zlist.
  revert Hb Hpl Hrl. generalize (take (Z.to_nat (n - 1)) rest), (drop (Z.to_nat (n - 1)) rest).
  intros payload rest' Hb Hpl Hrl. apply Forall_app in Hb as [Hp Hb].
  pose proof (ldn_mid (pre ++ [n; type]) payload rest') as Hl.
  rewrite <- app_assoc in Hl. cbn [app] in Hl.
  replace (zlen (pre ++ [n; type])) with (zlen pre + 2) in Hl by zlist.
  rewrite Hpl in Hl. rewrite Hl. cbn [obind].
  destruct (adv_field_spec out type payload Hp Hi) as [Hfd Hi']. rewrite Hpl in Hfd. rewrite Hfd. cbn [obind].
  destruct (IH (pre ++ n :: type :: payload) rest' _ Hb Hi' Hrl) as (fields & tail & -> & He & Hok & Hl').
  exists ((type, payload) :: fields), tail. split.
  { unfold ad_bytes. rewrite mjoin_cons. simpl. rewrite Hpl. replace (1 + (n - 1)) with n by lia. by rewrite <- app_assoc. }
  split; [done|]. split; [constructor; [split; [done|]; split; [done|simpl; lia]|done]|].
  rewrite <- app_assoc in Hl'. cbn [app] in Hl'.
  replace (zlen (pre ++ n :: type :: payload)) with (zlen pre + (1 + n)) in Hl' by (rewrite length_app; simpl; lia).
  replace (zlen pre + (1 + n) + zlen (ad_bytes fields ++ tail)) with
    (zlen pre + zlen (n :: type :: payload ++ ad_bytes fields ++ tail)) in Hl'
    by (cbn [length]; rewrite (length_app payload); lia).
  exact Hl'.
Qed.

Lemma find_safe reg addr : registry_ok reg -> addr_ok addr ->
  exists o, bt_device_registry_find reg addr = Ret o.
Proof.
  intros Hok Ha. destruct (entries_split reg Hok) as (rest & Hdev & Hlen & Hrest).
  pose proof Hok as (Hc & Hl & Hnd & Hf). unfold bt_device_registry_find. rewrite Hdev.
  replace (Z.to_nat (dr_count reg)) with (length (entries reg)) by lia.
  destruct (find_loop_spec addr (entries reg) [] rest) as [[_ Hfl]|(e1 & d & e2 & _ & _ & Hfl)];
    [done|eapply Forall_impl; [exact Hf|]; by intros d [? _]|by eexists|by eexists].
Qed.

(** What the parser returns can be used: its name lies in the payload. *)
Definition info_ok (info : bt_le_adv_info) : Prop :=
  forall n, av_name info = Some n -> zlen n = av_name_len info.

Lemma adv_spec_info out f : info_ok out -> info_ok (adv_spec out f).
Proof.
  destruct f as [type payload]. intros Hi. unfold adv_spec.
  destruct (_ || _); [done|]. destruct (_ || _); [by intros n [= <-]|].
  destruct (type =? 25); [|done]. by destruct payload as [|a [|b payload]].
Qed.

Lemma adv_fold_info fields : forall out, info_ok out -> info_ok (foldl adv_spec out fields).
Proof. induction fields as [|f l IH]; intros out Hi; [done|]. by apply IH, adv_spec_info. Qed.

Lemma adv_parse_safe data : bytes data -> exists info, bt_le_adv_parse (Some data) (zlen data) = Ret info /\ info_ok info.
Proof.
  intros Hb. destruct (adv_loop_spec (S (length data)) [] data adv_empty Hb ltac:(done) ltac:(lia))
    as (fields & tail & _ & _ & _ & Hl).
  eexists. split; [unfold bt_le_adv_parse; rewrite Nat2Z.id; exact Hl|]. by apply adv_fold_info.
Qed.

Lemma label_from_appearance_readable a l : bt_label_from_appearance a = Some l -> readable l BT_DEVICE_NAME_LEN.
Proof.
  unfold bt_label_from_appearance, readable. intros H. right.
  repeat case_match; simplify_eq; unfold literal; apply elem_of_app; right; left.
Qed.

Lemma set_name_good name len state : (forall n, name = Some n -> readable n len) -> 0 <= state <= 2 ->
  good_update (fun dev => bt_device_set_name dev name len state).
Proof.
  intros Hr Hst d Hd. destruct name as [n|]; [|by exists d]. specialize (Hr n eq_refl).
  destruct (Z.le_gt_cases state (dd_name_state d)); [exists d; by rewrite set_name_keep by lia|].
  destruct Hd as (Ha & Hl & Hn & Hs).
  destruct (set_name_spec d n len state) as (dst & -> & Hstr & Hlen); [done..|lia|lia|].
  eexists. split; [done|]. split; [|done]. split; [done|]. split; [done|]. split; [by eexists|simpl; lia].
Qed.

Lemma note_ok u reg addr : good_update u -> registry_ok reg -> addr_ok addr ->
  exists o reg', note_with u reg addr = Ret (o, reg') /\ registry_ok reg' /\
    (forall i, o = Some i -> 0 <= i < dr_count reg').
Proof.
  intros Hu Hok Ha. pose proof (note_records u Hu reg addr Hok Ha) as H. case_decide.
  - exists None, reg. by rewrite H.
  - destruct H as (i & d & reg' & Hn & Hok' & _ & _ & Hi & _). exists (Some (Z.of_nat i)), reg'.
    split; [done|]. split; [done|]. intros j [= <-]. apply lookup_lt_Some in Hi.
    destruct (entries_split reg' Hok') as (rest & _ & Hlen & _). lia.
Qed.

(** ** Properties *)

(** C22.  The registry is a map from address to device.  Recording a sighting
    (classic or LE) of a well-formed registry succeeds unless the address is
    unknown and all 32 slots are taken, in which case nothing changes; on
    success the address's entry, or a zeroed fresh one, goes through the
    update, every other entry keeps its contents and its index, the count
    grows exactly when the address was new, and the invariant (unique
    addresses, count within bounds, well-formed names) still holds.  Lookup
    by address agrees with the map, and the count is the map's size. *)
Theorem registry_refines_map :
  (forall cod, records_sighting (classic_update cod)
     (fun reg addr => bt_device_registry_note_classic reg addr cod)) /\
  (forall at_ rssi, records_sighting (le_update at_ rssi)
     (fun reg addr => bt_device_registry_note_le reg addr at_ rssi)) /\
  (forall reg addr, registry_ok reg -> addr_ok addr ->
     match bt_device_registry_find reg addr with
     | Ret (Some i) => exists d, bt_device_registry_get reg i = Ret (Some d) /\ reg_map reg !! addr = Some d
     | Ret None => reg_map reg !! addr = None
     | _ => False
     end) /\
  (forall reg, registry_ok reg -> Z.of_nat (size (reg_map reg)) = bt_device_registry_count reg).
Proof.
  split; [intros cod; apply (note_records _ (classic_update_good cod))|].
  split; [intros at_ rssi; apply (note_records _ (le_update_good at_ rssi))|]. split.
  - intros reg addr Hok Ha. destruct (entries_split reg Hok) as (rest & Hdev & Hlen & Hrest).
    pose proof Hok as (Hc & Hl & Hnd & Hf). unfold bt_device_registry_find. rewrite Hdev.
    replace (Z.to_nat (dr_count reg)) with (length (entries reg)) by lia.
    destruct (find_loop_spec addr (entries reg) [] rest) as [[Hni Hfl]|(e1 & d & e2 & He & Hd & Hfl)];
      [done|eapply Forall_impl; [exact Hf|]; by intros d [? _]| |];
      simpl app in Hfl; change (zlen []) with 0 in Hfl; rewrite Hfl.
    + by apply keyed_lookup_None.
    + exists d. rewrite He in Hnd, Hlen, Hdev. unfold bt_device_registry_get.
      rewrite Z.geb_leb, (proj2 (Z.leb_gt _ _)) by (rewrite length_app in Hlen; simpl in Hlen; lia).
      rewrite Hdev, <- app_assoc. rewrite (ld_at e1 (d :: e2) rest _ 0 d) by (simpl; done || lia).
      split; [done|]. unfold reg_map. rewrite He, <- Hd. by apply keyed_lookup_middle.
  - intros reg Hok. destruct (entries_split reg Hok) as (rest & Hdev & Hlen & Hrest).
    destruct Hok as (_ & _ & Hnd & _). unfold bt_device_registry_count, reg_map.
    by rewrite <- Hlen, keyed_size.
Qed.

(** Names only get better and are always displayable.  A name is taken
    only from a strictly better source than the one recorded, otherwise the
    entry is unchanged; when taken, the buffer holds the given name up to its
    first NUL, cut to 24 characters, with unprintable bytes shown as '?' and
    trailing spaces removed, NUL-terminated inside the 25-byte field. *)
Theorem set_name_ladder : forall dev name length state,
  device_ok dev -> readable name length -> 0 <= state <= 2 ->
  if state <=? dd_name_state dev then bt_device_set_name dev (Some name) length state = Ret dev
  else exists dev', bt_device_set_name dev (Some name) length state = Ret dev' /\
    device_ok dev' /\ dd_name_state dev' = state /\
    name_string (dd_name dev') (stored_name name length) /\
    dd_addr dev' = dd_addr dev /\ dd_flags dev' = dd_flags dev /\ dd_sightings dev' = dd_sightings dev.
Proof.
  intros dev name len state (Ha & Hl & Hn & Hs) Hr Hst. zcase; [by apply set_name_keep; lia|].
  destruct (set_name_spec dev name len state) as (dst & -> & Hstr & Hlen); [done..|lia|lia|].
  eexists. split; [done|]. split; [|by repeat split].
  split; [done|]. split; [done|]. split; [by eexists|simpl; lia].
Qed.

Lemma set_name_ladder_witness :
  let dev := fresh_device [1; 2; 3; 4; 5; 6] in
  exists dev', bt_device_set_name dev (Some [77; 7; 32; 0; 9]) 5 2 = Ret dev' /\
    device_ok dev' /\ dd_name_state dev' = 2 /\ name_string (dd_name dev') [77; 63] /\
    dd_addr dev' = dd_addr dev /\ dd_flags dev' = dd_flags dev /\ dd_sightings dev' = dd_sightings dev.
Proof.
  apply (set_name_ladder (fresh_device [1; 2; 3; 4; 5; 6]) [77; 7; 32; 0; 9] 5 2).
  - apply fresh_ok. split; [reflexivity|]. bys.
  - left. simpl. lia.
  - lia.
Defined.

(** C37.  The advertising parser is total, in bounds and exact.  Every payload,
    well-formed or not, is a sequence of complete structures followed by an
    end (nothing, a zero length, or a truncated structure); the parser returns
    the left-to-right fold of these structures (HID service UUID in a 16-bit
    list, Appearance category 15, complete name preferred over shortened) and
    ignores the rest, and it never reads outside the payload. *)
Theorem adv_parse_spec : forall data, bytes data ->
  exists fields tail, data = ad_bytes fields ++ tail /\ ad_end tail /\ Forall ad_field_ok fields /\
    bt_le_adv_parse (Some data) (zlen data) = Ret (foldl adv_spec adv_empty fields) /\
    bt_le_adv_is_hid (Some data) (zlen data) =
      Ret (av_hid (foldl adv_spec adv_empty fields), av_appearance (foldl adv_spec adv_empty fields)).
Proof.
  intros data Hb.
  destruct (adv_loop_spec (S (length data)) [] data adv_empty Hb ltac:(done) ltac:(lia))
    as (fields & tail & Hd & He & Hok & Hl).
  exists fields, tail. split; [done|]. split; [done|]. split; [done|].
  assert (bt_le_adv_parse (Some data) (zlen data) = Ret (foldl adv_spec adv_empty fields)) as Hp.
  { unfold bt_le_adv_parse. rewrite Nat2Z.id. exact Hl. }
  split; [done|]. unfold bt_le_adv_is_hid. by rewrite Hp.
Qed.

Lemma adv_parse_spec_witness :
  let data := [3; 2; 18; 24; 3; 9; 65; 66; 0; 255] in
  exists fields tail, data = ad_bytes fields ++ tail /\ ad_end tail /\ Forall ad_field_ok fields /\
    bt_le_adv_parse (Some data) (zlen data) = Ret (foldl adv_spec adv_empty fields) /\
    bt_le_adv_is_hid (Some data) (zlen data) =
      Ret (av_hid (foldl adv_spec adv_empty fields), av_appearance (foldl adv_spec adv_empty fields)).
Proof. apply adv_parse_spec. bys. Defined.

Example adv_parse_demo : bt_le_adv_parse (Some [3; 2; 18; 24; 3; 9; 65; 66; 0; 255]) 10 =
  Ret {| av_hid := true; av_appearance := 0; av_name := Some [65; 66]; av_name_len := 2;
         av_name_complete := true |}.
Proof. reflexivity. Qed.

End DeviceRegistry.
