(* ===== verification/L2cap.v ===== *)
(** * L2CAP framing over ACL: protocols/l2cap/l2cap.c

    The basic header, the reassembler of fragmented PDUs and the fragmenter.
    The reassembler is shown to implement a specification whose state is just
    the bytes of the PDU in progress, and to be the inverse of the
    fragmenter. *)

From Stdlib Require Import ZArith Lia.
From stdpp Require Import base list.
From S2P Require Import Prelude Buffer Hci.

Module L2cap.
Import Buffer Hci.

Definition BT_L2CAP_HEADER_LEN : Z := 4.
Definition BT_L2CAP_REASSEMBLY_MAX : Z := 1024.
Definition BT_L2CAP_CID_SIGNALING_CLASSIC : Z := 1.
Definition BT_L2CAP_CID_ATT : Z := 4.
Definition BT_L2CAP_CID_SIGNALING_LE : Z := 5.
Definition BT_L2CAP_CID_SMP : Z := 6.
Definition BT_L2CAP_CID_DYNAMIC_START : Z := 64.

Record bt_l2cap_header : Type := { l2_length : Z; l2_cid : Z }.

Definition bt_l2cap_encode_header (length cid : Z) : M bt_buf_writer unit :=
  do! bt_buf_writer_write_le16 length in
  bt_buf_writer_write_le16 cid.

Definition bt_l2cap_parse_header : M bt_buf_reader bt_l2cap_header :=
  let! length := bt_buf_reader_read_le16 in
  let! cid := bt_buf_reader_read_le16 in
  ret {| l2_length := length; l2_cid := cid |}.

(** ** Reassembler *)

Record bt_l2cap_reassembler : Type := {
  ra_buf : list Z;
  ra_have : Z;
  ra_want : Z;
}.

Inductive bt_l2cap_reassembly_result : Set :=
| BT_L2CAP_REASSEMBLY_MORE
| BT_L2CAP_REASSEMBLY_COMPLETE
| BT_L2CAP_REASSEMBLY_ERROR.

Definition bt_l2cap_reassembler_init (ra : bt_l2cap_reassembler) : bt_l2cap_reassembler :=
  {| ra_buf := ra_buf ra; ra_have := 0; ra_want := 0 |}.

(** The second half of [finalize_header_and_check]. *)
Definition check_have : M bt_l2cap_reassembler bt_l2cap_reassembly_result := fun ra =>
  if negb (ra_want ra =? 0) then
    if ra_have ra >? ra_want ra then (Ret BT_L2CAP_REASSEMBLY_ERROR, bt_l2cap_reassembler_init ra)
    else if ra_have ra =? ra_want ra then (Ret BT_L2CAP_REASSEMBLY_COMPLETE, ra)
    else (Ret BT_L2CAP_REASSEMBLY_MORE, ra)
  else (Ret BT_L2CAP_REASSEMBLY_MORE, ra).

Definition finalize_header_and_check : M bt_l2cap_reassembler bt_l2cap_reassembly_result := fun ra =>
  if (ra_want ra =? 0) && (ra_have ra >=? BT_L2CAP_HEADER_LEN) then
    match parse (ra_buf ra) BT_L2CAP_HEADER_LEN bt_l2cap_parse_header with
    | Ret hdr =>
        let ra := {| ra_buf := ra_buf ra; ra_have := ra_have ra;
                     ra_want := BT_L2CAP_HEADER_LEN + l2_length hdr |} in
        if ra_want ra >? BT_L2CAP_REASSEMBLY_MAX
        then (Ret BT_L2CAP_REASSEMBLY_ERROR, bt_l2cap_reassembler_init ra)
        else check_have ra
    | Fail e => (Fail e, ra)
    | Fault => (Fault, ra)
    end
  else check_have ra.

(** [memcpy(ra->buf + at, data, len)] unless [len] is zero. *)
Definition ra_store (data : list Z) (at_ len : Z) : M bt_l2cap_reassembler unit := fun ra =>
  if len >? 0 then
    match (let? bs := ldn data 0 len in stn (ra_buf ra) at_ bs) with
    | Ret b => (Ret tt, {| ra_buf := b; ra_have := ra_have ra; ra_want := ra_want ra |})
    | Fail e => (Fail e, ra)
    | Fault => (Fault, ra)
    end
  else (Ret tt, ra).

Definition set_have (f : Z -> Z) (ra : bt_l2cap_reassembler) : bt_l2cap_reassembler :=
  {| ra_buf := ra_buf ra; ra_have := f (ra_have ra); ra_want := ra_want ra |}.

Definition bt_l2cap_reassembler_feed (pb_flag : Z) (data : list Z) (len : Z)
    : M bt_l2cap_reassembler bt_l2cap_reassembly_result :=
  if negb (pb_flag =? 1) then
    do! modify bt_l2cap_reassembler_init in
    if len >? BT_L2CAP_REASSEMBLY_MAX then ret BT_L2CAP_REASSEMBLY_ERROR else
    do! ra_store data 0 len in
    do! modify (set_have (fun _ => len)) in
    finalize_header_and_check
  else
    let! have := gets ra_have in
    if have =? 0 then ret BT_L2CAP_REASSEMBLY_ERROR else
    if have + len >? BT_L2CAP_REASSEMBLY_MAX then
      do! modify bt_l2cap_reassembler_init in
      ret BT_L2CAP_REASSEMBLY_ERROR
    else
      do! ra_store data have len in
      do! modify (set_have (fun have => have + len)) in
      finalize_header_and_check.

(** The PDU: the buffer and [*out_len]. *)
Definition bt_l2cap_reassembler_take : M bt_l2cap_reassembler (list Z * Z) := fun ra =>
  (Ret (ra_buf ra, ra_have ra), {| ra_buf := ra_buf ra; ra_have := 0; ra_want := 0 |}).

(** ** Fragmenter *)

Record bt_l2cap_fragmenter : Type := {
  fr_data : list Z;
  fr_len : Z;
  fr_pos : Z;
  fr_handle : Z;
  fr_frag_size : Z;
}.

Definition bt_l2cap_fragmenter_init (handle frag_size : Z) (l2cap_pdu : list Z) (l2cap_pdu_len : Z)
    : bt_l2cap_fragmenter :=
  {| fr_data := l2cap_pdu; fr_len := l2cap_pdu_len; fr_pos := 0; fr_handle := handle;
     fr_frag_size := frag_size |}.

(** One ACL packet into the writer; both objects are updated. *)
Definition bt_l2cap_fragmenter_next : M (bt_l2cap_fragmenter * bt_buf_writer) unit := fun s =>
  let '(fr, w) := s in
  if fr_pos fr >=? fr_len fr then (Fail BT_ERR_BUFFER_UNDERFLOW, s) else
  let remaining := fr_len fr - fr_pos fr in
  let chunk := if remaining <? fr_frag_size fr then remaining else fr_frag_size fr in
  let pb_flag := if fr_pos fr =? 0 then 0 else 1 in
  match (do! bt_hci_encode_acl_header (fr_handle fr) pb_flag 0 (u16 chunk) in
         bt_buf_writer_write_bytes (drop (Z.to_nat (fr_pos fr)) (fr_data fr)) chunk) w with
  | (Ret _, w) =>
      (Ret tt, ({| fr_data := fr_data fr; fr_len := fr_len fr; fr_pos := fr_pos fr + chunk;
                   fr_handle := fr_handle fr; fr_frag_size := fr_frag_size fr |}, w))
  | (Fail st, w) => (Fail st, (fr, w))
  | (Fault, w) => (Fault, (fr, w))
  end.

(** ** Specification *)

(** The reassembler as the bytes of the PDU in progress. *)
Definition spec_check (acc : list Z) : bt_l2cap_reassembly_result * list Z :=
  if zlen acc <? BT_L2CAP_HEADER_LEN then (BT_L2CAP_REASSEMBLY_MORE, acc) else
  let want := BT_L2CAP_HEADER_LEN + le_dec (take 2 acc) in
  if (want >? BT_L2CAP_REASSEMBLY_MAX) || (zlen acc >? want) then (BT_L2CAP_REASSEMBLY_ERROR, [])
  else if zlen acc =? want then (BT_L2CAP_REASSEMBLY_COMPLETE, acc)
  else (BT_L2CAP_REASSEMBLY_MORE, acc).

Definition spec_feed (acc : list Z) (pb_flag : Z) (data : list Z) : bt_l2cap_reassembly_result * list Z :=
  if negb (pb_flag =? 1) then
    if zlen data >? BT_L2CAP_REASSEMBLY_MAX then (BT_L2CAP_REASSEMBLY_ERROR, []) else spec_check data
  else if bool_decide (acc = []) then (BT_L2CAP_REASSEMBLY_ERROR, [])
  else if zlen acc + zlen data >? BT_L2CAP_REASSEMBLY_MAX then (BT_L2CAP_REASSEMBLY_ERROR, [])
  else spec_check (acc ++ data).

(** The buffer holds [acc], and [want] is what its header says. *)
Definition ra_rep (ra : bt_l2cap_reassembler) (acc : list Z) : Prop :=
  zlen (ra_buf ra) = BT_L2CAP_REASSEMBLY_MAX /\ bytes (ra_buf ra) /\
  ra_have ra = zlen acc /\ zlen acc <= BT_L2CAP_REASSEMBLY_MAX /\
  take (length acc) (ra_buf ra) = acc /\
  ra_want ra = (if zlen acc <? BT_L2CAP_HEADER_LEN then 0
                else BT_L2CAP_HEADER_LEN + le_dec (take 2 acc)) /\
  (BT_L2CAP_HEADER_LEN <= zlen acc -> zlen acc <= ra_want ra <= BT_L2CAP_REASSEMBLY_MAX).

(** A whole PDU as it travels. *)
Definition pdu_ok (pdu : list Z) : Prop :=
  bytes pdu /\ BT_L2CAP_HEADER_LEN <= zlen pdu <= BT_L2CAP_REASSEMBLY_MAX /\
  zlen pdu = BT_L2CAP_HEADER_LEN + le_dec (take 2 pdu).

(** [while (fragmenter_next(&fr, &w) == OK) send(w)], a fresh buffer of [cap]
    bytes each time: the ACL packets. *)
Fixpoint fragment_all (n : nat) (cap : nat) (fr : bt_l2cap_fragmenter) : outcome (list (list Z)) :=
  match n with
  | O => Fault
  | S n =>
      match bt_l2cap_fragmenter_next (fr, bt_buf_writer_init (replicate cap 0) (Z.of_nat cap)) with
      | (Ret _, (fr, w)) =>
          let? rest := fragment_all n cap fr in Ret (wout w :: rest)
      | (Fail BT_ERR_BUFFER_UNDERFLOW, _) => Ret []
      | (Fail e, _) => Fail e
      | (Fault, _) => Fault
      end
  end.

(** The receiving side: parse each packet's ACL header and feed its data. *)
Fixpoint receive_all (packets : list (list Z)) (ra : bt_l2cap_reassembler)
    : outcome (list bt_l2cap_reassembly_result * bt_l2cap_reassembler) :=
  match packets with
  | [] => Ret ([], ra)
  | p :: packets =>
      match bt_hci_parse_acl_header (bt_buf_reader_init p (zlen p)) with
      | (Ret h, r) =>
          match bt_l2cap_reassembler_feed (acl_pb_flag h) (rview r) (acl_data_len h) ra with
          | (Ret res, ra) => let? o := receive_all packets ra in Ret (res :: o.1, o.2)
          | (Fail e, _) => Fail e
          | (Fault, _) => Fault
          end
      | (Fail e, _) => Fail e
      | (Fault, _) => Fault
      end
  end.

(** ** Lemmas *)

Lemma encode_header_writes length cid : writes (bt_l2cap_encode_header length cid)
  (le_enc 2 length ++ le_enc 2 cid).
Proof. eapply writes_last; [apply writes_le16|apply writes_le16|done]. Qed.

Lemma parse_header_reads length cid post : 0 <= length < 2 ^ 16 -> 0 <= cid < 2 ^ 16 ->
  reads bt_l2cap_parse_header (le_enc 2 length ++ le_enc 2 cid) post
    {| l2_length := length; l2_cid := cid |}.
Proof. intros. unfold bt_l2cap_parse_header. repeat parse_step. auto with wire. Qed.

Lemma parse_header_of_bytes a b post : bytes a -> bytes b -> length a = 2%nat -> length b = 2%nat ->
  reads bt_l2cap_parse_header (a ++ b) post {| l2_length := le_dec a; l2_cid := le_dec b |}.
Proof.
  intros Ha Hb La Lb. pose proof (le_dec_bound a Ha) as Ba. pose proof (le_dec_bound b Hb) as Bb.
  pose proof (le_enc_dec a Ha) as Ea. pose proof (le_enc_dec b Hb) as Eb.
  rewrite La in Ba, Ea. rewrite Lb in Bb, Eb.
  rewrite <- Ea at 1. rewrite <- Eb at 1. by apply parse_header_reads.
Qed.

(** The header of the PDU in progress, read back from the buffer. *)
Lemma parse_stored buf acc : bytes buf -> BT_L2CAP_HEADER_LEN <= zlen acc ->
  take (length acc) buf = acc ->
  exists cid, parse buf BT_L2CAP_HEADER_LEN bt_l2cap_parse_header =
    Ret {| l2_length := le_dec (take 2 acc); l2_cid := cid |}.
Proof.
  unfold BT_L2CAP_HEADER_LEN. intros Hb Hl Ht. exists (le_dec (take 2 (drop 2 acc))).
  assert (zlen acc <= zlen buf) by (rewrite <- Ht; zlist).
  assert (bytes acc) as Ha by (rewrite <- Ht; by apply Forall_take).
  assert (rview (bt_buf_reader_init buf 4) = (take 2 acc ++ take 2 (drop 2 acc)) ++ []) as Hv.
  { rewrite rview_init by lia. rewrite app_nil_r, take_take_drop.
    rewrite <- Ht at 1. rewrite take_take. f_equal. lia. }
  unfold parse.
  rewrite (parse_header_of_bytes (take 2 acc) (take 2 (drop 2 acc)) []); [done|bys|bys|zlist|zlist| |exact Hv].
  apply reader_init_ok; [lia|done].
Qed.

(** The state just before [finalize_header_and_check]. *)
Definition ra_fed (ra : bt_l2cap_reassembler) (acc : list Z) : Prop :=
  zlen (ra_buf ra) = BT_L2CAP_REASSEMBLY_MAX /\ bytes (ra_buf ra) /\
  ra_have ra = zlen acc /\ zlen acc <= BT_L2CAP_REASSEMBLY_MAX /\
  take (length acc) (ra_buf ra) = acc /\
  (ra_want ra = 0 \/ BT_L2CAP_HEADER_LEN <= zlen acc /\
     ra_want ra = BT_L2CAP_HEADER_LEN + le_dec (take 2 acc) /\
     ra_want ra <= BT_L2CAP_REASSEMBLY_MAX).

Lemma ra_idle ra : zlen (ra_buf ra) = BT_L2CAP_REASSEMBLY_MAX -> bytes (ra_buf ra) ->
  ra_rep (bt_l2cap_reassembler_init ra) [].
Proof. intros. unfold BT_L2CAP_REASSEMBLY_MAX in *. split; [done|]. split; [done|]. by repeat split. Qed.

Lemma check_have_spec ra acc : ra_fed ra acc -> BT_L2CAP_HEADER_LEN <= zlen acc ->
  ra_want ra = BT_L2CAP_HEADER_LEN + le_dec (take 2 acc) -> ra_want ra <= BT_L2CAP_REASSEMBLY_MAX ->
  exists ra', check_have ra = (Ret (spec_check acc).1, ra') /\ ra_rep ra' (spec_check acc).2.
Proof.
  intros (Hl & Hb & Hh & Hm & Ht & _) Hs Hw Hwm. unfold check_have, spec_check.
  assert (bytes acc) as Ha by (rewrite <- Ht; by apply Forall_take).
  assert (0 <= le_dec (take 2 acc)) as Hle by (apply le_dec_bound; by apply Forall_take).
  rewrite <- Hw, Hh, (proj2 (Z.ltb_ge (zlen acc) _)) by lia. rewrite !Z.gtb_ltb.
  rewrite (proj2 (Z.ltb_ge _ (ra_want ra))) by lia. cbn [orb].
  unfold BT_L2CAP_HEADER_LEN in *. rewrite (proj2 (Z.eqb_neq _ _)) by lia. cbn [negb].
  destruct (Z.ltb_spec (ra_want ra) (zlen acc)).
  { eexists. split; [done|]. by apply ra_idle. }
  assert (ra_rep ra acc).
  { do 5 (split; [done|]). unfold BT_L2CAP_HEADER_LEN.
    rewrite (proj2 (Z.ltb_ge _ _)) by lia. split; [done|lia]. }
  destruct (zlen acc =? ra_want ra); by eexists.
Qed.

Lemma finalize_spec ra acc : ra_fed ra acc ->
  exists ra', finalize_header_and_check ra = (Ret (spec_check acc).1, ra') /\
    ra_rep ra' (spec_check acc).2.
Proof.
  intros Hfed. pose proof Hfed as (Hl & Hb & Hh & Hm & Ht & Hw). unfold finalize_header_and_check.
  rewrite Z.geb_leb, Hh. destruct (Z.leb_spec BT_L2CAP_HEADER_LEN (zlen acc)) as [Hs|Hs].
  - destruct Hw as [Hw|(_ & Hw & Hwm)].
    + rewrite Hw. cbn [Z.eqb andb]. destruct (parse_stored (ra_buf ra) acc Hb Hs Ht) as [cid ->].
      cbn [l2_length ra_want]. rewrite Z.gtb_ltb.
      destruct (Z.ltb_spec BT_L2CAP_REASSEMBLY_MAX (BT_L2CAP_HEADER_LEN + le_dec (take 2 acc))) as [Hbig|Hbig].
      * unfold spec_check. rewrite (proj2 (Z.ltb_ge (zlen acc) _)), !Z.gtb_ltb, (proj2 (Z.ltb_lt _ _)) by lia.
        eexists. split; [done|]. by apply ra_idle.
      * apply check_have_spec; [|done..]. do 5 (split; [done|]). by right.
    + assert (0 <= le_dec (take 2 acc)) by (apply le_dec_bound; rewrite <- Ht; bys).
      rewrite (proj2 (Z.eqb_neq _ _)) by (unfold BT_L2CAP_HEADER_LEN in *; lia).
      by apply check_have_spec.
  - destruct Hw as [Hw|(? & _)]; [|lia]. rewrite andb_false_r. unfold check_have, spec_check.
    rewrite Hw, (proj2 (Z.ltb_lt _ _)) by lia. simpl. exists ra. split; [done|].
    do 5 (split; [done|]). rewrite (proj2 (Z.ltb_lt _ _)) by lia. split; [done|lia].
Qed.

Lemma ra_rep_fed ra acc data : ra_rep ra acc -> bytes data ->
  zlen acc + zlen data <= BT_L2CAP_REASSEMBLY_MAX -> acc <> [] ->
  exists ra', (do! ra_store data (zlen acc) (zlen data) in
               modify (set_have (fun have => have + zlen data))) ra = (Ret tt, ra') /\
    ra_fed ra' (acc ++ data).
Proof.
  intros (Hl & Hb & Hh & Hm & Ht & Hw & Hws) Hd Hsum Hne.
  assert (ra_store data (zlen acc) (zlen data) ra =
    (Ret tt, {| ra_buf := splice (ra_buf ra) (zlen acc) data; ra_have := ra_have ra; ra_want := ra_want ra |})) as Hst.
  { unfold ra_store. rewrite Z.gtb_ltb. destruct (Z.ltb_spec 0 (zlen data)).
    - rewrite ldn_spec by lia. cbn [obind]. change (drop (Z.to_nat 0) data) with data.
      rewrite Nat2Z.id, firstn_all, stn_spec by lia. done.
    - destruct data; [|simpl in *; lia]. rewrite splice_nil. by destruct ra. }
  unfold bind. rewrite Hst. eexists. split; [done|]. unfold ra_fed, set_have. cbn [ra_buf ra_have ra_want].
  rewrite splice_length, length_app by lia. split; [done|]. split; [by apply splice_bytes|].
  split; [lia|]. split; [lia|]. split.
  - pose proof (splice_take (ra_buf ra) (zlen acc) data) as H.
    replace (Z.to_nat (zlen acc + zlen data)) with (length acc + length data)%nat in H by lia.
    rewrite H by lia. by rewrite Nat2Z.id, Ht.
  - destruct (Z.ltb_spec (zlen acc) BT_L2CAP_HEADER_LEN); [by left|right].
    specialize (Hws ltac:(lia)). rewrite Hw. unfold BT_L2CAP_HEADER_LEN in *. rewrite take_app_le by lia.
    split; [lia|]. split; [done|lia].
Qed.

Lemma ra_start_fed ra data : zlen (ra_buf ra) = BT_L2CAP_REASSEMBLY_MAX -> bytes (ra_buf ra) -> bytes data ->
  zlen data <= BT_L2CAP_REASSEMBLY_MAX ->
  exists ra', (do! modify bt_l2cap_reassembler_init in do! ra_store data 0 (zlen data) in
               modify (set_have (fun _ => zlen data))) ra = (Ret tt, ra') /\ ra_fed ra' data.
Proof.
  intros Hl Hb Hd Hsum.
  assert (ra_store data 0 (zlen data) (bt_l2cap_reassembler_init ra) =
    (Ret tt, {| ra_buf := splice (ra_buf ra) 0 data; ra_have := 0; ra_want := 0 |})) as Hst.
  { unfold ra_store. rewrite Z.gtb_ltb. destruct (Z.ltb_spec 0 (zlen data)).
    - rewrite ldn_spec by lia. cbn [obind]. change (drop (Z.to_nat 0) data) with data. cbn [bt_l2cap_reassembler_init ra_buf].
      rewrite Nat2Z.id, firstn_all, stn_spec by lia. done.
    - destruct data; [|simpl in *; lia]. by rewrite splice_nil. }
  unfold bind, modify at 1. rewrite Hst. eexists. split; [done|]. unfold ra_fed, set_have. cbn [ra_buf ra_have ra_want modify].
  rewrite splice_length by lia. split; [done|]. split; [by apply splice_bytes|].
  split; [done|]. split; [lia|]. split; [|by left].
  unfold splice. simpl. apply take_app_length.
Qed.

Lemma feed_spec ra acc pb data : ra_rep ra acc -> bytes data ->
  exists ra', bt_l2cap_reassembler_feed pb data (zlen data) ra = (Ret (spec_feed acc pb data).1, ra') /\
    ra_rep ra' (spec_feed acc pb data).2.
Proof.
  intros Hrep Hd. pose proof Hrep as (Hl & Hb & Hh & Hm & Ht & Hw & Hws).
  unfold bt_l2cap_reassembler_feed, spec_feed. rewrite !Z.gtb_ltb.
  destruct (negb (pb =? 1)).
  - destruct (Z.ltb_spec BT_L2CAP_REASSEMBLY_MAX (zlen data)) as [Hbig|Hbig].
    { eexists. split; [done|]. by apply ra_idle. }
    destruct (ra_start_fed ra data Hl Hb Hd Hbig) as (ra1 & E & Hfed).
    destruct (finalize_spec ra1 data Hfed) as (ra2 & E2 & Hrep2). exists ra2. split; [|done].
    rewrite <- E2. revert E. unfold bind, modify. destruct (ra_store _ _ _ _) as [[]]; [|done..]. by intros [= <-].
  - unfold bind at 1, gets. rewrite Hh. case_bool_decide as Hacc.
    { subst acc. cbn [length Z.of_nat Z.eqb]. exists ra. done. }
    rewrite (proj2 (Z.eqb_neq _ _)) by (destruct acc; [done|simpl; lia]). rewrite Z.gtb_ltb.
    destruct (Z.ltb_spec BT_L2CAP_REASSEMBLY_MAX (zlen acc + zlen data)) as [Hbig|Hbig].
    { eexists. split; [done|]. by apply ra_idle. }
    destruct (ra_rep_fed ra acc data Hrep Hd Hbig Hacc) as (ra1 & E & Hfed).
    destruct (finalize_spec ra1 _ Hfed) as (ra2 & E2 & Hrep2). exists ra2. split; [|done].
    rewrite <- E2. revert E. unfold bind, modify. destruct (ra_store _ _ _ _) as [[]]; [|done..]. by intros [= <-].
Qed.

(** *** Fragmenter *)

Definition frag (handle frag_size : Z) (pdu : list Z) (pos : Z) : bt_l2cap_fragmenter :=
  {| fr_data := pdu; fr_len := zlen pdu; fr_pos := pos; fr_handle := handle; fr_frag_size := frag_size |}.

Definition frag_acl (handle pos chunk : Z) : bt_hci_acl_header :=
  {| acl_handle := handle; acl_pb_flag := if pos =? 0 then 0 else 1; acl_bc_flag := 0;
     acl_data_len := chunk |}.

(** Each packet carries its header and the next chunk of the PDU. *)
Lemma fragmenter_step handle fs pdu pos cap : 0 <= handle < 2 ^ 12 -> 0 < fs < 2 ^ 16 ->
  0 <= pos < zlen pdu -> 4 + fs <= Z.of_nat cap ->
  let chunk := Z.min (zlen pdu - pos) fs in
  exists w, bt_l2cap_fragmenter_next (frag handle fs pdu pos, bt_buf_writer_init (replicate cap 0) (Z.of_nat cap)) =
      (Ret tt, (frag handle fs pdu (pos + chunk), w)) /\
    wout w = (le_enc 2 (acl_word (frag_acl handle pos chunk)) ++ le_enc 2 chunk)
             ++ take (Z.to_nat chunk) (drop (Z.to_nat pos) pdu).
Proof.
  intros Hh Hf Hp Hcap chunk.
  assert (0 < chunk < 2 ^ 16 /\ chunk <= zlen pdu - pos /\ chunk <= fs) as (Hc & Hc2 & Hc3) by (subst chunk; lia).
  assert (acl_ok (frag_acl handle pos chunk)) as Hok.
  { unfold acl_ok, frag_acl. cbn [acl_handle acl_pb_flag acl_bc_flag acl_data_len]. destruct (pos =? 0); lia. }
  unfold bt_l2cap_fragmenter_next, frag. cbn [fr_pos fr_len fr_frag_size fr_handle fr_data].
  rewrite Z.geb_leb, (proj2 (Z.leb_gt _ _)) by lia.
  replace (if zlen pdu - pos <? fs then zlen pdu - pos else fs) with chunk
    by (subst chunk; destruct (Z.ltb_spec (zlen pdu - pos) fs); lia).
  clearbody chunk. cbv zeta. rewrite u16_small by lia.
  set (bs := take (Z.to_nat chunk) (drop (Z.to_nat pos) pdu)).
  assert (zlen bs = chunk) as Hbs by (subst bs; zlist).
  assert (writes (do! bt_hci_encode_acl_header handle (if pos =? 0 then 0 else 1) 0 chunk in
      bt_buf_writer_write_bytes (drop (Z.to_nat pos) pdu) chunk)
    ((le_enc 2 (acl_word (frag_acl handle pos chunk)) ++ le_enc 2 chunk) ++ bs)) as Hw.
  { eapply writes_bind; [apply (encode_acl_writes _ Hok)|]. apply writes_bytes_n; [zlist|done]. }
  set (w0 := bt_buf_writer_init (replicate cap 0) (Z.of_nat cap)).
  assert (writer_ok w0) as Hw0 by (apply writer_init_ok; rewrite length_replicate; lia).
  destruct (Hw w0 Hw0) as [Hroom _].
  assert (bw_pos w0 + zlen ((le_enc 2 (acl_word (frag_acl handle pos chunk)) ++ le_enc 2 chunk) ++ bs) <= bw_cap w0) as Hfit
    by (rewrite !length_app, !le_enc_length; cbn [w0 bt_buf_writer_init bw_pos bw_cap]; lia).
  rewrite (Hroom Hfit). eexists. split; [done|]. by rewrite wput_out by done.
Qed.

Lemma spec_check_prefix pdu n : pdu_ok pdu -> (0 < n <= length pdu)%nat ->
  spec_check (take n pdu) = (if Nat.eqb n (length pdu) then BT_L2CAP_REASSEMBLY_COMPLETE
                             else BT_L2CAP_REASSEMBLY_MORE, take n pdu).
Proof.
  intros (Hb & Hl & Hw) Hn. unfold spec_check, BT_L2CAP_HEADER_LEN in *.
  assert (zlen (take n pdu) = Z.of_nat n) as -> by zlist.
  destruct (Z.ltb_spec (Z.of_nat n) 4).
  { by rewrite (proj2 (Nat.eqb_neq _ _)) by lia. }
  rewrite take_take, Nat.min_l by lia. rewrite <- Hw. rewrite !Z.gtb_ltb.
  rewrite !(proj2 (Z.ltb_ge _ _)) by lia. cbn [orb].
  destruct (Nat.eqb_spec n (length pdu)); [by rewrite (proj2 (Z.eqb_eq _ _)) by lia|].
  by rewrite (proj2 (Z.eqb_neq _ _)) by lia.
Qed.

(** The receiver parses what the fragmenter wrote. *)
Lemma receive_step handle pos chunk data packets ra : 0 <= handle < 2 ^ 12 ->
  zlen data = chunk -> 0 < chunk < 2 ^ 16 -> bytes data ->
  let p := (le_enc 2 (acl_word (frag_acl handle pos chunk)) ++ le_enc 2 chunk) ++ data in
  receive_all (p :: packets) ra =
    match bt_l2cap_reassembler_feed (if pos =? 0 then 0 else 1) data chunk ra with
    | (Ret res, ra) => let? o := receive_all packets ra in Ret (res :: o.1, o.2)
    | (Fail e, _) => Fail e
    | (Fault, _) => Fault
    end.
Proof.
  intros Hh Hd Hc Hb p. cbn [receive_all].
  assert (acl_ok (frag_acl handle pos chunk)) as Hok.
  { unfold acl_ok, frag_acl. cbn [acl_handle acl_pb_flag acl_bc_flag acl_data_len]. destruct (pos =? 0); lia. }
  assert (bytes p) as Hp by (subst p; bys).
  pose proof (reader_init_ok p (zlen p) ltac:(lia) Hp) as Hr.
  pose proof (rview_init_all p) as Hv.
  pose proof (parse_acl_reads (acl_word (frag_acl handle pos chunk)) chunk data
    (acl_word_bound _ Hok) ltac:(lia)) as Hparse.
  rewrite (Hparse _ Hr Hv). destruct (radvance_view_app _ _ _ Hr Hv) as [_ ->].
  pose proof (acl_of_word _ Hok) as E. cbn [frag_acl acl_data_len] in E. rewrite E. done.
Qed.

Lemma fragments_receive handle fs pdu cap : 0 <= handle < 2 ^ 12 -> 0 < fs < 2 ^ 16 ->
  4 + fs <= Z.of_nat cap -> pdu_ok pdu ->
  forall n pos ra acc, 0 <= pos < zlen pdu -> zlen pdu - pos < Z.of_nat n -> ra_rep ra acc ->
  (0 < pos -> acc = take (Z.to_nat pos) pdu) ->
  exists ps k ra', fragment_all n cap (frag handle fs pdu pos) = Ret ps /\
    receive_all ps ra = Ret (replicate k BT_L2CAP_REASSEMBLY_MORE ++ [BT_L2CAP_REASSEMBLY_COMPLETE], ra') /\
    length ps = S k /\ ra_rep ra' pdu.
Proof.
  intros Hh Hf Hcap Hpdu. pose proof Hpdu as (Hb & Hl & Hw).
  induction n as [|n IH]; intros pos ra acc Hp Hn Hrep Hacc; [lia|]. cbn [fragment_all].
  destruct (fragmenter_step handle fs pdu pos cap Hh Hf Hp Hcap) as (w & -> & Hout).
  cbv zeta in *. set (chunk := Z.min (zlen pdu - pos) fs) in *.
  set (data := take (Z.to_nat chunk) (drop (Z.to_nat pos) pdu)) in *.
  assert (zlen data = chunk) as Hd by (subst data chunk; zlist).
  assert (bytes data) as Hbd by (subst data; bys).
  assert (0 < chunk < 2 ^ 16 /\ chunk <= zlen pdu - pos) as [Hc Hc2] by (subst chunk; lia).
  destruct (feed_spec ra acc (if pos =? 0 then 0 else 1) data Hrep Hbd) as (ra1 & Hfeed & Hrep1).
  assert (spec_feed acc (if pos =? 0 then 0 else 1) data = spec_check (take (Z.to_nat (pos + chunk)) pdu)) as Hsf.
  { unfold spec_feed. unfold BT_L2CAP_HEADER_LEN, BT_L2CAP_REASSEMBLY_MAX in *.
    destruct (Z.eqb_spec pos 0) as [->|Hp0]; cbn [Z.eqb Pos.eqb negb].
    - rewrite Z.gtb_ltb, (proj2 (Z.ltb_ge _ _)) by lia. done.
    - rewrite (Hacc ltac:(lia)).
      rewrite bool_decide_false by (intros E; apply (f_equal length) in E; rewrite length_take in E; simpl in E; lia).
      assert (zlen (take (Z.to_nat pos) pdu) = pos) as Hpos by zlist.
      rewrite Z.gtb_ltb, Hpos, (proj2 (Z.ltb_ge _ _)) by lia.
      f_equal. subst data. rewrite take_take_drop. f_equal. lia. }
  rewrite Hsf, spec_check_prefix in Hfeed, Hrep1 by (done || lia). cbn [fst snd] in Hfeed, Hrep1.
  rewrite Hout. rewrite Hd in Hfeed.
  destruct (Nat.eqb_spec (Z.to_nat (pos + chunk)) (length pdu)) as [He|He].
  - assert (fragment_all n cap (frag handle fs pdu (pos + chunk)) = Ret []) as ->.
    { destruct n as [|n]; [lia|]. cbn [fragment_all]. unfold bt_l2cap_fragmenter_next, frag.
      cbn [fr_pos fr_len]. by rewrite Z.geb_leb, (proj2 (Z.leb_le _ _)) by lia. }
    cbn [obind]. eexists _, 0%nat, ra1. split; [done|]. rewrite receive_step by done.
    rewrite Hfeed. cbn [obind receive_all fst snd]. split; [done|]. split; [done|].
    by rewrite take_ge in Hrep1 by lia.
  - destruct (IH (pos + chunk) ra1 _ ltac:(lia) ltac:(lia) Hrep1 ltac:(done)) as (ps & k & ra' & -> & Hrec & Hlen & Hrep').
    cbn [obind]. eexists _, (S k), ra'. split; [done|]. rewrite receive_step by done.
    rewrite Hfeed, Hrec. cbn [obind fst snd]. split; [done|]. split; [simpl; lia|done].
Qed.

(** ** Properties *)

(** C11.  The reassembler is the specification over plain byte lists.  In any
    state that stands for the bytes [acc] of a PDU in progress, feeding any
    fragment (any boundary flag, any data) returns without touching memory
    outside the 1024-byte buffer, with the result of the specification: a
    start fragment restarts, a continuation with nothing started, a PDU that
    would not fit and more data than the header announced are errors that
    leave it idle, and COMPLETE is returned exactly when the bytes collected
    since the start are one whole PDU. *)
Theorem reassembler_refines_spec : forall ra acc pb data, ra_rep ra acc -> bytes data ->
  exists ra', bt_l2cap_reassembler_feed pb data (zlen data) ra = (Ret (spec_feed acc pb data).1, ra') /\
    ra_rep ra' (spec_feed acc pb data).2 /\
    ((spec_feed acc pb data).1 = BT_L2CAP_REASSEMBLY_COMPLETE -> pdu_ok (spec_feed acc pb data).2) /\
    ((spec_feed acc pb data).1 = BT_L2CAP_REASSEMBLY_ERROR -> (spec_feed acc pb data).2 = []).
Proof.
  intros ra acc pb data Hrep Hd. destruct (feed_spec ra acc pb data Hrep Hd) as (ra' & Hf & Hrep').
  exists ra'. split; [done|]. split; [done|].
  assert (bytes (spec_feed acc pb data).2) as Hb.
  { destruct Hrep' as (_ & Hb & _ & _ & Ht & _). rewrite <- Ht. by apply Forall_take. }
  assert (zlen (spec_feed acc pb data).2 <= BT_L2CAP_REASSEMBLY_MAX) as Hm by apply Hrep'.
  revert Hb Hm. assert (forall acc', bytes (spec_check acc').2 ->
    zlen (spec_check acc').2 <= BT_L2CAP_REASSEMBLY_MAX ->
    ((spec_check acc').1 = BT_L2CAP_REASSEMBLY_COMPLETE -> pdu_ok (spec_check acc').2) /\
    ((spec_check acc').1 = BT_L2CAP_REASSEMBLY_ERROR -> (spec_check acc').2 = [])) as Hchk.
  { intros acc'. unfold spec_check. destruct (Z.ltb_spec (zlen acc') BT_L2CAP_HEADER_LEN); [done|].
    destruct ((_ >? _) || (_ >? _)); [done|].
    destruct (Z.eqb_spec (zlen acc') (BT_L2CAP_HEADER_LEN + le_dec (take 2 acc'))); [|done].
    cbn [fst snd]. intros Hb Hm. split; [|done]. intros _. split; [done|]. split; [lia|done]. }
  unfold spec_feed. destruct (negb (pb =? 1)); [destruct (zlen data >? _); [done|apply Hchk]|].
  case_bool_decide; [done|]. destruct (_ >? _); [done|apply Hchk].
Qed.

Definition idle_reassembler : bt_l2cap_reassembler :=
  {| ra_buf := replicate 1024 0; ra_have := 0; ra_want := 0 |}.

Lemma idle_rep : ra_rep idle_reassembler [].
Proof.
  apply (ra_idle idle_reassembler); unfold idle_reassembler; cbn [ra_buf].
  - by rewrite length_replicate.
  - apply Forall_replicate. unfold is_byte. lia.
Qed.

Lemma reassembler_refines_spec_witness :
  exists ra', bt_l2cap_reassembler_feed 2 [1; 0; 4; 0; 9] 5 idle_reassembler = (Ret BT_L2CAP_REASSEMBLY_COMPLETE, ra') /\
    ra_rep ra' [1; 0; 4; 0; 9] /\
    (BT_L2CAP_REASSEMBLY_COMPLETE = BT_L2CAP_REASSEMBLY_COMPLETE -> pdu_ok [1; 0; 4; 0; 9]) /\
    (BT_L2CAP_REASSEMBLY_COMPLETE = BT_L2CAP_REASSEMBLY_ERROR -> [1; 0; 4; 0; 9] = []).
Proof. apply (reassembler_refines_spec idle_reassembler [] 2 [1; 0; 4; 0; 9] idle_rep). bys. Defined.

(** C33.  Fragmentation and reassembly are inverse.  Any PDU of at most 1024
    bytes, cut by the fragmenter for any positive controller buffer size,
    yields ACL packets that the receiving side, in whatever state an earlier
    exchange left its reassembler, accepts one by one (MORE) until the last
    one completes the PDU, and [take] then returns exactly the PDU sent and
    leaves the reassembler idle. *)
Theorem fragment_reassemble_roundtrip : forall handle fs pdu cap ra acc,
  0 <= handle < 2 ^ 12 -> 0 < fs < 2 ^ 16 -> Z.of_nat cap = 4 + fs -> pdu_ok pdu -> ra_rep ra acc ->
  exists ps k ra' buf ra'',
    fragment_all (S (length pdu)) cap (bt_l2cap_fragmenter_init handle fs pdu (zlen pdu)) = Ret ps /\
    length ps = S k /\
    receive_all ps ra = Ret (replicate k BT_L2CAP_REASSEMBLY_MORE ++ [BT_L2CAP_REASSEMBLY_COMPLETE], ra') /\
    bt_l2cap_reassembler_take ra' = (Ret (buf, zlen pdu), ra'') /\
    take (length pdu) buf = pdu /\ ra_rep ra'' [].
Proof.
  intros handle fs pdu cap ra acc Hh Hf Hcap Hpdu Hrep. pose proof Hpdu as (_ & Hl & _).
  unfold BT_L2CAP_HEADER_LEN in Hl.
  destruct (fragments_receive handle fs pdu cap Hh Hf ltac:(lia) Hpdu (S (length pdu)) 0 ra acc)
    as (ps & k & ra' & Hfr & Hrec & Hlen & Hrep'); [lia|lia|done|lia|].
  pose proof Hrep' as (Hbl & Hbb & Hhave & _ & Ht & _).
  exists ps, k, ra', (ra_buf ra'). eexists. split; [exact Hfr|]. split; [done|]. split; [done|].
  split; [unfold bt_l2cap_reassembler_take; by rewrite Hhave|]. split; [done|].
  by apply ra_idle.
Qed.

Lemma fragment_reassemble_roundtrip_witness :
  let pdu := [3; 0; 4; 0; 7; 8; 9] in
  exists ps k ra' buf ra'',
    fragment_all 8 7 (bt_l2cap_fragmenter_init 64 3 pdu 7) = Ret ps /\
    length ps = S k /\
    receive_all ps idle_reassembler =
      Ret (replicate k BT_L2CAP_REASSEMBLY_MORE ++ [BT_L2CAP_REASSEMBLY_COMPLETE], ra') /\
    bt_l2cap_reassembler_take ra' = (Ret (buf, 7), ra'') /\
    take 7 buf = pdu /\ ra_rep ra'' [].
Proof.
  apply (fragment_reassemble_roundtrip 64 3 [3; 0; 4; 0; 7; 8; 9] 7 idle_reassembler []); try lia.
  - split; [bys|]. split; [|reflexivity]. unfold BT_L2CAP_HEADER_LEN, BT_L2CAP_REASSEMBLY_MAX. simpl. lia.
  - exact idle_rep.
Defined.

End L2cap.
