(* ===== verification/Signaling.v ===== *)
(** * L2CAP signaling commands: protocols/l2cap/signaling.c

    Encoders and parsers of the seven commands of the signaling channel, with
    the configuration option list.  The option scan carries fuel: each option
    takes at least two bytes, so one more than the bytes left is enough
    (a [Fault] otherwise, excluded by [scan_safe]). *)

From Stdlib Require Import ZArith Lia.
From stdpp Require Import base list.
From S2P Require Import Prelude Buffer.

Module Signaling.
Import Buffer.

Definition BT_L2CAP_SIG_HEADER_LEN : Z := 4.
Definition BT_L2CAP_SIG_COMMAND_REJECT : Z := 1.
Definition BT_L2CAP_SIG_CONNECTION_REQUEST : Z := 2.
Definition BT_L2CAP_SIG_CONNECTION_RESPONSE : Z := 3.
Definition BT_L2CAP_SIG_CONFIGURE_REQUEST : Z := 4.
Definition BT_L2CAP_SIG_CONFIGURE_RESPONSE : Z := 5.
Definition BT_L2CAP_SIG_DISCONNECTION_REQUEST : Z := 6.
Definition BT_L2CAP_SIG_DISCONNECTION_RESPONSE : Z := 7.
Definition BT_L2CAP_CONFIG_OPTION_MTU : Z := 1.
Definition BT_L2CAP_CONN_RESULT_SUCCESS : Z := 0.
Definition BT_L2CAP_CONN_RESULT_PENDING : Z := 1.
Definition BT_L2CAP_CONN_RESULT_REFUSED_PSM : Z := 2.
Definition BT_L2CAP_CONFIG_RESULT_SUCCESS : Z := 0.

(** ** Command header *)

Record bt_l2cap_sig_header : Type := { sg_code : Z; sg_identifier : Z; sg_length : Z }.

Definition bt_l2cap_sig_encode_header (code identifier length : Z) : M bt_buf_writer unit :=
  do! bt_buf_writer_write_u8 code in
  do! bt_buf_writer_write_u8 identifier in
  bt_buf_writer_write_le16 length.

Definition bt_l2cap_sig_parse_header : M bt_buf_reader bt_l2cap_sig_header :=
  let! code := bt_buf_reader_read_u8 in
  let! identifier := bt_buf_reader_read_u8 in
  let! length := bt_buf_reader_read_le16 in
  ret {| sg_code := code; sg_identifier := identifier; sg_length := length |}.

(** ** Connection *)

Definition bt_l2cap_sig_encode_connection_request (identifier psm source_cid : Z) : M bt_buf_writer unit :=
  do! bt_l2cap_sig_encode_header BT_L2CAP_SIG_CONNECTION_REQUEST identifier 4 in
  do! bt_buf_writer_write_le16 psm in
  bt_buf_writer_write_le16 source_cid.

Record bt_l2cap_connection_request : Type := { cr_psm : Z; cr_source_cid : Z }.

Definition bt_l2cap_sig_parse_connection_request (cmd_data : list Z) (cmd_data_len : Z)
    : outcome bt_l2cap_connection_request :=
  if negb (cmd_data_len =? 4) then Fail BT_ERR_INVALID_ARGUMENT else
  parse cmd_data cmd_data_len
   (let! psm := bt_buf_reader_read_le16 in
    let! source_cid := bt_buf_reader_read_le16 in
    ret {| cr_psm := psm; cr_source_cid := source_cid |}).

Definition bt_l2cap_sig_encode_connection_response (identifier destination_cid source_cid result status : Z) : M bt_buf_writer unit :=
  do! bt_l2cap_sig_encode_header BT_L2CAP_SIG_CONNECTION_RESPONSE identifier 8 in
  do! bt_buf_writer_write_le16 destination_cid in
  do! bt_buf_writer_write_le16 source_cid in
  do! bt_buf_writer_write_le16 result in
  bt_buf_writer_write_le16 status.

Record bt_l2cap_connection_response : Type := {
  cp_destination_cid : Z;
  cp_source_cid : Z;
  cp_result : Z;
  cp_status : Z;
}.

Definition bt_l2cap_sig_parse_connection_response (cmd_data : list Z) (cmd_data_len : Z)
    : outcome bt_l2cap_connection_response :=
  if negb (cmd_data_len =? 8) then Fail BT_ERR_INVALID_ARGUMENT else
  parse cmd_data cmd_data_len
   (let! destination_cid := bt_buf_reader_read_le16 in
    let! source_cid := bt_buf_reader_read_le16 in
    let! result := bt_buf_reader_read_le16 in
    let! status := bt_buf_reader_read_le16 in
    ret {| cp_destination_cid := destination_cid; cp_source_cid := source_cid;
           cp_result := result; cp_status := status |}).

(** ** Configuration *)

(** The MTU option both configuration commands end with when [mtu] is not 0. *)
Definition bt_l2cap_sig_encode_configure_request (identifier destination_cid flags mtu : Z)
    : M bt_buf_writer unit :=
  let length := u16 (4 + (if negb (mtu =? 0) then 4 else 0)) in
  do! bt_l2cap_sig_encode_header BT_L2CAP_SIG_CONFIGURE_REQUEST identifier length in
  do! bt_buf_writer_write_le16 destination_cid in
  do! bt_buf_writer_write_le16 flags in
  if mtu =? 0 then ret tt else
  do! bt_buf_writer_write_u8 BT_L2CAP_CONFIG_OPTION_MTU in
  do! bt_buf_writer_write_u8 2 in
  bt_buf_writer_write_le16 mtu.

(** [*out_has_mtu] and [*out_mtu] *)
Fixpoint scan_loop (fuel : nat) (has_mtu : bool) (mtu : Z) : M bt_buf_reader (bool * Z) :=
  match fuel with
  | O => lift Fault
  | S fuel =>
      let! remaining := gets bt_buf_reader_remaining in
      if remaining >? 0 then
        let! type := bt_buf_reader_read_u8 in
        let! len := bt_buf_reader_read_u8 in
        if type =? BT_L2CAP_CONFIG_OPTION_MTU then
          if negb (len =? 2) then fail BT_ERR_INVALID_ARGUMENT else
          let! mtu := bt_buf_reader_read_le16 in
          scan_loop fuel true mtu
        else
          do! bt_buf_reader_skip len in
          scan_loop fuel has_mtu mtu
      else ret (has_mtu, mtu)
  end.

Definition scan_for_mtu_option : M bt_buf_reader (bool * Z) :=
  let! remaining := gets bt_buf_reader_remaining in
  scan_loop (S (Z.to_nat remaining)) false 0.

Record bt_l2cap_configure_request : Type := {
  fq_destination_cid : Z;
  fq_flags : Z;
  fq_has_mtu : bool;
  fq_mtu : Z;
}.

Definition bt_l2cap_sig_parse_configure_request (cmd_data : list Z) (cmd_data_len : Z)
    : outcome bt_l2cap_configure_request :=
  if cmd_data_len <? 4 then Fail BT_ERR_INVALID_ARGUMENT else
  parse cmd_data cmd_data_len
   (let! destination_cid := bt_buf_reader_read_le16 in
    let! flags := bt_buf_reader_read_le16 in
    let! o := scan_for_mtu_option in
    ret {| fq_destination_cid := destination_cid; fq_flags := flags;
           fq_has_mtu := o.1; fq_mtu := o.2 |}).

Definition bt_l2cap_sig_encode_configure_response (identifier source_cid flags result mtu : Z)
    : M bt_buf_writer unit :=
  let length := u16 (6 + (if negb (mtu =? 0) then 4 else 0)) in
  do! bt_l2cap_sig_encode_header BT_L2CAP_SIG_CONFIGURE_RESPONSE identifier length in
  do! bt_buf_writer_write_le16 source_cid in
  do! bt_buf_writer_write_le16 flags in
  do! bt_buf_writer_write_le16 result in
  if mtu =? 0 then ret tt else
  do! bt_buf_writer_write_u8 BT_L2CAP_CONFIG_OPTION_MTU in
  do! bt_buf_writer_write_u8 2 in
  bt_buf_writer_write_le16 mtu.

Record bt_l2cap_configure_response : Type := {
  fp_source_cid : Z;
  fp_flags : Z;
  fp_result : Z;
  fp_has_mtu : bool;
  fp_mtu : Z;
}.

Definition bt_l2cap_sig_parse_configure_response (cmd_data : list Z) (cmd_data_len : Z)
    : outcome bt_l2cap_configure_response :=
  if cmd_data_len <? 6 then Fail BT_ERR_INVALID_ARGUMENT else
  parse cmd_data cmd_data_len
   (let! source_cid := bt_buf_reader_read_le16 in
    let! flags := bt_buf_reader_read_le16 in
    let! result := bt_buf_reader_read_le16 in
    let! o := scan_for_mtu_option in
    ret {| fp_source_cid := source_cid; fp_flags := flags; fp_result := result;
           fp_has_mtu := o.1; fp_mtu := o.2 |}).

(** ** Disconnection and rejection *)

Definition bt_l2cap_sig_encode_disconnection_request (identifier destination_cid source_cid : Z) : M bt_buf_writer unit :=
  do! bt_l2cap_sig_encode_header BT_L2CAP_SIG_DISCONNECTION_REQUEST identifier 4 in
  do! bt_buf_writer_write_le16 destination_cid in
  bt_buf_writer_write_le16 source_cid.

Definition bt_l2cap_sig_encode_disconnection_response (identifier destination_cid source_cid : Z) : M bt_buf_writer unit :=
  do! bt_l2cap_sig_encode_header BT_L2CAP_SIG_DISCONNECTION_RESPONSE identifier 4 in
  do! bt_buf_writer_write_le16 destination_cid in
  bt_buf_writer_write_le16 source_cid.

Record bt_l2cap_disconnection : Type := { dc_destination_cid : Z; dc_source_cid : Z }.

Definition bt_l2cap_sig_parse_disconnection (cmd_data : list Z) (cmd_data_len : Z)
    : outcome bt_l2cap_disconnection :=
  if negb (cmd_data_len =? 4) then Fail BT_ERR_INVALID_ARGUMENT else
  parse cmd_data cmd_data_len
   (let! destination_cid := bt_buf_reader_read_le16 in
    let! source_cid := bt_buf_reader_read_le16 in
    ret {| dc_destination_cid := destination_cid; dc_source_cid := source_cid |}).

Definition bt_l2cap_sig_encode_command_reject (identifier reason : Z) : M bt_buf_writer unit :=
  do! bt_l2cap_sig_encode_header BT_L2CAP_SIG_COMMAND_REJECT identifier 2 in
  bt_buf_writer_write_le16 reason.

Record bt_l2cap_command_reject : Type := {
  rj_reason : Z;
  rj_data : option (list Z);
  rj_data_len : Z;
}.

Definition bt_l2cap_sig_parse_command_reject (cmd_data : list Z) (cmd_data_len : Z)
    : outcome bt_l2cap_command_reject :=
  if cmd_data_len <? 2 then Fail BT_ERR_INVALID_ARGUMENT else
  parse cmd_data cmd_data_len
   (let! reason := bt_buf_reader_read_le16 in
    let! remaining := gets bt_buf_reader_remaining in
    let! data := bt_buf_reader_peek remaining in
    let! data_len := gets bt_buf_reader_remaining in
    ret {| rj_reason := reason; rj_data := data; rj_data_len := data_len |}).

(** ** Specification *)

(** [enc] emits a command header that announces the body, and the body, which
    [dec] reads back as [v]. *)
Definition cmd_roundtrip {A} (code identifier : Z) (enc : M bt_buf_writer unit)
    (dec : list Z -> Z -> outcome A) (v : A) : Prop :=
  exists body, bytes body /\ zlen body < 2 ^ 16 /\
    writes enc (([u8 code] ++ [u8 identifier] ++ le_enc 2 (zlen body)) ++ body) /\
    dec body (zlen body) = Ret v.

(** A configuration option: type and data. *)
Definition option_bytes (o : Z * list Z) : list Z := o.1 :: zlen o.2 :: o.2.

Definition option_ok (o : Z * list Z) : Prop :=
  is_byte o.1 /\ bytes o.2 /\ zlen o.2 < 256 /\
  (o.1 = BT_L2CAP_CONFIG_OPTION_MTU -> zlen o.2 = 2).

(** The last MTU option of a list. *)
Definition mtu_of (acc : bool * Z) (o : Z * list Z) : bool * Z :=
  if o.1 =? BT_L2CAP_CONFIG_OPTION_MTU then (true, le_dec o.2) else acc.

(** ** Lemmas *)

Lemma header_writes code identifier length :
  writes (bt_l2cap_sig_encode_header code identifier length)
    ([u8 code] ++ [u8 identifier] ++ le_enc 2 length).
Proof. unfold bt_l2cap_sig_encode_header. print_all. Qed.

Lemma header_reads code identifier length post : is_byte code -> is_byte identifier -> is_u16 length ->
  reads bt_l2cap_sig_parse_header ([code] ++ [identifier] ++ le_enc 2 length) post
    {| sg_code := code; sg_identifier := identifier; sg_length := length |}.
Proof.
  unfold is_byte, is_u16. intros. unfold bt_l2cap_sig_parse_header. repeat parse_step. auto with wire.
Qed.

#[local] Hint Resolve header_writes : wire.

Lemma writes_fields2 a b : writes (do! bt_buf_writer_write_le16 a in bt_buf_writer_write_le16 b)
  (le_enc 2 a ++ le_enc 2 b).
Proof. print_all. Qed.

(** The MTU option, when there is one. *)
Definition mtu_bytes (mtu : Z) : list Z := if mtu =? 0 then [] else [1] ++ [2] ++ le_enc 2 mtu.

Lemma mtu_writes mtu : writes
  (if mtu =? 0 then ret tt else
   do! bt_buf_writer_write_u8 BT_L2CAP_CONFIG_OPTION_MTU in
   do! bt_buf_writer_write_u8 2 in bt_buf_writer_write_le16 mtu) (mtu_bytes mtu).
Proof. unfold mtu_bytes. destruct (mtu =? 0); [apply writes_ret|]. print_all. Qed.

Lemma scan_reads fuel : forall opts acc, Forall option_ok opts -> (length opts < fuel)%nat ->
  reads (scan_loop fuel acc.1 acc.2) (mjoin (option_bytes <$> opts)) [] (foldl mtu_of acc opts).
Proof.
  induction fuel as [|fuel IH]; intros opts [has mtu] Hok Hf; [lia|]. cbn [scan_loop fst snd].
  destruct opts as [|[ty d] opts].
  - eapply reads_nil_bind; [apply reads_gets_remaining|]. apply reads_ret.
  - apply Forall_cons in Hok as [(Hty & Hd & Hl & Hm) Hok]. cbn [fst snd] in *.
    eapply reads_nil_bind; [apply reads_gets_remaining|]. cbv beta.
    rewrite app_nil_r, Z.gtb_ltb. rewrite mjoin_cons.
    rewrite (proj2 (Z.ltb_lt _ _)) by (rewrite length_app; simpl; lia).
    change (option_bytes (ty, d)) with ([ty] ++ [zlen d] ++ d). rewrite <- !app_assoc.
    unfold is_byte in Hty. parse_step. parse_step. simpl in Hf. cbn [foldl]. unfold mtu_of at 2. cbn [fst snd].
    destruct (Z.eqb_spec ty BT_L2CAP_CONFIG_OPTION_MTU) as [->|Hne].
    + specialize (Hm eq_refl). rewrite Hm. cbn [Z.eqb Pos.eqb negb].
      pose proof (le_enc_dec d Hd) as E. pose proof (le_dec_bound d Hd) as B.
      replace (length d) with 2%nat in E, B by lia. rewrite <- E at 1.
      parse_step. apply (IH opts (true, le_dec d)); [done|lia].
    + eapply reads_bind; [apply reads_skip|]. apply (IH opts (has, mtu)); [done|lia].
Qed.

Lemma scan_for_mtu_reads opts : Forall option_ok opts ->
  reads scan_for_mtu_option (mjoin (option_bytes <$> opts)) [] (foldl mtu_of (false, 0) opts).
Proof.
  intros Hok. unfold scan_for_mtu_option. eapply reads_nil_bind; [apply reads_gets_remaining|]. cbv beta.
  apply (scan_reads _ opts (false, 0) Hok). rewrite app_nil_r, Nat2Z.id.
  apply Nat.lt_succ_r. clear Hok. induction opts as [|o opts IH]; [done|]. rewrite mjoin_cons, length_app.
  unfold option_bytes at 1. simpl. lia.
Qed.

Lemma scan_safe fuel : forall has mtu, is_u16 mtu ->
  rbelow fuel (scan_loop fuel has mtu) (fun o => is_u16 o.2).
Proof.
  induction fuel as [|fuel IH]; intros has mtu Hm; [intros r Hok Hn; pose proof (remaining_nonneg r Hok); lia|].
  cbn [scan_loop]. apply rbelow_remaining. intros rem Hrem. zcase; [|by apply rbelow_spec, rspec_ret].
  apply rbelow_u8. intros ty Hty. eapply rbelow_bind; [apply rspec_u8|]. cbv beta. intros len Hlen.
  destruct (ty =? BT_L2CAP_CONFIG_OPTION_MTU).
  - destruct (negb (len =? 2)); [by apply rbelow_spec, rspec_fail|].
    eapply rbelow_bind; [apply rspec_le16|]. cbv beta. intros v Hv. by apply IH.
  - eapply rbelow_bind; [apply rspec_skip; lia|]. cbv beta. intros v _. by apply IH.
Qed.

Lemma scan_for_mtu_safe : rspec scan_for_mtu_option (fun o => is_u16 o.2).
Proof. apply rspec_fuel. intros v. apply scan_safe. unfold is_u16. lia. Qed.

#[local] Hint Resolve scan_for_mtu_safe : wire.

(** The MTU option as an option list. *)
Lemma mtu_as_option mtu : is_u16 mtu -> exists o, mtu_bytes mtu = mjoin (option_bytes <$> o) /\
  Forall option_ok o /\ foldl mtu_of (false, 0) o = (negb (mtu =? 0), mtu).
Proof.
  intros Hm. unfold mtu_bytes. destruct (Z.eqb_spec mtu 0) as [->|Hne]; [by exists []|].
  exists [(1, le_enc 2 mtu)]. split; [done|]. split.
  - constructor; [|done]. split; [unfold is_byte; simpl; lia|]. split; [apply le_enc_bytes|]. split; [simpl; lia|done].
  - unfold foldl, mtu_of. cbn [fst snd]. change (1 =? BT_L2CAP_CONFIG_OPTION_MTU) with true.
    rewrite le_dec_enc, Z.mod_small by exact Hm. done.
Qed.

Lemma mtu_len mtu : zlen (mtu_bytes mtu) = if negb (mtu =? 0) then 4 else 0.
Proof. unfold mtu_bytes. by destruct (mtu =? 0). Qed.

Lemma mtu_bytes_ok mtu : bytes (mtu_bytes mtu).
Proof. unfold mtu_bytes. destruct (mtu =? 0); bys. Qed.

#[local] Hint Resolve mtu_writes : wire.

(** Commands whose body is fixed. *)
Ltac fixed_cmd body :=
  exists body; split; [bys|]; split; [simpl; lia|]; split; [print_all|];
  match goal with |- ?f ?l ?n = _ => unfold f; change (n =? 4) with true; cbn [negb];
    apply parse_reads; [repeat parse_step; auto with wire|bys] end.

Lemma connection_response_roundtrip id a b c d : is_u16 a -> is_u16 b -> is_u16 c -> is_u16 d ->
  cmd_roundtrip BT_L2CAP_SIG_CONNECTION_RESPONSE id
    (bt_l2cap_sig_encode_connection_response id a b c d) bt_l2cap_sig_parse_connection_response
    {| cp_destination_cid := a; cp_source_cid := b; cp_result := c; cp_status := d |}.
Proof.
  unfold is_u16. intros. exists (le_enc 2 a ++ le_enc 2 b ++ le_enc 2 c ++ le_enc 2 d).
  split; [bys|]. split; [simpl; lia|]. split; [unfold bt_l2cap_sig_encode_connection_response; print_all|].
  unfold bt_l2cap_sig_parse_connection_response. change (zlen (_ ++ _) =? 8) with true. cbn [negb].
  apply parse_reads; [repeat parse_step; auto with wire|bys].
Qed.

(** The parsers scan the options behind their fixed fields. *)
Lemma options_bytes opts : Forall option_ok opts -> bytes (mjoin (option_bytes <$> opts)).
Proof.
  intros Hok. induction Hok as [|x l (? & ? & ? & _) _ IH]; [constructor|]. rewrite mjoin_cons.
  unfold option_bytes at 1. bys.
Qed.

Lemma configure_request_scans cid flags opts : is_u16 cid -> is_u16 flags -> Forall option_ok opts ->
  let request := le_enc 2 cid ++ le_enc 2 flags ++ mjoin (option_bytes <$> opts) in
  let o := foldl mtu_of (false, 0) opts in
  bt_l2cap_sig_parse_configure_request request (zlen request) =
    Ret {| fq_destination_cid := cid; fq_flags := flags; fq_has_mtu := o.1; fq_mtu := o.2 |}.
Proof.
  intros Hc Hf Hok request o. unfold is_u16 in *. unfold bt_l2cap_sig_parse_configure_request.
  rewrite (proj2 (Z.ltb_ge _ _)) by (unfold request; simpl; lia).
  pose proof (options_bytes _ Hok). apply parse_reads; [|unfold request; bys]. unfold request. do 2 parse_step.
  eapply reads_map; [by apply scan_for_mtu_reads|]. cbv beta. auto with wire.
Qed.

Lemma configure_response_scans cid flags result opts : is_u16 cid -> is_u16 flags -> is_u16 result -> Forall option_ok opts ->
  let response := le_enc 2 cid ++ le_enc 2 flags ++ le_enc 2 result ++ mjoin (option_bytes <$> opts) in
  let o := foldl mtu_of (false, 0) opts in
  bt_l2cap_sig_parse_configure_response response (zlen response) =
    Ret {| fp_source_cid := cid; fp_flags := flags; fp_result := result; fp_has_mtu := o.1; fp_mtu := o.2 |}.
Proof.
  intros Hc Hf Hr Hok response o. unfold is_u16 in *. unfold bt_l2cap_sig_parse_configure_response.
  rewrite (proj2 (Z.ltb_ge _ _)) by (unfold response; simpl; lia).
  pose proof (options_bytes _ Hok). apply parse_reads; [|unfold response; bys]. unfold response. do 3 parse_step.
  eapply reads_map; [by apply scan_for_mtu_reads|]. cbv beta. auto with wire.
Qed.

Lemma configure_request_roundtrip id a b c : is_u16 a -> is_u16 b -> is_u16 c ->
  cmd_roundtrip BT_L2CAP_SIG_CONFIGURE_REQUEST id
    (bt_l2cap_sig_encode_configure_request id a b c) bt_l2cap_sig_parse_configure_request
    {| fq_destination_cid := a; fq_flags := b; fq_has_mtu := negb (c =? 0); fq_mtu := c |}.
Proof.
  intros Ha Hb Hc. destruct (mtu_as_option c Hc) as (o & Eo & Hok & Hfold).
  exists (le_enc 2 a ++ le_enc 2 b ++ mtu_bytes c).
  assert (zlen (le_enc 2 a ++ le_enc 2 b ++ mtu_bytes c) = 4 + (if negb (c =? 0) then 4 else 0)) as Hl
    by (rewrite !length_app, !le_enc_length, <- mtu_len; lia).
  assert (bytes (le_enc 2 a ++ le_enc 2 b ++ mtu_bytes c)) as Hby by (pose proof (mtu_bytes_ok c); bys).
  split; [done|]. rewrite Hl. split; [destruct (negb (c =? 0)); lia|]. split.
  - unfold bt_l2cap_sig_encode_configure_request. rewrite u16_small by (destruct (negb (c =? 0)); lia). print_all.
  - rewrite <- Hl, Eo. rewrite (configure_request_scans a b o Ha Hb Hok). by rewrite Hfold.
Qed.

Lemma configure_response_roundtrip id a b c d : is_u16 a -> is_u16 b -> is_u16 c -> is_u16 d ->
  cmd_roundtrip BT_L2CAP_SIG_CONFIGURE_RESPONSE id
    (bt_l2cap_sig_encode_configure_response id a b c d) bt_l2cap_sig_parse_configure_response
    {| fp_source_cid := a; fp_flags := b; fp_result := c; fp_has_mtu := negb (d =? 0); fp_mtu := d |}.
Proof.
  intros Ha Hb Hc Hd. destruct (mtu_as_option d Hd) as (o & Eo & Hok & Hfold).
  exists (le_enc 2 a ++ le_enc 2 b ++ le_enc 2 c ++ mtu_bytes d).
  assert (zlen (le_enc 2 a ++ le_enc 2 b ++ le_enc 2 c ++ mtu_bytes d) = 6 + (if negb (d =? 0) then 4 else 0)) as Hl
    by (rewrite !length_app, !le_enc_length, <- mtu_len; lia).
  assert (bytes (le_enc 2 a ++ le_enc 2 b ++ le_enc 2 c ++ mtu_bytes d)) as Hby by (pose proof (mtu_bytes_ok d); bys).
  split; [done|]. rewrite Hl. split; [destruct (negb (d =? 0)); lia|]. split.
  - unfold bt_l2cap_sig_encode_configure_response. rewrite u16_small by (destruct (negb (d =? 0)); lia). print_all.
  - rewrite <- Hl, Eo. rewrite (configure_response_scans a b c o Ha Hb Hc Hok). by rewrite Hfold.
Qed.

Lemma command_reject_roundtrip id a : is_u16 a ->
  cmd_roundtrip BT_L2CAP_SIG_COMMAND_REJECT id
    (bt_l2cap_sig_encode_command_reject id a) bt_l2cap_sig_parse_command_reject
    {| rj_reason := a; rj_data := Some []; rj_data_len := 0 |}.
Proof.
  unfold is_u16. intros. exists (le_enc 2 a). split; [bys|]. split; [simpl; lia|].
  split; [unfold bt_l2cap_sig_encode_command_reject; print_all|].
  unfold bt_l2cap_sig_parse_command_reject. change (zlen (le_enc 2 a) <? 2) with false.
  apply parse_reads; [|bys]. parse_step.
  eapply reads_nil_bind; [apply reads_gets_remaining|]. cbv beta.
  eapply reads_nil_bind; [apply (reads_peek [] [] 0); done|]. cbv beta.
  eapply reads_nil_bind; [apply reads_gets_remaining|]. apply reads_ret.
Qed.

(** Every parser on any command data. *)
Lemma parsers_safe data len : 0 <= len <= zlen data -> bytes data ->
  sat (bt_l2cap_sig_parse_connection_request data len) (fun c => is_u16 (cr_psm c) /\ is_u16 (cr_source_cid c)) /\
  sat (bt_l2cap_sig_parse_connection_response data len)
    (fun c => is_u16 (cp_destination_cid c) /\ is_u16 (cp_source_cid c) /\ is_u16 (cp_result c) /\ is_u16 (cp_status c)) /\
  sat (bt_l2cap_sig_parse_configure_request data len)
    (fun c => is_u16 (fq_destination_cid c) /\ is_u16 (fq_mtu c) /\ is_u16 (fq_flags c)) /\
  sat (bt_l2cap_sig_parse_configure_response data len)
    (fun c => is_u16 (fp_source_cid c) /\ is_u16 (fp_result c) /\ is_u16 (fp_mtu c) /\ is_u16 (fp_flags c)) /\
  sat (bt_l2cap_sig_parse_disconnection data len)
    (fun c => is_u16 (dc_destination_cid c) /\ is_u16 (dc_source_cid c)) /\
  sat (bt_l2cap_sig_parse_command_reject data len) (fun c => is_u16 (rj_reason c)).
Proof.
  intros Hl Hb.
  repeat split; match goal with |- sat ?x _ => let f := match x with ?f _ _ => f end in unfold f end;
    (destruct (negb _) || destruct (_ <? _)); try exact I;
    (apply parse_safe; [|done|done]); repeat safe_step; apply rspec_ret; cbn; unfold is_u16 in *; lia.
Qed.

(** The commands the channel manager sends: what is written. *)
Lemma connection_request_writes id psm cid : writes (bt_l2cap_sig_encode_connection_request id psm cid)
  (([u8 2] ++ [u8 id] ++ le_enc 2 4) ++ le_enc 2 psm ++ le_enc 2 cid).
Proof. unfold bt_l2cap_sig_encode_connection_request. eapply writes_bind; [apply header_writes|apply writes_fields2]. Qed.

Lemma disconnection_request_writes id a b : writes (bt_l2cap_sig_encode_disconnection_request id a b)
  (([u8 6] ++ [u8 id] ++ le_enc 2 4) ++ le_enc 2 a ++ le_enc 2 b).
Proof. unfold bt_l2cap_sig_encode_disconnection_request. eapply writes_bind; [apply header_writes|apply writes_fields2]. Qed.

Lemma disconnection_response_writes id a b : writes (bt_l2cap_sig_encode_disconnection_response id a b)
  (([u8 7] ++ [u8 id] ++ le_enc 2 4) ++ le_enc 2 a ++ le_enc 2 b).
Proof. unfold bt_l2cap_sig_encode_disconnection_response. eapply writes_bind; [apply header_writes|apply writes_fields2]. Qed.

Lemma connection_response_writes id a b c d : writes (bt_l2cap_sig_encode_connection_response id a b c d)
  (([u8 3] ++ [u8 id] ++ le_enc 2 8) ++ le_enc 2 a ++ le_enc 2 b ++ le_enc 2 c ++ le_enc 2 d).
Proof.
  unfold bt_l2cap_sig_encode_connection_response. eapply writes_bind; [apply header_writes|].
  eapply writes_bind; [apply writes_le16|]. eapply writes_bind; [apply writes_le16|]. apply writes_fields2.
Qed.

Lemma configure_request_writes id cid flags mtu : writes (bt_l2cap_sig_encode_configure_request id cid flags mtu)
  (([u8 4] ++ [u8 id] ++ le_enc 2 (u16 (4 + zlen (mtu_bytes mtu)))) ++ le_enc 2 cid ++ le_enc 2 flags ++ mtu_bytes mtu).
Proof.
  unfold bt_l2cap_sig_encode_configure_request. rewrite mtu_len. cbv zeta.
  eapply writes_bind; [apply header_writes|]. eapply writes_bind; [apply writes_le16|].
  eapply writes_bind; [apply writes_le16|apply mtu_writes].
Qed.

Lemma configure_response_writes id cid flags result mtu :
  writes (bt_l2cap_sig_encode_configure_response id cid flags result mtu)
  (([u8 5] ++ [u8 id] ++ le_enc 2 (u16 (6 + zlen (mtu_bytes mtu)))) ++ le_enc 2 cid ++ le_enc 2 flags ++
     le_enc 2 result ++ mtu_bytes mtu).
Proof.
  unfold bt_l2cap_sig_encode_configure_response. rewrite mtu_len. cbv zeta.
  eapply writes_bind; [apply header_writes|]. eapply writes_bind; [apply writes_le16|].
  eapply writes_bind; [apply writes_le16|]. eapply writes_bind; [apply writes_le16|apply mtu_writes].
Qed.

(** ** Properties *)

(** Every signaling command survives the wire.  For each of the seven
    commands and all 16-bit fields, the encoder emits a header with the right
    code, the identifier and exactly the body's length, and the matching
    parser recovers every field from the body; an MTU of 0 is sent as no MTU
    option and is read back as absent. *)
Theorem signaling_roundtrip : forall id a b c d, is_byte id -> is_u16 a -> is_u16 b -> is_u16 c -> is_u16 d ->
  cmd_roundtrip BT_L2CAP_SIG_CONNECTION_REQUEST id
    (bt_l2cap_sig_encode_connection_request id a b) bt_l2cap_sig_parse_connection_request
    {| cr_psm := a; cr_source_cid := b |} /\
  cmd_roundtrip BT_L2CAP_SIG_CONNECTION_RESPONSE id
    (bt_l2cap_sig_encode_connection_response id a b c d) bt_l2cap_sig_parse_connection_response
    {| cp_destination_cid := a; cp_source_cid := b; cp_result := c; cp_status := d |} /\
  cmd_roundtrip BT_L2CAP_SIG_CONFIGURE_REQUEST id
    (bt_l2cap_sig_encode_configure_request id a b c) bt_l2cap_sig_parse_configure_request
    {| fq_destination_cid := a; fq_flags := b; fq_has_mtu := negb (c =? 0); fq_mtu := c |} /\
  cmd_roundtrip BT_L2CAP_SIG_CONFIGURE_RESPONSE id
    (bt_l2cap_sig_encode_configure_response id a b c d) bt_l2cap_sig_parse_configure_response
    {| fp_source_cid := a; fp_flags := b; fp_result := c; fp_has_mtu := negb (d =? 0); fp_mtu := d |} /\
  cmd_roundtrip BT_L2CAP_SIG_DISCONNECTION_REQUEST id
    (bt_l2cap_sig_encode_disconnection_request id a b) bt_l2cap_sig_parse_disconnection
    {| dc_destination_cid := a; dc_source_cid := b |} /\
  cmd_roundtrip BT_L2CAP_SIG_DISCONNECTION_RESPONSE id
    (bt_l2cap_sig_encode_disconnection_response id a b) bt_l2cap_sig_parse_disconnection
    {| dc_destination_cid := a; dc_source_cid := b |} /\
  cmd_roundtrip BT_L2CAP_SIG_COMMAND_REJECT id
    (bt_l2cap_sig_encode_command_reject id a) bt_l2cap_sig_parse_command_reject
    {| rj_reason := a; rj_data := Some []; rj_data_len := 0 |} /\
  (forall code len post, is_byte code -> is_u16 len ->
     reads bt_l2cap_sig_parse_header ([code] ++ [id] ++ le_enc 2 len) post
       {| sg_code := code; sg_identifier := id; sg_length := len |}).
Proof.
  intros id a b c d Hid Ha Hb Hc Hd. unfold is_u16 in Ha, Hb.
  split; [unfold bt_l2cap_sig_encode_connection_request; fixed_cmd (le_enc 2 a ++ le_enc 2 b)|].
  split; [by apply connection_response_roundtrip|]. split; [by apply configure_request_roundtrip|].
  split; [by apply configure_response_roundtrip|].
  split; [unfold bt_l2cap_sig_encode_disconnection_request; fixed_cmd (le_enc 2 a ++ le_enc 2 b)|].
  split; [unfold bt_l2cap_sig_encode_disconnection_response; fixed_cmd (le_enc 2 a ++ le_enc 2 b)|].
  split; [by apply command_reject_roundtrip|]. intros. by apply header_reads.
Qed.

Lemma signaling_roundtrip_witness :
  cmd_roundtrip 4 9 (bt_l2cap_sig_encode_configure_request 9 64 0 672)
    bt_l2cap_sig_parse_configure_request
    {| fq_destination_cid := 64; fq_flags := 0; fq_has_mtu := true; fq_mtu := 672 |}.
Proof.
  assert (forall v, 0 <= v < 1000 -> is_u16 v) as H by (unfold is_u16; lia).
  destruct (signaling_roundtrip 9 64 0 672 0) as (_ & _ & R & _);
    [unfold is_byte; lia|apply H; lia|apply H; lia|apply H; lia|apply H; lia|]. exact R.
Defined.

(** C40.  Configuration options are scanned exactly and safely.  For any
    option list whose MTU options are two bytes long, the parsers of the
    Configuration Request and Response skip every other option by its length
    and report the last MTU option, if any; and on arbitrary command data the
    parser of every command returns without a fault, whatever length up to the
    data's it is given, and the numbers of what it accepts are 16-bit. *)
Theorem signaling_parsers_total :
  (forall cid flags result opts, is_u16 cid -> is_u16 flags -> is_u16 result -> Forall option_ok opts ->
     let options := mjoin (option_bytes <$> opts) in
     let o := foldl mtu_of (false, 0) opts in
     let request := le_enc 2 cid ++ le_enc 2 flags ++ options in
     let response := le_enc 2 cid ++ le_enc 2 flags ++ le_enc 2 result ++ options in
     bt_l2cap_sig_parse_configure_request request (zlen request) =
       Ret {| fq_destination_cid := cid; fq_flags := flags; fq_has_mtu := o.1; fq_mtu := o.2 |} /\
     bt_l2cap_sig_parse_configure_response response (zlen response) =
       Ret {| fp_source_cid := cid; fp_flags := flags; fp_result := result; fp_has_mtu := o.1; fp_mtu := o.2 |}) /\
  (forall data len, 0 <= len <= zlen data -> bytes data ->
     sat (bt_l2cap_sig_parse_connection_request data len) (fun c => is_u16 (cr_psm c) /\ is_u16 (cr_source_cid c)) /\
     sat (bt_l2cap_sig_parse_connection_response data len)
       (fun c => is_u16 (cp_destination_cid c) /\ is_u16 (cp_source_cid c) /\ is_u16 (cp_result c) /\ is_u16 (cp_status c)) /\
     sat (bt_l2cap_sig_parse_configure_request data len)
       (fun c => is_u16 (fq_destination_cid c) /\ is_u16 (fq_mtu c) /\ is_u16 (fq_flags c)) /\
     sat (bt_l2cap_sig_parse_configure_response data len)
       (fun c => is_u16 (fp_source_cid c) /\ is_u16 (fp_result c) /\ is_u16 (fp_mtu c) /\ is_u16 (fp_flags c)) /\
     sat (bt_l2cap_sig_parse_disconnection data len)
       (fun c => is_u16 (dc_destination_cid c) /\ is_u16 (dc_source_cid c)) /\
     sat (bt_l2cap_sig_parse_command_reject data len) (fun c => is_u16 (rj_reason c))).
Proof.
  split; [|apply parsers_safe]. intros cid flags result opts Hc Hf Hr Hok options o request response.
  split; [by apply configure_request_scans|by apply configure_response_scans].
Qed.

End Signaling.
