(* ===== verification/Att.v ===== *)
(** * Attribute protocol codec: protocols/att/att.c

    Request encoders, response parsers, and the three response iterators.
    The three iterator structs have the same two fields, a reader and the
    length of an entry; they are one record here.  [it], [out] are never NULL
    in the model. *)

From Stdlib Require Import ZArith Lia.
From stdpp Require Import base list.
From S2P Require Import Prelude Buffer.

Module Att.
Import Buffer.

Definition BT_ATT_OPCODE_ERROR_RESPONSE : Z := 1.
Definition BT_ATT_OPCODE_EXCHANGE_MTU_REQUEST : Z := 2.
Definition BT_ATT_OPCODE_EXCHANGE_MTU_RESPONSE : Z := 3.
Definition BT_ATT_OPCODE_FIND_INFORMATION_REQUEST : Z := 4.
Definition BT_ATT_OPCODE_READ_BY_TYPE_REQUEST : Z := 8.
Definition BT_ATT_OPCODE_READ_REQUEST : Z := 10.
Definition BT_ATT_OPCODE_READ_BLOB_REQUEST : Z := 12.
Definition BT_ATT_OPCODE_READ_BY_GROUP_TYPE_REQUEST : Z := 16.
Definition BT_ATT_OPCODE_WRITE_REQUEST : Z := 18.
Definition BT_ATT_OPCODE_HANDLE_VALUE_CONFIRMATION : Z := 30.

Record bt_att_error_response : Type := {
  er_request_opcode : Z;
  er_handle_in_error : Z;
  er_error_code : Z;
}.

Definition bt_att_parse_error_response (params : list Z) (params_len : Z)
    : outcome bt_att_error_response :=
  if negb (params_len =? 4) then Fail BT_ERR_INVALID_ARGUMENT else
  parse params params_len
   (let! request_opcode := bt_buf_reader_read_u8 in
    let! handle_in_error := bt_buf_reader_read_le16 in
    let! error_code := bt_buf_reader_read_u8 in
    ret {| er_request_opcode := request_opcode; er_handle_in_error := handle_in_error;
           er_error_code := error_code |}).

Definition bt_att_encode_exchange_mtu_request (client_rx_mtu : Z) : M bt_buf_writer unit :=
  do! bt_buf_writer_write_u8 BT_ATT_OPCODE_EXCHANGE_MTU_REQUEST in
  bt_buf_writer_write_le16 client_rx_mtu.

Definition bt_att_parse_exchange_mtu_response (params : list Z) (params_len : Z) : outcome Z :=
  if negb (params_len =? 2) then Fail BT_ERR_INVALID_ARGUMENT else
  parse params params_len bt_buf_reader_read_le16.

Definition bt_att_encode_find_information_request (starting_handle ending_handle : Z)
    : M bt_buf_writer unit :=
  do! bt_buf_writer_write_u8 BT_ATT_OPCODE_FIND_INFORMATION_REQUEST in
  do! bt_buf_writer_write_le16 starting_handle in
  bt_buf_writer_write_le16 ending_handle.

(** ** Iterators *)

Record bt_att_iter : Type := { it_r : bt_buf_reader; it_entry_len : Z }.

(** [body] run on [&it->r]. *)
Definition on_iter {A} (body : Z -> M bt_buf_reader A) : M bt_att_iter A := fun it =>
  let '(o, r) := body (it_entry_len it) (it_r it) in
  (o, {| it_r := r; it_entry_len := it_entry_len it |}).

Record bt_att_information_entry : Type := { ie_handle : Z; ie_uuid : list Z; ie_uuid_len : Z }.

Definition bt_att_find_information_response_iter_init (params : option (list Z)) (params_len : Z)
    : outcome bt_att_iter :=
  match params with
  | None => Fail BT_ERR_INVALID_ARGUMENT
  | Some params =>
      if params_len <? 1 then Fail BT_ERR_INVALID_ARGUMENT else
      match bt_buf_reader_read_u8 (bt_buf_reader_init params params_len) with
      | (Ret format, r) =>
          if negb (format =? 1) && negb (format =? 2) then Fail BT_ERR_INVALID_ARGUMENT else
          let entry_len := if format =? 1 then 4 else 18 in
          if (bt_buf_reader_remaining r =? 0)
             || negb (bt_buf_reader_remaining r mod entry_len =? 0)
          then Fail BT_ERR_INVALID_ARGUMENT
          else Ret {| it_r := r; it_entry_len := entry_len |}
      | (Fail _, _) => Fail BT_ERR_INVALID_ARGUMENT
      | (Fault, _) => Fault
      end
  end.

(** [p == NULL ? UNDERFLOW : p] *)
Definition non_null (p : option (list Z)) : M bt_buf_reader (list Z) :=
  match p with None => fail BT_ERR_BUFFER_UNDERFLOW | Some p => ret p end.

Definition information_next (entry_len : Z) : M bt_buf_reader bt_att_information_entry :=
  let! remaining := gets bt_buf_reader_remaining in
  if remaining =? 0 then fail BT_ERR_BUFFER_UNDERFLOW else
  let! handle := bt_buf_reader_read_le16 in
  let uuid_len := u8 (entry_len - 2) in
  let! uuid := bt_buf_reader_peek uuid_len in
  let! uuid := non_null uuid in
  do! bt_buf_reader_skip uuid_len in
  ret {| ie_handle := handle; ie_uuid := uuid; ie_uuid_len := uuid_len |}.

Definition bt_att_find_information_response_iter_next : M bt_att_iter bt_att_information_entry :=
  on_iter information_next.

Definition bt_att_encode_read_by_group_type_request (starting_handle ending_handle group_type_uuid16 : Z)
    : M bt_buf_writer unit :=
  do! bt_buf_writer_write_u8 BT_ATT_OPCODE_READ_BY_GROUP_TYPE_REQUEST in
  do! bt_buf_writer_write_le16 starting_handle in
  do! bt_buf_writer_write_le16 ending_handle in
  bt_buf_writer_write_le16 group_type_uuid16.

(** Both list responses start with the entry length, at least [least]. *)
Definition list_iter_init (least : Z) (params : list Z) (params_len : Z) : outcome bt_att_iter :=
  match bt_buf_reader_read_u8 (bt_buf_reader_init params params_len) with
  | (Ret entry_len, r) =>
      if entry_len <? least then Fail BT_ERR_INVALID_ARGUMENT
      else Ret {| it_r := r; it_entry_len := entry_len |}
  | (Fail st, _) => Fail st
  | (Fault, _) => Fault
  end.

Definition bt_att_read_by_group_type_response_iter_init : list Z -> Z -> outcome bt_att_iter :=
  list_iter_init 4.

Record bt_att_group_entry : Type := {
  ge_handle : Z;
  ge_end_group_handle : Z;
  ge_value : list Z;
  ge_value_len : Z;
}.

Definition group_next (entry_len : Z) : M bt_buf_reader bt_att_group_entry :=
  let! remaining := gets bt_buf_reader_remaining in
  if remaining =? 0 then fail BT_ERR_BUFFER_UNDERFLOW else
  if remaining <? entry_len then fail BT_ERR_BUFFER_UNDERFLOW else
  let! handle := bt_buf_reader_read_le16 in
  let! end_group_handle := bt_buf_reader_read_le16 in
  let value_len := u8 (entry_len - 4) in
  let! value := bt_buf_reader_peek value_len in
  let! value := non_null value in
  do! bt_buf_reader_skip value_len in
  ret {| ge_handle := handle; ge_end_group_handle := end_group_handle; ge_value := value;
         ge_value_len := value_len |}.

Definition bt_att_read_by_group_type_response_iter_next : M bt_att_iter bt_att_group_entry :=
  on_iter group_next.

Definition bt_att_encode_read_by_type_request (starting_handle ending_handle attribute_type_uuid16 : Z)
    : M bt_buf_writer unit :=
  do! bt_buf_writer_write_u8 BT_ATT_OPCODE_READ_BY_TYPE_REQUEST in
  do! bt_buf_writer_write_le16 starting_handle in
  do! bt_buf_writer_write_le16 ending_handle in
  bt_buf_writer_write_le16 attribute_type_uuid16.

Definition bt_att_read_by_type_response_iter_init : list Z -> Z -> outcome bt_att_iter :=
  list_iter_init 2.

Record bt_att_type_entry : Type := { te_handle : Z; te_value : list Z; te_value_len : Z }.

Definition type_next (entry_len : Z) : M bt_buf_reader bt_att_type_entry :=
  let! remaining := gets bt_buf_reader_remaining in
  if remaining =? 0 then fail BT_ERR_BUFFER_UNDERFLOW else
  if remaining <? entry_len then fail BT_ERR_BUFFER_UNDERFLOW else
  let! handle := bt_buf_reader_read_le16 in
  let value_len := u8 (entry_len - 2) in
  let! value := bt_buf_reader_peek value_len in
  let! value := non_null value in
  do! bt_buf_reader_skip value_len in
  ret {| te_handle := handle; te_value := value; te_value_len := value_len |}.

Definition bt_att_read_by_type_response_iter_next : M bt_att_iter bt_att_type_entry :=
  on_iter type_next.

(** ** Reads, writes and notifications *)

Definition bt_att_encode_read_request (handle : Z) : M bt_buf_writer unit :=
  do! bt_buf_writer_write_u8 BT_ATT_OPCODE_READ_REQUEST in
  bt_buf_writer_write_le16 handle.

Definition bt_att_encode_read_blob_request (handle value_offset : Z) : M bt_buf_writer unit :=
  do! bt_buf_writer_write_u8 BT_ATT_OPCODE_READ_BLOB_REQUEST in
  do! bt_buf_writer_write_le16 handle in
  bt_buf_writer_write_le16 value_offset.

Definition bt_att_encode_write_request (handle : Z) (value : list Z) (value_len : Z)
    : M bt_buf_writer unit :=
  do! bt_buf_writer_write_u8 BT_ATT_OPCODE_WRITE_REQUEST in
  do! bt_buf_writer_write_le16 handle in
  bt_buf_writer_write_bytes value value_len.

Record bt_att_handle_value : Type := {
  hv_handle : Z;
  hv_value : option (list Z);
  hv_value_len : Z;
}.

Definition bt_att_parse_handle_value (params : list Z) (params_len : Z) : outcome bt_att_handle_value :=
  if params_len <? 2 then Fail BT_ERR_INVALID_ARGUMENT else
  parse params params_len
   (let! handle := bt_buf_reader_read_le16 in
    let! value_len := gets bt_buf_reader_remaining in
    let! value := bt_buf_reader_peek value_len in
    ret {| hv_handle := handle; hv_value := value; hv_value_len := value_len |}).

Definition bt_att_encode_handle_value_confirmation : M bt_buf_writer unit :=
  bt_buf_writer_write_u8 BT_ATT_OPCODE_HANDLE_VALUE_CONFIRMATION.

(** ** Specification *)

Definition info_bytes (e : bt_att_information_entry) : list Z := le_enc 2 (ie_handle e) ++ ie_uuid e.
Definition group_bytes (e : bt_att_group_entry) : list Z :=
  le_enc 2 (ge_handle e) ++ le_enc 2 (ge_end_group_handle e) ++ ge_value e.
Definition type_bytes (e : bt_att_type_entry) : list Z := le_enc 2 (te_handle e) ++ te_value e.

Definition info_ok (n : Z) (e : bt_att_information_entry) : Prop :=
  is_u16 (ie_handle e) /\ bytes (ie_uuid e) /\ zlen (ie_uuid e) = ie_uuid_len e /\ ie_uuid_len e = n - 2.
Definition group_ok (n : Z) (e : bt_att_group_entry) : Prop :=
  is_u16 (ge_handle e) /\ is_u16 (ge_end_group_handle e) /\ bytes (ge_value e) /\
  zlen (ge_value e) = ge_value_len e /\ ge_value_len e = n - 4.
Definition type_ok (n : Z) (e : bt_att_type_entry) : Prop :=
  is_u16 (te_handle e) /\ bytes (te_value e) /\ zlen (te_value e) = te_value_len e /\ te_value_len e = n - 2.

(** A response whose parameters are the entry-length byte and the entries. *)
Definition iterates {E} (init : list Z -> Z -> outcome bt_att_iter) (next : M bt_att_iter E)
    (first : Z -> Z) (enc : E -> list Z) (ok : Z -> E -> Prop) (n : Z) : Prop :=
  forall es, Forall (ok n) es -> es <> [] -> Forall (fun e => bytes (enc e)) es ->
  let p := [first n] ++ mjoin (enc <$> es) in
  exists it, init p (zlen p) = Ret it /\
    drain next (S (length es)) it = (es, Fail BT_ERR_BUFFER_UNDERFLOW).

(** Whatever the parameters: refused, or finitely many good entries. *)
Definition iterates_safely {E} (init : list Z -> Z -> outcome bt_att_iter) (next : M bt_att_iter E)
    (ok : Z -> E -> Prop) : Prop :=
  forall p len, 0 <= len <= zlen p -> bytes p ->
  (exists e, init p len = Fail e) \/
  exists it l e, init p len = Ret it /\ drain next (S (Z.to_nat len)) it = (l, Fail e) /\
    Forall (ok (it_entry_len it)) l.

(** ** Lemmas *)

Lemma drain_on_iter {E} (body : Z -> M bt_buf_reader E) n : forall it,
  drain (on_iter body) n it = drain (body (it_entry_len it)) n (it_r it).
Proof.
  induction n as [|n IH]; intros [r k]; [done|]. cbn [drain]. unfold on_iter at 1. cbn [it_r it_entry_len].
  destruct (body k r) as [[e|st|] r']; [|done..]. by rewrite IH.
Qed.

Lemma non_null_reads p post : reads (non_null (Some p)) [] post p.
Proof. apply reads_ret. Qed.

Lemma non_null_safe q Q : (forall bs, q = Some bs -> Q bs) -> rspec (non_null q) Q.
Proof. intros HQ. destruct q; [apply rspec_ret; auto|apply rspec_fail]. Qed.

Lemma info_next_reads n e post : 2 <= n < 256 -> info_ok n e -> info_bytes e ++ post <> [] ->
  reads (information_next n) (info_bytes e) post e.
Proof.
  destruct e as [h u l]. unfold info_ok, info_bytes, is_u16. cbn [ie_handle ie_uuid ie_uuid_len]. intros Hn (Hh & Hb & Hl & ->) Hne.
  unfold information_next. eapply reads_nil_bind; [apply reads_gets_remaining|]. cbv beta.
  rewrite (proj2 (Z.eqb_neq _ _)) by (simpl; lia). parse_step. rewrite u8_small by lia.
  rewrite <- (app_nil_r u) at 1. eapply reads_peek_bind; [lia|]. cbv beta.
  eapply reads_nil_bind; [apply non_null_reads|]. cbv beta.
  rewrite app_nil_r. rewrite <- Hl. eapply reads_map; [apply reads_skip|]. apply reads_ret.
Qed.

Lemma group_next_reads n e post : 4 <= n < 256 -> group_ok n e ->
  reads (group_next n) (group_bytes e) post e.
Proof.
  destruct e as [h g u l]. unfold group_ok, group_bytes, is_u16. cbn [ge_handle ge_end_group_handle ge_value ge_value_len]. intros Hn (Hh & Hg & Hb & Hl & ->).
  unfold group_next. eapply reads_nil_bind; [apply reads_gets_remaining|]. cbv beta.
  rewrite (proj2 (Z.eqb_neq _ _)) by (simpl; lia).
  rewrite (proj2 (Z.ltb_ge _ _)) by (rewrite !length_app, !le_enc_length; lia).
  do 2 parse_step. rewrite u8_small by lia.
  rewrite <- (app_nil_r u) at 1. eapply reads_peek_bind; [lia|]. cbv beta.
  eapply reads_nil_bind; [apply non_null_reads|]. cbv beta.
  rewrite app_nil_r. rewrite <- Hl. eapply reads_map; [apply reads_skip|]. apply reads_ret.
Qed.

Lemma type_next_reads n e post : 2 <= n < 256 -> type_ok n e ->
  reads (type_next n) (type_bytes e) post e.
Proof.
  destruct e as [h u l]. unfold type_ok, type_bytes, is_u16. cbn [te_handle te_value te_value_len]. intros Hn (Hh & Hb & Hl & ->).
  unfold type_next. eapply reads_nil_bind; [apply reads_gets_remaining|]. cbv beta.
  rewrite (proj2 (Z.eqb_neq _ _)) by (simpl; lia).
  rewrite (proj2 (Z.ltb_ge _ _)) by (rewrite !length_app, !le_enc_length; lia).
  parse_step. rewrite u8_small by lia.
  rewrite <- (app_nil_r u) at 1. eapply reads_peek_bind; [lia|]. cbv beta.
  eapply reads_nil_bind; [apply non_null_reads|]. cbv beta.
  rewrite app_nil_r. rewrite <- Hl. eapply reads_map; [apply reads_skip|]. apply reads_ret.
Qed.

(** Peek, check, skip: the value is inside the response. *)
Lemma peek_skip_safe {B} n (k : list Z -> M bt_buf_reader B) Q : 0 <= n ->
  (forall v, zlen v = n -> bytes v -> rspec (k v) Q) ->
  rspec (let! p := bt_buf_reader_peek n in let! v := non_null p in
         do! bt_buf_reader_skip n in k v) Q.
Proof.
  intros Hn Hk. eapply rspec_bind; [by apply rspec_peek|]. cbv beta. intros p Hp.
  eapply (rspec_bind _ _ (fun v => zlen v = n /\ bytes v)); [apply non_null_safe; exact Hp|].
  intros v [Hl Hb]. eapply rspec_bind; [by apply rspec_skip|]. intros _ _. by apply Hk.
Qed.

Lemma u8_nonneg x : 0 <= u8 x.
Proof. unfold u8. apply Z.mod_pos_bound. lia. Qed.

Lemma info_next_safe n : 2 <= n < 256 -> rprogress (information_next n) (info_ok n).
Proof.
  intros Hn. unfold information_next. apply rprogress_remaining. intros rem _.
  destruct (rem =? 0); [apply rprogress_fail|]. apply rprogress_le16. intros h Hh.
  apply peek_skip_safe; [apply u8_nonneg|]. intros v Hl Hb. apply rspec_ret.
  split; [done|]. split; [done|]. split; [done|]. cbn. by rewrite u8_small by lia.
Qed.

Lemma group_next_safe n : 4 <= n < 256 -> rprogress (group_next n) (group_ok n).
Proof.
  intros Hn. unfold group_next. apply rprogress_remaining. intros rem _.
  destruct (rem =? 0); [apply rprogress_fail|]. destruct (rem <? n); [apply rprogress_fail|].
  apply rprogress_le16. intros h Hh. eapply rspec_bind; [apply rspec_le16|]. intros g Hg.
  apply peek_skip_safe; [apply u8_nonneg|]. intros v Hl Hb. apply rspec_ret.
  do 4 (split; [done|]). cbn. by rewrite u8_small by lia.
Qed.

Lemma type_next_safe n : 2 <= n < 256 -> rprogress (type_next n) (type_ok n).
Proof.
  intros Hn. unfold type_next. apply rprogress_remaining. intros rem _.
  destruct (rem =? 0); [apply rprogress_fail|]. destruct (rem <? n); [apply rprogress_fail|].
  apply rprogress_le16. intros h Hh.
  apply peek_skip_safe; [apply u8_nonneg|]. intros v Hl Hb. apply rspec_ret.
  do 3 (split; [done|]). cbn. by rewrite u8_small by lia.
Qed.

(** An iterator whose [init] checks out is exhausted by [drain]. *)
Lemma drain_iter_safe {E} (body : Z -> M bt_buf_reader E) (ok : Z -> E -> Prop) r n len :
  rprogress (body n) (ok n) -> reader_ok r -> bt_buf_reader_remaining r <= len ->
  exists l e, drain (on_iter body) (S (Z.to_nat len)) {| it_r := r; it_entry_len := n |} = (l, Fail e) /\
    Forall (ok n) l.
Proof.
  intros Hp Hok Hl. rewrite drain_on_iter. cbn [it_r it_entry_len].
  apply drain_reader_safe; [done..|]. pose proof (remaining_nonneg r Hok). lia.
Qed.

Lemma list_iter_safe {E} (body : Z -> M bt_buf_reader E) (ok : Z -> E -> Prop) least :
  (forall n, least <= n < 256 -> rprogress (body n) (ok n)) ->
  iterates_safely (list_iter_init least) (on_iter body) ok.
Proof.
  intros Hb p len Hl Hby. pose proof (reader_init_ok p len Hl Hby) as Hok.
  unfold list_iter_init. pose proof (rspec_u8 _ Hok) as Hs.
  destruct (bt_buf_reader_read_u8 _) as [[n|e|] r]; [|left; by exists e|by destruct Hs].
  destruct Hs as (_ & Hok' & _ & Hlen & Hpos & Hv). specialize (Hv n eq_refl).
  zcase; [by left; eexists|]. right.
  destruct (drain_iter_safe body ok r n len) as (l & e & Hd & Hf); [apply Hb; lia|done| |].
  { unfold bt_buf_reader_remaining. simpl in *. lia. }
  by exists {| it_r := r; it_entry_len := n |}, l, e.
Qed.

Lemma info_iter_safe : iterates_safely (fun p => bt_att_find_information_response_iter_init (Some p))
  bt_att_find_information_response_iter_next info_ok.
Proof.
  intros p len Hl Hby. pose proof (reader_init_ok p len Hl Hby) as Hok.
  unfold bt_att_find_information_response_iter_init. zcase; [by left; eexists|].
  pose proof (rspec_u8 _ Hok) as Hs.
  destruct (bt_buf_reader_read_u8 _) as [[n|e|] r]; [|by left; eexists|by destruct Hs].
  destruct Hs as (_ & Hok' & _ & Hlen & Hpos & Hv).
  destruct (negb (n =? 1) && negb (n =? 2)); [by left; eexists|].
  destruct (_ || _); [by left; eexists|]. right.
  destruct (drain_iter_safe information_next info_ok r (if n =? 1 then 4 else 18) len) as (l & e & Hd & Hf);
    [apply info_next_safe; destruct (n =? 1); lia|done| |].
  { unfold bt_buf_reader_remaining. simpl in *. lia. }
  by eexists _, l, e.
Qed.

(** The parameters of a list response, after the length byte. *)
Lemma first_byte n bs : is_byte n -> bytes bs ->
  exists r, bt_buf_reader_read_u8 (bt_buf_reader_init ([n] ++ bs) (zlen ([n] ++ bs))) = (Ret n, r) /\
    reader_ok r /\ rview r = bs.
Proof.
  intros Hn Hb. assert (bytes ([n] ++ bs)) as Hnb by bys.
  pose proof (reader_init_ok ([n] ++ bs) (zlen ([n] ++ bs)) ltac:(lia) Hnb) as Hok.
  pose proof (rview_init_all ([n] ++ bs)) as Hv.
  pose proof (reads_u8 n bs Hn _ Hok Hv) as R. rewrite R. eexists. split; [done|].
  by apply (radvance_view_app _ [n] bs).
Qed.

Lemma bytes_mjoin {E} (enc : E -> list Z) es : Forall (fun e => bytes (enc e)) es -> bytes (mjoin (enc <$> es)).
Proof. induction 1; [constructor|]. rewrite mjoin_cons. by apply Forall_app. Qed.

Lemma drain_iter_exact {E} (body : Z -> M bt_buf_reader E) enc n es r :
  (forall x post, x ∈ es -> reads (body n) (enc x) post x) ->
  (forall r, reader_ok r -> rview r = [] -> (body n r).1 = Fail BT_ERR_BUFFER_UNDERFLOW) ->
  reader_ok r -> rview r = mjoin (enc <$> es) ->
  drain (on_iter body) (S (length es)) {| it_r := r; it_entry_len := n |} = (es, Fail BT_ERR_BUFFER_UNDERFLOW).
Proof.
  intros Hm He Hok Hv. rewrite drain_on_iter. cbn [it_r it_entry_len].
  eapply drain_reader_exact; eauto.
Qed.

Lemma remaining_empty r : reader_ok r -> rview r = [] -> bt_buf_reader_remaining r = 0.
Proof. intros Hok Hv. pose proof (rview_length r Hok) as H. rewrite Hv in H. simpl in H. lia. Qed.

Lemma list_iter_exact {E} (body : Z -> M bt_buf_reader E) enc (ok : Z -> E -> Prop) least n :
  least <= n < 256 -> 0 <= least ->
  (forall x post, ok n x -> reads (body n) (enc x) post x) ->
  (forall r, reader_ok r -> rview r = [] -> (body n r).1 = Fail BT_ERR_BUFFER_UNDERFLOW) ->
  iterates (list_iter_init least) (on_iter body) id enc ok n.
Proof.
  intros Hn Hle Hm He es Hok Hne Hb p. unfold list_iter_init.
  destruct (first_byte n (mjoin (enc <$> es))) as (r & Hr & Hrok & Hv);
    [unfold is_byte; lia|by apply bytes_mjoin|].
  unfold p, id. rewrite Hr, (proj2 (Z.ltb_ge _ _)) by lia. eexists. split; [done|].
  eapply drain_iter_exact; [|done..]. intros x post Hx. apply Hm. by eapply Forall_forall in Hok.
Qed.

Lemma group_iter_exact n : 4 <= n < 256 ->
  iterates bt_att_read_by_group_type_response_iter_init bt_att_read_by_group_type_response_iter_next id group_bytes group_ok n.
Proof.
  intros Hn. apply list_iter_exact; [done|lia|intros; by apply group_next_reads|].
  intros r Hok Hv. unfold group_next, bind, gets. by rewrite remaining_empty.
Qed.

Lemma type_iter_exact n : 2 <= n < 256 ->
  iterates bt_att_read_by_type_response_iter_init bt_att_read_by_type_response_iter_next id type_bytes type_ok n.
Proof.
  intros Hn. apply list_iter_exact; [done|lia|intros; by apply type_next_reads|].
  intros r Hok Hv. unfold type_next, bind, gets. by rewrite remaining_empty.
Qed.

Lemma info_iter_exact n : n = 4 \/ n = 18 ->
  iterates (fun p => bt_att_find_information_response_iter_init (Some p))
    bt_att_find_information_response_iter_next (fun n => if n =? 4 then 1 else 2) info_bytes info_ok n.
Proof.
  intros Hn es Hok Hne Hb p. unfold bt_att_find_information_response_iter_init.
  set (f := if n =? 4 then 1 else 2) in *.
  assert (f = 1 /\ n = 4 \/ f = 2 /\ n = 18) as Hf by (subst f; destruct Hn as [-> | ->]; [by left|by right]).
  clearbody f.
  destruct (first_byte f (mjoin (info_bytes <$> es))) as (r & Hr & Hrok & Hv);
    [unfold is_byte; lia|by apply bytes_mjoin|].
  unfold p. rewrite (proj2 (Z.ltb_ge _ _)) by (simpl; lia). rewrite Hr.
  assert (length (mjoin (info_bytes <$> es)) = (length es * Z.to_nat n)%nat) as Hlen.
  { apply table_length. intros e He. eapply Forall_forall in Hok; [|exact He].
    destruct Hok as (_ & _ & H1 & H2). unfold info_bytes. rewrite length_app, le_enc_length. lia. }
  pose proof (rview_length r Hrok) as Hrem. rewrite Hv, Hlen in Hrem. rewrite <- Hrem.
  assert (0 < zlen es) by (destruct es; [done|simpl; lia]).
  assert (drain bt_att_find_information_response_iter_next (S (length es)) {| it_r := r; it_entry_len := n |} =
    (es, Fail BT_ERR_BUFFER_UNDERFLOW)) as Hd.
  { eapply drain_iter_exact; [| |done|done].
    - intros x post Hx. apply info_next_reads; [lia|by eapply Forall_forall in Hok|]. by destruct x.
    - intros r' Hok' Hv'. unfold information_next, bind, gets. by rewrite remaining_empty. }
  rewrite Nat2Z.inj_mul, Z2Nat.id by lia.
  destruct Hf as [[-> ->] | [-> ->]]; cbn [Z.eqb Pos.eqb negb andb];
    rewrite (proj2 (Z.eqb_neq _ _)) by lia; rewrite Z.mod_mul by lia; cbn [orb negb Z.eqb];
    eexists; split; done.
Qed.

(** ** Properties *)

(** ATT requests and single-value responses have the wire format of the
    specification: each request is its opcode followed by its fields in little
    endian (the value last), written whole or refused; error, MTU and handle
    value packets parse to exactly the fields they carry. *)
Theorem att_formats : forall a b c value, is_u16 a -> is_u16 b -> is_u16 c -> bytes value ->
  writes (bt_att_encode_exchange_mtu_request a) ([2] ++ le_enc 2 a) /\
  writes (bt_att_encode_find_information_request a b) ([4] ++ le_enc 2 a ++ le_enc 2 b) /\
  writes (bt_att_encode_read_by_type_request a b c) ([8] ++ le_enc 2 a ++ le_enc 2 b ++ le_enc 2 c) /\
  writes (bt_att_encode_read_by_group_type_request a b c) ([16] ++ le_enc 2 a ++ le_enc 2 b ++ le_enc 2 c) /\
  writes (bt_att_encode_read_request a) ([10] ++ le_enc 2 a) /\
  writes (bt_att_encode_read_blob_request a b) ([12] ++ le_enc 2 a ++ le_enc 2 b) /\
  writes (bt_att_encode_write_request a value (zlen value)) ([18] ++ le_enc 2 a ++ value) /\
  writes bt_att_encode_handle_value_confirmation [30] /\
  (forall op err, is_byte op -> is_byte err ->
     bt_att_parse_error_response ([op] ++ le_enc 2 a ++ [err]) 4 =
       Ret {| er_request_opcode := op; er_handle_in_error := a; er_error_code := err |}) /\
  bt_att_parse_exchange_mtu_response (le_enc 2 a) 2 = Ret a /\
  bt_att_parse_handle_value (le_enc 2 a ++ value) (2 + zlen value) =
    Ret {| hv_handle := a; hv_value := Some value; hv_value_len := zlen value |}.
Proof.
  unfold is_u16. intros a b c value Ha Hb Hc Hv.
  split; [unfold bt_att_encode_exchange_mtu_request; print_all|].
  split; [unfold bt_att_encode_find_information_request; print_all|].
  split; [unfold bt_att_encode_read_by_type_request; print_all|].
  split; [unfold bt_att_encode_read_by_group_type_request; print_all|].
  split; [unfold bt_att_encode_read_request; print_all|].
  split; [unfold bt_att_encode_read_blob_request; print_all|].
  split; [unfold bt_att_encode_write_request; print_all|].
  split; [apply (writes_u8 30)|]. split; [|split].
  - unfold is_byte. intros op err Ho He. unfold bt_att_parse_error_response. simpl negb. cbv iota.
    apply (parse_reads _ ([op] ++ le_enc 2 a ++ [err])); [|bys]. repeat parse_step. auto with wire.
  - unfold bt_att_parse_exchange_mtu_response. simpl negb. cbv iota.
    apply (parse_reads _ (le_enc 2 a)); [auto with wire|bys].
  - unfold bt_att_parse_handle_value. rewrite (proj2 (Z.ltb_ge _ _)) by lia.
    replace (2 + zlen value) with (zlen (le_enc 2 a ++ value)) by (rewrite length_app, le_enc_length; lia).
    apply parse_reads_prefix; [|bys]. eapply reads_map; [apply reads_le16; lia|]. cbv beta.
    eapply reads_nil_bind; [apply reads_gets_remaining|]. cbv beta. simpl app.
    eapply reads_nil_bind; [|apply reads_ret].
    pose proof (reads_peek value [] (zlen value) eq_refl) as H. by rewrite app_nil_r in H.
Qed.

Lemma att_formats_witness :
  bt_att_parse_handle_value ([42; 0] ++ [7; 8]) 4 =
    Ret {| hv_handle := 42; hv_value := Some [7; 8]; hv_value_len := 2 |}.
Proof.
  assert (forall v, 0 <= v < 1000 -> is_u16 v) as H by (unfold is_u16; lia).
  assert (bytes [7; 8]) as Hb by bys.
  destruct (att_formats 42 0 0 [7; 8] (H 42 ltac:(lia)) (H 0 ltac:(lia)) (H 0 ltac:(lia)) Hb)
    as (_ & _ & _ & _ & _ & _ & _ & _ & _ & _ & R).
  exact R.
Defined.

(** The ATT list iterators are exact and safe.  For Find Information
    (16- or 128-bit UUIDs), Read By Group Type and Read By Type responses, a
    response carrying the entries [es] of one length is iterated to exactly
    [es] and then the end; and for arbitrary bytes the response is refused or
    iterated to finitely many entries whose values lie inside the response and
    have the announced length, so the client's discovery loops terminate. *)
Theorem att_iterators :
  (forall n, n = 4 \/ n = 18 ->
     iterates (fun p => bt_att_find_information_response_iter_init (Some p))
       bt_att_find_information_response_iter_next (fun n => if n =? 4 then 1 else 2) info_bytes info_ok n) /\
  (forall n, 4 <= n < 256 ->
     iterates bt_att_read_by_group_type_response_iter_init bt_att_read_by_group_type_response_iter_next
       id group_bytes group_ok n) /\
  (forall n, 2 <= n < 256 ->
     iterates bt_att_read_by_type_response_iter_init bt_att_read_by_type_response_iter_next
       id type_bytes type_ok n) /\
  iterates_safely (fun p => bt_att_find_information_response_iter_init (Some p))
    bt_att_find_information_response_iter_next info_ok /\
  iterates_safely bt_att_read_by_group_type_response_iter_init
    bt_att_read_by_group_type_response_iter_next group_ok /\
  iterates_safely bt_att_read_by_type_response_iter_init
    bt_att_read_by_type_response_iter_next type_ok.
Proof.
  split; [exact info_iter_exact|]. split; [exact group_iter_exact|]. split; [exact type_iter_exact|].
  split; [exact info_iter_safe|]. split; apply list_iter_safe; [exact group_next_safe|exact type_next_safe].
Qed.

End Att.
