(* ===== verification/Sdp.v ===== *)
(** * Service discovery codec: protocols/sdp/sdp.c

    PDU headers, data elements, continuation state, the two requests and the
    two responses.  [struct bt_sdp_element] is a tag with the fields that are
    valid for it, so it is an inductive type with one constructor per tag.
    The specification of data elements is the tree [tree]; [walk] is the
    recursive descent that the clients make with the element iterator. *)

From Stdlib Require Import ZArith Lia.
From stdpp Require Import base list.
From S2P Require Import Prelude Buffer.

Module Sdp.
Import Buffer.

Definition SDP_TYPE_NIL : Z := 0.
Definition SDP_TYPE_UINT : Z := 1.
Definition SDP_TYPE_UUID : Z := 3.
Definition SDP_TYPE_SEQUENCE : Z := 6.

Definition BT_SDP_PDU_SERVICE_SEARCH_REQUEST : Z := 2.
Definition BT_SDP_PDU_SERVICE_ATTRIBUTE_REQUEST : Z := 4.

(** ** Header *)

Record bt_sdp_header : Type := { sh_pdu_id : Z; sh_transaction_id : Z; sh_param_len : Z }.

Definition bt_sdp_encode_header (pdu_id transaction_id param_len : Z) : M bt_buf_writer unit :=
  do! bt_buf_writer_write_u8 pdu_id in
  do! bt_buf_writer_write_be16 transaction_id in
  bt_buf_writer_write_be16 param_len.

Definition bt_sdp_parse_header : M bt_buf_reader bt_sdp_header :=
  let! pdu_id := bt_buf_reader_read_u8 in
  let! transaction_id := bt_buf_reader_read_be16 in
  let! param_len := bt_buf_reader_read_be16 in
  ret {| sh_pdu_id := pdu_id; sh_transaction_id := transaction_id; sh_param_len := param_len |}.

(** ** Data elements *)

Inductive bt_sdp_element : Type :=
| BT_SDP_ELEM_NIL
| BT_SDP_ELEM_UINT (width uint : Z)
| BT_SDP_ELEM_UUID16 (uuid16 : Z)
| BT_SDP_ELEM_UUID128 (uuid128 : list Z)
| BT_SDP_ELEM_SEQUENCE (seq_data : list Z) (seq_len : Z).

Definition bt_sdp_encode_uint (value width : Z) : M bt_buf_writer unit :=
  let! size_desc :=
    (if width =? 1 then ret 0 else if width =? 2 then ret 1 else if width =? 4 then ret 2
     else fail BT_ERR_INVALID_ARGUMENT) in
  let header := u8 (Z.lor (Z.shiftl SDP_TYPE_UINT 3) size_desc) in
  do! bt_buf_writer_write_u8 header in
  if width =? 1 then bt_buf_writer_write_u8 (u8 value) else
  if width =? 2 then bt_buf_writer_write_be16 (u16 value) else
  bt_buf_writer_write_be32 value.

Definition bt_sdp_encode_uuid16 (uuid : Z) : M bt_buf_writer unit :=
  let header := u8 (Z.lor (Z.shiftl SDP_TYPE_UUID 3) 1) in
  do! bt_buf_writer_write_u8 header in
  bt_buf_writer_write_be16 uuid.

Definition bt_sdp_encode_uuid128 (uuid : list Z) : M bt_buf_writer unit :=
  let header := u8 (Z.lor (Z.shiftl SDP_TYPE_UUID 3) 4) in
  do! bt_buf_writer_write_u8 header in
  bt_buf_writer_write_bytes uuid 16.

Definition bt_sdp_encode_sequence_header (nested_len : Z) : M bt_buf_writer unit :=
  if nested_len <=? 255 then
    do! bt_buf_writer_write_u8 (u8 (Z.lor (Z.shiftl SDP_TYPE_SEQUENCE 3) 5)) in
    bt_buf_writer_write_u8 (u8 nested_len)
  else
    do! bt_buf_writer_write_u8 (u8 (Z.lor (Z.shiftl SDP_TYPE_SEQUENCE 3) 6)) in
    bt_buf_writer_write_be16 nested_len.

(** [p = peek(r, n); if (p == NULL) return UNDERFLOW; skip(r, n)] *)
Definition take_slice (n : Z) : M bt_buf_reader (list Z) :=
  let! p := bt_buf_reader_peek n in
  match p with
  | None => fail BT_ERR_BUFFER_UNDERFLOW
  | Some p => do! bt_buf_reader_skip n in ret p
  end.

Definition bt_sdp_parse_element : M bt_buf_reader bt_sdp_element :=
  let! header := bt_buf_reader_read_u8 in
  let type := u8 (Z.shiftr header 3) in
  let size_desc := u8 (Z.land header 7) in
  if type =? SDP_TYPE_NIL then
    if negb (size_desc =? 0) then fail BT_ERR_INVALID_ARGUMENT else ret BT_SDP_ELEM_NIL
  else if type =? SDP_TYPE_UINT then
    let! width :=
      (if size_desc =? 0 then ret 1 else if size_desc =? 1 then ret 2
       else if size_desc =? 2 then ret 4 else fail BT_ERR_INVALID_ARGUMENT) in
    let! uint :=
      (if width =? 1 then bt_buf_reader_read_u8 else if width =? 2 then bt_buf_reader_read_be16
       else bt_buf_reader_read_be32) in
    ret (BT_SDP_ELEM_UINT width uint)
  else if type =? SDP_TYPE_UUID then
    if size_desc =? 1 then
      let! uuid16 := bt_buf_reader_read_be16 in ret (BT_SDP_ELEM_UUID16 uuid16)
    else if size_desc =? 4 then
      let! uuid128 := bt_buf_reader_read_bytes 16 in ret (BT_SDP_ELEM_UUID128 uuid128)
    else fail BT_ERR_INVALID_ARGUMENT
  else if type =? SDP_TYPE_SEQUENCE then
    let! nested_len :=
      (if size_desc =? 5 then bt_buf_reader_read_u8 else if size_desc =? 6 then bt_buf_reader_read_be16
       else if size_desc =? 7 then bt_buf_reader_read_be32 else fail BT_ERR_INVALID_ARGUMENT) in
    let! p := take_slice nested_len in
    ret (BT_SDP_ELEM_SEQUENCE p nested_len)
  else fail BT_ERR_INVALID_ARGUMENT.

(** [struct bt_sdp_element_iter] is just a reader. *)
Definition bt_sdp_element_iter_init (data : list Z) (len : Z) : bt_buf_reader :=
  bt_buf_reader_init data len.

Definition bt_sdp_element_iter_next : M bt_buf_reader bt_sdp_element :=
  let! remaining := gets bt_buf_reader_remaining in
  if remaining =? 0 then fail BT_ERR_BUFFER_UNDERFLOW else bt_sdp_parse_element.

(** ** Continuation state *)

Record bt_sdp_continuation : Type := { ct_len : Z; ct_data : list Z }.

Definition write_continuation (cont : option bt_sdp_continuation) : M bt_buf_writer unit :=
  match cont with
  | None => bt_buf_writer_write_u8 0
  | Some cont =>
      if ct_len cont =? 0 then bt_buf_writer_write_u8 0 else
      do! bt_buf_writer_write_u8 (ct_len cont) in
      bt_buf_writer_write_bytes (ct_data cont) (ct_len cont)
  end.

(** [out] is the caller's structure: its 16-byte array keeps what is not
    overwritten. *)
Definition read_continuation (out : bt_sdp_continuation) : M bt_buf_reader bt_sdp_continuation :=
  let! len := bt_buf_reader_read_u8 in
  if len >? 16 then fail BT_ERR_INVALID_ARGUMENT else
  if len =? 0 then ret {| ct_len := len; ct_data := ct_data out |} else
  let! bs := bt_buf_reader_read_bytes len in
  let! data := lift (stn (ct_data out) 0 bs) in
  ret {| ct_len := len; ct_data := data |}.

(** ** Requests and responses *)

Definition bt_sdp_encode_service_search_request (transaction_id : Z) (service_search_pattern : list Z)
    (pattern_len max_record_count : Z) (cont : option bt_sdp_continuation) : M bt_buf_writer unit :=
  let cont_len := u16 (match cont with Some cont => ct_len cont | None => 0 end) in
  let param_len := u16 (pattern_len + 2 + 1 + cont_len) in
  do! bt_sdp_encode_header BT_SDP_PDU_SERVICE_SEARCH_REQUEST transaction_id param_len in
  do! bt_buf_writer_write_bytes service_search_pattern pattern_len in
  do! bt_buf_writer_write_be16 max_record_count in
  write_continuation cont.

Record bt_sdp_service_search_response : Type := {
  ss_total_record_count : Z;
  ss_current_record_count : Z;
  ss_handles : list Z;
  ss_continuation : bt_sdp_continuation;
}.

Definition bt_sdp_parse_service_search_response (params : list Z) (params_len : Z)
    (out : bt_sdp_service_search_response) : outcome bt_sdp_service_search_response :=
  parse params params_len
   (let! total_record_count := bt_buf_reader_read_be16 in
    let! current_record_count := bt_buf_reader_read_be16 in
    let handles_len := current_record_count * 4 in
    let! handles := take_slice handles_len in
    let! continuation := read_continuation (ss_continuation out) in
    ret {| ss_total_record_count := total_record_count;
           ss_current_record_count := current_record_count;
           ss_handles := handles; ss_continuation := continuation |}).

Definition bt_sdp_encode_service_attribute_request (transaction_id service_record_handle
      max_attribute_byte_count : Z) (attribute_id_list : list Z) (attribute_id_list_len : Z)
    (cont : option bt_sdp_continuation) : M bt_buf_writer unit :=
  let cont_len := u16 (match cont with Some cont => ct_len cont | None => 0 end) in
  let param_len := u16 (4 + 2 + attribute_id_list_len + 1 + cont_len) in
  do! bt_sdp_encode_header BT_SDP_PDU_SERVICE_ATTRIBUTE_REQUEST transaction_id param_len in
  do! bt_buf_writer_write_be32 service_record_handle in
  do! bt_buf_writer_write_be16 max_attribute_byte_count in
  do! bt_buf_writer_write_bytes attribute_id_list attribute_id_list_len in
  write_continuation cont.

Record bt_sdp_service_attribute_response : Type := {
  sa_attribute_list : list Z;
  sa_attribute_list_len : Z;
  sa_continuation : bt_sdp_continuation;
}.

Definition bt_sdp_parse_service_attribute_response (params : list Z) (params_len : Z)
    (out : bt_sdp_service_attribute_response) : outcome bt_sdp_service_attribute_response :=
  parse params params_len
   (let! byte_count := bt_buf_reader_read_be16 in
    let! elem := bt_sdp_parse_element in
    match elem with
    | BT_SDP_ELEM_SEQUENCE seq_data seq_len =>
        let! continuation := read_continuation (sa_continuation out) in
        ret {| sa_attribute_list := seq_data; sa_attribute_list_len := seq_len;
               sa_continuation := continuation |}
    | _ => fail BT_ERR_INVALID_ARGUMENT
    end).

(** ** Specification *)

Inductive tree : Type :=
| TNil
| TUint (width value : Z)
| TUuid16 (uuid : Z)
| TUuid128 (uuid : list Z)
| TSeq (ts : list tree).

Fixpoint enc_tree (t : tree) : list Z :=
  match t with
  | TNil => [0]
  | TUint width value =>
      if width =? 1 then 8 :: be_enc 1 value else if width =? 2 then 9 :: be_enc 2 value
      else 10 :: be_enc 4 value
  | TUuid16 uuid => 25 :: be_enc 2 uuid
  | TUuid128 uuid => 28 :: uuid
  | TSeq ts =>
      let body := mjoin (map enc_tree ts) in
      if zlen body <=? 255 then [53; zlen body] ++ body else [54] ++ be_enc 2 (zlen body) ++ body
  end.

Definition enc_trees (ts : list tree) : list Z := mjoin (map enc_tree ts).

Fixpoint tree_ok (t : tree) : Prop :=
  match t with
  | TNil => True
  | TUint width value => (width = 1 \/ width = 2 \/ width = 4) /\ 0 <= value < 2 ^ (8 * width)
  | TUuid16 uuid => 0 <= uuid < 2 ^ 16
  | TUuid128 uuid => bytes uuid /\ length uuid = 16%nat
  | TSeq ts => zlen (mjoin (map enc_tree ts)) < 2 ^ 16 /\
      foldr and True (map tree_ok ts)
  end.

(** What the parser reports for it: a sequence is left encoded. *)
Definition top (t : tree) : bt_sdp_element :=
  match t with
  | TNil => BT_SDP_ELEM_NIL
  | TUint width value => BT_SDP_ELEM_UINT width value
  | TUuid16 uuid => BT_SDP_ELEM_UUID16 uuid
  | TUuid128 uuid => BT_SDP_ELEM_UUID128 uuid
  | TSeq ts => BT_SDP_ELEM_SEQUENCE (enc_trees ts) (zlen (enc_trees ts))
  end.

(** Recursive descent: iterate until the iterator stops, going into each
    sequence with an iterator of its own. *)
Fixpoint walk (fuel : nat) (it : bt_buf_reader) : outcome (list tree) :=
  match fuel with
  | O => Fault
  | S fuel =>
      match bt_sdp_element_iter_next it with
      | (Ret e, it) =>
          let? t :=
            match e with
            | BT_SDP_ELEM_NIL => Ret TNil
            | BT_SDP_ELEM_UINT width value => Ret (TUint width value)
            | BT_SDP_ELEM_UUID16 uuid => Ret (TUuid16 uuid)
            | BT_SDP_ELEM_UUID128 uuid => Ret (TUuid128 uuid)
            | BT_SDP_ELEM_SEQUENCE data len =>
                let? ts := walk fuel (bt_sdp_element_iter_init data len) in Ret (TSeq ts)
            end in
          let? ts := walk fuel it in
          Ret (t :: ts)
      | (Fail _, _) => Ret []
      | (Fault, _) => Fault
      end
  end.

Definition elem_ok (e : bt_sdp_element) : Prop :=
  match e with
  | BT_SDP_ELEM_NIL => True
  | BT_SDP_ELEM_UINT width uint => (width = 1 \/ width = 2 \/ width = 4) /\ 0 <= uint < 2 ^ (8 * width)
  | BT_SDP_ELEM_UUID16 uuid16 => 0 <= uuid16 < 2 ^ 16
  | BT_SDP_ELEM_UUID128 uuid128 => bytes uuid128 /\ length uuid128 = 16%nat
  | BT_SDP_ELEM_SEQUENCE seq_data seq_len => bytes seq_data /\ zlen seq_data = seq_len
  end.

Definition cont_ok (c : bt_sdp_continuation) : Prop :=
  0 <= ct_len c <= 16 /\ bytes (ct_data c) /\ length (ct_data c) = 16%nat.

Definition cont_bytes (c : bt_sdp_continuation) : list Z :=
  [ct_len c] ++ take (Z.to_nat (ct_len c)) (ct_data c).

Definition opt_cont_bytes (c : option bt_sdp_continuation) : list Z :=
  match c with Some c => cont_bytes c | None => [0] end.

(** A tree written with the encoders, the way the clients build their
    patterns: header first, nested elements after it.  The source has no
    encoder for Nil, which is the one byte 0. *)
Fixpoint encode_tree (t : tree) : M bt_buf_writer unit :=
  match t with
  | TNil => bt_buf_writer_write_u8 0
  | TUint width value => bt_sdp_encode_uint value width
  | TUuid16 uuid => bt_sdp_encode_uuid16 uuid
  | TUuid128 uuid => bt_sdp_encode_uuid128 uuid
  | TSeq ts =>
      do! bt_sdp_encode_sequence_header (zlen (enc_trees ts)) in
      foldr (fun m k => do! m in k) (ret tt) (map encode_tree ts)
  end.

(** The continuation a parser leaves in the caller's structure. *)
Definition cont_set (old c : bt_sdp_continuation) : bt_sdp_continuation :=
  {| ct_len := ct_len c; ct_data := splice (ct_data old) 0 (take (Z.to_nat (ct_len c)) (ct_data c)) |}.

(** ** Lemmas *)

(** Decide a guard on constants. *)
Ltac const_guard :=
  match goal with |- context [if ?b then _ else _] =>
    let v := eval vm_compute in b in
    match v with true => change b with true | false => change b with false end; cbv iota end.

Lemma reads_cons {A} (m : Z -> M bt_buf_reader A) h rest post v : 0 <= h < 256 ->
  reads (m h) rest post v -> reads (let! b := bt_buf_reader_read_u8 in m b) (h :: rest) post v.
Proof. intros Hh Hm. apply (reads_bind _ _ [h] rest post h v); [by apply reads_u8|done]. Qed.

Lemma take_slice_reads bs post n : zlen bs = n -> reads (take_slice n) bs post bs.
Proof.
  intros Hn. unfold take_slice. rewrite <- (app_nil_r bs) at 1.
  eapply reads_peek_bind; [done|]. cbv beta iota. rewrite app_nil_r, <- Hn.
  eapply reads_map; [apply reads_skip|apply reads_ret].
Qed.

Lemma take_slice_safe n : 0 <= n -> rspec (take_slice n) (fun bs => zlen bs = n /\ bytes bs).
Proof.
  intros Hn. eapply rspec_bind; [by apply rspec_peek|]. intros [p|] Hp; [|apply rspec_fail].
  eapply rspec_bind; [by apply rspec_skip|]. intros _ _. apply rspec_ret. by apply Hp.
Qed.

#[local] Hint Resolve take_slice_reads : wire.

Lemma enc_trees_cons t ts : enc_trees (t :: ts) = enc_tree t ++ enc_trees ts.
Proof. done. Qed.

Lemma be_enc_1 v : 0 <= v < 2 ^ 8 -> be_enc 1 v = [v].
Proof. intros Hv. unfold be_enc. simpl. by rewrite Z.mod_small by exact Hv. Qed.

Lemma enc_trees_bytes_of ts : (forall t, t ∈ ts -> bytes (enc_tree t)) -> bytes (enc_trees ts).
Proof.
  induction ts as [|t ts IH]; intros H; [constructor|]. rewrite enc_trees_cons. apply Forall_app.
  split; [apply H; by left|apply IH; intros; apply H; by right].
Qed.

Lemma seq_ok ts : tree_ok (TSeq ts) <-> zlen (enc_trees ts) < 2 ^ 16 /\ Forall tree_ok ts.
Proof.
  cbn [tree_ok]. apply and_iff_compat_l. induction ts as [|t ts IH]; simpl; [by rewrite Forall_nil|].
  by rewrite Forall_cons, IH.
Qed.

Lemma parse_element_reads t post : tree_ok t -> bytes (enc_tree t) ->
  reads bt_sdp_parse_element (enc_tree t) post (top t).
Proof.
  destruct t as [|w v|u|u|ts]; intros Hok Hb; unfold bt_sdp_parse_element.
  - apply reads_cons; [lia|]. do 2 const_guard. apply reads_ret.
  - destruct Hok as [[-> | [-> | ->]] Hv]; (apply reads_cons; [lia|]); repeat const_guard; cbn [Z.mul Pos.mul] in Hv;
      (eapply reads_nil_bind; [apply reads_ret|]); cbv beta; repeat const_guard.
    + rewrite be_enc_1 by exact Hv. parse_step. apply reads_ret.
    + parse_step. apply reads_ret.
    + parse_step. apply reads_ret.
  - cbn [tree_ok] in Hok. apply reads_cons; [lia|]. repeat const_guard. parse_step. apply reads_ret.
  - destruct Hok as [_ Hl]. apply reads_cons; [lia|]. repeat const_guard.
    replace 16 with (zlen u) by lia. parse_step. apply reads_ret.
  - apply seq_ok in Hok as [Hl _]. cbn [enc_tree] in *. fold (enc_trees ts) in *. revert Hb. zcase; intros Hb.
    + apply reads_cons; [lia|]. repeat const_guard. apply reads_cons; [lia|]. parse_step. apply reads_ret.
    + apply reads_cons; [lia|]. repeat const_guard. parse_step. parse_step. apply reads_ret.
Qed.

(** The generated induction principle says nothing of the nested trees. *)
Lemma tree_nested_ind (P : tree -> Prop) :
  P TNil -> (forall w v, P (TUint w v)) -> (forall u, P (TUuid16 u)) -> (forall u, P (TUuid128 u)) ->
  (forall ts, Forall P ts -> P (TSeq ts)) -> forall t, P t.
Proof.
  intros H0 H1 H2 H3 H4. fix IH 1. intros [|w v|u|u|ts]; [done|apply H1|apply H2|apply H3|].
  apply H4. induction ts as [|t ts IHts]; constructor; [apply IH|exact IHts].
Qed.

Lemma enc_tree_bytes t : tree_ok t -> bytes (enc_tree t).
Proof.
  induction t as [|w v|u|u|ts IH] using tree_nested_ind; intros Hok.
  - simpl. bys.
  - cbn [enc_tree]. destruct (w =? 1), (w =? 2); bys.
  - cbn [enc_tree]. bys.
  - destruct Hok as [Hu _]. cbn [enc_tree]. bys.
  - apply seq_ok in Hok as [Hl Hts]. cbn [enc_tree]. fold (enc_trees ts).
    assert (bytes (enc_trees ts)) as Hb.
    { apply enc_trees_bytes_of. intros t Ht. rewrite Forall_forall in IH, Hts. auto. }
    zcase; bys.
Qed.

Lemma enc_trees_bytes ts : Forall tree_ok ts -> bytes (enc_trees ts).
Proof.
  intros Hts. apply enc_trees_bytes_of. intros t Ht. apply enc_tree_bytes. by eapply Forall_forall in Hts.
Qed.

Lemma enc_tree_length t : (1 <= length (enc_tree t))%nat.
Proof.
  destruct t as [|w v|u|u|ts]; cbn [enc_tree]; [| |simpl; lia..|].
  - simpl; lia.
  - destruct (w =? 1), (w =? 2); simpl; lia.
  - destruct (_ <=? _); simpl; lia.
Qed.

Lemma enc_seq_length ts : (length (enc_trees ts) < length (enc_tree (TSeq ts)))%nat.
Proof. cbn [enc_tree]. fold (enc_trees ts). destruct (_ <=? _); simpl length; lia. Qed.

Lemma remaining_view r : reader_ok r -> bt_buf_reader_remaining r = zlen (rview r).
Proof. intros. by rewrite rview_length. Qed.

Lemma next_reads t post : tree_ok t -> reads bt_sdp_element_iter_next (enc_tree t) post (top t).
Proof.
  intros Hok. unfold bt_sdp_element_iter_next. eapply reads_nil_bind; [apply reads_gets_remaining|].
  cbv beta. pose proof (enc_tree_length t). rewrite (proj2 (Z.eqb_neq _ _)) by (rewrite length_app; lia).
  apply parse_element_reads; [done|]. by apply enc_tree_bytes.
Qed.

Lemma walk_exact fuel : forall ts r, Forall tree_ok ts -> reader_ok r -> rview r = enc_trees ts ->
  (length (enc_trees ts) < fuel)%nat -> walk fuel r = Ret ts.
Proof.
  induction fuel as [|fuel IH]; intros ts r Hts Hok Hv Hf; [lia|]. cbn [walk].
  destruct Hts as [|t ts Ht Hts].
  - unfold bt_sdp_element_iter_next, bind, gets. by rewrite remaining_view, Hv by done.
  - rewrite enc_trees_cons in Hv, Hf. rewrite length_app in Hf. pose proof (enc_tree_length t).
    rewrite (next_reads t (enc_trees ts)) by done.
    destruct (radvance_view_app r _ _ Hok Hv) as [Hok' Hv'].
    rewrite (IH ts _) by (done || lia).
    destruct t as [|w v|u|u|us]; cbn [top obind]; try done.
    apply seq_ok in Ht as [Hl Hus]. pose proof (enc_seq_length us).
    unfold bt_sdp_element_iter_init. rewrite (IH us); [done|done| | |lia].
    + apply reader_init_ok; [lia|]. by apply enc_trees_bytes.
    + apply rview_init_all.
Qed.

(** *** Arbitrary bytes *)

(** A sequence found where fewer than [S n] bytes were left is shorter than [n]. *)
Definition elem_below (n : nat) (e : bt_sdp_element) : Prop :=
  elem_ok e /\ match e with BT_SDP_ELEM_SEQUENCE _ l => l < Z.of_nat n | _ => True end.

Lemma take_slice_below n k : 0 <= k ->
  rbelow n (take_slice k) (fun bs => (zlen bs = k /\ bytes bs) /\ k < Z.of_nat n).
Proof.
  intros Hk r Hok Hn. destruct (Z.le_gt_cases k (bt_buf_reader_remaining r)) as [Hle|Hgt].
  - pose proof (take_slice_safe k Hk r Hok) as Hs. destruct (take_slice k r) as [o r'].
    destruct Hs as (? & ? & ? & ? & ? & ?). conj6; try done. intros v Hv. split; [auto|lia].
  - unfold take_slice, bind. rewrite peek_spec, (proj2 (Z.leb_gt _ _)) by done.
    by apply (rspec_fail BT_ERR_BUFFER_UNDERFLOW).
Qed.

Lemma element_body : exists k, bt_sdp_parse_element = bind bt_buf_reader_read_u8 k /\
  forall n h, rbelow n (k h) (elem_below n).
Proof.
  eexists. split; [reflexivity|]. intros n h. cbv beta zeta.
  set (d := u8 (Z.land h 7)). clearbody d.
  destruct (_ =? SDP_TYPE_NIL).
  { destruct (negb (d =? 0)); apply rbelow_spec; [apply rspec_fail|by apply rspec_ret]. }
  destruct (_ =? SDP_TYPE_UINT).
  { apply rbelow_spec. apply (rspec_bind _ _ (fun w => w = 1 \/ w = 2 \/ w = 4)).
    - destruct (d =? 0), (d =? 1), (d =? 2); first [apply rspec_fail | apply rspec_ret; lia].
    - intros w Hw. apply (rspec_bind _ _ (fun v => 0 <= v < 2 ^ (8 * w))).
      + destruct Hw as [-> | [-> | ->]]; cbn [Z.eqb Pos.eqb Z.mul Pos.mul]; auto with wire.
      + intros v Hv. by apply rspec_ret. }
  destruct (_ =? SDP_TYPE_UUID).
  { apply rbelow_spec. destruct (d =? 1); [safe_step; by apply rspec_ret|].
    destruct (d =? 4); [|apply rspec_fail].
    eapply rspec_bind; [apply rspec_bytes; lia|]. intros u [Hl Hb]. apply rspec_ret.
    split; [split; [done|lia]|done]. }
  destruct (_ =? SDP_TYPE_SEQUENCE); [|apply rbelow_spec, rspec_fail].
  apply (rbelow_bind _ _ _ (fun l => 0 <= l)).
  { destruct (d =? 5); [eapply rspec_weaken; [apply rspec_u8|]; simpl; lia|].
    destruct (d =? 6); [eapply rspec_weaken; [apply rspec_be16|]; simpl; lia|].
    destruct (d =? 7); [eapply rspec_weaken; [apply rspec_be32|]; simpl; lia|apply rspec_fail]. }
  intros l Hl r Hok Hn. eapply rpost_bind; [by apply (take_slice_below n)|].
  intros p r' [[Hp Hb] Hlt] Hok' _ _. by apply rspec_ret.
Qed.

Lemma parse_element_below n : rbelow (S n) bt_sdp_parse_element (elem_below n).
Proof. destruct element_body as (k & -> & Hk). apply rbelow_u8. intros h _. apply Hk. Qed.

Lemma parse_element_progress : rprogress bt_sdp_parse_element elem_ok.
Proof.
  destruct element_body as (k & -> & Hk). apply rprogress_u8. intros h _ r Hok.
  specialize (Hk (S (Z.to_nat (bt_buf_reader_remaining r))) h r Hok).
  pose proof (remaining_nonneg r Hok). destruct (k h r) as [o r'].
  destruct Hk as (? & ? & ? & ? & ? & Hq); [lia|]. conj6; try done. intros v Hv. by apply Hq.
Qed.

Lemma parse_element_safe : rspec bt_sdp_parse_element elem_ok.
Proof. intros r Hok. by apply parse_element_progress. Qed.

Lemma next_progress : rprogress bt_sdp_element_iter_next elem_ok.
Proof.
  apply rprogress_remaining. intros v _. destruct (v =? 0); [apply rprogress_fail|apply parse_element_progress].
Qed.

Lemma next_below n : rbelow (S n) bt_sdp_element_iter_next (elem_below n).
Proof.
  apply rbelow_remaining. intros v _. destruct (v =? 0); [apply rbelow_spec, rspec_fail|apply parse_element_below].
Qed.

Lemma obind_safe {A B} (o : outcome A) (k : A -> outcome B) :
  o <> Fault -> (forall a, k a <> Fault) -> obind o k <> Fault.
Proof. destruct o; simpl; auto. Qed.

Lemma walk_safe fuel : forall r, reader_ok r -> bt_buf_reader_remaining r < Z.of_nat fuel ->
  walk fuel r <> Fault.
Proof.
  induction fuel as [|fuel IH]; intros r Hok Hf; [pose proof (remaining_nonneg r Hok); lia|]. cbn [walk].
  pose proof (next_below fuel r Hok Hf) as Hb. destruct (next_progress r Hok) as [_ Hlt].
  destruct (bt_sdp_element_iter_next r) as [[e|e|] r'] eqn:E; [|done|by destruct Hb].
  destruct Hb as (_ & Hok' & _ & Hl & _ & He). specialize (Hlt e r' eq_refl).
  destruct (He e eq_refl) as [Hek Hel].
  assert (walk fuel r' <> Fault) as Hr by (apply IH; [done|unfold bt_buf_reader_remaining in *; lia]).
  apply obind_safe; [|intros t; by apply obind_safe].
  destruct e as [| | | |d l]; try done. destruct Hek as [Hd Hdl].
  apply obind_safe; [|done]. apply IH; [apply reader_init_ok; [lia|done]|].
  unfold bt_buf_reader_remaining. simpl. lia.
Qed.

(** *** Printing *)

Lemma encode_uint_writes w v : w = 1 \/ w = 2 \/ w = 4 -> 0 <= v < 2 ^ (8 * w) ->
  writes (bt_sdp_encode_uint v w) (enc_tree (TUint w v)).
Proof.
  intros [-> | [-> | ->]] Hv; unfold bt_sdp_encode_uint; cbn [Z.eqb Pos.eqb enc_tree Z.mul Pos.mul] in *;
    rewrite ?u16_small by lia; rewrite bind_ret; cbv zeta;
    (eapply writes_last; [apply writes_u8|cbv beta|reflexivity]); [|auto with wire..].
  rewrite be_enc_1 by exact Hv. rewrite u8_small by lia. rewrite <- (u8_small v) at 2 by lia. apply writes_u8.
Qed.

Lemma encode_uint_refused w v st : w <> 1 -> w <> 2 -> w <> 4 ->
  bt_sdp_encode_uint v w st = (Fail BT_ERR_INVALID_ARGUMENT, st).
Proof. intros. unfold bt_sdp_encode_uint. by rewrite !(proj2 (Z.eqb_neq _ _)) by done. Qed.

Lemma sequence_header_writes n : 0 <= n < 2 ^ 16 ->
  writes (bt_sdp_encode_sequence_header n) (if n <=? 255 then [53; n] else [54] ++ be_enc 2 n).
Proof.
  intros Hn. unfold bt_sdp_encode_sequence_header. zcase; (eapply writes_last; [apply writes_u8|cbv beta|reflexivity]).
  - rewrite u8_small by lia. rewrite <- (u8_small n) at 2 by lia. apply writes_u8.
  - auto with wire.
Qed.

Lemma encode_all_writes ts : (forall t, t ∈ ts -> writes (encode_tree t) (enc_tree t)) ->
  writes (foldr (fun m k => do! m in k) (ret tt) (map encode_tree ts)) (enc_trees ts).
Proof.
  induction ts as [|t ts IH]; intros H; [apply writes_ret|]. cbn [map foldr]. rewrite enc_trees_cons.
  apply writes_bind; [apply H; by left|]. apply IH. intros; apply H; by right.
Qed.

Lemma encode_tree_writes t : tree_ok t -> writes (encode_tree t) (enc_tree t).
Proof.
  induction t as [|w v|u|u|ts IH] using tree_nested_ind; intros Hok; cbn [encode_tree].
  - apply (writes_u8 0).
  - destruct Hok. by apply encode_uint_writes.
  - unfold bt_sdp_encode_uuid16. cbn [enc_tree]. eapply writes_last; [apply writes_u8|cbv beta; auto with wire|done].
  - destruct Hok as [Hb Hl]. unfold bt_sdp_encode_uuid128. cbn [enc_tree].
    replace 16 with (zlen u) by lia. eapply writes_last; [apply writes_u8|cbv beta; auto with wire|done].
  - apply seq_ok in Hok as [Hl Hts]. cbn [enc_tree]. fold (enc_trees ts).
    eapply writes_last; [apply sequence_header_writes; lia| |zcase; [done|by rewrite app_assoc]].
    apply encode_all_writes. intros t Ht. rewrite Forall_forall in IH, Hts. auto.
Qed.

(** *** Continuation state *)

Lemma cont_bytes_bytes c : cont_ok c -> bytes (cont_bytes c).
Proof. intros ([? ?] & Hb & Hl). unfold cont_bytes. bys. Qed.

Lemma cont_bytes_length c : cont_ok c -> zlen (cont_bytes c) = 1 + ct_len c.
Proof. intros ([? ?] & Hb & Hl). unfold cont_bytes. zlist. Qed.

Lemma opt_cont_ok cont : (forall c, cont = Some c -> cont_ok c) ->
  bytes (opt_cont_bytes cont) /\
  zlen (opt_cont_bytes cont) = 1 + u16 (match cont with Some c => ct_len c | None => 0 end).
Proof.
  destruct cont as [c|]; intros Hc; [|split; [simpl; bys|done]]. specialize (Hc c eq_refl).
  split; [by apply cont_bytes_bytes|]. cbn [opt_cont_bytes]. rewrite cont_bytes_length by done.
  destruct Hc. by rewrite u16_small by lia.
Qed.

Lemma write_continuation_writes cont : (forall c, cont = Some c -> cont_ok c) ->
  writes (write_continuation cont) (opt_cont_bytes cont).
Proof.
  destruct cont as [c|]; intros Hc; [|apply (writes_u8 0)]. destruct (Hc c eq_refl) as (Hn & Hb & Hl).
  cbn [write_continuation opt_cont_bytes]. unfold cont_bytes. destruct (Z.eqb_spec (ct_len c) 0) as [E|E].
  - rewrite E. apply (writes_u8 0).
  - eapply writes_last; [apply writes_u8|cbv beta; apply writes_bytes_n; [lia|reflexivity]|].
    by rewrite u8_small by lia.
Qed.

Lemma read_continuation_reads old c post : length (ct_data old) = 16%nat -> cont_ok c ->
  reads (read_continuation old) (cont_bytes c) post (cont_set old c).
Proof.
  intros Ho (Hn & Hb & Hl). unfold read_continuation, cont_bytes, cont_set.
  eapply reads_bind; [apply reads_u8; lia|]. rewrite Z.gtb_ltb, (proj2 (Z.ltb_ge _ _)) by lia.
  assert (zlen (take (Z.to_nat (ct_len c)) (ct_data c)) = ct_len c) as Ht by zlist.
  destruct (Z.eqb_spec (ct_len c) 0) as [E|E].
  - rewrite E. change (take (Z.to_nat 0) (ct_data c)) with (@nil Z). rewrite splice_nil. apply reads_ret.
  - rewrite <- Ht at 1. eapply reads_map; [apply reads_bytes|]. cbv beta.
    rewrite stn_spec by lia. intros r _ _. unfold bind, lift, ret. by rewrite radvance_0.
Qed.

(** Echoing what was parsed sends back what was received. *)
Lemma cont_set_bytes old c : length (ct_data old) = 16%nat -> cont_ok c ->
  cont_bytes (cont_set old c) = cont_bytes c.
Proof.
  intros Ho (Hn & Hb & Hl). unfold cont_bytes, cont_set. cbn [ct_len ct_data]. f_equal.
  assert (zlen (take (Z.to_nat (ct_len c)) (ct_data c)) = ct_len c) as Ht by zlist.
  pose proof (splice_take (ct_data old) 0 (take (Z.to_nat (ct_len c)) (ct_data c))) as Hs.
  rewrite Ht in Hs. rewrite Z.add_0_l in Hs. apply Hs; lia.
Qed.

Lemma read_continuation_safe out : cont_ok out -> rspec (read_continuation out) cont_ok.
Proof.
  intros (Hn & Hb & Hl). unfold read_continuation. safe_step. rewrite Z.gtb_ltb.
  destruct (Z.ltb_spec 16 v); [apply rspec_fail|]. destruct (Z.eqb_spec v 0).
  - apply rspec_ret. split; [simpl; lia|done].
  - eapply rspec_bind; [apply rspec_bytes; lia|]. intros bs [Hbl Hbb]. rewrite stn_spec by lia.
    apply (rspec_ret {| ct_len := v; ct_data := splice (ct_data out) 0 bs |}).
    split; [simpl; lia|]. split; [by apply splice_bytes|]. cbn [ct_data]. rewrite splice_length; lia.
Qed.

(** *** Packets *)

Definition pdu_bytes (pdu_id tid : Z) (body : list Z) : list Z :=
  [pdu_id] ++ be_enc 2 tid ++ be_enc 2 (zlen body) ++ body.

Lemma pdu_header_writes pdu_id tid n body m : 0 <= pdu_id < 2 ^ 8 -> n = zlen body -> writes m body ->
  writes (do! bt_sdp_encode_header pdu_id tid n in m) (pdu_bytes pdu_id tid body).
Proof.
  intros Hp -> Hm. unfold bt_sdp_encode_header. eapply writes_last; [print_all|exact Hm|].
  rewrite u8_small by lia. unfold pdu_bytes. by rewrite <- !app_assoc.
Qed.

Lemma sdp_header_reads pdu_id tid n post : 0 <= pdu_id < 2 ^ 8 -> is_u16 tid -> is_u16 n ->
  reads bt_sdp_parse_header ([pdu_id] ++ be_enc 2 tid ++ be_enc 2 n) post
    {| sh_pdu_id := pdu_id; sh_transaction_id := tid; sh_param_len := n |}.
Proof. unfold is_u16. intros Hp Ht Hn. unfold bt_sdp_parse_header. repeat parse_step. auto with wire. Qed.

Lemma pdu_header_parses pdu_id tid body : 0 <= pdu_id < 2 ^ 8 -> 0 <= tid < 2 ^ 16 -> zlen body < 2 ^ 16 ->
  bytes body -> let pdu := pdu_bytes pdu_id tid body in
  parse pdu (zlen pdu) bt_sdp_parse_header =
    Ret {| sh_pdu_id := pdu_id; sh_transaction_id := tid; sh_param_len := zlen body |}.
Proof.
  intros Hp Ht Hb Hby pdu. subst pdu. unfold pdu_bytes. rewrite !app_assoc.
  apply parse_reads_prefix; [|bys]. rewrite <- !app_assoc. apply sdp_header_reads; [done|done|unfold is_u16; lia].
Qed.

Lemma search_response_safe bs len out : 0 <= len <= zlen bs -> bytes bs -> cont_ok (ss_continuation out) ->
  sat (bt_sdp_parse_service_search_response bs len out) (fun rsp =>
    zlen (ss_handles rsp) = ss_current_record_count rsp * 4 /\ bytes (ss_handles rsp) /\ cont_ok (ss_continuation rsp)).
Proof.
  intros Hl Hb Ho. apply parse_safe; [|done..]. do 2 safe_step.
  eapply rspec_bind; [apply take_slice_safe; lia|]. intros h [Hh Hhb].
  eapply rspec_bind; [by apply read_continuation_safe|]. intros c Hc. by apply rspec_ret.
Qed.

Lemma search_response_parses total count handles c out : is_u16 total -> is_u16 count -> bytes handles -> zlen handles = count * 4 ->
  cont_ok c -> length (ct_data (ss_continuation out)) = 16%nat ->
  let p := be_enc 2 total ++ be_enc 2 count ++ handles ++ cont_bytes c in
  bt_sdp_parse_service_search_response p (zlen p) out =
    Ret {| ss_total_record_count := total; ss_current_record_count := count; ss_handles := handles;
           ss_continuation := cont_set (ss_continuation out) c |}.
Proof.
  intros Ht Hn Hb Hl Hc Ho p. unfold is_u16 in *. pose proof (cont_bytes_bytes c Hc) as Hcb.
  apply parse_reads; [|subst p; bys]. subst p. parse_step. parse_step.
  eapply reads_bind; [by apply take_slice_reads|]. eapply reads_map; [by apply read_continuation_reads|]. auto with wire.
Qed.

(** *** Requests *)

(** The parameters of the requests. *)
Definition search_body (pattern : list Z) (max_record_count : Z) (cont : option bt_sdp_continuation) : list Z :=
  pattern ++ be_enc 2 max_record_count ++ opt_cont_bytes cont.
Definition attribute_body (handle max_attribute_byte_count : Z) (ids : list Z) (cont : option bt_sdp_continuation) : list Z :=
  be_enc 4 handle ++ be_enc 2 max_attribute_byte_count ++ ids ++ opt_cont_bytes cont.

Lemma search_request_writes tid pattern len n cont : 0 <= len <= zlen pattern -> bytes pattern ->
  (forall c, cont = Some c -> cont_ok c) -> let body := search_body (take (Z.to_nat len) pattern) n cont in zlen body < 2 ^ 16 ->
  writes (bt_sdp_encode_service_search_request tid pattern len n cont) (pdu_bytes 2 tid body) /\ bytes body.
Proof.
  intros Hl Hp Hc body Hb. destruct (opt_cont_ok cont Hc) as [Hob Hol]. pose proof (write_continuation_writes cont Hc) as Hw.
  assert (bytes (take (Z.to_nat len) pattern)) as Hbt by by apply Forall_take.
  assert (zlen (take (Z.to_nat len) pattern) = len) as Ht by zlist. subst body. unfold search_body in *.
  split; [|bys]. rewrite !length_app, be_enc_length in Hb. apply pdu_header_writes; [lia| |].
  - rewrite u16_small by lia. rewrite !length_app, be_enc_length. lia.
  - eapply writes_last; [apply writes_bytes_n; [lia|reflexivity]|print_all|done].
Qed.

Lemma attribute_request_writes tid handle n ids len cont : 0 <= len <= zlen ids -> bytes ids ->
  (forall c, cont = Some c -> cont_ok c) -> let body := attribute_body handle n (take (Z.to_nat len) ids) cont in zlen body < 2 ^ 16 ->
  writes (bt_sdp_encode_service_attribute_request tid handle n ids len cont) (pdu_bytes 4 tid body) /\ bytes body.
Proof.
  intros Hl Hp Hc body Hb. destruct (opt_cont_ok cont Hc) as [Hob Hol]. pose proof (write_continuation_writes cont Hc) as Hw.
  assert (bytes (take (Z.to_nat len) ids)) as Hbt by by apply Forall_take.
  assert (zlen (take (Z.to_nat len) ids) = len) as Ht by zlist. subst body. unfold attribute_body in *.
  split; [|bys]. rewrite !length_app, !be_enc_length in Hb. apply pdu_header_writes; [lia| |].
  - rewrite u16_small by lia. rewrite !length_app, !be_enc_length. lia.
  - eapply writes_last; [print_all|eapply writes_last; [print_all|eapply writes_last; [apply writes_bytes_n; [lia|reflexivity]|print_all|done]|done]|done].
Qed.

(** ** Properties *)

(** C37.  Data elements round-trip, to any depth.  Whatever tree of unsigned
    integers, UUIDs, Nils and sequences, written with the encoders its bytes
    are the SDP encoding (big endian, short or long sequence header), and the
    iterator, entered again for each sequence, gives back exactly the tree.
    An integer width other than 1, 2 or 4 is refused before anything is
    written. *)
Theorem sdp_element_roundtrip : forall t, tree_ok t ->
  writes (encode_tree t) (enc_tree t) /\
  walk (S (length (enc_tree t))) (bt_sdp_element_iter_init (enc_tree t) (zlen (enc_tree t))) = Ret [t] /\
  (forall v w st, ~ (w = 1 \/ w = 2 \/ w = 4) -> bt_sdp_encode_uint v w st = (Fail BT_ERR_INVALID_ARGUMENT, st)).
Proof.
  intros t Ht. split; [by apply encode_tree_writes|]. split.
  - assert (Forall tree_ok [t]) as Hts by (by constructor).
    assert (enc_trees [t] = enc_tree t) as E by apply app_nil_r.
    apply walk_exact; [done| | |rewrite E; lia].
    + apply reader_init_ok; [lia|]. by apply enc_tree_bytes.
    + unfold bt_sdp_element_iter_init. by rewrite rview_init_all.
  - intros v w st Hw. apply encode_uint_refused; lia.
Qed.

Lemma sdp_element_roundtrip_witness :
  let t := TSeq [TUuid16 4388; TSeq [TUint 2 200; TUint 4 65535]] in
  walk 20 (bt_sdp_element_iter_init (enc_tree t) (zlen (enc_tree t))) = Ret [t].
Proof.
  set (t := TSeq [TUuid16 4388; TSeq [TUint 2 200; TUint 4 65535]]).
  assert (tree_ok t) as Ht by (cbn; repeat split; lia).
  destruct (sdp_element_roundtrip t Ht) as (_ & H & _). exact H.
Defined.

(** C20.  Untrusted data elements are safe.  For arbitrary bytes, the element
    iterator stops after finitely many well-formed elements, the full
    recursive descent stops without reading outside the buffer (a nested
    sequence is always strictly shorter than what held it), and both response
    parsers either refuse or return slices inside the response with a
    continuation of at most 16 bytes. *)
Theorem sdp_untrusted_input : forall bs len, 0 <= len <= zlen bs -> bytes bs ->
  (exists l e, drain bt_sdp_element_iter_next (S (Z.to_nat len)) (bt_sdp_element_iter_init bs len) = (l, Fail e) /\
     Forall elem_ok l) /\
  walk (S (Z.to_nat len)) (bt_sdp_element_iter_init bs len) <> Fault /\
  (forall out, cont_ok (ss_continuation out) ->
     sat (bt_sdp_parse_service_search_response bs len out) (fun rsp =>
       zlen (ss_handles rsp) = ss_current_record_count rsp * 4 /\ cont_ok (ss_continuation rsp))) /\
  (forall out, cont_ok (sa_continuation out) ->
     sat (bt_sdp_parse_service_attribute_response bs len out) (fun rsp =>
       zlen (sa_attribute_list rsp) = sa_attribute_list_len rsp /\ bytes (sa_attribute_list rsp) /\
       cont_ok (sa_continuation rsp))).
Proof.
  intros bs len Hl Hb. pose proof (reader_init_ok bs len Hl Hb) as Hok.
  assert (bt_buf_reader_remaining (bt_buf_reader_init bs len) = len) as Hrem
    by (unfold bt_buf_reader_remaining; simpl; lia).
  split; [|split; [|split]].
  - apply drain_reader_safe; [apply next_progress|done|]. unfold bt_sdp_element_iter_init. lia.
  - apply walk_safe; [done|]. unfold bt_sdp_element_iter_init. lia.
  - intros out Ho. pose proof (search_response_safe bs len out Hl Hb Ho) as Hs.
    destruct (bt_sdp_parse_service_search_response bs len out) as [rsp|e|]; [|done..]. by destruct Hs as (? & _ & ?).
  - intros out Ho. apply parse_safe; [|done..]. safe_step.
    eapply rspec_bind; [apply parse_element_safe|]. intros [| | | |d l] He; try apply rspec_fail.
    destruct He. eapply rspec_bind; [by apply read_continuation_safe|]. intros c Hc. by apply rspec_ret.
Qed.

Lemma sdp_untrusted_input_witness :
  walk 5 (bt_sdp_element_iter_init [53; 2; 53; 9] 4) <> Fault.
Proof.
  assert (bytes [53; 2; 53; 9]) as Hb by bys.
  destruct (sdp_untrusted_input [53; 2; 53; 9] 4 ltac:(simpl; lia) Hb) as (_ & H & _). exact H.
Defined.

(** SDP requests and responses agree with the PDU formats.  A request is
    the header, whose length field counts exactly the bytes after it, then its
    fields in big endian and the continuation (one zero byte when there is
    none); the header parses back.  A search response with its table of
    handles, and an attribute response with its list as one sequence, parse
    to what they carry, and the continuation a client keeps from a response
    is echoed byte for byte in its next request. *)
Theorem sdp_pdu_formats : forall tid n handle pattern cont,
  0 <= tid < 2 ^ 16 -> 0 <= n < 2 ^ 16 -> bytes pattern -> (forall c, cont = Some c -> cont_ok c) ->
  (let body := pattern ++ be_enc 2 n ++ opt_cont_bytes cont in
   zlen body < 2 ^ 16 ->
   writes (bt_sdp_encode_service_search_request tid pattern (zlen pattern) n cont) (pdu_bytes 2 tid body) /\
   parse (pdu_bytes 2 tid body) (zlen (pdu_bytes 2 tid body)) bt_sdp_parse_header =
     Ret {| sh_pdu_id := 2; sh_transaction_id := tid; sh_param_len := zlen body |}) /\
  (let body := be_enc 4 handle ++ be_enc 2 n ++ pattern ++ opt_cont_bytes cont in
   zlen body < 2 ^ 16 ->
   writes (bt_sdp_encode_service_attribute_request tid handle n pattern (zlen pattern) cont)
     (pdu_bytes 4 tid body) /\
   parse (pdu_bytes 4 tid body) (zlen (pdu_bytes 4 tid body)) bt_sdp_parse_header =
     Ret {| sh_pdu_id := 4; sh_transaction_id := tid; sh_param_len := zlen body |}) /\
  (forall c hs out, cont_ok c -> length (ct_data (ss_continuation out)) = 16%nat -> zlen hs < 2 ^ 16 ->
   let table := mjoin (be_enc 4 <$> hs) in
   let p := be_enc 2 n ++ be_enc 2 (zlen hs) ++ table ++ cont_bytes c in
   bt_sdp_parse_service_search_response p (zlen p) out =
     Ret {| ss_total_record_count := n; ss_current_record_count := zlen hs; ss_handles := table;
            ss_continuation := cont_set (ss_continuation out) c |} /\
   opt_cont_bytes (Some (cont_set (ss_continuation out) c)) = cont_bytes c) /\
  (forall c ts out, cont_ok c -> length (ct_data (sa_continuation out)) = 16%nat -> tree_ok (TSeq ts) ->
   let p := be_enc 2 n ++ enc_tree (TSeq ts) ++ cont_bytes c in
   bt_sdp_parse_service_attribute_response p (zlen p) out =
     Ret {| sa_attribute_list := enc_trees ts; sa_attribute_list_len := zlen (enc_trees ts);
            sa_continuation := cont_set (sa_continuation out) c |}).
Proof.
  intros tid n handle pattern cont Ht Hn Hp Hc. destruct (opt_cont_ok cont Hc) as [Hob Hol].
  split; [|split; [|split]].
  - intros body Hb. split; [|apply pdu_header_parses; [lia|done|done|subst body; bys]].
    pose proof (search_request_writes tid pattern (zlen pattern) n cont ltac:(lia) Hp Hc) as Hs.
    rewrite Nat2Z.id, firstn_all in Hs. by apply Hs.
  - intros body Hb. split; [|apply pdu_header_parses; [lia|done|done|subst body; bys]].
    pose proof (attribute_request_writes tid handle n pattern (zlen pattern) cont ltac:(lia) Hp Hc) as Hs.
    rewrite Nat2Z.id, firstn_all in Hs. by apply Hs.
  - intros c hs out Hco Ho Hhs table p. split; [|by apply cont_set_bytes].
    assert (bytes table) as Htb by (apply Forall_join, Forall_fmap, Forall_true; intros; apply be_enc_bytes).
    assert (zlen table = zlen hs * 4) as Htl
      by (subst table; rewrite (table_length _ _ 4%nat) by (intros; apply be_enc_length); lia).
    apply search_response_parses; [done|unfold is_u16; lia|done..].
  - intros c ts out Hco Ho Hts p. pose proof (cont_bytes_bytes c Hco) as Hcb.
    pose proof (enc_tree_bytes _ Hts) as Htb. apply parse_reads; [|subst p; bys]. subst p. parse_step.
    eapply reads_bind; [by apply parse_element_reads|]. cbn [top].
    eapply reads_map; [by apply read_continuation_reads|]. auto with wire.
Qed.

Lemma sdp_pdu_formats_witness :
  let c := {| ct_len := 2; ct_data := [7; 8] ++ replicate 14 0 |} in
  let out := {| ss_total_record_count := 0; ss_current_record_count := 0; ss_handles := [];
                ss_continuation := {| ct_len := 0; ct_data := replicate 16 0 |} |} in
  bt_sdp_parse_service_search_response [0; 1; 0; 1; 0; 1; 0; 0; 2; 7; 8] 11 out =
    Ret {| ss_total_record_count := 1; ss_current_record_count := 1; ss_handles := [0; 1; 0; 0];
           ss_continuation := c |}.
Proof.
  set (c := {| ct_len := 2; ct_data := [7; 8] ++ replicate 14 0 |}).
  assert (cont_ok c) as Hc by (repeat split; cbn; try lia; bys).
  destruct (sdp_pdu_formats 0 1 0 [] None ltac:(lia) ltac:(lia) (Forall_nil_2 _) ltac:(done))
    as (_ & _ & H & _).
  intros c' out. destruct (H c [65536] out Hc eq_refl ltac:(simpl; lia)) as [R _]. exact R.
Defined.

End Sdp.
