(* ===== verification/ChannelManager.v ===== *)
(** * L2CAP channel manager: protocols/l2cap/channel_manager.c

    A pool of eight channels over one ACL link: the connection handshake, the
    configuration exchange, disconnection, the request timers and the routing
    of inbound PDUs.  A channel's timer is an intrusive [Timer] node at the
    channel's address.

    A channel's [on_event] callback is a [chprog]: it reads and writes the
    client's state and may call the manager again (open, open_fixed, close,
    send); a callback of such a call runs inside it.  The recursion is written
    with the callback's run as a parameter and closed by [dispatch], whose
    fuel is the nesting depth of callbacks.  [send_acl] returns a code and
    does not call back: inbound packets arrive between calls, by [on_acl].

    [w_trace] is a history variable: CIDs allocated, channels opened, events
    fired. *)

From Stdlib Require Import ZArith Lia Sorted.
From stdpp Require Import base list gmap sorting.
From S2P Require Import Prelude Buffer Callbacks Timer Hci L2cap Signaling.

Module ChannelManager.
Import Buffer Callbacks Timer Hci L2cap Signaling.

Definition BT_L2CAP_CHANNEL_MANAGER_MAX_CHANNELS : Z := 8.
Definition BT_L2CAP_RTX_TIMEOUT_US : Z := 60000000.
Definition BT_L2CAP_DEFAULT_MTU : Z := 672.
Definition BT_L2CAP_MAX_ACL_FRAGMENT : Z := 512.
Definition BT_L2CAP_MAX_SEND_LEN : Z := 512.
Definition BT_HCI_ACL_HEADER_LEN : Z := 4.

Inductive bt_l2cap_channel_state : Set :=
| BT_L2CAP_CHAN_FREE
| BT_L2CAP_CHAN_WAIT_CONNECT_RSP
| BT_L2CAP_CHAN_CONFIG
| BT_L2CAP_CHAN_OPEN
| BT_L2CAP_CHAN_WAIT_DISCONNECT_RSP.

Inductive bt_l2cap_close_reason : Set :=
| BT_L2CAP_CLOSE_LOCAL
| BT_L2CAP_CLOSE_PEER_DISCONNECTED
| BT_L2CAP_CLOSE_REFUSED
| BT_L2CAP_CLOSE_CONFIG_FAILED
| BT_L2CAP_CLOSE_TIMEOUT.

Inductive bt_l2cap_channel_event : Set :=
| BT_L2CAP_CHANNEL_EVENT_OPENED
| BT_L2CAP_CHANNEL_EVENT_CLOSED
| BT_L2CAP_CHANNEL_EVENT_DATA.

#[global] Instance channel_state_eq_dec : EqDecision bt_l2cap_channel_state.
Proof. solve_decision. Defined.
#[global] Instance close_reason_eq_dec : EqDecision bt_l2cap_close_reason.
Proof. solve_decision. Defined.
#[global] Instance channel_event_eq_dec : EqDecision bt_l2cap_channel_event.
Proof. solve_decision. Defined.

Record bt_l2cap_channel_event_info : Type := {
  ei_event : bt_l2cap_channel_event;
  ei_local_cid : Z;
  ei_close_reason : bt_l2cap_close_reason;
  ei_data : option (list Z);
  ei_data_len : Z;
  ei_now_us : Z;
}.

#[global] Instance event_info_eq_dec : EqDecision bt_l2cap_channel_event_info.
Proof. solve_decision. Defined.

(** The one callback the channels' timers carry; its [user_data] is the
    channel. *)
Inductive rtx_fn : Set := Rtx_timeout_callback.

Section Types.
  (** [bt_l2cap_channel_event_fn], what [user_data] points to, the client's
      state and the transport's. *)
  Context {CB UD C T : Type}.

Record bt_l2cap_channel : Type := {
  ch_state : bt_l2cap_channel_state;
  ch_is_fixed : bool;
  ch_psm : Z;
  ch_local_cid : Z;
  ch_remote_cid : Z;
  ch_local_mtu : Z;
  ch_remote_mtu : Z;
  ch_outbound_config_done : bool;
  ch_inbound_config_done : bool;
  ch_pending_identifier : Z;
  ch_on_event : option CB;
  ch_user_data : UD;
}.

(** [mg_timers] holds the list head and the channels' [rtx_timer]s. *)
Record bt_l2cap_channel_manager : Type := {
  mg_timers : tstate rtx_fn loc;
  mg_handle : Z;
  mg_signaling_cid : Z;
  mg_acl_frag_size : Z;
  mg_reassembler : bt_l2cap_reassembler;
  mg_channels : gmap loc bt_l2cap_channel;
  mg_next_local_cid : Z;
  mg_next_identifier : Z;
}.

(** A callback's run; [Ret]/[Fail] is the result of the call. *)
Inductive chprog : Type :=
| PDone
| PGet (k : C -> chprog)
| PPut (c : C) (k : chprog)
| POpen (psm local_mtu : Z) (on_event : option CB) (user_data : UD) (now_us : Z)
    (k : outcome Z -> chprog)
| POpenFixed (cid : Z) (on_event : option CB) (user_data : UD) (k : outcome unit -> chprog)
| PClose (local_cid now_us : Z) (k : chprog)
| PSend (local_cid : Z) (data : list Z) (now_us : Z) (k : outcome unit -> chprog).

Inductive chev : Type :=
| EAlloc (cid : Z)
| EOpen (chan : loc) (cid : Z)
| EOpenFixed (chan : loc) (cid : Z)
| EDisconnect (chan : loc)
| EFire (chan : loc) (info : bt_l2cap_channel_event_info).

Record world : Type := {
  w_mgr : bt_l2cap_channel_manager;
  w_client : C;
  w_transport : T;
  w_trace : list chev;
}.

(** Field updates. *)
Definition set_state (s : bt_l2cap_channel_state) (c : bt_l2cap_channel) : bt_l2cap_channel :=
  {| ch_state := s; ch_is_fixed := ch_is_fixed c; ch_psm := ch_psm c; ch_local_cid := ch_local_cid c;
     ch_remote_cid := ch_remote_cid c; ch_local_mtu := ch_local_mtu c; ch_remote_mtu := ch_remote_mtu c;
     ch_outbound_config_done := ch_outbound_config_done c;
     ch_inbound_config_done := ch_inbound_config_done c;
     ch_pending_identifier := ch_pending_identifier c; ch_on_event := ch_on_event c;
     ch_user_data := ch_user_data c |}.
Definition set_pending_identifier (n : Z) (c : bt_l2cap_channel) : bt_l2cap_channel :=
  {| ch_state := ch_state c; ch_is_fixed := ch_is_fixed c; ch_psm := ch_psm c; ch_local_cid := ch_local_cid c;
     ch_remote_cid := ch_remote_cid c; ch_local_mtu := ch_local_mtu c; ch_remote_mtu := ch_remote_mtu c;
     ch_outbound_config_done := ch_outbound_config_done c;
     ch_inbound_config_done := ch_inbound_config_done c;
     ch_pending_identifier := n; ch_on_event := ch_on_event c; ch_user_data := ch_user_data c |}.
Definition set_remote_cid (n : Z) (c : bt_l2cap_channel) : bt_l2cap_channel :=
  {| ch_state := ch_state c; ch_is_fixed := ch_is_fixed c; ch_psm := ch_psm c; ch_local_cid := ch_local_cid c;
     ch_remote_cid := n; ch_local_mtu := ch_local_mtu c; ch_remote_mtu := ch_remote_mtu c;
     ch_outbound_config_done := ch_outbound_config_done c;
     ch_inbound_config_done := ch_inbound_config_done c;
     ch_pending_identifier := ch_pending_identifier c; ch_on_event := ch_on_event c;
     ch_user_data := ch_user_data c |}.
Definition set_remote_mtu (n : Z) (c : bt_l2cap_channel) : bt_l2cap_channel :=
  {| ch_state := ch_state c; ch_is_fixed := ch_is_fixed c; ch_psm := ch_psm c; ch_local_cid := ch_local_cid c;
     ch_remote_cid := ch_remote_cid c; ch_local_mtu := ch_local_mtu c; ch_remote_mtu := n;
     ch_outbound_config_done := ch_outbound_config_done c;
     ch_inbound_config_done := ch_inbound_config_done c;
     ch_pending_identifier := ch_pending_identifier c; ch_on_event := ch_on_event c;
     ch_user_data := ch_user_data c |}.
Definition set_config_done (out inb : bool) (c : bt_l2cap_channel) : bt_l2cap_channel :=
  {| ch_state := ch_state c; ch_is_fixed := ch_is_fixed c; ch_psm := ch_psm c; ch_local_cid := ch_local_cid c;
     ch_remote_cid := ch_remote_cid c; ch_local_mtu := ch_local_mtu c; ch_remote_mtu := ch_remote_mtu c;
     ch_outbound_config_done := out; ch_inbound_config_done := inb;
     ch_pending_identifier := ch_pending_identifier c; ch_on_event := ch_on_event c;
     ch_user_data := ch_user_data c |}.

Definition set_timers (ts : tstate rtx_fn loc) (m : bt_l2cap_channel_manager) : bt_l2cap_channel_manager :=
  {| mg_timers := ts; mg_handle := mg_handle m; mg_signaling_cid := mg_signaling_cid m;
     mg_acl_frag_size := mg_acl_frag_size m; mg_reassembler := mg_reassembler m;
     mg_channels := mg_channels m; mg_next_local_cid := mg_next_local_cid m;
     mg_next_identifier := mg_next_identifier m |}.
Definition set_reassembler (ra : bt_l2cap_reassembler) (m : bt_l2cap_channel_manager) : bt_l2cap_channel_manager :=
  {| mg_timers := mg_timers m; mg_handle := mg_handle m; mg_signaling_cid := mg_signaling_cid m;
     mg_acl_frag_size := mg_acl_frag_size m; mg_reassembler := ra;
     mg_channels := mg_channels m; mg_next_local_cid := mg_next_local_cid m;
     mg_next_identifier := mg_next_identifier m |}.
Definition set_channels (chs : gmap loc bt_l2cap_channel) (m : bt_l2cap_channel_manager) : bt_l2cap_channel_manager :=
  {| mg_timers := mg_timers m; mg_handle := mg_handle m; mg_signaling_cid := mg_signaling_cid m;
     mg_acl_frag_size := mg_acl_frag_size m; mg_reassembler := mg_reassembler m;
     mg_channels := chs; mg_next_local_cid := mg_next_local_cid m;
     mg_next_identifier := mg_next_identifier m |}.
Definition set_next_local_cid (n : Z) (m : bt_l2cap_channel_manager) : bt_l2cap_channel_manager :=
  {| mg_timers := mg_timers m; mg_handle := mg_handle m; mg_signaling_cid := mg_signaling_cid m;
     mg_acl_frag_size := mg_acl_frag_size m; mg_reassembler := mg_reassembler m;
     mg_channels := mg_channels m; mg_next_local_cid := n;
     mg_next_identifier := mg_next_identifier m |}.
Definition set_next_identifier (n : Z) (m : bt_l2cap_channel_manager) : bt_l2cap_channel_manager :=
  {| mg_timers := mg_timers m; mg_handle := mg_handle m; mg_signaling_cid := mg_signaling_cid m;
     mg_acl_frag_size := mg_acl_frag_size m; mg_reassembler := mg_reassembler m;
     mg_channels := mg_channels m; mg_next_local_cid := mg_next_local_cid m;
     mg_next_identifier := n |}.

Definition with_mgr (f : bt_l2cap_channel_manager -> bt_l2cap_channel_manager) (w : world) : world :=
  {| w_mgr := f (w_mgr w); w_client := w_client w; w_transport := w_transport w; w_trace := w_trace w |}.
Definition with_client (c : C) (w : world) : world :=
  {| w_mgr := w_mgr w; w_client := c; w_transport := w_transport w; w_trace := w_trace w |}.
Definition with_transport (t : T) (w : world) : world :=
  {| w_mgr := w_mgr w; w_client := w_client w; w_transport := t; w_trace := w_trace w |}.
Definition log (e : chev) (w : world) : world :=
  {| w_mgr := w_mgr w; w_client := w_client w; w_transport := w_transport w; w_trace := w_trace w ++ [e] |}.

End Types.
Arguments bt_l2cap_channel : clear implicits.
Arguments bt_l2cap_channel_manager : clear implicits.
Arguments chprog : clear implicits.
Arguments world : clear implicits.

(** ** What the manager asks of its clients and of the transport *)

(** [on_event(info, user_data)] *)
Class ChannelClient (CB UD C : Type) : Type := {
  client_event : CB -> bt_l2cap_channel_event_info -> UD -> chprog CB UD C;
}.

(** [transport->ops->send_acl(transport, acl, length)]: the return code and
    the transport's next state. *)
Class AclTransport (T : Type) : Type := { send_acl : T -> list Z -> Z * T }.

Section Machine.
  Context {CB UD C T : Type} `{ChannelClient CB UD C} `{AclTransport T}.

Abbreviation W := (world CB UD C T).
Abbreviation chan_t := (bt_l2cap_channel CB UD).
Abbreviation mgr_t := (bt_l2cap_channel_manager CB UD).

(** ** Access to the world *)

(** The addresses of [mgr->channels]. *)
Definition channel_slots : list loc := [1; 2; 3; 4; 5; 6; 7; 8]%positive.

Definition load (chan : loc) : M W chan_t := fun w => (hld (mg_channels (w_mgr w)) chan, w).

Definition update (chan : loc) (f : chan_t -> chan_t) : M W unit :=
  let! c := load chan in
  let! chs := (fun w => (hst (mg_channels (w_mgr w)) chan (f c), w)) in
  modify (with_mgr (set_channels chs)).

(** A call on [&mgr->timers]. *)
Definition on_timers (f : tstate rtx_fn loc -> outcome (tstate rtx_fn loc)) : M W unit := fun w =>
  match f (mg_timers (w_mgr w)) with
  | Ret ts => (Ret tt, with_mgr (set_timers ts) w)
  | Fail e => (Fail e, w)
  | Fault => (Fault, w)
  end.

(** A header is parsed, then the bytes it announces are peeked. *)
Definition header_and_peek {A} (parse_header : M bt_buf_reader A) (length : A -> Z)
    : M bt_buf_reader (A * option (list Z)) :=
  let! hdr := parse_header in
  let! data := bt_buf_reader_peek (length hdr) in
  ret (hdr, data).

(** ** Finding a channel *)

Fixpoint find_channel (test : chan_t -> bool) (chs : gmap loc chan_t) (slots : list loc)
    : outcome (option loc) :=
  match slots with
  | [] => Ret None
  | i :: slots =>
      let? chan := hld chs i in
      if test chan then Ret (Some i) else find_channel test chs slots
  end.

Definition find_free_channel : M W (option loc) := fun w =>
  (find_channel (fun chan => bool_decide (ch_state chan = BT_L2CAP_CHAN_FREE))
     (mg_channels (w_mgr w)) channel_slots, w).

Definition find_channel_by_identifier (identifier : Z) : M W (option loc) := fun w =>
  (find_channel (fun chan => negb (bool_decide (ch_state chan = BT_L2CAP_CHAN_FREE)) &&
                             (ch_pending_identifier chan =? identifier))
     (mg_channels (w_mgr w)) channel_slots, w).

Definition find_channel_by_local_cid (local_cid : Z) : M W (option loc) := fun w =>
  (find_channel (fun chan => negb (bool_decide (ch_state chan = BT_L2CAP_CHAN_FREE)) &&
                             (ch_local_cid chan =? local_cid))
     (mg_channels (w_mgr w)) channel_slots, w).

(** ** Allocation *)

Definition alloc_local_cid : M W Z :=
  let! cid := gets (fun w => mg_next_local_cid (w_mgr w)) in
  do! modify (with_mgr (fun m => set_next_local_cid (u16 (mg_next_local_cid m + 1)) m)) in
  do! modify (with_mgr (fun m => if mg_next_local_cid m <? BT_L2CAP_CID_DYNAMIC_START
                                 then set_next_local_cid BT_L2CAP_CID_DYNAMIC_START m else m)) in
  do! modify (log (EAlloc cid)) in
  ret cid.

Definition alloc_identifier : M W Z :=
  let! id := gets (fun w => mg_next_identifier (w_mgr w)) in
  do! modify (with_mgr (fun m => set_next_identifier (u8 (mg_next_identifier m + 1)) m)) in
  do! modify (with_mgr (fun m => if mg_next_identifier m =? 0 then set_next_identifier 1 m else m)) in
  ret id.

(** ** Sending *)

(** The [for (;;)]. *)
Fixpoint send_loop (fuel : nat) (fr : bt_l2cap_fragmenter) : M W unit := fun w =>
  match fuel with
  | O => (Fault, w)
  | S fuel =>
      let cap := BT_HCI_ACL_HEADER_LEN + BT_L2CAP_MAX_ACL_FRAGMENT in
      match bt_l2cap_fragmenter_next (fr, bt_buf_writer_init (replicate (Z.to_nat cap) 0) cap) with
      | (Ret _, (fr, aw)) =>
          let '(rc, t) := send_acl (w_transport w) (wout aw) in
          let w := with_transport t w in
          if negb (rc =? 0) then (Fail BT_ERR_INVALID_ARGUMENT, w) else send_loop fuel fr w
      | (Fail st, _) => if decide (st = BT_ERR_BUFFER_UNDERFLOW) then (Ret tt, w) else (Fail st, w)
      | (Fault, _) => (Fault, w)
      end
  end.

Definition send_fragmented (pdu : list Z) (pdu_len : Z) : M W unit :=
  let! handle := gets (fun w => mg_handle (w_mgr w)) in
  let! frag_size := gets (fun w => mg_acl_frag_size (w_mgr w)) in
  send_loop (S (Z.to_nat pdu_len)) (bt_l2cap_fragmenter_init handle frag_size pdu pdu_len).

Definition send_l2cap_pdu (cid : Z) (payload : list Z) (payload_len : Z) : M W unit :=
  if payload_len >? 64 then fail BT_ERR_INVALID_ARGUMENT else
  let! e := encode_into (BT_L2CAP_HEADER_LEN + 64)
    (do! bt_l2cap_encode_header (u16 payload_len) cid in
     bt_buf_writer_write_bytes payload payload_len) in
  if decide (e.1 <> BT_OK) then fail e.1 else
  send_fragmented e.2 (zlen e.2).

Definition signal (command : list Z) : M W unit :=
  let! cid := gets (fun w => mg_signaling_cid (w_mgr w)) in
  send_l2cap_pdu cid command (zlen command).

(** ** Handlers: the callback's run is a parameter *)

Section Open.
  Variable run_callback : CB -> bt_l2cap_channel_event_info -> UD -> M W unit.

Definition fire_event (chan : loc) (info : bt_l2cap_channel_event_info) : M W unit :=
  let! c := load chan in
  do! modify (log (EFire chan info)) in
  match ch_on_event c with
  | Some on_event => run_callback on_event info (ch_user_data c)
  | None => ret tt
  end.

Definition fire_opened (chan : loc) : M W unit :=
  let! c := load chan in
  fire_event chan {| ei_event := BT_L2CAP_CHANNEL_EVENT_OPENED; ei_local_cid := ch_local_cid c;
                     ei_close_reason := BT_L2CAP_CLOSE_LOCAL; ei_data := None; ei_data_len := 0;
                     ei_now_us := 0 |}.

Definition finish_close (chan : loc) (reason : bt_l2cap_close_reason) : M W unit :=
  let! t := (fun w => (hld (tl_mem (mg_timers (w_mgr w))) chan, w)) in
  do! (if t_pending t then on_timers (fun ts => bt_timer_list_cancel ts chan) else ret tt) in
  let! c := load chan in
  let info := {| ei_event := BT_L2CAP_CHANNEL_EVENT_CLOSED; ei_local_cid := ch_local_cid c;
                 ei_close_reason := reason; ei_data := None; ei_data_len := 0; ei_now_us := 0 |} in
  do! update chan (set_state BT_L2CAP_CHAN_FREE) in
  do! update chan (set_pending_identifier 0) in
  fire_event chan info.

Definition rtx_timeout_callback (chan : loc) : M W unit := finish_close chan BT_L2CAP_CLOSE_TIMEOUT.

Definition send_connection_request (chan : loc) : M W unit :=
  let! c := load chan in
  let! e := encode_into (BT_L2CAP_SIG_HEADER_LEN + 4)
    (bt_l2cap_sig_encode_connection_request (ch_pending_identifier c) (ch_psm c) (ch_local_cid c)) in
  if decide (e.1 <> BT_OK) then fail e.1 else
  signal e.2.

Definition start_our_configure_request (chan : loc) (now_us : Z) : M W unit :=
  let! id := alloc_identifier in
  do! update chan (set_pending_identifier id) in
  do! on_timers (fun ts => bt_timer_list_add ts chan (u64 (now_us + BT_L2CAP_RTX_TIMEOUT_US))) in
  let! c := load chan in
  let! e := encode_into (BT_L2CAP_SIG_HEADER_LEN + 8)
    (bt_l2cap_sig_encode_configure_request (ch_pending_identifier c) (ch_remote_cid c) 0 (ch_local_mtu c)) in
  do! try (signal e.2) in
  ret tt.

(** The end of [handle_connection_response]. *)
Definition connection_accepted (chan : loc) (rsp : bt_l2cap_connection_response) (now_us : Z) : M W unit :=
  do! update chan (set_remote_cid (cp_destination_cid rsp)) in
  do! update chan (set_state BT_L2CAP_CHAN_CONFIG) in
  start_our_configure_request chan now_us.

Definition handle_connection_response (identifier : Z) (cmd_data : list Z) (cmd_data_len now_us : Z) : M W unit :=
  let! o := find_channel_by_identifier identifier in
  match o with
  | None => ret tt
  | Some chan =>
      let! c := load chan in
      if decide (ch_state c <> BT_L2CAP_CHAN_WAIT_CONNECT_RSP) then ret tt else
      let! rsp := try (lift (bt_l2cap_sig_parse_connection_response cmd_data cmd_data_len)) in
      match rsp with
      | Ret rsp =>
          if cp_result rsp =? BT_L2CAP_CONN_RESULT_PENDING then ret tt else
          do! on_timers (fun ts => bt_timer_list_cancel ts chan) in
          if negb (cp_result rsp =? BT_L2CAP_CONN_RESULT_SUCCESS)
          then finish_close chan BT_L2CAP_CLOSE_REFUSED else
          connection_accepted chan rsp now_us
      | _ => ret tt
      end
  end.

(** [if (<both directions configured>) { chan->state = OPEN; fire_opened(chan); }] *)
Definition open_if (chan : loc) (configured : bool) : M W unit :=
  if configured then
    do! update chan (set_state BT_L2CAP_CHAN_OPEN) in
    fire_opened chan
  else ret tt.

(** The end of [handle_configure_request]. *)
Definition accept_configuration (identifier : Z) (chan : loc) (req : bt_l2cap_configure_request) : M W unit :=
  do! (if fq_has_mtu req then update chan (set_remote_mtu (fq_mtu req)) else ret tt) in
  let! c := load chan in
  let! e := encode_into (BT_L2CAP_SIG_HEADER_LEN + 10)
    (bt_l2cap_sig_encode_configure_response identifier (ch_local_cid c) 0 BT_L2CAP_CONFIG_RESULT_SUCCESS 0) in
  do! try (signal e.2) in
  do! update chan (fun c => set_config_done (ch_outbound_config_done c) true c) in
  let! c := load chan in
  open_if chan (ch_outbound_config_done c).

Definition handle_configure_request (identifier : Z) (cmd_data : list Z) (cmd_data_len : Z) : M W unit :=
  let! req := try (lift (bt_l2cap_sig_parse_configure_request cmd_data cmd_data_len)) in
  match req with
  | Ret req =>
      let! o := find_channel_by_local_cid (fq_destination_cid req) in
      match o with
      | None => ret tt
      | Some chan =>
          let! c := load chan in
          if decide (ch_state c <> BT_L2CAP_CHAN_CONFIG) then ret tt else
          accept_configuration identifier chan req
      end
  | _ => ret tt
  end.

(** The end of [handle_configure_response]. *)
Definition configuration_accepted (chan : loc) : M W unit :=
  do! update chan (fun c => set_config_done true (ch_inbound_config_done c) c) in
  let! c := load chan in
  open_if chan (ch_inbound_config_done c).

Definition handle_configure_response (identifier : Z) (cmd_data : list Z) (cmd_data_len : Z) : M W unit :=
  let! o := find_channel_by_identifier identifier in
  match o with
  | None => ret tt
  | Some chan =>
      let! c := load chan in
      if decide (ch_state c <> BT_L2CAP_CHAN_CONFIG) then ret tt else
      let! rsp := try (lift (bt_l2cap_sig_parse_configure_response cmd_data cmd_data_len)) in
      match rsp with
      | Ret rsp =>
          do! on_timers (fun ts => bt_timer_list_cancel ts chan) in
          do! update chan (set_pending_identifier 0) in
          if negb (fp_result rsp =? BT_L2CAP_CONFIG_RESULT_SUCCESS)
          then finish_close chan BT_L2CAP_CLOSE_CONFIG_FAILED else
          configuration_accepted chan
      | _ => ret tt
      end
  end.

Definition handle_disconnection_request (identifier : Z) (cmd_data : list Z) (cmd_data_len : Z) : M W unit :=
  let! req := try (lift (bt_l2cap_sig_parse_disconnection cmd_data cmd_data_len)) in
  match req with
  | Ret req =>
      let! o := find_channel_by_local_cid (dc_destination_cid req) in
      match o with
      | None => ret tt
      | Some chan =>
          let! e := encode_into (BT_L2CAP_SIG_HEADER_LEN + 4)
            (bt_l2cap_sig_encode_disconnection_response identifier (dc_destination_cid req) (dc_source_cid req)) in
          do! try (signal e.2) in
          finish_close chan BT_L2CAP_CLOSE_PEER_DISCONNECTED
      end
  | _ => ret tt
  end.

Definition handle_disconnection_response (identifier : Z) (cmd_data : list Z) (cmd_data_len : Z) : M W unit :=
  let! o := find_channel_by_identifier identifier in
  match o with
  | None => ret tt
  | Some chan =>
      let! c := load chan in
      if decide (ch_state c <> BT_L2CAP_CHAN_WAIT_DISCONNECT_RSP) then ret tt else
      let! rsp := try (lift (bt_l2cap_sig_parse_disconnection cmd_data cmd_data_len)) in
      match rsp with
      | Ret _ => finish_close chan BT_L2CAP_CLOSE_LOCAL
      | _ => ret tt
      end
  end.

Definition handle_command_reject (identifier : Z) : M W unit :=
  let! o := find_channel_by_identifier identifier in
  match o with
  | None => ret tt
  | Some chan =>
      let! c := load chan in
      if decide (ch_state c = BT_L2CAP_CHAN_WAIT_CONNECT_RSP)
      then finish_close chan BT_L2CAP_CLOSE_REFUSED
      else finish_close chan BT_L2CAP_CLOSE_CONFIG_FAILED
  end.

Definition process_signaling_pdu (payload : list Z) (payload_len now_us : Z) : M W unit :=
  match header_and_peek bt_l2cap_sig_parse_header sg_length (bt_buf_reader_init payload payload_len) with
  | (Ret (hdr, Some cmd_data), _) =>
      let code := sg_code hdr in
      let identifier := sg_identifier hdr in
      let length := sg_length hdr in
      if code =? BT_L2CAP_SIG_CONNECTION_RESPONSE then
        handle_connection_response identifier cmd_data length now_us
      else if code =? BT_L2CAP_SIG_CONFIGURE_REQUEST then
        handle_configure_request identifier cmd_data length
      else if code =? BT_L2CAP_SIG_CONFIGURE_RESPONSE then
        handle_configure_response identifier cmd_data length
      else if code =? BT_L2CAP_SIG_DISCONNECTION_REQUEST then
        handle_disconnection_request identifier cmd_data length
      else if code =? BT_L2CAP_SIG_DISCONNECTION_RESPONSE then
        handle_disconnection_response identifier cmd_data length
      else if code =? BT_L2CAP_SIG_COMMAND_REJECT then handle_command_reject identifier
      else ret tt
  | (Fault, _) => lift Fault
  | _ => ret tt
  end.

(** ** The interface *)

(** [*out_local_cid], when BT_OK. *)
Definition bt_l2cap_channel_manager_open (psm local_mtu : Z) (on_event : option CB) (user_data : UD)
    (now_us : Z) : M W Z :=
  let! o := find_free_channel in
  match o with
  | None => fail BT_ERR_NO_RESOURCES
  | Some chan =>
      let! local_cid := alloc_local_cid in
      do! update chan (fun c =>
        {| ch_state := BT_L2CAP_CHAN_WAIT_CONNECT_RSP; ch_is_fixed := false; ch_psm := psm;
           ch_local_cid := local_cid; ch_remote_cid := 0;
           ch_local_mtu := if negb (local_mtu =? 0) then local_mtu else BT_L2CAP_DEFAULT_MTU;
           ch_remote_mtu := BT_L2CAP_DEFAULT_MTU;
           ch_outbound_config_done := false; ch_inbound_config_done := false;
           ch_pending_identifier := ch_pending_identifier c;
           ch_on_event := on_event; ch_user_data := user_data |}) in
      let! id := alloc_identifier in
      do! update chan (set_pending_identifier id) in
      do! on_timers (fun ts => bt_timer_list_add ts chan (u64 (now_us + BT_L2CAP_RTX_TIMEOUT_US))) in
      let! st := try (send_connection_request chan) in
      match st with
      | Ret _ => do! modify (log (EOpen chan local_cid)) in ret local_cid
      | Fail st =>
          do! on_timers (fun ts => bt_timer_list_cancel ts chan) in
          do! update chan (set_state BT_L2CAP_CHAN_FREE) in
          fail st
      | Fault => lift Fault
      end
  end.

Definition bt_l2cap_channel_manager_open_fixed (cid : Z) (on_event : option CB) (user_data : UD) : M W unit :=
  let! o := find_channel_by_local_cid cid in
  match o with
  | Some _ => fail BT_ERR_INVALID_ARGUMENT
  | None =>
      let! o := find_free_channel in
      match o with
      | None => fail BT_ERR_NO_RESOURCES
      | Some chan =>
          do! modify (log (EOpenFixed chan cid)) in
          do! update chan (fun c =>
            {| ch_state := BT_L2CAP_CHAN_OPEN; ch_is_fixed := true; ch_psm := 0;
               ch_local_cid := cid; ch_remote_cid := cid; ch_local_mtu := BT_L2CAP_DEFAULT_MTU;
               ch_remote_mtu := BT_L2CAP_DEFAULT_MTU;
               ch_outbound_config_done := true; ch_inbound_config_done := true;
               ch_pending_identifier := 0; ch_on_event := on_event; ch_user_data := user_data |}) in
          fire_opened chan
      end
  end.

Definition bt_l2cap_channel_manager_close (local_cid now_us : Z) : M W unit :=
  let! o := find_channel_by_local_cid local_cid in
  match o with
  | None => ret tt
  | Some chan =>
      let! c := load chan in
      if bool_decide (ch_state c = BT_L2CAP_CHAN_OPEN) && negb (ch_is_fixed c) then
        let! id := alloc_identifier in
        do! update chan (set_pending_identifier id) in
        do! update chan (set_state BT_L2CAP_CHAN_WAIT_DISCONNECT_RSP) in
        do! modify (log (EDisconnect chan)) in
        do! on_timers (fun ts => bt_timer_list_add ts chan (u64 (now_us + BT_L2CAP_RTX_TIMEOUT_US))) in
        let! e := encode_into (BT_L2CAP_SIG_HEADER_LEN + 4)
          (bt_l2cap_sig_encode_disconnection_request id (ch_remote_cid c) (ch_local_cid c)) in
        do! try (signal e.2) in
        ret tt
      else finish_close chan BT_L2CAP_CLOSE_LOCAL
  end.

Definition bt_l2cap_channel_manager_send (local_cid : Z) (data : list Z) (len : Z) : M W unit :=
  if len >? BT_L2CAP_MAX_SEND_LEN then fail BT_ERR_INVALID_ARGUMENT else
  let! o := find_channel_by_local_cid local_cid in
  match o with
  | None => fail BT_ERR_INVALID_ARGUMENT
  | Some chan =>
      let! c := load chan in
      if decide (ch_state c <> BT_L2CAP_CHAN_OPEN) then fail BT_ERR_INVALID_ARGUMENT else
      let! e := encode_into (BT_L2CAP_HEADER_LEN + BT_L2CAP_MAX_SEND_LEN)
        (do! bt_l2cap_encode_header (u16 len) (ch_remote_cid c) in
         bt_buf_writer_write_bytes data len) in
      if decide (e.1 <> BT_OK) then fail e.1 else
      send_fragmented e.2 (zlen e.2)
  end.

(** A call on [&mgr->reassembler]. *)
Definition on_reassembler {A} (m : M bt_l2cap_reassembler A) : M W A := fun w =>
  match m (mg_reassembler (w_mgr w)) with
  | (o, ra) => (o, with_mgr (set_reassembler ra) w)
  end.

(** What [on_acl] does with a whole PDU. *)
Definition route_pdu (pdu : list Z) (pdu_len now_us : Z) : M W unit :=
  match header_and_peek bt_l2cap_parse_header l2_length (bt_buf_reader_init pdu pdu_len) with
  | (Ret (hdr, Some payload), _) =>
      let! signaling_cid := gets (fun w => mg_signaling_cid (w_mgr w)) in
      if l2_cid hdr =? signaling_cid then process_signaling_pdu payload (l2_length hdr) now_us else
      let! o := find_channel_by_local_cid (l2_cid hdr) in
      match o with
      | None => ret tt
      | Some chan =>
          let! c := load chan in
          if decide (ch_state c = BT_L2CAP_CHAN_OPEN) then
            fire_event chan
              {| ei_event := BT_L2CAP_CHANNEL_EVENT_DATA; ei_local_cid := ch_local_cid c;
                 ei_close_reason := BT_L2CAP_CLOSE_LOCAL; ei_data := Some payload;
                 ei_data_len := l2_length hdr; ei_now_us := now_us |}
          else ret tt
      end
  | (Fault, _) => lift Fault
  | _ => ret tt
  end.

Definition bt_l2cap_channel_manager_on_acl (pb_flag : Z) (data : list Z) (len now_us : Z) : M W unit :=
  let! rr := on_reassembler (bt_l2cap_reassembler_feed pb_flag data len) in
  match rr with
  | BT_L2CAP_REASSEMBLY_COMPLETE =>
      let! p := on_reassembler bt_l2cap_reassembler_take in
      route_pdu p.1 p.2 now_us
  | _ => ret tt
  end.

(** The [while] of the tick. *)
Fixpoint tick_loop (fuel : nat) (now_us : Z) : M W unit := fun w =>
  match fuel with
  | O => (Fault, w)
  | S fuel =>
      match bt_timer_list_pop_expired (mg_timers (w_mgr w)) now_us with
      | Ret (Some t, ts) =>
          (let! v := (fun w => (hld (tl_mem (mg_timers (w_mgr w))) t, w)) in
           match t_callback v with
           | Rtx_timeout_callback =>
               do! rtx_timeout_callback (t_user_data v) in
               tick_loop fuel now_us
           end) (with_mgr (set_timers ts) w)
      | Ret (None, ts) => (Ret tt, with_mgr (set_timers ts) w)
      | Fail e => (Fail e, w)
      | Fault => (Fault, w)
      end
  end.

(** One more than the number of timers. *)
Definition bt_l2cap_channel_manager_tick (now_us : Z) : M W unit :=
  tick_loop (S (Z.to_nat BT_L2CAP_CHANNEL_MANAGER_MAX_CHANNELS)) now_us.

(** A callback's run: its calls in order, each with its own events. *)
Fixpoint run_chprog (p : chprog CB UD C) : M W unit :=
  match p with
  | PDone => ret tt
  | PGet k => let! c := gets w_client in run_chprog (k c)
  | PPut c k => do! modify (with_client c) in run_chprog k
  | POpen psm local_mtu on_event user_data now_us k =>
      let! r := try (bt_l2cap_channel_manager_open psm local_mtu on_event user_data now_us) in
      run_chprog (k r)
  | POpenFixed cid on_event user_data k =>
      let! r := try (bt_l2cap_channel_manager_open_fixed cid on_event user_data) in
      run_chprog (k r)
  | PClose local_cid now_us k =>
      do! bt_l2cap_channel_manager_close local_cid now_us in
      run_chprog k
  | PSend local_cid data now_us k =>
      let! r := try (bt_l2cap_channel_manager_send local_cid data (zlen data)) in
      run_chprog (k r)
  end.

End Open.

(** Callbacks nested [depth] deep. *)
Fixpoint dispatch (depth : nat) (on_event : CB) (info : bt_l2cap_channel_event_info) (user_data : UD) : M W unit :=
  match depth with
  | O => lift Fault
  | S depth => run_chprog (dispatch depth) (client_event on_event info user_data)
  end.

(** ** [bt_l2cap_channel_manager_init] *)

Fixpoint init_channels (slots : list loc) (ts : tstate rtx_fn loc) (chs : gmap loc chan_t)
    : outcome (tstate rtx_fn loc * gmap loc chan_t) :=
  match slots with
  | [] => Ret (ts, chs)
  | i :: slots =>
      let? c := hld chs i in
      let? chs := hst chs i (set_pending_identifier 0 (set_state BT_L2CAP_CHAN_FREE c)) in
      let? ts := bt_timer_init ts i Rtx_timeout_callback i in
      init_channels slots ts chs
  end.

Definition bt_l2cap_channel_manager_init (m : mgr_t) (handle signaling_cid acl_frag_size : Z) : outcome mgr_t :=
  let? r := init_channels channel_slots (bt_timer_list_init (mg_timers m)) (mg_channels m) in
  Ret {| mg_timers := r.1; mg_handle := handle; mg_signaling_cid := signaling_cid;
         mg_acl_frag_size :=
           if (acl_frag_size >? BT_L2CAP_MAX_ACL_FRAGMENT) || (acl_frag_size =? 0)
           then BT_L2CAP_MAX_ACL_FRAGMENT else acl_frag_size;
         mg_reassembler := bt_l2cap_reassembler_init (mg_reassembler m);
         mg_channels := r.2; mg_next_local_cid := BT_L2CAP_CID_DYNAMIC_START;
         mg_next_identifier := 1 |}.

(** ** Specification *)

(** What a client sees of a channel. *)
Inductive phase : Set := Idle | Opening (cid : Z) | Opened (cid : Z) | Closing (cid : Z).

(** The protocol of one channel; [None]: an event out of turn, or about
    another CID. *)
Definition own_step (p : phase) (e : chev) : option phase :=
  match e, p with
  | EOpen _ cid, Idle => Some (Opening cid)
  | EOpenFixed _ cid, Idle => Some (Opening cid)
  | EDisconnect _, Opened cid => Some (Closing cid)
  | EFire _ info, _ =>
      match ei_event info, p with
      | BT_L2CAP_CHANNEL_EVENT_OPENED, Opening cid =>
          if decide (ei_local_cid info = cid) then Some (Opened cid) else None
      | BT_L2CAP_CHANNEL_EVENT_DATA, Opened cid =>
          if decide (ei_local_cid info = cid) then Some (Opened cid) else None
      | BT_L2CAP_CHANNEL_EVENT_CLOSED, (Opening cid | Opened cid | Closing cid) =>
          if decide (ei_local_cid info = cid) then Some Idle else None
      | _, _ => None
      end
  | _, _ => None
  end.

Definition about (e : chev) : option loc :=
  match e with
  | EAlloc _ => None
  | EOpen i _ => Some i
  | EOpenFixed i _ => Some i
  | EDisconnect i => Some i
  | EFire i _ => Some i
  end.

Definition phase_step (chan : loc) (p : option phase) (e : chev) : option phase :=
  if decide (about e = Some chan) then (match p with Some p => own_step p e | None => None end) else p.

Definition lifecycle (chan : loc) (tr : list chev) : option phase := foldl (phase_step chan) (Some Idle) tr.

Definition phase_of (c : chan_t) : phase :=
  match ch_state c with
  | BT_L2CAP_CHAN_FREE => Idle
  | BT_L2CAP_CHAN_WAIT_CONNECT_RSP | BT_L2CAP_CHAN_CONFIG => Opening (ch_local_cid c)
  | BT_L2CAP_CHAN_OPEN => Opened (ch_local_cid c)
  | BT_L2CAP_CHAN_WAIT_DISCONNECT_RSP => Closing (ch_local_cid c)
  end.

(** A channel is coherent with its timer: a request is outstanding exactly
    when the identifier is set and the timer runs; [OPEN] is both directions
    configured; fixed channels are never negotiated. *)
Definition chan_ok (c : chan_t) (pending : bool) : Prop :=
  match ch_state c with
  | BT_L2CAP_CHAN_FREE => pending = false
  | BT_L2CAP_CHAN_WAIT_CONNECT_RSP =>
      pending = true /\ ch_pending_identifier c <> 0 /\ ch_is_fixed c = false /\
      ch_outbound_config_done c = false /\ ch_inbound_config_done c = false
  | BT_L2CAP_CHAN_CONFIG =>
      pending = negb (ch_outbound_config_done c) /\
      (ch_pending_identifier c <> 0 <-> ch_outbound_config_done c = false) /\ ch_is_fixed c = false /\
      ch_outbound_config_done c && ch_inbound_config_done c = false
  | BT_L2CAP_CHAN_OPEN =>
      pending = false /\ ch_pending_identifier c = 0 /\
      ch_outbound_config_done c = true /\ ch_inbound_config_done c = true
  | BT_L2CAP_CHAN_WAIT_DISCONNECT_RSP =>
      pending = true /\ ch_pending_identifier c <> 0 /\ ch_is_fixed c = false /\
      ch_outbound_config_done c = true /\ ch_inbound_config_done c = true
  end.

Definition is_live (c : chan_t) : Prop := ch_state c <> BT_L2CAP_CHAN_FREE.

(** The CIDs allocated and the fixed CIDs registered so far. *)
Definition allocated (tr : list chev) : list Z :=
  omap (fun e => match e with EAlloc cid => Some cid | _ => None end) tr.
Definition fixed_cids (tr : list chev) : list Z :=
  omap (fun e => match e with EOpenFixed _ cid => Some cid | _ => None end) tr.

(** No wrap-around yet, and only CIDs below the dynamic range are fixed. *)
Definition cids_orderly (tr : list chev) : Prop :=
  zlen (allocated tr) <= 65472 /\ Forall (fun cid => cid < BT_L2CAP_CID_DYNAMIC_START) (fixed_cids tr).

Definition cid_limit (tr : list chev) : Z := BT_L2CAP_CID_DYNAMIC_START + zlen (allocated tr).

Definition cids_ok (chs : gmap loc chan_t) (tr : list chev) (next : Z) : Prop :=
  cids_orderly tr ->
  next = (if cid_limit tr =? 65536 then BT_L2CAP_CID_DYNAMIC_START else cid_limit tr) /\
  (forall i c, chs !! i = Some c -> is_live c -> ch_local_cid c < cid_limit tr) /\
  (forall i j ci cj, chs !! i = Some ci -> chs !! j = Some cj -> is_live ci -> is_live cj ->
     ch_local_cid ci = ch_local_cid cj -> i = j).

(** The timers are the channels', in the order of [l]. *)
Definition timers_rep (ts : tstate rtx_fn loc) (l : list (loc * Z)) : Prop :=
  timer_rep ts l /\ StronglySorted by_expiry l /\ dom (tl_mem ts) = list_to_set channel_slots /\
  (forall t v, tl_mem ts !! t = Some v -> t_user_data v = t).

(** A clock against which at most [n] timers are due. *)
Abbreviation bound := (option (Z * nat)).

Definition due (now : Z) (l : list (loc * Z)) : list (loc * Z) := filter (fun x => x.2 <= now) l.

Definition due_ok (b : bound) (l : list (loc * Z)) : Prop :=
  match b with None => True | Some (now, n) => (length (due now l) <= n)%nat end.

(** Timers started at [t] are due later. *)
Definition clock_ok (b : bound) (t : Z) : Prop :=
  match b with None => True | Some (now, _) => now < u64 (t + BT_L2CAP_RTX_TIMEOUT_US) end.

Definition config_ok (m : mgr_t) : Prop :=
  0 <= mg_handle m < 2 ^ 12 /\ 0 < mg_acl_frag_size m <= BT_L2CAP_MAX_ACL_FRAGMENT /\
  0 <= mg_signaling_cid m < 2 ^ 16 /\ 0 < mg_next_identifier m < 2 ^ 8.

(** The invariant; [ex] is a channel in the middle of an update. *)
Record good (b : bound) (ex : option loc) (w : W) (l : list (loc * Z)) (acc : list Z) : Prop := {
  g_timers : timers_rep (mg_timers (w_mgr w)) l;
  g_due : due_ok b l;
  g_ra : ra_rep (mg_reassembler (w_mgr w)) acc;
  g_dom : dom (mg_channels (w_mgr w)) = list_to_set channel_slots;
  g_chan : forall i c, mg_channels (w_mgr w) !! i = Some c -> ex <> Some i ->
    chan_ok c (bool_decide (i ∈ l.*1)) /\ lifecycle i (w_trace w) = Some (phase_of c);
  g_config : config_ok (w_mgr w);
  g_cids : cids_ok (mg_channels (w_mgr w)) (w_trace w) (mg_next_local_cid (w_mgr w));
}.

Definition world_ok (b : bound) (w : W) : Prop := exists l acc, good b None w l acc.

(** Channel [i] in the middle of an update: its value, whether its timer
    runs, and its phase. *)
Definition focus (b : bound) (i : loc) (w : W) (c : chan_t) (pending : bool) (p : option phase) : Prop :=
  exists l acc, good b (Some i) w l acc /\ mg_channels (w_mgr w) !! i = Some c /\
    bool_decide (i ∈ l.*1) = pending /\ lifecycle i (w_trace w) = p.

#[local] Arguments lifecycle : simpl never.
#[local] Arguments cid_limit : simpl never.

(** Returns, and keeps the invariant. *)
Definition finishes {A} (b : bound) (r : outcome A * W) : Prop := (exists a, r.1 = Ret a) /\ world_ok b r.2.

Definition keeps {A} (b : bound) (m : M W A) : Prop := forall w, world_ok b w -> finishes b (m w).

(** ** Lemmas *)

Lemma slots_dom {V} (h : gmap loc V) i : dom h = list_to_set channel_slots ->
  i ∈ channel_slots <-> is_Some (h !! i).
Proof. intros Hd. by rewrite <- elem_of_dom, Hd, elem_of_list_to_set. Qed.

Lemma find_channel_run test chs slots : (forall i, i ∈ slots -> is_Some (chs !! i)) ->
  exists o, find_channel test chs slots = Ret o /\
    match o with
    | Some i => i ∈ slots /\ exists c, chs !! i = Some c /\ test c = true
    | None => forall i c, i ∈ slots -> chs !! i = Some c -> test c = false
    end.
Proof.
  induction slots as [|i slots IH]; intros Hd; [exists None; split; [done|set_solver]|]. cbn [find_channel].
  destruct (Hd i ltac:(left)) as [c Hc]. rewrite (hld_spec _ _ _ Hc). cbn [obind].
  destruct (test c) eqn:Ht.
  - eexists. split; [done|]. split; [left|]. eauto.
  - destruct IH as (o & -> & Ho); [intros; apply Hd; by right|]. exists o. split; [done|].
    destruct o as [j|]; [destruct Ho; split; [by right|done]|].
    intros j c' Hj. apply elem_of_cons in Hj as [->|Hj]; [|by apply Ho]. rewrite Hc. by intros [= <-].
Qed.

(** *** Sending *)

Fixpoint send_all (ps : list (list Z)) : M W unit := fun w =>
  match ps with
  | [] => (Ret tt, w)
  | p :: ps =>
      let '(rc, t) := send_acl (w_transport w) p in
      if negb (rc =? 0) then (Fail BT_ERR_INVALID_ARGUMENT, with_transport t w)
      else send_all ps (with_transport t w)
  end.

Definition acl_cap : nat := 516.

Lemma send_loop_all fuel : forall fr ps (w : W), fragment_all fuel acl_cap fr = Ret ps ->
  send_loop fuel fr w = send_all ps w.
Proof.
  induction fuel as [|fuel IH]; intros fr ps w Hf; [done|]. cbn [send_loop fragment_all] in *.
  change (BT_HCI_ACL_HEADER_LEN + BT_L2CAP_MAX_ACL_FRAGMENT) with 516. change (Z.to_nat 516) with acl_cap.
  change (Z.of_nat acl_cap) with 516 in Hf.
  destruct (bt_l2cap_fragmenter_next _) as [[[]|e|] [fr' aw]]; [| |done].
  - destruct (fragment_all fuel acl_cap fr') as [rest| |] eqn:Hr; [|done..]. injection Hf as <-. cbn [send_all].
    destruct (send_acl (w_transport w) (wout aw)) as [rc t]. destruct (negb (rc =? 0)); [done|]. by apply IH.
  - destruct e; try done. by injection Hf as <-.
Qed.

Lemma send_all_frame ps : forall w : W, exists o t, send_all ps w = (o, with_transport t w) /\ o <> Fault.
Proof.
  induction ps as [|p ps IH]; intros w; cbn [send_all].
  - exists (Ret tt), (w_transport w). by destruct w.
  - destruct (send_acl (w_transport w) p) as [rc t]. destruct (negb (rc =? 0)); [by eexists _, _|].
    destruct (IH (with_transport t w)) as (o & t' & -> & Ho). by exists o, t'.
Qed.

Lemma pdu_fragments m pdu : config_ok m -> pdu_ok pdu -> exists ps,
  fragment_all (S (length pdu)) acl_cap
    (bt_l2cap_fragmenter_init (mg_handle m) (mg_acl_frag_size m) pdu (zlen pdu)) = Ret ps /\
  forall ra acc, ra_rep ra acc -> exists k ra',
    receive_all ps ra = Ret (replicate k BT_L2CAP_REASSEMBLY_MORE ++ [BT_L2CAP_REASSEMBLY_COMPLETE], ra') /\
    ra_rep ra' pdu.
Proof.
  intros (Hh & Hf & _) Hpdu. unfold BT_L2CAP_MAX_ACL_FRAGMENT in Hf.
  assert (forall ra acc, ra_rep ra acc -> exists ps k ra',
    fragment_all (S (length pdu)) acl_cap (frag (mg_handle m) (mg_acl_frag_size m) pdu 0) = Ret ps /\
    receive_all ps ra = Ret (replicate k BT_L2CAP_REASSEMBLY_MORE ++ [BT_L2CAP_REASSEMBLY_COMPLETE], ra') /\
    length ps = S k /\ ra_rep ra' pdu) as Hr.
  { intros ra acc Hra. destruct Hpdu as (? & ? & ?). unfold BT_L2CAP_HEADER_LEN in *.
    eapply (fragments_receive (mg_handle m) (mg_acl_frag_size m) pdu acl_cap); try done; try lia.
    unfold acl_cap. lia. }
  destruct (Hr _ _ idle_rep) as (ps & k & ra' & Hps & _). exists ps. split; [done|].
  intros ra acc Hra. destruct (Hr _ _ Hra) as (ps' & k' & ra2 & Hps' & Hrec & _ & Hrep).
  rewrite Hps in Hps'. injection Hps' as <-. by exists k', ra2.
Qed.

(** The PDU that carries [payload] to [cid]. *)
Definition pdu_of (cid : Z) (payload : list Z) : list Z :=
  (le_enc 2 (u16 (zlen payload)) ++ le_enc 2 cid) ++ payload.

Lemma pdu_of_ok cid payload : bytes payload -> zlen payload <= 1020 -> pdu_ok (pdu_of cid payload).
Proof.
  intros Hb Hl. unfold pdu_of, pdu_ok, BT_L2CAP_HEADER_LEN, BT_L2CAP_REASSEMBLY_MAX. split; [bys|].
  rewrite !length_app, !le_enc_length. split; [lia|]. rewrite <- app_assoc, take_app_length' by (by rewrite le_enc_length).
  rewrite le_dec_enc. unfold u16. change (8 * Z.of_nat 2) with 16. rewrite Z.mod_mod by lia.
  rewrite Z.mod_small; lia.
Qed.

Lemma pdu_writes cid payload : writes
  (do! bt_l2cap_encode_header (u16 (zlen payload)) cid in bt_buf_writer_write_bytes payload (zlen payload))
  (pdu_of cid payload).
Proof. eapply writes_bind; [apply encode_header_writes|apply writes_bytes]. Qed.

Lemma send_fragmented_run (w : W) pdu : config_ok (w_mgr w) -> pdu_ok pdu -> exists ps,
  send_fragmented pdu (zlen pdu) w = send_all ps w /\
  forall ra acc, ra_rep ra acc -> exists k ra',
    receive_all ps ra = Ret (replicate k BT_L2CAP_REASSEMBLY_MORE ++ [BT_L2CAP_REASSEMBLY_COMPLETE], ra') /\
    ra_rep ra' pdu.
Proof.
  intros Hc Hp. destruct (pdu_fragments _ _ Hc Hp) as (ps & Hps & Hrec). exists ps. split; [|done].
  unfold send_fragmented. rewrite !bind_gets. rewrite Nat2Z.id. by apply send_loop_all.
Qed.

Lemma signal_run (w : W) command : config_ok (w_mgr w) -> bytes command -> zlen command <= 64 ->
  exists o t, signal command w = (o, with_transport t w) /\ o <> Fault.
Proof.
  intros Hc Hb Hl. unfold signal, send_l2cap_pdu. rewrite bind_gets.
  rewrite Z.gtb_ltb, (proj2 (Z.ltb_ge _ _)) by lia.
  erewrite bind_eq; [|apply encode_run; [apply pdu_writes|]; unfold pdu_of, BT_L2CAP_HEADER_LEN; rewrite !length_app, !le_enc_length; lia].
  cbn [fst snd]. rewrite decide_False by naive_solver.
  destruct (send_fragmented_run w (pdu_of (mg_signaling_cid (w_mgr w)) command)) as (ps & -> & _);
    [done|apply pdu_of_ok; [done|lia]|]. apply send_all_frame.
Qed.

(** *** Timers *)

Lemma attrs_user_data (ts ts' : tstate rtx_fn loc) i x v t v' :
  attrs ts' = <[i := attr4 v x.1 x.2]> (attrs ts) -> tl_mem ts !! i = Some v -> tl_mem ts' !! t = Some v' ->
  exists u, tl_mem ts !! t = Some u /\ t_user_data v' = t_user_data u.
Proof.
  intros Ha Hv Hv'. apply (f_equal (lookup t)) in Ha. rewrite attrs_lookup, Hv' in Ha.
  destruct (decide (t = i)) as [->|Hne].
  - rewrite lookup_insert_eq in Ha. exists v. split; [done|]. by injection Ha.
  - rewrite lookup_insert_ne, attrs_lookup in Ha by done. destruct (tl_mem ts !! t) as [u|]; [|done].
    exists u. split; [done|]. by injection Ha.
Qed.

Lemma timers_rep_attrs ts ts' l l' i v x : timers_rep ts l -> tl_mem ts !! i = Some v ->
  timer_rep ts' l' -> StronglySorted by_expiry l' -> attrs ts' = <[i := attr4 v x.1 x.2]> (attrs ts) ->
  timers_rep ts' l'.
Proof.
  intros (_ & _ & Hd & Hu) Hv Hr Hs Ha. split; [done|]. split; [done|].
  split; [by rewrite (attrs_dom _ _ _ _ _ Ha Hv)|]. intros t v' Hv'.
  destruct (attrs_user_data _ _ _ _ _ _ _ Ha Hv Hv') as (u & Hut & ->). by apply Hu.
Qed.

Lemma timers_slot ts l i : timers_rep ts l -> i ∈ channel_slots -> exists v, tl_mem ts !! i = Some v.
Proof. intros (_ & _ & Hd & _) Hi. by apply (slots_dom _ _ Hd). Qed.

Lemma timers_add ts l i e : timers_rep ts l -> i ∈ channel_slots ->
  exists ts', bt_timer_list_add ts i e = Ret ts' /\ timers_rep ts' (sp_add i e l).
Proof.
  intros Hr Hi. destruct (timers_slot _ _ _ Hr Hi) as [v Hv]. pose proof Hr as (Hr1 & Hs & _).
  destruct (add_spec ts l i e v Hr1 Hv) as (ts' & -> & Hr' & Ha). exists ts'. split; [done|].
  eapply (timers_rep_attrs _ _ _ _ _ _ (e, true)); try done. by apply sp_add_sorted.
Qed.

Lemma timers_cancel ts l i : timers_rep ts l -> i ∈ channel_slots ->
  exists ts', bt_timer_list_cancel ts i = Ret ts' /\ timers_rep ts' (sp_cancel i l).
Proof.
  intros Hr Hi. destruct (timers_slot _ _ _ Hr Hi) as [v Hv]. pose proof Hr as (Hr1 & Hs & _).
  destruct (cancel_spec ts l i v Hr1 Hv) as (ts' & -> & Hr' & Ha). exists ts'. split; [done|].
  eapply (timers_rep_attrs _ _ _ _ _ _ (_, false)); try done. by apply sp_cancel_sorted.
Qed.

Lemma timers_pop ts l now : timers_rep ts l ->
  exists ts', bt_timer_list_pop_expired ts now = Ret ((sp_pop now l).1, ts') /\
    timers_rep ts' (sp_pop now l).2.
Proof.
  intros (Hr & Hs & Hd & Hu). destruct (timer_pop_spec ts l now Hr) as (ts' & E & Hr' & Hd').
  exists ts'. split; [done|]. split; [done|]. split.
  - unfold sp_pop. destruct l as [|x l]; [done|]. destruct (x.2 <=? now); [|done]. by inv Hs.
  - split; [by rewrite Hd'|]. intros t v' Hv'. destruct (pop_callbacks _ _ _ _ _ _ E Hv') as (v & Hv & _ & ->).
    by apply Hu.
Qed.

Lemma sp_cancel_fst i l x : x ∈ (sp_cancel i l).*1 <-> x <> i /\ x ∈ l.*1.
Proof.
  unfold sp_cancel. rewrite !list_elem_of_fmap. setoid_rewrite list_elem_of_filter. naive_solver.
Qed.

Lemma sp_add_fst i e l x : x ∈ (sp_add i e l).*1 <-> x = i \/ x ∈ l.*1.
Proof. unfold sp_add. rewrite sp_insert_fst, sp_cancel_fst. destruct (decide (x = i)); naive_solver. Qed.

Lemma due_cancel b i l : due_ok b l -> due_ok b (sp_cancel i l).
Proof.
  destruct b as [[now n]|]; [|done]. unfold due_ok, due, sp_cancel. intros Hl. etrans; [|exact Hl].
  rewrite list_filter_filter. rewrite (list_filter_iff _ (fun x => x.1 <> i /\ x.2 <= now)) by naive_solver.
  rewrite <- list_filter_filter. apply length_filter.
Qed.

Lemma due_add b i t l : clock_ok b t -> due_ok b l -> due_ok b (sp_add i (u64 (t + BT_L2CAP_RTX_TIMEOUT_US)) l).
Proof.
  intros Ht Hl. apply (due_cancel b i) in Hl. unfold sp_add. destruct b as [[now n]|]; [|done].
  unfold due_ok, clock_ok, due in *. revert Hl. generalize (sp_cancel i l). intros l' Hl.
  destruct (sp_insert_split i (u64 (t + BT_L2CAP_RTX_TIMEOUT_US)) l') as (b1 & b2 & -> & ->).
  rewrite filter_app, filter_cons, decide_False by (simpl; lia). by rewrite <- filter_app.
Qed.

(** *** The focused channel *)

Definition upd (i : loc) (c : chan_t) (w : W) : W :=
  with_mgr (fun m => set_channels (<[i := c]> (mg_channels m)) m) w.

Lemma phase_step_other i p e : about e <> Some i -> phase_step i p e = p.
Proof. intros He. unfold phase_step. by rewrite decide_False. Qed.

Lemma lifecycle_log i tr e : lifecycle i (tr ++ [e]) = phase_step i (lifecycle i tr) e.
Proof. unfold lifecycle. by rewrite foldl_app. Qed.

Lemma orderly_app tr evs : cids_orderly (tr ++ evs) -> cids_orderly tr.
Proof.
  unfold cids_orderly, allocated, fixed_cids. rewrite !omap_app, length_app, Forall_app. intros [? [? _]].
  split; [lia|done].
Qed.

Lemma focus_slot b i w c pe p : focus b i w c pe p -> i ∈ channel_slots.
Proof. intros (l & acc & Hg & Hc & _). apply (slots_dom _ _ (g_dom _ _ _ _ _ Hg)). eauto. Qed.

Lemma refocus b w i : world_ok b w -> i ∈ channel_slots ->
  exists c pe, focus b i w c pe (Some (phase_of c)) /\ chan_ok c pe.
Proof.
  intros (l & acc & Hg) Hi. destruct (proj1 (slots_dom _ _ (g_dom _ _ _ _ _ Hg)) Hi) as [c Hc].
  destruct (g_chan _ _ _ _ _ Hg i c Hc) as [Hok Hlife]; [done|].
  exists c, (bool_decide (i ∈ l.*1)). split; [|done]. exists l, acc. split; [|done].
  destruct Hg. split; try done. intros j d Hj _. eauto.
Qed.

Lemma unfocus b i w c pe : focus b i w c pe (Some (phase_of c)) -> chan_ok c pe -> world_ok b w.
Proof.
  intros (l & acc & Hg & Hc & Hpe & Hp) Hok. exists l, acc. destruct Hg. split; try done.
  intros j d Hj _. destruct (decide (j = i)) as [->|Hne]; [|apply g_chan0; congruence].
  rewrite Hc in Hj. injection Hj as <-. by rewrite Hpe.
Qed.

Lemma focus_load b i w c pe p : focus b i w c pe p -> load i w = (Ret c, w).
Proof. intros (l & acc & _ & Hc & _). unfold load. by rewrite (hld_spec _ _ _ Hc). Qed.

Lemma focus_find b i w c pe p test : focus b i w c pe p ->
  find_channel test (mg_channels (w_mgr w)) channel_slots = Ret (Some i) -> test c = true.
Proof.
  intros (l & acc & Hg & Hc & _) Hf.
  destruct (find_channel_run test (mg_channels (w_mgr w)) channel_slots) as (o & Ho & Hspec).
  { intros j. by apply (slots_dom _ _ (g_dom _ _ _ _ _ Hg)). }
  rewrite Hf in Ho. injection Ho as <-. destruct Hspec as (_ & c' & Hc' & Ht). congruence.
Qed.

(** The CID can be that of a live channel [i]. *)
Definition cid_fresh (w : W) (i : loc) (cid : Z) : Prop := cids_orderly (w_trace w) ->
  cid < cid_limit (w_trace w) /\
  forall j c, j <> i -> mg_channels (w_mgr w) !! j = Some c -> is_live c -> ch_local_cid c <> cid.

Lemma focus_fresh b i w c pe p : focus b i w c pe p -> is_live c -> cid_fresh w i (ch_local_cid c).
Proof.
  intros (l & acc & Hg & Hc & _) Hl Ho. destruct (g_cids _ _ _ _ _ Hg Ho) as (_ & Hlim & Huniq).
  split; [by eapply Hlim|]. intros j d Hne Hj Hd Heq. apply Hne. by eapply Huniq.
Qed.

Lemma focus_update b i w c pe p f : focus b i w c pe p ->
  (is_live (f c) -> cid_fresh w i (ch_local_cid (f c))) ->
  update i f w = (Ret tt, upd i (f c) w) /\ focus b i (upd i (f c) w) (f c) pe p.
Proof.
  intros Hf Hfresh. pose proof (focus_load _ _ _ _ _ _ Hf) as El.
  destruct Hf as (l & acc & [Ht Hdue Hra Hd Hch Hcfg Hcid] & Hc & Hpe & Hp). split.
  - unfold update. rewrite (bind_eq _ _ _ _ _ El).
    erewrite bind_eq; [|by rewrite (hst_spec _ _ _ _ Hc)]. done.
  - exists l, acc. split; [|cbn; by rewrite lookup_insert_eq]. split; cbn; try done.
    + rewrite dom_insert_lookup_L; eauto.
    + intros j d. rewrite lookup_insert_Some. intros [[-> _]|[? Hj]]; [done|]. by apply Hch.
    + intros Ho. destruct (Hcid Ho) as (Hn & Hlim & Huniq). split; [done|]. split.
      * intros j d. rewrite lookup_insert_Some. intros [[_ <-]|[_ Hj]]; [|by eapply Hlim].
        intros Hl. by apply (Hfresh Hl).
      * intros j k dj dk. rewrite !lookup_insert_Some.
        intros [[<- <-]|[Hnj Hj]] [[<- <-]|[Hnk Hk]] Hlj Hlk Heq; [done| | |by eapply Huniq].
        -- destruct (Hfresh Hlj Ho) as [_ H']. by destruct (H' k dk ltac:(done) Hk Hlk).
        -- destruct (Hfresh Hlk Ho) as [_ H']. by destruct (H' j dj ltac:(done) Hj Hlj).
Qed.

(** An update of a live channel that keeps its CID. *)
Lemma focus_set b i w c pe p f : focus b i w c pe p -> is_live c -> ch_local_cid (f c) = ch_local_cid c ->
  update i f w = (Ret tt, upd i (f c) w) /\ focus b i (upd i (f c) w) (f c) pe p.
Proof.
  intros Hf Hl Hcid. apply focus_update; [done|]. intros _. rewrite Hcid. by eapply focus_fresh.
Qed.

Lemma focus_log b i w c pe p e : focus b i w c pe p -> about e = Some i ->
  focus b i (log e w) c pe (phase_step i p e).
Proof.
  intros (l & acc & [Ht Hdue Hra Hd Hch Hcfg Hcid] & Hc & Hpe & Hp) He. exists l, acc.
  split; [|cbn; by rewrite lifecycle_log, Hp]. split; cbn; try done.
  - intros j d Hj Hne. rewrite lifecycle_log, phase_step_other by (rewrite He; congruence). by apply Hch.
  - intros Ho. assert (cid_limit (w_trace w ++ [e]) = cid_limit (w_trace w)) as ->.
    { unfold cid_limit, allocated. rewrite omap_app, length_app. destruct e; try done; simpl; lia. }
    by apply Hcid, (orderly_app _ [e]).
Qed.

Lemma focus_transport b i w c pe p t : focus b i w c pe p -> focus b i (with_transport t w) c pe p.
Proof. intros (l & acc & [] & Hc & Hpe & Hp). exists l, acc. split; [by split|done]. Qed.

Lemma focus_config b i w c pe p : focus b i w c pe p -> config_ok (w_mgr w).
Proof. intros (l & acc & Hg & _). apply Hg. Qed.

Lemma focus_signal b i w c pe p command : focus b i w c pe p -> bytes command -> zlen command <= 64 ->
  exists o t, signal command w = (o, with_transport t w) /\ o <> Fault /\ focus b i (with_transport t w) c pe p.
Proof.
  intros Hf Hb Hl. destruct (signal_run w command (focus_config _ _ _ _ _ _ Hf) Hb Hl) as (o & t & -> & Ho).
  exists o, t. split; [done|]. split; [done|]. by apply focus_transport.
Qed.

Lemma focus_add b i w c pe p t : focus b i w c pe p -> clock_ok b t ->
  exists ts, on_timers (fun ts => bt_timer_list_add ts i (u64 (t + BT_L2CAP_RTX_TIMEOUT_US))) w =
    (Ret tt, with_mgr (set_timers ts) w) /\ focus b i (with_mgr (set_timers ts) w) c true p.
Proof.
  intros Hf Hck. pose proof (focus_slot _ _ _ _ _ _ Hf) as Hi.
  destruct Hf as (l & acc & [Ht Hdue Hra Hd Hch Hcfg Hcid] & Hc & Hpe & Hp).
  destruct (timers_add _ _ i (u64 (t + BT_L2CAP_RTX_TIMEOUT_US)) Ht Hi) as (ts & E & Ht').
  exists ts. unfold on_timers. rewrite E. split; [done|]. eexists _, acc. split; [|split; [done|]].
  - split; cbn; try done; [by apply due_add|]. intros j d Hj Hne. destruct (Hch j d Hj Hne) as [Hok ?].
    split; [|done]. erewrite bool_decide_ext; [exact Hok|]. rewrite sp_add_fst. split; [|tauto].
    intros [->|?]; [congruence|done].
  - split; [|done]. apply bool_decide_eq_true_2. rewrite sp_add_fst. by left.
Qed.

Lemma focus_cancel b i w c pe p : focus b i w c pe p ->
  exists ts, on_timers (fun ts => bt_timer_list_cancel ts i) w =
    (Ret tt, with_mgr (set_timers ts) w) /\ focus b i (with_mgr (set_timers ts) w) c false p.
Proof.
  intros Hf. pose proof (focus_slot _ _ _ _ _ _ Hf) as Hi.
  destruct Hf as (l & acc & [Ht Hdue Hra Hd Hch Hcfg Hcid] & Hc & Hpe & Hp).
  destruct (timers_cancel _ _ i Ht Hi) as (ts & E & Ht').
  exists ts. unfold on_timers. rewrite E. split; [done|]. eexists _, acc. split; [|split; [done|]].
  - split; cbn; try done; [by apply due_cancel|]. intros j d Hj Hne. destruct (Hch j d Hj Hne) as [Hok ?].
    split; [|done]. erewrite bool_decide_ext; [exact Hok|]. rewrite sp_cancel_fst. split; [tauto|].
    intros ?. split; [congruence|done].
  - split; [|done]. apply bool_decide_eq_false_2. rewrite sp_cancel_fst. tauto.
Qed.

(** Whether the timer runs, as [finish_close] reads it. *)
Lemma focus_pending b i w c pe p : focus b i w c pe p ->
  exists v, hld (tl_mem (mg_timers (w_mgr w))) i = Ret v /\ t_pending v = pe.
Proof.
  intros Hf. pose proof (focus_slot _ _ _ _ _ _ Hf) as Hi.
  destruct Hf as (l & acc & [Ht _ _ _ _ _ _] & Hc & Hpe & Hp).
  destruct (timers_slot _ _ _ Ht Hi) as [v Hv]. exists v. rewrite (hld_spec _ _ _ Hv). split; [done|].
  rewrite <- Hpe. by apply Ht.
Qed.

(** The identifier after [id]: 0 is never used. *)
Definition next_id (id : Z) : Z := if u8 (id + 1) =? 0 then 1 else u8 (id + 1).

Lemma focus_alloc_identifier b i w c pe p : focus b i w c pe p ->
  let id := mg_next_identifier (w_mgr w) in 0 < id < 2 ^ 8 /\
  alloc_identifier w = (Ret id, with_mgr (set_next_identifier (next_id id)) w) /\
  focus b i (with_mgr (set_next_identifier (next_id id)) w) c pe p.
Proof.
  intros (l & acc & [Ht Hdue Hra Hd Hch Hcfg Hcid] & Hc & Hpe & Hp).
  destruct Hcfg as (H1 & H2 & H3 & H4). set (id := mg_next_identifier (w_mgr w)) in *.
  split; [done|]. split.
  - unfold alloc_identifier, next_id, bind, gets, modify, with_mgr. cbn. fold id. by destruct (u8 (id + 1) =? 0).
  - exists l, acc. split; [|done]. split; cbn; try done. split; [done|]. split; [done|]. split; [done|].
    cbn. pose proof (u8_byte (id + 1)) as Hu. unfold is_byte, next_id in *. destruct (Z.eqb_spec (u8 (id + 1)) 0); lia.
Qed.

Lemma focus_alloc_local_cid b i w c pe p : focus b i w c pe p -> ~ is_live c ->
  exists cid w', alloc_local_cid w = (Ret cid, w') /\ focus b i w' c pe p /\ cid_fresh w' i cid.
Proof.
  intros (l & acc & [Ht Hdue Hra Hd Hch Hcfg Hcid] & Hc & Hpe & Hp) Hl.
  set (cid := mg_next_local_cid (w_mgr w)) in *.
  eexists cid, (log (EAlloc cid) (with_mgr (set_next_local_cid
    (if u16 (cid + 1) <? BT_L2CAP_CID_DYNAMIC_START then BT_L2CAP_CID_DYNAMIC_START else u16 (cid + 1))) w)).
  split.
  { unfold alloc_local_cid, bind, gets, modify, with_mgr, ret. cbn. fold cid. by destruct (u16 (cid + 1) <? _). }
  assert (cid_limit (w_trace w ++ [EAlloc cid]) = cid_limit (w_trace w) + 1) as Hlim.
  { unfold cid_limit, allocated. rewrite omap_app, length_app. simpl. lia. }
  assert (cids_orderly (w_trace w ++ [EAlloc cid]) -> cids_orderly (w_trace w) /\ cid = cid_limit (w_trace w) /\
    64 <= cid < 65536) as Hnext.
  { intros Ho. pose proof (orderly_app _ _ Ho) as Ho'. split; [done|]. destruct (Hcid Ho') as (Hn & _).
    destruct Ho as [Ho _]. unfold allocated in Ho. rewrite omap_app, length_app in Ho. simpl in Ho.
    unfold cid_limit, allocated, BT_L2CAP_CID_DYNAMIC_START in *.
    destruct (Z.eqb_spec (64 + zlen (omap (fun e => match e with EAlloc cid => Some cid | _ => None end) (w_trace w))) 65536); lia. }
  split.
  - exists l, acc. split; [|split; [done|]; split; [done|]; cbn; by rewrite lifecycle_log, phase_step_other].
    split; cbn; try done.
    + intros j d Hj Hne. rewrite lifecycle_log, phase_step_other by done. by apply Hch.
    + intros Ho. destruct (Hnext Ho) as (Ho' & Hn & Hr). destruct (Hcid Ho') as (_ & Hb & Hu).
      rewrite Hlim, <- Hn. split; [|split; [|done]].
      * unfold BT_L2CAP_CID_DYNAMIC_START. destruct (Z.eqb_spec (cid + 1) 65536) as [E|E]; [by rewrite E|].
        rewrite u16_small by lia. by rewrite (proj2 (Z.ltb_ge _ _)) by lia.
      * intros j d Hj Hlj. specialize (Hb j d Hj Hlj). lia.
  - intros Ho. cbn in Ho. destruct (Hnext Ho) as (Ho' & Hn & Hr). destruct (Hcid Ho') as (_ & Hb & Hu). cbn.
    rewrite Hlim. split; [lia|]. intros j d _ Hj Hlj. specialize (Hb j d Hj Hlj). lia.
Qed.

(** *** Operations keep the invariant *)

Lemma mtu_len_max mtu : zlen (mtu_bytes mtu) <= 4.
Proof. rewrite mtu_len. destruct (negb _); lia. Qed.

(** The length of a command, against its buffer. *)
Ltac cmd_len :=
  rewrite ?length_app, ?le_enc_length; unfold BT_L2CAP_SIG_HEADER_LEN;
  change (length (mtu_bytes 0)) with 0%nat; cbn [length set_pending_identifier ch_local_mtu]; lia.

Lemma finishes_ret {A} b (a : A) w : world_ok b w -> finishes b (ret a w).
Proof. split; [by eexists|done]. Qed.

Lemma keeps_bind {A B} b (m : M W A) (k : A -> M W B) : keeps b m -> (forall a, keeps b (k a)) -> keeps b (bind m k).
Proof.
  intros Hm Hk w Hw. destruct (Hm w Hw) as [[a Ha] Hw']. unfold bind. destruct (m w) as [o w']. cbn in *. subst o.
  by apply Hk.
Qed.

Lemma find_world b w test : world_ok b w ->
  exists o, find_channel test (mg_channels (w_mgr w)) channel_slots = Ret o /\
    match o with
    | Some i => exists c pe, focus b i w c pe (Some (phase_of c)) /\ chan_ok c pe /\ test c = true
    | None => forall i c, mg_channels (w_mgr w) !! i = Some c -> test c = false
    end.
Proof.
  intros Hw. pose proof Hw as (l & acc & Hg). pose proof (g_dom _ _ _ _ _ Hg) as Hd.
  destruct (find_channel_run test (mg_channels (w_mgr w)) channel_slots) as (o & Ho & Hspec).
  { intros j. by apply (slots_dom _ _ Hd). }
  exists o. split; [done|]. destruct o as [i|].
  - destruct Hspec as (Hi & _). destruct (refocus b w i Hw Hi) as (c & pe & Hf & Hok).
    exists c, pe. split; [done|]. split; [done|]. by eapply focus_find.
  - intros i c Hc. eapply Hspec; [|done]. apply (slots_dom _ _ Hd). eauto.
Qed.

Lemma live_test c (t : bool) : negb (bool_decide (ch_state c = BT_L2CAP_CHAN_FREE)) && t = true -> is_live c /\ t = true.
Proof. rewrite andb_true_iff, negb_true_iff, bool_decide_eq_false. done. Qed.

Lemma sig_header_safe : rspec bt_l2cap_sig_parse_header (fun h => 0 <= sg_length h).
Proof. unfold bt_l2cap_sig_parse_header. repeat safe_step. apply rspec_ret. cbn. lia. Qed.

Lemma header_safe : rspec bt_l2cap_parse_header (fun h => 0 <= l2_length h).
Proof. unfold bt_l2cap_parse_header. repeat safe_step. apply rspec_ret. cbn. lia. Qed.

Lemma header_and_peek_safe {A} (m : M bt_buf_reader A) length (Q : A -> Prop) data len :
  rspec m Q -> (forall h, Q h -> 0 <= length h) -> 0 <= len <= zlen data -> bytes data ->
  match header_and_peek m length (bt_buf_reader_init data len) with
  | (Ret (h, Some p), _) => Q h /\ zlen p = length h /\ bytes p
  | (Fault, _) => False
  | _ => True
  end.
Proof.
  intros Hm Hlen Hl Hb.
  assert (rspec (header_and_peek m length) (fun x => Q x.1 /\ forall p, x.2 = Some p -> zlen p = length x.1 /\ bytes p)) as Hs.
  { eapply rspec_bind; [exact Hm|]. intros h Hh. eapply rspec_bind; [apply rspec_peek; auto|].
    intros p Hp. by apply rspec_ret. }
  specialize (Hs _ (reader_init_ok data len Hl Hb)).
  destruct (header_and_peek _ _ _) as [[[h [p|]]|e|] r]; destruct Hs as (Hf & _ & _ & _ & _ & Hv); try done.
  destruct (Hv _ eq_refl) as [Hh Hp]. split; [done|]. by apply Hp.
Qed.

Section Keeps.
  Variable run : CB -> bt_l2cap_channel_event_info -> UD -> M W unit.
  Variable b : bound.

(** The callbacks of these events keep the invariant. *)
Definition runs_ok (e : bt_l2cap_channel_event) : Prop :=
  forall cb info ud, ei_event info = e -> keeps b (run cb info ud).

Lemma fire_ok i w c pe p info : focus b i w c pe (Some p) -> chan_ok c pe ->
  own_step p (EFire i info) = Some (phase_of c) -> runs_ok (ei_event info) ->
  finishes b (fire_event run i info w).
Proof.
  intros Hf Hok Hp Hrun. unfold fire_event. rewrite (bind_eq _ _ _ _ _ (focus_load _ _ _ _ _ _ Hf)).
  pose proof (focus_log _ _ _ _ _ _ (EFire i info) Hf eq_refl) as Hf'.
  unfold phase_step in Hf'. rewrite decide_True, Hp in Hf' by done.
  assert (world_ok b (log (EFire i info) w)) as Hw by by eapply unfocus.
  unfold bind, modify. destruct (ch_on_event c); [by apply Hrun|by apply finishes_ret].
Qed.

Lemma finish_close_ok i w c pe reason : focus b i w c pe (Some (phase_of c)) -> is_live c ->
  runs_ok BT_L2CAP_CHANNEL_EVENT_CLOSED -> finishes b (finish_close run i reason w).
Proof.
  intros Hf Hl Hrun. unfold finish_close. destruct (focus_pending _ _ _ _ _ _ Hf) as (v & Ev & Epe).
  erewrite bind_eq; [|by rewrite Ev].
  assert (exists w1, (if t_pending v then on_timers (fun ts => bt_timer_list_cancel ts i) else ret tt) w = (Ret tt, w1) /\
    focus b i w1 c false (Some (phase_of c))) as (w1 & E1 & F1).
  { rewrite Epe. destruct pe; [|by exists w]. destruct (focus_cancel _ _ _ _ _ _ Hf) as (ts & E & F). by eexists. }
  rewrite (bind_eq _ _ _ _ _ E1), (bind_eq _ _ _ _ _ (focus_load _ _ _ _ _ _ F1)). cbv zeta.
  destruct (focus_update _ _ _ _ _ _ (set_state BT_L2CAP_CHAN_FREE) F1) as [E2 F2]; [done|].
  rewrite (bind_eq _ _ _ _ _ E2).
  destruct (focus_update _ _ _ _ _ _ (set_pending_identifier 0) F2) as [E3 F3]; [done|].
  rewrite (bind_eq _ _ _ _ _ E3). eapply fire_ok; [exact F3|done| |done].
  cbn. unfold is_live in Hl. unfold phase_of. destruct (ch_state c); try done; by rewrite decide_True.
Qed.

(** Everything but channel [i], the timers and the identifiers is as before. *)
Definition same_but (i : loc) (w w' : W) : Prop :=
  (forall j, j <> i -> mg_channels (w_mgr w') !! j = mg_channels (w_mgr w) !! j) /\ w_trace w' = w_trace w.

Lemma start_configure_run i w c pe p now : focus b i w c pe p -> is_live c -> clock_ok b now ->
  let id := mg_next_identifier (w_mgr w) in
  exists w', start_our_configure_request i now w = (Ret tt, w') /\ 0 < id < 2 ^ 8 /\
    focus b i w' (set_pending_identifier id c) true p /\ same_but i w w'.
Proof.
  intros Hf Hl Hck id. unfold start_our_configure_request.
  destruct (focus_alloc_identifier _ _ _ _ _ _ Hf) as (Hid & E & F). fold id in Hid, E, F. rewrite (bind_eq _ _ _ _ _ E).
  destruct (focus_set _ _ _ _ _ _ (set_pending_identifier id) F) as [E1 F1]; [done..|].
  rewrite (bind_eq _ _ _ _ _ E1). destruct (focus_add _ _ _ _ _ _ now F1 Hck) as (ts & E2 & F2).
  rewrite (bind_eq _ _ _ _ _ E2), (bind_eq _ _ _ _ _ (focus_load _ _ _ _ _ _ F2)).
  pose proof (mtu_len_max (ch_local_mtu c)).
  erewrite bind_eq; [|apply encode_run; [apply configure_request_writes|cmd_len]].
  match goal with |- context [signal (_, ?cmd).2] => destruct (focus_signal _ _ _ _ _ _ cmd F2) as (o & t & E3 & Ho & F3) end.
  { pose proof (mtu_bytes_ok (ch_local_mtu c)). bys. }
  { cmd_len. }
  cbn [snd]. rewrite (bind_eq _ _ _ _ _ (try_run _ _ _ _ E3 Ho)). eexists. split; [done|]. split; [done|].
  split; [exact F3|]. split; [|done]. intros j Hj. cbn. by rewrite lookup_insert_ne.
Qed.

Lemma open_if_ok i w c pe (fin : bool) : focus b i w c pe (Some (phase_of c)) -> ch_state c = BT_L2CAP_CHAN_CONFIG ->
  (if fin then pe = false /\ ch_pending_identifier c = 0 /\ ch_outbound_config_done c = true /\
                ch_inbound_config_done c = true
   else chan_ok c pe) ->
  runs_ok BT_L2CAP_CHANNEL_EVENT_OPENED -> finishes b (open_if run i fin w).
Proof.
  intros Hf Hs Hd Hrun. assert (is_live c) as Hl by (unfold is_live; by rewrite Hs).
  unfold open_if. destruct fin; [|apply finishes_ret; by eapply unfocus].
  destruct (focus_set _ _ _ _ _ _ (set_state BT_L2CAP_CHAN_OPEN) Hf) as [E F]; [done..|].
  rewrite (bind_eq _ _ _ _ _ E). unfold fire_opened. rewrite (bind_eq _ _ _ _ _ (focus_load _ _ _ _ _ _ F)).
  eapply fire_ok; [exact F|done| |done]. cbn. unfold phase_of at 1. rewrite Hs. by rewrite decide_True.
Qed.

(** A parser's verdict, when it is safe. *)
Lemma try_parse {A} (o : outcome A) Q (w : W) : sat o Q -> try (lift o) w = (Ret o, w) /\ o <> Fault.
Proof. by destruct o. Qed.

(** The channel looked for, or nothing to do. *)
Ltac on_found Hw :=
  let o := fresh "o" in let E := fresh "E" in let Ho := fresh "Ho" in let Ht := fresh "Ht" in
  edestruct find_world as (o & E & Ho); [exact Hw|]; erewrite bind_eq; [|by rewrite E]; clear E;
  destruct o as [i|]; [|by apply finishes_ret];
  destruct Ho as (c & pe & Hf & Hok & Ht); apply live_test in Ht as [Hl _].

(** The command parsed, or nothing to do. *)
Ltac on_parsed Hp w rsp :=
  let Ep := fresh "Ep" in let Hnf := fresh "Hnf" in
  apply (try_parse _ _ w) in Hp as [Ep Hnf]; rewrite (bind_eq _ _ _ _ _ Ep);
  match type of Ep with try (lift ?o) _ = _ => destruct o as [rsp| |]; [|by apply finishes_ret|done] end;
  clear Ep Hnf.

Lemma connection_accepted_run i w c p rsp now : focus b i w c false p -> is_live c -> clock_ok b now ->
  let id := mg_next_identifier (w_mgr w) in
  exists w', connection_accepted i rsp now w = (Ret tt, w') /\ 0 < id < 2 ^ 8 /\
    focus b i w' (set_pending_identifier id (set_state BT_L2CAP_CHAN_CONFIG
                   (set_remote_cid (cp_destination_cid rsp) c))) true p /\ same_but i w w'.
Proof.
  intros Hf Hl Hck id. unfold connection_accepted.
  destruct (focus_set _ _ _ _ _ _ (set_remote_cid (cp_destination_cid rsp)) Hf) as [E1 F1]; [done..|].
  rewrite (bind_eq _ _ _ _ _ E1).
  destruct (focus_set _ _ _ _ _ _ (set_state BT_L2CAP_CHAN_CONFIG) F1) as [E2 F2]; [done..|].
  rewrite (bind_eq _ _ _ _ _ E2).
  destruct (start_configure_run _ _ _ _ _ now F2 ltac:(done) Hck) as (w' & E & Hid & F & Hsb & Htr).
  exists w'. split; [done|]. split; [done|]. split; [exact F|]. split; [|done].
  intros j Hj. rewrite Hsb by done. cbn. by rewrite !lookup_insert_ne.
Qed.

Definition with_mtu (req : bt_l2cap_configure_request) (c : chan_t) : chan_t :=
  if fq_has_mtu req then set_remote_mtu (fq_mtu req) c else c.

Lemma accept_configuration_run i w c pe p identifier req : focus b i w c pe p -> is_live c ->
  exists w', accept_configuration run identifier i req w = open_if run i (ch_outbound_config_done c) w' /\
    focus b i w' (set_config_done (ch_outbound_config_done c) true (with_mtu req c)) pe p /\ same_but i w w'.
Proof.
  intros Hf Hl. unfold accept_configuration.
  assert (exists w1, (if fq_has_mtu req then update i (set_remote_mtu (fq_mtu req)) else ret tt) w = (Ret tt, w1) /\
    focus b i w1 (with_mtu req c) pe p /\ same_but i w w1) as (w1 & E1 & F1 & Hsb & Htr).
  { unfold with_mtu. destruct (fq_has_mtu req); [|by exists w].
    destruct (focus_set _ _ _ _ _ _ (set_remote_mtu (fq_mtu req)) Hf) as [E1 F1]; [done..|].
    eexists. split; [done|]. split; [done|]. split; [|done]. intros j Hj. cbn. by rewrite lookup_insert_ne. }
  assert (is_live (with_mtu req c) /\ ch_outbound_config_done (with_mtu req c) = ch_outbound_config_done c) as [Hl1 Hout]
    by (unfold with_mtu; by destruct (fq_has_mtu req)).
  rewrite (bind_eq _ _ _ _ _ E1), (bind_eq _ _ _ _ _ (focus_load _ _ _ _ _ _ F1)).
  erewrite bind_eq; [|apply encode_run; [apply configure_response_writes|cmd_len]].
  match goal with |- context [signal (_, ?cmd).2] => destruct (focus_signal _ _ _ _ _ _ cmd F1) as (o & t & E2 & Ho & F2) end;
    [bys|cmd_len|].
  cbn [snd]. rewrite (bind_eq _ _ _ _ _ (try_run _ _ _ _ E2 Ho)).
  destruct (focus_set _ _ _ _ _ _ (fun c => set_config_done (ch_outbound_config_done c) true c) F2) as [E3 F3]; [done..|].
  rewrite (bind_eq _ _ _ _ _ E3), (bind_eq _ _ _ _ _ (focus_load _ _ _ _ _ _ F3)).
  cbn [ch_outbound_config_done set_config_done]. rewrite Hout in F3 |- *. eexists. split; [done|]. split; [exact F3|].
  split; [|done]. intros j Hj. cbn. rewrite lookup_insert_ne by done. by apply Hsb.
Qed.

Lemma configuration_accepted_run i w c pe p : focus b i w c pe p -> is_live c ->
  exists w', configuration_accepted run i w = open_if run i (ch_inbound_config_done c) w' /\
    focus b i w' (set_config_done true (ch_inbound_config_done c) c) pe p /\ same_but i w w'.
Proof.
  intros Hf Hl. unfold configuration_accepted.
  destruct (focus_set _ _ _ _ _ _ (fun c => set_config_done true (ch_inbound_config_done c) c) Hf) as [E F]; [done..|].
  rewrite (bind_eq _ _ _ _ _ E), (bind_eq _ _ _ _ _ (focus_load _ _ _ _ _ _ F)).
  eexists. split; [done|]. split; [exact F|]. split; [|done]. intros j Hj. cbn. by rewrite lookup_insert_ne.
Qed.

Lemma handle_connection_response_ok identifier data len now w : world_ok b w -> 0 <= len <= zlen data -> bytes data ->
  clock_ok b now -> runs_ok BT_L2CAP_CHANNEL_EVENT_CLOSED ->
  finishes b (handle_connection_response run identifier data len now w).
Proof.
  intros Hw Hlen Hb Hck Hrun. unfold handle_connection_response, find_channel_by_identifier.
  on_found Hw. rewrite (bind_eq _ _ _ _ _ (focus_load _ _ _ _ _ _ Hf)).
  case_decide as Hs; [by apply finishes_ret|].
  destruct (parsers_safe data len Hlen Hb) as (_ & Hp & _). on_parsed Hp w rsp.
  destruct (cp_result rsp =? _); [by apply finishes_ret|].
  destruct (focus_cancel _ _ _ _ _ _ Hf) as (ts & E1 & F1). rewrite (bind_eq _ _ _ _ _ E1).
  destruct (negb _); [by eapply finish_close_ok|].
  unfold chan_ok in Hok. rewrite Hs in Hok. destruct Hok as (_ & _ & Hfix & Hout & _).
  unfold phase_of in F1. rewrite Hs in F1.
  destruct (connection_accepted_run _ _ _ _ rsp now F1 Hl Hck) as (w' & E2 & Hid & F2 & _). rewrite E2.
  split; [by eexists|]. eapply unfocus; [exact F2|]. unfold chan_ok. cbn in Hid |- *. rewrite Hout. repeat split; try done; lia.
Qed.

Lemma handle_configure_request_ok identifier data len w : world_ok b w -> 0 <= len <= zlen data -> bytes data ->
  runs_ok BT_L2CAP_CHANNEL_EVENT_OPENED -> finishes b (handle_configure_request run identifier data len w).
Proof.
  intros Hw Hlen Hb Hrun. unfold handle_configure_request.
  destruct (parsers_safe data len Hlen Hb) as (_ & _ & Hp & _). on_parsed Hp w req.
  unfold find_channel_by_local_cid. on_found Hw. rewrite (bind_eq _ _ _ _ _ (focus_load _ _ _ _ _ _ Hf)).
  case_decide as Hs; [by apply finishes_ret|].
  unfold chan_ok in Hok. rewrite Hs in Hok. destruct Hok as (Hpe & Hid & Hfix & _).
  destruct (accept_configuration_run _ _ _ _ _ identifier req Hf Hl) as (w' & E1 & F1 & _). rewrite E1.
  assert (phase_of (with_mtu req c) = phase_of c) as Hp1 by (unfold with_mtu; by destruct (fq_has_mtu req)).
  rewrite <- Hp1 in F1. eapply open_if_ok; [exact F1|unfold with_mtu; by destruct (fq_has_mtu req)| |done].
  destruct (ch_outbound_config_done c) eqn:Hout; cbn.
  - assert (ch_pending_identifier (with_mtu req c) = ch_pending_identifier c) as -> by (unfold with_mtu; by destruct (fq_has_mtu req)).
    repeat split; try done. destruct (Z.eq_dec (ch_pending_identifier c) 0); naive_solver.
  - unfold chan_ok, with_mtu. destruct (fq_has_mtu req); cbn; by rewrite Hs.
Qed.

Lemma handle_configure_response_ok identifier data len w : world_ok b w -> 0 <= len <= zlen data -> bytes data ->
  runs_ok BT_L2CAP_CHANNEL_EVENT_OPENED -> runs_ok BT_L2CAP_CHANNEL_EVENT_CLOSED ->
  finishes b (handle_configure_response run identifier data len w).
Proof.
  intros Hw Hlen Hb Hro Hrc. unfold handle_configure_response, find_channel_by_identifier.
  on_found Hw. rewrite (bind_eq _ _ _ _ _ (focus_load _ _ _ _ _ _ Hf)).
  case_decide as Hs; [by apply finishes_ret|].
  destruct (parsers_safe data len Hlen Hb) as (_ & _ & _ & Hp & _). on_parsed Hp w rsp.
  destruct (focus_cancel _ _ _ _ _ _ Hf) as (ts & E1 & F1). rewrite (bind_eq _ _ _ _ _ E1).
  destruct (focus_set _ _ _ _ _ _ (set_pending_identifier 0) F1) as [E2 F2]; [done..|].
  rewrite (bind_eq _ _ _ _ _ E2). destruct (negb _).
  { eapply finish_close_ok; [exact F2|done|done]. }
  destruct (configuration_accepted_run _ _ _ _ _ F2 Hl) as (w' & E3 & F3 & _). rewrite E3.
  unfold chan_ok in Hok. rewrite Hs in Hok. destruct Hok as (Hpe & Hid & Hfix & _).
  eapply open_if_ok; [exact F3|done| |done]. cbn. destruct (ch_inbound_config_done c) eqn:Hin; [done|].
  unfold chan_ok. cbn. rewrite Hs, ?Hin. done.
Qed.

Lemma handle_disconnection_request_ok identifier data len w : world_ok b w -> 0 <= len <= zlen data -> bytes data ->
  runs_ok BT_L2CAP_CHANNEL_EVENT_CLOSED -> finishes b (handle_disconnection_request run identifier data len w).
Proof.
  intros Hw Hlen Hb Hrun. unfold handle_disconnection_request.
  destruct (parsers_safe data len Hlen Hb) as (_ & _ & _ & _ & Hp & _). on_parsed Hp w req.
  unfold find_channel_by_local_cid. on_found Hw.
  erewrite bind_eq; [|apply encode_run; [apply disconnection_response_writes|]; cmd_len].
  match goal with |- context [signal (_, ?cmd).2] => destruct (focus_signal _ _ _ _ _ _ cmd Hf) as (o & w2 & E2 & Ho & F2) end;
    [bys|cmd_len|].
  cbn [snd]. rewrite (bind_eq _ _ _ _ _ (try_run _ _ _ _ E2 Ho)). by eapply finish_close_ok.
Qed.

Lemma handle_disconnection_response_ok identifier data len w : world_ok b w -> 0 <= len <= zlen data -> bytes data ->
  runs_ok BT_L2CAP_CHANNEL_EVENT_CLOSED -> finishes b (handle_disconnection_response run identifier data len w).
Proof.
  intros Hw Hlen Hb Hrun. unfold handle_disconnection_response, find_channel_by_identifier.
  on_found Hw. rewrite (bind_eq _ _ _ _ _ (focus_load _ _ _ _ _ _ Hf)).
  case_decide as Hs; [by apply finishes_ret|].
  destruct (parsers_safe data len Hlen Hb) as (_ & _ & _ & _ & Hp & _). on_parsed Hp w rsp.
  by eapply finish_close_ok.
Qed.

Lemma handle_command_reject_ok identifier w : world_ok b w ->
  runs_ok BT_L2CAP_CHANNEL_EVENT_CLOSED -> finishes b (handle_command_reject run identifier w).
Proof.
  intros Hw Hrun. unfold handle_command_reject, find_channel_by_identifier.
  on_found Hw. rewrite (bind_eq _ _ _ _ _ (focus_load _ _ _ _ _ _ Hf)).
  case_decide; by eapply finish_close_ok.
Qed.

Lemma process_signaling_ok payload len now w : world_ok b w -> 0 <= len <= zlen payload -> bytes payload ->
  clock_ok b now -> runs_ok BT_L2CAP_CHANNEL_EVENT_OPENED -> runs_ok BT_L2CAP_CHANNEL_EVENT_CLOSED ->
  finishes b (process_signaling_pdu run payload len now w).
Proof.
  intros Hw Hlen Hb Hck Hro Hrc. unfold process_signaling_pdu.
  pose proof (header_and_peek_safe bt_l2cap_sig_parse_header sg_length (fun h => 0 <= sg_length h) payload len
    sig_header_safe ltac:(done) Hlen Hb) as Hp.
  destruct (header_and_peek _ _ _) as [[[h [p|]]|e|] r]; try done; try by apply finishes_ret.
  destruct Hp as (Hh & Hpl & Hpb). assert (0 <= sg_length h <= zlen p) by lia. cbv zeta.
  repeat match goal with |- context [if ?x then _ else _] => destruct x end;
    eauto using handle_connection_response_ok, handle_configure_request_ok, handle_configure_response_ok,
      handle_disconnection_request_ok, handle_disconnection_response_ok, handle_command_reject_ok, finishes_ret.
Qed.

(** *** The interface keeps the invariant *)

Lemma world_transport w t : world_ok b w -> world_ok b (with_transport t w).
Proof. intros (l & acc & []). exists l, acc. by split. Qed.

Lemma world_reassembler w ra acc : world_ok b w -> ra_rep ra acc -> world_ok b (with_mgr (set_reassembler ra) w).
Proof. intros (l & acc' & []) Hra. exists l, acc. by split. Qed.

Lemma send_ok cid data w : world_ok b w -> bytes data ->
  exists o t, bt_l2cap_channel_manager_send cid data (zlen data) w = (o, with_transport t w) /\ o <> Fault.
Proof.
  intros Hw Hb. unfold bt_l2cap_channel_manager_send, find_channel_by_local_cid.
  assert (forall e : bt_status, exists o t, (Fail e : outcome unit, w) = (o, with_transport t w) /\ o <> Fault) as Hfail.
  { intros e. exists (Fail e), (w_transport w). by destruct w. }
  rewrite Z.gtb_ltb. destruct (Z.ltb_spec BT_L2CAP_MAX_SEND_LEN (zlen data)) as [|Hl]; [apply Hfail|].
  unfold BT_L2CAP_MAX_SEND_LEN in *.
  edestruct find_world as (o & E & Ho); [exact Hw|]. erewrite bind_eq; [|by rewrite E].
  destruct o as [i|]; [|apply Hfail]. destruct Ho as (c & pe & Hf & _ & _).
  rewrite (bind_eq _ _ _ _ _ (focus_load _ _ _ _ _ _ Hf)). case_decide; [apply Hfail|].
  erewrite bind_eq; [|apply encode_run; [apply pdu_writes|]; unfold pdu_of, BT_L2CAP_HEADER_LEN; rewrite !length_app, !le_enc_length; lia].
  cbn [fst snd]. rewrite decide_False by naive_solver.
  destruct (send_fragmented_run w (pdu_of (ch_remote_cid c) data) (focus_config _ _ _ _ _ _ Hf)) as (ps & -> & _);
    [apply pdu_of_ok; [done|lia]|]. apply send_all_frame.
Qed.

Lemma connection_request_run i w c pe p : focus b i w c pe p ->
  exists o t, send_connection_request i w = (o, with_transport t w) /\ o <> Fault /\ focus b i (with_transport t w) c pe p.
Proof.
  intros Hf. unfold send_connection_request. rewrite (bind_eq _ _ _ _ _ (focus_load _ _ _ _ _ _ Hf)).
  erewrite bind_eq; [|apply encode_run; [apply connection_request_writes|cmd_len]].
  cbn [fst snd]. rewrite decide_False by naive_solver. eapply focus_signal; [exact Hf|bys|cmd_len].
Qed.

Lemma open_ok psm mtu cb ud now w : world_ok b w -> clock_ok b now ->
  exists o w', bt_l2cap_channel_manager_open psm mtu cb ud now w = (o, w') /\ o <> Fault /\ world_ok b w'.
Proof.
  intros Hw Hck. unfold bt_l2cap_channel_manager_open, find_free_channel.
  edestruct find_world as (o & E & Ho); [exact Hw|]. erewrite bind_eq; [|by rewrite E].
  destruct o as [i|]; [|by eexists (Fail _), w]. destruct Ho as (c & pe & Hf & Hok & Ht).
  rewrite bool_decide_eq_true in Ht. unfold chan_ok in Hok. rewrite Ht in Hok. subst pe.
  destruct (focus_alloc_local_cid _ _ _ _ _ _ Hf) as (cid & w1 & E1 & F1 & Hfresh); [unfold is_live; naive_solver|].
  rewrite (bind_eq _ _ _ _ _ E1). unfold phase_of in F1. rewrite Ht in F1.
  match goal with |- context [update i ?f] => destruct (focus_update _ _ _ _ _ _ f F1) as [E2 F2]; [done|] end.
  rewrite (bind_eq _ _ _ _ _ E2).
  destruct (focus_alloc_identifier _ _ _ _ _ _ F2) as (Hid & E3 & F3).
  match type of Hid with 0 < ?x < _ => set (id := x) in * end. clearbody id. rewrite (bind_eq _ _ _ _ _ E3).
  destruct (focus_set _ _ _ _ _ _ (set_pending_identifier id) F3) as [E4 F4]; [done..|].
  rewrite (bind_eq _ _ _ _ _ E4). destruct (focus_add _ _ _ _ _ _ now F4 Hck) as (ts & E5 & F5).
  rewrite (bind_eq _ _ _ _ _ E5). clear E1 E2 E3 E4 E5 F2 F3 F4.
  destruct (connection_request_run _ _ _ _ _ F5) as (o & w6 & E6 & Ho & F6).
  rewrite (bind_eq _ _ _ _ _ (try_run _ _ _ _ E6 Ho)). destruct o as [[]|st|]; [| |done].
  - eexists (Ret cid), _. split; [done|]. split; [done|]. eapply (unfocus b i).
    { pose proof (focus_log _ _ _ _ _ _ (EOpen i cid) F6 eq_refl) as F7.
      unfold phase_step in F7. rewrite decide_True in F7 by done. exact F7. }
    unfold chan_ok. cbn. repeat split; try done. lia.
  - destruct (focus_cancel _ _ _ _ _ _ F6) as (ts' & E7 & F7). rewrite (bind_eq _ _ _ _ _ E7).
    destruct (focus_update _ _ _ _ _ _ (set_state BT_L2CAP_CHAN_FREE) F7) as [E8 F8]; [done|].
    rewrite (bind_eq _ _ _ _ _ E8). eexists (Fail st), _. split; [done|]. split; [done|]. eapply unfocus; [exact F8|done].
Qed.

Lemma open_fixed_ok cid cb ud w : world_ok b w -> runs_ok BT_L2CAP_CHANNEL_EVENT_OPENED ->
  exists o w', bt_l2cap_channel_manager_open_fixed run cid cb ud w = (o, w') /\ o <> Fault /\ world_ok b w'.
Proof.
  intros Hw Hrun. unfold bt_l2cap_channel_manager_open_fixed, find_channel_by_local_cid, find_free_channel.
  edestruct find_world as (o & E & Ho); [exact Hw|]. erewrite bind_eq; [|by rewrite E]. clear E.
  destruct o as [i|]; [by eexists (Fail _), w|]. rename Ho into Hnone.
  edestruct find_world as (o & E & Ho); [exact Hw|]. erewrite bind_eq; [|by rewrite E].
  destruct o as [i|]; [|by eexists (Fail _), w]. destruct Ho as (c & pe & Hf & Hok & Ht).
  rewrite bool_decide_eq_true in Ht. unfold chan_ok in Hok. rewrite Ht in Hok. subst pe.
  pose proof (focus_log _ _ _ _ _ _ (EOpenFixed i cid) Hf eq_refl) as F1.
  unfold phase_step, phase_of in F1. rewrite decide_True, Ht in F1 by done. cbn in F1.
  match goal with |- context [update i ?f] => destruct (focus_update _ _ _ _ _ _ f F1) as [E2 F2] end.
  { intros _ [_ Hlow]. cbn in Hlow |- *. unfold fixed_cids in Hlow. rewrite omap_app, Forall_app in Hlow.
    destruct Hlow as [_ Hlow]. inv Hlow. split; [unfold cid_limit; lia|].
    intros j d _ Hj Hlj Heq. specialize (Hnone j d Hj). unfold is_live in Hlj.
    rewrite Heq, Z.eqb_refl, bool_decide_false in Hnone by done. done. }
  assert (forall r : outcome unit * W, finishes b r -> exists o w', r = (o, w') /\ o <> Fault /\ world_ok b w') as Hfin.
  { intros [o w'] [[a Ha] Hw']. cbn in *. exists o, w'. by rewrite Ha. }
  apply Hfin. rewrite (bind_eq (modify _) _ _ _ _ eq_refl), (bind_eq _ _ _ _ _ E2).
  unfold fire_opened. rewrite (bind_eq _ _ _ _ _ (focus_load _ _ _ _ _ _ F2)).
  eapply fire_ok; [exact F2|done| |by apply Hrun]. cbn. by rewrite decide_True.
Qed.

Lemma close_ok cid now w : world_ok b w -> clock_ok b now -> runs_ok BT_L2CAP_CHANNEL_EVENT_CLOSED ->
  finishes b (bt_l2cap_channel_manager_close run cid now w).
Proof.
  intros Hw Hck Hrun. unfold bt_l2cap_channel_manager_close, find_channel_by_local_cid. on_found Hw.
  rewrite (bind_eq _ _ _ _ _ (focus_load _ _ _ _ _ _ Hf)).
  destruct (bool_decide_reflect (ch_state c = BT_L2CAP_CHAN_OPEN)) as [Hs|]; [|by eapply finish_close_ok].
  destruct (ch_is_fixed c) eqn:Hfix; [by eapply finish_close_ok|]. cbn [andb negb].
  unfold chan_ok in Hok. rewrite Hs in Hok. destruct Hok as (-> & _ & Hout & Hin).
  destruct (focus_alloc_identifier _ _ _ _ _ _ Hf) as (Hid & E1 & F1).
  match type of Hid with 0 < ?x < _ => set (id := x) in * end. clearbody id. rewrite (bind_eq _ _ _ _ _ E1).
  destruct (focus_set _ _ _ _ _ _ (set_pending_identifier id) F1) as [E2 F2]; [done..|].
  rewrite (bind_eq _ _ _ _ _ E2).
  destruct (focus_set _ _ _ _ _ _ (set_state BT_L2CAP_CHAN_WAIT_DISCONNECT_RSP) F2) as [E3 F3]; [done..|].
  rewrite (bind_eq _ _ _ _ _ E3), (bind_eq (modify _) _ _ _ _ eq_refl).
  pose proof (focus_log _ _ _ _ _ _ (EDisconnect i) F3 eq_refl) as F4.
  unfold phase_step, phase_of in F4. rewrite decide_True, Hs in F4 by done. cbn [own_step] in F4.
  destruct (focus_add _ _ _ _ _ _ now F4 Hck) as (ts & E5 & F5). rewrite (bind_eq _ _ _ _ _ E5).
  erewrite bind_eq; [|apply encode_run; [apply disconnection_request_writes|cmd_len]].
  match goal with |- context [signal (_, ?cmd).2] => destruct (focus_signal _ _ _ _ _ _ cmd F5) as (o & w6 & E6 & Ho & F6) end;
    [bys|cmd_len|].
  cbn [snd]. rewrite (bind_eq _ _ _ _ _ (try_run _ _ _ _ E6 Ho)). apply finishes_ret.
  eapply unfocus; [exact F6|]. unfold chan_ok. cbn. rewrite Hout, Hin, Hfix. repeat split; try done. lia.
Qed.

Lemma on_acl_ok pb data now w : world_ok b w -> bytes data -> clock_ok b now -> (forall e, runs_ok e) ->
  finishes b (bt_l2cap_channel_manager_on_acl run pb data (zlen data) now w).
Proof.
  intros Hw Hb Hck Hrun. unfold bt_l2cap_channel_manager_on_acl.
  pose proof Hw as (l & acc & Hg). destruct (feed_spec _ _ pb data (g_ra _ _ _ _ _ Hg) Hb) as (ra & Ef & Hra).
  unfold on_reassembler at 1. erewrite bind_eq; [|by rewrite Ef].
  pose proof (world_reassembler _ _ _ Hw Hra) as Hw1. destruct (spec_feed acc pb data).1; [by apply finishes_ret| |by apply finishes_ret].
  revert Hra Hw1. generalize (spec_feed acc pb data).2. intros acc1 Hra Hw1.
  pose proof Hra as (Hbuf & Hbb & Hhave & Hmax & _). unfold on_reassembler at 1.
  erewrite bind_eq; [|done]. cbn [with_mgr set_reassembler w_mgr mg_reassembler fst snd].
  assert (world_ok b (with_mgr (set_reassembler {| ra_buf := ra_buf ra; ra_have := 0; ra_want := 0 |})
    (with_mgr (set_reassembler ra) w))) as Hw2.
  { eapply world_reassembler; [done|]. by apply (ra_idle ra). }
  unfold route_pdu. revert Hw2. match goal with |- world_ok b ?x -> _ => generalize x end. clear Hw Hw1 Hg w Ef. intros w Hw.
  pose proof (header_and_peek_safe bt_l2cap_parse_header l2_length (fun h => 0 <= l2_length h) (ra_buf ra) (ra_have ra)
    header_safe ltac:(done) ltac:(lia) Hbb) as Hp.
  destruct (header_and_peek _ _ _) as [[[h [p|]]|e|] r]; try done; try by apply finishes_ret.
  destruct Hp as (Hh & Hpl & Hpb). rewrite bind_gets.
  destruct (_ =? _); [apply process_signaling_ok; auto; lia|].
  unfold find_channel_by_local_cid. on_found Hw. rewrite (bind_eq _ _ _ _ _ (focus_load _ _ _ _ _ _ Hf)).
  case_decide as Hs; [|by apply finishes_ret].
  eapply fire_ok; [exact Hf|done| |by apply Hrun]. cbn. unfold phase_of. rewrite Hs. by rewrite decide_True.
Qed.

End Keeps.

(** *** Time *)

Lemma world_unbound b w : world_ok b w -> world_ok None w.
Proof. intros (l & acc & []). exists l, acc. by split. Qed.

Lemma rep_slot ts l i : timers_rep ts l -> i ∈ l.*1 -> i ∈ channel_slots.
Proof.
  intros ((_ & Hl & _) & _ & Hd & _) Hi. destruct (lseg_lookup _ _ _ _ _ _ Hl Hi) as [v Hv].
  apply (slots_dom _ _ Hd). eauto.
Qed.

(** At most eight timers run, so at most eight are due. *)
Lemma due_length ts l now : timers_rep ts l -> (length (due now l) <= length channel_slots)%nat.
Proof.
  intros Ht. unfold due. etrans; [apply length_filter|]. rewrite <- (length_fmap fst).
  apply submseteq_length, NoDup_submseteq; [apply Ht|]. intros i. by eapply rep_slot.
Qed.

Lemma world_bound w now : world_ok None w -> world_ok (Some (now, length channel_slots)) w.
Proof. intros (l & acc & []). exists l, acc. split; try done. by eapply due_length. Qed.

Lemma due_nil now l : StronglySorted by_expiry l -> (sp_pop now l).1 = None -> due now l = [].
Proof.
  destruct 1 as [|x l Hs Hx]; [done|]. unfold sp_pop, due. destruct (Z.leb_spec x.2 now); [done|]. intros _.
  rewrite filter_cons, decide_False by lia. clear Hs.
  induction Hx as [|y l Hy _ IH]; [done|]. unfold by_expiry in Hy. by rewrite filter_cons, decide_False by lia.
Qed.

Lemma tick_pop now n w : world_ok (Some (now, n)) w ->
  (exists ts, bt_timer_list_pop_expired (mg_timers (w_mgr w)) now = Ret (None, ts) /\
     world_ok (Some (now, 0%nat)) (with_mgr (set_timers ts) w)) \/
  (exists i c ts v m, bt_timer_list_pop_expired (mg_timers (w_mgr w)) now = Ret (Some i, ts) /\ n = S m /\
     focus (Some (now, m)) i (with_mgr (set_timers ts) w) c false (Some (phase_of c)) /\ is_live c /\
     tl_mem ts !! i = Some v /\ t_user_data v = i).
Proof.
  intros (l & acc & [Ht Hdue Hra Hd Hch Hcfg Hcid]). destruct (timers_pop _ _ now Ht) as (ts & E & Ht').
  rewrite E. pose proof Ht as (_ & Hs & _). destruct (sp_pop now l).1 as [i|] eqn:Ho.
  - right. destruct l as [|x l]; [done|]. simpl in Ho, Ht'. unfold due_ok, due in Hdue. rewrite filter_cons in Hdue.
    destruct (Z.leb_spec x.2 now); [|done]. rewrite decide_True in Hdue by lia. injection Ho as <-. simpl in Hdue, Ht'.
    destruct n as [|m]; [lia|].
    assert (x.1 ∈ channel_slots) as Hi by (eapply rep_slot; [exact Ht|by left]).
    assert (x.1 ∉ l.*1) as Hni by (destruct Ht as ((Hnd & _) & _); by inv Hnd).
    destruct (timers_slot _ _ _ Ht' Hi) as [v Hv]. pose proof Ht' as (_ & _ & _ & Hu).
    destruct (proj1 (slots_dom _ _ Hd) Hi) as [c Hc]. destruct (Hch _ _ Hc) as [Hok Hlife]; [done|].
    rewrite bool_decide_true in Hok by by left.
    exists x.1, c, ts, v, m. split; [done|]. split; [done|]. split; [|split; [|split; [done|by apply Hu]]].
    + exists l, acc. split; [|split; [done|]; split; [by apply bool_decide_eq_false_2|done]].
      split; cbn; try done; [unfold due_ok, due; lia|]. intros j d Hj Hne. destruct (Hch j d Hj) as [Hokj ?]; [done|].
      split; [|done]. erewrite bool_decide_ext; [exact Hokj|]. simpl. rewrite elem_of_cons. split; [by right|].
      intros [->|?]; [congruence|done].
    + unfold is_live. intros Hfree. unfold chan_ok in Hok. by rewrite Hfree in Hok.
  - left. exists ts. split; [done|].
    assert ((sp_pop now l).2 = l) as El.
    { unfold sp_pop in *. destruct l as [|x l]; [done|]. by destruct (x.2 <=? now). }
    rewrite El in Ht'. exists l, acc. split; cbn; try done. unfold due_ok. by rewrite due_nil.
Qed.

Lemma channel_tick_loop_ok run now fuel : forall n w, (n < fuel)%nat -> world_ok (Some (now, n)) w ->
  (forall m, runs_ok run (Some (now, m)) BT_L2CAP_CHANNEL_EVENT_CLOSED) ->
  finishes (Some (now, 0%nat)) (tick_loop run fuel now w).
Proof.
  induction fuel as [|fuel IH]; intros n w Hn Hw Hrun; [lia|]. cbn [tick_loop].
  destruct (tick_pop now n w Hw) as [(ts & -> & Hw')|(i & c & ts & v & m & -> & -> & Hf & Hl & Hv & Hu)].
  - by apply finishes_ret.
  - erewrite bind_eq; [|cbn; by rewrite (hld_spec _ _ _ Hv)]. destruct (t_callback v). rewrite Hu.
    destruct (finish_close_ok run (Some (now, m)) i _ c false BT_L2CAP_CLOSE_TIMEOUT Hf Hl (Hrun m)) as [[a Ha] Hw'].
    unfold rtx_timeout_callback, bind. destruct (finish_close _ _ _ _) as [o w']. cbn in Ha, Hw'. subst o.
    apply (IH m); [lia|done|done].
Qed.

Lemma channel_tick_ok run now w : world_ok None w ->
  (forall m, runs_ok run (Some (now, m)) BT_L2CAP_CHANNEL_EVENT_CLOSED) ->
  finishes (Some (now, 0%nat)) (bt_l2cap_channel_manager_tick run now w).
Proof. intros Hw Hrun. eapply channel_tick_loop_ok; [|by apply world_bound|done]. vm_compute. lia. Qed.

(** ** Clients *)

(** A callback's program: clocks that satisfy [ck], and the calls that fire
    events only where [cl] (CLOSED, by close) and [op] (OPENED, by
    open_fixed) allow. *)
Fixpoint prog_ok (ck : Z -> Prop) (cl op : Prop) (p : chprog CB UD C) : Prop :=
  match p with
  | PDone => True
  | PGet k => forall c, prog_ok ck cl op (k c)
  | PPut _ k => prog_ok ck cl op k
  | POpen _ _ _ _ now k => ck now /\ forall r, prog_ok ck cl op (k r)
  | POpenFixed _ _ _ k => op /\ forall r, prog_ok ck cl op (k r)
  | PClose _ now k => cl /\ ck now /\ prog_ok ck cl op k
  | PSend _ data _ k => bytes data /\ forall r, prog_ok ck cl op (k r)
  end.

(** The client's callbacks on event [e] nest less than [depth] deep. *)
Fixpoint calm (ck : Z -> Prop) (depth : nat) (e : bt_l2cap_channel_event) : Prop :=
  match depth with
  | O => False
  | S depth => forall cb info ud, ei_event info = e ->
      prog_ok ck (calm ck depth BT_L2CAP_CHANNEL_EVENT_CLOSED) (calm ck depth BT_L2CAP_CHANNEL_EVENT_OPENED)
        (client_event cb info ud)
  end.

Lemma world_client b w c : world_ok b w -> world_ok b (with_client c w).
Proof. intros (l & acc & []). exists l, acc. by split. Qed.

Lemma run_chprog_ok run b ck (cl op : Prop) p :
  (forall t, ck t -> clock_ok b t) ->
  (cl -> runs_ok run b BT_L2CAP_CHANNEL_EVENT_CLOSED) -> (op -> runs_ok run b BT_L2CAP_CHANNEL_EVENT_OPENED) ->
  prog_ok ck cl op p -> keeps b (run_chprog run p).
Proof.
  intros Hck Hcl Hop. induction p as [|k IH|c k IH|psm mtu cb ud now k IH|cid cb ud k IH|cid now k IH|cid data now k IH];
    intros Hp w Hw; cbn [run_chprog prog_ok] in *.
  - by apply finishes_ret.
  - rewrite bind_gets. by apply IH.
  - rewrite (bind_eq (modify _) _ _ _ _ eq_refl). apply IH; [done|]. by apply world_client.
  - destruct Hp as [Ht Hk]. destruct (open_ok b psm mtu cb ud now w Hw (Hck _ Ht)) as (o & w' & E & Ho & Hw').
    rewrite (bind_eq _ _ _ _ _ (try_run _ _ _ _ E Ho)). by apply IH.
  - destruct Hp as [Hop' Hk]. destruct (open_fixed_ok run b cid cb ud w Hw (Hop Hop')) as (o & w' & E & Ho & Hw').
    rewrite (bind_eq _ _ _ _ _ (try_run _ _ _ _ E Ho)). by apply IH.
  - destruct Hp as (Hcl' & Ht & Hk). apply (keeps_bind b); [|intros _; by apply IH|done].
    intros w1 Hw1. apply close_ok; auto.
  - destruct Hp as [Hb Hk]. destruct (send_ok b cid data w Hw Hb) as (o & t & E & Ho).
    rewrite (bind_eq _ _ _ _ _ (try_run _ _ _ _ E Ho)). apply IH; [done|]. by apply world_transport.
Qed.

Lemma dispatch_ok b ck depth : (forall t, ck t -> clock_ok b t) ->
  forall e, calm ck depth e -> runs_ok (dispatch depth) b e.
Proof.
  intros Hck. induction depth as [|depth IH]; intros e Hc; [done|]. intros cb info ud He. cbn [dispatch].
  eapply run_chprog_ok; [exact Hck| | |by apply Hc]; apply IH.
Qed.

(** ** Calls from outside *)

Inductive api : Type :=
| AOpen (psm local_mtu : Z) (on_event : option CB) (user_data : UD) (now_us : Z)
| AOpenFixed (cid : Z) (on_event : option CB) (user_data : UD)
| AClose (local_cid now_us : Z)
| ASend (local_cid : Z) (data : list Z)
| AAcl (pb_flag : Z) (data : list Z) (now_us : Z)
| ATick (now_us : Z).

Definition run_api (depth : nat) (a : api) : M W unit :=
  match a with
  | AOpen psm mtu cb ud now => do! try (bt_l2cap_channel_manager_open psm mtu cb ud now) in ret tt
  | AOpenFixed cid cb ud => do! try (bt_l2cap_channel_manager_open_fixed (dispatch depth) cid cb ud) in ret tt
  | AClose cid now => bt_l2cap_channel_manager_close (dispatch depth) cid now
  | ASend cid data => do! try (bt_l2cap_channel_manager_send cid data (zlen data)) in ret tt
  | AAcl pb data now => bt_l2cap_channel_manager_on_acl (dispatch depth) pb data (zlen data) now
  | ATick now => bt_l2cap_channel_manager_tick (dispatch depth) now
  end.

Definition run_apis (depth : nat) (l : list api) : M W unit :=
  foldr (fun a m => do! run_api depth a in m) (ret tt) l.

(** What a call asks: bytes, callbacks of bounded nesting, and, for a tick at
    [now], that requests started by its callbacks expire later. *)
Definition api_ok (depth : nat) (a : api) : Prop :=
  let anytime (_ : Z) := True in
  match a with
  | AOpen _ _ _ _ _ => True
  | AOpenFixed _ _ _ => calm anytime depth BT_L2CAP_CHANNEL_EVENT_OPENED
  | AClose _ _ => calm anytime depth BT_L2CAP_CHANNEL_EVENT_CLOSED
  | ASend _ data => bytes data
  | AAcl _ data _ => bytes data /\ forall e, calm anytime depth e
  | ATick now => calm (fun t => now < u64 (t + BT_L2CAP_RTX_TIMEOUT_US)) depth BT_L2CAP_CHANNEL_EVENT_CLOSED
  end.

Lemma run_api_ok depth a : api_ok depth a -> keeps None (run_api depth a).
Proof.
  intros Ha w Hw. destruct a as [psm mtu cb ud now|cid cb ud|cid now|cid data|pb data now|now]; cbn [run_api api_ok] in *.
  - destruct (open_ok None psm mtu cb ud now w Hw I) as (o & w' & E & Ho & Hw').
    rewrite (bind_eq _ _ _ _ _ (try_run _ _ _ _ E Ho)). by apply finishes_ret.
  - destruct (open_fixed_ok (dispatch depth) None cid cb ud w Hw) as (o & w' & E & Ho & Hw').
    { by eapply dispatch_ok. }
    rewrite (bind_eq _ _ _ _ _ (try_run _ _ _ _ E Ho)). by apply finishes_ret.
  - apply close_ok; [done|done|]. by eapply dispatch_ok.
  - destruct (send_ok None cid data w Hw Ha) as (o & t & E & Ho).
    rewrite (bind_eq _ _ _ _ _ (try_run _ _ _ _ E Ho)). by apply finishes_ret, world_transport.
  - destruct Ha as [Hb Hc]. apply on_acl_ok; [done|done|done|]. intros e. by eapply dispatch_ok.
  - destruct (channel_tick_ok (dispatch depth) now w Hw) as [Hr Hw'].
    { intros m. eapply dispatch_ok; [|exact Ha]. done. }
    split; [done|]. by eapply world_unbound.
Qed.

Lemma run_apis_ok depth l : Forall (api_ok depth) l -> keeps None (run_apis depth l).
Proof.
  induction 1 as [|a l Ha _ IH]; cbn; [intros w; apply finishes_ret|].
  apply keeps_bind; [by apply run_api_ok|done].
Qed.

(** ** Initialisation *)

(** The manager's memory, before it is initialised. *)
Definition memory_ok (m : mgr_t) : Prop :=
  dom (tl_mem (mg_timers m)) = list_to_set channel_slots /\ dom (mg_channels m) = list_to_set channel_slots /\
  zlen (ra_buf (mg_reassembler m)) = BT_L2CAP_REASSEMBLY_MAX /\ bytes (ra_buf (mg_reassembler m)).

Definition start (m : mgr_t) (c : C) (t : T) : W :=
  {| w_mgr := m; w_client := c; w_transport := t; w_trace := [] |}.

Lemma init_channels_run slots : forall ts chs,
  (forall i, i ∈ slots -> is_Some (tl_mem ts !! i) /\ is_Some (chs !! i)) ->
  exists ts' chs', init_channels slots ts chs = Ret (ts', chs') /\ tl_head ts' = tl_head ts /\
    dom (tl_mem ts') = dom (tl_mem ts) /\ dom chs' = dom chs /\
    forall i v c, tl_mem ts' !! i = Some v -> chs' !! i = Some c ->
      (i ∈ slots -> t_pending v = false /\ t_user_data v = i /\ ch_state c = BT_L2CAP_CHAN_FREE) /\
      (i ∉ slots -> tl_mem ts !! i = Some v /\ chs !! i = Some c).
Proof.
  induction slots as [|i slots IH]; intros ts chs Hd; cbn [init_channels].
  { exists ts, chs. repeat split; try done; set_solver. }
  destruct (Hd i ltac:(left)) as [[v Hv] [c Hc]]. rewrite (hld_spec _ _ _ Hc). cbn [obind].
  rewrite (hst_spec _ _ _ _ Hc). cbn [obind]. unfold bt_timer_init. rewrite (store_spec _ _ _ _ Hv). cbn [obind].
  match goal with |- context [init_channels _ ?ts ?chs] => destruct (IH ts chs) as (ts' & chs' & E & Hh & Hdt & Hdc & Hspec) end.
  { intros j Hj. cbn. destruct (Hd j ltac:(by right)). by rewrite !lookup_insert_is_Some'; auto. }
  exists ts', chs'. split; [exact E|]. cbn in *. split; [done|].
  split; [rewrite Hdt, dom_insert_lookup_L; eauto|]. split; [rewrite Hdc, dom_insert_lookup_L; eauto|].
  intros j u d Hu Hd'. destruct (Hspec j u d Hu Hd') as [H1 H2]. rewrite not_elem_of_cons.
  destruct (decide (j ∈ slots)) as [Hj|Hj]; [split; [auto|intros [_ []]; done]|]. destruct (H2 Hj) as [Hju Hjd].
  destruct (decide (j = i)) as [->|Hne].
  - rewrite lookup_insert_eq in Hju. rewrite lookup_insert_eq in Hjd. injection Hju as <-. injection Hjd as <-.
    split; [done|]. by intros [? _].
  - rewrite lookup_insert_ne in Hju by done. rewrite lookup_insert_ne in Hjd by done.
    split; [|done]. intros Hin. apply elem_of_cons in Hin as [?|?]; done.
Qed.

Lemma channel_init_ok m handle sig frag (c : C) (t : T) : memory_ok m -> 0 <= handle < 2 ^ 12 -> 0 <= sig < 2 ^ 16 -> 0 <= frag ->
  exists m', bt_l2cap_channel_manager_init m handle sig frag = Ret m' /\ world_ok None (start m' c t) /\
    mg_handle m' = handle /\ mg_signaling_cid m' = sig /\
    forall i d, mg_channels m' !! i = Some d -> ch_state d = BT_L2CAP_CHAN_FREE.
Proof.
  intros (Hdt & Hdc & Hbl & Hbb) Hh Hs Hf. unfold bt_l2cap_channel_manager_init.
  destruct (init_channels_run channel_slots (bt_timer_list_init (mg_timers m)) (mg_channels m))
    as (ts & chs & -> & Hhead & Hdt' & Hdc' & Hspec).
  { intros i Hi. split; by apply (slots_dom _ i). }
  cbn in Hhead, Hdt'. rewrite Hdt in Hdt'. rewrite Hdc in Hdc'. cbn [obind fst snd].
  assert (forall i v d, tl_mem ts !! i = Some v -> chs !! i = Some d ->
    t_pending v = false /\ t_user_data v = i /\ ch_state d = BT_L2CAP_CHAN_FREE) as Hall.
  { intros i v d Hv Hd. apply (Hspec i v d Hv Hd). apply (slots_dom _ i Hdt'). eauto. }
  assert (forall i, is_Some (tl_mem ts !! i) <-> is_Some (chs !! i)) as Hboth.
  { intros i. by rewrite <- !(slots_dom _ i). }
  eexists. split; [done|]. split; [|repeat split; try done].
  2: { intros i d Hd. destruct (proj2 (Hboth i)) as [v Hv]; [eauto|]. by apply (Hall i v d). }
  exists [], []. split; cbn; try done.
  - split; [|split; [constructor|split; [done|]]].
    + split; [constructor|]. split; [done|]. split; [set_solver|]. intros i v Hv.
      destruct (proj1 (Hboth i)) as [d Hd]; [eauto|]. by apply (Hall i v d).
    + intros i v Hv. destruct (proj1 (Hboth i)) as [d Hd]; [eauto|]. by apply (Hall i v d).
  - intros i d Hd _. destruct (proj2 (Hboth i)) as [v Hv]; [eauto|]. destruct (Hall i v d Hv Hd) as (_ & _ & Hst).
    unfold chan_ok, phase_of. by rewrite Hst.
  - split; [done|]. split; [|split; [done|cbn; lia]]. cbn. unfold BT_L2CAP_MAX_ACL_FRAGMENT. rewrite Z.gtb_ltb.
    destruct (Z.ltb_spec 512 frag); cbn; [lia|]. destruct (Z.eqb_spec frag 0); lia.
  - assert (forall i d, chs !! i = Some d -> ~ is_live d) as Hfree.
    { intros i d Hd Hl. destruct (proj2 (Hboth i)) as [v Hv]; [eauto|]. by apply Hl, (Hall i v d). }
    intros _. split; [done|]. split; [intros i d Hd Hl|intros i j d e Hd _ Hl]; by destruct (Hfree i d).
Qed.

(** *** Clients that make no calls *)

Fixpoint silent (p : chprog CB UD C) : Prop :=
  match p with
  | PDone => True
  | PGet k => forall c, silent (k c)
  | PPut _ k => silent k
  | _ => False
  end.

Lemma silent_run run p : silent p -> forall w : W, exists c, run_chprog run p w = (Ret tt, with_client c w).
Proof.
  induction p as [|k IH|c k IH| | | |]; intros Hp w; cbn [silent run_chprog] in *; try done.
  - exists (w_client w). by destruct w.
  - rewrite bind_gets. by apply IH.
  - rewrite (bind_eq (modify _) _ _ _ _ eq_refl). destruct (IH Hp (with_client c w)) as (c' & ->). by exists c'.
Qed.

(** What the client of channel [i] is told when its request expires. *)
Definition timeout_event (chs : gmap loc chan_t) (x : loc * Z) : option chev :=
  (fun c => EFire x.1 {| ei_event := BT_L2CAP_CHANNEL_EVENT_CLOSED; ei_local_cid := ch_local_cid c;
                         ei_close_reason := BT_L2CAP_CLOSE_TIMEOUT; ei_data := None; ei_data_len := 0;
                         ei_now_us := 0 |}) <$> chs !! x.1.

(** A client that makes no calls when a channel closes. *)
Definition silent_client : Prop := forall cb info ud,
  ei_event info = BT_L2CAP_CHANNEL_EVENT_CLOSED -> silent (client_event cb info ud).

Lemma timeout_silent depth i (w : W) c v : silent_client -> mg_channels (w_mgr w) !! i = Some c ->
  tl_mem (mg_timers (w_mgr w)) !! i = Some v -> t_pending v = false ->
  exists w' c' e, rtx_timeout_callback (dispatch (S depth)) i w = (Ret tt, w') /\
    mg_timers (w_mgr w') = mg_timers (w_mgr w) /\ mg_channels (w_mgr w') = <[i := c']> (mg_channels (w_mgr w)) /\
    timeout_event (mg_channels (w_mgr w)) (i, 0) = Some e /\ w_trace w' = w_trace w ++ [e].
Proof.
  intros Hs Hc Hv Hp. unfold rtx_timeout_callback, finish_close.
  erewrite bind_eq; [|by rewrite (hld_spec _ _ _ Hv)]. rewrite Hp, (bind_eq _ _ w tt w eq_refl).
  erewrite bind_eq; [|unfold load; by rewrite (hld_spec _ _ _ Hc)]. cbv zeta.
  assert (forall f d (w : W), mg_channels (w_mgr w) !! i = Some d -> update i f w = (Ret tt, upd i (f d) w)) as Hupd.
  { intros f d w1 Hd. unfold update, load. erewrite bind_eq; [|by rewrite (hld_spec _ _ _ Hd)].
    erewrite bind_eq; [|by rewrite (hst_spec _ _ _ _ Hd)]. done. }
  rewrite (bind_eq _ _ _ _ _ (Hupd _ _ _ Hc)). erewrite bind_eq; [|apply Hupd; cbn; by rewrite lookup_insert_eq].
  unfold fire_event. erewrite bind_eq; [|unfold load; erewrite hld_spec; [done|]; cbn; by rewrite lookup_insert_eq].
  rewrite (bind_eq (modify _) _ _ _ _ eq_refl). cbn [ch_on_event set_pending_identifier set_state ch_user_data].
  unfold timeout_event. cbn [fst]. rewrite Hc. cbn [fmap option_fmap option_map].
  destruct (ch_on_event c) as [cb|].
  - match goal with |- context [dispatch _ cb ?info ?ud ?w] =>
      destruct (silent_run (dispatch depth) (client_event cb info ud) (Hs cb info ud eq_refl) w) as (d & E) end.
    cbn [dispatch]. rewrite E. eexists _, _, _. split; [done|]. split; [done|]. split; [cbn; by rewrite insert_insert_eq|done].
  - eexists _, _, _. split; [done|]. split; [done|]. split; [cbn; by rewrite insert_insert_eq|done].
Qed.

Lemma tick_silent depth now fuel : silent_client -> forall l (w : W), (length (due now l) < fuel)%nat ->
  timers_rep (mg_timers (w_mgr w)) l -> dom (mg_channels (w_mgr w)) = list_to_set channel_slots ->
  exists w', tick_loop (dispatch (S depth)) fuel now w = (Ret tt, w') /\
    w_trace w' = w_trace w ++ omap (timeout_event (mg_channels (w_mgr w))) (due now l).
Proof.
  intros Hs. induction fuel as [|fuel IH]; intros l w Hn Ht Hd; [lia|]. cbn [tick_loop].
  destruct (timers_pop _ _ now Ht) as (ts & E & Ht'). rewrite E. pose proof Ht as ((Hnd & _) & Hsort & _).
  destruct (sp_pop now l).1 as [i|] eqn:Ho.
  2: { eexists. split; [done|]. cbn. rewrite due_nil by done. by rewrite app_nil_r. }
  destruct l as [|x l]; [done|]. simpl in Ho, Ht'. unfold due in *. rewrite filter_cons in *.
  destruct (Z.leb_spec x.2 now); [|done]. rewrite !decide_True in * by lia. injection Ho as <-. simpl in Hn, Ht', Hnd.
  assert (x.1 ∈ channel_slots) as Hi by (eapply rep_slot; [exact Ht|by left]).
  apply NoDup_cons in Hnd as [Hni Hnd].
  destruct (timers_slot _ _ _ Ht' Hi) as [v Hv]. pose proof Ht' as ((_ & _ & _ & Hpe) & _ & _ & Hu).
  destruct (proj1 (slots_dom _ _ Hd) Hi) as [c Hc].
  erewrite bind_eq; [|cbn; by rewrite (hld_spec _ _ _ Hv)]. destruct (t_callback v). rewrite (Hu _ _ Hv).
  destruct (timeout_silent depth x.1 (with_mgr (set_timers ts) w) c v Hs Hc Hv) as (w' & c' & e & E1 & E2 & E3 & E4 & E5).
  { rewrite (Hpe _ _ Hv). by apply bool_decide_eq_false_2. }
  rewrite (bind_eq _ _ _ _ _ E1). destruct (IH l w') as (w2 & -> & Htr); [lia|by rewrite E2| |].
  { rewrite E3. rewrite dom_insert_lookup_L; [done|]. cbn. eauto. }
  exists w2. split; [done|]. rewrite Htr, E5. cbn. unfold timeout_event at 2. cbn in E4. unfold timeout_event in E4. cbn in E4.
  rewrite E4, <- app_assoc. cbn. do 2 f_equal. clear -E3 Hni. cbn in E3.
  induction l as [|y l IH]; [done|]. rewrite filter_cons. simpl in Hni. apply not_elem_of_cons in Hni as [Hy Hni].
  case_decide; [|by apply IH]. cbn. rewrite IH by done. unfold timeout_event. by rewrite E3, lookup_insert_ne by done.
Qed.

(** *** Whole PDUs *)

Lemma header_and_peek_run {A} (m : M bt_buf_reader A) length hb body (h : A) : reads m hb body h ->
  length h = zlen body -> bytes (hb ++ body) -> forall data len, bytes data -> 0 <= len <= zlen data ->
  take (Z.to_nat len) data = hb ++ body ->
  exists r, header_and_peek m length (bt_buf_reader_init data len) = (Ret (h, Some body), r).
Proof.
  intros Hm Hlen Hb data len Hd Hl Ht. unfold header_and_peek.
  pose proof (reader_init_ok data len Hl Hd) as Hok. pose proof (rview_init data len Hl) as Hv. rewrite Ht in Hv.
  destruct (bind_reads m (fun hdr => let! data := bt_buf_reader_peek (length hdr) in ret (hdr, data))
    _ _ _ _ Hm Hok Hv) as (r & E & Hok' & Hv' & _). rewrite E. unfold bind.
  rewrite Hlen, peek_spec by (done || lia). rewrite <- rview_length by done. rewrite Hv', Z.leb_refl.
  rewrite Nat2Z.id, firstn_all. by eexists.
Qed.

(** A signaling command: header and body. *)
Definition command (code identifier : Z) (body : list Z) : list Z :=
  ([u8 code] ++ [u8 identifier] ++ le_enc 2 (zlen body)) ++ body.

Lemma command_run code identifier body : is_byte code -> is_byte identifier -> bytes body -> zlen body < 2 ^ 16 ->
  exists r, header_and_peek bt_l2cap_sig_parse_header sg_length
      (bt_buf_reader_init (command code identifier body) (zlen (command code identifier body))) =
    (Ret ({| sg_code := code; sg_identifier := identifier; sg_length := zlen body |}, Some body), r).
Proof.
  intros Hc Hi Hb Hl. unfold is_byte in *. assert (bytes (command code identifier body)) as Hbc by (unfold command; bys).
  eapply (header_and_peek_run _ _ ([u8 code] ++ [u8 identifier] ++ le_enc 2 (zlen body)) body);
    [|done|done|done|lia|by rewrite Nat2Z.id, firstn_all].
  rewrite !u8_small by lia. apply header_reads; unfold is_byte, is_u16; lia.
Qed.

Lemma pdu_run ra cid payload : ra_rep ra (pdu_of cid payload) -> bytes payload -> 0 <= cid < 2 ^ 16 -> zlen payload <= 1020 ->
  exists r, header_and_peek bt_l2cap_parse_header l2_length (bt_buf_reader_init (ra_buf ra) (ra_have ra)) =
    (Ret ({| l2_length := zlen payload; l2_cid := cid |}, Some payload), r).
Proof.
  intros (Hbl & Hbb & Hh & Hm & Ht & _) Hb Hc Hl.
  eapply (header_and_peek_run _ _ (le_enc 2 (u16 (zlen payload)) ++ le_enc 2 cid) payload); try done; [|bys|lia|].
  - rewrite u16_small by lia. apply parse_header_reads; lia.
  - rewrite Hh, Nat2Z.id. exact Ht.
Qed.

(** *** The link *)

Section Link.
  Variable run : CB -> bt_l2cap_channel_event_info -> UD -> M W unit.

(** The receiving side: each ACL packet's header is parsed and its data fed
    to the manager. *)
Fixpoint deliver (packets : list (list Z)) (now_us : Z) : M W unit :=
  match packets with
  | [] => ret tt
  | p :: packets =>
      match bt_hci_parse_acl_header (bt_buf_reader_init p (zlen p)) with
      | (Ret h, r) =>
          do! bt_l2cap_channel_manager_on_acl run (acl_pb_flag h) (rview r) (acl_data_len h) now_us in
          deliver packets now_us
      | (Fail e, _) => fail e
      | (Fault, _) => lift Fault
      end
  end.

Lemma bind_tt (m : M W unit) w : bind m (fun _ => ret tt) w = m w.
Proof. unfold bind. by destruct (m w) as [[[]| |] w']. Qed.

Lemma receive_nil ps ra ra' : receive_all ps ra = Ret ([], ra') -> ps = [] /\ ra' = ra.
Proof.
  destruct ps as [|p ps]; cbn [receive_all]; [by intros [= ->]|].
  destruct (bt_hci_parse_acl_header _) as [[h|e|] r]; [|done..].
  destruct (bt_l2cap_reassembler_feed _ _ _ _) as [[res|e|] ra1]; [|done..].
  by destruct (receive_all ps ra1).
Qed.

Lemma deliver_complete now k : forall ps (w : W) ra,
  receive_all ps (mg_reassembler (w_mgr w)) =
    Ret (replicate k BT_L2CAP_REASSEMBLY_MORE ++ [BT_L2CAP_REASSEMBLY_COMPLETE], ra) ->
  deliver ps now w = route_pdu run (ra_buf ra) (ra_have ra) now
    (with_mgr (set_reassembler {| ra_buf := ra_buf ra; ra_have := 0; ra_want := 0 |}) w).
Proof.
  induction k as [|k IH]; intros [|p ps] w ra Hr; try done; cbn [receive_all deliver] in *.
  - destruct (bt_hci_parse_acl_header _) as [[h|e|] r]; [|done..].
    destruct (bt_l2cap_reassembler_feed _ _ _ _) as [[res|e|] ra'] eqn:Ef; [|done..].
    destruct (receive_all ps ra') as [[rs ra2]| |] eqn:Ep; [|done..]. injection Hr as -> -> ->.
    apply receive_nil in Ep as [-> ->]. cbn [deliver]. rewrite bind_tt. unfold bt_l2cap_channel_manager_on_acl.
    erewrite bind_eq; [|unfold on_reassembler; by rewrite Ef]. cbn match.
    erewrite bind_eq; [|reflexivity]. reflexivity.
  - destruct (bt_hci_parse_acl_header _) as [[h|e|] r]; [|done..].
    destruct (bt_l2cap_reassembler_feed _ _ _ _) as [[res|e|] ra'] eqn:Ef; [|done..].
    destruct (receive_all ps ra') as [[rs ra2]| |] eqn:Ep; [|done..]. injection Hr as -> -> ->.
    erewrite bind_eq.
    2: { unfold bt_l2cap_channel_manager_on_acl. erewrite bind_eq; [|unfold on_reassembler; by rewrite Ef]. done. }
    cbn match. by rewrite (IH ps (with_mgr (set_reassembler ra') w) ra Ep).
Qed.

(** Exactly one channel passes a test. *)
Lemma find_unique b (w : W) test i c : world_ok b w -> mg_channels (w_mgr w) !! i = Some c -> test c = true ->
  (forall j d, j <> i -> mg_channels (w_mgr w) !! j = Some d -> test d = false) ->
  find_channel test (mg_channels (w_mgr w)) channel_slots = Ret (Some i).
Proof.
  intros Hw Hc Ht Hu. destruct (find_world b w test Hw) as ([j|] & -> & Ho).
  - destruct Ho as (d & pe & (l & acc & _ & Hd & _) & _ & Htd). destruct (decide (j = i)) as [->|Hne]; [done|].
    rewrite (Hu j d Hne Hd) in Htd. done.
  - rewrite (Ho i c Hc) in Ht. done.
Qed.

(** No other channel waits for an answer or has this CID. *)
Definition others_settled (i : loc) (cid : Z) (w : W) : Prop := forall j d, j <> i ->
  mg_channels (w_mgr w) !! j = Some d -> is_live d -> ch_pending_identifier d = 0 /\ ch_local_cid d <> cid.

Lemma others_same i cid w w' : same_but i w w' -> others_settled i cid w -> others_settled i cid w'.
Proof. intros [Hs _] Ho j d Hj Hd. rewrite Hs in Hd by done. exact (Ho j d Hj Hd). Qed.

Lemma same_but_trans i w1 w2 w3 : same_but i w1 w2 -> same_but i w2 w3 -> same_but i w1 w3.
Proof. intros [H1 E1] [H2 E2]. split; [|congruence]. intros j Hj. by rewrite H2, H1. Qed.

(** [live && test] singles out channel [i]. *)
Lemma find_live b w i c (test : chan_t -> bool) : world_ok b w -> mg_channels (w_mgr w) !! i = Some c ->
  is_live c -> test c = true ->
  (forall j d, j <> i -> mg_channels (w_mgr w) !! j = Some d -> is_live d -> test d = false) ->
  find_channel (fun d => negb (bool_decide (ch_state d = BT_L2CAP_CHAN_FREE)) && test d)
    (mg_channels (w_mgr w)) channel_slots = Ret (Some i).
Proof.
  intros Hw Hc Hl Ht Hu. eapply find_unique; [exact Hw|exact Hc| |].
  - rewrite Ht, bool_decide_eq_false_2 by done. done.
  - intros j d Hj Hd. destruct (bool_decide_reflect (ch_state d = BT_L2CAP_CHAN_FREE)); [done|]. exact (Hu j d Hj Hd ltac:(done)).
Qed.

Lemma find_identifier b w i c : world_ok b w -> mg_channels (w_mgr w) !! i = Some c -> is_live c ->
  ch_pending_identifier c <> 0 -> others_settled i (ch_local_cid c) w ->
  find_channel_by_identifier (ch_pending_identifier c) w = (Ret (Some i), w).
Proof.
  intros Hw Hc Hl Hid Ho. unfold find_channel_by_identifier. rewrite (find_live b w i c (fun d => ch_pending_identifier d =? _)); try done.
  - apply Z.eqb_refl.
  - intros j d Hj Hd Hld. destruct (Ho j d Hj Hd Hld) as [-> _]. apply Z.eqb_neq. lia.
Qed.

Lemma find_cid b w i c : world_ok b w -> mg_channels (w_mgr w) !! i = Some c -> is_live c ->
  others_settled i (ch_local_cid c) w ->
  find_channel_by_local_cid (ch_local_cid c) w = (Ret (Some i), w).
Proof.
  intros Hw Hc Hl Ho. unfold find_channel_by_local_cid. rewrite (find_live b w i c (fun d => ch_local_cid d =? _)); try done.
  - apply Z.eqb_refl.
  - intros j d Hj Hd Hld. destruct (Ho j d Hj Hd Hld) as [_ Hne]. by apply Z.eqb_neq.
Qed.

Lemma focus_chan b i w c pe p : focus b i w c pe p -> mg_channels (w_mgr w) !! i = Some c.
Proof. by intros (l & acc & _ & Hc & _). Qed.

(** The peer's command, as its encoder writes it, is what the manager reads. *)
Lemma process_command {A} code identifier enc dec (v : A) p now w : cmd_roundtrip code identifier enc dec v ->
  writes enc p -> is_byte code -> is_byte identifier ->
  exists body, dec body (zlen body) = Ret v /\
    process_signaling_pdu run p (zlen p) now w =
      (if code =? BT_L2CAP_SIG_CONNECTION_RESPONSE then
         handle_connection_response run identifier body (zlen body) now w
       else if code =? BT_L2CAP_SIG_CONFIGURE_REQUEST then
         handle_configure_request run identifier body (zlen body) w
       else if code =? BT_L2CAP_SIG_CONFIGURE_RESPONSE then
         handle_configure_response run identifier body (zlen body) w
       else process_signaling_pdu run p (zlen p) now w).
Proof.
  intros (body & Hb & Hl & Hw & Hd) Hp Hc Hi. exists body. split; [done|].
  rewrite (writes_unique _ _ _ Hp Hw). destruct (command_run code identifier body) as (r & E); [done..|].
  unfold process_signaling_pdu. fold (command code identifier body). rewrite E. cbn [sg_code sg_identifier sg_length].
  by repeat match goal with |- context [if ?x then _ else _] => destruct x end.
Qed.

(** Channel [i] between two steps of the handshake. *)
Definition ready (i : loc) (w : W) (c : chan_t) (pe : bool) : Prop :=
  focus None i w c pe (Some (phase_of c)) /\ chan_ok c pe /\ others_settled i (ch_local_cid c) w.

Lemma ready_identifier i w c pe : ready i w c pe -> is_live c -> ch_pending_identifier c <> 0 ->
  find_channel_by_identifier (ch_pending_identifier c) w = (Ret (Some i), w).
Proof.
  intros (Hf & Hok & Ho) Hl Hid. apply (find_identifier None w i c); try done; [by eapply unfocus|by eapply focus_chan].
Qed.

Lemma ready_cid i w c pe : ready i w c pe -> is_live c ->
  find_channel_by_local_cid (ch_local_cid c) w = (Ret (Some i), w).
Proof.
  intros (Hf & Hok & Ho) Hl. apply (find_cid None w i c); try done; [by eapply unfocus|by eapply focus_chan].
Qed.

Lemma connection_response_step i w c p dcid scid status now : ready i w c true ->
  ch_state c = BT_L2CAP_CHAN_WAIT_CONNECT_RSP -> is_byte (ch_pending_identifier c) ->
  is_u16 dcid -> is_u16 scid -> is_u16 status ->
  writes (bt_l2cap_sig_encode_connection_response (ch_pending_identifier c) dcid scid 0 status) p ->
  exists w' c', process_signaling_pdu run p (zlen p) now w = (Ret tt, w') /\
    c' = set_pending_identifier (mg_next_identifier (w_mgr w)) (set_state BT_L2CAP_CHAN_CONFIG (set_remote_cid dcid c)) /\
    0 < mg_next_identifier (w_mgr w) < 2 ^ 8 /\ ready i w' c' true /\ same_but i w w'.
Proof.
  intros Hr Hs Hid Hd Hsc Hst Hp. assert (is_live c) as Hl by (unfold is_live; by rewrite Hs).
  destruct (process_command _ _ _ _ _ p now w (connection_response_roundtrip _ dcid scid 0 status Hd Hsc ltac:(done) Hst) Hp
    ltac:(done) Hid) as (body & Hdec & ->). cbn [Z.eqb Pos.eqb BT_L2CAP_SIG_CONNECTION_RESPONSE].
  pose proof Hr as (Hf & Hok & Ho). unfold chan_ok in Hok. rewrite Hs in Hok. destruct Hok as (_ & Hne & Hfix & Hout & Hin).
  unfold handle_connection_response.
  rewrite (bind_eq _ _ _ _ _ (ready_identifier _ _ _ _ Hr Hl Hne)), (bind_eq _ _ _ _ _ (focus_load _ _ _ _ _ _ Hf)).
  rewrite decide_False by naive_solver. erewrite bind_eq; [|unfold try, lift; by rewrite Hdec]. cbn [cp_result].
  change (0 =? BT_L2CAP_CONN_RESULT_PENDING) with false. change (0 =? BT_L2CAP_CONN_RESULT_SUCCESS) with true. cbn [negb].
  destruct (focus_cancel _ _ _ _ _ _ Hf) as (ts & E1 & F1). rewrite (bind_eq _ _ _ _ _ E1).
  match goal with |- context [connection_accepted i ?rsp now _] =>
    destruct (connection_accepted_run None _ _ _ _ rsp now F1 Hl I) as (w' & E2 & Hn & F2 & Hsb) end.
  eexists w', _. split; [exact E2|]. split; [done|]. split; [exact Hn|].
  assert (same_but i w w') as Hsb' by (eapply same_but_trans; [|exact Hsb]; done).
  split; [|done]. split; [|split].
  - unfold phase_of in F2. rewrite Hs in F2. exact F2.
  - unfold chan_ok. cbn in Hn |- *. rewrite Hout. repeat split; try done; lia.
  - by eapply others_same.
Qed.

Lemma configure_request_step i w c pe p id flags mtu now : ready i w c pe -> ch_state c = BT_L2CAP_CHAN_CONFIG ->
  is_byte id -> is_u16 (ch_local_cid c) -> is_u16 flags -> is_u16 mtu ->
  writes (bt_l2cap_sig_encode_configure_request id (ch_local_cid c) flags mtu) p ->
  exists w' c', process_signaling_pdu run p (zlen p) now w = open_if run i (ch_outbound_config_done c) w' /\
    c' = set_config_done (ch_outbound_config_done c) true (if mtu =? 0 then c else set_remote_mtu mtu c) /\
    focus None i w' c' pe (Some (phase_of c)) /\ same_but i w w' /\ others_settled i (ch_local_cid c) w'.
Proof.
  intros Hr Hs Hid Hcid Hfl Hmtu Hp. assert (is_live c) as Hl by (unfold is_live; by rewrite Hs).
  destruct (process_command _ _ _ _ _ p now w (configure_request_roundtrip _ _ flags mtu Hcid Hfl Hmtu) Hp
    ltac:(done) Hid) as (body & Hdec & ->). cbn [Z.eqb Pos.eqb BT_L2CAP_SIG_CONNECTION_RESPONSE BT_L2CAP_SIG_CONFIGURE_REQUEST].
  pose proof Hr as (Hf & Hok & Ho). unfold handle_configure_request.
  erewrite bind_eq; [|unfold try, lift; by rewrite Hdec]. cbn [fq_destination_cid].
  rewrite (bind_eq _ _ _ _ _ (ready_cid _ _ _ _ Hr Hl)), (bind_eq _ _ _ _ _ (focus_load _ _ _ _ _ _ Hf)).
  rewrite decide_False by naive_solver.
  match goal with |- context [accept_configuration run ?id i ?req _] =>
    destruct (accept_configuration_run run None _ _ _ _ _ id req Hf Hl) as (w' & E & F & Hsb) end.
  eexists w', _. split; [exact E|]. split; [done|]. split; [|split; [done|by eapply others_same]].
  unfold with_mtu in F. cbn [fq_has_mtu fq_mtu] in F. by destruct (mtu =? 0).
Qed.

Lemma configure_response_step i w c p scid flags mtu now : ready i w c true -> ch_state c = BT_L2CAP_CHAN_CONFIG ->
  is_byte (ch_pending_identifier c) -> ch_pending_identifier c <> 0 -> is_u16 scid -> is_u16 flags -> is_u16 mtu ->
  writes (bt_l2cap_sig_encode_configure_response (ch_pending_identifier c) scid flags 0 mtu) p ->
  exists w' c', process_signaling_pdu run p (zlen p) now w = open_if run i (ch_inbound_config_done c) w' /\
    c' = set_config_done true (ch_inbound_config_done c) (set_pending_identifier 0 c) /\
    focus None i w' c' false (Some (phase_of c)) /\ same_but i w w' /\ others_settled i (ch_local_cid c) w'.
Proof.
  intros Hr Hs Hid Hne Hcid Hfl Hmtu Hp. assert (is_live c) as Hl by (unfold is_live; by rewrite Hs).
  destruct (process_command _ _ _ _ _ p now w (configure_response_roundtrip _ _ flags 0 mtu Hcid Hfl ltac:(done) Hmtu) Hp
    ltac:(done) Hid) as (body & Hdec & ->).
  cbn [Z.eqb Pos.eqb BT_L2CAP_SIG_CONNECTION_RESPONSE BT_L2CAP_SIG_CONFIGURE_REQUEST BT_L2CAP_SIG_CONFIGURE_RESPONSE].
  pose proof Hr as (Hf & Hok & Ho). unfold handle_configure_response.
  rewrite (bind_eq _ _ _ _ _ (ready_identifier _ _ _ _ Hr Hl Hne)), (bind_eq _ _ _ _ _ (focus_load _ _ _ _ _ _ Hf)).
  rewrite decide_False by naive_solver. erewrite bind_eq; [|unfold try, lift; by rewrite Hdec]. cbn [fp_result].
  destruct (focus_cancel _ _ _ _ _ _ Hf) as (ts & E1 & F1). rewrite (bind_eq _ _ _ _ _ E1).
  destruct (focus_set _ _ _ _ _ _ (set_pending_identifier 0) F1) as [E2 F2]; [done..|]. rewrite (bind_eq _ _ _ _ _ E2).
  change (0 =? BT_L2CAP_CONFIG_RESULT_SUCCESS) with true. cbn [negb].
  destruct (configuration_accepted_run run None _ _ _ _ _ F2 Hl) as (w' & E3 & F3 & Hsb).
  assert (same_but i w w') as Hsb'.
  { eapply same_but_trans; [|exact Hsb]. split; [|done]. intros j Hj. cbn. by rewrite lookup_insert_ne. }
  eexists w', _. split; [exact E3|]. split; [done|]. split; [exact F3|]. split; [done|by eapply others_same].
Qed.

Definition opened_info (cid : Z) : bt_l2cap_channel_event_info :=
  {| ei_event := BT_L2CAP_CHANNEL_EVENT_OPENED; ei_local_cid := cid; ei_close_reason := BT_L2CAP_CLOSE_LOCAL;
     ei_data := None; ei_data_len := 0; ei_now_us := 0 |}.

Lemma open_fires i w c pe p : focus None i w c pe p -> is_live c ->
  exists w', open_if run i true w = fire_event run i (opened_info (ch_local_cid c)) w' /\
    focus None i w' (set_state BT_L2CAP_CHAN_OPEN c) pe p /\ same_but i w w'.
Proof.
  intros Hf Hl. unfold open_if.
  destruct (focus_set _ _ _ _ _ _ (set_state BT_L2CAP_CHAN_OPEN) Hf) as [E F]; [done..|].
  rewrite (bind_eq _ _ _ _ _ E). unfold fire_opened. rewrite (bind_eq _ _ _ _ _ (focus_load _ _ _ _ _ _ F)).
  eexists. split; [done|]. split; [exact F|]. split; [|done]. intros j Hj. cbn. by rewrite lookup_insert_ne.
Qed.

End Link.

(** ** Properties *)

(** C3.  The channel life cycle holds.  From any memory and configuration,
    through any sequence of calls and inbound ACL bytes, with a transport that
    fails as it likes and clients whose callbacks call back into the manager
    (open, open_fixed, close, send), nested to any fixed depth, and, during a
    tick, only open or close with times whose request timeout is still to come
    at that tick ([api_ok]; a client that reopens its channel with a time of
    more than 60 s ago keeps a tick of the code busy, see
    [reopening_keeps_tick_busy]): every call returns without touching memory
    outside its objects; each channel's client sees OPENED at most once per
    open, DATA only between OPENED and its close request, CLOSED once, when the
    channel ends, all with the channel's CID; and after every call a request is
    outstanding exactly when the channel's timer runs and its identifier is set. *)
Theorem channel_lifecycle : forall m handle sig frag (c : C) (t : T) depth l,
  memory_ok m -> 0 <= handle < 2 ^ 12 -> 0 <= sig < 2 ^ 16 -> 0 <= frag -> Forall (api_ok depth) l ->
  exists m' w, bt_l2cap_channel_manager_init m handle sig frag = Ret m' /\
    run_apis depth l (start m' c t) = (Ret tt, w) /\
    forall i, i ∈ channel_slots -> exists d v,
      mg_channels (w_mgr w) !! i = Some d /\ tl_mem (mg_timers (w_mgr w)) !! i = Some v /\
      lifecycle i (w_trace w) = Some (phase_of d) /\ chan_ok d (t_pending v).
Proof.
  intros m handle sig frag c t depth l Hm Hh Hs Hf Hl.
  destruct (channel_init_ok m handle sig frag c t Hm Hh Hs Hf) as (m' & E & Hw & _).
  destruct (run_apis_ok depth l Hl _ Hw) as [[[] Ha] Hw']. exists m', (run_apis depth l (start m' c t)).2.
  split; [done|]. split; [rewrite <- Ha; apply surjective_pairing|]. revert Hw'. generalize (run_apis depth l (start m' c t)).2.
  intros w Hw' i Hi. destruct (refocus _ _ _ Hw' Hi) as (d & pe & Hfoc & Hok).
  destruct (focus_pending _ _ _ _ _ _ Hfoc) as (v & Hv & <-). destruct Hfoc as (l' & acc & Hg & Hd & _ & Hlife).
  exists d, v. split; [done|]. split; [|done]. unfold hld in Hv. destruct (tl_mem _ !! i); [by injection Hv as ->|done].
Qed.

(** C18.  Channel identifiers are unique.  As long as at most 65472 dynamic
    CIDs have been allocated (the range has not wrapped around) and only CIDs
    below 0x40 are registered as fixed, no two live channels have the same
    local CID, whatever the calls, the inbound data and the callbacks were. *)
Theorem channel_cids_unique : forall m handle sig frag (c : C) (t : T) depth l,
  memory_ok m -> 0 <= handle < 2 ^ 12 -> 0 <= sig < 2 ^ 16 -> 0 <= frag -> Forall (api_ok depth) l ->
  exists m' w, bt_l2cap_channel_manager_init m handle sig frag = Ret m' /\
    run_apis depth l (start m' c t) = (Ret tt, w) /\
    (cids_orderly (w_trace w) -> forall i j ci cj,
       mg_channels (w_mgr w) !! i = Some ci -> mg_channels (w_mgr w) !! j = Some cj ->
       ch_state ci <> BT_L2CAP_CHAN_FREE -> ch_state cj <> BT_L2CAP_CHAN_FREE ->
       ch_local_cid ci = ch_local_cid cj -> i = j).
Proof.
  intros m handle sig frag c t depth l Hm Hh Hs Hf Hl.
  destruct (channel_init_ok m handle sig frag c t Hm Hh Hs Hf) as (m' & E & Hw & _).
  destruct (run_apis_ok depth l Hl _ Hw) as [[[] Ha] (l' & acc & Hg)]. exists m', (run_apis depth l (start m' c t)).2.
  split; [done|]. split; [rewrite <- Ha; apply surjective_pairing|]. intros Ho. by apply (g_cids _ _ _ _ _ Hg).
Qed.

(** C27.  Requests do not stay outstanding past their timeout.  A tick returns
    however the CLOSED callbacks reopen channels, keeps the invariant, and
    leaves no timer that is due; with clients whose CLOSED callbacks make no
    calls it closes exactly the channels that are due, in order of expiry,
    each with reason TIMEOUT. *)
Theorem channel_tick_expires : forall depth now (w : W), world_ok None w ->
  calm (fun t => now < u64 (t + BT_L2CAP_RTX_TIMEOUT_US)) (S depth) BT_L2CAP_CHANNEL_EVENT_CLOSED ->
  exists w' l, bt_l2cap_channel_manager_tick (dispatch (S depth)) now w = (Ret tt, w') /\ world_ok None w' /\
    (forall i v, tl_mem (mg_timers (w_mgr w')) !! i = Some v -> t_pending v = true -> now < t_expiry_us v) /\
    timers_rep (mg_timers (w_mgr w)) l /\
    (silent_client -> w_trace w' = w_trace w ++ omap (timeout_event (mg_channels (w_mgr w))) (due now l)).
Proof.
  intros depth now w Hw Hc. pose proof Hw as (l & acc & Hg).
  destruct (channel_tick_ok (dispatch (S depth)) now w Hw) as [[[] Ha] Hw'].
  { intros n. eapply dispatch_ok; [|exact Hc]. done. }
  exists (bt_l2cap_channel_manager_tick (dispatch (S depth)) now w).2, l.
  split; [rewrite <- Ha; apply surjective_pairing|]. split; [by eapply world_unbound|].
  split; [|split; [apply Hg|]].
  - intros i v Hv Hp. destruct Hw' as (l' & acc' & [[Hr _] Hdue _ _ _ _ _]).
    destruct (Z.le_gt_cases (t_expiry_us v) now) as [Hle|]; [|lia]. exfalso.
    pose proof (rep_pending _ _ _ _ Hr Hv Hp) as Hin.
    assert ((i, t_expiry_us v) ∈ due now l') as Hd by (apply list_elem_of_filter; done).
    unfold due_ok in Hdue. destruct (due now l'); [set_solver|simpl in Hdue; lia].
  - intros Hs. destruct (tick_silent depth now 9 Hs l w) as (w2 & E & Htr); [|apply Hg|apply Hg|].
    + pose proof (due_length _ _ now (g_timers _ _ _ _ _ Hg)) as Hd. simpl in Hd. lia.
    + unfold bt_l2cap_channel_manager_tick. change (S (Z.to_nat BT_L2CAP_CHANNEL_MANAGER_MAX_CHANNELS)) with 9%nat.
      by rewrite E.
Qed.

(** What the handshake makes of a waiting channel. *)
Definition configured (c c' : chan_t) (dcid mtu : Z) : Prop :=
  ch_state c' = BT_L2CAP_CHAN_OPEN /\ ch_remote_cid c' = dcid /\
  ch_remote_mtu c' = (if mtu =? 0 then ch_remote_mtu c else mtu) /\ ch_pending_identifier c' = 0 /\
  ch_local_cid c' = ch_local_cid c /\ ch_local_mtu c' = ch_local_mtu c /\ ch_psm c' = ch_psm c /\
  ch_on_event c' = ch_on_event c /\ ch_user_data c' = ch_user_data c.

(** [m] fires OPENED, as its last act, from a state in which channel [i] alone
    has changed, from [c] to its configured value. *)
Definition opens (run : CB -> bt_l2cap_channel_event_info -> UD -> M W unit) (i : loc) (w : W) (c : chan_t)
    (dcid mtu : Z) (m : M W unit) : Prop :=
  exists w' c', m w = fire_event run i (opened_info (ch_local_cid c)) w' /\
    mg_channels (w_mgr w') !! i = Some c' /\ configured c c' dcid mtu /\ same_but i w w'.

(** A channel that has sent its Configure Request. *)
Definition configuring (i : loc) (w : W) (c : chan_t) : Prop :=
  ready i w c true /\ ch_state c = BT_L2CAP_CHAN_CONFIG /\ is_byte (ch_pending_identifier c) /\
  ch_pending_identifier c <> 0 /\ ch_outbound_config_done c = false /\ ch_inbound_config_done c = false /\
  ch_is_fixed c = false /\ is_u16 (ch_local_cid c).

Lemma response_then_request run i w c now rid flags mtu scid' flags' mtu' p_req p_rsp : configuring i w c ->
  is_byte rid -> is_u16 flags -> is_u16 mtu -> is_u16 scid' -> is_u16 flags' -> is_u16 mtu' ->
  writes (bt_l2cap_sig_encode_configure_request rid (ch_local_cid c) flags mtu) p_req ->
  writes (bt_l2cap_sig_encode_configure_response (ch_pending_identifier c) scid' flags' 0 mtu') p_rsp ->
  opens run i w c (ch_remote_cid c) mtu
    (do! process_signaling_pdu run p_rsp (zlen p_rsp) now in process_signaling_pdu run p_req (zlen p_req) now).
Proof.
  intros (Hr & Hs & Hid & Hne & Hout & Hin & Hfix & Hcid) Hrid Hfl Hmtu Hsc' Hfl' Hmtu' P2 P3.
  destruct (configure_response_step run i w c p_rsp scid' flags' mtu' now) as (w2 & c2 & E2 & Ec2 & F2 & Hsb2 & Ho2);
    [done..|]. rewrite Hin in E2, Ec2. unfold opens. rewrite (bind_eq _ _ _ _ _ E2).
  assert (ready i w2 c2 false) as Hr2.
  { subst c2. split; [exact F2|]. split; [|exact Ho2]. unfold chan_ok. cbn. by rewrite Hs. }
  destruct (configure_request_step run i w2 c2 false p_req rid flags mtu now Hr2) as (w3 & c3 & E3 & Ec3 & F3 & Hsb3 & Ho3);
    [by subst c2|done|by subst c2|done|done|by subst c2|].
  assert (ch_outbound_config_done c2 = true) as Hout2 by by subst c2. rewrite Hout2 in E3, Ec3.
  destruct (open_fires run i w3 c3 false _ F3) as (w4 & E4 & F4 & Hsb4).
  { unfold is_live. subst c3 c2. destruct (mtu =? 0); cbn; by rewrite Hs. }
  exists w4, (set_state BT_L2CAP_CHAN_OPEN c3). rewrite E3, E4. split; [|split; [by eapply focus_chan|split]].
  - f_equal. f_equal. subst c3 c2. by destruct (mtu =? 0).
  - subst c3 c2. unfold configured. by destruct (mtu =? 0).
  - eauto using same_but_trans.
Qed.

Lemma request_then_response run i w c now rid flags mtu scid' flags' mtu' p_req p_rsp : configuring i w c ->
  is_byte rid -> is_u16 flags -> is_u16 mtu -> is_u16 scid' -> is_u16 flags' -> is_u16 mtu' ->
  writes (bt_l2cap_sig_encode_configure_request rid (ch_local_cid c) flags mtu) p_req ->
  writes (bt_l2cap_sig_encode_configure_response (ch_pending_identifier c) scid' flags' 0 mtu') p_rsp ->
  opens run i w c (ch_remote_cid c) mtu
    (do! process_signaling_pdu run p_req (zlen p_req) now in process_signaling_pdu run p_rsp (zlen p_rsp) now).
Proof.
  intros (Hr & Hs & Hid & Hne & Hout & Hin & Hfix & Hcid) Hrid Hfl Hmtu Hsc' Hfl' Hmtu' P2 P3.
  destruct (configure_request_step run i w c true p_req rid flags mtu now Hr) as (w2 & c2 & E2 & Ec2 & F2 & Hsb2 & Ho2);
    [done..|]. rewrite Hout in E2, Ec2. unfold opens. rewrite (bind_eq _ _ _ _ _ E2).
  assert (ch_state c2 = BT_L2CAP_CHAN_CONFIG /\ ch_pending_identifier c2 = ch_pending_identifier c /\
    ch_local_cid c2 = ch_local_cid c /\ ch_inbound_config_done c2 = true /\ ch_outbound_config_done c2 = false /\
    ch_is_fixed c2 = false /\ phase_of c2 = phase_of c)
    as (Hs2 & Hid2 & Hcid2 & Hin2 & Hout2 & Hfix2 & Hph2) by (subst c2; by destruct (mtu =? 0)).
  assert (ready i w2 c2 true) as Hr2.
  { split; [by rewrite Hph2|]. split; [|by rewrite Hcid2]. unfold chan_ok. by rewrite Hs2, Hout2, Hin2, Hid2. }
  rewrite <- Hid2 in P3.
  destruct (configure_response_step run i w2 c2 p_rsp scid' flags' mtu' now) as (w3 & c3 & E3 & Ec3 & F3 & Hsb3 & Ho3);
    [done|done|by rewrite Hid2|by rewrite Hid2|done|done|done|done|]. rewrite Hin2 in E3, Ec3.
  destruct (open_fires run i w3 c3 false _ F3) as (w4 & E4 & F4 & Hsb4); [unfold is_live; subst c3; cbn; by rewrite Hs2|].
  exists w4, (set_state BT_L2CAP_CHAN_OPEN c3). rewrite E3, E4. split; [|split; [by eapply focus_chan|split]].
  - f_equal. f_equal. subst c3. cbn. congruence.
  - subst c3 c2. unfold configured. by destruct (mtu =? 0).
  - eauto using same_but_trans.
Qed.

Lemma opens_after run i w c w1 c1 dcid mtu (m1 m2 : M W unit) : m1 w = (Ret tt, w1) -> same_but i w w1 ->
  (forall c', configured c1 c' (ch_remote_cid c1) mtu -> configured c c' dcid mtu) ->
  ch_local_cid c1 = ch_local_cid c -> opens run i w1 c1 (ch_remote_cid c1) mtu m2 ->
  opens run i w c dcid mtu (do! m1 in m2).
Proof.
  intros E Hsb Hc Hcid (w' & c' & E' & Hc' & Hcf & Hsb'). exists w', c'. rewrite (bind_eq _ _ _ _ _ E), E', Hcid.
  split; [done|]. split; [done|]. split; [by apply Hc|]. by eapply same_but_trans.
Qed.

(** C9.  The handshake opens the channel.  A channel that waits for its
    connection response is taken by the peer's successful Connection Response,
    Configure Request and Configure Response (the bytes their encoders write,
    whatever CIDs, flags and MTU they carry), in either order of the last two,
    to OPEN, with the peer's CID and MTU; no event fires before, and the call
    that completes the handshake fires OPENED, from a state in which only this
    channel has changed.  The other channels may be live, if none waits for an
    answer or shares the CID. *)
Theorem channel_handshake : forall run (w : W) i c now dcid scid status rid flags mtu scid' flags' mtu' p_conn p_req p_rsp,
  world_ok None w -> mg_channels (w_mgr w) !! i = Some c -> ch_state c = BT_L2CAP_CHAN_WAIT_CONNECT_RSP ->
  others_settled i (ch_local_cid c) w ->
  is_byte (ch_pending_identifier c) -> is_u16 (ch_local_cid c) -> is_byte rid ->
  is_u16 dcid -> is_u16 scid -> is_u16 status -> is_u16 flags -> is_u16 mtu ->
  is_u16 scid' -> is_u16 flags' -> is_u16 mtu' ->
  writes (bt_l2cap_sig_encode_connection_response (ch_pending_identifier c) dcid scid 0 status) p_conn ->
  writes (bt_l2cap_sig_encode_configure_request rid (ch_local_cid c) flags mtu) p_req ->
  writes (bt_l2cap_sig_encode_configure_response (mg_next_identifier (w_mgr w)) scid' flags' 0 mtu') p_rsp ->
  let recv p := process_signaling_pdu run p (zlen p) now in
  opens run i w c dcid mtu (do! recv p_conn in do! recv p_rsp in recv p_req) /\
  opens run i w c dcid mtu (do! recv p_conn in do! recv p_req in recv p_rsp).
Proof.
  intros run w i c now dcid scid status rid flags mtu scid' flags' mtu' p_conn p_req p_rsp Hw Hc Hs Ho Hid Hcid Hrid
    Hd Hsc Hst Hfl Hmtu Hsc' Hfl' Hmtu' P1 P2 P3 recv.
  assert (ready i w c true) as Hr.
  { destruct (refocus None w i Hw) as (d & pe & Hf & Hok).
    { destruct Hw as (l & acc & Hg). apply (slots_dom _ _ (g_dom _ _ _ _ _ Hg)). eauto. }
    pose proof (focus_chan _ _ _ _ _ _ Hf) as Hd'. rewrite Hc in Hd'. injection Hd' as <-.
    assert (pe = true) as -> by (unfold chan_ok in Hok; rewrite Hs in Hok; by destruct Hok). done. }
  destruct (connection_response_step run i w c p_conn dcid scid status now Hr Hs Hid Hd Hsc Hst P1)
    as (w1 & c1 & E1 & Ec1 & Hn & Hr1 & Hsb1).
  assert (configuring i w1 c1) as Hcf.
  { destruct Hr as (_ & Hok & _). unfold chan_ok in Hok. rewrite Hs in Hok. split; [done|]. subst c1. cbn. unfold is_byte.
    repeat split; try tauto; lia || apply Hcid. }
  assert (ch_pending_identifier c1 = mg_next_identifier (w_mgr w) /\ ch_local_cid c1 = ch_local_cid c) as [Hid1 Hcid1] by by subst c1.
  rewrite <- Hid1 in P3. rewrite <- Hcid1 in P2.
  assert (forall c', configured c1 c' (ch_remote_cid c1) mtu -> configured c c' dcid mtu) as Hconf by by subst c1.
  split; (eapply opens_after; [exact E1|exact Hsb1|exact Hconf|exact Hcid1|]);
    [by apply (response_then_request _ _ _ _ _ rid flags mtu scid' flags' mtu')
    |by apply (request_then_response _ _ _ _ _ rid flags mtu scid' flags' mtu')].
Qed.

(** C23.  Data crosses the link.  [send] on an OPEN channel hands the transport
    ACL packets, in order and up to the first it refuses, such that a peer
    manager that receives them, in whatever state its reassembler is, routes
    exactly the bytes sent to the channel with that CID: one DATA event with
    those bytes, and a reassembler left idle. *)
Theorem channel_data_roundtrip : forall (wA : W) i c data,
  world_ok None wA -> bytes data -> zlen data <= BT_L2CAP_MAX_SEND_LEN ->
  find_channel_by_local_cid (ch_local_cid c) wA = (Ret (Some i), wA) -> mg_channels (w_mgr wA) !! i = Some c ->
  ch_state c = BT_L2CAP_CHAN_OPEN -> 0 <= ch_remote_cid c < 2 ^ 16 ->
  exists ps, bt_l2cap_channel_manager_send (ch_local_cid c) data (zlen data) wA = send_all ps wA /\
    forall run (wB : W) j d now, world_ok None wB ->
      find_channel_by_local_cid (ch_remote_cid c) wB = (Ret (Some j), wB) -> mg_channels (w_mgr wB) !! j = Some d ->
      ch_state d = BT_L2CAP_CHAN_OPEN -> ch_remote_cid c <> mg_signaling_cid (w_mgr wB) ->
      exists ra, ra_rep ra [] /\
        deliver run ps now wB =
          fire_event run j {| ei_event := BT_L2CAP_CHANNEL_EVENT_DATA; ei_local_cid := ch_local_cid d;
                              ei_close_reason := BT_L2CAP_CLOSE_LOCAL; ei_data := Some data;
                              ei_data_len := zlen data; ei_now_us := now |}
            (with_mgr (set_reassembler ra) wB).
Proof.
  intros wA i c data HwA Hb Hl Hfind Hc Hs Hcid. unfold BT_L2CAP_MAX_SEND_LEN in Hl.
  pose proof HwA as (l & acc & Hg).
  destruct (send_fragmented_run wA (pdu_of (ch_remote_cid c) data) (g_config _ _ _ _ _ Hg)) as (ps & Hsend & Hrec);
    [apply pdu_of_ok; [done|lia]|].
  exists ps. split.
  { unfold bt_l2cap_channel_manager_send. rewrite Z.gtb_ltb, (proj2 (Z.ltb_ge _ _)) by (unfold BT_L2CAP_MAX_SEND_LEN; lia).
    rewrite (bind_eq _ _ _ _ _ Hfind). erewrite bind_eq; [|unfold load; by rewrite (hld_spec _ _ _ Hc)].
    rewrite decide_False by naive_solver.
    erewrite bind_eq; [|apply encode_run; [apply pdu_writes|]; unfold pdu_of, BT_L2CAP_HEADER_LEN, BT_L2CAP_MAX_SEND_LEN;
      rewrite !length_app, !le_enc_length; lia].
    cbn [fst snd]. by rewrite decide_False by naive_solver. }
  intros run wB j d now HwB HfindB Hd HsB Hsig. pose proof HwB as (lB & accB & HgB).
  destruct (Hrec _ _ (g_ra _ _ _ _ _ HgB)) as (k & ra & Hall & Hra).
  rewrite (deliver_complete run now k ps wB ra Hall). pose proof Hra as (Hbl & Hbb & _).
  exists {| ra_buf := ra_buf ra; ra_have := 0; ra_want := 0 |}. split; [by apply (ra_idle ra)|].
  unfold route_pdu. destruct (pdu_run ra (ch_remote_cid c) data Hra Hb Hcid ltac:(lia)) as (r & ->).
  rewrite bind_gets. cbn [l2_cid]. rewrite (proj2 (Z.eqb_neq _ _)) by done.
  unfold find_channel_by_local_cid in *. injection HfindB as EB.
  erewrite bind_eq; [|cbn; by rewrite EB]. cbn match. erewrite bind_eq; [|unfold load; cbn; by rewrite (hld_spec _ _ _ Hd)].
  by rewrite decide_True by done.
Qed.

End Machine.

(** ** A client, a transport and two links *)

Module ChannelDemo.

(** Sends on OPENED, answers DATA and closes, reopens on CLOSED; the state
    counts the DATA events. *)
Definition on_event (info : bt_l2cap_channel_event_info) : chprog unit unit Z :=
  match ei_event info with
  | BT_L2CAP_CHANNEL_EVENT_OPENED => PSend (ei_local_cid info) [1; 2] 0 (fun _ => PDone)
  | BT_L2CAP_CHANNEL_EVENT_DATA =>
      PGet (fun n => PPut (n + 1)
        (PSend (ei_local_cid info) [3] 0 (fun _ => PClose (ei_local_cid info) (ei_now_us info) PDone)))
  | BT_L2CAP_CHANNEL_EVENT_CLOSED => POpen 17 0 None tt 1000000000 (fun _ => PDone)
  end.

#[local] Instance demo_client : ChannelClient unit unit Z := {| client_event := fun _ info _ => on_event info |}.

(** Accepts and keeps the first [fst t] packets. *)
#[local] Instance demo_transport : AclTransport (nat * list (list Z)) :=
  {| send_acl t p := match t.1 with O => (1, t) | S n => (0, (n, t.2 ++ [p])) end |}.

Abbreviation demo_world := (world unit unit Z (nat * list (list Z))).

Definition idle_channel : bt_l2cap_channel unit unit :=
  {| ch_state := BT_L2CAP_CHAN_OPEN; ch_is_fixed := false; ch_psm := 0; ch_local_cid := 0; ch_remote_cid := 0;
     ch_local_mtu := 0; ch_remote_mtu := 0; ch_outbound_config_done := false; ch_inbound_config_done := false;
     ch_pending_identifier := 0; ch_on_event := None; ch_user_data := tt |}.

Definition idle_timer : bt_timer rtx_fn loc :=
  {| t_next := None; t_expiry_us := 0; t_callback := Rtx_timeout_callback; t_user_data := 1%positive; t_pending := true |}.

(** Memory with whatever is in it. *)
Definition demo_memory : bt_l2cap_channel_manager unit unit :=
  {| mg_timers := {| tl_head := Some 1%positive; tl_mem := list_to_map ((fun i => (i, idle_timer)) <$> channel_slots) |};
     mg_handle := 0; mg_signaling_cid := 0; mg_acl_frag_size := 0; mg_reassembler := idle_reassembler;
     mg_channels := list_to_map ((fun i => (i, idle_channel)) <$> channel_slots);
     mg_next_local_cid := 0; mg_next_identifier := 0 |}.

Lemma channel_demo_memory_ok : memory_ok demo_memory.
Proof.
  split; [vm_compute; reflexivity|]. split; [vm_compute; reflexivity|]. split; [vm_compute; reflexivity|].
  apply (Forall_replicate is_byte 1024 0). unfold is_byte. lia.
Qed.

Definition run_demo (budget : nat) (l : list (api (CB := unit) (UD := unit))) : demo_world :=
  match bt_l2cap_channel_manager_init demo_memory 64 1 27 with
  | Ret m => (run_apis 2 l (start m 0 (budget, []))).2
  | _ => start demo_memory 0 (budget, [])
  end.

Lemma demo_calm (ck : Z -> Prop) e : ck 1000000000 -> (forall now, ck now \/ e <> BT_L2CAP_CHANNEL_EVENT_DATA) -> calm ck 2 e.
Proof.
  intros Hck Hd cb info ud He. cbn. unfold on_event. rewrite He. destruct e; cbn.
  - split; [concrete_bytes|done].
  - done.
  - intros c. split; [concrete_bytes|]. intros _. split; [|split; [|done]].
    + intros cb' info' ud' He'. cbn. unfold on_event. by rewrite He'.
    + by destruct (Hd (ei_now_us info)).
Qed.

(** The peer's packets: Connection Response, Configure Response, Configure
    Request, data. *)
Definition conn_rsp : list Z := [12; 0; 1; 0; 3; 1; 8; 0; 80; 0; 64; 0; 0; 0; 0; 0].
Definition conf_rsp : list Z := [10; 0; 1; 0; 5; 2; 6; 0; 64; 0; 0; 0; 0; 0].
Definition conf_req : list Z := [12; 0; 1; 0; 4; 9; 8; 0; 64; 0; 0; 0; 1; 2; 0; 4].
Definition data_pdu : list Z := [2; 0; 64; 0; 7; 7].

Definition handshake_calls : list (api (CB := unit) (UD := unit)) :=
  [AOpen 17 0 (Some tt) tt 5; AAcl 2 conn_rsp 6; AAcl 2 conf_rsp 7; AAcl 2 conf_req 8].

Definition demo_calls : list (api (CB := unit) (UD := unit)) :=
  handshake_calls ++ [AAcl 2 (take 3 data_pdu) 9; AAcl 1 (drop 3 data_pdu) 10; AOpenFixed 4 (Some tt) tt;
    ASend 4 [1; 2; 3]; AClose 4 11; ATick 70000000].

Lemma channel_demo_calls_ok : Forall (api_ok 2) demo_calls.
Proof.
  assert (forall e, calm (fun _ => True) 2 e) as Hany by (intros e; apply demo_calm; auto).
  repeat (apply Forall_cons; split); [..|by apply Forall_nil]; cbn [api_ok]; try done;
    try (split; [concrete_bytes|done]); try concrete_bytes.
  apply demo_calm; [vm_compute; reflexivity|]. intros now. by right.
Qed.

Lemma run_demo_ok budget l : Forall (api_ok 2) l -> world_ok None (run_demo budget l).
Proof.
  intros Hl. unfold run_demo.
  destruct (channel_init_ok demo_memory 64 1 27 0 (budget, [] : list (list Z)) channel_demo_memory_ok) as (m & -> & Hw & _); [lia..|].
  by apply run_apis_ok.
Qed.

(** While the first channel waits, the others are free. *)
Lemma demo_others : others_settled 1%positive 64 (run_demo 9 (take 1 handshake_calls)).
Proof.
  assert ((fun x => (x.1, ch_state x.2)) <$> map_to_list (mg_channels (w_mgr (run_demo 9 (take 1 handshake_calls)))) =
    ((fun i => (i, BT_L2CAP_CHAN_FREE)) <$> [7; 5; 3; 6; 8; 4; 2]%positive) ++ [(1%positive, BT_L2CAP_CHAN_WAIT_CONNECT_RSP)]) as E
    by (vm_compute; reflexivity).
  intros j d Hj Hd Hl. exfalso. apply Hl. apply elem_of_map_to_list in Hd.
  apply (list_elem_of_fmap_2 (fun x => (x.1, ch_state x.2))) in Hd. rewrite E in Hd. cbn in Hd.
  rewrite !elem_of_cons, elem_of_nil in Hd. destruct_or! Hd; congruence.
Qed.

End ChannelDemo.

Import ChannelDemo.
#[local] Existing Instance demo_client.
#[local] Existing Instance demo_transport.

Lemma channel_lifecycle_witness : exists m w,
  bt_l2cap_channel_manager_init demo_memory 64 1 27 = Ret m /\
  run_apis 2 demo_calls (start m 0 (7%nat, [])) = (Ret tt, w) /\
  forall i, i ∈ channel_slots -> exists d v,
    mg_channels (w_mgr w) !! i = Some d /\ tl_mem (mg_timers (w_mgr w)) !! i = Some v /\
    lifecycle i (w_trace w) = Some (phase_of d) /\ chan_ok d (t_pending v).
Proof. apply (channel_lifecycle demo_memory 64 1 27 0 (7%nat, []) 2 demo_calls channel_demo_memory_ok); [lia..|exact channel_demo_calls_ok]. Defined.

Lemma channel_cids_unique_witness : exists m w,
  bt_l2cap_channel_manager_init demo_memory 64 1 27 = Ret m /\
  run_apis 2 demo_calls (start m 0 (7%nat, [])) = (Ret tt, w) /\
  (cids_orderly (w_trace w) -> forall i j ci cj,
     mg_channels (w_mgr w) !! i = Some ci -> mg_channels (w_mgr w) !! j = Some cj ->
     ch_state ci <> BT_L2CAP_CHAN_FREE -> ch_state cj <> BT_L2CAP_CHAN_FREE ->
     ch_local_cid ci = ch_local_cid cj -> i = j).
Proof. apply (channel_cids_unique demo_memory 64 1 27 0 (7%nat, []) 2 demo_calls channel_demo_memory_ok); [lia..|exact channel_demo_calls_ok]. Defined.

Lemma channel_tick_expires_witness : exists w' l,
  bt_l2cap_channel_manager_tick (dispatch 2) 60000005 (run_demo 9 (take 1 handshake_calls)) = (Ret tt, w') /\
  world_ok None w' /\
  (forall i v, tl_mem (mg_timers (w_mgr w')) !! i = Some v -> t_pending v = true -> 60000005 < t_expiry_us v) /\
  timers_rep (mg_timers (w_mgr (run_demo 9 (take 1 handshake_calls)))) l /\
  (silent_client -> w_trace w' = w_trace (run_demo 9 (take 1 handshake_calls)) ++
     omap (timeout_event (mg_channels (w_mgr (run_demo 9 (take 1 handshake_calls))))) (due 60000005 l)).
Proof.
  apply (channel_tick_expires 1 60000005 (run_demo 9 (take 1 handshake_calls))).
  - apply run_demo_ok. by repeat constructor.
  - apply demo_calm; [vm_compute; reflexivity|]. intros now. by right.
Defined.

(** The commands in [conn_rsp], [conf_req] and [conf_rsp]. *)
Lemma channel_handshake_witness :
  let w := run_demo 9 (take 1 handshake_calls) in
  exists c, mg_channels (w_mgr w) !! 1%positive = Some c /\
    let recv p := process_signaling_pdu (dispatch 2) p (zlen p) 6 in
    opens (dispatch 2) 1%positive w c 80 1024
      (do! recv (drop 4 conn_rsp) in do! recv (drop 4 conf_rsp) in recv (drop 4 conf_req)) /\
    opens (dispatch 2) 1%positive w c 80 1024
      (do! recv (drop 4 conn_rsp) in do! recv (drop 4 conf_req) in recv (drop 4 conf_rsp)).
Proof.
  intros w. destruct (mg_channels (w_mgr w) !! 1%positive) as [c|] eqn:Hc; [|vm_compute in Hc; discriminate Hc].
  exists c. split; [reflexivity|].
  assert (ch_state c = BT_L2CAP_CHAN_WAIT_CONNECT_RSP /\ ch_pending_identifier c = 1 /\ ch_local_cid c = 64) as (Hs & Hid & Hcid)
    by (vm_compute in Hc; injection Hc as <-; repeat split; reflexivity).
  apply (channel_handshake (dispatch 2) w 1%positive c 6 80 64 0 9 0 1024 64 0 0); rewrite ?Hid, ?Hcid.
  - apply run_demo_ok. by repeat constructor.
  - exact Hc.
  - exact Hs.
  - exact demo_others.
  - unfold is_byte. lia.
  - unfold is_u16. lia.
  - unfold is_byte. lia.
  - unfold is_u16. lia.
  - unfold is_u16. lia.
  - unfold is_u16. lia.
  - unfold is_u16. lia.
  - unfold is_u16. lia.
  - unfold is_u16. lia.
  - unfold is_u16. lia.
  - unfold is_u16. lia.
  - exact (connection_response_writes 1 80 64 0 0).
  - exact (configure_request_writes 9 64 0 1024).
  - exact (configure_response_writes 2 64 0 0 0).
Defined.

Lemma channel_data_roundtrip_witness :
  let wA := run_demo 9 handshake_calls in
  let wB := run_demo 9 [AOpenFixed 80 (Some tt) tt] in
  exists c d ps, mg_channels (w_mgr wA) !! 1%positive = Some c /\ mg_channels (w_mgr wB) !! 1%positive = Some d /\
    bt_l2cap_channel_manager_send (ch_local_cid c) [9; 8] 2 wA = send_all ps wA /\
    exists ra, ra_rep ra [] /\
      deliver (dispatch 2) ps 5 wB =
        fire_event (dispatch 2) 1%positive
          {| ei_event := BT_L2CAP_CHANNEL_EVENT_DATA; ei_local_cid := ch_local_cid d;
             ei_close_reason := BT_L2CAP_CLOSE_LOCAL; ei_data := Some [9; 8]; ei_data_len := 2; ei_now_us := 5 |}
          (with_mgr (set_reassembler ra) wB).
Proof.
  intros wA wB.
  destruct (mg_channels (w_mgr wA) !! 1%positive) as [c|] eqn:Hc; [|vm_compute in Hc; discriminate Hc].
  destruct (mg_channels (w_mgr wB) !! 1%positive) as [d|] eqn:Hd; [|vm_compute in Hd; discriminate Hd].
  assert (ch_state c = BT_L2CAP_CHAN_OPEN /\ ch_remote_cid c = 80 /\ ch_local_cid c = 64) as (Hs & Hr & Hcid)
    by (vm_compute in Hc; injection Hc as <-; repeat split; reflexivity).
  assert (ch_state d = BT_L2CAP_CHAN_OPEN) as HsB by (vm_compute in Hd; injection Hd as <-; reflexivity).
  assert (forall cid (w : demo_world), find_channel (fun chan => negb (bool_decide (ch_state chan = BT_L2CAP_CHAN_FREE)) &&
    (ch_local_cid chan =? cid)) (mg_channels (w_mgr w)) channel_slots = Ret (Some 1%positive) ->
    find_channel_by_local_cid cid w = (Ret (Some 1%positive), w)) as Hfind
    by (intros cid w E; unfold find_channel_by_local_cid; by rewrite E).
  destruct (channel_data_roundtrip wA 1%positive c [9; 8]) as (ps & Hsend & Hrecv).
  - apply run_demo_ok. exact (proj1 (proj1 (Forall_app _ _ _) channel_demo_calls_ok)).
  - concrete_bytes.
  - vm_compute. discriminate.
  - rewrite Hcid. apply Hfind. vm_compute. reflexivity.
  - exact Hc.
  - exact Hs.
  - rewrite Hr. lia.
  - exists c, d, ps. split; [reflexivity|]. split; [reflexivity|]. split; [exact Hsend|].
    apply (Hrecv (dispatch 2) wB 1%positive d 5); rewrite ?Hr.
    + apply run_demo_ok. apply Forall_cons. split; [apply demo_calm; auto|by apply Forall_nil].
    + apply Hfind. vm_compute. reflexivity.
    + exact Hd.
    + exact HsB.
    + vm_compute. discriminate.
Defined.

(** ** Observations *)

Definition last_close (tr : list chev) : option (Z * bt_l2cap_close_reason) :=
  last (omap (fun e => match e with
    | EFire _ info => if decide (ei_event info = BT_L2CAP_CHANNEL_EVENT_CLOSED)
                      then Some (ei_local_cid info, ei_close_reason info) else None
    | _ => None end) tr).

(** [pending_identifier] is 0 when nothing is outstanding, and the search by
    identifier does not exclude 0: a Command Reject with identifier 0 closes
    an OPEN channel that has asked for nothing. *)
Example reject_of_nothing_closes_open_channel :
  last_close (w_trace (run_demo 9 (handshake_calls ++ [AAcl 2 [6; 0; 1; 0; 1; 0; 2; 0; 0; 0] 20]))) =
  Some (64, BT_L2CAP_CLOSE_CONFIG_FAILED).
Proof. vm_compute. reflexivity. Qed.

(** The peer has accepted our configuration and never sends its own: no timer
    runs, and the channel stays in CONFIG for good. *)
Example configuration_can_stall :
  let w := run_demo 9 (take 3 handshake_calls ++ [ATick (UINT64_MAX - 1)]) in
  (ch_state <$> mg_channels (w_mgr w) !! 1%positive, last_close (w_trace w)) = (Some BT_L2CAP_CHAN_CONFIG, None).
Proof. vm_compute. reflexivity. Qed.

(** After the wrap-around, [alloc_local_cid] hands out the CID of a channel
    that is still live. *)
Example wraparound_reuses_live_cid :
  let w := with_mgr (set_next_local_cid 65535) (run_demo 9 (take 1 handshake_calls)) in
  let w := (run_apis 2 [AOpen 17 0 None tt 6; AOpen 17 0 None tt 7] w).2 in
  (fun i => (fun c => (ch_state c, ch_local_cid c)) <$> mg_channels (w_mgr w) !! i) <$> [1; 3]%positive =
  [Some (BT_L2CAP_CHAN_WAIT_CONNECT_RSP, 64); Some (BT_L2CAP_CHAN_WAIT_CONNECT_RSP, 64)].
Proof. vm_compute. reflexivity. Qed.

(** [open] also fails when the transport refuses the request, with every slot
    free. *)
Example open_fails_with_free_slots :
  (bt_l2cap_channel_manager_open 17 0 None tt 5 (run_demo 0 [])).1 = Fail BT_ERR_INVALID_ARGUMENT.
Proof. vm_compute. reflexivity. Qed.

(** A client that opens its channel again when it is closed, at the time of the
    event, which for CLOSED is 0. *)
Module Reopening.
#[local] Instance reopening : ChannelClient unit unit Z := {| client_event _ info _ :=
  match ei_event info with
  | BT_L2CAP_CHANNEL_EVENT_CLOSED => POpen 17 0 (Some tt) tt (ei_now_us info) (fun _ => PDone)
  | _ => PDone
  end |}.

(** A tick after the new request's deadline expires it too, and so on: after
    200 expirations in the one tick it is not at its end.  [api_ok] excludes
    such clients. *)
Example reopening_keeps_tick_busy :
  let w := (run_apis 2 [AOpen 17 0 (Some tt) tt 0] (run_demo 1000 [])).2 in
  (tick_loop (dispatch 2) 200 60000000 w).1 = Fault /\
  length (omap (fun e => match e with EFire _ info => Some (ei_event info) | _ => None end)
    (w_trace (tick_loop (dispatch 2) 200 60000000 w).2)) = 200%nat.
Proof. vm_compute. repeat split. Qed.

(** At the tick before, it ends. *)
Example reopening_ends_before :
  let w := (run_apis 2 [AOpen 17 0 (Some tt) tt 0] (run_demo 1000 [])).2 in
  (bt_l2cap_channel_manager_tick (dispatch 2) 59999999 w).1 = Ret tt.
Proof. vm_compute. repeat split. Qed.
End Reopening.

End ChannelManager.
