(* ===== verification/CommandQueue.v ===== *)
(** * HCI command queue: core/controller/command_queue.c

    A pool of four command slots, a FIFO of waiting slots, at most one command
    outstanding with a timeout armed, and the controller's command credits.
    The slots' queue nodes and timers are the intrusive structures of [Queue]
    and [Timer], at the slot's address.

    Two things the queue calls are not its own.  A completion callback is a
    [cprog]: it may submit further commands and look at the status, and ends
    in a new client state.  [transport->ops->send_command] is a [tprog]: it
    may deliver events, from inside the call, before it returns; each runs the
    receive callback to the end, which may complete the command being sent,
    run callbacks and send further commands.  The recursion this makes
    (pump, send, receive, complete, pump) is written with the inner [pump] as
    a parameter and closed by a fuel that counts nested sends.

    [w_trace] is a history variable: what was submitted, sent and completed. *)

From Stdlib Require Import ZArith Lia.
From stdpp Require Import base list gmap.
From S2P Require Import Prelude Buffer Queue Timer Hci.

Module CommandQueue.
Import Buffer Queue Timer Hci.

Definition BT_CMDQ_MAX_PENDING : Z := 4.
Definition BT_CMDQ_DEFAULT_TIMEOUT_US : Z := 5000000.
Definition WIRE_LEN : Z := 3 + BT_HCI_MAX_PARAM_LEN.

Inductive bt_cmdq_result : Set :=
| BT_CMDQ_RESULT_COMPLETE
| BT_CMDQ_RESULT_TIMEOUT
| BT_CMDQ_RESULT_SEND_ERROR.

#[global] Instance bt_cmdq_result_eq_dec : EqDecision bt_cmdq_result.
Proof. solve_decision. Defined.

Record bt_cmdq_completion : Type := {
  cm_result : bt_cmdq_result;
  cm_opcode : Z;
  cm_status : Z;
  cm_return_params : option (list Z);
  cm_return_params_len : Z;
}.

(** The one callback the slots' timers carry. *)
Inductive timer_fn : Set := Timeout_callback.

Section Types.
  (** [bt_cmdq_complete_fn], what [user_data] points to, the client's state
      and the transport's. *)
  Context {CB UD C T : Type}.

Record bt_cmdq_slot : Type := {
  sl_in_use : bool;
  sl_opcode : Z;
  sl_params : list Z;
  sl_params_len : Z;
  sl_timeout_us : Z;
  sl_on_complete : option CB;
  sl_user_data : UD;
}.

(** [cq_nodes]: the slots' queue nodes. *)
Record bt_cmdq : Type := {
  cq_nodes : gmap loc bt_queue_node;
  cq_pending : bt_queue;
  cq_outstanding : option loc;
  cq_pool : gmap loc bt_cmdq_slot;
  cq_command_credits : Z;
  cq_last_tick_us : Z;
}.

(** A completion callback's run. *)
Inductive cprog : Type :=
| CDone (c : C)
| CFault
| CSubmit (opcode : Z) (params : option (list Z)) (params_len timeout_us : Z)
    (on_complete : option CB) (user_data : UD) (k : bt_status -> cprog).

(** A run of [send_command]: return, or deliver an event and go on in the
    state the delivery left the transport in. *)
Inductive tprog : Type :=
| TDone (rc : Z) (t : T)
| TRecv (t : T) (data : list Z) (k : T -> tprog).

(** A command, as submitted. *)
Record command : Type := {
  cd_opcode : Z;
  cd_params : list Z;
  cd_on_complete : option CB;
  cd_user_data : UD;
}.

Inductive tev : Type :=
| ESubmit (c : command)
| ESend (wire : list Z)
| EComplete (c : command) (result : bt_cmdq_result) (status : Z).

Record world : Type := {
  w_q : bt_cmdq;
  w_timers : tstate timer_fn loc;
  w_client : C;
  w_transport : T;
  w_trace : list tev;
}.

(** Field updates. *)
Definition with_q (q : bt_cmdq) (w : world) : world :=
  {| w_q := q; w_timers := w_timers w; w_client := w_client w; w_transport := w_transport w;
     w_trace := w_trace w |}.
Definition with_timers (ts : tstate timer_fn loc) (w : world) : world :=
  {| w_q := w_q w; w_timers := ts; w_client := w_client w; w_transport := w_transport w;
     w_trace := w_trace w |}.
Definition with_client (c : C) (w : world) : world :=
  {| w_q := w_q w; w_timers := w_timers w; w_client := c; w_transport := w_transport w;
     w_trace := w_trace w |}.
Definition with_transport (t : T) (w : world) : world :=
  {| w_q := w_q w; w_timers := w_timers w; w_client := w_client w; w_transport := t;
     w_trace := w_trace w |}.
Definition log (e : tev) (w : world) : world :=
  {| w_q := w_q w; w_timers := w_timers w; w_client := w_client w; w_transport := w_transport w;
     w_trace := w_trace w ++ [e] |}.

Definition set_pool (p : gmap loc bt_cmdq_slot) (q : bt_cmdq) : bt_cmdq :=
  {| cq_nodes := cq_nodes q; cq_pending := cq_pending q; cq_outstanding := cq_outstanding q;
     cq_pool := p; cq_command_credits := cq_command_credits q; cq_last_tick_us := cq_last_tick_us q |}.
Definition set_queue (h : gmap loc bt_queue_node) (p : bt_queue) (q : bt_cmdq) : bt_cmdq :=
  {| cq_nodes := h; cq_pending := p; cq_outstanding := cq_outstanding q;
     cq_pool := cq_pool q; cq_command_credits := cq_command_credits q; cq_last_tick_us := cq_last_tick_us q |}.
Definition set_outstanding (o : option loc) (q : bt_cmdq) : bt_cmdq :=
  {| cq_nodes := cq_nodes q; cq_pending := cq_pending q; cq_outstanding := o;
     cq_pool := cq_pool q; cq_command_credits := cq_command_credits q; cq_last_tick_us := cq_last_tick_us q |}.
Definition set_credits (n : Z) (q : bt_cmdq) : bt_cmdq :=
  {| cq_nodes := cq_nodes q; cq_pending := cq_pending q; cq_outstanding := cq_outstanding q;
     cq_pool := cq_pool q; cq_command_credits := n; cq_last_tick_us := cq_last_tick_us q |}.
Definition set_last_tick (n : Z) (q : bt_cmdq) : bt_cmdq :=
  {| cq_nodes := cq_nodes q; cq_pending := cq_pending q; cq_outstanding := cq_outstanding q;
     cq_pool := cq_pool q; cq_command_credits := cq_command_credits q; cq_last_tick_us := n |}.
Definition set_in_use (b : bool) (s : bt_cmdq_slot) : bt_cmdq_slot :=
  {| sl_in_use := b; sl_opcode := sl_opcode s; sl_params := sl_params s;
     sl_params_len := sl_params_len s; sl_timeout_us := sl_timeout_us s;
     sl_on_complete := sl_on_complete s; sl_user_data := sl_user_data s |}.

(** The command a slot holds, and its wire format. *)
Definition cmd_of (s : bt_cmdq_slot) : command :=
  {| cd_opcode := sl_opcode s; cd_params := take (Z.to_nat (sl_params_len s)) (sl_params s);
     cd_on_complete := sl_on_complete s; cd_user_data := sl_user_data s |}.

Definition wire_of (c : command) : list Z :=
  le_enc 2 (cd_opcode c) ++ [zlen (cd_params c)] ++ cd_params c.

(** ** [bt_cmdq_submit] *)

(** [for (i = 0; i < BT_CMDQ_MAX_PENDING; i++) if (!q->pool[i].in_use)] *)
Fixpoint find_free (pool : gmap loc bt_cmdq_slot) (slots : list loc) : outcome (option loc) :=
  match slots with
  | [] => Ret None
  | i :: slots =>
      let? s := hld pool i in
      if negb (sl_in_use s) then Ret (Some i) else find_free pool slots
  end.

(** The addresses of [q->pool]. *)
Definition pool_slots : list loc := [1; 2; 3; 4]%positive.

Definition bt_cmdq_submit (q : bt_cmdq) (opcode : Z) (params : option (list Z)) (params_len timeout_us : Z)
    (on_complete : option CB) (user_data : UD) : outcome (bt_status * bt_cmdq) :=
  if (params_len >? 0) && (match params with None => true | Some _ => false end)
  then Ret (BT_ERR_INVALID_ARGUMENT, q) else
  let? slot := find_free (cq_pool q) pool_slots in
  match slot with
  | None => Ret (BT_ERR_NO_RESOURCES, q)
  | Some slot =>
      let? s := hld (cq_pool q) slot in
      let? new_params :=
        (if params_len >? 0 then
           match params with
           | Some params => let? bs := ldn params 0 params_len in stn (sl_params s) 0 bs
           | None => Fault
           end
         else Ret (sl_params s)) in
      let? pool := hst (cq_pool q) slot
        {| sl_in_use := true; sl_opcode := opcode; sl_params := new_params; sl_params_len := params_len;
           sl_timeout_us := if negb (timeout_us =? 0) then timeout_us else BT_CMDQ_DEFAULT_TIMEOUT_US;
           sl_on_complete := on_complete; sl_user_data := user_data |} in
      let? r := bt_queue_push (cq_nodes q) (cq_pending q) slot in
      Ret (BT_OK, set_queue r.2 r.1 (set_pool pool q))
  end.

(** With the history. *)
Definition submit (w : world) (opcode : Z) (params : option (list Z)) (params_len timeout_us : Z)
    (on_complete : option CB) (user_data : UD) : outcome (bt_status * world) :=
  let? r := bt_cmdq_submit (w_q w) opcode params params_len timeout_us on_complete user_data in
  let w := with_q r.2 w in
  Ret (r.1, if decide (r.1 = BT_OK) then
              log (ESubmit {| cd_opcode := opcode;
                              cd_params := take (Z.to_nat params_len) (default [] params);
                              cd_on_complete := on_complete; cd_user_data := user_data |}) w
            else w).

Fixpoint run_cprog (p : cprog) (w : world) : outcome world :=
  match p with
  | CDone c => Ret (with_client c w)
  | CFault => Fault
  | CSubmit opcode params params_len timeout_us on_complete user_data k =>
      let? r := submit w opcode params params_len timeout_us on_complete user_data in
      run_cprog (k r.1) r.2
  end.

End Types.
Arguments bt_cmdq_slot : clear implicits.
Arguments bt_cmdq : clear implicits.
Arguments cprog : clear implicits.
Arguments tprog : clear implicits.
Arguments command : clear implicits.
Arguments tev : clear implicits.
Arguments world : clear implicits.

(** ** What the queue asks of its client and of the transport *)

(** [client_complete cb completion user_data] is a completion callback;
    [client_accepts] and [client_received] are what the receive callback does
    before and after it hands the event to [bt_cmdq_on_event]. *)
Class CmdqClient (CB UD C : Type) : Type := {
  client_complete : CB -> bt_cmdq_completion -> UD -> C -> cprog CB UD C;
  client_accepts : C -> bool;
  client_received : list Z -> C -> outcome C;
}.

(** [transport->ops->send_command(transport, wire, length)] *)
Class CmdqTransport (T : Type) : Type := { send_command : T -> list Z -> tprog T }.

Section Machine.
  Context {CB UD C T : Type} `{CmdqClient CB UD C} `{CmdqTransport T}.

Abbreviation W := (world CB UD C T).

(** The inner [bt_cmdq_pump] of the recursive calls. *)
Section Open.
  Variable pump : W -> Z -> outcome W.

Definition complete_slot (w : W) (slot : loc) (result : bt_cmdq_result) (status : Z)
    (return_params : option (list Z)) (return_params_len now_us : Z) : outcome W :=
  let? s := hld (cq_pool (w_q w)) slot in
  let cb := sl_on_complete s in
  let user_data := sl_user_data s in
  let? t := hld (tl_mem (w_timers w)) slot in
  let? w :=
    (if t_pending t then
       let? ts := bt_timer_list_cancel (w_timers w) slot in Ret (with_timers ts w)
     else Ret w) in
  let w := if decide (cq_outstanding (w_q w) = Some slot)
           then with_q (set_outstanding None (w_q w)) w else w in
  let? pool := hst (cq_pool (w_q w)) slot (set_in_use false s) in
  let w := with_q (set_pool pool (w_q w)) w in
  let completion :=
    {| cm_result := result; cm_opcode := sl_opcode s; cm_status := status;
       cm_return_params := return_params; cm_return_params_len := return_params_len |} in
  let w := log (EComplete (cmd_of s) result status) w in
  let? w :=
    match cb with
    | Some cb => run_cprog (client_complete cb completion user_data (w_client w)) w
    | None => Ret w
    end in
  pump w now_us.

Definition timeout_callback (w : W) (slot : loc) : outcome W :=
  let w := with_q (set_credits 1 (w_q w)) w in
  complete_slot w slot BT_CMDQ_RESULT_TIMEOUT 255 None 0 (cq_last_tick_us (w_q w)).

Definition bt_cmdq_on_event (w : W) (data : list Z) (length now_us : Z) : outcome W :=
  match bt_hci_parse_event_header (bt_buf_reader_init data length) with
  | (Ret hdr, r) =>
      if eh_event_code hdr =? BT_HCI_EVENT_COMMAND_COMPLETE then
        match bt_hci_parse_command_complete (eh_param_len hdr) r with
        | (Ret cc, _) =>
            let w := with_q (set_credits (cc_num_hci_command_packets cc) (w_q w)) w in
            match cq_outstanding (w_q w) with
            | Some slot =>
                let? s := hld (cq_pool (w_q w)) slot in
                if sl_opcode s =? cc_command_opcode cc then
                  let? status :=
                    (if cc_return_params_len cc >=? 1 then ld (cc_return_params cc) 0 else Ret 255) in
                  complete_slot w slot BT_CMDQ_RESULT_COMPLETE status (Some (cc_return_params cc))
                    (cc_return_params_len cc) now_us
                else pump w now_us
            | None => pump w now_us
            end
        | (Fail _, _) => Ret w
        | (Fault, _) => Fault
        end
      else if eh_event_code hdr =? BT_HCI_EVENT_COMMAND_STATUS then
        match bt_hci_parse_command_status (eh_param_len hdr) r with
        | (Ret cs, _) =>
            let w := with_q (set_credits (cs_num_hci_command_packets cs) (w_q w)) w in
            match cq_outstanding (w_q w) with
            | Some slot =>
                let? s := hld (cq_pool (w_q w)) slot in
                if sl_opcode s =? cs_command_opcode cs then
                  complete_slot w slot BT_CMDQ_RESULT_COMPLETE (cs_status cs) None 0 now_us
                else pump w now_us
            | None => pump w now_us
            end
        | (Fail _, _) => Ret w
        | (Fault, _) => Fault
        end
      else Ret w
  | (Fail _, _) => Ret w
  | (Fault, _) => Fault
  end.

(** The transport's receive callback on an HCI event: it has no clock of its
    own and stamps the event with the queue's. *)
Definition recv_event (w : W) (data : list Z) : outcome W :=
  if negb (client_accepts (w_client w)) then Ret w else
  let? w := bt_cmdq_on_event w data (zlen data) (cq_last_tick_us (w_q w)) in
  let? c := client_received data (w_client w) in
  Ret (with_client c w).

(** A run of [send_command]; the result is its return code. *)
Fixpoint run_tprog (a : tprog T) (w : W) : outcome (Z * W) :=
  match a with
  | TDone rc t => Ret (rc, with_transport t w)
  | TRecv t data k =>
      let? w := recv_event (with_transport t w) data in
      run_tprog (k (w_transport w)) w
  end.

(** [if (now_us > q->last_tick_us) q->last_tick_us = now_us;] *)
Definition advance_clock (w : W) (now_us : Z) : W :=
  if now_us >? cq_last_tick_us (w_q w) then with_q (set_last_tick now_us (w_q w)) w else w.

Definition pump_body (w : W) (now_us : Z) : outcome W :=
  let w := advance_clock w now_us in
  match cq_outstanding (w_q w) with
  | Some _ => Ret w
  | None =>
      if cq_command_credits (w_q w) =? 0 then Ret w else
      if bt_queue_is_empty (cq_pending (w_q w)) then Ret w else
      let? r := bt_queue_pop (cq_nodes (w_q w)) (cq_pending (w_q w)) in
      let '(node, pending, nodes) := r in
      match node with
      | None => Fault
      | Some slot =>
          let w := with_q (set_queue nodes pending (w_q w)) w in
          let? s := hld (cq_pool (w_q w)) slot in
          match bt_hci_encode_command (sl_opcode s) (sl_params s) (sl_params_len s)
                  (bt_buf_writer_init (replicate (Z.to_nat WIRE_LEN) 0) WIRE_LEN) with
          | (Fault, _) => Fault
          | (Fail _, _) => complete_slot w slot BT_CMDQ_RESULT_SEND_ERROR 255 None 0 now_us
          | (Ret _, bw) =>
              let w := with_q (set_outstanding (Some slot)
                                (set_credits (cq_command_credits (w_q w) - 1) (w_q w))) w in
              let? ts := bt_timer_list_add (w_timers w) slot (u64 (now_us + sl_timeout_us s)) in
              let w := with_timers ts w in
              let w := log (ESend (wout bw)) w in
              let? r := run_tprog (send_command (w_transport w) (wout bw)) w in
              let '(rc, w) := r in
              if negb (rc =? 0) && bool_decide (cq_outstanding (w_q w) = Some slot) then
                let w := with_q (set_credits (u8 (cq_command_credits (w_q w) + 1)) (w_q w)) w in
                complete_slot w slot BT_CMDQ_RESULT_SEND_ERROR 255 None 0 now_us
              else Ret w
          end
      end
  end.

End Open.

Fixpoint bt_cmdq_pump (fuel : nat) (w : W) (now_us : Z) : outcome W :=
  match fuel with
  | O => Fault
  | S fuel => pump_body (bt_cmdq_pump fuel) w now_us
  end.

(** [while ((t = bt_timer_list_pop_expired(...)) != NULL) t->callback(t, t->user_data);] *)
Fixpoint tick_loop (fuel : nat) (w : W) (now_us : Z) : outcome W :=
  match fuel with
  | O => Fault
  | S fuel =>
      let? r := bt_timer_list_pop_expired (w_timers w) now_us in
      let w := with_timers r.2 w in
      match r.1 with
      | None => Ret w
      | Some t =>
          let? v := hld (tl_mem (w_timers w)) t in
          let? w := match t_callback v with
                    | Timeout_callback => timeout_callback (bt_cmdq_pump fuel) w (t_user_data v)
                    end in
          tick_loop fuel w now_us
      end
  end.

Definition bt_cmdq_tick (fuel : nat) (w : W) (now_us : Z) : outcome W :=
  let w := advance_clock w now_us in
  let? w := tick_loop fuel w now_us in
  bt_cmdq_pump fuel w now_us.

(** [bt_cmdq_init] on the memory of the queue object: the slots' other fields
    keep what was there. *)
Definition init_slot (o : outcome (gmap loc (bt_cmdq_slot CB UD) * tstate timer_fn loc)) (slot : loc)
    : outcome (gmap loc (bt_cmdq_slot CB UD) * tstate timer_fn loc) :=
  let? r := o in
  let? s := hld r.1 slot in
  let? pool := hst r.1 slot (set_in_use false s) in
  let? ts := bt_timer_init r.2 slot Timeout_callback slot in
  Ret (pool, ts).

Definition bt_cmdq_init (q : bt_cmdq CB UD) (timers : tstate timer_fn loc)
    : outcome (bt_cmdq CB UD * tstate timer_fn loc) :=
  let? r := foldl init_slot (Ret (cq_pool q, timers)) pool_slots in
  Ret ({| cq_nodes := cq_nodes q; cq_pending := bt_queue_init; cq_outstanding := None;
          cq_pool := r.1; cq_command_credits := 1; cq_last_tick_us := 0 |}, r.2).

(** ** Specification *)

(** Some field of each of the slots [l], in order. *)
Definition at_slots {A} (f : bt_cmdq_slot CB UD -> A) (pool : gmap loc (bt_cmdq_slot CB UD)) (l : list loc) : list A :=
  omap (fun i => f <$> pool !! i) l.

Definition submitted (tr : list (tev CB UD)) : list (command CB UD) :=
  omap (fun e => match e with ESubmit c => Some c | _ => None end) tr.
Definition sent (tr : list (tev CB UD)) : list (list Z) :=
  omap (fun e => match e with ESend w => Some w | _ => None end) tr.
Definition completed (tr : list (tev CB UD)) : list (command CB UD) :=
  omap (fun e => match e with EComplete c _ _ => Some c | _ => None end) tr.

Definition slot_ok (s : bt_cmdq_slot CB UD) : Prop :=
  bytes (sl_params s) /\ zlen (sl_params s) = BT_HCI_MAX_PARAM_LEN /\
  0 <= sl_params_len s <= BT_HCI_MAX_PARAM_LEN.

(** The slots in use: the outstanding one and then the waiting ones. *)
Definition in_flight (w : W) (pend : list loc) : list loc :=
  option_list (cq_outstanding (w_q w)) ++ pend.

(** [pend] waits in the FIFO, [tl] is the timer list.  What was submitted is
    what was completed, then the outstanding command, then the waiting ones, in
    that order, and exactly the first two have been sent, once each. *)
Record inv (w : W) (pend : list loc) (tl : list (loc * Z)) : Prop := {
  inv_pool : forall i, i ∈ pool_slots -> exists s, cq_pool (w_q w) !! i = Some s /\ slot_ok s /\
    sl_in_use s = bool_decide (i ∈ in_flight w pend);
  inv_nodes : forall i, i ∈ pool_slots -> i ∈ dom (cq_nodes (w_q w));
  inv_timer_mem : forall i, i ∈ pool_slots -> exists v, tl_mem (w_timers w) !! i = Some v /\ t_user_data v = i;
  inv_queue : queue_rep (cq_nodes (w_q w)) (cq_pending (w_q w)) pend;
  inv_timers : timer_rep (w_timers w) tl;
  inv_flight : NoDup (in_flight w pend);
  inv_slots : forall i, i ∈ in_flight w pend -> i ∈ pool_slots;
  inv_tl : forall x, x ∈ tl -> cq_outstanding (w_q w) = Some x.1;
  inv_credits : is_byte (cq_command_credits (w_q w));
  inv_submitted : submitted (w_trace w) =
    completed (w_trace w) ++ at_slots cmd_of (cq_pool (w_q w)) (in_flight w pend);
  inv_sent : sent (w_trace w) = wire_of <$>
    (completed (w_trace w) ++ at_slots cmd_of (cq_pool (w_q w)) (option_list (cq_outstanding (w_q w))));
}.

(** The callbacks of the commands in flight, in the order they will run. *)
Definition callbacks (w : W) (pend : list loc) : list (option CB) :=
  at_slots sl_on_complete (cq_pool (w_q w)) (in_flight w pend).

(** A timeout is armed exactly while a command is outstanding. *)
Definition armed (w : W) (tl : list (loc * Z)) : Prop :=
  forall i, cq_outstanding (w_q w) = Some i -> exists e, tl = [(i, e)].

(** Nothing waits that could be sent. *)
Definition settled (w : W) (pend : list loc) : Prop :=
  is_Some (cq_outstanding (w_q w)) \/ cq_command_credits (w_q w) = 0 \/ pend = [].

Definition params_ok (params : option (list Z)) (params_len : Z) : Prop :=
  0 <= params_len <= BT_HCI_MAX_PARAM_LEN /\
  forall p, params = Some p -> params_len <= zlen p /\ bytes p.

Definition completion_ok (c : bt_cmdq_completion) : Prop :=
  match cm_return_params c with
  | Some p => bytes p /\ zlen p = cm_return_params_len c
  | None => cm_return_params_len c = 0
  end.

(** ** The client's and the transport's side of the contract *)

Section Laws.
  (** [client_ok l c]: the client's state [c] fits the callbacks [l] of its
      commands in flight; [weight cb]: how many further commands the
      completion of [cb] may cause, all told. *)
  Context (client_ok : list (option CB) -> C -> Prop) (weight : CB -> nat).

Definition cost_of (cb : option CB) : nat := match cb with Some cb => weight cb | None => 0 end.
Definition cost (s : bt_cmdq_slot CB UD) : nat := cost_of (sl_on_complete s).

(** A callback submits legal commands, whose weights sum to at most [n] with
    one for each, and leaves a client state that fits the callbacks then in
    flight, [l] and those of the commands it submitted. *)
Fixpoint prog_ok (p : cprog CB UD C) (n : nat) (l : list (option CB)) : Prop :=
  match p with
  | CDone c => client_ok l c
  | CFault => False
  | CSubmit _ params params_len _ cb _ k =>
      params_ok params params_len /\
      exists m, (m + S (cost_of cb) <= n)%nat /\
        prog_ok (k BT_OK) m (l ++ [cb]) /\ forall st, st <> BT_OK -> prog_ok (k st) m l
  end.

(** Bounds the sends and the completions still to come: two for each command
    that waits or that a callback may yet submit, one for the outstanding one. *)
Definition potential (w : W) (pend : list loc) : nat :=
  2 * (sum_list (at_slots cost (cq_pool (w_q w)) (in_flight w pend)) + length pend) +
  length (option_list (cq_outstanding (w_q w))).

(** ** Lemmas *)

Lemma at_slots_app {A} (f : bt_cmdq_slot CB UD -> A) pool a b :
  at_slots f pool (a ++ b) = at_slots f pool a ++ at_slots f pool b.
Proof. apply omap_app. Qed.

Lemma at_slots_insert {A} (f : bt_cmdq_slot CB UD -> A) pool i s l : i ∉ l ->
  at_slots f (<[i := s]> pool) l = at_slots f pool l.
Proof.
  intros Hi. unfold at_slots. induction l as [|x l IH]; [done|]. rewrite not_elem_of_cons in Hi.
  destruct Hi as [Hx Hi]. cbn. rewrite lookup_insert_ne by done. by rewrite IH.
Qed.

Lemma at_slots_same {A} (f : bt_cmdq_slot CB UD -> A) pool i s s' l : pool !! i = Some s -> f s' = f s ->
  at_slots f (<[i := s']> pool) l = at_slots f pool l.
Proof.
  intros Hs Hf. unfold at_slots. induction l as [|x l IH]; [done|]. cbn. rewrite IH.
  destruct (decide (i = x)) as [->|Hx]; [|by rewrite lookup_insert_ne]. rewrite lookup_insert_eq, Hs. cbn. by rewrite Hf.
Qed.

Lemma at_slots_one {A} (f : bt_cmdq_slot CB UD -> A) pool i s : pool !! i = Some s -> at_slots f pool [i] = [f s].
Proof. intros Hs. unfold at_slots. cbn. by rewrite Hs. Qed.

Lemma find_free_spec pool l : (forall i, i ∈ l -> is_Some (pool !! i)) ->
  exists o, find_free (CB := CB) (UD := UD) pool l = Ret o /\
    match o with
    | Some i => i ∈ l /\ exists s, pool !! i = Some s /\ sl_in_use s = false
    | None => forall i s, i ∈ l -> pool !! i = Some s -> sl_in_use s = true
    end.
Proof.
  induction l as [|i l IH]; intros Hl; [exists None; split; [done|]; intros ? ? Hi; inv Hi|].
  destruct (Hl i ltac:(left)) as [s Hs]. cbn [find_free]. rewrite (hld_spec _ _ _ Hs). cbn [obind].
  destruct (sl_in_use s) eqn:Hu; cbn [negb].
  - destruct IH as (o & -> & Ho); [intros; apply Hl; by right|]. exists o. split; [done|].
    destruct o as [j|].
    + destruct Ho as [Hj ?]. split; [by right|done].
    + intros j t Hj Ht. apply elem_of_cons in Hj as [->|Hj]; [congruence|by eapply Ho].
  - exists (Some i). split; [done|]. split; [left|]. eauto.
Qed.

Lemma pool_full (l : list loc) : NoDup l -> (forall i, i ∈ l -> i ∈ pool_slots) ->
  (forall i, i ∈ pool_slots -> i ∈ l) -> length l = 4%nat.
Proof.
  intros Hnd H1 H2. assert (NoDup pool_slots) as Hp by (by apply (bool_decide_unpack _)).
  assert (l ≡ₚ pool_slots) as Hperm; [|by rewrite Hperm].
  apply NoDup_Permutation; [done..|]. intros x. split; auto.
Qed.

Lemma pool_room (l : list loc) i : NoDup l -> (forall i, i ∈ l -> i ∈ pool_slots) -> i ∈ pool_slots -> i ∉ l ->
  (length l < 4)%nat.
Proof.
  intros Hnd H1 Hi Hn. assert (NoDup (i :: l)) as Hnd' by (by apply NoDup_cons).
  assert (i :: l ⊆+ pool_slots) as Hs.
  { apply NoDup_submseteq; [done|]. intros x Hx. apply elem_of_cons in Hx as [->|Hx]; auto. }
  apply submseteq_length in Hs. simpl in Hs. lia.
Qed.

Lemma params_copy s params params_len : slot_ok s -> params_ok params params_len ->
  (params_len >? 0) && (match params with None => true | Some _ => false end) = false ->
  exists bs, (if params_len >? 0 then
           match params with
           | Some params => let? bs := ldn params 0 params_len in stn (sl_params s) 0 bs
           | None => Fault
           end
         else Ret (sl_params s)) = Ret bs /\ bytes bs /\ zlen bs = BT_HCI_MAX_PARAM_LEN /\
    take (Z.to_nat params_len) bs = take (Z.to_nat params_len) (default [] params).
Proof.
  intros (Hb & Hl & _) [Hn Hp] Hg. rewrite Z.gtb_ltb in *. unfold BT_HCI_MAX_PARAM_LEN in *.
  destruct (Z.ltb_spec 0 params_len) as [Hpos|Hpos].
  - destruct params as [p|]; [|done]. destruct (Hp p eq_refl) as [Hpl Hpb].
    rewrite ldn_spec by lia. cbn [obind]. change (drop (Z.to_nat 0) p) with p.
    assert (zlen (take (Z.to_nat params_len) p) = params_len) as Ht by zlist.
    rewrite stn_spec by lia. eexists. split; [done|].
    split; [apply splice_bytes; [done|by apply Forall_take]|]. split; [rewrite splice_length; lia|].
    pose proof (splice_take (sl_params s) 0 (take (Z.to_nat params_len) p)) as Hs.
    rewrite Ht, Z.add_0_l in Hs. apply Hs; lia.
  - replace params_len with 0 by lia. by exists (sl_params s).
Qed.

(** What [bt_cmdq_submit] did when it returned BT_OK. *)
Definition submit_done (w w' : W) (pend : list loc) (i : loc) (c : command CB UD) : Prop :=
  (length (in_flight w pend) < 4)%nat /\ w_timers w' = w_timers w /\ w_client w' = w_client w /\
  w_transport w' = w_transport w /\ w_trace w' = w_trace w ++ [ESubmit c] /\
  cq_outstanding (w_q w') = cq_outstanding (w_q w) /\
  cq_command_credits (w_q w') = cq_command_credits (w_q w) /\
  cq_last_tick_us (w_q w') = cq_last_tick_us (w_q w) /\
  in_flight w' (pend ++ [i]) = in_flight w pend ++ [i] /\
  potential w' (pend ++ [i]) = (potential w pend + 2 * S (cost_of (cd_on_complete c)))%nat /\
  callbacks w' (pend ++ [i]) = callbacks w pend ++ [cd_on_complete c].

Lemma submit_ok w pend tl opcode params params_len timeout_us cb ud :
  inv w pend tl -> params_ok params params_len ->
  exists st w', submit w opcode params params_len timeout_us cb ud = Ret (st, w') /\
    ((w' = w /\ (st = BT_ERR_INVALID_ARGUMENT /\ params = None /\ 0 < params_len \/
                 st = BT_ERR_NO_RESOURCES /\ length (in_flight w pend) = 4%nat)) \/
     (st = BT_OK /\ exists i, inv w' (pend ++ [i]) tl /\
        submit_done w w' pend i {| cd_opcode := opcode;
          cd_params := take (Z.to_nat params_len) (default [] params);
          cd_on_complete := cb; cd_user_data := ud |})).
Proof.
  intros Hi Hp. unfold submit, bt_cmdq_submit.
  assert (with_q (w_q w) w = w) as Hw by (by destruct w).
  destruct (_ && _) eqn:Hg.
  { cbn. rewrite Hw. do 2 eexists. split; [done|]. left. split; [done|]. left. split; [done|].
    rewrite Z.gtb_ltb in Hg. destruct params; [by rewrite andb_false_r in Hg|]. split; [done|].
    apply andb_true_iff in Hg as [Hg _]. by apply Z.ltb_lt. }
  destruct (find_free_spec (cq_pool (w_q w)) pool_slots) as (o & -> & Ho).
  { intros i Hin. destruct (inv_pool _ _ _ Hi i Hin) as (s & Hs & _). eauto. }
  cbn [obind]. destruct o as [i|].
  2:{ cbn. rewrite Hw. do 2 eexists. split; [done|]. left. split; [done|]. right. split; [done|].
      apply pool_full; [apply (inv_flight _ _ _ Hi)|apply (inv_slots _ _ _ Hi)|].
      intros j Hj. destruct (inv_pool _ _ _ Hi j Hj) as (s & Hs & _ & Hu).
      rewrite (Ho j s Hj Hs) in Hu. symmetry in Hu. by apply bool_decide_eq_true in Hu. }
  destruct Ho as (Hin & s & Hs & Hu).
  destruct (inv_pool _ _ _ Hi i Hin) as (s' & Hs' & Hok & Hu'). simplify_eq.
  rewrite Hu in Hu'. symmetry in Hu'. apply bool_decide_eq_false in Hu'.
  rewrite (hld_spec _ _ _ Hs). cbn [obind].
  destruct (params_copy s params params_len Hok Hp Hg) as (bs & -> & Hbb & Hbl & Hbt). cbn [obind].
  rewrite (hst_spec _ _ _ _ Hs). cbn [obind].
  set (s2 := {| sl_in_use := true |}).
  destruct (push_spec _ _ _ i (inv_queue _ _ _ Hi)) as (q' & h' & Hpush & Hrep & Hdom).
  { by apply (inv_nodes _ _ _ Hi). }
  { intros Hx. apply Hu'. apply elem_of_app. by right. }
  rewrite Hpush. cbn [obind fst snd]. rewrite decide_True by done.
  do 2 eexists. split; [done|]. right. split; [done|]. exists i.
  assert (cmd_of s2 = {| cd_opcode := opcode; cd_params := take (Z.to_nat params_len) (default [] params);
                         cd_on_complete := cb; cd_user_data := ud |}) as Hcmd by (unfold cmd_of, s2; cbn; by rewrite Hbt).
  rewrite <- Hcmd.
  match goal with |- inv ?x _ _ /\ _ => set (w' := x) end.
  assert (in_flight w' (pend ++ [i]) = in_flight w pend ++ [i]) as Hfl by (unfold in_flight, w'; cbn; by rewrite app_assoc).
  assert (forall A (f : _ -> A), at_slots f (cq_pool (w_q w')) (in_flight w' (pend ++ [i])) =
    at_slots f (cq_pool (w_q w)) (in_flight w pend) ++ [f s2]) as Hat.
  { intros A f. rewrite Hfl, at_slots_app. unfold w'. cbn. rewrite at_slots_insert by done. f_equal.
    apply at_slots_one. by rewrite lookup_insert_eq. }
  split.
  - pose proof Hi as [? ? ? ? ? ? ? ? ? Hsub Hsent]. constructor; try done.
    + intros j Hj. rewrite Hfl. unfold w'. cbn. destruct (decide (i = j)) as [<-|Hne].
      * rewrite lookup_insert_eq. exists s2. split; [done|]. split.
        { split; [done|]. split; [done|]. apply Hp. }
        rewrite bool_decide_true; [done|]. apply elem_of_app. right. by left.
      * rewrite lookup_insert_ne by done. destruct (inv_pool0 j Hj) as (t & Ht & Htok & Htu).
        exists t. split; [done|]. split; [done|]. rewrite Htu. apply bool_decide_ext. set_solver.
    + intros j Hj. unfold w'. cbn. rewrite Hdom. auto.
    + rewrite Hfl. apply NoDup_app. split; [done|]. split; [|apply NoDup_singleton].
      intros x Hx Hx'. apply list_elem_of_singleton in Hx' as ->. done.
    + intros j. rewrite Hfl, elem_of_app, list_elem_of_singleton. intros [Hj| ->]; auto.
    + rewrite Hat. unfold w'. cbn. unfold submitted, completed in *. rewrite !omap_app, Hsub. cbn.
      by rewrite app_nil_r, <- app_assoc.
    + unfold w'. cbn. unfold sent, completed in *. rewrite !omap_app, Hsent. cbn. rewrite !app_nil_r.
      rewrite at_slots_insert; [done|]. intros Hx. apply Hu'. apply elem_of_app. by left.
  - split; [apply (pool_room _ i); [apply (inv_flight _ _ _ Hi)|apply (inv_slots _ _ _ Hi)|done|done]|]. do 7 (split; [done|]). split; [done|].
    split; [|unfold callbacks; by rewrite Hat].
    unfold potential. rewrite Hat, sum_list_with_app, length_app. change (cost s2) with (cost_of cb). simpl. lia.
Qed.

Lemma inv_with_client w pend tl c : inv w pend tl -> inv (with_client c w) pend tl.
Proof. intros []. by constructor. Qed.

Lemma inv_with_transport w pend tl t : inv w pend tl -> inv (with_transport t w) pend tl.
Proof. intros []. by constructor. Qed.

Lemma inv_with_credits w pend tl n : inv w pend tl -> is_byte n -> inv (with_q (set_credits n (w_q w)) w) pend tl.
Proof. intros [] Hn. by constructor. Qed.

Lemma advance_clock_q w now : exists n, advance_clock w now = with_q (set_last_tick n (w_q w)) w.
Proof.
  unfold advance_clock. destruct (_ >? _); [by eexists|]. exists (cq_last_tick_us (w_q w)).
  by destruct w as [[] ? ? ? ?].
Qed.

Lemma inv_advance w pend tl now : inv w pend tl -> inv (advance_clock w now) pend tl.
Proof. intros []. destruct (advance_clock_q w now) as [n ->]. by constructor. Qed.

Lemma run_cprog_ok p : forall n w pend tl, inv w pend tl -> prog_ok p n (callbacks w pend) ->
  exists w' pend', run_cprog p w = Ret w' /\ inv w' pend' tl /\ client_ok (callbacks w' pend') (w_client w') /\
    cq_outstanding (w_q w') = cq_outstanding (w_q w) /\ (potential w' pend' <= potential w pend + 2 * n)%nat.
Proof.
  induction p as [c| |op ps pl to cb ud k IH]; intros n w pend tl Hi Hp; simpl in *; [|done|].
  - exists (with_client c w), pend. split; [done|]. split; [by apply inv_with_client|]. do 2 (split; [done|]).
    change (potential (with_client c w) pend) with (potential w pend). lia.
  - destruct Hp as (Hps & m & Hm & Hok & Hk).
    destruct (submit_ok w pend tl op ps pl to cb ud Hi Hps) as (st & w1 & -> & Hs). cbn [obind fst snd].
    destruct Hs as [[-> Hst]|(-> & i & Hi1 & (_ & _ & _ & _ & _ & Ho & _ & _ & _ & Hpot & Hcb))].
    + destruct (IH st m w pend tl Hi) as (w' & pend' & Hr & Hi' & Hc & Ho & Hpot).
      { apply Hk. by destruct Hst as [[-> _]|[-> _]]. }
      exists w', pend'. do 4 (split; [done|]). lia.
    + destruct (IH BT_OK m w1 (pend ++ [i]) tl Hi1) as (w' & pend' & Hr & Hi' & Hc & Ho' & Hpot').
      { by rewrite Hcb. }
      exists w', pend'. do 3 (split; [done|]). split; [congruence|]. cbn [cd_on_complete] in Hpot. lia.
Qed.

Lemma callbacks_nil w pend tl : inv w pend tl -> callbacks w pend = [] ->
  pend = [] /\ cq_outstanding (w_q w) = None /\ tl = [].
Proof.
  intros Hi Hc. assert (in_flight w pend = []) as Hfl.
  { unfold callbacks, at_slots in Hc. destruct (in_flight w pend) as [|x l] eqn:E; [done|].
    pose proof (inv_slots _ _ _ Hi x) as Hx. rewrite E in Hx. specialize (Hx ltac:(left)).
    destruct (inv_pool _ _ _ Hi x Hx) as (s & Hs & _). cbn in Hc. by rewrite Hs in Hc. }
  unfold in_flight in Hfl. apply app_eq_nil in Hfl as [Ho ->]. split; [done|].
  assert (cq_outstanding (w_q w) = None) as Ho' by (by destruct (cq_outstanding (w_q w))). split; [done|].
  destruct tl as [|x tl]; [done|]. pose proof (inv_tl _ _ _ Hi x ltac:(left)). congruence.
Qed.

(** *** Timers of the slots *)

Definition timer_mem_ok (ts : tstate timer_fn loc) : Prop :=
  forall i, i ∈ pool_slots -> exists v, tl_mem ts !! i = Some v /\ t_user_data v = i.

Lemma attrs_timer_mem ts ts' t v e b : tl_mem ts !! t = Some v ->
  attrs ts' = <[t := attr4 v e b]> (attrs ts) -> timer_mem_ok ts -> timer_mem_ok ts'.
Proof.
  intros Hv Ha Hm i Hin. destruct (Hm i Hin) as (u & Hu & Hud).
  pose proof (f_equal (lookup i) Ha) as Hl. rewrite attrs_lookup in Hl.
  destruct (decide (t = i)) as [->|Hne].
  - rewrite lookup_insert_eq in Hl. apply fmap_Some in Hl as (v' & Hv' & Heq). exists v'. split; [done|].
    unfold attr4 in Heq. injection Heq as _ _ Hud' _. congruence.
  - rewrite lookup_insert_ne, attrs_lookup, Hu in Hl by done. apply fmap_Some in Hl as (v' & Hv' & Heq).
    exists v'. split; [done|]. injection Heq as _ _ Hud' _. congruence.
Qed.

(** Completing disarms the timeout, whether or not it is still listed. *)
Lemma disarm w pend tl slot v : inv w pend tl -> cq_outstanding (w_q w) = Some slot ->
  tl_mem (w_timers w) !! slot = Some v ->
  exists ts, (if t_pending v then let? ts := bt_timer_list_cancel (w_timers w) slot in Ret (with_timers ts w)
              else Ret w) = Ret (with_timers ts w) /\
    timer_rep ts [] /\ timer_mem_ok ts.
Proof.
  intros Hi Ho Hv. pose proof (inv_timers _ _ _ Hi) as Hrep.
  assert (forall x, x ∈ tl -> x.1 = slot) as Htl.
  { intros x Hx. pose proof (inv_tl _ _ _ Hi x Hx) as E. congruence. }
  destruct (t_pending v) eqn:Hpd.
  - destruct (cancel_spec _ _ _ _ Hrep Hv) as (ts & -> & Hrep' & Ha). exists ts. split; [done|].
    split; [|by eapply attrs_timer_mem; [| |exact (inv_timer_mem _ _ _ Hi)]].
    by rewrite sp_cancel_all in Hrep' by done.
  - exists (w_timers w). split; [by destruct w|]. split; [|exact (inv_timer_mem _ _ _ Hi)].
    destruct tl as [|[x e] tl]; [done|]. exfalso. specialize (Htl (x, e) ltac:(left)). simpl in Htl. subst x.
    destruct (rep_attrs _ _ _ _ Hrep Hv) as [Hb _]. rewrite Hpd in Hb. symmetry in Hb.
    apply bool_decide_eq_false in Hb. apply Hb. cbn. left.
Qed.

(** *** The machine *)

(** A state between calls, with at most [k] sends to come. *)
Definition good (w : W) (k : nat) : Prop :=
  exists pend tl, inv w pend tl /\ armed w tl /\ (potential w pend <= k)%nat /\
    client_ok (callbacks w pend) (w_client w).

(** The same with nothing left to send. *)
Definition quiet (w : W) (k : nat) : Prop :=
  exists pend tl, inv w pend tl /\ armed w tl /\ (potential w pend <= k)%nat /\
    client_ok (callbacks w pend) (w_client w) /\ settled w pend.

Definition pump_good (pump : W -> Z -> outcome W) (n : nat) : Prop :=
  forall w now k, good w k -> (k < n)%nat -> exists w', pump w now = Ret w' /\ quiet w' k.

Lemma quiet_good w k : quiet w k -> good w k.
Proof. intros (pend & tl & ? & ? & ? & ? & _). by exists pend, tl. Qed.

Lemma quiet_weaken w k k' : quiet w k -> (k <= k')%nat -> quiet w k'.
Proof. intros (pend & tl & ? & ? & ? & ? & ?) Hk. exists pend, tl. do 2 (split; [done|]). split; [lia|done]. Qed.

Lemma good_weaken w k k' : good w k -> (k <= k')%nat -> good w k'.
Proof. intros (pend & tl & ? & ? & ? & ?) Hk. exists pend, tl. do 2 (split; [done|]). split; [lia|done]. Qed.

(** The state in which the completion callback runs. *)
Definition released (w : W) (slot : loc) (s : bt_cmdq_slot CB UD) (ts : tstate timer_fn loc)
    (result : bt_cmdq_result) (status : Z) : W :=
  log (EComplete (cmd_of s) result status)
    (with_q (set_pool (<[slot := set_in_use false s]> (cq_pool (w_q w))) (set_outstanding None (w_q w)))
       (with_timers ts w)).

Lemma released_inv w pend tl slot s ts result status : inv w pend tl ->
  cq_outstanding (w_q w) = Some slot -> cq_pool (w_q w) !! slot = Some s ->
  timer_rep ts [] -> timer_mem_ok ts ->
  inv (released w slot s ts result status) pend [] /\
  callbacks w pend = sl_on_complete s :: callbacks (released w slot s ts result status) pend /\
  potential w pend = (2 * cost s + 1 + potential (released w slot s ts result status) pend)%nat.
Proof.
  intros Hi Ho Hs Hrep Hmem. set (w' := released w slot s ts result status).
  assert (in_flight w pend = slot :: pend) as Hfl by (unfold in_flight; by rewrite Ho).
  assert (in_flight w' pend = pend) as Hfl' by done.
  pose proof (inv_flight _ _ _ Hi) as Hnd. rewrite Hfl in Hnd. apply NoDup_cons in Hnd as [Hni Hnd].
  assert (forall A (f : _ -> A), at_slots f (cq_pool (w_q w)) (in_flight w pend) =
    f s :: at_slots f (cq_pool (w_q w')) (in_flight w' pend)) as Hat.
  { intros A f. rewrite Hfl, Hfl'. change (slot :: pend) with ([slot] ++ pend).
    rewrite at_slots_app, (at_slots_one _ _ _ s) by done. cbn. f_equal. by rewrite at_slots_insert. }
  split; [|split; [by unfold callbacks; rewrite Hat|unfold potential; rewrite Hat, Ho; simpl; lia]].
  pose proof Hi as [? ? ? ? ? ? ? ? ? Hsub Hsent]. constructor; try done.
  - intros i Hin. rewrite Hfl'. destruct (inv_pool0 i Hin) as (t & Ht & Htok & Htu). cbn.
    destruct (decide (slot = i)) as [<-|Hne].
    + rewrite lookup_insert_eq. exists (set_in_use false s). simplify_eq.
      split; [done|]. split; [done|]. by rewrite bool_decide_false.
    + rewrite lookup_insert_ne by done. exists t. split; [done|]. split; [done|]. rewrite Htu, Hfl.
      apply bool_decide_ext. rewrite elem_of_cons. naive_solver.
  - intros i Hin. apply inv_slots0. rewrite Hfl. by right.
  - intros x Hx. inv Hx.
  - rewrite Hat in Hsub. unfold submitted, completed, w', released in *. cbn in Hsub |- *.
    rewrite !omap_app, Hsub. cbn. by rewrite app_nil_r, <- app_assoc.
  - rewrite Ho in Hsent. change (option_list (Some slot)) with [slot] in Hsent. rewrite (at_slots_one _ _ _ s) in Hsent by done.
    unfold sent, completed, w', released in *. cbn in Hsent |- *. rewrite !omap_app, Hsent. cbn.
    by rewrite !app_nil_r.
Qed.

(** C38.  The contract of [bt_cmdq_submit].  In any state the queue can be in:
    a NULL parameter pointer with a length is refused; a full pool is refused
    with no effect at all; otherwise one slot is taken, the command goes to
    the end of the FIFO, nothing is sent yet and the outstanding command, the
    credits, the clock and the timers are as they were; the invariant holds
    after each. *)
Theorem cmdq_submit_contract : forall w pend tl opcode params params_len timeout_us cb ud,
  inv w pend tl -> params_ok params params_len ->
  exists st w', submit w opcode params params_len timeout_us cb ud = Ret (st, w') /\
    ((w' = w /\ st = BT_ERR_INVALID_ARGUMENT /\ params = None /\ 0 < params_len) \/
     (w' = w /\ st = BT_ERR_NO_RESOURCES /\ length (in_flight w pend) = 4%nat) \/
     (st = BT_OK /\ exists i, inv w' (pend ++ [i]) tl /\
        submit_done w w' pend i {| cd_opcode := opcode;
          cd_params := take (Z.to_nat params_len) (default [] params);
          cd_on_complete := cb; cd_user_data := ud |})).
Proof.
  intros w pend tl op ps pl to cb ud Hi Hps.
  destruct (submit_ok w pend tl op ps pl to cb ud Hi Hps) as (st & w' & Hs & Hr).
  exists st, w'. split; [done|].
  destruct Hr as [[-> [(-> & ? & ?)|[-> ?]]]|(-> & i & Hi' & Hd)]; [by left|by right; left|].
  right; right. split; [done|]. by exists i.
Qed.

(** The events the client can take. *)
Context (event_ok : list Z -> Prop).

(** The transport delivers legal events. *)
Fixpoint tprog_ok (a : tprog T) : Prop :=
  match a with
  | TDone _ _ => True
  | TRecv _ data k => event_ok data /\ forall t, tprog_ok (k t)
  end.

Record laws : Prop := {
  law_event : forall data, event_ok data -> bytes data;
  law_complete : forall cb comp ud l c, client_ok (Some cb :: l) c -> completion_ok comp ->
    prog_ok (client_complete cb comp ud c) (weight cb) l;
  law_complete_none : forall l c, client_ok (None :: l) c -> client_ok l c;
  law_received : forall data l c, client_ok l c -> event_ok data ->
    exists c', client_received data c = Ret c' /\ client_ok l c';
  law_transport : forall t wire, tprog_ok (send_command t wire);
}.

Context (Hlaws : laws).

(** Completing the outstanding command: disarmed and released, then its callback, then the pump. *)
Lemma complete_slot_runs pump w slot pend tl s result status rp rpl now : inv w pend tl ->
  cq_outstanding (w_q w) = Some slot -> cq_pool (w_q w) !! slot = Some s ->
  exists ts, timer_rep ts [] /\ timer_mem_ok ts /\
    let w1 := released w slot s ts result status in
    complete_slot pump w slot result status rp rpl now =
    let? w2 := match sl_on_complete s with
      | Some cb => run_cprog (client_complete cb {| cm_result := result; cm_opcode := sl_opcode s;
          cm_status := status; cm_return_params := rp; cm_return_params_len := rpl |} (sl_user_data s) (w_client w1)) w1
      | None => Ret w1 end in
    pump w2 now.
Proof.
  intros Hi Ho Hs. unfold complete_slot.
  assert (slot ∈ pool_slots) as Hin by (apply (inv_slots _ _ _ Hi); unfold in_flight; rewrite Ho; left).
  destruct (inv_timer_mem _ _ _ Hi slot Hin) as (v & Hv & _).
  rewrite (hld_spec _ _ _ Hs), (hld_spec _ _ _ Hv). cbn [obind].
  destruct (disarm w pend tl slot v Hi Ho Hv) as (ts & -> & Hrep & Hmem). cbn [obind w_q with_timers].
  rewrite (decide_True (P := cq_outstanding (w_q w) = Some slot)) by done.
  cbn [with_q w_q set_outstanding cq_pool]. rewrite (hst_spec _ _ _ _ Hs). cbn [obind].
  exists ts. done.
Qed.

Lemma complete_ok pump n w slot pend tl result status rp rpl now k : pump_good pump n -> inv w pend tl ->
  cq_outstanding (w_q w) = Some slot -> (potential w pend <= S k)%nat -> (k < n)%nat ->
  client_ok (callbacks w pend) (w_client w) ->
  match rp with Some p => bytes p /\ zlen p = rpl | None => rpl = 0 end ->
  exists w', complete_slot pump w slot result status rp rpl now = Ret w' /\ quiet w' k.
Proof.
  intros Hpump Hi Ho Hpot Hk Hcl Hrp.
  assert (slot ∈ pool_slots) as Hin by (apply (inv_slots _ _ _ Hi); unfold in_flight; rewrite Ho; left).
  destruct (inv_pool _ _ _ Hi slot Hin) as (s & Hs & Hok & _).
  destruct (complete_slot_runs pump w slot pend tl s result status rp rpl now Hi Ho Hs) as (ts & Hrep & Hmem & ->).
  destruct (released_inv w pend tl slot s ts result status Hi Ho Hs Hrep Hmem) as (Hi' & Hcb & Hpot').
  rewrite Hcb in Hcl. set (w1 := released w slot s ts result status) in *.
  assert (exists w' pend', match sl_on_complete s with
    | Some cb => run_cprog (client_complete cb {| cm_result := result; cm_opcode := sl_opcode s;
        cm_status := status; cm_return_params := rp; cm_return_params_len := rpl |} (sl_user_data s) (w_client w1)) w1
    | None => Ret w1 end = Ret w' /\ inv w' pend' [] /\ cq_outstanding (w_q w') = None /\
      (potential w' pend' <= k)%nat /\ client_ok (callbacks w' pend') (w_client w'))
    as (w' & pend' & Hr & Hi2 & Ho2 & Hp2 & Hc2).
  { unfold cost in Hpot'. destruct (sl_on_complete s) as [cb|]; cbn [cost_of] in Hpot'.
    - destruct (run_cprog_ok (client_complete cb {| cm_result := result; cm_opcode := sl_opcode s;
        cm_status := status; cm_return_params := rp; cm_return_params_len := rpl |} (sl_user_data s) (w_client w1))
        (weight cb) w1 pend []) as (w' & pend' & ? & ? & ? & ? & ?);
        [done|by apply (law_complete Hlaws)|].
      exists w', pend'. do 3 (split; [done|]). split; [lia|done].
    - exists w1, pend. do 3 (split; [done|]). split; [lia|]. by apply (law_complete_none Hlaws). }
  rewrite Hr. cbn [obind]. apply Hpump; [|done]. exists pend', []. split; [done|]. split; [|done].
  intros i Hx. congruence.
Qed.

(** Moving the clock or the credits keeps a state good. *)
Lemma good_credits w k n : good w k -> is_byte n -> good (with_q (set_credits n (w_q w)) w) k.
Proof. intros (pend & tl & Hi & ?) Hn. exists pend, tl. split; [by apply inv_with_credits|done]. Qed.

Lemma good_outstanding w k slot : good w k -> cq_outstanding (w_q w) = Some slot ->
  exists s, cq_pool (w_q w) !! slot = Some s.
Proof.
  intros (pend & tl & Hi & _) Ho. destruct (inv_pool _ _ _ Hi slot) as (s & Hs & _); [|by exists s].
  apply (inv_slots _ _ _ Hi). unfold in_flight. rewrite Ho. left.
Qed.

Lemma complete_good pump n w slot result status rp rpl now k : pump_good pump n -> good w k ->
  cq_outstanding (w_q w) = Some slot -> (k < n)%nat ->
  match rp with Some p => bytes p /\ zlen p = rpl | None => rpl = 0 end ->
  exists w', complete_slot pump w slot result status rp rpl now = Ret w' /\ quiet w' k.
Proof.
  intros Hp (pend & tl & Hi & Ha & Hpot & Hcl) Ho Hk Hrp.
  destruct (complete_ok pump n w slot pend tl result status rp rpl now (k - 1)) as (w' & ? & Hq);
    [done..|unfold potential in *; rewrite Ho in *; simpl in *; lia|lia|done|done|].
  exists w'. split; [done|]. eapply quiet_weaken; [done|lia].
Qed.

(** New credits, and perhaps the outstanding command answered. *)
Lemma answer_ok pump n w cr (test : bt_cmdq_slot CB UD -> bool) status rp rpl now k : pump_good pump n ->
  good w k -> (k < n)%nat -> is_byte cr ->
  match rp with Some p => bytes p /\ zlen p = rpl | None => rpl = 0 end ->
  let w1 := with_q (set_credits cr (w_q w)) w in
  exists w', match cq_outstanding (w_q w1) with
    | Some slot =>
        let? s := hld (cq_pool (w_q w1)) slot in
        if test s then
          let? status := Ret status in
          complete_slot pump w1 slot BT_CMDQ_RESULT_COMPLETE status rp rpl now
        else pump w1 now
    | None => pump w1 now
    end = Ret w' /\ quiet w' k.
Proof.
  intros Hp Hg Hk Hcr Hrp w1. pose proof (good_credits w k cr Hg Hcr) as Hg1. fold w1 in Hg1.
  destruct (cq_outstanding (w_q w1)) as [slot|] eqn:Ho; [|by apply Hp].
  destruct (good_outstanding w1 k slot Hg1 Ho) as [s Hs]. rewrite (hld_spec _ _ _ Hs). cbn [obind].
  destruct (test s); [by eapply complete_good|by apply Hp].
Qed.

Lemma on_event_ok pump n w data now k : pump_good pump n -> good w k -> (k < n)%nat -> bytes data ->
  exists w', bt_cmdq_on_event pump w data (zlen data) now = Ret w' /\ (w' = w \/ quiet w' k).
Proof.
  intros Hp Hg Hk Hb. unfold bt_cmdq_on_event.
  pose proof (event_header_safe _ (reader_init_ok data (zlen data) ltac:(lia) Hb)) as Hh.
  destruct (bt_hci_parse_event_header _) as [[h|e|] r]; [|by eauto|by destruct Hh].
  destruct Hh as (_ & Hok & _ & _ & _ & _).
  destruct (_ =? BT_HCI_EVENT_COMMAND_COMPLETE).
  - pose proof (command_complete_safe (eh_param_len h) r Hok) as Hc.
    destruct (bt_hci_parse_command_complete _ r) as [[cc|e|] r']; [|by eauto|by destruct Hc].
    destruct Hc as (_ & _ & _ & _ & _ & Hv). destruct (Hv cc eq_refl) as (Hn & _ & Hl & _ & Hrb). clear Hv.
    assert (exists st, (if cc_return_params_len cc >=? 1 then ld (cc_return_params cc) 0 else Ret 255) = Ret st) as [st ->].
    { rewrite Z.geb_leb. destruct (Z.leb_spec 1 (cc_return_params_len cc)); [|by eexists].
      destruct (ld_spec (cc_return_params cc) 0) as (b & Hb' & _); [lia|by exists b]. }
    destruct (answer_ok pump n w (cc_num_hci_command_packets cc) (fun s => sl_opcode s =? cc_command_opcode cc) st
      (Some (cc_return_params cc)) (cc_return_params_len cc) now k) as (w' & Hw & Hq); [done..|]. eauto.
  - destruct (_ =? BT_HCI_EVENT_COMMAND_STATUS); [|by eauto].
    pose proof (command_status_safe (eh_param_len h) r Hok) as Hc.
    destruct (bt_hci_parse_command_status _ r) as [[cs|e|] r']; [|by eauto|by destruct Hc].
    destruct Hc as (_ & _ & _ & _ & _ & Hv). destruct (Hv cs eq_refl) as (_ & Hn & _). clear Hv.
    destruct (answer_ok pump n w (cs_num_hci_command_packets cs) (fun s => sl_opcode s =? cs_command_opcode cs)
      (cs_status cs) None 0 now k) as (w' & Hw & Hq); [done..|]. eauto.
Qed.

Lemma on_event_quiet pump n w data now k : pump_good pump n -> quiet w k -> (k < n)%nat -> bytes data ->
  exists w', bt_cmdq_on_event pump w data (zlen data) now = Ret w' /\ quiet w' k.
Proof.
  intros Hp Hq Hk Hb. destruct (on_event_ok pump n w data now k Hp (quiet_good _ _ Hq) Hk Hb) as (w' & ? & [-> | ?]);
    eauto.
Qed.

Lemma quiet_transport w k t : quiet w k -> quiet (with_transport t w) k.
Proof. intros (pend & tl & Hi & ?). exists pend, tl. split; [by apply inv_with_transport|done]. Qed.

Lemma quiet_received w k data : quiet w k -> event_ok data ->
  exists c, client_received data (w_client w) = Ret c /\ quiet (with_client c w) k.
Proof.
  intros (pend & tl & Hi & Ha & Hp & Hc & Hs) He.
  destruct (law_received Hlaws data _ _ Hc He) as (c & Hr & Hc'). exists c. split; [done|].
  exists pend, tl. split; [by apply inv_with_client|done].
Qed.

Lemma recv_event_quiet pump n w data k : pump_good pump n -> quiet w k -> (k < n)%nat -> event_ok data ->
  exists w', recv_event pump w data = Ret w' /\ quiet w' k.
Proof.
  intros Hp Hq Hk He. unfold recv_event. destruct (negb _); [by exists w|].
  destruct (on_event_quiet pump n w data (cq_last_tick_us (w_q w)) k) as (w' & -> & Hq'); [done..| |].
  { by apply (law_event Hlaws). }
  cbn [obind]. destruct (quiet_received w' k data Hq' He) as (c & -> & Hc). cbn [obind]. by eexists.
Qed.

Lemma run_tprog_quiet pump n a k : pump_good pump n -> (k < n)%nat -> tprog_ok a -> forall w, quiet w k ->
  exists rc w', run_tprog pump a w = Ret (rc, w') /\ quiet w' k.
Proof.
  intros Hp Hk. induction a as [rc t|t data j IH]; intros Ha w Hq; cbn [run_tprog tprog_ok] in *.
  - do 2 eexists. split; [done|]. by apply quiet_transport.
  - destruct Ha as [He Hj].
    destruct (recv_event_quiet pump n (with_transport t w) data k) as (w' & -> & Hq'); [done|by apply quiet_transport|done..|].
    cbn [obind]. by apply IH.
Qed.

Lemma encode_slot s : slot_ok s -> exists bw,
  bt_hci_encode_command (sl_opcode s) (sl_params s) (sl_params_len s)
    (bt_buf_writer_init (replicate (Z.to_nat WIRE_LEN) 0) WIRE_LEN) = (Ret tt, bw) /\
  wout bw = wire_of (cmd_of s).
Proof.
  unfold slot_ok, WIRE_LEN, BT_HCI_MAX_PARAM_LEN. intros (Hb & Hl & Hn). set (w0 := bt_buf_writer_init _ _).
  assert (writer_ok w0) as Hw by (by apply writer_init_ok).
  set (ps := take (Z.to_nat (sl_params_len s)) (sl_params s)).
  assert (zlen ps = sl_params_len s) as Hps by (subst ps; zlist).
  assert (writes (bt_hci_encode_command (sl_opcode s) (sl_params s) (sl_params_len s)) (wire_of (cmd_of s))) as Hwr.
  { unfold bt_hci_encode_command, BT_HCI_MAX_PARAM_LEN, wire_of, cmd_of. cbn [cd_opcode cd_params]. fold ps.
    rewrite Z.gtb_ltb, (proj2 (Z.ltb_ge _ _)), (u8_small (sl_params_len s)), Hps by lia.
    eapply writes_last; [apply writes_le16| |reflexivity]. cbv beta.
    eapply writes_last; [apply writes_u8| |rewrite u8_small by lia; reflexivity]. cbv beta.
    zcase; [|by apply writes_bytes_n; [lia|]]. destruct ps; [apply writes_ret|simpl in *; lia]. }
  assert (zlen (wire_of (cmd_of s)) <= 258) as Hlen.
  { unfold wire_of, cmd_of. cbn [cd_opcode cd_params]. fold ps. rewrite !length_app, le_enc_length. simpl. lia. }
  destruct (Hwr w0 Hw) as [Hr _]. exists (wput (wire_of (cmd_of s)) w0). split; [by apply Hr|].
  by rewrite wput_out by (done || exact Hlen).
Qed.

(** The state handed to the transport. *)
Definition launched (w : W) (slot : loc) (s : bt_cmdq_slot CB UD) (h : gmap loc bt_queue_node) (p : bt_queue)
    (ts : tstate timer_fn loc) : W :=
  log (ESend (wire_of (cmd_of s)))
    (with_timers ts (with_q (set_outstanding (Some slot)
       (set_credits (cq_command_credits (w_q w) - 1) (set_queue h p (w_q w)))) w)).

Lemma launched_inv w slot pend s h p ts e : inv w (slot :: pend) [] -> cq_outstanding (w_q w) = None ->
  cq_command_credits (w_q w) <> 0 -> cq_pool (w_q w) !! slot = Some s -> queue_rep h p pend -> dom h = dom (cq_nodes (w_q w)) ->
  timer_rep ts [(slot, e)] -> timer_mem_ok ts ->
  inv (launched w slot s h p ts) pend [(slot, e)] /\
  callbacks (launched w slot s h p ts) pend = callbacks w (slot :: pend) /\
  potential w (slot :: pend) = S (potential (launched w slot s h p ts) pend).
Proof.
  intros Hi Ho Hc Hs Hq Hd Hts Hmem. set (w' := launched w slot s h p ts).
  assert (in_flight w (slot :: pend) = slot :: pend) as Hfl by (unfold in_flight; by rewrite Ho).
  assert (in_flight w' pend = slot :: pend) as Hfl' by done.
  split; [|split; [by unfold callbacks; rewrite Hfl, Hfl'|unfold potential; rewrite Hfl, Hfl', Ho; simpl; lia]].
  pose proof Hi as [? ? ? ? ? ? ? ? ? Hsub Hsent].
  constructor; try (rewrite Hfl' || idtac); try (rewrite Hfl in *; done); try done.
  - intros i Hin. cbn. rewrite Hd. auto.
  - intros x Hx. apply list_elem_of_singleton in Hx as ->. done.
  - cbn. unfold is_byte in *. lia.
  - rewrite Hfl in Hsub. unfold w', launched, submitted, completed in *. cbn in Hsub |- *.
    rewrite !omap_app, Hsub. cbn. by rewrite !app_nil_r.
  - rewrite Ho in Hsent. unfold w', launched, sent, completed in *. cbn [w_trace log with_timers with_q] in *.
    rewrite !omap_app, Hsent. cbn [omap list_omap app]. rewrite !app_nil_r.
    change (option_list None) with (@nil loc). cbn [w_q log with_timers with_q set_outstanding cq_outstanding].
    change (option_list (Some slot)) with [slot]. cbn [cq_pool set_credits set_queue].
    rewrite (at_slots_one _ _ _ s) by done. by rewrite fmap_app.
Qed.

Lemma pump_body_ok pump n : pump_good pump n -> pump_good (pump_body pump) (S n).
Proof.
  intros Hp w now k (pend & tl & Hi & Ha & Hpot & Hcl) Hk. unfold pump_body.
  assert (armed (advance_clock w now) tl /\ (potential (advance_clock w now) pend <= k)%nat /\
    client_ok (callbacks (advance_clock w now) pend) (w_client (advance_clock w now))) as (Ha' & Hpot' & Hcl').
  { destruct (advance_clock_q w now) as [m ->]. done. }
  apply (inv_advance _ _ _ now) in Hi. set (w0 := advance_clock w now) in *. clearbody w0. clear Ha Hpot Hcl w.
  destruct (cq_outstanding (w_q w0)) as [o|] eqn:Ho.
  { eexists. split; [done|]. exists pend, tl. do 4 (split; [done|]). left. by eexists. }
  destruct (Z.eqb_spec (cq_command_credits (w_q w0)) 0) as [Hc|Hc].
  { eexists. split; [done|]. exists pend, tl. do 4 (split; [done|]). by right; left. }
  rewrite (is_empty_spec _ _ _ (inv_queue _ _ _ Hi)). destruct pend as [|slot pend].
  { eexists. split; [done|]. exists [], tl. do 4 (split; [done|]). by right; right. }
  assert (tl = []) as ->.
  { destruct tl as [|x tl]; [done|]. pose proof (inv_tl _ _ _ Hi x ltac:(left)). congruence. }
  destruct (queue_pop_spec _ _ _ (inv_queue _ _ _ Hi)) as (q' & h' & -> & Hrep & Hdom). cbn [obind head tail].
  assert (slot ∈ pool_slots) as Hin by (apply (inv_slots _ _ _ Hi); unfold in_flight; rewrite Ho; left).
  destruct (inv_pool _ _ _ Hi slot Hin) as (s & Hs & Hok & _).
  destruct (inv_timer_mem _ _ _ Hi slot Hin) as (v & Hv & _).
  cbn [with_q w_q set_queue cq_pool]. rewrite (hld_spec _ _ _ Hs). cbn [obind].
  destruct (encode_slot s Hok) as (bw & -> & ->).
  cbn [with_q w_q set_queue cq_pool w_timers set_outstanding set_credits cq_command_credits].
  destruct (add_spec _ _ slot (u64 (now + sl_timeout_us s)) v (inv_timers _ _ _ Hi) Hv) as (ts & -> & Hts & Hat).
  cbn [obind]. match goal with |- context [log ?e ?x] => change (log e x) with (launched w0 slot s h' q' ts) end.
  destruct (launched_inv w0 slot pend s h' q' ts (u64 (now + sl_timeout_us s))) as (Hi' & Hcb & Hpt); [done..| |].
  { by eapply attrs_timer_mem; [| |exact (inv_timer_mem _ _ _ Hi)]. }
  set (w2 := launched w0 slot s h' q' ts) in *.
  assert (quiet w2 (k - 1)) as Hq2.
  { exists pend, [(slot, u64 (now + sl_timeout_us s))]. split; [done|]. split.
    - intros i Hx. injection Hx as <-. by eexists.
    - split; [lia|]. split; [by rewrite Hcb|]. left. by eexists. }
  destruct (run_tprog_quiet pump n (send_command (w_transport w2) (wire_of (cmd_of s))) (k - 1)) with (w := w2)
    as (rc & w3 & -> & Hq3); [done|lia|apply (law_transport Hlaws)|done|]. cbn [obind].
  destruct (negb (rc =? 0) && _) eqn:Hrc; [|eexists; split; [done|]; eapply quiet_weaken; [done|lia]].
  apply andb_true_iff in Hrc as [_ Hout]. apply bool_decide_eq_true in Hout.
  destruct (complete_good pump n (with_q (set_credits (u8 (cq_command_credits (w_q w3) + 1)) (w_q w3)) w3) slot
    BT_CMDQ_RESULT_SEND_ERROR 255 None 0 now (k - 1)) as (w4 & -> & Hq4); [done| |done|lia|done|].
  { apply good_credits; [by apply quiet_good|apply u8_byte]. }
  eexists. split; [done|]. eapply quiet_weaken; [done|lia].
Qed.

Lemma pump_ok fuel : pump_good (bt_cmdq_pump fuel) fuel.
Proof.
  induction fuel as [|fuel IH]; [intros w now k _ Hk; lia|]. cbn [bt_cmdq_pump]. by apply pump_body_ok.
Qed.

(** *** Ticks *)

Lemma good_advance w k now : good w k -> good (advance_clock w now) k.
Proof.
  intros (pend & tl & Hi & ?). exists pend, tl. split; [by apply inv_advance|].
  by destruct (advance_clock_q w now) as [m ->].
Qed.

(** Popping a due timeout leaves everything else. *)
Lemma pop_inv w pend tl now : inv w pend tl -> exists ts,
  bt_timer_list_pop_expired (w_timers w) now = Ret ((sp_pop now tl).1, ts) /\
  inv (with_timers ts w) pend (sp_pop now tl).2.
Proof.
  intros Hi. pose proof (inv_timers _ _ _ Hi) as Hrep.
  destruct (timer_pop_spec _ _ now Hrep) as (ts & Hpop & Hrep' & Hd). exists ts. split; [exact Hpop|].
  assert (timer_mem_ok ts) as Hmem.
  { unfold bt_timer_list_pop_expired in Hpop.
    destruct (tl_head (w_timers w)) as [t|]; [|injection Hpop as _ <-; exact (inv_timer_mem _ _ _ Hi)].
    unfold hld in Hpop. destruct (tl_mem (w_timers w) !! t) as [v|] eqn:Hv; [|done]. cbn [obind] in Hpop.
    destruct (_ >? _); [injection Hpop as _ <-; exact (inv_timer_mem _ _ _ Hi)|].
    rewrite (store_spec _ _ _ v) in Hpop by done. injection Hpop as _ <-. intros i Hin.
    destruct (inv_timer_mem _ _ _ Hi i Hin) as (u & Hu & Hud). cbn [tl_mem].
    destruct (decide (t = i)) as [->|Hne]; [|rewrite lookup_insert_ne by done; eauto].
    rewrite lookup_insert_eq. simplify_eq. by eexists. }
  pose proof (inv_tl _ _ _ Hi) as Htl. destruct Hi; constructor; try done.
  intros x Hx. apply Htl. destruct tl as [|[t e] tl]; [done|]. cbn in Hx. destruct (e <=? now); [by right|done].
Qed.

Lemma pop_ok w k now : good w k -> exists o ts, bt_timer_list_pop_expired (w_timers w) now = Ret (o, ts) /\
  match o with
  | None => good (with_timers ts w) k
  | Some slot => cq_outstanding (w_q w) = Some slot /\
      exists pend, inv (with_timers ts w) pend [] /\ (potential w pend <= k)%nat /\
        client_ok (callbacks w pend) (w_client w)
  end.
Proof.
  intros (pend & tl & Hi & Ha & Hp & Hcl). destruct (pop_inv w pend tl now Hi) as (ts & Hpop & Hi').
  eexists _, ts. split; [exact Hpop|]. clear Hpop.
  destruct tl as [|[t e] tl]; cbn [sp_pop fst snd] in *; [by exists pend, []|].
  pose proof (inv_tl _ _ _ Hi (t, e) ltac:(left)) as Ho. destruct (Ha t Ho) as [e' He]. injection He as -> ->.
  destruct (_ <=? now); cbn [fst snd] in *; [|by exists pend, [(t, e')]].
  split; [done|]. by exists pend.
Qed.

Lemma tick_loop_ok fuel : forall w now k, good w k -> (k < fuel)%nat ->
  exists w', tick_loop fuel w now = Ret w' /\ good w' k.
Proof.
  induction fuel as [|fuel IH]; intros w now k Hg Hk; [lia|]. cbn [tick_loop].
  destruct (pop_ok w k now Hg) as (o & ts & -> & Ho). cbn [obind fst snd].
  destruct o as [slot|]; [|by eexists]. destruct Ho as (Hout & pend & Hi & Hpot & Hcl).
  assert (slot ∈ pool_slots) as Hin by (apply (inv_slots _ _ _ Hi); unfold in_flight; cbn; rewrite Hout; left).
  destruct (inv_timer_mem _ _ _ Hi slot Hin) as (v & Hv & Hud). rewrite (hld_spec _ _ _ Hv). cbn [obind].
  assert (1 <= potential w pend)%nat by (unfold potential; rewrite Hout; simpl; lia).
  rewrite Hud. unfold timeout_callback.
  assert (inv (with_q (set_credits 1 (w_q (with_timers ts w))) (with_timers ts w)) pend []) as Hi1.
  { apply inv_with_credits; [done|]. unfold is_byte. lia. }
  destruct (t_callback v).
  match goal with |- context [complete_slot _ _ _ _ _ _ _ ?n] => set (now' := n) end.
  destruct (complete_ok (bt_cmdq_pump fuel) fuel _ slot pend [] BT_CMDQ_RESULT_TIMEOUT 255 None 0 now' (k - 1)
    (pump_ok fuel) Hi1) as (w' & -> & Hq); [done| |lia|exact Hcl|done|].
  { match goal with |- (potential ?x pend <= _)%nat => change (potential x pend) with (potential w pend) end. lia. }
  cbn [obind]. destruct (IH w' now (k - 1)%nat) as (w2 & -> & Hg2); [by apply quiet_good|lia|].
  eexists. split; [done|]. eapply good_weaken; [done|lia].
Qed.

Lemma tick_ok fuel w now k : good w k -> (k < fuel)%nat ->
  exists w', bt_cmdq_tick fuel w now = Ret w' /\ quiet w' k.
Proof.
  intros Hg Hk. unfold bt_cmdq_tick.
  destruct (tick_loop_ok fuel (advance_clock w now) now k) as (w1 & -> & Hg1); [by apply good_advance|done|].
  cbn [obind]. by apply (pump_ok fuel).
Qed.

(** *** The history only grows *)

Definition grows (w : W) (o : outcome W) : Prop :=
  forall w', o = Ret w' -> exists l, w_trace w' = w_trace w ++ l.

Lemma grows_ret w : grows w (Ret w).
Proof. intros w' [= <-]. exists []. by rewrite app_nil_r. Qed.

Lemma grows_fault w : grows w Fault.
Proof. by intros w'. Qed.

Lemma grows_same (w w1 : W) o : w_trace w1 = w_trace w -> grows w1 o -> grows w o.
Proof. intros E Hg w' Hw. rewrite <- E. by apply Hg. Qed.

Lemma grows_bind {A} w (o : outcome A) k : (forall a, o = Ret a -> grows w (k a)) -> grows w (obind o k).
Proof. intros Hk w' Hw. destruct o as [a| |]; try done. by eapply Hk. Qed.

Lemma grows_trans (w w1 : W) o : (exists l, w_trace w1 = w_trace w ++ l) -> grows w1 o -> grows w o.
Proof.
  intros [l E] Hg w' Hw. destruct (Hg w' Hw) as [l' E']. exists (l ++ l'). by rewrite E', E, app_assoc.
Qed.

Lemma submit_grows (w : W) op ps pl to cb ud st w' : submit w op ps pl to cb ud = Ret (st, w') ->
  exists l, w_trace w' = w_trace w ++ l.
Proof.
  unfold submit. destruct (bt_cmdq_submit _ _ _ _ _ _ _) as [[st' q]| |]; [|done..]. cbn [obind fst snd].
  intros [= <- <-]. case_decide; [by eexists|]. exists []. by rewrite app_nil_r.
Qed.

Lemma run_cprog_grows p : forall w, grows w (run_cprog p w).
Proof.
  induction p as [c| |op ps pl to cb ud k IH]; intros w; cbn [run_cprog].
  - apply (grows_same w (with_client c w)); [done|apply grows_ret].
  - apply grows_fault.
  - apply grows_bind. intros [st w1] Hs. eapply grows_trans; [by eapply submit_grows|apply IH].
Qed.

Definition pump_grows (pump : W -> Z -> outcome W) : Prop := forall w now, grows w (pump w now).

Lemma complete_trace pump w slot s result status rp rpl now : pump_grows pump ->
  cq_pool (w_q w) !! slot = Some s ->
  forall w', complete_slot pump w slot result status rp rpl now = Ret w' ->
  exists l, w_trace w' = w_trace w ++ EComplete (cmd_of s) result status :: l.
Proof.
  intros Hp Hs w'. unfold complete_slot. rewrite (hld_spec _ _ _ Hs). cbn [obind].
  destruct (hld _ _) as [t| |]; [|done..]. cbn [obind].
  destruct (if t_pending t then _ else _) as [w1| |] eqn:E1; [|done..]. cbn [obind].
  assert (w_trace w1 = w_trace w) as Ht1.
  { destruct (t_pending t); [|by injection E1 as <-]. destruct (bt_timer_list_cancel _ _); [|done..].
    by injection E1 as <-. }
  set (w2 := if decide _ then _ else w1). assert (w_trace w2 = w_trace w) as Ht2 by (subst w2; by case_decide).
  destruct (hst _ _ _) as [pool| |]; [|done..]. cbn [obind].
  match goal with |- context [log ?e ?x] => set (w3 := log e x) end.
  assert (w_trace w3 = w_trace w ++ [EComplete (cmd_of s) result status]) as Ht3 by (subst w3; cbn; by rewrite Ht2).
  intros Hw. match type of Hw with ?o = _ => assert (grows w3 o) as Hg end.
  { apply grows_bind. intros w4 H4. eapply grows_trans; [|apply Hp].
    destruct (sl_on_complete s); [by eapply run_cprog_grows|]. injection H4 as <-. exists []. by rewrite app_nil_r. }
  destruct (Hg w' Hw) as [l E]. exists l. by rewrite E, Ht3, <- app_assoc.
Qed.

Lemma complete_grows pump w slot result status rp rpl now : pump_grows pump ->
  grows w (complete_slot pump w slot result status rp rpl now).
Proof.
  intros Hp w' Hw. destruct (cq_pool (w_q w) !! slot) as [s|] eqn:Hs.
  - destruct (complete_trace _ _ _ _ _ _ _ _ _ Hp Hs w' Hw) as [l ->]. by eexists.
  - unfold complete_slot, hld in Hw. by rewrite Hs in Hw.
Qed.

Lemma on_event_grows pump w data len now : pump_grows pump -> grows w (bt_cmdq_on_event pump w data len now).
Proof.
  intros Hp. unfold bt_cmdq_on_event.
  destruct (bt_hci_parse_event_header _) as [[h|e|] r]; [|apply grows_ret|apply grows_fault].
  assert (forall n (test : bt_cmdq_slot CB UD -> bool) ost rp rpl, let w1 := with_q (set_credits n (w_q w)) w in
    grows w (match cq_outstanding (w_q w1) with
      | Some slot => let? s := hld (cq_pool (w_q w1)) slot in
          if test s then let? status := ost in
            complete_slot pump w1 slot BT_CMDQ_RESULT_COMPLETE status rp rpl now
          else pump w1 now
      | None => pump w1 now end)) as Ha.
  { intros n test ost rp rpl w1. apply (grows_same w w1); [done|].
    destruct (cq_outstanding (w_q w1)); [|apply Hp]. apply grows_bind. intros s _.
    destruct (test s); [|apply Hp]. apply grows_bind. intros st _. by apply complete_grows. }
  destruct (_ =? BT_HCI_EVENT_COMMAND_COMPLETE).
  - destruct (bt_hci_parse_command_complete _ r) as [[c|e|] r']; [|apply grows_ret|apply grows_fault].
    apply (Ha _ (fun s => sl_opcode s =? cc_command_opcode c)).
  - destruct (_ =? BT_HCI_EVENT_COMMAND_STATUS); [|apply grows_ret].
    destruct (bt_hci_parse_command_status _ r) as [[c|e|] r']; [|apply grows_ret|apply grows_fault].
    apply (Ha _ (fun s => sl_opcode s =? cs_command_opcode c) (Ret (cs_status c)) None 0).
Qed.

Lemma run_tprog_grows pump a : pump_grows pump -> forall (w : W) rc w', run_tprog pump a w = Ret (rc, w') ->
  exists l, w_trace w' = w_trace w ++ l.
Proof.
  intros Hp. induction a as [rc t|t data k IH]; intros w rc' w'; cbn [run_tprog].
  - intros [= _ <-]. exists []. by rewrite app_nil_r.
  - destruct (recv_event _ _ _) as [w1| |] eqn:E; [|done..]. cbn [obind]. intros Hr.
    assert (grows (with_transport t w) (recv_event pump (with_transport t w) data)) as Hg.
    { unfold recv_event. destruct (negb _); [apply grows_ret|]. apply grows_bind. intros w2 H2.
      eapply grows_trans; [by eapply on_event_grows|]. apply grows_bind. intros c _.
      apply (grows_same w2 (with_client c w2)); [done|apply grows_ret]. }
    destruct (Hg w1 E) as [l1 E1]. destruct (IH _ _ _ _ Hr) as [l2 E2]. exists (l1 ++ l2).
    by rewrite E2, E1, app_assoc.
Qed.

Lemma pump_body_grows pump : pump_grows pump -> pump_grows (pump_body pump).
Proof.
  intros Hp w now. unfold pump_body. apply (grows_same w (advance_clock w now)).
  { by destruct (advance_clock_q w now) as [m ->]. }
  set (w0 := advance_clock w now). clearbody w0.
  destruct (cq_outstanding (w_q w0)); [apply grows_ret|].
  destruct (_ =? 0); [apply grows_ret|]. destruct (bt_queue_is_empty _); [apply grows_ret|].
  apply grows_bind. intros [[[slot|] p] h] _; [|apply grows_fault].
  set (w1 := with_q (set_queue h p (w_q w0)) w0). apply (grows_same w0 w1); [done|].
  apply grows_bind. intros s _.
  destruct (bt_hci_encode_command _ _ _ _) as [[[]|e|] bw]; [|by apply complete_grows|apply grows_fault].
  apply grows_bind. intros ts _.
  match goal with |- context [log ?e ?x] => set (w2 := log e x) end.
  apply (grows_trans w1 w2); [by eexists|]. apply grows_bind. intros [rc w3] H3.
  apply (grows_trans w2 w3); [by eapply run_tprog_grows|].
  destruct (_ && _); [|apply grows_ret]. eapply grows_same; [|by apply complete_grows]. done.
Qed.

Lemma bt_cmdq_pump_grows fuel : pump_grows (bt_cmdq_pump fuel).
Proof.
  induction fuel as [|fuel IH]; [intros w now; apply grows_fault|]. cbn [bt_cmdq_pump]. by apply pump_body_grows.
Qed.

Lemma tick_loop_grows fuel : forall w now, grows w (tick_loop fuel w now).
Proof.
  induction fuel as [|fuel IH]; intros w now; [apply grows_fault|]. cbn [tick_loop].
  apply grows_bind. intros [[t|] ts] _; cbn [fst snd]; [|eapply grows_same; [|apply grows_ret]; done].
  apply grows_bind. intros v _. apply grows_bind. intros w1 H1. eapply grows_trans; [|apply IH].
  destruct (t_callback v). unfold timeout_callback in H1.
  eapply complete_grows in H1; [|apply bt_cmdq_pump_grows]. exact H1.
Qed.

(** *** Sequences of calls *)

Inductive api : Type :=
| ASubmit (opcode : Z) (params : option (list Z)) (params_len timeout_us : Z) (on_complete : option CB) (user_data : UD)
| APump (now_us : Z)
| AEvent (data : list Z) (now_us : Z)
| ATick (now_us : Z).

Definition run_api (fuel : nat) (w : W) (a : api) : outcome W :=
  match a with
  | ASubmit opcode params params_len timeout_us cb ud =>
      let? r := submit w opcode params params_len timeout_us cb ud in Ret r.2
  | APump now_us => bt_cmdq_pump fuel w now_us
  | AEvent data now_us => bt_cmdq_on_event (bt_cmdq_pump fuel) w data (zlen data) now_us
  | ATick now_us => bt_cmdq_tick fuel w now_us
  end.

Fixpoint run_apis (fuel : nat) (w : W) (l : list api) : outcome W :=
  match l with
  | [] => Ret w
  | a :: l => let? w := run_api fuel w a in run_apis fuel w l
  end.

(** The client may submit a command with this callback at any time. *)
Definition admissible (cb : option CB) : Prop :=
  forall l c, client_ok l c -> client_ok (l ++ [cb]) c.

Definition api_ok (a : api) : Prop :=
  match a with
  | ASubmit _ params params_len _ cb _ => params_ok params params_len /\ admissible cb
  | AEvent data _ => bytes data
  | APump _ | ATick _ => True
  end.

(** What a call can add to the sends to come. *)
Definition api_weight (a : api) : nat :=
  match a with ASubmit _ _ _ _ cb _ => 2 * S (cost_of cb) | _ => 0 end.

Lemma submit_good w k op ps pl to cb ud : good w k -> params_ok ps pl -> admissible cb ->
  exists st w', submit w op ps pl to cb ud = Ret (st, w') /\ good w' (k + 2 * S (cost_of cb)).
Proof.
  intros (pend & tl & Hi & Ha & Hp & Hc) Hps Had.
  destruct (submit_ok w pend tl op ps pl to cb ud Hi Hps) as (st & w' & Hs & Hr). exists st, w'.
  split; [done|]. destruct Hr as [[-> _]|(-> & i & Hi' & (_ & _ & Hcl & _ & _ & Ho & _ & _ & _ & Hpot & Hcb))].
  - exists pend, tl. split; [done|]. split; [done|]. split; [lia|done].
  - exists (pend ++ [i]), tl. split; [done|]. split; [intros j Hj; apply Ha; congruence|].
    cbn [cd_on_complete] in Hpot, Hcb. split; [lia|]. rewrite Hcb, Hcl. by apply Had.
Qed.

Lemma run_api_good fuel w a k : good w k -> api_ok a -> (k + api_weight a < fuel)%nat ->
  exists w', run_api fuel w a = Ret w' /\ good w' (k + api_weight a).
Proof.
  intros Hg Ha Hf. destruct a as [op ps pl to cb ud|now|data now|now]; cbn [run_api api_weight] in *.
  - destruct Ha as [Hps Had]. destruct (submit_good w k op ps pl to cb ud Hg Hps Had) as (st & w' & -> & Hg'). by exists w'.
  - destruct (pump_ok fuel w now k) as (w' & -> & Hq); [done|lia|]. exists w'. split; [done|].
    eapply good_weaken; [by apply quiet_good|lia].
  - destruct (on_event_ok (bt_cmdq_pump fuel) fuel w data now k) as (w' & -> & Hq); [apply pump_ok|done|lia|done|].
    exists w'. split; [done|]. destruct Hq as [->|Hq]; [|apply quiet_good in Hq]; (eapply good_weaken; [done|lia]).
  - destruct (tick_ok fuel w now k) as (w' & -> & Hq); [done|lia|]. exists w'. split; [done|].
    eapply good_weaken; [by apply quiet_good|lia].
Qed.

Lemma run_apis_good fuel l : forall w k, good w k -> Forall api_ok l ->
  (k + sum_list (api_weight <$> l) < fuel)%nat ->
  exists w', run_apis fuel w l = Ret w' /\ good w' (k + sum_list (api_weight <$> l)).
Proof.
  induction l as [|a l IH]; intros w k Hg Hl Hf; cbn [run_apis fmap list_fmap] in *.
  - exists w. split; [done|]. eapply good_weaken; [done|simpl; lia].
  - inv Hl. simpl in Hf. destruct (run_api_good fuel w a k) as (w1 & -> & Hg1); [done..|lia|].
    cbn [obind]. destruct (IH w1 (k + api_weight a)%nat) as (w2 & -> & Hg2); [done..|lia|].
    exists w2. split; [done|]. eapply good_weaken; [done|simpl; lia].
Qed.

(** *** Initialisation *)

(** The queue object's memory: four slots with their arrays, nodes and timers,
    and no other timer pending. *)
Definition memory_ok (q : bt_cmdq CB UD) (ts : tstate timer_fn loc) : Prop :=
  (forall i, i ∈ pool_slots -> exists s, cq_pool q !! i = Some s /\ slot_ok s) /\
  (forall i, i ∈ pool_slots -> i ∈ dom (cq_nodes q)) /\
  (forall i, i ∈ pool_slots -> i ∈ dom (tl_mem ts)) /\
  (forall i v, tl_mem ts !! i = Some v -> i ∉ pool_slots -> t_pending v = false).

(** After the slots [l] are initialised. *)
Definition init_upto (l : list loc) (pool : gmap loc (bt_cmdq_slot CB UD)) (ts : tstate timer_fn loc) : Prop :=
  (forall i, i ∈ pool_slots -> exists s, pool !! i = Some s /\ slot_ok s /\ (i ∈ l -> sl_in_use s = false)) /\
  (forall i, i ∈ pool_slots -> i ∈ dom (tl_mem ts)) /\ tl_head ts = None /\
  (forall i v, i ∈ l -> tl_mem ts !! i = Some v -> t_user_data v = i) /\
  (forall i v, i ∈ l \/ i ∉ pool_slots -> tl_mem ts !! i = Some v -> t_pending v = false).

Lemma init_slot_ok l pool ts i : init_upto l pool ts -> i ∈ pool_slots ->
  exists pool' ts', init_slot (Ret (pool, ts)) i = Ret (pool', ts') /\ init_upto (l ++ [i]) pool' ts'.
Proof.
  intros (Hp & Hd & Hh & Ht & Hf) Hin. destruct (Hp i Hin) as (s & Hs & Hok & _). cbn [init_slot obind fst snd].
  rewrite (hld_spec _ _ _ Hs). cbn [obind]. rewrite (hst_spec _ _ _ _ Hs). cbn [obind].
  assert (is_Some (tl_mem ts !! i)) as [v Hv] by (apply elem_of_dom; by apply Hd).
  unfold bt_timer_init. rewrite (store_spec _ _ _ _ Hv). cbn [obind]. do 2 eexists. split; [done|].
  split; [|split; [|split; [done|split]]].
  - intros j Hj. destruct (decide (i = j)) as [->|Hne].
    + rewrite lookup_insert_eq. by exists (set_in_use false s).
    + rewrite lookup_insert_ne by done. destruct (Hp j Hj) as (t & ? & ? & Hu). exists t.
      do 2 (split; [done|]). rewrite elem_of_app, list_elem_of_singleton. intros [?| ->]; [auto|done].
  - intros j Hj. cbn [tl_mem]. rewrite dom_insert_L, elem_of_union. right. by apply Hd.
  - intros j u Hj. cbn [tl_mem]. destruct (decide (i = j)) as [->|Hne].
    + rewrite lookup_insert_eq. by intros [= <-].
    + rewrite lookup_insert_ne by done. apply Ht. rewrite elem_of_app, list_elem_of_singleton in Hj. naive_solver.
  - intros j u Hj. cbn [tl_mem]. destruct (decide (i = j)) as [->|Hne].
    + rewrite lookup_insert_eq. by intros [= <-].
    + rewrite lookup_insert_ne by done. apply Hf. rewrite elem_of_app, list_elem_of_singleton in Hj. naive_solver.
Qed.

Lemma init_good q ts (c : C) (t : T) : memory_ok q ts -> client_ok [] c ->
  exists q' ts', bt_cmdq_init q (bt_timer_list_init ts) = Ret (q', ts') /\
    good {| w_q := q'; w_timers := ts'; w_client := c; w_transport := t; w_trace := [] |} 0.
Proof.
  intros (Hp & Hn & Hd & Hf) Hc. unfold bt_cmdq_init.
  assert (exists pool ts', foldl init_slot (Ret (cq_pool q, bt_timer_list_init ts)) pool_slots = Ret (pool, ts') /\
    init_upto pool_slots pool ts') as (pool & ts' & -> & Hu).
  { assert (init_upto [] (cq_pool q) (bt_timer_list_init ts)) as Hinit.
    { split; [|split; [|split; [done|split]]]; [|done| |].
      - intros i Hi. destruct (Hp i Hi) as (s & ? & ?). exists s. do 2 (split; [done|]). by intros Hx%not_elem_of_nil.
      - by intros i v Hx%not_elem_of_nil.
      - intros i v [Hx%not_elem_of_nil|Hx] Hv; [done|]. by eapply Hf. }
    unfold pool_slots at 1. cbn [foldl].
    do 4 (match goal with Hx : init_upto ?l _ _ |- context [init_slot (Ret _) ?i] =>
      destruct (init_slot_ok l _ _ i Hx) as (? & ? & -> & ?); [by apply (bool_decide_unpack _)|]; clear Hx end).
    do 2 eexists. split; [done|]. done. }
  cbn [obind fst snd]. do 2 eexists. split; [done|]. destruct Hu as (Hpl & Hdm & Hh & Htm & Hfm).
  exists [], []. split; [|split; [done|split; [exact (Nat.le_refl 0)|done]]]. constructor; try done.
  - intros i Hi. destruct (Hpl i Hi) as (s & ? & ? & Hx). exists s. do 2 (split; [done|]). by rewrite Hx.
  - intros i Hi. cbn. assert (is_Some (tl_mem ts' !! i)) as [v Hv] by (apply elem_of_dom; by apply Hdm).
    exists v. split; [done|]. by apply (Htm i v).
  - apply init_rep.
  - split; [constructor|]. split; [done|]. split; [by intros ? ? ?%not_elem_of_nil|].
    intros i v Hv. cbn in *. rewrite (Hfm i v) by (done || (destruct (decide (i ∈ pool_slots)); auto)).
    by rewrite bool_decide_false by apply not_elem_of_nil.
  - constructor.
  - intros i Hi. by apply not_elem_of_nil in Hi.
  - intros x Hi. by apply not_elem_of_nil in Hi.
Qed.

(** A queue in use can be initialised again. *)
Lemma inv_memory w pend tl : inv w pend tl -> memory_ok (w_q w) (w_timers w).
Proof.
  intros Hi. split; [|split; [apply (inv_nodes _ _ _ Hi)|split]].
  - intros i Hin. destruct (inv_pool _ _ _ Hi i Hin) as (s & ? & ? & _). by exists s.
  - intros i Hin. destruct (inv_timer_mem _ _ _ Hi i Hin) as (v & Hv & _). by eapply elem_of_dom_2.
  - intros i v Hv Hin. destruct (rep_attrs _ _ _ _ (inv_timers _ _ _ Hi) Hv) as [-> _].
    apply bool_decide_eq_false. intros (x & -> & Hx)%list_elem_of_fmap. apply Hin, (inv_slots _ _ _ Hi).
    unfold in_flight. rewrite (inv_tl _ _ _ Hi x Hx). left.
Qed.

(** *** Well-formed answers *)

Definition complete_event (n op : Z) (params : list Z) : list Z :=
  [BT_HCI_EVENT_COMMAND_COMPLETE; 3 + zlen params] ++ [n] ++ le_enc 2 op ++ params.
Definition status_event (st n op : Z) : list Z :=
  [BT_HCI_EVENT_COMMAND_STATUS; 4] ++ [st] ++ [n] ++ le_enc 2 op.

Lemma event_header_runs code body : is_byte code -> zlen body < 256 -> bytes body ->
  exists r, bt_hci_parse_event_header (bt_buf_reader_init ([code; zlen body] ++ body) (zlen ([code; zlen body] ++ body)))
    = (Ret {| eh_event_code := code; eh_param_len := zlen body |}, r) /\ reader_ok r /\ rview r = body.
Proof.
  intros Hc Hl Hb. unfold is_byte in *. set (data := [code; zlen body] ++ body).
  assert (bytes data) as Hbd by (subst data; bys).
  pose proof (reader_init_ok data (zlen data) ltac:(lia) Hbd) as Hok.
  pose proof (rview_init_all data) as Hv.
  assert (rview (bt_buf_reader_init data (zlen data)) = ([code] ++ [zlen body]) ++ (body ++ [])) as Hv'
    by (rewrite Hv, app_nil_r; done).
  eexists. split; [apply (event_header_reads code (zlen body) body []); unfold is_byte; try lia; [|done|exact Hv']|].
  { rewrite app_nil_r. lia. }
  rewrite app_nil_r in Hv'. by apply radvance_view_app.
Qed.

(** The answer to the outstanding command completes it. *)
Lemma complete_event_calls pump w slot s n params now : cq_outstanding (w_q w) = Some slot ->
  cq_pool (w_q w) !! slot = Some s -> is_byte n -> 0 <= sl_opcode s < 2 ^ 16 -> bytes params -> zlen params <= 252 ->
  let data := complete_event n (sl_opcode s) params in
  bt_cmdq_on_event pump w data (zlen data) now =
  complete_slot pump (with_q (set_credits n (w_q w)) w) slot BT_CMDQ_RESULT_COMPLETE (default 255 (head params))
    (Some params) (zlen params) now.
Proof.
  intros Ho Hs Hn Hop Hb Hl data.
  assert (bytes ([n] ++ le_enc 2 (sl_opcode s) ++ params)) as Hbb by bys.
  assert (zlen ([n] ++ le_enc 2 (sl_opcode s) ++ params) = 3 + zlen params) as Hbl
    by (rewrite !length_app, le_enc_length; simpl; lia).
  destruct (event_header_runs BT_HCI_EVENT_COMMAND_COMPLETE ([n] ++ le_enc 2 (sl_opcode s) ++ params))
    as (r & Hh & Hok & Hv); [unfold is_byte, BT_HCI_EVENT_COMMAND_COMPLETE; lia|lia|done|]. rewrite Hbl in Hh.
  unfold bt_cmdq_on_event. unfold data, complete_event. rewrite Hh. cbn [eh_event_code eh_param_len].
  rewrite (proj2 (Z.eqb_eq _ _)) by done.
  rewrite (command_complete_reads n (sl_opcode s) params [] Hn Hop r Hok) by (by rewrite app_nil_r).
  cbn [cc_num_hci_command_packets cc_command_opcode cc_return_params cc_return_params_len].
  set (w1 := with_q (set_credits n (w_q w)) w). change (cq_outstanding (w_q w1)) with (cq_outstanding (w_q w)).
  rewrite Ho. change (cq_pool (w_q w1)) with (cq_pool (w_q w)). rewrite (hld_spec _ _ _ Hs). cbn [obind].
  rewrite Z.eqb_refl.
  assert ((if zlen params >=? 1 then ld params 0 else Ret 255) = Ret (default 255 (head params))) as ->
    by (destruct params as [|b ps]; [done|]; rewrite Z.geb_leb, (proj2 (Z.leb_le _ _)) by (simpl length; lia); done).
  done.
Qed.

Lemma complete_event_runs fuel w k slot s n params now : good w k -> cq_outstanding (w_q w) = Some slot ->
  cq_pool (w_q w) !! slot = Some s -> (k < fuel)%nat -> is_byte n -> 0 <= sl_opcode s < 2 ^ 16 ->
  bytes params -> zlen params <= 252 ->
  let data := complete_event n (sl_opcode s) params in
  exists w' l, bt_cmdq_on_event (bt_cmdq_pump fuel) w data (zlen data) now = Ret w' /\ quiet w' k /\
    w_trace w' = w_trace w ++ EComplete (cmd_of s) BT_CMDQ_RESULT_COMPLETE (default 255 (head params)) :: l.
Proof.
  intros Hg Ho Hs Hk Hn Hop Hb Hl data. unfold data. rewrite (complete_event_calls _ w slot s) by done.
  set (w1 := with_q (set_credits n (w_q w)) w).
  destruct (complete_good (bt_cmdq_pump fuel) fuel w1 slot BT_CMDQ_RESULT_COMPLETE (default 255 (head params))
    (Some params) (zlen params) now k) as (w' & Hr & Hq); [apply pump_ok|by apply good_credits|done|done|done|].
  destruct (complete_trace _ w1 slot s _ _ _ _ _ (bt_cmdq_pump_grows fuel) Hs w' Hr) as [l Hl'].
  by exists w', l.
Qed.

Lemma status_event_runs fuel w k slot s st n now : good w k -> cq_outstanding (w_q w) = Some slot ->
  cq_pool (w_q w) !! slot = Some s -> (k < fuel)%nat -> is_byte st -> is_byte n -> 0 <= sl_opcode s < 2 ^ 16 ->
  let data := status_event st n (sl_opcode s) in
  exists w' l, bt_cmdq_on_event (bt_cmdq_pump fuel) w data (zlen data) now = Ret w' /\ quiet w' k /\
    w_trace w' = w_trace w ++ EComplete (cmd_of s) BT_CMDQ_RESULT_COMPLETE st :: l.
Proof.
  intros Hg Ho Hs Hk Hst Hn Hop data.
  assert (bytes ([st] ++ [n] ++ le_enc 2 (sl_opcode s))) as Hbb by bys.
  destruct (event_header_runs BT_HCI_EVENT_COMMAND_STATUS ([st] ++ [n] ++ le_enc 2 (sl_opcode s)))
    as (r & Hh & Hok & Hv); [unfold is_byte, BT_HCI_EVENT_COMMAND_STATUS; lia|done|done|].
  unfold bt_cmdq_on_event. unfold data, status_event. change (zlen ([st] ++ _)) with 4 in Hh.
  rewrite Hh. cbn [eh_event_code eh_param_len].
  change (BT_HCI_EVENT_COMMAND_STATUS =? BT_HCI_EVENT_COMMAND_COMPLETE) with false.
  change (BT_HCI_EVENT_COMMAND_STATUS =? BT_HCI_EVENT_COMMAND_STATUS) with true. cbv iota.
  rewrite (command_status_reads st n (sl_opcode s) [] Hst Hn Hop r Hok) by (by rewrite app_nil_r).
  cbn [cs_status cs_num_hci_command_packets cs_command_opcode].
  set (w1 := with_q (set_credits n (w_q w)) w). change (cq_outstanding (w_q w1)) with (cq_outstanding (w_q w)).
  rewrite Ho. change (cq_pool (w_q w1)) with (cq_pool (w_q w)). rewrite (hld_spec _ _ _ Hs). cbn [obind].
  rewrite Z.eqb_refl.
  destruct (complete_good (bt_cmdq_pump fuel) fuel w1 slot BT_CMDQ_RESULT_COMPLETE st None 0 now k)
    as (w' & Hr & Hq); [apply pump_ok|by apply good_credits|done|done|done|].
  destruct (complete_trace _ w1 slot s _ _ _ _ _ (bt_cmdq_pump_grows fuel) Hs w' Hr) as [l Hl'].
  by exists w', l.
Qed.

(** A tick past the deadline times the outstanding command out. *)
Lemma timeout_runs fuel w k slot s e now : good w k -> cq_outstanding (w_q w) = Some slot ->
  cq_pool (w_q w) !! slot = Some s -> (k < fuel)%nat ->
  bt_timer_list_next_expiry (w_timers w) = Ret e -> e <= now ->
  exists w' l, bt_cmdq_tick fuel w now = Ret w' /\ quiet w' k /\
    w_trace w' = w_trace w ++ EComplete (cmd_of s) BT_CMDQ_RESULT_TIMEOUT 255 :: l.
Proof.
  intros Hg Ho Hs Hk He Hle. destruct (tick_ok fuel w now k Hg Hk) as (w' & Hr & Hq). exists w'.
  assert (exists l, w_trace w' = w_trace w ++ EComplete (cmd_of s) BT_CMDQ_RESULT_TIMEOUT 255 :: l) as [l Hl];
    [|by exists l]. unfold bt_cmdq_tick in Hr. destruct fuel as [|fuel]; [lia|].
  destruct Hg as (pend & tl & Hi & Ha & Hp & Hcl). destruct (Ha slot Ho) as [e' ->].
  destruct (advance_clock_q w now) as [m Hm]. rewrite Hm in Hr.
  set (w0 := with_q (set_last_tick m (w_q w)) w) in *. cbn [tick_loop] in Hr.
  pose proof (inv_timers _ _ _ Hi) as Hrep. rewrite (next_expiry_spec _ _ Hrep) in He. injection He as ->.
  destruct (timer_pop_spec _ _ now Hrep) as (ts & Hpop & Hrep' & Hd). cbn [sp_pop fst snd] in Hpop.
  rewrite (proj2 (Z.leb_le _ _)) in Hpop by done. cbn [fst] in Hpop.
  change (w_timers w0) with (w_timers w) in Hr. rewrite Hpop in Hr. cbn [obind fst snd] in Hr.
  assert (is_Some (tl_mem ts !! slot)) as [v Hv].
  { apply elem_of_dom. rewrite Hd. apply elem_of_dom.
    destruct (inv_timer_mem _ _ _ Hi slot) as (u & Hu & _); [|by exists u].
    apply (inv_slots _ _ _ Hi). unfold in_flight. rewrite Ho. left. }
  cbn [with_timers w_timers] in Hr. rewrite (hld_spec _ _ _ Hv) in Hr. cbn [obind] in Hr.
  assert (t_user_data v = slot) as Hud.
  { destruct (pop_ok w k now) as (o & ts' & Hpop' & Ho'); [exists pend, [(slot, e)]; done|].
    rewrite Hpop in Hpop'. injection Hpop' as <- <-. destruct Ho' as (_ & pend' & Hi' & _).
    destruct (inv_timer_mem _ _ _ Hi' slot) as (u & Hu & Hud);
      [apply (inv_slots _ _ _ Hi'); unfold in_flight; cbn; rewrite Ho; left|]. cbn in Hu. congruence. }
  rewrite Hud in Hr. destruct (t_callback v).
  destruct (timeout_callback _ _ _) as [w1| |] eqn:Hto; [|done..]. cbn [obind] in Hr.
  unfold timeout_callback in Hto.
  eapply (complete_trace _ _ slot s) in Hto as [l1 H1]; [|apply bt_cmdq_pump_grows|done].
  cbn [w_trace with_q with_timers] in H1. change (w_trace w0) with (w_trace w) in H1.
  destruct (tick_loop fuel w1 now) as [w2| |] eqn:H2; [|done..]. cbn [obind] in Hr.
  destruct (tick_loop_grows fuel w1 now w2 H2) as [l2 E2].
  destruct (bt_cmdq_pump_grows (S fuel) w2 now w' Hr) as [l3 E3].
  exists (l1 ++ l2 ++ l3). rewrite E3, E2, H1, <- !app_assoc. done.
Qed.

(** ** Properties *)

(** C1.  Every accepted command is sent once and completed once, in order.
    From initialisation on, for any sequence of submits, pumps, received
    events and ticks, any client whose callbacks submit a bounded number of
    further commands, and any transport, even one that delivers events from
    inside [send_command], the run ends (fuel past twice the possible sends is
    enough) without touching a dangling slot, node or timer.  At its end the
    commands submitted are the ones completed, then the outstanding one, then
    the ones waiting, in submission order; exactly the completed and the
    outstanding ones went to the transport, once each, as their HCI encoding;
    at most one is outstanding, at most four are held, and a timeout is armed
    exactly for the outstanding one. *)
Theorem cmdq_exactly_once_fifo : forall q ts (c : C) (t : T) l fuel,
  memory_ok q ts -> client_ok [] c -> Forall api_ok l ->
  (sum_list (api_weight <$> l) < fuel)%nat ->
  exists q0 ts0 w pend tl,
    bt_cmdq_init q (bt_timer_list_init ts) = Ret (q0, ts0) /\
    run_apis fuel {| w_q := q0; w_timers := ts0; w_client := c; w_transport := t; w_trace := [] |} l = Ret w /\
    submitted (w_trace w) = completed (w_trace w) ++ at_slots cmd_of (cq_pool (w_q w)) (in_flight w pend) /\
    sent (w_trace w) = wire_of <$>
      (completed (w_trace w) ++ at_slots cmd_of (cq_pool (w_q w)) (option_list (cq_outstanding (w_q w)))) /\
    queue_rep (cq_nodes (w_q w)) (cq_pending (w_q w)) pend /\ (length (in_flight w pend) <= 4)%nat /\
    timer_rep (w_timers w) tl /\ tl.*1 = option_list (cq_outstanding (w_q w)).
Proof.
  intros q ts c t l fuel Hm Hc Hl Hf. destruct (init_good q ts c t Hm Hc) as (q0 & ts0 & Hinit & Hg).
  destruct (run_apis_good fuel l _ 0 Hg Hl Hf) as (w & Hr & pend & tl & Hi & Ha & _).
  exists q0, ts0, w, pend, tl. split; [done|]. split; [done|]. destruct Hi. do 3 (split; [done|]).
  split; [|split; [done|]].
  - assert (in_flight w pend ⊆+ pool_slots) as Hsub by (by apply NoDup_submseteq).
    by apply submseteq_length in Hsub.
  - destruct (cq_outstanding (w_q w)) as [i|] eqn:Ho.
    + by destruct (Ha i Ho) as [e ->].
    + destruct tl as [|x tl]; [done|]. specialize (inv_tl0 x ltac:(left)). congruence.
Qed.

(** C21.  The outstanding command always gets its result.  Whatever its
    callback and the transport do next: a Command Complete for its opcode
    completes it with the first return parameter as status (0xFF when there
    are none), a Command Status, successful or not, completes it with that
    status, and a tick at or after the armed deadline completes it as timed
    out; in each case the completion is the next thing that happens, and the
    queue ends with nothing waiting that the credits allow to send, so one lost
    answer does not block the commands behind it. *)
Theorem cmdq_answers : forall fuel w k slot s now, good w k -> cq_outstanding (w_q w) = Some slot ->
  cq_pool (w_q w) !! slot = Some s -> 0 <= sl_opcode s < 2 ^ 16 -> (k < fuel)%nat ->
  (forall n params, is_byte n -> bytes params -> zlen params <= 252 ->
     let data := complete_event n (sl_opcode s) params in
     exists w' l, bt_cmdq_on_event (bt_cmdq_pump fuel) w data (zlen data) now = Ret w' /\ quiet w' k /\
       w_trace w' = w_trace w ++ EComplete (cmd_of s) BT_CMDQ_RESULT_COMPLETE (default 255 (head params)) :: l) /\
  (forall n st, is_byte n -> is_byte st ->
     let data := status_event st n (sl_opcode s) in
     exists w' l, bt_cmdq_on_event (bt_cmdq_pump fuel) w data (zlen data) now = Ret w' /\ quiet w' k /\
       w_trace w' = w_trace w ++ EComplete (cmd_of s) BT_CMDQ_RESULT_COMPLETE st :: l) /\
  (forall e, bt_timer_list_next_expiry (w_timers w) = Ret e -> e <= now ->
     exists w' l, bt_cmdq_tick fuel w now = Ret w' /\ quiet w' k /\
       w_trace w' = w_trace w ++ EComplete (cmd_of s) BT_CMDQ_RESULT_TIMEOUT 255 :: l).
Proof.
  intros fuel w k slot s now Hg Ho Hs Hop Hk. split; [|split].
  - intros n params Hn Hb Hl. by eapply complete_event_runs.
  - intros n st Hn Hst. by eapply status_event_runs.
  - intros e He Hle. by eapply timeout_runs.
Qed.

End Laws.

(** *** A transport that only takes commands *)

(** It accepts every command and delivers nothing from inside [send_command]. *)
Definition plain : Prop := forall (t : T) wire, exists t', send_command t wire = TDone 0 t'.

(** Nothing in flight; exactly one command in flight, sent and unanswered. *)
Definition idle (w : W) : Prop := inv w [] [] /\ cq_outstanding (w_q w) = None.
Definition awaiting (w : W) (c : command CB UD) : Prop :=
  exists slot s e, inv w [] [(slot, e)] /\ cq_outstanding (w_q w) = Some slot /\
    cq_pool (w_q w) !! slot = Some s /\ cmd_of s = c.

Section Plain.

Lemma idle_client w c : idle w -> idle (with_client c w).
Proof. intros [Hi Ho]. split; [by apply inv_with_client|done]. Qed.

Lemma advance_trace (w : W) now : w_trace (advance_clock w now) = w_trace w /\ w_client (advance_clock w now) = w_client w /\
  w_transport (advance_clock w now) = w_transport w.
Proof. by destruct (advance_clock_q w now) as [m ->]. Qed.

Lemma idle_advance w now : idle w -> idle (advance_clock w now).
Proof. intros [Hi Ho]. split; [by apply inv_advance|]. by destruct (advance_clock_q w now) as [m ->]. Qed.

Lemma pump_idle fuel w now : idle w -> bt_cmdq_pump (S fuel) w now = Ret (advance_clock w now).
Proof.
  intros Hid. apply (idle_advance _ now) in Hid as [Hi Ho]. cbn [bt_cmdq_pump]. unfold pump_body. rewrite Ho.
  rewrite (is_empty_spec _ _ _ (inv_queue _ _ _ Hi)). by destruct (_ =? 0).
Qed.

(** The pump sends the only pending command; what the transport does with it follows. *)
Lemma pump_launches fuel w slot s now : inv w [slot] [] -> cq_outstanding (w_q w) = None ->
  cq_command_credits (w_q w) <> 0 -> cq_pool (w_q w) !! slot = Some s ->
  exists w2 e, inv w2 [] [(slot, e)] /\ cq_outstanding (w_q w2) = Some slot /\ cq_pool (w_q w2) !! slot = Some s /\
    w_client w2 = w_client w /\ w_transport w2 = w_transport w /\ w_trace w2 = w_trace w ++ [ESend (wire_of (cmd_of s))] /\
    forall w3, run_tprog (bt_cmdq_pump fuel) (send_command (w_transport w2) (wire_of (cmd_of s))) w2 = Ret (0, w3) ->
      bt_cmdq_pump (S fuel) w now = Ret w3.
Proof.
  intros Hi Ho Hc Hs. apply (inv_advance _ _ _ now) in Hi. cbn [bt_cmdq_pump]. unfold pump_body.
  destruct (advance_trace w now) as (<- & <- & <-).
  assert (exists m, advance_clock w now = with_q (set_last_tick m (w_q w)) w) as [m Hm] by apply advance_clock_q.
  assert (cq_outstanding (w_q (advance_clock w now)) = None /\ cq_command_credits (w_q (advance_clock w now)) <> 0 /\
    cq_pool (w_q (advance_clock w now)) !! slot = Some s) as (Ho' & Hc' & Hs') by (by rewrite Hm).
  set (w0 := advance_clock w now) in *. clearbody w0. clear Hm Ho Hc Hs w.
  rewrite Ho', (proj2 (Z.eqb_neq _ _)), (is_empty_spec _ _ _ (inv_queue _ _ _ Hi)) by done.
  destruct (queue_pop_spec _ _ _ (inv_queue _ _ _ Hi)) as (q' & h' & -> & Hrep & Hdom). cbn [obind head tail].
  assert (slot ∈ pool_slots) as Hin by (apply (inv_slots _ _ _ Hi); unfold in_flight; rewrite Ho'; left).
  destruct (inv_pool _ _ _ Hi slot Hin) as (s' & Hs & Hok & _). simplify_eq.
  destruct (inv_timer_mem _ _ _ Hi slot Hin) as (v & Hv & _).
  cbn [with_q w_q set_queue cq_pool]. rewrite (hld_spec _ _ _ Hs'). cbn [obind].
  destruct (encode_slot s Hok) as (bw & -> & ->).
  cbn [with_q w_q set_queue cq_pool w_timers set_outstanding set_credits cq_command_credits].
  destruct (add_spec _ _ slot (u64 (now + sl_timeout_us s)) v (inv_timers _ _ _ Hi) Hv) as (ts & -> & Hts & Hat).
  cbn [obind]. match goal with |- context [log ?e ?x] => change (log e x) with (launched w0 slot s h' q' ts) end.
  destruct (launched_inv (fun _ => 0%nat) w0 slot [] s h' q' ts (u64 (now + sl_timeout_us s))) as (Hi' & _); [done..| |].
  { by eapply attrs_timer_mem; [| |exact (inv_timer_mem _ _ _ Hi)]. }
  exists (launched w0 slot s h' q' ts), (u64 (now + sl_timeout_us s)). split; [done|]. do 5 (split; [done|]).
  intros w3 Hrun. rewrite Hrun. done.
Qed.

(** One command submitted to an idle queue. *)
Lemma submit_idle w op params n timeout cb ud : idle w -> params_ok params n -> (params = None -> n = 0) ->
  let c := {| cd_opcode := op; cd_params := take (Z.to_nat n) (default [] params); cd_on_complete := cb;
              cd_user_data := ud |} in
  exists w1 i s, submit w op params n timeout cb ud = Ret (BT_OK, w1) /\ inv w1 [i] [] /\ cq_outstanding (w_q w1) = None /\
    cq_command_credits (w_q w1) = cq_command_credits (w_q w) /\ cq_pool (w_q w1) !! i = Some s /\ cmd_of s = c /\
    w_client w1 = w_client w /\ w_transport w1 = w_transport w /\ w_trace w1 = w_trace w ++ [ESubmit c].
Proof.
  intros [Hi Ho] Hps Hn c.
  destruct (submit_ok (fun _ => 0%nat) w [] [] op params n timeout cb ud Hi Hps) as (st & w1 & Hsub & Hr).
  destruct Hr as [[-> [(-> & Hnone & ?)|[-> Hfull]]]|(-> & i & Hi1 & Hd)].
  { rewrite Hn in * by done. lia. }
  { unfold in_flight in Hfull. by rewrite Ho in Hfull. }
  fold c in Hd. destruct Hd as (_ & _ & Hcl & Htr & Ht & Ho1 & Hc1 & _ & Hfl & _). cbn [app] in *.
  assert (exists s, cq_pool (w_q w1) !! i = Some s /\ cmd_of s = c) as (s & Hs & Hcs).
  { pose proof (inv_submitted _ _ _ Hi) as H1. pose proof (inv_submitted _ _ _ Hi1) as H2.
    rewrite Hfl in H2. unfold in_flight in H1, H2. rewrite Ho in *. change (option_list None) with (@nil loc) in *.
    rewrite Ht in H2. unfold submitted, completed in *. rewrite !omap_app, H1 in H2. cbn in H2.
    rewrite !app_nil_r in H2. apply app_inv_head in H2.
    destruct (cq_pool (w_q w1) !! i) as [s|]; [|done]. exists s. split; [done|]. cbn in H2. congruence. }
  exists w1, i, s. split; [done|]. split; [done|]. split; [congruence|]. by do 5 (split; [congruence|]).
Qed.

(** *** A transport that answers from inside [send_command] *)

(** The queue after the callback of a command that was answered at once. *)
Definition answered_state (p : cprog CB UD C) (w w' : W) (t : T) (n : Z) (sent : list (tev CB UD)) : Prop :=
  match p with
  | CDone m => idle w' /\ w_client w' = m /\ w_transport w' = t /\ w_trace w' = w_trace w ++ sent
  | CSubmit op None len to cb ud k => len = 0 -> forall m, k BT_OK = CDone m ->
      let c := {| cd_opcode := op; cd_params := []; cd_on_complete := cb; cd_user_data := ud |} in
      exists i s, inv w' [i] [] /\ cq_outstanding (w_q w') = None /\ cq_command_credits (w_q w') = n /\
        cq_pool (w_q w') !! i = Some s /\ cmd_of s = c /\ w_client w' = m /\ w_transport w' = t /\
        w_trace w' = w_trace w ++ sent ++ [ESubmit c]
  | _ => True
  end.

(** A callback that returns, or that submits one command without parameters. *)
Definition simple (p : cprog CB UD C) : Prop :=
  match p with
  | CDone _ => True
  | CSubmit _ None n _ _ _ k => n = 0 /\ exists m, k BT_OK = CDone m
  | _ => False
  end.

(** The pump, when the command is answered before its send returns: the
    callback runs, and the rest is the pump in the state it leaves. *)
Lemma pump_answered fuel w slot s now n params cb t : inv w [slot] [] -> cq_outstanding (w_q w) = None ->
  cq_command_credits (w_q w) <> 0 -> cq_pool (w_q w) !! slot = Some s -> sl_on_complete s = Some cb ->
  0 <= sl_opcode s < 2 ^ 16 -> is_byte n -> bytes params -> zlen params <= 252 -> client_accepts (w_client w) = true ->
  let data := complete_event n (sl_opcode s) params in let status := default 255 (head params) in
  send_command (w_transport w) (wire_of (cmd_of s)) = TRecv t data (TDone 0) ->
  let p := client_complete cb {| cm_result := BT_CMDQ_RESULT_COMPLETE; cm_opcode := sl_opcode s; cm_status := status;
             cm_return_params := Some params; cm_return_params_len := zlen params |} (sl_user_data s) (w_client w) in
  simple p -> exists w1 now1,
    answered_state p w w1 t n [ESend (wire_of (cmd_of s)); EComplete (cmd_of s) BT_CMDQ_RESULT_COMPLETE status] /\
    forall w', bt_cmdq_pump fuel w1 now1 = Ret w' -> client_received data (w_client w') = Ret (w_client w') ->
      bt_cmdq_pump (S fuel) w now = Ret w'.
Proof.
  intros Hi Ho Hc Hs Hcb Hop Hn Hb Hl Hacc data status Hsend p Hp.
  destruct (pump_launches fuel w slot s now Hi Ho Hc Hs) as (w2 & e & Hi2 & Ho2 & Hs2 & Hcl2 & Htr2 & Ht2 & Hpump).
  rewrite Htr2, Hsend in Hpump. cbn [run_tprog] in Hpump. unfold recv_event in Hpump.
  set (w3 := with_transport t w2) in *. change (client_accepts (w_client w3)) with (client_accepts (w_client w2)) in Hpump.
  rewrite Hcl2, Hacc in Hpump. cbn [negb] in Hpump. set (tick := cq_last_tick_us (w_q w3)) in *.
  unfold data in Hpump. rewrite (complete_event_calls (bt_cmdq_pump fuel) w3 slot s n params tick) in Hpump by done. fold data status in Hpump.
  set (w4 := with_q (set_credits n (w_q w3)) w3) in *.
  assert (inv w4 [] [(slot, e)]) as Hi4 by (apply inv_with_credits; [by apply inv_with_transport|done]).
  destruct (complete_slot_runs (bt_cmdq_pump fuel) w4 slot [] [(slot, e)] s BT_CMDQ_RESULT_COMPLETE status (Some params) (zlen params)
    tick Hi4 Ho2 Hs2) as (ts & Hrep & Hmem & Ecs). cbv zeta in Ecs. rewrite Ecs, Hcb in Hpump. clear Ecs.
  destruct (released_inv (fun _ => 0%nat) w4 [] _ slot s ts BT_CMDQ_RESULT_COMPLETE status Hi4 Ho2 Hs2 Hrep Hmem) as (Hi5 & _).
  set (w5 := released w4 slot s ts BT_CMDQ_RESULT_COMPLETE status) in *.
  change (w_client w5) with (w_client w2) in Hpump. rewrite Hcl2 in Hpump. fold p in Hpump.
  assert (w_trace w5 = w_trace w ++ [ESend (wire_of (cmd_of s)); EComplete (cmd_of s) BT_CMDQ_RESULT_COMPLETE status]) as Htr5.
  { unfold w5, released. cbn. by rewrite Ht2, <- app_assoc. }
  assert (forall w1, run_cprog p w5 = Ret w1 -> forall w', bt_cmdq_pump fuel w1 tick = Ret w' -> client_received data (w_client w') = Ret (w_client w') ->
    bt_cmdq_pump (S fuel) w now = Ret w') as Hrest.
  { intros w1 Hrun w' Hw' Hrec. apply Hpump. rewrite Hrun. cbn [obind]. rewrite Hw'. cbn [obind]. rewrite Hrec. cbn [obind]. by destruct w'. }
  assert (idle w5 /\ w_transport w5 = t /\ cq_command_credits (w_q w5) = n) as (Hid5 & Htp5 & Hc5) by done.
  clearbody w5. destruct p as [m| |op [ps|] len to cb' ud k]; cbn [simple] in Hp; try done; cbn [answered_state].
  - exists (with_client m w5), tick. split; [|by apply Hrest]. split; [by apply idle_client|done].
  - destruct Hp as [-> [m Hk]].
    destruct (submit_idle w5 op None 0 to cb' ud Hid5) as (w6 & i & s6 & Hsub & Hi6 & Ho6 & Hc6 & Hs6 & Hcs6 & _ & Htp6 & Ht6);
      [split; [unfold BT_HCI_MAX_PARAM_LEN; lia|done]|done|].
    exists (with_client m w6), tick. split.
    + intros _ m' E. rewrite Hk in E. injection E as <-. exists i, s6. split; [by apply inv_with_client|]. split; [done|]. split; [cbn; congruence|].
      split; [done|]. split; [done|]. split; [done|]. split; [cbn; congruence|]. cbn. by rewrite Ht6, Htr5, <- app_assoc.
    + apply Hrest. cbn [run_cprog]. rewrite Hsub. cbn [obind fst snd]. by rewrite Hk.
Qed.

Context (Hplain : plain).

Lemma pump_one fuel w slot s now : inv w [slot] [] -> cq_outstanding (w_q w) = None ->
  cq_command_credits (w_q w) <> 0 -> cq_pool (w_q w) !! slot = Some s ->
  exists w', bt_cmdq_pump (S fuel) w now = Ret w' /\ awaiting w' (cmd_of s) /\ w_client w' = w_client w /\
    w_trace w' = w_trace w ++ [ESend (wire_of (cmd_of s))].
Proof.
  intros Hi Ho Hc Hs. destruct (pump_launches fuel w slot s now Hi Ho Hc Hs) as (w2 & e & Hi2 & Ho2 & Hs2 & Hcl & _ & Ht & Hp).
  destruct (Hplain (w_transport w2) (wire_of (cmd_of s))) as [t' E]. exists (with_transport t' w2).
  split; [apply Hp; by rewrite E|]. split; [|by split].
  exists slot, s, e. split; [by apply inv_with_transport|]. by split.
Qed.

(** One command submitted to an idle queue, and a pump. *)
Lemma submit_pump fuel w op params n timeout cb ud now : idle w -> cq_command_credits (w_q w) <> 0 ->
  params_ok params n -> (params = None -> n = 0) ->
  let c := {| cd_opcode := op; cd_params := take (Z.to_nat n) (default [] params); cd_on_complete := cb;
              cd_user_data := ud |} in
  exists w1, submit w op params n timeout cb ud = Ret (BT_OK, w1) /\ w_client w1 = w_client w /\
    forall f, exists w2, bt_cmdq_pump (S fuel) (with_client (f (w_client w1)) w1) now = Ret w2 /\ awaiting w2 c /\
      w_client w2 = f (w_client w) /\ w_trace w2 = w_trace w ++ [ESubmit c; ESend (wire_of c)].
Proof.
  intros Hid Hcr Hps Hn c.
  destruct (submit_idle w op params n timeout cb ud Hid Hps Hn) as (w1 & i & s & Hsub & Hi1 & Ho1 & Hc1 & Hs & Hcs & Hcl & _ & Ht).
  exists w1. split; [done|]. split; [done|]. intros f.
  destruct (pump_one fuel (with_client (f (w_client w1)) w1) i s now) as (w2 & Hp & Ha & Hcl2 & Ht2);
    [by apply inv_with_client|done|cbn; congruence|done|].
  exists w2. split; [done|]. fold c in Hcs. rewrite <- Hcs. split; [done|]. rewrite Hcl2, Ht2. cbn. rewrite Hcl, Ht, <- app_assoc, Hcs. done.
Qed.

(** What the queue does after the outstanding command's only callback ran. *)
Definition next_state (p : cprog CB UD C) (w w' : W) (e : tev CB UD) : Prop :=
  match p with
  | CDone m => idle w' /\ w_client w' = m /\ w_trace w' = w_trace w ++ [e]
  | CSubmit op None n to cb ud k => n = 0 -> forall m, k BT_OK = CDone m ->
      let c := {| cd_opcode := op; cd_params := []; cd_on_complete := cb; cd_user_data := ud |} in
      awaiting w' c /\ w_client w' = m /\ w_trace w' = w_trace w ++ [e; ESubmit c; ESend (wire_of c)]
  | _ => True
  end.

Lemma complete_plain fuel w slot s cb tl result status rp rpl now : inv w [] tl ->
  cq_outstanding (w_q w) = Some slot -> cq_pool (w_q w) !! slot = Some s -> sl_on_complete s = Some cb ->
  let p := client_complete cb {| cm_result := result; cm_opcode := sl_opcode s; cm_status := status;
             cm_return_params := rp; cm_return_params_len := rpl |} (sl_user_data s) (w_client w) in
  simple p -> ((forall m, p <> CDone m) -> cq_command_credits (w_q w) <> 0) ->
  exists w', complete_slot (bt_cmdq_pump (S fuel)) w slot result status rp rpl now = Ret w' /\
    next_state p w w' (EComplete (cmd_of s) result status).
Proof.
  intros Hi Ho Hs Hcb p Hp Hcr.
  destruct (complete_slot_runs (bt_cmdq_pump (S fuel)) w slot [] tl s result status rp rpl now Hi Ho Hs)
    as (ts & Hrep & Hmem & ->). rewrite Hcb.
  destruct (released_inv (fun _ => 0%nat) w [] tl slot s ts result status Hi Ho Hs Hrep Hmem) as (Hi1 & _).
  set (w1 := released w slot s ts result status) in *. change (w_client w1) with (w_client w). fold p.
  destruct p as [m| |op [ps|] n to cb' ud k]; cbn [simple] in Hp; try done; cbn [run_cprog next_state].
  - cbn [obind]. assert (idle (with_client m w1)) as Hid by (by apply idle_client).
    rewrite pump_idle by done. eexists. split; [done|]. destruct (advance_trace (with_client m w1) now) as (-> & -> & _).
    split; [by apply idle_advance|done].
  - destruct Hp as [-> [m Hk]]. specialize (Hcr ltac:(done)).
    destruct (submit_pump fuel w1 op None 0 to cb' ud now) as (w2 & -> & Hcl & Hpump);
      [done..|split; [unfold BT_HCI_MAX_PARAM_LEN; lia|done]|done|]. cbn [obind fst snd]. rewrite Hk. cbn [run_cprog obind].
    destruct (Hpump (fun _ => m)) as (w3 & -> & Ha & Hc3 & Ht3). exists w3. split; [done|]. intros _ m' [= <-].
    split; [done|]. split; [done|]. rewrite Ht3. unfold w1, released. cbn. by rewrite <- app_assoc.
Qed.

(** A tick past the deadline, when the callback only returns. *)
Lemma timeout_plain fuel w c cb e now m : awaiting w c -> cd_on_complete c = Some cb ->
  bt_timer_list_next_expiry (w_timers w) = Ret e -> e <= now ->
  client_complete cb {| cm_result := BT_CMDQ_RESULT_TIMEOUT; cm_opcode := cd_opcode c; cm_status := 255;
    cm_return_params := None; cm_return_params_len := 0 |} (cd_user_data c) (w_client w) = CDone m ->
  exists w', bt_cmdq_tick (S (S fuel)) w now = Ret w' /\ idle w' /\ w_client w' = m /\
    w_trace w' = w_trace w ++ [EComplete c BT_CMDQ_RESULT_TIMEOUT 255].
Proof.
  intros (slot & s & e' & Hi & Ho & Hs & <-) Hcb He Hle Hp. unfold bt_cmdq_tick.
  destruct (advance_trace w now) as (Ht & Hc & _). rewrite <- Ht, <- Hc in *.
  apply (inv_advance _ _ _ now) in Hi. destruct (advance_clock_q w now) as [m0 Hm0].
  assert (cq_outstanding (w_q (advance_clock w now)) = Some slot /\ cq_pool (w_q (advance_clock w now)) !! slot = Some s /\
    w_timers (advance_clock w now) = w_timers w) as (Ho' & Hs' & Htm) by (by rewrite Hm0).
  rewrite <- Htm in He. set (w0 := advance_clock w now) in *. clearbody w0. clear Hm0 Ht Hc Htm Ho Hs w m0.
  rewrite (next_expiry_spec _ _ (inv_timers _ _ _ Hi)) in He. injection He as ->.
  destruct (pop_inv w0 [] [(slot, e)] now Hi) as (ts & Hpop & Hi1). cbn [sp_pop] in Hpop, Hi1.
  rewrite (proj2 (Z.leb_le _ _)) in Hpop, Hi1 by done. cbn [fst snd] in Hpop, Hi1.
  cbn [tick_loop]. rewrite Hpop. cbn [obind fst snd].
  destruct (inv_timer_mem _ _ _ Hi1 slot) as (v & Hv & Hud).
  { apply (inv_slots _ _ _ Hi1). unfold in_flight. cbn. rewrite Ho'. left. }
  rewrite (hld_spec _ _ _ Hv). cbn [obind]. destruct (t_callback v). rewrite Hud. unfold timeout_callback.
  match goal with |- context [complete_slot _ ?x slot _ _ _ _ ?n] => set (w1 := x); set (now' := cq_last_tick_us (w_q w1)) end.
  assert (inv w1 [] []) as Hi2 by (apply (inv_with_credits _ _ _ 1 Hi1); unfold is_byte; lia).
  destruct (complete_plain fuel w1 slot s cb [] BT_CMDQ_RESULT_TIMEOUT 255 None 0 now' Hi2) as (w2 & -> & Hn);
    [done|done|done|change (w_client w1) with (w_client w0); cbn [cmd_of cd_opcode cd_user_data] in Hp; by rewrite Hp|intros _; unfold w1; cbn; lia|].
  change (w_client w1) with (w_client w0) in Hn. cbn [cmd_of cd_opcode cd_user_data] in Hp. rewrite Hp in Hn.
  destruct Hn as (Hid & Hm & Ht). cbn [obind tick_loop].
  destruct (pop_inv w2 [] [] now (proj1 Hid)) as (ts2 & -> & Hi3). cbn [sp_pop fst snd obind] in *.
  assert (idle (with_timers ts2 w2)) as Hid3 by (split; [done|apply Hid]).
  rewrite pump_idle by done. eexists. split; [done|]. split; [by apply idle_advance|].
  destruct (advance_trace (with_timers ts2 w2) now) as (-> & -> & _). by split.
Qed.

End Plain.

End Machine.

(** ** A concrete client and transport *)

Module Demo.

(** The callback [true] submits one more command, with callback [false]. *)
#[local] Instance demo_client : CmdqClient bool unit unit := {
  client_complete cb _ _ _ :=
    if cb then CSubmit 3 None 0 0 (Some false) tt (fun _ => CDone tt) else CDone tt;
  client_accepts _ := true;
  client_received _ _ := Ret tt;
}.

(** In state [true], a transport that answers the first command from inside
    [send_command], with a credit, and then reports failure. *)
#[local] Instance demo_transport : CmdqTransport bool := {
  send_command t _ := if t then TRecv false (complete_event 1 7 [0]) (fun t => TDone 1 t) else TDone 0 false;
}.

Definition demo_weight (cb : bool) : nat := if cb then 1 else 0.

Lemma demo_laws : laws (T := bool) (fun _ (_ : unit) => True) demo_weight (fun d => bytes d).
Proof.
  constructor; [done| |done| |].
  - intros [] comp [] l [] _ _; simpl; [|done]. split; [|by exists 0%nat].
    split; [unfold BT_HCI_MAX_PARAM_LEN; lia|done].
  - intros data l [] _ _. by exists tt.
  - intros [] wire; simpl; [|done]. split; [|done]. unfold complete_event, BT_HCI_EVENT_COMMAND_COMPLETE. simpl. bys.
Qed.

Definition demo_slot : bt_cmdq_slot bool unit :=
  {| sl_in_use := true; sl_opcode := 0; sl_params := replicate 255 0; sl_params_len := 0;
     sl_timeout_us := 0; sl_on_complete := None; sl_user_data := tt |}.

Definition demo_memory : bt_cmdq bool unit :=
  {| cq_nodes := list_to_map ((fun i => (i, Build_bt_queue_node None)) <$> pool_slots);
     cq_pending := bt_queue_init; cq_outstanding := None;
     cq_pool := list_to_map ((fun i => (i, demo_slot)) <$> pool_slots);
     cq_command_credits := 0; cq_last_tick_us := 0 |}.

Definition demo_timers : tstate timer_fn loc :=
  {| tl_head := None;
     tl_mem := list_to_map ((fun i => (i, Build_bt_timer None 0 Timeout_callback i true)) <$> pool_slots) |}.

Lemma demo_memory_ok : memory_ok demo_memory demo_timers.
Proof.
  assert (forall i, i ∈ pool_slots -> i ∈ dom (cq_nodes demo_memory) /\ i ∈ dom (tl_mem demo_timers) /\
    cq_pool demo_memory !! i = Some demo_slot) as Hall.
  { intros i Hi. unfold pool_slots in Hi. rewrite !elem_of_cons, elem_of_nil in Hi.
    destruct_or! Hi; subst; try done; (split; [by apply elem_of_dom; eexists|split; [by apply elem_of_dom; eexists|done]]). }
  split; [|split; [|split]].
  - intros i Hi. destruct (Hall i Hi) as (_ & _ & Hs). exists demo_slot. split; [done|].
    split; [by apply Forall_replicate; unfold is_byte; lia|done].
  - intros i Hi. by destruct (Hall i Hi).
  - intros i Hi. by destruct (Hall i Hi) as (_ & ? & _).
  - intros i v Hv Hi. exfalso. apply Hi. apply elem_of_dom_2 in Hv. revert Hv.
    unfold demo_timers, pool_slots. cbn [tl_mem]. rewrite dom_list_to_map_L. set_solver.
Qed.

(** Two commands, the first with the resubmitting callback, and a pump. *)
Definition demo_calls : list (api (CB := bool) (UD := unit)) :=
  [ASubmit 7 (Some [1; 2]) 2 0 (Some true) tt; APump 10].

Lemma demo_calls_ok : Forall (api_ok (fun _ (_ : unit) => True)) demo_calls.
Proof.
  apply Forall_cons. split; [|by repeat constructor]. split; [|done].
  split; [unfold BT_HCI_MAX_PARAM_LEN; lia|]. intros p [= <-]. split; [simpl; lia|bys].
Qed.

Definition demo_run (t : bool) : outcome (world bool unit unit bool) :=
  let? r := bt_cmdq_init demo_memory (bt_timer_list_init demo_timers) in
  run_apis 5 {| w_q := r.1; w_timers := r.2; w_client := tt; w_transport := t; w_trace := [] |} demo_calls.

(** With the plain transport: the first command is outstanding. *)
Lemma demo_outstanding : exists w, demo_run false = Ret w /\
  good (T := bool) (fun _ _ => True) demo_weight w 4 /\ cq_outstanding (w_q w) = Some 1%positive /\
  (exists s, cq_pool (w_q w) !! 1%positive = Some s /\ sl_opcode s = 7) /\
  bt_timer_list_next_expiry (w_timers w) = Ret 5000010.
Proof.
  destruct (init_good (T := bool) (fun _ (_ : unit) => True) demo_weight demo_memory demo_timers tt false demo_memory_ok I)
    as (q0 & ts0 & Hi & Hg).
  destruct (run_apis_good _ _ _ demo_laws 5 demo_calls _ 0 Hg demo_calls_ok) as (w & Hr & Hg'); [simpl; lia|].
  assert (demo_run false = Ret w) as Hd by (unfold demo_run; rewrite Hi; exact Hr).
  exists w. split; [done|]. split; [done|].
  destruct (demo_run false) as [w1| |] eqn:E; [|done..]. injection Hd as ->.
  vm_compute in E. injection E as <-. cbn. split; [done|]. split; [by eexists|done].
Qed.

End Demo.

(** The comment before the call of the transport says that finding the slot
    still outstanding means that no recursive completion happened.  A callback
    that submits from a recursive completion reuses the slot: here the second
    command, opcode 3, was sent by a call that succeeded and is still
    unanswered, and it is completed as a send error of the first. *)
Example cmdq_slot_reuse_misreported :
  (let? w := Demo.demo_run true in Ret (w_trace w)) =
  Ret [ESubmit {| cd_opcode := 7; cd_params := [1; 2]; cd_on_complete := Some true; cd_user_data := tt |};
       ESend [7; 0; 2; 1; 2];
       EComplete {| cd_opcode := 7; cd_params := [1; 2]; cd_on_complete := Some true; cd_user_data := tt |}
         BT_CMDQ_RESULT_COMPLETE 0;
       ESubmit {| cd_opcode := 3; cd_params := []; cd_on_complete := Some false; cd_user_data := tt |};
       ESend [3; 0; 0];
       EComplete {| cd_opcode := 3; cd_params := []; cd_on_complete := Some false; cd_user_data := tt |}
         BT_CMDQ_RESULT_SEND_ERROR 255].
Proof. vm_compute. reflexivity. Qed.

Lemma cmdq_submit_contract_witness : exists (w : world bool unit unit bool) pend tl,
  Demo.demo_run false = Ret w /\ inv w pend tl /\
  exists st w', submit w 9 None 1 0 None tt = Ret (st, w') /\
    ((w' = w /\ st = BT_ERR_INVALID_ARGUMENT /\ @None (list Z) = None /\ 0 < 1) \/
     (w' = w /\ st = BT_ERR_NO_RESOURCES /\ length (in_flight w pend) = 4%nat) \/
     (st = BT_OK /\ exists i, inv w' (pend ++ [i]) tl /\
        submit_done Demo.demo_weight w w' pend i {| cd_opcode := 9; cd_params := take (Z.to_nat 1) (default [] None);
                                       cd_on_complete := None; cd_user_data := tt |})).
Proof.
  destruct Demo.demo_outstanding as (w & Hr & (pend & tl & Hi & _) & _). exists w, pend, tl.
  split; [exact Hr|]. split; [exact Hi|].
  apply (cmdq_submit_contract Demo.demo_weight w pend tl 9 None 1 0 None tt Hi).
  split; [unfold BT_HCI_MAX_PARAM_LEN; lia|done].
Defined.

Lemma cmdq_answers_witness : exists w w' l,
  Demo.demo_run false = Ret w /\
  bt_cmdq_tick (H := Demo.demo_client) (H0 := Demo.demo_transport) 5 w 6000000 = Ret w' /\
  w_trace w' = w_trace w ++ EComplete {| cd_opcode := 7; cd_params := [1; 2]; cd_on_complete := Some true;
    cd_user_data := tt |} BT_CMDQ_RESULT_TIMEOUT 255 :: l.
Proof.
  destruct Demo.demo_outstanding as (w & Hd & Hg & Ho & (s & Hs & Hop) & He).
  destruct (cmdq_answers (H := Demo.demo_client) (H0 := Demo.demo_transport) _ _ _ Demo.demo_laws 5 w 4 1%positive s 6000000
    Hg Ho Hs ltac:(lia) ltac:(lia)) as (_ & _ & H).
  destruct (H 5000010 He ltac:(lia)) as (w' & l & Hr & _ & Ht). exists w, w', l.
  split; [exact Hd|]. split; [exact Hr|]. rewrite Ht. do 3 f_equal.
  destruct (Demo.demo_run false) as [w1| |] eqn:E; [|done..]. injection Hd as ->.
  vm_compute in E. injection E as <-. vm_compute in Hs. injection Hs as <-. reflexivity.
Defined.

Lemma cmdq_exactly_once_fifo_witness :
  exists q0 ts0 w pend tl,
    bt_cmdq_init Demo.demo_memory (bt_timer_list_init Demo.demo_timers) = Ret (q0, ts0) /\
    run_apis (H := Demo.demo_client) (H0 := Demo.demo_transport) 5
      {| w_q := q0; w_timers := ts0; w_client := tt; w_transport := true; w_trace := [] |} Demo.demo_calls = Ret w /\
    submitted (w_trace w) = completed (w_trace w) ++ at_slots cmd_of (cq_pool (w_q w)) (in_flight w pend) /\
    sent (w_trace w) = wire_of <$>
      (completed (w_trace w) ++ at_slots cmd_of (cq_pool (w_q w)) (option_list (cq_outstanding (w_q w)))) /\
    queue_rep (cq_nodes (w_q w)) (cq_pending (w_q w)) pend /\ (length (in_flight w pend) <= 4)%nat /\
    timer_rep (w_timers w) tl /\ tl.*1 = option_list (cq_outstanding (w_q w)).
Proof.
  refine (cmdq_exactly_once_fifo (H := Demo.demo_client) (H0 := Demo.demo_transport) _ _ _ Demo.demo_laws
    Demo.demo_memory Demo.demo_timers tt true Demo.demo_calls 5 Demo.demo_memory_ok I Demo.demo_calls_ok _).
  simpl. lia.
Defined.

End CommandQueue.
