(* ===== verification/Controller.v ===== *)
(** * Controller bring-up and discovery, and its manager:
    core/controller/controller.c, core/manager/manager.c

    The controller is the client of the command queue: its completion
    callbacks step the bring-up (Reset, Read Local Version, Read Local
    Supported Features, Read Buffer Size), and every received event is also
    searched for discovery results.  [struct bt_controller]'s queue and timer
    list are the [world]'s; the rest of it, with the manager's own state, is
    the client state [bt_manager].  A controller without a manager is one
    whose manager is RUNNING. *)

From Stdlib Require Import ZArith Lia.
From stdpp Require Import base list gmap.
From S2P Require Import Prelude Buffer Queue Timer Addr Hci DeviceRegistry CommandQueue.

Module Controller.
Import Buffer Queue Timer Addr Hci DeviceRegistry CommandQueue.

Definition BT_HCI_INQUIRY_MODE_RSSI_EIR : Z := 2.
Definition BT_HCI_GIAC_LAP : Z := 10390323.
Definition BT_HCI_OPCODE_LE_SET_SCAN_PARAMETERS : Z := BT_HCI_OPCODE 8 11.
Definition BT_HCI_OPCODE_LE_SET_SCAN_ENABLE : Z := BT_HCI_OPCODE 8 12.

Inductive bt_controller_state : Set :=
| BT_CONTROLLER_STATE_UNINITIALIZED
| BT_CONTROLLER_STATE_RESETTING
| BT_CONTROLLER_STATE_READING_VERSION
| BT_CONTROLLER_STATE_READING_FEATURES
| BT_CONTROLLER_STATE_READING_BUFFER_SIZE
| BT_CONTROLLER_STATE_READY
| BT_CONTROLLER_STATE_ERROR.

#[global] Instance bt_controller_state_eq_dec : EqDecision bt_controller_state.
Proof. solve_decision. Defined.

Inductive bt_manager_state : Set :=
| BT_MANAGER_STATE_STOPPED
| BT_MANAGER_STATE_STARTING
| BT_MANAGER_STATE_RUNNING
| BT_MANAGER_STATE_ERROR.

#[global] Instance bt_manager_state_eq_dec : EqDecision bt_manager_state.
Proof. solve_decision. Defined.

Record bt_controller_info : Type := {
  in_version : bt_hci_local_version;
  in_features : bt_hci_local_features;
  in_buffer_size : bt_hci_buffer_size;
}.

Record bt_controller : Type := {
  ct_state : bt_controller_state;
  ct_info : bt_controller_info;
  ct_devices : bt_device_registry;
  ct_inquiry_traced : Z;
}.

Record bt_manager : Type := {
  mg_controller : bt_controller;
  mg_state : bt_manager_state;
}.

Definition set_state (s : bt_controller_state) (m : bt_manager) : bt_manager :=
  let c := mg_controller m in
  {| mg_controller := {| ct_state := s; ct_info := ct_info c; ct_devices := ct_devices c;
                         ct_inquiry_traced := ct_inquiry_traced c |}; mg_state := mg_state m |}.
Definition set_info (i : bt_controller_info) (m : bt_manager) : bt_manager :=
  let c := mg_controller m in
  {| mg_controller := {| ct_state := ct_state c; ct_info := i; ct_devices := ct_devices c;
                         ct_inquiry_traced := ct_inquiry_traced c |}; mg_state := mg_state m |}.
Definition set_devices (d : bt_device_registry) (traced : Z) (m : bt_manager) : bt_manager :=
  let c := mg_controller m in
  {| mg_controller := {| ct_state := ct_state c; ct_info := ct_info c; ct_devices := d;
                         ct_inquiry_traced := traced |}; mg_state := mg_state m |}.
Definition set_manager_state (s : bt_manager_state) (m : bt_manager) : bt_manager :=
  {| mg_controller := mg_controller m; mg_state := s |}.

(** ** Completion callbacks *)

Inductive complete_fn : Set :=
| On_reset_complete
| On_version_complete
| On_features_complete
| On_buffer_size_complete
| Ignore_completion.

#[global] Instance complete_fn_eq_dec : EqDecision complete_fn.
Proof. solve_decision. Defined.

Abbreviation prog := (cprog complete_fn unit bt_manager).

Definition step_ok (completion : bt_cmdq_completion) : bool :=
  bool_decide (cm_result completion = BT_CMDQ_RESULT_COMPLETE) && (cm_status completion =? 0).

(** [if (bt_cmdq_submit(..., opcode, NULL, 0, 0, next, ctrl) != BT_OK) ctrl->state = ERROR;] *)
Definition submit_next (opcode : Z) (next : complete_fn) (m : bt_manager) : prog :=
  CSubmit opcode None 0 0 (Some next) tt
    (fun st => CDone (if decide (st = BT_OK) then m else set_state BT_CONTROLLER_STATE_ERROR m)).

Definition on_reset_complete (completion : bt_cmdq_completion) (m : bt_manager) : prog :=
  if negb (step_ok completion) then CDone (set_state BT_CONTROLLER_STATE_ERROR m) else
  let m := set_state BT_CONTROLLER_STATE_READING_VERSION m in
  submit_next BT_HCI_OPCODE_READ_LOCAL_VERSION_INFO On_version_complete m.

(** The bytes behind [completion->return_params]. *)
Definition return_bytes (completion : bt_cmdq_completion) : list Z := default [] (cm_return_params completion).

Definition on_version_complete (completion : bt_cmdq_completion) (m : bt_manager) : prog :=
  if negb (step_ok completion) then CDone (set_state BT_CONTROLLER_STATE_ERROR m) else
  match bt_hci_parse_local_version (return_bytes completion) (cm_return_params_len completion) with
  | Ret v =>
      let i := ct_info (mg_controller m) in
      let m := set_info {| in_version := v; in_features := in_features i; in_buffer_size := in_buffer_size i |} m in
      let m := set_state BT_CONTROLLER_STATE_READING_FEATURES m in
      submit_next BT_HCI_OPCODE_READ_LOCAL_SUPPORTED_FEATURES On_features_complete m
  | Fail _ => CDone (set_state BT_CONTROLLER_STATE_ERROR m)
  | Fault => CFault
  end.

Definition on_features_complete (completion : bt_cmdq_completion) (m : bt_manager) : prog :=
  if negb (step_ok completion) then CDone (set_state BT_CONTROLLER_STATE_ERROR m) else
  match bt_hci_parse_local_features (return_bytes completion) (cm_return_params_len completion) with
  | Ret f =>
      let i := ct_info (mg_controller m) in
      let m := set_info {| in_version := in_version i; in_features := f; in_buffer_size := in_buffer_size i |} m in
      let m := set_state BT_CONTROLLER_STATE_READING_BUFFER_SIZE m in
      submit_next BT_HCI_OPCODE_READ_BUFFER_SIZE On_buffer_size_complete m
  | Fail _ => CDone (set_state BT_CONTROLLER_STATE_ERROR m)
  | Fault => CFault
  end.

Definition on_buffer_size_complete (completion : bt_cmdq_completion) (m : bt_manager) : prog :=
  if negb (step_ok completion) then CDone (set_state BT_CONTROLLER_STATE_ERROR m) else
  match bt_hci_parse_buffer_size (return_bytes completion) (cm_return_params_len completion) with
  | Ret b =>
      let i := ct_info (mg_controller m) in
      let m := set_info {| in_version := in_version i; in_features := in_features i; in_buffer_size := b |} m in
      CDone (set_state BT_CONTROLLER_STATE_READY m)
  | Fail _ => CDone (set_state BT_CONTROLLER_STATE_ERROR m)
  | Fault => CFault
  end.

Definition ignore_completion (completion : bt_cmdq_completion) (m : bt_manager) : prog := CDone m.

Definition run_complete_fn (cb : complete_fn) (completion : bt_cmdq_completion) (m : bt_manager) : prog :=
  match cb with
  | On_reset_complete => on_reset_complete completion m
  | On_version_complete => on_version_complete completion m
  | On_features_complete => on_features_complete completion m
  | On_buffer_size_complete => on_buffer_size_complete completion m
  | Ignore_completion => ignore_completion completion m
  end.

(** ** Discovery events *)

(** [while (bt_hci_inquiry_result_iter_next(&it, &entry) == BT_OK)]: the
    response count is one byte, so 256 iterations are enough. *)
Fixpoint inquiry_loop (fuel : nat) (it : bt_hci_inquiry_result_iter) (devs : bt_device_registry)
    : outcome bt_device_registry :=
  match fuel with
  | O => Fault
  | S fuel =>
      match bt_hci_inquiry_result_iter_next it with
      | (Ret entry, it) =>
          let? r := bt_device_registry_note_classic devs (ir_bd_addr entry) (ir_class_of_device entry) in
          inquiry_loop fuel it r.2
      | (Fail _, _) => Ret devs
      | (Fault, _) => Fault
      end
  end.

(** [dev->flags |= BT_DEVICE_FLAG_HID] and the other fields set in place. *)
Definition or_flags (f : Z) (d : bt_discovered_device) : outcome bt_discovered_device :=
  Ret {| dd_addr := dd_addr d; dd_flags := Z.lor (dd_flags d) f; dd_class_of_device := dd_class_of_device d;
         dd_le_address_type := dd_le_address_type d; dd_appearance := dd_appearance d; dd_name := dd_name d;
         dd_name_state := dd_name_state d; dd_last_rssi := dd_last_rssi d; dd_sightings := dd_sightings d |}.
Definition put_rssi (rssi : Z) (d : bt_discovered_device) : outcome bt_discovered_device :=
  Ret {| dd_addr := dd_addr d; dd_flags := dd_flags d; dd_class_of_device := dd_class_of_device d;
         dd_le_address_type := dd_le_address_type d; dd_appearance := dd_appearance d; dd_name := dd_name d;
         dd_name_state := dd_name_state d; dd_last_rssi := rssi; dd_sightings := dd_sightings d |}.
Definition put_appearance (a : Z) (d : bt_discovered_device) : outcome bt_discovered_device :=
  Ret {| dd_addr := dd_addr d; dd_flags := dd_flags d; dd_class_of_device := dd_class_of_device d;
         dd_le_address_type := dd_le_address_type d; dd_appearance := a; dd_name := dd_name d;
         dd_name_state := dd_name_state d; dd_last_rssi := dd_last_rssi d; dd_sightings := dd_sightings d |}.

(** [on_device], when a condition holds. *)
Definition on_device_if (b : bool) (devs : bt_device_registry) (dev : Z)
    (update : bt_discovered_device -> outcome bt_discovered_device) : outcome bt_device_registry :=
  if b then on_device devs dev update else Ret devs.

Definition has_name (info : bt_le_adv_info) : bool :=
  match av_name info with Some _ => true | None => false end.

(** One response, the Extended Inquiry Result's own layout. *)
Definition extended_inquiry (params : list Z) (param_len : Z) (devs : bt_device_registry)
    : outcome bt_device_registry :=
  if param_len <? 15 then Ret devs else
  let? addr := ld_loop params 1 (Z.to_nat BT_ADDR_LEN) in
  let? p10 := ld params 10 in
  let? p11 := ld params 11 in
  let? p12 := ld params 12 in
  let cod := Z.lor (Z.lor p10 (u32 (Z.shiftl p11 8))) (u32 (Z.shiftl p12 16)) in
  let? p15 := ld params 15 in
  let rssi := s8 p15 in
  let? r := bt_device_registry_note_classic devs addr cod in
  match r.1 with
  | None => Ret r.2
  | Some dev =>
      let? devs := on_device r.2 dev (put_rssi rssi) in
      let? info := bt_le_adv_parse (Some (drop 16 params)) (u32 (param_len - 16)) in
      let? devs := on_device_if (av_hid info) devs dev (or_flags BT_DEVICE_FLAG_HID) in
      on_device_if (has_name info) devs dev
        (fun d => bt_device_set_name d (av_name info) (av_name_len info) 2)
  end.

(** The body of the advertising-report loop. *)
Definition le_report (report : bt_hci_le_adv_report) (devs : bt_device_registry) : outcome bt_device_registry :=
  let? info := bt_le_adv_parse (Some (ar_data report)) (ar_data_len report) in
  let? known := bt_device_registry_find devs (ar_address report) in
  let? stable := bt_le_addr_is_stable (ar_address report) (ar_address_type report) in
  if (match known with None => true | Some _ => false end) && negb stable && negb (has_name info)
     && negb (av_hid info) && (av_appearance info =? 0)
  then Ret devs else
  let? r := bt_device_registry_note_le devs (ar_address report) (ar_address_type report) (ar_rssi report) in
  match r.1 with
  | None => Ret r.2
  | Some dev =>
      let? devs := on_device_if (av_hid info) r.2 dev (or_flags BT_DEVICE_FLAG_HID) in
      let? devs := on_device_if (negb (av_appearance info =? 0)) devs dev (put_appearance (av_appearance info)) in
      let? devs := on_device_if (negb (av_appearance info =? 0)) devs dev
        (fun d => bt_device_set_name d (bt_label_from_appearance (av_appearance info)) BT_DEVICE_NAME_LEN 1) in
      on_device_if (has_name info) devs dev
        (fun d => bt_device_set_name d (av_name info) (av_name_len info) 2)
  end.

Fixpoint adv_report_loop (fuel : nat) (it : bt_hci_le_adv_report_iter) (devs : bt_device_registry)
    : outcome bt_device_registry :=
  match fuel with
  | O => Fault
  | S fuel =>
      match bt_hci_le_adv_report_iter_next it with
      | (Ret report, it) => let? devs := le_report report devs in adv_report_loop fuel it devs
      | (Fail _, _) => Ret devs
      | (Fault, _) => Fault
      end
  end.

(** What [bt_controller_on_event] does after [bt_cmdq_on_event].  The tracing
    hook, when set, is told of the first two inquiry events. *)
Definition discovery_event (raw_hook_set : bool) (data : list Z) (length : Z) (m : bt_manager)
    : outcome bt_manager :=
  let devs := ct_devices (mg_controller m) in
  let traced := ct_inquiry_traced (mg_controller m) in
  match bt_hci_parse_event_header (bt_buf_reader_init data length) with
  | (Ret hdr, r) =>
      match bt_buf_reader_peek (eh_param_len hdr) r with
      | (Ret (Some params), _) =>
          if eh_event_code hdr =? BT_HCI_EVENT_INQUIRY_RESULT then
            let traced := if (traced <? 2) && raw_hook_set then traced + 1 else traced in
            let m := set_devices devs traced m in
            match bt_hci_inquiry_result_iter_init (Some params) (eh_param_len hdr) with
            | Ret it => let? devs := inquiry_loop 256 it devs in Ret (set_devices devs traced m)
            | Fail _ => Ret m
            | Fault => Fault
            end
          else if eh_event_code hdr =? BT_HCI_EVENT_EXTENDED_INQUIRY_RESULT then
            let? devs := extended_inquiry params (eh_param_len hdr) devs in Ret (set_devices devs traced m)
          else if eh_event_code hdr =? BT_HCI_EVENT_LE_META then
            match bt_hci_le_adv_report_iter_init params (eh_param_len hdr) with
            | Ret it => let? devs := adv_report_loop 256 it devs in Ret (set_devices devs traced m)
            | Fail _ => Ret m
            | Fault => Fault
            end
          else Ret m
      | (Ret None, _) => Ret m
      | (Fail _, _) => Ret m
      | (Fault, _) => Fault
      end
  | (Fail _, _) => Ret m
  | (Fault, _) => Fault
  end.

(** [manager_receive]: events are dropped unless the manager is starting or
    running; packets of other types never get further, and are not modelled. *)
Definition accepting (m : bt_manager) : bool :=
  negb (bool_decide (mg_state m = BT_MANAGER_STATE_STOPPED) || bool_decide (mg_state m = BT_MANAGER_STATE_ERROR)).

Section Operations.
  Context {T : Type} `{CmdqTransport T} (raw_hook_set : bool).

#[export] Instance controller_client : CmdqClient complete_fn unit bt_manager := {
  client_complete cb completion _ m := run_complete_fn cb completion m;
  client_accepts := accepting;
  client_received data m := discovery_event raw_hook_set data (zlen data) m;
}.

Abbreviation W := (world complete_fn unit bt_manager T).

Definition ct (w : W) : bt_controller := mg_controller (w_client w).
Definition on_client (f : bt_manager -> bt_manager) (w : W) : W := with_client (f (w_client w)) w.

(** [memset(&ctrl->info, 0, sizeof(ctrl->info))] *)
Definition zero_info : bt_controller_info :=
  {| in_version := {| lv_status := 0; lv_hci_version := 0; lv_hci_revision := 0; lv_lmp_pal_version := 0;
                      lv_manufacturer_name := 0; lv_lmp_pal_subversion := 0 |};
     in_features := {| lf_status := 0; lf_features := replicate 8 0 |};
     in_buffer_size := {| bs_status := 0; bs_acl_data_packet_length := 0; bs_sco_data_packet_length := 0;
                          bs_total_num_acl_data_packets := 0; bs_total_num_sco_data_packets := 0 |} |}.

(** The history starts over. *)
Definition no_history (w : W) : W :=
  {| w_q := w_q w; w_timers := w_timers w; w_client := w_client w; w_transport := w_transport w; w_trace := [] |}.

Definition bt_controller_init (w : W) : outcome W :=
  let c := ct w in
  let c := {| ct_state := BT_CONTROLLER_STATE_UNINITIALIZED; ct_info := zero_info; ct_devices := ct_devices c;
              ct_inquiry_traced := ct_inquiry_traced c |} in
  let ts := bt_timer_list_init (w_timers w) in
  let? r := bt_cmdq_init (w_q w) ts in
  let c := {| ct_state := ct_state c; ct_info := ct_info c; ct_devices := bt_device_registry_init (ct_devices c);
              ct_inquiry_traced := ct_inquiry_traced c |} in
  Ret (no_history (with_client {| mg_controller := c; mg_state := mg_state (w_client w) |}
         (with_timers r.2 (with_q r.1 w)))).

Definition bt_controller_start (fuel : nat) (w : W) (now_us : Z) : outcome (bt_status * W) :=
  if negb (bool_decide (ct_state (ct w) = BT_CONTROLLER_STATE_UNINITIALIZED))
  then Ret (BT_ERR_INVALID_ARGUMENT, w) else
  let? r := submit w BT_HCI_OPCODE_RESET None 0 0 (Some On_reset_complete) tt in
  let '(st, w) := r in
  if negb (bool_decide (st = BT_OK)) then Ret (st, w) else
  let w := on_client (set_state BT_CONTROLLER_STATE_RESETTING) w in
  let? w := bt_cmdq_pump fuel w now_us in
  Ret (BT_OK, w).

Definition bt_controller_on_event (fuel : nat) (w : W) (data : list Z) (length now_us : Z) : outcome W :=
  let? w := bt_cmdq_on_event (bt_cmdq_pump fuel) w data length now_us in
  let? m := discovery_event raw_hook_set data length (w_client w) in
  Ret (with_client m w).

Definition bt_controller_tick (fuel : nat) (w : W) (now_us : Z) : outcome W := bt_cmdq_tick fuel w now_us.

(** Writers whose status the code ignores: the parameters written. *)
Definition written (m : M bt_buf_writer unit) (cap : Z) : outcome (list Z * Z) :=
  match m (bt_buf_writer_init (replicate (Z.to_nat cap) 0) cap) with
  | (Fault, _) => Fault
  | (_, bw) => Ret (bw_data bw, u8 (bt_buf_writer_len bw))
  end.

(** [st = bt_cmdq_submit(...); if (st != BT_OK) return st;] *)
Definition submit_or_return (w : W) (opcode : Z) (params : list Z * Z) (k : W -> outcome (bt_status * W))
    : outcome (bt_status * W) :=
  let? r := submit w opcode (Some params.1) params.2 0 (Some Ignore_completion) tt in
  let '(st, w) := r in
  if negb (bool_decide (st = BT_OK)) then Ret (st, w) else k w.

Definition bt_controller_start_classic_inquiry (fuel : nat) (w : W) (inquiry_length now_us : Z)
    : outcome (bt_status * W) :=
  if negb (bool_decide (ct_state (ct w) = BT_CONTROLLER_STATE_READY)) then Ret (BT_ERR_INVALID_ARGUMENT, w) else
  submit_or_return w BT_HCI_OPCODE_WRITE_INQUIRY_MODE ([BT_HCI_INQUIRY_MODE_RSSI_EIR], 1) (fun w =>
  let? params := written (do! bt_buf_writer_write_le24 BT_HCI_GIAC_LAP in
                          do! bt_buf_writer_write_u8 inquiry_length in
                          bt_buf_writer_write_u8 0) 5 in
  submit_or_return w BT_HCI_OPCODE_INQUIRY params (fun w =>
  let? w := bt_cmdq_pump fuel w now_us in
  Ret (BT_OK, w))).

Definition bt_controller_start_le_scan (fuel : nat) (w : W) (now_us : Z) : outcome (bt_status * W) :=
  if negb (bool_decide (ct_state (ct w) = BT_CONTROLLER_STATE_READY)) then Ret (BT_ERR_INVALID_ARGUMENT, w) else
  let? params := written (do! bt_buf_writer_write_u8 0 in
                          do! bt_buf_writer_write_le16 16 in
                          do! bt_buf_writer_write_le16 16 in
                          do! bt_buf_writer_write_u8 0 in
                          bt_buf_writer_write_u8 0) 7 in
  submit_or_return w BT_HCI_OPCODE_LE_SET_SCAN_PARAMETERS params (fun w =>
  let? params := written (do! bt_buf_writer_write_u8 1 in bt_buf_writer_write_u8 1) 2 in
  submit_or_return w BT_HCI_OPCODE_LE_SET_SCAN_ENABLE params (fun w =>
  let? w := bt_cmdq_pump fuel w now_us in
  Ret (BT_OK, w))).

Definition bt_controller_stop_le_scan (fuel : nat) (w : W) (now_us : Z) : outcome (bt_status * W) :=
  if negb (bool_decide (ct_state (ct w) = BT_CONTROLLER_STATE_READY)) then Ret (BT_ERR_INVALID_ARGUMENT, w) else
  let? params := written (do! bt_buf_writer_write_u8 0 in bt_buf_writer_write_u8 0) 2 in
  submit_or_return w BT_HCI_OPCODE_LE_SET_SCAN_ENABLE params (fun w =>
  let? w := bt_cmdq_pump fuel w now_us in
  Ret (BT_OK, w)).

(** ** Manager *)

(** [manager_receive] on an event packet. *)
Definition manager_receive (fuel : nat) (w : W) (data : list Z) : outcome W :=
  recv_event (bt_cmdq_pump fuel) w data.

Definition bt_manager_tick (fuel : nat) (w : W) (now_us : Z) : outcome W :=
  if negb (bool_decide (mg_state (w_client w) = BT_MANAGER_STATE_RUNNING)) then Ret w else
  let? w := bt_controller_tick fuel w now_us in
  Ret (if bool_decide (ct_state (ct w) = BT_CONTROLLER_STATE_ERROR)
       then on_client (set_manager_state BT_MANAGER_STATE_ERROR) w else w).

(** The transport's other operations: results and effects on its state.
    Receiving starts with [start_receive]; none of these four delivers. *)
Record transport_ops : Type := {
  tr_open : T -> Z * T;
  tr_start_receive : T -> Z * T;
  tr_stop_receive : T -> T;
  tr_close : T -> T;
}.

Variable ops : transport_ops.

Definition on_transport (f : T -> T) (w : W) : W := with_transport (f (w_transport w)) w.

(** The manager was given a transport with operations. *)
Definition bt_manager_start (fuel : nat) (w : W) (now_us : Z) : outcome (bt_status * W) :=
  if negb (bool_decide (mg_state (w_client w) = BT_MANAGER_STATE_STOPPED)) then Ret (BT_ERR_INVALID_ARGUMENT, w) else
  let w := on_client (set_manager_state BT_MANAGER_STATE_STARTING) w in
  let error w := Ret (BT_ERR_IO, on_client (set_manager_state BT_MANAGER_STATE_ERROR) w) in
  let '(rc, t) := tr_open ops (w_transport w) in
  let w := with_transport t w in
  if negb (rc =? 0) then error w else
  let '(rc, t) := tr_start_receive ops (w_transport w) in
  let w := with_transport t w in
  if negb (rc =? 0) then error (on_transport (tr_close ops) w) else
  let? r := bt_controller_start fuel w now_us in
  let '(status, w) := r in
  if negb (bool_decide (status = BT_OK)) then
    let w := on_transport (tr_close ops) (on_transport (tr_stop_receive ops) w) in
    Ret (status, on_client (set_manager_state BT_MANAGER_STATE_ERROR) w)
  else
    let st := if bool_decide (ct_state (ct w) = BT_CONTROLLER_STATE_ERROR)
              then BT_MANAGER_STATE_ERROR else BT_MANAGER_STATE_RUNNING in
    let w := on_client (set_manager_state st) w in
    Ret (if bool_decide (mg_state (w_client w) = BT_MANAGER_STATE_RUNNING) then BT_OK else BT_ERR_IO, w).

Definition bt_manager_stop (w : W) : outcome W :=
  if bool_decide (mg_state (w_client w) = BT_MANAGER_STATE_STOPPED) then Ret w else
  let w := on_transport (tr_close ops) (on_transport (tr_stop_receive ops) w) in
  let? w := bt_controller_init w in
  Ret (on_client (set_manager_state BT_MANAGER_STATE_STOPPED) w).

End Operations.

(** ** Specification *)

Section Client.
  (** The manager's state, which no callback and no event changes. *)
  Context (ms : bt_manager_state).

(** The bring-up has exactly its own command in flight; before it nothing, and
    after it only discovery commands. *)
Definition fits (l : list (option complete_fn)) (m : bt_manager) : Prop :=
  registry_ok (ct_devices (mg_controller m)) /\ mg_state m = ms /\
  match ct_state (mg_controller m) with
  | BT_CONTROLLER_STATE_UNINITIALIZED => l = []
  | BT_CONTROLLER_STATE_RESETTING => l = [Some On_reset_complete]
  | BT_CONTROLLER_STATE_READING_VERSION => l = [Some On_version_complete]
  | BT_CONTROLLER_STATE_READING_FEATURES => l = [Some On_features_complete]
  | BT_CONTROLLER_STATE_READING_BUFFER_SIZE => l = [Some On_buffer_size_complete]
  | BT_CONTROLLER_STATE_READY | BT_CONTROLLER_STATE_ERROR => Forall (eq (Some Ignore_completion)) l
  end.

(** The steps of the bring-up after a command. *)
Definition steps_after (cb : complete_fn) : nat :=
  match cb with On_reset_complete => 3 | On_version_complete => 2 | On_features_complete => 1 | _ => 0 end.

(** Events the discovery code can take: an Extended Inquiry Result with exactly
    15 parameter bytes makes it read one byte past them. *)
Definition event_fit (data : list Z) : Prop :=
  bytes data /\
  match bt_hci_parse_event_header (bt_buf_reader_init data (zlen data)) with
  | (Ret hdr, _) => ~ (eh_event_code hdr = BT_HCI_EVENT_EXTENDED_INQUIRY_RESULT /\ eh_param_len hdr = 15)
  | _ => True
  end.

(** ** Lemmas: discovery *)

Lemma inquiry_loop_ok fuel : forall it devs, iter_ok it -> registry_ok devs ->
  ii_count it - ii_index it < Z.of_nat fuel -> exists devs', inquiry_loop fuel it devs = Ret devs' /\ registry_ok devs'.
Proof.
  induction fuel as [|fuel IH]; intros it devs Hit Hd Hf; [destruct Hit; lia|]. cbn [inquiry_loop].
  destruct (Z.lt_ge_cases (ii_index it) (ii_count it)) as [Hlt|Hge].
  - destruct (inquiry_next_safe it Hit Hlt) as (e & -> & (Ha & _)).
    destruct (note_ok _ devs (ir_bd_addr e) (classic_update_good (ir_class_of_device e)) Hd Ha) as (o & devs' & Hn & Hd' & _).
    unfold bt_device_registry_note_classic. fold (note_with (classic_update (ir_class_of_device e)) devs (ir_bd_addr e)).
    rewrite Hn. cbn [obind snd]. apply IH; [|done|simpl; lia].
    destruct Hit as (? & ? & ? & ?). repeat split; simpl; try lia; done.
  - unfold bt_hci_inquiry_result_iter_next. rewrite Z.geb_leb, (proj2 (Z.leb_le _ _)) by lia. by exists devs.
Qed.

Lemma or_flags_good f : good_update (or_flags f).
Proof. intros d (? & ? & ? & ?). by eexists. Qed.
Lemma put_rssi_good r : good_update (put_rssi r).
Proof. intros d (? & ? & ? & ?). by eexists. Qed.
Lemma put_appearance_good a : good_update (put_appearance a).
Proof. intros d (? & ? & ? & ?). by eexists. Qed.

Lemma on_device_if_ok b devs i u : registry_ok devs -> 0 <= i < dr_count devs -> good_update u ->
  exists devs', on_device_if b devs i u = Ret devs' /\ registry_ok devs' /\ dr_count devs' = dr_count devs.
Proof. intros Hd Hi Hu. destruct b; cbn; [by apply on_device_ok|by exists devs]. Qed.

Lemma info_name_good info state : info_ok info -> 0 <= state <= 2 ->
  good_update (fun d => bt_device_set_name d (av_name info) (av_name_len info) state).
Proof. intros Hi Hs. apply set_name_good; [|done]. intros n Hn. left. by rewrite Hi. Qed.

(** One update after the other. *)
Ltac update_step :=
  match goal with
  | |- context [on_device_if ?b ?devs ?i ?u] =>
      let d := fresh "devs" in let Hd := fresh "Hd" in let Hc := fresh "Hc" in
      destruct (on_device_if_ok b devs i u) as (d & -> & Hd & Hc);
        [done|lia|auto using or_flags_good, put_appearance_good|cbn [obind]]
  end.

Lemma le_report_ok report devs : report_ok report -> registry_ok devs ->
  exists devs', le_report report devs = Ret devs' /\ registry_ok devs'.
Proof.
  intros (_ & _ & Ha & Hb & Hl & _) Hd. unfold le_report. rewrite Hl.
  destruct (adv_parse_safe _ Hb) as (info & -> & Hi). cbn [obind].
  destruct (find_safe devs (ar_address report) Hd Ha) as [known ->]. cbn [obind].
  assert (exists b, bt_le_addr_is_stable (ar_address report) (ar_address_type report) = Ret b) as [stable ->].
  { unfold bt_le_addr_is_stable. destruct (_ =? 0); [by eexists|]. destruct Ha as [Hal _].
    destruct (ld_spec (ar_address report) (BT_ADDR_LEN - 1)) as (b & -> & _); [unfold BT_ADDR_LEN in *; lia|by eexists]. }
  cbn [obind]. destruct (_ && _); [by exists devs|].
  destruct (note_ok _ devs (ar_address report) (le_update_good (ar_address_type report) (ar_rssi report)) Hd Ha)
    as (o & devs1 & Hn & Hd1 & Ho).
  unfold bt_device_registry_note_le. fold (note_with (le_update (ar_address_type report) (ar_rssi report)) devs (ar_address report)).
  rewrite Hn. cbn [obind fst snd]. destruct o as [dev|]; [|by exists devs1]. specialize (Ho dev eq_refl).
  do 2 update_step.
  match goal with |- context [on_device_if ?b ?d ?i ?u] => destruct (on_device_if_ok b d i u) as (devs4 & -> & Hd4 & Hc4) end;
    [done|lia| |].
  { apply set_name_good; [apply label_from_appearance_readable|lia]. }
  cbn [obind].
  match goal with |- context [on_device_if ?b ?d ?i ?u] => destruct (on_device_if_ok b d i u) as (devs5 & -> & Hd5 & Hc5) end;
    [done|lia|apply info_name_good; [done|lia]|]. by exists devs5.
Qed.

Lemma adv_report_loop_ok fuel : forall it devs, adv_ok it -> registry_ok devs -> ai_remaining it < Z.of_nat fuel ->
  exists devs', adv_report_loop fuel it devs = Ret devs' /\ registry_ok devs'.
Proof.
  induction fuel as [|fuel IH]; intros [r k] devs [Hr Hk] Hd Hf; simpl in Hr, Hk, Hf; [lia|]. cbn [adv_report_loop].
  rewrite adv_next_step by done. destruct (Z.eqb_spec k 0); [by exists devs|].
  pose proof (report_safe r Hr) as Hs.
  destruct (read_le_adv_report r) as [[a|e|] r']; destruct Hs as (Hnf & Hr' & _ & _ & _ & Hq); [|by exists devs|done].
  destruct (le_report_ok a devs (Hq a eq_refl) Hd) as (devs' & -> & Hd'). cbn [obind].
  apply IH; [split; simpl; [done|lia]|done|simpl; lia].
Qed.

Lemma extended_inquiry_ok params devs : bytes params -> zlen params <> 15 -> zlen params < 256 -> registry_ok devs ->
  exists devs', extended_inquiry params (zlen params) devs = Ret devs' /\ registry_ok devs'.
Proof.
  intros Hb Hn Hl Hd. unfold extended_inquiry. destruct (Z.ltb_spec (zlen params) 15); [by exists devs|].
  rewrite ld_loop_ldn by (unfold BT_ADDR_LEN; lia). cbn [obind].
  set (addr := take _ _). assert (addr_ok addr) as Ha.
  { split; [subst addr; unfold BT_ADDR_LEN; zlist|by apply Forall_take, Forall_drop]. }
  destruct (ld_spec params 10) as (b0 & -> & _); [lia|]. destruct (ld_spec params 11) as (b1 & -> & _); [lia|].
  destruct (ld_spec params 12) as (b2 & -> & _); [lia|]. destruct (ld_spec params 15) as (b3 & -> & _); [lia|].
  cbn [obind]. set (cod := Z.lor _ _).
  destruct (note_ok _ devs addr (classic_update_good cod) Hd Ha) as (o & devs1 & Hnote & Hd1 & Ho).
  unfold bt_device_registry_note_classic. fold (note_with (classic_update cod) devs addr).
  rewrite Hnote. cbn [obind fst snd]. destruct o as [dev|]; [|by exists devs1]. specialize (Ho dev eq_refl).
  destruct (on_device_ok devs1 dev (put_rssi (s8 b3)) Hd1 Ho (put_rssi_good _)) as (devs2 & -> & Hd2 & Hc2). cbn [obind].
  rewrite u32_small by lia. replace (zlen params - 16) with (zlen (drop 16 params)) by zlist.
  destruct (adv_parse_safe (drop 16 params)) as (info & -> & Hi); [by apply Forall_drop|]. cbn [obind].
  update_step.
  match goal with |- context [on_device_if ?b ?d ?i ?u] => destruct (on_device_if_ok b d i u) as (devs5 & -> & Hd5 & Hc5) end;
    [done|lia|apply info_name_good; [done|lia]|]. by exists devs5.
Qed.

Lemma discovery_ok hook data m : event_fit data -> registry_ok (ct_devices (mg_controller m)) ->
  exists m', discovery_event hook data (zlen data) m = Ret m' /\ registry_ok (ct_devices (mg_controller m')) /\
    ct_state (mg_controller m') = ct_state (mg_controller m) /\ mg_state m' = mg_state m /\
    ct_info (mg_controller m') = ct_info (mg_controller m).
Proof.
  intros [Hb He] Hd. unfold discovery_event.
  pose proof (event_header_safe _ (reader_init_ok data (zlen data) ltac:(lia) Hb)) as Hh.
  destruct (bt_hci_parse_event_header _) as [[h|e|] r]; [|by exists m|by destruct Hh].
  destruct Hh as (_ & Hok & _ & _ & _ & Hv). destruct (Hv h eq_refl) as [_ Hlen]. unfold is_byte in Hlen.
  pose proof (rspec_peek (eh_param_len h) ltac:(lia) r Hok) as Hp.
  destruct (bt_buf_reader_peek _ r) as [[[params|]|e|] r']; [|by exists m|by exists m|by destruct Hp].
  destruct Hp as (_ & _ & _ & _ & _ & Hq). destruct (Hq _ eq_refl params eq_refl) as [Hpl Hpb].
  destruct (Z.eqb_spec (eh_event_code h) BT_HCI_EVENT_INQUIRY_RESULT).
  { set (tr := if _ && hook then _ else _).
    destruct (inquiry_init_spec params (eh_param_len h) ltac:(lia) Hpb) as [->|(it & -> & Hit & _)]; [by eexists|].
    destruct (inquiry_loop_ok 256 it _ Hit Hd) as (devs & -> & Hd'); [destruct Hit; lia|]. by eexists. }
  destruct (Z.eqb_spec (eh_event_code h) BT_HCI_EVENT_EXTENDED_INQUIRY_RESULT) as [E|_].
  { rewrite <- Hpl in *. destruct (extended_inquiry_ok params (ct_devices (mg_controller m)) Hpb)
      as (devs & -> & Hd'); [naive_solver|lia|done|]. by eexists. }
  destruct (Z.eqb_spec (eh_event_code h) BT_HCI_EVENT_LE_META); [|by exists m].
  pose proof (adv_init_spec params (eh_param_len h) ltac:(lia) Hpb) as Hit.
  destruct (bt_hci_le_adv_report_iter_init params (eh_param_len h)) as [it|e'|]; [|by exists m|done].
  destruct (adv_report_loop_ok 256 it _ Hit Hd) as (devs & -> & Hd'); [destruct Hit; lia|]. by eexists.
Qed.

(** ** Lemmas: the bring-up as a client of the queue *)

Lemma fits_head cb l m : fits (Some cb :: l) m -> (registry_ok (ct_devices (mg_controller m)) /\ mg_state m = ms) /\
  ((l = [] /\ ct_state (mg_controller m) = match cb with
      | On_reset_complete => BT_CONTROLLER_STATE_RESETTING
      | On_version_complete => BT_CONTROLLER_STATE_READING_VERSION
      | On_features_complete => BT_CONTROLLER_STATE_READING_FEATURES
      | On_buffer_size_complete => BT_CONTROLLER_STATE_READING_BUFFER_SIZE
      | Ignore_completion => BT_CONTROLLER_STATE_READY end /\ cb <> Ignore_completion) \/
   (cb = Ignore_completion /\ fits l m)).
Proof.
  intros (Hr & Hm & Hs). split; [done|]. unfold fits.
  destruct (ct_state (mg_controller m)); simplify_eq; try (by left);
    apply Forall_cons in Hs as [[= <-] Hs]; right; (split; [done|split; [done|split; [done|exact Hs]]]).
Qed.

Lemma fits_error m : registry_ok (ct_devices (mg_controller m)) /\ mg_state m = ms -> fits [] (set_state BT_CONTROLLER_STATE_ERROR m).
Proof. intros [? ?]. split; [done|]. split; [done|constructor]. Qed.

Lemma submit_next_ok op next m n : registry_ok (ct_devices (mg_controller m)) /\ mg_state m = ms -> fits [Some next] m ->
  (S (steps_after next) <= n)%nat -> prog_ok fits steps_after (submit_next op next m) n [].
Proof.
  intros Hr Hf Hn. unfold submit_next. cbn [prog_ok cost_of]. split.
  { split; [unfold BT_HCI_MAX_PARAM_LEN; lia|done]. }
  exists 0%nat. split; [lia|]. rewrite decide_True by done. split; [done|].
  intros st Hst. rewrite decide_False by done. by apply fits_error.
Qed.

Lemma local_version_safe p : bytes p -> sat (bt_hci_parse_local_version p (zlen p)) (fun _ => True).
Proof.
  intros Hb. unfold bt_hci_parse_local_version. destruct (negb _); [done|].
  apply parse_safe; [|lia|done]. repeat safe_step. by apply rspec_ret.
Qed.

Lemma local_features_safe p : bytes p -> sat (bt_hci_parse_local_features p (zlen p)) (fun _ => True).
Proof.
  intros Hb. unfold bt_hci_parse_local_features. destruct (negb _); [done|].
  apply parse_safe; [|lia|done]. repeat safe_step. by apply rspec_ret.
Qed.

Lemma buffer_size_safe p : bytes p -> sat (bt_hci_parse_buffer_size p (zlen p)) (fun _ => True).
Proof.
  intros Hb. unfold bt_hci_parse_buffer_size. destruct (negb _); [done|].
  apply parse_safe; [|lia|done]. repeat safe_step. by apply rspec_ret.
Qed.

Lemma completion_bytes c : completion_ok c ->
  bytes (return_bytes c) /\ cm_return_params_len c = zlen (return_bytes c).
Proof.
  unfold completion_ok, return_bytes. destruct (cm_return_params c) as [p|]; [intros [? <-]; done|].
  intros ->. split; [constructor|done].
Qed.

Lemma complete_fn_ok cb comp l m : fits (Some cb :: l) m -> completion_ok comp ->
  prog_ok fits steps_after (run_complete_fn cb comp m) (steps_after cb) l.
Proof.
  intros Hf Hc. apply fits_head in Hf as [[Hr Hms] [(-> & Hst & Hcb)|[-> Hl]]]; [|exact Hl].
  destruct (completion_bytes comp Hc) as [Hb Hlen].
  destruct cb; cbn [run_complete_fn steps_after]; [| | | |done].
  - unfold on_reset_complete. destruct (negb _); [by apply fits_error|]. by apply submit_next_ok; [| |simpl; lia].
  - unfold on_version_complete. destruct (negb _); [by apply fits_error|]. rewrite Hlen.
    pose proof (local_version_safe _ Hb) as Hs. destruct (bt_hci_parse_local_version _ _); [|by apply fits_error|done].
    by apply submit_next_ok; [| |simpl; lia].
  - unfold on_features_complete. destruct (negb _); [by apply fits_error|]. rewrite Hlen.
    pose proof (local_features_safe _ Hb) as Hs. destruct (bt_hci_parse_local_features _ _); [|by apply fits_error|done].
    by apply submit_next_ok; [| |simpl; lia].
  - unfold on_buffer_size_complete. destruct (negb _); [by apply fits_error|]. rewrite Hlen.
    pose proof (buffer_size_safe _ Hb) as Hs. destruct (bt_hci_parse_buffer_size _ _); [|by apply fits_error|done].
    split; [done|]. split; [done|constructor].
Qed.

Section Laws.
  Context {T : Type} `{CmdqTransport T} (hook : bool).
  Context (Htr : forall t wire, tprog_ok (T := T) event_fit (send_command t wire)).

Abbreviation W := (world complete_fn unit bt_manager T).
#[local] Instance client : CmdqClient complete_fn unit bt_manager := controller_client hook.

Lemma controller_laws : laws (H := client) fits steps_after event_fit.
Proof.
  constructor.
  - by intros data [? _].
  - intros cb comp ud l m Hf Hc. by apply complete_fn_ok.
  - intros l m (Hr & _ & Hs). exfalso. destruct (ct_state (mg_controller m)); simplify_eq; by inv Hs.
  - intros data l m (Hr & Hm & Hs) He. destruct (discovery_ok hook data m He Hr) as (m' & Hd & Hr' & Hst & Hms & _).
    exists m'. split; [exact Hd|]. split; [done|]. split; [congruence|]. by rewrite Hst.
  - exact Htr.
Qed.

Abbreviation good := (good (T := T) fits steps_after).
Abbreviation quiet := (quiet (T := T) fits steps_after).

(** *** The controller's calls *)

Lemma set_state_good w k s : good w k ->
  (forall l, fits l (w_client w) -> fits l (set_state s (w_client w))) -> good (on_client (set_state s) w) k.
Proof.
  intros (pend & tl & Hi & Ha & Hp & Hc) Hs. exists pend, tl. split; [by apply inv_with_client|].
  split; [done|]. split; [done|]. by apply Hs.
Qed.

Lemma start_ok fuel w k now : good w k -> (k + 8 < fuel)%nat ->
  exists st w', bt_controller_start hook fuel w now = Ret (st, w') /\ good w' (k + 8) /\
    (ct_state (ct w) <> BT_CONTROLLER_STATE_UNINITIALIZED -> st = BT_ERR_INVALID_ARGUMENT /\ w' = w) /\
    (ct_state (ct w) = BT_CONTROLLER_STATE_UNINITIALIZED -> st = BT_OK).
Proof.
  intros Hg Hf. unfold bt_controller_start. case_bool_decide as Hst; cbn [negb].
  2:{ eexists _, w. split; [done|]. split; [eapply good_weaken; [done|lia]|]. split; [done|]. congruence. }
  destruct Hg as (pend & tl & Hi & Ha & Hp & (Hr & Hm & Hc)). unfold ct in Hst. rewrite Hst in Hc.
  destruct (submit_ok steps_after w pend tl BT_HCI_OPCODE_RESET None 0 0 (Some On_reset_complete) tt Hi)
    as (st & w1 & -> & Hsub). { split; [unfold BT_HCI_MAX_PARAM_LEN; lia|done]. }
  cbn [obind]. destruct Hsub as [[-> [(-> & _ & ?)|[-> Hfull]]]|(-> & i & Hi1 & Hd)]; [lia| |].
  { exfalso. destruct (callbacks_nil w pend tl Hi Hc) as (-> & Ho & _). unfold in_flight in Hfull. by rewrite Ho in Hfull. }
  rewrite bool_decide_true by done. cbn [negb].
  destruct Hd as (_ & Htm & Hcl & _ & _ & Ho & _ & _ & _ & Hpot & Hcb). cbn [cd_on_complete cost_of steps_after] in *.
  destruct (pump_ok fits steps_after event_fit controller_laws fuel (on_client (set_state BT_CONTROLLER_STATE_RESETTING) w1) now (k + 8)%nat)
    as (w2 & Hpump & Hq); [|lia|].
  { exists (pend ++ [i]), tl. split; [by apply inv_with_client|]. split; [intros j Hj; apply Ha; cbn in Hj; congruence|].
    match goal with |- (potential _ ?x _ <= _)%nat /\ _ => change (potential steps_after x (pend ++ [i])) with (potential steps_after w1 (pend ++ [i])) end.
    split; [lia|]. do 2 (split; [cbn; by rewrite Hcl|]). change (callbacks (on_client _ w1) (pend ++ [i])) with (callbacks w1 (pend ++ [i])).
    rewrite Hcb, Hc. done. }
  unfold client in Hpump. rewrite Hpump. cbn [obind]. do 2 eexists. split; [done|]. split; [by apply quiet_good|]. done.
Qed.

(** *** Discovery commands *)

Definition discovery_cmd (op : Z) (params : list Z) : command complete_fn unit :=
  {| cd_opcode := op; cd_params := params; cd_on_complete := Some Ignore_completion; cd_user_data := tt |}.

Lemma written_ok m bs cap : writes m bs -> zlen bs = cap -> 0 <= cap < 256 -> written m cap = Ret (bs, cap).
Proof.
  intros Hm Hl Hc. unfold written. set (w0 := bt_buf_writer_init _ _).
  assert (zlen (replicate (Z.to_nat cap) 0) = cap) as Hr by (rewrite length_replicate; lia).
  assert (writer_ok w0) as Hw by (apply writer_init_ok; lia).
  destruct (Hm w0 Hw) as [Hok _]. rewrite Hok by (simpl; lia). unfold wput, bt_buf_writer_len. cbn [bw_data bw_pos w0 bt_buf_writer_init].
  rewrite Z.add_0_l, Hl, u8_small by lia. do 2 f_equal. unfold splice. simpl.
  rewrite drop_ge by (rewrite length_replicate; lia). by rewrite app_nil_r.
Qed.

Lemma submit_ignore w k op params n : good w k -> ct_state (ct w) = BT_CONTROLLER_STATE_READY ->
  params_ok (Some params) n -> zlen params = n ->
  exists st w', submit w op (Some params) n 0 (Some Ignore_completion) tt = Ret (st, w') /\ good w' (k + 2) /\
    w_client w' = w_client w /\
    (st = BT_OK /\ w_trace w' = w_trace w ++ [ESubmit (discovery_cmd op params)] \/
     st = BT_ERR_NO_RESOURCES /\ w_trace w' = w_trace w).
Proof.
  intros (pend & tl & Hi & Ha & Hp & (Hr & Hm & Hc)) Hst Hps Hn.
  destruct (submit_ok steps_after w pend tl op (Some params) n 0 (Some Ignore_completion) tt Hi Hps)
    as (st & w1 & -> & Hsub). exists st, w1. split; [done|].
  destruct Hsub as [[-> Hst']|(-> & i & Hi1 & (_ & _ & Hcl & _ & Htr' & Ho & _ & _ & _ & Hpot & Hcb))].
  - split; [|split; [done|]]; [|destruct Hst' as [(_ & [=] & _)|[-> _]]; by right].
    exists pend, tl. split; [done|]. split; [done|]. split; [lia|]. by do 2 (split; [done|]).
  - cbn [cd_on_complete cost_of steps_after] in *. split; [|split; [done|]].
    + exists (pend ++ [i]), tl. split; [done|]. split; [intros j Hj; apply Ha; congruence|]. split; [lia|].
      rewrite Hcl, Hcb. do 2 (split; [done|]). unfold ct in Hst. rewrite Hst in *. apply Forall_app. by repeat constructor.
    + left. split; [done|]. rewrite Htr'. unfold discovery_cmd. change (default [] (Some params)) with params. by rewrite firstn_all2 by lia.
Qed.

(** The run of a discovery call: each command submitted in turn, then a pump;
    or, when the pool fills up, the first of them submitted and no pump. *)
Definition ran (w : W) (k : nat) (cmds : list (command complete_fn unit)) (o : outcome (bt_status * W)) : Prop :=
  exists st w', o = Ret (st, w') /\ good w' (k + 2 * length cmds) /\
    ((st = BT_OK /\ exists l, w_trace w' = w_trace w ++ (ESubmit <$> cmds) ++ l) \/
     (st = BT_ERR_NO_RESOURCES /\ exists n, (n < length cmds)%nat /\
        w_trace w' = w_trace w ++ (ESubmit <$> take n cmds))).

Lemma ran_pump fuel w k now : good w k -> (k < fuel)%nat ->
  ran w k [] (let? w := bt_cmdq_pump (H := client) fuel w now in Ret (BT_OK, w)).
Proof.
  intros Hg Hk. destruct (pump_ok fits steps_after event_fit controller_laws fuel w now k Hg Hk) as (w' & Hr & Hq).
  rewrite Hr. cbn [obind]. exists BT_OK, w'. split; [done|]. split.
  - eapply good_weaken; [by apply quiet_good|simpl; lia].
  - left. split; [done|]. by destruct (bt_cmdq_pump_grows (H := client) fuel w now w' Hr) as [l ->]; exists l.
Qed.

Lemma ran_submit w k op params cmds kont : good w k -> ct_state (ct w) = BT_CONTROLLER_STATE_READY ->
  bytes params -> zlen params <= 255 ->
  (forall w', good w' (k + 2) -> w_client w' = w_client w -> ran w' (k + 2) cmds (kont w')) ->
  ran w k (discovery_cmd op params :: cmds) (submit_or_return w op (params, zlen params) kont).
Proof.
  intros Hg Hst Hb Hl Hk. unfold submit_or_return. cbn [fst snd].
  destruct (submit_ignore w k op params (zlen params)) as (st & w1 & -> & Hg1 & Hcl & Ht); [done..| |done|].
  { split; [unfold BT_HCI_MAX_PARAM_LEN; lia|]. by intros p [= <-]. }
  cbn [obind]. destruct Ht as [[-> Ht]|[-> Ht]].
  - rewrite bool_decide_true by done. cbn [negb].
    destruct (Hk w1 Hg1 Hcl) as (st' & w2 & -> & Hg2 & Ht2). exists st', w2. split; [done|]. split.
    { eapply good_weaken; [done|simpl; lia]. }
    destruct Ht2 as [[-> [l ->]]|[-> (n & Hn & ->)]]; rewrite Ht, <- app_assoc.
    + left. split; [done|]. by exists l.
    + right. split; [done|]. exists (S n). split; [simpl; lia|done].
  - rewrite bool_decide_false by done. cbn [negb]. exists BT_ERR_NO_RESOURCES, w1. split; [done|].
    split; [eapply good_weaken; [done|simpl; lia]|]. right. split; [done|]. exists 0%nat.
    split; [simpl; lia|]. by rewrite Ht, app_nil_r.
Qed.

Lemma le24_bytes v : bytes (le_enc 3 v).
Proof. apply le_enc_bytes. Qed.

Lemma inquiry_runs fuel w k len now : good w k -> ct_state (ct w) = BT_CONTROLLER_STATE_READY -> (k + 4 < fuel)%nat ->
  ran w k [discovery_cmd BT_HCI_OPCODE_WRITE_INQUIRY_MODE [2]; discovery_cmd BT_HCI_OPCODE_INQUIRY [51; 139; 158; u8 len; 0]]
    (bt_controller_start_classic_inquiry hook fuel w len now).
Proof.
  intros Hg Hst Hk. unfold bt_controller_start_classic_inquiry. rewrite bool_decide_true by done. cbn [negb].
  apply (ran_submit w k _ [2]); [done..|bys|simpl; lia|]. intros w1 Hg1 Hc1.
  rewrite (written_ok _ [51; 139; 158; u8 len; 0] 5); [| |done|lia].
  2:{ eapply writes_last; [apply writes_le24|cbv beta|]; [eapply writes_last; [apply writes_u8|cbv beta; apply writes_u8|reflexivity]|].
      reflexivity. }
  cbn [obind]. apply (ran_submit w1 _ _ [51; 139; 158; u8 len; 0]); [done|unfold ct in *; by rewrite Hc1|bys|simpl; lia|].
  intros w2 Hg2 Hc2. apply ran_pump; [done|lia].
Qed.

Lemma scan_runs fuel w k now : good w k -> ct_state (ct w) = BT_CONTROLLER_STATE_READY -> (k + 4 < fuel)%nat ->
  ran w k [discovery_cmd BT_HCI_OPCODE_LE_SET_SCAN_PARAMETERS [0; 16; 0; 16; 0; 0; 0];
           discovery_cmd BT_HCI_OPCODE_LE_SET_SCAN_ENABLE [1; 1]] (bt_controller_start_le_scan hook fuel w now).
Proof.
  intros Hg Hst Hk. unfold bt_controller_start_le_scan. rewrite bool_decide_true by done. cbn [negb].
  rewrite (written_ok _ [0; 16; 0; 16; 0; 0; 0] 7); [| |done|lia].
  2:{ print_all. }
  cbn [obind]. apply (ran_submit w k _ [0; 16; 0; 16; 0; 0; 0]); [done..|bys|simpl; lia|]. intros w1 Hg1 Hc1.
  rewrite (written_ok _ [1; 1] 2); [| |done|lia].
  2:{ eapply writes_last; [apply writes_u8|cbv beta; apply writes_u8|reflexivity]. }
  cbn [obind]. apply (ran_submit w1 _ _ [1; 1]); [done|unfold ct in *; by rewrite Hc1|bys|simpl; lia|].
  intros w2 Hg2 Hc2. apply ran_pump; [done|lia].
Qed.

Lemma stop_scan_runs fuel w k now : good w k -> ct_state (ct w) = BT_CONTROLLER_STATE_READY -> (k + 4 < fuel)%nat ->
  ran w k [discovery_cmd BT_HCI_OPCODE_LE_SET_SCAN_ENABLE [0; 0]] (bt_controller_stop_le_scan hook fuel w now).
Proof.
  intros Hg Hst Hk. unfold bt_controller_stop_le_scan. rewrite bool_decide_true by done. cbn [negb].
  rewrite (written_ok _ [0; 0] 2); [| |done|lia].
  2:{ eapply writes_last; [apply writes_u8|cbv beta; apply writes_u8|reflexivity]. }
  cbn [obind]. apply (ran_submit w _ _ [0; 0]); [done..|bys|simpl; lia|].
  intros w2 Hg2 Hc2. apply ran_pump; [done|lia].
Qed.

(** *** Sequences of calls *)

Inductive call : Type :=
| CStart (now_us : Z)
| CEvent (data : list Z) (now_us : Z)
| CTick (now_us : Z)
| CInquiry (inquiry_length now_us : Z)
| CScan (now_us : Z)
| CStopScan (now_us : Z).

Definition run_call (fuel : nat) (w : W) (c : call) : outcome W :=
  match c with
  | CStart now => let? r := bt_controller_start hook fuel w now in Ret r.2
  | CEvent data now => bt_controller_on_event hook fuel w data (zlen data) now
  | CTick now => bt_controller_tick hook fuel w now
  | CInquiry len now => let? r := bt_controller_start_classic_inquiry hook fuel w len now in Ret r.2
  | CScan now => let? r := bt_controller_start_le_scan hook fuel w now in Ret r.2
  | CStopScan now => let? r := bt_controller_stop_le_scan hook fuel w now in Ret r.2
  end.

Fixpoint run_calls (fuel : nat) (w : W) (l : list call) : outcome W :=
  match l with
  | [] => Ret w
  | c :: l => let? w := run_call fuel w c in run_calls fuel w l
  end.

Definition call_ok (c : call) : Prop := match c with CEvent data _ => event_fit data | _ => True end.

Lemma good_discovery (w : W) k data : good w k -> event_fit data ->
  exists m, discovery_event hook data (zlen data) (w_client w) = Ret m /\ good (with_client m w) k.
Proof.
  intros (pend & tl & Hi & Ha & Hp & Hc) He.
  destruct (law_received _ _ _ controller_laws data _ _ Hc He) as (m & Hm & Hc'). exists m. split; [exact Hm|].
  exists pend, tl. split; [by apply inv_with_client|]. by split.
Qed.

Lemma event_runs fuel (w : W) k data now : good w k -> event_fit data -> (k < fuel)%nat ->
  exists w', bt_controller_on_event hook fuel w data (zlen data) now = Ret w' /\ good w' k.
Proof.
  intros Hg He Hk. unfold bt_controller_on_event.
  destruct (on_event_ok fits steps_after event_fit controller_laws (bt_cmdq_pump fuel) fuel w data now k)
    as (w1 & Hr & Hq); [by apply (pump_ok fits steps_after event_fit controller_laws)|done|done|by destruct He|].
  unfold client in Hr. rewrite Hr. cbn [obind].
  assert (good w1 k) as Hg1 by (destruct Hq as [->|Hq]; [done|by apply quiet_good]).
  destruct (good_discovery w1 k data Hg1 He) as (m & -> & Hg2). cbn [obind]. by eexists.
Qed.

Lemma ran_call (w : W) k cmds o : ran w k cmds o -> (length cmds <= 2)%nat ->
  exists w', (let? r := o in Ret r.2) = Ret w' /\ good w' (k + 8).
Proof.
  intros (st & w' & -> & Hg & _) Hl. exists w'. split; [done|]. eapply good_weaken; [done|lia].
Qed.

Lemma ready_or_refused fuel w :
  ct_state (ct w) = BT_CONTROLLER_STATE_READY \/
  forall now, (forall len, bt_controller_start_classic_inquiry hook fuel w len now = Ret (BT_ERR_INVALID_ARGUMENT, w)) /\
    bt_controller_start_le_scan hook fuel w now = Ret (BT_ERR_INVALID_ARGUMENT, w) /\
    bt_controller_stop_le_scan hook fuel w now = Ret (BT_ERR_INVALID_ARGUMENT, w).
Proof.
  destruct (decide (ct_state (ct w) = BT_CONTROLLER_STATE_READY)) as [|Hn]; [by left|]. right. intros now.
  unfold bt_controller_start_classic_inquiry, bt_controller_start_le_scan, bt_controller_stop_le_scan.
  by rewrite bool_decide_false by done.
Qed.

Lemma run_call_good fuel (w : W) k c : good w k -> call_ok c -> (k + 8 < fuel)%nat ->
  exists w', run_call fuel w c = Ret w' /\ good w' (k + 8).
Proof.
  intros Hg Hc Hk. assert (good w (k + 8)) as Hg8 by (eapply good_weaken; [done|lia]).
  destruct c as [now|data now|now|len now|now|now]; cbn [run_call].
  - destruct (start_ok fuel w k now Hg Hk) as (st & w' & -> & Hg' & _). by exists w'.
  - by apply event_runs.
  - unfold bt_controller_tick. destruct (tick_ok fits steps_after event_fit controller_laws fuel w now (k + 8) Hg8 Hk)
      as (w' & Hr & Hq). exists w'. split; [exact Hr|by apply quiet_good].
  - destruct (ready_or_refused fuel w) as [Hst|Hst].
    + eapply ran_call; [apply inquiry_runs; [done..|lia]|simpl; lia].
    + destruct (Hst now) as (-> & _). by exists w.
  - destruct (ready_or_refused fuel w) as [Hst|Hst].
    + eapply ran_call; [apply scan_runs; [done..|lia]|simpl; lia].
    + destruct (Hst now) as (_ & -> & _). by exists w.
  - destruct (ready_or_refused fuel w) as [Hst|Hst].
    + eapply ran_call; [apply stop_scan_runs; [done..|lia]|simpl; lia].
    + destruct (Hst now) as (_ & _ & ->). by exists w.
Qed.

Lemma run_calls_good fuel l : forall w k, good w k -> Forall call_ok l -> (k + 8 * length l < fuel)%nat ->
  exists w', run_calls fuel w l = Ret w' /\ good w' (k + 8 * length l).
Proof.
  induction l as [|c l IH]; intros w k Hg Hl Hk; cbn [run_calls length] in *.
  - exists w. split; [done|]. eapply good_weaken; [done|lia].
  - inv Hl. destruct (run_call_good fuel w k c) as (w1 & -> & Hg1); [done..|lia|]. cbn [obind].
    destruct (IH w1 (k + 8)%nat) as (w2 & -> & Hg2); [done..|lia|]. exists w2. split; [done|].
    eapply good_weaken; [done|lia].
Qed.

(** The controller object's memory, before its initialisation. *)
Definition controller_memory (w : W) : Prop :=
  memory_ok (w_q w) (w_timers w) /\ zlen (dr_devices (ct_devices (ct w))) = BT_DEVICE_REGISTRY_MAX /\
  mg_state (w_client w) = ms.

Lemma controller_init_good (w : W) : controller_memory w ->
  exists w', bt_controller_init w = Ret w' /\ good w' 0 /\ w_trace w' = [] /\ w_transport w' = w_transport w /\
    ct_state (ct w') = BT_CONTROLLER_STATE_UNINITIALIZED /\ mg_state (w_client w') = ms.
Proof.
  intros (Hm & Hl & Hms). unfold bt_controller_init.
  match goal with |- context [with_client ?x] => set (m := x) end.
  assert (fits [] m) as Hf by (split; [by apply registry_init_ok|by split]).
  destruct (init_good fits steps_after (w_q w) (w_timers w) m (w_transport w) Hm Hf) as (q & ts & Hi & Hg).
  rewrite Hi. cbn [obind]. eexists. split; [done|]. split; [exact Hg|done].
Qed.

(** *** Bring-up over a transport that only takes commands *)

Definition no_params (op : Z) (cb : complete_fn) : command complete_fn unit :=
  {| cd_opcode := op; cd_params := []; cd_on_complete := Some cb; cd_user_data := tt |}.

(** The commands of the bring-up, each with the state that waits for it. *)
Definition bringup (cb : complete_fn) : option (Z * bt_controller_state) :=
  match cb with
  | On_reset_complete => Some (BT_HCI_OPCODE_RESET, BT_CONTROLLER_STATE_RESETTING)
  | On_version_complete => Some (BT_HCI_OPCODE_READ_LOCAL_VERSION_INFO, BT_CONTROLLER_STATE_READING_VERSION)
  | On_features_complete => Some (BT_HCI_OPCODE_READ_LOCAL_SUPPORTED_FEATURES, BT_CONTROLLER_STATE_READING_FEATURES)
  | On_buffer_size_complete => Some (BT_HCI_OPCODE_READ_BUFFER_SIZE, BT_CONTROLLER_STATE_READING_BUFFER_SIZE)
  | Ignore_completion => None
  end.

(** The bring-up waits for the answer to [cb]'s command, with what it knows so far. *)
Definition waits_for (w : W) (cb : complete_fn) (i : bt_controller_info) (tr : list (tev complete_fn unit)) : Prop :=
  exists op st, bringup cb = Some (op, st) /\ awaiting w (no_params op cb) /\ ct_state (ct w) = st /\
    ct_info (ct w) = i /\ w_trace w = tr.

(** It failed, and nothing is left in the queue. *)
Definition failed (w : W) : Prop := idle w /\ ct_state (ct w) = BT_CONTROLLER_STATE_ERROR.

Lemma bringup_opcode cb op st : bringup cb = Some (op, st) -> 0 <= op < 2 ^ 16.
Proof. by destruct cb; intros [= <- <-]. Qed.

(** A Command Complete is not a discovery event. *)
Lemma discovery_none n op params m : is_byte n -> bytes params -> zlen params <= 252 ->
  let data := complete_event n op params in discovery_event hook data (zlen data) m = Ret m.
Proof.
  intros Hn Hb Hl data.
  assert (bytes ([n] ++ le_enc 2 op ++ params)) as Hbb by bys.
  assert (zlen ([n] ++ le_enc 2 op ++ params) = 3 + zlen params) as Hbl
    by (rewrite !length_app, le_enc_length; simpl; lia).
  destruct (event_header_runs BT_HCI_EVENT_COMMAND_COMPLETE ([n] ++ le_enc 2 op ++ params))
    as (r & Hh & Hok & Hv); [unfold is_byte, BT_HCI_EVENT_COMMAND_COMPLETE; lia|lia|done|]. rewrite Hbl in Hh.
  unfold discovery_event, data, complete_event. rewrite Hh. cbn [eh_event_code eh_param_len].
  pose proof (rspec_peek (3 + zlen params) ltac:(lia) r Hok) as Hp.
  by destruct (bt_buf_reader_peek _ r) as [[[p|]|e|] r']; [| | |destruct Hp].
Qed.

Context (Hplain : plain (T := T)).

Lemma bringup_event fuel (w : W) cb op st n params now : bringup cb = Some (op, st) -> awaiting w (no_params op cb) ->
  is_byte n -> bytes params -> zlen params <= 252 ->
  let data := complete_event n op params in
  let p := run_complete_fn cb {| cm_result := BT_CMDQ_RESULT_COMPLETE; cm_opcode := op;
             cm_status := default 255 (head params); cm_return_params := Some params;
             cm_return_params_len := zlen params |} (w_client w) in
  simple p -> ((forall m, p <> CDone m) -> n <> 0) ->
  exists w', bt_controller_on_event hook (S fuel) w data (zlen data) now = Ret w' /\
    next_state p w w' (EComplete (no_params op cb) BT_CMDQ_RESULT_COMPLETE (default 255 (head params))).
Proof.
  intros Hcb (slot & s & e & Hi & Ho & Hs & Hc) Hn Hb Hl data p Hp Hn0.
  assert (sl_opcode s = op) as Hop by (by injection Hc). pose proof (bringup_opcode _ _ _ Hcb) as Hr.
  pose proof (complete_event_calls (H := client) (bt_cmdq_pump (S fuel)) w slot s n params now Ho Hs Hn) as He.
  rewrite Hop in He. specialize (He Hr Hb Hl). unfold bt_controller_on_event, data. unfold client in He. rewrite He.
  set (w1 := with_q (set_credits n (w_q w)) w).
  destruct (complete_plain (H := client) Hplain fuel w1 slot s cb [(slot, e)] BT_CMDQ_RESULT_COMPLETE (default 255 (head params))
    (Some params) (zlen params) now) as (w2 & Hr2 & Hnext); [by apply inv_with_credits|done|done|by injection Hc|
    rewrite Hop; exact Hp|rewrite Hop; exact Hn0|]. unfold client in Hr2. rewrite Hr2. cbn [obind].
  rewrite discovery_none by done. cbn [obind]. exists w2. split; [by destruct w2|].
  rewrite Hop, Hc in Hnext. exact Hnext.
Qed.

Lemma bringup_fails fuel (w : W) cb i tr n params now : waits_for w cb i tr -> is_byte n ->
  bytes params -> zlen params <= 252 -> default 255 (head params) <> 0 ->
  let data := complete_event n (cd_opcode (no_params (default 0 (fst <$> bringup cb)) cb)) params in
  exists w', bt_controller_on_event hook (S fuel) w data (zlen data) now = Ret w' /\ failed w'.
Proof.
  intros (op & st & Hcb & Ha & _) Hn Hb Hl Hst. rewrite Hcb. cbn [fmap option_fmap option_map fst no_params cd_opcode].
  change (default 0 (Some op)) with op.
  pose proof (bringup_event fuel w cb op st n params now Hcb Ha Hn Hb Hl) as He. cbv zeta in He.
  set (comp := {| cm_result := _ |}) in He.
  assert (run_complete_fn cb comp (w_client w) = CDone (set_state BT_CONTROLLER_STATE_ERROR (w_client w))) as Hrun.
  { assert (step_ok comp = false) as Hok by (unfold step_ok; cbn; by apply Z.eqb_neq).
    destruct cb; try done; cbn; unfold on_reset_complete, on_version_complete, on_features_complete,
      on_buffer_size_complete; by rewrite Hok. }
  rewrite Hrun in He. destruct (He I ltac:(intros Hd; by destruct (Hd _ eq_refl))) as (w' & Hr & Hid & Hm & _). exists w'. split; [exact Hr|].
  split; [done|]. unfold ct. by rewrite Hm.
Qed.

Lemma bringup_times_out fuel (w : W) cb i tr e now : waits_for w cb i tr ->
  bt_timer_list_next_expiry (w_timers w) = Ret e -> e <= now ->
  exists w', bt_controller_tick hook (S (S fuel)) w now = Ret w' /\ failed w'.
Proof.
  intros (op & st & Hcb & Ha & _) He Hle.
  destruct (timeout_plain (H := client) Hplain fuel w (no_params op cb) cb e now
    (set_state BT_CONTROLLER_STATE_ERROR (w_client w)) Ha eq_refl He Hle) as (w' & Hr & Hid & Hm & _).
  { by destruct cb. }
  exists w'. split; [exact Hr|]. split; [done|]. unfold ct. by rewrite Hm.
Qed.

Lemma bringup_starts fuel (w : W) now : idle w -> cq_command_credits (w_q w) <> 0 ->
  ct_state (ct w) = BT_CONTROLLER_STATE_UNINITIALIZED -> w_trace w = [] ->
  exists w', bt_controller_start hook (S fuel) w now = Ret (BT_OK, w') /\
    waits_for w' On_reset_complete (ct_info (ct w)) [ESubmit (no_params BT_HCI_OPCODE_RESET On_reset_complete);
      ESend (wire_of (no_params BT_HCI_OPCODE_RESET On_reset_complete))].
Proof.
  intros Hid Hc Hst Ht. unfold bt_controller_start. rewrite bool_decide_true by done. cbn [negb].
  destruct (submit_pump (H := client) Hplain fuel w BT_HCI_OPCODE_RESET None 0 0 (Some On_reset_complete) tt now)
    as (w1 & -> & _ & Hp); [done|done|split; [unfold BT_HCI_MAX_PARAM_LEN; lia|done]|done|]. cbn [obind].
  rewrite bool_decide_true by done. cbn [negb].
  destruct (Hp (set_state BT_CONTROLLER_STATE_RESETTING)) as (w2 & Hr & Ha & Hm & Ht2).
  unfold client in Hr. unfold on_client. rewrite Hr. cbn [obind]. exists w2. split; [done|].
  do 2 eexists. split; [done|]. split; [done|]. unfold ct. rewrite Hm, Ht2, Ht. done.
Qed.

(** What an answer adds to the information, and the next command. *)
Definition absorbed (cb : complete_fn) (params : list Z) (i : bt_controller_info) : outcome bt_controller_info :=
  match cb with
  | On_version_complete =>
      let? v := bt_hci_parse_local_version params (zlen params) in
      Ret {| in_version := v; in_features := in_features i; in_buffer_size := in_buffer_size i |}
  | On_features_complete =>
      let? f := bt_hci_parse_local_features params (zlen params) in
      Ret {| in_version := in_version i; in_features := f; in_buffer_size := in_buffer_size i |}
  | On_buffer_size_complete =>
      let? b := bt_hci_parse_buffer_size params (zlen params) in
      Ret {| in_version := in_version i; in_features := in_features i; in_buffer_size := b |}
  | _ => Ret i
  end.
Definition following (cb : complete_fn) : option complete_fn :=
  match cb with
  | On_reset_complete => Some On_version_complete
  | On_version_complete => Some On_features_complete
  | On_features_complete => Some On_buffer_size_complete
  | _ => None
  end.

(** An answer with status 0 and some credits. *)
Definition success (n : Z) (params : list Z) : Prop :=
  is_byte n /\ n <> 0 /\ bytes params /\ zlen params <= 252 /\ head params = Some 0.

Lemma bringup_advances fuel (w : W) cb i tr n params now op st i' : waits_for w cb i tr -> bringup cb = Some (op, st) ->
  success n params -> absorbed cb params i = Ret i' ->
  exists w', bt_controller_on_event hook (S fuel) w (complete_event n op params) (zlen (complete_event n op params)) now = Ret w' /\
    let done := tr ++ [EComplete (no_params op cb) BT_CMDQ_RESULT_COMPLETE 0] in
    match following cb with
    | Some cb' => exists op' st', bringup cb' = Some (op', st') /\
        waits_for w' cb' i' (done ++ [ESubmit (no_params op' cb'); ESend (wire_of (no_params op' cb'))])
    | None => idle w' /\ ct_state (ct w') = BT_CONTROLLER_STATE_READY /\ ct_info (ct w') = i' /\ w_trace w' = done
    end.
Proof.
  intros (op0 & st0 & Hcb0 & Ha & Hst & Hi & Ht) Hcb (Hn & Hn0 & Hb & Hl & Hhd) Habs.
  rewrite Hcb in Hcb0. injection Hcb0 as <- <-. subst i tr.
  pose proof (fun Hs => bringup_event fuel w cb op st n params now Hcb Ha Hn Hb Hl Hs (fun _ => Hn0)) as He. cbv zeta in He.
  rewrite Hhd in He. change (default 255 (Some 0)) with 0 in He. set (comp := {| cm_result := _ |}) in He.
  assert (step_ok comp = true) as Hok by done.
  assert (return_bytes comp = params /\ cm_return_params_len comp = zlen params) as [Hrp Hrl] by done.
  unfold run_complete_fn, on_reset_complete, on_version_complete, on_features_complete, on_buffer_size_complete,
    submit_next in He. rewrite Hok, Hrp, Hrl in He. cbn [negb] in He. clearbody comp. unfold absorbed in Habs.
  destruct cb; cbn [following] in *; [..|done].
  all: try (destruct (bt_hci_parse_local_version _ _); [|done..]; cbn [obind] in Habs; injection Habs as <-).
  all: try (destruct (bt_hci_parse_local_features _ _); [|done..]; cbn [obind] in Habs; injection Habs as <-).
  all: try (destruct (bt_hci_parse_buffer_size _ _); [|done..]; cbn [obind] in Habs; injection Habs as <-).
  all: try injection Habs as <-.
  all: try (destruct He as (w' & Hr & Hx); [by split; [|eexists; cbn; rewrite decide_True by done]|];
    cbn [next_state] in Hx; destruct (Hx eq_refl _ ltac:(rewrite decide_True by done; reflexivity)) as (Haw & Hm & Htr');
    exists w'; split; [exact Hr|]; do 2 eexists; split; [done|]; do 2 eexists; split; [done|]; split; [exact Haw|];
    unfold ct; rewrite Hm, Htr', <- app_assoc; done).
  destruct (He I) as (w' & Hr & Hid & Hm & Htr'). exists w'. split; [exact Hr|]. split; [done|].
  unfold ct. by rewrite Hm, Htr'.
Qed.

Lemma controller_init_idle (w : W) : controller_memory w ->
  exists w', bt_controller_init w = Ret w' /\ idle w' /\ cq_command_credits (w_q w') = 1 /\ w_trace w' = [] /\
    ct_state (ct w') = BT_CONTROLLER_STATE_UNINITIALIZED /\ ct_info (ct w') = zero_info.
Proof.
  intros Hm. destruct (controller_init_good w Hm) as (w' & Hinit & (pend & tl & Hi & Ha & _ & (_ & _ & Hc)) & Ht & _ & Hst & _).
  exists w'. split; [done|]. unfold ct in Hst. rewrite Hst in Hc.
  destruct (callbacks_nil w' pend tl Hi Hc) as (-> & Ho & ->).
  split; [by split|]. unfold bt_controller_init in Hinit. destruct (bt_cmdq_init _ _) as [r| |] eqn:E; [|done..].
  cbn [obind] in Hinit. injection Hinit as <-. split; [|done].
  unfold bt_cmdq_init in E. destruct (foldl _ _ _) as [r0| |]; [|done..]. cbn [obind] in E. by injection E as <-.
Qed.

(** ** Properties *)

(** C35.  The controller is its command queue's client at every step.  From
    [bt_controller_init] on, for any sequence of starts, received events,
    ticks and discovery calls, and any transport, even one that delivers
    events from inside [send_command]: no call touches memory it should not
    and each returns (fuel past eight sends a call is enough); before
    the bring-up nothing is in flight, during it exactly the command of its
    current state, once, and after it only discovery commands; a timeout is
    armed exactly while a command is outstanding; the registry stays well
    formed.  The events, those the transport delivers included, are any bytes
    but an Extended Inquiry Result with 15 parameter bytes: on that one the code
    reads past the end ([eir_reads_past_event]). *)
Theorem controller_lifecycle : forall (w : W) l fuel, controller_memory w -> Forall call_ok l ->
  (8 * length l < fuel)%nat ->
  exists w0 w', bt_controller_init w = Ret w0 /\ run_calls fuel w0 l = Ret w' /\
    exists pend tl, inv w' pend tl /\ tl.*1 = option_list (cq_outstanding (w_q w')) /\
      fits (callbacks w' pend) (w_client w').
Proof.
  intros w l fuel Hm Hl Hf. destruct (controller_init_good w Hm) as (w0 & Hinit & Hg & _).
  destruct (run_calls_good fuel l w0 0 Hg Hl Hf) as (w' & Hr & pend & tl & Hi & Ha & _ & Hc).
  exists w0, w'. split; [done|]. split; [done|]. exists pend, tl. split; [done|]. split; [|done].
  destruct (cq_outstanding (w_q w')) as [i|] eqn:Ho; [by destruct (Ha i Ho) as [e ->]|].
  destruct tl as [|x tl]; [done|]. pose proof (inv_tl _ _ _ Hi x ltac:(left)). congruence.
Qed.

(** C13.  The bring-up succeeds exactly as the sequence of its answers says.
    After [bt_controller_init], over a transport that accepts every command and
    delivers nothing from inside [send_command], start and four Command
    Completes with status 0 (any further parameters of a parsable form, any
    nonzero credits, each at any time of its own) bring the controller to READY
    with the information those answers carried, having sent exactly Reset, Read
    Local Version, Read Local Supported Features and Read Buffer Size in that
    order and with nothing left in flight. *)
Theorem controller_bringup : forall fuel (w : W) now now1 now2 now3 now4 n1 n2 n3 n4 p1 p2 p3 p4 v f b,
  controller_memory w -> success n1 p1 -> success n2 p2 -> success n3 p3 -> success n4 p4 ->
  bt_hci_parse_local_version p2 (zlen p2) = Ret v ->
  bt_hci_parse_local_features p3 (zlen p3) = Ret f ->
  bt_hci_parse_buffer_size p4 (zlen p4) = Ret b ->
  exists w0 w', bt_controller_init w = Ret w0 /\
    run_calls (S fuel) w0 [CStart now; CEvent (complete_event n1 BT_HCI_OPCODE_RESET p1) now1;
      CEvent (complete_event n2 BT_HCI_OPCODE_READ_LOCAL_VERSION_INFO p2) now2;
      CEvent (complete_event n3 BT_HCI_OPCODE_READ_LOCAL_SUPPORTED_FEATURES p3) now3;
      CEvent (complete_event n4 BT_HCI_OPCODE_READ_BUFFER_SIZE p4) now4] = Ret w' /\
    ct_state (ct w') = BT_CONTROLLER_STATE_READY /\
    ct_info (ct w') = {| in_version := v; in_features := f; in_buffer_size := b |} /\
    sent (w_trace w') = [[3; 12; 0]; [1; 16; 0]; [3; 16; 0]; [5; 16; 0]] /\ idle w'.
Proof.
  intros fuel w now now1 now2 now3 now4 n1 n2 n3 n4 p1 p2 p3 p4 v f b Hm Hp1 Hp2 Hp3 Hp4 Hv Hf Hb.
  destruct (controller_init_idle w Hm) as (w0 & Hinit & Hid & Hc & Ht & Hst & _). exists w0.
  destruct (bringup_starts fuel w0 now Hid ltac:(lia) Hst Ht) as (w1 & Hs & Hw1).
  destruct (bringup_advances fuel w1 _ _ _ n1 p1 now1 _ _ _ Hw1 eq_refl Hp1 ltac:(done))
    as (w2 & E2 & op2 & st2 & [= <- <-] & Hw2).
  destruct (bringup_advances fuel w2 _ _ _ n2 p2 now2 _ _ _ Hw2 eq_refl Hp2 ltac:(cbn [absorbed]; by rewrite Hv))
    as (w3 & E3 & op3 & st3 & [= <- <-] & Hw3).
  destruct (bringup_advances fuel w3 _ _ _ n3 p3 now3 _ _ _ Hw3 eq_refl Hp3 ltac:(cbn [absorbed]; by rewrite Hf))
    as (w4 & E4 & op4 & st4 & [= <- <-] & Hw4).
  destruct (bringup_advances fuel w4 _ _ _ n4 p4 now4 _ _ _ Hw4 eq_refl Hp4 ltac:(cbn [absorbed]; by rewrite Hb))
    as (w5 & E5 & Hid5 & Hst5 & Hi5 & Ht5).
  exists w5. split; [done|]. cbn [run_calls run_call]. rewrite Hs. cbn [obind snd]. rewrite E2. cbn [obind].
  rewrite E3. cbn [obind]. rewrite E4. cbn [obind]. rewrite E5. split; [done|]. split; [done|].
  split; [exact Hi5|]. rewrite Ht5. done.
Qed.

(** C36.  The bring-up fails cleanly.  In each of its four states, an answer
    with a nonzero status or with no parameters, and a tick past the
    command's deadline, put the controller in the ERROR state with nothing
    left in flight and no timeout armed: the answer whenever it comes and whatever credits it gives, over a
    transport that accepts every command and delivers nothing from inside
    [send_command]. *)
Theorem controller_bringup_failure : forall fuel (w : W) cb i tr now, waits_for w cb i tr ->
  (forall op st n params, bringup cb = Some (op, st) ->
     is_byte n -> bytes params -> zlen params <= 252 -> head params <> Some 0 ->
     exists w', bt_controller_on_event hook (S fuel) w (complete_event n op params) (zlen (complete_event n op params)) now = Ret w' /\
       failed w') /\
  (forall e, bt_timer_list_next_expiry (w_timers w) = Ret e -> e <= now ->
     exists w', bt_controller_tick hook (S (S fuel)) w now = Ret w' /\ failed w').
Proof.
  intros fuel w cb i tr now Hw. split; [|intros e He Hle; by eapply bringup_times_out].
  intros op st n params Hcb Hn Hb Hl Hhd. destruct (bringup_fails fuel w cb i tr n params now) as (w' & Hr & Hf); [done..| |].
  - destruct params as [|x l]; [done|]. change (x <> 0). naive_solver.
  - rewrite Hcb in Hr. by exists w'.
Qed.

(** The discovery calls.  Outside READY each is refused and changes
    nothing.  In READY an inquiry submits Write Inquiry Mode (RSSI and EIR)
    and then Inquiry with the general access code, least significant byte
    first, and the given length; starting an LE scan submits the scan
    parameters and then the enabling; stopping it submits the disabling; then
    the queue is pumped.  When the command pool fills up on the way the call
    reports BT_ERR_NO_RESOURCES with only the first of its commands submitted. *)
Theorem controller_discovery_commands : forall fuel (w : W) k len now, good w k -> (k + 4 < fuel)%nat ->
  let inquiry := bt_controller_start_classic_inquiry hook fuel w len now in
  let scan := bt_controller_start_le_scan hook fuel w now in
  let stop := bt_controller_stop_le_scan hook fuel w now in
  if decide (ct_state (ct w) = BT_CONTROLLER_STATE_READY) then
    ran w k [discovery_cmd BT_HCI_OPCODE_WRITE_INQUIRY_MODE [2];
             discovery_cmd BT_HCI_OPCODE_INQUIRY [51; 139; 158; u8 len; 0]] inquiry /\
    ran w k [discovery_cmd BT_HCI_OPCODE_LE_SET_SCAN_PARAMETERS [0; 16; 0; 16; 0; 0; 0];
             discovery_cmd BT_HCI_OPCODE_LE_SET_SCAN_ENABLE [1; 1]] scan /\
    ran w k [discovery_cmd BT_HCI_OPCODE_LE_SET_SCAN_ENABLE [0; 0]] stop
  else inquiry = Ret (BT_ERR_INVALID_ARGUMENT, w) /\ scan = Ret (BT_ERR_INVALID_ARGUMENT, w) /\
       stop = Ret (BT_ERR_INVALID_ARGUMENT, w).
Proof.
  intros fuel w k len now Hg Hk. cbv zeta. case_decide as Hst.
  - split; [by apply inquiry_runs|]. split; [by apply scan_runs|by apply stop_scan_runs].
  - destruct (ready_or_refused fuel w) as [|Hr]; [done|]. by destruct (Hr now) as (Hi & ? & ?).
Qed.

End Laws.
End Client.

(** ** Lemmas: the manager *)

Section Manager.
  Context {T : Type} `{CmdqTransport T} (hook : bool) (ops : transport_ops (T := T)).
  Context (Htr : forall t wire, tprog_ok (T := T) event_fit (send_command t wire)).

Abbreviation W := (world complete_fn unit bt_manager T).
#[local] Instance manager_client : CmdqClient complete_fn unit bt_manager := controller_client hook.

Definition state (w : W) : bt_manager_state := mg_state (w_client w).

(** Between two calls of the manager. *)
Definition managed (w : W) (k : nat) : Prop :=
  good (fits (state w)) steps_after w k /\
  (state w = BT_MANAGER_STATE_STOPPED -> ct_state (ct w) = BT_CONTROLLER_STATE_UNINITIALIZED).

Lemma good_state ms (w : W) k : good (fits ms) steps_after w k -> state w = ms.
Proof. by intros (pend & tl & _ & _ & _ & _ & Hm & _). Qed.

Lemma good_set_state ms ms' (w : W) k : good (fits ms) steps_after w k ->
  good (fits ms') steps_after (on_client (set_manager_state ms') w) k.
Proof.
  intros (pend & tl & Hi & Ha & Hp & Hr & _ & Hc). exists pend, tl. split; [by apply inv_with_client|].
  do 2 (split; [done|]). by split.
Qed.

Lemma good_transport ms (w : W) k t : good (fits ms) steps_after w k -> good (fits ms) steps_after (with_transport t w) k.
Proof. intros (pend & tl & Hi & ?). exists pend, tl. split; [by apply inv_with_transport|done]. Qed.

Lemma good_memory ms (w : W) k : good (fits ms) steps_after w k -> controller_memory ms w.
Proof.
  intros (pend & tl & Hi & _ & _ & (_ & Hl & _) & Hm & _). split; [by eapply inv_memory|]. by split.
Qed.

Lemma managed_set_state ms ms' (w : W) k : good (fits ms) steps_after w k -> ms' <> BT_MANAGER_STATE_STOPPED ->
  managed (on_client (set_manager_state ms') w) k.
Proof. intros Hg Hn. split; [by eapply good_set_state|done]. Qed.

(** What one call of the manager does. *)
Definition started (w : W) (k : nat) (now : Z) (o : outcome (bt_status * W)) : Prop :=
  if decide (state w = BT_MANAGER_STATE_STOPPED) then
    let '(rc1, t1) := tr_open ops (w_transport w) in
    let '(rc2, t2) := tr_start_receive ops t1 in
    if decide (rc1 = 0 /\ rc2 = 0) then
      exists w' st, o = Ret (st, w') /\ managed w' (k + 8) /\
        (st = BT_OK /\ state w' = BT_MANAGER_STATE_RUNNING /\ ct_state (ct w') <> BT_CONTROLLER_STATE_ERROR \/
         st = BT_ERR_IO /\ state w' = BT_MANAGER_STATE_ERROR /\ ct_state (ct w') = BT_CONTROLLER_STATE_ERROR)
    else
      exists w', o = Ret (BT_ERR_IO, w') /\ managed w' k /\ state w' = BT_MANAGER_STATE_ERROR /\
        w_transport w' = (if decide (rc1 = 0) then tr_close ops t2 else t1) /\ w_trace w' = w_trace w
  else o = Ret (BT_ERR_INVALID_ARGUMENT, w).

Lemma manager_start_ok fuel (w : W) k now : managed w k -> (k + 8 < fuel)%nat ->
  started w k now (bt_manager_start hook ops fuel w now).
Proof.
  intros [Hg Hun] Hk. unfold started, bt_manager_start. case_decide as Hst.
  2:{ unfold state in Hst. by rewrite bool_decide_false by done. }
  rewrite bool_decide_true by done. cbn [negb]. specialize (Hun Hst).
  eapply good_set_state in Hg as Hg1.
  set (w1 := on_client (set_manager_state BT_MANAGER_STATE_STARTING) w) in *.
  change (w_transport w1) with (w_transport w).
  destruct (tr_open ops (w_transport w)) as [rc1 t1]. destruct (Z.eqb_spec rc1 0) as [->|Hrc1]; cbn [negb].
  2:{ destruct (tr_start_receive ops t1) as [rc2 t2]. rewrite decide_False by tauto. rewrite (decide_False (P := rc1 = 0)) by done.
      eexists. split; [done|]. split; [eapply managed_set_state; [by apply good_transport|done]|]. by repeat split. }
  cbn [with_transport w_transport]. destruct (tr_start_receive ops t1) as [rc2 t2].
  destruct (Z.eqb_spec rc2 0) as [->|Hrc2]; cbn [negb].
  2:{ rewrite decide_False by tauto. rewrite (decide_True (P := 0 = 0)) by done.
      eexists. split; [done|]. split; [eapply managed_set_state; [by apply good_transport, good_transport, good_transport|done]|].
      by repeat split. }
  rewrite decide_True by done. set (w2 := with_transport t2 _).
  assert (good (fits BT_MANAGER_STATE_STARTING) steps_after w2 k) as Hg2 by (by apply good_transport, good_transport).
  destruct (start_ok BT_MANAGER_STATE_STARTING hook Htr fuel w2 k now Hg2 Hk) as (st & w3 & -> & Hg3 & _ & Hok).
  rewrite Hok by done. cbn [obind]. rewrite bool_decide_true by done. cbn [negb].
  match goal with |- context [on_client (set_manager_state ?s) w3] => set (ms := s) end.
  exists (on_client (set_manager_state ms) w3).
  assert (managed (on_client (set_manager_state ms) w3) (k + 8)) as Hm
    by (eapply managed_set_state; [done|]; subst ms; by case_bool_decide).
  change (mg_state (w_client (on_client (set_manager_state ms) w3))) with ms.
  change (state (on_client (set_manager_state ms) w3)) with ms.
  change (ct_state (ct (on_client (set_manager_state ms) w3))) with (ct_state (ct w3)).
  eexists. split; [done|]. split; [done|]. subst ms. case_bool_decide; [right|left]; by rewrite ?bool_decide_true by done.
Qed.

Lemma manager_tick_ok fuel (w : W) k now : managed w k -> (k < fuel)%nat ->
  exists w', bt_manager_tick hook fuel w now = Ret w' /\ managed w' k /\
    if decide (state w = BT_MANAGER_STATE_RUNNING)
    then state w' = if decide (ct_state (ct w') = BT_CONTROLLER_STATE_ERROR) then BT_MANAGER_STATE_ERROR
                    else BT_MANAGER_STATE_RUNNING
    else w' = w.
Proof.
  intros [Hg Hun] Hk. unfold bt_manager_tick. fold (state w). case_decide as Hst.
  2:{ rewrite bool_decide_false by done. by exists w. }
  rewrite bool_decide_true by done. cbn [negb]. rewrite Hst in Hg. unfold bt_controller_tick.
  destruct (tick_ok (fits BT_MANAGER_STATE_RUNNING) steps_after event_fit (controller_laws _ hook Htr) fuel w now k Hg Hk)
    as (w1 & Hr & Hq). unfold client in Hr. rewrite Hr. cbn [obind]. apply quiet_good in Hq. eexists. split; [done|].
  case_bool_decide as He.
  - split; [by eapply managed_set_state|]. by rewrite decide_True by done.
  - rewrite decide_False by done. pose proof (good_state _ _ _ Hq) as Hs. split; [|done].
    split; [by rewrite Hs|by rewrite Hs].
Qed.

Lemma manager_stop_ok (w : W) k : managed w k ->
  exists w', bt_manager_stop ops w = Ret w' /\ managed w' k /\ state w' = BT_MANAGER_STATE_STOPPED /\
    if decide (state w = BT_MANAGER_STATE_STOPPED) then w' = w else
      idle w' /\ w_transport w' = tr_close ops (tr_stop_receive ops (w_transport w)).
Proof.
  intros [Hg Hun]. unfold bt_manager_stop. fold (state w). case_decide as Hst.
  { rewrite bool_decide_true by done. by exists w. }
  rewrite bool_decide_false by done. set (w1 := on_transport _ _).
  assert (good (fits (state w)) steps_after w1 k) as Hg1 by (by apply good_transport, good_transport).
  pose proof (good_memory _ _ _ Hg1) as Hm.
  destruct (controller_init_good _ w1 Hm) as (w2 & Hi & Hg2 & Ht & Htp & Hct & Hms).
  destruct (controller_init_idle _ w1 Hm) as (w2' & Hi' & Hid & _).
  rewrite Hi in Hi'. injection Hi' as <-. rewrite Hi. cbn [obind]. eexists. split; [done|].
  split; [|split; [done|split; [by apply idle_client|exact Htp]]].
  split; [|done]. eapply good_weaken; [by eapply good_set_state|lia].
Qed.

Lemma manager_receive_ok fuel (w : W) k data : managed w k -> (k < fuel)%nat -> event_fit data ->
  exists w', manager_receive hook fuel w data = Ret w' /\ managed w' k /\ state w' = state w /\
    if accepting (w_client w)
    then bt_controller_on_event hook fuel w data (zlen data) (cq_last_tick_us (w_q w)) = Ret w'
    else w' = w.
Proof.
  intros [Hg Hun] Hk He. unfold manager_receive, recv_event. cbn [client_accepts controller_client client_received].
  destruct (accepting (w_client w)) eqn:Hacc; cbn [negb]; [|by exists w].
  destruct (event_runs _ hook Htr fuel w k data (cq_last_tick_us (w_q w)) Hg He Hk) as (w1 & Hr & Hg1).
  exists w1. pose proof (good_state _ _ _ Hg1) as Hs. split; [|split; [split|done]].
  - unfold bt_controller_on_event in Hr. destruct (bt_cmdq_on_event _ _ _ _ _) as [w2| |]; [|done..].
    cbn [obind] in *. by destruct (discovery_event _ _ _ _).
  - by rewrite Hs.
  - rewrite Hs. unfold accepting in Hacc. intros E. unfold state in E. by rewrite E in Hacc.
Qed.

Inductive mcall : Type :=
| MStart (now_us : Z)
| MTick (now_us : Z)
| MStop
| MReceive (data : list Z)
| MDiscover (c : call).

Definition run_mcall (fuel : nat) (w : W) (c : mcall) : outcome W :=
  match c with
  | MStart now => let? r := bt_manager_start hook ops fuel w now in Ret r.2
  | MTick now => bt_manager_tick hook fuel w now
  | MStop => bt_manager_stop ops w
  | MReceive data => manager_receive hook fuel w data
  | MDiscover c => run_call hook fuel w c
  end.

Fixpoint run_mcalls (fuel : nat) (w : W) (l : list mcall) : outcome W :=
  match l with
  | [] => Ret w
  | c :: l => let? w := run_mcall fuel w c in run_mcalls fuel w l
  end.

(** The controller's own calls that a program makes beside the manager's. *)
Definition mcall_ok (c : mcall) : Prop :=
  match c with
  | MReceive data => event_fit data
  | MDiscover (CInquiry _ _ | CScan _ | CStopScan _) => True
  | MDiscover _ => False
  | _ => True
  end.

Lemma managed_weaken (w : W) k k' : managed w k -> (k <= k')%nat -> managed w k'.
Proof. intros [Hg Hs] Hk. split; [by eapply good_weaken|done]. Qed.

Lemma run_mcall_ok fuel (w : W) k c : managed w k -> mcall_ok c -> (k + 8 < fuel)%nat ->
  exists w', run_mcall fuel w c = Ret w' /\ managed w' (k + 8).
Proof.
  intros Hm Hc Hk. destruct c as [now|now| |data|c]; cbn [run_mcall].
  - pose proof (manager_start_ok fuel w k now Hm Hk) as Hs. unfold started in Hs. case_decide.
    2:{ rewrite Hs. exists w. split; [done|]. eapply managed_weaken; [done|lia]. }
    destruct (tr_open ops (w_transport w)) as [rc1 t1]. destruct (tr_start_receive ops t1) as [rc2 t2]. case_decide.
    + destruct Hs as (w' & st & -> & Hm' & _). by exists w'.
    + destruct Hs as (w' & -> & Hm' & _). exists w'. split; [done|]. eapply managed_weaken; [done|lia].
  - destruct (manager_tick_ok fuel w k now Hm) as (w' & -> & Hm' & _); [lia|]. exists w'. split; [done|].
    eapply managed_weaken; [done|lia].
  - destruct (manager_stop_ok w k Hm) as (w' & -> & Hm' & _). exists w'. split; [done|].
    eapply managed_weaken; [done|lia].
  - destruct (manager_receive_ok fuel w k data Hm) as (w' & -> & Hm' & _); [lia|done|]. exists w'. split; [done|].
    eapply managed_weaken; [done|lia].
  - destruct (decide (state w = BT_MANAGER_STATE_STOPPED)) as [Hst|Hst].
    + destruct Hm as [Hg Hun]. exists w. split; [|split; [eapply good_weaken; [done|lia]|done]].
      specialize (Hun Hst). destruct (ready_or_refused hook fuel w) as [Hr|Hr]; [congruence|].
      destruct c as [| | |len now|now|now]; try done; cbn [run_call]; destruct (Hr now) as (Hi & Hs & Hp);
        first [by rewrite Hi|by rewrite Hs|by rewrite Hp].
    + destruct (run_call_good _ hook Htr fuel w k c (proj1 Hm)) as (w' & -> & Hg'); [by destruct c|done|].
      exists w'. split; [done|]. pose proof (good_state _ _ _ Hg') as Hs. split; [by rewrite Hs|congruence].
Qed.

Lemma run_mcalls_ok fuel l : forall (w : W) k, managed w k -> Forall mcall_ok l -> (k + 8 * length l < fuel)%nat ->
  exists w', run_mcalls fuel w l = Ret w' /\ managed w' (k + 8 * length l).
Proof.
  induction l as [|c l IH]; intros w k Hm Hl Hk; cbn [run_mcalls length] in *.
  - exists w. split; [done|]. eapply managed_weaken; [done|lia].
  - inv Hl. destruct (run_mcall_ok fuel w k c) as (w1 & -> & Hm1); [done..|lia|]. cbn [obind].
    destruct (IH w1 (k + 8)%nat) as (w2 & -> & Hm2); [done..|lia|]. exists w2. split; [done|].
    eapply managed_weaken; [done|lia].
Qed.

(** What each manager call does, in any state the manager can be in.
    Start is refused unless STOPPED; a transport that fails to open, or to
    start receiving (then it is closed again), leaves ERROR with nothing sent
    or submitted; otherwise the result is BT_OK in RUNNING, or BT_ERR_IO in
    ERROR exactly when the controller is already in error.  A tick does
    nothing unless RUNNING, and then ends in ERROR exactly when the
    controller does.  Stop closes the transport and leaves a fresh
    controller with an idle queue, from which start works again.  An event is
    dropped when STOPPED or in ERROR, and is otherwise the controller's, at
    the time of the last tick; no event changes the manager's state. *)
Theorem manager_transitions : forall fuel (w : W) k, managed w k -> (k + 8 < fuel)%nat ->
  (forall now, started w k now (bt_manager_start hook ops fuel w now)) /\
  (forall now, exists w', bt_manager_tick hook fuel w now = Ret w' /\ managed w' k /\
     if decide (state w = BT_MANAGER_STATE_RUNNING)
     then state w' = if decide (ct_state (ct w') = BT_CONTROLLER_STATE_ERROR) then BT_MANAGER_STATE_ERROR
                     else BT_MANAGER_STATE_RUNNING
     else w' = w) /\
  (exists w', bt_manager_stop ops w = Ret w' /\ managed w' k /\ state w' = BT_MANAGER_STATE_STOPPED /\
     if decide (state w = BT_MANAGER_STATE_STOPPED) then w' = w else
       idle w' /\ w_transport w' = tr_close ops (tr_stop_receive ops (w_transport w))) /\
  (forall data, event_fit data -> exists w', manager_receive hook fuel w data = Ret w' /\ managed w' k /\
     state w' = state w /\
     if accepting (w_client w)
     then bt_controller_on_event hook fuel w data (zlen data) (cq_last_tick_us (w_q w)) = Ret w'
     else w' = w).
Proof.
  intros fuel w k Hm Hk. split; [intros now; by apply manager_start_ok|].
  split; [intros now; apply manager_tick_ok; [done|lia]|]. split; [by apply manager_stop_ok|].
  intros data He. apply manager_receive_ok; [done|lia|done].
Qed.

(** C34.  No sequence of manager calls breaks it.  From a manager that is
    stopped, with its controller initialised, any sequence of starts, stops,
    ticks, received events and discovery calls, with any transport, even one
    that delivers events from inside [send_command], runs to the end without a
    fault (fuel past eight sends a call is enough), and ends in a state the
    description of the calls applies to: the queue's invariant and the
    bring-up's hold, and the controller of a stopped manager is uninitialised.
    The events, those the transport delivers included, are any bytes but an
    Extended Inquiry Result with 15 parameter bytes: on that one the code reads
    past the end ([eir_reads_past_event]). *)
Theorem manager_lifecycle : forall fuel (w : W) l, controller_memory BT_MANAGER_STATE_STOPPED w ->
  Forall mcall_ok l -> (8 * length l < fuel)%nat ->
  exists w0 w', bt_controller_init w = Ret w0 /\ run_mcalls fuel w0 l = Ret w' /\ managed w' (8 * length l).
Proof.
  intros fuel w l Hm Hl Hk. destruct (controller_init_good _ w Hm) as (w0 & Hi & Hg & _ & _ & Hct & Hms).
  destruct (run_mcalls_ok fuel l w0 0) as (w' & Hr & Hm'); [|done|done|].
  - split; [by rewrite (good_state _ _ _ Hg)|done].
  - by exists w0, w'.
Qed.

End Manager.

(** ** Concrete runs *)

Module CtrlDemo.

(** A transport that takes every command. *)
#[local] Instance sink : CmdqTransport unit := { send_command t _ := TDone 0 t }.

Definition demo_slot : bt_cmdq_slot complete_fn unit :=
  {| sl_in_use := true; sl_opcode := 0; sl_params := replicate 255 0; sl_params_len := 0;
     sl_timeout_us := 0; sl_on_complete := None; sl_user_data := tt |}.

Definition demo_device : bt_discovered_device :=
  {| dd_addr := replicate 6 0; dd_flags := 0; dd_class_of_device := 0; dd_le_address_type := 0; dd_appearance := 0;
     dd_name := replicate 32 0; dd_name_state := 0; dd_last_rssi := 0; dd_sightings := 0 |}.

Definition demo_manager : bt_manager :=
  {| mg_controller := {| ct_state := BT_CONTROLLER_STATE_ERROR; ct_info := zero_info;
       ct_devices := {| dr_count := 7; dr_devices := replicate 32 demo_device |}; ct_inquiry_traced := 0 |};
     mg_state := BT_MANAGER_STATE_STOPPED |}.

Definition demo_world : world complete_fn unit bt_manager unit :=
  {| w_q := {| cq_nodes := list_to_map ((fun i => (i, Build_bt_queue_node None)) <$> pool_slots);
               cq_pending := bt_queue_init; cq_outstanding := None;
               cq_pool := list_to_map ((fun i => (i, demo_slot)) <$> pool_slots);
               cq_command_credits := 0; cq_last_tick_us := 0 |};
     w_timers := Demo.demo_timers; w_client := demo_manager; w_transport := tt; w_trace := [] |}.

Lemma demo_memory : controller_memory BT_MANAGER_STATE_STOPPED demo_world.
Proof.
  split; [|done]. destruct Demo.demo_memory_ok as (_ & Hn & Ht). split; [|by split].
  intros i Hi. exists demo_slot. split; [|split; [by apply Forall_replicate; unfold is_byte; lia|done]].
  unfold pool_slots in Hi. rewrite !elem_of_cons, elem_of_nil in Hi. by destruct_or! Hi; subst.
Qed.

Lemma sink_ok : forall t wire, tprog_ok (T := unit) event_fit (send_command t wire).
Proof. done. Qed.

Lemma sink_plain : plain (T := unit).
Proof. intros [] wire. by exists tt. Qed.

(** Answers to the four commands. *)
Definition version_params : list Z := [0; 9; 1; 0; 9; 15; 0; 2; 0].
Definition features_params : list Z := [0; 255; 255; 143; 254; 219; 255; 91; 135].
Definition buffer_params : list Z := [0; 253; 3; 64; 8; 0; 1; 0].

Definition no_ops : transport_ops (T := unit) :=
  {| tr_open t := (0, t); tr_start_receive t := (0, t); tr_stop_receive t := t; tr_close t := t |}.

(** The demo world initialised and started: waiting for the answer to Reset. *)
Lemma demo_started : exists w i tr e, waits_for (T := unit) w On_reset_complete i tr /\
  bt_timer_list_next_expiry (w_timers w) = Ret e.
Proof.
  destruct (controller_init_idle _ demo_world demo_memory) as (w0 & _ & Hid & Hc & Ht & Hst & _).
  destruct (bringup_starts false sink_plain 0 w0 0 Hid ltac:(lia) Hst Ht) as (w1 & _ & Hw).
  pose proof Hw as (op & st & _ & (slot & s & e & Hi & _) & _).
  pose proof (next_expiry_spec _ _ (inv_timers _ _ _ Hi)) as He. by eexists w1, _, _, _.
Qed.

Lemma success_demo n : is_byte n -> n <> 0 ->
  success n [0] /\ success n version_params /\ success n features_params /\ success n buffer_params.
Proof.
  intros Hn Hn0. unfold success, version_params, features_params, buffer_params.
  split; [|split; [|split]]; do 2 (split; [done|]); (split; [bys|by split]).
Qed.

End CtrlDemo.
#[local] Existing Instance CtrlDemo.sink.

(** The Extended Inquiry Result with 15 parameter bytes: the guard lets it
    through and the code reads [params[15]], past the event. *)
Example eir_reads_past_event :
  discovery_event false ([BT_HCI_EVENT_EXTENDED_INQUIRY_RESULT; 15] ++ replicate 15 0) 17 CtrlDemo.demo_manager = Fault.
Proof. vm_compute. reflexivity. Qed.

Lemma controller_lifecycle_witness : exists w0 w',
  bt_controller_init CtrlDemo.demo_world = Ret w0 /\
  run_calls false 40 w0 [CStart 5; CTick 6000000; CInquiry 8 6000001; CScan 7000000] = Ret w' /\
  exists pend tl, inv w' pend tl /\ tl.*1 = option_list (cq_outstanding (w_q w')) /\
    fits BT_MANAGER_STATE_STOPPED (callbacks w' pend) (w_client w').
Proof.
  apply (controller_lifecycle BT_MANAGER_STATE_STOPPED false CtrlDemo.sink_ok CtrlDemo.demo_world
    [CStart 5; CTick 6000000; CInquiry 8 6000001; CScan 7000000] 40 CtrlDemo.demo_memory); [by repeat constructor|simpl; lia].
Defined.

Lemma controller_bringup_witness : exists w0 w' v f b,
  bt_controller_init CtrlDemo.demo_world = Ret w0 /\
  run_calls false 2 w0 [CStart 5; CEvent (complete_event 1 BT_HCI_OPCODE_RESET [0]) 900;
    CEvent (complete_event 1 BT_HCI_OPCODE_READ_LOCAL_VERSION_INFO CtrlDemo.version_params) 2000;
    CEvent (complete_event 1 BT_HCI_OPCODE_READ_LOCAL_SUPPORTED_FEATURES CtrlDemo.features_params) 2100;
    CEvent (complete_event 1 BT_HCI_OPCODE_READ_BUFFER_SIZE CtrlDemo.buffer_params) 3500] = Ret w' /\
  ct_state (ct w') = BT_CONTROLLER_STATE_READY /\
  ct_info (ct w') = {| in_version := v; in_features := f; in_buffer_size := b |} /\
  bs_acl_data_packet_length b = 1021 /\ lv_manufacturer_name v = 15.
Proof.
  destruct (CtrlDemo.success_demo 1) as (H1 & H2 & H3 & H4); [unfold is_byte; lia|lia|].
  destruct (controller_bringup BT_MANAGER_STATE_STOPPED false CtrlDemo.sink_plain 1 CtrlDemo.demo_world 5 900 2000 2100 3500 1 1 1 1
    [0] CtrlDemo.version_params CtrlDemo.features_params CtrlDemo.buffer_params _ _ _ CtrlDemo.demo_memory H1 H2 H3 H4
    eq_refl eq_refl eq_refl) as (w0 & w' & Hi & Hr & Hst & Hinfo & _).
  exists w0, w'. do 3 eexists. split; [exact Hi|]. split; [exact Hr|]. split; [exact Hst|]. split; [exact Hinfo|].
  split; reflexivity.
Defined.

Lemma controller_bringup_failure_witness : exists (w : world complete_fn unit bt_manager unit) e w1 w2,
  bt_timer_list_next_expiry (w_timers w) = Ret e /\
  bt_controller_on_event false 1 w (complete_event 1 BT_HCI_OPCODE_RESET [12]) 7 (e - 1) = Ret w1 /\ failed w1 /\
  bt_controller_tick false 2 w e = Ret w2 /\ failed w2.
Proof.
  destruct CtrlDemo.demo_started as (w & i & tr & e & Hw & He).
  destruct (controller_bringup_failure false CtrlDemo.sink_plain 0 w On_reset_complete i tr (e - 1) Hw) as (H1 & _).
  destruct (controller_bringup_failure false CtrlDemo.sink_plain 0 w On_reset_complete i tr e Hw) as (_ & H2).
  destruct (H1 _ _ 1 [12] eq_refl ltac:(unfold is_byte; lia) ltac:(bys) ltac:(simpl; lia) ltac:(done)) as (w1 & H3 & H4).
  destruct (H2 e He (Z.le_refl e)) as (w2 & H5 & H6). exists w, e, w1, w2. done.
Defined.

Lemma controller_discovery_commands_witness : exists (w : world complete_fn unit bt_manager unit) w' st,
  ct_state (ct w) = BT_CONTROLLER_STATE_READY /\
  bt_controller_start_classic_inquiry false 5 w 8 0 = Ret (st, w') /\ w_trace w = [].
Proof.
  destruct (controller_init_good _ CtrlDemo.demo_world CtrlDemo.demo_memory) as (w0 & _ & Hg & Ht & _ & Hst & _).
  set (w := on_client (set_state BT_CONTROLLER_STATE_READY) w0).
  assert (good (fits BT_MANAGER_STATE_STOPPED) steps_after w 0) as Hw.
  { apply set_state_good; [exact Hg|]. unfold ct in Hst. intros l (Hr & Hm & Hl). split; [exact Hr|]. split; [exact Hm|].
    rewrite Hst in Hl. rewrite Hl. constructor. }
  pose proof (controller_discovery_commands BT_MANAGER_STATE_STOPPED false CtrlDemo.sink_ok 5 w 0 8 0 Hw ltac:(lia)) as H.
  cbv zeta in H. rewrite decide_True in H by reflexivity. destruct H as ((st & w' & Hr & _) & _).
  exists w, w', st. split; [reflexivity|]. split; [exact Hr|exact Ht].
Defined.

Lemma manager_transitions_witness : exists (w w' : world complete_fn unit bt_manager unit) st,
  state w = BT_MANAGER_STATE_STOPPED /\ bt_manager_start false CtrlDemo.no_ops 9 w 5 = Ret (st, w') /\
  (state w' = BT_MANAGER_STATE_RUNNING \/ state w' = BT_MANAGER_STATE_ERROR).
Proof.
  destruct (controller_init_good _ CtrlDemo.demo_world CtrlDemo.demo_memory) as (w & _ & Hg & _ & _ & Hst & Hms).
  assert (managed w 0) as Hm by (split; [rewrite (good_state _ _ _ Hg); exact Hg|intros _; exact Hst]).
  destruct (manager_transitions false CtrlDemo.no_ops CtrlDemo.sink_ok 9 w 0 Hm ltac:(lia)) as (H & _).
  specialize (H 5). unfold started in H. rewrite decide_True in H by exact Hms. cbn in H.
  destruct H as (w' & st & Hr & _ & Hs). exists w, w', st. split; [exact Hms|]. split; [exact Hr|].
  destruct Hs as [(_ & Hs & _)|(_ & Hs & _)]; auto.
Defined.

Lemma manager_lifecycle_witness : exists w0 w', bt_controller_init CtrlDemo.demo_world = Ret w0 /\
  run_mcalls false CtrlDemo.no_ops 40 w0 [MStart 5; MReceive [4; 1; 12]; MTick 9; MStop] = Ret w' /\ managed w' 32.
Proof.
  apply (manager_lifecycle false CtrlDemo.no_ops CtrlDemo.sink_ok 40 CtrlDemo.demo_world
    [MStart 5; MReceive [4; 1; 12]; MTick 9; MStop] CtrlDemo.demo_memory); [|simpl; lia].
  constructor; [exact I|]. constructor; [split; [bys|vm_compute; by intros [? ?]]|]. by repeat constructor.
Defined.

End Controller.
