(* ===== verification/Smp.v ===== *)
(** * Security Manager PDUs: protocols/smp/smp.c

    The parser checks a whole command, its exact length and the ranges of its
    fields; the typed parsers and the encoders are one per payload.  A pointer
    into a PDU is the PDU's bytes from there on.  The specification is the
    type [message] of the commands SMP has, with the bytes of each. *)

From Stdlib Require Import ZArith Lia.
From stdpp Require Import base list list_numbers sets.
From S2P Require Import Prelude Buffer.

Module Smp.
Import Buffer.

Definition BT_SMP_PAIRING_REQUEST : Z := 1.
Definition BT_SMP_PAIRING_RESPONSE : Z := 2.
Definition BT_SMP_PAIRING_CONFIRM : Z := 3.
Definition BT_SMP_PAIRING_RANDOM : Z := 4.
Definition BT_SMP_PAIRING_FAILED : Z := 5.
Definition BT_SMP_ENCRYPTION_INFORMATION : Z := 6.
Definition BT_SMP_CENTRAL_IDENTIFICATION : Z := 7.
Definition BT_SMP_IDENTITY_INFORMATION : Z := 8.
Definition BT_SMP_IDENTITY_ADDRESS_INFORMATION : Z := 9.
Definition BT_SMP_SIGNING_INFORMATION : Z := 10.
Definition BT_SMP_SECURITY_REQUEST : Z := 11.
Definition BT_SMP_PAIRING_PUBLIC_KEY : Z := 12.
Definition BT_SMP_PAIRING_DHKEY_CHECK : Z := 13.
Definition BT_SMP_PAIRING_KEYPRESS_NOTIFICATION : Z := 14.

Definition BT_SMP_AUTHREQ_BONDING : Z := 1.
Definition BT_SMP_AUTHREQ_VALID_MASK : Z := 61.
Definition BT_SMP_KEYDIST_VALID_MASK : Z := 15.

Record bt_smp_command : Type := { sc_code : Z; sc_data : list Z; sc_data_len : Z }.

Record bt_smp_pairing_features : Type := {
  pf_io_capability : Z;
  pf_oob_data_flag : Z;
  pf_auth_req : Z;
  pf_max_encryption_key_size : Z;
  pf_initiator_key_distribution : Z;
  pf_responder_key_distribution : Z;
}.

Record bt_smp_central_identification : Type := { ci_rand : list Z; ci_ediv : Z }.
Record bt_smp_identity_address : Type := { ia_address_type : Z; ia_address : list Z }.

(** [None] is SIZE_MAX. *)
Definition command_data_len (code : Z) : option Z :=
  if (code =? BT_SMP_PAIRING_REQUEST) || (code =? BT_SMP_PAIRING_RESPONSE) then Some 6 else
  if (code =? BT_SMP_PAIRING_CONFIRM) || (code =? BT_SMP_PAIRING_RANDOM)
     || (code =? BT_SMP_ENCRYPTION_INFORMATION) || (code =? BT_SMP_IDENTITY_INFORMATION)
     || (code =? BT_SMP_SIGNING_INFORMATION) || (code =? BT_SMP_PAIRING_DHKEY_CHECK) then Some 16 else
  if (code =? BT_SMP_PAIRING_FAILED) || (code =? BT_SMP_SECURITY_REQUEST)
     || (code =? BT_SMP_PAIRING_KEYPRESS_NOTIFICATION) then Some 1 else
  if code =? BT_SMP_CENTRAL_IDENTIFICATION then Some 10 else
  if code =? BT_SMP_IDENTITY_ADDRESS_INFORMATION then Some 7 else
  if code =? BT_SMP_PAIRING_PUBLIC_KEY then Some 64 else None.

Definition pairing_features_valid (f : bt_smp_pairing_features) : bool :=
  (pf_io_capability f <=? 4) && (pf_oob_data_flag f <=? 1)
  && (Z.land (pf_auth_req f) (Z.lnot BT_SMP_AUTHREQ_VALID_MASK) =? 0)
  && (Z.land (pf_auth_req f) 3 <=? BT_SMP_AUTHREQ_BONDING)
  && (pf_max_encryption_key_size f >=? 7) && (pf_max_encryption_key_size f <=? 16)
  && (Z.land (pf_initiator_key_distribution f) (Z.lnot BT_SMP_KEYDIST_VALID_MASK) =? 0)
  && (Z.land (pf_responder_key_distribution f) (Z.lnot BT_SMP_KEYDIST_VALID_MASK) =? 0).

(** Six consecutive bytes as features. *)
Definition load_features (data : list Z) (i : Z) : outcome bt_smp_pairing_features :=
  let? io_capability := ld data i in
  let? oob_data_flag := ld data (i + 1) in
  let? auth_req := ld data (i + 2) in
  let? max_encryption_key_size := ld data (i + 3) in
  let? initiator_key_distribution := ld data (i + 4) in
  let? responder_key_distribution := ld data (i + 5) in
  Ret {| pf_io_capability := io_capability; pf_oob_data_flag := oob_data_flag; pf_auth_req := auth_req;
         pf_max_encryption_key_size := max_encryption_key_size;
         pf_initiator_key_distribution := initiator_key_distribution;
         pf_responder_key_distribution := responder_key_distribution |}.

(** [if (bad) return BT_ERR_INVALID_ARGUMENT;] where [bad] looks at [pdu[1]]
    only when [code] says so. *)
Definition refuse_if (b : bool) (bad : outcome bool) : outcome unit :=
  if b then let? bad := bad in if bad then Fail BT_ERR_INVALID_ARGUMENT else Ret tt else Ret tt.

Definition bt_smp_parse_command (pdu : option (list Z)) (pdu_len : Z) : outcome bt_smp_command :=
  match pdu with
  | None => Fail BT_ERR_INVALID_ARGUMENT
  | Some pdu =>
      if pdu_len =? 0 then Fail BT_ERR_INVALID_ARGUMENT else
      let? code := ld pdu 0 in
      match command_data_len code with
      | None => Fail BT_ERR_INVALID_ARGUMENT
      | Some expected =>
          if negb (pdu_len =? expected + 1) then Fail BT_ERR_INVALID_ARGUMENT else
          let? _ := refuse_if (code =? BT_SMP_PAIRING_FAILED)
            (let? b := ld pdu 1 in Ret ((b <? 1) || (b >? 16))) in
          let? _ := refuse_if ((code =? BT_SMP_PAIRING_REQUEST) || (code =? BT_SMP_PAIRING_RESPONSE))
            (let? f := load_features pdu 1 in Ret (negb (pairing_features_valid f))) in
          let? _ := refuse_if (code =? BT_SMP_SECURITY_REQUEST)
            (let? b := ld pdu 1 in
             Ret (negb (Z.land b (Z.lnot BT_SMP_AUTHREQ_VALID_MASK) =? 0) || (Z.land b 3 >? 1))) in
          let? _ := refuse_if (code =? BT_SMP_PAIRING_KEYPRESS_NOTIFICATION)
            (let? b := ld pdu 1 in Ret (b >? 4)) in
          let? _ := refuse_if (code =? BT_SMP_IDENTITY_ADDRESS_INFORMATION)
            (let? b := ld pdu 1 in Ret (b >? 1)) in
          Ret {| sc_code := code; sc_data := drop 1 pdu; sc_data_len := expected |}
      end
  end.

Definition bt_smp_encode_pairing_features (code : Z) (f : bt_smp_pairing_features) : M bt_buf_writer unit :=
  if (negb (code =? BT_SMP_PAIRING_REQUEST) && negb (code =? BT_SMP_PAIRING_RESPONSE))
     || negb (pairing_features_valid f)
  then fail BT_ERR_INVALID_ARGUMENT else
  do! bt_buf_writer_write_u8 code in
  do! bt_buf_writer_write_u8 (pf_io_capability f) in
  do! bt_buf_writer_write_u8 (pf_oob_data_flag f) in
  do! bt_buf_writer_write_u8 (pf_auth_req f) in
  do! bt_buf_writer_write_u8 (pf_max_encryption_key_size f) in
  do! bt_buf_writer_write_u8 (pf_initiator_key_distribution f) in
  bt_buf_writer_write_u8 (pf_responder_key_distribution f).

Definition bt_smp_parse_pairing_features (command : bt_smp_command) : outcome bt_smp_pairing_features :=
  if (negb (sc_code command =? BT_SMP_PAIRING_REQUEST) && negb (sc_code command =? BT_SMP_PAIRING_RESPONSE))
     || negb (sc_data_len command =? 6)
  then Fail BT_ERR_INVALID_ARGUMENT else
  let? out := load_features (sc_data command) 0 in
  if pairing_features_valid out then Ret out else Fail BT_ERR_INVALID_ARGUMENT.

Definition is_value128 (code : Z) : bool := bool_decide (command_data_len code = Some 16).

Definition bt_smp_encode_value128 (code : Z) (value : list Z) : M bt_buf_writer unit :=
  if negb (is_value128 code) then fail BT_ERR_INVALID_ARGUMENT else
  do! bt_buf_writer_write_u8 code in
  bt_buf_writer_write_bytes value 16.

Definition bt_smp_parse_value128 (command : bt_smp_command) : outcome (list Z) :=
  if negb (is_value128 (sc_code command)) || negb (sc_data_len command =? 16)
  then Fail BT_ERR_INVALID_ARGUMENT else Ret (sc_data command).

Definition bt_smp_encode_central_identification (rand : list Z) (ediv : Z) : M bt_buf_writer unit :=
  do! bt_buf_writer_write_u8 BT_SMP_CENTRAL_IDENTIFICATION in
  do! bt_buf_writer_write_bytes rand 8 in
  bt_buf_writer_write_le16 ediv.

Definition bt_smp_parse_central_identification (command : bt_smp_command) : outcome bt_smp_central_identification :=
  if negb (sc_code command =? BT_SMP_CENTRAL_IDENTIFICATION) || negb (sc_data_len command =? 10)
  then Fail BT_ERR_INVALID_ARGUMENT else
  let? lo := ld (sc_data command) 8 in
  let? hi := ld (sc_data command) 9 in
  Ret {| ci_rand := sc_data command; ci_ediv := u16 (Z.lor lo (Z.shiftl hi 8)) |}.

Definition bt_smp_encode_identity_address (address_type : Z) (address : list Z) : M bt_buf_writer unit :=
  if address_type >? 1 then fail BT_ERR_INVALID_ARGUMENT else
  do! bt_buf_writer_write_u8 BT_SMP_IDENTITY_ADDRESS_INFORMATION in
  do! bt_buf_writer_write_u8 address_type in
  bt_buf_writer_write_bytes address 6.

Definition bt_smp_parse_identity_address (command : bt_smp_command) : outcome bt_smp_identity_address :=
  if negb (sc_code command =? BT_SMP_IDENTITY_ADDRESS_INFORMATION) || negb (sc_data_len command =? 7)
  then Fail BT_ERR_INVALID_ARGUMENT else
  let? address_type := ld (sc_data command) 0 in
  if address_type >? 1 then Fail BT_ERR_INVALID_ARGUMENT else
  Ret {| ia_address_type := address_type; ia_address := drop 1 (sc_data command) |}.

Definition bt_smp_encode_public_key (x y : list Z) : M bt_buf_writer unit :=
  do! bt_buf_writer_write_u8 BT_SMP_PAIRING_PUBLIC_KEY in
  do! bt_buf_writer_write_bytes x 32 in
  bt_buf_writer_write_bytes y 32.

Definition bt_smp_parse_public_key (command : bt_smp_command) : outcome (list Z * list Z) :=
  if negb (sc_code command =? BT_SMP_PAIRING_PUBLIC_KEY) || negb (sc_data_len command =? 64)
  then Fail BT_ERR_INVALID_ARGUMENT else Ret (sc_data command, drop 32 (sc_data command)).

Definition bt_smp_encode_u8_command (code value : Z) : M bt_buf_writer unit :=
  match bt_smp_parse_command (Some [code; value]) 2 with
  | Ret _ =>
      do! bt_buf_writer_write_u8 code in
      bt_buf_writer_write_u8 value
  | Fail _ => fail BT_ERR_INVALID_ARGUMENT
  | Fault => lift Fault
  end.

(** ** Specification *)

Inductive message : Type :=
| Features (response : bool) (f : bt_smp_pairing_features)
| Value128 (code : Z) (v : list Z)
| Small (code value : Z)
| CentralIdentification (rand : list Z) (ediv : Z)
| IdentityAddress (address_type : Z) (address : list Z)
| PublicKey (x y : list Z).

(** The authentication requirements and key distributions that exist: bit 1
    of the first and the high bits of all are reserved. *)
Definition features_ok (f : bt_smp_pairing_features) : Prop :=
  0 <= pf_io_capability f <= 4 /\ 0 <= pf_oob_data_flag f <= 1 /\
  (0 <= pf_auth_req f < 64 /\ Z.testbit (pf_auth_req f) 1 = false) /\
  7 <= pf_max_encryption_key_size f <= 16 /\
  0 <= pf_initiator_key_distribution f < 16 /\ 0 <= pf_responder_key_distribution f < 16.

Definition message_ok (m : message) : Prop :=
  match m with
  | Features _ f => features_ok f
  | Value128 code v => code ∈ [3; 4; 6; 8; 10; 13] /\ sized 16 v
  | Small code value =>
      (code = BT_SMP_PAIRING_FAILED /\ 1 <= value <= 16) \/
      (code = BT_SMP_SECURITY_REQUEST /\ 0 <= value < 64 /\ Z.testbit value 1 = false) \/
      (code = BT_SMP_PAIRING_KEYPRESS_NOTIFICATION /\ 0 <= value <= 4)
  | CentralIdentification rand ediv => sized 8 rand /\ 0 <= ediv < 2 ^ 16
  | IdentityAddress ty address => 0 <= ty <= 1 /\ sized 6 address
  | PublicKey x y => sized 32 x /\ sized 32 y
  end.

Definition feature_bytes (f : bt_smp_pairing_features) : list Z :=
  [pf_io_capability f; pf_oob_data_flag f; pf_auth_req f; pf_max_encryption_key_size f;
   pf_initiator_key_distribution f; pf_responder_key_distribution f].

Definition code_of (m : message) : Z :=
  match m with
  | Features response _ => if response then 2 else 1
  | Value128 code _ | Small code _ => code
  | CentralIdentification _ _ => 7
  | IdentityAddress _ _ => 9
  | PublicKey _ _ => 12
  end.
Definition payload (m : message) : list Z :=
  match m with
  | Features _ f => feature_bytes f
  | Value128 _ v => v
  | Small _ value => [value]
  | CentralIdentification rand ediv => rand ++ le_enc 2 ediv
  | IdentityAddress ty address => [ty] ++ address
  | PublicKey x y => x ++ y
  end.

(** The code's encoder for each message. *)
Definition encode_message (m : message) : M bt_buf_writer unit :=
  match m with
  | Features _ f => bt_smp_encode_pairing_features (code_of m) f
  | Value128 code v => bt_smp_encode_value128 code v
  | Small code value => bt_smp_encode_u8_command code value
  | CentralIdentification rand ediv => bt_smp_encode_central_identification rand ediv
  | IdentityAddress ty address => bt_smp_encode_identity_address ty address
  | PublicKey x y => bt_smp_encode_public_key x y
  end.

(** What the code's typed parser makes of a command that carries [m]. *)
Definition parses_to (m : message) (c : bt_smp_command) : Prop :=
  match m with
  | Features _ f => bt_smp_parse_pairing_features c = Ret f
  | Value128 _ v => bt_smp_parse_value128 c = Ret v
  | Small _ value => ld (sc_data c) 0 = Ret value
  | CentralIdentification rand ediv => exists p,
      bt_smp_parse_central_identification c = Ret {| ci_rand := p; ci_ediv := ediv |} /\ take 8 p = rand
  | IdentityAddress ty address =>
      bt_smp_parse_identity_address c = Ret {| ia_address_type := ty; ia_address := address |}
  | PublicKey x y => exists p, bt_smp_parse_public_key c = Ret (p, y) /\ take 32 p = x
  end.

(** ** Lemmas *)

Lemma auth_valid b : is_byte b ->
  (Z.land b (Z.lnot BT_SMP_AUTHREQ_VALID_MASK) =? 0) && (Z.land b 3 <=? 1) = (b <? 64) && negb (Z.testbit b 1).
Proof. intros Hb. apply eqb_true_iff. revert b Hb. apply byte_forall. vm_compute. reflexivity. Qed.

Lemma dist_valid b : is_byte b -> (Z.land b (Z.lnot BT_SMP_KEYDIST_VALID_MASK) =? 0) = (b <? 16).
Proof. intros Hb. apply eqb_true_iff. revert b Hb. apply byte_forall. vm_compute. reflexivity. Qed.

Lemma auth_ok b : is_byte b ->
  (Z.land b (Z.lnot BT_SMP_AUTHREQ_VALID_MASK) =? 0) && (Z.land b 3 <=? 1) = true <-> 0 <= b < 64 /\ Z.testbit b 1 = false.
Proof.
  intros Hb. rewrite auth_valid by done. unfold is_byte in Hb.
  rewrite andb_true_iff, Z.ltb_lt, negb_true_iff. intuition lia.
Qed.

Lemma features_valid f : bytes (feature_bytes f) -> pairing_features_valid f = true <-> features_ok f.
Proof.
  unfold feature_bytes, pairing_features_valid, features_ok. intros Hb.
  repeat match goal with H : Forall _ (_ :: _) |- _ => apply Forall_cons in H as [] end.
  rewrite !dist_valid, Z.geb_leb by done. rewrite <- auth_ok, !andb_true_iff by done.
  unfold is_byte, BT_SMP_AUTHREQ_BONDING in *. rewrite !Z.leb_le, !Z.ltb_lt. intuition lia.
Qed.

Lemma load_features_spec pre f post :
  load_features (pre ++ feature_bytes f ++ post) (zlen pre) = Ret f.
Proof.
  unfold load_features. load 0%nat. load 1%nat. load 2%nat. load 3%nat. load 4%nat. load 5%nat. by destruct f.
Qed.

Lemma command_data_len_spec code n : command_data_len code = Some n ->
  (code ∈ [1; 2] /\ n = 6) \/ (code ∈ [3; 4; 6; 8; 10; 13] /\ n = 16) \/ (code ∈ [5; 11; 14] /\ n = 1) \/
  (code = 7 /\ n = 10) \/ (code = 9 /\ n = 7) \/ (code = 12 /\ n = 64).
Proof.
  unfold command_data_len.
  repeat match goal with
  | |- (if ?b then _ else _) = _ -> _ => let E := fresh in destruct b eqn:E;
      [rewrite ?orb_true_iff, !Z.eqb_eq in E; intros [= <-]|clear E]
  end; [| | | | | |done]; set_solver.
Qed.

Lemma message_bytes m : message_ok m -> bytes (payload m).
Proof.
  destruct m as [r f|code v|code v|rand ediv|ty a|x y]; cbn [message_ok payload]; unfold features_ok, sized, feature_bytes.
  - intros (? & ? & (? & _) & ? & ? & ?). bys.
  - by intros (_ & _ & ?).
  - intros Hm. assert (is_byte v) by (unfold is_byte; lia). bys.
  - intros ((_ & ?) & _). bys.
  - intros (? & _ & ?). bys.
  - intros ((_ & ?) & _ & ?). bys.
Qed.

Lemma message_len m : message_ok m -> command_data_len (code_of m) = Some (zlen (payload m)).
Proof.
  destruct m as [r f|code v|code v|rand ediv|ty a|x y]; cbn [message_ok payload code_of]; unfold sized.
  - by destruct r.
  - intros (Hc & Hl & _). rewrite Hl. rewrite !elem_of_cons, elem_of_nil in Hc. by destruct_or! Hc; subst.
  - by intros [(-> & _)|[(-> & _)|(-> & _)]].
  - intros ((Hl & _) & _). by rewrite length_app, le_enc_length, Nat2Z.inj_add, Hl.
  - intros (_ & Hl & _). cbn [length app]. by rewrite Nat2Z.inj_succ, Hl.
  - intros ((Hx & _) & Hy & _). by rewrite length_app, Nat2Z.inj_add, Hx, Hy.
Qed.

(** Decide [refuse_if] on a known code. *)
Ltac refusals := unfold refuse_if; cbn [Z.eqb Pos.eqb orb obind BT_SMP_PAIRING_FAILED BT_SMP_PAIRING_REQUEST
  BT_SMP_PAIRING_RESPONSE BT_SMP_SECURITY_REQUEST BT_SMP_PAIRING_KEYPRESS_NOTIFICATION
  BT_SMP_IDENTITY_ADDRESS_INFORMATION].

(** The parser on a well-formed command. *)
Lemma parse_message m : message_ok m -> let pdu := [code_of m] ++ payload m in
  bt_smp_parse_command (Some pdu) (zlen pdu) =
    Ret {| sc_code := code_of m; sc_data := payload m; sc_data_len := zlen (payload m) |}.
Proof.
  intros Hm pdu. pose proof (message_len m Hm) as Hl. pose proof (message_bytes m Hm) as Hb.
  unfold bt_smp_parse_command, pdu. cbn [app]. rewrite (proj2 (Z.eqb_neq _ _)) by (simpl; lia).
  rewrite ld_cons_0. cbn [obind]. rewrite Hl. replace (zlen (code_of m :: payload m)) with (zlen (payload m) + 1)
    by (simpl length; lia). rewrite Z.eqb_refl. cbn [negb drop].
  destruct m as [r f|code v|code v|rand ediv|ty a|x y]; cbn [message_ok payload code_of] in *.
  - pose proof (load_features_spec [if r then 2 else 1] f []) as Hf. rewrite app_nil_r in Hf. cbn [app] in Hf.
    change (zlen [if r then 2 else 1]) with 1 in Hf.
    destruct r; unfold refuse_if; cbn [Z.eqb Pos.eqb orb obind BT_SMP_PAIRING_FAILED BT_SMP_PAIRING_REQUEST
      BT_SMP_PAIRING_RESPONSE]; rewrite Hf; cbn [obind]; rewrite (proj2 (features_valid f Hb) Hm); done.
  - destruct Hm as (Hc & _). rewrite !elem_of_cons, elem_of_nil in Hc. by destruct_or! Hc; subst.
  - destruct Hm as [(-> & Hv)|[(-> & Hv)|(-> & Hv)]]; refusals; change (ld [_; v] 1) with (Ret v); cbn [obind].
    + rewrite Z.gtb_ltb, !(proj2 (Z.ltb_ge _ _)) by lia. done.
    + apply auth_ok in Hv; [|unfold is_byte; lia]. rewrite andb_true_iff in Hv. destruct Hv as [-> Hv].
      rewrite Z.gtb_ltb, Z.ltb_antisym, Hv. done.
    + rewrite Z.gtb_ltb, (proj2 (Z.ltb_ge _ _)) by lia. done.
  - done.
  - refusals. change (ld (9 :: [ty] ++ a) 1) with (Ret ty). cbn [obind].
    rewrite Z.gtb_ltb, (proj2 (Z.ltb_ge _ _)) by lia. done.
  - done.
Qed.

(** Everything the parser can answer. *)
Lemma parse_cases pdu : bytes pdu ->
  bt_smp_parse_command (Some pdu) (zlen pdu) = Fail BT_ERR_INVALID_ARGUMENT \/
  exists m, message_ok m /\ pdu = [code_of m] ++ payload m.
Proof.
  intros Hb. unfold bt_smp_parse_command. destruct pdu as [|code data]; [by left|].
  rewrite (proj2 (Z.eqb_neq _ _)) by (simpl; lia). rewrite ld_cons_0. cbn [obind].
  apply Forall_cons in Hb as [Hc Hb].
  destruct (command_data_len code) as [n|] eqn:Hn; [|by left]. apply command_data_len_spec in Hn.
  destruct (Z.eqb_spec (zlen (code :: data)) (n + 1)) as [Hl|]; cbn [negb]; [|by left].
  assert (zlen data = n) as Hd by (simpl length in Hl; lia). clear Hl.
  destruct Hn as [[Hcode ->]|[[Hcode ->]|[[Hcode ->]|[[-> ->]|[[-> ->]|[-> ->]]]]]].
  - destruct data as [|a [|b [|c [|d [|e [|f [|]]]]]]]; simpl in Hd; try lia.
    set (g := {| pf_io_capability := a; pf_oob_data_flag := b; pf_auth_req := c; pf_max_encryption_key_size := d;
                 pf_initiator_key_distribution := e; pf_responder_key_distribution := f |}).
    assert (code = 1 \/ code = 2) as [-> | ->] by set_solver; refusals;
      change (load_features _ 1) with (Ret g); cbn [obind];
      (destruct (pairing_features_valid g) eqn:Hv; cbn [negb]; [right|by left]).
    + exists (Features false g). split; [by apply features_valid|done].
    + exists (Features true g). split; [by apply features_valid|done].
  - right. by exists (Value128 code data).
  - destruct (length_one data Hd) as [v ->]. apply Forall_cons in Hb as [Hv _].
    assert (code = 5 \/ code = 11 \/ code = 14) as [-> | [-> | ->]] by set_solver; refusals;
      change (ld [_; v] 1) with (Ret v); cbn [obind].
    + destruct (_ || _) eqn:E; [by left|]. right. exists (Small 5 v). split; [|done]. left.
      rewrite orb_false_iff, Z.gtb_ltb, !Z.ltb_ge in E. split; [done|lia].
    + destruct (_ || _) eqn:E; [by left|]. right. exists (Small 11 v). split; [|done]. right. left. split; [done|].
      apply auth_ok; [done|]. rewrite orb_false_iff, negb_false_iff, Z.gtb_ltb, Z.ltb_ge in E.
      destruct E as [-> E]. by apply Z.leb_le.
    + destruct (_ >? _) eqn:E; [by left|]. right. exists (Small 14 v). split; [|done]. do 2 right.
      rewrite Z.gtb_ltb, Z.ltb_ge in E. unfold is_byte in Hv. split; [done|lia].
  - right. destruct (split_sized data 8 2 Hb Hd) as (r & e & -> & Hr & [He Heb]); [lia..|].
    exists (CentralIdentification r (le_dec e)). cbn [message_ok code_of payload].
    pose proof (le_dec_bound e Heb) as Hbd. rewrite He in Hbd.
    replace 2%nat with (length e) by lia. by rewrite le_enc_dec.
  - destruct (split_sized data 1 6 Hb Hd) as (t & a & -> & [Ht Htb] & Ha); [lia..|].
    destruct (length_one t Ht) as [ty ->]. apply Forall_cons in Htb as [Hty _]. refusals.
    change (ld (9 :: [ty] ++ a) 1) with (Ret ty). cbn [obind].
    destruct (_ >? _) eqn:E; [by left|]. right. exists (IdentityAddress ty a). split; [|done].
    rewrite Z.gtb_ltb, Z.ltb_ge in E. unfold is_byte in Hty. split; [lia|done].
  - right. destruct (split_sized data 32 32 Hb Hd) as (x & y & -> & Hx & Hy); [lia..|]. by exists (PublicKey x y).
Qed.

Lemma parses_message m : message_ok m ->
  parses_to m {| sc_code := code_of m; sc_data := payload m; sc_data_len := zlen (payload m) |}.
Proof.
  intros Hm. pose proof (message_bytes m Hm) as Hb.
  destruct m as [r f|code v|code v|rand ediv|ty a|x y]; cbn [parses_to message_ok payload code_of] in *.
  - pose proof (load_features_spec [] f []) as Hf. rewrite app_nil_r in Hf.
    assert (bt_smp_parse_pairing_features {| sc_code := if r then 2 else 1; sc_data := feature_bytes f;
      sc_data_len := 6 |} = let? out := load_features (feature_bytes f) 0 in
      if pairing_features_valid out then Ret out else Fail BT_ERR_INVALID_ARGUMENT) as E by (by destruct r).
    change (zlen (feature_bytes f)) with 6. rewrite E. cbn [app] in Hf. change (zlen []) with 0 in Hf.
    rewrite Hf. cbn [obind]. by rewrite (proj2 (features_valid f Hb) Hm).
  - destruct Hm as (Hc & Hl & _). unfold bt_smp_parse_value128. cbn [sc_code sc_data sc_data_len]. rewrite Hl.
    rewrite !elem_of_cons, elem_of_nil in Hc. by destruct_or! Hc; subst.
  - done.
  - destruct Hm as ((Hl & Hrb) & He). exists (rand ++ le_enc 2 ediv).
    unfold bt_smp_parse_central_identification. cbn [sc_code sc_data sc_data_len].
    rewrite length_app, le_enc_length, Nat2Z.inj_add, Hl. cbn [Z.eqb Pos.eqb negb orb BT_SMP_CENTRAL_IDENTIFICATION Z.add Z.of_nat Pos.of_succ_nat Pos.succ Pos.add].
    rewrite !ld_app_r by lia. rewrite Hl. cbn [le_enc]. change (8 - 8) with 0. change (9 - 8) with 1.
    change (ld [ediv mod 256; (ediv / 256) mod 256] 0) with (Ret (ediv mod 256)).
    change (ld [ediv mod 256; (ediv / 256) mod 256] 1) with (Ret ((ediv / 256) mod 256)). cbn [obind].
    split.
    + do 2 f_equal. rewrite lor_shiftl by dlia. rewrite u16_small by dlia. dlia.
    + rewrite firstn_app, firstn_all2 by lia. replace (8 - length rand)%nat with 0%nat by lia. by rewrite app_nil_r.
  - destruct Hm as (Ht & Hl & Hab). unfold bt_smp_parse_identity_address. cbn [sc_code sc_data sc_data_len app].
    replace (zlen (ty :: a)) with 7 by (simpl length; lia). cbn [Z.eqb Pos.eqb negb orb BT_SMP_IDENTITY_ADDRESS_INFORMATION].
    rewrite ld_cons_0. cbn [obind]. rewrite Z.gtb_ltb, (proj2 (Z.ltb_ge _ _)) by lia. done.
  - destruct Hm as ((Hx & _) & Hy & _). exists (x ++ y). unfold bt_smp_parse_public_key. cbn [sc_code sc_data sc_data_len].
    rewrite length_app, Nat2Z.inj_add, Hx, Hy.
    cbn [Z.eqb Pos.eqb negb orb BT_SMP_PAIRING_PUBLIC_KEY Z.add Pos.add Pos.succ Pos.add_carry].
    replace 32%nat with (length x) by lia. by rewrite drop_app_length, take_app_length.
Qed.

Lemma writes_message m : message_ok m -> writes (encode_message m) ([code_of m] ++ payload m).
Proof.
  intros Hm. pose proof (message_bytes m Hm) as Hb. pose proof (parse_message m Hm) as Hp.
  destruct m as [r f|code v|code v|rand ediv|ty a|x y]; cbn [encode_message message_ok payload code_of] in *.
  - unfold bt_smp_encode_pairing_features, feature_bytes in *. rewrite (proj2 (features_valid f Hb) Hm).
    repeat match goal with H : Forall _ (_ :: _) |- _ => apply Forall_cons in H as [] end. unfold is_byte in *.
    destruct r; cbn [negb orb andb Z.eqb Pos.eqb BT_SMP_PAIRING_REQUEST BT_SMP_PAIRING_RESPONSE];
      repeat (eapply writes_last; [apply writes_u8|cbv beta|]); try apply writes_u8; try reflexivity;
      rewrite !u8_small by lia; reflexivity.
  - destruct Hm as (Hc & Hl & _). unfold bt_smp_encode_value128.
    assert (is_value128 code = true /\ 0 <= code < 256) as [-> Hcb].
    { rewrite !elem_of_cons, elem_of_nil in Hc. by destruct_or! Hc; subst. }
    cbn [negb]. eapply writes_last; [apply writes_u8|cbv beta; rewrite <- Hl; apply writes_bytes|].
    by rewrite u8_small by lia.
  - unfold bt_smp_encode_u8_command. change (zlen ([code] ++ [v])) with 2 in Hp. cbn [app] in Hp. rewrite Hp.
    eapply writes_last; [apply writes_u8|cbv beta; apply writes_u8|]. rewrite !u8_small; [done|lia|].
    destruct Hm as [(-> & _)|[(-> & _)|(-> & _)]]; done.
  - destruct Hm as ((Hl & _) & He). unfold bt_smp_encode_central_identification.
    eapply writes_last; [apply writes_u8|cbv beta|].
    { eapply writes_last; [rewrite <- Hl; apply writes_bytes|cbv beta; apply writes_le16|reflexivity]. }
    done.
  - destruct Hm as (Ht & Hl & _). unfold bt_smp_encode_identity_address.
    rewrite Z.gtb_ltb, (proj2 (Z.ltb_ge _ _)) by lia. eapply writes_last; [apply writes_u8|cbv beta|].
    { eapply writes_last; [apply writes_u8|cbv beta; rewrite <- Hl; apply writes_bytes|reflexivity]. }
    by rewrite (u8_small ty) by lia.
  - destruct Hm as ((Hx & _) & Hy & _). unfold bt_smp_encode_public_key.
    eapply writes_last; [apply writes_u8|cbv beta|].
    { eapply writes_last; [rewrite <- Hx; apply writes_bytes|cbv beta; rewrite <- Hy; apply writes_bytes|reflexivity]. }
    done.
Qed.

(** ** Properties *)

(** C38.  The parser accepts exactly the commands of SMP.  Whatever the bytes,
    it reads none past their end; if they are the code and the payload of a
    message with fields in range it returns that code, payload and length,
    and otherwise BT_ERR_INVALID_ARGUMENT. *)
Theorem smp_accepts_exactly : forall pdu, bytes pdu ->
  (exists m, message_ok m /\ pdu = [code_of m] ++ payload m /\
     bt_smp_parse_command (Some pdu) (zlen pdu) =
       Ret {| sc_code := code_of m; sc_data := payload m; sc_data_len := zlen (payload m) |}) \/
  ((forall m, message_ok m -> pdu <> [code_of m] ++ payload m) /\
   bt_smp_parse_command (Some pdu) (zlen pdu) = Fail BT_ERR_INVALID_ARGUMENT).
Proof.
  intros pdu Hb. destruct (parse_cases pdu Hb) as [Hf|(m & Hm & ->)].
  - right. split; [|done]. intros m Hm ->. pose proof (parse_message m Hm) as Hp. cbv zeta in Hp. congruence.
  - left. exists m. split; [done|]. split; [done|]. by apply parse_message.
Qed.

(** Round trip of every SMP message: its encoder writes its code and
    payload, all of it or, without room, nothing more than a prefix with an
    error; the parser gives them back, and the typed parser of its kind
    returns its fields. *)
Theorem smp_roundtrip : forall m, message_ok m ->
  let pdu := [code_of m] ++ payload m in
  writes (encode_message m) pdu /\
  exists c, bt_smp_parse_command (Some pdu) (zlen pdu) = Ret c /\ parses_to m c.
Proof.
  intros m Hm pdu. split; [by apply writes_message|].
  eexists. split; [by apply parse_message|by apply parses_message].
Qed.

Lemma smp_accepts_exactly_witness : bytes [14; 5] /\
  bt_smp_parse_command (Some [14; 5]) 2 = Fail BT_ERR_INVALID_ARGUMENT.
Proof.
  assert (bytes [14; 5]) as Hb by bys. split; [exact Hb|].
  destruct (smp_accepts_exactly [14; 5] Hb) as [(m & _ & _ & H)|[_ H]]; [|exact H].
  vm_compute in H. discriminate H.
Defined.

Lemma smp_roundtrip_witness : exists c,
  bt_smp_parse_command (Some [7; 1; 2; 3; 4; 5; 6; 7; 8; 52; 18]) 11 = Ret c /\
  exists p, bt_smp_parse_central_identification c = Ret {| ci_rand := p; ci_ediv := 4660 |} /\
    take 8 p = [1; 2; 3; 4; 5; 6; 7; 8].
Proof.
  assert (message_ok (CentralIdentification [1; 2; 3; 4; 5; 6; 7; 8] 4660)) as Hm.
  { split; [split; [reflexivity|bys]|lia]. }
  destruct (smp_roundtrip _ Hm) as [_ (c & Hc & Hp)]. exists c. split; [exact Hc|exact Hp].
Defined.

End Smp.
