(* ===== verification/SmpCrypto.v ===== *)
(** * SMP cryptography and pairing negotiation: core/security/smp_crypto.c,
    core/security/smp_pairing.c

    The block cipher is the port's: a function on the state [K] of its context
    that may fail.  CMAC is built on it, or is the port's too.  NULL pointers
    are [None]; the arrays a function fills are its result.  The reference is
    RFC 4493 and the tables of Core Vol 3 Part H: [cmac] over lists of blocks
    with the subkeys as doublings in GF(2^128), and [io_table]. *)

From Stdlib Require Import ZArith Lia.
From stdpp Require Import base list list_numbers.
From S2P Require Import Prelude Buffer Smp.

Module SmpCrypto.
Import Buffer Smp.

(** ** The block cipher and CMAC *)

Section Crypto.
  Context {K : Type}.

(** [bt_smp_aes128_fn]: key, plaintext. *)
Definition bt_smp_aes128_fn : Type := list Z -> list Z -> M K (list Z).
Record bt_smp_aes128 : Type := { ae_encrypt : option bt_smp_aes128_fn }.

(** [bt_smp_aes_cmac_fn]: key, message, message_len. *)
Definition bt_smp_aes_cmac_fn : Type := option (list Z) -> option (list Z) -> Z -> M K (list Z).
Record bt_smp_aes_cmac : Type := { ac_calculate : option bt_smp_aes_cmac_fn }.

Record bt_smp_cmac_aes128 : Type := { ca_aes : bt_smp_aes128 }.

Definition args_valid (aes : option bt_smp_aes128) : M K bt_smp_aes128_fn :=
  match aes with
  | Some {| ae_encrypt := Some encrypt |} => ret encrypt
  | _ => fail BT_ERR_INVALID_ARGUMENT
  end.

(** A pointer that must not be NULL. *)
Definition arg (p : option (list Z)) : M K (list Z) :=
  match p with Some bs => ret bs | None => fail BT_ERR_INVALID_ARGUMENT end.

(** [for (i = 0; i < n; ++i) block[at + i] ^= src[i];] *)
Definition xor_at (block : list Z) (at_ : Z) (src : list Z) (n : Z) : outcome (list Z) :=
  let? s := ldn src 0 n in
  let? b := ldn block at_ n in
  stn block at_ (zip_with Z.lxor b s).

(** [memcpy(block + at, src, n)] *)
Definition copy_at (block : list Z) (at_ : Z) (src : list Z) (n : Z) : outcome (list Z) :=
  let? s := ldn src 0 n in stn block at_ s.

(** One step of the loop of [cmac_double], which runs from the last byte. *)
Definition double_step (b : Z) (acc : Z * list Z) : Z * list Z :=
  (Z.shiftr b 7, u8 (Z.lor (Z.shiftl b 1) acc.1) :: acc.2).

Definition cmac_double (in_ : list Z) : outcome (list Z) :=
  let? in_ := ldn in_ 0 16 in
  let r := foldr double_step (0, []) in_ in
  if negb (r.1 =? 0) then
    let? last := ld r.2 15 in
    st1 r.2 15 (Z.lxor last 135)
  else Ret r.2.

Definition bt_smp_cmac_aes128_init (aes : bt_smp_aes128) : bt_smp_cmac_aes128 := {| ca_aes := aes |}.

(** The full blocks before the last one. *)
Fixpoint cmac_loop (encrypt : bt_smp_aes128_fn) (key message : list Z) (offset : Z) (x : list Z) (blocks : nat)
    : M K (list Z) :=
  match blocks with
  | O => ret x
  | S blocks =>
      let! m := lift (ldn message offset 16) in
      let! block := lift (xor_at x 0 m 16) in
      let! x := encrypt key block in
      cmac_loop encrypt key message (offset + 16) x blocks
  end.

(** The last block, padded, with its subkey and the chaining value. *)
Definition last_block (message : list Z) (offset last_len : Z) (k1 k2 x : list Z) : outcome (list Z) :=
  let? m := ldn message offset last_len in
  let? block := (if last_len =? 16 then xor_at m 0 k1 16
                 else
                   let? block := stn (replicate 16 0) 0 m in
                   let? block := st1 block last_len 128 in
                   xor_at block 0 k2 16) in
  xor_at block 0 x 16.

Definition bt_smp_cmac_aes128_calculate (context : option bt_smp_cmac_aes128) (key message : option (list Z))
    (message_len : Z) : M K (list Z) :=
  let! encrypt := args_valid (ca_aes <$> context) in
  let! key := arg key in
  let! message := match message with
                  | Some m => ret m
                  | None => if message_len =? 0 then ret [] else fail BT_ERR_INVALID_ARGUMENT
                  end in
  let! l := encrypt key (replicate 16 0) in
  let! k1 := lift (cmac_double l) in
  let! k2 := lift (cmac_double k1) in
  let block_count := if message_len =? 0 then 1 else (message_len + 15) / 16 in
  let full_before_last := block_count - 1 in
  let! x := cmac_loop encrypt key message 0 (replicate 16 0) (Z.to_nat full_before_last) in
  let last_len := message_len - full_before_last * 16 in
  let! block := lift (last_block message (full_before_last * 16) last_len k1 k2 x) in
  encrypt key block.

(** ** The LE legacy toolbox *)

Definition bt_smp_crypto_ah (aes : option bt_smp_aes128) (irk prand : option (list Z)) : M K (list Z) :=
  let! encrypt := args_valid aes in
  let! irk := arg irk in
  let! prand := arg prand in
  let! plaintext := lift (copy_at (replicate 16 0) 13 prand 3) in
  let! encrypted := encrypt irk plaintext in
  lift (ldn encrypted 13 3).

Definition bt_smp_crypto_c1 (aes : option bt_smp_aes128) (key random preq pres : option (list Z))
    (initiator_addr_type responder_addr_type : Z) (initiator_addr responder_addr : option (list Z)) : M K (list Z) :=
  let! encrypt := args_valid aes in
  let! key := arg key in
  let! random := arg random in
  let! preq := arg preq in
  let! pres := arg pres in
  let! initiator_addr := arg initiator_addr in
  let! responder_addr := arg responder_addr in
  if (initiator_addr_type >? 1) || (responder_addr_type >? 1) then fail BT_ERR_INVALID_ARGUMENT else
  let! block := lift (
    let? block := copy_at (replicate 16 0) 0 pres 7 in
    let? block := copy_at block 7 preq 7 in
    let? block := st1 block 14 responder_addr_type in
    let? block := st1 block 15 initiator_addr_type in
    xor_at block 0 random 16) in
  let! encrypted := encrypt key block in
  let! block := lift (
    let? block := ldn encrypted 0 16 in
    let? block := xor_at block 4 initiator_addr 6 in
    xor_at block 10 responder_addr 6) in
  encrypt key block.

Definition bt_smp_crypto_s1 (aes : option bt_smp_aes128) (key r1 r2 : option (list Z)) : M K (list Z) :=
  let! encrypt := args_valid aes in
  let! key := arg key in
  let! r1 := arg r1 in
  let! r2 := arg r2 in
  let! block := lift (
    let? a := ldn r1 8 8 in
    let? b := ldn r2 8 8 in
    let? block := stn (replicate 16 0) 0 a in
    stn block 8 b) in
  encrypt key block.

(** ** The LE Secure Connections toolbox *)

Definition cmac_valid (cmac : option bt_smp_aes_cmac) : M K bt_smp_aes_cmac_fn :=
  match cmac with
  | Some {| ac_calculate := Some calculate |} => ret calculate
  | _ => fail BT_ERR_INVALID_ARGUMENT
  end.

(** A message put together by [memcpy]s of the given lengths at consecutive
    offsets. *)
Fixpoint pieces (l : list (list Z * Z)) : outcome (list Z) :=
  match l with
  | [] => Ret []
  | (src, n) :: l =>
      let? s := ldn src 0 n in
      let? rest := pieces l in
      Ret (s ++ rest)
  end.

Definition bt_smp_crypto_f4 (cmac : option bt_smp_aes_cmac) (u v x : option (list Z)) (z : Z) : M K (list Z) :=
  let! calculate := cmac_valid cmac in
  let! u := arg u in
  let! v := arg v in
  let! x := arg x in
  let! message := lift (pieces [(u, 32); (v, 32); ([z], 1)]) in
  calculate (Some x) (Some message) 65.

Definition f5_salt : list Z :=
  [108; 136; 131; 145; 170; 245; 165; 56; 96; 55; 11; 219; 90; 96; 131; 190].

Definition bt_smp_crypto_f5 (cmac : option bt_smp_aes_cmac) (w n1 n2 a1 a2 : option (list Z))
    : M K (list Z * list Z) :=
  let! calculate := cmac_valid cmac in
  let! w := arg w in
  let! n1 := arg n1 in
  let! n2 := arg n2 in
  let! a1 := arg a1 in
  let! a2 := arg a2 in
  let! t := calculate (Some f5_salt) (Some w) 32 in
  let! message := lift (pieces [([0], 1); ([98; 116; 108; 101], 4); (n1, 16); (n2, 16); (a1, 7); (a2, 7); ([1; 0], 2)]) in
  let! mac_key := calculate (Some t) (Some message) 53 in
  let! message := lift (st1 message 0 1) in
  let! ltk := calculate (Some t) (Some message) 53 in
  ret (mac_key, ltk).

Definition bt_smp_crypto_f6 (cmac : option bt_smp_aes_cmac) (w n1 n2 r io_cap a1 a2 : option (list Z))
    : M K (list Z) :=
  let! calculate := cmac_valid cmac in
  let! w := arg w in
  let! n1 := arg n1 in
  let! n2 := arg n2 in
  let! r := arg r in
  let! io_cap := arg io_cap in
  let! a1 := arg a1 in
  let! a2 := arg a2 in
  let! message := lift (pieces [(n1, 16); (n2, 16); (r, 16); (io_cap, 3); (a1, 7); (a2, 7)]) in
  calculate (Some w) (Some message) 65.

Definition bt_smp_crypto_g2 (cmac : option bt_smp_aes_cmac) (u v x y : option (list Z)) : M K Z :=
  let! calculate := cmac_valid cmac in
  let! u := arg u in
  let! v := arg v in
  let! x := arg x in
  let! y := arg y in
  let! message := lift (pieces [(u, 32); (v, 32); (y, 16)]) in
  let! mac := calculate (Some x) (Some message) 80 in
  lift (
    let? b12 := ld mac 12 in
    let? b13 := ld mac 13 in
    let? b14 := ld mac 14 in
    let? b15 := ld mac 15 in
    Ret (Z.lor (Z.lor (Z.lor (u32 (Z.shiftl b12 24)) (Z.shiftl b13 16)) (Z.shiftl b14 8)) b15)).

Definition bt_smp_crypto_h6 (cmac : option bt_smp_aes_cmac) (w key_id : option (list Z)) : M K (list Z) :=
  let! calculate := cmac_valid cmac in
  let! w := arg w in
  let! key_id := arg key_id in
  calculate (Some w) (Some key_id) 4.

Definition bt_smp_crypto_h7 (cmac : option bt_smp_aes_cmac) (salt w : option (list Z)) : M K (list Z) :=
  let! calculate := cmac_valid cmac in
  let! salt := arg salt in
  let! w := arg w in
  calculate (Some salt) (Some w) 16.

End Crypto.
Arguments bt_smp_aes128_fn : clear implicits.
Arguments bt_smp_aes128 : clear implicits.
Arguments bt_smp_aes_cmac_fn : clear implicits.
Arguments bt_smp_aes_cmac : clear implicits.
Arguments bt_smp_cmac_aes128 : clear implicits.

(** ** Pairing negotiation *)

Definition BT_SMP_AUTHREQ_MITM : Z := 4.
Definition BT_SMP_AUTHREQ_SC : Z := 8.
Definition BT_SMP_KEYDIST_ENC_KEY : Z := 1.
Definition BT_SMP_KEYDIST_ID_KEY : Z := 2.
Definition BT_SMP_KEYDIST_SIGN_KEY : Z := 4.
Definition BT_SMP_KEYDIST_LINK_KEY : Z := 8.

Inductive bt_smp_association_method : Set :=
| BT_SMP_ASSOC_JUST_WORKS
| BT_SMP_ASSOC_OOB
| BT_SMP_ASSOC_NUMERIC_COMPARISON
| BT_SMP_ASSOC_PASSKEY_INITIATOR_DISPLAYS
| BT_SMP_ASSOC_PASSKEY_RESPONDER_DISPLAYS
| BT_SMP_ASSOC_PASSKEY_BOTH_INPUT.

#[global] Instance association_eq_dec : EqDecision bt_smp_association_method.
Proof. solve_decision. Defined.

Record bt_smp_pairing_negotiation : Type := {
  pn_secure_connections : bool;
  pn_bonding : bool;
  pn_mitm_requested : bool;
  pn_encryption_key_size : Z;
  pn_initiator_key_distribution : Z;
  pn_responder_key_distribution : Z;
  pn_association : bt_smp_association_method;
}.

Definition features_valid (f : bt_smp_pairing_features) : bool :=
  (pf_io_capability f <=? 4) && (pf_oob_data_flag f <=? 1)
  && (Z.land (pf_auth_req f) (Z.lnot BT_SMP_AUTHREQ_VALID_MASK) =? 0)
  && (Z.land (pf_auth_req f) 3 <=? BT_SMP_AUTHREQ_BONDING)
  && (pf_max_encryption_key_size f >=? 7) && (pf_max_encryption_key_size f <=? 16)
  && (Z.land (pf_initiator_key_distribution f) (Z.lnot BT_SMP_KEYDIST_VALID_MASK) =? 0)
  && (Z.land (pf_responder_key_distribution f) (Z.lnot BT_SMP_KEYDIST_VALID_MASK) =? 0).

Definition has_yes_no (io : Z) : bool := (io =? 1) || (io =? 4).

Definition io_association (initiator responder : Z) (secure_connections : bool) : bt_smp_association_method :=
  if secure_connections && has_yes_no initiator && has_yes_no responder then BT_SMP_ASSOC_NUMERIC_COMPARISON else
  if (initiator =? 3) || (responder =? 3) then BT_SMP_ASSOC_JUST_WORKS else
  if (initiator =? 2) && (responder =? 2) then BT_SMP_ASSOC_PASSKEY_BOTH_INPUT else
  if (initiator =? 2) && ((responder =? 0) || (responder =? 1) || (responder =? 4))
  then BT_SMP_ASSOC_PASSKEY_RESPONDER_DISPLAYS else
  if (responder =? 2) && ((initiator =? 0) || (initiator =? 1) || (initiator =? 4))
  then BT_SMP_ASSOC_PASSKEY_INITIATOR_DISPLAYS else
  BT_SMP_ASSOC_JUST_WORKS.

Definition flag (x mask : Z) : bool := negb (Z.land x mask =? 0).

Definition bt_smp_negotiate_pairing (request response : option bt_smp_pairing_features)
    : outcome bt_smp_pairing_negotiation :=
  match request, response with
  | Some request, Some response =>
      if negb (features_valid request) || negb (features_valid response) then Fail BT_ERR_INVALID_ARGUMENT else
      if flag (pf_initiator_key_distribution response) (Z.lnot (pf_initiator_key_distribution request))
         || flag (pf_responder_key_distribution response) (Z.lnot (pf_responder_key_distribution request))
      then Fail BT_ERR_INVALID_ARGUMENT else
      let both := Z.land (pf_auth_req request) (pf_auth_req response) in
      let secure_connections := flag both BT_SMP_AUTHREQ_SC in
      let mitm_requested := flag (pf_auth_req request) BT_SMP_AUTHREQ_MITM
                            || flag (pf_auth_req response) BT_SMP_AUTHREQ_MITM in
      let request_oob := negb (pf_oob_data_flag request =? 0) in
      let response_oob := negb (pf_oob_data_flag response =? 0) in
      Ret {| pn_secure_connections := secure_connections;
             pn_bonding := flag both BT_SMP_AUTHREQ_BONDING;
             pn_mitm_requested := mitm_requested;
             pn_encryption_key_size :=
               if pf_max_encryption_key_size request <? pf_max_encryption_key_size response
               then pf_max_encryption_key_size request else pf_max_encryption_key_size response;
             pn_initiator_key_distribution := pf_initiator_key_distribution response;
             pn_responder_key_distribution := pf_responder_key_distribution response;
             pn_association :=
               if (secure_connections && (request_oob || response_oob))
                  || (negb secure_connections && request_oob && response_oob) then BT_SMP_ASSOC_OOB else
               if negb mitm_requested then BT_SMP_ASSOC_JUST_WORKS else
               io_association (pf_io_capability request) (pf_io_capability response) secure_connections |}
  | _, _ => Fail BT_ERR_INVALID_ARGUMENT
  end.

(** ** Specification *)

Definition xor_bytes (a b : list Z) : list Z := zip_with Z.lxor a b.

(** Multiplication by x in GF(2^128), reduced by x^128 + x^7 + x^2 + x + 1. *)
Definition gf_double (v : Z) : Z :=
  if 2 * v <? 2 ^ 128 then 2 * v else Z.lxor (2 * v) (2 ^ 128 + 135).
Definition dbl (b : list Z) : list Z := be_enc 16 (gf_double (be_dec b)).

Section Reference.
  Context (E : list Z -> list Z -> list Z).

(** The last piece of a message, with its subkey. *)
Definition cmac_last (key last : list Z) : list Z :=
  let k1 := dbl (E key (replicate 16 0)) in
  if decide (length last = 16%nat) then xor_bytes last k1
  else xor_bytes (last ++ [128] ++ replicate (15 - length last) 0) (dbl k1).

(** RFC 4493, on a message cut into 16-byte blocks and a last piece. *)
Definition cmac (key : list Z) (blocks : list (list Z)) (last : list Z) : list Z :=
  E key (xor_bytes (cmac_last key last)
    (foldl (fun c b => E key (xor_bytes c b)) (replicate 16 0) blocks)).

Definition cut (message : list Z) (blocks : list (list Z)) (last : list Z) : Prop :=
  message = mjoin blocks ++ last /\ Forall (sized 16) blocks /\ (length last <= 16)%nat /\
  (last = [] -> blocks = []).
(** Sixteen bytes at a time; the last piece is empty only for the empty message. *)
Fixpoint cut_fuel (n : nat) (message : list Z) : list (list Z) * list Z :=
  match n with
  | O => ([], message)
  | S n =>
      if decide (length message <= 16)%nat then ([], message) else
      let r := cut_fuel n (drop 16 message) in (take 16 message :: r.1, r.2)
  end.

(** AES-CMAC of a whole message. *)
Definition aes_cmac (key message : list Z) : list Z :=
  let r := cut_fuel (length message) message in cmac key r.1 r.2.
End Reference.

(** Table 2.8: the association model by the IO capabilities (DisplayOnly,
    DisplayYesNo, KeyboardOnly, NoInputNoOutput, KeyboardDisplay) of the
    initiator (rows) and the responder (columns). *)
Definition io_table (secure_connections : bool) : list (list bt_smp_association_method) :=
  let jw := BT_SMP_ASSOC_JUST_WORKS in
  let id := BT_SMP_ASSOC_PASSKEY_INITIATOR_DISPLAYS in
  let rd := BT_SMP_ASSOC_PASSKEY_RESPONDER_DISPLAYS in
  let bi := BT_SMP_ASSOC_PASSKEY_BOTH_INPUT in
  let nc x := if secure_connections then BT_SMP_ASSOC_NUMERIC_COMPARISON else x in
  [[jw; jw;    id; jw; id];
   [jw; nc jw; id; jw; nc id];
   [rd; rd;    bi; jw; rd];
   [jw; jw;    jw; jw; jw];
   [rd; nc rd; id; jw; nc id]].

(** ** Lemmas: doubling *)

Lemma be_dec_cons b l : be_dec (b :: l) = b * 2 ^ (8 * zlen l) + be_dec l.
Proof.
  unfold be_dec. rewrite reverse_cons, le_dec_app, length_reverse. cbn [le_dec]. lia.
Qed.

Lemma be_dec_snoc l b : be_dec (l ++ [b]) = 256 * be_dec l + b.
Proof. unfold be_dec. rewrite reverse_app, reverse_singleton. cbn [app le_dec]. lia. Qed.

Lemma land_low a b n : 0 <= n -> 0 <= b < 2 ^ n -> Z.land (a * 2 ^ n) b = 0.
Proof.
  intros Hn Hb. rewrite <- (Z.mod_small b (2 ^ n)) by done. rewrite <- (Z.land_ones b n) by done.
  rewrite (Z.land_comm b), Z.land_assoc, Z.land_ones, Z.mod_mul by lia. apply Z.land_0_l.
Qed.

Lemma add_lxor a b n : 0 <= n -> 0 <= b < 2 ^ n -> a * 2 ^ n + b = Z.lxor (a * 2 ^ n) b.
Proof. intros. by apply Z.add_nocarry_lxor, land_low. Qed.

Lemma lxor_bound a b n : 0 <= n -> 0 <= a < 2 ^ n -> 0 <= b < 2 ^ n -> 0 <= Z.lxor a b < 2 ^ n.
Proof.
  intros Hn Ha Hb. split; [apply Z.lxor_nonneg; lia|].
  destruct (Z.eq_dec (Z.lxor a b) 0) as [->|Hne]; [lia|].
  pose proof (proj2 (Z.lxor_nonneg a b) ltac:(lia)) as Hp. apply Z.log2_lt_pow2; [lia|].
  eapply Z.le_lt_trans; [apply Z.log2_lxor; lia|].
  destruct (Z.eq_dec n 0) as [->|]; [exfalso; apply Hne; replace a with 0 by lia; by replace b with 0 by lia|].
  assert (forall x, 0 <= x < 2 ^ n -> Z.log2 x < n) as H.
  { intros x Hx. destruct (Z.eq_dec x 0) as [->|]; [simpl; lia|]. apply Z.log2_lt_pow2; lia. }
  pose proof (H a Ha). pose proof (H b Hb). lia.
Qed.

Lemma double_byte b c : is_byte b -> 0 <= c < 2 -> u8 (Z.lor (Z.shiftl b 1) c) = (2 * b + c) mod 256 /\
  Z.shiftr b 7 = b / 128.
Proof.
  intros Hb Hc. rewrite lor_shiftl_l by lia. rewrite Z.shiftr_div_pow2 by lia. unfold u8. split; [f_equal; lia|done].
Qed.

Lemma double_loop l : bytes l -> let r := foldr double_step (0, []) l in
  2 * be_dec l = r.1 * 2 ^ (8 * zlen l) + be_dec r.2 /\ 0 <= r.1 < 2 /\ sized (zlen l) r.2.
Proof.
  induction 1 as [|b l Hb Hl IH]; cbn [foldr]; [split; [done|split; [simpl; lia|split; [done|constructor]]]|].
  destruct IH as (E & Hc & Hn & Ho). destruct (foldr double_step (0, []) l) as [c out]. cbn [fst snd] in *.
  unfold double_step. cbn [fst snd]. destruct (double_byte b c Hb Hc) as [-> ->]. rewrite !be_dec_cons, Hn.
  replace (8 * zlen (b :: l)) with (8 + 8 * zlen l) by (simpl length; lia). rewrite Z.pow_add_r by lia.
  unfold is_byte in Hb. change (2 ^ 8) with 256 in *. split; [|split; [dlia|split; [simpl length; lia|constructor; [|done]]]].
  - assert (2 * b + c = b / 128 * 256 + (2 * b + c) mod 256) as Hq by dlia. nia.
  - unfold is_byte. pose proof (Z.mod_pos_bound (2 * b + c) 256). lia.
Qed.

Lemma be_enc_of l v : sized 16 l -> be_dec l = v -> l = be_enc 16 v.
Proof. intros [Hl Hb] <-. replace 16%nat with (length l) by lia. by rewrite be_enc_dec. Qed.

Lemma gf_reduce c v : 0 <= v < 2 ^ 128 -> 0 <= c < 2 ->
  (if c * 2 ^ 128 + v <? 2 ^ 128 then c * 2 ^ 128 + v else Z.lxor (c * 2 ^ 128 + v) (2 ^ 128 + 135)) =
  if c =? 0 then v else Z.lxor v 135.
Proof.
  intros Hv Hc. assert (c = 0 \/ c = 1) as [-> | ->] by lia; cbn [Z.eqb].
  - rewrite Z.mul_0_l, Z.add_0_l, (proj2 (Z.ltb_lt _ _)) by lia. done.
  - rewrite (proj2 (Z.ltb_ge _ _)) by lia. pose proof (add_lxor 1 135 128) as H2.
    rewrite Z.mul_1_l in *. rewrite H2 by lia. pose proof (add_lxor 1 v 128) as H1. rewrite Z.mul_1_l in H1.
    rewrite H1 by lia. rewrite (Z.lxor_comm (2 ^ 128) v), Z.lxor_assoc.
    rewrite <- (Z.lxor_assoc (2 ^ 128) (2 ^ 128)), Z.lxor_nilpotent, Z.lxor_0_l. done.
Qed.

Lemma cmac_double_spec l : sized 16 l -> cmac_double l = Ret (dbl l).
Proof.
  intros [Hl Hb]. unfold cmac_double. rewrite ldn_spec by lia. rewrite drop_0, take_ge by lia. cbn [obind].
  pose proof (double_loop l Hb) as Hd.
  destruct (foldr double_step (0, []) l) as [c out]. cbn [fst snd] in *. destruct Hd as (E & Hc & Hol & Hob).
  rewrite Hl in *. change (8 * 16) with 128 in E. unfold dbl, gf_double. rewrite E.
  pose proof (be_dec_bound out Hob) as Hbd. rewrite Hol in Hbd. change (8 * 16) with 128 in Hbd.
  rewrite gf_reduce by done. destruct (Z.eqb_spec c 0) as [->|Hne]; cbn [negb].
  { f_equal. by apply be_enc_of. }
  destruct out as [|b0 out] using rev_ind; [simpl in Hol; lia|clear IHout]. rewrite length_app in Hol. simpl in Hol.
  apply Forall_app in Hob as [Hob Hb0]. apply Forall_cons in Hb0 as [Hb0 _]. unfold is_byte in Hb0.
  assert (15 = zlen out) as -> by lia. rewrite ld_middle. cbn [obind]. rewrite st1_middle. f_equal.
  pose proof (lxor_bound b0 135 8) as Hx. apply be_enc_of.
  - split; [rewrite length_app; simpl; lia|]. apply Forall_app. split; [done|]. constructor; [|done]. unfold is_byte. lia.
  - rewrite !be_dec_snoc. rewrite (Z.mul_comm 256). change 256 with (2 ^ 8).
    rewrite !add_lxor by lia. by rewrite Z.lxor_assoc.
Qed.

Lemma dbl_sized b : sized 16 (dbl b).
Proof. unfold dbl. split; [by rewrite be_enc_length|apply be_enc_bytes]. Qed.

(** ** Lemmas: running the toolbox *)

(** What a port's functions may do besides returning: fail, and change the
    state of the port as [evolves] says. *)
Record mode (K : Type) : Type := { may_fail : bool; evolves : K -> K -> Prop; evolves_preorder : PreOrder evolves }.
Arguments may_fail {K} _.
Arguments evolves {K} _ _ _.
#[global] Existing Instance evolves_preorder.

(** From every state of the port [m] returns [a], or fails where it may. *)
Definition gives {K A} (md : mode K) (m : M K A) (a : A) : Prop := forall s, exists o s',
  m s = (o, s') /\ evolves md s s' /\ (o = Ret a \/ may_fail md = true /\ exists e, o = Fail e).

Lemma gives_ret {K A} md (a : A) : gives (K := K) md (ret a) a.
Proof. intros s. exists (Ret a), s. split; [done|]. split; [done|by left]. Qed.
Lemma gives_lift {K A} md (o : outcome A) a : o = Ret a -> gives (K := K) md (lift o) a.
Proof. intros ->. apply gives_ret. Qed.
Lemma gives_bind {K A B} md (m : M K A) (k : A -> M K B) a b : gives md m a -> gives md (k a) b -> gives md (bind m k) b.
Proof.
  intros Hm Hk s. destruct (Hm s) as (o & s' & E & Hs & [->|(Hf & e & ->)]); unfold bind; rewrite E.
  - destruct (Hk s') as (o & s'' & E' & Hs' & Ho). exists o, s''. split; [done|]. split; [by trans s'|done].
  - exists (Fail e), s'. split; [done|]. split; [done|]. right. eauto.
Qed.

(** The port's cipher computes [E]. *)
Definition computes {K} (md : mode K) (encrypt : bt_smp_aes128_fn K) (E : list Z -> list Z -> list Z) : Prop :=
  forall key block, sized 16 key -> sized 16 block -> gives md (encrypt key block) (E key block) /\ sized 16 (E key block).

(** *** Blocks *)

Lemma xor_bytes_length a b : length a = length b -> length (xor_bytes a b) = length a.
Proof. intros. unfold xor_bytes. rewrite length_zip_with. lia. Qed.

Lemma xor_byte a b : is_byte a -> is_byte b -> is_byte (Z.lxor a b).
Proof. unfold is_byte. intros. apply lxor_bound; lia. Qed.

Lemma xor_bytes_bytes a b : bytes a -> bytes b -> bytes (xor_bytes a b).
Proof.
  intros Ha. revert b. induction Ha as [|x a Hx Ha IH]; intros b Hb; [constructor|].
  destruct Hb as [|y b Hy Hb]; [constructor|]. constructor; [by apply xor_byte|by apply IH].
Qed.

Lemma xor_sized n a b : sized n a -> sized n b -> sized n (xor_bytes a b).
Proof. intros [Ha Hab] [Hb Hbb]. split; [rewrite xor_bytes_length by lia; done|by apply xor_bytes_bytes]. Qed.

Lemma sized_app n m a b : sized n a -> sized m b -> sized (n + m) (a ++ b).
Proof. intros [Ha Hab] [Hb Hbb]. split; [rewrite length_app; lia|bys]. Qed.

Lemma sized_zeros n : sized (Z.of_nat n) (replicate n 0).
Proof. split; [by rewrite length_replicate|]. apply Forall_replicate. unfold is_byte. lia. Qed.

Lemma ldn_all {A} (l : list A) n : zlen l = n -> ldn l 0 n = Ret l.
Proof. intros <-. rewrite ldn_spec by lia. by rewrite drop_0, take_ge by lia. Qed.

Lemma xor_at_all a b : sized 16 a -> sized 16 b -> xor_at a 0 b 16 = Ret (xor_bytes a b).
Proof.
  intros [Ha Hab] [Hb Hbb]. unfold xor_at. rewrite !ldn_all by done. cbn [obind].
  pose proof (xor_bytes_length a b ltac:(lia)) as Hl. unfold xor_bytes in *. rewrite stn_spec by lia. f_equal.
  pose proof (splice_mid [] a [] (zip_with Z.lxor a b) Hl) as Hs. rewrite !app_nil_r in Hs. exact Hs.
Qed.

Lemma cut_fuel_spec n : forall message, bytes message -> (length message <= n)%nat ->
  cut message (cut_fuel n message).1 (cut_fuel n message).2.
Proof.
  induction n as [|n IH]; intros message Hb Hn.
  { destruct message; [|simpl in Hn; lia]. split; [done|]. split; [constructor|]. split; [simpl; lia|done]. }
  cbn [cut_fuel]. destruct (decide (length message <= 16)%nat) as [Hl|Hl].
  { split; [done|]. split; [constructor|done]. }
  specialize (IH (drop 16 message) ltac:(bys) ltac:(zlist)).
  destruct (cut_fuel n (drop 16 message)) as [blocks last]. cbn [fst snd] in *. destruct IH as (E & Hbs & Hll & Hn').
  split; [|split; [constructor; [split; [zlist|bys]|done]|split; [done|]]].
  - change (mjoin (?a :: ?l)) with (a ++ mjoin l). rewrite <- app_assoc, <- E. by rewrite take_drop.
  - intros ->. rewrite (Hn' eq_refl) in E. apply (f_equal length) in E. rewrite length_drop in E. simpl in E. lia.
Qed.

(** *** CMAC *)

Section Cmac.
  Context {K : Type} (md : mode K) (encrypt : bt_smp_aes128_fn K) (E : list Z -> list Z -> list Z).
  Hypothesis Henc : computes md encrypt E.

Lemma cmac_loop_spec key blocks : sized 16 key -> Forall (sized 16) blocks -> forall pre post x, sized 16 x ->
  gives md (cmac_loop encrypt key (pre ++ mjoin blocks ++ post) (zlen pre) x (length blocks))
    (foldl (fun c b => E key (xor_bytes c b)) x blocks) /\
  sized 16 (foldl (fun c b => E key (xor_bytes c b)) x blocks).
Proof.
  intros Hk. induction 1 as [|b blocks Hb Hbs IH]; intros pre post x Hx.
  { split; [apply gives_ret|done]. }
  cbn [length cmac_loop foldl]. destruct (Henc key (xor_bytes x b)) as [Hg Hs]; [done|by apply xor_sized|].
  specialize (IH (pre ++ b) post _ Hs). destruct IH as [IH1 IH2]. split; [|done].
  change (mjoin (b :: blocks)) with (b ++ mjoin blocks). rewrite <- app_assoc.
  eapply gives_bind; [apply gives_lift; replace 16 with (zlen b) by (by destruct Hb); apply ldn_mid|].
  eapply gives_bind; [by apply gives_lift, xor_at_all|]. eapply gives_bind; [apply Hg|].
  rewrite length_app, Nat2Z.inj_add, <- app_assoc in IH1. destruct Hb as [Hb _]. rewrite Hb in IH1. apply IH1.
Qed.

Lemma last_padded last : bytes last -> (length last < 16)%nat ->
  (let? block := stn (replicate 16 0) 0 last in st1 block (zlen last) 128) =
  Ret (last ++ [128] ++ replicate (15 - length last) 0) /\
  sized 16 (last ++ [128] ++ replicate (15 - length last) 0).
Proof.
  intros Hb Hl. replace (replicate 16 0) with (replicate (length last) 0 ++ 0 :: replicate (15 - length last) 0)
    by (change (0 :: ?l) with ([0] ++ l); change [0] with (replicate 1 0); rewrite <- !replicate_add; f_equal; lia).
  split.
  - rewrite stn_spec by (rewrite ?length_app, ?length_replicate; simpl; rewrite ?length_replicate; lia). cbn [obind].
    pose proof (splice_mid [] (replicate (length last) 0) (0 :: replicate (15 - length last) 0) last) as Hs.
    cbn [app] in Hs. change (zlen []) with 0 in Hs. rewrite Hs by (by rewrite length_replicate).
    apply st1_middle.
  - replace 16 with (zlen last + (1 + Z.of_nat (15 - length last))) by lia.
    apply sized_app; [done|]. apply sized_app; [split; [done|bys]|apply sized_zeros].
Qed.

Lemma last_block_spec pre last key x : sized 16 key -> bytes last -> (length last <= 16)%nat -> sized 16 x ->
  let k1 := dbl (E key (replicate 16 0)) in
  last_block (pre ++ last) (zlen pre) (zlen last) k1 (dbl k1) x = Ret (xor_bytes (cmac_last E key last) x) /\
  sized 16 (xor_bytes (cmac_last E key last) x).
Proof.
  intros Hk Hb Hl Hx k1. unfold last_block, cmac_last. fold k1.
  pose proof (ldn_mid pre last []) as Hm. rewrite app_nil_r in Hm. rewrite Hm. cbn [obind].
  pose proof (dbl_sized (E key (replicate 16 0))) as H1. pose proof (dbl_sized k1) as H2. fold k1 in H1.
  destruct (decide (length last = 16%nat)) as [E'|E'].
  - rewrite (proj2 (Z.eqb_eq _ _)) by lia. assert (sized 16 last) as Hs by (split; [lia|done]).
    rewrite xor_at_all by done. cbn [obind]. pose proof (xor_sized _ _ _ Hs H1) as Hxs.
    split; [by apply xor_at_all|by apply xor_sized].
  - rewrite (proj2 (Z.eqb_neq _ _)) by lia. destruct (last_padded last) as [Hp Hs]; [done|lia|].
    destruct (stn (replicate 16 0) 0 last); cbn [obind] in *; [|done|done].
    rewrite Hp. cbn [obind]. rewrite xor_at_all by done. cbn [obind]. pose proof (xor_sized _ _ _ Hs H2) as Hxs.
    split; [by apply xor_at_all|by apply xor_sized].
Qed.

Lemma mjoin_sized blocks : Forall (sized 16) blocks -> zlen (mjoin blocks) = 16 * zlen blocks /\ bytes (mjoin blocks).
Proof.
  induction 1 as [|b blocks [Hb Hbb] _ [IH1 IH2]]; [done|]. change (mjoin (b :: blocks)) with (b ++ mjoin blocks).
  rewrite length_app. split; [simpl length; lia|bys].
Qed.

Lemma cmac_spec key message blocks last : sized 16 key -> bytes message -> cut message blocks last ->
  gives md (bt_smp_cmac_aes128_calculate (Some {| ca_aes := {| ae_encrypt := Some encrypt |} |}) (Some key) (Some message)
    (zlen message)) (cmac E key blocks last) /\ sized 16 (cmac E key blocks last).
Proof.
  intros Hk Hm (-> & Hbs & Hl & Hnil). apply Forall_app in Hm as [_ Hlb].
  destruct (mjoin_sized blocks Hbs) as [Hj _]. pose proof (sized_zeros 16) as Hz.
  destruct (Henc key (replicate 16 0) Hk Hz) as [Hg0 Hs0].
  destruct (cmac_loop_spec key blocks Hk Hbs [] last _ Hz) as [Hgl Hsl].
  destruct (last_block_spec (mjoin blocks) last key _ Hk Hlb Hl Hsl) as [Hlast Hls].
  destruct (Henc key _ Hk Hls) as [Hge Hse]. split; [|done].
  assert ((if zlen (mjoin blocks ++ last) =? 0 then 1 else (zlen (mjoin blocks ++ last) + 15) / 16) = zlen blocks + 1) as Hn.
  { rewrite length_app, Nat2Z.inj_add, Hj. destruct last as [|y last].
    - rewrite (Hnil eq_refl). done.
    - simpl length in *. rewrite (proj2 (Z.eqb_neq _ _)) by lia. dlia. }
  unfold bt_smp_cmac_aes128_calculate. do 3 (eapply gives_bind; [apply gives_ret|]).
  eapply gives_bind; [apply Hg0|]. eapply gives_bind; [by apply gives_lift, cmac_double_spec|].
  eapply gives_bind; [apply gives_lift, cmac_double_spec, dbl_sized|]. cbv zeta. rewrite Hn.
  replace (zlen blocks + 1 - 1) with (zlen blocks) by lia. rewrite Nat2Z.id.
  eapply gives_bind; [apply Hgl|]. replace (zlen blocks * 16) with (zlen (mjoin blocks)) by lia.
  replace (zlen (mjoin blocks ++ last) - zlen (mjoin blocks)) with (zlen last) by (rewrite length_app; lia).
  eapply gives_bind; [apply gives_lift, Hlast|]. apply Hge.
Qed.

(** The CMAC on top of the port's cipher. *)
Definition on_aes : bt_smp_aes_cmac K :=
  {| ac_calculate := Some (bt_smp_cmac_aes128_calculate
       (Some (bt_smp_cmac_aes128_init {| ae_encrypt := Some encrypt |}))) |}.

Lemma aes_cmac_spec key message : sized 16 key -> bytes message ->
  gives md (bt_smp_cmac_aes128_calculate (Some {| ca_aes := {| ae_encrypt := Some encrypt |} |}) (Some key) (Some message)
    (zlen message)) (aes_cmac E key message) /\ sized 16 (aes_cmac E key message).
Proof. intros Hk Hm. apply cmac_spec; [done|done|]. by apply cut_fuel_spec. Qed.
End Cmac.

(** *** The toolbox *)

(** What a CMAC provider computes. *)
Definition cmac_computes {K} (md : mode K) (calculate : bt_smp_aes_cmac_fn K) (C : list Z -> list Z -> list Z) : Prop :=
  forall key message, sized 16 key -> bytes message ->
  gives md (calculate (Some key) (Some message) (zlen message)) (C key message) /\ sized 16 (C key message).

Lemma pieces_spec l : Forall (fun p => zlen p.1 = p.2) l -> pieces l = Ret (mjoin (l.*1)).
Proof.
  induction 1 as [|[s n] l E _ IH]; [done|]. cbn [pieces fst snd] in *. rewrite ldn_all by done.
  cbn [obind]. rewrite IH. done.
Qed.

Lemma copy_at_spec pre old post s n : zlen s = n -> length old = length s ->
  copy_at (pre ++ old ++ post) (zlen pre) s n = Ret (pre ++ s ++ post).
Proof.
  intros Hs Hl. unfold copy_at. rewrite ldn_all by done. cbn [obind].
  rewrite stn_spec by (rewrite ?length_app; lia). by rewrite splice_mid.
Qed.

Lemma xor_at_spec pre old post s n : zlen s = n -> length old = length s ->
  xor_at (pre ++ old ++ post) (zlen pre) s n = Ret (pre ++ xor_bytes old s ++ post).
Proof.
  intros Hs Hl. unfold xor_at. rewrite ldn_all by done. cbn [obind]. rewrite <- Hs.
  replace (zlen s) with (zlen old) by lia. rewrite ldn_mid. cbn [obind].
  pose proof (xor_bytes_length old s Hl) as Hx. unfold xor_bytes in *.
  rewrite stn_spec by (rewrite ?length_app; lia). by rewrite splice_mid.
Qed.

(** The elements of a list of known length. *)
Ltac explode l :=
  let x := fresh "x" in destruct l as [|x l]; [simpl in *; lia|];
  first [ (assert (l = []) as -> by (apply nil_length_inv; simpl in *; lia)) | explode l ].

Lemma c1_block1 pres preq random rat iat : zlen pres = 7 -> zlen preq = 7 -> zlen random = 16 ->
  (let? block := copy_at (replicate 16 0) 0 pres 7 in
   let? block := copy_at block 7 preq 7 in
   let? block := st1 block 14 rat in
   let? block := st1 block 15 iat in
   xor_at block 0 random 16) = Ret (xor_bytes (pres ++ preq ++ [rat; iat]) random).
Proof. intros Hp Hq Hr. explode pres. explode preq. explode random. reflexivity. Qed.

Lemma c1_block2 e ia ra : sized 16 e -> zlen ia = 6 -> zlen ra = 6 ->
  (let? block := ldn e 0 16 in
   let? block := xor_at block 4 ia 6 in
   xor_at block 10 ra 6) = Ret (xor_bytes e (replicate 4 0 ++ ia ++ ra)).
Proof.
  intros [He _] Hi Hr. explode e. explode ia. explode ra.
  transitivity (Ret ([x; x0; x1; x2] ++ xor_bytes [x3; x4; x5; x6; x7; x8] [x15; x16; x17; x18; x19; x20] ++
    xor_bytes [x9; x10; x11; x12; x13; x14] [x21; x22; x23; x24; x25; x26])); [reflexivity|].
  f_equal. unfold xor_bytes. cbn [replicate app zip_with]. by rewrite !Z.lxor_0_r.
Qed.

Lemma s1_block r1 r2 : zlen r1 = 16 -> zlen r2 = 16 ->
  (let? a := ldn r1 8 8 in
   let? b := ldn r2 8 8 in
   let? block := stn (replicate 16 0) 0 a in
   stn block 8 b) = Ret (drop 8 r1 ++ drop 8 r2).
Proof. intros H1 H2. explode r1. explode r2. reflexivity. Qed.

Lemma sized_st1 n b v : sized n b -> is_byte v -> forall i, 0 <= i < n -> exists b', st1 b i v = Ret b' /\ sized n b'.
Proof.
  intros [Hb Hbb] Hv i Hi. exists (splice b i [v]). unfold st1. rewrite stn_spec by (simpl; lia). split; [done|].
  split; [rewrite splice_length; simpl; lia|]. apply splice_bytes; [done|bys].
Qed.

Lemma g2_value mac : sized 16 mac ->
  (let? b12 := ld mac 12 in
   let? b13 := ld mac 13 in
   let? b14 := ld mac 14 in
   let? b15 := ld mac 15 in
   Ret (Z.lor (Z.lor (Z.lor (u32 (Z.shiftl b12 24)) (Z.shiftl b13 16)) (Z.shiftl b14 8)) b15)) =
  Ret (be_dec (drop 12 mac)).
Proof.
  intros [Hm Hb]. explode mac.
  repeat match goal with H : Forall _ (_ :: _) |- _ => apply Forall_cons in H as [] end. unfold is_byte in *.
  transitivity (Ret (A := Z) (Z.lor (Z.lor (Z.lor (u32 (Z.shiftl x11 24)) (Z.shiftl x12 16)) (Z.shiftl x13 8)) x14)); [reflexivity|].
  f_equal. rewrite (Z.shiftl_mul_pow2 x11), u32_small by lia.
  rewrite <- (Z.shiftl_mul_pow2 x11) by lia. rewrite <- !Z.lor_assoc.
  rewrite (Z.lor_comm (Z.shiftl x13 8)), (lor_shiftl x14) by lia.
  rewrite (Z.lor_comm (Z.shiftl x12 16)), (lor_shiftl _ x12) by lia.
  rewrite (Z.lor_comm (Z.shiftl x11 24)), (lor_shiftl _ x11) by lia. cbv [be_dec drop reverse rev_append le_dec]. lia.
Qed.

(** Run the argument checks, then the pieces. *)
Ltac args := repeat (eapply gives_bind; [apply gives_ret|]).
Ltac message_pieces := eapply gives_bind;
  [apply gives_lift, pieces_spec; repeat apply Forall_cons_2; try apply Forall_nil_2;
   cbn [fst snd]; first [reflexivity | by apply proj1 | lia | idtac] |cbn [fmap list_fmap fst]].

Section Toolbox.
  Context {K : Type} (md : mode K) (encrypt : bt_smp_aes128_fn K) (E : list Z -> list Z -> list Z).
  Context (calculate : bt_smp_aes_cmac_fn K) (C : list Z -> list Z -> list Z).
  Hypothesis (Henc : computes md encrypt E) (Hcalc : cmac_computes md calculate C).
Let aes : option (bt_smp_aes128 K) := Some {| ae_encrypt := Some encrypt |}.
Let cmac_ : option (bt_smp_aes_cmac K) := Some {| ac_calculate := Some calculate |}.

Lemma ah_spec irk prand : sized 16 irk -> sized 3 prand ->
  gives md (bt_smp_crypto_ah aes (Some irk) (Some prand)) (drop 13 (E irk (replicate 13 0 ++ prand))).
Proof.
  intros Hi [Hp Hpb]. unfold bt_smp_crypto_ah. args.
  pose proof (copy_at_spec (replicate 13 0) (replicate 3 0) [] prand 3 Hp ltac:(simpl; lia)) as Hc.
  rewrite !app_nil_r in Hc. eapply gives_bind; [by apply gives_lift|].
  assert (sized 16 (replicate 13 0 ++ prand)) as Hs by (apply (sized_app 13 3); [apply (sized_zeros 13)|done]).
  destruct (Henc irk _ Hi Hs) as [Hg [Hl _]]. eapply gives_bind; [apply Hg|]. apply gives_lift.
  rewrite ldn_spec by lia. f_equal. apply take_ge. rewrite length_drop. lia.
Qed.

Lemma c1_spec key random preq pres iat rat ia ra : sized 16 key -> sized 16 random -> sized 7 preq -> sized 7 pres ->
  0 <= iat <= 1 -> 0 <= rat <= 1 -> sized 6 ia -> sized 6 ra ->
  gives md (bt_smp_crypto_c1 aes (Some key) (Some random) (Some preq) (Some pres) iat rat (Some ia) (Some ra))
    (E key (xor_bytes (E key (xor_bytes (pres ++ preq ++ [rat; iat]) random)) (replicate 4 0 ++ ia ++ ra))) /\
  sized 16 (E key (xor_bytes (E key (xor_bytes (pres ++ preq ++ [rat; iat]) random)) (replicate 4 0 ++ ia ++ ra))).
Proof.
  intros Hk Hr Hq Hp Hit Hrt Hi Ha.
  assert (sized 16 (pres ++ preq ++ [rat; iat])) as H1.
  { apply (sized_app 7 9); [done|]. apply (sized_app 7 2); [done|]. split; [done|bys]. }
  assert (sized 16 (replicate 4 0 ++ ia ++ ra)) as H2.
  { apply (sized_app 4 12); [apply (sized_zeros 4)|]. by apply (sized_app 6 6). }
  destruct (Henc key _ Hk (xor_sized _ _ _ H1 Hr)) as [Hg1 Hs1].
  destruct (Henc key _ Hk (xor_sized _ _ _ Hs1 H2)) as [Hg2 Hs2]. split; [|done].
  unfold bt_smp_crypto_c1. args. rewrite !Z.gtb_ltb, !(proj2 (Z.ltb_ge _ _)) by lia. cbn [orb].
  destruct Hr, Hq, Hp, Hi, Ha.
  eapply gives_bind; [by apply gives_lift, c1_block1|]. eapply gives_bind; [apply Hg1|].
  eapply gives_bind; [by apply gives_lift, c1_block2|]. apply Hg2.
Qed.

Lemma s1_spec key r1 r2 : sized 16 key -> sized 16 r1 -> sized 16 r2 ->
  gives md (bt_smp_crypto_s1 aes (Some key) (Some r1) (Some r2)) (E key (drop 8 r1 ++ drop 8 r2)) /\
  sized 16 (E key (drop 8 r1 ++ drop 8 r2)).
Proof.
  intros Hk [H1 H1b] [H2 H2b]. unfold bt_smp_crypto_s1. destruct (Henc key (drop 8 r1 ++ drop 8 r2) Hk) as [Hg Hs].
  { apply (sized_app 8 8); (split; [zlist|bys]). }
  split; [|done]. args. eapply gives_bind; [by apply gives_lift, s1_block|]. apply Hg.
Qed.

Lemma calculate_spec key message n : sized 16 key -> sized n message ->
  gives md (calculate (Some key) (Some message) n) (C key message) /\ sized 16 (C key message).
Proof. intros Hk [<- Hb]. by apply Hcalc. Qed.

Lemma f4_spec u v x z : sized 32 u -> sized 32 v -> sized 16 x -> is_byte z ->
  gives md (bt_smp_crypto_f4 cmac_ (Some u) (Some v) (Some x) z) (C x (u ++ v ++ [z])) /\ sized 16 (C x (u ++ v ++ [z])).
Proof.
  intros Hu Hv Hx Hz. destruct (calculate_spec x (u ++ v ++ [z]) 65 Hx) as [Hg Hs].
  { apply (sized_app 32 33); [done|]. apply (sized_app 32 1); [done|]. split; [done|bys]. }
  split; [|done]. unfold bt_smp_crypto_f4. args. message_pieces; [apply Hu|apply Hv|]. apply Hg.
Qed.

Definition f5_message (counter : Z) (n1 n2 a1 a2 : list Z) : list Z :=
  [counter] ++ [98; 116; 108; 101] ++ n1 ++ n2 ++ a1 ++ a2 ++ [1; 0].

Lemma f5_sized c n1 n2 a1 a2 : is_byte c -> sized 16 n1 -> sized 16 n2 -> sized 7 a1 -> sized 7 a2 ->
  sized 53 (f5_message c n1 n2 a1 a2).
Proof.
  intros Hc H1 H2 H3 H4. unfold f5_message. apply (sized_app 1 52); [split; [done|bys]|].
  apply (sized_app 4 48); [split; [done|bys]|]. apply (sized_app 16 32); [done|]. apply (sized_app 16 16); [done|].
  apply (sized_app 7 9); [done|]. apply (sized_app 7 2); [done|]. split; [done|bys].
Qed.

Lemma f5_spec w n1 n2 a1 a2 : sized 32 w -> sized 16 n1 -> sized 16 n2 -> sized 7 a1 -> sized 7 a2 ->
  let t := C f5_salt w in
  gives md (bt_smp_crypto_f5 cmac_ (Some w) (Some n1) (Some n2) (Some a1) (Some a2))
    (C t (f5_message 0 n1 n2 a1 a2), C t (f5_message 1 n1 n2 a1 a2)) /\
  sized 16 (C t (f5_message 0 n1 n2 a1 a2)) /\ sized 16 (C t (f5_message 1 n1 n2 a1 a2)).
Proof.
  intros Hw H1 H2 H3 H4 t. destruct (calculate_spec f5_salt w 32) as [Hgt Hst]; [split; [done|concrete_bytes]|done|].
  fold t in Hgt, Hst.
  destruct (calculate_spec t _ 53 Hst (f5_sized 0 n1 n2 a1 a2 ltac:(done) H1 H2 H3 H4)) as [Hg0 Hs0].
  destruct (calculate_spec t _ 53 Hst (f5_sized 1 n1 n2 a1 a2 ltac:(done) H1 H2 H3 H4)) as [Hg1 Hs1].
  split; [|done]. unfold bt_smp_crypto_f5. args. eapply gives_bind; [apply Hgt|].
  message_pieces; [apply H1|apply H2|apply H3|apply H4|]. eapply gives_bind; [apply Hg0|].
  eapply gives_bind; [apply gives_lift; apply (st1_middle [] 0 _ 1)|]. eapply gives_bind; [apply Hg1|].
  apply gives_ret.
Qed.

Lemma f6_spec w n1 n2 r io a1 a2 : sized 16 w -> sized 16 n1 -> sized 16 n2 -> sized 16 r -> sized 3 io ->
  sized 7 a1 -> sized 7 a2 ->
  gives md (bt_smp_crypto_f6 cmac_ (Some w) (Some n1) (Some n2) (Some r) (Some io) (Some a1) (Some a2))
    (C w (n1 ++ n2 ++ r ++ io ++ a1 ++ a2)) /\ sized 16 (C w (n1 ++ n2 ++ r ++ io ++ a1 ++ a2)).
Proof.
  intros Hw H1 H2 Hr Hio H3 H4. destruct (calculate_spec w (n1 ++ n2 ++ r ++ io ++ a1 ++ a2) 65 Hw) as [Hg Hs].
  { apply (sized_app 16 49); [done|]. apply (sized_app 16 33); [done|]. apply (sized_app 16 17); [done|].
    apply (sized_app 3 14); [done|]. by apply (sized_app 7 7). }
  split; [|done]. unfold bt_smp_crypto_f6. args.
  message_pieces; [apply H1|apply H2|apply Hr|apply Hio|apply H3|apply H4|].
  cbn [mjoin list_join]. rewrite app_nil_r. apply Hg.
Qed.

Lemma g2_spec u v x y : sized 32 u -> sized 32 v -> sized 16 x -> sized 16 y ->
  gives md (bt_smp_crypto_g2 cmac_ (Some u) (Some v) (Some x) (Some y)) (be_dec (drop 12 (C x (u ++ v ++ y)))).
Proof.
  intros Hu Hv Hx Hy. destruct (calculate_spec x (u ++ v ++ y) 80 Hx) as [Hg Hs].
  { apply (sized_app 32 48); [done|]. by apply (sized_app 32 16). }
  unfold bt_smp_crypto_g2. args. message_pieces; [apply Hu|apply Hv|apply Hy|].
  cbn [mjoin list_join]. rewrite app_nil_r. eapply gives_bind; [apply Hg|]. by apply gives_lift, g2_value.
Qed.

Lemma h6_spec w key_id : sized 16 w -> sized 4 key_id -> gives md (bt_smp_crypto_h6 cmac_ (Some w) (Some key_id)) (C w key_id).
Proof. intros Hw Hi. unfold bt_smp_crypto_h6. args. by apply calculate_spec. Qed.

Lemma h7_spec salt w : sized 16 salt -> sized 16 w -> gives md (bt_smp_crypto_h7 cmac_ (Some salt) (Some w)) (C salt w).
Proof. intros Hs Hw. unfold bt_smp_crypto_h7. args. by apply calculate_spec. Qed.
End Toolbox.

(** *** Negotiation *)

Lemma features_valid_spec f : bytes (feature_bytes f) -> features_valid f = true <-> features_ok f.
Proof. exact (Smp.features_valid f). Qed.

Lemma flag_testbit x n : 0 <= n -> flag x (2 ^ n) = Z.testbit x n.
Proof.
  intros Hn. unfold flag. assert (Z.land x (2 ^ n) = if Z.testbit x n then 2 ^ n else 0) as ->.
  { apply Z.bits_inj'. intros i Hi. rewrite Z.land_spec, Z.pow2_bits_eqb by done.
    destruct (Z.eqb_spec n i) as [<-|Hne]; rewrite ?andb_true_r, ?andb_false_r; destruct (Z.testbit x n) eqn:E;
      rewrite ?Z.bits_0, ?Z.pow2_bits_eqb by done; rewrite ?Z.eqb_refl; try done.
    by rewrite (proj2 (Z.eqb_neq n i)). }
  destruct (Z.testbit x n); cbn [negb]; [|done]. by rewrite (proj2 (Z.eqb_neq _ _)) by (apply Z.pow_nonzero; lia).
Qed.

(** [x] has no flag that [y] has not. *)
Lemma flag_subset x y : flag x (Z.lnot y) = false <-> Z.land x y = x.
Proof.
  unfold flag. rewrite negb_false_iff, Z.eqb_eq. split; intros E; apply Z.bits_inj'; intros i Hi;
    apply (f_equal (fun z => Z.testbit z i)) in E; rewrite !Z.land_spec, ?Z.lnot_spec, ?Z.bits_0 in * by done;
    destruct (Z.testbit x i), (Z.testbit y i); done.
Qed.

(** The code's choice is Table 2.8's, but for a KeyboardDisplay device paired
    with a device that can display and not type, or, without Secure
    Connections, can display: those get Just Works. *)
Definition downgraded (initiator responder : Z) (secure_connections : bool) : bool :=
  let pair := [initiator; responder] in
  bool_decide (pair ∈ [[0; 4]; [4; 0]]) ||
  (negb secure_connections && bool_decide (pair ∈ [[1; 4]; [4; 1]; [4; 4]])).

Definition table_entry (initiator responder : Z) (secure_connections : bool) : option bt_smp_association_method :=
  row ← io_table secure_connections !! Z.to_nat initiator; row !! Z.to_nat responder.

Lemma io_association_table i r sc : 0 <= i <= 4 -> 0 <= r <= 4 ->
  Some (io_association i r sc) = if downgraded i r sc then Some BT_SMP_ASSOC_JUST_WORKS else table_entry i r sc.
Proof.
  intros Hi Hr. assert (i = 0 \/ i = 1 \/ i = 2 \/ i = 3 \/ i = 4) as Hi' by lia.
  assert (r = 0 \/ r = 1 \/ r = 2 \/ r = 3 \/ r = 4) as Hr' by lia.
  destruct_or! Hi'; destruct_or! Hr'; subst; destruct sc; vm_compute; reflexivity.
Qed.

(** ** Properties *)

(** C6.  The CMAC built on a block cipher is the CMAC of RFC 4493.  For any
    16-byte key and any message, over any port's cipher that computes [E] on
    blocks, and may fail if [md] allows it, the code returns the reference MAC,
    of 16 bytes, or fails as the cipher did: the message in 16-byte blocks, the
    last one padded and combined with the subkey obtained by one or two
    doublings in GF(2^128), chained through [E]. *)
Theorem cmac_is_rfc4493 : forall {K} (md : mode K) (encrypt : bt_smp_aes128_fn K) E key message,
  computes md encrypt E -> sized 16 key -> bytes message ->
  let r := cut_fuel (length message) message in
  cut message r.1 r.2 /\
  gives md (bt_smp_cmac_aes128_calculate (Some (bt_smp_cmac_aes128_init {| ae_encrypt := Some encrypt |}))
    (Some key) (Some message) (zlen message)) (cmac E key r.1 r.2) /\
  sized 16 (cmac E key r.1 r.2).
Proof.
  intros K md encrypt E key message Henc Hk Hm r. assert (cut message r.1 r.2) as Hc by (by apply cut_fuel_spec).
  split; [done|]. by apply cmac_spec.
Qed.

(** C26.  The key functions of Core Vol 3 Part H, over a cipher that computes
    [E] and a CMAC provider that computes [C]: ah, c1 and s1 of the legacy
    toolbox, f4, f5, f6, g2, h6 and h7 of Secure Connections return the value
    of their formula, from inputs of the sizes they have, or fail where the
    cipher or the CMAC did and [md] allows it. *)
Theorem smp_key_functions : forall {K} (md : mode K) (encrypt : bt_smp_aes128_fn K) E (calculate : bt_smp_aes_cmac_fn K) C,
  computes md encrypt E -> cmac_computes md calculate C ->
  let aes := Some {| ae_encrypt := Some encrypt |} in
  let cm := Some {| ac_calculate := Some calculate |} in
  (forall irk prand, sized 16 irk -> sized 3 prand ->
     gives md (bt_smp_crypto_ah aes (Some irk) (Some prand)) (drop 13 (E irk (replicate 13 0 ++ prand)))) /\
  (forall key random preq pres iat rat ia ra, sized 16 key -> sized 16 random -> sized 7 preq -> sized 7 pres ->
     0 <= iat <= 1 -> 0 <= rat <= 1 -> sized 6 ia -> sized 6 ra ->
     let p1 := pres ++ preq ++ [rat; iat] in
     let p2 := replicate 4 0 ++ ia ++ ra in
     gives md (bt_smp_crypto_c1 aes (Some key) (Some random) (Some preq) (Some pres) iat rat (Some ia) (Some ra))
       (E key (xor_bytes (E key (xor_bytes p1 random)) p2))) /\
  (forall key r1 r2, sized 16 key -> sized 16 r1 -> sized 16 r2 ->
     gives md (bt_smp_crypto_s1 aes (Some key) (Some r1) (Some r2)) (E key (drop 8 r1 ++ drop 8 r2))) /\
  (forall u v x z, sized 32 u -> sized 32 v -> sized 16 x -> is_byte z ->
     gives md (bt_smp_crypto_f4 cm (Some u) (Some v) (Some x) z) (C x (u ++ v ++ [z]))) /\
  (forall w n1 n2 a1 a2, sized 32 w -> sized 16 n1 -> sized 16 n2 -> sized 7 a1 -> sized 7 a2 ->
     let t := C f5_salt w in
     gives md (bt_smp_crypto_f5 cm (Some w) (Some n1) (Some n2) (Some a1) (Some a2))
       (C t (f5_message 0 n1 n2 a1 a2), C t (f5_message 1 n1 n2 a1 a2))) /\
  (forall w n1 n2 r io a1 a2, sized 16 w -> sized 16 n1 -> sized 16 n2 -> sized 16 r -> sized 3 io ->
     sized 7 a1 -> sized 7 a2 ->
     gives md (bt_smp_crypto_f6 cm (Some w) (Some n1) (Some n2) (Some r) (Some io) (Some a1) (Some a2))
       (C w (n1 ++ n2 ++ r ++ io ++ a1 ++ a2))) /\
  (forall u v x y, sized 32 u -> sized 32 v -> sized 16 x -> sized 16 y ->
     gives md (bt_smp_crypto_g2 cm (Some u) (Some v) (Some x) (Some y)) (be_dec (drop 12 (C x (u ++ v ++ y))))) /\
  (forall w id, sized 16 w -> sized 4 id -> gives md (bt_smp_crypto_h6 cm (Some w) (Some id)) (C w id)) /\
  (forall salt w, sized 16 salt -> sized 16 w -> gives md (bt_smp_crypto_h7 cm (Some salt) (Some w)) (C salt w)).
Proof.
  intros K md encrypt E calculate C Henc Hcalc aes cm.
  split; [by apply ah_spec|]. split; [intros; by apply c1_spec|]. split; [intros; by apply s1_spec|].
  split; [intros; by apply f4_spec|]. split; [intros; by apply f5_spec|]. split; [intros; by apply f6_spec|].
  split; [intros; by apply g2_spec|]. split; [by apply h6_spec|by apply h7_spec].
Qed.

(** C28.  Pairing negotiation.  Features of bytes are accepted exactly when
    both are valid and the response adds no key to the request's; then Secure
    Connections and bonding are what both ask for, MITM protection what either
    asks for, the key size the smaller one, between 7 and 16, the keys those
    of the response, and the association model OOB when the data is there,
    Just Works without MITM protection, and else the entry of Table 2.8,
    except for the downgraded pairs with a KeyboardDisplay device. *)
Theorem smp_negotiation : forall request response, bytes (feature_bytes request) -> bytes (feature_bytes response) ->
  let added := ~ (Z.land (pf_initiator_key_distribution response) (pf_initiator_key_distribution request) =
                    pf_initiator_key_distribution response /\
                  Z.land (pf_responder_key_distribution response) (pf_responder_key_distribution request) =
                    pf_responder_key_distribution response) in
  (~ features_ok request \/ ~ features_ok response \/ added ->
     bt_smp_negotiate_pairing (Some request) (Some response) = Fail BT_ERR_INVALID_ARGUMENT) /\
  (features_ok request -> features_ok response -> ~ added -> exists n,
     bt_smp_negotiate_pairing (Some request) (Some response) = Ret n /\
     let both i := Z.testbit (pf_auth_req request) i && Z.testbit (pf_auth_req response) i in
     pn_secure_connections n = both 3 /\ pn_bonding n = both 0 /\
     pn_mitm_requested n = Z.testbit (pf_auth_req request) 2 || Z.testbit (pf_auth_req response) 2 /\
     pn_encryption_key_size n = Z.min (pf_max_encryption_key_size request) (pf_max_encryption_key_size response) /\
     7 <= pn_encryption_key_size n <= 16 /\
     pn_initiator_key_distribution n = pf_initiator_key_distribution response /\
     pn_responder_key_distribution n = pf_responder_key_distribution response /\
     let rq := pf_oob_data_flag request =? 1 in
     let rs := pf_oob_data_flag response =? 1 in
     Some (pn_association n) =
       if (if pn_secure_connections n then rq || rs else rq && rs) then Some BT_SMP_ASSOC_OOB else
       if negb (pn_mitm_requested n) || downgraded (pf_io_capability request) (pf_io_capability response) (pn_secure_connections n)
       then Some BT_SMP_ASSOC_JUST_WORKS
       else table_entry (pf_io_capability request) (pf_io_capability response) (pn_secure_connections n)).
Proof.
  intros rq rs Hq Hs added. unfold bt_smp_negotiate_pairing, BT_SMP_AUTHREQ_SC, BT_SMP_AUTHREQ_BONDING, BT_SMP_AUTHREQ_MITM.
  pose proof (features_valid_spec rq Hq) as Vq. pose proof (features_valid_spec rs Hs) as Vs.
  pose proof (flag_subset (pf_initiator_key_distribution rs) (pf_initiator_key_distribution rq)) as F1.
  pose proof (flag_subset (pf_responder_key_distribution rs) (pf_responder_key_distribution rq)) as F2.
  destruct (features_valid rq), (features_valid rs); cbn [negb orb];
    try (split; [done|]; intros Oq Os; exfalso; intuition congruence).
  destruct (flag (pf_initiator_key_distribution rs) _), (flag (pf_responder_key_distribution rs) _); cbn [orb];
    try (split; [done|]; intros _ _ Hadd; exfalso; apply Hadd; unfold added; intuition congruence).
  split; [intros [H|[H|H]]; exfalso; [apply H; by apply Vq|apply H; by apply Vs|unfold added in H; intuition congruence]|].
  intros Oq Os _. eexists. split; [reflexivity|]. cbn [pn_secure_connections pn_bonding pn_mitm_requested
    pn_encryption_key_size pn_initiator_key_distribution pn_responder_key_distribution pn_association].
  change 8 with (2 ^ 3). change 4 with (2 ^ 2). change (flag _ 1) with (flag (Z.land (pf_auth_req rq) (pf_auth_req rs)) (2 ^ 0)).
  rewrite !flag_testbit, !Z.land_spec by done. destruct Oq as (Qi & Qo & _ & Qk & _), Os as (Si & So & _ & Sk & _).
  assert (forall x, 0 <= x <= 1 -> negb (x =? 0) = (x =? 1)) as Hoob by (intros; repeat zcase; lia).
  rewrite !Hoob by done. split; [done|]. split; [done|]. split; [done|]. split; [zcase; lia|].
  split; [zcase; lia|]. split; [done|]. split; [done|].
  destruct (Z.testbit (pf_auth_req rq) 3 && Z.testbit (pf_auth_req rs) 3); cbn [negb andb orb]; rewrite ?orb_false_r;
    (case_match; [done|]); destruct (Z.testbit _ 2 || Z.testbit _ 2); cbn [negb orb]; try done;
    by apply io_association_table.
Qed.

(** ** Witnesses *)

(** A toy cipher: the key added to the block. *)
Definition sure : mode unit :=
  {| may_fail := false; evolves := fun _ _ => True; evolves_preorder := ltac:(by split) |}.

Definition toy_encrypt : bt_smp_aes128_fn unit := fun key block => ret (xor_bytes key block).
Definition toy_calculate : bt_smp_aes_cmac_fn unit :=
  bt_smp_cmac_aes128_calculate (Some (bt_smp_cmac_aes128_init {| ae_encrypt := Some toy_encrypt |})).

Lemma toy_computes : computes sure toy_encrypt xor_bytes.
Proof. intros key block Hk Hb. split; [apply gives_ret|by apply xor_sized]. Qed.

Lemma toy_cmac : cmac_computes sure toy_calculate (aes_cmac xor_bytes).
Proof. intros key message Hk Hm. by apply (aes_cmac_spec sure toy_encrypt xor_bytes toy_computes). Qed.

Lemma cmac_is_rfc4493_witness : exists mac, sized 16 mac /\
  toy_calculate (Some (seqZ 0 16)) (Some (seqZ 100 20)) 20 tt = (Ret mac, tt).
Proof.
  assert (sized 16 (seqZ 0 16)) as Hk by (split; [reflexivity|concrete_bytes]).
  assert (bytes (seqZ 100 20)) as Hm by concrete_bytes.
  destruct (cmac_is_rfc4493 sure toy_encrypt xor_bytes (seqZ 0 16) (seqZ 100 20) toy_computes Hk Hm) as (_ & Hg & Hs).
  eexists. split; [exact Hs|]. destruct (Hg tt) as (o & [] & E & _ & [->|[F _]]); [exact E|discriminate F].
Defined.

Lemma smp_key_functions_witness : exists v,
  bt_smp_crypto_g2 (Some {| ac_calculate := Some toy_calculate |}) (Some (seqZ 0 32)) (Some (seqZ 32 32))
    (Some (seqZ 64 16)) (Some (seqZ 80 16)) tt = (Ret v, tt).
Proof.
  destruct (smp_key_functions sure toy_encrypt xor_bytes toy_calculate (aes_cmac xor_bytes) toy_computes toy_cmac)
    as (_ & _ & _ & _ & _ & _ & Hg & _).
  destruct (Hg (seqZ 0 32) (seqZ 32 32) (seqZ 64 16) (seqZ 80 16)
    ltac:(split; [reflexivity|concrete_bytes]) ltac:(split; [reflexivity|concrete_bytes])
    ltac:(split; [reflexivity|concrete_bytes]) ltac:(split; [reflexivity|concrete_bytes]) tt) as (o & [] & E & _ & [->|[F _]]); [|discriminate F].
  eexists. exact E.
Defined.

(** A keyboard asks a display for MITM protection over Secure Connections. *)
Lemma smp_negotiation_witness : exists n,
  bt_smp_negotiate_pairing
    (Some {| pf_io_capability := 1; pf_oob_data_flag := 0; pf_auth_req := 13; pf_max_encryption_key_size := 16;
             pf_initiator_key_distribution := 7; pf_responder_key_distribution := 7 |})
    (Some {| pf_io_capability := 4; pf_oob_data_flag := 0; pf_auth_req := 9; pf_max_encryption_key_size := 7;
             pf_initiator_key_distribution := 2; pf_responder_key_distribution := 3 |}) = Ret n /\
  pn_encryption_key_size n = 7 /\ pn_association n = BT_SMP_ASSOC_NUMERIC_COMPARISON.
Proof.
  destruct (smp_negotiation
    {| pf_io_capability := 1; pf_oob_data_flag := 0; pf_auth_req := 13; pf_max_encryption_key_size := 16;
       pf_initiator_key_distribution := 7; pf_responder_key_distribution := 7 |}
    {| pf_io_capability := 4; pf_oob_data_flag := 0; pf_auth_req := 9; pf_max_encryption_key_size := 7;
       pf_initiator_key_distribution := 2; pf_responder_key_distribution := 3 |}
    ltac:(concrete_bytes) ltac:(concrete_bytes)) as [_ H].
  destruct H as (n & E & _ & _ & _ & Hk & _ & _ & _ & Ha).
  - unfold features_ok. cbn. repeat split; lia.
  - unfold features_ok. cbn. repeat split; lia.
  - intros Hn. apply Hn. by vm_compute.
  - exists n. split; [exact E|]. split; [rewrite Hk; reflexivity|]. vm_compute in E. injection E as <-. reflexivity.
Defined.

(** KeyboardDisplay with DisplayOnly, MITM protection asked for: Table 2.8 has
    passkey entry. *)
Example mitm_request_downgraded :
  table_entry 4 0 true = Some BT_SMP_ASSOC_PASSKEY_RESPONDER_DISPLAYS /\
  io_association 4 0 true = BT_SMP_ASSOC_JUST_WORKS.
Proof. by vm_compute. Qed.

End SmpCrypto.
