(* ===== verification/SmpManager.v ===== *)
(** * SMP manager: core/security/smp_manager.c

    Pairing as the initiator: the exchange of features, the legacy confirm
    exchange or Secure Connections, the start of encryption and the
    distribution of keys.  The port's operations [ops] are programs: [send],
    [start_encryption] and the rest may call the manager again before they
    return.  The cipher and the CMAC are the port's, and may fail; where they or
    the random generator do, the array they were to fill is left as it was: the
    pairing fails, or computes it again before it reads it.  The context pointer
    of the port is its state [U], which the cipher shares.

    [w_trace] is a history variable: what was received from the peer, the port
    and the user, what was sent, and what was reported. *)

From Stdlib Require Import ZArith Lia.
From stdpp Require Import base list list_numbers.
From S2P Require Import Prelude Buffer Callbacks Smp SmpCrypto.

Module SmpManager.
Import Buffer Callbacks Smp SmpCrypto.

Definition BT_SMP_TIMEOUT_US : Z := 30000000.

Inductive bt_smp_manager_state : Set :=
| BT_SMP_STATE_IDLE
| BT_SMP_STATE_WAIT_PAIRING_RESPONSE
| BT_SMP_STATE_WAIT_LOCAL_PUBLIC_KEY
| BT_SMP_STATE_WAIT_PEER_PUBLIC_KEY
| BT_SMP_STATE_WAIT_DHKEY
| BT_SMP_STATE_WAIT_SC_CONFIRM
| BT_SMP_STATE_WAIT_SC_RANDOM
| BT_SMP_STATE_WAIT_NUMERIC_CONFIRMATION
| BT_SMP_STATE_WAIT_DHKEY_CHECK
| BT_SMP_STATE_WAIT_TK
| BT_SMP_STATE_WAIT_PAIRING_CONFIRM
| BT_SMP_STATE_WAIT_PAIRING_RANDOM
| BT_SMP_STATE_WAIT_ENCRYPTION
| BT_SMP_STATE_WAIT_KEY_DISTRIBUTION
| BT_SMP_STATE_COMPLETE
| BT_SMP_STATE_FAILED.

Inductive bt_smp_user_action : Set :=
| BT_SMP_USER_DISPLAY_PASSKEY
| BT_SMP_USER_REQUEST_PASSKEY
| BT_SMP_USER_REQUEST_OOB_TK
| BT_SMP_USER_CONFIRM_NUMERIC.

Inductive bt_smp_manager_result : Set :=
| BT_SMP_MANAGER_OK
| BT_SMP_MANAGER_ERROR_PROTOCOL
| BT_SMP_MANAGER_ERROR_CONFIRM
| BT_SMP_MANAGER_ERROR_TIMEOUT
| BT_SMP_MANAGER_ERROR_CRYPTO
| BT_SMP_MANAGER_ERROR_ENCRYPTION
| BT_SMP_MANAGER_ERROR_UNSUPPORTED.

#[global] Instance smp_state_eq_dec : EqDecision bt_smp_manager_state.
Proof. solve_decision. Defined.
#[global] Instance smp_result_eq_dec : EqDecision bt_smp_manager_result.
Proof. solve_decision. Defined.
#[global] Instance smp_action_eq_dec : EqDecision bt_smp_user_action.
Proof. solve_decision. Defined.

Record bt_smp_distributed_keys : Type := {
  dk_key_mask : Z;
  dk_ltk : list Z;
  dk_rand : list Z;
  dk_ediv : Z;
  dk_irk : list Z;
  dk_identity_address_type : Z;
  dk_identity_address : list Z;
  dk_csrk : list Z;
}.

Definition keys_eta (k : bt_smp_distributed_keys) : bt_smp_distributed_keys :=
  {| dk_key_mask := dk_key_mask k;
     dk_ltk := dk_ltk k;
     dk_rand := dk_rand k;
     dk_ediv := dk_ediv k;
     dk_irk := dk_irk k;
     dk_identity_address_type := dk_identity_address_type k;
     dk_identity_address := dk_identity_address k;
     dk_csrk := dk_csrk k |}.
Definition put_key_mask (v : Z) (k : bt_smp_distributed_keys) : bt_smp_distributed_keys := ltac:(put_field keys_eta dk_key_mask v k).
Definition put_ltk (v : list Z) (k : bt_smp_distributed_keys) : bt_smp_distributed_keys := ltac:(put_field keys_eta dk_ltk v k).
Definition put_rand (v : list Z) (k : bt_smp_distributed_keys) : bt_smp_distributed_keys := ltac:(put_field keys_eta dk_rand v k).
Definition put_ediv (v : Z) (k : bt_smp_distributed_keys) : bt_smp_distributed_keys := ltac:(put_field keys_eta dk_ediv v k).
Definition put_irk (v : list Z) (k : bt_smp_distributed_keys) : bt_smp_distributed_keys := ltac:(put_field keys_eta dk_irk v k).
Definition put_identity_address_type (v : Z) (k : bt_smp_distributed_keys) : bt_smp_distributed_keys := ltac:(put_field keys_eta dk_identity_address_type v k).
Definition put_identity_address (v : list Z) (k : bt_smp_distributed_keys) : bt_smp_distributed_keys := ltac:(put_field keys_eta dk_identity_address v k).
Definition put_csrk (v : list Z) (k : bt_smp_distributed_keys) : bt_smp_distributed_keys := ltac:(put_field keys_eta dk_csrk v k).

Record bt_smp_manager_config : Type := {
  sf_features : bt_smp_pairing_features;
  sf_initiator_address_type : Z;
  sf_responder_address_type : Z;
  sf_initiator_address : list Z;
  sf_responder_address : list Z;
}.

Section Types.
  Context {U : Type}.

(** The calls of the manager. *)
Inductive api : Type :=
| Start (now_us : Z)
| OnPdu (pdu : option (list Z)) (now_us : Z)
| ProvidePasskey (passkey now_us : Z)
| ProvideOobTk (tk : option (list Z)) (now_us : Z)
| ConfirmNumeric (accepted : bool) (now_us : Z)
| OnLocalPublicKey (success : bool) (x y : option (list Z)) (now_us : Z)
| OnDhkey (success : bool) (dhkey : option (list Z)) (now_us : Z)
| OnEncryptionChanged (enabled : bool) (now_us : Z)
| SetCmac (cmac : option (bt_smp_aes_cmac U))
| Tick (now_us : Z).

Abbreviation op X := (prog U api bt_status X).

(** [random] and [get_local_keys] fill an array or fail. *)
Record bt_smp_manager_ops : Type := {
  op_send : option (list Z -> op bt_status);
  op_random : option (Z -> op (option (list Z)));
  op_start_encryption : option (list Z -> Z -> op bt_status);
  op_generate_public_key : option (op bt_status);
  op_generate_dhkey : option (list Z -> list Z -> op bt_status);
  op_get_local_keys : option (Z -> op (option bt_smp_distributed_keys));
  op_keys_complete : option (bt_smp_distributed_keys -> bt_smp_distributed_keys -> op unit);
  op_user_action : option (bt_smp_user_action -> Z -> op unit);
  op_complete : option (bt_smp_manager_result -> bt_smp_pairing_negotiation -> op unit);
}.

Record bt_smp_manager : Type := {
  sm_ops : option bt_smp_manager_ops;
  sm_aes : bt_smp_aes128 U;
  sm_cmac : bt_smp_aes_cmac U;
  sm_config : bt_smp_manager_config;
  sm_state : bt_smp_manager_state;
  sm_negotiation : bt_smp_pairing_negotiation;
  sm_deadline_us : Z;
  sm_preq : list Z;
  sm_pres : list Z;
  sm_tk : list Z;
  sm_local_random : list Z;
  sm_peer_confirm : list Z;
  sm_stk : list Z;
  sm_peer_keys : bt_smp_distributed_keys;
  sm_local_keys : bt_smp_distributed_keys;
  sm_peer_keys_complete_mask : Z;
  sm_peer_ltk_received : bool;
  sm_peer_irk_received : bool;
  sm_local_public_x : list Z;
  sm_local_public_y : list Z;
  sm_peer_public_x : list Z;
  sm_peer_public_y : list Z;
  sm_dhkey : list Z;
  sm_peer_random : list Z;
  sm_mac_key : list Z;
  sm_peer_dhkey_check : list Z;
  sm_numeric_value : Z;
}.

Definition manager_eta (m : bt_smp_manager) : bt_smp_manager :=
  {| sm_ops := sm_ops m; sm_aes := sm_aes m; sm_cmac := sm_cmac m; sm_config := sm_config m;
     sm_state := sm_state m; sm_negotiation := sm_negotiation m; sm_deadline_us := sm_deadline_us m;
     sm_preq := sm_preq m; sm_pres := sm_pres m; sm_tk := sm_tk m; sm_local_random := sm_local_random m;
     sm_peer_confirm := sm_peer_confirm m; sm_stk := sm_stk m; sm_peer_keys := sm_peer_keys m;
     sm_local_keys := sm_local_keys m; sm_peer_keys_complete_mask := sm_peer_keys_complete_mask m;
     sm_peer_ltk_received := sm_peer_ltk_received m; sm_peer_irk_received := sm_peer_irk_received m;
     sm_local_public_x := sm_local_public_x m; sm_local_public_y := sm_local_public_y m;
     sm_peer_public_x := sm_peer_public_x m; sm_peer_public_y := sm_peer_public_y m; sm_dhkey := sm_dhkey m;
     sm_peer_random := sm_peer_random m; sm_mac_key := sm_mac_key m;
     sm_peer_dhkey_check := sm_peer_dhkey_check m; sm_numeric_value := sm_numeric_value m |}.

(** Assignments. *)
Definition set_cmac (v : bt_smp_aes_cmac U) (m : bt_smp_manager) : bt_smp_manager := ltac:(put_field manager_eta sm_cmac v m).
Definition set_state (v : bt_smp_manager_state) (m : bt_smp_manager) : bt_smp_manager := ltac:(put_field manager_eta sm_state v m).
Definition set_negotiation (v : bt_smp_pairing_negotiation) (m : bt_smp_manager) : bt_smp_manager := ltac:(put_field manager_eta sm_negotiation v m).
Definition set_deadline_us (v : Z) (m : bt_smp_manager) : bt_smp_manager := ltac:(put_field manager_eta sm_deadline_us v m).
Definition set_preq (v : list Z) (m : bt_smp_manager) : bt_smp_manager := ltac:(put_field manager_eta sm_preq v m).
Definition set_pres (v : list Z) (m : bt_smp_manager) : bt_smp_manager := ltac:(put_field manager_eta sm_pres v m).
Definition set_tk (v : list Z) (m : bt_smp_manager) : bt_smp_manager := ltac:(put_field manager_eta sm_tk v m).
Definition set_local_random (v : list Z) (m : bt_smp_manager) : bt_smp_manager := ltac:(put_field manager_eta sm_local_random v m).
Definition set_peer_confirm (v : list Z) (m : bt_smp_manager) : bt_smp_manager := ltac:(put_field manager_eta sm_peer_confirm v m).
Definition set_stk (v : list Z) (m : bt_smp_manager) : bt_smp_manager := ltac:(put_field manager_eta sm_stk v m).
Definition set_peer_keys (v : bt_smp_distributed_keys) (m : bt_smp_manager) : bt_smp_manager := ltac:(put_field manager_eta sm_peer_keys v m).
Definition set_local_keys (v : bt_smp_distributed_keys) (m : bt_smp_manager) : bt_smp_manager := ltac:(put_field manager_eta sm_local_keys v m).
Definition set_peer_keys_complete_mask (v : Z) (m : bt_smp_manager) : bt_smp_manager := ltac:(put_field manager_eta sm_peer_keys_complete_mask v m).
Definition set_peer_ltk_received (v : bool) (m : bt_smp_manager) : bt_smp_manager := ltac:(put_field manager_eta sm_peer_ltk_received v m).
Definition set_peer_irk_received (v : bool) (m : bt_smp_manager) : bt_smp_manager := ltac:(put_field manager_eta sm_peer_irk_received v m).
Definition set_local_public_x (v : list Z) (m : bt_smp_manager) : bt_smp_manager := ltac:(put_field manager_eta sm_local_public_x v m).
Definition set_local_public_y (v : list Z) (m : bt_smp_manager) : bt_smp_manager := ltac:(put_field manager_eta sm_local_public_y v m).
Definition set_peer_public_x (v : list Z) (m : bt_smp_manager) : bt_smp_manager := ltac:(put_field manager_eta sm_peer_public_x v m).
Definition set_peer_public_y (v : list Z) (m : bt_smp_manager) : bt_smp_manager := ltac:(put_field manager_eta sm_peer_public_y v m).
Definition set_dhkey (v : list Z) (m : bt_smp_manager) : bt_smp_manager := ltac:(put_field manager_eta sm_dhkey v m).
Definition set_peer_random (v : list Z) (m : bt_smp_manager) : bt_smp_manager := ltac:(put_field manager_eta sm_peer_random v m).
Definition set_mac_key (v : list Z) (m : bt_smp_manager) : bt_smp_manager := ltac:(put_field manager_eta sm_mac_key v m).
Definition set_peer_dhkey_check (v : list Z) (m : bt_smp_manager) : bt_smp_manager := ltac:(put_field manager_eta sm_peer_dhkey_check v m).
Definition set_numeric_value (v : Z) (m : bt_smp_manager) : bt_smp_manager := ltac:(put_field manager_eta sm_numeric_value v m).

End Types.
Arguments api : clear implicits.
Arguments bt_smp_manager_ops : clear implicits.
Arguments bt_smp_manager : clear implicits.

Inductive smp_event : Type :=
| HIn (pdu : list Z)
| HOut (pdu : list Z)
| HRandom (bs : list Z)
| HTk (tk : list Z)
| HLocalKey (x y : list Z)
| HDhkey (dhkey : list Z)
| HUser (action : bt_smp_user_action) (passkey : Z)
| HConfirmed (accepted : bool)
| HEncrypt (key : list Z) (key_size : Z)
| HEncryption (enabled : bool)
| HKeys (peer local : bt_smp_distributed_keys)
| HDone (result : bt_smp_manager_result).

Section Machine.
  Context {U : Type}.
Abbreviation W := (world (bt_smp_manager U) U smp_event).
Abbreviation manager := (bt_smp_manager U).

(** ** Helpers *)

Definition reverse_copy (src : list Z) (len : Z) : outcome (list Z) :=
  let? s := ldn src 0 len in Ret (reverse s).

Definition timeout_deadline (now_us : Z) : Z :=
  if UINT64_MAX - now_us <? BT_SMP_TIMEOUT_US then UINT64_MAX else now_us + BT_SMP_TIMEOUT_US.

(** The cipher: [None] is an error status. *)
Definition crypto {A} (m : M U A) : M W (option A) :=
  let! o := try (on_user m) in
  match o with Ret a => ret (Some a) | _ => ret None end.

(** A parser's answer, where every error is treated alike. *)
Definition parsed {A} (o : outcome A) : M W (option A) :=
  let! o := try (lift o) in
  match o with Ret a => ret (Some a) | _ => ret None end.

(** The port's operation [f]; calling through NULL faults. *)
Definition the_op {A} (f : bt_smp_manager_ops U -> option A) : M W A :=
  let! ops := get sm_ops in
  match ops with
  | Some ops => match f ops with Some op => ret op | None => lift Fault end
  | None => lift Fault
  end.

(** [m->ops->f != NULL] *)
Definition has_op {A} (f : bt_smp_manager_ops U -> option A) : M W bool :=
  let! ops := get sm_ops in
  match ops with
  | Some ops => ret (bool_decide (f ops <> None))
  | None => lift Fault
  end.

(** [memset(key, 0, 16u - size)] *)
Definition mask_key (key : list Z) (size : Z) : outcome (list Z) :=
  stn key 0 (replicate (Z.to_nat (16 - size)) 0).

Definition type_and_address (ty : Z) (address : list Z) : outcome (list Z) :=
  let? a := ldn address 0 6 in Ret (ty :: a).

Definition passkey_tk (passkey : Z) : list Z :=
  replicate 12 0 ++ [u8 (Z.shiftr passkey 24); u8 (Z.shiftr passkey 16); u8 (Z.shiftr passkey 8); u8 passkey].

Definition zero_keys : bt_smp_distributed_keys :=
  {| dk_key_mask := 0; dk_ltk := replicate 16 0; dk_rand := replicate 8 0; dk_ediv := 0; dk_irk := replicate 16 0;
     dk_identity_address_type := 0; dk_identity_address := replicate 6 0; dk_csrk := replicate 16 0 |}.

Section Open.
  Context (call : api U -> M W bt_status).

Definition finish (result : bt_smp_manager_result) : M W unit :=
  do! set (set_deadline_us 0) in
  do! set (set_state (if decide (result = BT_SMP_MANAGER_OK) then BT_SMP_STATE_COMPLETE else BT_SMP_STATE_FAILED)) in
  do! emit (HDone result) in
  let! b := has_op op_complete in
  if b then
    let! complete := the_op op_complete in
    let! negotiation := get sm_negotiation in
    run_prog call (complete result negotiation)
  else ret tt.

Definition send_pdu (pdu : list Z) (now_us : Z) : M W bt_status :=
  do! set (set_deadline_us (timeout_deadline now_us)) in
  let! send := the_op op_send in
  do! emit (HOut pdu) in
  run_prog call (send pdu).

(** An encoder and [send_pdu]; whether both succeeded. *)
Definition send_encoded (cap : Z) (m : M bt_buf_writer unit) (now_us : Z) : M W bool :=
  let! e := encode_into cap m in
  if decide (e.1 = BT_OK) then
    let! st := send_pdu e.2 now_us in
    ret (bool_decide (st = BT_OK))
  else ret false.

Definition send_failed (reason now_us : Z) (result : bt_smp_manager_result) : M W unit :=
  do! send_encoded 2 (bt_smp_encode_u8_command BT_SMP_PAIRING_FAILED reason) now_us in
  finish result.

(** [if (!sent) finish(m, BT_SMP_MANAGER_ERROR_PROTOCOL);] *)
Definition or_finish (sent : bool) : M W unit :=
  if sent then ret tt else finish BT_SMP_MANAGER_ERROR_PROTOCOL.

Definition user_action (action : bt_smp_user_action) (passkey : Z) : M W unit :=
  do! emit (HUser action passkey) in
  let! b := has_op op_user_action in
  if b then
    let! f := the_op op_user_action in
    run_prog call (f action passkey)
  else ret tt.

Definition random (len : Z) : M W (option (list Z)) :=
  let! f := the_op op_random in
  let! bs := run_prog call (f len) in
  match bs with
  | Some bs => do! emit (HRandom bs) in ret (Some bs)
  | None => ret None
  end.

(** c1 with the exchanged features and addresses, for the random value [r]. *)
Definition confirm_value (r : list Z) : M W (option (list Z)) :=
  let! m := get id in
  crypto (bt_smp_crypto_c1 (Some (sm_aes m)) (Some (sm_tk m)) (Some r) (Some (sm_preq m)) (Some (sm_pres m))
    (sf_initiator_address_type (sm_config m)) (sf_responder_address_type (sm_config m))
    (Some (sf_initiator_address (sm_config m))) (Some (sf_responder_address (sm_config m)))).

Definition start_confirm_exchange (now_us : Z) : M W unit :=
  let! r := random 16 in
  match r with
  | None => send_failed 8 now_us BT_SMP_MANAGER_ERROR_CRYPTO
  | Some r =>
      do! set (set_local_random r) in
      let! confirm := confirm_value r in
      match confirm with
      | None => send_failed 8 now_us BT_SMP_MANAGER_ERROR_CRYPTO
      | Some confirm =>
          let! wire_confirm := lift (reverse_copy confirm 16) in
          do! set (set_state BT_SMP_STATE_WAIT_PAIRING_CONFIRM) in
          let! sent := send_encoded 17 (bt_smp_encode_value128 BT_SMP_PAIRING_CONFIRM wire_confirm) now_us in
          or_finish sent
      end
  end.

(** f6 over the DHKey check's inputs: the two randoms, an IO capability triple
    and the two addresses. *)
Definition check_value (n1 n2 io_cap a1 a2 : list Z) : M W (option (list Z)) :=
  let! m := get id in
  crypto (bt_smp_crypto_f6 (Some (sm_cmac m)) (Some (sm_mac_key m)) (Some n1) (Some n2) (Some (replicate 16 0))
    (Some io_cap) (Some a1) (Some a2)).

Definition addresses : M W (list Z * list Z) :=
  let! config := get sm_config in
  let! a1 := lift (type_and_address (sf_initiator_address_type config) (sf_initiator_address config)) in
  let! a2 := lift (type_and_address (sf_responder_address_type config) (sf_responder_address config)) in
  ret (a1, a2).

Definition start_sc_stage2 (now_us : Z) : M W unit :=
  let! a := addresses in
  let! m := get id in
  let! keys := crypto (bt_smp_crypto_f5 (Some (sm_cmac m)) (Some (sm_dhkey m)) (Some (sm_local_random m))
    (Some (sm_peer_random m)) (Some a.1) (Some a.2)) in
  match keys with
  | None => send_failed 8 now_us BT_SMP_MANAGER_ERROR_CRYPTO
  | Some (mac_key, stk) =>
      do! set (set_mac_key mac_key) in
      do! set (set_stk stk) in
      let f := sf_features (sm_config m) in
      let! check := check_value (sm_local_random m) (sm_peer_random m)
        [pf_auth_req f; pf_oob_data_flag f; pf_io_capability f] a.1 a.2 in
      match check with
      | None => send_failed 8 now_us BT_SMP_MANAGER_ERROR_CRYPTO
      | Some check =>
          let! masked := lift (mask_key stk (pn_encryption_key_size (sm_negotiation m))) in
          do! set (set_stk masked) in
          let! wire := lift (reverse_copy check 16) in
          do! set (set_state BT_SMP_STATE_WAIT_DHKEY_CHECK) in
          let! sent := send_encoded 17 (bt_smp_encode_value128 BT_SMP_PAIRING_DHKEY_CHECK wire) now_us in
          or_finish sent
      end
  end.

Definition start_secure_connections (now_us : Z) : M W unit :=
  let! m := get id in
  if negb (bool_decide (pn_association (sm_negotiation m) = BT_SMP_ASSOC_JUST_WORKS)) &&
     negb (bool_decide (pn_association (sm_negotiation m) = BT_SMP_ASSOC_NUMERIC_COMPARISON))
  then send_failed 7 now_us BT_SMP_MANAGER_ERROR_UNSUPPORTED else
  let! generate_public_key := has_op op_generate_public_key in
  let! generate_dhkey := has_op op_generate_dhkey in
  if bool_decide (ac_calculate (sm_cmac m) = None) || negb generate_public_key || negb generate_dhkey
  then send_failed 7 now_us BT_SMP_MANAGER_ERROR_UNSUPPORTED else
  do! set (set_state BT_SMP_STATE_WAIT_LOCAL_PUBLIC_KEY) in
  do! set (set_deadline_us (timeout_deadline now_us)) in
  let! f := the_op op_generate_public_key in
  let! st := run_prog call f in
  if decide (st = BT_OK) then ret tt else finish BT_SMP_MANAGER_ERROR_CRYPTO.

(** The rest of the pairing response in legacy pairing, by association model. *)
Definition start_legacy (now_us : Z) : M W unit :=
  let! negotiation := get sm_negotiation in
  if flag (Z.lor (pn_initiator_key_distribution negotiation) (pn_responder_key_distribution negotiation))
       BT_SMP_KEYDIST_LINK_KEY
  then send_failed 7 now_us BT_SMP_MANAGER_ERROR_UNSUPPORTED else
  match pn_association negotiation with
  | BT_SMP_ASSOC_JUST_WORKS =>
      do! set (set_tk (replicate 16 0)) in
      start_confirm_exchange now_us
  | BT_SMP_ASSOC_PASSKEY_INITIATOR_DISPLAYS =>
      let! bs := random 4 in
      match bs with
      | None => send_failed 8 now_us BT_SMP_MANAGER_ERROR_CRYPTO
      | Some bs =>
          let! passkey := lift (
            let? b0 := ld bs 0 in
            let? b1 := ld bs 1 in
            let? b2 := ld bs 2 in
            let? b3 := ld bs 3 in
            Ret (Z.lor (Z.lor (Z.lor (u32 (Z.shiftl b0 24)) (Z.shiftl b1 16)) (Z.shiftl b2 8)) b3 mod 1000000)) in
          do! set (set_tk (passkey_tk passkey)) in
          do! user_action BT_SMP_USER_DISPLAY_PASSKEY passkey in
          start_confirm_exchange now_us
      end
  | BT_SMP_ASSOC_PASSKEY_RESPONDER_DISPLAYS | BT_SMP_ASSOC_PASSKEY_BOTH_INPUT =>
      do! set (set_state BT_SMP_STATE_WAIT_TK) in
      user_action BT_SMP_USER_REQUEST_PASSKEY 0
  | BT_SMP_ASSOC_OOB =>
      do! set (set_state BT_SMP_STATE_WAIT_TK) in
      user_action BT_SMP_USER_REQUEST_OOB_TK 0
  | BT_SMP_ASSOC_NUMERIC_COMPARISON => send_failed 7 now_us BT_SMP_MANAGER_ERROR_UNSUPPORTED
  end.

(** The features are agreed: [negotiation &= ~ENC_KEY] and on, or legacy. *)
Definition features_agreed (raw_pdu : list Z) (now_us : Z) : M W unit :=
  let! pres := lift (reverse_copy raw_pdu 7) in
  do! set (set_pres pres) in
  let! n := get sm_negotiation in
  if pn_secure_connections n then
    do! set (set_negotiation
      {| pn_secure_connections := pn_secure_connections n; pn_bonding := pn_bonding n;
         pn_mitm_requested := pn_mitm_requested n; pn_encryption_key_size := pn_encryption_key_size n;
         pn_initiator_key_distribution := Z.land (pn_initiator_key_distribution n) (u8 (Z.lnot BT_SMP_KEYDIST_ENC_KEY));
         pn_responder_key_distribution := Z.land (pn_responder_key_distribution n) (u8 (Z.lnot BT_SMP_KEYDIST_ENC_KEY));
         pn_association := pn_association n |}) in
    start_secure_connections now_us
  else start_legacy now_us.

Definition handle_pairing_response (command : bt_smp_command) (raw_pdu : list Z) (now_us : Z) : M W unit :=
  let! m := get id in
  if decide (sm_state m = BT_SMP_STATE_WAIT_PAIRING_RESPONSE) then
    let! response := parsed (bt_smp_parse_pairing_features command) in
    let! n := match response with
              | Some response => parsed (bt_smp_negotiate_pairing (Some (sf_features (sm_config m))) (Some response))
              | None => ret None
              end in
    match n with
    | Some n =>
        do! set (set_negotiation n) in
        features_agreed raw_pdu now_us
    | None => send_failed 10 now_us BT_SMP_MANAGER_ERROR_PROTOCOL
    end
  else send_failed 10 now_us BT_SMP_MANAGER_ERROR_PROTOCOL.

Definition protocol_error (now_us : Z) : M W unit := send_failed 10 now_us BT_SMP_MANAGER_ERROR_PROTOCOL.

(** Record the peer's commitment and reveal our random value. *)
Definition reveal_random (wire : list Z) (next : bt_smp_manager_state) (now_us : Z) : M W unit :=
  let! confirm := lift (reverse_copy wire 16) in
  do! set (set_peer_confirm confirm) in
  let! local_random := get sm_local_random in
  let! wire_random := lift (reverse_copy local_random 16) in
  do! set (set_state next) in
  let! sent := send_encoded 17 (bt_smp_encode_value128 BT_SMP_PAIRING_RANDOM wire_random) now_us in
  or_finish sent.

Definition handle_confirm (command : bt_smp_command) (now_us : Z) : M W unit :=
  let! state := get sm_state in
  let! wire := parsed (bt_smp_parse_value128 command) in
  match wire with
  | Some wire =>
      if decide (state = BT_SMP_STATE_WAIT_PAIRING_CONFIRM)
      then reveal_random wire BT_SMP_STATE_WAIT_PAIRING_RANDOM now_us else protocol_error now_us
  | None => protocol_error now_us
  end.

(** [ops->start_encryption] with the key, in the state that waits for it. *)
Definition start_encryption (now_us : Z) : M W unit :=
  do! set (set_state BT_SMP_STATE_WAIT_ENCRYPTION) in
  do! set (set_deadline_us (timeout_deadline now_us)) in
  let! m := get id in
  let! f := the_op op_start_encryption in
  do! emit (HEncrypt (sm_stk m) (pn_encryption_key_size (sm_negotiation m))) in
  let! st := run_prog call (f (sm_stk m) (pn_encryption_key_size (sm_negotiation m))) in
  if decide (st = BT_OK) then ret tt else finish BT_SMP_MANAGER_ERROR_ENCRYPTION.

(** The peer's random value against its commitment. *)
Definition verify_random (peer_random : list Z) (now_us : Z) : M W unit :=
  let! expected := confirm_value peer_random in
  match expected with
  | None => send_failed 8 now_us BT_SMP_MANAGER_ERROR_CRYPTO
  | Some expected =>
      let! m := get id in
      if decide (expected = sm_peer_confirm m) then
        let! stk := crypto (bt_smp_crypto_s1 (Some (sm_aes m)) (Some (sm_tk m)) (Some peer_random)
          (Some (sm_local_random m))) in
        match stk with
        | None => send_failed 8 now_us BT_SMP_MANAGER_ERROR_CRYPTO
        | Some stk =>
            let! masked := lift (mask_key stk (pn_encryption_key_size (sm_negotiation m))) in
            do! set (set_stk masked) in
            start_encryption now_us
        end
      else send_failed 4 now_us BT_SMP_MANAGER_ERROR_CONFIRM
  end.

Definition handle_random (command : bt_smp_command) (now_us : Z) : M W unit :=
  let! state := get sm_state in
  let! wire := parsed (bt_smp_parse_value128 command) in
  match wire with
  | Some wire =>
      if decide (state = BT_SMP_STATE_WAIT_PAIRING_RANDOM) then
        let! peer_random := lift (reverse_copy wire 16) in
        verify_random peer_random now_us
      else protocol_error now_us
  | None => protocol_error now_us
  end.

Definition handle_sc_public_key (command : bt_smp_command) (now_us : Z) : M W unit :=
  let! state := get sm_state in
  let! wire := parsed (bt_smp_parse_public_key command) in
  match wire with
  | Some (wire_x, wire_y) =>
      if decide (state = BT_SMP_STATE_WAIT_PEER_PUBLIC_KEY) then
        let! x := lift (reverse_copy wire_x 32) in
        let! y := lift (reverse_copy wire_y 32) in
        do! set (set_peer_public_x x) in
        do! set (set_peer_public_y y) in
        let! local_x := get sm_local_public_x in
        if decide (local_x = x) then protocol_error now_us else
        do! set (set_state BT_SMP_STATE_WAIT_DHKEY) in
        do! set (set_deadline_us (timeout_deadline now_us)) in
        let! f := the_op op_generate_dhkey in
        let! st := run_prog call (f x y) in
        if decide (st = BT_OK) then ret tt else finish BT_SMP_MANAGER_ERROR_CRYPTO
      else protocol_error now_us
  | None => protocol_error now_us
  end.

Definition handle_sc_confirm (command : bt_smp_command) (now_us : Z) : M W unit :=
  let! state := get sm_state in
  let! wire := parsed (bt_smp_parse_value128 command) in
  match wire with
  | Some wire =>
      if decide (state = BT_SMP_STATE_WAIT_SC_CONFIRM)
      then reveal_random wire BT_SMP_STATE_WAIT_SC_RANDOM now_us else protocol_error now_us
  | None => protocol_error now_us
  end.

(** The commitment holds: numeric comparison, or on to the DHKey check. *)
Definition sc_random_verified (now_us : Z) : M W unit :=
  let! m := get id in
  if decide (pn_association (sm_negotiation m) = BT_SMP_ASSOC_NUMERIC_COMPARISON) then
    let! v := crypto (bt_smp_crypto_g2 (Some (sm_cmac m)) (Some (sm_local_public_x m)) (Some (sm_peer_public_x m))
      (Some (sm_local_random m)) (Some (sm_peer_random m))) in
    match v with
    | None => send_failed 8 now_us BT_SMP_MANAGER_ERROR_CRYPTO
    | Some v =>
        do! set (set_numeric_value (v mod 1000000)) in
        do! set (set_state BT_SMP_STATE_WAIT_NUMERIC_CONFIRMATION) in
        user_action BT_SMP_USER_CONFIRM_NUMERIC (v mod 1000000)
    end
  else start_sc_stage2 now_us.

Definition handle_sc_random (command : bt_smp_command) (now_us : Z) : M W unit :=
  let! state := get sm_state in
  let! wire := parsed (bt_smp_parse_value128 command) in
  match wire with
  | Some wire =>
      if decide (state = BT_SMP_STATE_WAIT_SC_RANDOM) then
        let! peer_random := lift (reverse_copy wire 16) in
        do! set (set_peer_random peer_random) in
        let! m := get id in
        let! expected := crypto (bt_smp_crypto_f4 (Some (sm_cmac m)) (Some (sm_peer_public_x m))
          (Some (sm_local_public_x m)) (Some (sm_peer_random m)) 0) in
        match expected with
        | None => send_failed 8 now_us BT_SMP_MANAGER_ERROR_CRYPTO
        | Some expected =>
            if decide (expected = sm_peer_confirm m) then sc_random_verified now_us
            else send_failed 4 now_us BT_SMP_MANAGER_ERROR_CONFIRM
        end
      else protocol_error now_us
  | None => protocol_error now_us
  end.

Definition handle_sc_dhkey_check (command : bt_smp_command) (now_us : Z) : M W unit :=
  let! state := get sm_state in
  let! wire := parsed (bt_smp_parse_value128 command) in
  match wire with
  | Some wire =>
      if decide (state = BT_SMP_STATE_WAIT_DHKEY_CHECK) then
        let! check := lift (reverse_copy wire 16) in
        do! set (set_peer_dhkey_check check) in
        let! a := addresses in
        let! m := get id in
        let! io_cap := lift (ldn (sm_pres m) 3 3) in
        let! expected := check_value (sm_peer_random m) (sm_local_random m) io_cap a.2 a.1 in
        match expected with
        | None => send_failed 8 now_us BT_SMP_MANAGER_ERROR_CRYPTO
        | Some expected =>
            if decide (expected = check) then start_encryption now_us
            else send_failed 11 now_us BT_SMP_MANAGER_ERROR_CONFIRM
        end
      else protocol_error now_us
  | None => protocol_error now_us
  end.

(** ** Key distribution *)

(** [if (mask & flag) SEND(...)] with [m->local_keys]: the next PDU goes out
    only if this one did. *)
Definition send_if (b : bool) (m : bt_smp_distributed_keys -> M bt_buf_writer unit) (now_us : Z) (rest : M W bool) : M W bool :=
  if b then
    let! k := get sm_local_keys in
    let! sent := send_encoded 17 (m k) now_us in
    if sent then rest else ret false
  else rest.

Definition send_key_distribution (now_us : Z) : M W bool :=
  let! negotiation := get sm_negotiation in
  let mask := pn_initiator_key_distribution negotiation in
  do! set (set_local_keys zero_keys) in
  let! ready :=
    (if mask =? 0 then ret true else
     let! b := has_op op_get_local_keys in
     if b then
       let! f := the_op op_get_local_keys in
       let! keys := run_prog call (f mask) in
       match keys with
       | Some keys => do! set (set_local_keys keys) in ret (Z.land (dk_key_mask keys) mask =? mask)
       | None => ret false
       end
     else ret false) in
  if negb ready then ret false else
  let enc := flag mask BT_SMP_KEYDIST_ENC_KEY in
  let idk := flag mask BT_SMP_KEYDIST_ID_KEY in
  let sign := flag mask BT_SMP_KEYDIST_SIGN_KEY in
  send_if enc (fun k => bt_smp_encode_value128 BT_SMP_ENCRYPTION_INFORMATION (dk_ltk k)) now_us (
  send_if enc (fun k => bt_smp_encode_central_identification (dk_rand k) (dk_ediv k)) now_us (
  send_if idk (fun k => bt_smp_encode_value128 BT_SMP_IDENTITY_INFORMATION (dk_irk k)) now_us (
  send_if idk (fun k => bt_smp_encode_identity_address (dk_identity_address_type k) (dk_identity_address k)) now_us (
  send_if sign (fun k => bt_smp_encode_value128 BT_SMP_SIGNING_INFORMATION (dk_csrk k)) now_us (
  ret true))))).

Definition finish_key_distribution (now_us : Z) : M W unit :=
  let! sent := send_key_distribution now_us in
  if negb sent then finish BT_SMP_MANAGER_ERROR_CRYPTO else
  let! m := get id in
  do! emit (HKeys (sm_peer_keys m) (sm_local_keys m)) in
  do! (let! b := has_op op_keys_complete in
       if b then
         let! f := the_op op_keys_complete in
         run_prog call (f (sm_peer_keys m) (sm_local_keys m))
       else ret tt) in
  finish BT_SMP_MANAGER_OK.

(** Does [code] come out of order?  Encryption information, then identity
    information, then signing information. *)
Definition out_of_order (m : manager) (code : Z) : bool :=
  let expected := pn_responder_key_distribution (sm_negotiation m) in
  let mask := sm_peer_keys_complete_mask m in
  if flag expected BT_SMP_KEYDIST_ENC_KEY && negb (flag mask BT_SMP_KEYDIST_ENC_KEY) then
    (negb (sm_peer_ltk_received m) && negb (code =? BT_SMP_ENCRYPTION_INFORMATION))
    || (sm_peer_ltk_received m && negb (code =? BT_SMP_CENTRAL_IDENTIFICATION))
  else if flag expected BT_SMP_KEYDIST_ID_KEY && negb (flag mask BT_SMP_KEYDIST_ID_KEY) then
    (negb (sm_peer_irk_received m) && negb (code =? BT_SMP_IDENTITY_INFORMATION))
    || (sm_peer_irk_received m && negb (code =? BT_SMP_IDENTITY_ADDRESS_INFORMATION))
  else flag expected BT_SMP_KEYDIST_SIGN_KEY && negb (flag mask BT_SMP_KEYDIST_SIGN_KEY)
       && negb (code =? BT_SMP_SIGNING_INFORMATION).

(** A key half or a whole key is complete: its bit in both masks. *)
Definition key_complete (bit : Z) (keys : bt_smp_distributed_keys) : M W bool :=
  do! set (set_peer_keys (put_key_mask (Z.lor (dk_key_mask keys) bit) keys)) in
  do! set (fun m => set_peer_keys_complete_mask (Z.lor (sm_peer_keys_complete_mask m) bit) m) in
  ret true.

(** The [switch] over the kinds of key; [false] is [goto invalid]. *)
Definition store_key (command : bt_smp_command) : M W bool :=
  let! m := get id in
  let expected := pn_responder_key_distribution (sm_negotiation m) in
  let mask := sm_peer_keys_complete_mask m in
  let keys := sm_peer_keys m in
  let code := sc_code command in
  if code =? BT_SMP_ENCRYPTION_INFORMATION then
    let! value := parsed (bt_smp_parse_value128 command) in
    match value with
    | Some value =>
        if negb (flag expected BT_SMP_KEYDIST_ENC_KEY) || sm_peer_ltk_received m then ret false else
        let! ltk := lift (ldn value 0 16) in
        do! set (set_peer_keys (put_ltk ltk keys)) in
        do! set (set_peer_ltk_received true) in
        ret true
    | None => ret false
    end
  else if code =? BT_SMP_CENTRAL_IDENTIFICATION then
    let! central := parsed (bt_smp_parse_central_identification command) in
    match central with
    | Some central =>
        if negb (sm_peer_ltk_received m) || flag mask BT_SMP_KEYDIST_ENC_KEY then ret false else
        let! rand := lift (ldn (ci_rand central) 0 8) in
        key_complete BT_SMP_KEYDIST_ENC_KEY (put_ediv (ci_ediv central) (put_rand rand keys))
    | None => ret false
    end
  else if code =? BT_SMP_IDENTITY_INFORMATION then
    let! value := parsed (bt_smp_parse_value128 command) in
    match value with
    | Some value =>
        if negb (flag expected BT_SMP_KEYDIST_ID_KEY) || sm_peer_irk_received m then ret false else
        let! irk := lift (ldn value 0 16) in
        do! set (set_peer_keys (put_irk irk keys)) in
        do! set (set_peer_irk_received true) in
        ret true
    | None => ret false
    end
  else if code =? BT_SMP_IDENTITY_ADDRESS_INFORMATION then
    let! identity := parsed (bt_smp_parse_identity_address command) in
    match identity with
    | Some identity =>
        if negb (sm_peer_irk_received m) || flag mask BT_SMP_KEYDIST_ID_KEY then ret false else
        let! address := lift (ldn (ia_address identity) 0 6) in
        key_complete BT_SMP_KEYDIST_ID_KEY
          (put_identity_address address (put_identity_address_type (ia_address_type identity) keys))
    | None => ret false
    end
  else if code =? BT_SMP_SIGNING_INFORMATION then
    let! value := parsed (bt_smp_parse_value128 command) in
    match value with
    | Some value =>
        if negb (flag expected BT_SMP_KEYDIST_SIGN_KEY) || flag mask BT_SMP_KEYDIST_SIGN_KEY then ret false else
        let! csrk := lift (ldn value 0 16) in
        key_complete BT_SMP_KEYDIST_SIGN_KEY (put_csrk csrk keys)
    | None => ret false
    end
  else ret false.

Definition handle_distributed_key (command : bt_smp_command) (now_us : Z) : M W unit :=
  let! m := get id in
  if negb (bool_decide (sm_state m = BT_SMP_STATE_WAIT_KEY_DISTRIBUTION)) || out_of_order m (sc_code command)
  then protocol_error now_us else
  let! stored := store_key command in
  if negb stored then protocol_error now_us else
  let! m := get id in
  let expected := pn_responder_key_distribution (sm_negotiation m) in
  if Z.land (sm_peer_keys_complete_mask m) expected =? expected then finish_key_distribution now_us else ret tt.

(** ** The calls *)

Definition is_terminal (s : bt_smp_manager_state) : bool :=
  bool_decide (s = BT_SMP_STATE_COMPLETE) || bool_decide (s = BT_SMP_STATE_FAILED).

Definition bt_smp_manager_start (now_us : Z) : M W bt_status :=
  let! m := get id in
  let missing := match sm_ops m with
                 | None => true
                 | Some ops => bool_decide (op_send ops = None) || bool_decide (op_random ops = None)
                               || bool_decide (op_start_encryption ops = None)
                 end in
  if missing || bool_decide (ae_encrypt (sm_aes m) = None) || negb (bool_decide (sm_state m = BT_SMP_STATE_IDLE))
  then ret BT_ERR_INVALID_ARGUMENT else
  let! e := encode_into 7 (bt_smp_encode_pairing_features BT_SMP_PAIRING_REQUEST (sf_features (sm_config m))) in
  if negb (bool_decide (e.1 = BT_OK)) then ret BT_ERR_INVALID_ARGUMENT else
  let! preq := lift (reverse_copy e.2 7) in
  do! set (set_preq preq) in
  do! set (set_state BT_SMP_STATE_WAIT_PAIRING_RESPONSE) in
  let! st := send_pdu e.2 now_us in
  if decide (st = BT_OK) then ret BT_OK else
  do! set (set_state BT_SMP_STATE_IDLE) in
  ret st.

Definition on_command (command : bt_smp_command) (pdu : list Z) (now_us : Z) : M W unit :=
  do! set (set_deadline_us (timeout_deadline now_us)) in
  let! state := get sm_state in
  let code := sc_code command in
  if code =? BT_SMP_PAIRING_RESPONSE then handle_pairing_response command pdu now_us else
  if code =? BT_SMP_PAIRING_PUBLIC_KEY then handle_sc_public_key command now_us else
  if code =? BT_SMP_PAIRING_CONFIRM then
    if decide (state = BT_SMP_STATE_WAIT_SC_CONFIRM) then handle_sc_confirm command now_us
    else handle_confirm command now_us
  else if code =? BT_SMP_PAIRING_RANDOM then
    if decide (state = BT_SMP_STATE_WAIT_SC_RANDOM) then handle_sc_random command now_us
    else handle_random command now_us
  else if code =? BT_SMP_PAIRING_DHKEY_CHECK then handle_sc_dhkey_check command now_us
  else if (code =? BT_SMP_ENCRYPTION_INFORMATION) || (code =? BT_SMP_CENTRAL_IDENTIFICATION)
          || (code =? BT_SMP_IDENTITY_INFORMATION) || (code =? BT_SMP_IDENTITY_ADDRESS_INFORMATION)
          || (code =? BT_SMP_SIGNING_INFORMATION)
  then handle_distributed_key command now_us
  else if code =? BT_SMP_PAIRING_FAILED then finish BT_SMP_MANAGER_ERROR_PROTOCOL
  else send_failed 7 now_us BT_SMP_MANAGER_ERROR_PROTOCOL.

Definition bt_smp_manager_on_pdu (pdu : option (list Z)) (now_us : Z) : M W unit :=
  let! state := get sm_state in
  if bool_decide (state = BT_SMP_STATE_IDLE) || is_terminal state then ret tt else
  do! emit (HIn (default [] pdu)) in
  let! command := parsed (bt_smp_parse_command pdu (zlen (default [] pdu))) in
  match command with
  | Some command => on_command command (default [] pdu) now_us
  | None => protocol_error now_us
  end.

(** [return m->state == FAILED ? BT_ERR_INVALID_ARGUMENT : BT_OK] *)
Definition failed_status : M W bt_status :=
  let! state := get sm_state in
  ret (if decide (state = BT_SMP_STATE_FAILED) then BT_ERR_INVALID_ARGUMENT else BT_OK).

Definition bt_smp_manager_provide_passkey (passkey now_us : Z) : M W bt_status :=
  let! m := get id in
  if negb (bool_decide (sm_state m = BT_SMP_STATE_WAIT_TK)) || (passkey >? 999999)
     || bool_decide (pn_association (sm_negotiation m) = BT_SMP_ASSOC_OOB)
  then ret BT_ERR_INVALID_ARGUMENT else
  do! set (set_tk (passkey_tk passkey)) in
  do! emit (HTk (passkey_tk passkey)) in
  do! start_confirm_exchange now_us in
  failed_status.

Definition bt_smp_manager_provide_oob_tk (tk : option (list Z)) (now_us : Z) : M W bt_status :=
  let! m := get id in
  match tk with
  | None => ret BT_ERR_INVALID_ARGUMENT
  | Some tk =>
      if negb (bool_decide (sm_state m = BT_SMP_STATE_WAIT_TK))
         || negb (bool_decide (pn_association (sm_negotiation m) = BT_SMP_ASSOC_OOB))
      then ret BT_ERR_INVALID_ARGUMENT else
      let! tk := lift (ldn tk 0 16) in
      do! set (set_tk tk) in
      do! emit (HTk tk) in
      do! start_confirm_exchange now_us in
      failed_status
  end.

Definition bt_smp_manager_confirm_numeric (accepted : bool) (now_us : Z) : M W bt_status :=
  let! state := get sm_state in
  if negb (bool_decide (state = BT_SMP_STATE_WAIT_NUMERIC_CONFIRMATION)) then ret BT_ERR_INVALID_ARGUMENT else
  do! emit (HConfirmed accepted) in
  if negb accepted then
    do! send_failed 12 now_us BT_SMP_MANAGER_ERROR_CONFIRM in
    ret BT_OK
  else
    do! start_sc_stage2 now_us in
    failed_status.

Definition bt_smp_manager_on_local_public_key (success : bool) (x y : option (list Z)) (now_us : Z) : M W unit :=
  let! state := get sm_state in
  if negb (bool_decide (state = BT_SMP_STATE_WAIT_LOCAL_PUBLIC_KEY)) then ret tt else
  match success, x, y with
  | true, Some x, Some y =>
      let! x := lift (ldn x 0 32) in
      let! y := lift (ldn y 0 32) in
      do! set (set_local_public_x x) in
      do! set (set_local_public_y y) in
      do! emit (HLocalKey x y) in
      let! wire_x := lift (reverse_copy x 32) in
      let! wire_y := lift (reverse_copy y 32) in
      do! set (set_state BT_SMP_STATE_WAIT_PEER_PUBLIC_KEY) in
      let! sent := send_encoded 65 (bt_smp_encode_public_key wire_x wire_y) now_us in
      or_finish sent
  | _, _, _ => send_failed 8 now_us BT_SMP_MANAGER_ERROR_CRYPTO
  end.

Definition bt_smp_manager_on_dhkey (success : bool) (dhkey : option (list Z)) (now_us : Z) : M W unit :=
  let! state := get sm_state in
  if negb (bool_decide (state = BT_SMP_STATE_WAIT_DHKEY)) then ret tt else
  match success, dhkey with
  | true, Some dhkey =>
      let! r := random 16 in
      match r with
      | Some r =>
          do! set (set_local_random r) in
          let! dhkey := lift (ldn dhkey 0 32) in
          do! set (set_dhkey dhkey) in
          do! emit (HDhkey dhkey) in
          do! set (set_state BT_SMP_STATE_WAIT_SC_CONFIRM) in
          set (set_deadline_us (timeout_deadline now_us))
      | None => send_failed 8 now_us BT_SMP_MANAGER_ERROR_CRYPTO
      end
  | _, _ => send_failed 8 now_us BT_SMP_MANAGER_ERROR_CRYPTO
  end.

Definition bt_smp_manager_on_encryption_changed (enabled : bool) (now_us : Z) : M W unit :=
  let! m := get id in
  if negb (bool_decide (sm_state m = BT_SMP_STATE_WAIT_ENCRYPTION)) then ret tt else
  do! emit (HEncryption enabled) in
  if negb enabled then finish BT_SMP_MANAGER_ERROR_ENCRYPTION else
  do! set (set_peer_keys
    (if pn_secure_connections (sm_negotiation m)
     then put_ltk (sm_stk m) (put_key_mask BT_SMP_KEYDIST_ENC_KEY zero_keys) else zero_keys)) in
  do! set (set_peer_keys_complete_mask 0) in
  do! set (set_peer_ltk_received false) in
  do! set (set_peer_irk_received false) in
  if pn_responder_key_distribution (sm_negotiation m) =? 0 then finish_key_distribution now_us else
  do! set (set_state BT_SMP_STATE_WAIT_KEY_DISTRIBUTION) in
  set (set_deadline_us (timeout_deadline now_us)).

Definition bt_smp_manager_tick (now_us : Z) : M W unit :=
  let! m := get id in
  if negb (sm_deadline_us m =? 0) && (now_us >=? sm_deadline_us m) && negb (is_terminal (sm_state m))
  then finish BT_SMP_MANAGER_ERROR_TIMEOUT else ret tt.

Definition bt_smp_manager_set_cmac (cmac : option (bt_smp_aes_cmac U)) : M W unit :=
  set (set_cmac (default {| ac_calculate := None |} cmac)).

(** One call of the manager; [void] ones return BT_OK here. *)
Definition run_call (a : api U) : M W bt_status :=
  match a with
  | Start now => bt_smp_manager_start now
  | OnPdu pdu now => do! bt_smp_manager_on_pdu pdu now in ret BT_OK
  | ProvidePasskey passkey now => bt_smp_manager_provide_passkey passkey now
  | ProvideOobTk tk now => bt_smp_manager_provide_oob_tk tk now
  | ConfirmNumeric accepted now => bt_smp_manager_confirm_numeric accepted now
  | OnLocalPublicKey success x y now => do! bt_smp_manager_on_local_public_key success x y now in ret BT_OK
  | OnDhkey success dhkey now => do! bt_smp_manager_on_dhkey success dhkey now in ret BT_OK
  | OnEncryptionChanged enabled now => do! bt_smp_manager_on_encryption_changed enabled now in ret BT_OK
  | SetCmac cmac => do! bt_smp_manager_set_cmac cmac in ret BT_OK
  | Tick now => do! bt_smp_manager_tick now in ret BT_OK
  end.

End Open.

(** Calls nested [depth] deep. *)
Fixpoint run_api (depth : nat) (a : api U) : M W bt_status :=
  match depth with
  | O => lift Fault
  | S depth => run_call (run_api depth) a
  end.

Definition run_apis (depth : nat) (l : list (api U)) : M W unit :=
  foldr (fun a m => do! run_api depth a in m) (ret tt) l.

Definition bt_smp_manager_init (config : bt_smp_manager_config) (aes : bt_smp_aes128 U)
    (ops : option (bt_smp_manager_ops U)) : manager :=
  {| sm_ops := ops; sm_aes := aes; sm_cmac := {| ac_calculate := None |}; sm_config := config;
     sm_state := BT_SMP_STATE_IDLE;
     sm_negotiation :=
       {| pn_secure_connections := false; pn_bonding := false; pn_mitm_requested := false;
          pn_encryption_key_size := 0; pn_initiator_key_distribution := 0; pn_responder_key_distribution := 0;
          pn_association := BT_SMP_ASSOC_JUST_WORKS |};
     sm_deadline_us := 0; sm_preq := replicate 7 0; sm_pres := replicate 7 0; sm_tk := replicate 16 0;
     sm_local_random := replicate 16 0; sm_peer_confirm := replicate 16 0; sm_stk := replicate 16 0;
     sm_peer_keys := zero_keys; sm_local_keys := zero_keys; sm_peer_keys_complete_mask := 0;
     sm_peer_ltk_received := false; sm_peer_irk_received := false; sm_local_public_x := replicate 32 0;
     sm_local_public_y := replicate 32 0; sm_peer_public_x := replicate 32 0; sm_peer_public_y := replicate 32 0;
     sm_dhkey := replicate 32 0; sm_peer_random := replicate 16 0; sm_mac_key := replicate 16 0;
     sm_peer_dhkey_check := replicate 16 0; sm_numeric_value := 0 |}.

End Machine.

(** ** Specification *)

Section Invariant.
  Context {U : Type} (budget : U -> nat) (E C : list Z -> list Z -> list Z).

(** The port's cipher may fail and does not make it call back more. *)
Definition port_mode : mode U :=
  {| may_fail := true; evolves := fun u u' => (budget u' <= budget u)%nat;
     evolves_preorder := Build_PreOrder _ (fun u => le_n (budget u)) (fun u v w H1 H2 => Nat.le_trans _ _ _ H2 H1) |}.

Definition cipher_ok (aes : bt_smp_aes128 U) : Prop :=
  match ae_encrypt aes with Some f => computes port_mode f E | None => True end.
Definition cmac_ok (cmac : bt_smp_aes_cmac U) : Prop :=
  match ac_calculate cmac with Some f => cmac_computes port_mode f C | None => True end.

Definition keys_ok (k : bt_smp_distributed_keys) : Prop :=
  sized 16 (dk_ltk k) /\ sized 8 (dk_rand k) /\ 0 <= dk_ediv k < 2 ^ 16 /\ sized 16 (dk_irk k) /\
  0 <= dk_identity_address_type k < 2 ^ 8 /\ sized 6 (dk_identity_address k) /\ sized 16 (dk_csrk k).

Definition opt {A} (P : A -> Prop) (o : option A) : Prop := match o with Some a => P a | None => True end.

(** What a caller may pass. *)
Definition call_ok (a : api U) : Prop :=
  match a with
  | OnPdu pdu _ => opt bytes pdu
  | ProvidePasskey passkey _ => 0 <= passkey < 2 ^ 32
  | ProvideOobTk tk _ => opt (sized 16) tk
  | OnLocalPublicKey _ x y _ => opt (sized 32) x /\ opt (sized 32) y
  | OnDhkey _ dhkey _ => opt (sized 32) dhkey
  | SetCmac cmac => opt cmac_ok cmac
  | _ => True
  end.

Abbreviation calls Q := (pays budget call_ok Q).
Abbreviation silent Q := (quiet (A := api U) (R := bt_status) budget Q).

(** The port: it fills the arrays it is given; the random generator, the key
    store and the display do not call back; the rest may, within the budget. *)
Definition port_ok (ops : bt_smp_manager_ops U) : Prop :=
  opt (fun f => forall pdu, calls (fun _ => True) (f pdu)) (op_send ops) /\
  opt (fun f => forall n, silent (opt (sized n)) (f n)) (op_random ops) /\
  opt (fun f => forall key n, calls (fun _ => True) (f key n)) (op_start_encryption ops) /\
  opt (fun f => calls (fun _ => True) f) (op_generate_public_key ops) /\
  opt (fun f => forall x y, calls (fun _ => True) (f x y)) (op_generate_dhkey ops) /\
  opt (fun f => forall mask, silent (opt keys_ok) (f mask)) (op_get_local_keys ops) /\
  opt (fun f => forall p l, calls (fun _ => True) (f p l)) (op_keys_complete ops) /\
  opt (fun f => (forall k, silent (fun _ => True) (f BT_SMP_USER_DISPLAY_PASSKEY k)) /\
                forall a k, calls (fun _ => True) (f a k)) (op_user_action ops) /\
  opt (fun f => forall r n, calls (fun _ => True) (f r n)) (op_complete ops).

(** The operations a pairing cannot do without. *)
Definition ready (ops : option (bt_smp_manager_ops U)) : Prop :=
  exists o, ops = Some o /\ op_send o <> None /\ op_random o <> None /\ op_start_encryption o <> None.

(** What the cipher and the CMAC compute are 16 bytes. *)
Definition cipher_sizes : Prop :=
  (forall key block, sized 16 key -> sized 16 block -> sized 16 (E key block)) /\
  (forall key message, sized 16 key -> bytes message -> sized 16 (C key message)).

(** *** Proofs of the peer's identity, in the history *)

(** These events, in this order, among others. *)
Definition seen (l tr : list smp_event) : Prop := l `sublist_of` tr.

(** The features that were agreed on, from our configuration and the Pairing
    Response [reverse pres]. *)
Definition agreed (config : bt_smp_manager_config) (pres : list Z) (n : bt_smp_pairing_negotiation) : Prop :=
  exists f n', reverse pres = [BT_SMP_PAIRING_RESPONSE] ++ feature_bytes f /\
    bt_smp_negotiate_pairing (Some (sf_features config)) (Some f) = Ret n' /\
    pn_secure_connections n = pn_secure_connections n' /\ pn_association n = pn_association n' /\
    pn_encryption_key_size n = pn_encryption_key_size n'.

(** How a temporary key was obtained, as its association model asks: shown to
    the user, or given by the user, and nothing otherwise. *)
Definition tk_obtained (a : bt_smp_association_method) (tk : list Z) (evs : list smp_event) : Prop :=
  match a with
  | BT_SMP_ASSOC_JUST_WORKS => tk = replicate 16 0 /\ evs = []
  | BT_SMP_ASSOC_PASSKEY_INITIATOR_DISPLAYS =>
      exists p, 0 <= p < 1000000 /\ tk = passkey_tk p /\ evs = [HUser BT_SMP_USER_DISPLAY_PASSKEY p]
  | BT_SMP_ASSOC_PASSKEY_RESPONDER_DISPLAYS | BT_SMP_ASSOC_PASSKEY_BOTH_INPUT =>
      exists p, 0 <= p < 1000000 /\ tk = passkey_tk p /\ evs = [HTk tk]
  | BT_SMP_ASSOC_OOB => evs = [HTk tk]
  | BT_SMP_ASSOC_NUMERIC_COMPARISON => False
  end.

Definition value_pdu (code : Z) (v : list Z) : list Z := [code] ++ reverse v.
Definition address1 (config : bt_smp_manager_config) : list Z := sf_initiator_address_type config :: sf_initiator_address config.
Definition address2 (config : bt_smp_manager_config) : list Z := sf_responder_address_type config :: sf_responder_address config.

(** c1 and s1 of Core Vol 3 Part H. *)
Definition c1 (config : bt_smp_manager_config) (tk r preq pres : list Z) : list Z :=
  E tk (xor_bytes (E tk (xor_bytes (pres ++ preq ++ [sf_responder_address_type config; sf_initiator_address_type config]) r))
    (replicate 4 0 ++ sf_initiator_address config ++ sf_responder_address config)).
Definition s1 (tk r1 r2 : list Z) : list Z := E tk (drop 8 r1 ++ drop 8 r2).

(** The keys of f5, and the check value of f6. *)
Definition f5_key (config : bt_smp_manager_config) (counter : Z) (dhkey n1 n2 : list Z) : list Z :=
  C (C f5_salt dhkey) (f5_message counter n1 n2 (address1 config) (address2 config)).
Definition f6 (mac_key n1 n2 io_cap a1 a2 : list Z) : list Z :=
  C mac_key (n1 ++ n2 ++ replicate 16 0 ++ io_cap ++ a1 ++ a2).

(** [key] with its most significant bytes cleared to [size] bytes. *)
Definition masked (key : list Z) (size : Z) : list Z :=
  replicate (Z.to_nat (16 - size)) 0 ++ drop (Z.to_nat (16 - size)) key.

Definition features_seen (preq pres : list Z) : list smp_event := [HOut (reverse preq); HIn (reverse pres)].
Definition commitment (confirm local : list Z) : list smp_event :=
  [HIn (value_pdu BT_SMP_PAIRING_CONFIRM confirm); HOut (value_pdu BT_SMP_PAIRING_RANDOM local)].
Definition opening (peer : list Z) : list smp_event := [HIn (value_pdu BT_SMP_PAIRING_RANDOM peer)].
Definition keys_seen (lx ly px py : list Z) : list smp_event :=
  [HLocalKey lx ly; HIn ([BT_SMP_PAIRING_PUBLIC_KEY] ++ reverse px ++ reverse py)].

(** Legacy pairing: the features were agreed, then the TK was obtained as the
    association model says, then the peer committed to its random value before
    it saw ours; the value it then revealed opens the commitment under the TK,
    and the key is the STK of the two. *)
Definition legacy_proof (config : bt_smp_manager_config) (tr : list smp_event) (key : list Z) (size : Z) : Prop :=
  exists preq pres tk obtained confirm local peer n,
    seen (features_seen preq pres ++ obtained ++ commitment confirm local ++ opening peer) tr /\
    agreed config pres n /\ pn_secure_connections n = false /\ tk_obtained (pn_association n) tk obtained /\
    c1 config tk peer preq pres = confirm /\
    size = pn_encryption_key_size n /\ key = masked (s1 tk peer local) size.

(** The number of a comparison, g2 over the public keys and the random values,
    and what the user saw and said of it after the commitment was opened. *)
Definition compared (lx px local peer : list Z) : Z := be_dec (drop 12 (C local (lx ++ px ++ peer))) mod 1000000.
Definition confirmation (a : bt_smp_association_method) (number : Z) : list smp_event :=
  match a with
  | BT_SMP_ASSOC_NUMERIC_COMPARISON => [HUser BT_SMP_USER_CONFIRM_NUMERIC number; HConfirmed true]
  | _ => []
  end.

(** Secure Connections: the same for f4 over the public keys, which differ;
    then, where the model compares numbers, the user was shown the number and
    confirmed it, and only then were the DHKey checks exchanged; the peer's is
    right, and the key is the LTK of f5. *)
Definition sc_commitment (px lx confirm peer : list Z) : Prop := px <> lx /\ C peer (px ++ lx ++ [0]) = confirm.
Definition sc_proof (config : bt_smp_manager_config) (tr : list smp_event) (key : list Z) (size : Z) : Prop :=
  exists preq pres lx ly px py dhkey confirm local peer check n,
    let mac_key := f5_key config 0 dhkey local peer in
    seen (features_seen preq pres ++ keys_seen lx ly px py ++ [HDhkey dhkey] ++ commitment confirm local ++
          opening peer ++ confirmation (pn_association n) (compared lx px local peer) ++ [HOut check; HIn (value_pdu BT_SMP_PAIRING_DHKEY_CHECK
            (f6 mac_key peer local (take 3 (drop 3 pres)) (address2 config) (address1 config)))]) tr /\
    agreed config pres n /\ pn_secure_connections n = true /\ sc_commitment px lx confirm peer /\
    (pn_association n = BT_SMP_ASSOC_JUST_WORKS \/ pn_association n = BT_SMP_ASSOC_NUMERIC_COMPARISON) /\
    size = pn_encryption_key_size n /\ key = masked (f5_key config 1 dhkey local peer) size.

(** Encryption is started with a proven key only, and success reported only
    after encryption was started and reported as on. *)
Definition justifies (config : bt_smp_manager_config) (tr : list smp_event) (e : smp_event) : Prop :=
  match e with
  | HEncrypt key size => legacy_proof config tr key size \/ sc_proof config tr key size
  | HDone BT_SMP_MANAGER_OK => exists key size, seen [HEncrypt key size; HEncryption true] tr
  | _ => True
  end.
Definition justified (config : bt_smp_manager_config) (tr : list smp_event) : Prop :=
  forall tr1 e tr2, tr = tr1 ++ e :: tr2 -> justifies config tr1 e.

(** *** The invariant *)

Record wf (ops : option (bt_smp_manager_ops U)) (config : bt_smp_manager_config) (m : bt_smp_manager U) : Prop := {
  wf_ops : sm_ops m = ops;
  wf_config : sm_config m = config;
  wf_aes : cipher_ok (sm_aes m);
  wf_cmac : cmac_ok (sm_cmac m);
  wf_ready : sm_state m <> BT_SMP_STATE_IDLE \/ sm_deadline_us m <> 0 -> ready ops;
  wf_dhkey_op : sm_state m = BT_SMP_STATE_WAIT_LOCAL_PUBLIC_KEY \/ sm_state m = BT_SMP_STATE_WAIT_PEER_PUBLIC_KEY ->
    exists o, ops = Some o /\ op_generate_dhkey o <> None;
  wf_preq : sized 7 (sm_preq m);
  wf_pres : sized 7 (sm_pres m);
  wf_tk : sized 16 (sm_tk m);
  wf_local_random : sized 16 (sm_local_random m);
  wf_peer_confirm : sized 16 (sm_peer_confirm m);
  wf_stk : sized 16 (sm_stk m);
  wf_local_keys : keys_ok (sm_local_keys m);
  wf_local_public_x : sized 32 (sm_local_public_x m);
  wf_peer_public_x : sized 32 (sm_peer_public_x m);
  wf_peer_public_y : sized 32 (sm_peer_public_y m);
  wf_dhkey : sized 32 (sm_dhkey m);
  wf_peer_random : sized 16 (sm_peer_random m);
  wf_mac_key : sized 16 (sm_mac_key m);
  wf_key_size : 0 <= pn_encryption_key_size (sm_negotiation m) <= 16;
}.

(** What must have happened for the manager to be in its state. *)
Definition chain (m : bt_smp_manager U) : list smp_event :=
  let features := features_seen (sm_preq m) (sm_pres m) in
  let keys := keys_seen (sm_local_public_x m) (sm_local_public_y m) (sm_peer_public_x m) (sm_peer_public_y m) in
  let committed := commitment (sm_peer_confirm m) (sm_local_random m) in
  match sm_state m with
  | BT_SMP_STATE_WAIT_PAIRING_RESPONSE => [HOut (reverse (sm_preq m))]
  | BT_SMP_STATE_WAIT_TK | BT_SMP_STATE_WAIT_PAIRING_CONFIRM | BT_SMP_STATE_WAIT_LOCAL_PUBLIC_KEY => features
  | BT_SMP_STATE_WAIT_PAIRING_RANDOM => features ++ committed
  | BT_SMP_STATE_WAIT_PEER_PUBLIC_KEY => features ++ [HLocalKey (sm_local_public_x m) (sm_local_public_y m)]
  | BT_SMP_STATE_WAIT_DHKEY => features ++ keys
  | BT_SMP_STATE_WAIT_SC_CONFIRM => features ++ keys ++ [HDhkey (sm_dhkey m)]
  | BT_SMP_STATE_WAIT_SC_RANDOM => features ++ keys ++ [HDhkey (sm_dhkey m)] ++ committed
  | BT_SMP_STATE_WAIT_NUMERIC_CONFIRMATION => features ++ keys ++ [HDhkey (sm_dhkey m)] ++ committed ++ opening (sm_peer_random m) ++
      [HUser BT_SMP_USER_CONFIRM_NUMERIC (sm_numeric_value m)]
  | BT_SMP_STATE_WAIT_ENCRYPTION => [HEncrypt (sm_stk m) (pn_encryption_key_size (sm_negotiation m))]
  | BT_SMP_STATE_WAIT_KEY_DISTRIBUTION =>
      [HEncrypt (sm_stk m) (pn_encryption_key_size (sm_negotiation m)); HEncryption true]
  | _ => []
  end.

Definition facts (m : bt_smp_manager U) (tr : list smp_event) : Prop :=
  let n := sm_negotiation m in
  let features sc := agreed (sm_config m) (sm_pres m) n /\ pn_secure_connections n = sc in
  let sc := features true /\ (pn_association n = BT_SMP_ASSOC_JUST_WORKS \/ pn_association n = BT_SMP_ASSOC_NUMERIC_COMPARISON) in
  let verified := sc_commitment (sm_peer_public_x m) (sm_local_public_x m) (sm_peer_confirm m) (sm_peer_random m) in
  let number := compared (sm_local_public_x m) (sm_peer_public_x m) (sm_local_random m) (sm_peer_random m) in
  match sm_state m with
  | BT_SMP_STATE_WAIT_TK => features false /\
      (pn_association n = BT_SMP_ASSOC_PASSKEY_RESPONDER_DISPLAYS \/ pn_association n = BT_SMP_ASSOC_PASSKEY_BOTH_INPUT \/
       pn_association n = BT_SMP_ASSOC_OOB)
  | BT_SMP_STATE_WAIT_PAIRING_CONFIRM => features false /\ exists obtained,
      tk_obtained (pn_association n) (sm_tk m) obtained /\ seen (features_seen (sm_preq m) (sm_pres m) ++ obtained) tr
  | BT_SMP_STATE_WAIT_PAIRING_RANDOM => features false /\ exists obtained,
      tk_obtained (pn_association n) (sm_tk m) obtained /\
      seen (features_seen (sm_preq m) (sm_pres m) ++ obtained ++ commitment (sm_peer_confirm m) (sm_local_random m)) tr
  | BT_SMP_STATE_WAIT_LOCAL_PUBLIC_KEY | BT_SMP_STATE_WAIT_PEER_PUBLIC_KEY => sc
  | BT_SMP_STATE_WAIT_DHKEY | BT_SMP_STATE_WAIT_SC_CONFIRM | BT_SMP_STATE_WAIT_SC_RANDOM =>
      sc /\ sm_peer_public_x m <> sm_local_public_x m
  | BT_SMP_STATE_WAIT_NUMERIC_CONFIRMATION => sc /\ verified /\ pn_association n = BT_SMP_ASSOC_NUMERIC_COMPARISON /\
      sm_numeric_value m = number
  | BT_SMP_STATE_WAIT_DHKEY_CHECK => sc /\ verified /\
      sm_mac_key m = f5_key (sm_config m) 0 (sm_dhkey m) (sm_local_random m) (sm_peer_random m) /\
      sm_stk m = masked (f5_key (sm_config m) 1 (sm_dhkey m) (sm_local_random m) (sm_peer_random m)) (pn_encryption_key_size n) /\
      exists check, seen (features_seen (sm_preq m) (sm_pres m) ++
        keys_seen (sm_local_public_x m) (sm_local_public_y m) (sm_peer_public_x m) (sm_peer_public_y m) ++
        [HDhkey (sm_dhkey m)] ++ commitment (sm_peer_confirm m) (sm_local_random m) ++ opening (sm_peer_random m) ++
        confirmation (pn_association n) number ++ [HOut check]) tr
  | _ => True
  end.

(** [past] is a part of the history that is known. *)
Record inv (ops : option (bt_smp_manager_ops U)) (config : bt_smp_manager_config) (past : list smp_event)
    (m : bt_smp_manager U) (tr : list smp_event) : Prop := {
  inv_wf : wf ops config m;
  inv_chain : seen (chain m) tr;
  inv_facts : facts m tr;
  inv_justified : justified config tr;
  inv_past : seen past tr;
}.
End Invariant.

(** ** Lemmas *)

Lemma seen_app l tr tr' : seen l tr -> seen l (tr ++ tr').
Proof. intros Hl. etrans; [exact Hl|]. by apply sublist_inserts_r. Qed.
Lemma seen_snoc l tr e : seen l tr -> seen (l ++ [e]) (tr ++ [e]).
Proof. intros Hl. by apply sublist_app. Qed.
Lemma seen_l l k tr : seen (l ++ k) tr -> seen l tr.
Proof. intros Hl. etrans; [|exact Hl]. by apply sublist_inserts_r. Qed.

Lemma timeout_deadline_pos now : timeout_deadline now <> 0 \/ now < 0.
Proof. unfold timeout_deadline, BT_SMP_TIMEOUT_US, UINT64_MAX. zcase; lia. Qed.

Lemma masked_spec key size : sized 16 key -> 0 <= size <= 16 ->
  mask_key key size = Ret (masked key size) /\ sized 16 (masked key size).
Proof.
  intros [Hl Hb] Hs. unfold mask_key, masked. set (k := Z.to_nat (16 - size)). split.
  - rewrite stn_spec by (rewrite ?length_replicate; lia). unfold splice. by rewrite length_replicate.
  - replace 16 with (Z.of_nat k + (16 - Z.of_nat k)) by lia. apply sized_app; [apply sized_zeros|]. split; [zlist|bys].
Qed.

Lemma reverse_copy_spec src n : zlen src = n -> reverse_copy src n = Ret (reverse src).
Proof. intros Hl. unfold reverse_copy. by rewrite ldn_all. Qed.
Lemma sized_reverse n l : sized n l -> sized n (reverse l).
Proof. intros [Hl Hb]. split; [by rewrite length_reverse|by apply Forall_reverse]. Qed.

Lemma zero_keys_ok : keys_ok zero_keys.
Proof.
  unfold keys_ok, zero_keys. cbn [dk_ltk dk_rand dk_ediv dk_irk dk_identity_address_type dk_identity_address dk_csrk].
  pose proof (sized_zeros 16). pose proof (sized_zeros 8). pose proof (sized_zeros 6). do 6 (split; [done || lia|]). done.
Qed.

Section Safety.
  Context {U : Type} (budget : U -> nat) (E C : list Z -> list Z -> list Z).
  Context (ops : option (bt_smp_manager_ops U)) (config : bt_smp_manager_config).
Abbreviation W := (world (bt_smp_manager U) U smp_event).
Abbreviation I past := (fun w : W => inv budget E C ops config past (w_self w) (w_trace w)).
Abbreviation ok past n := (within budget (I past) n).
Abbreviation at_ m u tr := ({| w_self := m; w_user := u; w_trace := tr |} : W).
  Implicit Types (m : bt_smp_manager U) (u : U) (tr past : list smp_event).

Definition config_ok : Prop :=
  bytes (feature_bytes (sf_features config)) /\
  0 <= sf_initiator_address_type config < 2 ^ 8 /\ 0 <= sf_responder_address_type config < 2 ^ 8 /\
  sized 6 (sf_initiator_address config) /\ sized 6 (sf_responder_address config).

Lemma justified_snoc tr e : justified E C config tr -> justifies E C config tr e -> justified E C config (tr ++ [e]).
Proof.
  intros Hj He tr1 e' tr2 Heq. destruct tr2 as [|x tr2] using rev_ind.
  - apply app_inj_tail in Heq as [-> ->]. done.
  - rewrite app_comm_cons, app_assoc in Heq. apply app_inj_tail in Heq as [-> _]. by eapply Hj.
Qed.

Lemma facts_app m tr tr' : facts C m tr -> facts C m (tr ++ tr').
Proof.
  unfold facts. cbv zeta. destruct (sm_state m); try done.
  - intros (? & ? & ? & ? & check & Hc). do 4 (split; [done|]). exists check. by apply seen_app.
  - intros (? & l & ? & Hc). split; [done|]. exists l. split; [done|by apply seen_app].
  - intros (? & l & ? & Hc). split; [done|]. exists l. split; [done|by apply seen_app].
Qed.

Lemma inv_event past m tr e : inv budget E C ops config past m tr -> justifies E C config tr e ->
  inv budget E C ops config past m (tr ++ [e]).
Proof.
  intros [Hwf Hc Hf Hj Hp] He. split; [done|by apply seen_app|by apply facts_app|by apply justified_snoc|by apply seen_app].
Qed.

Lemma inv_change past m tr m' : inv budget E C ops config past m tr -> wf budget E C ops config m' ->
  seen (chain m') tr -> facts C m' tr -> inv budget E C ops config past m' tr.
Proof. by intros [_ _ _ Hj Hp]. Qed.

Lemma inv_repast past past' m tr : inv budget E C ops config past m tr -> seen past' tr ->
  inv budget E C ops config past' m tr.
Proof. by intros [Hwf Hc Hf Hj _]. Qed.

(** Nothing is known in the last states. *)
Definition calm_state (s : bt_smp_manager_state) : Prop :=
  s = BT_SMP_STATE_IDLE \/ s = BT_SMP_STATE_COMPLETE \/ s = BT_SMP_STATE_FAILED.
Lemma calm_inv past m tr : calm_state (sm_state m) -> wf budget E C ops config m -> justified E C config tr -> seen past tr ->
  inv budget E C ops config past m tr.
Proof.
  intros Hs Hwf Hj Hp. split; [done| | |done|done]; unfold chain, facts; destruct Hs as [->|[->| ->]]; try done; apply sublist_nil_l.
Qed.

(** Rebuild [wf] after an assignment. *)
Ltac wf_set Hwf := destruct Hwf; constructor; cbn; try done; try (intros; by auto); eauto.

Lemma wf_deadline m v : wf budget E C ops config m -> (sm_state m <> BT_SMP_STATE_IDLE \/ v = 0 \/ ready ops) ->
  wf budget E C ops config (set_deadline_us v m).
Proof. intros Hwf Hv. wf_set Hwf. intros Hs. naive_solver. Qed.

Lemma inv_deadline past m tr v : inv budget E C ops config past m tr -> (sm_state m <> BT_SMP_STATE_IDLE \/ v = 0 \/ ready ops) ->
  inv budget E C ops config past (set_deadline_us v m) tr.
Proof. intros Hi Hv. eapply inv_change; [done|by apply wf_deadline; [by destruct Hi|]|by destruct Hi|by destruct Hi]. Qed.

Section Handlers.
  Context (call : api U -> M W bt_status) (n : nat).
  Hypothesis Hconfig : config_ok.
  Hypothesis Hsizes : cipher_sizes E C.
  Hypothesis Hport : opt (port_ok budget C) ops.
  Hypothesis Hcall : forall past, callable budget (I past) (call_ok budget C) call n.

Lemma port_of o : ops = Some o -> port_ok budget C o.
Proof. intros Ho. by rewrite Ho in Hport. Qed.

Lemma wp_op {X} past (Q : X -> Prop) (p : prog U (api U) bt_status X) m u tr R :
  pays budget (call_ok budget C) Q p -> inv budget E C ops config past m tr -> (budget u <= n)%nat ->
  (forall x w, Q x -> ok past n w -> R x w) -> wp (run_prog call p) (at_ m u tr) R.
Proof. intros Hp Hi Hb HR. by eapply (wp_prog budget (I past)). Qed.

Lemma wp_crypto {A} (f : M U A) a m u tr R : gives (port_mode budget) f a ->
  (forall o u', (o = None \/ o = Some a) -> (budget u' <= budget u)%nat -> R o (at_ m u' tr)) ->
  wp (crypto f) (at_ m u tr) R.
Proof.
  intros Hf HR. destruct (Hf u) as (o & u' & Ef & Hb & Ho). unfold wp, crypto, on_user, try, bind.
  cbn [w_user]. rewrite Ef. destruct Ho as [->|(_ & e & ->)]; eexists _, _; (split; [reflexivity|]); apply HR; auto.
Qed.

Lemma wp_parsed {A B} (o : outcome A) (k : option A -> M W B) w R : o <> Fault ->
  wp (k (match o with Ret a => Some a | _ => None end)) w R -> wp (bind (parsed o) k) w R.
Proof. intros Ho Hk. apply wp_bind. destruct o as [a|e|]; [|..|done]; eexists _, w; done. Qed.

Lemma the_op_spec {A B} (f : bt_smp_manager_ops U -> option A) o g (k : A -> M W B) m u tr R : ops = Some o -> f o = Some g ->
  sm_ops m = ops -> wp (k g) (at_ m u tr) R -> wp (bind (the_op f) k) (at_ m u tr) R.
Proof.
  intros Ho Hf Hm Hk. apply wp_bind. unfold the_op. wp_step. rewrite Hm, Ho, Hf. by apply wp_ret.
Qed.

Lemma has_op_spec {A B} (f : bt_smp_manager_ops U -> option A) o (k : bool -> M W B) m u tr R : ops = Some o ->
  sm_ops m = ops -> wp (k (bool_decide (f o <> None))) (at_ m u tr) R -> wp (bind (has_op f) k) (at_ m u tr) R.
Proof. intros Ho Hm Hk. apply wp_bind. unfold has_op. wp_step. rewrite Hm, Ho. by apply wp_ret. Qed.

(** [if (ops->f != NULL) ops->f(...)] *)
Lemma maybe_op_spec {A} past (f : bt_smp_manager_ops U -> option A) o (g : A -> M W unit) m u tr R : ops = Some o ->
  inv budget E C ops config past m tr -> (budget u <= n)%nat ->
  (forall h, f o = Some h -> wp (g h) (at_ m u tr) R) -> (forall w, ok past n w -> R tt w) ->
  wp (let! b := has_op f in if b then bind (the_op f) g else ret tt) (at_ m u tr) R.
Proof.
  intros Ho Hi Hb Hg HR. pose proof (wf_ops _ _ _ _ _ _ (inv_wf _ _ _ _ _ _ _ _ Hi)) as Hm.
  eapply has_op_spec; [done|done|]. destruct (f o) as [h|] eqn:Hf; cbn.
  - eapply the_op_spec; eauto.
  - apply wp_ret, HR. by split.
Qed.

Lemma finish_result_spec past result m u tr : inv budget E C ops config past m tr -> (budget u <= n)%nat -> ready ops ->
  (result = BT_SMP_MANAGER_OK -> exists key size, seen [HEncrypt key size; HEncryption true] tr) ->
  wp (finish call result) (at_ m u tr) (fun _ => ok past n).
Proof.
  intros Hi Hb (o & Ho & Hrdy) Hok. unfold finish. do 3 wp_step.
  set (m' := set_state _ _). assert (wf budget E C ops config m') as Hwf.
  { subst m'. destruct (inv_wf _ _ _ _ _ _ _ _ Hi). constructor; cbn; try done; [intros _; by exists o|].
    destruct (decide _); intros [?|?]; done. }
  assert (inv budget E C ops config past m' (tr ++ [HDone result])) as Hi'.
  { destruct Hi as [_ _ _ Hj Hp]. apply calm_inv; [|done| |by apply seen_app].
    - subst m'. cbn. unfold calm_state. destruct (decide _); auto.
    - apply justified_snoc; [done|]. destruct result; try done. by apply Hok. }
  eapply maybe_op_spec; [done|done|done| |done]. intros h Hh. wp_step.
  rewrite Ho in Hport. destruct Hport as (_ & _ & _ & _ & _ & _ & _ & _ & Hc). rewrite Hh in Hc.
  eapply wp_op; [apply Hc|done|done|done].
Qed.

Lemma finish_ok past result w : ok past n w -> ready ops -> result <> BT_SMP_MANAGER_OK ->
  wp (finish call result) w (fun _ => ok past n).
Proof. destruct w as [m u tr]. intros [Hi Hb] Hr Hres. by apply finish_result_spec. Qed.

Lemma or_finish_ok past sent w : ok past n w -> ready ops -> wp (or_finish call sent) w (fun _ => ok past n).
Proof. intros Hw Hr. unfold or_finish. destruct sent; [by apply wp_ret|by apply finish_ok]. Qed.

Lemma send_pdu_spec past pdu now m u tr R : ready ops -> inv budget E C ops config past m (tr ++ [HOut pdu]) ->
  (budget u <= n)%nat -> (forall st w, ok past n w -> R st w) -> wp (send_pdu call pdu now) (at_ m u tr) R.
Proof.
  intros Hr Hi Hb HR. unfold send_pdu. apply wp_set.
  pose proof (inv_deadline _ _ _ (timeout_deadline now) Hi (or_intror (or_intror Hr))) as Hi'.
  destruct Hr as (o & Ho & Hs & _). pose proof (port_of o Ho) as (Hsend & _).
  destruct (op_send o) as [send|] eqn:Es; [|done]. world_simpl.
  eapply the_op_spec; [done|done|by destruct (inv_wf _ _ _ _ _ _ _ _ Hi')|]. wp_step.
  eapply wp_op; [apply Hsend|done|done|auto].
Qed.

Lemma send_encoded_spec past cap enc bs now m u tr R : writes enc bs -> zlen bs <= cap -> ready ops ->
  inv budget E C ops config past m (tr ++ [HOut bs]) -> (budget u <= n)%nat -> (forall b w, ok past n w -> R b w) ->
  wp (send_encoded call cap enc now) (at_ m u tr) R.
Proof.
  intros He Hl Hr Hi Hb HR. unfold send_encoded. eapply wp_encode; [done|done|]. cbn [fst snd].
  rewrite decide_True by done. apply wp_bind. eapply send_pdu_spec; [done|done|done|].
  intros st w Hw. apply wp_ret. by apply HR.
Qed.

Lemma send_failed_spec past reason now result m u tr : inv budget E C ops config past m tr -> (budget u <= n)%nat -> ready ops ->
  1 <= reason <= 16 -> result <> BT_SMP_MANAGER_OK ->
  wp (send_failed call reason now result) (at_ m u tr) (fun _ => ok past n).
Proof.
  intros Hi Hb Hr Hrs Hres. unfold send_failed. apply wp_bind. eapply send_encoded_spec.
  - apply (writes_message (Small BT_SMP_PAIRING_FAILED reason)). left. by split.
  - done.
  - done.
  - by apply inv_event.
  - done.
  - intros b w Hw. by apply finish_ok.
Qed.

Lemma value128_writes code v : code ∈ [3; 4; 6; 8; 10; 13] -> sized 16 v -> writes (bt_smp_encode_value128 code v) ([code] ++ v) /\ zlen ([code] ++ v) <= 17.
Proof.
  intros Hc Hv. split; [by apply (writes_message (Value128 code v))|]. destruct Hv as [Hl _]. rewrite length_app. simpl. lia.
Qed.

(** A 16-byte value sent from a state that allows it, then [or_finish]. *)
Lemma send_value_spec past code v now m u tr : code ∈ [3; 4; 6; 8; 10; 13] -> sized 16 v -> ready ops ->
  inv budget E C ops config past m (tr ++ [HOut ([code] ++ v)]) -> (budget u <= n)%nat ->
  wp (let! sent := send_encoded call 17 (bt_smp_encode_value128 code v) now in or_finish call sent) (at_ m u tr)
    (fun _ => ok past n).
Proof.
  intros Hc Hv Hr Hi Hb. destruct (value128_writes code v Hc Hv) as [Hw Hl]. apply wp_bind.
  eapply send_encoded_spec; [done|done|done|done|done|]. intros b w Hok. by apply or_finish_ok.
Qed.

Lemma wp_random {B} len (k : option (list Z) -> M W B) m u tr R : wf budget E C ops config m -> ready ops ->
  (forall u', (budget u' <= budget u)%nat -> wp (k None) (at_ m u' tr) R) ->
  (forall bs u', sized len bs -> (budget u' <= budget u)%nat -> wp (k (Some bs)) (at_ m u' (tr ++ [HRandom bs])) R) ->
  wp (bind (random call len) k) (at_ m u tr) R.
Proof.
  intros Hwf (o & Ho & _ & Hr & _) HN HS. apply wp_bind. unfold random. rewrite Ho in Hport.
  destruct Hport as (_ & Hrand & _). destruct (op_random o) as [f|] eqn:Ef; [|done].
  eapply the_op_spec; [done|done|by destruct Hwf|]. apply wp_bind. eapply wp_quiet; [apply Hrand|].
  intros [bs|] u' Hx Hb; cbn in Hx, Hb.
  - apply wp_emit, wp_ret. by apply HS.
  - apply wp_ret. by apply HN.
Qed.

Lemma user_action_spec past action k m u tr R : ready ops -> inv budget E C ops config past m (tr ++ [HUser action k]) -> (budget u <= n)%nat ->
  (forall w, ok past n w -> R tt w) -> wp (user_action call action k) (at_ m u tr) R.
Proof.
  intros (o & Ho & _) Hi Hb HR. unfold user_action. wp_step.
  eapply maybe_op_spec; [done|done|done| |done]. intros h Hh. rewrite Ho in Hport.
  destruct Hport as (_ & _ & _ & _ & _ & _ & _ & Ha & _). rewrite Hh in Ha. destruct Ha as [_ Ha].
  eapply wp_op; [apply Ha|done|done|]. intros [] w _ Hw. by apply HR.
Qed.

(** Displaying a passkey does not call back. *)
Lemma display_spec {B} (k : unit -> M W B) p m u tr R : ready ops -> wf budget E C ops config m ->
  (forall u', (budget u' <= budget u)%nat -> wp (k tt) (at_ m u' (tr ++ [HUser BT_SMP_USER_DISPLAY_PASSKEY p])) R) ->
  wp (bind (user_action call BT_SMP_USER_DISPLAY_PASSKEY p) k) (at_ m u tr) R.
Proof.
  intros (o & Ho & _) Hwf HR. apply wp_bind. unfold user_action. wp_step.
  rewrite Ho in Hport. destruct Hport as (_ & _ & _ & _ & _ & _ & _ & Ha & _).
  eapply has_op_spec; [done|by destruct Hwf|]. destruct (op_user_action o) as [h|] eqn:Hh; cbn.
  - destruct Ha as [Ha _]. eapply the_op_spec; [done|done|by destruct Hwf|]. eapply wp_quiet; [apply Ha|].
    intros [] u' _ Hb. cbn in Hb. by apply HR.
  - apply wp_ret. by apply HR.
Qed.

(** *** The cipher *)

Lemma c1_gives m r : wf budget E C ops config m -> sized 16 r ->
  gives (port_mode budget) (bt_smp_crypto_c1 (Some (sm_aes m)) (Some (sm_tk m)) (Some r) (Some (sm_preq m)) (Some (sm_pres m))
    (sf_initiator_address_type (sm_config m)) (sf_responder_address_type (sm_config m))
    (Some (sf_initiator_address (sm_config m))) (Some (sf_responder_address (sm_config m))))
    (c1 E config (sm_tk m) r (sm_preq m) (sm_pres m)).
Proof.
  intros [] Hr. destruct Hconfig as (_ & Hi & Hrt & Ha & Hb). rewrite wf_config0. unfold cipher_ok in wf_aes0.
  destruct (sm_aes m) as [[f|]]; cbn in *; [|intros s; eexists _, s; split; [reflexivity|]; split; [done|right; eauto]].
  destruct (decide (sf_initiator_address_type config <= 1 /\ sf_responder_address_type config <= 1)) as [Hle|Hgt].
  - apply c1_spec; try done; lia.
  - unfold bt_smp_crypto_c1. do 7 (eapply gives_bind; [apply gives_ret|]).
    replace (_ || _) with true by (symmetry; apply orb_true_iff; rewrite !Z.gtb_lt; lia).
    intros s. eexists _, s. split; [reflexivity|]. split; [done|]. right. eauto.
Qed.

Lemma s1_gives m r1 r2 : wf budget E C ops config m -> sized 16 r1 -> sized 16 r2 ->
  gives (port_mode budget) (bt_smp_crypto_s1 (Some (sm_aes m)) (Some (sm_tk m)) (Some r1) (Some r2)) (s1 E (sm_tk m) r1 r2).
Proof.
  intros [] H1 H2. unfold cipher_ok in wf_aes0. destruct (sm_aes m) as [[f|]]; cbn in *; [by apply s1_spec|].
  intros s. eexists _, s. split; [reflexivity|]. split; [done|]. right. eauto.
Qed.

(** A CMAC function whose provider may be missing. *)
Lemma cmac_gives {A} (cm : bt_smp_aes_cmac U) (f : option (bt_smp_aes_cmac U) -> M U A) a : cmac_ok budget C cm ->
  (forall calculate, cmac_computes (port_mode budget) calculate C -> gives (port_mode budget) (f (Some {| ac_calculate := Some calculate |})) a) ->
  (forall s, f (Some {| ac_calculate := None |}) s = (Fail BT_ERR_INVALID_ARGUMENT, s)) ->
  gives (port_mode budget) (f (Some cm)) a.
Proof.
  intros Hc Hf HN. unfold cmac_ok in Hc. destruct cm as [[calc|]]; cbn in *; [by apply Hf|].
  intros s. rewrite HN. eexists _, s. split; [reflexivity|]. split; [done|]. right. eauto.
Qed.

Lemma address1_sized : sized 7 (address1 config).
Proof. destruct Hconfig as (_ & Hi & _ & Ha & _). apply (sized_app 1 6 [_]); [split; [done|by bys]|done]. Qed.
Lemma address2_sized : sized 7 (address2 config).
Proof. destruct Hconfig as (_ & _ & Hi & _ & Ha). apply (sized_app 1 6 [_]); [split; [done|by bys]|done]. Qed.

Lemma wp_addresses {B} (k : list Z * list Z -> M W B) m u tr R : sm_config m = config ->
  wp (k (address1 config, address2 config)) (at_ m u tr) R -> wp (bind addresses k) (at_ m u tr) R.
Proof.
  intros Hm Hk. destruct Hconfig as (_ & _ & _ & [H1 _] & [H2 _]). apply wp_bind. unfold addresses, type_and_address.
  wp_step. rewrite Hm, !ldn_all by done. by apply wp_ret.
Qed.

Lemma f5_gives m n1 n2 : wf budget E C ops config m -> sized 16 n1 -> sized 16 n2 ->
  gives (port_mode budget) (bt_smp_crypto_f5 (Some (sm_cmac m)) (Some (sm_dhkey m)) (Some n1) (Some n2)
    (Some (address1 config)) (Some (address2 config)))
    (f5_key C config 0 (sm_dhkey m) n1 n2, f5_key C config 1 (sm_dhkey m) n1 n2).
Proof.
  intros [] H1 H2. pose proof address1_sized. pose proof address2_sized.
  apply (cmac_gives _ (fun c => bt_smp_crypto_f5 c _ _ _ _ _)); [done| |done]. intros. by apply f5_spec.
Qed.

Lemma f4_gives m r : wf budget E C ops config m -> sized 16 r ->
  gives (port_mode budget) (bt_smp_crypto_f4 (Some (sm_cmac m)) (Some (sm_peer_public_x m)) (Some (sm_local_public_x m)) (Some r) 0)
    (C r (sm_peer_public_x m ++ sm_local_public_x m ++ [0])).
Proof.
  intros [] Hr. apply (cmac_gives _ (fun c => bt_smp_crypto_f4 c _ _ _ _)); [done| |done]. intros. by apply f4_spec.
Qed.

Lemma g2_gives m r1 r2 : wf budget E C ops config m -> sized 16 r1 -> sized 16 r2 -> exists v,
  gives (port_mode budget) (bt_smp_crypto_g2 (Some (sm_cmac m)) (Some (sm_local_public_x m)) (Some (sm_peer_public_x m))
    (Some r1) (Some r2)) v /\ v mod 1000000 = compared C (sm_local_public_x m) (sm_peer_public_x m) r1 r2.
Proof.
  intros [] H1 H2. eexists. split; [|reflexivity].
  apply (cmac_gives _ (fun c => bt_smp_crypto_g2 c _ _ _ _)); [done| |done]. intros. by apply g2_spec.
Qed.

Lemma f6_gives m n1 n2 io a1 a2 : wf budget E C ops config m -> sized 16 n1 -> sized 16 n2 -> sized 3 io -> sized 7 a1 -> sized 7 a2 ->
  gives (port_mode budget) (bt_smp_crypto_f6 (Some (sm_cmac m)) (Some (sm_mac_key m)) (Some n1) (Some n2)
    (Some (replicate 16 0)) (Some io) (Some a1) (Some a2)) (f6 C (sm_mac_key m) n1 n2 io a1 a2).
Proof.
  intros [] H1 H2 H3 H4 H5. pose proof (sized_zeros 16).
  apply (cmac_gives _ (fun c => bt_smp_crypto_f6 c _ _ _ _ _ _ _)); [done| |done]. intros. by apply f6_spec.
Qed.

Lemma c1_sized tk r preq pres : sized 16 tk -> sized 16 r -> sized 7 preq -> sized 7 pres ->
  sized 16 (c1 E config tk r preq pres).
Proof.
  destruct Hsizes as [HE _], Hconfig as (_ & Hi & Hr & Ha & Hb). intros Htk Hrr Hq Hp. unfold c1.
  assert (sized 16 (pres ++ preq ++ [sf_responder_address_type config; sf_initiator_address_type config])).
  { apply (sized_app 7 9); [done|]. apply (sized_app 7 2); [done|]. split; [done|bys]. }
  assert (sized 16 (replicate 4 0 ++ sf_initiator_address config ++ sf_responder_address config)).
  { apply (sized_app 4 12); [apply (sized_zeros 4)|]. by apply (sized_app 6 6). }
  apply HE; [done|]. apply xor_sized; [|done]. apply HE; [done|]. by apply xor_sized.
Qed.

Lemma s1_sized tk r1 r2 : sized 16 tk -> sized 16 r1 -> sized 16 r2 -> sized 16 (s1 E tk r1 r2).
Proof.
  destruct Hsizes as [HE _]. intros Htk [H1 H1b] [H2 H2b]. apply HE; [done|].
  apply (sized_app 8 8); (split; [zlist|bys]).
Qed.

Lemma f5_key_sized c dhkey n1 n2 : is_byte c -> sized 32 dhkey -> sized 16 n1 -> sized 16 n2 ->
  sized 16 (f5_key C config c dhkey n1 n2).
Proof.
  destruct Hsizes as [_ HC]. intros Hc [_ Hd] H1 H2. unfold f5_key. apply HC; [apply HC; [split; [done|concrete_bytes]|done]|].
  destruct (f5_sized c n1 n2 (address1 config) (address2 config) Hc H1 H2 address1_sized address2_sized). done.
Qed.

Lemma f6_sized k n1 n2 io a1 a2 : sized 16 k -> sized 16 n1 -> sized 16 n2 -> sized 3 io -> sized 7 a1 -> sized 7 a2 ->
  sized 16 (f6 C k n1 n2 io a1 a2).
Proof.
  destruct Hsizes as [_ HC]. intros Hk [_ H1] [_ H2] [_ H3] [_ H4] [_ H5]. apply HC; [done|].
  pose proof (sized_zeros 16) as [_ Hz]. repeat (apply Forall_app; split; [done|]). done.
Qed.

Lemma passkey_sized p : sized 16 (passkey_tk p).
Proof. split; [done|]. unfold passkey_tk. apply Forall_app. split; [apply Forall_replicate; unfold is_byte; lia|bys]. Qed.

(** *** The handlers *)

(** Legacy features agreed, with the TK of the association model. *)
Definition confirmable m tr : Prop :=
  (sm_state m = BT_SMP_STATE_WAIT_PAIRING_RESPONSE \/ sm_state m = BT_SMP_STATE_WAIT_TK) /\
  agreed config (sm_pres m) (sm_negotiation m) /\ pn_secure_connections (sm_negotiation m) = false /\
  exists obtained, tk_obtained (pn_association (sm_negotiation m)) (sm_tk m) obtained /\
    seen (features_seen (sm_preq m) (sm_pres m) ++ obtained) tr.

Ltac wf_update Hwf := destruct Hwf; constructor; cbn; try done; try (intros; by auto); eauto;
  try (intros [?|?]; congruence).

Lemma set_local_random_wf m r : wf budget E C ops config m -> sized 16 r -> wf budget E C ops config (set_local_random r m).
Proof. intros Hwf Hr. wf_update Hwf. Qed.

Lemma wp_confirm_value {B} r (k : option (list Z) -> M W B) m u tr R : wf budget E C ops config m -> sized 16 r ->
  (forall o u', (o = None \/ o = Some (c1 E config (sm_tk m) r (sm_preq m) (sm_pres m))) -> (budget u' <= budget u)%nat ->
    wp (k o) (at_ m u' tr) R) -> wp (bind (confirm_value r) k) (at_ m u tr) R.
Proof. intros Hwf Hr HR. apply wp_bind. unfold confirm_value. apply wp_get. eapply wp_crypto; [by apply c1_gives|done]. Qed.

Lemma start_confirm_exchange_spec past now m u tr : inv budget E C ops config past m tr -> (budget u <= n)%nat -> ready ops ->
  confirmable m tr -> wp (start_confirm_exchange call now) (at_ m u tr) (fun _ => ok past n).
Proof.
  intros Hi Hb Hr (Hs & Ha & Hsc & obtained & Htk & Hseen). unfold start_confirm_exchange.
  pose proof (inv_wf _ _ _ _ _ _ _ _ Hi) as Hwf. eapply wp_random; [done|done| |].
  { intros u' Hu. apply send_failed_spec; [done|lia|done|lia|done]. }
  intros r u' Hrs Hu. wp_step. set (m1 := set_local_random r m).
  assert (wf budget E C ops config m1) as Hwf1 by (by apply set_local_random_wf).
  assert (inv budget E C ops config past m1 (tr ++ [HRandom r])) as Hi1.
  { apply (inv_event _ _ _ (HRandom r)) in Hi; [|done]. eapply inv_change; [done|done|..];
      destruct Hi as [_ Hc Hf _ _]; unfold chain, facts in *; subst m1; cbn; destruct Hs as [Es|Es]; rewrite Es in *; done. }
  apply wp_confirm_value; [done|done|]. intros o u'' Ho Hu'. destruct Ho as [->| ->].
  { apply send_failed_spec; [done|lia|done|lia|done]. }
  assert (sized 16 (c1 E config (sm_tk m1) r (sm_preq m1) (sm_pres m1))) as Hc by (destruct Hwf1; by apply c1_sized).
  eapply wp_lift; [apply reverse_copy_spec; by destruct Hc|]. wp_step.
  apply (send_value_spec past 3); [by left|by apply sized_reverse|done| |lia].
  apply inv_event; [|done]. eapply inv_change; [done|..].
  - subst m1. wf_update Hwf1.
  - apply seen_app. by eapply seen_l.
  - subst m1. unfold facts. cbn. rewrite (wf_config _ _ _ _ _ _ Hwf). split; [done|]. exists obtained. split; [done|by apply seen_app].
Qed.

(** What is known of a manager in the state [s] of [Es]. *)
Ltac at_state Hi Es Hc Hf :=
  pose proof (inv_chain _ _ _ _ _ _ _ _ Hi) as Hc; pose proof (inv_facts _ _ _ _ _ _ _ _ Hi) as Hf;
  unfold chain in Hc; unfold facts in Hf; rewrite Es in Hc, Hf; cbv zeta in Hc, Hf;
  try rewrite (wf_config _ _ _ _ _ _ (inv_wf _ _ _ _ _ _ _ _ Hi)) in Hf.

(** The peer's random value opened its commitment, and then the user [said]. *)
Definition sc_seen m (said : list smp_event) tr : Prop :=
  seen (features_seen (sm_preq m) (sm_pres m) ++
    keys_seen (sm_local_public_x m) (sm_local_public_y m) (sm_peer_public_x m) (sm_peer_public_y m) ++
    [HDhkey (sm_dhkey m)] ++ commitment (sm_peer_confirm m) (sm_local_random m) ++ opening (sm_peer_random m) ++ said) tr /\
  agreed config (sm_pres m) (sm_negotiation m) /\ pn_secure_connections (sm_negotiation m) = true /\
  sc_commitment C (sm_peer_public_x m) (sm_local_public_x m) (sm_peer_confirm m) (sm_peer_random m).
Definition number m : Z := compared C (sm_local_public_x m) (sm_peer_public_x m) (sm_local_random m) (sm_peer_random m).
Definition sc_model m : Prop :=
  pn_association (sm_negotiation m) = BT_SMP_ASSOC_JUST_WORKS \/
  pn_association (sm_negotiation m) = BT_SMP_ASSOC_NUMERIC_COMPARISON.

Lemma wp_check_value {B} n1 n2 io a1 a2 (k : option (list Z) -> M W B) m u tr R : wf budget E C ops config m ->
  sized 16 n1 -> sized 16 n2 -> sized 3 io -> sized 7 a1 -> sized 7 a2 ->
  (forall o u', (o = None \/ o = Some (f6 C (sm_mac_key m) n1 n2 io a1 a2)) -> (budget u' <= budget u)%nat ->
    wp (k o) (at_ m u' tr) R) -> wp (bind (check_value n1 n2 io a1 a2) k) (at_ m u tr) R.
Proof.
  intros Hwf H1 H2 H3 H4 H5 HR. apply wp_bind. unfold check_value. apply wp_get. eapply wp_crypto; [by apply f6_gives|done].
Qed.

Lemma io_capability_sized : let f := sf_features config in
  sized 3 [pf_auth_req f; pf_oob_data_flag f; pf_io_capability f].
Proof. destruct Hconfig as [Hf _]. split; [done|]. unfold feature_bytes in Hf. rewrite !Forall_cons in Hf. destruct Hf as (? & ? & ? & _). bys. Qed.

Lemma start_sc_stage2_spec past now m u tr : inv budget E C ops config past m tr -> (budget u <= n)%nat -> ready ops ->
  sm_state m = BT_SMP_STATE_WAIT_SC_RANDOM \/ sm_state m = BT_SMP_STATE_WAIT_NUMERIC_CONFIRMATION ->
  sc_seen m (confirmation (pn_association (sm_negotiation m)) (number m)) tr -> sc_model m -> wp (start_sc_stage2 call now) (at_ m u tr) (fun _ => ok past n).
Proof.
  intros Hi Hb Hr Hs (Hseen & Ha & Hsc & Hcm) Hcf. unfold start_sc_stage2.
  pose proof (inv_wf _ _ _ _ _ _ _ _ Hi) as Hwf. pose proof (wf_config _ _ _ _ _ _ Hwf) as Hm.
  apply wp_addresses; [done|]. apply wp_get. world_simpl. apply wp_bind.
  eapply wp_crypto; [destruct Hwf; by apply f5_gives|]. intros o u' Ho Hu. destruct Ho as [->| ->].
  { apply send_failed_spec; [done|lia|done|lia|done]. }
  do 2 wp_step. set (m1 := set_stk _ _). cbn [fst snd]. rewrite Hm.
  set (local := sm_local_random m) in *. set (peer := sm_peer_random m) in *.
  pose proof io_capability_sized as Hio. pose proof address1_sized as H1. pose proof address2_sized as H2.
  assert (sized 16 local /\ sized 16 peer /\ sized 32 (sm_dhkey m)) as (Hl & Hp & Hd) by (by destruct Hwf).
  assert (wf budget E C ops config m1) as Hwf1.
  { subst m1. wf_update Hwf; apply f5_key_sized; (done || unfold is_byte; lia). }
  assert (inv budget E C ops config past m1 tr) as Hi1.
  { eapply inv_change; [done|done|..]; destruct Hs as [Es|Es]; at_state Hi Es Hc Hf; unfold chain, facts; subst m1; cbn;
      rewrite Es, ?Hm; done. }
  apply wp_check_value; [done..|]. intros o u'' Ho Hu'. destruct Ho as [->| ->].
  { apply send_failed_spec; [done|lia|done|lia|done]. }
  destruct (masked_spec (f5_key C config 1 (sm_dhkey m) local peer) (pn_encryption_key_size (sm_negotiation m)))
    as [Hmask Hms]; [by destruct Hwf1|by destruct Hwf|].
  eapply wp_lift; [done|]. wp_step.
  assert (sized 16 (f6 C (sm_mac_key m1) local peer [pf_auth_req (sf_features config); pf_oob_data_flag (sf_features config);
    pf_io_capability (sf_features config)] (address1 config) (address2 config))) as Hv by (apply f6_sized; try done; by destruct Hwf1).
  eapply wp_lift; [apply reverse_copy_spec; by destruct Hv|]. wp_step.
  apply (send_value_spec past 13); [repeat constructor|by apply sized_reverse|done| |lia].
  eapply inv_change; [by apply inv_event| |apply sublist_nil_l|].
  - subst m1. wf_update Hwf1.
  - unfold facts. cbn. rewrite Hm. do 4 (split; [done|]).
    eexists. pose proof (seen_snoc _ _ (HOut ([13] ++ reverse (f6 C (sm_mac_key m1) local peer
        [pf_auth_req (sf_features config); pf_oob_data_flag (sf_features config); pf_io_capability (sf_features config)]
        (address1 config) (address2 config)))) Hseen) as Hx. rewrite <- !app_assoc in Hx. exact Hx.
Qed.

(** The features were exchanged and agreed on. *)
Definition features_known (sc : bool) m tr : Prop :=
  sm_state m = BT_SMP_STATE_WAIT_PAIRING_RESPONSE /\ seen (features_seen (sm_preq m) (sm_pres m)) tr /\
  agreed config (sm_pres m) (sm_negotiation m) /\ pn_secure_connections (sm_negotiation m) = sc.

Lemma start_secure_connections_spec past now m u tr : inv budget E C ops config past m tr -> (budget u <= n)%nat -> ready ops ->
  features_known true m tr -> wp (start_secure_connections call now) (at_ m u tr) (fun _ => ok past n).
Proof.
  intros Hi Hb Hr (Hs & Hseen & Ha & Hsc). unfold start_secure_connections. wp_step.
  pose proof (inv_wf _ _ _ _ _ _ _ _ Hi) as Hwf. pose proof Hr as (o & Ho & _).
  pose proof (port_of o Ho) as (_ & _ & _ & Hg & _).
  destruct (negb _ && negb _) eqn:Eassoc; [apply send_failed_spec; [done..|lia|done]|].
  eapply has_op_spec; [done|by destruct Hwf|]. eapply has_op_spec; [done|by destruct Hwf|].
  destruct (_ || negb _) eqn:Eops; [apply send_failed_spec; [done..|lia|done]|].
  apply orb_false_iff in Eops as [Eops Ed]. apply orb_false_iff in Eops as [_ Eg].
  apply negb_false_iff, bool_decide_eq_true in Ed, Eg.
  do 2 wp_step. set (m1 := set_deadline_us _ _). assert (wf budget E C ops config m1) as Hwf1.
  { subst m1. wf_update Hwf. }
  assert (inv budget E C ops config past m1 tr) as Hi1.
  { eapply inv_change; [done|done|done|]. unfold facts. cbn. rewrite (wf_config _ _ _ _ _ _ Hwf).
    apply andb_false_iff in Eassoc. rewrite !negb_false_iff, !bool_decide_eq_true in Eassoc. auto. }
  destruct (op_generate_public_key o) as [f|] eqn:Ef; [|done]. cbn in Hg.
  eapply the_op_spec; [done|done|by destruct Hwf1|]. apply wp_bind. eapply wp_op; [apply Hg|done|done|].
  intros st w _ Hw. destruct (decide (st = BT_OK)); [by apply wp_ret|by apply finish_ok].
Qed.

Lemma set_tk_inv past v m tr : inv budget E C ops config past m tr -> sized 16 v ->
  sm_state m = BT_SMP_STATE_WAIT_PAIRING_RESPONSE \/ sm_state m = BT_SMP_STATE_WAIT_TK ->
  inv budget E C ops config past (set_tk v m) tr.
Proof.
  intros Hi Hv Hs. pose proof (inv_wf _ _ _ _ _ _ _ _ Hi) as Hwf.
  eapply inv_change; [done|wf_update Hwf|..]; destruct Hs as [Es|Es]; at_state Hi Es Hc Hf; unfold chain, facts;
    cbn; rewrite Es, ?(wf_config _ _ _ _ _ _ Hwf); done.
Qed.

(** Waiting for the user's TK. *)
Lemma request_tk_spec past action m u tr : inv budget E C ops config past m tr -> (budget u <= n)%nat -> ready ops ->
  features_known false m tr ->
  pn_association (sm_negotiation m) = BT_SMP_ASSOC_PASSKEY_RESPONDER_DISPLAYS \/
  pn_association (sm_negotiation m) = BT_SMP_ASSOC_PASSKEY_BOTH_INPUT \/ pn_association (sm_negotiation m) = BT_SMP_ASSOC_OOB ->
  wp (do! set (set_state BT_SMP_STATE_WAIT_TK) in user_action call action 0) (at_ m u tr) (fun _ => ok past n).
Proof.
  intros Hi Hb Hr (Hs & Hseen & Ha & Hsc) Hassoc. pose proof (inv_wf _ _ _ _ _ _ _ _ Hi) as Hwf. wp_step.
  apply (user_action_spec past); [done|apply inv_event; [|done]|done|done]. eapply inv_change; [done|wf_update Hwf|done|].
  unfold facts. cbn. by rewrite (wf_config _ _ _ _ _ _ Hwf).
Qed.

Lemma passkey_spec bs : sized 4 bs -> exists p, 0 <= p < 1000000 /\
  (let? b0 := ld bs 0 in let? b1 := ld bs 1 in let? b2 := ld bs 2 in let? b3 := ld bs 3 in
   Ret (Z.lor (Z.lor (Z.lor (u32 (Z.shiftl b0 24)) (Z.shiftl b1 16)) (Z.shiftl b2 8)) b3 mod 1000000)) = Ret p.
Proof.
  intros [Hl _]. destruct bs as [|b0 [|b1 [|b2 [|b3 [|]]]]]; cbn in Hl; try lia.
  eexists. split; [|reflexivity]. apply Z.mod_pos_bound. lia.
Qed.

Lemma start_legacy_spec past now m u tr : inv budget E C ops config past m tr -> (budget u <= n)%nat -> ready ops ->
  features_known false m tr -> wp (start_legacy call now) (at_ m u tr) (fun _ => ok past n).
Proof.
  intros Hi Hb Hr Hk. pose proof Hk as (Hs & Hseen & Ha & Hsc). unfold start_legacy. wp_step.
  pose proof (inv_wf _ _ _ _ _ _ _ _ Hi) as Hwf.
  destruct (flag _ _); [apply send_failed_spec; [done..|lia|done]|].
  destruct (pn_association (sm_negotiation m)) eqn:Ea.
  - wp_step. apply start_confirm_exchange_spec; [apply set_tk_inv; [done|apply (sized_zeros 16)|by left]|done|done|].
    split; [by left|]. cbn. rewrite Ea. do 2 (split; [done|]). exists []. done.
  - apply request_tk_spec; auto.
  - apply send_failed_spec; [done..|lia|done].
  - eapply wp_random; [done|done| |].
    { intros u' Hu. apply send_failed_spec; [done|lia|done|lia|done]. }
    intros bs u' Hbs Hu. destruct (passkey_spec bs Hbs) as (p & Hp & Ep). eapply wp_lift; [done|]. wp_step.
    assert (inv budget E C ops config past (set_tk (passkey_tk p) m) tr) as Hi1.
    { apply set_tk_inv; [done|apply passkey_sized|by left]. }
    eapply display_spec; [done|by destruct Hi1|].
    intros u'' Hu'. apply start_confirm_exchange_spec; [|lia|done|].
    + by do 2 (apply inv_event; [|done]).
    + split; [by left|]. cbn. rewrite Ea. do 2 (split; [done|]). exists [HUser BT_SMP_USER_DISPLAY_PASSKEY p].
      split; [by exists p|]. apply (seen_snoc (features_seen (sm_preq m) (sm_pres m))). by apply seen_app.
  - apply request_tk_spec; auto.
  - apply request_tk_spec; auto.
Qed.

(** *** Received commands *)

Definition pdu_of (msg : message) : list Z := [code_of msg] ++ payload msg.
Definition command_of (msg : message) : bt_smp_command :=
  {| sc_code := code_of msg; sc_data := payload msg; sc_data_len := zlen (payload msg) |}.

Lemma negotiate_key_size f n' : features_ok f -> bt_smp_negotiate_pairing (Some (sf_features config)) (Some f) = Ret n' ->
  0 <= pn_encryption_key_size n' <= 16.
Proof.
  intros Hf Hn. unfold bt_smp_negotiate_pairing in Hn. destruct (negb _ || negb _) eqn:Ev; [done|].
  apply orb_false_iff in Ev as [Ev _]. apply negb_false_iff, features_valid_spec in Ev; [|apply Hconfig].
  destruct Ev as (_ & _ & _ & Ev & _); destruct Hf as (_ & _ & _ & Hf & _).
  destruct (_ || _); [done|]. injection Hn as <-. cbn. destruct (_ <? _); lia.
Qed.

Lemma features_parse f : features_ok f -> bt_smp_parse_pairing_features (command_of (Features true f)) = Ret f.
Proof. intros Hf. exact (parses_message (Features true f) Hf). Qed.

Lemma features_agreed_spec past now f n' m u tr : inv budget E C ops config past m tr -> (budget u <= n)%nat -> ready ops ->
  sm_state m = BT_SMP_STATE_WAIT_PAIRING_RESPONSE -> features_ok f ->
  bt_smp_negotiate_pairing (Some (sf_features config)) (Some f) = Ret n' ->
  wp (features_agreed call (pdu_of (Features true f)) now)
    (at_ (set_negotiation n' m) u (tr ++ [HIn (pdu_of (Features true f))])) (fun _ => ok past n).
Proof.
  intros Hi Hb Hr Es Hf Hn. unfold features_agreed. pose proof (inv_wf _ _ _ _ _ _ _ _ Hi) as Hwf.
  pose proof (message_bytes (Features true f) Hf) as Hby. remember (pdu_of (Features true f)) as pdu eqn:Ep.
  assert (sized 7 pdu) as Hsz by (subst pdu; split; [done|]; constructor; [unfold is_byte; cbn; lia|done]).
  eapply wp_lift; [apply reverse_copy_spec; by destruct Hsz|]. wp_step.
  assert (forall n2, pn_secure_connections n2 = pn_secure_connections n' -> pn_association n2 = pn_association n' ->
    pn_encryption_key_size n2 = pn_encryption_key_size n' ->
    let m2 := set_negotiation n2 (set_pres (reverse pdu) m) in
    inv budget E C ops config past m2 (tr ++ [HIn pdu]) /\ features_known (pn_secure_connections n2) m2 (tr ++ [HIn pdu])) as Hm2.
  { intros n2 H1 H2 H3 m2. assert (wf budget E C ops config m2) as Hwf2.
    { subst m2. wf_update Hwf; [by apply sized_reverse|rewrite H3; by apply (negotiate_key_size f)]. }
    at_state Hi Es Hc Hfacts. split.
    - eapply inv_change; [by apply inv_event|done|..]; unfold chain, facts; subst m2; cbn; rewrite Es; [by apply seen_app|done].
    - split; [done|]. change (sm_pres m2) with (reverse pdu). unfold features_seen. rewrite reverse_involutive. split; [by apply (seen_snoc [_])|].
      split; [|done]. exists f, n'. rewrite reverse_involutive. auto. }
  cbn [sm_negotiation set_pres set_negotiation]. destruct (pn_secure_connections n') eqn:Esc.
  - wp_step. set (n2 := Build_bt_smp_pairing_negotiation _ _ _ _ _ _ _).
    destruct (Hm2 n2 eq_refl eq_refl eq_refl). by apply start_secure_connections_spec.
  - destruct (Hm2 n' Esc eq_refl eq_refl) as [? Hk]. rewrite Esc in Hk. by apply start_legacy_spec.
Qed.


Lemma protocol_error_spec past now m u tr e : inv budget E C ops config past m tr -> (budget u <= n)%nat -> ready ops ->
  justifies E C config tr e -> wp (protocol_error call now) (at_ m u (tr ++ [e])) (fun _ => ok past n).
Proof. intros Hi Hb Hr He. apply send_failed_spec; [by apply inv_event|done|done|lia|done]. Qed.

Lemma handle_pairing_response_spec past now f m u tr : inv budget E C ops config past m tr -> (budget u <= n)%nat -> ready ops ->
  features_ok f -> let msg := Features true f in
  wp (handle_pairing_response call (command_of msg) (pdu_of msg) now) (at_ m u (tr ++ [HIn (pdu_of msg)])) (fun _ => ok past n).
Proof.
  intros Hi Hb Hr Hf msg. subst msg. unfold handle_pairing_response. wp_step.
  destruct (decide _) as [Es|Es]; [|by apply protocol_error_spec].
  eapply wp_parsed; [by rewrite (features_parse f Hf)|]. rewrite (features_parse f Hf).
  rewrite (wf_config _ _ _ _ _ _ (inv_wf _ _ _ _ _ _ _ _ Hi)).
  assert (bt_smp_negotiate_pairing (Some (sf_features config)) (Some f) <> Fault) as Hnf.
  { unfold bt_smp_negotiate_pairing. by repeat case_match. }
  eapply wp_parsed; [done|]. destruct (bt_smp_negotiate_pairing _ _) as [n'|e|] eqn:En; [|by apply protocol_error_spec|done].
  wp_step. by apply features_agreed_spec.
Qed.

Lemma value_parse msg : message_ok msg ->
  (exists code v, msg = Value128 code v /\ bt_smp_parse_value128 (command_of msg) = Ret v /\ sized 16 v) \/
  exists e, bt_smp_parse_value128 (command_of msg) = Fail e.
Proof.
  intros Hm. destruct msg as [r f|code v|code v|rand ediv|ty a|x y]; cbn [message_ok] in Hm.
  - right. exists BT_ERR_INVALID_ARGUMENT. by destruct r.
  - left. exists code, v. split; [done|]. split; [exact (parses_message (Value128 code v) Hm)|by destruct Hm].
  - right. exists BT_ERR_INVALID_ARGUMENT. destruct Hm as [(-> & _)|[(-> & _)|(-> & _)]]; done.
  - right. by exists BT_ERR_INVALID_ARGUMENT.
  - right. by exists BT_ERR_INVALID_ARGUMENT.
  - right. by exists BT_ERR_INVALID_ARGUMENT.
Qed.

(** A command that carries a value, or a protocol error. *)
Lemma wp_value (k : option (list Z) -> M W unit) past now msg m u tr : inv budget E C ops config past m tr -> (budget u <= n)%nat ->
  ready ops -> message_ok msg -> k None = protocol_error call now ->
  (forall v, msg = Value128 (code_of msg) v -> sized 16 v -> wp (k (Some v)) (at_ m u (tr ++ [HIn (pdu_of msg)])) (fun _ => ok past n)) ->
  wp (bind (parsed (bt_smp_parse_value128 (command_of msg))) k) (at_ m u (tr ++ [HIn (pdu_of msg)])) (fun _ => ok past n).
Proof.
  intros Hi Hb Hr Hm HN HS. destruct (value_parse msg Hm) as [(code & v & -> & Ep & Hv)|(e & Ep)]; rewrite Ep;
    (eapply wp_parsed; [done|]); cbv iota; [by apply HS|]. rewrite HN. by apply protocol_error_spec.
Qed.

Lemma seen_commitment l v r tr : seen l tr -> seen (l ++ commitment (reverse v) r)
  ((tr ++ [HIn ([BT_SMP_PAIRING_CONFIRM] ++ v)]) ++ [HOut (value_pdu BT_SMP_PAIRING_RANDOM r)]).
Proof.
  intros Hl. unfold commitment, value_pdu. rewrite reverse_involutive.
  assert (forall a b : smp_event, l ++ [a; b] = (l ++ [a]) ++ [b]) as -> by (intros; by rewrite <- app_assoc). by do 2 apply seen_snoc.
Qed.

Lemma reveal_random_spec past v next now m u tr : inv budget E C ops config past m tr -> (budget u <= n)%nat -> ready ops ->
  sized 16 v ->
  (sm_state m = BT_SMP_STATE_WAIT_PAIRING_CONFIRM /\ next = BT_SMP_STATE_WAIT_PAIRING_RANDOM \/
   sm_state m = BT_SMP_STATE_WAIT_SC_CONFIRM /\ next = BT_SMP_STATE_WAIT_SC_RANDOM) ->
  wp (reveal_random call v next now) (at_ m u (tr ++ [HIn ([BT_SMP_PAIRING_CONFIRM] ++ v)])) (fun _ => ok past n).
Proof.
  intros Hi Hb Hr Hv Hs. unfold reveal_random. pose proof (inv_wf _ _ _ _ _ _ _ _ Hi) as Hwf.
  eapply wp_lift; [apply reverse_copy_spec; by destruct Hv|]. wp_step.
  set (m1 := set_peer_confirm _ m). assert (sized 16 (reverse v)) as Hrv by (by apply sized_reverse).
  eapply wp_lift; [apply reverse_copy_spec; destruct Hwf; cbn; apply wf_local_random0|]. wp_step.
  apply (send_value_spec past 4); [repeat constructor|destruct Hwf; by apply sized_reverse|done| |done].
  split.
  - subst m1. wf_update Hwf; destruct Hs as [[? ->]|[? ->]]; (congruence || intros [?|?]; congruence).
  - destruct Hs as [[Es ->]|[Es ->]]; at_state Hi Es Hc Hf; unfold chain; cbn [sm_state set_state]; cbv zeta.
    + by apply seen_commitment.
    + rewrite !app_assoc. apply seen_commitment. by rewrite <- !app_assoc.
  - destruct Hs as [[Es ->]|[Es ->]]; at_state Hi Es Hc Hf; unfold facts; cbn; rewrite (wf_config _ _ _ _ _ _ Hwf); [|done].
    destruct Hf as (Hf & l & Htk & Hl). split; [done|]. exists l. split; [done|].
    exact (seen_commitment _ v (sm_local_random m) _ Hl).
  - do 2 (apply justified_snoc; [|done]). by destruct Hi.
  - do 2 apply seen_app. by destruct Hi.
Qed.

Lemma handle_confirm_spec past now msg m u tr : inv budget E C ops config past m tr -> (budget u <= n)%nat -> ready ops ->
  message_ok msg -> code_of msg = BT_SMP_PAIRING_CONFIRM -> 
  wp (handle_confirm call (command_of msg) now) (at_ m u (tr ++ [HIn (pdu_of msg)])) (fun _ => ok past n).
Proof.
  intros Hi Hb Hr Hm Hcode. unfold handle_confirm. wp_step. apply (wp_value _ past now); [done..|]. intros v Ev Hv.
  destruct (decide _) as [Es|Es]; [|by apply protocol_error_spec]. rewrite Ev, Hcode.
  apply reveal_random_spec; auto.
Qed.

Lemma handle_sc_confirm_spec past now msg m u tr : inv budget E C ops config past m tr -> (budget u <= n)%nat -> ready ops ->
  message_ok msg -> code_of msg = BT_SMP_PAIRING_CONFIRM -> 
  wp (handle_sc_confirm call (command_of msg) now) (at_ m u (tr ++ [HIn (pdu_of msg)])) (fun _ => ok past n).
Proof.
  intros Hi Hb Hr Hm Hcode. unfold handle_sc_confirm. wp_step. apply (wp_value _ past now); [done..|]. intros v Ev Hv.
  destruct (decide _) as [Es|Es]; [|by apply protocol_error_spec]. rewrite Ev, Hcode.
  apply reveal_random_spec; auto.
Qed.

(** Encryption starts with a key that is proven. *)
Lemma start_encryption_spec past now m u tr : wf budget E C ops config m -> justified E C config tr -> seen past tr ->
  (budget u <= n)%nat -> ready ops ->
  justifies E C config tr (HEncrypt (sm_stk m) (pn_encryption_key_size (sm_negotiation m))) ->
  wp (start_encryption call now) (at_ m u tr) (fun _ => ok past n).
Proof.
  intros Hwf Hj Hp Hb Hr Hproof. unfold start_encryption. 
wp_step.


 set (m1 := set_deadline_us _ _).
  assert (wf budget E C ops config m1) as Hwf1 by (subst m1; wf_update Hwf).
  pose proof Hr as (o & Ho & _ & _ & He). pose proof (port_of o Ho) as (_ & _ & Hf & _).
  destruct (op_start_encryption o) as [f|] eqn:Ef; [|done].
  eapply the_op_spec; [done|done|by destruct Hwf1|]. wp_step.
  apply wp_bind. eapply (wp_op past); [apply Hf| |done|].
  - split; [done| |done|by apply justified_snoc|by apply seen_app]. by apply sublist_inserts_l.
  - intros st w _ Hw. destruct (decide (st = BT_OK)); [by apply wp_ret|by apply finish_ok].
Qed.

Lemma set_stk_wf v m : wf budget E C ops config m -> sized 16 v -> wf budget E C ops config (set_stk v m).
Proof. intros Hwf Hv. wf_update Hwf. Qed.

Lemma verify_random_spec past v now m u tr : inv budget E C ops config past m tr -> (budget u <= n)%nat -> ready ops ->
  sm_state m = BT_SMP_STATE_WAIT_PAIRING_RANDOM -> sized 16 v ->
  wp (verify_random call (reverse v) now) (at_ m u (tr ++ [HIn ([BT_SMP_PAIRING_RANDOM] ++ v)])) (fun _ => ok past n).
Proof.
  intros Hi Hb Hr Es Hv. unfold verify_random. pose proof (inv_wf _ _ _ _ _ _ _ _ Hi) as Hwf.
  assert (sized 16 (reverse v)) as Hrv by (by apply sized_reverse).
  assert (inv budget E C ops config past m (tr ++ [HIn ([BT_SMP_PAIRING_RANDOM] ++ v)])) as Hi1 by (by apply inv_event).
  apply wp_confirm_value; [done|done|]. intros o u' Ho Hu.
  destruct Ho as [->| ->]; [apply send_failed_spec; [done|lia|done|lia|done]|]. wp_step.
  destruct (decide _) as [Econf|]; [|apply send_failed_spec; [done|lia|done|lia|done]].
  apply wp_bind. eapply wp_crypto; [apply s1_gives; [done|done|by destruct Hwf]|].
  intros o u'' Ho Hu'. destruct Ho as [->| ->]; [apply send_failed_spec; [done|lia|done|lia|done]|].
  destruct (masked_spec (s1 E (sm_tk m) (reverse v) (sm_local_random m)) (pn_encryption_key_size (sm_negotiation m)))
    as [Hmask Hms]; [destruct Hwf; by apply s1_sized|by destruct Hwf|].
  eapply wp_lift; [done|]. wp_step.
  destruct Hi1. apply start_encryption_spec; [by apply set_stk_wf|done|done|lia|done|].
  at_state Hi Es Hc Hf. destruct Hf as ([Ha Hsc] & l & Htk & Hl). left.
  exists (sm_preq m), (sm_pres m), (sm_tk m), l, (sm_peer_confirm m), (sm_local_random m), (reverse v), (sm_negotiation m).
  split; [|done].
  unfold opening, value_pdu. rewrite reverse_involutive, !app_assoc. apply seen_snoc. by rewrite <- app_assoc.
Qed.

Lemma handle_random_spec past now msg m u tr : inv budget E C ops config past m tr -> (budget u <= n)%nat -> ready ops ->
  message_ok msg -> code_of msg = BT_SMP_PAIRING_RANDOM -> 
  wp (handle_random call (command_of msg) now) (at_ m u (tr ++ [HIn (pdu_of msg)])) (fun _ => ok past n).
Proof.
  intros Hi Hb Hr Hm Hcode. unfold handle_random. wp_step. apply (wp_value _ past now); [done..|]. intros v Ev Hv.
  destruct (decide _) as [Es|Es]; [|by apply protocol_error_spec].
  eapply wp_lift; [apply reverse_copy_spec; by destruct Hv|]. rewrite Ev, Hcode. by apply verify_random_spec.
Qed.

Lemma public_key_parse msg : message_ok msg ->
  (exists x y, msg = PublicKey x y /\ sized 32 x /\ sized 32 y /\ bt_smp_parse_public_key (command_of msg) = Ret (x ++ y, y)) \/
  bt_smp_parse_public_key (command_of msg) = Fail BT_ERR_INVALID_ARGUMENT.
Proof.
  intros Hm. destruct msg as [r f|code v|code v|rand ediv|ty a|x y]; cbn [message_ok] in Hm.
  - right. by destruct r.
  - right. destruct Hm as [Hc _]. rewrite !elem_of_cons, elem_of_nil in Hc. by destruct_or! Hc; subst.
  - right. destruct Hm as [(-> & _)|[(-> & _)|(-> & _)]]; done.
  - by right.
  - by right.
  - left. exists x, y. destruct Hm as [[Hx Hxb] [Hy Hyb]]. do 3 (split; [done|]).
    unfold bt_smp_parse_public_key, command_of. cbn [sc_code sc_data sc_data_len code_of payload].
    rewrite length_app, Nat2Z.inj_add, Hx, Hy. cbn. f_equal. f_equal. rewrite drop_app_length'; [done|lia].
Qed.

Lemma reverse_copy_prefix x y k : zlen x = k -> reverse_copy (x ++ y) k = Ret (reverse x).
Proof. intros Hl. unfold reverse_copy. subst k. exact (f_equal (fun o => let? s := o in Ret (reverse s)) (ldn_mid [] x y)). Qed.

Lemma set_peer_public_inv past x y m tr : inv budget E C ops config past m tr -> sized 32 x -> sized 32 y ->
  sm_state m = BT_SMP_STATE_WAIT_PEER_PUBLIC_KEY ->
  inv budget E C ops config past (set_peer_public_y y (set_peer_public_x x m)) tr.
Proof.
  intros Hi Hx Hy Es. pose proof (inv_wf _ _ _ _ _ _ _ _ Hi) as Hwf. at_state Hi Es Hc Hf.
  eapply inv_change; [done|wf_update Hwf|..]; unfold chain, facts; cbn; rewrite Es, ?(wf_config _ _ _ _ _ _ Hwf); done.
Qed.

Lemma handle_sc_public_key_spec past now msg m u tr : inv budget E C ops config past m tr -> (budget u <= n)%nat -> ready ops ->
  message_ok msg -> wp (handle_sc_public_key call (command_of msg) now) (at_ m u (tr ++ [HIn (pdu_of msg)])) (fun _ => ok past n).
Proof.
  intros Hi Hb Hr Hm. unfold handle_sc_public_key. wp_step. pose proof (inv_wf _ _ _ _ _ _ _ _ Hi) as Hwf.
  destruct (public_key_parse msg Hm) as [(x & y & -> & Hx & Hy & Ep)|Ep]; rewrite Ep;
    (eapply wp_parsed; [done|]); cbv iota; [|by apply protocol_error_spec].
  destruct (decide _) as [Es|Es]; [|by apply protocol_error_spec].
  eapply wp_lift; [apply reverse_copy_prefix; by destruct Hx|].
  eapply wp_lift; [apply reverse_copy_spec; by destruct Hy|]. wp_step.
  set (m1 := set_peer_public_y _ _). set (pdu := pdu_of _).
  assert (inv budget E C ops config past m1 tr) as Hi1 by (apply set_peer_public_inv; by auto using sized_reverse).
  destruct (decide _) as [|Hne]; [by apply protocol_error_spec|]. do 2 wp_step. set (m2 := set_deadline_us _ _).
  pose proof (inv_wf _ _ _ _ _ _ _ _ Hi1) as Hwf1. destruct (wf_dhkey_op _ _ _ _ _ _ Hwf1) as (o & Ho & Hd); [by right|].
  pose proof (port_of o Ho) as (_ & _ & _ & _ & Hf & _). destruct (op_generate_dhkey o) as [f|] eqn:Ef; [|done].
  assert (inv budget E C ops config past m2 (tr ++ [HIn pdu])) as Hi2.
  { assert (sm_state m1 = BT_SMP_STATE_WAIT_PEER_PUBLIC_KEY) as Es1 by done. at_state Hi1 Es1 Hc Hfacts. eapply inv_change; [by apply inv_event|subst m2; wf_update Hwf1|..].
    - unfold chain. change (sm_state m2) with BT_SMP_STATE_WAIT_DHKEY. cbv iota zeta. unfold keys_seen.
      change (sm_peer_public_x m2) with (reverse x). change (sm_peer_public_y m2) with (reverse y). rewrite !reverse_involutive.
      apply (seen_snoc _ _ (HIn pdu)) in Hc. by rewrite <- app_assoc in Hc.
    - unfold facts. cbn. destruct Hfacts as [[? ?] ?]. rewrite (wf_config _ _ _ _ _ _ Hwf). split; [done|]. intros Heq. by apply Hne. }
  eapply the_op_spec; [done|done|by destruct Hi2, inv_wf0|]. apply wp_bind. eapply (wp_op past); [apply Hf|done|done|].
  intros st w _ Hw. destruct (decide (st = BT_OK)); [by apply wp_ret|by apply finish_ok].
Qed.

Lemma sc_random_verified_spec past now m u tr : inv budget E C ops config past m tr -> (budget u <= n)%nat -> ready ops ->
  sm_state m = BT_SMP_STATE_WAIT_SC_RANDOM -> sc_seen m [] tr ->
  wp (sc_random_verified call now) (at_ m u tr) (fun _ => ok past n).
Proof.
  intros Hi Hb Hr Es Hseen. unfold sc_random_verified. wp_step. pose proof (inv_wf _ _ _ _ _ _ _ _ Hi) as Hwf.
  at_state Hi Es Hc Hf. destruct Hf as [[Hfeat Ha] Hne].
  destruct (decide _) as [En|En].
  2: { destruct Ha as [Ha|Ha]; [|done]. apply start_sc_stage2_spec; [done|done|done|by left| |by left]. by rewrite Ha. }
  destruct (g2_gives m (sm_local_random m) (sm_peer_random m)) as (v & Hv & Hnum); [done|by destruct Hwf..|].
  apply wp_bind. eapply wp_crypto; [done|]. intros o u' Ho Hu.
  destruct Ho as [->| ->]; [apply send_failed_spec; [done|lia|done|lia|done]|]. do 2 wp_step.
  apply (user_action_spec past); [done| |lia|done]. destruct Hseen as (Hs & Hag & Hsc & Hcm).
  eapply inv_change; [by apply inv_event|wf_update Hwf| |].
  - apply (seen_snoc _ _ (HUser BT_SMP_USER_CONFIRM_NUMERIC (v mod 1000000))) in Hs. by rewrite <- !app_assoc in Hs.
  - unfold facts. cbn. rewrite (wf_config _ _ _ _ _ _ Hwf). by rewrite Hnum.
Qed.

Lemma set_peer_random_inv past r m tr : inv budget E C ops config past m tr -> sized 16 r ->
  sm_state m = BT_SMP_STATE_WAIT_SC_RANDOM -> inv budget E C ops config past (set_peer_random r m) tr.
Proof.
  intros Hi Hr Es. pose proof (inv_wf _ _ _ _ _ _ _ _ Hi) as Hwf. at_state Hi Es Hc Hf.
  eapply inv_change; [done|wf_update Hwf|..]; unfold chain, facts; cbn; rewrite Es, ?(wf_config _ _ _ _ _ _ Hwf); done.
Qed.

Lemma handle_sc_random_spec past now msg m u tr : inv budget E C ops config past m tr -> (budget u <= n)%nat -> ready ops ->
  message_ok msg -> code_of msg = BT_SMP_PAIRING_RANDOM -> 
  wp (handle_sc_random call (command_of msg) now) (at_ m u (tr ++ [HIn (pdu_of msg)])) (fun _ => ok past n).
Proof.
  intros Hi Hb Hr Hm Hcode. unfold handle_sc_random. wp_step. apply (wp_value _ past now); [done..|]. intros v Ev Hv.
  destruct (decide _) as [Es|Es]; [|by apply protocol_error_spec].
  eapply wp_lift; [apply reverse_copy_spec; by destruct Hv|]. wp_step. set (m1 := set_peer_random _ _).
  assert (inv budget E C ops config past m1 tr) as Hi1 by (apply set_peer_random_inv; [done|by apply sized_reverse|done]).
  apply wp_bind. eapply wp_crypto; [apply f4_gives; [by destruct Hi1|by apply sized_reverse]|]. intros o u' Ho Hu.
  assert (inv budget E C ops config past m1 (tr ++ [HIn (pdu_of msg)])) as Hi2 by (by apply inv_event).
  destruct Ho as [->| ->]; [apply send_failed_spec; [done|lia|done|lia|done]|].
  destruct (decide _) as [Econf|]; [|apply send_failed_spec; [done|lia|done|lia|done]].
  apply sc_random_verified_spec; [done|lia|done|done|].
  assert (sm_state m1 = BT_SMP_STATE_WAIT_SC_RANDOM) as Es1 by done. at_state Hi1 Es1 Hc Hf.
  destruct Hf as [[[Ha Hsc] _] Hne]. split; [|done]. unfold opening, value_pdu.
  change (sm_peer_random m1) with (reverse v). rewrite reverse_involutive, app_nil_r, !app_assoc.
  rewrite Ev, Hcode. apply (seen_snoc _ _ (HIn ([BT_SMP_PAIRING_RANDOM] ++ v))). by rewrite <- !app_assoc.
Qed.

Lemma handle_sc_dhkey_check_spec past now msg m u tr : inv budget E C ops config past m tr -> (budget u <= n)%nat -> ready ops ->
  message_ok msg -> code_of msg = BT_SMP_PAIRING_DHKEY_CHECK -> 
  wp (handle_sc_dhkey_check call (command_of msg) now) (at_ m u (tr ++ [HIn (pdu_of msg)])) (fun _ => ok past n).
Proof.
  intros Hi Hb Hr Hm Hcode. unfold handle_sc_dhkey_check. wp_step. apply (wp_value _ past now); [done..|]. intros v Ev Hv.
  destruct (decide _) as [Es|Es]; [|by apply protocol_error_spec].
  pose proof (inv_wf _ _ _ _ _ _ _ _ Hi) as Hwf.
  eapply wp_lift; [apply reverse_copy_spec; by destruct Hv|]. wp_step. set (m1 := set_peer_dhkey_check _ _).
  assert (wf budget E C ops config m1) as Hwf1 by (subst m1; wf_update Hwf).
  at_state Hi Es Hc Hf.
  assert (inv budget E C ops config past m1 tr) as Hi1.
  { eapply inv_change; [done|done|..]; unfold chain, facts; subst m1; cbn; rewrite Es, ?(wf_config _ _ _ _ _ _ Hwf); done. }
  apply wp_addresses; [by destruct Hwf1|]. wp_step. cbn [fst snd].
  assert (sized 7 (sm_pres m1)) as Hpres by (by destruct Hwf1).
  eapply wp_lift; [apply ldn_spec; destruct Hpres; lia|].
  assert (sized 3 (take (Z.to_nat 3) (drop (Z.to_nat 3) (sm_pres m1)))) as Hio by (destruct Hpres; split; [zlist|bys]).
  apply wp_check_value; [done|by destruct Hwf1..|done|apply address2_sized|apply address1_sized|]. intros o u' Ho Hu.
  assert (inv budget E C ops config past m1 (tr ++ [HIn (pdu_of msg)])) as Hi2 by (by apply inv_event).
  destruct Ho as [->| ->]; [apply send_failed_spec; [done|lia|done|lia|done]|].
  destruct (decide _) as [Econf|]; [|apply send_failed_spec; [done|lia|done|lia|done]].
  destruct Hi2. apply start_encryption_spec; [done|done|done|lia|done|]. right.
  destruct Hf as ([[Ha Hsc] Hassoc] & Hcm & Hmk & Hstk & check & Hck).
  exists (sm_preq m), (sm_pres m), (sm_local_public_x m), (sm_local_public_y m), (sm_peer_public_x m), (sm_peer_public_y m),
    (sm_dhkey m), (sm_peer_confirm m), (sm_local_random m), (sm_peer_random m), check, (sm_negotiation m).
  cbv zeta. rewrite <- Hmk. change (take 3 (drop 3 (sm_pres m))) with (take (Z.to_nat 3) (drop (Z.to_nat 3) (sm_pres m1))).
  split; [|done].
  - assert (f6 C (sm_mac_key m) (sm_peer_random m) (sm_local_random m) (take (Z.to_nat 3) (drop (Z.to_nat 3) (sm_pres m1)))
      (address2 config) (address1 config) = reverse v) as -> by exact Econf.
    assert (pdu_of msg = [BT_SMP_PAIRING_DHKEY_CHECK] ++ v) as -> by (by rewrite Ev, Hcode).
    unfold value_pdu. rewrite reverse_involutive. apply (seen_snoc _ _ (HIn ([BT_SMP_PAIRING_DHKEY_CHECK] ++ v))) in Hck.
    by rewrite <- !app_assoc in Hck.
Qed.

(** *** Key distribution *)

(** An encoder that writes what fits, or refuses. *)
Definition encodes (m : M bt_buf_writer unit) : Prop :=
  (exists bs, writes m bs /\ zlen bs <= 17) \/ m = fail BT_ERR_INVALID_ARGUMENT.

Lemma set_local_keys_inv past k m tr : inv budget E C ops config past m tr -> keys_ok k ->
  inv budget E C ops config past (set_local_keys k m) tr.
Proof. intros Hi Hk. destruct Hi as [Hwf Hc Hf Hj Hp]. split; [wf_update Hwf|done..]. Qed.

Lemma send_if_spec past b enc now rest w : ok past n w -> ready ops -> (forall k, keys_ok k -> encodes (enc k)) ->
  (forall w, ok past n w -> wp rest w (fun _ => ok past n)) -> wp (send_if call b enc now rest) w (fun _ => ok past n).
Proof.
  intros Hw Hr He Hrest. unfold send_if. destruct b; [|by apply Hrest]. destruct w as [m u tr], Hw as [Hi Hb].
  cbn in Hi, Hb. wp_step. apply wp_bind. destruct (He (sm_local_keys m)) as [(bs & Hbs & Hl)|Hf]; [by destruct Hi, inv_wf0|..].
  - eapply send_encoded_spec; [done|done|done|by apply inv_event|done|].
    intros [] w Hw; [by apply Hrest|by apply wp_ret].
  - rewrite Hf. exists false, (at_ m u tr). split; [done|]. by apply wp_ret.
Qed.

Lemma value128_encodes code v : code ∈ [3; 4; 6; 8; 10; 13] -> sized 16 v -> encodes (bt_smp_encode_value128 code v).
Proof. intros Hc Hv. left. exists ([code] ++ v). by apply value128_writes. Qed.

Lemma central_encodes rand ediv : sized 8 rand -> 0 <= ediv < 2 ^ 16 -> encodes (bt_smp_encode_central_identification rand ediv).
Proof.
  intros Hr He. left. eexists. split; [by apply (writes_message (CentralIdentification rand ediv))|].
  destruct Hr as [Hl _]. cbn [code_of payload]. rewrite !length_app, le_enc_length. cbn [length]. lia.
Qed.

Lemma identity_encodes ty a : 0 <= ty < 2 ^ 8 -> sized 6 a -> encodes (bt_smp_encode_identity_address ty a).
Proof.
  intros Ht Ha. destruct (decide (ty <= 1)) as [Hle|Hgt].
  - left. eexists. split; [apply (writes_message (IdentityAddress ty a)); split; [lia|done]|]. destruct Ha as [Hl _].
    cbn [code_of payload app length]. lia.
  - right. unfold bt_smp_encode_identity_address. by rewrite Z.gtb_ltb, (proj2 (Z.ltb_lt _ _)) by lia.
Qed.

Lemma send_key_distribution_spec past now m u tr : inv budget E C ops config past m tr -> (budget u <= n)%nat -> ready ops ->
  wp (send_key_distribution call now) (at_ m u tr) (fun _ => ok past n).
Proof.
  intros Hi Hb Hr. unfold send_key_distribution. do 2 wp_step. set (mask := pn_initiator_key_distribution _).
  pose proof zero_keys_ok as Hz.
  apply (set_local_keys_inv past zero_keys) in Hi; [|done].
  apply wp_bind. eapply (wp_mono _ _ (fun _ => ok past n)).
  - destruct (mask =? 0); [by apply wp_ret|]. pose proof Hr as (o & Ho & _). pose proof (port_of o Ho) as (_ & _ & _ & _ & _ & Hg & _).
    eapply has_op_spec; [done|by destruct Hi, inv_wf0|]. destruct (op_get_local_keys o) as [f|] eqn:Ef; cbn; [|by apply wp_ret].
    eapply the_op_spec; [done|done|by destruct Hi, inv_wf0|]. apply wp_bind. eapply wp_quiet; [apply Hg|].
    intros [k|] u' Hk Hu; cbn in Hk, Hu; [|by apply wp_ret; split; [|cbn; lia]].
    wp_step. apply wp_ret. split; [by apply set_local_keys_inv|cbn; lia].
  - intros [] w Hw; cbn [negb]; [|by apply wp_ret].
    repeat (eapply send_if_spec; [done|done|intros k (? & ? & ? & ? & ? & ? & ?);
      first [by apply central_encodes|by apply identity_encodes|apply value128_encodes; [repeat constructor|done]]|]; clear w Hw; intros w Hw).
    by apply wp_ret.
Qed.

Lemma keys_complete_spec past peer local m u tr : inv budget E C ops config past m tr -> (budget u <= n)%nat -> ready ops ->
  wp (let! b := has_op op_keys_complete in
      if b then let! f := the_op op_keys_complete in run_prog call (f peer local) else ret tt) (at_ m u tr) (fun _ => ok past n).
Proof.
  intros Hi Hb (o & Ho & _). pose proof (port_of o Ho) as (_ & _ & _ & _ & _ & _ & Hf & _).
  eapply (maybe_op_spec past); [done|done|done| |done]. intros f Ef. rewrite Ef in Hf.
  eapply wp_op; [apply Hf|done|done|done].
Qed.

Lemma finish_key_distribution_spec past now key size m u tr : inv budget E C ops config past m tr -> (budget u <= n)%nat -> ready ops ->
  seen [HEncrypt key size; HEncryption true] tr ->
  wp (finish_key_distribution call now) (at_ m u tr) (fun _ => ok past n).
Proof.
  intros Hi Hb Hr Hseen. unfold finish_key_distribution. set (known := [HEncrypt key size; HEncryption true]) in *.
  apply wp_bind. eapply (wp_mono _ _ (fun _ w => ok past n w /\ ok known n w)).
  { apply wp_and; apply send_key_distribution_spec; (done || by eapply inv_repast). }
  intros [] w [Hw Hw2]; cbn [negb]; [|by apply finish_ok]. clear m u tr Hi Hb Hseen.
  destruct w as [m u tr], Hw as [Hi Hb], Hw2 as [Hi2 _]. cbn in Hi, Hi2, Hb. do 2 wp_step.
  set (e := HKeys _ _).
  apply wp_bind. eapply (wp_mono _ _ (fun _ w => ok past n w /\ ok known n w)).
  - apply wp_and; apply keys_complete_spec; (done || by apply inv_event).
  - intros _ w [[Hi' Hb'] [Hi2' _]]. destruct w as [m' u' tr']. apply finish_result_spec; [done|done|done|].
    intros _. exists key, size. by destruct Hi2'.
Qed.

(** The keys received are not part of what is known. *)
Lemma store_key_spec past msg m u tr (R : bool -> W -> Prop) : inv budget E C ops config past m tr -> message_ok msg ->
  (forall b m', inv budget E C ops config past m' tr -> sm_state m' = sm_state m -> sm_stk m' = sm_stk m ->
    sm_negotiation m' = sm_negotiation m -> R b (at_ m' u tr)) -> wp (store_key (command_of msg)) (at_ m u tr) R.
Proof.
  intros Hi Hm HR. unfold store_key. wp_step.
  assert (R false (at_ m u tr)) as Hno by (by apply HR).
  assert (forall k mask b1 b2, R true (at_ (set_peer_irk_received b2 (set_peer_ltk_received b1
    (set_peer_keys_complete_mask mask (set_peer_keys k m)))) u tr)) as Hyes.
  { intros. apply HR; [|done..]. destruct Hi as [Hwf ? ? ? ?]. split; [wf_update Hwf|done..]. }
  assert (forall bit k, wp (key_complete bit k) (at_ m u tr) R) as Hwhole.
  { intros bit k. unfold key_complete. do 2 wp_step. apply wp_ret.
    exact (Hyes (put_key_mask (Z.lor (dk_key_mask k) bit) k) (Z.lor (sm_peer_keys_complete_mask m) bit)
      (sm_peer_ltk_received m) (sm_peer_irk_received m)). }
  cbv zeta. change (sc_code (command_of msg)) with (code_of msg). 
  destruct msg as [r f|code v|code v|rand ediv|ty a|x y]; cbn [code_of].
  - by destruct r; apply wp_ret.
  - assert (bt_smp_parse_value128 (command_of (Value128 code v)) = Ret v) as Ep by exact (parses_message (Value128 code v) Hm).
    destruct Hm as [Hc Hv].
    assert (ldn v 0 16 = Ret v) as El by (destruct Hv; by rewrite ldn_all).
    rewrite !elem_of_cons, elem_of_nil in Hc. destruct_or! Hc; subst code; cbn [Z.eqb Pos.eqb BT_SMP_ENCRYPTION_INFORMATION BT_SMP_CENTRAL_IDENTIFICATION
      BT_SMP_IDENTITY_INFORMATION BT_SMP_IDENTITY_ADDRESS_INFORMATION BT_SMP_SIGNING_INFORMATION]; try by apply wp_ret.
    all: rewrite Ep; eapply wp_parsed; [done|]; cbv iota; destruct (_ || _); [by apply wp_ret|];
      eapply wp_lift; [exact El|].
    + do 2 wp_step. apply wp_ret. exact (Hyes _ (sm_peer_keys_complete_mask m) true (sm_peer_irk_received m)).
    + do 2 wp_step. apply wp_ret. exact (Hyes _ (sm_peer_keys_complete_mask m) (sm_peer_ltk_received m) true).
    + apply Hwhole.
  - by destruct Hm as [(-> & _)|[(-> & _)|(-> & _)]]; apply wp_ret.
  - destruct (parses_message (CentralIdentification rand ediv) Hm) as (p & Ep & Hp). destruct Hm as [[Hl _] _].
    change {| sc_code := _; sc_data := _; sc_data_len := _ |} with (command_of (CentralIdentification rand ediv)) in Ep.
    assert (8 <= zlen p) as Hpl by (rewrite <- Hp, length_take in Hl; lia).
    cbn [Z.eqb Pos.eqb BT_SMP_ENCRYPTION_INFORMATION BT_SMP_CENTRAL_IDENTIFICATION]. rewrite Ep.
    eapply wp_parsed; [done|]. cbv iota. destruct (_ || _); [by apply wp_ret|].
    eapply wp_lift; [apply ldn_spec; cbn; lia|]. apply Hwhole.
  - pose proof (parses_message (IdentityAddress ty a) Hm) as Ep. destruct Hm as [_ [Hl _]].
    change {| sc_code := _; sc_data := _; sc_data_len := _ |} with (command_of (IdentityAddress ty a)) in Ep.
    cbn [Z.eqb Pos.eqb BT_SMP_ENCRYPTION_INFORMATION BT_SMP_CENTRAL_IDENTIFICATION BT_SMP_IDENTITY_INFORMATION
      BT_SMP_IDENTITY_ADDRESS_INFORMATION]. cbn [parses_to] in Ep. rewrite Ep.
    eapply wp_parsed; [done|]. cbv iota. destruct (_ || _); [by apply wp_ret|].
    eapply wp_lift; [by apply ldn_all|]. apply Hwhole.
  - by apply wp_ret.
Qed.

Lemma handle_distributed_key_spec past now msg m u tr : inv budget E C ops config past m tr -> (budget u <= n)%nat -> ready ops ->
  message_ok msg -> wp (handle_distributed_key call (command_of msg) now) (at_ m u (tr ++ [HIn (pdu_of msg)])) (fun _ => ok past n).
Proof.
  intros Hi Hb Hr Hm. unfold handle_distributed_key. wp_step. apply (inv_event _ _ _ (HIn (pdu_of msg))) in Hi; [|done].
  destruct (negb _ || _) eqn:E1; [by apply send_failed_spec|].
  apply orb_false_iff in E1 as [Es _]. apply negb_false_iff, bool_decide_eq_true in Es.
  apply wp_bind. eapply store_key_spec; [done|done|]. intros stored m' Hi' Es' _ _.
  destruct stored; cbn [negb]; [|by apply send_failed_spec]. wp_step.
  destruct (_ =? _); [|by apply wp_ret]. rewrite Es in Es'. at_state Hi' Es' Hc Hf.
  by eapply finish_key_distribution_spec.
Qed.

(** *** The calls *)

Lemma start_spec past now w : ok past n w -> wp (bt_smp_manager_start call now) w (fun _ => ok past n).
Proof.
  destruct w as [m u tr]. intros [Hi Hb]. cbn in Hi, Hb. unfold bt_smp_manager_start. wp_step.
  pose proof (inv_wf _ _ _ _ _ _ _ _ Hi) as Hwf. rewrite (wf_ops _ _ _ _ _ _ Hwf), (wf_config _ _ _ _ _ _ Hwf).
  destruct (_ || negb _) eqn:E1; [by apply wp_ret|].
  apply orb_false_iff in E1 as [E1 Es]. apply orb_false_iff in E1 as [Eops _]. apply negb_false_iff, bool_decide_eq_true in Es.
  assert (ready ops) as Hr.
  { destruct ops as [o|]; [|done]. exists o. rewrite !orb_false_iff, !bool_decide_eq_false in Eops. tauto. }
  assert (features_ok (sf_features config) \/ ~ features_ok (sf_features config)) as [Hf|Hf].
  { rewrite <- features_valid_spec by apply Hconfig. destruct (features_valid _); auto. }
  - remember ([BT_SMP_PAIRING_REQUEST] ++ feature_bytes (sf_features config)) as pdu eqn:Ep.
    assert (sized 7 pdu) as Hp.
    { subst pdu. split; [done|]. constructor; [unfold is_byte, BT_SMP_PAIRING_REQUEST; lia|]. apply Hconfig. }
    apply (wp_encode 7 _ pdu); [subst pdu; exact (writes_message (Features false (sf_features config)) Hf)|destruct Hp; lia|].
    cbn [fst snd]. rewrite bool_decide_true by done. cbn [negb].
    eapply wp_lift; [apply reverse_copy_spec; by destruct Hp|]. do 2 wp_step. set (m1 := set_state _ _).
    assert (wf budget E C ops config m1) as Hwf1 by (subst m1; wf_update Hwf; by apply sized_reverse).
    apply wp_bind. apply (send_pdu_spec past); [done| |done|].
    + eapply inv_change; [by apply inv_event|done| |done]. unfold chain. change (sm_state m1) with BT_SMP_STATE_WAIT_PAIRING_RESPONSE.
      cbv iota zeta. change (sm_preq m1) with (reverse pdu). rewrite reverse_involutive. by apply sublist_inserts_l.
    + intros st w Hw. destruct (decide (st = BT_OK)); [by apply wp_ret|]. wp_step. apply wp_ret.
      destruct w as [m2 u2 tr2], Hw as [[Hwf2 _ _ Hj Hp2] Hb2]. split; [|done]. apply calm_inv; [by left|wf_update Hwf2|done|done].
  - exists BT_ERR_INVALID_ARGUMENT, (at_ m u tr). split; [|done]. unfold bt_smp_encode_pairing_features.
    destruct (pairing_features_valid (sf_features config)) eqn:Ev; [|done].
    by apply (features_valid_spec _ (proj1 Hconfig)) in Ev.
Qed.

Lemma on_command_spec past now msg m u tr : inv budget E C ops config past m tr -> (budget u <= n)%nat -> ready ops ->
  message_ok msg -> wp (on_command call (command_of msg) (pdu_of msg) now) (at_ m u (tr ++ [HIn (pdu_of msg)])) (fun _ => ok past n).
Proof.
  intros Hi Hb Hr Hm. unfold on_command. wp_step. cbv zeta. change (sc_code (command_of msg)) with (code_of msg).
  apply (inv_deadline _ _ _ (timeout_deadline now)) in Hi; [|by auto].
  set (m1 := set_deadline_us _ m) in *. 
  assert (ok past n (at_ m1 u (tr ++ [HIn (pdu_of msg)]))) as Hok by (split; [by apply inv_event|done]).
  destruct (Z.eqb_spec (code_of msg) BT_SMP_PAIRING_RESPONSE) as [Ec|_].
  { destruct msg as [[] f|code v|code v|rand ediv|ty a|x y]; cbn [code_of] in Ec; try done.
    - by apply handle_pairing_response_spec.
    - destruct Hm as [Hc _]. subst code. rewrite !elem_of_cons, elem_of_nil in Hc. by destruct_or! Hc.
    - by destruct Hm as [(-> & _)|[(-> & _)|(-> & _)]]. }
  destruct (_ =? BT_SMP_PAIRING_PUBLIC_KEY); [by apply handle_sc_public_key_spec|].
  destruct (Z.eqb_spec (code_of msg) BT_SMP_PAIRING_CONFIRM) as [Ec|_].
  { destruct (decide _); [by apply handle_sc_confirm_spec|by apply handle_confirm_spec]. }
  destruct (Z.eqb_spec (code_of msg) BT_SMP_PAIRING_RANDOM) as [Ec|_].
  { destruct (decide _); [by apply handle_sc_random_spec|by apply handle_random_spec]. }
  destruct (Z.eqb_spec (code_of msg) BT_SMP_PAIRING_DHKEY_CHECK) as [Ec|_]; [by apply handle_sc_dhkey_check_spec|].
  destruct (_ || _); [by apply handle_distributed_key_spec|].
  destruct (_ =? _); [by apply finish_ok|].
  destruct Hok. by apply send_failed_spec.
Qed.

Lemma state_ready m : wf budget E C ops config m -> sm_state m <> BT_SMP_STATE_IDLE -> ready ops.
Proof. intros Hwf Hs. apply (wf_ready _ _ _ _ _ _ Hwf). by left. Qed.

Lemma on_pdu_spec past pdu now w : ok past n w -> opt bytes pdu -> wp (bt_smp_manager_on_pdu call pdu now) w (fun _ => ok past n).
Proof.
  destruct w as [m u tr]. intros [Hi Hb] Hp. cbn in Hi, Hb. unfold bt_smp_manager_on_pdu. wp_step.
  destruct (_ || is_terminal _) eqn:Es; [by apply wp_ret|]. apply orb_false_iff in Es as [Es _]. apply bool_decide_eq_false in Es.
  assert (ready ops) as Hr by (eapply state_ready; [by destruct Hi|done]). wp_step.
  destruct pdu as [pdu|]; cbn [from_option id opt] in *.
  - destruct (parse_cases pdu Hp) as [Ef|(msg & Hm & ->)].
    + rewrite Ef. eapply wp_parsed; [done|]. cbv iota. by apply protocol_error_spec.
    + pose proof (parse_message msg Hm) as Epm. cbv zeta in Epm. fold (pdu_of msg) (command_of msg) in *. rewrite Epm.
      eapply wp_parsed; [done|]. cbv iota. by apply on_command_spec.
  - eapply wp_parsed; [done|]. cbn. by apply protocol_error_spec.
Qed.

Lemma failed_status_spec past w : ok past n w -> wp failed_status w (fun _ => ok past n).
Proof. intros Hw. unfold failed_status. apply wp_get. by apply wp_ret. Qed.

(** The TK from the user: [set_tk], and the confirm exchange. *)
Lemma provide_tk_spec past tk now m u tr : inv budget E C ops config past m tr -> (budget u <= n)%nat ->
  sm_state m = BT_SMP_STATE_WAIT_TK -> sized 16 tk -> tk_obtained (pn_association (sm_negotiation m)) tk [HTk tk] ->
  wp (do! set (set_tk tk) in do! emit (HTk tk) in do! start_confirm_exchange call now in failed_status) (at_ m u tr)
    (fun _ => ok past n).
Proof.
  intros Hi Hb Es Htk Ht. do 2 wp_step. apply wp_bind. eapply (wp_mono _ _ (fun _ => ok past n)); [|intros _ w Hw; by apply failed_status_spec].
  assert (ready ops) as Hr by (eapply state_ready; [by destruct Hi|by rewrite Es]). at_state Hi Es Hc Hf.
  apply start_confirm_exchange_spec; [|done|done|].
  - apply inv_event; [|done]. apply set_tk_inv; [done|done|by right].
  - split; [by right|]. destruct Hf as [[Ha Hsc] _]. do 2 (split; [done|]). exists [HTk tk]. split; [done|by apply seen_snoc].
Qed.

Lemma provide_passkey_spec past passkey now w : ok past n w -> 0 <= passkey < 2 ^ 32 ->
  wp (bt_smp_manager_provide_passkey call passkey now) w (fun _ => ok past n).
Proof.
  destruct w as [m u tr]. intros [Hi Hb] Hp. cbn in Hi, Hb. unfold bt_smp_manager_provide_passkey. wp_step.
  destruct (_ || bool_decide _) eqn:E1; [by apply wp_ret|].
  apply orb_false_iff in E1 as [E1 Ha]. apply orb_false_iff in E1 as [Es Hle].
  apply negb_false_iff, bool_decide_eq_true in Es. apply bool_decide_eq_false in Ha.
  rewrite Z.gtb_ltb, Z.ltb_ge in Hle. apply provide_tk_spec; [done|done|done|apply passkey_sized|].
  at_state Hi Es Hc Hf. destruct Hf as [_ [Hf|[Hf|Hf]]]; [..|done]; rewrite Hf; exists passkey;
    (split; [lia|done]).
Qed.

Lemma provide_oob_tk_spec past tk now w : ok past n w -> opt (sized 16) tk ->
  wp (bt_smp_manager_provide_oob_tk call tk now) w (fun _ => ok past n).
Proof.
  destruct w as [m u tr]. intros [Hi Hb] Htk. cbn in Hi, Hb. unfold bt_smp_manager_provide_oob_tk. wp_step.
  destruct tk as [tk|]; [|by apply wp_ret]. cbn in Htk.
  destruct (_ || _) eqn:E1; [by apply wp_ret|].
  apply orb_false_iff in E1 as [Es Ha]. apply negb_false_iff, bool_decide_eq_true in Es, Ha.
  eapply wp_lift; [apply ldn_all; by destruct Htk|]. apply provide_tk_spec; [done..|].
  by rewrite Ha.
Qed.

Lemma confirm_numeric_spec past accepted now w : ok past n w ->
  wp (bt_smp_manager_confirm_numeric call accepted now) w (fun _ => ok past n).
Proof.
  destruct w as [m u tr]. intros [Hi Hb]. cbn in Hi, Hb. unfold bt_smp_manager_confirm_numeric. wp_step.
  destruct (negb (bool_decide _)) eqn:Es; [by apply wp_ret|]. apply negb_false_iff, bool_decide_eq_true in Es.
  assert (ready ops) as Hr by (eapply state_ready; [by destruct Hi|by rewrite Es]). wp_step.
  assert (inv budget E C ops config past m (tr ++ [HConfirmed accepted])) as Hi' by (by apply inv_event).
  destruct accepted; cbn [negb]; apply wp_bind; (eapply (wp_mono _ _ (fun _ => ok past n)); [|intros _ w Hw; by (apply failed_status_spec || apply wp_ret)]).
  - at_state Hi Es Hc Hf. destruct Hf as ([[Ha Hsc] _] & Hcm & Hassoc & Hnum).
    apply start_sc_stage2_spec; [done|done|done|by right| |by right]. split; [|done]. rewrite Hassoc. cbn [confirmation].
    apply (seen_snoc _ _ (HConfirmed true)) in Hc. rewrite Hnum in Hc. by rewrite <- !app_assoc in Hc.
  - by apply send_failed_spec.
Qed.

Lemma on_local_public_key_spec past success x y now w : ok past n w -> opt (sized 32) x -> opt (sized 32) y ->
  wp (bt_smp_manager_on_local_public_key call success x y now) w (fun _ => ok past n).
Proof.
  destruct w as [m u tr]. intros [Hi Hb] Hx Hy. cbn in Hi, Hb. unfold bt_smp_manager_on_local_public_key. wp_step.
  destruct (negb (bool_decide _)) eqn:Es; [by apply wp_ret|]. apply negb_false_iff, bool_decide_eq_true in Es.
  pose proof (inv_wf _ _ _ _ _ _ _ _ Hi) as Hwf.
  assert (ready ops) as Hr by (eapply state_ready; [done|by rewrite Es]).
  destruct success; [|by apply send_failed_spec]. destruct x as [x|]; [|by apply send_failed_spec].
  destruct y as [y|]; [|by apply send_failed_spec]. cbn in Hx, Hy.
  do 2 (eapply wp_lift; [by apply ldn_all; first [apply Hx|apply Hy]|]). do 3 wp_step.
  do 2 (eapply wp_lift; [by apply reverse_copy_spec; first [apply Hx|apply Hy]|]). wp_step. set (m1 := set_state _ _).
  assert (inv budget E C ops config past m1 (tr ++ [HLocalKey x y])) as Hi1.
  { at_state Hi Es Hc Hf. eapply inv_change; [by apply inv_event| |by apply seen_snoc|].
    - subst m1. wf_update Hwf.
    - unfold facts. cbn. by rewrite (wf_config _ _ _ _ _ _ Hwf). }
  assert (message_ok (PublicKey (reverse x) (reverse y))) as Hm by (split; by apply sized_reverse).
  apply wp_bind. eapply send_encoded_spec; [exact (writes_message _ Hm)| |done|by apply inv_event|done|].
  - destruct Hm as [[Hlx _] [Hly _]]. cbn [code_of payload app length]. rewrite Nat2Z.inj_succ, length_app. lia.
  - intros b w Hw. by apply or_finish_ok.
Qed.

Lemma on_dhkey_spec past success dhkey now w : ok past n w -> opt (sized 32) dhkey ->
  wp (bt_smp_manager_on_dhkey call success dhkey now) w (fun _ => ok past n).
Proof.
  destruct w as [m u tr]. intros [Hi Hb] Hd. cbn in Hi, Hb. unfold bt_smp_manager_on_dhkey. wp_step.
  destruct (negb (bool_decide _)) eqn:Es; [by apply wp_ret|]. apply negb_false_iff, bool_decide_eq_true in Es.
  pose proof (inv_wf _ _ _ _ _ _ _ _ Hi) as Hwf.
  assert (ready ops) as Hr by (eapply state_ready; [done|by rewrite Es]).
  destruct success; [|by apply send_failed_spec]. destruct dhkey as [dhkey|]; [|by apply send_failed_spec]. cbn in Hd.
  eapply wp_random; [done|done| |].
  { intros u' Hu. apply send_failed_spec; [done|lia|done|lia|done]. }
  intros r u' Hrs Hu. wp_step. eapply wp_lift; [apply ldn_all; by destruct Hd|].
  do 3 wp_step. split; [|cbn; lia]. at_state Hi Es Hc Hf.
  apply (inv_event _ _ _ (HRandom r)) in Hi; [|done]. apply (inv_event _ _ _ (HDhkey dhkey)) in Hi; [|done].
  eapply inv_change; [done|wf_update Hwf|..].
  - apply (seen_app _ _ [HRandom r]) in Hc.
    apply (seen_snoc _ _ (HDhkey dhkey)) in Hc. by rewrite <- app_assoc in Hc.
  - unfold facts. cbn. by rewrite (wf_config _ _ _ _ _ _ Hwf).
Qed.

Lemma on_encryption_changed_spec past enabled now w : ok past n w ->
  wp (bt_smp_manager_on_encryption_changed call enabled now) w (fun _ => ok past n).
Proof.
  destruct w as [m u tr]. intros [Hi Hb]. cbn in Hi, Hb. unfold bt_smp_manager_on_encryption_changed. wp_step.
  destruct (negb (bool_decide _)) eqn:Es; [by apply wp_ret|]. apply negb_false_iff, bool_decide_eq_true in Es.
  pose proof (inv_wf _ _ _ _ _ _ _ _ Hi) as Hwf.
  assert (ready ops) as Hr by (eapply state_ready; [done|by rewrite Es]). wp_step.
  apply (inv_event _ _ _ (HEncryption enabled)) in Hi as Hi'; [|done].
  destruct enabled; cbn [negb]; [|by apply finish_ok]. do 4 wp_step.
  set (m1 := set_peer_irk_received false _).
  assert (inv budget E C ops config past m1 (tr ++ [HEncryption true])) as Hi1.
  { destruct Hi' as [_ Hc' Hf' Hj Hp]. split; [subst m1; wf_update Hwf|done..]. }
  at_state Hi Es Hc Hf. apply (seen_snoc _ _ (HEncryption true)) in Hc.
  destruct (_ =? 0); [by eapply finish_key_distribution_spec|]. do 2 wp_step. split; [|done].
  eapply inv_change; [done|wf_update Hwf|done|done].
Qed.

Lemma tick_spec past now w : ok past n w -> wp (bt_smp_manager_tick call now) w (fun _ => ok past n).
Proof.
  intros Hw. unfold bt_smp_manager_tick. apply wp_get. destruct (_ && _) eqn:E1; [|by apply wp_ret].
  destruct Hw as [Hi Hb]. apply finish_ok; [by split| |done].
  apply (wf_ready _ _ _ _ _ _ (inv_wf _ _ _ _ _ _ _ _ Hi)). right.
  rewrite !andb_true_iff, negb_true_iff, Z.eqb_neq in E1. by destruct E1 as [[? _] _].
Qed.

Lemma set_cmac_spec past cmac w : ok past n w -> opt (cmac_ok budget C) cmac -> wp (bt_smp_manager_set_cmac cmac) w (fun _ => ok past n).
Proof.
  intros [[Hwf Hc Hf Hj Hp] Hb] Hcm. unfold bt_smp_manager_set_cmac. apply wp_set_last. split; [|done].
  split; [|done..]. cbn. wf_update Hwf. by destruct cmac.
Qed.

Lemma run_call_spec past a w : ok past n w -> call_ok budget C a -> wp (run_call call a) w (fun _ => ok past n).
Proof.
  intros Hw Ha. destruct a; cbn [run_call call_ok] in *.
  - by apply start_spec.
  - apply wp_bind. eapply wp_mono; [by apply on_pdu_spec|]. intros. by apply wp_ret.
  - by apply provide_passkey_spec.
  - by apply provide_oob_tk_spec.
  - by apply confirm_numeric_spec.
  - apply wp_bind. eapply wp_mono; [by apply on_local_public_key_spec; destruct Ha|]. intros. by apply wp_ret.
  - apply wp_bind. eapply wp_mono; [by apply on_dhkey_spec|]. intros. by apply wp_ret.
  - apply wp_bind. eapply wp_mono; [by apply on_encryption_changed_spec|]. intros. by apply wp_ret.
  - apply wp_bind. eapply wp_mono; [by apply set_cmac_spec|]. intros. by apply wp_ret.
  - apply wp_bind. eapply wp_mono; [by apply tick_spec|]. intros. by apply wp_ret.
Qed.

End Handlers.

(** *** Runs *)

Section Runs.
  Hypothesis Hconfig : config_ok.
  Hypothesis Hsizes : cipher_sizes E C.
  Hypothesis Hport : opt (port_ok budget C) ops.

Lemma run_api_spec depth past : callable budget (I past) (call_ok budget C) (run_api depth) depth.
Proof.
  revert past. induction depth as [|depth IH]; intros past a Ha k Hk w Hw; [lia|]. cbn [run_api].
  apply run_call_spec; [done|done|done| |done|done]. intros past' a' Ha' k' Hk' w' Hw'. apply IH; [done|lia|done].
Qed.

Lemma run_apis_spec depth past l w : Forall (call_ok budget C) l -> (budget (w_user w) < depth)%nat ->
  ok past (budget (w_user w)) w -> wp (run_apis depth l) w (fun _ => I past).
Proof.
  intros Hl. revert w. induction Hl as [|a l Ha Hl IH]; intros w Hd Hw; [by apply wp_ret; destruct Hw|].
  apply wp_bind. eapply wp_mono; [by eapply run_api_spec|]. intros _ w' [Hi Hb]. cbn in Hb. apply IH; [lia|by split].
Qed.

Lemma init_inv aes : cipher_ok budget E aes -> inv budget E C ops config [] (bt_smp_manager_init config aes ops) [].
Proof.
  intros Haes. pose proof zero_keys_ok. pose proof (sized_zeros 16). pose proof (sized_zeros 32). pose proof (sized_zeros 7).
  apply calm_inv; [by left| |by intros [] ? ?|done]. constructor; cbn; try done; try (by intros [?|?]).
Qed.
End Runs.
End Safety.

(** ** Properties *)

(** A manager before its first call. *)
Definition fresh {U} (m : bt_smp_manager U) (u : U) : world (bt_smp_manager U) U smp_event :=
  {| w_self := m; w_user := u; w_trace := [] |}.

(** C2.  Keys are proven before they are used.  The port may call the manager
    back from [send], [start_encryption], [generate_public_key],
    [generate_dhkey], [keys_complete], [complete] and every user action but one,
    as long as its budget lasts; [random], [get_local_keys] and the display of
    a passkey do not call back ([port_ok]; [display_crosses_pairings] shows that
    the code goes wrong when the display does).  The cipher and the CMAC of the
    port compute [E] and [C] or fail, and do not call back.  From
    [bt_smp_manager_init], for any sequence of calls with well-sized arguments:
    every call returns without a fault, and encryption is only started with a
    key [justifies] accepts.  That is, in this order in the history, the legacy
    STK of a temporary key obtained after the features as the agreed
    association model says, for a peer whose random value opens the confirm
    value it then sent before it saw ours; or the LTK of f5 after such a
    commitment over distinct public keys, then, where the model compares
    numbers, the showing of the number of g2 and the user's confirmation, and
    then the DHKey checks, of which the peer's is right.  Success is only
    reported after encryption was started with such a key and reported as on. *)
Theorem smp_keys_proven : forall {U} (budget : U -> nat) E C config aes ops calls u depth,
  config_ok config -> cipher_sizes E C -> cipher_ok budget E aes -> opt (port_ok budget C) ops ->
  Forall (call_ok budget C) calls -> (budget u < depth)%nat ->
  exists w, run_apis depth calls (fresh (bt_smp_manager_init config aes ops) u) = (Ret tt, w) /\
    justified E C config (w_trace w).
Proof.
  intros U budget E C config aes ops calls u depth Hc Hs Ha Hp Hl Hd.
  assert (wp (run_apis depth calls) (fresh (bt_smp_manager_init config aes ops) u)
    (fun _ w => inv budget E C ops config [] (w_self w) (w_trace w))) as (b & w & Er & Hi).
  { apply run_apis_spec; [done..|]. split; [by apply init_inv|done]. }
  destruct b. exists w. split; [done|]. by destruct Hi.
Qed.

(** ** Witnesses *)

(** A synchronous peer: each PDU sent is answered before [send] returns, and
    encryption is reported as on before [start_encryption] returns. *)
Definition toy_features : bt_smp_pairing_features :=
  {| pf_io_capability := 3; pf_oob_data_flag := 0; pf_auth_req := 1; pf_max_encryption_key_size := 16;
     pf_initiator_key_distribution := 0; pf_responder_key_distribution := 0 |}.
Definition toy_config : bt_smp_manager_config :=
  {| sf_features := toy_features; sf_initiator_address_type := 0; sf_responder_address_type := 1;
     sf_initiator_address := seqZ 1 6; sf_responder_address := seqZ 11 6 |}.
Definition toy_local : list Z := seqZ 100 16.
Definition toy_peer : list Z := seqZ 200 16.
Definition toy_preq : list Z := reverse ([BT_SMP_PAIRING_REQUEST] ++ feature_bytes toy_features).
Definition toy_pres : list Z := reverse ([BT_SMP_PAIRING_RESPONSE] ++ feature_bytes toy_features).

Definition toy_answer (k : nat) : list Z :=
  match k with
  | 3%nat => reverse toy_pres
  | 2%nat => value_pdu BT_SMP_PAIRING_CONFIRM (c1 xor_bytes toy_config (replicate 16 0) toy_peer toy_preq toy_pres)
  | 1%nat => value_pdu BT_SMP_PAIRING_RANDOM toy_peer
  | _ => []
  end.

Definition toy_reply (a : nat -> api nat) : prog nat (api nat) bt_status bt_status :=
  Get (fun k => match k with O => Done BT_OK | S k => Put k (Call (a k) (fun _ => Done BT_OK)) end).

Definition toy_ops : bt_smp_manager_ops nat :=
  {| op_send := Some (fun _ => toy_reply (fun k => OnPdu (Some (toy_answer k)) 0));
     op_random := Some (fun n => Done (if n =? 16 then Some toy_local else None));
     op_start_encryption := Some (fun _ _ => toy_reply (fun _ => OnEncryptionChanged true 0));
     op_generate_public_key := None; op_generate_dhkey := None; op_get_local_keys := None; op_keys_complete := None;
     op_user_action := None; op_complete := Some (fun _ _ => Done tt) |}.

Definition toy_aes : bt_smp_aes128 nat := {| ae_encrypt := Some (fun key block => ret (xor_bytes key block)) |}.
Definition toy_cmac : list Z -> list Z -> list Z := fun _ _ => replicate 16 0.

Lemma toy_sizes : cipher_sizes xor_bytes toy_cmac.
Proof. split; [intros; by apply xor_sized|intros; apply (sized_zeros 16)]. Qed.

Lemma toy_aes_ok : cipher_ok id xor_bytes toy_aes.
Proof. intros key block Hk Hb. split; [apply gives_ret|by apply xor_sized]. Qed.

Lemma toy_config_ok : config_ok toy_config.
Proof. unfold config_ok. cbn. repeat split; (lia || concrete_bytes). Qed.

Lemma toy_reply_ok a : (forall k, call_ok id toy_cmac (a k)) -> pays id (call_ok id toy_cmac) (fun _ => True) (toy_reply a).
Proof.
  intros Ha u. cbn. destruct u as [|u]; [done|]. cbn. split; [unfold id; lia|]. split; [done|]. split; [unfold id; lia|done].
Qed.

Lemma toy_port_ok : port_ok id toy_cmac toy_ops.
Proof.
  repeat split.
  - intros pdu. apply toy_reply_ok. intros [|[|[|[|k]]]]; cbn; concrete_bytes.
  - intros k u. cbn. destruct (Z.eqb_spec k 16) as [->|]; [|done]. split; [done|concrete_bytes].
  - intros key k. by apply toy_reply_ok.
Qed.

(** One call of [start] pairs: Just Works, all re-entrant. *)
Lemma smp_keys_proven_witness : exists w,
  run_apis 5 [Start 0] (fresh (bt_smp_manager_init toy_config toy_aes (Some toy_ops)) 4%nat) = (Ret tt, w) /\
  justified xor_bytes toy_cmac toy_config (w_trace w) /\
  w_trace w !! 7%nat = Some (HEncrypt (s1 xor_bytes (replicate 16 0) toy_peer toy_local) 16) /\
  last (w_trace w) = Some (HDone BT_SMP_MANAGER_OK).
Proof.
  destruct (smp_keys_proven id xor_bytes toy_cmac toy_config toy_aes (Some toy_ops) [Start 0] 4%nat 5%nat
    toy_config_ok toy_sizes toy_aes_ok toy_port_ok) as (w & E & Hj).
  - repeat constructor.
  - unfold id. lia.
  - exists w. split; [exact E|]. split; [exact Hj|]. vm_compute in E. injection E as <-.
    split; vm_compute; reflexivity.
Defined.

(** The display of a passkey that delivers a second Pairing Response: what
    [port_ok] excludes, and why. *)
Definition crossed_features (io auth : Z) : bt_smp_pairing_features :=
  {| pf_io_capability := io; pf_oob_data_flag := 0; pf_auth_req := auth; pf_max_encryption_key_size := 16;
     pf_initiator_key_distribution := 0; pf_responder_key_distribution := 0 |}.
Definition crossed_config : bt_smp_manager_config :=
  {| sf_features := crossed_features 0 13; sf_initiator_address_type := 0; sf_responder_address_type := 1;
     sf_initiator_address := seqZ 1 6; sf_responder_address := seqZ 11 6 |}.
Definition crossed_preq : list Z := reverse ([BT_SMP_PAIRING_REQUEST] ++ feature_bytes (crossed_features 0 13)).
Definition first_response : list Z := [BT_SMP_PAIRING_RESPONSE] ++ feature_bytes (crossed_features 2 5).
Definition second_response : list Z := [BT_SMP_PAIRING_RESPONSE] ++ feature_bytes (crossed_features 3 9).
Definition crossed_answer (k : nat) : list Z :=
  match k with
  | 4%nat => first_response
  | 2%nat => value_pdu BT_SMP_PAIRING_CONFIRM
               (c1 xor_bytes crossed_config (passkey_tk 7) toy_peer crossed_preq (reverse second_response))
  | 1%nat => value_pdu BT_SMP_PAIRING_RANDOM toy_peer
  | _ => []
  end.
Definition crossed_ops : bt_smp_manager_ops nat :=
  {| op_send := Some (fun _ => toy_reply (fun k => OnPdu (Some (crossed_answer k)) 0));
     op_random := Some (fun n => Done (Some (if n =? 4 then [0; 0; 0; 7] else toy_local)));
     op_start_encryption := Some (fun _ _ => Done BT_OK);
     op_generate_public_key := Some (Done BT_OK); op_generate_dhkey := Some (fun _ _ => Done BT_OK);
     op_get_local_keys := None; op_keys_complete := None;
     op_user_action := Some (fun _ _ => Get (fun k => Put (pred k) (Call (OnPdu (Some second_response) 0) (fun _ => Done tt))));
     op_complete := None |}.
Definition crossed_run : outcome unit * world (bt_smp_manager nat) nat smp_event :=
  run_apis 9 [SetCmac (Some {| ac_calculate := Some (fun _ _ _ => ret (replicate 16 0)) |}); Start 0]
    (fresh (bt_smp_manager_init crossed_config toy_aes (Some crossed_ops)) 5%nat).
Definition key_exchanged (e : smp_event) : bool := match e with HLocalKey _ _ | HDhkey _ => true | _ => false end.

(** Encryption is started with the STK of legacy pairing in a pairing that was
    negotiated as Secure Connections: no key was exchanged. *)
Example display_crosses_pairings :
  let w := crossed_run.2 in
  crossed_run.1 = Ret tt /\ pn_secure_connections (sm_negotiation (w_self w)) = true /\
  sm_state (w_self w) = BT_SMP_STATE_WAIT_ENCRYPTION /\
  last (w_trace w) = Some (HEncrypt (s1 xor_bytes (passkey_tk 7) toy_peer toy_local) 16) /\
  existsb key_exchanged (w_trace w) = false.
Proof. vm_compute. repeat split. Qed.

End SmpManager.
