(* ===== verification/SmpLifecycle.v ===== *)
(** * SMP manager: the life of a pairing

    Over a port that does not call the manager back, a pairing reports its
    result exactly once, when it enters one of its last two states, and a
    pairing that runs is always under a deadline, at most 30 seconds after the
    last call. *)

From Stdlib Require Import ZArith Lia.
From stdpp Require Import base list list_numbers.
From S2P Require Import Prelude Buffer Callbacks Smp SmpCrypto SmpManager.

Module SmpLifecycle.
Import Buffer Callbacks Smp SmpCrypto SmpManager.

(** ** Specification *)

Definition results (tr : list smp_event) : list bt_smp_manager_result :=
  omap (fun e => match e with HDone r => Some r | _ => None end) tr.

(** The time a call is given. *)
Definition call_time {U} (a : api U) : Z :=
  match a with
  | Start now | OnPdu _ now | ProvidePasskey _ now | ProvideOobTk _ now | ConfirmNumeric _ now
  | OnLocalPublicKey _ _ _ now | OnDhkey _ _ now | OnEncryptionChanged _ now | Tick now => now
  | SetCmac _ => 0
  end.
Definition timely {U} (T : Z) (a : api U) : Prop := 0 <= call_time a <= T.

(** A pairing that runs: nothing reported, under a deadline. *)
Definition running {U} (T : Z) (m : bt_smp_manager U) (tr : list smp_event) : Prop :=
  sm_state m <> BT_SMP_STATE_IDLE /\ is_terminal (sm_state m) = false /\ results tr = [] /\
  0 < sm_deadline_us m <= T + BT_SMP_TIMEOUT_US.

(** A manager at rest or running, or a pairing that has reported its one
    result and is not under a deadline any more. *)
Definition lived {U} (T : Z) (m : bt_smp_manager U) (tr : list smp_event) : Prop :=
  match sm_state m with
  | BT_SMP_STATE_IDLE => results tr = []
  | BT_SMP_STATE_COMPLETE => results tr = [BT_SMP_MANAGER_OK] /\ sm_deadline_us m = 0
  | BT_SMP_STATE_FAILED => (exists r, r <> BT_SMP_MANAGER_OK /\ results tr = [r]) /\ sm_deadline_us m = 0
  | _ => running T m tr
  end.

(** ** Lemmas *)

Lemma results_app tr tr' : results (tr ++ tr') = results tr ++ results tr'.
Proof. apply omap_app. Qed.

Lemma results_silent tr e : (match e with HDone _ => False | _ => True end) -> results (tr ++ [e]) = results tr.
Proof. intros He. rewrite results_app. destruct e; try done; apply app_nil_r. Qed.

Section Life.
  Context {U : Type} (C : list Z -> list Z -> list Z) (ops : option (bt_smp_manager_ops U)) (T : Z).
Abbreviation W := (world (bt_smp_manager U) U smp_event).
Abbreviation zero := (fun _ : U => 0%nat).
Abbreviation at_ m u tr := ({| w_self := m; w_user := u; w_trace := tr |} : W).
  Hypothesis Hport : opt (port_ok zero C) ops.
  Context (call : api U -> M W bt_status).
  Implicit Types (m : bt_smp_manager U) (u : U) (tr : list smp_event) (w : W).

Definition runs w : Prop := sm_ops (w_self w) = ops /\ running T (w_self w) (w_trace w).
Definition lives w : Prop := sm_ops (w_self w) = ops /\ lived T (w_self w) (w_trace w).

Lemma runs_lives w : runs w -> lives w.
Proof.
  intros [Ho Hr]. split; [done|]. pose proof Hr as (Hi & Ht & _). unfold lived. destruct (sm_state _) eqn:Es; done.
Qed.

Lemma deadline_running now : 0 <= now <= T -> 0 < timeout_deadline now <= T + BT_SMP_TIMEOUT_US.
Proof. unfold timeout_deadline, BT_SMP_TIMEOUT_US, UINT64_MAX. intros Hn. zcase; lia. Qed.

(** Nothing reported: what [finish] needs. *)
Definition unreported w : Prop := sm_ops (w_self w) = ops /\ results (w_trace w) = [].

Lemma runs_unreported w : runs w -> unreported w.
Proof. intros (Ho & _ & _ & Hr & _). by split. Qed.

(** *** Walking through a handler *)

Lemma wlp_parsed_last {A} (o : outcome A) w (R : option A -> W -> Prop) : (forall a, R a w) -> wlp (parsed o) w R.
Proof. intros HR. unfold parsed. apply wlp_bind, wlp_try. intros [a|e|]; apply wlp_ret, HR. Qed.

Lemma wlp_parsed {A B} (o : outcome A) (k : option A -> M W B) w R : (forall a, wlp (k a) w R) -> wlp (bind (parsed o) k) w R.
Proof. intros Hk. apply wlp_bind, wlp_parsed_last, Hk. Qed.

Lemma wlp_crypto_last {A} (f : M U A) w (R : option A -> W -> Prop) : (forall a u, R a (with_user u w)) -> wlp (crypto f) w R.
Proof. intros HR. unfold crypto. apply wlp_bind, wlp_on_user. intros [a|e|] u; apply wlp_ret, HR. Qed.

Lemma wlp_crypto {A B} (f : M U A) (k : option A -> M W B) w R : (forall a u, wlp (k a) (with_user u w) R) -> wlp (bind (crypto f) k) w R.
Proof. intros Hk. apply wlp_bind, wlp_crypto_last, Hk. Qed.

Lemma wlp_the_op {A B} (f : bt_smp_manager_ops U -> option A) (k : A -> M W B) m u tr R : sm_ops m = ops ->
  (forall o g, ops = Some o -> f o = Some g -> wlp (k g) (at_ m u tr) R) -> wlp (bind (the_op f) k) (at_ m u tr) R.
Proof.
  intros Hm Hk. apply wlp_bind. unfold the_op. apply wlp_get. cbn [w_self]. rewrite Hm. destruct ops as [o|] eqn:Ho; [|by intros ? ?].
  destruct (f o) as [g|] eqn:Hg; [|by intros ? ?]. apply wlp_ret. by eapply Hk.
Qed.

Lemma wlp_has_op {A B} (f : bt_smp_manager_ops U -> option A) (k : bool -> M W B) w R :
  (forall b, wlp (k b) w R) -> wlp (bind (has_op f) k) w R.
Proof.
  intros Hk. apply wlp_bind. unfold has_op. apply wlp_get. destruct (sm_ops (w_self w)); [|by intros ? ?].
  apply wlp_ret, Hk.
Qed.

(** A call of the port's [g] does not change the manager. *)
Ltac port_quiet := 
  match goal with
  | Ho : ops = Some ?o, Hg : _ = Some ?g |- wlp (run_prog _ _) _ _ =>
      eapply wlp_quiet;
        [let Hp := fresh in
         pose proof Hport as Hp; rewrite Ho in Hp; cbn [opt] in Hp; unfold port_ok in Hp; rewrite Hg in Hp; cbn [opt] in Hp;
         destruct_and? Hp; naive_solver
        |intros ? ? _; try match goal with x : unit |- _ => destruct x end]
  end.

Ltac same_ops := match goal with H : runs _ |- _ => exact (proj1 H) | H : unreported _ |- _ => exact (proj1 H) end.

Ltac walk :=
  world_simpl; cbv zeta;
  lazymatch goal with
  | |- wlp (bind (get _) _) _ _ => apply wlp_get
  | |- wlp (bind (set _) _) _ _ => apply wlp_set
  | |- wlp (set _) _ _ => apply wlp_set_last
  | |- wlp (bind (emit _) _) _ _ => apply wlp_emit
  | |- wlp (bind (lift _) _) _ _ => apply wlp_lift; intros ? _
  | |- wlp (bind (parsed _) _) _ _ => apply wlp_parsed; intros ?
  | |- wlp (bind (crypto _) _) _ _ => apply wlp_crypto; intros ? ?
  | |- wlp (bind (encode_into _ _) _) _ _ => apply wlp_encode; intros ?
  | |- wlp (bind (has_op _) _) _ _ => apply wlp_has_op; intros ?
  | |- wlp (bind (the_op _) _) _ _ => apply wlp_the_op; [same_ops|intros ? ? ? ?]
  | |- wlp (ret _) _ _ => apply wlp_ret
  | |- wlp (if ?b then _ else _) _ _ => destruct b eqn:?
  | |- wlp (match ?x with _ => _ end) _ _ => destruct x eqn:?
  | |- wlp (parsed _) _ _ => apply wlp_parsed_last; intros ?
  | |- wlp (crypto _) _ _ => apply wlp_crypto_last; intros ? ?
  | |- wlp (bind (run_prog _ _) _) _ _ => apply wlp_bind
  | |- wlp (bind (bind _ _) _) _ _ => apply wlp_bind
  | |- wlp (bind (if _ then _ else _) _) _ _ => apply wlp_bind
  | |- wlp (bind (match _ with _ => _ end) _) _ _ => apply wlp_bind
  | |- wlp (bind (ret _) _) _ _ => apply wlp_bind
  | |- wlp (run_prog _ _) _ _ => port_quiet
  end; world_simpl.

(** The manager still runs: its state is not a last one, and its deadline is
    the old one or a new one. *)
Ltac still_running :=
  match goal with
  | H : runs _ |- runs _ =>
      let Ho := fresh in let Hi := fresh in let Ht := fresh in let Hr := fresh in let Hd := fresh in
      destruct H as (Ho & Hi & Ht & Hr & Hd); split; [exact Ho|]; split; [first [exact Hi|done]|];
      split; [first [exact Ht|done]|]; split;
      [world_simpl; rewrite ?results_silent by done; exact Hr|first [exact Hd|by apply deadline_running]]
  | H : runs _ |- unreported _ => apply runs_unreported; still_running
  end.

Lemma finish_life r w : unreported w -> wlp (finish call r) w (fun _ => lives).
Proof.
  destruct w as [m u tr]. intros Hu. unfold finish. repeat walk.
  all: destruct Hu as [Ho Hr]; cbn [w_self w_trace] in Ho, Hr; split; [exact Ho|]; unfold lived; cbn -[results].
  all: rewrite results_app, Hr; destruct (decide _) as [->|]; cbn; eauto.
Qed.

Lemma or_finish_life b w : runs w -> wlp (or_finish call b) w (fun _ => lives).
Proof. intros Hw. unfold or_finish. destruct b; [by apply wlp_ret, runs_lives|by apply finish_life, runs_unreported]. Qed.

(** Sending leaves the pairing running. *)
Lemma send_encoded_life {B} cap enc now (k : bool -> M W B) w R : 0 <= now <= T -> runs w ->
  (forall b w', runs w' -> wlp (k b) w' R) -> wlp (bind (send_encoded call cap enc now) k) w R.
Proof.
  destruct w as [m u tr]. intros Hn Hw Hk. apply wlp_bind. unfold send_encoded, send_pdu.
  apply wlp_encode. intros e. destruct (decide _); [|by apply wlp_ret, Hk]. apply wlp_bind.
  repeat walk. apply Hk. still_running.
Qed.

Lemma send_encoded_unreported {B} cap enc now (k : bool -> M W B) w R : unreported w ->
  (forall b w', unreported w' -> wlp (k b) w' R) -> wlp (bind (send_encoded call cap enc now) k) w R.
Proof.
  destruct w as [m u tr]. intros Hw Hk. apply wlp_bind. unfold send_encoded, send_pdu.
  apply wlp_encode. intros e. destruct (decide _); [|by apply wlp_ret, Hk]. apply wlp_bind.
  repeat walk. apply Hk. destruct Hw as [Ho Hr]. split; [done|]. cbn [w_trace]. by rewrite results_silent.
Qed.

Lemma send_failed_life reason now r w : unreported w -> wlp (send_failed call reason now r) w (fun _ => lives).
Proof. intros Hw. unfold send_failed. apply send_encoded_unreported; [done|]. intros _ w' Hw'. by apply finish_life. Qed.

Lemma user_action_life {B} action p (k : unit -> M W B) m u tr R : runs (at_ m u tr) ->
  (forall u' tr', runs (at_ m u' tr') -> wlp (k tt) (at_ m u' tr') R) ->
  wlp (bind (user_action call action p) k) (at_ m u tr) R.
Proof.
  intros Hw Hk. apply wlp_bind. unfold user_action. repeat walk; apply Hk; still_running.
Qed.

(** *** The handlers *)

Create HintDb life.
#[local] Hint Extern 0 (runs _) => first [assumption|still_running] : life.
#[local] Hint Extern 0 (unreported _) => first [assumption|still_running] : life.

Ltac walk_life Hn :=
  lazymatch goal with
  | |- wlp (bind (send_encoded _ _ _ _) _) _ _ =>
      apply send_encoded_life; [exact Hn|still_running|intros ? [? ? ?] ?]
  | |- wlp (send_failed _ _ _ _) _ _ => apply send_failed_life; first [assumption|still_running]
  | |- wlp (protocol_error _ _) _ _ => apply send_failed_life; first [assumption|still_running]
  | |- wlp (or_finish _ _) _ _ => apply or_finish_life; first [assumption|still_running]
  | |- wlp (finish _ _) _ _ => apply finish_life; first [assumption|still_running]
  | |- wlp _ _ _ => first [walk|solve [auto with life nocore]]
  | |- lives _ => apply runs_lives; first [assumption|still_running]
  end.

Section Timed.
  Context (now : Z) (Hnow : 0 <= now <= T).

Lemma start_confirm_exchange_life m u tr : runs (at_ m u tr) -> wlp (start_confirm_exchange call now) (at_ m u tr) (fun _ => lives).
Proof.
  intros Hw. unfold start_confirm_exchange, random, confirm_value. repeat walk_life Hnow.
Qed.
#[local] Hint Resolve start_confirm_exchange_life : life.

Lemma start_sc_stage2_life m u tr : runs (at_ m u tr) -> wlp (start_sc_stage2 call now) (at_ m u tr) (fun _ => lives).
Proof. intros Hw. unfold start_sc_stage2, addresses, check_value. repeat walk_life Hnow. Qed.
#[local] Hint Resolve start_sc_stage2_life : life.

Lemma start_secure_connections_life m u tr : runs (at_ m u tr) -> wlp (start_secure_connections call now) (at_ m u tr) (fun _ => lives).
Proof. intros Hw. unfold start_secure_connections. repeat walk_life Hnow. Qed.
#[local] Hint Resolve start_secure_connections_life : life.

Lemma start_legacy_life m u tr : runs (at_ m u tr) -> wlp (start_legacy call now) (at_ m u tr) (fun _ => lives).
Proof. intros Hw. unfold start_legacy, user_action, random. repeat walk_life Hnow. Qed.
#[local] Hint Resolve start_legacy_life : life.

Lemma features_agreed_life pdu m u tr : runs (at_ m u tr) -> wlp (features_agreed call pdu now) (at_ m u tr) (fun _ => lives).
Proof. intros Hw. unfold features_agreed. repeat walk_life Hnow. Qed.
#[local] Hint Resolve features_agreed_life : life.

Lemma handle_pairing_response_life command pdu m u tr : runs (at_ m u tr) -> wlp (handle_pairing_response call command pdu now) (at_ m u tr) (fun _ => lives).
Proof. intros Hw. unfold handle_pairing_response. repeat walk_life Hnow. Qed.
#[local] Hint Resolve handle_pairing_response_life : life.

Lemma handle_confirm_life command m u tr : runs (at_ m u tr) -> wlp (handle_confirm call command now) (at_ m u tr) (fun _ => lives).
Proof. intros Hw. unfold handle_confirm, reveal_random. repeat walk_life Hnow. Qed.
#[local] Hint Resolve handle_confirm_life : life.

Lemma start_encryption_life m u tr : runs (at_ m u tr) -> wlp (start_encryption call now) (at_ m u tr) (fun _ => lives).
Proof. intros Hw. unfold start_encryption. repeat walk_life Hnow. Qed.
#[local] Hint Resolve start_encryption_life : life.

Lemma verify_random_life r m u tr : runs (at_ m u tr) -> wlp (verify_random call r now) (at_ m u tr) (fun _ => lives).
Proof. intros Hw. unfold verify_random, confirm_value. repeat walk_life Hnow. Qed.
#[local] Hint Resolve verify_random_life : life.

Lemma handle_random_life command m u tr : runs (at_ m u tr) -> wlp (handle_random call command now) (at_ m u tr) (fun _ => lives).
Proof. intros Hw. unfold handle_random. repeat walk_life Hnow. Qed.
#[local] Hint Resolve handle_random_life : life.

Lemma handle_sc_public_key_life command m u tr : runs (at_ m u tr) -> wlp (handle_sc_public_key call command now) (at_ m u tr) (fun _ => lives).
Proof. intros Hw. unfold handle_sc_public_key. repeat walk_life Hnow. Qed.
#[local] Hint Resolve handle_sc_public_key_life : life.

Lemma handle_sc_confirm_life command m u tr : runs (at_ m u tr) -> wlp (handle_sc_confirm call command now) (at_ m u tr) (fun _ => lives).
Proof. intros Hw. unfold handle_sc_confirm, reveal_random. repeat walk_life Hnow. Qed.
#[local] Hint Resolve handle_sc_confirm_life : life.

Lemma sc_random_verified_life m u tr : runs (at_ m u tr) -> wlp (sc_random_verified call now) (at_ m u tr) (fun _ => lives).
Proof. intros Hw. unfold sc_random_verified, user_action. repeat walk_life Hnow. Qed.
#[local] Hint Resolve sc_random_verified_life : life.

Lemma handle_sc_random_life command m u tr : runs (at_ m u tr) -> wlp (handle_sc_random call command now) (at_ m u tr) (fun _ => lives).
Proof. intros Hw. unfold handle_sc_random. repeat walk_life Hnow. Qed.
#[local] Hint Resolve handle_sc_random_life : life.

Lemma handle_sc_dhkey_check_life command m u tr : runs (at_ m u tr) -> wlp (handle_sc_dhkey_check call command now) (at_ m u tr) (fun _ => lives).
Proof. intros Hw. unfold handle_sc_dhkey_check, addresses, check_value. repeat walk_life Hnow. Qed.
#[local] Hint Resolve handle_sc_dhkey_check_life : life.

(** *** Key distribution *)

Lemma send_if_life b enc rest w : runs w -> (forall w, runs w -> wlp rest w (fun _ => runs)) ->
  wlp (send_if call b enc now rest) w (fun _ => runs).
Proof.
  intros Hw Hr. unfold send_if. destruct b; [|by apply Hr]. apply wlp_get.
  apply send_encoded_life; [done|done|]. intros [] w' Hw'; [by apply Hr|by apply wlp_ret].
Qed.

Lemma send_key_distribution_life m u tr : runs (at_ m u tr) -> wlp (send_key_distribution call now) (at_ m u tr) (fun _ => runs).
Proof.
  intros Hw. unfold send_key_distribution. do 2 walk. apply wlp_bind. eapply (wlp_mono _ _ (fun _ => runs)).
  - repeat walk; try still_running.
  - intros b w Hw'. destruct (negb b); [by apply wlp_ret|].
    repeat (apply send_if_life; [done|]; clear w Hw'; intros w Hw'). by apply wlp_ret.
Qed.

Lemma finish_key_distribution_life m u tr : runs (at_ m u tr) -> wlp (finish_key_distribution call now) (at_ m u tr) (fun _ => lives).
Proof.
  intros Hw. unfold finish_key_distribution. apply wlp_bind. eapply wlp_mono; [by apply send_key_distribution_life|].
  intros b [m' u' tr'] Hw'. repeat walk_life Hnow.
Qed.
#[local] Hint Resolve finish_key_distribution_life : life.

Lemma store_key_life command m u tr : runs (at_ m u tr) -> wlp (store_key command) (at_ m u tr) (fun _ => runs).
Proof. intros Hw. unfold store_key, key_complete. repeat walk; still_running. Qed.

Lemma handle_distributed_key_life command m u tr : runs (at_ m u tr) ->
  wlp (handle_distributed_key call command now) (at_ m u tr) (fun _ => lives).
Proof.
  intros Hw. unfold handle_distributed_key. walk_life Hnow. walk_life Hnow; [by walk_life Hnow|].
  apply wlp_bind. eapply wlp_mono; [by apply store_key_life|]. intros b [m' u' tr'] Hw'. repeat walk_life Hnow.
Qed.
#[local] Hint Resolve handle_distributed_key_life : life.

(** *** The calls *)

Lemma on_command_life command pdu m u tr : runs (at_ m u tr) -> wlp (on_command call command pdu now) (at_ m u tr) (fun _ => lives).
Proof. intros Hw. unfold on_command. repeat walk_life Hnow. Qed.
#[local] Hint Resolve on_command_life : life.

(** A manager that is neither idle nor done is running. *)
Lemma lives_runs m u tr : lives (at_ m u tr) -> sm_state m <> BT_SMP_STATE_IDLE -> is_terminal (sm_state m) = false -> runs (at_ m u tr).
Proof. intros [Ho Hl] Hi Ht. split; [done|]. unfold lived in Hl. cbn in Hl. destruct (sm_state m) eqn:Es; done. Qed.

Lemma lives_unreported m u tr : lives (at_ m u tr) -> is_terminal (sm_state m) = false -> unreported (at_ m u tr).
Proof.
  intros Hl Ht. destruct (decide (sm_state m = BT_SMP_STATE_IDLE)) as [Es|Es].
  - destruct Hl as [Ho Hl]. split; [done|]. unfold lived in Hl. cbn in Hl. by rewrite Es in Hl.
  - by apply runs_unreported, lives_runs.
Qed.

Lemma start_life w : lives w -> wlp (bt_smp_manager_start call now) w (fun _ => lives).
Proof.
  destruct w as [m u tr]. intros Hl. unfold bt_smp_manager_start, send_pdu. do 2 walk; [by apply wlp_ret|].
  apply orb_false_iff in Heqb as [_ Es]. apply negb_false_iff, bool_decide_eq_true in Es. cbn in Es.
  destruct Hl as [Ho Hl]. unfold lived in Hl. cbn in Ho, Hl. rewrite Es in Hl.
  assert (unreported (at_ m u tr)) as Hu by done.
  repeat walk; try done.
  - split; [done|]. unfold lived. cbn. by rewrite Es.
  - apply runs_lives. do 3 (split; [done|]). split; [by cbn [w_trace]; rewrite results_silent|by apply deadline_running].
  - split; [done|]. unfold lived. cbn -[results]. by rewrite results_silent.
Qed.

Lemma failed_status_life w : lives w -> wlp failed_status w (fun _ => lives).
Proof. intros Hl. unfold failed_status. apply wlp_get. by apply wlp_ret. Qed.

(** In the state a call waits for, the pairing runs. *)
Lemma guard_runs s m u tr : lives (at_ m u tr) -> negb (bool_decide (sm_state m = s)) = false ->
  s <> BT_SMP_STATE_IDLE -> is_terminal s = false -> runs (at_ m u tr).
Proof. intros Hl Hs Hi Ht. apply negb_false_iff, bool_decide_eq_true in Hs. apply lives_runs; [done|by rewrite Hs..]. Qed.

Lemma then_status_life {A} (h : M W A) w : wlp h w (fun _ => lives) -> wlp (bind h (fun _ => failed_status)) w (fun _ => lives).
Proof. intros Hh. apply wlp_bind. eapply (wlp_mono _ _ (fun _ => lives)); [done|]. intros _ w' Hw'. by apply failed_status_life. Qed.

Ltac guarded := match goal with Hl : lives _, Hs : negb (bool_decide (_ = ?s)) = false |- _ =>
  apply (guard_runs s) in Hl; [|exact Hs|done|done] end.

Lemma on_pdu_life pdu m u tr : lives (at_ m u tr) -> wlp (bt_smp_manager_on_pdu call pdu now) (at_ m u tr) (fun _ => lives).
Proof.
  intros Hl. unfold bt_smp_manager_on_pdu. do 2 walk; [by apply wlp_ret|].
  apply orb_false_iff in Heqb as [Hi Ht]. apply bool_decide_eq_false in Hi. apply lives_runs in Hl; [|done|done].
  repeat walk_life Hnow.
Qed.

Lemma provide_passkey_life p m u tr : lives (at_ m u tr) -> wlp (bt_smp_manager_provide_passkey call p now) (at_ m u tr) (fun _ => lives).
Proof.
  intros Hl. unfold bt_smp_manager_provide_passkey. do 2 walk; [by apply wlp_ret|].
  rewrite !orb_false_iff in Heqb. destruct Heqb as [[Hs _] _]. guarded. do 2 walk. apply then_status_life. repeat walk_life Hnow.
Qed.

Lemma provide_oob_tk_life tk m u tr : lives (at_ m u tr) -> wlp (bt_smp_manager_provide_oob_tk call tk now) (at_ m u tr) (fun _ => lives).
Proof.
  intros Hl. unfold bt_smp_manager_provide_oob_tk. do 2 walk; [|by apply wlp_ret]. walk; [by apply wlp_ret|].
  apply orb_false_iff in Heqb as [Hs _]. guarded. do 3 walk. apply then_status_life. repeat walk_life Hnow.
Qed.

Lemma confirm_numeric_life b m u tr : lives (at_ m u tr) -> wlp (bt_smp_manager_confirm_numeric call b now) (at_ m u tr) (fun _ => lives).
Proof.
  intros Hl. unfold bt_smp_manager_confirm_numeric. do 2 walk; [by apply wlp_ret|]. guarded. do 2 walk.
  - apply wlp_bind. eapply (wlp_mono _ _ (fun _ => lives)); [by walk_life Hnow|]. intros _ w Hw. by apply wlp_ret.
  - apply then_status_life. repeat walk_life Hnow.
Qed.

Lemma on_local_public_key_life b x y m u tr : lives (at_ m u tr) -> wlp (bt_smp_manager_on_local_public_key call b x y now) (at_ m u tr) (fun _ => lives).
Proof. intros Hl. unfold bt_smp_manager_on_local_public_key. do 2 walk; [by apply wlp_ret|]. guarded. repeat walk_life Hnow. Qed.

Lemma on_dhkey_life b d m u tr : lives (at_ m u tr) -> wlp (bt_smp_manager_on_dhkey call b d now) (at_ m u tr) (fun _ => lives).
Proof. intros Hl. unfold bt_smp_manager_on_dhkey, random. do 2 walk; [by apply wlp_ret|]. guarded. repeat walk_life Hnow. Qed.

Lemma on_encryption_changed_life b m u tr : lives (at_ m u tr) -> wlp (bt_smp_manager_on_encryption_changed call b now) (at_ m u tr) (fun _ => lives).
Proof. intros Hl. unfold bt_smp_manager_on_encryption_changed. do 2 walk; [by apply wlp_ret|]. guarded. repeat walk_life Hnow. Qed.

Lemma tick_life m u tr : lives (at_ m u tr) -> wlp (bt_smp_manager_tick call now) (at_ m u tr) (fun _ => lives).
Proof.
  intros Hl. unfold bt_smp_manager_tick. do 2 walk; [|by apply wlp_ret].
  rewrite !andb_true_iff, !negb_true_iff in Heqb. destruct Heqb as [_ Ht]. apply finish_life. by apply lives_unreported.
Qed.
End Timed.

Lemma run_call_life a w : timely T a -> lives w -> wlp (run_call call a) w (fun _ => lives).
Proof.
  destruct w as [m u tr]. unfold timely. intros Hn Hl. destruct a; cbn [run_call call_time] in *;
    try (apply wlp_bind; eapply (wlp_mono _ _ (fun _ => lives)); [|intros _ w Hw; by apply wlp_ret]).
  - by apply start_life.
  - by apply on_pdu_life.
  - by apply provide_passkey_life.
  - by apply provide_oob_tk_life.
  - by apply confirm_numeric_life.
  - by apply on_local_public_key_life.
  - by apply on_dhkey_life.
  - by apply on_encryption_changed_life.
  - unfold bt_smp_manager_set_cmac. by apply wlp_set_last.
  - by apply tick_life.
Qed.

(** A running pairing past its deadline fails with a timeout. *)
Lemma tick_expires now m u tr : running T m tr -> sm_ops m = ops -> T + BT_SMP_TIMEOUT_US <= now ->
  wlp (bt_smp_manager_tick call now) (at_ m u tr) (fun _ w => sm_state (w_self w) = BT_SMP_STATE_FAILED /\
    results (w_trace w) = [BT_SMP_MANAGER_ERROR_TIMEOUT]).
Proof.
  intros (Hi & Ht & Hr & Hd) Ho Hn. unfold bt_smp_manager_tick. walk.
  rewrite Ht, (proj2 (Z.eqb_neq (sm_deadline_us m) 0)), Z.geb_leb, (proj2 (Z.leb_le _ _)) by lia. cbn [negb andb].
  unfold finish. assert (unreported (at_ m u tr)) as Hu by done.
  repeat walk; (split; [done|]); by rewrite results_app, Hr.
Qed.

Lemma tick_done now m u tr : is_terminal (sm_state m) = true -> bt_smp_manager_tick call now (at_ m u tr) = (Ret tt, at_ m u tr).
Proof. intros Ht. unfold bt_smp_manager_tick. unfold bind, get, gets. cbn [w_self id]. by rewrite Ht, andb_false_r. Qed.
End Life.

Section Runs.
  Context {U : Type} (C : list Z -> list Z -> list Z) (ops : option (bt_smp_manager_ops U)) (T : Z).
  Hypothesis Hport : opt (port_ok (fun _ => 0%nat) C) ops.

Lemma run_apis_life depth l w : Forall (timely T) l -> lives ops T w -> wlp (run_apis depth l) w (fun _ => lives ops T).
Proof.
  intros Hl. revert w. induction Hl as [|a l Ha Hl IH]; intros w Hw; [by apply wlp_ret|].
  apply wlp_bind. eapply (wlp_mono _ _ (fun _ => lives ops T)); [|intros _ w' Hw'; by apply IH].
  destruct depth as [|depth]; [by intros ? ?|]. by eapply run_call_life.
Qed.
End Runs.

(** ** Properties *)

Section Fresh.
  Context {U : Type} (E C : list Z -> list Z -> list Z) (config : bt_smp_manager_config)
    (aes : bt_smp_aes128 U) (ops : option (bt_smp_manager_ops U)) (calls : list (api U)) (u : U) (T : Z).
Abbreviation zero := (fun _ : U => 0%nat).
  Hypothesis Hconfig : config_ok config.
  Hypothesis Hsizes : cipher_sizes E C.
  Hypothesis Haes : cipher_ok zero E aes.
  Hypothesis Hport : opt (port_ok zero C) ops.
  Hypothesis Hcalls : Forall (call_ok zero C) calls.
  Hypothesis Htimes : Forall (timely T) calls.

Lemma fresh_run : exists w, run_apis 1 calls (fresh (bt_smp_manager_init config aes ops) u) = (Ret tt, w) /\
  inv zero E C ops config [] (w_self w) (w_trace w) /\ lives ops T w.
Proof.
  assert (wp (run_apis 1 calls) (fresh (bt_smp_manager_init config aes ops) u)
    (fun _ w => inv zero E C ops config [] (w_self w) (w_trace w) /\ lives ops T w)) as ([] & w & Er & Hw).
  { apply wp_wlp; [|by eapply run_apis_life].
    apply (run_apis_spec zero E C ops config Hconfig Hsizes Hport); [done|cbn; lia|].
    split; [by apply init_inv|done]. }
  by exists w.
Qed.

(** C4.  A pairing reports once.  Over a port that does not call the manager
    back, after any sequence of calls with well-sized arguments made at times
    up to [T], which all return: an idle manager has reported nothing; a
    running one has reported nothing and is under a deadline that ends at most
    30 seconds after [T]; a complete one has reported success, exactly once, a
    failed one exactly one failure, and no deadline is left. *)
Theorem smp_completes_once : exists w,
  run_apis 1 calls (fresh (bt_smp_manager_init config aes ops) u) = (Ret tt, w) /\ lived T (w_self w) (w_trace w).
Proof. destruct fresh_run as (w & E0 & _ & _ & Hl). by exists w. Qed.

(** C26.  Every pairing ends.  After any such sequence of calls, a tick 30
    seconds after the last of them or later leaves no pairing running: one
    that runs fails with the timeout as its one result, and one that is over
    is left as it is. *)
Theorem smp_times_out : forall now, T + BT_SMP_TIMEOUT_US <= now -> exists w w',
  run_apis 1 calls (fresh (bt_smp_manager_init config aes ops) u) = (Ret tt, w) /\
  run_api 1 (Tick now) w = (Ret BT_OK, w') /\
  (running T (w_self w) (w_trace w) ->
     sm_state (w_self w') = BT_SMP_STATE_FAILED /\ results (w_trace w') = [BT_SMP_MANAGER_ERROR_TIMEOUT]) /\
  (is_terminal (sm_state (w_self w)) = true -> w' = w).
Proof.
  intros now Hn. destruct fresh_run as (w & E0 & Hi & Ho & _). exists w.
  destruct (run_api_spec zero E C ops config Hconfig Hsizes Hport 1 [] (Tick now) I 0%nat ltac:(lia) w) as (b & w' & E1 & _).
  { by split. }
  change (run_api 1 (Tick now) w) with ((do! bt_smp_manager_tick (run_api 0) now in ret BT_OK) w) in *. unfold bind in E1.
  destruct (bt_smp_manager_tick (run_api 0) now w) as [[[]|e|] w2] eqn:E2; try done. injection E1 as <- <-.
  exists w2. split; [done|]. split; [unfold bind; by rewrite E2|]. destruct w as [m u0 tr]. split.
  - intros Hr. by eapply (tick_expires C ops T Hport).
  - intros Ht. pose proof (tick_done (run_api 0) now m u0 tr Ht) as E3. rewrite E2 in E3. by injection E3.
Qed.
End Fresh.

(** ** Witnesses *)

(** The peer of [SmpManager.toy_answer], whose PDUs come as calls. *)
Definition plain_ops : bt_smp_manager_ops unit :=
  {| op_send := Some (fun _ => Done BT_OK);
     op_random := Some (fun n => Done (if n =? 16 then Some toy_local else None));
     op_start_encryption := Some (fun _ _ => Done BT_OK);
     op_generate_public_key := None; op_generate_dhkey := None; op_get_local_keys := None; op_keys_complete := None;
     op_user_action := None; op_complete := Some (fun _ _ => Done tt) |}.
Definition plain_aes : bt_smp_aes128 unit := {| ae_encrypt := Some toy_encrypt |}.
Definition plain_calls : list (api unit) :=
  [Start 0; OnPdu (Some (toy_answer 3)) 1; OnPdu (Some (toy_answer 2)) 2; OnPdu (Some (toy_answer 1)) 3].

Lemma plain_port_ok : port_ok (fun _ => 0%nat) toy_cmac plain_ops.
Proof.
  repeat split. intros k u. cbn. destruct (Z.eqb_spec k 16) as [->|]; [|done]. split; [done|concrete_bytes].
Qed.

Lemma plain_aes_ok : cipher_ok (fun _ => 0%nat) xor_bytes plain_aes.
Proof. intros key block Hk Hb. split; [apply gives_ret|by apply xor_sized]. Qed.

Lemma plain_calls_ok : Forall (call_ok (fun _ : unit => 0%nat) toy_cmac) plain_calls /\ Forall (timely 3) plain_calls.
Proof.
  split; do 4 (apply Forall_cons; split; [first [exact I|cbn; concrete_bytes|by unfold timely; cbn; lia]|]); by apply Forall_nil.
Qed.

Lemma smp_completes_once_witness : exists w,
  run_apis 1 (plain_calls ++ [OnEncryptionChanged true 3]) (fresh (bt_smp_manager_init toy_config plain_aes (Some plain_ops)) tt) = (Ret tt, w) /\
  lived 3 (w_self w) (w_trace w) /\ sm_state (w_self w) = BT_SMP_STATE_COMPLETE.
Proof.
  destruct (smp_completes_once xor_bytes toy_cmac toy_config plain_aes (Some plain_ops)
    (plain_calls ++ [OnEncryptionChanged true 3]) tt 3 toy_config_ok toy_sizes plain_aes_ok plain_port_ok) as (w & E & Hl).
  - apply Forall_app. split; [apply plain_calls_ok|by repeat constructor].
  - apply Forall_app. split; [apply plain_calls_ok|]. repeat constructor; cbn; lia.
  - exists w. split; [exact E|]. split; [exact Hl|]. vm_compute in E. injection E as <-. reflexivity.
Defined.

(** Encryption never starts: the pairing times out. *)
Lemma smp_times_out_witness : exists w w',
  run_apis 1 plain_calls (fresh (bt_smp_manager_init toy_config plain_aes (Some plain_ops)) tt) = (Ret tt, w) /\
  run_api 1 (Tick 30000003) w = (Ret BT_OK, w') /\
  sm_state (w_self w) = BT_SMP_STATE_WAIT_ENCRYPTION /\ results (w_trace w') = [BT_SMP_MANAGER_ERROR_TIMEOUT].
Proof.
  destruct (smp_times_out xor_bytes toy_cmac toy_config plain_aes (Some plain_ops)
    plain_calls tt 3 toy_config_ok toy_sizes plain_aes_ok plain_port_ok (proj1 plain_calls_ok) (proj2 plain_calls_ok)
    30000003 ltac:(unfold BT_SMP_TIMEOUT_US; lia)) as (w & w' & E & E' & Hr & _).
  exists w, w'. split; [exact E|]. split; [exact E'|]. vm_compute in E. injection E as <-. split; [reflexivity|].
  apply Hr. vm_compute. split; [discriminate|]. split; [reflexivity|]. split; [reflexivity|]. split; [reflexivity|discriminate].
Defined.

(** ** Observations *)

Definition outcome_of {U} (ops : bt_smp_manager_ops U) (features : bt_smp_pairing_features) (u : U) (aes : bt_smp_aes128 U)
    (calls : list (api U)) : list bt_smp_manager_result * bt_smp_manager_state :=
  let config := {| sf_features := features; sf_initiator_address_type := 0; sf_responder_address_type := 1;
                   sf_initiator_address := seqZ 1 6; sf_responder_address := seqZ 11 6 |} in
  let w := (run_apis 3 calls (fresh (bt_smp_manager_init config aes (Some ops)) u)).2 in
  (results (w_trace w), sm_state (w_self w)).

(** A transport that delivers the peer's Pairing Failed while the manager sends
    its own: [finish] runs twice, and so does [complete]. *)
Example reentrant_failure_reported_twice :
  outcome_of {| op_send := Some (fun pdu => if decide (pdu = [BT_SMP_PAIRING_FAILED; 10])
                                            then Call (OnPdu (Some [BT_SMP_PAIRING_FAILED; 8]) 1) (fun _ => Done BT_OK)
                                            else Done BT_OK);
                op_random := op_random plain_ops; op_start_encryption := op_start_encryption plain_ops;
                op_generate_public_key := None; op_generate_dhkey := None; op_get_local_keys := None;
                op_keys_complete := None; op_user_action := None; op_complete := None |}
    toy_features tt plain_aes [Start 0; OnPdu (Some []) 1] =
  ([BT_SMP_MANAGER_ERROR_PROTOCOL; BT_SMP_MANAGER_ERROR_PROTOCOL], BT_SMP_STATE_FAILED).
Proof. by vm_compute. Qed.

(** A start whose send fails leaves an idle manager under a deadline: a later
    tick fails a pairing that was never started. *)
Example failed_start_times_out :
  let ops := {| op_send := Some (fun _ => Done BT_ERR_IO); op_random := op_random plain_ops;
                op_start_encryption := op_start_encryption plain_ops; op_generate_public_key := None;
                op_generate_dhkey := None; op_get_local_keys := None; op_keys_complete := None; op_user_action := None;
                op_complete := None |} in
  outcome_of ops toy_features tt plain_aes [Start 0] = ([], BT_SMP_STATE_IDLE) /\
  outcome_of ops toy_features tt plain_aes [Start 0; Tick 30000000] = ([BT_SMP_MANAGER_ERROR_TIMEOUT], BT_SMP_STATE_FAILED).
Proof. by vm_compute. Qed.

(** Secure Connections over a CMAC that is constant, with [keys] distributed. *)
Definition sc_features (keys : Z) : bt_smp_pairing_features :=
  {| pf_io_capability := 3; pf_oob_data_flag := 0; pf_auth_req := 9; pf_max_encryption_key_size := 16;
     pf_initiator_key_distribution := keys; pf_responder_key_distribution := keys |}.
Definition sc_ops : bt_smp_manager_ops unit :=
  {| op_send := op_send plain_ops; op_random := op_random plain_ops; op_start_encryption := op_start_encryption plain_ops;
     op_generate_public_key := Some (Done BT_OK); op_generate_dhkey := Some (fun _ _ => Done BT_OK);
     op_get_local_keys := Some (fun mask => Done (Some (put_key_mask mask zero_keys)));
     op_keys_complete := None; op_user_action := None; op_complete := None |}.
Definition sc_to_peer_key (keys : Z) : list (api unit) :=
  [SetCmac (Some {| ac_calculate := Some (fun _ _ _ => ret (replicate 16 0)) |}); Start 0;
   OnPdu (Some ([BT_SMP_PAIRING_RESPONSE] ++ feature_bytes (sc_features keys))) 1;
   OnLocalPublicKey true (Some (seqZ 0 32)) (Some (seqZ 32 32)) 1;
   OnPdu (Some ([BT_SMP_PAIRING_PUBLIC_KEY] ++ seqZ 100 64)) 1].
Definition sc_to_encryption (keys : Z) : list (api unit) :=
  sc_to_peer_key keys ++
  [OnDhkey true (Some (seqZ 0 32)) 1; OnPdu (Some ([BT_SMP_PAIRING_CONFIRM] ++ replicate 16 0)) 1;
   OnPdu (Some ([BT_SMP_PAIRING_RANDOM] ++ seqZ 7 16)) 1; OnPdu (Some ([BT_SMP_PAIRING_DHKEY_CHECK] ++ replicate 16 0)) 1;
   OnEncryptionChanged true 1].

(** With the link key bit agreed, the manager waits for a key that no PDU
    carries, and fails after the link was encrypted. *)
Example link_key_never_comes :
  outcome_of sc_ops (sc_features 0) tt plain_aes (sc_to_encryption 0) = ([BT_SMP_MANAGER_OK], BT_SMP_STATE_COMPLETE) /\
  outcome_of sc_ops (sc_features 8) tt plain_aes (sc_to_encryption 8) = ([], BT_SMP_STATE_WAIT_KEY_DISTRIBUTION) /\
  outcome_of sc_ops (sc_features 8) tt plain_aes (sc_to_encryption 8 ++ [Tick 30000001]) =
    ([BT_SMP_MANAGER_ERROR_TIMEOUT], BT_SMP_STATE_FAILED).
Proof. by vm_compute. Qed.

(** A peer that sends its confirm value while our DHKey is still being computed
    fails the pairing. *)
Example early_confirm_refused :
  outcome_of sc_ops (sc_features 0) tt plain_aes
    (sc_to_peer_key 0 ++ [OnPdu (Some ([BT_SMP_PAIRING_CONFIRM] ++ replicate 16 0)) 1]) =
  ([BT_SMP_MANAGER_ERROR_PROTOCOL], BT_SMP_STATE_FAILED).
Proof. by vm_compute. Qed.

End SmpLifecycle.
