(* ===== verification/BondStore.v ===== *)
(** * Bond database: core/security/bond_store.c

    A fixed table of bonds, keyed by adapter and peer identity, and its image
    on disk: a header with the length and the CRC-32 of a sequence of
    type-length-value records, of which those of unknown type are skipped.

    In the second pass of [bt_bond_store_deserialize] the code ignores the
    status of every read, having validated the records; in the model a read
    that failed there would be a [Fault]. *)

From Stdlib Require Import ZArith Lia.
From stdpp Require Import base list gmap.
From S2P Require Import Prelude Buffer Addr.

Module BondStore.
Import Buffer Addr.

Definition BT_BOND_STORE_MAX_ENTRIES : Z := 16.
Definition BT_BOND_DB_VERSION : Z := 1.
Definition BT_BOND_DB_HEADER_LEN : Z := 20.
Definition BT_BOND_RECORD_TYPE_ENTRY : Z := 1.
Definition BT_BOND_ENTRY_WIRE_LEN : Z := 92.
Definition BT_BOND_ADDR_RANDOM : Z := 1.
Definition BT_BOND_KEY_LE_LTK : Z := 2.
Definition BT_BOND_KEY_VALID_MASK : Z := 15.
Definition BT_BOND_FLAG_VALID_MASK : Z := 3.

Definition db_magic : list Z := [66; 84; 75; 68].

Record bt_bond_address : Type := { ba_addr : bt_addr; ba_type : Z }.

Record bt_bond_entry : Type := {
  be_adapter : bt_bond_address;
  be_peer_identity : bt_bond_address;
  be_key_mask : Z;
  be_flags : Z;
  be_classic_link_key : list Z;
  be_classic_link_key_type : Z;
  be_ltk : list Z;
  be_ltk_rand : list Z;
  be_ltk_ediv : Z;
  be_ltk_size : Z;
  be_irk : list Z;
  be_csrk : list Z;
}.

Record bt_bond_store : Type := { bs_entries : list bt_bond_entry; bs_count : Z }.

(** ** CRC-32 *)

Definition crc_bit (crc : Z) : Z :=
  Z.lxor (Z.shiftr crc 1) (Z.land 3988292384 (u32 (- Z.land crc 1))).

Fixpoint crc_bits (n : nat) (crc : Z) : Z :=
  match n with O => crc | S n => crc_bits n (crc_bit crc) end.

Fixpoint crc32_loop (data : list Z) (i : Z) (n : nat) (crc : Z) : outcome Z :=
  match n with
  | O => Ret crc
  | S n => let? b := ld data i in crc32_loop data (i + 1) n (crc_bits 8 (Z.lxor crc b))
  end.

Definition crc32 (data : list Z) (len : Z) : outcome Z :=
  let? crc := crc32_loop data 0 (Z.to_nat len) UINT32_MAX in
  Ret (u32 (Z.lnot crc)).

(** ** The table *)

Definition address_valid (addr : bt_bond_address) : bool := ba_type addr <=? BT_BOND_ADDR_RANDOM.

Definition bond_address_equal (a b : bt_bond_address) : bool :=
  (ba_type a =? ba_type b) && bt_addr_equal (ba_addr a) (ba_addr b).

Definition entry_valid (entry : bt_bond_entry) : bool :=
  if negb (address_valid (be_adapter entry)) || negb (address_valid (be_peer_identity entry))
     || negb (Z.land (be_key_mask entry) (Z.lnot BT_BOND_KEY_VALID_MASK) =? 0)
     || negb (Z.land (be_flags entry) (Z.lnot BT_BOND_FLAG_VALID_MASK) =? 0)
  then false else
  if negb (Z.land (be_key_mask entry) BT_BOND_KEY_LE_LTK =? 0)
     && ((be_ltk_size entry <? 7) || (be_ltk_size entry >? 16))
  then false else true.

(** What [memset] to zero leaves. *)
Definition zero_address : bt_bond_address := {| ba_addr := replicate 6 0; ba_type := 0 |}.
Definition zero_entry : bt_bond_entry :=
  {| be_adapter := zero_address; be_peer_identity := zero_address; be_key_mask := 0; be_flags := 0;
     be_classic_link_key := replicate 16 0; be_classic_link_key_type := 0; be_ltk := replicate 16 0;
     be_ltk_rand := replicate 8 0; be_ltk_ediv := 0; be_ltk_size := 0; be_irk := replicate 16 0;
     be_csrk := replicate 16 0 |}.

Definition bt_bond_store_init : bt_bond_store :=
  {| bs_entries := replicate (Z.to_nat BT_BOND_STORE_MAX_ENTRIES) zero_entry; bs_count := 0 |}.

Fixpoint find_loop (entries : list bt_bond_entry) (adapter peer_identity : bt_bond_address) (i : Z) (n : nat)
    : outcome (option Z) :=
  match n with
  | O => Ret None
  | S n =>
      let? e := ld entries i in
      if bond_address_equal (be_adapter e) adapter && bond_address_equal (be_peer_identity e) peer_identity
      then Ret (Some i) else find_loop entries adapter peer_identity (i + 1) n
  end.

(** The entry's index, for a pointer to it. *)
Definition bt_bond_store_find (store : bt_bond_store) (adapter peer_identity : bt_bond_address)
    : outcome (option Z) :=
  find_loop (bs_entries store) adapter peer_identity 0 (Z.to_nat (bs_count store)).

Definition bt_bond_store_upsert (entry : bt_bond_entry) : M bt_bond_store unit := fun store =>
  if negb (entry_valid entry) then (Fail BT_ERR_INVALID_ARGUMENT, store) else
  match bt_bond_store_find store (be_adapter entry) (be_peer_identity entry) with
  | Ret (Some i) =>
      match st1 (bs_entries store) i entry with
      | Ret es => (Ret tt, {| bs_entries := es; bs_count := bs_count store |})
      | _ => (Fault, store)
      end
  | Ret None =>
      if bs_count store >=? BT_BOND_STORE_MAX_ENTRIES then (Fail BT_ERR_NO_RESOURCES, store) else
      match st1 (bs_entries store) (bs_count store) entry with
      | Ret es => (Ret tt, {| bs_entries := es; bs_count := bs_count store + 1 |})
      | _ => (Fault, store)
      end
  | _ => (Fault, store)
  end.

Definition bt_bond_store_remove (store : bt_bond_store) (adapter peer_identity : bt_bond_address)
    : outcome (bool * bt_bond_store) :=
  let? entry := bt_bond_store_find store adapter peer_identity in
  match entry with
  | None => Ret (false, store)
  | Some index =>
      let? es :=
        (if index + 1 <? bs_count store then
           let? moved := ldn (bs_entries store) (index + 1) (bs_count store - index - 1) in
           stn (bs_entries store) index moved
         else Ret (bs_entries store)) in
      let count := bs_count store - 1 in
      let? es := st1 es count zero_entry in
      Ret (true, {| bs_entries := es; bs_count := count |})
  end.

(** ** The image *)

Definition write_addr (addr : bt_bond_address) : M bt_buf_writer unit :=
  do! bt_buf_writer_write_u8 (u8 (ba_type addr)) in
  bt_buf_writer_write_bytes (ba_addr addr) BT_ADDR_LEN.

Definition write_entry (entry : bt_bond_entry) : M bt_buf_writer unit :=
  do! bt_buf_writer_write_u8 BT_BOND_RECORD_TYPE_ENTRY in
  do! bt_buf_writer_write_u8 0 in
  do! bt_buf_writer_write_le16 BT_BOND_ENTRY_WIRE_LEN in
  do! write_addr (be_adapter entry) in
  do! write_addr (be_peer_identity entry) in
  do! bt_buf_writer_write_u8 (be_key_mask entry) in
  do! bt_buf_writer_write_u8 (be_flags entry) in
  do! bt_buf_writer_write_bytes (be_classic_link_key entry) 16 in
  do! bt_buf_writer_write_u8 (be_classic_link_key_type entry) in
  do! bt_buf_writer_write_bytes (be_ltk entry) 16 in
  do! bt_buf_writer_write_bytes (be_ltk_rand entry) 8 in
  do! bt_buf_writer_write_le16 (be_ltk_ediv entry) in
  do! bt_buf_writer_write_u8 (be_ltk_size entry) in
  do! bt_buf_writer_write_bytes (be_irk entry) 16 in
  bt_buf_writer_write_bytes (be_csrk entry) 16.

Fixpoint all_valid (entries : list bt_bond_entry) (i : Z) (n : nat) : outcome bool :=
  match n with
  | O => Ret true
  | S n => let? e := ld entries i in if entry_valid e then all_valid entries (i + 1) n else Ret false
  end.

Fixpoint write_entries (entries : list bt_bond_entry) (i : Z) (n : nat) : M bt_buf_writer unit :=
  match n with
  | O => ret tt
  | S n =>
      let! e := lift (ld entries i) in
      do! write_entry e in
      write_entries entries (i + 1) n
  end.

(** [writer->data[i] = (uint8_t)v] *)
Definition poke (i v : Z) : M bt_buf_writer unit := fun w =>
  match st1 (bw_data w) i (u8 v) with
  | Ret d => (Ret tt, {| bw_data := d; bw_cap := bw_cap w; bw_pos := bw_pos w |})
  | _ => (Fault, w)
  end.

(** Four of them, least significant byte first. *)
Definition poke_le32 (i v : Z) : M bt_buf_writer unit :=
  do! poke i v in
  do! poke (i + 1) (Z.shiftr v 8) in
  do! poke (i + 2) (Z.shiftr v 16) in
  poke (i + 3) (Z.shiftr v 24).

(** [crc32(writer->data + payload_start, payload_len)] *)
Definition payload_crc (payload_start payload_len : Z) : M bt_buf_writer Z := fun w =>
  (crc32 (drop (Z.to_nat payload_start) (bw_data w)) payload_len, w).

Definition bt_bond_store_serialize (store : bt_bond_store) : M bt_buf_writer unit :=
  if bs_count store >? BT_BOND_STORE_MAX_ENTRIES then fail BT_ERR_INVALID_ARGUMENT else
  let! valid := lift (all_valid (bs_entries store) 0 (Z.to_nat (bs_count store))) in
  if negb valid then fail BT_ERR_INVALID_ARGUMENT else
  let! start := gets bt_buf_writer_len in
  do! bt_buf_writer_write_bytes db_magic 4 in
  do! bt_buf_writer_write_le16 BT_BOND_DB_VERSION in
  do! bt_buf_writer_write_le16 BT_BOND_DB_HEADER_LEN in
  do! bt_buf_writer_write_le16 (u16 (bs_count store)) in
  do! bt_buf_writer_write_le16 0 in
  do! bt_buf_writer_write_le32 0 in
  do! bt_buf_writer_write_le32 0 in
  let! payload_start := gets bt_buf_writer_len in
  do! write_entries (bs_entries store) 0 (Z.to_nat (bs_count store)) in
  let! end_ := gets bt_buf_writer_len in
  let payload_len := u32 (end_ - payload_start) in
  let! checksum := payload_crc payload_start payload_len in
  do! poke_le32 (start + 12) payload_len in
  poke_le32 (start + 16) checksum.

Definition read_addr : M bt_buf_reader bt_bond_address := fun r =>
  match bt_buf_reader_read_u8 r with
  | (Ret type, r) =>
      if type >? BT_BOND_ADDR_RANDOM then (Fail BT_ERR_INVALID_ARGUMENT, r) else
      (let! addr := bt_buf_reader_read_bytes BT_ADDR_LEN in
       ret {| ba_addr := addr; ba_type := type |}) r
  | (Fail _, r) => (Fail BT_ERR_INVALID_ARGUMENT, r)
  | (Fault, r) => (Fault, r)
  end.

Definition read_entry (data : list Z) (len : Z) : outcome bt_bond_entry :=
  if negb (len =? BT_BOND_ENTRY_WIRE_LEN) then Fail BT_ERR_INVALID_ARGUMENT else
  parse data len
   (let! adapter := read_addr in
    let! peer_identity := read_addr in
    let! key_mask := bt_buf_reader_read_u8 in
    let! flags := bt_buf_reader_read_u8 in
    let! classic_link_key := bt_buf_reader_read_bytes 16 in
    let! classic_link_key_type := bt_buf_reader_read_u8 in
    let! ltk := bt_buf_reader_read_bytes 16 in
    let! ltk_rand := bt_buf_reader_read_bytes 8 in
    let! ltk_ediv := bt_buf_reader_read_le16 in
    let! ltk_size := bt_buf_reader_read_u8 in
    let! irk := bt_buf_reader_read_bytes 16 in
    let! csrk := bt_buf_reader_read_bytes 16 in
    let entry :=
      {| be_adapter := adapter; be_peer_identity := peer_identity; be_key_mask := key_mask; be_flags := flags;
         be_classic_link_key := classic_link_key; be_classic_link_key_type := classic_link_key_type;
         be_ltk := ltk; be_ltk_rand := ltk_rand; be_ltk_ediv := ltk_ediv; be_ltk_size := ltk_size;
         be_irk := irk; be_csrk := csrk |} in
    if entry_valid entry then ret entry else fail BT_ERR_INVALID_ARGUMENT).

(** The record at the cursor: its type and its bytes.  The first pass refuses
    a record whose reserved byte is set. *)
Definition read_record (strict : bool) : M bt_buf_reader (Z * list Z) :=
  let! type := bt_buf_reader_read_u8 in
  let! reserved := bt_buf_reader_read_u8 in
  let! len := bt_buf_reader_read_le16 in
  if strict && negb (reserved =? 0) then fail BT_ERR_INVALID_ARGUMENT else
  let! record := bt_buf_reader_peek len in
  match record with
  | None => fail BT_ERR_INVALID_ARGUMENT
  | Some record =>
      do! bt_buf_reader_skip len in
      ret (type, record)
  end.

(** The [while] of [validate_payload]; each record has at least four bytes. *)
Fixpoint validate_loop (fuel : nat) (r : bt_buf_reader) (known_entries : Z) : outcome Z :=
  match fuel with
  | O => Fault
  | S fuel =>
      if bt_buf_reader_remaining r =? 0 then Ret known_entries else
      match read_record true r with
      | (Ret (type, record), r) =>
          if type =? BT_BOND_RECORD_TYPE_ENTRY then
            match read_entry record (zlen record) with
            | Ret _ =>
                let known_entries := u16 (known_entries + 1) in
                if known_entries >? BT_BOND_STORE_MAX_ENTRIES then Fail BT_ERR_INVALID_ARGUMENT
                else validate_loop fuel r known_entries
            | Fail _ => Fail BT_ERR_INVALID_ARGUMENT
            | Fault => Fault
            end
          else validate_loop fuel r known_entries
      | (Fail _, _) => Fail BT_ERR_INVALID_ARGUMENT
      | (Fault, _) => Fault
      end
  end.

Definition validate_payload (payload : list Z) (payload_len expected_entries : Z) : outcome unit :=
  let? known_entries := validate_loop (S (Z.to_nat payload_len)) (bt_buf_reader_init payload payload_len) 0 in
  if known_entries =? expected_entries then Ret tt else Fail BT_ERR_INVALID_ARGUMENT.

(** The second pass. *)
Fixpoint load_loop (fuel : nat) (r : bt_buf_reader) (store : bt_bond_store) : outcome bt_bond_store :=
  match fuel with
  | O => Fault
  | S fuel =>
      if bt_buf_reader_remaining r =? 0 then Ret store else
      match read_record false r with
      | (Ret (type, record), r) =>
          if type =? BT_BOND_RECORD_TYPE_ENTRY then
            match read_entry record (zlen record) with
            | Ret e =>
                let? es := st1 (bs_entries store) (bs_count store) e in
                load_loop fuel r {| bs_entries := es; bs_count := bs_count store + 1 |}
            | _ => Fault
            end
          else load_loop fuel r store
      | _ => Fault
      end
  end.

(** Everything up to the first change of [out_store]: the payload. *)
Definition check_database (data : list Z) (data_len : Z) : outcome (list Z * Z) :=
  if data_len <? BT_BOND_DB_HEADER_LEN then Fail BT_ERR_INVALID_ARGUMENT else
  parse data data_len
   (let! magic := bt_buf_reader_read_bytes 4 in
    let! version := bt_buf_reader_read_le16 in
    let! header_len := bt_buf_reader_read_le16 in
    let! count := bt_buf_reader_read_le16 in
    let! reserved := bt_buf_reader_read_le16 in
    let! payload_len := bt_buf_reader_read_le32 in
    let! expected_crc := bt_buf_reader_read_le32 in
    let! remaining := gets bt_buf_reader_remaining in
    if negb (bool_decide (magic = db_magic)) || negb (version =? BT_BOND_DB_VERSION)
       || negb (header_len =? BT_BOND_DB_HEADER_LEN) || negb (reserved =? 0)
       || negb (payload_len =? remaining) || (count >? BT_BOND_STORE_MAX_ENTRIES)
    then fail BT_ERR_INVALID_ARGUMENT else
    let! payload := bt_buf_reader_peek payload_len in
    match payload with
    | None => fail BT_ERR_INVALID_ARGUMENT
    | Some payload =>
        let! crc := lift (crc32 payload payload_len) in
        if negb (crc =? expected_crc) then fail BT_ERR_INVALID_ARGUMENT else
        do! lift (validate_payload payload payload_len count) in
        ret (payload, payload_len)
    end).

Definition bt_bond_store_deserialize (data : option (list Z)) (data_len : Z) : M bt_bond_store unit :=
  fun out_store =>
  match data with
  | None => (Fail BT_ERR_INVALID_ARGUMENT, out_store)
  | Some data =>
      match check_database data data_len with
      | Ret (payload, payload_len) =>
          match load_loop (S (Z.to_nat payload_len)) (bt_buf_reader_init payload payload_len) bt_bond_store_init with
          | Ret store => (Ret tt, store)
          | _ => (Fault, out_store)
          end
      | Fail _ => (Fail BT_ERR_INVALID_ARGUMENT, out_store)
      | Fault => (Fault, out_store)
      end
  end.

(** ** Specification *)

Definition key : Type := Z * list Z * (Z * list Z).
Definition id_of (a : bt_bond_address) : Z * list Z := (ba_type a, ba_addr a).
Definition key_of (e : bt_bond_entry) : key := (id_of (be_adapter e), id_of (be_peer_identity e)).

Definition address_fits (a : bt_bond_address) : Prop := addr_ok (ba_addr a) /\ is_byte (ba_type a).

(** The C types of an entry's fields. *)
Definition entry_fits (e : bt_bond_entry) : Prop :=
  address_fits (be_adapter e) /\ address_fits (be_peer_identity e) /\ is_byte (be_key_mask e) /\ is_byte (be_flags e) /\
  sized 16 (be_classic_link_key e) /\ is_byte (be_classic_link_key_type e) /\ sized 16 (be_ltk e) /\
  sized 8 (be_ltk_rand e) /\ 0 <= be_ltk_ediv e < 2 ^ 16 /\ is_byte (be_ltk_size e) /\ sized 16 (be_irk e) /\
  sized 16 (be_csrk e).

Definition entry_ok (e : bt_bond_entry) : Prop := entry_fits e /\ entry_valid e = true.

(** The bonds a store holds, in order, and as a map. *)
Definition live (s : bt_bond_store) : list bt_bond_entry := take (Z.to_nat (bs_count s)) (bs_entries s).
Definition bonds (s : bt_bond_store) : gmap key bt_bond_entry := keyed key_of (live s).

Definition store_ok (s : bt_bond_store) : Prop :=
  0 <= bs_count s <= 16 /\ zlen (bs_entries s) = 16 /\ Forall entry_ok (live s) /\ NoDup (key_of <$> live s).

Definition address_bytes (a : bt_bond_address) : list Z := [ba_type a] ++ ba_addr a.

Definition entry_bytes (e : bt_bond_entry) : list Z :=
  address_bytes (be_adapter e) ++ address_bytes (be_peer_identity e) ++ [be_key_mask e] ++ [be_flags e] ++
  be_classic_link_key e ++ [be_classic_link_key_type e] ++ be_ltk e ++ be_ltk_rand e ++ le_enc 2 (be_ltk_ediv e) ++
  [be_ltk_size e] ++ be_irk e ++ be_csrk e.

(** The records of an image. *)
Inductive record : Type :=
| Known (e : bt_bond_entry)
| Unknown (type : Z) (body : list Z).

Definition type_of (r : record) : Z := match r with Known _ => 1 | Unknown type _ => type end.
Definition body_of (r : record) : list Z := match r with Known e => entry_bytes e | Unknown _ body => body end.
Definition record_bytes (r : record) : list Z := [type_of r] ++ [0] ++ le_enc 2 (zlen (body_of r)) ++ body_of r.

Definition record_ok (r : record) : Prop :=
  match r with
  | Known e => entry_ok e
  | Unknown type body => is_byte type /\ type <> 1 /\ bytes body /\ zlen body < 2 ^ 16
  end.

Definition known (rs : list record) : list bt_bond_entry :=
  omap (fun r => match r with Known e => Some e | Unknown _ _ => None end) rs.

Definition payload_of (rs : list record) : list Z := mjoin (record_bytes <$> rs).

(** The CRC, as a function on bytes. *)
Definition crc (bs : list Z) : Z := u32 (Z.lnot (foldl (fun c b => crc_bits 8 (Z.lxor c b)) UINT32_MAX bs)).

Definition header (n : Z) (payload : list Z) : list Z :=
  db_magic ++ le_enc 2 1 ++ le_enc 2 20 ++ le_enc 2 n ++ le_enc 2 0 ++ le_enc 4 (zlen payload) ++ le_enc 4 (crc payload).

Definition image (rs : list record) : list Z :=
  header (Z.of_nat (length (known rs))) (payload_of rs) ++ payload_of rs.

Definition image_ok (rs : list record) : Prop :=
  Forall record_ok rs /\ (length (known rs) <= 16)%nat /\ zlen (payload_of rs) < 2 ^ 32.

(** The table after the entries [es] were loaded into an empty one. *)
Definition loaded (es : list bt_bond_entry) : bt_bond_store :=
  {| bs_entries := es ++ replicate (16 - length es) zero_entry; bs_count := Z.of_nat (length es) |}.

(** ** Lemmas: the CRC *)

Lemma crc32_loop_spec bs : forall pre post i c, i = zlen pre ->
  crc32_loop (pre ++ bs ++ post) i (length bs) c = Ret (foldl (fun c b => crc_bits 8 (Z.lxor c b)) c bs).
Proof.
  induction bs as [|b bs IH]; intros pre post i c ->; [done|]. cbn [crc32_loop length app].
  rewrite (ld_at pre [b] (bs ++ post) _ 0 b) by (done || lia). cbn [obind foldl].
  specialize (IH (pre ++ [b]) post (zlen pre + 1) (crc_bits 8 (Z.lxor c b))).
  rewrite <- app_assoc in IH. apply IH. rewrite length_app. simpl. lia.
Qed.

Lemma crc32_spec bs post : crc32 (bs ++ post) (zlen bs) = Ret (crc bs).
Proof.
  unfold crc32. rewrite Nat2Z.id. pose proof (crc32_loop_spec bs [] post 0 UINT32_MAX eq_refl) as E.
  cbn [app] in E. rewrite E. done.
Qed.

Definition is_u32 (x : Z) : Prop := 0 <= x < 2 ^ 32.

Lemma crc_range bs : is_u32 (crc bs).
Proof. apply Z.mod_pos_bound. lia. Qed.

Lemma crc_odd c : Z.land 3988292384 (u32 (- Z.land c 1)) = if Z.testbit c 0 then 3988292384 else 0.
Proof.
  change 1 with (Z.ones 1) at 1. rewrite Z.land_ones by lia. change (2 ^ 1) with 2.
  rewrite Z.bit0_odd, Zodd_mod. pose proof (Z.mod_pos_bound c 2 ltac:(lia)).
  assert (c mod 2 = 0 \/ c mod 2 = 1) as [-> | ->] by lia; done.
Qed.

Lemma bits_above c n i : 0 <= c < 2 ^ n -> n <= i -> Z.testbit c i = false.
Proof.
  intros Hc Hi. destruct (Z.eq_dec c 0) as [->|]; [apply Z.bits_0|].
  apply Z.bits_above_log2; [lia|]. assert (Z.log2 c < n) by (apply Z.log2_lt_pow2; lia). lia.
Qed.

Lemma u32_of_bits c : (forall i, 32 <= i -> Z.testbit c i = false) -> 0 <= c -> is_u32 c.
Proof.
  intros Hb Hc. unfold is_u32. split; [done|]. replace c with (Z.land c (Z.ones 32)).
  - rewrite Z.land_ones by lia. apply Z.mod_pos_bound. lia.
  - apply Z.bits_inj'. intros i Hi. rewrite Z.land_spec. destruct (Z.lt_ge_cases i 32).
    + rewrite Z.ones_spec_low by lia. apply andb_true_r.
    + by rewrite Hb.
Qed.

Lemma crc_bit_range c : is_u32 c -> is_u32 (crc_bit c).
Proof.
  intros [H0 H1]. unfold crc_bit. rewrite crc_odd. apply u32_of_bits.
  - intros i Hi. rewrite Z.lxor_spec, Z.shiftr_spec, (bits_above c 32 (i + 1)) by lia.
    destruct (Z.testbit c 0); [apply (bits_above _ 32)|apply Z.bits_0]; lia.
  - apply Z.lxor_nonneg. rewrite Z.shiftr_nonneg. destruct (Z.testbit c 0); lia.
Qed.

(** One step is injective: the lowest bit is the highest of the result. *)
Lemma crc_bit_top c : is_u32 c -> Z.testbit (crc_bit c) 31 = Z.testbit c 0.
Proof.
  intros [H0 H1]. unfold crc_bit. rewrite crc_odd, Z.lxor_spec, Z.shiftr_spec by lia.
  rewrite (bits_above c 32) by lia. by destruct (Z.testbit c 0).
Qed.

Lemma crc_bit_inj a b : is_u32 a -> is_u32 b -> crc_bit a = crc_bit b -> a = b.
Proof.
  intros Ha Hb E. assert (Z.testbit a 0 = Z.testbit b 0) as E0 by (by rewrite <- !crc_bit_top, E).
  unfold crc_bit in E. rewrite !crc_odd, E0 in E.
  apply (f_equal (fun x => Z.lxor x (if Z.testbit b 0 then 3988292384 else 0))) in E.
  rewrite !Z.lxor_assoc, !Z.lxor_nilpotent, !Z.lxor_0_r in E.
  apply Z.bits_inj'. intros i Hi. destruct (Z.eq_dec i 0) as [->|]; [done|].
  apply (f_equal (fun x => Z.testbit x (i - 1))) in E. rewrite !Z.shiftr_spec in E by lia.
  by replace (i - 1 + 1) with i in E by lia.
Qed.

Lemma crc_bits_range n : forall c, is_u32 c -> is_u32 (crc_bits n c).
Proof. induction n; intros; [done|]. cbn [crc_bits]. by apply IHn, crc_bit_range. Qed.

Lemma crc_bits_inj n : forall a b, is_u32 a -> is_u32 b -> crc_bits n a = crc_bits n b -> a = b.
Proof.
  induction n as [|n IH]; intros a b Ha Hb; [done|]. cbn [crc_bits]. intros E.
  apply crc_bit_inj; [done..|]. apply IH; [by apply crc_bit_range..|done].
Qed.

Lemma lxor_range a b : is_u32 a -> is_byte b -> is_u32 (Z.lxor a b).
Proof.
  intros [H0 H1] [H2 H3]. apply u32_of_bits; [|by apply Z.lxor_nonneg].
  intros i Hi. rewrite Z.lxor_spec, (bits_above a 32), (bits_above b 8) by lia. done.
Qed.

Lemma crc_fold_range bs : bytes bs -> forall c, is_u32 c -> is_u32 (foldl (fun c b => crc_bits 8 (Z.lxor c b)) c bs).
Proof. induction 1; intros; [done|]. cbn [foldl]. by apply IHForall, crc_bits_range, lxor_range. Qed.

Lemma crc_fold_inj bs : bytes bs -> forall a b, is_u32 a -> is_u32 b ->
  foldl (fun c b => crc_bits 8 (Z.lxor c b)) a bs = foldl (fun c b => crc_bits 8 (Z.lxor c b)) b bs -> a = b.
Proof.
  induction 1 as [|x bs Hx Hbs IH]; intros a b Ha Hb; [done|]. cbn [foldl]. intros E.
  apply IH in E; [|by apply crc_bits_range, lxor_range..]. apply crc_bits_inj in E; [|by apply lxor_range..].
  apply (f_equal (fun y => Z.lxor y x)) in E. by rewrite !Z.lxor_assoc, Z.lxor_nilpotent, !Z.lxor_0_r in E.
Qed.

Lemma lnot_inj a b : is_u32 a -> is_u32 b -> u32 (Z.lnot a) = u32 (Z.lnot b) -> a = b.
Proof. unfold is_u32, u32, Z.lnot. intros Ha Hb E. dlia. Qed.

#[local] Opaque crc_bits.

(** One step of the checksum. *)
Definition crc_step (c b : Z) : Z := crc_bits 8 (Z.lxor c b).

Lemma crc_step_inj c b b' : is_u32 c -> is_byte b -> is_byte b' -> crc_step c b = crc_step c b' -> b = b'.
Proof.
  intros Hc Hb Hb' E. pose proof (crc_bits_inj 8 _ _ (lxor_range c b Hc Hb) (lxor_range c b' Hc Hb') E) as E'.
  apply (f_equal (Z.lxor c)) in E'. by rewrite <- !Z.lxor_assoc, Z.lxor_nilpotent, !Z.lxor_0_l in E'.
Qed.

Lemma crc_step_range c b : is_u32 c -> is_byte b -> is_u32 (crc_step c b).
Proof. intros. by apply crc_bits_range, lxor_range. Qed.

Lemma fold_differs seed pre b b' post : is_u32 seed -> is_byte b -> is_byte b' -> b <> b' -> bytes pre -> bytes post ->
  let f := foldl crc_step in u32 (Z.lnot (f seed (pre ++ [b] ++ post))) <> u32 (Z.lnot (f seed (pre ++ [b'] ++ post))).
Proof.
  intros Hseed Hb Hb' Hne Hpre Hpost f E. unfold f in E. rewrite !foldl_app in E. cbn [foldl] in E.
  pose proof (crc_fold_range pre Hpre seed Hseed) as Hc. change (is_u32 (foldl crc_step seed pre)) in Hc.
  set (c := foldl crc_step seed pre) in *. clearbody c.
  pose proof (crc_step_range c b Hc Hb) as Hs. pose proof (crc_step_range c b' Hc Hb') as Hs'.
  pose proof (lnot_inj _ _ (crc_fold_range post Hpost _ Hs) (crc_fold_range post Hpost _ Hs') E) as E1.
  pose proof (crc_fold_inj post Hpost _ _ Hs Hs' E1) as E2. by apply crc_step_inj in E2.
Qed.

Lemma crc_differs pre b b' post : is_byte b -> is_byte b' -> b <> b' -> bytes pre -> bytes post ->
  crc (pre ++ [b] ++ post) <> crc (pre ++ [b'] ++ post).
Proof. apply (fold_differs UINT32_MAX). by split. Qed.

(** ** Lemmas: the table *)

Lemma address_equal a b : addr_ok (ba_addr a) -> addr_ok (ba_addr b) ->
  bond_address_equal a b = bool_decide (id_of a = id_of b).
Proof.
  intros Ha Hb. unfold bond_address_equal, id_of. rewrite bt_addr_equal_spec by done.
  destruct (Z.eqb_spec (ba_type a) (ba_type b)) as [->|Hn]; cbn [andb].
  - apply bool_decide_ext. split; [by intros ->|by intros [= ->]].
  - symmetry. apply bool_decide_eq_false. by intros [= ?].
Qed.

Lemma bond_loop_spec adapter peer es : forall pre rest, addr_ok (ba_addr adapter) -> addr_ok (ba_addr peer) ->
  Forall entry_ok es ->
  (((id_of adapter, id_of peer) ∉ key_of <$> es) /\
   find_loop (pre ++ es ++ rest) adapter peer (zlen pre) (length es) = Ret None) \/
  exists e1 d e2, es = e1 ++ d :: e2 /\ key_of d = (id_of adapter, id_of peer) /\
    find_loop (pre ++ es ++ rest) adapter peer (zlen pre) (length es) = Ret (Some (zlen (pre ++ e1))).
Proof.
  induction es as [|d es IH]; intros pre rest Ha Hp Hf; [left; split; [set_solver|done]|].
  apply Forall_cons in Hf as [[Hd _] Hf]. cbn [find_loop length].
  rewrite (ld_at pre [d] (es ++ rest) _ 0 d) by (simpl; done || lia). cbn [obind].
  destruct Hd as ([Hda _] & [Hdp _] & _). rewrite !address_equal by done.
  case_bool_decide as H1; [case_bool_decide as H2|]; cbn [andb].
  1: { right. exists [], d, es. rewrite app_nil_r. split; [done|]. split; [|done]. unfold key_of. by rewrite H1, H2. }
  all: assert (key_of d <> (id_of adapter, id_of peer)) as Hne by (unfold key_of; congruence).
  all: replace (zlen pre + 1) with (zlen (pre ++ [d])) by zlist.
  all: replace (pre ++ (d :: es) ++ rest) with ((pre ++ [d]) ++ es ++ rest) by (by rewrite <- app_assoc).
  all: destruct (IH (pre ++ [d]) rest Ha Hp Hf) as [[Hn ->]|(e1 & x & e2 & -> & Hx & ->)].
  all: try (left; split; [set_solver|done]).
  all: right; exists (d :: e1), x, e2; split; [done|]; split; [done|]; by rewrite <- app_assoc.
Qed.

Lemma store_split s : store_ok s -> exists rest, bs_entries s = live s ++ rest /\ zlen (live s) = bs_count s /\
  zlen rest = 16 - bs_count s.
Proof.
  intros (Hc & Hl & _). exists (drop (Z.to_nat (bs_count s)) (bs_entries s)). unfold live.
  rewrite take_drop. split; [done|]. zlist.
Qed.

Lemma store_of es rest : zlen es + zlen rest = 16 -> Forall entry_ok es -> NoDup (key_of <$> es) ->
  let s := {| bs_entries := es ++ rest; bs_count := zlen es |} in store_ok s /\ live s = es.
Proof.
  intros Hl Hf Hn s. assert (live s = es) as He by (unfold live, s; cbn; by rewrite Nat2Z.id, take_app_length).
  split; [|done]. unfold store_ok. rewrite He. cbn. split; [lia|]. split; [zlist|done].
Qed.

(** The index the lookup finds, if any. *)
Lemma find_spec s adapter peer : store_ok s -> addr_ok (ba_addr adapter) -> addr_ok (ba_addr peer) ->
  (((id_of adapter, id_of peer) ∉ key_of <$> live s) /\ bt_bond_store_find s adapter peer = Ret None) \/
  exists e1 d e2, live s = e1 ++ d :: e2 /\ key_of d = (id_of adapter, id_of peer) /\
    bt_bond_store_find s adapter peer = Ret (Some (zlen e1)).
Proof.
  intros Hs Ha Hp. destruct (store_split s Hs) as (rest & He & Hl & _). destruct Hs as (_ & _ & Hf & _).
  unfold bt_bond_store_find. rewrite He. replace (Z.to_nat (bs_count s)) with (length (live s)) by lia.
  exact (bond_loop_spec adapter peer (live s) [] rest Ha Hp Hf).
Qed.

(** The [memmove] that closes the gap at [d]; the last of [l2] stays behind twice. *)
Lemma close_gap {A} (l1 : list A) d l2 rest : exists y,
  (if zlen l1 + 1 <? zlen (l1 ++ d :: l2) then
     let? moved := ldn (l1 ++ d :: l2 ++ rest) (zlen l1 + 1) (zlen (l1 ++ d :: l2) - zlen l1 - 1) in
     stn (l1 ++ d :: l2 ++ rest) (zlen l1) moved
   else Ret (l1 ++ d :: l2 ++ rest)) = Ret (l1 ++ l2 ++ y :: rest).
Proof.
  replace (zlen (l1 ++ d :: l2) - zlen l1 - 1) with (zlen l2) by zlist.
  destruct (Z.ltb_spec (zlen l1 + 1) (zlen (l1 ++ d :: l2))) as [Hlt|Hge].
  2:{ exists d. assert (l2 = []) as -> by (destruct l2; [done|zlist]). done. }
  destruct (exists_last (l := l2)) as (l3 & x & ->); [by intros ->; zlist|]. exists x.
  set (m := l1 ++ d :: (l3 ++ [x]) ++ rest).
  assert (m = (l1 ++ [d]) ++ (l3 ++ [x]) ++ rest) as Hm1 by (unfold m; by rewrite <- !app_assoc).
  assert (m = (l1 ++ [d] ++ l3) ++ [x] ++ rest) as Hm2 by (unfold m; by rewrite <- !app_assoc).
  assert (zlen m = zlen l1 + 1 + zlen l3 + 1 + zlen rest) as Hl by (unfold m; zlist).
  rewrite ldn_spec by zlist. rewrite Hm1 at 1.
  replace (Z.to_nat (zlen l1 + 1)) with (length (l1 ++ [d])) by zlist.
  rewrite drop_app_length, Nat2Z.id, take_app_length. cbn [obind].
  rewrite stn_spec by zlist. unfold splice. rewrite Nat2Z.id. unfold m at 1. rewrite take_app_length.
  do 2 f_equal. rewrite Hm2. rewrite drop_app_length' by zlist. by rewrite <- !app_assoc.
Qed.

(** What [upsert] does to the map, and to the order. *)
Definition upserted (s s' : bt_bond_store) (e : bt_bond_entry) (o : outcome unit) : Prop :=
  if negb (entry_valid e) then o = Fail BT_ERR_INVALID_ARGUMENT /\ s' = s else
  if decide (bonds s !! key_of e = None /\ size (bonds s) = 16%nat)
  then o = Fail BT_ERR_NO_RESOURCES /\ s' = s
  else o = Ret tt /\ store_ok s' /\ bonds s' = <[key_of e := e]> (bonds s) /\
    (key_of <$> live s') = (key_of <$> live s) ++ (if decide (bonds s !! key_of e = None) then [key_of e] else []).

Lemma upsert_spec s e : store_ok s -> entry_fits e ->
  exists o s', bt_bond_store_upsert e s = (o, s') /\ upserted s s' e o.
Proof.
  intros Hs He. unfold bt_bond_store_upsert, upserted. destruct (entry_valid e) eqn:Hv; cbn [negb].
  2:{ by do 2 eexists. }
  pose proof He as ([Ha _] & [Hp _] & _). destruct (store_split s Hs) as (rest & Hes & Hl & Hr).
  pose proof Hs as (Hc & _ & Hf & Hnd). unfold bonds. rewrite (keyed_size key_of (live s) Hnd).
  destruct (find_spec s _ _ Hs Ha Hp) as [[Hni ->]|(e1 & d & e2 & Hd & Hk & ->)]; fold (key_of e) in *.
  - rewrite (proj2 (keyed_lookup_None key_of _ _) Hni), Z.geb_leb. unfold BT_BOND_STORE_MAX_ENTRIES.
    destruct (Z.leb_spec 16 (bs_count s)) as [Hmax|Hmax].
    { case_decide as Hx; [by do 2 eexists|]. exfalso. apply Hx. split; [done|lia]. }
    case_decide as Hx; [exfalso; destruct Hx; lia|]. clear Hx. rewrite Hes. destruct rest as [|x rest]; [simpl in Hr; lia|].
    rewrite <- Hl, st1_middle. do 2 eexists. split; [done|]. split; [done|].
    assert (NoDup (key_of <$> live s ++ [e])) as Hnd'.
    { rewrite fmap_app. apply NoDup_app. split; [done|]. split; [|by apply NoDup_singleton].
      intros x' Hx Hx'%list_elem_of_singleton. by subst. }
    destruct (store_of (live s ++ [e]) rest) as [Hok Hlive]; [|by apply Forall_app; split; [|constructor]|done|].
    { simpl in Hr. zlist. }
    replace (zlen (live s) + 1) with (zlen (live s ++ [e])) by zlist. rewrite <- app_assoc in Hok, Hlive. cbn [app] in Hok, Hlive.
    split; [done|]. rewrite Hlive, decide_True by done. split; [by rewrite keyed_snoc|]. by rewrite fmap_app.
  - rewrite Hd in *. pose proof (keyed_lookup_middle key_of _ _ _ Hnd) as Hlk.
    change (id_of (be_adapter e), id_of (be_peer_identity e)) with (key_of e) in Hk. rewrite Hk in Hlk. rewrite Hlk.
    case_decide as Hx; [by destruct Hx|]. clear Hx. rewrite decide_False by done.
    rewrite Hes. rewrite <- app_assoc. cbn [app]. rewrite st1_middle. do 2 eexists. split; [done|]. split; [done|].
    apply Forall_app in Hf as [Hf1 Hf2]. apply Forall_cons in Hf2 as [_ Hf2].
    assert ((key_of <$> e1 ++ e :: e2) = (key_of <$> e1 ++ d :: e2)) as Hkeys by (rewrite !fmap_app, !fmap_cons; by rewrite Hk).
    destruct (store_of (e1 ++ e :: e2) rest) as [Hok Hlive].
    { simpl in *. zlist. } { apply Forall_app. by split; [|constructor]. } { by rewrite Hkeys. }
    replace (zlen (e1 ++ e :: e2)) with (bs_count s) in Hok, Hlive by (rewrite <- Hl; zlist).
    rewrite <- app_assoc in Hok, Hlive. cbn [app] in Hok, Hlive. split; [done|]. rewrite Hlive.
    split; [rewrite (keyed_replace key_of e1 d) by done; by rewrite Hk|]. by rewrite app_nil_r.
Qed.

Lemma remove_spec s adapter peer : store_ok s -> addr_ok (ba_addr adapter) -> addr_ok (ba_addr peer) ->
  let k := (id_of adapter, id_of peer) in
  exists s', bt_bond_store_remove s adapter peer = Ret (bool_decide (is_Some (bonds s !! k)), s') /\
    store_ok s' /\ bonds s' = delete k (bonds s) /\ live s' = filter (fun e => key_of e <> k) (live s).
Proof.
  intros Hs Ha Hp k. unfold bt_bond_store_remove. pose proof Hs as (Hc & _ & Hf & Hnd).
  destruct (store_split s Hs) as (rest & Hes & Hl & Hr).
  destruct (find_spec s _ _ Hs Ha Hp) as [[Hni ->]|(e1 & d & e2 & Hd & Hk & ->)]; cbn [obind].
  - change (id_of adapter, id_of peer) with k in Hni. assert (bonds s !! k = None) as Hnone by (by apply keyed_lookup_None).
    clearbody k. rewrite Hnone.
    exists s. rewrite bool_decide_false by (by intros []). split; [done|]. split; [done|].
    split; [by rewrite delete_id|]. symmetry. apply filter_keep.
    intros x Hx E. apply Hni. apply list_elem_of_fmap. by exists x.
  - change (id_of adapter, id_of peer) with k in Hk. clearbody k.
    rewrite Hd in *. pose proof (keyed_lookup_middle key_of _ _ _ Hnd) as Hlk. rewrite Hk in Hlk.
    assert (bonds s !! k = Some d) as -> by (unfold bonds; rewrite Hd; exact Hlk). rewrite bool_decide_true by eauto.
    assert (filter (fun e => key_of e <> k) (e1 ++ d :: e2) = e1 ++ e2) as Hfil.
    { rewrite fmap_app, fmap_cons, NoDup_app, NoDup_cons in Hnd. destruct Hnd as (_ & Hd1 & Hd2 & _).
      rewrite filter_app, filter_cons_False by (by intros ?). f_equal; apply filter_keep; intros x Hx E.
      - apply (Hd1 k); [apply list_elem_of_fmap; by exists x|]. rewrite <- Hk. left.
      - apply Hd2. rewrite Hk, <- E. apply list_elem_of_fmap. by exists x. }
    rewrite Hfil. rewrite <- Hl in *. rewrite Hes, <- app_assoc. cbn [app].
    destruct (close_gap e1 d e2 rest) as [y ->].
    cbn [obind]. replace (zlen (e1 ++ d :: e2) - 1) with (zlen (e1 ++ e2)) by zlist.
    rewrite (app_assoc e1 e2), st1_middle. cbn [obind]. eexists. split; [done|].
    apply Forall_app in Hf as [Hf1 Hf2]. apply Forall_cons in Hf2 as [_ Hf2].
    destruct (store_of (e1 ++ e2) (zero_entry :: rest)) as [Hok Hlive].
    { simpl in *. zlist. } { by apply Forall_app. }
    { rewrite fmap_app, fmap_cons, NoDup_app, NoDup_cons in Hnd. destruct Hnd as (? & Hd1 & ? & ?).
      rewrite fmap_app. apply NoDup_app. split; [done|]. split; [|done]. intros x Hx Hx'. apply (Hd1 x Hx). by right. }
    split; [exact Hok|]. rewrite Hlive. split; [|done]. unfold bonds. rewrite Hlive, Hd, <- Hk. by apply keyed_remove.
Qed.

(** ** Lemmas: the image *)

Lemma entry_length e : entry_fits e -> zlen (entry_bytes e) = 92.
Proof.
  intros ([[Ha _] _] & [[Hp _] _] & _ & _ & [Hk _] & _ & [Hl _] & [Hr _] & _ & _ & [Hi _] & [Hc _]).
  unfold entry_bytes, address_bytes, BT_ADDR_LEN in *. rewrite !length_app, le_enc_length. simpl length. lia.
Qed.

Lemma entry_all_bytes e : entry_fits e -> bytes (entry_bytes e).
Proof.
  intros ([[_ ?] ?] & [[_ ?] ?] & ? & ? & [_ ?] & ? & [_ ?] & [_ ?] & ? & ? & [_ ?] & [_ ?]).
  unfold entry_bytes, address_bytes. bys.
Qed.

(** Any 92 bytes are the fields of some entry. *)
Lemma entry_of_bytes d : sized 92 d -> exists e, entry_fits e /\ d = entry_bytes e.
Proof.
  intros [Hl Hb]. set (cut := split_sized).
  destruct (cut d 1 91 Hb Hl) as (t1 & r1 & -> & [Lt1 Bt1] & [L1 B1]); [lia..|].
  destruct (cut r1 6 85 B1 L1) as (a1 & r2 & -> & [La1 Ba1] & [L2 B2]); [lia..|].
  destruct (cut r2 1 84 B2 L2) as (t2 & r3 & -> & [Lt2 Bt2] & [L3 B3]); [lia..|].
  destruct (cut r3 6 78 B3 L3) as (a2 & r4 & -> & [La2 Ba2] & [L4 B4]); [lia..|].
  destruct (cut r4 1 77 B4 L4) as (km & r5 & -> & [Lkm Bkm] & [L5 B5]); [lia..|].
  destruct (cut r5 1 76 B5 L5) as (fl & r6 & -> & [Lfl Bfl] & [L6 B6]); [lia..|].
  destruct (cut r6 16 60 B6 L6) as (lk & r7 & -> & Hlk & [L7 B7]); [lia..|].
  destruct (cut r7 1 59 B7 L7) as (lt & r8 & -> & [Llt Blt] & [L8 B8]); [lia..|].
  destruct (cut r8 16 43 B8 L8) as (ltk & r9 & -> & Hltk & [L9 B9]); [lia..|].
  destruct (cut r9 8 35 B9 L9) as (rd & r10 & -> & Hrd & [L10 B10]); [lia..|].
  destruct (cut r10 2 33 B10 L10) as (ed & r11 & -> & Hed & [L11 B11]); [lia..|].
  destruct (cut r11 1 32 B11 L11) as (sz & r12 & -> & [Lsz Bsz] & [L12 B12]); [lia..|].
  destruct (cut r12 16 16 B12 L12) as (irk & csrk & -> & Hirk & Hcsrk); [lia..|].
  destruct (length_one t1 Lt1) as [x1 ->], (length_one t2 Lt2) as [x2 ->], (length_one km Lkm) as [x3 ->],
    (length_one fl Lfl) as [x4 ->], (length_one lt Llt) as [x5 ->], (length_one sz Lsz) as [x6 ->].
  repeat match goal with H : Forall is_byte [_] |- _ => apply Forall_cons in H as [H _] end.
  destruct (sized_le 2 ed Hed) as [Ee Be].
  exists {| be_adapter := {| ba_addr := a1; ba_type := x1 |}; be_peer_identity := {| ba_addr := a2; ba_type := x2 |};
    be_key_mask := x3; be_flags := x4; be_classic_link_key := lk; be_classic_link_key_type := x5; be_ltk := ltk;
    be_ltk_rand := rd; be_ltk_ediv := le_dec ed; be_ltk_size := x6; be_irk := irk; be_csrk := csrk |}.
  split; [by repeat (split; [try done; by split|])|].
  unfold entry_bytes, address_bytes. cbn [be_adapter be_peer_identity be_key_mask be_flags be_classic_link_key
    be_classic_link_key_type be_ltk be_ltk_rand be_ltk_ediv be_ltk_size be_irk be_csrk ba_type ba_addr].
  rewrite <- Ee, <- !app_assoc. done.
Qed.

Lemma read_addr_reads a post : address_fits a -> ba_type a <= 1 -> reads read_addr (address_bytes a) post a.
Proof.
  intros [[Hl Hb] Ht] Hle r Hok Hv. unfold is_byte in Ht. unfold address_bytes in *. rewrite <- app_assoc in Hv. unfold read_addr.
  rewrite (reads_u8 (ba_type a) (ba_addr a ++ post) Ht r Hok Hv), Z.gtb_ltb. unfold BT_BOND_ADDR_RANDOM.
  rewrite (proj2 (Z.ltb_ge _ _)) by lia.
  destruct (radvance_view_app r _ _ Hok Hv) as [Hok1 Hv1]. unfold bind. rewrite <- Hl.
  rewrite (reads_bytes (ba_addr a) post _ Hok1 Hv1). unfold ret. rewrite radvance_radvance, length_app.
  replace (zlen [ba_type a] + zlen (ba_addr a)) with (Z.of_nat (length [ba_type a] + length (ba_addr a))) by lia.
  by destruct a.
Qed.

Lemma read_addr_refuses {B} (k : bt_bond_address -> M bt_buf_reader B) a post r : is_byte (ba_type a) -> 1 < ba_type a ->
  reader_ok r -> rview r = address_bytes a ++ post -> (bind read_addr k r).1 = Fail BT_ERR_INVALID_ARGUMENT.
Proof.
  intros Ht Hlt Hok Hv. unfold is_byte in Ht. unfold address_bytes in *. rewrite <- app_assoc in Hv. unfold bind, read_addr.
  rewrite (reads_u8 (ba_type a) (ba_addr a ++ post) Ht r Hok Hv), Z.gtb_ltb. unfold BT_BOND_ADDR_RANDOM.
  by rewrite (proj2 (Z.ltb_lt _ _)) by lia.
Qed.

(** The code's reader on the bytes of any entry. *)
Lemma read_entry_bytes e : entry_fits e ->
  read_entry (entry_bytes e) (zlen (entry_bytes e)) = if entry_valid e then Ret e else Fail BT_ERR_INVALID_ARGUMENT.
Proof.
  intros He. unfold read_entry. rewrite (entry_length e He). cbn [Z.eqb Pos.eqb negb BT_BOND_ENTRY_WIRE_LEN].
  unfold parse. pose proof (entry_length e He) as Hl. pose proof (entry_all_bytes e He) as Hb.
  assert (reader_ok (bt_buf_reader_init (entry_bytes e) 92)) as Hok by (apply reader_init_ok; [lia|done]).
  assert (rview (bt_buf_reader_init (entry_bytes e) 92) = entry_bytes e ++ []) as Hv
    by (rewrite <- Hl, rview_init_all; by rewrite app_nil_r).
  set (r := bt_buf_reader_init _ _) in *. clearbody r. unfold entry_bytes in Hv. rewrite <- !app_assoc in Hv.
  pose proof He as (Ha & Hp & ? & ? & [Hlk _] & ? & [Hltk _] & [Hrd _] & Hed & ? & [Hirk _] & [Hcsrk _]).
  destruct (Z.lt_ge_cases 1 (ba_type (be_adapter e))) as [Hlt|Hle].
  { rewrite (read_addr_refuses _ _ _ _ (proj2 Ha) Hlt Hok Hv). unfold entry_valid, address_valid, BT_BOND_ADDR_RANDOM.
    by rewrite (proj2 (Z.leb_gt _ _)). }
  run_read (read_addr_reads (be_adapter e) _ Ha Hle).
  destruct (Z.lt_ge_cases 1 (ba_type (be_peer_identity e))) as [Hlt|Hle'].
  { rewrite (read_addr_refuses _ _ _ _ (proj2 Hp) Hlt Hok0 Hv0). unfold entry_valid, address_valid, BT_BOND_ADDR_RANDOM.
    rewrite (proj2 (Z.leb_gt (ba_type (be_peer_identity e)) 1)) by done. by rewrite orb_true_r. }
  run_read (read_addr_reads (be_peer_identity e) _ Hp Hle'). unfold is_byte in *.
  run_read (reads_u8 (be_key_mask e) _ ltac:(done)). run_read (reads_u8 (be_flags e) _ ltac:(done)).
  run_read (reads_bytes_n 16 (be_classic_link_key e) _ Hlk).
  run_read (reads_u8 (be_classic_link_key_type e) _ ltac:(done)).
  run_read (reads_bytes_n 16 (be_ltk e) _ Hltk). run_read (reads_bytes_n 8 (be_ltk_rand e) _ Hrd).
  run_read (reads_le16 (be_ltk_ediv e) _ ltac:(done)). run_read (reads_u8 (be_ltk_size e) _ ltac:(done)).
  run_read (reads_bytes_n 16 (be_irk e) _ Hirk). run_read (reads_bytes_n 16 (be_csrk e) _ Hcsrk).
  assert ({| be_adapter := be_adapter e; be_peer_identity := be_peer_identity e; be_key_mask := be_key_mask e;
     be_flags := be_flags e; be_classic_link_key := be_classic_link_key e;
     be_classic_link_key_type := be_classic_link_key_type e; be_ltk := be_ltk e; be_ltk_rand := be_ltk_rand e;
     be_ltk_ediv := be_ltk_ediv e; be_ltk_size := be_ltk_size e; be_irk := be_irk e; be_csrk := be_csrk e |} = e) as ->
    by (by destruct e).
  by destruct (entry_valid e).
Qed.

(** ** Lemmas: the records *)

Lemma record_reads strict ty rsv body post : is_byte ty -> is_byte rsv -> zlen body < 2 ^ 16 -> (strict = true -> rsv = 0) ->
  reads (read_record strict) ([ty] ++ [rsv] ++ le_enc 2 (zlen body) ++ body) post (ty, body).
Proof.
  intros Ht Hr Hl Hz. unfold is_byte in *. unfold read_record.
  eapply reads_bind; [by apply reads_u8|]. eapply reads_bind; [by apply reads_u8|].
  eapply reads_bind; [apply reads_le16; lia|]. cbv beta.
  replace (strict && negb (rsv =? 0)) with false by (destruct strict; [by rewrite Hz|done]).
  rewrite <- (app_nil_r body) at 2. apply reads_peek_bind; [done|]. cbv beta.
  eapply reads_bind; [apply reads_skip|]. apply reads_ret.
Qed.

(** The first pass reads a well-formed record or refuses. *)
Lemma record_cases r : reader_ok r ->
  (exists e r', read_record true r = (Fail e, r')) \/
  exists ty body r', is_byte ty /\ bytes body /\ zlen body < 2 ^ 16 /\ reader_ok r' /\
    rview r = ([ty] ++ [0] ++ le_enc 2 (zlen body) ++ body) ++ rview r' /\
    read_record true r = (Ret (ty, body), r').
Proof.
  intros Hok. unfold read_record.
  case_read read_u8_field as ty r1 H1 V1 Hok1; [by left; eauto|].
  case_read read_u8_field as rs r2 H2 V2 Hok2; [by left; eauto|].
  case_read read_le16_field as ln r3 H3 V3 Hok3; [by left; eauto|].
  destruct H1 as [L1 B1], H2 as [L2 B2].
  destruct (length_one ty L1) as [t ->], (length_one rs L2) as [z ->].
  apply Forall_cons in B1 as [Ht _]. apply Forall_cons in B2 as [Hz _]. cbn [le_dec].
  rewrite !Z.mul_0_r, !Z.add_0_r. destruct (Z.eqb_spec z 0) as [->|]; [|by left; eauto]. cbn [andb negb].
  destruct (sized_le 2 ln H3) as [Eln Bln]. set (n := le_dec ln) in *. clearbody n. subst ln.
  unfold bind at 1 3. rewrite !peek_spec by (done || lia). zcase; [|by left; eauto].
  set (body := take (Z.to_nat n) (rview r3)). assert (zlen body = n) as Hn.
  { pose proof (rview_length r3 Hok3). unfold body. zlist. }
  right. exists t, body, (radvance n r3). split; [done|]. split; [unfold body; pose proof (rview_bytes r3 Hok3); bys|].
  split; [lia|]. split; [apply radvance_ok; [done|lia]|]. rewrite V1, V2, V3, Hn, radvance_view by (done || lia).
  rewrite <- !app_assoc. rewrite <- (take_drop (Z.to_nat n) (rview r3)) at 1. split; [done|].
  unfold bind. by rewrite (skip_field n ltac:(lia) r3 Hok3), (proj2 (Z.leb_le _ _)).
Qed.

Lemma record_fits rec post : record_ok rec -> is_byte (type_of rec) /\ zlen (body_of rec) < 2 ^ 16 /\
  reads (read_record true) (record_bytes rec) post (type_of rec, body_of rec) /\
  reads (read_record false) (record_bytes rec) post (type_of rec, body_of rec).
Proof.
  intros Hr. assert (is_byte (type_of rec) /\ zlen (body_of rec) < 2 ^ 16) as [Ht Hl].
  { destruct rec as [e|ty body]; cbn [type_of body_of]; [|by destruct Hr as (? & _ & _ & ?)].
    rewrite entry_length by apply Hr. by split; [unfold is_byte|]. }
  split; [done|]. split; [done|]. split; apply record_reads; done.
Qed.

Lemma record_all_bytes rec : record_ok rec -> bytes (record_bytes rec).
Proof.
  intros Hr. destruct (record_fits rec [] Hr) as (? & _ & _). unfold record_bytes.
  destruct rec as [e|ty body]; cbn [type_of body_of] in *; [pose proof (entry_all_bytes e (proj1 Hr))|destruct Hr as (_ & _ & ? & _)]; bys.
Qed.

Lemma payload_bytes rs : Forall record_ok rs -> bytes (payload_of rs).
Proof. induction 1; [apply Forall_nil_2|]. unfold payload_of. rewrite mjoin_cons. apply Forall_app. split; [by apply record_all_bytes|done]. Qed.

(** What is left after a record, when the view is that of a list of records. *)
Lemma next_record rec rs r : record_ok rec -> reader_ok r -> rview r = payload_of (rec :: rs) ->
  exists r', read_record true r = (Ret (type_of rec, body_of rec), r') /\
    read_record false r = (Ret (type_of rec, body_of rec), r') /\ reader_ok r' /\ rview r' = payload_of rs /\
    0 < bt_buf_reader_remaining r /\ bt_buf_reader_remaining r' < bt_buf_reader_remaining r.
Proof.
  intros Hrec Hok Hv. unfold payload_of in Hv. rewrite mjoin_cons in Hv.
  destruct (record_fits rec (payload_of rs) Hrec) as (_ & _ & H1 & H2).
  destruct (radvance_view_app r _ _ Hok Hv) as [Hok' Hv']. exists (radvance (zlen (record_bytes rec)) r).
  split; [by apply H1|]. split; [by apply H2|]. do 2 (split; [done|]).
  pose proof (rview_length r Hok) as Hl. rewrite Hv, length_app in Hl. unfold bt_buf_reader_remaining in *. simpl in *. lia.
Qed.

Lemma empty_view r : reader_ok r -> rview r = [] -> bt_buf_reader_remaining r = 0.
Proof. intros Hok Hv. by rewrite <- rview_length, Hv. Qed.

(** The first pass counts the entries of a list of records. *)
Lemma validate_forward rs : Forall record_ok rs -> forall fuel r k, reader_ok r -> rview r = payload_of rs ->
  bt_buf_reader_remaining r < Z.of_nat fuel -> 0 <= k -> k + zlen (known rs) <= 16 ->
  validate_loop fuel r k = Ret (k + zlen (known rs)).
Proof.
  induction 1 as [|rec rs Hrec Hrs IH]; intros [|fuel] r k Hok Hv Hf Hk Hn.
  1, 3: pose proof (remaining_nonneg r Hok); lia.
  { cbn [validate_loop]. rewrite (empty_view r Hok Hv). simpl. by rewrite Z.add_0_r. }
  destruct (next_record rec rs r Hrec Hok Hv) as (r' & E & _ & Hok' & Hv' & Hr & Hr'). cbn [validate_loop].
  rewrite (proj2 (Z.eqb_neq _ _)) by lia. rewrite E. destruct rec as [e|ty body]; cbn [type_of body_of].
  - destruct Hrec as [Hfits Hval]. cbn [Z.eqb Pos.eqb BT_BOND_RECORD_TYPE_ENTRY].
    rewrite (read_entry_bytes e Hfits), Hval. cbn [known omap list_omap length] in Hn. fold (known rs) in Hn.
    assert (u16 (k + 1) = k + 1) as -> by (apply u16_small; lia). unfold BT_BOND_STORE_MAX_ENTRIES.
    rewrite Z.gtb_ltb, (proj2 (Z.ltb_ge _ _)) by lia. rewrite IH by (done || lia).
    f_equal. cbn [known omap list_omap length]. fold (known rs). lia.
  - destruct Hrec as (_ & Ht & _). unfold BT_BOND_RECORD_TYPE_ENTRY. rewrite (proj2 (Z.eqb_neq _ _)) by done.
    rewrite IH by (done || lia). done.
Qed.

(** It accepts nothing else. *)
Lemma validate_cases fuel : forall r k, reader_ok r -> bt_buf_reader_remaining r < Z.of_nat fuel -> 0 <= k <= 16 ->
  validate_loop fuel r k = Fail BT_ERR_INVALID_ARGUMENT \/
  exists rs, Forall record_ok rs /\ rview r = payload_of rs /\ k + zlen (known rs) <= 16.
Proof.
  induction fuel as [|fuel IH]; intros r k Hok Hf Hk; [pose proof (remaining_nonneg r Hok); lia|].
  cbn [validate_loop]. destruct (Z.eqb_spec (bt_buf_reader_remaining r) 0) as [H0|Hne].
  { right. exists []. split; [constructor|]. rewrite <- rview_length in H0 by done.
    split; [by destruct (rview r)|simpl; lia]. }
  destruct (record_cases r Hok) as [(e & r' & ->)|(ty & body & r' & Ht & Hb & Hl & Hok' & Hv & ->)]; [by left|].
  assert (bt_buf_reader_remaining r' < Z.of_nat fuel) as Hf'.
  { rewrite <- rview_length in * by done. rewrite Hv in Hf. rewrite !length_app in Hf. simpl length in Hf. lia. }
  unfold BT_BOND_RECORD_TYPE_ENTRY, BT_BOND_STORE_MAX_ENTRIES. destruct (Z.eqb_spec ty 1) as [->|Hty].
  - destruct (Z.eq_dec (zlen body) 92) as [H92|]; [|left; unfold read_entry, BT_BOND_ENTRY_WIRE_LEN; by rewrite (proj2 (Z.eqb_neq _ _))].
    destruct (entry_of_bytes body) as (e & He & ->); [done|]. rewrite (read_entry_bytes e He).
    destruct (entry_valid e) eqn:Hv'; [|by left]. assert (u16 (k + 1) = k + 1) as -> by (apply u16_small; lia).
    zcase; [by left|]. destruct (IH r' (k + 1) Hok' Hf' ltac:(lia)) as [->|(rs & Hrs & Hvr & Hn)]; [by left|]. right.
    exists (Known e :: rs). split; [by constructor|]. split; [rewrite Hv, Hvr; done|].
    cbn [known omap list_omap length]. fold (known rs). lia.
  - destruct (IH r' k Hok' Hf' Hk) as [->|(rs & Hrs & Hvr & Hn)]; [by left|]. right.
    exists (Unknown ty body :: rs). split; [by constructor|]. split; [rewrite Hv, Hvr; done|done].
Qed.

(** The second pass loads the entries in order. *)
Lemma load_forward rs : Forall record_ok rs -> forall fuel r es, reader_ok r -> rview r = payload_of rs ->
  bt_buf_reader_remaining r < Z.of_nat fuel -> (length (es ++ known rs) <= 16)%nat ->
  load_loop fuel r (loaded es) = Ret (loaded (es ++ known rs)).
Proof.
  induction 1 as [|rec rs Hrec Hrs IH]; intros [|fuel] r es Hok Hv Hf Hn.
  1, 3: pose proof (remaining_nonneg r Hok); lia.
  { cbn [load_loop]. rewrite (empty_view r Hok Hv). simpl. by rewrite app_nil_r. }
  destruct (next_record rec rs r Hrec Hok Hv) as (r' & _ & E & Hok' & Hv' & Hr & Hr'). cbn [load_loop].
  rewrite (proj2 (Z.eqb_neq _ _)) by lia. rewrite E. destruct rec as [e|ty body]; cbn [type_of body_of].
  - destruct Hrec as [Hfits Hval]. cbn [Z.eqb Pos.eqb BT_BOND_RECORD_TYPE_ENTRY].
    rewrite (read_entry_bytes e Hfits), Hval. cbn [known omap list_omap] in Hn |- *. fold (known rs) in Hn |- *.
    rewrite length_app in Hn. simpl in Hn. unfold loaded at 1 2. cbn [bs_entries bs_count].
    replace (16 - length es)%nat with (S (16 - length (es ++ [e])))%nat by (rewrite length_app; simpl; lia).
    cbn [replicate]. rewrite st1_middle. cbn [obind].
    specialize (IH fuel r' (es ++ [e]) Hok' Hv' ltac:(lia)). rewrite <- app_assoc in IH. cbn [app] in IH.
    rewrite <- IH by (rewrite length_app; simpl; lia). f_equal. unfold loaded. rewrite <- app_assoc. cbn [app].
    f_equal. rewrite length_app. simpl. lia.
  - destruct Hrec as (_ & Ht & _). unfold BT_BOND_RECORD_TYPE_ENTRY. rewrite (proj2 (Z.eqb_neq _ _)) by done.
    cbn [known omap list_omap] in Hn |- *. fold (known rs) in Hn |- *. by rewrite IH by (done || lia).
Qed.

(** ** Lemmas: the database *)

Lemma check_fields magic ver hl cnt rsv pl c payload : sized 4 magic -> 0 <= ver < 2 ^ 16 -> 0 <= hl < 2 ^ 16 ->
  0 <= cnt < 2 ^ 16 -> 0 <= rsv < 2 ^ 16 -> 0 <= pl < 2 ^ 32 -> 0 <= c < 2 ^ 32 -> bytes payload ->
  let data := magic ++ le_enc 2 ver ++ le_enc 2 hl ++ le_enc 2 cnt ++ le_enc 2 rsv ++ le_enc 4 pl ++ le_enc 4 c ++ payload in
  check_database data (zlen data) =
    if bool_decide (magic = db_magic /\ ver = 1 /\ hl = 20 /\ rsv = 0 /\ pl = zlen payload /\ cnt <= 16 /\ c = crc payload)
    then let? _ := validate_payload payload (zlen payload) cnt in Ret (payload, zlen payload)
    else Fail BT_ERR_INVALID_ARGUMENT.
Proof.
  intros [Hm Bm] Hver Hhl Hcnt Hrsv Hpl Hc Hb data.
  assert (20 <= zlen data) as Hlen by (unfold data; rewrite !length_app, !le_enc_length; lia).
  assert (bytes data) as Hd by (unfold data; bys).
  unfold check_database. rewrite (proj2 (Z.ltb_ge _ _)) by (unfold BT_BOND_DB_HEADER_LEN; lia). unfold parse.
  pose proof (reader_init_ok data (zlen data) ltac:(lia) Hd) as Hok. pose proof (rview_init_all data) as Hv.
  set (r := bt_buf_reader_init _ _) in *. clearbody r. unfold data in Hv. clear Hlen Hd data.
  run_read (reads_bytes_n 4 magic _ Hm). run_read (reads_le16 ver _ Hver). run_read (reads_le16 hl _ Hhl).
  run_read (reads_le16 cnt _ Hcnt). run_read (reads_le16 rsv _ Hrsv). run_read (reads_le32 pl _ Hpl).
  run_read (reads_le32 c _ Hc). run_read (reads_gets_remaining payload).
  unfold BT_BOND_DB_VERSION, BT_BOND_DB_HEADER_LEN, BT_BOND_STORE_MAX_ENTRIES. rewrite Z.gtb_ltb.
  destruct (bool_decide_reflect (magic = db_magic)) as [->|Hn]; [|by rewrite bool_decide_false by naive_solver].
  destruct (Z.eqb_spec ver 1) as [->|Hn]; [|by rewrite bool_decide_false by naive_solver].
  destruct (Z.eqb_spec hl 20) as [->|Hn]; [|by rewrite bool_decide_false by naive_solver].
  destruct (Z.eqb_spec rsv 0) as [->|Hn]; [|by rewrite bool_decide_false by naive_solver].
  destruct (Z.eqb_spec pl (zlen payload)) as [->|Hn]; [|by rewrite bool_decide_false by naive_solver].
  destruct (Z.ltb_spec 16 cnt) as [Hn|Hle]; [by rewrite bool_decide_false by (intros H; lia)|]. cbn [negb orb].
  assert (rview r7 = payload ++ []) as Hv' by (by rewrite app_nil_r). clear Hv.
  run_read (reads_peek payload [] (zlen payload) eq_refl). mrun.
  pose proof (crc32_spec payload []) as E. rewrite app_nil_r in E. rewrite E.
  destruct (Z.eqb_spec (crc payload) c) as [<-|Hn]; cbn [negb].
  - rewrite bool_decide_true by done. by destruct (validate_payload payload (zlen payload) cnt).
  - rewrite bool_decide_false by naive_solver. done.
Qed.

Lemma header_length n payload : zlen (header n payload) = 20.
Proof. unfold header. by rewrite !length_app, !le_enc_length. Qed.

Lemma image_bytes rs : Forall record_ok rs -> bytes (image rs).
Proof.
  intros H. pose proof (payload_bytes rs H). unfold image, header.
  assert (bytes db_magic) by (concrete_bytes). bys.
Qed.

(** The checks pass on images, and on nothing else. *)
Lemma check_image rs : image_ok rs ->
  check_database (image rs) (zlen (image rs)) = Ret (payload_of rs, zlen (payload_of rs)).
Proof.
  intros (Hrs & Hn & Hp). pose proof (payload_bytes rs Hrs) as Hb. unfold image, header. rewrite <- !app_assoc.
  pose proof (crc_range (payload_of rs)) as Hc. unfold is_u32 in Hc.
  rewrite check_fields; [|split; [done|concrete_bytes]|lia..|done].
  rewrite bool_decide_true by (repeat split; lia). unfold validate_payload.
  rewrite (validate_forward rs Hrs); [|by apply reader_init_ok; [lia|]|apply rview_init_all|unfold bt_buf_reader_remaining; cbn; lia|lia..].
  cbn [obind]. by rewrite Z.eqb_refl.
Qed.

Lemma check_cases data : bytes data ->
  (exists e, check_database data (zlen data) = Fail e) \/ exists rs, image_ok rs /\ data = image rs.
Proof.
  intros Hb. destruct (Z.lt_ge_cases (zlen data) 20) as [Hlt|Hge].
  { left. unfold check_database, BT_BOND_DB_HEADER_LEN. rewrite (proj2 (Z.ltb_lt _ _)) by done. by eexists. }
  set (n := zlen data) in *. assert (zlen data = n) as Hn by done. clearbody n.
  destruct (split_sized data 4 (n - 4) Hb ltac:(lia)) as (magic & d1 & -> & Hm & [N1 B1]); [lia..|].
  destruct (split_sized d1 2 (n - 6) B1 ltac:(lia)) as (ver & d2 & -> & Hver & [N2 B2]); [lia..|].
  destruct (split_sized d2 2 (n - 8) B2 ltac:(lia)) as (hl & d3 & -> & Hhl & [N3 B3]); [lia..|].
  destruct (split_sized d3 2 (n - 10) B3 ltac:(lia)) as (cnt & d4 & -> & Hcnt & [N4 B4]); [lia..|].
  destruct (split_sized d4 2 (n - 12) B4 ltac:(lia)) as (rsv & d5 & -> & Hrsv & [N5 B5]); [lia..|].
  destruct (split_sized d5 4 (n - 16) B5 ltac:(lia)) as (pl & d6 & -> & Hpl & [N6 B6]); [lia..|].
  destruct (split_sized d6 4 (n - 20) B6 ltac:(lia)) as (c & payload & -> & Hc & [N7 B7]); [lia..|].
  rewrite <- Hn. clear Hn N1 N2 N3 N4 N5 N6 N7.
  destruct (sized_num 2 ver Hver) as (v & -> & ?), (sized_num 2 hl Hhl) as (h & -> & ?),
    (sized_num 2 cnt Hcnt) as (k & -> & ?), (sized_num 2 rsv Hrsv) as (z & -> & ?),
    (sized_num 4 pl Hpl) as (m & -> & ?), (sized_num 4 c Hc) as (crc' & -> & ?).
  rewrite check_fields by (done || lia). case_bool_decide as Heq; [|left; by eexists].
  destruct Heq as (-> & -> & -> & -> & -> & Hcount & ->). unfold validate_payload.
  destruct (validate_cases (S (Z.to_nat (zlen payload))) (bt_buf_reader_init payload (zlen payload)) 0) as [->|(rs & Hrs & Hv & Hk)];
    [by apply reader_init_ok; [lia|]|unfold bt_buf_reader_remaining; cbn; lia|lia|left; by eexists|].
  rewrite rview_init_all in Hv. rewrite (validate_forward rs Hrs);
    [|by apply reader_init_ok; [lia|]|by rewrite rview_init_all|unfold bt_buf_reader_remaining; cbn; lia|lia..].
  cbn [obind]. destruct (Z.eqb_spec (0 + zlen (known rs)) k) as [Hcnt'|]; [|left; by eexists].
  right. exists rs. subst payload. split; [split; [done|]; split; lia|]. unfold image, header. rewrite <- !app_assoc.
  by replace k with (zlen (known rs)) by lia.
Qed.

(** ** Lemmas: writing the database *)

Lemma write_addr_writes a : address_fits a -> writes (write_addr a) (address_bytes a).
Proof.
  intros [[Hl _] Ht]. unfold is_byte in Ht. unfold write_addr, address_bytes. apply writes_bind.
  - rewrite (u8_small (ba_type a)) by lia. pose proof (writes_u8 (ba_type a)) as H. by rewrite (u8_small (ba_type a)) in H by lia.
  - rewrite <- Hl. apply writes_bytes.
Qed.

Lemma writes_byte b : is_byte b -> writes (bt_buf_writer_write_u8 b) [b].
Proof. unfold is_byte. intros H. pose proof (writes_u8 b) as W. by rewrite (u8_small b) in W by lia. Qed.

Lemma writes_sized n bs : zlen bs = n -> writes (bt_buf_writer_write_bytes bs n) bs.
Proof. intros <-. apply writes_bytes. Qed.

Lemma write_entry_writes e : entry_fits e -> writes (write_entry e) (record_bytes (Known e)).
Proof.
  intros He. unfold record_bytes. cbn [type_of body_of]. rewrite (entry_length e He).
  destruct He as (Ha & Hp & ? & ? & [Hlk _] & ? & [Hltk _] & [Hrd _] & Hed & ? & [Hirk _] & [Hcsrk _]).
  unfold write_entry, entry_bytes, BT_BOND_RECORD_TYPE_ENTRY, BT_BOND_ENTRY_WIRE_LEN.
  repeat first
    [ by apply write_addr_writes | apply (writes_byte 1); unfold is_byte; lia | apply (writes_byte 0); unfold is_byte; lia
    | by apply writes_byte | apply writes_le16 | by apply writes_sized | apply writes_bind ].
Qed.

Lemma write_entries_writes es : Forall entry_fits es -> forall pre post i, i = zlen pre ->
  writes (write_entries (pre ++ es ++ post) i (length es)) (payload_of (Known <$> es)).
Proof.
  induction 1 as [|e es He Hes IH]; intros pre post i ->; [exact writes_ret|]. cbn [write_entries length].
  unfold payload_of. rewrite fmap_cons, mjoin_cons.
  intros w Hok. unfold bind at 1 3, lift. rewrite (ld_at pre [e] (es ++ post) _ 0 e) by (simpl; done || lia).
  revert w Hok. apply writes_bind; [by apply write_entry_writes|].
  specialize (IH (pre ++ [e]) post (zlen pre + 1)). rewrite <- app_assoc in IH. apply IH. rewrite length_app. simpl. lia.
Qed.

Lemma all_valid_spec es : forall pre post i, i = zlen pre ->
  all_valid (pre ++ es ++ post) i (length es) = Ret (forallb entry_valid es).
Proof.
  induction es as [|e es IH]; intros pre post i ->; [done|]. cbn [all_valid length forallb].
  rewrite (ld_at pre [e] (es ++ post) _ 0 e) by (simpl; done || lia). cbn [obind].
  specialize (IH (pre ++ [e]) post (zlen pre + 1)). rewrite <- app_assoc in IH.
  destruct (entry_valid e); [|done]. apply IH. rewrite length_app. simpl. lia.
Qed.

Lemma le_enc_4 v : le_enc 4 v = [u8 v; u8 (Z.shiftr v 8); u8 (Z.shiftr v 16); u8 (Z.shiftr v 24)].
Proof.
  cbn [le_enc]. unfold u8. rewrite !Z.shiftr_div_pow2 by lia. rewrite !Z.div_div by lia. done.
Qed.

(** A stored byte, in place. *)
Lemma poke_middle A x B cap pos i v : i = zlen A ->
  poke i v {| bw_data := A ++ x :: B; bw_cap := cap; bw_pos := pos |} =
  (Ret tt, {| bw_data := A ++ u8 v :: B; bw_cap := cap; bw_pos := pos |}).
Proof. intros ->. unfold poke. cbn [bw_data bw_cap bw_pos]. by rewrite st1_middle. Qed.

Lemma poke_le32_middle A bs B cap pos i v : i = zlen A -> zlen bs = 4 ->
  poke_le32 i v {| bw_data := A ++ bs ++ B; bw_cap := cap; bw_pos := pos |} =
  (Ret tt, {| bw_data := A ++ le_enc 4 v ++ B; bw_cap := cap; bw_pos := pos |}).
Proof.
  intros Hi Hl. destruct bs as [|a [|b [|c [|d [|]]]]]; simpl in Hl; try lia. rewrite le_enc_4.
  unfold poke_le32, bind. cbn [app]. rewrite poke_middle by done.
  replace (A ++ u8 v :: b :: c :: d :: B) with ((A ++ [u8 v]) ++ b :: c :: d :: B) by (by rewrite <- app_assoc).
  rewrite poke_middle by zlist. rewrite <- app_assoc. cbn [app].
  rewrite (cons_middle (u8 v)), (cons_middle (u8 _)). rewrite !app_assoc. rewrite poke_middle by zlist.
  rewrite (cons_middle (u8 (Z.shiftr v 16))), !app_assoc. rewrite poke_middle by zlist.
  rewrite <- !app_assoc. done.
Qed.

Definition header0 (n : Z) : list Z :=
  db_magic ++ le_enc 2 1 ++ le_enc 2 20 ++ le_enc 2 n ++ le_enc 2 0 ++ le_enc 4 0 ++ le_enc 4 0.

(** The header before the length and the checksum are known. *)
Definition write_header0 (n : Z) : M bt_buf_writer unit :=
  do! bt_buf_writer_write_bytes db_magic 4 in
  do! bt_buf_writer_write_le16 BT_BOND_DB_VERSION in
  do! bt_buf_writer_write_le16 BT_BOND_DB_HEADER_LEN in
  do! bt_buf_writer_write_le16 n in
  do! bt_buf_writer_write_le16 0 in
  do! bt_buf_writer_write_le32 0 in
  bt_buf_writer_write_le32 0.

Lemma write_header0_writes n : writes (write_header0 n) (header0 n).
Proof.
  unfold write_header0, header0, BT_BOND_DB_VERSION, BT_BOND_DB_HEADER_LEN.
  repeat first [apply writes_bind | apply writes_le16 | apply writes_le32 | by apply writes_sized].
Qed.

Lemma header0_bind {A} n (k : M bt_buf_writer A) w :
  (do! bt_buf_writer_write_bytes db_magic 4 in
   do! bt_buf_writer_write_le16 BT_BOND_DB_VERSION in
   do! bt_buf_writer_write_le16 BT_BOND_DB_HEADER_LEN in
   do! bt_buf_writer_write_le16 n in
   do! bt_buf_writer_write_le16 0 in
   do! bt_buf_writer_write_le32 0 in
   do! bt_buf_writer_write_le32 0 in k) w = (do! write_header0 n in k) w.
Proof.
  unfold write_header0, bind.
  destruct (bt_buf_writer_write_bytes db_magic 4 w) as [[] w1]; [|done..].
  destruct (bt_buf_writer_write_le16 BT_BOND_DB_VERSION w1) as [[] w2]; [|done..].
  destruct (bt_buf_writer_write_le16 BT_BOND_DB_HEADER_LEN w2) as [[] w3]; [|done..].
  destruct (bt_buf_writer_write_le16 n w3) as [[] w4]; [|done..].
  destruct (bt_buf_writer_write_le16 0 w4) as [[] w5]; [|done..].
  by destruct (bt_buf_writer_write_le32 0 w5) as [[] w6].
Qed.

Lemma header0_length n : zlen (header0 n) = 20.
Proof. unfold header0. by rewrite !length_app, !le_enc_length. Qed.

(** The length and the checksum, filled in. *)
Lemma fill_header w payload n : writer_ok w -> bw_pos w + 20 + zlen payload <= bw_cap w -> zlen payload < 2 ^ 32 ->
  (let! checksum := payload_crc (bw_pos w + 20) (zlen payload) in
   do! poke_le32 (bw_pos w + 12) (zlen payload) in
   poke_le32 (bw_pos w + 16) checksum) (wput (header0 n ++ payload) w) = (Ret tt, wput (header n payload ++ payload) w).
Proof.
  intros [Hp Hc] Hr Hlen. unfold wput.
  assert (zlen (header n payload ++ payload) = zlen (header0 n ++ payload)) as -> by (rewrite !length_app; pose proof (header_length n payload); pose proof (header0_length n); lia).
  set (pos := bw_pos w + zlen (header0 n ++ payload)). clearbody pos.
  destruct (mem_split (bw_data w) (bw_pos w) (20 + zlen payload)) as (pre & mid & post & Hd & Hpre & Hmid); [lia..|].
  rewrite Hd, <- Hpre. rewrite !splice_mid by (rewrite length_app; pose proof (header_length n payload); pose proof (header0_length n); lia).
  assert (exists h, header0 n = h ++ le_enc 4 0 ++ le_enc 4 0 /\ header n payload = h ++ le_enc 4 (zlen payload) ++ le_enc 4 (crc payload) /\ zlen h = 12)
    as (h & E0 & E & Hh).
  { exists (db_magic ++ le_enc 2 1 ++ le_enc 2 20 ++ le_enc 2 n ++ le_enc 2 0). unfold header0, header.
    rewrite <- !app_assoc. split; [done|]. split; [done|]. by rewrite !length_app, !le_enc_length. }
  unfold bind, payload_crc. cbn [bw_data bw_cap bw_pos].
  replace (drop (Z.to_nat (zlen pre + 20)) (pre ++ (header0 n ++ payload) ++ post)) with (payload ++ post).
  2:{ rewrite <- app_assoc, app_assoc. symmetry. apply drop_app_length'. rewrite length_app. pose proof (header0_length n). lia. }
  rewrite crc32_spec. rewrite E0, E. rewrite <- !app_assoc. rewrite (app_assoc pre h).
  rewrite poke_le32_middle by zlist. rewrite (app_assoc (pre ++ h)).
  rewrite poke_le32_middle by (rewrite ?length_app, ?le_enc_length; lia).
  by rewrite <- !app_assoc.
Qed.

Lemma known_fmap es : known (Known <$> es) = es.
Proof. induction es as [|e es IH]; [done|]. cbn. f_equal. exact IH. Qed.

Lemma known_length e : entry_fits e -> zlen (record_bytes (Known e)) = 96.
Proof.
  intros He. unfold record_bytes. cbn [type_of body_of]. pose proof (entry_length e He).
  rewrite !length_app, le_enc_length. cbn [length]. lia.
Qed.

Lemma payload_length es : Forall entry_fits es -> zlen (payload_of (Known <$> es)) = 96 * zlen es.
Proof.
  induction 1 as [|e es He Hes IH]; [done|]. unfold payload_of in *. rewrite fmap_cons, mjoin_cons, length_app. cbn [length].
  pose proof (known_length e He). lia.
Qed.

Lemma store_fits s : store_ok s -> Forall entry_fits (live s) /\ forallb entry_valid (live s) = true /\
  image_ok (Known <$> live s).
Proof.
  intros (Hc & Hl & Hf & _). assert (Forall entry_fits (live s)) as Hfit by (eapply Forall_impl; [exact Hf|by intros e []]).
  assert (zlen (live s) <= 16) as H16 by (unfold live; zlist).
  split; [done|]. split; [|split; [|split]].
  - apply forallb_forall. intros e He. rewrite Forall_forall in Hf. apply Hf. by apply list_elem_of_In.
  - by apply Forall_fmap.
  - rewrite known_fmap. lia.
  - rewrite payload_length by done. lia.
Qed.

Lemma serialize_spec s : store_ok s -> forall w, writer_ok w ->
  let img := image (Known <$> live s) in
  (bw_pos w + zlen img <= bw_cap w -> bt_bond_store_serialize s w = (Ret tt, wput img w)) /\
  (bw_cap w < bw_pos w + zlen img -> exists bs, bw_pos w + zlen bs <= bw_cap w /\
     bt_bond_store_serialize s w = (Fail BT_ERR_BUFFER_OVERFLOW, wput bs w)).
Proof.
  intros Hs w Hok img. destruct (store_fits s Hs) as (Hfit & Hval & _ & _ & Hp32).
  destruct (store_split s Hs) as (rest & He & Hlive & _). destruct Hs as (Hc & _ & _ & _).
  set (payload := payload_of (Known <$> live s)) in *.
  assert (img = header (bs_count s) payload ++ payload) as Eimg by (unfold img, image; by rewrite known_fmap, Hlive).
  clearbody img. subst img. pose proof (header_length (bs_count s) payload) as Hh. pose proof (header0_length (bs_count s)) as Hh0.
  rewrite length_app, Nat2Z.inj_add, Hh. clear Hh.
  unfold bt_bond_store_serialize, BT_BOND_STORE_MAX_ENTRIES. rewrite Z.gtb_ltb, (proj2 (Z.ltb_ge _ _)) by lia.
  rewrite He. replace (Z.to_nat (bs_count s)) with (length (live s)) by lia.
  pose proof (all_valid_spec (live s) [] rest 0 eq_refl) as Hall. cbn [app] in Hall.
  rewrite Hall, Hval, bind_lift. cbn [negb]. rewrite bind_gets, header0_bind.
  assert (u16 (bs_count s) = bs_count s) as -> by (apply u16_small; lia).
  match goal with |- context [bind (write_header0 _) ?k w] =>
    destruct (bind_writes (write_header0 (bs_count s)) k _ w (write_header0_writes _) Hok)
      as [[H0 ->]|(Hov & j & Hj & Hjc & ->)]
  end.
  2:{ rewrite Hh0 in Hov. split; [lia|]. intros _. eexists. split; [|done]. rewrite length_take. lia. }
  rewrite bind_gets. pose proof (wput_ok w _ Hok H0) as Hok1.
  match goal with |- context [bind (write_entries _ _ _) ?k ?w] =>
    destruct (bind_writes (write_entries (live s ++ rest) 0 (length (live s))) k payload w
      (write_entries_writes (live s) Hfit [] rest 0 eq_refl) Hok1) as [[H1 ->]|(Hov & j & Hj & Hjc & ->)]
  end.
  2:{ cbn [wput bw_pos bw_cap] in Hov, Hjc. rewrite Hh0 in *. split; [lia|]. intros _.
      exists (header0 (bs_count s) ++ take j payload). rewrite wput_wput by (done || rewrite length_take; lia).
      split; [rewrite length_app, length_take; lia|done]. }
  cbn [wput bw_pos bw_cap] in H1. rewrite Hh0 in *. split; [|lia]. intros _.
  rewrite bind_gets. unfold bt_buf_writer_len. rewrite wput_wput by (done || lia). cbn [wput bw_pos].
  rewrite length_app, Nat2Z.inj_add, Hh0. replace (bw_pos w + (20 + zlen payload) - (bw_pos w + 20)) with (zlen payload) by lia.
  assert (u32 (zlen payload) = zlen payload) as -> by (apply u32_small; lia).
  exact (fill_header w payload (bs_count s) Hok ltac:(lia) Hp32).
Qed.

(** ** Contracts *)

(** C31.  The table refines a finite map from adapter and peer identity to
    bonds.  Looking up finds the bond of that identity and nothing else;
    [upsert] refuses an invalid entry and, for a new identity, a seventeenth
    one, leaving the store as it was, and otherwise replaces the bond in place
    or appends it; [remove] deletes exactly that identity, keeps the others in
    order and reports whether it was there. *)
Theorem bond_store_refines_map : forall s, store_ok s ->
  (forall adapter peer, addr_ok (ba_addr adapter) -> addr_ok (ba_addr peer) ->
     exists r, bt_bond_store_find s adapter peer = Ret r /\
       bonds s !! (id_of adapter, id_of peer) = mbind (fun i : Z => live s !! Z.to_nat i) r) /\
  (forall e, entry_fits e -> exists o s', bt_bond_store_upsert e s = (o, s') /\ upserted s s' e o) /\
  (forall adapter peer, addr_ok (ba_addr adapter) -> addr_ok (ba_addr peer) ->
     let k := (id_of adapter, id_of peer) in
     exists s', bt_bond_store_remove s adapter peer = Ret (bool_decide (is_Some (bonds s !! k)), s') /\
       store_ok s' /\ bonds s' = delete k (bonds s) /\ live s' = filter (fun e => key_of e <> k) (live s)).
Proof.
  intros s Hs. split; [|split; [by intros; apply upsert_spec|by intros; apply remove_spec]].
  intros adapter peer Ha Hp. destruct (find_spec s adapter peer Hs Ha Hp) as [[Hn ->]|(e1 & d & e2 & Hd & Hk & ->)];
    eexists; (split; [done|]); cbn.
  - by apply keyed_lookup_None.
  - destruct Hs as (_ & _ & _ & Hnd). unfold bonds. rewrite Hd in *. rewrite <- Hk, keyed_lookup_middle by done.
    by rewrite Nat2Z.id, list_lookup_middle.
Qed.

(** C8.  [bt_bond_store_deserialize] accepts exactly the images: magic, version,
    header length, zero reserved fields, the payload's length and CRC-32, and a
    payload that is a sequence of whole records of which at most sixteen are
    known, as many as the header says, each of them a valid entry.  Records of
    unknown type are skipped.  Anything else, whatever its bytes, is refused
    without touching the store or memory outside the buffer. *)
Theorem bond_deserialize_exact : forall data s, bytes data ->
  (exists rs, image_ok rs /\ data = image rs /\
     bt_bond_store_deserialize (Some data) (zlen data) s = (Ret tt, loaded (known rs))) \/
  ((forall rs, image_ok rs -> data <> image rs) /\
     bt_bond_store_deserialize (Some data) (zlen data) s = (Fail BT_ERR_INVALID_ARGUMENT, s)).
Proof.
  intros data s Hb. assert (forall rs, image_ok rs -> data = image rs ->
    bt_bond_store_deserialize (Some data) (zlen data) s = (Ret tt, loaded (known rs))) as Hyes.
  { intros rs Hrs ->. unfold bt_bond_store_deserialize. rewrite (check_image rs Hrs). destruct Hrs as (Hrs & Hn & Hp).
    change bt_bond_store_init with (loaded []). pose proof (payload_bytes rs Hrs) as Hb'.
    by rewrite (load_forward rs Hrs _ _ []);
      [|by apply reader_init_ok; [lia|]|apply rview_init_all|unfold bt_buf_reader_remaining; cbn; lia|]. }
  destruct (check_cases data Hb) as [[e He]|(rs & Hrs & Hd)]; [right|left; exists rs; by auto].
  split; [|unfold bt_bond_store_deserialize; by rewrite He].
  intros rs Hrs Hd. specialize (Hyes rs Hrs Hd). unfold bt_bond_store_deserialize in Hyes. by rewrite He in Hyes.
Qed.

(** C39.  Saving and loading.  Serialising a store appends its image when it
    fits, and otherwise reports overflow having kept only a prefix; loading
    the image gives back the same bonds in the same order, whatever the store
    held before. *)
Theorem bond_serialize_roundtrip : forall s w s0, store_ok s -> writer_ok w ->
  let img := image (Known <$> live s) in
  zlen img = 20 + 96 * bs_count s /\
  (bw_pos w + zlen img <= bw_cap w ->
     exists w', bt_bond_store_serialize s w = (Ret tt, w') /\ writer_ok w' /\ wout w' = wout w ++ img) /\
  (bw_cap w < bw_pos w + zlen img -> exists bs, bw_pos w + zlen bs <= bw_cap w /\
     bt_bond_store_serialize s w = (Fail BT_ERR_BUFFER_OVERFLOW, wput bs w)) /\
  exists s', bt_bond_store_deserialize (Some img) (zlen img) s0 = (Ret tt, s') /\
    store_ok s' /\ live s' = live s /\ bonds s' = bonds s.
Proof.
  intros s w s0 Hs Hw img. destruct (serialize_spec s Hs w Hw) as [H1 H2]. destruct (store_fits s Hs) as (Hfit & _ & Himg).
  destruct (store_split s Hs) as (rest & _ & Hl & _). pose proof Hs as (Hc & _ & Hf & Hnd). split; [|split; [|split; [done|]]].
  - unfold img, image. by rewrite length_app, Nat2Z.inj_add, header_length, payload_length, Hl.
  - intros Hr. exists (wput img w). split; [by apply H1|]. split; [by apply wput_ok|by apply wput_out].
  - exists (loaded (live s)). pose proof (check_image _ Himg) as E. unfold bt_bond_store_deserialize. fold img in E. rewrite E.
    destruct Himg as (Hrs & Hn & Hp). pose proof (payload_bytes _ Hrs) as Hb'. change bt_bond_store_init with (loaded []).
    rewrite known_fmap in Hn. rewrite (load_forward _ Hrs _ _ []);
      [|by apply reader_init_ok; [lia|]|apply rview_init_all|unfold bt_buf_reader_remaining; cbn; lia|by rewrite known_fmap].
    rewrite known_fmap. cbn [app]. split; [done|].
    destruct (store_of (live s) (replicate (16 - length (live s)) zero_entry)) as [Hok Hlive]; [zlist|done..|].
    unfold loaded. split; [done|]. split; [done|]. unfold bonds. by rewrite Hlive.
Qed.

(** C32.  The checksum detects a corrupted byte: no two payloads that differ in
    one byte have the same CRC-32, so an image in which one byte of the payload
    was changed is refused and the store keeps what it held. *)
Theorem crc32_detects_byte_error : forall n pre b b' post s, is_byte b -> is_byte b' -> b <> b' ->
  bytes pre -> bytes post -> 0 <= n < 2 ^ 16 -> zlen (pre ++ [b] ++ post) < 2 ^ 32 ->
  crc32 (pre ++ [b] ++ post) (zlen (pre ++ [b] ++ post)) <> crc32 (pre ++ [b'] ++ post) (zlen (pre ++ [b'] ++ post)) /\
  let data := header n (pre ++ [b] ++ post) ++ pre ++ [b'] ++ post in
  bt_bond_store_deserialize (Some data) (zlen data) s = (Fail BT_ERR_INVALID_ARGUMENT, s).
Proof.
  intros n pre b b' post s Hb Hb' Hne Hpre Hpost Hn Hl.
  pose proof (crc_differs pre b b' post Hb Hb' Hne Hpre Hpost) as Hcrc.
  split.
  - pose proof (crc32_spec (pre ++ [b] ++ post) []) as E. pose proof (crc32_spec (pre ++ [b'] ++ post) []) as E'.
    rewrite app_nil_r in E, E'. rewrite E, E'. intros Heq. apply Hcrc. by apply (f_equal (fun o => match o with Ret c => c | _ => 0 end)) in Heq.
  - unfold bt_bond_store_deserialize, header. rewrite <- !(app_assoc db_magic), <- !app_assoc.
    pose proof (crc_range (pre ++ [b] ++ post)) as Hr. unfold is_u32 in Hr.
    rewrite check_fields; [|split; [done|concrete_bytes]|lia..|bys].
    rewrite bool_decide_false by naive_solver. done.
Qed.

(** ** Witnesses *)

Module BondDemo.

Definition peer (k : Z) : bt_bond_address := {| ba_addr := [k; 2; 3; 4; 5; 6]; ba_type := 1 |}.
Definition bond (k mask : Z) : bt_bond_entry :=
  {| be_adapter := peer 9; be_peer_identity := peer k; be_key_mask := mask; be_flags := 1;
     be_classic_link_key := replicate 16 7; be_classic_link_key_type := 4; be_ltk := replicate 16 8;
     be_ltk_rand := replicate 8 3; be_ltk_ediv := 513; be_ltk_size := 16; be_irk := replicate 16 1;
     be_csrk := replicate 16 2 |}.

Definition demo : bt_bond_store := loaded [bond 1 3; bond 2 1].

Lemma bond_fits k mask : is_byte k -> is_byte mask -> entry_fits (bond k mask).
Proof.
  intros Hk Hm. unfold is_byte in *. unfold entry_fits, address_fits, addr_ok, sized, BT_ADDR_LEN, is_byte. cbn.
  repeat split; try done; try lia; repeat constructor; unfold is_byte; lia.
Qed.

Lemma demo_ok : store_ok demo.
Proof.
  split; [done|]. split; [done|]. split; [|apply (bool_decide_eq_true_1 (NoDup _)); vm_compute; reflexivity].
  repeat constructor; try done; apply bond_fits; unfold is_byte; lia.
Qed.
End BondDemo.

Lemma bond_store_refines_map_witness : exists s',
  bt_bond_store_remove BondDemo.demo (BondDemo.peer 9) (BondDemo.peer 1) = Ret (true, s') /\ live s' = [BondDemo.bond 2 1].
Proof.
  destruct (bond_store_refines_map _ BondDemo.demo_ok) as (_ & _ & Hr).
  assert (forall k, is_byte k -> addr_ok (ba_addr (BondDemo.peer k))) as Ha
    by (intros k Hk; split; [done|]; unfold is_byte in *; repeat constructor; unfold is_byte; lia).
  destruct (Hr (BondDemo.peer 9) (BondDemo.peer 1)) as (s' & E & _ & _ & Hl); [apply Ha; unfold is_byte; lia..|].
  exists s'. split; [rewrite E; vm_compute; reflexivity|rewrite Hl; vm_compute; reflexivity].
Defined.

Lemma bond_deserialize_exact_witness :
  bt_bond_store_deserialize (Some (image [Unknown 7 [1; 2]])) (zlen (image [Unknown 7 [1; 2]])) BondDemo.demo =
    (Ret tt, bt_bond_store_init) /\
  bt_bond_store_deserialize (Some [66; 84]) 2 BondDemo.demo = (Fail BT_ERR_INVALID_ARGUMENT, BondDemo.demo).
Proof.
  split; [vm_compute; reflexivity|].
  destruct (bond_deserialize_exact [66; 84] BondDemo.demo) as [(rs & _ & E & _)|[_ E]].
  - concrete_bytes.
  - exfalso. apply (f_equal length) in E. unfold image in E. rewrite length_app in E.
    pose proof (header_length (Z.of_nat (length (known rs))) (payload_of rs)) as H. cbn [length] in E. lia.
  - exact E.
Defined.

Lemma bond_serialize_roundtrip_witness : exists w',
  bt_bond_store_serialize BondDemo.demo (bt_buf_writer_init (replicate 212 0) 212) = (Ret tt, w') /\
  wout w' = image (Known <$> live BondDemo.demo).
Proof.
  destruct (bond_serialize_roundtrip BondDemo.demo (bt_buf_writer_init (replicate 212 0) 212) bt_bond_store_init
    BondDemo.demo_ok) as (Hl & H & _); [by apply writer_init_ok|].
  destruct H as (w' & E & _ & Hw); [rewrite Hl; done|]. exists w'. split; [exact E|exact Hw].
Defined.

Lemma crc32_detects_byte_error_witness :
  let data := header 0 ([7; 0; 1; 0] ++ [5] ++ []) ++ [7; 0; 1; 0] ++ [4] ++ [] in
  bt_bond_store_deserialize (Some data) (zlen data) BondDemo.demo = (Fail BT_ERR_INVALID_ARGUMENT, BondDemo.demo).
Proof.
  apply (crc32_detects_byte_error 0 [7; 0; 1; 0] 5 4 [] BondDemo.demo); try (unfold is_byte; lia); try done;
    concrete_bytes.
Defined.

(** The check value of the CRC-32 of IEEE 802.3. *)
Example crc32_check_value : crc32 [49; 50; 51; 52; 53; 54; 55; 56; 57] 9 = Ret 3421780262.
Proof. vm_compute. reflexivity. Qed.

(** A file may hold one identity twice: loading it makes a table in which the
    second entry cannot be found. *)
Example deserialize_keeps_duplicates : exists s,
  bt_bond_store_deserialize (Some (image [Known (BondDemo.bond 1 3); Known (BondDemo.bond 1 1)]))
    (zlen (image [Known (BondDemo.bond 1 3); Known (BondDemo.bond 1 1)])) bt_bond_store_init = (Ret tt, s) /\
  bs_count s = 2 /\ bt_bond_store_find s (BondDemo.peer 9) (BondDemo.peer 1) = Ret (Some 0) /\
  exists s', bt_bond_store_remove s (BondDemo.peer 9) (BondDemo.peer 1) = Ret (true, s') /\
    bt_bond_store_find s' (BondDemo.peer 9) (BondDemo.peer 1) = Ret (Some 0).
Proof. eexists. split; [vm_compute; reflexivity|]. split; [done|]. split; [done|]. eexists. split; [vm_compute; reflexivity|]. done. Qed.

End BondStore.
