(* ===== verification/HidReport.v ===== *)
(** * HID report descriptors: core/hid/report_parser.c

    The parser of report descriptors and the decoder of input reports, with
    the descriptor, its globals, their stack and its locals as the records the
    code keeps.  [stack] is not initialised in the code: a slot never written
    is [None], and reading it a fault.

    The specification reads a descriptor as a list of items and interprets
    them over lists; a report's payload is one little-endian number whose bit
    fields are the values.  A callback is a function on the state [S] its
    [user_data] points to. *)

From Stdlib Require Import ZArith Lia.
From stdpp Require Import base list.
From S2P Require Import Prelude.

Module HidReport.

Definition BT_HID_MAX_FIELDS : Z := 128.
Definition BT_HID_MAX_REPORTS : Z := 16.
Definition BT_HID_MAX_LOCAL_USAGES : Z := 32.
Definition BT_HID_INPUT_CONSTANT : Z := 1.
Definition BT_HID_INPUT_VARIABLE : Z := 2.
Definition BT_HID_INPUT_RELATIVE : Z := 4.

Definition HID_TYPE_MAIN : Z := 0.
Definition HID_TYPE_GLOBAL : Z := 1.
Definition HID_TYPE_LOCAL : Z := 2.
Definition HID_MAIN_INPUT : Z := 8.
Definition HID_MAIN_COLLECTION : Z := 10.
Definition HID_MAIN_END_COLLECTION : Z := 12.
Definition HID_GLOBAL_USAGE_PAGE : Z := 0.
Definition HID_GLOBAL_LOGICAL_MIN : Z := 1.
Definition HID_GLOBAL_LOGICAL_MAX : Z := 2.
Definition HID_GLOBAL_REPORT_SIZE : Z := 7.
Definition HID_GLOBAL_REPORT_ID : Z := 8.
Definition HID_GLOBAL_REPORT_COUNT : Z := 9.
Definition HID_GLOBAL_PUSH : Z := 10.
Definition HID_GLOBAL_POP : Z := 11.
Definition HID_LOCAL_USAGE : Z := 0.
Definition HID_LOCAL_USAGE_MIN : Z := 1.
Definition HID_LOCAL_USAGE_MAX : Z := 2.
Definition HID_GLOBAL_STACK_MAX : Z := 4.

Record hid_globals : Type := {
  hg_usage_page : Z;
  hg_logical_min : Z;
  hg_logical_max : Z;
  hg_report_size : Z;
  hg_report_count : Z;
  hg_report_id : Z;
}.

Record hid_locals : Type := {
  hl_usages : list Z;
  hl_usage_count : Z;
  hl_usage_min : Z;
  hl_usage_max : Z;
  hl_has_usage_min : bool;
  hl_has_usage_max : bool;
}.

Record bt_hid_field : Type := {
  hf_report_id : Z;
  hf_bit_offset : Z;
  hf_bit_size : Z;
  hf_count : Z;
  hf_flags : Z;
  hf_usage_page : Z;
  hf_usage_min : Z;
  hf_usage_max : Z;
  hf_logical_min : Z;
  hf_logical_max : Z;
}.

Record bt_hid_report_info : Type := { hr_report_id : Z; hr_input_bits : Z }.

Record bt_hid_report_descriptor : Type := {
  hd_fields : list bt_hid_field;
  hd_field_count : Z;
  hd_reports : list bt_hid_report_info;
  hd_report_count : Z;
  hd_uses_report_ids : bool;
}.

Record bt_hid_value : Type := {
  hv_report_id : Z;
  hv_usage_page : Z;
  hv_usage : Z;
  hv_value : Z;
  hv_flags : Z;
  hv_is_array : bool;
}.

(** ** The parser *)

Fixpoint read_unsigned_loop (data : list Z) (i : Z) (n : nat) (value : Z) : outcome Z :=
  match n with
  | O => Ret value
  | S n => let? b := ld data i in read_unsigned_loop data (i + 1) n (Z.lor value (u32 (Z.shiftl b (8 * i))))
  end.

Definition read_unsigned (data : list Z) (len : Z) : outcome Z := read_unsigned_loop data 0 (Z.to_nat len) 0.

Definition read_signed (data : list Z) (len : Z) : outcome Z :=
  let? value := read_unsigned data len in
  let value :=
    if negb (len =? 0) && (len <? 4) && negb (Z.land value (Z.shiftl 1 (len * 8 - 1)) =? 0)
    then Z.lor value (u32 (Z.shiftl UINT32_MAX (len * 8))) else value in
  Ret (s32 value).

Definition set_fields (f : list bt_hid_field -> list bt_hid_field) (n : Z) (out : bt_hid_report_descriptor) :=
  {| hd_fields := f (hd_fields out); hd_field_count := n; hd_reports := hd_reports out;
     hd_report_count := hd_report_count out; hd_uses_report_ids := hd_uses_report_ids out |}.

Definition set_reports (rs : list bt_hid_report_info) (n : Z) (out : bt_hid_report_descriptor) :=
  {| hd_fields := hd_fields out; hd_field_count := hd_field_count out; hd_reports := rs;
     hd_report_count := n; hd_uses_report_ids := hd_uses_report_ids out |}.

Fixpoint find_report (reports : list bt_hid_report_info) (report_id i : Z) (n : nat) : outcome (option Z) :=
  match n with
  | O => Ret None
  | S n =>
      let? r := ld reports i in
      if hr_report_id r =? report_id then Ret (Some i) else find_report reports report_id (i + 1) n
  end.

(** The report's index, for a pointer to it. *)
Definition get_report (report_id : Z) : M bt_hid_report_descriptor (option Z) := fun out =>
  match find_report (hd_reports out) report_id 0 (Z.to_nat (hd_report_count out)) with
  | Ret (Some i) => (Ret (Some i), out)
  | Ret None =>
      if hd_report_count out =? BT_HID_MAX_REPORTS then (Ret None, out) else
      match (let? r := ld (hd_reports out) (hd_report_count out) in
             st1 (hd_reports out) (hd_report_count out)
               {| hr_report_id := report_id; hr_input_bits := hr_input_bits r |}) with
      | Ret rs => (Ret (Some (hd_report_count out)), set_reports rs (hd_report_count out + 1) out)
      | _ => (Fault, out)
      end
  | _ => (Fault, out)
  end.

Definition usage_for_index (locals : hid_locals) (index : Z) : outcome Z :=
  if index <? hl_usage_count locals then ld (hl_usages locals) index else
  if hl_has_usage_min locals && hl_has_usage_max locals
     && (hl_usage_min locals + index <=? hl_usage_max locals)
  then Ret (u16 (hl_usage_min locals + index)) else
  if negb (hl_usage_count locals =? 0) then ld (hl_usages locals) (hl_usage_count locals - 1) else Ret 0.

Definition is_variable (flags : Z) : bool := negb (Z.land flags BT_HID_INPUT_VARIABLE =? 0).

Definition new_field (globals : hid_globals) (locals : hid_locals) (flags input_bits i : Z) : outcome bt_hid_field :=
  let? usages :=
    (if is_variable flags then let? u := usage_for_index locals i in Ret (u, u)
     else Ret (if hl_has_usage_min locals then hl_usage_min locals else 0,
               if hl_has_usage_max locals then hl_usage_max locals else UINT16_MAX)) in
  Ret {| hf_report_id := hg_report_id globals;
         hf_bit_offset := u16 (input_bits + u32 (i * hg_report_size globals));
         hf_bit_size := u8 (hg_report_size globals);
         hf_count := if is_variable flags then 1 else hg_report_count globals;
         hf_flags := flags;
         hf_usage_page := hg_usage_page globals;
         hf_usage_min := usages.1;
         hf_usage_max := usages.2;
         hf_logical_min := hg_logical_min globals;
         hf_logical_max := hg_logical_max globals |}.

(** The [for] of [add_input], with [report] the index of the report. *)
Fixpoint add_fields (globals : hid_globals) (locals : hid_locals) (flags report i : Z) (n : nat)
    : M bt_hid_report_descriptor unit :=
  match n with
  | O => ret tt
  | S n => fun out =>
      match (let? r := ld (hd_reports out) report in
             let? field := new_field globals locals flags (hr_input_bits r) i in
             st1 (hd_fields out) (hd_field_count out) field) with
      | Ret fs => add_fields globals locals flags report (i + 1) n (set_fields (fun _ => fs) (hd_field_count out + 1) out)
      | _ => (Fault, out)
      end
  end.

Definition add_input (globals : hid_globals) (locals : hid_locals) (flags : Z) : M bt_hid_report_descriptor unit :=
  let! report := get_report (hg_report_id globals) in
  let emitted := if is_variable flags then hg_report_count globals else 1 in
  let added_bits := u32 (hg_report_size globals * hg_report_count globals) in
  match report with
  | None => fail BT_ERR_NO_RESOURCES
  | Some report =>
      let! r := (fun out => (ld (hd_reports out) report, out)) in
      let! full := gets (fun out => hd_field_count out + emitted >? BT_HID_MAX_FIELDS) in
      if (hg_report_size globals >? 32) || (hg_report_count globals =? 0) || (added_bits >? UINT16_MAX)
         || (hr_input_bits r >? UINT16_MAX - added_bits) || full
      then fail BT_ERR_NO_RESOURCES else
      do! add_fields globals locals flags report 0 (Z.to_nat emitted) in
      fun out =>
        match (let? r := ld (hd_reports out) report in
               st1 (hd_reports out) report
                 {| hr_report_id := hr_report_id r; hr_input_bits := u16 (hr_input_bits r + added_bits) |}) with
        | Ret rs => (Ret tt, set_reports rs (hd_report_count out) out)
        | _ => (Fault, out)
        end
  end.

(** The variables of [bt_hid_report_parse]. *)
Record parse_state : Type := {
  ps_globals : hid_globals;
  ps_stack : list (option hid_globals);
  ps_stack_depth : Z;
  ps_locals : hid_locals;
  ps_offset : Z;
  ps_out : bt_hid_report_descriptor;
}.

Definition zero_globals : hid_globals :=
  {| hg_usage_page := 0; hg_logical_min := 0; hg_logical_max := 0; hg_report_size := 0; hg_report_count := 0;
     hg_report_id := 0 |}.
Definition zero_locals : hid_locals :=
  {| hl_usages := replicate 32 0; hl_usage_count := 0; hl_usage_min := 0; hl_usage_max := 0;
     hl_has_usage_min := false; hl_has_usage_max := false |}.
Definition zero_field : bt_hid_field :=
  {| hf_report_id := 0; hf_bit_offset := 0; hf_bit_size := 0; hf_count := 0; hf_flags := 0; hf_usage_page := 0;
     hf_usage_min := 0; hf_usage_max := 0; hf_logical_min := 0; hf_logical_max := 0 |}.
Definition zero_descriptor : bt_hid_report_descriptor :=
  {| hd_fields := replicate 128 zero_field; hd_field_count := 0;
     hd_reports := replicate 16 {| hr_report_id := 0; hr_input_bits := 0 |}; hd_report_count := 0;
     hd_uses_report_ids := false |}.

Definition set_globals (g : hid_globals) (s : parse_state) : parse_state :=
  {| ps_globals := g; ps_stack := ps_stack s; ps_stack_depth := ps_stack_depth s; ps_locals := ps_locals s;
     ps_offset := ps_offset s; ps_out := ps_out s |}.
Definition set_stack (g : hid_globals) (st : list (option hid_globals)) (depth : Z) (s : parse_state) : parse_state :=
  {| ps_globals := g; ps_stack := st; ps_stack_depth := depth; ps_locals := ps_locals s;
     ps_offset := ps_offset s; ps_out := ps_out s |}.
Definition set_locals (l : hid_locals) (s : parse_state) : parse_state :=
  {| ps_globals := ps_globals s; ps_stack := ps_stack s; ps_stack_depth := ps_stack_depth s; ps_locals := l;
     ps_offset := ps_offset s; ps_out := ps_out s |}.
Definition set_offset (n : Z) (s : parse_state) : parse_state :=
  {| ps_globals := ps_globals s; ps_stack := ps_stack s; ps_stack_depth := ps_stack_depth s; ps_locals := ps_locals s;
     ps_offset := n; ps_out := ps_out s |}.
Definition set_out (d : bt_hid_report_descriptor) (s : parse_state) : parse_state :=
  {| ps_globals := ps_globals s; ps_stack := ps_stack s; ps_stack_depth := ps_stack_depth s; ps_locals := ps_locals s;
     ps_offset := ps_offset s; ps_out := d |}.

(** [globals] with one member assigned. *)
Definition with_page (v : Z) (g : hid_globals) : hid_globals :=
  {| hg_usage_page := v; hg_logical_min := hg_logical_min g; hg_logical_max := hg_logical_max g;
     hg_report_size := hg_report_size g; hg_report_count := hg_report_count g; hg_report_id := hg_report_id g |}.
Definition with_min (v : Z) (g : hid_globals) : hid_globals :=
  {| hg_usage_page := hg_usage_page g; hg_logical_min := v; hg_logical_max := hg_logical_max g;
     hg_report_size := hg_report_size g; hg_report_count := hg_report_count g; hg_report_id := hg_report_id g |}.
Definition with_max (v : Z) (g : hid_globals) : hid_globals :=
  {| hg_usage_page := hg_usage_page g; hg_logical_min := hg_logical_min g; hg_logical_max := v;
     hg_report_size := hg_report_size g; hg_report_count := hg_report_count g; hg_report_id := hg_report_id g |}.
Definition with_size (v : Z) (g : hid_globals) : hid_globals :=
  {| hg_usage_page := hg_usage_page g; hg_logical_min := hg_logical_min g; hg_logical_max := hg_logical_max g;
     hg_report_size := v; hg_report_count := hg_report_count g; hg_report_id := hg_report_id g |}.
Definition with_count (v : Z) (g : hid_globals) : hid_globals :=
  {| hg_usage_page := hg_usage_page g; hg_logical_min := hg_logical_min g; hg_logical_max := hg_logical_max g;
     hg_report_size := hg_report_size g; hg_report_count := v; hg_report_id := hg_report_id g |}.
Definition with_id (v : Z) (g : hid_globals) : hid_globals :=
  {| hg_usage_page := hg_usage_page g; hg_logical_min := hg_logical_min g; hg_logical_max := hg_logical_max g;
     hg_report_size := hg_report_size g; hg_report_count := hg_report_count g; hg_report_id := v |}.

Definition use_report_ids (out : bt_hid_report_descriptor) : bt_hid_report_descriptor :=
  {| hd_fields := hd_fields out; hd_field_count := hd_field_count out; hd_reports := hd_reports out;
     hd_report_count := hd_report_count out; hd_uses_report_ids := true |}.

(** The [switch] on global items. *)
Definition on_global (tag value : Z) (item : list Z) (item_size : Z) : M parse_state unit := fun s =>
  let g := ps_globals s in
  if tag =? HID_GLOBAL_USAGE_PAGE then (Ret tt, set_globals (with_page (u16 value) g) s) else
  if tag =? HID_GLOBAL_LOGICAL_MIN then
    match read_signed item item_size with
    | Ret v => (Ret tt, set_globals (with_min v g) s)
    | _ => (Fault, s)
    end else
  if tag =? HID_GLOBAL_LOGICAL_MAX then
    match (if hg_logical_min g <? 0 then read_signed item item_size else Ret (s32 value)) with
    | Ret v => (Ret tt, set_globals (with_max v g) s)
    | _ => (Fault, s)
    end else
  if tag =? HID_GLOBAL_REPORT_SIZE then (Ret tt, set_globals (with_size (u16 value) g) s) else
  if tag =? HID_GLOBAL_REPORT_ID then
    if (value =? 0) || (value >? UINT8_MAX) then (Fail BT_ERR_INVALID_ARGUMENT, s)
    else (Ret tt, set_out (use_report_ids (ps_out s)) (set_globals (with_id (u8 value) g) s)) else
  if tag =? HID_GLOBAL_REPORT_COUNT then (Ret tt, set_globals (with_count (u16 value) g) s) else
  if tag =? HID_GLOBAL_PUSH then
    if ps_stack_depth s =? HID_GLOBAL_STACK_MAX then (Fail BT_ERR_NO_RESOURCES, s) else
    match st1 (ps_stack s) (ps_stack_depth s) (Some g) with
    | Ret st => (Ret tt, set_stack g st (ps_stack_depth s + 1) s)
    | _ => (Fault, s)
    end else
  if tag =? HID_GLOBAL_POP then
    if ps_stack_depth s =? 0 then (Fail BT_ERR_INVALID_ARGUMENT, s) else
    match ld (ps_stack s) (ps_stack_depth s - 1) with
    | Ret (Some g) => (Ret tt, set_stack g (ps_stack s) (ps_stack_depth s - 1) s)
    | _ => (Fault, s)
    end
  else (Ret tt, s).

(** The [switch] on local items. *)
Definition on_local (tag value : Z) : M parse_state unit := fun s =>
  let l := ps_locals s in
  if tag =? HID_LOCAL_USAGE then
    if hl_usage_count l =? BT_HID_MAX_LOCAL_USAGES then (Fail BT_ERR_NO_RESOURCES, s) else
    match st1 (hl_usages l) (hl_usage_count l) (u16 value) with
    | Ret us =>
        (Ret tt, set_locals {| hl_usages := us; hl_usage_count := hl_usage_count l + 1; hl_usage_min := hl_usage_min l;
           hl_usage_max := hl_usage_max l; hl_has_usage_min := hl_has_usage_min l; hl_has_usage_max := hl_has_usage_max l |} s)
    | _ => (Fault, s)
    end else
  if tag =? HID_LOCAL_USAGE_MIN then
    (Ret tt, set_locals {| hl_usages := hl_usages l; hl_usage_count := hl_usage_count l; hl_usage_min := u16 value;
       hl_usage_max := hl_usage_max l; hl_has_usage_min := true; hl_has_usage_max := hl_has_usage_max l |} s) else
  if tag =? HID_LOCAL_USAGE_MAX then
    (Ret tt, set_locals {| hl_usages := hl_usages l; hl_usage_count := hl_usage_count l; hl_usage_min := hl_usage_min l;
       hl_usage_max := u16 value; hl_has_usage_min := hl_has_usage_min l; hl_has_usage_max := true |} s)
  else (Ret tt, s).

Definition on_main (tag value item_size : Z) : M parse_state unit := fun s =>
  let '(st, out) :=
    (if tag =? HID_MAIN_INPUT then add_input (ps_globals s) (ps_locals s) (u16 value) (ps_out s)
     else if (tag =? HID_MAIN_END_COLLECTION) && negb (item_size =? 0) then (Fail BT_ERR_INVALID_ARGUMENT, ps_out s)
     else if (tag =? HID_MAIN_COLLECTION) && negb (item_size =? 1) then (Fail BT_ERR_INVALID_ARGUMENT, ps_out s)
     else (Ret tt, ps_out s)) in
  (st, set_locals zero_locals (set_out out s)).

(** One iteration of the [while] of [bt_hid_report_parse]. *)
Definition parse_item (data : list Z) (data_len : Z) : M parse_state unit := fun s =>
  match ld data (ps_offset s) with
  | Ret prefix =>
      let offset := ps_offset s + 1 in
      if prefix =? 254 then
        if data_len - offset <? 2 then (Fail BT_ERR_INVALID_ARGUMENT, s) else
        match ld data offset with
        | Ret long_size =>
            let offset := offset + 2 in
            if long_size >? data_len - offset then (Fail BT_ERR_INVALID_ARGUMENT, s)
            else (Ret tt, set_offset (offset + long_size) s)
        | _ => (Fault, s)
        end
      else
        let size_code := Z.land prefix 3 in
        let item_size := if size_code =? 3 then 4 else size_code in
        let type := Z.land (Z.shiftr prefix 2) 3 in
        let tag := Z.shiftr prefix 4 in
        if item_size >? data_len - offset then (Fail BT_ERR_INVALID_ARGUMENT, s) else
        let item := drop (Z.to_nat offset) data in
        match read_unsigned item item_size with
        | Ret value =>
            let s := set_offset (offset + item_size) s in
            if type =? HID_TYPE_GLOBAL then on_global tag value item item_size s
            else if type =? HID_TYPE_LOCAL then on_local tag value s
            else if type =? HID_TYPE_MAIN then on_main tag value item_size s
            else (Ret tt, s)
        | _ => (Fault, s)
        end
  | _ => (Fault, s)
  end.

Fixpoint parse_loop (fuel : nat) (data : list Z) (data_len : Z) : M parse_state unit := fun s =>
  match fuel with
  | O => (Fault, s)
  | S fuel =>
      if ps_offset s <? data_len then (do! parse_item data data_len in parse_loop fuel data data_len) s
      else (Ret tt, s)
  end.

Definition parse_init : parse_state :=
  {| ps_globals := zero_globals; ps_stack := replicate 4 None; ps_stack_depth := 0; ps_locals := zero_locals;
     ps_offset := 0; ps_out := zero_descriptor |}.

Definition bt_hid_report_parse (data : option (list Z)) (data_len : Z) : M bt_hid_report_descriptor unit := fun out =>
  match data with
  | None => (Fail BT_ERR_INVALID_ARGUMENT, out)
  | Some data =>
      let '(st, s) := parse_loop (S (Z.to_nat data_len)) data data_len parse_init in
      match st with
      | Ret _ => (if hd_report_count (ps_out s) =? 0 then Fail BT_ERR_INVALID_ARGUMENT else Ret tt, ps_out s)
      | o => (o, ps_out s)
      end
  end.

(** ** The decoder *)

Fixpoint extract_loop (data : list Z) (bit_offset i : Z) (n : nat) (value : Z) : outcome Z :=
  match n with
  | O => Ret value
  | S n =>
      let? b := ld data ((bit_offset + i) / 8) in
      extract_loop data bit_offset (i + 1) n
        (if negb (Z.land b (Z.shiftl 1 ((bit_offset + i) mod 8)) =? 0) then Z.lor value (u32 (Z.shiftl 1 i)) else value)
  end.

Definition extract_bits (data : list Z) (bit_offset bit_size : Z) : outcome Z :=
  extract_loop data bit_offset 0 (Z.to_nat bit_size) 0.

Definition sign_value (value bit_size : Z) : Z :=
  s32 (if negb (bit_size =? 0) && (bit_size <? 32) && negb (Z.land value (Z.shiftl 1 (bit_size - 1)) =? 0)
       then Z.lor value (u32 (Z.shiftl UINT32_MAX bit_size)) else value).

Section decode.
  Context {S : Type} (callback : bt_hid_value -> S -> bool * S).

(** The inner [for]; [false] when the callback asked to stop. *)
Fixpoint decode_elements (field : bt_hid_field) (report_id : Z) (payload : list Z) (element : Z) (n : nat)
    : M S bool :=
  match n with
  | O => ret true
  | Datatypes.S n =>
      let! raw := lift (extract_bits payload (u16 (hf_bit_offset field + element * hf_bit_size field)) (hf_bit_size field)) in
      let is_array := negb (is_variable (hf_flags field)) in
      if is_array && (raw =? 0) then decode_elements field report_id payload (element + 1) n else
      let value :=
        {| hv_report_id := report_id; hv_usage_page := hf_usage_page field;
           hv_usage := if is_array then u16 raw else hf_usage_min field;
           hv_value := if is_array then 1 else
                       if hf_logical_min field <? 0 then sign_value raw (hf_bit_size field) else s32 raw;
           hv_flags := hf_flags field; hv_is_array := is_array |} in
      fun s =>
        let '(go, s) := callback value s in
        if go then decode_elements field report_id payload (element + 1) n s else (Ret false, s)
  end.

(** The outer one. *)
Fixpoint decode_fields (descriptor : bt_hid_report_descriptor) (report_id : Z) (payload : list Z) (payload_len i : Z)
    (n : nat) : M S unit :=
  match n with
  | O => ret tt
  | Datatypes.S n =>
      let! field := lift (ld (hd_fields descriptor) i) in
      if negb (hf_report_id field =? report_id)
      then decode_fields descriptor report_id payload payload_len (i + 1) n else
      if u32 (hf_bit_offset field + u32 (hf_bit_size field * hf_count field)) >? payload_len * 8
      then fail BT_ERR_INVALID_ARGUMENT else
      if negb (Z.land (hf_flags field) BT_HID_INPUT_CONSTANT =? 0)
      then decode_fields descriptor report_id payload payload_len (i + 1) n else
      let! go := decode_elements field report_id payload 0 (Z.to_nat (hf_count field)) in
      if go then decode_fields descriptor report_id payload payload_len (i + 1) n else ret tt
  end.

Definition bt_hid_report_decode_input (descriptor : option bt_hid_report_descriptor) (report : option (list Z))
    (report_len : Z) : M S unit :=
  match descriptor, report with
  | Some descriptor, Some report =>
      if hd_uses_report_ids descriptor then
        if report_len =? 0 then fail BT_ERR_INVALID_ARGUMENT else
        let! report_id := lift (ld report 0) in
        decode_fields descriptor report_id (drop 1 report) (report_len - 1) 0 (Z.to_nat (hd_field_count descriptor))
      else decode_fields descriptor 0 report report_len 0 (Z.to_nat (hd_field_count descriptor))
  | _, _ => fail BT_ERR_INVALID_ARGUMENT
  end.
End decode.

(** ** Specification: descriptors as lists of items *)

Inductive item : Type :=
| Short (type tag : Z) (body : list Z)
| Long (tag : Z) (body : list Z).

Definition size_code (n : Z) : Z := if n =? 4 then 3 else n.

Definition item_bytes (it : item) : list Z :=
  match it with
  | Short type tag body => [size_code (zlen body) + 4 * type + 16 * tag] ++ body
  | Long tag body => [254; zlen body; tag] ++ body
  end.

Definition item_ok (it : item) : Prop :=
  match it with
  | Short type tag body =>
      0 <= type < 4 /\ 0 <= tag < 16 /\ zlen body ∈ [0; 1; 2; 4] /\ bytes body /\ ~ (type = 3 /\ tag = 15 /\ zlen body = 2)
  | Long tag body => is_byte tag /\ bytes body /\ zlen body < 2 ^ 8
  end.

Definition items_bytes (its : list item) : list Z := mjoin (item_bytes <$> its).

(** Two's complement. *)
Definition signed (bits v : Z) : Z := if v <? 2 ^ (bits - 1) then v else v - 2 ^ bits.

(** What was read so far. *)
Record description : Type := {
  d_globals : hid_globals;
  d_stack : list hid_globals;
  d_usages : list Z;
  d_usage_min : option Z;
  d_usage_max : option Z;
  d_fields : list bt_hid_field;
  d_report_ids : list Z;
  d_numbered : bool;
}.

Definition empty_description : description :=
  {| d_globals := zero_globals; d_stack := []; d_usages := []; d_usage_min := None; d_usage_max := None;
     d_fields := []; d_report_ids := []; d_numbered := false |}.

(** The bits of the input report [id] that the fields take. *)
Definition field_bits (f : bt_hid_field) : Z := hf_bit_size f * hf_count f.
Fixpoint bits_of (id : Z) (fs : list bt_hid_field) : Z :=
  match fs with
  | [] => 0
  | f :: fs => (if hf_report_id f =? id then field_bits f else 0) + bits_of id fs
  end.

Definition spec_usage (d : description) (i : nat) : Z :=
  match d_usages d !! i with
  | Some u => u
  | None =>
      let rest := default 0 (last (d_usages d)) in
      match d_usage_min d, d_usage_max d with
      | Some a, Some b => if a + Z.of_nat i <=? b then a + Z.of_nat i else rest
      | _, _ => rest
      end
  end.

(** The [i]-th field of an input item that starts at bit [start]. *)
Definition spec_field (d : description) (flags start : Z) (i : nat) : bt_hid_field :=
  let g := d_globals d in
  let v := is_variable flags in
  {| hf_report_id := hg_report_id g;
     hf_bit_offset := start + Z.of_nat i * hg_report_size g;
     hf_bit_size := hg_report_size g;
     hf_count := if v then 1 else hg_report_count g;
     hf_flags := flags;
     hf_usage_page := hg_usage_page g;
     hf_usage_min := if v then spec_usage d i else default 0 (d_usage_min d);
     hf_usage_max := if v then spec_usage d i else default UINT16_MAX (d_usage_max d);
     hf_logical_min := hg_logical_min g;
     hf_logical_max := hg_logical_max g |}.

Definition with_globals (g : hid_globals) (d : description) : description :=
  {| d_globals := g; d_stack := d_stack d; d_usages := d_usages d; d_usage_min := d_usage_min d;
     d_usage_max := d_usage_max d; d_fields := d_fields d; d_report_ids := d_report_ids d; d_numbered := d_numbered d |}.

Definition with_locals (us : list Z) (a b : option Z) (d : description) : description :=
  {| d_globals := d_globals d; d_stack := d_stack d; d_usages := us; d_usage_min := a; d_usage_max := b;
     d_fields := d_fields d; d_report_ids := d_report_ids d; d_numbered := d_numbered d |}.

Definition spec_input (d : description) (flags : Z) : outcome description :=
  let g := d_globals d in
  let id := hg_report_id g in
  let ids := if decide (id ∈ d_report_ids d) then d_report_ids d else d_report_ids d ++ [id] in
  let start := bits_of id (d_fields d) in
  let n := if is_variable flags then Z.to_nat (hg_report_count g) else 1%nat in
  if (16 <? zlen ids) || (32 <? hg_report_size g) || (hg_report_count g =? 0)
     || (65535 <? start + hg_report_size g * hg_report_count g) || (128 <? zlen (d_fields d) + Z.of_nat n)
  then Fail BT_ERR_NO_RESOURCES
  else Ret {| d_globals := g; d_stack := d_stack d; d_usages := []; d_usage_min := None; d_usage_max := None;
              d_fields := d_fields d ++ (spec_field d flags start <$> seq 0 n); d_report_ids := ids;
              d_numbered := d_numbered d |}.

Definition spec_global (d : description) (tag : Z) (body : list Z) : outcome description :=
  let g := d_globals d in
  let v := le_dec body in
  let sv := signed (8 * Z.max 1 (zlen body)) v in
  match tag with
  | 0 => Ret (with_globals (with_page (u16 v) g) d)
  | 1 => Ret (with_globals (with_min sv g) d)
  | 2 => Ret (with_globals (with_max (if hg_logical_min g <? 0 then sv else signed 32 v) g) d)
  | 7 => Ret (with_globals (with_size (u16 v) g) d)
  | 8 => if (v =? 0) || (255 <? v) then Fail BT_ERR_INVALID_ARGUMENT
         else Ret {| d_globals := with_id v g; d_stack := d_stack d; d_usages := d_usages d;
                     d_usage_min := d_usage_min d; d_usage_max := d_usage_max d; d_fields := d_fields d;
                     d_report_ids := d_report_ids d; d_numbered := true |}
  | 9 => Ret (with_globals (with_count (u16 v) g) d)
  | 10 => if 4 <=? zlen (d_stack d) then Fail BT_ERR_NO_RESOURCES
          else Ret {| d_globals := g; d_stack := g :: d_stack d; d_usages := d_usages d;
                      d_usage_min := d_usage_min d; d_usage_max := d_usage_max d; d_fields := d_fields d;
                      d_report_ids := d_report_ids d; d_numbered := d_numbered d |}
  | 11 => match d_stack d with
          | [] => Fail BT_ERR_INVALID_ARGUMENT
          | g :: st =>
              Ret {| d_globals := g; d_stack := st; d_usages := d_usages d;
                     d_usage_min := d_usage_min d; d_usage_max := d_usage_max d; d_fields := d_fields d;
                     d_report_ids := d_report_ids d; d_numbered := d_numbered d |}
          end
  | _ => Ret d
  end.

Definition spec_local (d : description) (tag : Z) (body : list Z) : outcome description :=
  let v := u16 (le_dec body) in
  match tag with
  | 0 => if 32 <=? zlen (d_usages d) then Fail BT_ERR_NO_RESOURCES
         else Ret (with_locals (d_usages d ++ [v]) (d_usage_min d) (d_usage_max d) d)
  | 1 => Ret (with_locals (d_usages d) (Some v) (d_usage_max d) d)
  | 2 => Ret (with_locals (d_usages d) (d_usage_min d) (Some v) d)
  | _ => Ret d
  end.

Definition spec_main (d : description) (tag : Z) (body : list Z) : outcome description :=
  match tag with
  | 8 => spec_input d (u16 (le_dec body))
  | 10 => if zlen body =? 1 then Ret (with_locals [] None None d) else Fail BT_ERR_INVALID_ARGUMENT
  | 12 => if zlen body =? 0 then Ret (with_locals [] None None d) else Fail BT_ERR_INVALID_ARGUMENT
  | _ => Ret (with_locals [] None None d)
  end.

Definition spec_item (d : description) (it : item) : outcome description :=
  match it with
  | Short 0 tag body => spec_main d tag body
  | Short 1 tag body => spec_global d tag body
  | Short 2 tag body => spec_local d tag body
  | _ => Ret d
  end.

Fixpoint spec_items (d : description) (its : list item) : outcome description :=
  match its with
  | [] => Ret d
  | it :: its => let? d := spec_item d it in spec_items d its
  end.

(** Bytes left over that do not start with a whole item. *)
Definition truncated (tail : list Z) : Prop :=
  tail <> [] /\ forall it rest, item_ok it -> tail <> item_bytes it ++ rest.

(** What the parser is to make of a descriptor. *)
Definition spec_parse (its : list item) (tail : list Z) : outcome description :=
  let? d := spec_items empty_description its in
  if bool_decide (tail = []) && negb (bool_decide (d_report_ids d = [])) then Ret d else Fail BT_ERR_INVALID_ARGUMENT.

(** ** Representation *)

Definition is_s32 (x : Z) : Prop := - 2 ^ 31 <= x < 2 ^ 31.

Definition globals_ok (g : hid_globals) : Prop :=
  is_u16 (hg_usage_page g) /\ is_s32 (hg_logical_min g) /\ is_s32 (hg_logical_max g) /\ is_u16 (hg_report_size g) /\
  is_u16 (hg_report_count g) /\ is_byte (hg_report_id g).

(** The report descriptor [out] holds the fields [fs] of the reports [ids].
    The bits of each report are tiled by its fields in their order. *)
Definition field_ok (f : bt_hid_field) : Prop :=
  is_byte (hf_report_id f) /\ 0 <= hf_bit_size f <= 32 /\ 0 < hf_count f < 2 ^ 16 /\ is_u16 (hf_flags f) /\
  is_u16 (hf_usage_page f) /\ is_u16 (hf_usage_min f) /\ is_u16 (hf_usage_max f) /\ is_s32 (hf_logical_min f) /\
  is_s32 (hf_logical_max f).

Definition tiled (fs : list bt_hid_field) : Prop :=
  forall i f, fs !! i = Some f -> hf_bit_offset f = bits_of (hf_report_id f) (take i fs).

Definition fields_ok (fs : list bt_hid_field) (ids : list Z) : Prop :=
  zlen fs <= 128 /\ zlen ids <= 16 /\ NoDup ids /\ Forall field_ok fs /\ tiled fs /\
  (forall f, f ∈ fs -> hf_report_id f ∈ ids) /\ (forall id, bits_of id fs <= 65535).

Definition info (fs : list bt_hid_field) (id : Z) : bt_hid_report_info :=
  {| hr_report_id := id; hr_input_bits := bits_of id fs |}.
Abbreviation infos fs ids := (info fs <$> ids).

Definition holds (out : bt_hid_report_descriptor) (fs : list bt_hid_field) (ids : list Z) : Prop :=
  fields_ok fs ids /\
  (exists rest, hd_fields out = fs ++ rest /\ zlen (hd_fields out) = 128) /\ hd_field_count out = zlen fs /\
  (exists rest, hd_reports out = infos fs ids ++ rest /\
     zlen (hd_reports out) = 16 /\ Forall (fun r => hr_input_bits r = 0) rest) /\
  hd_report_count out = zlen ids.

Definition opt_rep (o : option Z) (has : bool) (v : Z) : Prop :=
  match o with Some x => has = true /\ v = x | None => has = false end.

Definition locals_rep (l : hid_locals) (us : list Z) (a b : option Z) : Prop :=
  (exists rest, hl_usages l = us ++ rest /\ zlen (hl_usages l) = 32) /\ hl_usage_count l = zlen us /\
  Forall is_u16 us /\ opt_rep a (hl_has_usage_min l) (hl_usage_min l) /\ opt_rep b (hl_has_usage_max l) (hl_usage_max l) /\
  (forall x, a = Some x -> is_u16 x) /\ (forall x, b = Some x -> is_u16 x).

Definition rep (s : parse_state) (d : description) : Prop :=
  ps_globals s = d_globals d /\ globals_ok (d_globals d) /\ Forall globals_ok (d_stack d) /\
  (exists rest, ps_stack s = (Some <$> reverse (d_stack d)) ++ rest /\ zlen (ps_stack s) = 4) /\
  ps_stack_depth s = zlen (d_stack d) /\
  locals_rep (ps_locals s) (d_usages d) (d_usage_min d) (d_usage_max d) /\
  holds (ps_out s) (d_fields d) (d_report_ids d) /\ hd_uses_report_ids (ps_out s) = d_numbered d /\
  (d_numbered d = false -> hg_report_id (d_globals d) = 0 /\ (forall g, g ∈ d_stack d -> hg_report_id g = 0) /\
     forall id, id ∈ d_report_ids d -> id = 0).

(** [m] does what [o] says. *)
Definition does (m : M parse_state unit) (s : parse_state) (o : outcome description) : Prop :=
  exists s', m s = (match o with Ret _ => Ret tt | Fail e => Fail e | Fault => Fault end, s') /\
    match o with Ret d' => rep s' d' /\ ps_offset s' = ps_offset s | Fail _ => True | Fault => False end.

(** ** Lemmas: numbers *)

Lemma read_unsigned_loop_spec bs : forall pre post i v, i = zlen pre -> bytes bs -> 0 <= v < 2 ^ (8 * i) ->
  i + zlen bs <= 4 -> read_unsigned_loop (pre ++ bs ++ post) i (length bs) v = Ret (v + 2 ^ (8 * i) * le_dec bs).
Proof.
  induction bs as [|b bs IH]; intros pre post i v -> Hb Hv Hl; [simpl; f_equal; lia|].
  apply Forall_cons in Hb as [Hx Hb]. cbn [read_unsigned_loop length] in Hl |- *. unfold is_byte in Hx.
  rewrite (ld_at pre [b] (bs ++ post) _ 0 b) by (simpl; done || lia). cbn [obind].
  assert (2 ^ (8 * (zlen pre + 1)) = 256 * 2 ^ (8 * zlen pre)) as Hp by (rewrite Z.mul_add_distr_l, Z.pow_add_r by lia; lia).
  assert (2 ^ (8 * zlen pre + 8) <= 2 ^ 32) as Hle by (apply Z.pow_le_mono_r; lia).
  rewrite Z.pow_add_r in Hle by lia. change (2 ^ 8) with 256 in *.
  assert (u32 (Z.shiftl b (8 * zlen pre)) = Z.shiftl b (8 * zlen pre)) as ->.
  { rewrite Z.shiftl_mul_pow2 by lia. apply u32_small. nia. }
  rewrite lor_shiftl by lia. specialize (IH (pre ++ [b]) post (zlen pre + 1)).
  rewrite <- app_assoc in IH. cbn [app] in IH |- *. rewrite IH; [cbn [le_dec]; f_equal; rewrite Hp; lia|zlist|done|nia|lia].
Qed.

Lemma read_unsigned_spec body rest : bytes body -> zlen body <= 4 ->
  read_unsigned (body ++ rest) (zlen body) = Ret (le_dec body).
Proof.
  intros Hb Hl. unfold read_unsigned. rewrite Nat2Z.id.
  pose proof (read_unsigned_loop_spec body [] rest 0 0 eq_refl Hb ltac:(lia) ltac:(lia)) as E.
  cbn [app] in E. rewrite E. f_equal. lia.
Qed.

Lemma top_bit n v : 0 < n -> 0 <= v < 2 ^ n -> (Z.land v (Z.shiftl 1 (n - 1)) =? 0) = (v <? 2 ^ (n - 1)).
Proof.
  intros Hn Hv. assert (2 ^ n = 2 * 2 ^ (n - 1)) as Hp by (rewrite <- Z.pow_succ_r by lia; f_equal; lia).
  rewrite Z.shiftl_1_l. apply eq_true_iff_eq. rewrite Z.eqb_eq, Z.ltb_lt. split; intros H.
  - apply Z.nle_gt. intros Hge. assert (Z.testbit v (n - 1) = true) as Hb.
    { apply Z.testbit_true; [lia|]. replace (v / 2 ^ (n - 1)) with 1; [done|].
      apply (Z.div_unique_pos _ _ _ (v - 2 ^ (n - 1))); lia. }
    apply (f_equal (fun x => Z.testbit x (n - 1))) in H.
    rewrite Z.land_spec, Hb, Z.pow2_bits_true, Z.bits_0 in H by lia. done.
  - apply Z.bits_inj'. intros i Hi. rewrite Z.land_spec, Z.bits_0. destruct (Z.eq_dec i (n - 1)) as [->|Hne].
    + assert (Z.testbit v (n - 1) = false) as ->; [|done]. apply Z.testbit_false; [lia|]. by rewrite Z.div_small by lia.
    + rewrite Z.pow2_bits_false by lia. apply andb_false_r.
Qed.

Lemma sign_extend n v : 0 < n < 32 -> 0 <= v < 2 ^ n ->
  s32 (if negb (Z.land v (Z.shiftl 1 (n - 1)) =? 0) then Z.lor v (u32 (Z.shiftl UINT32_MAX n)) else v) = signed n v.
Proof.
  intros Hn Hv. rewrite top_bit by lia. unfold signed. assert (2 ^ n <= 2 ^ 31) as Hle by (apply Z.pow_le_mono_r; lia).
  assert (2 ^ n = 2 * 2 ^ (n - 1)) as Hp by (rewrite <- Z.pow_succ_r by lia; f_equal; lia).
  destruct (Z.ltb_spec v (2 ^ (n - 1))) as [Hlt|Hge]; cbn [negb].
  - unfold s32. rewrite Z.mod_small; lia.
  - assert (u32 (Z.shiftl UINT32_MAX n) = Z.shiftl (2 ^ (32 - n) - 1) n) as ->.
    { rewrite !Z.shiftl_mul_pow2 by lia. unfold u32, UINT32_MAX.
      assert (2 ^ (32 - n) * 2 ^ n = 2 ^ 32) as E by (rewrite <- Z.pow_add_r by lia; f_equal; lia).
      symmetry. apply (Z.mod_unique_pos _ _ (2 ^ n - 1)); nia. }
    rewrite lor_shiftl by lia. rewrite Z.mul_sub_distr_r, <- Z.pow_add_r by lia. replace (32 - n + n) with 32 by lia.
    unfold s32. replace (v + (2 ^ 32 - 1 * 2 ^ n) + 2 ^ 31) with (v - 2 ^ n + 2 ^ 31 + 1 * 2 ^ 32) by lia.
    rewrite Z.mod_add, Z.mod_small; lia.
Qed.

Lemma s32_signed v : 0 <= v < 2 ^ 32 -> s32 v = signed 32 v.
Proof. unfold s32, signed. intros Hv. change (2 ^ (32 - 1)) with (2 ^ 31). destruct (Z.ltb_spec v (2 ^ 31)); dlia. Qed.

Lemma signed_range n v : 0 < n <= 32 -> 0 <= v < 2 ^ n -> is_s32 (signed n v).
Proof.
  intros Hn Hv. unfold signed, is_s32. assert (2 ^ (n - 1) <= 2 ^ 31) by (apply Z.pow_le_mono_r; lia).
  assert (2 ^ n = 2 * 2 ^ (n - 1)) as Hp by (rewrite <- Z.pow_succ_r by lia; f_equal; lia).
  destruct (Z.ltb_spec v (2 ^ (n - 1))); lia.
Qed.

Lemma read_signed_spec body rest : bytes body -> zlen body <= 4 ->
  read_signed (body ++ rest) (zlen body) = Ret (signed (8 * Z.max 1 (zlen body)) (le_dec body)) /\
  is_s32 (signed (8 * Z.max 1 (zlen body)) (le_dec body)).
Proof.
  intros Hb Hl. pose proof (le_dec_bound body Hb) as Hv. unfold read_signed. rewrite read_unsigned_spec by done. cbn [obind].
  destruct (Z.eqb_spec (zlen body) 0) as [H0|H0]; cbn [negb andb].
  { rewrite H0 in *. simpl in Hv. by replace (le_dec body) with 0 by lia. }
  rewrite Z.max_r by lia. split; [|apply signed_range; [lia|done]]. f_equal. destruct (Z.ltb_spec (zlen body) 4) as [H4|H4]; cbn [andb].
  - rewrite (Z.mul_comm (zlen body)). apply sign_extend; [lia|done].
  - replace (8 * zlen body) with 32 in * by lia. by apply s32_signed.
Qed.

(** The fields of an item's prefix. *)
Lemma prefix_fields c ty tag : 0 <= c < 4 -> 0 <= ty < 4 -> 0 <= tag < 16 -> let p := c + 4 * ty + 16 * tag in
  Z.land p 3 = c /\ Z.land (Z.shiftr p 2) 3 = ty /\ Z.shiftr p 4 = tag /\ is_byte p /\
  (p = 254 <-> c = 2 /\ ty = 3 /\ tag = 15).
Proof.
  intros Hc Ht Hg p. change 3 with (Z.ones 2) at 1 2. rewrite !Z.land_ones, !Z.shiftr_div_pow2 by lia.
  change (2 ^ 2) with 4. change (2 ^ 4) with 16. unfold is_byte, p. split; [dlia|]. split; [dlia|]. split; [dlia|]. lia.
Qed.

(** ** Lemmas: fields and reports *)

Lemma bits_of_app id a b : bits_of id (a ++ b) = bits_of id a + bits_of id b.
Proof. induction a as [|f a IH]; [done|]. cbn [app bits_of]. rewrite IH. lia. Qed.

Lemma bits_of_nonneg id fs : Forall field_ok fs -> 0 <= bits_of id fs.
Proof.
  induction 1 as [|f fs (_ & ? & ? & _) _ IH]; [done|]. cbn [bits_of]. unfold field_bits. destruct (_ =? _); nia.
Qed.

Lemma bits_of_absent id fs : (forall f, f ∈ fs -> hf_report_id f <> id) -> bits_of id fs = 0.
Proof.
  induction fs as [|f fs IH]; intros H; [done|]. cbn [bits_of]. rewrite (proj2 (Z.eqb_neq _ _)) by (apply H; left).
  rewrite IH; [done|]. intros x Hx. apply H. by right.
Qed.


Lemma find_report_spec fs id ids : forall pre rest,
  ((id ∉ ids) /\ find_report (pre ++ infos fs ids ++ rest) id (zlen pre) (length ids) = Ret None) \/
  exists a b, ids = a ++ id :: b /\
    find_report (pre ++ infos fs ids ++ rest) id (zlen pre) (length ids) = Ret (Some (zlen pre + zlen a)).
Proof.
  induction ids as [|x ids IH]; intros pre rest; [left; split; [apply not_elem_of_nil|done]|].
  rewrite fmap_cons. cbn [find_report length]. change ((info fs x :: infos fs ids) ++ rest) with ([info fs x] ++ infos fs ids ++ rest).
  rewrite (ld_at pre [info fs x] (infos fs ids ++ rest) _ 0 (info fs x)) by (simpl; done || lia).
  cbn [obind hr_report_id info]. destruct (Z.eqb_spec x id) as [->|Hne].
  { right. exists [], ids. split; [done|]. simpl. by rewrite Z.add_0_r. }
  specialize (IH (pre ++ [info fs x]) rest). rewrite <- app_assoc in IH.
  replace (zlen (pre ++ [info fs x])) with (zlen pre + 1) in IH by zlist.
  cbn [app] in IH |- *. destruct IH as [[Hn E]|(a & b & -> & E)].
  - left. split; [by apply not_elem_of_cons|exact E].
  - right. exists (x :: a), b. split; [done|]. rewrite E. do 2 f_equal. simpl. lia.
Qed.

Lemma infos_length fs ids : length (infos fs ids) = length ids.
Proof. apply length_fmap. Qed.

Lemma infos_app fs a b : infos fs (a ++ b) = infos fs a ++ infos fs b.
Proof. apply fmap_app. Qed.

(** The report the fields of [id] go to. *)
Definition ids_with (id : Z) (ids : list Z) : list Z := if decide (id ∈ ids) then ids else ids ++ [id].

Lemma get_report_spec out fs ids id : holds out fs ids ->
  exists r out', get_report id out = (Ret r, out') /\ hd_uses_report_ids out' = hd_uses_report_ids out /\
    if 16 <? zlen (ids_with id ids) then r = None
    else holds out' fs (ids_with id ids) /\ exists a b, ids_with id ids = a ++ id :: b /\ r = Some (zlen a).
Proof.
  intros Hh. pose proof Hh as ((Hf1 & Hf2 & Hnd & Hf & Ht & Hin & Hbits) & Hfs & Hfc & (rest & Hr & Hrl & Hz) & Hrc).
  unfold get_report, ids_with. rewrite Hr, Hrc, Nat2Z.id.
  destruct (find_report_spec fs id ids [] rest) as [[Hn E]|(a & b & Hab & E)]; cbn [app] in E;
    change (zlen (@nil bt_hid_report_info)) with 0 in E; rewrite E.
  - rewrite decide_False by done. unfold BT_HID_MAX_REPORTS. rewrite length_app. cbn [length].
    assert (zlen ids + zlen rest = 16) as Hrest by (rewrite <- Hrl, Hr, length_app, infos_length; lia).
    destruct (Z.eqb_spec (zlen ids) 16) as [H16|H16].
    { do 2 eexists. split; [done|]. split; [done|]. by rewrite (proj2 (Z.ltb_lt _ _)) by lia. }
    rewrite (proj2 (Z.ltb_ge _ _)) by lia. destruct rest as [|x rest]; [simpl in Hrest; lia|]. apply Forall_cons in Hz as [Hx Hz].
    replace (zlen ids) with (zlen (infos fs ids)) by (by rewrite infos_length).
    rewrite ld_middle. cbn [obind]. rewrite st1_middle. rewrite infos_length.
    do 2 eexists. split; [done|]. split; [done|]. split; [|exists ids, []; by split].
    assert (forall f, f ∈ fs -> hf_report_id f <> id) as Habs by (intros f Hf' <-; by apply Hn, Hin).
    split; [|split; [exact Hfs|split; [exact Hfc|split; [|simpl; rewrite length_app; simpl; lia]]]].
    + split; [done|]. split; [rewrite length_app; simpl; lia|]. split.
      { apply NoDup_app. split; [done|]. split; [|apply NoDup_singleton]. by intros y Hy ->%list_elem_of_singleton. }
      do 2 (split; [done|]). split; [|done]. intros f Hf'. apply elem_of_app. left. by apply Hin.
    + exists rest. cbn [hd_reports set_reports]. rewrite infos_app, <- app_assoc, Hx. unfold infos at 3. cbn [fmap list_fmap app]. unfold info at 3.
      rewrite (bits_of_absent id fs Habs). split; [done|]. split; [|done].
      rewrite Hr in Hrl. rewrite !length_app in *. simpl length in *. lia.
  - assert (id ∈ ids) as Hi by (rewrite Hab; apply elem_of_app; right; left).
    rewrite decide_True by done. do 2 eexists. split; [done|]. split; [done|].
    rewrite (proj2 (Z.ltb_ge _ _)) by lia. split; [done|]. by exists a, b.
Qed.

Lemma usage_spec l d i : locals_rep l (d_usages d) (d_usage_min d) (d_usage_max d) ->
  usage_for_index l (Z.of_nat i) = Ret (spec_usage d i) /\ is_u16 (spec_usage d i).
Proof.
  intros ((rest & Hu & Hl) & Hc & Hus & Ha & Hb & Hra & Hrb). unfold usage_for_index, spec_usage. rewrite Hc.
  assert (is_u16 0) as H0 by (unfold is_u16; lia).
  destruct (Z.ltb_spec (Z.of_nat i) (zlen (d_usages d))) as [Hi|Hi].
  { destruct (lookup_lt_is_Some_2 (d_usages d) i ltac:(lia)) as [u Eu]. rewrite Eu. split.
    - rewrite Hu. apply ld_lookup; [lia|]. rewrite Nat2Z.id. by apply lookup_app_l_Some.
    - by apply (Forall_lookup_1 _ _ _ _ Hus Eu). }
  rewrite lookup_ge_None_2 by lia.
  assert ((if negb (zlen (d_usages d) =? 0) then ld (hl_usages l) (zlen (d_usages d) - 1) else Ret 0) =
      Ret (default 0 (last (d_usages d))) /\ is_u16 (default 0 (last (d_usages d)))) as [Hrest Hrest'].
  { destruct (Z.eqb_spec (zlen (d_usages d)) 0) as [Hz|Hz]; cbn [negb]; [by destruct (d_usages d)|].
    destruct (exists_last (l := d_usages d)) as (us & u & E); [by intros E; rewrite E in Hz|]. rewrite E in *.
    rewrite last_snoc. cbn [default]. split; [|by apply Forall_app in Hus as [_ Hus]; apply Forall_cons in Hus as [? _]].
    rewrite Hu, <- app_assoc. cbn [app]. replace (zlen (us ++ [u]) - 1) with (zlen us) by zlist. apply ld_middle. }
  destruct (d_usage_min d) as [a|], (d_usage_max d) as [b|]; cbn [opt_rep] in Ha, Hb; try rewrite (proj1 Ha); try rewrite (proj1 Hb);
    try rewrite Ha; try rewrite Hb; cbn [andb]; try done.
  rewrite (proj2 Ha), (proj2 Hb). specialize (Hra a eq_refl). specialize (Hrb b eq_refl). unfold is_u16 in *.
  destruct (Z.leb_spec (a + Z.of_nat i) b); [|done]. split; [|lia]. f_equal. apply u16_small. lia.
Qed.

Lemma new_field_spec l d flags start i : locals_rep l (d_usages d) (d_usage_min d) (d_usage_max d) ->
  globals_ok (d_globals d) -> hg_report_size (d_globals d) <= 32 -> 0 <= start ->
  start + Z.of_nat i * hg_report_size (d_globals d) <= 65535 ->
  new_field (d_globals d) l flags start (Z.of_nat i) = Ret (spec_field d flags start i).
Proof.
  intros Hl (_ & _ & _ & Hs & _) H32 Hs0 Hb. unfold new_field, spec_field. destruct (usage_spec l d i Hl) as [Hu _].
  destruct Hl as (_ & _ & _ & Ha & Hm & _). unfold is_u16 in *.
  assert (u32 (Z.of_nat i * hg_report_size (d_globals d)) = Z.of_nat i * hg_report_size (d_globals d)) as -> by (apply u32_small; lia).
  rewrite (u16_small (start + _)), (u8_small (hg_report_size _)) by lia.
  destruct (is_variable flags); [rewrite Hu; done|]. cbn [obind fst snd].
  destruct (d_usage_min d) as [a|], (d_usage_max d) as [b|]; cbn [opt_rep] in Ha, Hm; try rewrite (proj1 Ha); try rewrite (proj1 Hm);
    try rewrite Ha; try rewrite Hm; cbn [default]; try rewrite (proj2 Ha); try rewrite (proj2 Hm); done.
Qed.

(** The fields of an input item. *)
Lemma add_fields_spec l d flags a id b rest : locals_rep l (d_usages d) (d_usage_min d) (d_usage_max d) ->
  globals_ok (d_globals d) -> hg_report_size (d_globals d) <= 32 -> forall n i fs pad out start,
  0 <= start -> start + Z.of_nat (i + n) * hg_report_size (d_globals d) <= 65535 ->
  hd_reports out = a ++ {| hr_report_id := id; hr_input_bits := start |} :: b ++ rest ->
  hd_fields out = fs ++ pad -> hd_field_count out = zlen fs -> (n <= length pad)%nat ->
  add_fields (d_globals d) l flags (zlen a) (Z.of_nat i) n out =
    (Ret tt, set_fields (fun _ => (fs ++ (spec_field d flags start <$> seq i n)) ++ drop n pad)
       (zlen (fs ++ (spec_field d flags start <$> seq i n))) out).
Proof.
  intros Hl Hg H32 n. induction n as [|n IH]; intros i fs pad out start Hs Hb Hr Hf Hc Hn.
  { cbn [add_fields seq fmap list_fmap]. rewrite app_nil_r, drop_0. unfold ret, set_fields. rewrite <- Hf, <- Hc. by destruct out. }
  cbn [add_fields]. rewrite Hr, ld_middle. cbn [obind hr_input_bits].
  destruct Hg as (Hg0 & Hg1 & Hg2 & Hsz & Hg4). unfold is_u16 in Hsz.
  rewrite (new_field_spec l d flags start i Hl) by (done || nia). cbn [obind].
  destruct pad as [|x pad]; [simpl in Hn; lia|]. rewrite Hf, Hc, st1_middle. cbn [obind].
  replace (Z.of_nat i + 1) with (Z.of_nat (S i)) by lia.
  set (f := spec_field d flags start i).
  rewrite (IH (S i) (fs ++ [f]) pad _ start); [|done|by replace (S i + n)%nat with (i + S n)%nat by lia|exact Hr|
    by rewrite <- app_assoc|simpl; rewrite length_app; simpl; lia|simpl in Hn; lia].
  cbn [seq]. rewrite fmap_cons. fold f. rewrite <- !app_assoc. cbn [app drop]. reflexivity.
Qed.

Lemma new_bits d flags start n id : let fs := spec_field d flags start <$> seq 0 n in
  bits_of id fs = if hg_report_id (d_globals d) =? id
    then Z.of_nat n * (hg_report_size (d_globals d) * (if is_variable flags then 1 else hg_report_count (d_globals d))) else 0.
Proof.
  intros fs. unfold fs. clear fs. generalize 0%nat as i. induction n as [|n IH]; intros i; [simpl; by destruct (_ =? _)|].
  cbn [seq]. rewrite fmap_cons. cbn [bits_of]. rewrite IH. unfold field_bits. cbn [spec_field hf_report_id hf_bit_size hf_count].
  destruct (hg_report_id (d_globals d) =? id); [|done]. destruct (is_variable flags); lia.
Qed.

Lemma infos_other fs gs (l : list Z) : (forall id, id ∈ l -> bits_of id gs = 0) -> infos (fs ++ gs) l = infos fs l.
Proof.
  intros H. apply list_fmap_ext. intros i id Hi. unfold info. rewrite bits_of_app, H; [by rewrite Z.add_0_r|].
  by eapply list_elem_of_lookup_2.
Qed.

Section input.
  Context (d : description) (l : hid_locals) (flags : Z).
  Context (Hg : globals_ok (d_globals d)) (Hl : locals_rep l (d_usages d) (d_usage_min d) (d_usage_max d)) (Hflags : is_u16 flags).
Let g := d_globals d.
Let n := if is_variable flags then Z.to_nat (hg_report_count g) else 1%nat.
Let added := hg_report_size g * hg_report_count g.
Let start := bits_of (hg_report_id g) (d_fields d).
Let new := spec_field d flags start <$> seq 0 n.
  Context (H32 : hg_report_size g <= 32) (Hcount : hg_report_count g <> 0) (Hstart : 0 <= start) (Hbits : start + added <= 65535).

Lemma new_added id : bits_of id new = if hg_report_id g =? id then added else 0.
Proof.
  unfold new. rewrite new_bits. fold g. destruct (_ =? _); [|done]. unfold n, added.
  destruct Hg as (_ & _ & _ & _ & Hc & _). unfold is_u16 in Hc. fold g in Hc. destruct (is_variable flags); lia.
Qed.

Lemma new_ok i f : new !! i = Some f -> field_ok f /\ hf_report_id f = hg_report_id g /\
  hf_bit_offset f = start + Z.of_nat i * hg_report_size g /\ f = spec_field d flags start i.
Proof.
  unfold new. rewrite list_lookup_fmap. intros Hf. destruct (seq 0 n !! i) as [j|] eqn:Ej; [|done]. apply lookup_seq in Ej as [-> _].
  injection Hf as <-. cbn [Nat.add]. split; [|done].
  destruct Hg as (Hp & Hmin & Hmax & Hs & Hc & Hid). fold g in Hp, Hmin, Hmax, Hs, Hc, Hid. pose proof (usage_spec l d i Hl) as [_ Hu].
  destruct Hl as (_ & _ & _ & _ & _ & Ha & Hb). unfold field_ok, spec_field. fold g.
  cbn [hf_report_id hf_bit_size hf_count hf_flags hf_usage_page hf_usage_min hf_usage_max hf_logical_min hf_logical_max].
  unfold is_u16 in Hs, Hc. split; [done|]. split; [lia|]. split; [destruct (is_variable flags); lia|]. do 2 (split; [done|]).
  split; [|split; [|done]]; (destruct (is_variable flags); [done|]).
  - destruct (d_usage_min d); [by apply Ha|]. unfold is_u16. cbn. lia.
  - destruct (d_usage_max d); [by apply Hb|]. unfold is_u16. cbn. unfold UINT16_MAX. lia.
Qed.

Lemma fields_grow ids : fields_ok (d_fields d) ids -> hg_report_id g ∈ ids -> zlen (d_fields d) + zlen new <= 128 ->
  fields_ok (d_fields d ++ new) ids.
Proof.
  intros (Hf1 & Hf2 & Hnd & Hf & Ht & Hin & Hb) Hid Hlen. split; [rewrite length_app; lia|]. do 2 (split; [done|]).
  assert (Forall field_ok new) as Hnew by (apply Forall_lookup; intros i f Hi; by apply new_ok in Hi as [? _]).
  split; [by apply Forall_app|]. split; [|split].
  - intros i f Hi. apply lookup_app_Some in Hi as [Hi|[Hge Hi]].
    + rewrite take_app_le by (apply lookup_lt_Some in Hi; lia). by apply Ht.
    + replace i with (length (d_fields d) + (i - length (d_fields d)))%nat by lia. rewrite take_app_add.
      set (k := (i - length (d_fields d))%nat) in *. clearbody k. pose proof (lookup_lt_Some _ _ _ Hi) as Hk.
      apply new_ok in Hi as (_ & -> & -> & _). rewrite bits_of_app. fold start. f_equal.
      unfold new in *. rewrite length_fmap, length_seq in Hk. rewrite <- fmap_take, take_seq, Nat.min_l by lia.
      rewrite new_bits. fold g. rewrite Z.eqb_refl. unfold n in Hk. destruct (is_variable flags); [lia|].
      by replace k with 0%nat by lia.
  - intros f [Hi|Hi]%elem_of_app; [by apply Hin|]. apply list_elem_of_lookup in Hi as [i Hi].
    apply new_ok in Hi as (_ & -> & _). done.
  - intros id. rewrite bits_of_app, new_added. destruct (Z.eqb_spec (hg_report_id g) id) as [<-|]; [by fold start|].
    rewrite Z.add_0_r. apply Hb.
Qed.

Lemma new_length : zlen new = Z.of_nat n.
Proof. unfold new. by rewrite length_fmap, length_seq. Qed.

(** The fields are appended and the report grows by their bits. *)
Lemma commit_input out ids a b : holds out (d_fields d) ids -> ids = a ++ hg_report_id g :: b ->
  zlen (d_fields d) + Z.of_nat n <= 128 -> exists out',
  (do! add_fields g l flags (zlen a) 0 n in
   fun out =>
     match (let? r := ld (hd_reports out) (zlen a) in
            st1 (hd_reports out) (zlen a)
              {| hr_report_id := hr_report_id r; hr_input_bits := u16 (hr_input_bits r + added) |}) with
     | Ret rs => (Ret tt, set_reports rs (hd_report_count out) out)
     | _ => (Fault, out)
     end) out = (Ret tt, out') /\
  holds out' (d_fields d ++ new) ids /\ hd_uses_report_ids out' = hd_uses_report_ids out.
Proof.
  intros (Hok & (pad & Hf & Hfl) & Hc & (rest & Hr & Hrl & Hz) & Hrc) Hab Hroom.
  pose proof Hg as (_ & _ & _ & Hs & Hcnt & _). fold g in Hs, Hcnt. unfold is_u16 in Hs, Hcnt.
  assert (0 <= added) as Hadd by (unfold added; nia).
  assert (hd_reports out = infos (d_fields d) a ++ info (d_fields d) (hg_report_id g) :: infos (d_fields d) b ++ rest) as Hr'
    by (by rewrite Hr, Hab, fmap_app, fmap_cons, <- app_assoc).
  unfold bind. rewrite <- (infos_length (d_fields d) a).
  assert (start + Z.of_nat (0 + n) * hg_report_size g <= 65535) as Hnb.
  { unfold n. cbn [Nat.add]. rewrite (Z.mul_comm (Z.of_nat _)). unfold added in Hbits. destruct (is_variable flags); [rewrite Z2Nat.id by lia; lia|nia]. }
  pose proof (add_fields_spec l d flags _ (hg_report_id g) _ rest Hl Hg H32 n 0 _ pad _ start Hstart Hnb Hr' Hf Hc) as E.
  change (Z.of_nat 0) with 0 in E. fold g new in E. rewrite E by (rewrite Hf, length_app in Hfl; lia). clear E. cbn [hd_reports set_fields]. rewrite Hr', ld_middle. cbn [obind info hr_report_id hr_input_bits].
  rewrite st1_middle. eexists. split; [done|]. split; [|done].
  assert (zlen new = Z.of_nat n) as Hnl by apply new_length.
  split; [apply fields_grow; [done|rewrite Hab; apply elem_of_app; right; left|lia]|].
  split; [|split; [done|split; [|done]]].
  - exists (drop n pad). split; [done|]. cbn [hd_fields set_reports set_fields]. rewrite Hf in Hfl. unfold new.
    rewrite !length_app, length_drop, length_fmap, length_seq in *. lia.
  - exists rest. cbn [hd_reports set_reports set_fields hd_report_count]. destruct Hok as (_ & _ & Hnd & _).
    rewrite Hab in Hnd |- *. apply NoDup_app in Hnd as (_ & Hda & Hnd). apply NoDup_cons in Hnd as [Hdb _].
    rewrite fmap_app, fmap_cons, !infos_other, <- app_assoc.
    + unfold info at 4. rewrite bits_of_app, new_added, Z.eqb_refl. fold start. rewrite u16_small by lia.
      split; [done|]. split; [|done]. rewrite Hr' in Hrl. cbn [hd_reports set_reports set_fields]. rewrite !length_app in *. simpl length in *. lia.
    + intros id Hi. rewrite new_added. destruct (Z.eqb_spec (hg_report_id g) id) as [<-|]; [by destruct Hdb|done].
    + intros id Hi. rewrite new_added. destruct (Z.eqb_spec (hg_report_id g) id) as [<-|]; [|done].
      exfalso. apply (Hda _ Hi). left.
Qed.
End input.

Lemma variable_count flags g : globals_ok g -> hg_report_count g <> 0 ->
  Z.of_nat (if is_variable flags then Z.to_nat (hg_report_count g) else 1) = (if is_variable flags then hg_report_count g else 1).
Proof. intros (_ & _ & _ & _ & Hc & _) _. unfold is_u16 in Hc. destruct (is_variable flags); lia. Qed.

Lemma add_input_spec d out l flags : globals_ok (d_globals d) -> locals_rep l (d_usages d) (d_usage_min d) (d_usage_max d) ->
  holds out (d_fields d) (d_report_ids d) -> is_u16 flags -> exists o out',
  add_input (d_globals d) l flags out = (o, out') /\
  match spec_input d flags with
  | Ret d' => o = Ret tt /\ holds out' (d_fields d') (d_report_ids d') /\ hd_uses_report_ids out' = hd_uses_report_ids out
  | Fail e => o = Fail e
  | Fault => False
  end.
Proof.
  intros Hg Hl Hh Hflags. unfold add_input, spec_input. set (g := d_globals d) in *. set (id := hg_report_id g).
  destruct (get_report_spec out _ _ id Hh) as (r & out1 & E & Huse & Hr). unfold bind at 1. rewrite E.
  fold (ids_with id (d_report_ids d)). set (ids := ids_with id (d_report_ids d)) in *.
  revert Hr. destruct (16 <? zlen ids); cbn [orb]; intros Hr; [subst r; by do 2 eexists|].
  destruct Hr as (Hh1 & a & b & Hab & ->). pose proof Hh1 as (Hok1 & (pad & Hf1 & Hfl1) & Hc1 & (rest & Hr1 & Hrl1 & Hz1) & Hrc1).
  pose proof Hg as (_ & _ & _ & Hs & Hc & _). unfold is_u16 in Hs, Hc. set (start := bits_of id (d_fields d)).
  assert (u32 (hg_report_size g * hg_report_count g) = hg_report_size g * hg_report_count g) as -> by (apply u32_small; nia).
  set (added := hg_report_size g * hg_report_count g).
  assert (ld (hd_reports out1) (zlen a) = Ret (info (d_fields d) id)) as Hld.
  { rewrite Hr1, Hab, fmap_app, fmap_cons, <- app_assoc. cbn [app]. rewrite <- (infos_length (d_fields d) a). apply ld_middle. }
  unfold bind at 1. rewrite Hld, bind_gets, Hc1. cbn [info hr_input_bits]. fold start. rewrite !Z.gtb_ltb.
  unfold UINT16_MAX, BT_HID_MAX_FIELDS. change (2 ^ 16 - 1) with 65535.
  destruct (Z.ltb_spec 32 (hg_report_size g)) as [?|H32]; cbn [orb]; [by do 2 eexists|].
  destruct (Z.eqb_spec (hg_report_count g) 0) as [?|Hcount]; cbn [orb]; [by do 2 eexists|].
  assert (0 <= start) as Hstart by (apply bits_of_nonneg; apply Hok1). assert (0 <= added) as Hadd by (unfold added; nia).
  destruct (Z.ltb_spec 65535 (start + added)) as [Hbig|Hfit]; cbn [orb].
  { exists (Fail BT_ERR_NO_RESOURCES), out1. split; [|done]. destruct (Z.ltb_spec 65535 added); [done|]. by rewrite (proj2 (Z.ltb_lt (65535 - added) start)) by lia. }
  rewrite (proj2 (Z.ltb_ge 65535 added)), (proj2 (Z.ltb_ge (65535 - added) start)) by lia. cbn [orb].
  pose proof (variable_count flags g Hg Hcount) as Hvc. rewrite Hvc.
  destruct (Z.ltb_spec 128 (zlen (d_fields d) + if is_variable flags then hg_report_count g else 1)) as [?|Hroom]; [by do 2 eexists|].
  destruct (commit_input d l flags Hg Hl Hflags H32 Hcount Hstart Hfit out1 ids a b Hh1 Hab) as (out' & E' & Hh' & Huse');
    [fold g; lia|]. fold g in E', Hh'. rewrite <- Hvc, Nat2Z.id.
  exists (Ret tt), out'. split; [exact E'|]. split; [done|]. split; [exact Hh'|]. by rewrite Huse'.
Qed.

(** ** Lemmas: items *)

Lemma rep_globals s d g : rep s d -> globals_ok g -> hg_report_id g = hg_report_id (d_globals d) ->
  rep (set_globals g s) (with_globals g d).
Proof.
  intros (_ & _ & Hst & Hsk & Hdep & Hloc & Hout & Hn & Hz) Hg Hid. split; [done|]. split; [done|]. do 6 (split; [done|]).
  intros E. destruct (Hz E) as (H1 & H2 & H3). split; [cbn; by rewrite Hid|done].
Qed.

Lemma u16_range v : is_u16 (u16 v).
Proof. apply Z.mod_pos_bound. lia. Qed.

Lemma does_ret s s' d' (m : M parse_state unit) : m s = (Ret tt, s') -> rep s' d' -> ps_offset s' = ps_offset s -> does m s (Ret d').
Proof. intros E Hr Ho. by exists s'. Qed.

Lemma does_fail s s' e (m : M parse_state unit) : m s = (Fail e, s') -> does m s (Fail e).
Proof. intros E. by exists s'. Qed.

Lemma holds_numbered out fs ids : holds out fs ids -> holds (use_report_ids out) fs ids.
Proof. done. Qed.

Lemma hid_push_spec s d body rest : rep s d -> does (on_global 10 (le_dec body) (body ++ rest) (zlen body)) s (spec_global d 10 body).
Proof.
  intros Hr. pose proof Hr as (Hg & Hgok & Hst & (pad & Hsk & Hskl) & Hdep & Hloc & Hout & Hn & Hz).
  unfold spec_global. assert (zlen (d_stack d) + zlen pad = 4) as Hl by (rewrite <- Hskl, Hsk, length_app, length_fmap, length_reverse; lia).
  destruct (Z.eqb_spec (zlen (d_stack d)) 4) as [H4|H4].
  { rewrite (proj2 (Z.leb_le _ _)) by lia. eapply does_fail. unfold on_global. cbn. by rewrite Hdep, H4. }
  rewrite (proj2 (Z.leb_gt _ _)) by lia. destruct pad as [|x pad]; [simpl in Hl; lia|].
  eapply does_ret.
  - unfold on_global. cbn [Z.eqb Pos.eqb HID_GLOBAL_USAGE_PAGE HID_GLOBAL_LOGICAL_MIN HID_GLOBAL_LOGICAL_MAX
      HID_GLOBAL_REPORT_SIZE HID_GLOBAL_REPORT_ID HID_GLOBAL_REPORT_COUNT HID_GLOBAL_PUSH].
    unfold HID_GLOBAL_STACK_MAX. rewrite Hdep, (proj2 (Z.eqb_neq _ _)) by done. rewrite Hsk.
    replace (zlen (d_stack d)) with (zlen (Some <$> reverse (d_stack d))) at 1 by (by rewrite length_fmap, length_reverse).
    by rewrite st1_middle.
  - split; [done|]. split; [done|]. split; [by constructor|]. split.
    { exists pad. cbn [ps_stack set_stack d_stack]. rewrite reverse_cons, fmap_app, Hg, <- app_assoc. split; [done|].
      rewrite Hsk in Hskl. rewrite !length_app in *. simpl length in *. lia. }
    split; [cbn; lia|]. do 3 (split; [done|]). intros E. destruct (Hz E) as (H1 & H2 & H3). split; [done|]. split; [|done].
    intros g [-> | Hi]%elem_of_cons; [done|by apply H2].
  - done.
Qed.

Lemma hid_pop_spec s d body rest : rep s d -> does (on_global 11 (le_dec body) (body ++ rest) (zlen body)) s (spec_global d 11 body).
Proof.
  intros Hr. pose proof Hr as (Hg & Hgok & Hst & (pad & Hsk & Hskl) & Hdep & Hloc & Hout & Hn & Hz).
  unfold spec_global. destruct (d_stack d) as [|g st] eqn:Est.
  { eapply does_fail. unfold on_global. cbn. by rewrite Hdep. }
  apply Forall_cons in Hst as [Hgg Hst]. eapply (does_ret _ (set_stack g (ps_stack s) (zlen st) s)).
  - unfold on_global. cbn [Z.eqb Pos.eqb HID_GLOBAL_USAGE_PAGE HID_GLOBAL_LOGICAL_MIN HID_GLOBAL_LOGICAL_MAX
      HID_GLOBAL_REPORT_SIZE HID_GLOBAL_REPORT_ID HID_GLOBAL_REPORT_COUNT HID_GLOBAL_PUSH HID_GLOBAL_POP].
    rewrite Hdep, (proj2 (Z.eqb_neq _ _)) by (simpl; lia). rewrite Hsk, reverse_cons, fmap_app, <- app_assoc. cbn [fmap list_fmap app].
    replace (zlen (g :: st) - 1) with (zlen st) by (simpl; lia).
    replace (zlen st) with (zlen (Some <$> reverse st)) at 1 by (by rewrite length_fmap, length_reverse).
    by rewrite ld_middle.
  - split; [done|]. split; [done|]. split; [done|]. split.
    { exists (Some g :: pad). cbn [ps_stack set_stack d_stack]. rewrite Hsk, reverse_cons, fmap_app, <- app_assoc. split; [done|].
      rewrite Hsk in Hskl. rewrite reverse_cons, fmap_app, <- app_assoc in Hskl. exact Hskl. }
    do 4 (split; [done|]).
    intros E. destruct (Hz E) as (H1 & H2 & H3). split; [by apply H2; left|]. split; [|done]. intros g' Hi. apply H2. by right.
  - done.
Qed.

Lemma on_global_spec s d tag body rest : rep s d -> 0 <= tag < 16 -> bytes body -> zlen body <= 4 ->
  does (on_global tag (le_dec body) (body ++ rest) (zlen body)) s (spec_global d tag body).
Proof.
  intros Hr Ht Hb Hl. pose proof Hr as (Hg & Hgok & Hst & Hsk & Hdep & Hloc & Hout & Hn & Hz).
  destruct (read_signed_spec body rest Hb Hl) as [Hsig Hsr]. pose proof (le_dec_bound body Hb) as Hv.
  assert (2 ^ (8 * zlen body) <= 2 ^ 32) as Hle by (apply Z.pow_le_mono_r; lia).
  pose proof Hgok as (G1 & G2 & G3 & G4 & G5 & G6). pose proof (u16_range (le_dec body)) as Hu.
  assert (is_s32 (signed 32 (le_dec body))) as Hs32 by (apply signed_range; lia).
  destruct (Z.eq_dec tag 10) as [->|N10]; [by apply hid_push_spec|]. destruct (Z.eq_dec tag 11) as [->|N11]; [by apply hid_pop_spec|].
  assert (tag = 0 \/ tag = 1 \/ tag = 2 \/ tag = 7 \/ tag = 8 \/ tag = 9 \/ tag ∈ [3; 4; 5; 6; 12; 13; 14; 15]) as Hcases.
  { destruct (decide (tag ∈ [3; 4; 5; 6; 12; 13; 14; 15])) as [H|H]; [by do 6 right|].
    rewrite !not_elem_of_cons in H. lia. }
  destruct Hcases as [->|[->|[->|[->|[->|[->|Hother]]]]]].
  - eapply does_ret; [unfold on_global; cbn; reflexivity|rewrite Hg; by apply rep_globals|done].
  - eapply does_ret; [unfold on_global; cbn; rewrite Hsig; reflexivity|rewrite Hg; by apply rep_globals|done].
  - cbn [spec_global]. rewrite <- Hg at 1. eapply does_ret.
    + unfold on_global. cbn. instantiate (1 := set_globals (with_max (if hg_logical_min (ps_globals s) <? 0
        then signed (8 * Z.max 1 (zlen body)) (le_dec body) else signed 32 (le_dec body)) (d_globals d)) s).
      rewrite Hg. destruct (hg_logical_min (d_globals d) <? 0); [by rewrite Hsig|by rewrite s32_signed by lia].
    + apply rep_globals; [done| |done]. destruct (hg_logical_min (ps_globals s) <? 0); done.
    + done.
  - eapply does_ret; [unfold on_global; cbn; reflexivity|rewrite Hg; by apply rep_globals|done].
  - cbn [spec_global]. destruct (Z.eqb_spec (le_dec body) 0) as [E0|E0]; cbn [orb].
    { eapply does_fail. unfold on_global. cbn. by rewrite E0. }
    destruct (Z.ltb_spec 255 (le_dec body)) as [E1|E1].
    { eapply does_fail. unfold on_global. cbn. rewrite Z.gtb_ltb. unfold UINT8_MAX. change (2 ^ 8 - 1) with 255.
      rewrite (proj2 (Z.ltb_lt _ _)) by done. by rewrite orb_true_r. }
    eapply does_ret.
    + unfold on_global. cbn. rewrite (proj2 (Z.eqb_neq _ _)) by done. rewrite Z.gtb_ltb. unfold UINT8_MAX. change (2 ^ 8 - 1) with 255.
      rewrite (proj2 (Z.ltb_ge _ _)) by done. cbn [orb]. rewrite u8_small by lia. reflexivity.
    + rewrite Hg. split; [done|]. split; [repeat (split; [done|]); unfold is_byte; cbn; lia|]. by do 6 (split; [done|]).
    + done.
  - eapply does_ret; [unfold on_global; cbn; reflexivity|rewrite Hg; by apply rep_globals|done].
  - repeat (apply elem_of_cons in Hother as [->|Hother]; [by eapply does_ret; [reflexivity|exact Hr|]|]).
    by apply elem_of_nil in Hother.
Qed.

Lemma rep_locals s d l us a b : rep s d -> locals_rep l us a b -> rep (set_locals l s) (with_locals us a b d).
Proof. intros (? & ? & ? & ? & ? & _ & ? & ? & ?) Hl. by do 5 (split; [done|]). Qed.

Lemma no_locals : locals_rep zero_locals [] None None.
Proof. split; [by eexists|]. split; [done|]. split; [constructor|]. by repeat split. Qed.

Lemma on_local_spec s d tag body : rep s d -> 0 <= tag < 16 -> does (on_local tag (le_dec body)) s (spec_local d tag body).
Proof.
  intros Hr Ht. pose proof Hr as (_ & _ & _ & _ & _ & Hloc & _).
  pose proof Hloc as ((pad & Hu & Hl) & Hc & Hus & Ha & Hb & Hra & Hrb). pose proof (u16_range (le_dec body)) as Hv.
  assert (zlen (d_usages d) + zlen pad = 32) as Hpad by (rewrite <- Hl, Hu, length_app; lia).
  destruct (Z.eq_dec tag 0) as [->|N0]; [|destruct (Z.eq_dec tag 1) as [->|N1]; [|destruct (Z.eq_dec tag 2) as [->|N2]]].
  - cbn [spec_local]. destruct (Z.leb_spec 32 (zlen (d_usages d))) as [Hfull|Hroom].
    { eapply does_fail. unfold on_local. cbn. by rewrite Hc, (proj2 (Z.eqb_eq _ _)) by (unfold BT_HID_MAX_LOCAL_USAGES; lia). }
    destruct pad as [|x pad]; [simpl in Hpad; lia|]. eapply does_ret.
    + unfold on_local. cbn [Z.eqb HID_LOCAL_USAGE]. rewrite Hc, (proj2 (Z.eqb_neq _ _)) by (unfold BT_HID_MAX_LOCAL_USAGES; lia).
      rewrite Hu, st1_middle. reflexivity.
    + apply rep_locals; [done|]. split; [|split; [|split; [|done]]]; cbn.
      * exists pad. rewrite <- app_assoc. split; [done|]. rewrite !length_app in *. simpl length in *. lia.
      * zlist.
      * apply Forall_app. split; [done|]. by constructor.
    + done.
  - eapply does_ret; [unfold on_local; cbn; reflexivity|apply rep_locals; [done|]|done].
    repeat (split; [by (exists pad) || done|]). split; [by intros x [= <-]|done].
  - eapply does_ret; [unfold on_local; cbn; reflexivity|apply rep_locals; [done|]|done].
    repeat (split; [by (exists pad) || done|]). by intros x [= <-].
  - assert (spec_local d tag body = Ret d) as ->.
    { unfold spec_local. destruct tag as [|p|p]; [lia| |lia]. repeat (destruct p as [p|p|]; try done; try lia). }
    eapply does_ret; [|exact Hr|done]. unfold on_local, HID_LOCAL_USAGE, HID_LOCAL_USAGE_MIN, HID_LOCAL_USAGE_MAX.
    by rewrite !(proj2 (Z.eqb_neq _ _)).
Qed.

Lemma on_main_spec s d tag body : rep s d -> 0 <= tag < 16 -> does (on_main tag (le_dec body) (zlen body)) s (spec_main d tag body).
Proof.
  intros Hr Ht. pose proof Hr as (Hg & Hgok & Hst & Hsk & Hdep & Hloc & Hout & Hn & Hz). unfold does, on_main.
  assert (forall s0, s0 = set_locals zero_locals (set_out (ps_out s) s) -> rep s0 (with_locals [] None None d)) as Hclear
    by (intros s0 ->; apply (rep_locals (set_out (ps_out s) s)); [done|apply no_locals]).
  destruct (Z.eq_dec tag 8) as [->|N8]; [|destruct (Z.eq_dec tag 10) as [->|N10]; [|destruct (Z.eq_dec tag 12) as [->|N12]]].
  - cbn [spec_main Z.eqb Pos.eqb HID_MAIN_INPUT]. rewrite Hg.
    destruct (add_input_spec d (ps_out s) (ps_locals s) (u16 (le_dec body)) Hgok Hloc Hout (u16_range _)) as (o & out' & -> & H).
    eexists. destruct (spec_input d (u16 (le_dec body))) as [d'|e|] eqn:E; [destruct H as (-> & Hh & Huse)|subst o; by split|done].
    split; [reflexivity|]. split; [|done]. unfold spec_input in E. destruct (_ || _); [done|]. injection E as <-.
    split; [exact Hg|]. split; [done|]. split; [done|]. split; [done|]. split; [done|]. split; [apply no_locals|]. split; [exact Hh|].
    split; [cbn; by rewrite Huse|]. cbn. intros En. destruct (Hz En) as (H1 & H2 & H3). split; [done|]. split; [done|].
    intros id. destruct (decide _); [apply H3|]. intros [Hi|Hi%list_elem_of_singleton]%elem_of_app; [by apply H3|by rewrite Hi].
  - cbn [spec_main Z.eqb Pos.eqb HID_MAIN_INPUT HID_MAIN_COLLECTION HID_MAIN_END_COLLECTION andb].
    destruct (zlen body =? 1); cbn [negb]; eexists; (split; [reflexivity|]); [|done]. split; [by apply Hclear|done].
  - cbn [spec_main Z.eqb Pos.eqb HID_MAIN_INPUT HID_MAIN_COLLECTION HID_MAIN_END_COLLECTION andb].
    destruct (zlen body =? 0); cbn [negb]; eexists; (split; [reflexivity|]); [|done]. split; [by apply Hclear|done].
  - assert (spec_main d tag body = Ret (with_locals [] None None d)) as ->.
    { unfold spec_main. destruct tag as [|p|p]; [done| |lia]. repeat (destruct p as [p|p|]; try done; try lia). }
    unfold HID_MAIN_INPUT, HID_MAIN_COLLECTION, HID_MAIN_END_COLLECTION. rewrite !(proj2 (Z.eqb_neq tag _)) by done. cbn [andb].
    eexists. split; [reflexivity|]. split; [by apply Hclear|done].
Qed.

Lemma item_length it : 0 < zlen (item_bytes it).
Proof. destruct it; simpl; lia. Qed.

Lemma item_all_bytes it : item_ok it -> bytes (item_bytes it).
Proof.
  destruct it as [ty tag body|tag body]; cbn [item_ok item_bytes].
  - intros (Ht & Hg & Hl & Hb & _). apply Forall_app. split; [|done]. constructor; [|constructor].
    assert (0 <= size_code (zlen body) < 4) as Hc by (rewrite !elem_of_cons, elem_of_nil in Hl; unfold size_code; destruct (Z.eqb_spec (zlen body) 4); lia).
    by apply (prefix_fields (size_code (zlen body)) ty tag).
  - intros (Ht & Hb & Hl). apply Forall_app. split; [|done]. repeat constructor; unfold is_byte in *; try lia; done.
Qed.

(** One iteration on a whole item. *)
Lemma parse_item_spec pre it rest s d : rep s d -> ps_offset s = zlen pre -> item_ok it ->
  exists s', parse_item (pre ++ item_bytes it ++ rest) (zlen (pre ++ item_bytes it ++ rest)) s =
      (match spec_item d it with Ret _ => Ret tt | Fail e => Fail e | Fault => Fault end, s') /\
    match spec_item d it with Ret d' => rep s' d' /\ ps_offset s' = zlen (pre ++ item_bytes it) | Fail _ => True | Fault => False end.
Proof.
  intros Hr Ho Hit. unfold parse_item. rewrite Ho. destruct it as [ty tag body|tag body]; cbn [item_bytes item_ok] in *.
  - destruct Hit as (Hty & Htag & Hlen & Hb & Hlong). set (p := size_code (zlen body) + 4 * ty + 16 * tag).
    rewrite <- (app_assoc [p]). assert (ld (pre ++ [p] ++ body ++ rest) (zlen pre) = Ret p) as -> by apply ld_middle.
    assert (0 <= size_code (zlen body) < 4 /\ (size_code (zlen body) = 2 <-> zlen body = 2) /\
      (if size_code (zlen body) =? 3 then 4 else size_code (zlen body)) = zlen body) as (Hc & H2 & Hsz).
    { rewrite !elem_of_cons, elem_of_nil in Hlen. unfold size_code. destruct (Z.eqb_spec (zlen body) 4); [split; [lia|]; split; [lia|cbn; lia]|].
      rewrite (proj2 (Z.eqb_neq _ 3)) by lia. split; [lia|done]. }
    destruct (prefix_fields _ ty tag Hc Hty Htag) as (E1 & E2 & E3 & _ & Hfe). fold p in E1, E2, E3, Hfe. rewrite E1, E2, E3.
    rewrite (proj2 (Z.eqb_neq p 254)) by (intros [? [? ?]]%Hfe; apply Hlong; split; [done|]; split; [done|lia]).
    rewrite Hsz. assert (zlen (pre ++ [p] ++ body ++ rest) = zlen pre + 1 + zlen body + zlen rest) as Hl by (rewrite !length_app; simpl; lia).
    rewrite Hl, Z.gtb_ltb, (proj2 (Z.ltb_ge _ _)) by lia.
    replace (drop (Z.to_nat (zlen pre + 1)) (pre ++ [p] ++ body ++ rest)) with (body ++ rest)
      by (rewrite app_assoc; symmetry; apply drop_app_length'; rewrite length_app; simpl; lia).
    assert (zlen body <= 4) as H4 by (rewrite !elem_of_cons, elem_of_nil in Hlen; lia).
    rewrite read_unsigned_spec by done. set (s1 := set_offset (zlen pre + 1 + zlen body) s).
    assert (rep s1 d) as Hr1 by done. assert (ps_offset s1 = zlen (pre ++ [p] ++ body)) as Ho1 by (rewrite !length_app; simpl; lia).
    rewrite <- Ho1. clearbody s1 p. unfold spec_item, HID_TYPE_GLOBAL, HID_TYPE_LOCAL, HID_TYPE_MAIN.
    assert (ty = 0 \/ ty = 1 \/ ty = 2 \/ ty = 3) as [-> | [-> | [-> | ->]]] by lia; cbn [Z.eqb Pos.eqb].
    + exact (on_main_spec s1 d tag body Hr1 Htag).
    + exact (on_global_spec s1 d tag body rest Hr1 Htag Hb H4).
    + exact (on_local_spec s1 d tag body Hr1 Htag).
    + by exists s1.
  - destruct Hit as (Htag & Hb & Hlen). cbn [app]. rewrite ld_middle. cbn [Z.eqb Pos.eqb].
    assert (zlen (pre ++ 254 :: zlen body :: tag :: body ++ rest) = zlen pre + 3 + zlen body + zlen rest) as Hl
      by (rewrite length_app; simpl length; rewrite length_app; lia).
    rewrite Hl, (proj2 (Z.ltb_ge _ 2)) by lia.
    rewrite (ld_at pre [254; zlen body] (tag :: body ++ rest) _ 1 (zlen body)) by (done || lia).
    rewrite Z.gtb_ltb, (proj2 (Z.ltb_ge _ _)) by lia. eexists. split; [reflexivity|]. split; [done|].
    cbn [ps_offset set_offset]. rewrite length_app. simpl length. lia.
Qed.

(** The size a prefix announces. *)
Definition announced_size (p : Z) : Z := if Z.land p 3 =? 3 then 4 else Z.land p 3.

Lemma size_code_inv n : n ∈ [0; 1; 2; 4] -> 0 <= size_code n < 4 /\ (size_code n = 2 <-> n = 2) /\
  (if size_code n =? 3 then 4 else size_code n) = n.
Proof.
  rewrite !elem_of_cons, elem_of_nil. intros Hn. unfold size_code. destruct (Z.eqb_spec n 4); [split; [lia|]; split; [lia|cbn; lia]|].
  rewrite (proj2 (Z.eqb_neq n 3)) by lia. split; [lia|done].
Qed.

Lemma short_head ty tag body : item_ok (Short ty tag body) -> exists p, item_bytes (Short ty tag body) = p :: body /\
  p <> 254 /\ zlen body = announced_size p.
Proof.
  intros (Ht & Hg & Hl & Hb & Hlong). destruct (size_code_inv _ Hl) as (Hc & H2 & Hs).
  destruct (prefix_fields _ ty tag Hc Ht Hg) as (E1 & _ & _ & _ & Hf). eexists. split; [reflexivity|].
  split; [|unfold announced_size; by rewrite E1, Hs]. intros (F1 & F2 & F3)%Hf. apply Hlong. split; [done|]. split; [done|by apply H2].
Qed.

Lemma short_of p body : is_byte p -> p <> 254 -> bytes body -> zlen body = announced_size p -> exists ty tag,
  item_ok (Short ty tag body) /\ item_bytes (Short ty tag body) = p :: body.
Proof.
  intros Hp Hn Hb Hl. exists (p / 4 mod 4), (p / 16). unfold announced_size in Hl. change 3 with (Z.ones 2) in Hl at 1 3.
  rewrite !Z.land_ones in Hl by lia. change (2 ^ 2) with 4 in Hl. unfold is_byte in Hp.
  assert (size_code (zlen body) = p mod 4) as Hsc.
  { rewrite Hl. unfold size_code. pose proof (Z.mod_pos_bound p 4 ltac:(lia)). destruct (Z.eqb_spec (p mod 4) 3) as [->|]; [done|].
    by rewrite (proj2 (Z.eqb_neq (p mod 4) 4)) by lia. }
  assert (zlen body ∈ [0; 1; 2; 4]) as Hmem.
  { rewrite !elem_of_cons, elem_of_nil, Hl. pose proof (Z.mod_pos_bound p 4 ltac:(lia)). destruct (Z.eqb_spec (p mod 4) 3); lia. }
  cbn [item_ok item_bytes]. rewrite Hsc. split; [|cbn [app]; f_equal; dlia].
  split; [dlia|]. split; [dlia|]. split; [done|]. split; [done|]. intros (F1 & F2 & F3). apply Hn.
  destruct (size_code_inv _ Hmem) as (_ & H2 & _). apply H2 in F3. dlia.
Qed.

(** A nonempty input starts with a whole item, or it is refused. *)
Lemma first_item data : bytes data -> data <> [] ->
  (exists it rest, item_ok it /\ data = item_bytes it ++ rest) \/
  (truncated data /\ forall pre s, ps_offset s = zlen pre ->
     parse_item (pre ++ data) (zlen (pre ++ data)) s = (Fail BT_ERR_INVALID_ARGUMENT, s)).
Proof.
  intros Hb Hne. destruct data as [|p t]; [done|]. apply Forall_cons in Hb as [Hp Hb].
  assert (forall pre, zlen (pre ++ p :: t) = zlen pre + 1 + zlen t) as Hlen by (intros; rewrite length_app; simpl; lia).
  destruct (Z.eq_dec p 254) as [->|Hn254].
  - assert ((exists n tg t', t = n :: tg :: t' /\ n <= zlen t') \/
      (forall it rest, item_ok it -> 254 :: t <> item_bytes it ++ rest) /\
      forall pre s, ps_offset s = zlen pre ->
        parse_item (pre ++ 254 :: t) (zlen (pre ++ 254 :: t)) s = (Fail BT_ERR_INVALID_ARGUMENT, s)) as H; [|
      destruct H as [(n & tg & t' & -> & Hn)|[H1 H2]]].
    { assert (forall it rest, item_ok it -> 254 :: t = item_bytes it ++ rest -> exists tg t', t = zlen t' :: tg :: t' ++ rest) as Hinv.
      { intros [ty tag body|tag body] rest Hit Heq.
        - destruct (short_head ty tag body Hit) as (p & E & Hp' & _). rewrite E in Heq. by injection Heq as <- _.
        - cbn in Heq. injection Heq as ->. by exists tag, body. }
      destruct (decide (2 <= zlen t)) as [H2|H2].
      + destruct t as [|n [|tg t']]; [simpl in H2; lia..|]. destruct (Z.le_gt_cases n (zlen t')) as [Hle|Hgt]; [left; by exists n, tg, t'|].
        right. split.
        * intros it rest Hit Heq. destruct (Hinv it rest Hit Heq) as (tg' & t2 & [= -> -> ->]). rewrite length_app in Hgt. lia.
        * intros pre s Ho. unfold parse_item. rewrite Ho, ld_middle. cbn [Z.eqb Pos.eqb].
          rewrite Hlen, (proj2 (Z.ltb_ge _ 2)) by (simpl length; lia).
          rewrite (ld_at pre [254; n] (tg :: t') _ 1 n) by (done || lia).
          by rewrite Z.gtb_ltb, (proj2 (Z.ltb_lt _ _)) by (simpl length; lia).
      + right. split.
        * intros it rest Hit Heq. destruct (Hinv it rest Hit Heq) as (tg' & t2 & ->). simpl in H2. lia.
        * intros pre s Ho. unfold parse_item. rewrite Ho, ld_middle. cbn [Z.eqb Pos.eqb].
          by rewrite Hlen, (proj2 (Z.ltb_lt _ 2)) by lia. }
    + left. apply Forall_cons in Hb as [Hn1 Hb]. apply Forall_cons in Hb as [Htg Hb].
      unfold is_byte in Hn1. exists (Long tg (take (Z.to_nat n) t')), (drop (Z.to_nat n) t').
      split; [split; [done|]; split; [bys|zlist]|]. cbn [item_bytes app]. rewrite length_take, Nat.min_l by lia.
      by rewrite Z2Nat.id, take_drop by lia.
    + right. split; [by split|done].
  - destruct (Z.le_gt_cases (announced_size p) (zlen t)) as [Hle|Hgt].
    + left. assert (0 <= announced_size p) as H0.
      { unfold announced_size. destruct (_ =? _); [lia|]. apply Z.land_nonneg. right. lia. }
      destruct (short_of p (take (Z.to_nat (announced_size p)) t) Hp Hn254) as (ty & tag & Hok & E); [bys|zlist|].
      exists (Short ty tag (take (Z.to_nat (announced_size p)) t)), (drop (Z.to_nat (announced_size p)) t).
      split; [done|]. by rewrite E, <- app_comm_cons, take_drop.
    + right. split; [split; [done|]|].
      * intros [ty tag body|tag body] rest Hit Heq; [|cbn in Heq; by injection Heq].
        destruct (short_head ty tag body Hit) as (p' & E & _ & Hs). rewrite E in Heq. injection Heq as <- ->.
        rewrite length_app in Hgt. lia.
      * intros pre s Ho. unfold parse_item. rewrite Ho, ld_middle, (proj2 (Z.eqb_neq p 254)) by done.
        fold (announced_size p). by rewrite Hlen, Z.gtb_ltb, (proj2 (Z.ltb_lt _ _)) by lia.
Qed.

(** Every input is a list of whole items and what is left. *)
Lemma items_of data : bytes data -> exists its tail, data = items_bytes its ++ tail /\ Forall item_ok its /\ bytes tail /\
  (tail = [] \/ truncated tail).
Proof.
  remember (length data) as n eqn:Hn. revert data Hn. induction n as [n IH] using (well_founded_induction lt_wf).
  intros data Hn Hb. destruct (decide (data = [])) as [->|Hne]; [exists [], []; repeat split; auto|].
  destruct (first_item data Hb Hne) as [(it & rest & Hit & ->)|[Ht _]].
  - pose proof (item_length it). apply Forall_app in Hb as [_ Hb].
    destruct (IH (length rest)) with (data := rest) as (its & tail & -> & Hits & Hbt & Ht); [rewrite length_app in Hn; lia|done|done|].
    exists (it :: its), tail. unfold items_bytes. rewrite mjoin_cons, <- app_assoc. split; [done|]. split; [by constructor|done].
  - exists [], data. split; [done|]. split; [constructor|]. by split; [|right].
Qed.

(** The loop interprets the items, and refuses what is left. *)
Lemma parse_loop_spec its : forall fuel pre tail s d, Forall item_ok its -> (tail = [] \/ truncated tail) -> bytes tail ->
  rep s d -> ps_offset s = zlen pre -> zlen (items_bytes its ++ tail) < Z.of_nat fuel ->
  let data := pre ++ items_bytes its ++ tail in
  exists o s', parse_loop fuel data (zlen data) s = (o, s') /\
    match spec_items d its with
    | Ret d' => if decide (tail = []) then o = Ret tt /\ rep s' d' else o = Fail BT_ERR_INVALID_ARGUMENT
    | Fail e => o = Fail e
    | Fault => False
    end.
Proof.
  induction its as [|it its IH]; intros [|fuel] pre tail s d Hits Ht Hb Hr Ho Hf data; try lia.
  - cbn [spec_items]. unfold data. cbn [items_bytes fmap list_fmap mjoin list_join app parse_loop]. rewrite Ho, length_app.
    destruct (decide (tail = [])) as [->|Hne].
    { rewrite (proj2 (Z.ltb_ge _ _)) by (simpl; lia). by do 2 eexists. }
    assert (zlen tail <> 0) as Htl by (by destruct tail). rewrite (proj2 (Z.ltb_lt _ _)) by lia.
    destruct Ht as [?|Ht]; [done|]. destruct (first_item tail Hb Hne) as [(it & rest & Hit & E)|[_ E]]; [by destruct (proj2 Ht it rest Hit)|].
    unfold bind. rewrite <- length_app, (E pre s Ho). by do 2 eexists.
  - apply Forall_cons in Hits as [Hit Hits]. 
    assert (items_bytes (it :: its) ++ tail = item_bytes it ++ items_bytes its ++ tail) as Ei
      by (unfold items_bytes; by rewrite mjoin_cons, <- app_assoc).
    unfold data. clear data. rewrite Ei in *. set (data := pre ++ item_bytes it ++ items_bytes its ++ tail).
    pose proof (item_length it) as Hpos.
    destruct (parse_item_spec pre it (items_bytes its ++ tail) s d Hr Ho Hit) as (s' & E & H). fold data in E.
    cbn [spec_items parse_loop]. assert (zlen data = zlen pre + zlen (item_bytes it) + zlen (items_bytes its ++ tail)) as Hl
      by (unfold data; rewrite !length_app; lia).
    rewrite Ho, (proj2 (Z.ltb_lt _ _)) by lia. unfold bind. rewrite E.
    destruct (spec_item d it) as [d'|e|]; cbn [obind]; [|by do 2 eexists|done]. destruct H as [Hr' Ho'].
    specialize (IH fuel (pre ++ item_bytes it) tail s' d' Hits Ht Hb Hr' Ho'). rewrite <- app_assoc in IH. fold data in IH.
    apply IH. rewrite length_app in Hf. lia.
Qed.

Lemma rep_init : rep parse_init empty_description.
Proof.
  assert (globals_ok zero_globals) as Hz by (unfold globals_ok, is_u16, is_s32, is_byte; cbn; lia).
  split; [done|]. split; [done|]. split; [constructor|]. split; [by exists (replicate 4 None)|]. split; [done|].
  split; [exact no_locals|]. split; [|split; [done|]].
  - split; [|split; [by eexists|split; [done|split; [|done]]]].
    + split; [done|]. split; [done|]. split; [constructor|]. split; [constructor|]. split; [by intros i f|].
      split; [by intros f ?%elem_of_nil|done].
    + exists (replicate 16 {| hr_report_id := 0; hr_input_bits := 0 |}). split; [done|]. split; [done|]. by repeat constructor.
  - intros _. split; [done|]. by split; intros ? ?%elem_of_nil.
Qed.

(** ** Specification: input reports *)

(** [n] bits of a report from bit [off] on. *)
Definition bits (payload : list Z) (off n : Z) : Z := (le_dec payload / 2 ^ off) mod 2 ^ n.

Definition element_value (id : Z) (payload : list Z) (f : bt_hid_field) (e : nat) : option bt_hid_value :=
  let raw := bits payload (hf_bit_offset f + Z.of_nat e * hf_bit_size f) (hf_bit_size f) in
  if is_variable (hf_flags f) then
    Some {| hv_report_id := id; hv_usage_page := hf_usage_page f; hv_usage := hf_usage_min f;
            hv_value := if hf_logical_min f <? 0 then signed (Z.max 1 (hf_bit_size f)) raw else signed 32 raw;
            hv_flags := hf_flags f; hv_is_array := false |}
  else if raw =? 0 then None else
    Some {| hv_report_id := id; hv_usage_page := hf_usage_page f; hv_usage := u16 raw; hv_value := 1;
            hv_flags := hf_flags f; hv_is_array := true |}.

Definition is_constant (flags : Z) : bool := negb (Z.land flags BT_HID_INPUT_CONSTANT =? 0).

(** The values of the report [id], and whether it was long enough for all its fields. *)
Fixpoint spec_values (id : Z) (payload : list Z) (fs : list bt_hid_field) : list bt_hid_value * bool :=
  match fs with
  | [] => ([], true)
  | f :: fs =>
      if negb (hf_report_id f =? id) then spec_values id payload fs else
      if 8 * zlen payload <? hf_bit_offset f + field_bits f then ([], false) else
      if is_constant (hf_flags f) then spec_values id payload fs else
      let '(vs, ok) := spec_values id payload fs in
      (omap (element_value id payload f) (seq 0 (Z.to_nat (hf_count f))) ++ vs, ok)
  end.

(** The callback, until it asks to stop. *)
Fixpoint feed {S V} (callback : V -> S -> bool * S) (vs : list V) (s : S) : bool * S :=
  match vs with
  | [] => (true, s)
  | v :: vs => let '(go, s) := callback v s in if go then feed callback vs s else (false, s)
  end.

Definition spec_decode {S} (callback : bt_hid_value -> S -> bool * S) (id : Z) (payload : list Z) (fs : list bt_hid_field)
    (s : S) : outcome unit * S :=
  let '(vs, ok) := spec_values id payload fs in
  let '(go, s) := feed callback vs s in
  (if go && negb ok then Fail BT_ERR_INVALID_ARGUMENT else Ret tt, s).

Definition live_fields (d : bt_hid_report_descriptor) : list bt_hid_field := take (Z.to_nat (hd_field_count d)) (hd_fields d).

(** What [bt_hid_report_parse] leaves: the fields fit their reports. *)
Definition descriptor_ok (d : bt_hid_report_descriptor) : Prop :=
  exists ids, holds d (live_fields d) ids /\
    (hd_uses_report_ids d = false -> forall f, f ∈ live_fields d -> hf_report_id f = 0).

(** ** Lemmas: the decoder *)

Lemma le_dec_testbit data : forall k b, bytes data -> 0 <= k -> ld data (k / 8) = Ret b ->
  Z.testbit (le_dec data) k = Z.testbit b (k mod 8).
Proof.
  induction data as [|x data IH]; intros k b Hb Hk; [by destruct (k / 8)|]. apply Forall_cons in Hb as [Hx Hb].
  unfold is_byte in Hx. cbn [le_dec]. replace (x + 256 * le_dec data) with (x + le_dec data * 2 ^ 8) by lia.
  rewrite <- lor_shiftl by lia. rewrite Z.lor_spec, Z.shiftl_spec by lia. destruct (Z.lt_ge_cases k 8) as [Hlt|Hge].
  - rewrite Z.div_small, Z.mod_small by lia. intros [= <-]. by rewrite (Z.testbit_neg_r _ (k - 8)), orb_false_r by lia.
  - rewrite ld_cons_S by dlia. intros Hl. assert (Z.testbit x k = false) as ->.
    { destruct (Z.eq_dec x 0) as [->|]; [apply Z.bits_0|]. apply Z.bits_above_log2; [lia|].
      assert (Z.log2 x < 8) by (apply Z.log2_lt_pow2; lia). lia. }
    cbn [orb]. rewrite (IH (k - 8) b); [|done|lia|].
    + f_equal. replace (k - 8) with (k + (-1) * 8) by lia. by rewrite Z.mod_add.
    + rewrite <- Hl. f_equal. replace (k - 8) with (k + (-1) * 8) by lia. rewrite Z.div_add by lia. lia.
Qed.

Lemma bits_step X i : 0 <= i -> X mod 2 ^ (i + 1) = if Z.testbit X i then Z.lor (X mod 2 ^ i) (2 ^ i) else X mod 2 ^ i.
Proof.
  intros Hi. apply Z.bits_inj'. intros k Hk.
  assert (forall n, 0 <= n -> Z.testbit (X mod 2 ^ n) k = (k <? n) && Z.testbit X k) as Hmod.
  { intros n Hn. destruct (Z.ltb_spec k n); [by rewrite Z.mod_pow2_bits_low|by rewrite Z.mod_pow2_bits_high by lia]. }
  rewrite Hmod by lia. destruct (Z.testbit X i) eqn:E; rewrite ?Z.lor_spec, Hmod by lia.
  - rewrite Z.pow2_bits_eqb by lia. destruct (Z.eqb_spec i k) as [->|Hne].
    + by rewrite (proj2 (Z.ltb_lt k (k + 1))), E, orb_true_r by lia.
    + rewrite orb_false_r. f_equal. apply eq_true_iff_eq. rewrite !Z.ltb_lt. lia.
  - destruct (Z.eq_dec i k) as [->|Hne]; [by rewrite E, !andb_false_r|].
    f_equal. apply eq_true_iff_eq. rewrite !Z.ltb_lt. lia.
Qed.

Lemma land_bit b k : 0 <= k -> negb (Z.land b (Z.shiftl 1 k) =? 0) = Z.testbit b k.
Proof.
  intros Hk. rewrite Z.shiftl_1_l. destruct (Z.testbit b k) eqn:E.
  - apply negb_true_iff, Z.eqb_neq. intros H. apply (f_equal (fun x => Z.testbit x k)) in H.
    rewrite Z.land_spec, E, Z.pow2_bits_true, Z.bits_0 in H by lia. done.
  - apply negb_false_iff, Z.eqb_eq. apply Z.bits_inj'. intros i Hi. rewrite Z.land_spec, Z.bits_0, Z.pow2_bits_eqb by lia.
    destruct (Z.eqb_spec k i) as [<-|]; [by rewrite E|by rewrite andb_false_r].
Qed.

Lemma extract_loop_spec data off : bytes data -> 0 <= off -> forall n i, 0 <= i -> i + Z.of_nat n <= 32 ->
  off + i + Z.of_nat n <= 8 * zlen data ->
  extract_loop data off i n (bits data off i) = Ret (bits data off (i + Z.of_nat n)).
Proof.
  intros Hb Hoff n. induction n as [|n IH]; intros i Hi Hn Hl; [by rewrite Z.add_0_r|].
  cbn [extract_loop]. destruct (ld_spec data ((off + i) / 8)) as (b & Hld & _); [dlia|]. rewrite Hld. cbn [obind].
  rewrite land_bit by dlia. rewrite <- (le_dec_testbit data (off + i) b Hb ltac:(lia) Hld).
  assert (Z.testbit (le_dec data) (off + i) = Z.testbit (le_dec data / 2 ^ off) i) as ->.
  { rewrite <- Z.shiftr_div_pow2, Z.shiftr_spec by lia. f_equal. lia. }
  assert (u32 (Z.shiftl 1 i) = 2 ^ i) as ->.
  { rewrite Z.shiftl_1_l. assert (2 ^ i <= 2 ^ 31) by (apply Z.pow_le_mono_r; lia). apply u32_small. lia. }
  replace (i + Z.of_nat (S n)) with (i + 1 + Z.of_nat n) by lia. rewrite <- IH by lia. f_equal.
  unfold bits. symmetry. by apply bits_step.
Qed.

Lemma extract_bits_spec data off n : bytes data -> 0 <= off -> 0 <= n <= 32 -> off + n <= 8 * zlen data ->
  extract_bits data off n = Ret (bits data off n).
Proof.
  intros Hb Hoff Hn Hl. unfold extract_bits. pose proof (extract_loop_spec data off Hb Hoff (Z.to_nat n) 0) as E.
  rewrite Z2Nat.id in E by lia. assert (bits data off 0 = 0) as E0 by (unfold bits; apply Z.mod_1_r).
  rewrite E0 in E. apply E; lia.
Qed.

Lemma bits_range data off n : 0 <= n -> 0 <= bits data off n < 2 ^ n.
Proof. intros Hn. apply Z.mod_pos_bound. lia. Qed.

(** The values of a report have its ID, 16-bit usages and 32-bit values. *)
Lemma element_fits id payload f e v : field_ok f -> element_value id payload f e = Some v ->
  hv_report_id v = id /\ (is_u16 (hv_usage v) /\ is_s32 (hv_value v)) /\ (hv_is_array v = true -> hv_value v = 1).
Proof.
  intros (_ & Hs & _ & _ & _ & Hmin & _) Hv. unfold element_value in Hv.
  pose proof (bits_range payload (hf_bit_offset f + Z.of_nat e * hf_bit_size f) (hf_bit_size f) ltac:(lia)) as Hr.
  destruct (is_variable (hf_flags f)); [|destruct (_ =? 0); [done|]]; injection Hv as <-; cbn; (split; [done|]; split; [|done]).
  - split; [done|]. assert (2 ^ hf_bit_size f <= 2 ^ 32 /\ 2 ^ hf_bit_size f <= 2 ^ Z.max 1 (hf_bit_size f)) as [? ?]
      by (split; apply Z.pow_le_mono_r; lia).
    destruct (_ <? 0); apply signed_range; lia.
  - split; [apply Z.mod_pos_bound; lia|]. unfold is_s32. lia.
Qed.

Lemma values_fit id payload fs v : Forall field_ok fs -> v ∈ (spec_values id payload fs).1 ->
  hv_report_id v = id /\ (is_u16 (hv_usage v) /\ is_s32 (hv_value v)) /\ (hv_is_array v = true -> hv_value v = 1).
Proof.
  induction 1 as [|f fs Hf _ IH]; [by intros ?%elem_of_nil|]. cbn [spec_values]. destruct (negb _); [done|].
  destruct (_ <? _); [by intros ?%elem_of_nil|]. destruct (is_constant _); [done|].
  destruct (spec_values id payload fs) as [vs ok]. cbn [fst] in *. intros [Hv|Hv]%elem_of_app; [|by apply IH].
  apply list_elem_of_omap in Hv as (e & _ & He). by apply element_fits in He.
Qed.

Lemma sign_value_spec v n : 0 <= n <= 32 -> 0 <= v < 2 ^ n -> sign_value v n = signed (Z.max 1 n) v.
Proof.
  intros Hn Hv. unfold sign_value. destruct (Z.eqb_spec n 0) as [->|H0]; cbn [negb andb].
  { by replace v with 0 by lia. }
  rewrite Z.max_r by lia. destruct (Z.ltb_spec n 32) as [H|H]; cbn [andb]; [apply sign_extend; lia|].
  replace n with 32 in * by lia. by apply s32_signed.
Qed.

(** A field ends within its report. *)
Lemma field_extent fs ids f : fields_ok fs ids -> f ∈ fs -> field_ok f /\ 0 <= hf_bit_offset f /\
  hf_bit_offset f + field_bits f <= 65535.
Proof.
  intros (_ & _ & _ & Hf & Ht & _ & Hb) Hin. apply list_elem_of_lookup in Hin as [i Hi].
  pose proof (Forall_lookup_1 _ _ _ _ Hf Hi) as Hfi. split; [done|]. rewrite (Ht i f Hi).
  assert (Forall field_ok (take i fs)) as Hp by (by apply Forall_take).
  split; [by apply bits_of_nonneg|]. specialize (Hb (hf_report_id f)).
  rewrite <- (take_drop_middle fs i f Hi), bits_of_app in Hb. cbn [bits_of] in Hb. rewrite Z.eqb_refl in Hb.
  assert (Forall field_ok (drop (S i) fs)) as Hd by (by apply Forall_drop).
  pose proof (bits_of_nonneg (hf_report_id f) _ Hd). lia.
Qed.

Section decode_spec.
  Context {S : Type} (callback : bt_hid_value -> S -> bool * S).

Lemma decode_elements_spec f id payload : bytes payload -> field_ok f -> 0 <= hf_bit_offset f ->
  hf_bit_offset f + field_bits f <= 65535 -> hf_bit_offset f + field_bits f <= 8 * zlen payload ->
  forall n i s, Z.of_nat (i + n) <= hf_count f ->
  decode_elements callback f id payload (Z.of_nat i) n s =
    let '(go, s') := feed callback (omap (element_value id payload f) (seq i n)) s in (Ret go, s').
Proof.
  intros Hb (_ & Hsz & Hcnt & _ & _ & _ & _ & Hmin & _) H0 H16 Hlen. unfold field_bits in *.
  induction n as [|n IH]; intros i s Hi; [done|]. cbn [decode_elements seq].
  assert (Z.of_nat i * hf_bit_size f + hf_bit_size f <= hf_bit_size f * hf_count f) as Hele by nia.
  assert (0 <= Z.of_nat i * hf_bit_size f) as Hei by nia.
  rewrite u16_small by lia. rewrite (extract_bits_spec payload) by (done || lia). rewrite bind_lift.
  set (raw := bits payload _ _). pose proof (bits_range payload (hf_bit_offset f + Z.of_nat i * hf_bit_size f) (hf_bit_size f) ltac:(lia)) as Hraw.
  fold raw in Hraw. assert (2 ^ hf_bit_size f <= 2 ^ 32) as Hp by (apply Z.pow_le_mono_r; lia).
  replace (Z.of_nat i + 1) with (Z.of_nat (Datatypes.S i)) by lia. specialize (IH (Datatypes.S i)). change (omap ?g (?x :: ?l)) with (match g x with Some y => y :: omap g l | None => omap g l end).
  unfold element_value at 1. fold raw. destruct (is_variable (hf_flags f)); cbn [negb andb feed].
  - rewrite sign_value_spec, s32_signed by lia. destruct (callback _ s) as [[] s']; [|done]. apply IH. lia.
  - destruct (raw =? 0); [apply IH; lia|]. cbn [feed]. destruct (callback _ s) as [[] s']; [|done]. apply IH. lia.
Qed.

Lemma feed_app {V} (cb : V -> S -> bool * S) a b s :
  feed cb (a ++ b) s = let '(go, s) := feed cb a s in if go then feed cb b s else (false, s).
Proof.
  revert s. induction a as [|v a IH]; intros s; [by cbn; destruct (feed cb b s)|]. cbn [app feed].
  destruct (cb v s) as [[] s']; [apply IH|done].
Qed.

Lemma decode_fields_spec d fs ids id payload : holds d fs ids -> bytes payload -> forall gs i s,
  drop i fs = gs -> Z.of_nat i <= zlen fs ->
  decode_fields callback d id payload (zlen payload) (Z.of_nat i) (length gs) s = spec_decode callback id payload gs s.
Proof.
  intros (Hok & (rest & Hf & _) & _) Hb gs. induction gs as [|f gs IH]; intros i s Hd Hi; [done|].
  cbn [decode_fields length]. assert (fs !! i = Some f) as Hl by (rewrite <- (Nat.add_0_r i), <- lookup_drop, Hd; done).
  rewrite (ld_lookup (hd_fields d) (Z.of_nat i) f) by (lia || (rewrite Nat2Z.id, Hf; by apply lookup_app_l_Some)).
  rewrite bind_lift. destruct (field_extent fs ids f Hok) as (Hfok & H0 & H16); [by eapply list_elem_of_lookup_2|].
  assert (forall s, decode_fields callback d id payload (zlen payload) (Z.of_nat i + 1) (length gs) s = spec_decode callback id payload gs s) as Hnext.
  { intros s0. replace (Z.of_nat i + 1) with (Z.of_nat (Datatypes.S i)) by lia. apply IH; [|apply lookup_lt_Some in Hl; lia].
    apply (f_equal (drop 1)) in Hd. rewrite drop_drop, Nat.add_1_r in Hd. exact Hd. }
  pose proof Hfok as (_ & Hsz & Hcnt & _). unfold field_bits in *.
  unfold spec_decode. cbn [spec_values]. destruct (hf_report_id f =? id); cbn [negb]; [|apply Hnext].
  assert (0 <= hf_bit_size f * hf_count f <= 65535) as Hfb by nia.
  rewrite (u32_small (hf_bit_size f * hf_count f)), u32_small by lia. rewrite Z.gtb_ltb, (Z.mul_comm (zlen payload)). unfold field_bits.
  destruct (Z.ltb_spec (8 * zlen payload) (hf_bit_offset f + hf_bit_size f * hf_count f)) as [|Hfit]; [done|].
  fold (is_constant (hf_flags f)). destruct (is_constant (hf_flags f)); [apply Hnext|].
  unfold bind. pose proof (decode_elements_spec f id payload Hb Hfok H0 H16 Hfit (Z.to_nat (hf_count f)) 0 s ltac:(lia)) as E.
  change (Z.of_nat 0) with 0 in E. rewrite E. specialize (Hnext (feed callback (omap (element_value id payload f) (seq 0 (Z.to_nat (hf_count f)))) s).2).
  unfold spec_decode in Hnext. destruct (spec_values id payload gs) as [vs ok]. rewrite feed_app.
  destruct (feed callback (omap _ _) s) as [[] s']; [exact Hnext|done].
Qed.
End decode_spec.

Lemma hid_decode_runs S (callback : bt_hid_value -> S -> bool * S) d report s : descriptor_ok d -> bytes report ->
  bt_hid_report_decode_input callback (Some d) (Some report) (zlen report) s =
    if hd_uses_report_ids d then
      match report with
      | [] => (Fail BT_ERR_INVALID_ARGUMENT, s)
      | id :: payload => spec_decode callback id payload (live_fields d) s
      end
    else spec_decode callback 0 report (live_fields d) s.
Proof.
  intros (ids & Hh & _) Hb. unfold bt_hid_report_decode_input.
  pose proof Hh as (_ & _ & Hc & _). rewrite Hc, Nat2Z.id.
  destruct (hd_uses_report_ids d); [|exact (decode_fields_spec callback d _ ids 0 report Hh Hb (live_fields d) 0 s (drop_0 _) ltac:(lia))].
  destruct report as [|id payload]; [done|]. apply Forall_cons in Hb as [_ Hb].
  rewrite (proj2 (Z.eqb_neq _ _)) by (simpl; lia). rewrite ld_cons_0, bind_lift.
  replace (zlen (id :: payload) - 1) with (zlen payload) by (simpl; lia).
  exact (decode_fields_spec callback d _ ids id payload Hh Hb (live_fields d) 0 s (drop_0 _) ltac:(lia)).
Qed.

Lemma hid_parse_ok data out out' : bytes data ->
  bt_hid_report_parse (Some data) (zlen data) out = (Ret tt, out') -> descriptor_ok out'.
Proof.
  intros Hb. destruct (items_of data Hb) as (its & tail & -> & Hits & Hbt & Ht).
  destruct (parse_loop_spec its (S (Z.to_nat (zlen (items_bytes its ++ tail)))) [] tail parse_init empty_description Hits Ht Hbt rep_init eq_refl)
    as (o & s' & E & H); [lia|]. unfold bt_hid_report_parse. cbn [app] in E. rewrite E. clear E.
  destruct (spec_items empty_description its) as [d|e|]; [|by subst o|done].
  destruct (decide (tail = [])) as [_|_]; [|by subst o]. destruct H as [-> Hr]. destruct (_ =? 0); [done|]. intros [= <-].
  destruct Hr as (_ & _ & _ & _ & _ & _ & Hh & Hn & Hz). pose proof Hh as (Hok & (pad & Hf & _) & Hc & _).
  assert (live_fields (ps_out s') = d_fields d) as El by (unfold live_fields; by rewrite Hf, Hc, Nat2Z.id, take_app_length).
  exists (d_report_ids d). rewrite El. split; [done|]. intros En f Hin. destruct (Hz ltac:(by rewrite <- Hn)) as (_ & _ & Hids).
  apply Hids. by destruct Hok as (_ & _ & _ & _ & _ & Hid & _); apply Hid.
Qed.

(** The parser touches nothing outside the descriptor and its tables. *)
Lemma hid_parse_safe data out : bytes data -> exists o out',
  bt_hid_report_parse (Some data) (zlen data) out = (o, out') /\ o <> Fault /\ (o = Ret tt -> descriptor_ok out').
Proof.
  intros Hb. destruct (bt_hid_report_parse (Some data) (zlen data) out) as [o out'] eqn:E. exists o, out'. split; [done|].
  split; [|intros ->; by eapply hid_parse_ok]. intros ->. revert E.
  destruct (items_of data Hb) as (its & tail & -> & Hits & Hbt & Ht).
  destruct (parse_loop_spec its (S (Z.to_nat (zlen (items_bytes its ++ tail)))) [] tail parse_init empty_description Hits Ht Hbt rep_init eq_refl)
    as (o & s' & E & H); [lia|]. unfold bt_hid_report_parse. cbn [app] in E. rewrite E. clear E.
  destruct (spec_items empty_description its) as [d|e|]; [|by subst o|done].
  destruct (decide (tail = [])) as [_|_]; [|by subst o]. destruct H as [-> _]. by destruct (_ =? 0).
Qed.

(** A callback that keeps [P] makes decoding keep it. *)
Lemma feed_keeps {S V} (cb : V -> S -> bool * S) (P : S -> Prop) vs s : (forall v s, P s -> P (cb v s).2) -> P s -> P (feed cb vs s).2.
Proof.
  intros Hcb. revert s. induction vs as [|v vs IH]; intros s Hs; [done|]. cbn [feed]. specialize (Hcb v s Hs).
  destruct (cb v s) as [[] s']; [by apply IH|done].
Qed.

Lemma hid_decode_keeps {S} (cb : bt_hid_value -> S -> bool * S) (P : S -> Prop) d report s : descriptor_ok d ->
  bytes report -> (forall v s, P s -> P (cb v s).2) -> P s -> exists o s',
  bt_hid_report_decode_input cb (Some d) (Some report) (zlen report) s = (o, s') /\ o <> Fault /\ P s'.
Proof.
  intros Hd Hb Hcb Hs. rewrite hid_decode_runs by done.
  assert (forall id payload, exists o s', spec_decode cb id payload (live_fields d) s = (o, s') /\ o <> Fault /\ P s') as Hrun.
  { intros id payload. unfold spec_decode. destruct (spec_values id payload (live_fields d)) as [vs ok].
    pose proof (feed_keeps cb P vs s Hcb Hs) as Hf. destruct (feed cb vs s) as [go s']. eexists _, _. split; [done|]. split; [by destruct (_ && _)|done]. }
  destruct (hd_uses_report_ids d); [|apply Hrun]. destruct report; [by exists (Fail BT_ERR_INVALID_ARGUMENT), s|apply Hrun].
Qed.

(** ** Contracts *)

(** C10.  The descriptor parser.  Every byte string is a sequence of whole HID
    items and a rest that starts with none (short items of zero to four bytes
    and long items, which are skipped).  The parser interprets the items in
    order over the specification's state (globals with a stack of four, locals
    that each main item clears, the fields of the input items) and stops at
    the first error the items cause; a rest that is not empty, or a descriptor
    without an input report, is refused.  It always ends, within the buffer,
    the stack and the three tables. *)
Theorem hid_parse_refines :
  (forall data, bytes data -> exists its tail, data = items_bytes its ++ tail /\ Forall item_ok its /\ bytes tail /\
     (tail = [] \/ truncated tail)) /\
  (forall its tail out, Forall item_ok its -> bytes tail -> (tail = [] \/ truncated tail) ->
     let data := items_bytes its ++ tail in
     exists o out', bt_hid_report_parse (Some data) (zlen data) out = (o, out') /\
       match spec_parse its tail with
       | Ret d => o = Ret tt /\ live_fields out' = d_fields d /\ hd_uses_report_ids out' = d_numbered d /\
                  take (Z.to_nat (hd_report_count out')) (hd_reports out') = infos (d_fields d) (d_report_ids d)
       | Fail e => o = Fail e
       | Fault => False
       end).
Proof.
  split; [exact items_of|]. intros its tail out Hits Hb Ht data.
  destruct (parse_loop_spec its (S (Z.to_nat (zlen data))) [] tail parse_init empty_description Hits Ht Hb rep_init eq_refl)
    as (o & s' & E & H); [unfold data; lia|]. unfold bt_hid_report_parse. cbn [app] in E. fold data in E. rewrite E.
  unfold spec_parse. destruct (spec_items empty_description its) as [d|e|]; cbn [obind]; [|subst o; by do 2 eexists|done].
  destruct (decide (tail = [])) as [Htl|Htl].
  2:{ subst o. rewrite bool_decide_false by done. by do 2 eexists. }
  destruct H as [-> Hr]. rewrite bool_decide_true by done. cbn [andb].
  destruct Hr as (_ & _ & _ & _ & _ & _ & (_ & (pad & Hf & _) & Hc & (rest & Hrs & _) & Hrc) & Hn & _). rewrite Hrc.
  do 2 eexists. split; [reflexivity|]. destruct (bool_decide_reflect (d_report_ids d = [])) as [Hids|Hids]; cbn [negb].
  { by rewrite Hids. }
  rewrite (proj2 (Z.eqb_neq _ _)) by (by destruct (d_report_ids d)). split; [done|].
  unfold live_fields. rewrite Hf, Hc, Nat2Z.id, take_app_length. split; [done|]. split; [done|].
  rewrite Hrs, Hrc, Nat2Z.id. rewrite <- (infos_length (d_fields d) (d_report_ids d)). apply take_app_length.
Qed.

(** C39.  What a successful parse leaves is well formed: at most 128 fields and
    16 reports with distinct IDs; every field of at most 32 bits; the fields of
    a report tile its bits, in order and without gap or overlap, up to the
    report's length, which is at most 65535; and without report IDs every field
    is of report 0. *)
Theorem hid_descriptor_type : forall data out out', bytes data ->
  bt_hid_report_parse (Some data) (zlen data) out = (Ret tt, out') -> descriptor_ok out'.
Proof. intros data out out'. apply hid_parse_ok. Qed.

(** C30.  Decoding a report with a descriptor that the parser accepted, for any
    bytes and any callback: the values handed over are exactly those of the
    non-constant fields of the report, in order, each one the field's bits of
    the payload read as a little-endian number, sign-extended when the field's
    minimum is negative, and without the empty slots of arrays.  The report is
    refused when it ends before a field it has, after the values of the fields
    before; a callback that answers [false] ends the decoding.  Nothing outside
    the report is read. *)
Theorem hid_decode_spec : forall S (callback : bt_hid_value -> S -> bool * S) d report s, descriptor_ok d -> bytes report ->
  bt_hid_report_decode_input callback (Some d) (Some report) (zlen report) s =
    if hd_uses_report_ids d then
      match report with
      | [] => (Fail BT_ERR_INVALID_ARGUMENT, s)
      | id :: payload => spec_decode callback id payload (live_fields d) s
      end
    else spec_decode callback 0 report (live_fields d) s.
Proof. intros. by apply hid_decode_runs. Qed.

(** ** Witnesses *)

Module HidDemo.

(** A mouse: three buttons, five bits of padding, two signed relative axes. *)
Definition mouse_items : list item :=
  [Short 1 0 [9]; Short 1 1 [0]; Short 1 2 [1]; Short 1 7 [1]; Short 1 9 [3]; Short 2 1 [1]; Short 2 2 [3]; Short 0 8 [2];
   Short 1 7 [5]; Short 1 9 [1]; Short 0 8 [1];
   Short 1 0 [1]; Short 1 1 [129]; Short 1 2 [127]; Short 1 7 [8]; Short 1 9 [2]; Short 2 0 [48]; Short 2 0 [49]; Short 0 8 [6]].
Definition mouse : list Z := items_bytes mouse_items.
Definition descriptor : bt_hid_report_descriptor := (bt_hid_report_parse (Some mouse) (zlen mouse) zero_descriptor).2.

Lemma mouse_ok : Forall item_ok mouse_items.
Proof.
  repeat constructor; cbn; unfold is_byte; try lia; try (intros (? & ? & ?); lia);
    rewrite !elem_of_cons, elem_of_nil; lia.
Qed.

Lemma mouse_bytes : bytes mouse.
Proof.
  unfold mouse, items_bytes. generalize mouse_ok. generalize mouse_items as l. intros l. induction 1 as [|it l Hit Hl IH]; [constructor|].
  rewrite mjoin_cons. apply Forall_app. split; [by apply item_all_bytes|done].
Qed.

(** The usages and the values handed over. *)
Definition collect (v : bt_hid_value) (l : list (Z * Z * Z)) : bool * list (Z * Z * Z) :=
  (true, l ++ [(hv_usage_page v, hv_usage v, hv_value v)]).
End HidDemo.

Lemma hid_parse_refines_witness : exists out',
  bt_hid_report_parse (Some (items_bytes HidDemo.mouse_items ++ [])) (zlen (items_bytes HidDemo.mouse_items ++ [])) zero_descriptor =
    (Ret tt, out') /\ length (live_fields out') = 6%nat.
Proof.
  destruct hid_parse_refines as [_ H].
  destruct (H HidDemo.mouse_items [] zero_descriptor HidDemo.mouse_ok ltac:(constructor) ltac:(by left)) as (o & out' & E & Hs).
  exists out'. assert (exists d, spec_parse HidDemo.mouse_items [] = Ret d /\ length (d_fields d) = 6%nat) as (d & Es & Hd)
    by (eexists; split; [vm_compute; reflexivity|reflexivity]).
  rewrite Es in Hs. destruct Hs as (-> & Hl & _). split; [exact E|by rewrite Hl].
Defined.

Lemma hid_descriptor_type_witness : descriptor_ok HidDemo.descriptor.
Proof.
  apply (hid_descriptor_type HidDemo.mouse zero_descriptor); [exact HidDemo.mouse_bytes|]. vm_compute. reflexivity.
Defined.

Lemma hid_decode_spec_witness :
  bt_hid_report_decode_input HidDemo.collect (Some HidDemo.descriptor) (Some [5; 255; 2]) 3 [] =
    (Ret tt, [(9, 1, 1); (9, 2, 0); (9, 3, 1); (1, 48, -1); (1, 49, 2)]).
Proof.
  pose proof (hid_decode_spec _ HidDemo.collect HidDemo.descriptor [5; 255; 2] []) as H.
  change (zlen [5; 255; 2]) with 3 in H. rewrite H.
  - vm_compute. reflexivity.
  - apply (hid_descriptor_type HidDemo.mouse zero_descriptor); [exact HidDemo.mouse_bytes|]. vm_compute. reflexivity.
  - concrete_bytes.
Defined.

End HidReport.
