(* ===== verification/HidInput.v ===== *)
(** * HID input state: core/hid/input.c

    Reports become events: the values of variables that changed, and the keys
    of arrays that went down or up.  The callback is a function on the state
    [U] its [user_data] points to.  [decoded_value] is itself the callback of
    the report decoder; an access outside a table in it would be remembered in
    [dc_fault] and is a [Fault] of [bt_hid_input_process].

    The specification keeps a finite map of variables and the list of keys
    that are down. *)

From Stdlib Require Import ZArith Lia.
From stdpp Require Import base list gmap.
From S2P Require Import Prelude HidReport.

Module HidInput.
Import HidReport.

Definition BT_HID_INPUT_MAX_VARIABLES : Z := 128.
Definition BT_HID_INPUT_MAX_ARRAY_USAGES : Z := 32.

Inductive bt_hid_input_event_kind : Set :=
| BT_HID_INPUT_EVENT_KEY
| BT_HID_INPUT_EVENT_BUTTON
| BT_HID_INPUT_EVENT_AXIS
| BT_HID_INPUT_EVENT_CONSUMER
| BT_HID_INPUT_EVENT_GENERIC.

Record bt_hid_input_event : Type := {
  ev_kind : bt_hid_input_event_kind;
  ev_report_id : Z;
  ev_usage_page : Z;
  ev_usage : Z;
  ev_value : Z;
  ev_relative : bool;
}.

Record bt_hid_input_variable_state : Type := {
  va_report_id : Z;
  va_usage_page : Z;
  va_usage : Z;
  va_value : Z;
  va_used : bool;
}.

Record bt_hid_input_array_usage : Type := { au_report_id : Z; au_usage_page : Z; au_usage : Z }.

#[export] Instance array_usage_eq_dec : EqDecision bt_hid_input_array_usage.
Proof. solve_decision. Defined.

Record bt_hid_input : Type := {
  hi_descriptor : option bt_hid_report_descriptor;
  hi_variables : list bt_hid_input_variable_state;
  hi_arrays : list bt_hid_input_array_usage;
  hi_array_count : Z;
}.

Record decode_context (U : Type) : Type := {
  dc_input : bt_hid_input;
  dc_user : U;
  dc_current : list bt_hid_input_array_usage;
  dc_current_count : Z;
  dc_status : bt_status;
  dc_fault : bool;
}.
Arguments dc_input {U}.
Arguments dc_user {U}.
Arguments dc_current {U}.
Arguments dc_current_count {U}.
Arguments dc_status {U}.
Arguments dc_fault {U}.

Definition classify (usage_page usage : Z) : bt_hid_input_event_kind :=
  if usage_page =? 7 then BT_HID_INPUT_EVENT_KEY else
  if usage_page =? 9 then BT_HID_INPUT_EVENT_BUTTON else
  if usage_page =? 12 then BT_HID_INPUT_EVENT_CONSUMER else
  if (usage_page =? 1) && (usage >=? 48) && (usage <=? 57) then BT_HID_INPUT_EVENT_AXIS else BT_HID_INPUT_EVENT_GENERIC.

Definition array_equal (a b : bt_hid_input_array_usage) : bool :=
  (au_report_id a =? au_report_id b) && (au_usage_page a =? au_usage_page b) && (au_usage a =? au_usage b).

Fixpoint contains_loop (items : list bt_hid_input_array_usage) (target : bt_hid_input_array_usage) (i : Z) (n : nat)
    : outcome bool :=
  match n with
  | O => Ret false
  | S n => let? x := ld items i in if array_equal x target then Ret true else contains_loop items target (i + 1) n
  end.

Definition contains_array (items : list bt_hid_input_array_usage) (count : Z) (target : bt_hid_input_array_usage)
    : outcome bool := contains_loop items target 0 (Z.to_nat count).

(** The [for] of [get_variable]: the slot of the value, or the first free one. *)
Fixpoint variable_loop (variables : list bt_hid_input_variable_state) (value : bt_hid_value) (free_slot : option Z) (i : Z)
    (n : nat) : outcome (bool * option Z) :=
  match n with
  | O => Ret (false, free_slot)
  | S n =>
      let? state := ld variables i in
      if negb (va_used state) then
        variable_loop variables value (match free_slot with None => Some i | _ => free_slot end) (i + 1) n
      else if (va_report_id state =? hv_report_id value) && (va_usage_page state =? hv_usage_page value)
              && (va_usage state =? hv_usage value) then Ret (true, Some i)
      else variable_loop variables value free_slot (i + 1) n
  end.

Definition set_variables (vs : list bt_hid_input_variable_state) (input : bt_hid_input) : bt_hid_input :=
  {| hi_descriptor := hi_descriptor input; hi_variables := vs; hi_arrays := hi_arrays input;
     hi_array_count := hi_array_count input |}.

(** The slot's index, for a pointer to it. *)
Definition get_variable (value : bt_hid_value) : M bt_hid_input (option Z) := fun input =>
  match variable_loop (hi_variables input) value None 0 (Z.to_nat BT_HID_INPUT_MAX_VARIABLES) with
  | Ret (true, slot) => (Ret slot, input)
  | Ret (false, None) => (Ret None, input)
  | Ret (false, Some slot) =>
      match (let? s := ld (hi_variables input) slot in
             st1 (hi_variables input) slot
               {| va_report_id := hv_report_id value; va_usage_page := hv_usage_page value; va_usage := hv_usage value;
                  va_value := va_value s; va_used := true |}) with
      | Ret vs => (Ret (Some slot), set_variables vs input)
      | _ => (Fault, input)
      end
  | _ => (Fault, input)
  end.

Section callback.
  Context {U : Type} (callback : bt_hid_input_event -> U -> bool * U).

Definition emit (report_id usage_page usage value : Z) (relative : bool) (user : U) : bool * U :=
  callback {| ev_kind := classify usage_page usage; ev_report_id := report_id; ev_usage_page := usage_page;
              ev_usage := usage; ev_value := value; ev_relative := relative |} user.

Definition set_input (input : bt_hid_input) (c : decode_context U) : decode_context U :=
  {| dc_input := input; dc_user := dc_user c; dc_current := dc_current c; dc_current_count := dc_current_count c;
     dc_status := dc_status c; dc_fault := dc_fault c |}.
Definition set_user (u : U) (c : decode_context U) : decode_context U :=
  {| dc_input := dc_input c; dc_user := u; dc_current := dc_current c; dc_current_count := dc_current_count c;
     dc_status := dc_status c; dc_fault := dc_fault c |}.
Definition set_current (l : list bt_hid_input_array_usage) (n : Z) (c : decode_context U) : decode_context U :=
  {| dc_input := dc_input c; dc_user := dc_user c; dc_current := l; dc_current_count := n;
     dc_status := dc_status c; dc_fault := dc_fault c |}.
Definition set_status (st : bt_status) (c : decode_context U) : decode_context U :=
  {| dc_input := dc_input c; dc_user := dc_user c; dc_current := dc_current c; dc_current_count := dc_current_count c;
     dc_status := st; dc_fault := dc_fault c |}.
Definition faulted (c : decode_context U) : decode_context U :=
  {| dc_input := dc_input c; dc_user := dc_user c; dc_current := dc_current c; dc_current_count := dc_current_count c;
     dc_status := dc_status c; dc_fault := true |}.

Definition is_relative (flags : Z) : bool := negb (Z.land flags BT_HID_INPUT_RELATIVE =? 0).

Definition decoded_value (value : bt_hid_value) (context : decode_context U) : bool * decode_context U :=
  if hv_is_array value then
    let usage := {| au_report_id := hv_report_id value; au_usage_page := hv_usage_page value; au_usage := hv_usage value |} in
    match contains_array (dc_current context) (dc_current_count context) usage with
    | Ret true => (true, context)
    | Ret false =>
        if dc_current_count context =? BT_HID_INPUT_MAX_ARRAY_USAGES
        then (false, set_status BT_ERR_NO_RESOURCES context) else
        match st1 (dc_current context) (dc_current_count context) usage with
        | Ret l => (true, set_current l (dc_current_count context + 1) context)
        | _ => (false, faulted context)
        end
    | _ => (false, faulted context)
    end
  else
    match get_variable value (dc_input context) with
    | (Ret state, input) =>
        let context := set_input input context in
        let relative := is_relative (hv_flags value) in
        match state with
        | None => (false, set_status BT_ERR_NO_RESOURCES context)
        | Some state =>
            match ld (hi_variables input) state with
            | Ret s =>
                let '(go, context) :=
                  (if (relative && negb (hv_value value =? 0)) || (negb relative && negb (va_value s =? hv_value value))
                   then let '(go, user) := emit (hv_report_id value) (hv_usage_page value) (hv_usage value)
                                             (hv_value value) relative (dc_user context) in
                        (go, set_user user context)
                   else (true, context)) in
                if negb go then (false, context) else
                if negb relative then
                  match st1 (hi_variables input) state
                          {| va_report_id := va_report_id s; va_usage_page := va_usage_page s; va_usage := va_usage s;
                             va_value := hv_value value; va_used := va_used s |} with
                  | Ret vs => (true, set_input (set_variables vs input) context)
                  | _ => (false, faulted context)
                  end
                else (true, context)
            | _ => (false, faulted context)
            end
        end
    | (_, _) => (false, faulted context)
    end.

Definition zero_variable : bt_hid_input_variable_state :=
  {| va_report_id := 0; va_usage_page := 0; va_usage := 0; va_value := 0; va_used := false |}.
Definition zero_usage : bt_hid_input_array_usage := {| au_report_id := 0; au_usage_page := 0; au_usage := 0 |}.

Definition bt_hid_input_init (descriptor : option bt_hid_report_descriptor) : bt_hid_input :=
  {| hi_descriptor := descriptor; hi_variables := replicate 128 zero_variable; hi_arrays := replicate 32 zero_usage;
     hi_array_count := 0 |}.

(** Keys that went up; [false] when the callback asked to stop. *)
Fixpoint release_loop (arrays current : list bt_hid_input_array_usage) (current_count report_id i : Z) (n : nat)
    : M U bool :=
  match n with
  | O => ret true
  | S n =>
      let! old := lift (ld arrays i) in
      let! held := lift (if au_report_id old =? report_id then contains_array current current_count old else Ret true) in
      if held then release_loop arrays current current_count report_id (i + 1) n else fun user =>
        let '(go, user) := emit (au_report_id old) (au_usage_page old) (au_usage old) 0 false user in
        if go then release_loop arrays current current_count report_id (i + 1) n user else (Ret false, user)
  end.

(** Keys that went down. *)
Fixpoint press_loop (arrays : list bt_hid_input_array_usage) (array_count : Z) (current : list bt_hid_input_array_usage)
    (i : Z) (n : nat) : M U bool :=
  match n with
  | O => ret true
  | S n =>
      let! usage := lift (ld current i) in
      let! held := lift (contains_array arrays array_count usage) in
      if held then press_loop arrays array_count current (i + 1) n else fun user =>
        let '(go, user) := emit (au_report_id usage) (au_usage_page usage) (au_usage usage) 1 false user in
        if go then press_loop arrays array_count current (i + 1) n user else (Ret false, user)
  end.

(** The keys of other reports, copied to [retained]. *)
Fixpoint retain_loop (arrays retained : list bt_hid_input_array_usage) (retained_count report_id i : Z) (n : nat)
    : outcome (list bt_hid_input_array_usage * Z) :=
  match n with
  | O => Ret (retained, retained_count)
  | S n =>
      let? old := ld arrays i in
      if negb (au_report_id old =? report_id) then
        let? retained := st1 retained retained_count old in
        retain_loop arrays retained (retained_count + 1) report_id (i + 1) n
      else retain_loop arrays retained retained_count report_id (i + 1) n
  end.

(** The last block: [retained] starts with any contents. *)
Definition commit_arrays (input : bt_hid_input) (current retained : list bt_hid_input_array_usage)
    (current_count report_id : Z) : outcome (option (list bt_hid_input_array_usage * Z)) :=
  let? r := retain_loop (hi_arrays input) retained 0 report_id 0 (Z.to_nat (hi_array_count input)) in
  let '(retained, retained_count) := r in
  if retained_count + current_count >? BT_HID_INPUT_MAX_ARRAY_USAGES then Ret None else
  let? c := ldn current 0 current_count in
  let? retained := stn retained retained_count c in
  let? all := ldn retained 0 (retained_count + current_count) in
  let? arrays := stn (hi_arrays input) 0 all in
  Ret (Some (arrays, retained_count + current_count)).

(** What [bt_hid_input_process] does once the values are decoded; [retained]
    is what the stack holds where the code declares it. *)
Definition finish_report (report_id : Z) (retained : list bt_hid_input_array_usage) (status : outcome unit)
    (context : decode_context U) : outcome unit * (bt_hid_input * U) :=
  let input := dc_input context in
  let user := dc_user context in
  if dc_fault context then (Fault, (input, user)) else
  match status with
  | Ret _ =>
      if bool_decide (dc_status context <> BT_OK) then (Fail (dc_status context), (input, user)) else
      match release_loop (hi_arrays input) (dc_current context) (dc_current_count context) report_id 0
              (Z.to_nat (hi_array_count input)) user with
      | (Ret true, user) =>
          match press_loop (hi_arrays input) (hi_array_count input) (dc_current context) 0
                  (Z.to_nat (dc_current_count context)) user with
          | (Ret true, user) =>
              match commit_arrays input (dc_current context) retained (dc_current_count context) report_id with
              | Ret (Some (arrays, count)) =>
                  (Ret tt, ({| hi_descriptor := hi_descriptor input; hi_variables := hi_variables input;
                               hi_arrays := arrays; hi_array_count := count |}, user))
              | Ret None => (Fail BT_ERR_NO_RESOURCES, (input, user))
              | _ => (Fault, (input, user))
              end
          | (Ret false, user) => (Ret tt, (input, user))
          | (_, user) => (Fault, (input, user))
          end
      | (Ret false, user) => (Ret tt, (input, user))
      | (_, user) => (Fault, (input, user))
      end
  | o => (o, (input, user))
  end.

Definition new_context (input : bt_hid_input) (user : U) : decode_context U :=
  {| dc_input := input; dc_user := user; dc_current := replicate 32 zero_usage; dc_current_count := 0;
     dc_status := BT_OK; dc_fault := false |}.

Definition bt_hid_input_process (report : option (list Z)) (report_len : Z) (retained : list bt_hid_input_array_usage)
    : M (bt_hid_input * U) unit := fun '(input, user) =>
  match hi_descriptor input, report with
  | Some descriptor, Some bytes =>
      match (if hd_uses_report_ids descriptor then
               if report_len =? 0 then Fail BT_ERR_INVALID_ARGUMENT else ld bytes 0
             else Ret 0) with
      | Ret report_id =>
          let '(status, context) :=
            bt_hid_report_decode_input decoded_value (Some descriptor) report report_len (new_context input user) in
          finish_report report_id retained status context
      | Fail e => (Fail e, (input, user))
      | Fault => (Fault, (input, user))
      end
  | _, _ => (Fail BT_ERR_INVALID_ARGUMENT, (input, user))
  end.
End callback.

(** ** Specification *)

Definition key : Type := Z * Z * Z.
Definition value_key (v : bt_hid_value) : key := (hv_report_id v, hv_usage_page v, hv_usage v).
Definition value_usage (v : bt_hid_value) : bt_hid_input_array_usage :=
  {| au_report_id := hv_report_id v; au_usage_page := hv_usage_page v; au_usage := hv_usage v |}.

Definition event (id page usage value : Z) (relative : bool) : bt_hid_input_event :=
  {| ev_kind := classify page usage; ev_report_id := id; ev_usage_page := page; ev_usage := usage; ev_value := value;
     ev_relative := relative |}.

(** What decoding a value comes to: go on, the callback asked to stop, or a table is full. *)
Inductive verdict := Go | Stop | Full.

(** The variables' values, and the keys of arrays in the report. *)
Record scan (U : Type) : Type := { sc_vars : gmap key Z; sc_keys : list bt_hid_input_array_usage; sc_user : U }.
Arguments sc_vars {U}.
Arguments sc_keys {U}.
Arguments sc_user {U}.
Arguments Build_scan {U}.

Section spec.
  Context {U : Type} (callback : bt_hid_input_event -> U -> bool * U).

Definition spec_key (v : bt_hid_value) (s : scan U) : verdict * scan U :=
  let k := value_usage v in
  if decide (k ∈ sc_keys s) then (Go, s) else
  if 32 <=? zlen (sc_keys s) then (Full, s) else (Go, Build_scan (sc_vars s) (sc_keys s ++ [k]) (sc_user s)).

Definition spec_variable (v : bt_hid_value) (s : scan U) : verdict * scan U :=
  let k := value_key v in
  let relative := is_relative (hv_flags v) in
  if decide (sc_vars s !! k = None /\ (128 <= size (sc_vars s))%nat) then (Full, s) else
  let old := default 0 (sc_vars s !! k) in
  let '(go, user) :=
    if negb (hv_value v =? (if relative then 0 else old))
    then callback (event (hv_report_id v) (hv_usage_page v) (hv_usage v) (hv_value v) relative) (sc_user s)
    else (true, sc_user s) in
  (if go then Go else Stop,
   Build_scan (<[k := if go && negb relative then hv_value v else old]> (sc_vars s)) (sc_keys s) user).

Definition spec_value (v : bt_hid_value) (s : scan U) : verdict * scan U :=
  if hv_is_array v then spec_key v s else spec_variable v s.

Fixpoint spec_scan (vs : list bt_hid_value) (s : scan U) : verdict * scan U :=
  match vs with
  | [] => (Go, s)
  | v :: vs => match spec_value v s with (Go, s) => spec_scan vs s | o => o end
  end.

Definition key_events (value : Z) (ks : list bt_hid_input_array_usage) : list bt_hid_input_event :=
  (fun k => event (au_report_id k) (au_usage_page k) (au_usage k) value false) <$> ks.

(** The keys of report [id] that went up, and the ones that went down. *)
Definition released (id : Z) (down keys : list bt_hid_input_array_usage) : list bt_hid_input_array_usage :=
  filter (fun k => au_report_id k = id /\ k ∉ keys) down.
Definition pressed (down keys : list bt_hid_input_array_usage) : list bt_hid_input_array_usage :=
  filter (fun k => k ∉ down) keys.
Definition others (id : Z) (down : list bt_hid_input_array_usage) : list bt_hid_input_array_usage :=
  filter (fun k => au_report_id k <> id) down.

(** One report, from its values [vs] and whether it was whole. *)
Definition spec_process (id : Z) (vs : list bt_hid_value) (whole : bool) (vars : gmap key Z)
    (down : list bt_hid_input_array_usage) (u : U) : outcome unit * (gmap key Z * list bt_hid_input_array_usage * U) :=
  match spec_scan vs (Build_scan vars [] u) with
  | (Full, s) => (Fail BT_ERR_NO_RESOURCES, (sc_vars s, down, sc_user s))
  | (v, s) =>
      match v, whole with
      | Go, false => (Fail BT_ERR_INVALID_ARGUMENT, (sc_vars s, down, sc_user s))
      | _, _ =>
          let keys := sc_keys s in
          let '(go, u) := feed callback (key_events 0 (released id down keys) ++ key_events 1 (pressed down keys)) (sc_user s) in
          if negb go then (Ret tt, (sc_vars s, down, u)) else
          if 32 <? zlen (others id down ++ keys) then (Fail BT_ERR_NO_RESOURCES, (sc_vars s, down, u))
          else (Ret tt, (sc_vars s, others id down ++ keys, u))
      end
  end.
End spec.

(** ** Representation *)

Definition va_key (s : bt_hid_input_variable_state) : key := (va_report_id s, va_usage_page s, va_usage s).

(** The used slots come first. *)
Definition vars_rep (vs : list bt_hid_input_variable_state) (vars : gmap key Z) : Prop :=
  exists tbl k, vs = tbl ++ replicate k zero_variable /\ length vs = 128%nat /\ Forall (fun s => va_used s = true) tbl /\
    NoDup (va_key <$> tbl) /\ vars = va_value <$> keyed va_key tbl.

Definition usages_rep (l : list bt_hid_input_array_usage) (n : Z) (ks : list bt_hid_input_array_usage) : Prop :=
  (exists rest, l = ks ++ rest) /\ zlen l = 32 /\ n = zlen ks.

Definition input_rep (input : bt_hid_input) (vars : gmap key Z) (down : list bt_hid_input_array_usage) : Prop :=
  vars_rep (hi_variables input) vars /\ usages_rep (hi_arrays input) (hi_array_count input) down.

(** ** Lemmas: keys *)

Lemma array_equal_spec a b : array_equal a b = bool_decide (a = b).
Proof.
  unfold array_equal. apply eq_true_iff_eq. rewrite bool_decide_eq_true, !andb_true_iff, !Z.eqb_eq.
  split; [intros [[? ?] ?]; destruct a, b; simpl in *; congruence|by intros ->].
Qed.

Lemma contains_loop_spec ks t : forall pre rest,
  contains_loop (pre ++ ks ++ rest) t (zlen pre) (length ks) = Ret (bool_decide (t ∈ ks)).
Proof.
  induction ks as [|k ks IH]; intros pre rest; [done|]. cbn [contains_loop length app]. rewrite ld_middle. cbn [obind].
  rewrite array_equal_spec. destruct (bool_decide_reflect (k = t)) as [Hk|Hk].
  - subst k. rewrite bool_decide_true; [done|left].
  - specialize (IH (pre ++ [k]) rest). rewrite <- app_assoc in IH. cbn [app] in IH.
    replace (zlen pre + 1) with (zlen (pre ++ [k])) by zlist. rewrite IH. f_equal. apply bool_decide_ext.
    rewrite elem_of_cons. split; [by right|by intros [->|]].
Qed.

Lemma contains_spec l n ks t : usages_rep l n ks -> contains_array l n t = Ret (bool_decide (t ∈ ks)).
Proof. intros ((rest & ->) & _ & ->). unfold contains_array. rewrite Nat2Z.id. exact (contains_loop_spec ks t [] rest). Qed.

Lemma usages_snoc l n ks k : usages_rep l n ks -> n <> 32 -> exists l', st1 l n k = Ret l' /\ usages_rep l' (n + 1) (ks ++ [k]).
Proof.
  intros ((rest & ->) & Hl & ->) Hn. rewrite length_app in Hl. destruct rest as [|x rest]; [simpl in Hl; lia|].
  rewrite st1_middle. eexists. split; [done|]. split; [exists rest; by rewrite <- app_assoc|]. split; zlist.
Qed.

(** ** Lemmas: variables *)

Lemma free_loop v k : forall pre f,
  variable_loop (pre ++ replicate k zero_variable) v (Some f) (zlen pre) k = Ret (false, Some f).
Proof.
  induction k as [|k IH]; intros pre f; [done|]. cbn [variable_loop replicate]. rewrite ld_middle. cbn [obind zero_variable va_used negb].
  specialize (IH (pre ++ [zero_variable]) f). rewrite <- app_assoc in IH. cbn [app] in IH.
  by replace (zlen pre + 1) with (zlen (pre ++ [zero_variable])) by zlist.
Qed.

Lemma variable_loop_spec v k tbl : forall pre, Forall (fun s => va_used s = true) tbl ->
  ((value_key v ∉ va_key <$> tbl) /\
   variable_loop (pre ++ tbl ++ replicate k zero_variable) v None (zlen pre) (length tbl + k) =
     Ret (false, match k with O => None | _ => Some (zlen (pre ++ tbl)) end)) \/
  exists t1 s t2, tbl = t1 ++ s :: t2 /\ va_key s = value_key v /\
   variable_loop (pre ++ tbl ++ replicate k zero_variable) v None (zlen pre) (length tbl + k) = Ret (true, Some (zlen (pre ++ t1))).
Proof.
  induction tbl as [|s tbl IH]; intros pre Hu.
  - left. split; [apply not_elem_of_nil|]. cbn [app length Nat.add]. rewrite app_nil_r. destruct k as [|k]; [done|].
    cbn [variable_loop replicate]. rewrite ld_middle. cbn [obind zero_variable va_used negb].
    pose proof (free_loop v k (pre ++ [zero_variable]) (zlen pre)) as E. rewrite <- app_assoc in E. cbn [app] in E.
    by replace (zlen pre + 1) with (zlen (pre ++ [zero_variable])) by zlist.
  - apply Forall_cons in Hu as [Hs Hu]. cbn [app length Nat.add variable_loop]. rewrite ld_middle. cbn [obind]. rewrite Hs. cbn [negb].
    assert ((va_report_id s =? hv_report_id v) && (va_usage_page s =? hv_usage_page v) && (va_usage s =? hv_usage v) =
      bool_decide (va_key s = value_key v)) as ->.
    { apply eq_true_iff_eq. rewrite bool_decide_eq_true, !andb_true_iff, !Z.eqb_eq. unfold va_key, value_key.
      split; [intros [[-> ->] ->]; done|by intros [= -> -> ->]]. }
    case_bool_decide as Hk; [right; exists [], s, tbl; rewrite app_nil_r; done|].
    replace (zlen pre + 1) with (zlen (pre ++ [s])) by zlist. specialize (IH (pre ++ [s]) Hu). rewrite <- app_assoc in IH. cbn [app] in IH.
    destruct IH as [[Hn E]|(t1 & x & t2 & -> & Hx & E)]; rewrite E, <- app_assoc.
    + left. split; [|done]. rewrite fmap_cons, not_elem_of_cons. split; [congruence|done].
    + right. exists (s :: t1), x, t2. done.
Qed.

Lemma keyed_values_lookup tbl k : (va_value <$> keyed va_key tbl) !! k = va_value <$> (keyed va_key tbl !! k).
Proof. apply lookup_fmap. Qed.

(** Looking a variable up, or allocating it. *)
Lemma get_variable_spec v input vars : vars_rep (hi_variables input) vars ->
  if decide (vars !! value_key v = None /\ (128 <= size vars)%nat) then get_variable v input = (Ret None, input)
  else exists a s b, get_variable v input = (Ret (Some (zlen a)), set_variables (a ++ s :: b) input) /\
    va_value s = default 0 (vars !! value_key v) /\
    forall x, vars_rep (a ++ {| va_report_id := va_report_id s; va_usage_page := va_usage_page s; va_usage := va_usage s;
                              va_value := x; va_used := va_used s |} :: b) (<[value_key v := x]> vars).
Proof.
  intros (tbl & k & Hvs & Hl & Hu & Hnd & Hvars). unfold get_variable, BT_HID_INPUT_MAX_VARIABLES.
  change (Z.to_nat 128) with 128%nat. rewrite Hvs in Hl |- *. assert (length tbl + k = 128)%nat as Hk by zlist. rewrite <- Hk.
  assert (size vars = length tbl) as Hsz by (rewrite Hvars, map_size_fmap; by apply keyed_size).
  destruct (variable_loop_spec v k tbl [] Hu) as [[Hn E]|(t1 & s & t2 & Ht & Hs & E)]; cbn [app] in E;
    change (zlen (@nil bt_hid_input_variable_state)) with 0 in E; rewrite E; clear E.
  - assert (vars !! value_key v = None) as Hnone.
    { rewrite Hvars, keyed_values_lookup, (proj2 (keyed_lookup_None va_key tbl _) Hn). done. }
    rewrite Hnone, Hsz. destruct k as [|k].
    { case_decide as Hd; [done|exfalso; apply Hd; split; [done|lia]]. }
    rewrite decide_False by (intros [_ ?]; lia). cbn [replicate]. rewrite ld_middle. cbn [obind]. rewrite st1_middle.
    eexists tbl, _, (replicate k zero_variable). split; [done|]. split; [done|]. intros x.
    exists (tbl ++ [{| va_report_id := hv_report_id v; va_usage_page := hv_usage_page v; va_usage := hv_usage v; va_value := x; va_used := true |}]), k.
    rewrite <- app_assoc. split; [done|]. split; [zlist|]. split; [by apply Forall_app; split; [|constructor]|].
    assert (NoDup (va_key <$> tbl ++ [{| va_report_id := hv_report_id v; va_usage_page := hv_usage_page v; va_usage := hv_usage v; va_value := x; va_used := true |}])) as Hnd'.
    { rewrite fmap_app. apply NoDup_app. split; [done|]. split; [|apply NoDup_singleton].
      by intros y Hy ->%list_elem_of_singleton. }
    split; [done|]. rewrite keyed_snoc by done. by rewrite fmap_insert, <- Hvars.
  - rewrite Ht in *. pose proof (keyed_lookup_middle va_key _ _ _ Hnd) as Hlk. rewrite Hs in Hlk.
    assert (vars !! value_key v = Some (va_value s)) as Hsome by (by rewrite Hvars, keyed_values_lookup, Hlk).
    rewrite Hsome, decide_False by (by intros [? _]).
    exists t1, s, (t2 ++ replicate k zero_variable). split; [rewrite <- app_assoc in Hvs; unfold set_variables; cbn [app] in Hvs; rewrite <- Hvs; by destruct input|].
    split; [done|]. intros x.
    exists (t1 ++ {| va_report_id := va_report_id s; va_usage_page := va_usage_page s; va_usage := va_usage s; va_value := x; va_used := va_used s |} :: t2), k.
    rewrite <- app_assoc. cbn [app]. split; [done|]. split; [zlist|].
    apply Forall_app in Hu as [Hu1 Hu2]. apply Forall_cons in Hu2 as [Hus Hu2].
    split; [by apply Forall_app; split; [|constructor]|]. split; [rewrite fmap_app, fmap_cons in *; exact Hnd|].
    rewrite (keyed_replace va_key t1 s) by done. by rewrite fmap_insert, <- Hvars, <- Hs.
Qed.

(** ** Lemmas: one report *)

Section run.
  Context {U : Type} (callback : bt_hid_input_event -> U -> bool * U) (input0 : bt_hid_input).

Definition ctx_rep (st : bt_status) (c : decode_context U) (s : scan U) : Prop :=
  vars_rep (hi_variables (dc_input c)) (sc_vars s) /\ usages_rep (dc_current c) (dc_current_count c) (sc_keys s) /\
  dc_user c = sc_user s /\ dc_status c = st /\ dc_fault c = false /\
  dc_input c = set_variables (hi_variables (dc_input c)) input0.

Definition verdict_rep (go : bool) (c : decode_context U) (o : verdict * scan U) : Prop :=
  match o with
  | (Go, s) => go = true /\ ctx_rep BT_OK c s
  | (Stop, s) => go = false /\ ctx_rep BT_OK c s
  | (Full, s) => go = false /\ ctx_rep BT_ERR_NO_RESOURCES c s
  end.

Lemma decoded_key_spec v c s : ctx_rep BT_OK c s -> hv_is_array v = true -> exists go c',
  decoded_value callback v c = (go, c') /\ verdict_rep go c' (spec_key v s).
Proof.
  intros (Hv & Hk & Hu & Hst & Hf & Hin) Ha. unfold decoded_value, spec_key. rewrite Ha. fold (value_usage v).
  rewrite (contains_spec _ _ _ _ Hk). case_decide as Hd; [rewrite bool_decide_true by done|rewrite bool_decide_false by done].
  { by do 2 eexists. }
  pose proof Hk as (_ & Hl & Hn). unfold BT_HID_INPUT_MAX_ARRAY_USAGES. destruct (Z.eqb_spec (dc_current_count c) 32) as [Hfull|Hroom].
  { rewrite (proj2 (Z.leb_le _ _)) by lia. by do 2 eexists. }
  assert (zlen (sc_keys s) <= 32) as Hle by (destruct Hk as ((r & E) & _ & _); rewrite E, length_app in Hl; lia).
  rewrite (proj2 (Z.leb_gt _ _)) by lia. destruct (usages_snoc _ _ _ (value_usage v) Hk Hroom) as (l' & -> & Hk').
  by do 2 eexists.
Qed.

Lemma decoded_variable_spec v c s : ctx_rep BT_OK c s -> hv_is_array v = false -> exists go c',
  decoded_value callback v c = (go, c') /\ verdict_rep go c' (spec_variable callback v s).
Proof.
  intros (Hv & Hk & Hu & Hst & Hf & Hin) Ha. unfold decoded_value, spec_variable. rewrite Ha.
  pose proof (get_variable_spec v (dc_input c) (sc_vars s) Hv) as Hg. case_decide as Hfull.
  { rewrite Hg. do 2 eexists. split; [reflexivity|]. split; [done|]. split; [exact Hv|]. by repeat (split; [done|]). }
  destruct Hg as (a & x & b & -> & Hold & Hput). cbn [hi_variables set_variables dc_user set_input]. rewrite ld_middle, Hold, Hu.
  set (old := default 0 (sc_vars s !! value_key v)) in *. unfold emit.
  fold (event (hv_report_id v) (hv_usage_page v) (hv_usage v) (hv_value v) (is_relative (hv_flags v))).
  assert (vars_rep (a ++ x :: b) (<[value_key v := old]> (sc_vars s))) as Hkeep.
  { specialize (Hput old). rewrite <- Hold in Hput at 1. by destruct x. }
  assert ((is_relative (hv_flags v) && negb (hv_value v =? 0)) || (negb (is_relative (hv_flags v)) && negb (old =? hv_value v)) =
    negb (hv_value v =? (if is_relative (hv_flags v) then 0 else old))) as ->
    by (rewrite (Z.eqb_sym old); destruct (is_relative (hv_flags v)); cbn; by rewrite ?orb_false_r).
  destruct (negb (hv_value v =? _)).
  - destruct (callback _ (sc_user s)) as [[] u']; cbn [negb andb].
    + destruct (is_relative (hv_flags v)); cbn [negb]; [do 2 eexists; split; [reflexivity|]; split; [done|]; split; [exact Hkeep|]; repeat (split; [done|]); cbn; by rewrite Hin|].
      rewrite st1_middle. do 2 eexists. split; [reflexivity|]. split; [done|]. cbn [verdict_rep].
      split; [exact (Hput (hv_value v))|]. repeat (split; [done|]). cbn. by rewrite Hin.
    + do 2 eexists. split; [reflexivity|]. split; [done|]. split; [exact Hkeep|]. repeat (split; [done|]). cbn. by rewrite Hin.
  - cbn [negb andb]. destruct (is_relative (hv_flags v)); cbn [negb].
    + do 2 eexists. split; [reflexivity|]. split; [done|]. split; [exact Hkeep|]. repeat (split; [done|]). cbn. by rewrite Hin.
    + rewrite st1_middle. do 2 eexists. split; [reflexivity|]. split; [done|].
      split; [exact (Hput (hv_value v))|]. repeat (split; [done|]). cbn. by rewrite Hin.
Qed.

Lemma decoded_value_spec v c s : ctx_rep BT_OK c s -> exists go c',
  decoded_value callback v c = (go, c') /\ verdict_rep go c' (spec_value callback v s).
Proof.
  intros Hc. unfold spec_value. destruct (hv_is_array v) eqn:Ha; [by apply decoded_key_spec|by apply decoded_variable_spec].
Qed.

Lemma scan_spec vs : forall c s, ctx_rep BT_OK c s -> exists go c',
  feed (decoded_value callback) vs c = (go, c') /\ verdict_rep go c' (spec_scan callback vs s).
Proof.
  induction vs as [|v vs IH]; intros c s Hc; [by do 2 eexists|]. cbn [feed spec_scan].
  destruct (decoded_value_spec v c s Hc) as (go & c' & -> & H). destruct (spec_value callback v s) as [[] s']; destruct H as [-> Hc'];
    [by apply IH|by do 2 eexists..].
Qed.

Lemma release_spec cur n keys id l : usages_rep cur n keys -> forall pre rest u,
  release_loop callback (pre ++ l ++ rest) cur n id (zlen pre) (length l) u =
    let '(go, u) := feed callback (key_events 0 (released id l keys)) u in (Ret go, u).
Proof.
  intros Hk. induction l as [|k l IH]; intros pre rest u; [done|]. cbn [release_loop length app]. rewrite ld_middle, bind_lift.
  specialize (IH (pre ++ [k]) rest). rewrite <- app_assoc in IH. cbn [app] in IH.
  replace (zlen (pre ++ [k])) with (zlen pre + 1) in IH by zlist. rewrite (contains_spec _ _ _ _ Hk).
  unfold released. destruct (Z.eqb_spec (au_report_id k) id) as [Hid|Hid]; rewrite bind_lift.
  2:{ rewrite IH, filter_cons_False by (by intros [? _]). done. }
  destruct (bool_decide_reflect (k ∈ keys)) as [Hin|Hin]; [rewrite IH, filter_cons_False by (by intros [_ ?]); done|].
  rewrite filter_cons_True by done. unfold key_events. rewrite fmap_cons. cbn [feed]. unfold emit.
  fold (event (au_report_id k) (au_usage_page k) (au_usage k) 0 false).
  destruct (callback _ u) as [[] u']; [|done]. apply IH.
Qed.

Lemma press_spec arrays n down l : usages_rep arrays n down -> forall pre rest u,
  press_loop callback arrays n (pre ++ l ++ rest) (zlen pre) (length l) u =
    let '(go, u) := feed callback (key_events 1 (pressed down l)) u in (Ret go, u).
Proof.
  intros Hk. induction l as [|k l IH]; intros pre rest u; [done|]. cbn [press_loop length app]. rewrite ld_middle, bind_lift.
  specialize (IH (pre ++ [k]) rest). rewrite <- app_assoc in IH. cbn [app] in IH.
  replace (zlen (pre ++ [k])) with (zlen pre + 1) in IH by zlist. rewrite (contains_spec _ _ _ _ Hk), bind_lift.
  unfold pressed. destruct (bool_decide_reflect (k ∈ down)) as [Hin|Hin].
  { rewrite IH, filter_cons_False by (by intros ?). done. }
  rewrite filter_cons_True by done. unfold key_events. rewrite fmap_cons. cbn [feed]. unfold emit.
  fold (event (au_report_id k) (au_usage_page k) (au_usage k) 1 false).
  destruct (callback _ u) as [[] u']; [|done]. apply IH.
Qed.
End run.

Lemma others_length id l : (length (others id l) <= length l)%nat.
Proof. unfold others. apply length_filter. Qed.

Lemma retain_spec id l : forall pre rest kept pad, (length l <= length pad)%nat ->
  retain_loop (pre ++ l ++ rest) (kept ++ pad) (zlen kept) id (zlen pre) (length l) =
    Ret ((kept ++ others id l) ++ drop (length (others id l)) pad, zlen (kept ++ others id l)).
Proof.
  induction l as [|k l IH]; intros pre rest kept pad Hl; [by rewrite app_nil_r|]. cbn [retain_loop length app]. rewrite ld_middle. cbn [obind].
  replace (zlen pre + 1) with (zlen (pre ++ [k])) by zlist. unfold others.
  replace (pre ++ k :: l ++ rest) with ((pre ++ [k]) ++ l ++ rest) by (by rewrite <- app_assoc).
  destruct (Z.eqb_spec (au_report_id k) id) as [Hid|Hid]; cbn [negb].
  - rewrite filter_cons_False by (by intros ?). apply IH. simpl in Hl. lia.
  - rewrite filter_cons_True by done. destruct pad as [|x pad]; [simpl in Hl; lia|]. rewrite st1_middle. cbn [obind].
    replace (zlen kept + 1) with (zlen (kept ++ [k])) by zlist.
    replace (kept ++ k :: pad) with ((kept ++ [k]) ++ pad) by (by rewrite <- app_assoc).
    rewrite IH by (simpl in Hl; lia). rewrite <- !(app_assoc kept [k] (others id l)). done.
Qed.

Lemma commit_spec input down cur n keys retained id : usages_rep (hi_arrays input) (hi_array_count input) down ->
  usages_rep cur n keys -> zlen retained = 32 ->
  if 32 <? zlen (others id down ++ keys) then commit_arrays input cur retained n id = Ret None
  else exists arrays, commit_arrays input cur retained n id = Ret (Some (arrays, zlen (others id down ++ keys))) /\
    usages_rep arrays (zlen (others id down ++ keys)) (others id down ++ keys).
Proof.
  intros ((rest & Ha) & Hal & Hac) ((pad & Hc) & Hcl & Hn) Hr. unfold commit_arrays. rewrite Ha, Hac, Nat2Z.id.
  assert (zlen down <= 32) as Hd by (rewrite <- Hal, Ha, length_app; lia).
  pose proof (retain_spec id down [] rest [] retained ltac:(lia)) as E. cbn [app] in E. change (zlen (@nil bt_hid_input_array_usage)) with 0 in E.
  rewrite E. clear E. cbn [obind]. rewrite Hn, length_app, Nat2Z.inj_add, Z.gtb_ltb. unfold BT_HID_INPUT_MAX_ARRAY_USAGES.
  destruct (Z.ltb_spec 32 (zlen (others id down) + zlen keys)) as [Hbig|Hfit]; [done|].
  rewrite Hc. pose proof (ldn_mid [] keys pad) as El. cbn [app] in El. change (zlen (@nil bt_hid_input_array_usage)) with 0 in El.
  rewrite El. cbn [obind]. set (o := others id down) in *. pose proof (others_length id down) as Ho. fold o in Ho.
  destruct (mem_split (drop (length o) retained) 0 (zlen keys)) as (x & mid & post & Hsplit & Hx & Hmid); [lia|lia|rewrite length_drop; lia|].
  destruct x; [|simpl in Hx; lia]. cbn [app] in Hsplit. rewrite Hsplit.
  unfold stn at 1. rewrite !(proj2 (Z.leb_le _ _)) by (rewrite ?length_app; lia). cbn [andb].
  rewrite splice_mid by lia. cbn [obind].
  pose proof (ldn_mid [] (o ++ keys) post) as Em. cbn [app] in Em. change (zlen (@nil bt_hid_input_array_usage)) with 0 in Em.
  rewrite length_app, Nat2Z.inj_add in Em. rewrite <- app_assoc in Em. rewrite Em. cbn [obind].
  rewrite stn_spec by (rewrite ?length_app; rewrite Ha, length_app in Hal; lia).
  eexists. split; [cbn [obind]; reflexivity|]. unfold splice. cbn [Z.to_nat take app Nat.add]. split; [by eexists|].
  split; [|by rewrite length_app, Nat2Z.inj_add]. rewrite Ha in Hal. zlist.
Qed.

(** The report a raw report is: its ID and its payload. *)
Definition split_report (d : bt_hid_report_descriptor) (report : list Z) : option (Z * list Z) :=
  if hd_uses_report_ids d then match report with [] => None | id :: payload => Some (id, payload) end
  else Some (0, report).

Section process.
  Context {U : Type} (callback : bt_hid_input_event -> U -> bool * U).
  Context (input : bt_hid_input) (vars : gmap key Z) (down : list bt_hid_input_array_usage) (u : U).
  Context (retained : list bt_hid_input_array_usage).
  Context (Hrep : input_rep input vars down) (Hret : zlen retained = 32).

Lemma new_context_rep : ctx_rep input BT_OK (new_context input u) (Build_scan vars [] u).
Proof.
  destruct Hrep as [Hv Hd]. split; [exact Hv|]. split; [|do 3 (split; [done|]); by destruct input].
  split; [by exists (replicate 32 zero_usage)|done].
Qed.

(** The diff of the keys. *)
Lemma finish_spec id c s : ctx_rep input BT_OK c s ->
  let '(go, u1) := feed callback (key_events 0 (released id down (sc_keys s)) ++ key_events 1 (pressed down (sc_keys s))) (sc_user s) in
  let keys := if go then others id down ++ sc_keys s else down in
  if go && (32 <? zlen keys)
  then finish_report callback id retained (Ret tt) c = (Fail BT_ERR_NO_RESOURCES, (dc_input c, u1))
  else exists input', finish_report callback id retained (Ret tt) c = (Ret tt, (input', u1)) /\
    hi_descriptor input' = hi_descriptor input /\ input_rep input' (sc_vars s) keys.
Proof.
  intros (Hv & Hk & Hu & Hst & Hf & Hin). destruct Hrep as [_ Hdn]. unfold finish_report. rewrite Hf, Hst, Hu.
  rewrite bool_decide_false by (by intros ?). pose proof Hdn as ((rest & Ha) & _ & Hac). pose proof Hk as ((pad & Hc) & _ & Hcc).
  assert (hi_arrays (dc_input c) = hi_arrays input) as Ea by (by rewrite Hin).
  assert (hi_array_count (dc_input c) = hi_array_count input) as Ec by (by rewrite Hin).
  assert (hi_descriptor (dc_input c) = hi_descriptor input) as Ed by (by rewrite Hin).
  pose proof (release_spec callback (dc_current c) (dc_current_count c) (sc_keys s) id down Hk [] rest (sc_user s)) as Er.
  cbn [app] in Er. change (zlen (@nil bt_hid_input_array_usage)) with 0 in Er.
  rewrite <- Ha, <- (Nat2Z.id (length down)), <- Hac in Er.
  assert (forall u, press_loop callback (hi_arrays input) (hi_array_count input) (dc_current c) 0 (Z.to_nat (dc_current_count c)) u =
    let '(go, u) := feed callback (key_events 1 (pressed down (sc_keys s))) u in (Ret go, u)) as Ep.
  { intros u0. pose proof (press_spec callback (hi_arrays input) (hi_array_count input) down (sc_keys s) Hdn [] pad u0) as Ep.
    cbn [app] in Ep. change (zlen (@nil bt_hid_input_array_usage)) with 0 in Ep. by rewrite <- Hc, <- (Nat2Z.id (length (sc_keys s))), <- Hcc in Ep. }
  rewrite Ea, Ec, Er, feed_app.
  destruct (feed callback (key_events 0 _) (sc_user s)) as [[] u1].
  2:{ cbn [andb]. eexists. split; [reflexivity|]. split; [done|]. split; [exact Hv|]. unfold usages_rep. by rewrite Ea, Ec. }
  rewrite Ep. destruct (feed callback (key_events 1 _) u1) as [[] u2].
  2:{ cbn [andb]. eexists. split; [reflexivity|]. split; [done|]. split; [exact Hv|]. unfold usages_rep. by rewrite Ea, Ec. }
  cbn [andb]. pose proof (commit_spec (dc_input c) down (dc_current c) (dc_current_count c) (sc_keys s) retained id) as Hcm.
  rewrite Ea, Ec in Hcm. specialize (Hcm Hdn Hk Hret). destruct (32 <? _); [by rewrite Hcm|].
  destruct Hcm as (arrays & -> & Hrep'). eexists. split; [reflexivity|]. split; [done|]. by split.
Qed.

Lemma kept_rep st c (s : scan U) : ctx_rep input st c s -> hi_descriptor (dc_input c) = hi_descriptor input /\
  input_rep (dc_input c) (sc_vars s) down.
Proof.
  intros (Hv & _ & _ & _ & _ & Hin). destruct Hrep as [_ Hdn]. split; [by rewrite Hin|]. split; [exact Hv|]. by rewrite Hin.
Qed.

Lemma process_runs id payload fs : exists o input' u',
  (let '(status, c) := spec_decode (decoded_value callback) id payload fs (new_context input u) in
   finish_report callback id retained status c) = (o, (input', u')) /\ hi_descriptor input' = hi_descriptor input /\
  let '(vs, whole) := spec_values id payload fs in
  let '(o2, (vars', down', u2)) := spec_process callback id vs whole vars down u in
  o = o2 /\ u' = u2 /\ input_rep input' vars' down'.
Proof.
  unfold spec_decode. destruct (spec_values id payload fs) as [vs whole].
  destruct (scan_spec callback input vs _ _ new_context_rep) as (go & c & -> & H). unfold spec_process.
  destruct (spec_scan callback vs (Build_scan vars [] u)) as [v s].
  assert (v = Full \/ (v = Go /\ whole = false) \/ (v <> Full /\ ~ (v = Go /\ whole = false))) as [->|[[-> ->]|[Hv Hw]]]
    by (destruct v, whole; naive_solver).
  - destruct H as [-> Hc]. destruct (kept_rep _ _ _ Hc) as [Hd Hr]. destruct Hc as (_ & _ & Hu & Hst & Hf & _).
    unfold finish_report. cbn [andb]. rewrite Hf, Hst. by do 3 eexists.
  - destruct H as [-> Hc]. destruct (kept_rep _ _ _ Hc) as [Hd Hr]. destruct Hc as (_ & _ & Hu & Hst & Hf & _).
    unfold finish_report. cbn [andb negb]. rewrite Hf. by do 3 eexists.
  - assert (ctx_rep input BT_OK c s /\ go && negb whole = false) as [Hc ->]
      by (destruct v; destruct H as [-> Hc]; split; try done; destruct whole; naive_solver).
    pose proof (finish_spec id c s Hc) as Hfin. pose proof (kept_rep _ _ _ Hc) as [Hd Hr].
    destruct (feed callback _ (sc_user s)) as [go' u1] eqn:E.
    assert (match v, whole with Go, false => False | Full, _ => False | _, _ => True end) as Hok by (destruct v, whole; naive_solver).
    destruct go'; cbn [andb negb] in *.
    + destruct (32 <? zlen (others id down ++ sc_keys s)) eqn:E32; [|destruct Hfin as (input' & Hfin & Hd' & Hr')]; rewrite Hfin.
      * do 3 eexists. split; [reflexivity|]. split; [done|]. destruct v, whole; try done; by rewrite E, ?E32.
      * do 3 eexists. split; [reflexivity|]. split; [done|]. destruct v, whole; try done; by rewrite E, ?E32.
    + destruct Hfin as (input' & Hfin & Hd' & Hr'). rewrite Hfin. do 3 eexists. split; [reflexivity|]. split; [done|].
      destruct v, whole; try done; by rewrite E.
Qed.
End process.

(** Processing, with the report's ID read. *)
Lemma process_split {U} (callback : bt_hid_input_event -> U -> bool * U) d input u report retained : hi_descriptor input = Some d ->
  descriptor_ok d -> bytes report -> bt_hid_input_process callback (Some report) (zlen report) retained (input, u) =
    match split_report d report with
    | None => (Fail BT_ERR_INVALID_ARGUMENT, (input, u))
    | Some (id, payload) =>
        let '(status, c) := spec_decode (decoded_value callback) id payload (live_fields d) (new_context input u) in
        finish_report callback id retained status c
    end.
Proof.
  intros Hd Hok Hb. unfold bt_hid_input_process. rewrite Hd, (hid_decode_runs _ _ _ _ _ Hok Hb). unfold split_report.
  destruct (hd_uses_report_ids d); [|done]. destruct report as [|id payload]; [done|].
  by rewrite (proj2 (Z.eqb_neq _ _)), ld_cons_0 by (simpl; lia).
Qed.

(** A callback that keeps [P] makes processing keep it. *)
Lemma scan_keeps {U} (callback : bt_hid_input_event -> U -> bool * U) (P : U -> Prop) vs s : (forall ev u, P u -> P (callback ev u).2) ->
  P (sc_user s) -> P (sc_user (spec_scan callback vs s).2).
Proof.
  intros Hcb. revert s. induction vs as [|v vs IH]; intros s Hs; [done|]. cbn [spec_scan].
  assert (P (sc_user (spec_value callback v s).2)) as Hv.
  { unfold spec_value, spec_key, spec_variable. destruct (hv_is_array v); [by repeat case_decide || destruct (_ <=? _)|].
    case_decide; [done|]. destruct (negb _); [|done].
    pose proof (Hcb (event (hv_report_id v) (hv_usage_page v) (hv_usage v) (hv_value v) (is_relative (hv_flags v))) _ Hs) as Hc.
    by destruct (callback _ (sc_user s)). }
  destruct (spec_value callback v s) as [[] s']; [by apply IH|done..].
Qed.

Lemma spec_process_keeps {U} (callback : bt_hid_input_event -> U -> bool * U) (P : U -> Prop) id vs whole vars down u :
  (forall ev u, P u -> P (callback ev u).2) -> P u ->
  let r := spec_process callback id vs whole vars down u in r.1 <> Fault /\ P r.2.2.
Proof.
  intros Hcb Hu. unfold spec_process. pose proof (scan_keeps callback P vs (Build_scan vars [] u) Hcb Hu) as Hs.
  destruct (spec_scan callback vs _) as [v s]. cbn [snd] in Hs.
  assert (P (feed callback (key_events 0 (released id down (sc_keys s)) ++ key_events 1 (pressed down (sc_keys s))) (sc_user s)).2) as Hf
    by by apply feed_keeps.
  destruct v, whole; try done; destruct (feed callback _ (sc_user s)) as [[] u']; cbn [negb]; try done; by destruct (32 <? _).
Qed.

Lemma hid_process_keeps {U} (callback : bt_hid_input_event -> U -> bool * U) (P : U -> Prop) d input u report retained vars down :
  hi_descriptor input = Some d -> descriptor_ok d -> input_rep input vars down -> bytes report -> zlen retained = 32 ->
  (forall ev u, P u -> P (callback ev u).2) -> P u -> exists o input' u' vars' down',
  bt_hid_input_process callback (Some report) (zlen report) retained (input, u) = (o, (input', u')) /\ o <> Fault /\
  hi_descriptor input' = Some d /\ input_rep input' vars' down' /\ P u'.
Proof.
  intros Hd Hok Hrep Hb Hret Hcb Hu. rewrite (process_split callback d) by done.
  destruct (split_report d report) as [[id payload]|]; [|by exists (Fail BT_ERR_INVALID_ARGUMENT), input, u, vars, down].
  destruct (process_runs callback input vars down u retained Hrep Hret id payload (live_fields d)) as (o & i & u' & E & Hdi & H).
  rewrite E. destruct (spec_values id payload (live_fields d)) as [vs whole].
  pose proof (spec_process_keeps callback P id vs whole vars down u Hcb Hu) as [Ho HP].
  destruct (spec_process callback id vs whole vars down u) as [o2 [[vars' down'] u2]]. destruct H as (-> & -> & Hr).
  eexists _, _, _, _, _. split; [done|]. split; [done|]. split; [by rewrite Hdi|]. by split.
Qed.

(** Callbacks that answer alike on related users: [E] is what the events have. *)
Section relation.
  Context {U1 U2 : Type} (cb1 : bt_hid_input_event -> U1 -> bool * U1) (cb2 : bt_hid_input_event -> U2 -> bool * U2).
  Context (R : U1 -> U2 -> Prop) (E : bt_hid_input_event -> Prop).
  Hypothesis Hcb : forall ev u1 u2, E ev -> R u1 u2 -> (cb1 ev u1).1 = (cb2 ev u2).1 /\ R (cb1 ev u1).2 (cb2 ev u2).2.

Definition scans_alike (o1 : verdict * scan U1) (o2 : verdict * scan U2) : Prop :=
  o1.1 = o2.1 /\ sc_vars o1.2 = sc_vars o2.2 /\ sc_keys o1.2 = sc_keys o2.2 /\ R (sc_user o1.2) (sc_user o2.2).

Lemma feed_alike evs : forall u1 u2, (forall ev, ev ∈ evs -> E ev) -> R u1 u2 ->
  (feed cb1 evs u1).1 = (feed cb2 evs u2).1 /\ R (feed cb1 evs u1).2 (feed cb2 evs u2).2.
Proof.
  induction evs as [|ev evs IH]; intros u1 u2 He Hr; [done|]. cbn [feed].
  destruct (Hcb ev u1 u2 (He ev (list_elem_of_here _ _)) Hr) as [H1 H2].
  destruct (cb1 ev u1) as [[] v1], (cb2 ev u2) as [[] v2]; cbn in H1, H2; try done.
  apply IH; [|done]. intros x Hx. apply He. by right.
Qed.

Lemma value_alike v vars keys u1 u2 : (forall rel, E (event (hv_report_id v) (hv_usage_page v) (hv_usage v) (hv_value v) rel)) -> R u1 u2 ->
  scans_alike (spec_value cb1 v (Build_scan vars keys u1)) (spec_value cb2 v (Build_scan vars keys u2)).
Proof.
  intros He Hr. unfold spec_value, spec_key, spec_variable. cbn [sc_vars sc_keys sc_user].
  destruct (hv_is_array v); [by repeat case_decide || destruct (_ <=? _)|]. case_decide; [done|]. destruct (negb _); [|done].
  destruct (Hcb _ u1 u2 (He (is_relative (hv_flags v))) Hr) as [H1 H2].
  destruct (cb1 _ u1) as [[] v1], (cb2 _ u2) as [[] v2]; cbn in H1, H2; try done; unfold scans_alike; cbn; split_and!; by try f_equal.
Qed.

Lemma scan_alike vs : forall vars keys u1 u2,
  (forall v, v ∈ vs -> forall rel, E (event (hv_report_id v) (hv_usage_page v) (hv_usage v) (hv_value v) rel)) -> R u1 u2 ->
  scans_alike (spec_scan cb1 vs (Build_scan vars keys u1)) (spec_scan cb2 vs (Build_scan vars keys u2)).
Proof.
  induction vs as [|v vs IH]; intros vars keys u1 u2 He Hr; [done|]. cbn [spec_scan].
  pose proof (value_alike v vars keys u1 u2 (He v (list_elem_of_here _ _)) Hr) as (H1 & H2 & H3 & H4).
  destruct (spec_value cb1 v _) as [o1 [vars1 keys1 w1]], (spec_value cb2 v _) as [o2 [vars2 keys2 w2]].
  cbn in H1, H2, H3, H4. subst o2 vars2 keys2. destruct o1; [|done..]. apply IH; [|done]. intros x Hx. apply He. by right.
Qed.

Lemma scan_keys_from vs : forall s k, k ∈ sc_keys (spec_scan cb1 vs s).2 -> k ∈ sc_keys s \/ exists v, v ∈ vs /\ value_usage v = k.
Proof.
  induction vs as [|v vs IH]; intros s k Hk; [by left|]. cbn [spec_scan] in Hk.
  assert (forall k, k ∈ sc_keys (spec_value cb1 v s).2 -> k ∈ sc_keys s \/ value_usage v = k) as Hv.
  { intros x. unfold spec_value, spec_key, spec_variable. destruct (hv_is_array v).
    - repeat case_decide || destruct (_ <=? _); cbn; try (by left). rewrite elem_of_app, list_elem_of_singleton. naive_solver.
    - case_decide; [by left|]. destruct (negb _); [destruct (cb1 _ _)|]; by left. }
  setoid_rewrite elem_of_cons. destruct (spec_value cb1 v s) as [[] s']; [apply IH in Hk|..]; naive_solver.
Qed.

Lemma process_alike id vs whole vars down u1 u2 :
  (forall v, v ∈ vs -> forall rel, E (event (hv_report_id v) (hv_usage_page v) (hv_usage v) (hv_value v) rel)) ->
  (forall k, k ∈ down \/ (exists v, v ∈ vs /\ value_usage v = k) -> forall x, 0 <= x <= 1 -> E (event (au_report_id k) (au_usage_page k) (au_usage k) x false)) ->
  R u1 u2 ->
  let r1 := spec_process cb1 id vs whole vars down u1 in let r2 := spec_process cb2 id vs whole vars down u2 in
  r1.1 = r2.1 /\ r1.2.1 = r2.2.1 /\ R r1.2.2 r2.2.2.
Proof.
  intros Hv Hk Hr. unfold spec_process. pose proof (scan_alike vs vars [] u1 u2 Hv Hr) as (H1 & H2 & H3 & H4).
  pose proof (scan_keys_from vs (Build_scan vars [] u1)) as Hfrom.
  destruct (spec_scan cb1 vs _) as [o1 [vars1 keys u3]], (spec_scan cb2 vs _) as [o2 [vars2 keys2 u4]].
  cbn in H1, H2, H3, H4, Hfrom. subst o2 vars2 keys2. cbn [sc_vars sc_keys sc_user].
  assert (forall ev, ev ∈ key_events 0 (released id down keys) ++ key_events 1 (pressed down keys) -> E ev) as He.
  { intros ev. unfold key_events, released, pressed. rewrite elem_of_app, !list_elem_of_fmap. setoid_rewrite list_elem_of_filter.
    intros [(k & -> & _ & Hin)|(k & -> & _ & Hin)]; apply Hk; try lia; [by left|].
    right. destruct (Hfrom k Hin) as [?%elem_of_nil|?]; done. }
  destruct (feed_alike _ u3 u4 He H4) as [H5 H6]. destruct o1, whole; try done;
    destruct (feed cb1 _ u3) as [[] v1], (feed cb2 _ u4) as [[] v2]; cbn in H5, H6; try done; cbn [negb]; by destruct (32 <? _).
Qed.
End relation.

(** A callback that keeps the events and always goes on. *)
Definition log_event (ev : bt_hid_input_event) (log : list bt_hid_input_event) : bool * list bt_hid_input_event :=
  (true, log ++ [ev]).

(** The value a report leaves in the map of variables. *)
Definition track (vars : gmap key Z) (v : bt_hid_value) : gmap key Z :=
  if hv_is_array v then vars
  else <[value_key v := if is_relative (hv_flags v) then default 0 (vars !! value_key v) else hv_value v]> vars.

(** The events of the values that are not keys of an array: one for each
    absolute variable that changes and for each relative one that is not 0. *)
Definition change (vars : gmap key Z) (v : bt_hid_value) : list bt_hid_input_event :=
  let relative := is_relative (hv_flags v) in
  if negb (hv_is_array v) && negb (hv_value v =? (if relative then 0 else default 0 (vars !! value_key v)))
  then [event (hv_report_id v) (hv_usage_page v) (hv_usage v) (hv_value v) relative] else [].
Fixpoint changes (vars : gmap key Z) (vs : list bt_hid_value) : list bt_hid_input_event :=
  match vs with
  | [] => []
  | v :: vs => change vars v ++ changes (track vars v) vs
  end.

Lemma feed_log evs log : feed log_event evs log = (true, log ++ evs).
Proof.
  revert log. induction evs as [|e evs IH]; intros log; [by rewrite app_nil_r|]. cbn [feed log_event]. by rewrite IH, <- app_assoc.
Qed.

Lemma value_log v s : match spec_value log_event v s with
  | (Go, s') => sc_vars s' = track (sc_vars s) v /\
      (forall k, k ∈ sc_keys s' <-> k ∈ sc_keys s \/ (hv_is_array v = true /\ value_usage v = k)) /\
      sc_user s' = sc_user s ++ change (sc_vars s) v /\ (NoDup (sc_keys s) -> NoDup (sc_keys s'))
  | (Stop, _) => False
  | (Full, _) => True
  end.
Proof.
  unfold spec_value, track, change. destruct (hv_is_array v) eqn:Ha; cbn [negb andb].
  - unfold spec_key. case_decide as Hin; [split; [done|]; split; [naive_solver|by rewrite app_nil_r]|].
    destruct (32 <=? _); [done|]. cbn. split; [done|]. split; [|split; [by rewrite app_nil_r|]].
    + intros k. rewrite elem_of_app, list_elem_of_singleton. naive_solver.
    + intros Hnd. apply NoDup_app. split; [done|]. split; [|apply NoDup_singleton]. intros x Hx ->%list_elem_of_singleton. done.
  - unfold spec_variable. case_decide; [done|]. destruct (negb (hv_value v =? _)) eqn:Ev; cbn [log_event].
    + cbn. split; [by destruct (is_relative (hv_flags v))|]. split; [naive_solver|done].
    + cbn. split; [|split; [naive_solver|by rewrite app_nil_r]].
      by destruct (is_relative (hv_flags v)).
Qed.

Lemma scan_log vs : forall s, match spec_scan log_event vs s with
  | (Go, s') => sc_vars s' = foldl track (sc_vars s) vs /\
      (forall k, k ∈ sc_keys s' <-> k ∈ sc_keys s \/ exists v, v ∈ vs /\ hv_is_array v = true /\ value_usage v = k) /\
      sc_user s' = sc_user s ++ changes (sc_vars s) vs /\ (NoDup (sc_keys s) -> NoDup (sc_keys s'))
  | (Stop, _) => False
  | (Full, _) => True
  end.
Proof.
  induction vs as [|v vs IH]; intros s; cbn [spec_scan foldl changes].
  - split; [done|]. split; [|by rewrite app_nil_r]. intros k. split; [by left|].
    intros [?|(v & Hv & _)]; [done|]. by apply elem_of_nil in Hv.
  - pose proof (value_log v s) as Hv. destruct (spec_value log_event v s) as [[] s']; try done.
    destruct Hv as (<- & Hk & He & Hnd). specialize (IH s'). destruct (spec_scan log_event vs s') as [[] s'']; try done.
    destruct IH as (-> & Hk' & He' & Hnd'). split; [done|].
    split; [|split; [by rewrite He', He, <- app_assoc|by intros; apply Hnd', Hnd]].
    intros k. rewrite Hk', Hk. setoid_rewrite elem_of_cons. naive_solver.
Qed.

(** A whole report under this callback: its scan, and the keys that moved. *)
Lemma process_log id vs vars down log vars' down' log' :
  spec_process log_event id vs true vars down log = (Ret tt, (vars', down', log')) -> exists s,
  spec_scan log_event vs (Build_scan vars [] log) = (Go, s) /\ vars' = sc_vars s /\ down' = others id down ++ sc_keys s /\
  log' = sc_user s ++ key_events 0 (released id down (sc_keys s)) ++ key_events 1 (pressed down (sc_keys s)).
Proof.
  unfold spec_process. intros H. pose proof (scan_log vs (Build_scan vars [] log)) as Hscan.
  destruct (spec_scan log_event vs (Build_scan vars [] log)) as [[] s]; [|done..].
  rewrite feed_log in H. cbn [negb] in H. destruct (32 <? _); [done|]. injection H as <- <- <-. by exists s.
Qed.

(** ** Contracts *)

(** C29.  Processing a report, for any bytes and any callback: the values that
    decoding gives update the map of variables (at most 128), each change and
    each relative motion is one event; then the keys of this report that are
    gone go up, the new ones go down, and the list of keys becomes the ones of
    other reports and the ones of this report (at most 32).  A report that is
    too short, a full table and a callback that asks to stop end it exactly
    where the specification says, and the tables stay well formed. *)
Theorem hid_input_refines : forall U (callback : bt_hid_input_event -> U -> bool * U) d input vars down u report retained,
  hi_descriptor input = Some d -> descriptor_ok d -> input_rep input vars down -> bytes report -> zlen retained = 32 ->
  exists o input' u',
    bt_hid_input_process callback (Some report) (zlen report) retained (input, u) = (o, (input', u')) /\
    hi_descriptor input' = Some d /\
    match split_report d report with
    | None => o = Fail BT_ERR_INVALID_ARGUMENT /\ input' = input /\ u' = u
    | Some (id, payload) =>
        let '(vs, whole) := spec_values id payload (live_fields d) in
        let '(o2, (vars', down', u2)) := spec_process callback id vs whole vars down u in
        o = o2 /\ u' = u2 /\ input_rep input' vars' down'
    end.
Proof.
  intros U callback d input vars down u report retained Hd Hok Hrep Hb Hret.
  rewrite (process_split callback d) by done. destruct (split_report d report) as [[id payload]|]; [|by do 3 eexists].
  rewrite <- Hd. exact (process_runs callback input vars down u retained Hrep Hret id payload (live_fields d)).
Qed.

(** C19.  A driver that takes every event sees the keyboard as it is.  From a
    state that lists each held key once, as a fresh one does, and after a report
    was processed, the keys held are those of other reports and exactly
    the nonempty array slots of this one, each once, and every absolute variable
    has the value of the report.  The events were exactly these: in the order of
    the values one for each absolute variable that changed and each relative one
    that was not 0; then one key-up for each key that was held and is no more;
    then one key-down for each key that is held and was not. *)
Theorem hid_keys_track_report : forall d input vars down log report retained id payload vs input' log',
  hi_descriptor input = Some d -> descriptor_ok d -> input_rep input vars down -> NoDup down -> bytes report -> zlen retained = 32 ->
  split_report d report = Some (id, payload) -> spec_values id payload (live_fields d) = (vs, true) ->
  bt_hid_input_process log_event (Some report) (zlen report) retained (input, log) = (Ret tt, (input', log')) ->
  exists down' ups downs, input_rep input' (foldl track vars vs) down' /\ NoDup down' /\
    log' = log ++ changes vars vs ++ key_events 0 ups ++ key_events 1 downs /\
    (forall k, k ∈ down' <-> (au_report_id k <> id /\ k ∈ down) \/ exists v, v ∈ vs /\ hv_is_array v = true /\ value_usage v = k) /\
    (NoDup ups /\ forall k, k ∈ ups <-> k ∈ down /\ k ∉ down') /\ NoDup downs /\ forall k, k ∈ downs <-> k ∈ down' /\ k ∉ down.
Proof.
  intros d input vars down log report retained id payload vs input' log' Hd Hok Hrep Hnd Hb Hret Hs Hvs Hp.
  rewrite (process_split log_event d), Hs in Hp by done. rename Hp into Hrun.
  destruct (process_runs log_event input vars down log retained Hrep Hret id payload (live_fields d)) as (o & i & u & E & _ & H).
  rewrite E in Hrun. injection Hrun as -> -> ->. rewrite Hvs in H.
  destruct (spec_process log_event id vs true vars down log) as [o2 [[vars' down'] u2]] eqn:Es.
  destruct H as (<- & -> & Hr). destruct (process_log _ _ _ _ _ _ _ _ Es) as (s & Ego & -> & -> & ->).
  pose proof (scan_log vs (Build_scan vars [] log)) as Hscan. rewrite Ego in Hscan.
  destruct Hscan as (Hv & Hk & Hm & Hnk). cbn [sc_vars sc_keys sc_user] in Hv, Hk, Hm, Hnk. specialize (Hnk (NoDup_nil_2)).
  exists (others id down ++ sc_keys s), (released id down (sc_keys s)), (pressed down (sc_keys s)).
  rewrite <- Hv. split; [done|]. unfold others, released, pressed.
  assert (forall k, k ∈ sc_keys s <-> exists v, v ∈ vs /\ hv_is_array v = true /\ value_usage v = k) as Hk'
    by (intros k; rewrite Hk, elem_of_nil; naive_solver).
  assert (forall k, k ∈ sc_keys s -> au_report_id k = id) as Hid.
  { intros k (v & Hin & _ & <-)%Hk'. apply (values_fit id payload (live_fields d) v); [by destruct Hok as (? & ((_ & _ & _ & ? & _) & _) & _)|by rewrite Hvs]. }
  split; [|split; [by rewrite Hm, <- app_assoc|split; [|split; split; [by apply NoDup_filter| |by apply NoDup_filter|]]]].
  - apply NoDup_app. split; [by apply NoDup_filter|]. split; [|done]. intros k [Hne _]%list_elem_of_filter Hin. by apply Hne, Hid.
  - intros k. rewrite elem_of_app, list_elem_of_filter, Hk'. done.
  - intros k. rewrite elem_of_app, !list_elem_of_filter. destruct (decide (au_report_id k = id)); naive_solver.
  - intros k. rewrite elem_of_app, !list_elem_of_filter. naive_solver.
Qed.

(** A fresh input state holds no variable and no key. *)
Lemma input_init_rep d : input_rep (bt_hid_input_init d) ∅ [].
Proof.
  split; [exists [], 128%nat; do 3 (split; [by try constructor|]); split; [constructor|done]|].
  split; [by exists (replicate 32 zero_usage)|done].
Qed.

(** ** Witnesses *)

Module KeyboardDemo.

(** Eight modifier keys and six key slots. *)
Definition keyboard_items : list item :=
  [Short 1 0 [7]; Short 1 1 [0]; Short 1 2 [1]; Short 1 7 [1]; Short 1 9 [8]; Short 2 1 [224]; Short 2 2 [231]; Short 0 8 [2];
   Short 1 2 [101]; Short 1 7 [8]; Short 1 9 [6]; Short 2 1 [0]; Short 2 2 [101]; Short 0 8 [0]].
Definition keyboard : list Z := items_bytes keyboard_items.
Definition descriptor : bt_hid_report_descriptor := (bt_hid_report_parse (Some keyboard) (zlen keyboard) zero_descriptor).2.

Lemma descriptor_demo_ok : descriptor_ok descriptor.
Proof.
  apply (hid_parse_ok keyboard zero_descriptor); [|vm_compute; reflexivity].
  concrete_bytes.
Qed.

Definition ev0 : list bt_hid_input_event := [].
Definition start : bt_hid_input := bt_hid_input_init (Some descriptor).
Definition stack : list bt_hid_input_array_usage := replicate 32 zero_usage.

(** Key 4 held. *)
Definition held : bt_hid_input := (bt_hid_input_process log_event (Some [0; 4; 0; 0; 0; 0; 0]) 7 stack (start, ev0)).2.1.

(** A callback that counts the events and always asks to stop. *)
Definition refuse (ev : bt_hid_input_event) (l : list (Z * Z)) : bool * list (Z * Z) := (false, l ++ [(ev_usage ev, ev_value ev)]).
End KeyboardDemo.

Lemma hid_input_refines_witness : exists input' log',
  bt_hid_input_process log_event (Some [0; 4]) 2 KeyboardDemo.stack (KeyboardDemo.start, []) =
    (Fail BT_ERR_INVALID_ARGUMENT, (input', log')).
Proof.
  destruct (hid_input_refines _ log_event KeyboardDemo.descriptor KeyboardDemo.start ∅ [] [] [0; 4] KeyboardDemo.stack) as (o & i & u & E & _ & H).
  - reflexivity.
  - exact KeyboardDemo.descriptor_demo_ok.
  - apply input_init_rep.
  - concrete_bytes.
  - reflexivity.
  - exists i, u. change (zlen [0; 4]) with 2 in E. rewrite E. f_equal.
    revert H. generalize (input_rep i). intros P H. vm_compute in H. by destruct H.
Defined.

Lemma hid_keys_track_report_witness : exists down' ups downs,
  input_rep (bt_hid_input_process log_event (Some [1; 4; 0; 0; 0; 0; 0]) 7 KeyboardDemo.stack (KeyboardDemo.start, [])).2.1
    (foldl track ∅ (spec_values 0 [1; 4; 0; 0; 0; 0; 0] (live_fields KeyboardDemo.descriptor)).1) down' /\
  [event 0 7 224 1 false; event 0 7 4 1 false] = [event 0 7 224 1 false] ++ key_events 0 ups ++ key_events 1 downs.
Proof.
  edestruct (hid_keys_track_report KeyboardDemo.descriptor KeyboardDemo.start ∅ [] [] [1; 4; 0; 0; 0; 0; 0] KeyboardDemo.stack 0 [1; 4; 0; 0; 0; 0; 0])
    as (down' & ups & downs & H1 & _ & H2 & _).
  - reflexivity.
  - exact KeyboardDemo.descriptor_demo_ok.
  - apply input_init_rep.
  - constructor.
  - concrete_bytes.
  - reflexivity.
  - vm_compute. reflexivity.
  - vm_compute. reflexivity.
  - vm_compute. reflexivity.
  - exists down', ups, downs. split; [exact H1|exact H2].
Defined.

(** A callback that asks to stop is called again: with key 4 held, a report
    that still holds it and presses a modifier makes the callback, which
    refuses the modifier's event, see key 4 go up. *)
Example stopped_callback_sees_key_up :
  (bt_hid_input_process KeyboardDemo.refuse (Some [1; 4; 0; 0; 0; 0; 0]) 7 KeyboardDemo.stack (KeyboardDemo.held, [])).2.2 =
    [(224, 1); (4, 0)].
Proof. vm_compute. reflexivity. Qed.

End HidInput.
