(* ===== verification/GattClient.v ===== *)
(** * GATT client: protocols/gatt/gatt_client.c

    One request at a time over the fixed ATT channel: the MTU exchange, the
    three discovery loops, reads continued with Read Blob, writes,
    notifications, and the timeout of a transaction.

    The user's callbacks are programs that may call the client again
    ([GattUser]).  The channel manager is reached through [FixedChannels]: what
    it does when a fixed channel is opened, closed or written to, and the events
    that it then fires as its last action; at the end of the file the [ChannelManager] is
    shown to be one.  Events that the manager fires by itself are calls of the
    client, [ChannelEvent].

    [client->result] is a union; the entries written to one of its arrays
    since the last change of member are kept, and an access to any others is a
    [Fault].  A completion holds what its pointers point to when the callback
    starts.  [client->l2cap] is the channel manager itself. *)

From Stdlib Require Import ZArith Lia.
From stdpp Require Import base list list_numbers.
From S2P Require Import Prelude Endian Buffer Callbacks Att.

Module GattClient.
Import Endian Buffer Callbacks Att.

Definition BT_GATT_CLIENT_MAX_SERVICES : Z := 16.
Definition BT_GATT_CLIENT_MAX_CHARACTERISTICS : Z := 16.
Definition BT_GATT_CLIENT_MAX_VALUE_LEN : Z := 512.
Definition BT_GATT_CLIENT_MAX_DESCRIPTORS : Z := 32.
Definition BT_GATT_CLIENT_REQUEST_MTU : Z := 247.
Definition BT_GATT_CLIENT_REQUEST_TIMEOUT_US : Z := 30000000.
Definition BT_L2CAP_CID_ATT : Z := 4.
Definition BT_ATT_DEFAULT_MTU : Z := 23.
Definition BT_ATT_ERROR_ATTRIBUTE_NOT_FOUND : Z := 10.
Definition BT_ATT_ERROR_INVALID_OFFSET : Z := 7.
Definition BT_GATT_UUID_PRIMARY_SERVICE : Z := 10240.
Definition BT_GATT_UUID_CHARACTERISTIC : Z := 10243.
Definition BT_ATT_OPCODE_FIND_INFORMATION_RESPONSE : Z := 5.
Definition BT_ATT_OPCODE_READ_BY_TYPE_RESPONSE : Z := 9.
Definition BT_ATT_OPCODE_READ_RESPONSE : Z := 11.
Definition BT_ATT_OPCODE_READ_BLOB_RESPONSE : Z := 13.
Definition BT_ATT_OPCODE_READ_BY_GROUP_TYPE_RESPONSE : Z := 17.
Definition BT_ATT_OPCODE_WRITE_RESPONSE : Z := 19.
Definition BT_ATT_OPCODE_HANDLE_VALUE_NOTIFICATION : Z := 27.
Definition BT_ATT_OPCODE_HANDLE_VALUE_INDICATION : Z := 29.

Record bt_gatt_service : Type := { sv_start_handle : Z; sv_end_handle : Z; sv_uuid16 : Z }.
Record bt_gatt_characteristic : Type := {
  cc_declaration_handle : Z;
  cc_value_handle : Z;
  cc_properties : Z;
  cc_uuid16 : Z;
}.
Record bt_gatt_descriptor : Type := { ds_handle : Z; ds_uuid16 : Z }.

Inductive bt_gatt_client_op : Set :=
| BT_GATT_CLIENT_OP_MTU
| BT_GATT_CLIENT_OP_DISCOVER_SERVICES
| BT_GATT_CLIENT_OP_DISCOVER_CHARACTERISTICS
| BT_GATT_CLIENT_OP_DISCOVER_DESCRIPTORS
| BT_GATT_CLIENT_OP_READ
| BT_GATT_CLIENT_OP_WRITE.

Inductive bt_gatt_client_result : Set :=
| BT_GATT_CLIENT_OK
| BT_GATT_CLIENT_ERROR_CONNECT
| BT_GATT_CLIENT_ERROR_CLOSED
| BT_GATT_CLIENT_ERROR_PROTOCOL
| BT_GATT_CLIENT_ERROR_TOO_LARGE
| BT_GATT_CLIENT_ERROR_TIMEOUT
| BT_GATT_CLIENT_ERROR_ATT.

#[global] Instance gatt_op_eq_dec : EqDecision bt_gatt_client_op.
Proof. solve_decision. Defined.
#[global] Instance gatt_result_eq_dec : EqDecision bt_gatt_client_result.
Proof. solve_decision. Defined.

Record bt_gatt_client_completion : Type := {
  cp_result : bt_gatt_client_result;
  cp_op : bt_gatt_client_op;
  cp_att_error_code : Z;
  cp_services : option (list bt_gatt_service);
  cp_characteristics : option (list bt_gatt_characteristic);
  cp_descriptors : option (list bt_gatt_descriptor);
  cp_count : Z;
  cp_value : option (list Z);
  cp_value_len : Z;
}.

(** The union [client->result]. *)
Inductive gatt_result : Type :=
| U_services (l : list bt_gatt_service)
| U_characteristics (l : list bt_gatt_characteristic)
| U_descriptors (l : list bt_gatt_descriptor)
| U_value (l : list Z).

Section Types.
  (** The names of the user's callbacks, what [user_data] points to, and the
      channel manager. *)
  Context {CB UD L : Type}.

Record bt_gatt_client : Type := {
  gc_l2cap : L;
  gc_channel_ready : bool;
  gc_mtu : Z;
  gc_on_connect : option CB;
  gc_connect_user_data : option UD;
  gc_on_notify : option CB;
  gc_notify_user_data : option UD;
  gc_busy : bool;
  gc_op : bt_gatt_client_op;
  gc_connect_started_us : Z;
  gc_request_deadline_us : Z;
  gc_event_now_us : Z;
  gc_pending_handle : Z;
  gc_discover_range_end : Z;
  gc_result : gatt_result;
  gc_result_count : Z;
  gc_result_len : Z;
  gc_on_complete : option CB;
  gc_complete_user_data : option UD;
}.

Definition client_eta (c : bt_gatt_client) : bt_gatt_client :=
  {| gc_l2cap := gc_l2cap c; gc_channel_ready := gc_channel_ready c; gc_mtu := gc_mtu c;
     gc_on_connect := gc_on_connect c; gc_connect_user_data := gc_connect_user_data c;
     gc_on_notify := gc_on_notify c; gc_notify_user_data := gc_notify_user_data c;
     gc_busy := gc_busy c; gc_op := gc_op c; gc_connect_started_us := gc_connect_started_us c;
     gc_request_deadline_us := gc_request_deadline_us c; gc_event_now_us := gc_event_now_us c;
     gc_pending_handle := gc_pending_handle c; gc_discover_range_end := gc_discover_range_end c;
     gc_result := gc_result c; gc_result_count := gc_result_count c; gc_result_len := gc_result_len c;
     gc_on_complete := gc_on_complete c; gc_complete_user_data := gc_complete_user_data c |}.

Definition set_l2cap (v : L) (c : bt_gatt_client) : bt_gatt_client := ltac:(put_field client_eta gc_l2cap v c).
Definition set_channel_ready (v : bool) (c : bt_gatt_client) : bt_gatt_client := ltac:(put_field client_eta gc_channel_ready v c).
Definition set_mtu (v : Z) (c : bt_gatt_client) : bt_gatt_client := ltac:(put_field client_eta gc_mtu v c).
Definition set_on_connect (v : option CB) (c : bt_gatt_client) : bt_gatt_client := ltac:(put_field client_eta gc_on_connect v c).
Definition set_connect_user_data (v : option UD) (c : bt_gatt_client) : bt_gatt_client := ltac:(put_field client_eta gc_connect_user_data v c).
Definition set_on_notify (v : option CB) (c : bt_gatt_client) : bt_gatt_client := ltac:(put_field client_eta gc_on_notify v c).
Definition set_notify_user_data (v : option UD) (c : bt_gatt_client) : bt_gatt_client := ltac:(put_field client_eta gc_notify_user_data v c).
Definition set_busy (v : bool) (c : bt_gatt_client) : bt_gatt_client := ltac:(put_field client_eta gc_busy v c).
Definition set_op (v : bt_gatt_client_op) (c : bt_gatt_client) : bt_gatt_client := ltac:(put_field client_eta gc_op v c).
Definition set_connect_started_us (v : Z) (c : bt_gatt_client) : bt_gatt_client := ltac:(put_field client_eta gc_connect_started_us v c).
Definition set_request_deadline_us (v : Z) (c : bt_gatt_client) : bt_gatt_client := ltac:(put_field client_eta gc_request_deadline_us v c).
Definition set_event_now_us (v : Z) (c : bt_gatt_client) : bt_gatt_client := ltac:(put_field client_eta gc_event_now_us v c).
Definition set_pending_handle (v : Z) (c : bt_gatt_client) : bt_gatt_client := ltac:(put_field client_eta gc_pending_handle v c).
Definition set_discover_range_end (v : Z) (c : bt_gatt_client) : bt_gatt_client := ltac:(put_field client_eta gc_discover_range_end v c).
Definition set_result (v : gatt_result) (c : bt_gatt_client) : bt_gatt_client := ltac:(put_field client_eta gc_result v c).
Definition set_result_count (v : Z) (c : bt_gatt_client) : bt_gatt_client := ltac:(put_field client_eta gc_result_count v c).
Definition set_result_len (v : Z) (c : bt_gatt_client) : bt_gatt_client := ltac:(put_field client_eta gc_result_len v c).
Definition set_on_complete (v : option CB) (c : bt_gatt_client) : bt_gatt_client := ltac:(put_field client_eta gc_on_complete v c).
Definition set_complete_user_data (v : option UD) (c : bt_gatt_client) : bt_gatt_client := ltac:(put_field client_eta gc_complete_user_data v c).

(** What the channel manager reports about the open ATT channel. *)
Inductive channel_event : Type :=
| E_closed
| E_data (data : list Z) (now_us : Z).

(** The calls of the client; the last one is an event of the channel manager,
    whose state is then [l]. *)
Inductive api : Type :=
| Connect (on_connect : option CB) (user_data : option UD) (now_us : Z)
| Disconnect (now_us : Z)
| SetNotifyHandler (fn : option CB) (user_data : option UD)
| DiscoverServices (on_complete : option CB) (user_data : option UD) (now_us : Z)
| DiscoverCharacteristics (service_start_handle service_end_handle : Z) (on_complete : option CB)
    (user_data : option UD) (now_us : Z)
| DiscoverDescriptors (start_handle end_handle : Z) (on_complete : option CB) (user_data : option UD) (now_us : Z)
| Read (handle : Z) (on_complete : option CB) (user_data : option UD) (now_us : Z)
| Write (handle : Z) (value : list Z) (on_complete : option CB) (user_data : option UD) (now_us : Z)
| Tick (now_us : Z)
| ChannelEvent (l : L) (event : channel_event).

End Types.
Arguments bt_gatt_client : clear implicits.
Arguments api : clear implicits.

(** ** What the client asks of its user and of the channel manager *)

Class GattUser (CB UD L U : Type) : Type := {
  connect_fn : CB -> bool -> option UD -> prog U (api CB UD L) bt_status unit;
  complete_fn : CB -> bt_gatt_client_completion -> option UD -> prog U (api CB UD L) bt_status unit;
  notify_fn : CB -> Z -> option (list Z) -> Z -> bool -> option UD -> prog U (api CB UD L) bt_status unit;
}.

(** [l2_open_fixed cid] fires OPENED as its last action when it succeeds;
    [l2_close cid now_us] tells whether it fired CLOSED as its last action. *)
Class FixedChannels (L : Type) : Type := {
  l2_open_fixed : Z -> M L unit;
  l2_close : Z -> Z -> M L bool;
  l2_send : Z -> list Z -> Z -> M L unit;
  l2_ok : L -> Prop;
  l2_open_fixed_ok : forall cid l, l2_ok l -> exists o l', l2_open_fixed cid l = (o, l') /\ o <> Fault /\ l2_ok l';
  l2_close_ok : forall cid now l, l2_ok l -> exists fired l', l2_close cid now l = (Ret fired, l') /\ l2_ok l';
  l2_send_ok : forall cid data l, l2_ok l -> bytes data ->
    exists o l', l2_send cid data (zlen data) l = (o, l') /\ o <> Fault /\ l2_ok l';
}.

(** The history: what the client was told, what it sent, and what it told its
    user.  [H_connect b]: a call of connect, [b] if it came while the channel was
    ready or an operation under way; [H_exchange], [H_exchanged]: the client
    begins the MTU exchange of a connection, and gives it up for over. *)
Inductive gatt_event : Type :=
| H_connect (early : bool)
| H_start (op : bt_gatt_client_op)
| H_exchange
| H_exchanged
| H_in (data : list Z)
| H_out (pdu : list Z)
| H_connected (success : bool)
| H_notify (handle : Z) (value : option (list Z)) (is_indication : bool)
| H_done (completion : bt_gatt_client_completion).

Section Machine.
  Context {CB UD L U : Type} `{GattUser CB UD L U} `{FixedChannels L}.
Abbreviation client := (bt_gatt_client CB UD L).
Abbreviation W := (world client U gatt_event).

(** A call of the channel manager. *)
Definition on_l2cap {A} (m : M L A) : M W A := fun w =>
  match m (gc_l2cap (w_self w)) with (o, l) => (o, with_self (set_l2cap l (w_self w)) w) end.

(** Assignment to the entry [i] of an array whose entries below [length l]
    have been written. *)
Definition put_at {A} (l : list A) (i : Z) (a : A) : outcome (list A) :=
  if (0 <=? i) && (i <? zlen l) then Ret (<[Z.to_nat i := a]> l)
  else if i =? zlen l then Ret (l ++ [a]) else Fault.

(** The first [n] entries. *)
Definition first_entries {A} (l : list A) (n : Z) : outcome (list A) := ldn l 0 n.

Definition services_of (u : gatt_result) : list bt_gatt_service := match u with U_services l => l | _ => [] end.
Definition characteristics_of (u : gatt_result) : list bt_gatt_characteristic :=
  match u with U_characteristics l => l | _ => [] end.
Definition descriptors_of (u : gatt_result) : list bt_gatt_descriptor := match u with U_descriptors l => l | _ => [] end.
Definition value_of (u : gatt_result) : list Z := match u with U_value l => l | _ => [] end.

(** [memcpy(client->result.value + at, bs, n)] for [n > 0]. *)
Definition put_value (u : gatt_result) (at_ : Z) (bs : list Z) : outcome gatt_result :=
  if at_ >? zlen (value_of u) then Fault else
  if at_ + zlen bs >? BT_GATT_CLIENT_MAX_VALUE_LEN then Fault else
  Ret (U_value (take (Z.to_nat at_) (value_of u) ++ bs ++ drop (Z.to_nat at_ + length bs) (value_of u))).

Definition request_deadline (now_us : Z) : Z :=
  if u64 (UINT64_MAX - now_us) <? BT_GATT_CLIENT_REQUEST_TIMEOUT_US then UINT64_MAX
  else u64 (now_us + BT_GATT_CLIENT_REQUEST_TIMEOUT_US).

(** [while (next(&it, &entry) == BT_OK) body], where [body] may leave the
    function: [None]. *)
Fixpoint while_next {E B} (next : M bt_att_iter E) (body : B -> E -> M W (option B)) (fuel : nat)
    (it : bt_att_iter) (acc : B) : M W (option B) :=
  match fuel with
  | O => lift Fault
  | S fuel =>
      match next it with
      | (Ret entry, it) =>
          let! r := body acc entry in
          match r with
          | Some acc => while_next next body fuel it acc
          | None => ret None
          end
      | (Fail _, _) => ret (Some acc)
      | (Fault, _) => lift Fault
      end
  end.

(** A parser whose status is only compared with BT_OK. *)
Definition parsed {A} (o : outcome A) : M W (option A) :=
  match o with
  | Ret a => ret (Some a)
  | Fail _ => ret None
  | Fault => lift Fault
  end.

Section Open.
  Context (call : api CB UD L -> M W bt_status).

Definition completion_of (result : bt_gatt_client_result) (op : bt_gatt_client_op) (att_error_code : Z)
    (u : gatt_result) (count len : Z) : outcome bt_gatt_client_completion :=
  let none := {| cp_result := result; cp_op := op; cp_att_error_code := att_error_code; cp_services := None;
                 cp_characteristics := None; cp_descriptors := None; cp_count := 0; cp_value := None;
                 cp_value_len := 0 |} in
  if negb (bool_decide (result = BT_GATT_CLIENT_OK)) then Ret none else
  match op with
  | BT_GATT_CLIENT_OP_DISCOVER_SERVICES =>
      let? l := first_entries (services_of u) count in
      Ret {| cp_result := result; cp_op := op; cp_att_error_code := att_error_code; cp_services := Some l;
             cp_characteristics := None; cp_descriptors := None; cp_count := count; cp_value := None;
             cp_value_len := 0 |}
  | BT_GATT_CLIENT_OP_DISCOVER_CHARACTERISTICS =>
      let? l := first_entries (characteristics_of u) count in
      Ret {| cp_result := result; cp_op := op; cp_att_error_code := att_error_code; cp_services := None;
             cp_characteristics := Some l; cp_descriptors := None; cp_count := count; cp_value := None;
             cp_value_len := 0 |}
  | BT_GATT_CLIENT_OP_DISCOVER_DESCRIPTORS =>
      let? l := first_entries (descriptors_of u) count in
      Ret {| cp_result := result; cp_op := op; cp_att_error_code := att_error_code; cp_services := None;
             cp_characteristics := None; cp_descriptors := Some l; cp_count := count; cp_value := None;
             cp_value_len := 0 |}
  | BT_GATT_CLIENT_OP_READ =>
      let? l := first_entries (value_of u) len in
      Ret {| cp_result := result; cp_op := op; cp_att_error_code := att_error_code; cp_services := None;
             cp_characteristics := None; cp_descriptors := None; cp_count := 0; cp_value := Some l;
             cp_value_len := len |}
  | BT_GATT_CLIENT_OP_WRITE | BT_GATT_CLIENT_OP_MTU => Ret none
  end.

Definition complete (result : bt_gatt_client_result) (att_error_code : Z) : M W unit :=
  let! cb := get gc_on_complete in
  let! ud := get gc_complete_user_data in
  do! set (set_busy false) in
  do! set (set_request_deadline_us 0) in
  let! c := get id in
  let! completion := lift (completion_of result (gc_op c) att_error_code (gc_result c) (gc_result_count c) (gc_result_len c)) in
  do! emit (H_done completion) in
  match cb with
  | Some cb => run_prog call (complete_fn cb completion ud)
  | None => ret tt
  end.

(** [if (on_connect != NULL) { on_connect = NULL; cb(success, ud); }] *)
Definition report_connect (success : bool) : M W unit :=
  let! cb := get gc_on_connect in
  match cb with
  | Some cb =>
      let! ud := get gc_connect_user_data in
      do! set (set_on_connect None) in
      do! emit (H_connected success) in
      run_prog call (connect_fn cb success ud)
  | None => ret tt
  end.

(** [params] may be NULL when [opcode] is 0. *)
Definition handle_mtu_response (opcode : Z) (params : list Z) (params_len : Z) : M W unit :=
  do! set (set_busy false) in
  do! set (set_request_deadline_us 0) in
  do! emit H_exchanged in
  let! server_mtu :=
    (if opcode =? BT_ATT_OPCODE_EXCHANGE_MTU_RESPONSE
     then parsed (bt_att_parse_exchange_mtu_response params params_len) else ret None) in
  do! (match server_mtu with
       | Some server_mtu =>
           set (set_mtu (if server_mtu <? BT_GATT_CLIENT_REQUEST_MTU then server_mtu else BT_GATT_CLIENT_REQUEST_MTU))
       | None => ret tt
       end) in
  report_connect true.

(** The request of the operation under way. *)
Definition current_request (c : client) : outcome (M bt_buf_writer unit) :=
  match gc_op c with
  | BT_GATT_CLIENT_OP_MTU => Ret (bt_att_encode_exchange_mtu_request BT_GATT_CLIENT_REQUEST_MTU)
  | BT_GATT_CLIENT_OP_DISCOVER_SERVICES =>
      Ret (bt_att_encode_read_by_group_type_request (gc_pending_handle c) (gc_discover_range_end c) BT_GATT_UUID_PRIMARY_SERVICE)
  | BT_GATT_CLIENT_OP_DISCOVER_CHARACTERISTICS =>
      Ret (bt_att_encode_read_by_type_request (gc_pending_handle c) (gc_discover_range_end c) BT_GATT_UUID_CHARACTERISTIC)
  | BT_GATT_CLIENT_OP_DISCOVER_DESCRIPTORS =>
      Ret (bt_att_encode_find_information_request (gc_pending_handle c) (gc_discover_range_end c))
  | BT_GATT_CLIENT_OP_READ =>
      if gc_result_len c =? 0 then Ret (bt_att_encode_read_request (gc_pending_handle c))
      else Ret (bt_att_encode_read_blob_request (gc_pending_handle c) (u16 (gc_result_len c)))
  | BT_GATT_CLIENT_OP_WRITE =>
      let? value := first_entries (value_of (gc_result c)) (gc_result_len c) in
      Ret (bt_att_encode_write_request (gc_pending_handle c) value (gc_result_len c))
  end.

Definition issue_current_request (now_us : Z) : M W unit :=
  let! c := get id in
  let! request := lift (current_request c) in
  let! e := encode_into (3 + BT_GATT_CLIENT_MAX_VALUE_LEN) request in
  if decide (e.1 <> BT_OK) then
    (if decide (gc_op c = BT_GATT_CLIENT_OP_MTU) then handle_mtu_response 0 [] 0
     else complete BT_GATT_CLIENT_ERROR_PROTOCOL 0)
  else
  do! emit (H_out e.2) in
  let! st := try (on_l2cap (l2_send BT_L2CAP_CID_ATT e.2 (zlen e.2))) in
  if negb (bool_decide (st = Ret tt)) then
    (if decide (gc_op c = BT_GATT_CLIENT_OP_MTU) then handle_mtu_response 0 [] 0
     else complete BT_GATT_CLIENT_ERROR_CLOSED 0)
  else set (set_request_deadline_us (request_deadline now_us)).

(** The entry of a list response is appended to its array, or the operation
    fails when that is [full]. *)
Definition add_entry {A} (full : Z -> bool) (items : gatt_result -> list A) (wrap : list A -> gatt_result) (item : outcome A)
    (last : Z) : M W (option (bool * Z)) :=
  let! c := get id in
  if full (gc_result_count c) then
    do! complete BT_GATT_CLIENT_ERROR_TOO_LARGE 0 in
    ret None
  else
  let! item := lift item in
  let! l := lift (put_at (items (gc_result c)) (gc_result_count c) item) in
  do! set (set_result_count (gc_result_count c + 1)) in
  do! set (set_result (wrap l)) in
  ret (Some (true, last)).

(** A discovery response: the entries are collected, then the operation ends
    after [finished last], or goes on behind the last handle.  [acc] is
    [(any, last)]. *)
Definition discovery_response {E} (opcode expected : Z) (it : outcome bt_att_iter) (next : M bt_att_iter E)
    (params_len : Z) (body : bool * Z -> E -> M W (option (bool * Z))) (finished : client -> Z -> bool)
    (now_us : Z) : M W unit :=
  let! c := get id in
  if negb (opcode =? expected) then complete BT_GATT_CLIENT_ERROR_PROTOCOL 0 else
  let! it := parsed it in
  match it with
  | None => complete BT_GATT_CLIENT_ERROR_PROTOCOL 0
  | Some it =>
      let! r := while_next next body (S (Z.to_nat params_len)) it (false, gc_pending_handle c) in
      match r with
      | None => ret tt
      | Some (any, last) =>
          if negb any then complete BT_GATT_CLIENT_ERROR_PROTOCOL 0 else
          if finished c last then complete BT_GATT_CLIENT_OK 0 else
          do! set (set_pending_handle (u16 (last + 1))) in
          issue_current_request now_us
      end
  end.

Definition handle_discover_services_response (opcode : Z) (params : list Z) (params_len now_us : Z) : M W unit :=
  discovery_response opcode BT_ATT_OPCODE_READ_BY_GROUP_TYPE_RESPONSE
    (bt_att_read_by_group_type_response_iter_init params params_len) bt_att_read_by_group_type_response_iter_next
    params_len
    (fun _ entry =>
       if ge_value_len entry =? 2 then
         add_entry (fun count => count >=? BT_GATT_CLIENT_MAX_SERVICES) services_of U_services
           (let? uuid := bt_read_le16 (ge_value entry) 0 in
            Ret {| sv_start_handle := ge_handle entry; sv_end_handle := ge_end_group_handle entry; sv_uuid16 := uuid |})
           (ge_end_group_handle entry)
       else ret (Some (true, ge_end_group_handle entry)))
    (fun _ last_end => last_end =? 65535) now_us.

Definition handle_discover_characteristics_response (opcode : Z) (params : list Z) (params_len now_us : Z) : M W unit :=
  discovery_response opcode BT_ATT_OPCODE_READ_BY_TYPE_RESPONSE
    (bt_att_read_by_type_response_iter_init params params_len) bt_att_read_by_type_response_iter_next
    params_len
    (fun _ entry =>
       if te_value_len entry =? 5 then
         add_entry (fun count => count >=? BT_GATT_CLIENT_MAX_CHARACTERISTICS) characteristics_of U_characteristics
           (let? properties := ld (te_value entry) 0 in
            let? value_handle := bt_read_le16 (te_value entry) 1 in
            let? uuid := bt_read_le16 (te_value entry) 3 in
            Ret {| cc_declaration_handle := te_handle entry; cc_value_handle := value_handle;
                   cc_properties := properties; cc_uuid16 := uuid |})
           (te_handle entry)
       else ret (Some (true, te_handle entry)))
    (fun c last_handle => last_handle >=? gc_discover_range_end c) now_us.

Definition handle_discover_descriptors_response (opcode : Z) (params : list Z) (params_len now_us : Z) : M W unit :=
  discovery_response opcode BT_ATT_OPCODE_FIND_INFORMATION_RESPONSE
    (bt_att_find_information_response_iter_init (Some params) params_len) bt_att_find_information_response_iter_next
    params_len
    (fun _ entry =>
       if ie_uuid_len entry =? 2 then
         add_entry (fun count => count =? BT_GATT_CLIENT_MAX_DESCRIPTORS) descriptors_of U_descriptors
           (let? uuid := bt_read_le16 (ie_uuid entry) 0 in Ret {| ds_handle := ie_handle entry; ds_uuid16 := uuid |})
           (ie_handle entry)
       else ret (Some (true, ie_handle entry)))
    (fun c last_handle => (last_handle >=? gc_discover_range_end c) || (last_handle =? 65535)) now_us.

Definition handle_read_response (opcode : Z) (params : list Z) (params_len now_us : Z) : M W unit :=
  let! c := get id in
  let expected := if gc_result_len c =? 0 then BT_ATT_OPCODE_READ_RESPONSE else BT_ATT_OPCODE_READ_BLOB_RESPONSE in
  if negb (opcode =? expected) then complete BT_GATT_CLIENT_ERROR_PROTOCOL 0 else
  if params_len >? u64 (BT_GATT_CLIENT_MAX_VALUE_LEN - gc_result_len c) then complete BT_GATT_CLIENT_ERROR_TOO_LARGE 0 else
  do! (if params_len >? 0 then
         let! u := lift (let? bs := ldn params 0 params_len in put_value (gc_result c) (gc_result_len c) bs) in
         set (set_result u)
       else ret tt) in
  do! set (set_result_len (gc_result_len c + params_len)) in
  if params_len =? u32 (gc_mtu c - 1) then
    if gc_result_len c + params_len >? UINT16_MAX then complete BT_GATT_CLIENT_ERROR_TOO_LARGE 0
    else issue_current_request now_us
  else complete BT_GATT_CLIENT_OK 0.

Definition handle_write_response (opcode : Z) (params : list Z) (params_len : Z) : M W unit :=
  if negb (opcode =? BT_ATT_OPCODE_WRITE_RESPONSE) then complete BT_GATT_CLIENT_ERROR_PROTOCOL 0
  else complete BT_GATT_CLIENT_OK 0.

(** A notification or an indication. *)
Definition handle_value (opcode : Z) (params : list Z) (params_len : Z) : M W unit :=
  let! hv := parsed (bt_att_parse_handle_value params params_len) in
  let! on_notify := get gc_on_notify in
  do! (match hv, on_notify with
       | Some hv, Some on_notify =>
           let! ud := get gc_notify_user_data in
           let is_indication := opcode =? BT_ATT_OPCODE_HANDLE_VALUE_INDICATION in
           do! emit (H_notify (hv_handle hv) (hv_value hv) is_indication) in
           run_prog call (notify_fn on_notify (hv_handle hv) (hv_value hv) (hv_value_len hv) is_indication ud)
       | _, _ => ret tt
       end) in
  if opcode =? BT_ATT_OPCODE_HANDLE_VALUE_INDICATION then
    let! e := encode_into 1 bt_att_encode_handle_value_confirmation in
    do! emit (H_out e.2) in
    do! try (on_l2cap (l2_send BT_L2CAP_CID_ATT e.2 (zlen e.2))) in
    ret tt
  else ret tt.

(** The operation fails, or this is how a discovery or a long read ends. *)
Definition handle_error_response (params : list Z) (params_len : Z) : M W unit :=
  let! c := get id in
  let! err := parsed (bt_att_parse_error_response params params_len) in
  match err with
  | None => complete BT_GATT_CLIENT_ERROR_PROTOCOL 0
  | Some err =>
      if (bool_decide (gc_op c = BT_GATT_CLIENT_OP_DISCOVER_SERVICES) ||
          bool_decide (gc_op c = BT_GATT_CLIENT_OP_DISCOVER_CHARACTERISTICS) ||
          bool_decide (gc_op c = BT_GATT_CLIENT_OP_DISCOVER_DESCRIPTORS)) &&
         (er_error_code err =? BT_ATT_ERROR_ATTRIBUTE_NOT_FOUND)
      then complete BT_GATT_CLIENT_OK 0 else
      if bool_decide (gc_op c = BT_GATT_CLIENT_OP_READ) && negb (gc_result_len c =? 0) &&
         (er_request_opcode err =? BT_ATT_OPCODE_READ_BLOB_REQUEST) &&
         (er_error_code err =? BT_ATT_ERROR_INVALID_OFFSET)
      then complete BT_GATT_CLIENT_OK 0
      else complete BT_GATT_CLIENT_ERROR_ATT (er_error_code err)
  end.

Definition handle_response (data : list Z) (len now_us : Z) : M W unit :=
  if len <? 1 then ret tt else
  do! set (set_event_now_us now_us) in
  let! opcode := lift (ld data 0) in
  let params := drop 1 data in
  let params_len := len - 1 in
  if (opcode =? BT_ATT_OPCODE_HANDLE_VALUE_NOTIFICATION) || (opcode =? BT_ATT_OPCODE_HANDLE_VALUE_INDICATION)
  then handle_value opcode params params_len else
  let! c := get id in
  if bool_decide (gc_on_connect c <> None) then handle_mtu_response opcode params params_len else
  if negb (gc_busy c) then ret tt else
  if opcode =? BT_ATT_OPCODE_ERROR_RESPONSE then handle_error_response params params_len else
  match gc_op c with
  | BT_GATT_CLIENT_OP_DISCOVER_SERVICES => handle_discover_services_response opcode params params_len now_us
  | BT_GATT_CLIENT_OP_DISCOVER_CHARACTERISTICS => handle_discover_characteristics_response opcode params params_len now_us
  | BT_GATT_CLIENT_OP_DISCOVER_DESCRIPTORS => handle_discover_descriptors_response opcode params params_len now_us
  | BT_GATT_CLIENT_OP_READ => handle_read_response opcode params params_len now_us
  | BT_GATT_CLIENT_OP_WRITE => handle_write_response opcode params params_len
  | BT_GATT_CLIENT_OP_MTU => ret tt
  end.

(** [on_l2cap_event], its cases. *)
Definition on_opened : M W unit :=
  do! emit H_exchange in
  do! set (set_channel_ready true) in
  do! set (set_busy true) in
  do! set (set_op BT_GATT_CLIENT_OP_MTU) in
  let! started := get gc_connect_started_us in
  issue_current_request started.

Definition on_closed : M W unit :=
  do! set (set_channel_ready false) in
  let! c := get id in
  if bool_decide (gc_on_connect c <> None) then report_connect false
  else if gc_busy c then complete BT_GATT_CLIENT_ERROR_CLOSED 0
  else ret tt.

Definition on_l2cap_event (event : channel_event) : M W unit :=
  match event with
  | E_closed => on_closed
  | E_data data now_us =>
      do! emit (H_in data) in
      handle_response data (zlen data) now_us
  end.

(** ** The interface *)

Definition outstanding (c : client) : bool :=
  gc_busy c && negb (bool_decide (gc_op c = BT_GATT_CLIENT_OP_MTU)).

Definition bt_gatt_client_connect (on_connect : option CB) (user_data : option UD) (now_us : Z) : M W bt_status :=
  let! c := get id in
  do! emit (H_connect (gc_channel_ready c || outstanding c)) in
  do! set (set_on_connect on_connect) in
  do! set (set_connect_user_data user_data) in
  do! set (set_connect_started_us now_us) in
  let! st := try (on_l2cap (l2_open_fixed BT_L2CAP_CID_ATT)) in
  match st with
  | Ret _ =>
      do! on_opened in
      ret BT_OK
  | Fail e => ret e
  | Fault => lift Fault
  end.

Definition bt_gatt_client_disconnect (now_us : Z) : M W unit :=
  let! ready := get gc_channel_ready in
  do! (if ready then
         let! fired := on_l2cap (l2_close BT_L2CAP_CID_ATT now_us) in
         if (fired : bool) then on_closed else ret tt
       else ret tt) in
  set (set_channel_ready false).

Definition bt_gatt_client_set_notify_handler (fn : option CB) (user_data : option UD) : M W unit :=
  do! set (set_on_notify fn) in
  set (set_notify_user_data user_data).

(** How every operation starts, once it is accepted. *)
Definition start_operation (op : bt_gatt_client_op) (prepare : M W unit) (on_complete : option CB)
    (user_data : option UD) (now_us : Z) : M W bt_status :=
  do! emit (H_start op) in
  do! set (set_busy true) in
  do! set (set_op op) in
  do! prepare in
  do! set (set_on_complete on_complete) in
  do! set (set_complete_user_data user_data) in
  do! issue_current_request now_us in
  ret BT_OK.

Definition discover (start_handle end_handle : Z) : M W unit :=
  do! set (set_pending_handle start_handle) in
  do! set (set_discover_range_end end_handle) in
  set (set_result_count 0).

Definition bt_gatt_client_discover_services (on_complete : option CB) (user_data : option UD) (now_us : Z) : M W bt_status :=
  let! c := get id in
  if negb (gc_channel_ready c) || gc_busy c then ret BT_ERR_INVALID_ARGUMENT else
  start_operation BT_GATT_CLIENT_OP_DISCOVER_SERVICES (discover 1 65535) on_complete user_data now_us.

Definition bt_gatt_client_discover_characteristics (service_start_handle service_end_handle : Z)
    (on_complete : option CB) (user_data : option UD) (now_us : Z) : M W bt_status :=
  let! c := get id in
  if negb (gc_channel_ready c) || gc_busy c then ret BT_ERR_INVALID_ARGUMENT else
  start_operation BT_GATT_CLIENT_OP_DISCOVER_CHARACTERISTICS (discover service_start_handle service_end_handle)
    on_complete user_data now_us.

Definition bt_gatt_client_read (handle : Z) (on_complete : option CB) (user_data : option UD) (now_us : Z) : M W bt_status :=
  let! c := get id in
  if negb (gc_channel_ready c) || gc_busy c then ret BT_ERR_INVALID_ARGUMENT else
  start_operation BT_GATT_CLIENT_OP_READ
    (do! set (set_pending_handle handle) in set (set_result_len 0)) on_complete user_data now_us.

Definition bt_gatt_client_discover_descriptors (start_handle end_handle : Z) (on_complete : option CB)
    (user_data : option UD) (now_us : Z) : M W bt_status :=
  let! c := get id in
  if negb (gc_channel_ready c) || gc_busy c || (start_handle =? 0) || (start_handle >? end_handle)
  then ret BT_ERR_INVALID_ARGUMENT else
  start_operation BT_GATT_CLIENT_OP_DISCOVER_DESCRIPTORS (discover start_handle end_handle)
    on_complete user_data now_us.

Definition bt_gatt_client_write (handle : Z) (value : list Z) (value_len : Z) (on_complete : option CB)
    (user_data : option UD) (now_us : Z) : M W bt_status :=
  let! c := get id in
  if negb (gc_channel_ready c) || gc_busy c then ret BT_ERR_INVALID_ARGUMENT else
  if value_len >? BT_GATT_CLIENT_MAX_VALUE_LEN then ret BT_ERR_INVALID_ARGUMENT else
  start_operation BT_GATT_CLIENT_OP_WRITE
    (do! set (set_pending_handle handle) in
     do! (if value_len >? 0 then
            let! u := lift (let? bs := ldn value 0 value_len in put_value (gc_result c) 0 bs) in
            set (set_result u)
          else ret tt) in
     set (set_result_len value_len)) on_complete user_data now_us.

Definition bt_gatt_client_tick (now_us : Z) : M W unit :=
  let! c := get id in
  if negb (gc_busy c) || (gc_request_deadline_us c =? 0) || (now_us <? gc_request_deadline_us c) then ret tt else
  if bool_decide (gc_on_connect c <> None) then handle_mtu_response 0 [] 0
  else complete BT_GATT_CLIENT_ERROR_TIMEOUT 0.

(** One call; [void] ones return BT_OK here. *)
Definition run_call (a : api CB UD L) : M W bt_status :=
  match a with
  | Connect on_connect ud now => bt_gatt_client_connect on_connect ud now
  | Disconnect now => do! bt_gatt_client_disconnect now in ret BT_OK
  | SetNotifyHandler fn ud => do! bt_gatt_client_set_notify_handler fn ud in ret BT_OK
  | DiscoverServices on_complete ud now => bt_gatt_client_discover_services on_complete ud now
  | DiscoverCharacteristics s e on_complete ud now => bt_gatt_client_discover_characteristics s e on_complete ud now
  | DiscoverDescriptors s e on_complete ud now => bt_gatt_client_discover_descriptors s e on_complete ud now
  | Read handle on_complete ud now => bt_gatt_client_read handle on_complete ud now
  | Write handle value on_complete ud now => bt_gatt_client_write handle value (zlen value) on_complete ud now
  | Tick now => do! bt_gatt_client_tick now in ret BT_OK
  | ChannelEvent l event =>
      do! set (set_l2cap l) in
      do! on_l2cap_event event in
      ret BT_OK
  end.

End Open.

(** Calls nested [depth] deep. *)
Fixpoint run_api (depth : nat) (a : api CB UD L) : M W bt_status :=
  match depth with
  | O => lift Fault
  | S depth => run_call (run_api depth) a
  end.

Definition run_apis (depth : nat) (l : list (api CB UD L)) : M W unit :=
  foldr (fun a m => do! run_api depth a in m) (ret tt) l.

Definition bt_gatt_client_init (l2cap : L) : client :=
  {| gc_l2cap := l2cap; gc_channel_ready := false; gc_mtu := BT_ATT_DEFAULT_MTU; gc_on_connect := None;
     gc_connect_user_data := None; gc_on_notify := None; gc_notify_user_data := None; gc_busy := false;
     gc_op := BT_GATT_CLIENT_OP_MTU; gc_connect_started_us := 0; gc_request_deadline_us := 0;
     gc_event_now_us := 0; gc_pending_handle := 0; gc_discover_range_end := 0; gc_result := U_value [];
     gc_result_count := 0; gc_result_len := 0; gc_on_complete := None; gc_complete_user_data := None |}.

End Machine.

(** ** Specification *)

(** Operations by the history, the MTU exchange of a connection being one: the
    one under way, if any; [None] if one was started while another was under way,
    or completed that was not under way.  The exchange of a connection may take
    the place of one that its predecessor left behind. *)
Definition op_step (cur : option (option bt_gatt_client_op)) (e : gatt_event) : option (option bt_gatt_client_op) :=
  match cur with
  | None => None
  | Some cur =>
      let exchanging := bool_decide (cur = None \/ cur = Some BT_GATT_CLIENT_OP_MTU) in
      match e with
      | H_start op => if decide (cur = None /\ op <> BT_GATT_CLIENT_OP_MTU) then Some (Some op) else None
      | H_exchange => if exchanging then Some (Some BT_GATT_CLIENT_OP_MTU) else None
      | H_exchanged => if exchanging then Some None else None
      | H_done c => if decide (cur = Some (cp_op c)) then Some None else None
      | _ => Some cur
      end
  end.
Definition operations (tr : list gatt_event) : option (option bt_gatt_client_op) := foldl op_step (Some None) tr.

(** How an operation that timed out ends: it is reported so, but the MTU
    exchange while a connect callback waits, which is just given up. *)
Definition timed_out (op : bt_gatt_client_op) (e : gatt_event) : Prop :=
  match e with
  | H_done c => cp_op c = op /\ cp_result c = BT_GATT_CLIENT_ERROR_TIMEOUT
  | H_exchanged => op = BT_GATT_CLIENT_OP_MTU
  | _ => False
  end.

(** A completion of an operation that succeeded has its results, and no
    others. *)
Definition results_ok (c : bt_gatt_client_completion) : Prop :=
  let has {A} (o : option (list A)) (n max : Z) : Prop := exists l, o = Some l /\ zlen l = n /\ n <= max in
  if decide (cp_result c = BT_GATT_CLIENT_OK) then
    match cp_op c with
    | BT_GATT_CLIENT_OP_DISCOVER_SERVICES => has (cp_services c) (cp_count c) BT_GATT_CLIENT_MAX_SERVICES
    | BT_GATT_CLIENT_OP_DISCOVER_CHARACTERISTICS =>
        has (cp_characteristics c) (cp_count c) BT_GATT_CLIENT_MAX_CHARACTERISTICS
    | BT_GATT_CLIENT_OP_DISCOVER_DESCRIPTORS => has (cp_descriptors c) (cp_count c) BT_GATT_CLIENT_MAX_DESCRIPTORS
    | BT_GATT_CLIENT_OP_READ => has (cp_value c) (cp_value_len c) BT_GATT_CLIENT_MAX_VALUE_LEN
    | BT_GATT_CLIENT_OP_WRITE | BT_GATT_CLIENT_OP_MTU => cp_count c = 0 /\ cp_value_len c = 0
    end
  else cp_count c = 0 /\ cp_value_len c = 0.
Definition event_ok (e : gatt_event) : Prop := match e with H_done c => results_ok c | _ => True end.

Section Invariant.
  Context {CB UD L U : Type} `{GattUser CB UD L U} `{FixedChannels L}.
Abbreviation client := (bt_gatt_client CB UD L).
Abbreviation W := (world client U gatt_event).
  Context (budget : U -> nat) (T : Z).
  Implicit Types (c : client) (tr past : list gatt_event) (w : W).

Definition under_way c : option bt_gatt_client_op := if gc_busy c then Some (gc_op c) else None.

(** Connect was only called while the client was disconnected and at rest. *)
Definition patient tr : Prop := H_connect true ∉ tr.

Definition timely (now : Z) : Prop := 0 <= now <= T.

(** The arguments of a call; an event comes with the manager's state. *)
Definition call_ok (a : api CB UD L) : Prop :=
  match a with
  | Connect _ _ now | Disconnect now | DiscoverServices _ _ now | Tick now => timely now
  | SetNotifyHandler _ _ => True
  | DiscoverCharacteristics s e _ _ now | DiscoverDescriptors s e _ _ now => is_u16 s /\ is_u16 e /\ timely now
  | Read h _ _ now => is_u16 h /\ timely now
  | Write h v _ _ now => is_u16 h /\ bytes v /\ timely now
  | ChannelEvent l E_closed => l2_ok l
  | ChannelEvent l (E_data data now) => l2_ok l /\ bytes data /\ timely now
  end.

(** The user's callbacks call the client as long as the budget lasts. *)
Record user_ok : Prop := {
  user_connect : forall cb b ud, pays budget call_ok (fun _ => True) (connect_fn cb b ud);
  user_complete : forall cb comp ud, pays budget call_ok (fun _ => True) (complete_fn cb comp ud);
  user_notify : forall cb h v n b ud, pays budget call_ok (fun _ => True) (notify_fn cb h v n b ud);
}.

(** What has been collected lies in the arrays. *)
Definition collected c : Prop :=
  let stored {A} (l : list A) (n max : Z) : Prop := 0 <= n <= max /\ n <= zlen l in
  match gc_op c with
  | BT_GATT_CLIENT_OP_DISCOVER_SERVICES => stored (services_of (gc_result c)) (gc_result_count c) BT_GATT_CLIENT_MAX_SERVICES
  | BT_GATT_CLIENT_OP_DISCOVER_CHARACTERISTICS =>
      stored (characteristics_of (gc_result c)) (gc_result_count c) BT_GATT_CLIENT_MAX_CHARACTERISTICS
  | BT_GATT_CLIENT_OP_DISCOVER_DESCRIPTORS =>
      stored (descriptors_of (gc_result c)) (gc_result_count c) BT_GATT_CLIENT_MAX_DESCRIPTORS
  | BT_GATT_CLIENT_OP_READ | BT_GATT_CLIENT_OP_WRITE =>
      stored (value_of (gc_result c)) (gc_result_len c) BT_GATT_CLIENT_MAX_VALUE_LEN
  | BT_GATT_CLIENT_OP_MTU => True
  end.

(** The client's operation is the history's; while one is under way, and
    while the channel is ready outside of the MTU exchange, no connect callback
    is waiting. *)
Record tidy c tr : Prop := {
  t_operations : operations tr = Some (under_way c);
  t_waiting : outstanding c = true -> gc_on_connect c = None;
  t_ready : gc_channel_ready c = true -> gc_on_connect c <> None -> gc_busy c = true /\ gc_op c = BT_GATT_CLIENT_OP_MTU;
}.

Record core c tr : Prop := {
  c_l2cap : l2_ok (gc_l2cap c);
  c_mtu : is_u16 (gc_mtu c);
  c_pending : is_u16 (gc_pending_handle c);
  c_range : is_u16 (gc_discover_range_end c);
  c_started : timely (gc_connect_started_us c);
  c_value : bytes (value_of (gc_result c));
  c_collected : gc_busy c = true -> collected c;
  c_events : Forall event_ok tr;
  c_tidy : patient tr -> tidy c tr;
}.

(** The request of the operation under way, on the wire. *)
Definition request_bytes c : list Z :=
  let range := le_enc 2 (gc_pending_handle c) ++ le_enc 2 (gc_discover_range_end c) in
  match gc_op c with
  | BT_GATT_CLIENT_OP_MTU => [2] ++ le_enc 2 BT_GATT_CLIENT_REQUEST_MTU
  | BT_GATT_CLIENT_OP_DISCOVER_SERVICES => [16] ++ range ++ le_enc 2 BT_GATT_UUID_PRIMARY_SERVICE
  | BT_GATT_CLIENT_OP_DISCOVER_CHARACTERISTICS => [8] ++ range ++ le_enc 2 BT_GATT_UUID_CHARACTERISTIC
  | BT_GATT_CLIENT_OP_DISCOVER_DESCRIPTORS => [4] ++ range
  | BT_GATT_CLIENT_OP_READ =>
      if gc_result_len c =? 0 then [10] ++ le_enc 2 (gc_pending_handle c)
      else [12] ++ le_enc 2 (gc_pending_handle c) ++ le_enc 2 (gc_result_len c)
  | BT_GATT_CLIENT_OP_WRITE =>
      [18] ++ le_enc 2 (gc_pending_handle c) ++ take (Z.to_nat (gc_result_len c)) (value_of (gc_result c))
  end.

(** A request under way is under a deadline. *)
Definition deadline_ok c : Prop :=
  gc_busy c = true -> 0 < gc_request_deadline_us c <= T + BT_GATT_CLIENT_REQUEST_TIMEOUT_US.

(** [past] is how the history began. *)
Definition I past w : Prop :=
  core (w_self w) (w_trace w) /\ deadline_ok (w_self w) /\ past `prefix_of` w_trace w.
Abbreviation ok past := (within budget (I past)).
End Invariant.

(** ** Lemmas *)

(** The length of a request. *)
Ltac wire_length := repeat progress (cbn [length app]; rewrite ?length_app, ?le_enc_length); cbn [length]; lia.

Lemma operations_snoc tr e : operations (tr ++ [e]) = op_step (operations tr) e.
Proof. unfold operations. by rewrite foldl_app. Qed.

Lemma patient_snoc tr e : patient (tr ++ [e]) <-> patient tr /\ e <> H_connect true.
Proof. unfold patient. rewrite elem_of_app, list_elem_of_singleton. naive_solver. Qed.

Lemma first_entries_spec {A} (l : list A) n : 0 <= n <= zlen l ->
  first_entries l n = Ret (take (Z.to_nat n) l) /\ zlen (take (Z.to_nat n) l) = n.
Proof.
  intros Hn. unfold first_entries, ldn. rewrite (proj2 (Z.leb_le 0 n)), (proj2 (Z.leb_le (0 + n) _)) by lia.
  split; [done|]. rewrite length_take. lia.
Qed.

Lemma put_at_spec {A} (l : list A) i a : 0 <= i <= zlen l ->
  exists l', put_at l i a = Ret l' /\ i + 1 <= zlen l' /\ take (Z.to_nat (i + 1)) l' = take (Z.to_nat i) l ++ [a].
Proof.
  intros Hi. unfold put_at. rewrite (proj2 (Z.leb_le 0 i)) by lia. replace (Z.to_nat (i + 1)) with (S (Z.to_nat i)) by lia.
  destruct (Z.ltb_spec i (zlen l)) as [Hl|Hl]; cbn [andb].
  - eexists. split; [done|]. rewrite length_insert. split; [lia|].
    rewrite (take_S_r _ _ a) by (apply list_lookup_insert_eq; lia). by rewrite take_insert_ge by lia.
  - rewrite (proj2 (Z.eqb_eq i (zlen l))) by lia. eexists. split; [done|]. rewrite length_app. cbn. split; [lia|].
    assert (Z.to_nat i = length l) as -> by lia. rewrite firstn_all, take_ge by (rewrite length_app; cbn; lia). done.
Qed.

Lemma put_value_spec u i bs : 0 <= i <= zlen (value_of u) -> i + zlen bs <= BT_GATT_CLIENT_MAX_VALUE_LEN ->
  exists v, put_value u i bs = Ret (U_value v) /\ i + zlen bs <= zlen v /\
    take (Z.to_nat (i + zlen bs)) v = take (Z.to_nat i) (value_of u) ++ bs /\
    (bytes (value_of u) -> bytes bs -> bytes v).
Proof.
  intros Hi Hl. unfold put_value. rewrite !Z.gtb_ltb, (proj2 (Z.ltb_ge _ _)), (proj2 (Z.ltb_ge _ _)) by lia.
  eexists. split; [done|]. split; [rewrite !length_app, length_take; lia|]. split.
  - rewrite (app_assoc (take _ _)). rewrite take_app_le by (rewrite length_app, length_take; lia).
    apply take_ge. rewrite length_app, length_take. lia.
  - intros Hv Hb. apply Forall_app. split; [by apply Forall_take|]. apply Forall_app. split; [done|by apply Forall_drop].
Qed.

Section Safety.
  Context {CB UD L U : Type} `{GattUser CB UD L U} `{FixedChannels L} (budget : U -> nat) (T : Z).
Abbreviation client := (bt_gatt_client CB UD L).
Abbreviation W := (world client U gatt_event).
Abbreviation at_ c u tr := ({| w_self := c; w_user := u; w_trace := tr |} : W).
Abbreviation ok past := (within budget (I T past)).
  Implicit Types (c : client) (tr past : list gatt_event) (w : W).

Lemma request_deadline_ok now : timely T now -> T <= UINT64_MAX ->
  0 < request_deadline now <= T + BT_GATT_CLIENT_REQUEST_TIMEOUT_US.
Proof.
  unfold timely, request_deadline, BT_GATT_CLIENT_REQUEST_TIMEOUT_US, UINT64_MAX. intros Hn HT.
  rewrite (u64_small (_ - now)) by lia. zcase; [lia|]. rewrite u64_small; lia.
Qed.

Lemma under_way_outstanding c : outstanding c = false -> under_way c = None \/ under_way c = Some BT_GATT_CLIENT_OP_MTU.
Proof. unfold under_way, outstanding. destruct (gc_busy c); [|by left]. case_bool_decide as E; [|done]. right. by rewrite E. Qed.

(** *** Completions *)

Lemma completion_of_ok result code c : collected c -> exists comp,
  completion_of result (gc_op c) code (gc_result c) (gc_result_count c) (gc_result_len c) = Ret comp /\
  cp_result comp = result /\ cp_op comp = gc_op c /\ results_ok comp.
Proof.
  unfold collected, completion_of, results_ok. intros Hc. case_bool_decide as Hr; cbn [negb].
  2: { eexists. split; [done|]. cbn. split; [done|]. split; [done|]. by rewrite decide_False. }
  destruct (gc_op c) eqn:Eo; try (destruct Hc as [Hn Hl];
    match goal with |- context [first_entries ?l ?n] => destruct (first_entries_spec l n) as [-> ?]; [lia|] end; cbn [obind]).
  all: eexists; split; [done|]; cbn; (split; [done|]); (split; [done|]); rewrite ?decide_True by done; eauto with lia.
Qed.

(** *** Requests *)

Lemma current_request_spec c : (exists tr, core T c tr) -> collected c -> exists req,
  current_request c = Ret req /\ writes req (request_bytes c) /\ zlen (request_bytes c) <= 515 /\ bytes (request_bytes c).
Proof.
  intros [tr []] Hcol.
  unfold is_u16 in *. unfold current_request, request_bytes, collected, BT_GATT_CLIENT_MAX_VALUE_LEN in *.
  assert (bytes (take (Z.to_nat (gc_result_len c)) (value_of (gc_result c)))) as Hv by by apply Forall_take.
  destruct (gc_op c) eqn:Eo.
  - eexists. split; [done|]. split; [unfold bt_att_encode_exchange_mtu_request; print_all|]. split; [done|concrete_bytes].
  - eexists. split; [done|]. split; [unfold bt_att_encode_read_by_group_type_request; print_all|]. split; [|bys].
    wire_length.
  - eexists. split; [done|]. split; [unfold bt_att_encode_read_by_type_request; print_all|]. split; [|bys].
    wire_length.
  - eexists. split; [done|]. split; [unfold bt_att_encode_find_information_request; print_all|]. split; [|bys].
    wire_length.
  - destruct (gc_result_len c =? 0).
    + eexists. split; [done|]. split; [unfold bt_att_encode_read_request; print_all|]. split; [|bys].
      wire_length.
    + eexists. split; [done|]. rewrite u16_small by lia.
      split; [unfold bt_att_encode_read_blob_request; print_all|]. split; [|bys].
      wire_length.
  - destruct (first_entries_spec (value_of (gc_result c)) (gc_result_len c)) as [-> Hl]; [lia|]. cbn [obind].
    eexists. split; [done|]. generalize dependent (take (Z.to_nat (gc_result_len c)) (value_of (gc_result c))). intros v Hv Hl.
    rewrite <- Hl. split; [unfold bt_att_encode_write_request; print_all|]. split; [wire_length|bys].
Qed.

Section Handlers.
  Context (call : api CB UD L -> M W bt_status) (n : nat).
  Hypothesis HT : T <= UINT64_MAX.
  Hypothesis Huser : user_ok budget T.
  Hypothesis Hcall : forall past, callable budget (I T past) (call_ok T) call n.

(** A callback, run from a good world. *)
Lemma wp_user past (p : prog U (api CB UD L) bt_status unit) w R : pays budget (call_ok T) (fun _ => True) p ->
  ok past n w -> (forall w', ok past n w' -> R tt w') -> wp (run_prog call p) w R.
Proof. intros Hp Hw HR. eapply (wp_prog budget (I T past)); [done|apply Hcall|done|done|]. intros [] w' _ Hw'. auto. Qed.

Lemma core_tidy c tr c' tr' : core T c tr ->
  l2_ok (gc_l2cap c') -> gc_mtu c' = gc_mtu c -> gc_pending_handle c' = gc_pending_handle c ->
  gc_discover_range_end c' = gc_discover_range_end c -> gc_connect_started_us c' = gc_connect_started_us c ->
  gc_result c' = gc_result c -> (gc_busy c' = true -> collected c') -> Forall event_ok tr' -> (patient tr' -> tidy c' tr') ->
  core T c' tr'.
Proof. intros [] Hl Hm Hp Hr Hs Hres Hc He Ht. constructor; try done; congruence. Qed.

Lemma complete_spec past result code c u tr : core T c tr -> gc_busy c = true -> (patient tr -> gc_on_connect c = None) ->
  (budget u <= n)%nat ->
  (forall comp, completion_of result (gc_op c) code (gc_result c) (gc_result_count c) (gc_result_len c) = Ret comp ->
     past `prefix_of` tr ++ [H_done comp]) ->
  wp (complete call result code) (at_ c u tr) (fun _ => ok past n).
Proof.
  intros Hc Hb Hn Hu Hp. unfold complete. repeat wp_step.

  destruct (completion_of_ok result code c (c_collected _ _ _ Hc Hb)) as (comp & Ec & _ & Eo & Hr).
  eapply wp_lift; [exact Ec|]. wp_step.
  assert (ok past n (at_ (set_request_deadline_us 0 (set_busy false c)) u (tr ++ [H_done comp]))) as Hok.
  { split; [|done]. split; [|by split; [|apply Hp]]. eapply core_tidy; [exact Hc|try done..].
    - by destruct Hc.
    - apply Forall_app. split; [by destruct Hc|by repeat constructor].
    - intros [Hpt _]%patient_snoc. destruct (c_tidy _ _ _ Hc Hpt) as [Ho Hw Hrdy]. constructor; cbn; [|done|by intros _ []; apply Hn].
      rewrite operations_snoc, Ho. unfold under_way. cbn. by rewrite Hb, Eo, decide_True. }
  destruct (gc_on_complete c) as [cb|]; [|by apply wp_ret].
  eapply wp_user; [apply (user_complete _ _ Huser)|exact Hok|done].
Qed.

(** Without an exact history. *)
Lemma gatt_complete_ok past result code c u tr : core T c tr -> gc_busy c = true -> (patient tr -> gc_on_connect c = None) ->
  (budget u <= n)%nat -> past `prefix_of` tr -> wp (complete call result code) (at_ c u tr) (fun _ => ok past n).
Proof. intros Hc Hb Hn Hu Hp. apply complete_spec; [done..|]. intros comp _. by apply prefix_app_r. Qed.

Lemma set_on_connect_same c : gc_on_connect c = None -> set_on_connect None c = c.
Proof. destruct c. cbn. by intros ->. Qed.

Lemma report_connect_spec past b c u tr : core T (set_on_connect None c) tr -> deadline_ok T c -> (budget u <= n)%nat ->
  past `prefix_of` tr -> wp (report_connect call b) (at_ c u tr) (fun _ => ok past n).
Proof.
  intros Hc Hd Hu Hp. unfold report_connect. wp_step. destruct (gc_on_connect c) as [cb|] eqn:Ecb.
  - do 3 wp_step. eapply wp_user; [apply (user_connect _ _ Huser)| |done]. split; [|done].
    split; [|split; [done|by apply prefix_app_r]]. eapply core_tidy; [exact Hc|try done..].
    + by destruct Hc.
    + by destruct Hc.
    + apply Forall_app. split; [by destruct Hc|by repeat constructor].
    + intros [Hpt _]%patient_snoc. destruct (c_tidy _ _ _ Hc Hpt) as [Ho _ _]. constructor; [|done..].
cbn [w_trace w_self]. by rewrite operations_snoc, Ho.
  - apply wp_ret. rewrite set_on_connect_same in Hc by done. split; [|done]. by split; [|split].
Qed.

Lemma parse_mtu_spec params : bytes params -> sat (bt_att_parse_exchange_mtu_response params (zlen params)) is_u16.
Proof.
  intros Hb. unfold bt_att_parse_exchange_mtu_response. destruct (negb _); [done|].
  apply parse_safe; [apply rspec_le16|lia|done].
Qed.

(** The MTU exchange ends: no other operation was under way. *)
Lemma handle_mtu_response_spec past opcode params c u tr : core T c tr -> (patient tr -> outstanding c = false) ->
  bytes params -> (budget u <= n)%nat -> past `prefix_of` tr ++ [H_exchanged] ->
  wp (handle_mtu_response call opcode params (zlen params)) (at_ c u tr) (fun _ => ok past n).
Proof.
  intros Hc Ho Hb Hu Hp. unfold handle_mtu_response. repeat wp_step.
  set (c' := set_request_deadline_us 0 (set_busy false c)). set (tr' := tr ++ [_]).
  assert (forall m, is_u16 m -> core T (set_on_connect None (set_mtu m c')) tr') as Hc'.
  { intros m Hm. destruct Hc. constructor; try done; [apply Forall_app; split; [done|by repeat constructor]|].
    intros [Hpt _]%patient_snoc. destruct (c_tidy0 Hpt). constructor; [|done..]. subst tr'.
    rewrite operations_snoc, t_operations0. destruct (under_way_outstanding c (Ho Hpt)) as [-> | ->]; by vm_compute. }
  apply wp_bind. assert (forall o, (forall m, o = Some m -> is_u16 m) ->
    wp (do! match o with
            | Some server_mtu =>
                set (set_mtu (if server_mtu <? BT_GATT_CLIENT_REQUEST_MTU then server_mtu else BT_GATT_CLIENT_REQUEST_MTU))
            | None => ret tt
            end in report_connect call true) (at_ c' u tr') (fun _ => ok past n)) as Hend.
  { intros [m|] Hm.
    - repeat wp_step. apply report_connect_spec; [|done..]. apply Hc'. unfold is_u16, BT_GATT_CLIENT_REQUEST_MTU in *.
      specialize (Hm m eq_refl). zcase; lia.
    - apply wp_bind, wp_ret. apply report_connect_spec; [|done..]. 
      replace c' with (set_mtu (gc_mtu c) c') by by destruct c. apply Hc'. by destruct Hc. }
  destruct (opcode =? _); [|by apply wp_ret, (Hend None)].
  pose proof (parse_mtu_spec params Hb) as Hs. destruct (bt_att_parse_exchange_mtu_response _ _) as [m|e|]; [..|done].
  - apply wp_ret, (Hend (Some m)). by intros ? [= <-].
  - by apply wp_ret, (Hend None).
Qed.

(** Sending the request of the operation under way. *)
Lemma issue_run now c u tr : core T c tr -> collected c ->
  exists o l, l2_send BT_L2CAP_CID_ATT (request_bytes c) (zlen (request_bytes c)) (gc_l2cap c) = (o, l) /\ l2_ok l /\
  issue_current_request call now (at_ c u tr) =
    (if bool_decide (o = Ret tt)
     then ret tt (at_ (set_request_deadline_us (request_deadline now) (set_l2cap l c)) u (tr ++ [H_out (request_bytes c)]))
     else (if decide (gc_op c = BT_GATT_CLIENT_OP_MTU) then handle_mtu_response call 0 [] 0
           else complete call BT_GATT_CLIENT_ERROR_CLOSED 0) (at_ (set_l2cap l c) u (tr ++ [H_out (request_bytes c)]))).
Proof.
  intros Hc Hcol. destruct (current_request_spec c (ex_intro _ tr Hc) Hcol) as (req & Ereq & Hw & Hl & Hb).
  destruct (l2_send_ok BT_L2CAP_CID_ATT (request_bytes c) (gc_l2cap c)) as (o & l & Es & Ho & Hl'); [by destruct Hc|done|].
  exists o, l. split; [done|]. split; [done|]. unfold issue_current_request.
  unfold get. rewrite bind_gets. cbn [w_self]. change (id c) with c. rewrite Ereq, bind_lift.
  rewrite (bind_eq _ _ _ _ _ (encode_run (3 + BT_GATT_CLIENT_MAX_VALUE_LEN) req _ _ Hw Hl)). cbn [fst snd].
  rewrite decide_False by (intros []; done). unfold emit. erewrite bind_eq; [|reflexivity].
  erewrite bind_eq; [|apply try_run; [|exact Ho]; unfold on_l2cap; cbn [w_self]; by rewrite Es].
  destruct (bool_decide (o = Ret tt)) eqn:Eo; cbn [negb]; done.
Qed.

Lemma core_sent c tr l pdu : core T c tr -> l2_ok l -> core T (set_l2cap l c) (tr ++ [H_out pdu]).
Proof.
  intros Hc Hl. eapply core_tidy; [exact Hc|done..| | |].
  - apply (c_collected _ _ _ Hc).
  - apply Forall_app. split; [by destruct Hc|by repeat constructor].
  - intros [Hpt _]%patient_snoc. destruct (c_tidy _ _ _ Hc Hpt) as [Ho ? ?]. constructor; [|done..].
    by rewrite operations_snoc, Ho.
Qed.

Lemma outstanding_mtu c : gc_op c = BT_GATT_CLIENT_OP_MTU -> outstanding c = false.
Proof. intros Em. unfold outstanding. rewrite Em. by destruct (gc_busy c). Qed.
Lemma outstanding_op c : gc_busy c = true -> gc_op c <> BT_GATT_CLIENT_OP_MTU -> outstanding c = true.
Proof. intros Hb Em. unfold outstanding. rewrite Hb. by rewrite bool_decide_false. Qed.
Lemma outstanding_rest c : outstanding c = true -> gc_busy c = true /\ gc_op c <> BT_GATT_CLIENT_OP_MTU.
Proof. unfold outstanding. intros [Hb Ho]%andb_true_iff. split; [done|]. by apply negb_true_iff, bool_decide_eq_false in Ho. Qed.

Lemma issue_spec past now c u tr : core T c tr -> gc_busy c = true -> timely T now -> (budget u <= n)%nat ->
  past `prefix_of` tr -> wp (issue_current_request call now) (at_ c u tr) (fun _ => ok past n).
Proof.
  intros Hc Hb Hn Hu Hp. destruct (issue_run now c u tr Hc) as (o & l & _ & Hl & E); [by apply (c_collected _ _ _ Hc)|].
  unfold wp. rewrite E. clear E. pose proof (core_sent c tr l (request_bytes c) Hc Hl) as Hc'.
  case_bool_decide.
  { eexists _, _. split; [done|]. split; [|done]. split; [|split; [|by apply prefix_app_r]].
    - destruct Hc'. constructor; try done. intros Hpt. destruct (c_tidy0 Hpt). by constructor.
    - intros _. cbn. by apply request_deadline_ok. }
  case_decide as Em.
  - apply (handle_mtu_response_spec past 0 []); [done| |done|done|by do 2 apply prefix_app_r]. intros _. by apply outstanding_mtu.
  - apply gatt_complete_ok; [done|done| |done|by apply prefix_app_r]. intros Hpt. apply (t_waiting _ _ (c_tidy _ _ _ Hc' Hpt)).
    by apply outstanding_op.
Qed.

(** *** Discovery *)

(** The loop, as a recursion over the entries it reads. *)
Fixpoint each {E B} (body : B -> E -> M W (option B)) (l : list E) (acc : B) : M W (option B) :=
  match l with
  | [] => ret (Some acc)
  | entry :: l =>
      let! r := body acc entry in
      match r with
      | Some acc => each body l acc
      | None => ret None
      end
  end.

Lemma while_each {E B} (next : M bt_att_iter E) (body : B -> E -> M W (option B)) fuel l e : forall it acc w,
  drain next fuel it = (l, Fail e) -> while_next next body fuel it acc w = each body l acc w.
Proof.
  revert l. induction fuel as [|fuel IH]; intros l it acc w Hd; [done|]. cbn [drain while_next] in *.
  destruct (next it) as [[a|e'|] it'].
  - destruct (drain next fuel it') as [l' o] eqn:Hd'. injection Hd as <- ->. cbn [each]. unfold bind.
    destruct (body acc a w) as [[[acc'|]|e'|] w']; try done. by apply IH.
  - by injection Hd as <- _.
  - by injection Hd.
Qed.

Lemma wp_each {E B} (P : E -> Prop) (J : B -> W -> Prop) (Q : option B -> W -> Prop) body l : forall acc w,
  (forall acc x w, J acc w -> P x -> wp (body acc x) w (fun r w' => match r with Some acc' => J acc' w' | None => Q None w' end)) ->
  Forall P l -> J acc w -> (forall acc w, J acc w -> Q (Some acc) w) -> wp (each body l acc) w Q.
Proof.
  intros acc w Hb Hl. revert acc w. induction Hl as [|x l Hx Hl IH]; intros acc w HJ HQ; [by apply wp_ret, HQ|].
  cbn [each]. apply wp_bind. eapply wp_mono; [by apply Hb|]. intros [acc'|] w' Hw'; [by apply IH|by apply wp_ret].
Qed.

(** What a discovery collects leaves everything else as it is. *)
Lemma core_collect c tr l k : core T c tr -> bytes (value_of l) -> collected (set_result l (set_result_count k c)) ->
  core T (set_result l (set_result_count k c)) tr.
Proof.
  intros Hc Hl Hk. destruct Hc. constructor; try done. intros Hpt. destruct (c_tidy0 Hpt). by constructor.
Qed.

(** In the middle of a discovery response. *)
Definition discovering past op c0 u tr (acc : bool * Z) w : Prop :=
  exists c, w = at_ c u tr /\ core T c tr /\ gc_busy c = true /\ gc_op c = op /\ deadline_ok T c /\
    gc_discover_range_end c = gc_discover_range_end c0 /\ is_u16 acc.2 /\ (budget u <= n)%nat /\ past `prefix_of` tr.

Lemma waiting_none c tr : core T c tr -> gc_busy c = true -> gc_op c <> BT_GATT_CLIENT_OP_MTU -> patient tr -> gc_on_connect c = None.
Proof. intros Hc Hb Ho Hpt. apply (t_waiting _ _ (c_tidy _ _ _ Hc Hpt)). by apply outstanding_op. Qed.

(** An operation under way may complete. *)
Lemma gatt_finish_ok past result code c u tr : core T c tr -> gc_busy c = true -> gc_op c <> BT_GATT_CLIENT_OP_MTU -> (budget u <= n)%nat ->
  past `prefix_of` tr -> wp (complete call result code) (at_ c u tr) (fun _ => ok past n).
Proof. intros Hc Hb Ho Hu Hp. apply gatt_complete_ok; [done..| |done|done]. by apply waiting_none. Qed.

(** The entries of operation [op] are kept in [items]. *)
Definition collects {A} op max (full : Z -> bool) (items : gatt_result -> list A) (wrap : list A -> gatt_result) : Prop :=
  op <> BT_GATT_CLIENT_OP_MTU /\ (forall n, n <= max -> full n = (max <=? n)) /\ (forall l, items (wrap l) = l /\ value_of (wrap l) = []) /\
  forall c, gc_op c = op -> collected c <-> (0 <= gc_result_count c <= max /\ gc_result_count c <= zlen (items (gc_result c))).

Ltac collects_tac := split; [done|]; split; [intros n_ Hn_; rewrite ?Z.geb_leb; try done; destruct (Z.eqb_spec n_ BT_GATT_CLIENT_MAX_DESCRIPTORS),
  (Z.leb_spec BT_GATT_CLIENT_MAX_DESCRIPTORS n_); lia|]; split; [done|]; intros c_ Ho_; unfold collected; by rewrite Ho_.
Lemma collects_services : collects BT_GATT_CLIENT_OP_DISCOVER_SERVICES BT_GATT_CLIENT_MAX_SERVICES
  (fun count => count >=? BT_GATT_CLIENT_MAX_SERVICES) services_of U_services.
Proof. collects_tac. Qed.
Lemma collects_characteristics : collects BT_GATT_CLIENT_OP_DISCOVER_CHARACTERISTICS BT_GATT_CLIENT_MAX_CHARACTERISTICS
  (fun count => count >=? BT_GATT_CLIENT_MAX_CHARACTERISTICS) characteristics_of U_characteristics.
Proof. collects_tac. Qed.
Lemma collects_descriptors : collects BT_GATT_CLIENT_OP_DISCOVER_DESCRIPTORS BT_GATT_CLIENT_MAX_DESCRIPTORS
  (fun count => count =? BT_GATT_CLIENT_MAX_DESCRIPTORS) descriptors_of U_descriptors.
Proof. collects_tac. Qed.

Abbreviation goes_on J past := (fun r w => match r with Some acc => J acc w | None => ok past n w end).

Lemma add_entry_spec {A} past op max full items wrap (item : A) last c0 u tr acc w : collects op max full items wrap -> is_u16 last ->
  discovering past op c0 u tr acc w ->
  wp (add_entry call full items wrap (Ret item) last) w (goes_on (discovering past op c0 u tr) past).
Proof.
  intros (Hop & Hfull & Hwrap & Hcol) Hlast (c & -> & Hc & Hb & Ho & Hd & Hr & Ha & Hu & Hp). unfold add_entry. wp_step.
  pose proof (proj1 (Hcol c Ho) (c_collected _ _ _ Hc Hb)) as [Hn Hl]. rewrite Hfull by lia. destruct (Z.leb_spec max (gc_result_count c)).
  { apply wp_bind. eapply wp_mono; [apply gatt_finish_ok; [exact Hc|done|congruence|done|done]|]. intros [] w Hw. by apply wp_ret. }
  apply wp_bind, wp_ret. destruct (put_at_spec (items (gc_result c)) (gc_result_count c) item) as (l & El & Hl' & _); [lia|].
  destruct (Hwrap l) as [Hi Hv]. eapply wp_lift; [exact El|]. repeat wp_step. apply wp_ret.
  eexists. split; [done|]. split; [|done]. apply core_collect; [done|by rewrite Hv|]. apply Hcol; [done|]. cbn. rewrite Hi. lia.
Qed.

Lemma skip_entry_spec past op last c0 u tr acc w : is_u16 last -> discovering past op c0 u tr acc w ->
  wp (ret (Some (true, last))) w (goes_on (discovering past op c0 u tr) past).
Proof. intros Hlast (c & -> & Hc & Hb & Ho & Hd & Hr & _ & Hp). apply wp_ret. by exists c. Qed.

Lemma discovery_response_spec {E} past (P : E -> Prop) opcode expected it (next : M bt_att_iter E) len body finished now c u tr :
  ((exists e, it = Fail e) \/ exists it' l e, it = Ret it' /\ drain next (S (Z.to_nat len)) it' = (l, Fail e) /\ Forall P l) ->
  (forall acc x w, discovering past (gc_op c) c u tr acc w -> P x ->
     wp (body acc x) w (goes_on (discovering past (gc_op c) c u tr) past)) ->
  core T c tr -> gc_busy c = true -> gc_op c <> BT_GATT_CLIENT_OP_MTU -> deadline_ok T c -> timely T now -> (budget u <= n)%nat ->
  past `prefix_of` tr ->
  wp (discovery_response call opcode expected it next len body finished now) (at_ c u tr) (fun _ => ok past n).
Proof.
  intros Hit Hbody Hc Hb Ho Hd Hn Hu Hp. unfold discovery_response. wp_step.
  destruct (negb _); [by apply gatt_finish_ok|]. apply wp_bind.
  destruct Hit as [[e ->]|(it' & l & e & -> & Hdr & Hl)]; apply wp_ret; [by apply gatt_finish_ok|]. apply wp_bind.
  unfold wp at 1. rewrite (while_each _ _ _ _ _ _ _ _ Hdr).
  change (wp (each body l (false, gc_pending_handle c)) (at_ c u tr) (fun r w => wp (match r with
    | None => ret tt
    | Some (any, last) =>
        if negb any then complete call BT_GATT_CLIENT_ERROR_PROTOCOL 0 else
        if finished c last then complete call BT_GATT_CLIENT_OK 0 else
        do! set (set_pending_handle (u16 (last + 1))) in issue_current_request call now end) w (fun _ => ok past n))).
  eapply (wp_each P (discovering past (gc_op c) c u tr)); [|exact Hl| |].
  - intros acc x w Hw Hx. eapply wp_mono; [by apply Hbody|]. intros [acc'|] w' Hw'; [done|by apply wp_ret].
  - exists c. repeat (split; [done|]). split; [by destruct Hc|done].
  - clear l Hl Hdr. intros [any last] w (c' & -> & Hc' & Hb' & Ho' & Hd' & _ & Hlast & _).
    destruct (negb any); [apply gatt_finish_ok; congruence|]. destruct (finished c last); [apply gatt_finish_ok; congruence|].
    repeat wp_step. apply issue_spec; [|done..]. destruct Hc'. constructor; try done.
    + unfold is_u16. apply Z.mod_pos_bound. lia.
    + intros Hpt. destruct (c_tidy0 Hpt). by constructor.
Qed.

(** *** The responses *)

Lemma le16_at v i : bytes v -> 0 <= i -> i + 2 <= zlen v ->
  bt_read_le16 v i = Ret (le_dec (take 2 (drop (Z.to_nat i) v))).
Proof.
  intros Hb Hi Hl.
  assert (v = take (Z.to_nat i) v ++ take 2 (drop (Z.to_nat i) v) ++ drop 2 (drop (Z.to_nat i) v)) as Ev
    by by rewrite !take_drop.
  assert (zlen (take (Z.to_nat i) v) = i) as Ei by (rewrite length_take; lia).
  pose proof (bt_read_le16_spec (take (Z.to_nat i) v) (take 2 (drop (Z.to_nat i) v)) (drop 2 (drop (Z.to_nat i) v))) as E.
  rewrite <- Ev, Ei in E. apply E; [rewrite length_take, length_drop; lia|]. by apply Forall_take, Forall_drop.
Qed.

(** A part of a value that is read. *)
Lemma read_response_run params now c u tr opcode : core T c tr -> gc_busy c = true -> bytes params -> gc_op c = BT_GATT_CLIENT_OP_READ ->
  opcode = (if gc_result_len c =? 0 then BT_ATT_OPCODE_READ_RESPONSE else BT_ATT_OPCODE_READ_BLOB_RESPONSE) ->
  zlen params <= BT_GATT_CLIENT_MAX_VALUE_LEN - gc_result_len c ->
  exists v, let c' := set_result_len (gc_result_len c + zlen params) (set_result v c) in
    handle_read_response call opcode params (zlen params) now (at_ c u tr) =
      (if zlen params =? u32 (gc_mtu c - 1) then issue_current_request call now else complete call BT_GATT_CLIENT_OK 0) (at_ c' u tr) /\
    core T c' tr /\
    take (Z.to_nat (gc_result_len c + zlen params)) (value_of v) = take (Z.to_nat (gc_result_len c)) (value_of (gc_result c)) ++ params.
Proof.
  intros Hc Hbusy Hparams Ho Eop Hl. pose proof (c_collected _ _ _ Hc Hbusy) as Hcol. unfold collected in Hcol. rewrite Ho in Hcol. cbv zeta in Hcol.
  assert (exists v, (if zlen params >? 0
     then let! u := lift (let? bs := ldn params 0 (zlen params) in put_value (gc_result c) (gc_result_len c) bs) in set (set_result u)
     else ret tt) (at_ c u tr) = (Ret tt, at_ (set_result v c) u tr) /\ bytes (value_of v) /\
     gc_result_len c + zlen params <= zlen (value_of v) /\
     take (Z.to_nat (gc_result_len c + zlen params)) (value_of v) = take (Z.to_nat (gc_result_len c)) (value_of (gc_result c)) ++ params)
    as (v & Eput & Hv & Hz & Htake).
  { rewrite Z.gtb_ltb. destruct (Z.ltb_spec 0 (zlen params)).
    - rewrite ldn_whole. cbn [obind]. destruct (put_value_spec (gc_result c) (gc_result_len c) params) as (v & -> & Hz & Ht & Hb); [lia|lia|].
      exists (U_value v). split; [done|]. split; [|done]. apply Hb; [by destruct Hc|done].
    - exists (gc_result c). split; [by destruct c|]. split; [by destruct Hc|]. split; [lia|].
      destruct params; [|cbn [length] in *; lia]. by rewrite app_nil_r, Z.add_0_r. }
  exists v. cbv zeta. split; [|split; [|done]].
  - unfold handle_read_response, BT_GATT_CLIENT_MAX_VALUE_LEN, get in *. rewrite bind_gets. cbn [w_self]. change (id c) with c. cbv zeta.
    rewrite Eop, Z.eqb_refl, u64_small, Z.gtb_ltb, (proj2 (Z.ltb_ge _ _)) by lia. cbn [negb].
    rewrite (bind_eq _ _ _ _ _ Eput). unfold set at 1, modify, bind. world_simpl.
    destruct (zlen params =? u32 _); [|done]. unfold UINT16_MAX. rewrite Z.gtb_ltb, (proj2 (Z.ltb_ge _ _)) by lia. done.
  - destruct Hc. constructor; try done.
    + intros _. unfold collected. cbn. rewrite Ho. lia.
    + intros Hpt. destruct (c_tidy0 Hpt). by constructor.
Qed.

Section Response.
  Context (past : list gatt_event) (params : list Z) (now : Z) (c : client) (u : U) (tr : list gatt_event).
  Hypothesis Hc : core T c tr.
  Hypothesis Hbusy : gc_busy c = true.
  Hypothesis Hd : deadline_ok T c.
  Hypothesis Hparams : bytes params.
  Hypothesis Hnow : timely T now.
  Hypothesis Hu : (budget u <= n)%nat.
  Hypothesis Hp : past `prefix_of` tr.

Lemma iterated {E} (init : outcome bt_att_iter) (next : M bt_att_iter E) (ok_ : Z -> E -> Prop) :
  (exists e, init = Fail e) \/ (exists it l e, init = Ret it /\ drain next (S (Z.to_nat (zlen params))) it = (l, Fail e) /\
     Forall (ok_ (it_entry_len it)) l) ->
  (exists e, init = Fail e) \/ (exists it l e, init = Ret it /\ drain next (S (Z.to_nat (zlen params))) it = (l, Fail e) /\
     Forall (fun x => exists k, ok_ k x) l).
Proof.
  intros [He|(it & l & e & Ei & Hdr & Hl)]; [by left|]. right. exists it, l, e. split; [done|]. split; [done|].
  eapply Forall_impl; [exact Hl|]. eauto.
Qed.

Lemma services_response_ok opcode : gc_op c = BT_GATT_CLIENT_OP_DISCOVER_SERVICES ->
  wp (handle_discover_services_response call opcode params (zlen params) now) (at_ c u tr) (fun _ => ok past n).
Proof.
  intros Ho. unfold handle_discover_services_response. eapply (discovery_response_spec past (fun x => exists k, group_ok k x));
    [apply iterated, (list_iter_safe _ _ _ group_next_safe); [lia|done]| |done|done|congruence|done..].
  rewrite Ho. intros acc x w Hw (k & Hh & Hg & Hb & Hl & _). destruct (Z.eqb_spec (ge_value_len x) 2) as [E2|].
  - rewrite le16_at by (done || lia). cbn [obind]. eapply add_entry_spec; [apply collects_services|done..].
  - by eapply skip_entry_spec.
Qed.

Lemma characteristics_response_ok opcode : gc_op c = BT_GATT_CLIENT_OP_DISCOVER_CHARACTERISTICS ->
  wp (handle_discover_characteristics_response call opcode params (zlen params) now) (at_ c u tr) (fun _ => ok past n).
Proof.
  intros Ho. unfold handle_discover_characteristics_response. eapply (discovery_response_spec past (fun x => exists k, type_ok k x));
    [apply iterated, (list_iter_safe _ _ _ type_next_safe); [lia|done]| |done|done|congruence|done..].
  rewrite Ho. intros acc x w Hw (k & Hh & Hb & Hl & _). destruct (Z.eqb_spec (te_value_len x) 5) as [E5|].
  - rewrite !le16_at by (done || lia). destruct (te_value x) as [|p v]; [cbn in Hl; lia|]. cbn [obind ld Z.leb Z.to_nat].
    eapply add_entry_spec; [apply collects_characteristics|done..].
  - by eapply skip_entry_spec.
Qed.

Lemma descriptors_response_ok opcode : gc_op c = BT_GATT_CLIENT_OP_DISCOVER_DESCRIPTORS ->
  wp (handle_discover_descriptors_response call opcode params (zlen params) now) (at_ c u tr) (fun _ => ok past n).
Proof.
  intros Ho. unfold handle_discover_descriptors_response. eapply (discovery_response_spec past (fun x => exists k, info_ok k x));
    [apply iterated, info_iter_safe; [lia|done]| |done|done|congruence|done..].
  rewrite Ho. intros acc x w Hw (k & Hh & Hb & Hl & _). destruct (Z.eqb_spec (ie_uuid_len x) 2) as [E2|].
  - rewrite le16_at by (done || lia). cbn [obind]. eapply add_entry_spec; [apply collects_descriptors|done..].
  - by eapply skip_entry_spec.
Qed.
Lemma read_response_ok opcode : gc_op c = BT_GATT_CLIENT_OP_READ ->
  wp (handle_read_response call opcode params (zlen params) now) (at_ c u tr) (fun _ => ok past n).
Proof.
  intros Ho. assert (forall r code, wp (complete call r code) (at_ c u tr) (fun _ => ok past n)) as Hfin
    by (intros; apply gatt_finish_ok; congruence).
  destruct (decide (opcode = if gc_result_len c =? 0 then BT_ATT_OPCODE_READ_RESPONSE else BT_ATT_OPCODE_READ_BLOB_RESPONSE)) as [Eop|Hne].
  2: { unfold handle_read_response. wp_step. cbv zeta. rewrite (proj2 (Z.eqb_neq _ _)) by done. apply Hfin. }
  destruct (Z.le_gt_cases (zlen params) (BT_GATT_CLIENT_MAX_VALUE_LEN - gc_result_len c)) as [Hl|Hl].
  - destruct (read_response_run params now c u tr opcode Hc Hbusy Hparams Ho Eop Hl) as (v & E & Hc' & _). unfold wp. rewrite E.
    destruct (zlen params =? _); [by apply issue_spec|apply gatt_finish_ok; cbn; congruence].
  - pose proof (c_collected _ _ _ Hc Hbusy) as Hcol. unfold collected in Hcol. rewrite Ho in Hcol. cbv zeta in Hcol.
    unfold handle_read_response, BT_GATT_CLIENT_MAX_VALUE_LEN in *. wp_step. cbv zeta. rewrite Eop, Z.eqb_refl, u64_small by lia. cbn [negb].
    rewrite Z.gtb_ltb, (proj2 (Z.ltb_lt _ _)) by lia. apply Hfin.
Qed.

Lemma error_response_ok : gc_op c <> BT_GATT_CLIENT_OP_MTU \/ gc_on_connect c = None ->
  wp (handle_error_response call params (zlen params)) (at_ c u tr) (fun _ => ok past n).
Proof.
  intros Ho. assert (forall r code, wp (complete call r code) (at_ c u tr) (fun _ => ok past n)) as Hfin.
  { intros. apply gatt_complete_ok; [done..| |done|done]. intros Hpt. destruct Ho; [by eapply waiting_none|done]. }
  unfold handle_error_response. wp_step. apply wp_bind.
  assert (bt_att_parse_error_response params (zlen params) <> Fault) as Hf.
  { assert (sat (bt_att_parse_error_response params (zlen params)) (fun _ => True)) as Hs; [|by intros E; rewrite E in Hs].
    unfold bt_att_parse_error_response. destruct (negb _); [done|]. apply parse_safe; [|lia|done].
    eapply rspec_bind; [apply rspec_u8|]. intros ? _. eapply rspec_bind; [apply rspec_le16|]. intros ? _.
    eapply rspec_bind; [apply rspec_u8|]. intros ? _. by apply rspec_ret. }
  destruct (bt_att_parse_error_response params (zlen params)) as [err|e|]; [|apply wp_ret, Hfin|done].
  apply wp_ret. destruct (_ && _); [apply Hfin|]. destruct (_ && _); apply Hfin.
Qed.

End Response.

(** A send whose status nobody looks at. *)
Lemma send_quietly past pdu c u tr w0 (R : unit -> W -> Prop) : w0 = at_ c u tr -> core T c tr -> deadline_ok T c -> bytes pdu ->
  (budget u <= n)%nat -> past `prefix_of` tr -> (forall w, ok past n w -> R tt w) ->
  wp (do! emit (H_out pdu) in
      do! try (on_l2cap (l2_send BT_L2CAP_CID_ATT pdu (zlen pdu))) in
      ret tt) w0 R.
Proof.
  intros -> Hc Hd Hb Hu Hp HR. wp_step. apply wp_bind.
  destruct (l2_send_ok BT_L2CAP_CID_ATT pdu (gc_l2cap c)) as (o & l & Es & Ho & Hl); [by destruct Hc|done|].
  unfold wp at 1. erewrite try_run; [|unfold on_l2cap; cbn [w_self]; by rewrite Es|done].
  eexists _, _. split; [done|]. apply wp_ret, HR. split; [|done]. split; [by apply core_sent|]. split; [done|].
  by apply prefix_app_r.
Qed.

Lemma handle_value_ok past opcode params w : ok past n w -> bytes params ->
  wp (handle_value call opcode params (zlen params)) w (fun _ => ok past n).
Proof.
  intros Hw Hb. unfold handle_value. apply wp_bind.
  assert (bt_att_parse_handle_value params (zlen params) <> Fault) as Hf.
  { assert (sat (bt_att_parse_handle_value params (zlen params)) (fun _ => True)) as Hs; [|by intros E; rewrite E in Hs].
    unfold bt_att_parse_handle_value. destruct (_ <? _); [done|]. apply parse_safe; [|lia|done].
    eapply rspec_bind; [apply rspec_le16|]. intros ? _. eapply rspec_bind; [apply rspec_gets_remaining|]. intros k Hk.
    eapply rspec_bind; [by apply rspec_peek|]. intros ? _. by apply rspec_ret. }
  assert (forall hv, wp (let! on_notify := get gc_on_notify in
    do! (match hv, on_notify with
         | Some hv, Some on_notify =>
             let! ud := get gc_notify_user_data in
             let is_indication := opcode =? BT_ATT_OPCODE_HANDLE_VALUE_INDICATION in
             do! emit (H_notify (hv_handle hv) (hv_value hv) is_indication) in
             run_prog call (notify_fn on_notify (hv_handle hv) (hv_value hv) (hv_value_len hv) is_indication ud)
         | _, _ => ret tt
         end) in
    if opcode =? BT_ATT_OPCODE_HANDLE_VALUE_INDICATION then
      let! e := encode_into 1 bt_att_encode_handle_value_confirmation in
      do! emit (H_out e.2) in
      do! try (on_l2cap (l2_send BT_L2CAP_CID_ATT e.2 (zlen e.2))) in
      ret tt
    else ret tt) w (fun _ => ok past n)) as Hrest.
  { intros hv. wp_step. apply wp_bind. destruct w as [c u tr]. destruct Hw as [(Hc & Hd & Hp) Hu]. cbn [w_self w_user w_trace] in *.
    eapply (wp_mono _ _ (fun _ => ok past n)).
    - assert (ok past n (at_ c u tr)) as Hw by by split.
      destruct hv as [hv|], (gc_on_notify c) as [cb|]; try by apply wp_ret.
      repeat wp_step. eapply wp_user; [apply (user_notify _ _ Huser)| |done]. split; [|done]. split; [|split; [done|by apply prefix_app_r]].
      eapply core_tidy; [exact Hc|try done..]; [by destruct Hc|apply (c_collected _ _ _ Hc)| |].
      + apply Forall_app. split; [by destruct Hc|by repeat constructor].
      + intros [Hpt _]%patient_snoc. destruct (c_tidy _ _ _ Hc Hpt) as [Ho ? ?]. constructor; [|done..]. 
        cbn [w_trace w_self]. by rewrite operations_snoc, Ho.
    - intros [] w' Hw'. destruct (opcode =? _); [|by apply wp_ret].
      apply (wp_encode 1 _ [30]); [apply (writes_u8 30)|done|]. cbn [fst snd]. destruct w' as [c' u' tr'].
      destruct Hw' as [(Hc' & Hd' & Hp') Hu']. eapply send_quietly; [reflexivity|try done..]. concrete_bytes. }
  destruct (bt_att_parse_handle_value params (zlen params)) as [hv|e|]; [apply wp_ret, (Hrest (Some hv))|apply wp_ret, (Hrest None)|done].
Qed.

Lemma handle_response_ok past data now c u tr : core T c tr -> deadline_ok T c -> bytes data -> timely T now -> (budget u <= n)%nat ->
  past `prefix_of` tr -> wp (handle_response call data (zlen data) now) (at_ c u tr) (fun _ => ok past n).
Proof.
  intros Hc Hd Hb Hn Hu Hp. unfold handle_response. destruct (Z.ltb_spec (zlen data) 1) as [|Hl]; [by apply wp_ret|].
  destruct data as [|opcode params]; [done|]. wp_step. rewrite ld_cons_0. eapply wp_lift; [reflexivity|]. cbv zeta.
  cbn [drop]. replace (zlen (opcode :: params) - 1) with (zlen params) by (cbn [length]; lia).
  apply Forall_cons in Hb as [_ Hb].
  set (c' := set_event_now_us now c). assert (core T c' tr) as Hc'.
  { destruct Hc. constructor; try done. intros Hpt. destruct (c_tidy0 Hpt). by constructor. }
  destruct (_ || _); [by apply handle_value_ok|]. wp_step. case_bool_decide as Hcb.
  { apply handle_mtu_response_spec; try (done || by apply prefix_app_r). intros Hpt. destruct (outstanding c') eqn:Eo; [|done].
    by destruct (Hcb (t_waiting _ _ (c_tidy _ _ _ Hc' Hpt) Eo)). }
  destruct (gc_busy c') eqn:Ebusy; cbn [negb]; [|by apply wp_ret].
  destruct (opcode =? _); [apply error_response_ok; try done; by right|].
  destruct (gc_op c') eqn:Eo.
  - by apply wp_ret.
  - by apply services_response_ok.
  - by apply characteristics_response_ok.
  - by apply descriptors_response_ok.
  - by apply read_response_ok.
  - unfold handle_write_response. destruct (negb _); apply gatt_finish_ok; congruence.
Qed.

(** *** The calls *)

(** What the link's state is, apart from the operations. *)
Definition same_link c c' : Prop :=
  gc_l2cap c' = gc_l2cap c /\ gc_mtu c' = gc_mtu c /\ gc_channel_ready c' = gc_channel_ready c /\
  gc_on_connect c' = gc_on_connect c /\ gc_connect_started_us c' = gc_connect_started_us c.

Lemma on_opened_ok past c u tr : core T c tr -> (patient tr -> outstanding c = false) -> (budget u <= n)%nat ->
  past `prefix_of` tr -> wp (on_opened call) (at_ c u tr) (fun _ => ok past n).
Proof.
  intros Hc Ho Hu Hp. unfold on_opened. apply wp_emit. do 3 (apply wp_set; world_simpl). apply wp_get. world_simpl.
  apply issue_spec; [|done|by destruct Hc|done|by apply prefix_app_r].
  destruct Hc. constructor; try done; [apply Forall_app; split; [done|by repeat constructor]|].
  intros [Hpt _]%patient_snoc. destruct (c_tidy0 Hpt). constructor; [|done..].
  rewrite operations_snoc, t_operations0. destruct (under_way_outstanding c (Ho Hpt)) as [-> | ->]; by vm_compute.
Qed.

Lemma on_closed_ok past c u tr : core T c tr -> deadline_ok T c -> (budget u <= n)%nat -> past `prefix_of` tr ->
  wp (on_closed call) (at_ c u tr) (fun _ => ok past n).
Proof.
  intros Hc Hd Hu Hp. unfold on_closed. repeat wp_step. set (c' := set_channel_ready false c).
  assert (forall o, o = None \/ o = gc_on_connect c -> core T (set_on_connect o c') tr) as Hc'.
  { intros o Ho. destruct Hc. constructor; try done. intros Hpt. destruct (c_tidy0 Hpt). constructor; [done| |done].
    intros Hout. destruct Ho as [->| ->]; [done|]. by apply t_waiting0. }
  case_bool_decide as Hcb; [by apply report_connect_spec; [apply Hc'; left|..]|].
  assert (core T c' tr) as Hc'' by (replace c' with (set_on_connect (gc_on_connect c) c') by done; apply Hc'; by right).
  destruct (gc_busy c') eqn:Eb; [by apply gatt_complete_ok|]. apply wp_ret. split; [|done]. split; [done|]. by split.
Qed.

Lemma connect_ok past cb ud now c u tr : core T c tr -> deadline_ok T c -> timely T now -> (budget u <= n)%nat -> past `prefix_of` tr ->
  wp (bt_gatt_client_connect call cb ud now) (at_ c u tr) (fun _ => ok past n).
Proof.
  intros Hc Hd Hn Hu Hp. unfold bt_gatt_client_connect. repeat wp_step.
  set (c' := set_connect_started_us now _). set (tr' := tr ++ [_]). 
  assert (core T c' tr' /\ (patient tr' -> outstanding c' = false)) as [Hc' Ho].
  { assert (patient tr' -> tidy c' tr' /\ outstanding c' = false) as Ht.
    { intros [Hpt Hne]%patient_snoc. destruct (gc_channel_ready c) eqn:Er; [done|]. destruct (outstanding c) eqn:Eo; [done|].
      split; [|done]. destruct (c_tidy _ _ _ Hc Hpt) as [Hop _ _]. constructor.
      - subst tr'. by rewrite operations_snoc, Hop.
      - change (outstanding c') with (outstanding c). by rewrite Eo.
      - change (gc_channel_ready c') with (gc_channel_ready c). by rewrite Er. }
    split; [|intros; by apply Ht]. destruct Hc. constructor; try done; [|intros; by apply Ht].
    apply Forall_app. split; [done|by repeat constructor]. }
  assert (past `prefix_of` tr') as Hp' by by apply prefix_app_r.
  apply wp_bind. destruct (l2_open_fixed_ok BT_L2CAP_CID_ATT (gc_l2cap c')) as (o & l & Es & Hf & Hl); [by destruct Hc'|].
  unfold wp at 1. erewrite try_run; [|unfold on_l2cap; cbn [w_self]; by rewrite Es|done].
  assert (core T (set_l2cap l c') tr') as Hc''.
  { destruct Hc'. constructor; try done. intros Hpt. destruct (c_tidy0 Hpt). by constructor. }
  eexists _, _. split; [done|]. world_simpl. destruct o as [x|e|]; [| |done].
  - apply wp_bind. eapply wp_mono; [by eapply (on_opened_ok past)|]. intros [] w Hw. by apply wp_ret.
  - apply wp_ret. split; [|done]. by split.
Qed.

Lemma disconnect_ok past now w : ok past n w -> timely T now -> wp (bt_gatt_client_disconnect call now) w (fun _ => ok past n).
Proof.
  destruct w as [c u tr]. intros [(Hc & Hd & Hp) Hu] Hn. cbn [w_self w_user w_trace] in *. unfold bt_gatt_client_disconnect.
  wp_step. apply wp_bind. eapply (wp_mono _ _ (fun _ => ok past n)).
  - destruct (gc_channel_ready c); [|apply wp_ret; split; [|done]; by split].
    destruct (l2_close_ok BT_L2CAP_CID_ATT now (gc_l2cap c)) as (fired & l & Es & Hl); [by destruct Hc|].
    apply wp_bind. unfold on_l2cap, wp at 1. cbn [w_self]. rewrite Es. eexists _, _. split; [done|]. world_simpl.
    assert (core T (set_l2cap l c) tr) as Hc'.
    { destruct Hc. constructor; try done. intros Hpt. destruct (c_tidy0 Hpt). by constructor. }
    destruct fired; [by apply on_closed_ok|]. apply wp_ret. split; [|done]. by split.
  - intros [] [c' u' tr'] [(Hc' & Hd' & Hp') Hu']. cbn [w_self w_user w_trace] in *. apply wp_set_last. split; [|done]. split; [|by split].
    destruct Hc'. constructor; try done. intros Hpt. destruct (c_tidy0 Hpt). by constructor.
Qed.

Lemma set_notify_handler_ok past fn ud w : ok past n w -> wp (bt_gatt_client_set_notify_handler fn ud) w (fun _ => ok past n).
Proof.
  destruct w as [c u tr]. intros [(Hc & Hd & Hp) Hu]. cbn [w_self w_user w_trace] in *. unfold bt_gatt_client_set_notify_handler.
  apply wp_set, wp_set_last. split; [|done]. split; [|by split]. destruct Hc. constructor; try done.
  intros Hpt. destruct (c_tidy0 Hpt). by constructor.
Qed.

(** An operation has been set up in [c2]. *)
Definition prepared op c c2 : Prop :=
  same_link c c2 /\ gc_busy c2 = true /\ gc_op c2 = op /\ is_u16 (gc_pending_handle c2) /\
  is_u16 (gc_discover_range_end c2) /\ bytes (value_of (gc_result c2)) /\ collected c2.

Lemma start_core op cb ud c c2 tr : core T c tr -> gc_channel_ready c = true -> gc_busy c = false -> op <> BT_GATT_CLIENT_OP_MTU ->
  prepared op c c2 -> core T (set_complete_user_data ud (set_on_complete cb c2)) (tr ++ [H_start op]).
Proof.
  intros Hc Hr Hb Ho ((El & Em & Er & Ec & Es) & Eb & Eo & H1 & H2 & H3 & H4).
  destruct Hc. constructor; try done; cbn -[operations]; try congruence.
  - apply Forall_app. split; [done|by repeat constructor].
  - intros [Hpt _]%patient_snoc. destruct (c_tidy0 Hpt). constructor; cbn -[operations].
    + rewrite operations_snoc, t_operations0. unfold under_way. cbn -[decide].
      by rewrite Hb, Eb, Eo, decide_True by done.
    + intros _. rewrite Ec. destruct (gc_on_connect c) eqn:Ecb; [|done]. destruct (t_ready0 Hr) as [? _]; congruence.
    + rewrite Ec. intros _ Hcb. destruct (t_ready0 Hr Hcb). congruence.
Qed.

Lemma gatt_start_ok past op prepare cb ud now c u tr : core T c tr -> gc_channel_ready c = true -> gc_busy c = false ->
  op <> BT_GATT_CLIENT_OP_MTU -> timely T now -> (budget u <= n)%nat -> past `prefix_of` tr ->
  (let w w_self := at_ w_self u (tr ++ [H_start op]) in
   exists c2, prepare (w (set_op op (set_busy true c))) = (Ret tt, w c2) /\ prepared op c c2) ->
  wp (start_operation call op prepare cb ud now) (at_ c u tr) (fun _ => ok past n).
Proof.
  intros Hc Hr Hb Ho Hn Hu Hp (c2 & E & Hpr). unfold start_operation.
  do 3 (first [apply wp_emit|apply wp_set]; world_simpl). apply wp_bind. eexists _, _. split; [exact E|]. clear E.
  do 2 (apply wp_set; world_simpl). apply wp_bind. eapply (wp_mono _ _ (fun _ => ok past n)); [|intros [] w Hw; by apply wp_ret].
  apply issue_spec; [by eapply start_core|by destruct Hpr as (_ & ? & _)|done|done|by apply prefix_app_r].
Qed.

(** [op] is a discovery; its arrays are empty when it starts. *)
Lemma discover_ok past op first last cb ud now c u tr : core T c tr -> gc_channel_ready c = true -> gc_busy c = false ->
  op ∈ [BT_GATT_CLIENT_OP_DISCOVER_SERVICES; BT_GATT_CLIENT_OP_DISCOVER_CHARACTERISTICS; BT_GATT_CLIENT_OP_DISCOVER_DESCRIPTORS] ->
  is_u16 first -> is_u16 last -> timely T now -> (budget u <= n)%nat -> past `prefix_of` tr ->
  wp (start_operation call op (discover first last) cb ud now) (at_ c u tr) (fun _ => ok past n).
Proof.
  intros Hc Hr Hb Ho Hf Hl Hn Hu Hp. apply gatt_start_ok; try done; [by rewrite !elem_of_cons, elem_of_nil in Ho; destruct_or? Ho; subst|].
  eexists. split; [reflexivity|]. split; [done|]. do 4 (split; [done|]). split; [by destruct Hc|].
  unfold collected. cbn. rewrite !elem_of_cons, elem_of_nil in Ho.
  unfold BT_GATT_CLIENT_MAX_SERVICES, BT_GATT_CLIENT_MAX_CHARACTERISTICS, BT_GATT_CLIENT_MAX_DESCRIPTORS.
  destruct_or? Ho; subst; done || lia.
Qed.

Lemma read_ok past handle cb ud now c u tr : core T c tr -> gc_channel_ready c = true -> gc_busy c = false ->
  is_u16 handle -> timely T now -> (budget u <= n)%nat -> past `prefix_of` tr ->
  wp (start_operation call BT_GATT_CLIENT_OP_READ (do! set (set_pending_handle handle) in set (set_result_len 0)) cb ud now)
    (at_ c u tr) (fun _ => ok past n).
Proof.
  intros Hc Hr Hb Hh Hn Hu Hp. apply gatt_start_ok; try done. eexists. split; [reflexivity|]. split; [done|]. do 3 (split; [done|]).
  split; [by destruct Hc|]. split; [by destruct Hc|]. unfold collected, BT_GATT_CLIENT_MAX_VALUE_LEN. cbn. lia.
Qed.

Lemma write_ok past handle value cb ud now c u tr : core T c tr -> gc_channel_ready c = true -> gc_busy c = false ->
  is_u16 handle -> bytes value -> zlen value <= BT_GATT_CLIENT_MAX_VALUE_LEN -> timely T now -> (budget u <= n)%nat -> past `prefix_of` tr ->
  wp (start_operation call BT_GATT_CLIENT_OP_WRITE
    (do! set (set_pending_handle handle) in
     do! (if zlen value >? 0 then
            let! u := lift (let? bs := ldn value 0 (zlen value) in put_value (gc_result c) 0 bs) in
            set (set_result u)
          else ret tt) in
     set (set_result_len (zlen value))) cb ud now) (at_ c u tr) (fun _ => ok past n).
Proof.
  intros Hc Hr Hb Hh Hv Hl Hn Hu Hp. assert (bytes (value_of (gc_result c))) as Hb' by by destruct Hc.
  apply gatt_start_ok; try done. destruct (put_value_spec (gc_result c) 0 value) as (v & Ev & Hz & _ & Hvb); [lia|lia|].
  rewrite ldn_whole. cbn [obind]. rewrite Ev. rewrite Z.gtb_ltb. destruct (Z.ltb_spec 0 (zlen value)).
  - eexists. split; [reflexivity|]. split; [done|]. do 3 (split; [done|]). split; [by destruct Hc|].
    split; [by apply Hvb|]. unfold collected. cbn. lia.
  - eexists. split; [reflexivity|]. split; [done|]. do 3 (split; [done|]). split; [by destruct Hc|].
    split; [done|]. unfold collected. cbn. unfold BT_GATT_CLIENT_MAX_VALUE_LEN. lia.
Qed.

Lemma gatt_tick_ok past now w : ok past n w -> wp (bt_gatt_client_tick call now) w (fun _ => ok past n).
Proof.
  destruct w as [c u tr]. intros Hw. pose proof Hw as [(Hc & Hd & Hp) Hu]. cbn [w_self w_user w_trace] in *. unfold bt_gatt_client_tick. wp_step.
  destruct (gc_busy c) eqn:Eb; cbn [negb orb]; [|by apply wp_ret]. destruct (_ || _); [by apply wp_ret|].
  case_bool_decide as Hcb; [|by apply gatt_complete_ok].
  apply (handle_mtu_response_spec past 0 []); try (done || by apply prefix_app_r). intros Hpt. destruct (outstanding c) eqn:Eo; [|done].
  by destruct (Hcb (t_waiting _ _ (c_tidy _ _ _ Hc Hpt) Eo)).
Qed.

Lemma run_call_ok past a w : ok past n w -> call_ok T a -> wp (run_call call a) w (fun _ => ok past n).
Proof.
  destruct w as [c u tr]. intros Hw. pose proof Hw as [(Hc & Hd & Hp) Hu]. cbn [w_self w_user w_trace] in *.
  assert (forall (m : M W unit), wp m (at_ c u tr) (fun _ => ok past n) -> wp (do! m in ret BT_OK) (at_ c u tr) (fun _ => ok past n)) as Hvoid.
  { intros m Hm. apply wp_bind. eapply wp_mono; [exact Hm|]. intros [] w' Hw'. by apply wp_ret. }
  destruct a as [cb ud now|now|fn ud|cb ud now|s e cb ud now|s e cb ud now|h cb ud now|h v cb ud now|now|l ev]; cbn [run_call call_ok]; intros Ha.
  - by apply connect_ok.
  - by apply Hvoid, disconnect_ok.
  - by apply Hvoid, set_notify_handler_ok.
  - unfold bt_gatt_client_discover_services. wp_step. destruct (gc_channel_ready c) eqn:Er, (gc_busy c) eqn:Eb; try by apply wp_ret.
    apply discover_ok; try done. left.
  - destruct Ha as (Hs & He & Hn). unfold bt_gatt_client_discover_characteristics. wp_step.
    destruct (gc_channel_ready c) eqn:Er, (gc_busy c) eqn:Eb; try by apply wp_ret.
    apply discover_ok; try done. right. left.
  - destruct Ha as (Hs & He & Hn). unfold bt_gatt_client_discover_descriptors. wp_step.
    destruct (gc_channel_ready c) eqn:Er, (gc_busy c) eqn:Eb; try by apply wp_ret.
    cbn [negb orb]. destruct (_ || _); [by apply wp_ret|]. apply discover_ok; try done. do 2 right. left.
  - destruct Ha as (Hh & Hn). unfold bt_gatt_client_read. wp_step.
    destruct (gc_channel_ready c) eqn:Er, (gc_busy c) eqn:Eb; try by apply wp_ret. by apply read_ok.
  - destruct Ha as (Hh & Hv & Hn). unfold bt_gatt_client_write. wp_step.
    destruct (gc_channel_ready c) eqn:Er, (gc_busy c) eqn:Eb; try by apply wp_ret. cbn [negb orb]. rewrite Z.gtb_ltb.
    destruct (Z.ltb_spec BT_GATT_CLIENT_MAX_VALUE_LEN (zlen v)); [by apply wp_ret|]. by apply write_ok.
  - by apply Hvoid, gatt_tick_ok.
  - apply wp_set. world_simpl. assert (l2_ok l -> core T (set_l2cap l c) tr) as Hc'.
    { intros Hl. destruct Hc. constructor; try done. intros Hpt. destruct (c_tidy0 Hpt). by constructor. }
    apply wp_bind. eapply (wp_mono _ _ (fun _ => ok past n)); [|intros [] w' Hw'; by apply wp_ret].
    destruct ev as [|data now]; cbn [on_l2cap_event]; [by apply on_closed_ok; [apply Hc'|..]|].
    destruct Ha as (Hl & Hb & Hn). wp_step. apply handle_response_ok; try done; [|by apply prefix_app_r].
    eapply core_tidy; [by apply Hc'|try done..]; [apply (c_collected _ _ _ Hc)| |].
    + apply Forall_app. split; [by destruct Hc|by repeat constructor].
    + intros [Hpt _]%patient_snoc. destruct (c_tidy _ _ _ Hc Hpt) as [Ho ? ?]. constructor; [|done..]. by rewrite operations_snoc, Ho.
Qed.

End Handlers.

(** *** Runs *)

Section Runs.
  Hypothesis HT : T <= UINT64_MAX.
  Hypothesis Huser : user_ok budget T.

Lemma gatt_run_api_ok depth past : callable budget (I T past) (call_ok T) (run_api depth) depth.
Proof.
  revert past. induction depth as [|depth IH]; intros past a Ha k Hk w Hw; [lia|]. cbn [run_api].
  apply run_call_ok; [done|done| |done|done]. intros past' a' Ha' k' Hk' w' Hw'. apply IH; [done|lia|done].
Qed.

Lemma gatt_run_apis_ok depth past l w k : Forall (call_ok T) l -> (k < depth)%nat -> ok past k w ->
  wp (run_apis depth l) w (fun _ => ok past k).
Proof.
  intros Hl Hk. revert w. induction Hl as [|a l Ha Hl IH]; intros w Hw; [by apply wp_ret|].
  apply wp_bind. eapply wp_mono; [by eapply gatt_run_api_ok|]. intros ? w' Hw'. by apply IH.
Qed.

(** A request past its deadline. *)
Lemma tick_times_out depth now w op : core T (w_self w) (w_trace w) -> deadline_ok T (w_self w) -> patient (w_trace w) ->
  (budget (w_user w) < S depth)%nat -> under_way (w_self w) = Some op -> T + BT_GATT_CLIENT_REQUEST_TIMEOUT_US <= now ->
  exists e w', run_api (S depth) (Tick now) w = (Ret BT_OK, w') /\ timed_out op e /\ (w_trace w ++ [e]) `prefix_of` w_trace w'.
Proof.
  destruct w as [c u tr]. cbn [w_self w_user w_trace]. intros Hc Hd Hpt Hu Hop Hn. unfold under_way in Hop.
  destruct (gc_busy c) eqn:Hb; [|done]. injection Hop as <-.
  destruct (completion_of_ok BT_GATT_CLIENT_ERROR_TIMEOUT 0 c (c_collected _ _ _ Hc Hb)) as (comp & Ec & Er & Eop & _).
  set (e := if decide (gc_on_connect c = None) then H_done comp else H_exchanged).
  exists e. assert (wp (run_call (run_api depth) (Tick now)) (at_ c u tr) (fun r w' => r = BT_OK /\ timed_out (gc_op c) e /\ (tr ++ [e]) `prefix_of` w_trace w')) as
    (r & w' & E & -> & He & Hp); [|by exists w'].
  cbn [run_call]. apply wp_bind. unfold bt_gatt_client_tick. wp_step. specialize (Hd Hb). rewrite Hb.
  rewrite (proj2 (Z.eqb_neq (gc_request_deadline_us c) 0)), (proj2 (Z.ltb_ge _ _)) by lia. cbn [negb orb].
  assert (forall past, callable budget (I T past) (call_ok T) (run_api depth) depth) as Hcall by (intros; apply gatt_run_api_ok).
  eapply (wp_mono _ _ (fun _ w' => timed_out (gc_op c) e /\ (tr ++ [e]) `prefix_of` w_trace w')); [|intros [] w' Hp; by apply wp_ret].
  subst e. case_decide as Hcb.
  - rewrite Hcb, bool_decide_false by (intros []; done). eapply wp_mono; [eapply (complete_spec _ depth); [done|exact Hcall|exact Hc|done|done|lia|]|].
    { intros comp'. rewrite Ec. by intros [= <-]. }
    intros [] w' [(_ & _ & Hp) _]. by split; [split|].
  - rewrite bool_decide_true by done. assert (outstanding c = false) as Ho.
    { destruct (outstanding c) eqn:Eo; [|done]. by destruct (Hcb (t_waiting _ _ (c_tidy _ _ _ Hc Hpt) Eo)). }
    eapply wp_mono; [eapply (handle_mtu_response_spec _ depth); [done|exact Hcall|exact Hc|done|done|lia|done]|].
    intros [] w' [(_ & _ & Hp) _]. split; [|done]. cbn. unfold outstanding in Ho. rewrite Hb in Ho.
    by apply negb_false_iff, bool_decide_eq_true in Ho.
Qed.
End Runs.

Lemma gatt_init_ok l u past : l2_ok l -> 0 <= T -> past = [] -> I T past ({| w_self := bt_gatt_client_init l; w_user := u; w_trace := [] |} : W).
Proof. intros Hl HT ->. split; [|by split]. constructor; try done; unfold is_u16, timely; cbn; try lia; by constructor. Qed.
End Safety.

(** ** Properties *)

(** A client before its first call. *)
Definition fresh {CB UD L U} (l : L) (u : U) : world (bt_gatt_client CB UD L) U gatt_event :=
  {| w_self := bt_gatt_client_init l; w_user := u; w_trace := [] |}.

(** C5.  Every operation completes exactly once.  From [bt_gatt_client_init],
    over any channel manager that keeps the contract of [FixedChannels], for any
    user whose callbacks call the client back as long as their budget lasts, and
    any sequence of calls and channel events - arbitrary bytes from the peer
    included: every call returns without a fault; what a successful completion
    hands out lies inside the client's arrays; and if connect was only called
    while the client was disconnected and no operation of the user under way, the
    history is a sequence of operations started one at a time, each completed
    once and as what it was, the last one perhaps still under way - in which case
    the client is busy with just that.  The MTU exchange with which a connection
    begins counts as one of these operations, though no user started it: it
    ends without a completion, when the client gives it up for over, when the
    exchange of the next connection takes its place, or else, as the code has it,
    with one completion of its own. *)
Theorem gatt_completes_once : forall {CB UD L U} `{GattUser CB UD L U} `{FixedChannels L} (budget : U -> nat) T calls l u depth,
  0 <= T <= UINT64_MAX -> user_ok budget T -> l2_ok l -> Forall (call_ok T) calls -> (budget u < depth)%nat ->
  exists w, run_apis depth calls (fresh l u) = (Ret tt, w) /\ Forall event_ok (w_trace w) /\
    (patient (w_trace w) -> operations (w_trace w) = Some (under_way (w_self w))).
Proof.
  intros CB UD L U HG HF budget T calls l u depth HT Hu Hl Hc Hd.
  destruct (gatt_run_apis_ok budget T ltac:(lia) Hu depth [] calls (fresh l u) (budget u) Hc Hd) as ([] & w & E & [(Hi & _ & _) _]).
  { split; [|done]. apply gatt_init_ok; done || lia. }
  exists w. split; [done|]. split; [by destruct Hi|]. intros Hpt. by destruct (c_tidy _ _ _ Hi Hpt).
Qed.

(** C27.  An operation does not hang.  After any run of calls not later than
    [T], in which connect was only called while the client was disconnected and
    no operation of the user under way, the operation under way, if there is
    one, is reported as timed out by the first tick 30 seconds after [T],
    whatever the peer did; the MTU exchange of a connection is ended by it too,
    reported or, if a connect callback waits, given up for over. *)
Theorem gatt_times_out : forall {CB UD L U} `{GattUser CB UD L U} `{FixedChannels L} (budget : U -> nat) T calls l u depth,
  0 <= T <= UINT64_MAX -> user_ok budget T -> l2_ok l -> Forall (call_ok T) calls -> (budget u < depth)%nat ->
  exists w, run_apis depth calls (fresh l u) = (Ret tt, w) /\
    (patient (w_trace w) -> forall op now, operations (w_trace w) = Some (Some op) ->
       T + BT_GATT_CLIENT_REQUEST_TIMEOUT_US <= now ->
       exists e w', run_api depth (Tick now) w = (Ret BT_OK, w') /\ timed_out op e /\ (w_trace w ++ [e]) `prefix_of` w_trace w').
Proof.
  intros CB UD L U HG HF budget T calls l u depth HT Hu Hl Hc Hd.
  destruct (gatt_run_apis_ok budget T ltac:(lia) Hu depth [] calls (fresh l u) (budget u) Hc Hd) as ([] & w & E & [(Hi & Hdl & _) Hb]).
  { split; [|done]. apply gatt_init_ok; done || lia. }
  exists w. split; [done|]. intros Hpt op now Hop Hn. destruct depth as [|depth]; [lia|].
  apply (tick_times_out budget T ltac:(lia) Hu); try done; [lia|]. destruct (c_tidy _ _ _ Hi Hpt). congruence.
Qed.

(** ** Witnesses *)

(** A link that keeps what is sent while the channel is open; a user that
    reads handle 3 when it is connected, and again, as long as it may, when an
    operation ends. *)
Definition toy_link : Type := bool * list (list Z).
#[local] Instance toy_channels : FixedChannels toy_link.
Proof.
  refine {|
    l2_open_fixed := fun _ (l : toy_link) => if l.1 then (Fail BT_ERR_INVALID_ARGUMENT, l) else (Ret tt, (true, l.2));
    l2_close := fun _ _ (l : toy_link) => (Ret l.1, (false, l.2));
    l2_send := fun _ data _ (l : toy_link) => if l.1 then (Ret tt, (true, l.2 ++ [data])) else (Fail BT_ERR_INVALID_ARGUMENT, l);
    l2_ok := fun _ => True |}.
  - intros _ [[] l] _; eauto.
  - intros _ _ [[] l] _; eauto.
  - intros _ data [[] l] _ _; eauto.
Defined.

Definition toy_again : prog nat (api unit unit toy_link) bt_status unit :=
  Get (fun k => match k with O => Done tt | S k => Put k (Call (Read 3 (Some tt) None 7) (fun _ => Done tt)) end).
#[local] Instance toy_user : GattUser unit unit toy_link nat :=
  {| connect_fn := fun _ _ _ => toy_again; complete_fn := fun _ _ _ => toy_again; notify_fn := fun _ _ _ _ _ _ => Done tt |}.

Lemma toy_user_ok : user_ok id 10.
Proof.
  assert (pays id (call_ok 10) (fun _ => True) toy_again) as Ht.
  { intros [|k]; cbn; [done|]. unfold id, is_u16, timely. repeat split; lia || done. }
  constructor; intros; [apply Ht|apply Ht|by intros ?].
Qed.

(** Connect, the MTU exchange, a read of two bytes, which the user repeats. *)
Definition toy_calls : list (api unit unit toy_link) :=
  [Connect (Some tt) None 1; ChannelEvent (true, []) (E_data [3; 64; 0] 5); ChannelEvent (true, []) (E_data [11; 7; 8] 6)].

Lemma toy_calls_ok : Forall (call_ok 10) toy_calls.
Proof. repeat constructor; cbn; try lia; concrete_bytes. Qed.

Lemma gatt_completes_once_witness : exists w, run_apis 3 toy_calls (fresh (false, []) 2%nat) = (Ret tt, w) /\
  Forall event_ok (w_trace w) /\ (patient (w_trace w) -> operations (w_trace w) = Some (under_way (w_self w))) /\
  under_way (w_self w) = Some BT_GATT_CLIENT_OP_READ /\ gc_mtu (w_self w) = 64 /\ length (w_trace w) = 12%nat.
Proof.
  destruct (gatt_completes_once id 10 toy_calls (false, []) 2%nat 3%nat) as (w & E & He & Ho);
    [vm_compute; split; discriminate|exact toy_user_ok|done|exact toy_calls_ok|unfold id; lia|].
  exists w. split; [exact E|]. split; [exact He|]. split; [exact Ho|]. vm_compute in E. injection E as <-.
  split; [vm_compute; reflexivity|]. split; vm_compute; reflexivity.
Defined.

Lemma gatt_times_out_witness : exists w comp w', run_apis 3 toy_calls (fresh (false, []) 2%nat) = (Ret tt, w) /\
  run_api 3 (Tick 30000010) w = (Ret BT_OK, w') /\ cp_result comp = BT_GATT_CLIENT_ERROR_TIMEOUT /\
  cp_op comp = BT_GATT_CLIENT_OP_READ /\ (w_trace w ++ [H_done comp]) `prefix_of` w_trace w'.
Proof.
  destruct (gatt_times_out id 10 toy_calls (false, []) 2%nat 3%nat) as (w & E & Ht);
    [vm_compute; split; discriminate|exact toy_user_ok|done|exact toy_calls_ok|unfold id; lia|].
  exists w. destruct Ht with (op := BT_GATT_CLIENT_OP_READ) (now := 30000010) as (e & w' & E' & He & Hp);
    [..|destruct e as [| | | | | | | |comp]; try contradiction He; [discriminate He|exists comp, w'; split; [exact E|split; [exact E'|split; [apply He|split; [apply He|exact Hp]]]]]]; vm_compute in E; injection E as <-; clear.
  - unfold patient. vm_compute. intros Hin. repeat (apply elem_of_cons in Hin as [Hin|Hin]; [discriminate|]). by apply elem_of_nil in Hin.
  - vm_compute. reflexivity.
  - vm_compute. discriminate.
Defined.

(** ** What modelling showed *)

(** A user that connects again when an operation is reported as closed. *)
#[local] Definition reconnecting : GattUser unit unit toy_link nat :=
  {| connect_fn := fun _ _ _ => Done tt;
     complete_fn := fun _ _ _ => Call (Connect (Some tt) None 9) (fun _ => Done tt);
     notify_fn := fun _ _ _ _ _ _ => Done tt |}.
#[local] Definition passive : GattUser unit unit toy_link nat :=
  {| connect_fn := fun _ _ _ => Done tt; complete_fn := fun _ _ _ => Done tt; notify_fn := fun _ _ _ _ _ _ => Done tt |}.

Abbreviation shown user calls := (run_apis (H := user) 3 calls (fresh (false, []) 0%nat)).2.
Definition connected_calls : list (api unit unit toy_link) :=
  [Connect (Some tt) None 1; ChannelEvent (true, []) (E_data [3; 64; 0] 5)].

(** The connection made from a callback of disconnect is open, but the client
    says it is not: it refuses operations, and cannot be closed or connected
    again. *)
Example reconnect_from_disconnect_sticks :
  let w := shown reconnecting (connected_calls ++ [Read 3 (Some tt) None 6; Disconnect 7]) in
  gc_channel_ready (w_self w) = false /\ (gc_l2cap (w_self w)).1 = true /\
  let w' := shown reconnecting (connected_calls ++ [Read 3 (Some tt) None 6; Disconnect 7; Disconnect 8; Connect (Some tt) None 9]) in
  (run_api (H := reconnecting) 3 (Connect (Some tt) None 10) w').1 = Ret BT_ERR_INVALID_ARGUMENT /\
  (gc_l2cap (w_self w')).1 = true.
Proof. vm_compute. done. Qed.

(** The channel closes during the MTU exchange: connect fails, but the exchange
    stays under way, and times out later as an operation the user never started. *)
Example closed_during_mtu_exchange : exists comp,
  last (w_trace (shown passive [Connect (Some tt) None 1; ChannelEvent (false, []) E_closed; Tick 30000001])) = Some (H_done comp) /\
  cp_op comp = BT_GATT_CLIENT_OP_MTU /\ cp_result comp = BT_GATT_CLIENT_ERROR_TIMEOUT.
Proof. eexists. vm_compute. done. Qed.

(** Calling connect while an operation is under way loses it: the response is
    taken for that of the MTU exchange. *)
Example connect_loses_operation :
  let w := shown passive (connected_calls ++ [Read 3 (Some tt) None 6; Connect (Some tt) None 7;
    ChannelEvent (true, []) (E_data [11; 7; 8] 8)]) in
  last (w_trace w) = Some (H_connected true) /\ operations (w_trace w) = None /\ gc_busy (w_self w) = false /\
  forall comp, H_done comp ∉ w_trace w.
Proof.
  split; [|split; [|split]]; [vm_compute; reflexivity..|]. intros comp. vm_compute. intros Hin.
  repeat (apply elem_of_cons in Hin as [Hin|Hin]; [discriminate|]). by apply elem_of_nil in Hin.
Qed.

(** Without a connect callback the response of the MTU exchange is ignored:
    the client stays busy until it times out. *)
Example silent_connect_stays_busy :
  gc_busy (w_self (shown passive [Connect None None 1; ChannelEvent (true, []) (E_data [3; 64; 0] 5)])) = true.
Proof. vm_compute. done. Qed.

(** A value longer than the MTU allows is written in one request. *)
Example write_exceeds_mtu :
  let w := shown passive (connected_calls ++ [Write 3 (replicate 100 0) (Some tt) None 6]) in
  exists pdu, last (w_trace w) = Some (H_out pdu) /\ gc_mtu (w_self w) < zlen pdu.
Proof. eexists. vm_compute. done. Qed.

(** A server whose services lie behind the requested handle keeps a discovery
    going without end: the same request goes out again, under a new deadline. *)
Example discovery_goes_back :
  let back now := ChannelEvent (true, []) (E_data ([17; 20; 1; 0; 0; 0] ++ replicate 16 0) now) in
  let w := shown passive (connected_calls ++ [DiscoverServices (Some tt) None 6; back 7]) in
  let w' := shown passive (connected_calls ++ [DiscoverServices (Some tt) None 6; back 7; back 8]) in
  last (w_trace w) = last (w_trace w') /\ gc_pending_handle (w_self w') = 1 /\
  gc_request_deadline_us (w_self w') = gc_request_deadline_us (w_self w) + 1.
Proof. vm_compute. done. Qed.

End GattClient.
