(* ===== verification/GattLink.v ===== *)
(** * The channel manager as the GATT client's link

    [ChannelManager] keeps the contract that [GattClient] asks of a link.  The
    events the manager fires go to an inbox and are taken from it when the
    manager returns, which is when the client handles them: that this is the
    order of the code is checked, since opening and closing a channel fault
    when the inbox holds anything but the one event that is expected. *)

From Stdlib Require Import ZArith Lia.
From stdpp Require Import base list gmap.
From S2P Require Import Prelude Buffer Callbacks Timer L2cap Signaling ChannelManager GattClient.

Module GattLink.
Import Buffer Callbacks Timer L2cap Signaling ChannelManager.

(** Every event is kept. *)
Definition inbox : Type := list bt_l2cap_channel_event_info.
#[local] Instance inbox_client : ChannelClient unit unit inbox :=
  {| client_event := fun _ info _ => PGet (fun events => PPut (events ++ [info]) PDone) |}.

Section Link.
  Context {T : Type} `{AclTransport T}.
Abbreviation link := (world unit unit inbox T).
  Implicit Types (w : link).

Definition take_inbox : M link inbox := fun w => (Ret (w_client w), with_client [] w).

Definition link_open_fixed (cid : Z) : M link unit :=
  do! bt_l2cap_channel_manager_open_fixed (dispatch 1) cid (Some tt) tt in
  let! events := take_inbox in
  match events with
  | [info] => if decide (ei_event info = BT_L2CAP_CHANNEL_EVENT_OPENED /\ ei_local_cid info = cid) then ret tt else lift Fault
  | _ => lift Fault
  end.

Definition link_close (cid now_us : Z) : M link bool :=
  do! bt_l2cap_channel_manager_close (dispatch 1) cid now_us in
  let! events := take_inbox in
  match events with
  | [] => ret false
  | [info] => if decide (ei_event info = BT_L2CAP_CHANNEL_EVENT_CLOSED /\ ei_local_cid info = cid) then ret true else lift Fault
  | _ => lift Fault
  end.

Definition link_ok w : Prop := world_ok None w /\ w_client w = [].

(** ** Lemmas *)

Lemma dispatch_inbox cb info ud w : dispatch 1 cb info ud w = (Ret tt, with_client (w_client w ++ [info]) w).
Proof. done. Qed.

Lemma inbox_runs b e : runs_ok (dispatch 1) b e.
Proof. intros cb info ud _ w Hw. rewrite dispatch_inbox. apply finishes_ret. by apply world_client. Qed.

(** Code that fires nothing. *)
Definition quiet_link {A} (m : M link A) : Prop := forall w, w_client (m w).2 = w_client w.

Lemma quiet_ret {A} (a : A) : quiet_link (ret a).
Proof. done. Qed.
Lemma quiet_fail {A} e : quiet_link (@fail link A e).
Proof. done. Qed.
Lemma quiet_gets {A} (f : link -> A) : quiet_link (gets f).
Proof. done. Qed.
Lemma quiet_mgr f : quiet_link (modify (with_mgr f)).
Proof. done. Qed.
Lemma quiet_log e : quiet_link (modify (log e)).
Proof. done. Qed.
Lemma quiet_bind {A B} (m : M link A) (k : A -> M link B) : quiet_link m -> (forall a, quiet_link (k a)) -> quiet_link (bind m k).
Proof. intros Hm Hk w. unfold bind. pose proof (Hm w) as Ew. destruct (m w) as [[a|e|] w']; cbn in *; [by rewrite Hk|done..]. Qed.
Lemma quiet_try {A} (m : M link A) : quiet_link m -> quiet_link (try m).
Proof. intros Hm w. unfold try. pose proof (Hm w) as Ew. by destruct (m w) as [[a|e|] w']. Qed.
Lemma quiet_timers f : quiet_link (on_timers f).
Proof. intros w. unfold on_timers. by destruct (f _). Qed.
Lemma quiet_load i : quiet_link (load i).
Proof. done. Qed.
Lemma quiet_update i f : quiet_link (update i f).
Proof. apply quiet_bind; [done|]. intros c. by apply quiet_bind. Qed.
Lemma quiet_encode {A} cap m (k : bt_status * list Z -> M link A) : (forall e, quiet_link (k e)) -> quiet_link (bind (encode_into cap m) k).
Proof. intros Hk w. unfold bind, encode_into. destruct (m _) as [[[]|e|] b]; [apply Hk..|done]. Qed.

Lemma quiet_send_loop fuel : forall fr, quiet_link (send_loop fuel fr).
Proof.
  induction fuel as [|fuel IH]; intros fr w; [done|]. cbn [send_loop].
  destruct (bt_l2cap_fragmenter_next _) as [[[]|e|] [fr' aw]]; [|by destruct (decide _)|done].
  destruct (send_acl _ _) as [rc t]. destruct (negb _); [done|]. by rewrite IH.
Qed.

Lemma quiet_signal command : quiet_link (signal command).
Proof.
  unfold signal, send_l2cap_pdu, send_fragmented. apply quiet_bind; [done|]. intros cid. destruct (_ >? _); [done|].
  apply quiet_encode. intros e. destruct (decide _); [done|]. apply quiet_bind; [done|]. intros h.
  apply quiet_bind; [done|]. intros f. apply quiet_send_loop.
Qed.

Lemma fire_inbox i info c w : mg_channels (w_mgr w) !! i = Some c ->
  fire_event (dispatch 1) i info w =
    (Ret tt, with_client (w_client w ++ match ch_on_event c with Some _ => [info] | None => [] end) (log (EFire i info) w)).
Proof.
  intros Hc. unfold fire_event, load, bind at 1. rewrite (hld_spec _ _ _ Hc). unfold bind, modify.
  destruct (ch_on_event c); [done|]. cbn. by rewrite app_nil_r.
Qed.

Lemma update_lookup i f c w : mg_channels (w_mgr w) !! i = Some c -> exists w', update i f w = (Ret tt, w') /\
  mg_channels (w_mgr w') !! i = Some (f c) /\ w_client w' = w_client w.
Proof.
  intros Hc. unfold update, load, bind, modify. rewrite (hld_spec _ _ _ Hc), (hst_spec _ _ _ _ Hc). eexists. split; [done|].
  cbn. by rewrite lookup_insert_eq.
Qed.

(** Opening fires OPENED, or fails and fires nothing. *)
Lemma open_fixed_inbox cid w o w' : world_ok None w ->
  bt_l2cap_channel_manager_open_fixed (dispatch 1) cid (Some tt) tt w = (o, w') ->
  (o = Ret tt /\ exists info, ei_event info = BT_L2CAP_CHANNEL_EVENT_OPENED /\ ei_local_cid info = cid /\
     w_client w' = w_client w ++ [info]) \/
  (exists e, o = Fail e /\ w' = w).
Proof.
  intros Hw. unfold bt_l2cap_channel_manager_open_fixed, find_channel_by_local_cid, find_free_channel.
  destruct (find_world None w (fun chan => negb (bool_decide (ch_state chan = BT_L2CAP_CHAN_FREE)) && (ch_local_cid chan =? cid)) Hw)
    as (o1 & E & _). unfold bind at 1. rewrite E. clear E.
  destruct o1 as [i|]; [intros [= <- <-]; right; by eexists|].
  destruct (find_world None w (fun chan => bool_decide (ch_state chan = BT_L2CAP_CHAN_FREE)) Hw) as (o2 & E & Ho).
  unfold bind at 1. rewrite E. clear E.
  destruct o2 as [i|]; [|intros [= <- <-]; right; by eexists]. destruct Ho as (c & pe & Hf & _ & _).
  destruct Hf as (l & acc & _ & Hc & _). unfold modify, bind at 1.
  match goal with |- context [update i ?f] => destruct (update_lookup i f c (log (EOpenFixed i cid) w) Hc) as (w1 & E1 & Hc1 & Ec) end.
  rewrite (bind_eq _ _ _ _ _ E1). unfold fire_opened, load, bind. rewrite (hld_spec _ _ _ Hc1), (fire_inbox _ _ _ _ Hc1). cbn.
  intros [= <- <-]. left. split; [done|]. eexists. rewrite Ec. split; [|split; [|done]]; done.
Qed.

(** Closing fires CLOSED or nothing. *)
Lemma finish_close_inbox i reason c w w' : mg_channels (w_mgr w) !! i = Some c ->
  finish_close (dispatch 1) i reason w = (Ret tt, w') ->
  w_client w' = w_client w \/
  exists info, ei_event info = BT_L2CAP_CHANNEL_EVENT_CLOSED /\ ei_local_cid info = ch_local_cid c /\ w_client w' = w_client w ++ [info].
Proof.
  intros Hc. unfold finish_close. destruct (hld (tl_mem (mg_timers (w_mgr w))) i) as [t|e|] eqn:Et; unfold bind at 1; rewrite Et; [|done..].
  set (m := if t_pending t then on_timers (fun ts => bt_timer_list_cancel ts i) else ret tt).
  assert (forall o w1, m w = (o, w1) -> w_client w1 = w_client w /\ mg_channels (w_mgr w1) = mg_channels (w_mgr w)) as Hm.
  { subst m. unfold ret, on_timers. intros o w1 E. destruct (t_pending t); [destruct (bt_timer_list_cancel _ _)|]; by injection E as _ <-. }
  unfold bind at 1. destruct (m w) as [[[]|e|] w1]; [|done..]. destruct (Hm _ _ eq_refl) as [Ew Ech]. rewrite <- Ech in Hc.
  unfold load at 1, bind at 1. rewrite (hld_spec _ _ _ Hc). cbv zeta.
  destruct (update_lookup i (set_state BT_L2CAP_CHAN_FREE) c w1 Hc) as (w2 & E2 & Hc2 & Ec2). rewrite (bind_eq _ _ _ _ _ E2).
  destruct (update_lookup i (set_pending_identifier 0) _ w2 Hc2) as (w3 & E3 & Hc3 & Ec3). rewrite (bind_eq _ _ _ _ _ E3).
  rewrite (fire_inbox _ _ _ _ Hc3). intros [= <-]. cbn. rewrite Ec3, Ec2, Ew.
  destruct (ch_on_event c); [right|left; apply app_nil_r]. eexists. split; [|split; [|done]]; done.
Qed.

Lemma close_inbox cid now w w' : world_ok None w ->
  bt_l2cap_channel_manager_close (dispatch 1) cid now w = (Ret tt, w') ->
  w_client w' = w_client w \/
  exists info, ei_event info = BT_L2CAP_CHANNEL_EVENT_CLOSED /\ ei_local_cid info = cid /\ w_client w' = w_client w ++ [info].
Proof.
  intros Hw. unfold bt_l2cap_channel_manager_close, find_channel_by_local_cid.
  destruct (find_world None w (fun chan => negb (bool_decide (ch_state chan = BT_L2CAP_CHAN_FREE)) && (ch_local_cid chan =? cid)) Hw)
    as (o1 & E & Ho). unfold bind at 1. rewrite E. clear E.
  destruct o1 as [i|]; [|intros [= <-]; by left]. destruct Ho as (c & pe & (l & acc & _ & Hc & _) & _ & [_ Ecid]%live_test).
  apply Z.eqb_eq in Ecid. unfold load at 1, bind at 1. rewrite (hld_spec _ _ _ Hc). destruct (_ && _).
  - intros E. left. match type of E with ?m w = _ => assert (quiet_link m) as Hq end; [|pose proof (Hq w) as Ew; by rewrite E in Ew].
    apply quiet_bind; [by repeat apply quiet_bind|]. intros id. do 2 (apply quiet_bind; [apply quiet_update|]; intros _).
    apply quiet_bind; [done|]. intros _. apply quiet_bind; [apply quiet_timers|]. intros _. apply quiet_encode. intros e.
    apply quiet_bind; [apply quiet_try, quiet_signal|done].
  - intros E. rewrite <- Ecid. by eapply finish_close_inbox.
Qed.

Lemma link_open_fixed_ok cid w : link_ok w -> exists o w', link_open_fixed cid w = (o, w') /\ o <> Fault /\ link_ok w'.
Proof.
  intros [Hw Hin]. destruct (open_fixed_ok (dispatch 1) None cid (Some tt) tt w Hw (inbox_runs _ _)) as (o & w' & E & Hf & Hw').
  destruct (open_fixed_inbox cid w o w' Hw E) as [(-> & info & Eev & Ecid & Ein)|(e & -> & ->)]; unfold link_open_fixed, bind; rewrite E.
  - unfold take_inbox. rewrite Ein, Hin. cbn [app]. rewrite decide_True by done. eexists (Ret tt), _. split; [done|]. split; [done|].
    split; [by apply world_client|done].
  - by exists (Fail e), w.
Qed.

Lemma link_close_ok cid now w : link_ok w -> exists fired w', link_close cid now w = (Ret fired, w') /\ link_ok w'.
Proof.
  intros [Hw Hin]. pose proof (close_ok (dispatch 1) None cid now w Hw I (inbox_runs _ _)) as [[[] Ha] Hw'].
  destruct (bt_l2cap_channel_manager_close (dispatch 1) cid now w) as [o w'] eqn:E. cbn [fst snd] in Ha, Hw'. subst o.
  unfold link_close, bind. rewrite E. unfold take_inbox.
  destruct (close_inbox cid now w w' Hw E) as [Ein|(info & Eev & Ecid & Ein)]; rewrite Ein, Hin; cbn [app].
  - eexists false, _. split; [done|]. split; [by apply world_client|done].
  - rewrite decide_True by done. eexists true, _. split; [done|]. split; [by apply world_client|done].
Qed.

Lemma link_send_ok cid data w : link_ok w -> bytes data ->
  exists o w', bt_l2cap_channel_manager_send cid data (zlen data) w = (o, w') /\ o <> Fault /\ link_ok w'.
Proof.
  intros [Hw Hin] Hb. destruct (send_ok None cid data w Hw Hb) as (o & t & E & Ho). exists o, (with_transport t w).
  split; [done|]. split; [done|]. split; [by apply world_transport|done].
Qed.

#[export] Instance manager_channels : GattClient.FixedChannels link := {|
  GattClient.l2_open_fixed := link_open_fixed;
  GattClient.l2_close := link_close;
  GattClient.l2_send := bt_l2cap_channel_manager_send;
  GattClient.l2_ok := link_ok;
  GattClient.l2_open_fixed_ok := link_open_fixed_ok;
  GattClient.l2_close_ok := link_close_ok;
  GattClient.l2_send_ok := link_send_ok;
|}.

(** *** An open channel over a transport that accepts everything *)

Definition accepting : Prop := forall t p, (send_acl (t : T) p).1 = 0.

Definition channel_open (cid : Z) w : Prop := exists i c,
  find_channel (fun chan => negb (bool_decide (ch_state chan = BT_L2CAP_CHAN_FREE)) && (ch_local_cid chan =? cid))
    (mg_channels (w_mgr w)) channel_slots = Ret (Some i) /\
  mg_channels (w_mgr w) !! i = Some c /\ ch_state c = BT_L2CAP_CHAN_OPEN.

Lemma send_all_accepted ps : accepting -> forall w, exists t, send_all ps w = (Ret tt, with_transport t w).
Proof.
  intros Ha. induction ps as [|p ps IH]; intros w; cbn [send_all]; [by exists (w_transport w); destruct w|].
  pose proof (Ha (w_transport w) p) as Erc. destruct (send_acl (w_transport w) p) as [rc t]. cbn in Erc. rewrite Erc. cbn [negb Z.eqb].
  destruct (IH (with_transport t w)) as (t' & ->). by exists t'.
Qed.

Lemma send_accepted cid data w : accepting -> channel_open cid w -> link_ok w -> bytes data -> zlen data <= 512 ->
  exists w', bt_l2cap_channel_manager_send cid data (zlen data) w = (Ret tt, w') /\ channel_open cid w' /\ link_ok w'.
Proof.
  intros Ha (i & c & Efind & Hc & Hopen) [Hw Hin] Hb Hl.
  assert (exists t, bt_l2cap_channel_manager_send cid data (zlen data) w = (Ret tt, with_transport t w)) as [t E].
  { unfold bt_l2cap_channel_manager_send, find_channel_by_local_cid, BT_L2CAP_MAX_SEND_LEN.
    rewrite Z.gtb_ltb, (proj2 (Z.ltb_ge _ _)) by lia. unfold bind at 1. rewrite Efind.
    unfold load, bind at 1. rewrite (hld_spec _ _ _ Hc), decide_False by (intros Hne; by apply Hne).
    erewrite bind_eq; [|apply encode_run; [apply pdu_writes|]; unfold pdu_of, BT_L2CAP_HEADER_LEN; rewrite !length_app, !le_enc_length; lia].
    cbn [fst snd]. rewrite decide_False by naive_solver. pose proof Hw as (l & acc & Hg).
    destruct (send_fragmented_run w (pdu_of (ch_remote_cid c) data) (g_config _ _ _ _ _ Hg)) as (ps & -> & _);
      [apply pdu_of_ok; [done|lia]|]. by apply send_all_accepted. }
  exists (with_transport t w). split; [done|]. split; [by exists i, c|]. split; [by apply world_transport|done].
Qed.
End Link.
End GattLink.
