(* ===== verification/GattProcedures.v ===== *)
(** * GATT client: its procedures against a server

    What the client finds out when it talks to a server: a long read returns
    the server's value, and a discovery the server's attributes.  A server is a
    function from requests to responses; [converse] lets it answer as long as
    the client's last act was to send a request.  The link is one that is [up]:
    what is sent is accepted. *)

From Stdlib Require Import ZArith Lia.
From stdpp Require Import base list list_numbers.
From S2P Require Import Prelude Endian Buffer Callbacks Att ChannelManager GattClient GattLink.

Module GattProcedures.
Import Endian Buffer Callbacks Att GattClient.

(** A discovery procedure: its operation, what its response carries and how,
    the handles of an entry and the item that is kept of it, how many items
    there is room for and where they end up. *)
Record procedure (E A : Type) : Type := {
  pr_op : bt_gatt_client_op;
  pr_expected : Z;
  pr_first_byte : Z -> Z;
  pr_bytes : E -> list Z;
  pr_entry_ok : Z -> E -> Prop;
  pr_legal : Z -> Prop;
  pr_key : E -> Z;
  pr_cursor : E -> Z;
  pr_select : E -> option A;
  pr_max : Z;
  pr_out : bt_gatt_client_completion -> option (list A);
}.
Arguments pr_op {E A}.
Arguments pr_expected {E A}.
Arguments pr_first_byte {E A}.
Arguments pr_bytes {E A}.
Arguments pr_entry_ok {E A}.
Arguments pr_legal {E A}.
Arguments pr_key {E A}.
Arguments pr_cursor {E A}.
Arguments pr_select {E A}.
Arguments pr_max {E A}.
Arguments pr_out {E A}.

Section Procedures.
  Context {CB UD L U : Type} `{GattUser CB UD L U} `{FixedChannels L} (budget : U -> nat) (T : Z).
Abbreviation client := (bt_gatt_client CB UD L).
Abbreviation W := (world client U gatt_event).
Abbreviation at_ c u tr := ({| w_self := c; w_user := u; w_trace := tr |} : W).
Abbreviation ok past := (within budget (I T past)).
  Implicit Types (c : client) (tr past : list gatt_event) (w : W).

(** ** Specification *)

(** The server's response to a request is the client's next event. *)
Fixpoint converse (depth : nat) (server : list Z -> list Z) (fuel : nat) (now : Z) : M W unit :=
  match fuel with
  | O => ret tt
  | S fuel =>
      let! w := gets id in
      match last (w_trace w) with
      | Some (H_out pdu) =>
          do! run_api depth (ChannelEvent (gc_l2cap (w_self w)) (E_data (server pdu) now)) in
          converse depth server fuel now
      | _ => ret tt
      end
  end.

(** Requests and responses only. *)
Definition is_transfer (e : gatt_event) : Prop := match e with H_in _ | H_out _ => True | _ => False end.

(** The history went on with operation [op], transfers, and a completion. *)
Definition performed op (P : bt_gatt_client_completion -> Prop) tr tr' : Prop :=
  exists es comp, Forall is_transfer es /\ cp_op comp = op /\ P comp /\
    (tr ++ [H_start op] ++ es ++ [H_done comp]) `prefix_of` tr'.

(** A link that accepts what is sent, and stays so. *)
Definition stays_up (up : L -> Prop) : Prop := forall l data, up l -> l2_ok l -> bytes data -> zlen data <= 512 ->
  exists l', l2_send BT_L2CAP_CID_ATT data (zlen data) l = (Ret tt, l') /\ up l' /\ l2_ok l'.

(** A server with one attribute of value [v], and an MTU of [mtu]. *)
Definition serve_value (v : list Z) (mtu : Z) (pdu : list Z) : list Z :=
  match pdu with
  | 10 :: _ => BT_ATT_OPCODE_READ_RESPONSE :: take (Z.to_nat (mtu - 1)) v
  | 12 :: _ :: _ :: offset => BT_ATT_OPCODE_READ_BLOB_RESPONSE :: take (Z.to_nat (mtu - 1)) (drop (Z.to_nat (le_dec offset)) v)
  | _ => []
  end.

(** ** Lemmas *)

Section Link.
  Context (up : L -> Prop).
  Hypothesis Hup : stays_up up.
  Hypothesis HT : T <= UINT64_MAX.
  Hypothesis Huser : user_ok budget T.

(** What an operation under way leaves alone. *)
Definition working op c : Prop :=
  up (gc_l2cap c) /\ gc_busy c = true /\ gc_op c = op /\ gc_on_connect c = None /\ op <> BT_GATT_CLIENT_OP_MTU.

Lemma request_short c : gc_op c <> BT_GATT_CLIENT_OP_WRITE -> zlen (request_bytes c) <= 7.
Proof. intros Ho. unfold request_bytes. destruct (gc_op c); try done; try destruct (gc_result_len c =? 0); wire_length. Qed.

Lemma issue_up call now c u tr : core T c tr -> up (gc_l2cap c) -> collected c -> zlen (request_bytes c) <= 512 ->
  timely T now -> exists l, up l /\
  let c' := set_request_deadline_us (request_deadline now) (set_l2cap l c) in
  issue_current_request call now (at_ c u tr) = (Ret tt, at_ c' u (tr ++ [H_out (request_bytes c)])) /\
  core T c' (tr ++ [H_out (request_bytes c)]) /\ deadline_ok T c'.
Proof.
  intros Hc Hl Hcol Hz Hn. destruct (issue_run T call now c u tr Hc Hcol) as (o & l & Es & _ & E).
  destruct (current_request_spec T c (ex_intro _ tr Hc) Hcol) as (_ & _ & _ & _ & Hb).
  destruct (Hup (gc_l2cap c) (request_bytes c)) as (l' & Es' & Hl' & Hok'); [done|by destruct Hc|done|done|].
  rewrite Es' in Es. injection Es as <- <-. rewrite bool_decide_true in E by done. exists l'. split; [done|]. cbv zeta.
  split; [exact E|]. split; [|intros _; cbn; by apply request_deadline_ok].
  pose proof (core_sent T c tr l' (request_bytes c) Hc Hok') as Hc'. destruct Hc'. constructor; try done.
  intros Hpt. destruct (c_tidy0 Hpt). by constructor.
Qed.

(** The operation under way completes with [comp]. *)
Lemma finish_run depth past result code c u tr comp : core T c tr -> gc_busy c = true -> gc_on_connect c = None ->
  (budget u <= depth)%nat ->
  completion_of result (gc_op c) code (gc_result c) (gc_result_count c) (gc_result_len c) = Ret comp ->
  past `prefix_of` tr ++ [H_done comp] ->
  wp (complete (run_api depth) result code) (at_ c u tr) (fun _ => ok past depth).
Proof.
  intros Hc Hb Hcb Hu Ecomp Hp. apply (complete_spec budget T (run_api depth) depth); try done.
  - intros past'. by apply gatt_run_api_ok.
  - intros comp'. rewrite Ecomp. by intros [= <-].
Qed.

(** What a response does to the operation under way. *)
Definition respond (call : api CB UD L -> M W bt_status) op (opcode : Z) (params : list Z) (now : Z) : M W unit :=
  if opcode =? BT_ATT_OPCODE_ERROR_RESPONSE then handle_error_response call params (zlen params) else
  match op with
  | BT_GATT_CLIENT_OP_DISCOVER_SERVICES => handle_discover_services_response call opcode params (zlen params) now
  | BT_GATT_CLIENT_OP_DISCOVER_CHARACTERISTICS => handle_discover_characteristics_response call opcode params (zlen params) now
  | BT_GATT_CLIENT_OP_DISCOVER_DESCRIPTORS => handle_discover_descriptors_response call opcode params (zlen params) now
  | BT_GATT_CLIENT_OP_READ => handle_read_response call opcode params (zlen params) now
  | BT_GATT_CLIENT_OP_WRITE => handle_write_response call opcode params (zlen params)
  | BT_GATT_CLIENT_OP_MTU => ret tt
  end.

(** A response reaches the operation under way. *)
Lemma response_run call opcode params now c u tr op : core T c tr -> working op c -> opcode <> 27 -> opcode <> 29 ->
  let c' := set_event_now_us now (set_l2cap (gc_l2cap c) c) in let tr' := tr ++ [H_in (opcode :: params)] in
  run_call call (ChannelEvent (gc_l2cap c) (E_data (opcode :: params) now)) (at_ c u tr) =
    (do! respond call op opcode params now in ret BT_OK) (at_ c' u tr') /\ core T c' tr' /\ working op c'.
Proof.
  intros Hc Hw H27 H29 c' tr'. split; [|split; [|exact Hw]].
  - destruct Hw as (_ & Hb & Ho & Hcb & _). cbn [run_call on_l2cap_event]. unfold set, emit, modify, bind. world_simpl.
    unfold handle_response. rewrite (proj2 (Z.ltb_ge _ _)) by (cbn [length]; lia).
    unfold set, get, gets, lift, modify, bind. world_simpl. rewrite ld_cons_0. cbv zeta. cbn [drop].
    replace (zlen (opcode :: params) - 1) with (zlen params) by (cbn [length]; lia).
    rewrite (proj2 (Z.eqb_neq opcode BT_ATT_OPCODE_HANDLE_VALUE_NOTIFICATION)),
      (proj2 (Z.eqb_neq opcode BT_ATT_OPCODE_HANDLE_VALUE_INDICATION)) by done.
    cbn -[handle_discover_services_response handle_discover_characteristics_response handle_discover_descriptors_response
      handle_read_response handle_write_response handle_error_response]. rewrite Hcb, Hb, Ho. cbn [negb].
    rewrite bool_decide_false by (intros []; done). unfold respond, BT_ATT_OPCODE_ERROR_RESPONSE.
    destruct (opcode =? 1); [done|]. by destruct op.
  - eapply core_tidy; [exact Hc|try done..]; [by destruct Hc|apply (c_collected _ _ _ Hc)| |].
    + apply Forall_app. split; [by destruct Hc|by repeat constructor].
    + intros [Hpt _]%patient_snoc. destruct (c_tidy _ _ _ Hc Hpt) as [Hop ? ?]. constructor; [|done..].
      unfold tr'. by rewrite operations_snoc, Hop.
Qed.

(** An operation starts. *)
Lemma start_run call op prepare cb ud now c u tr c2 : 
  prepare (at_ (set_op op (set_busy true c)) u (tr ++ [H_start op])) = (Ret tt, at_ c2 u (tr ++ [H_start op])) ->
  start_operation call op prepare cb ud now (at_ c u tr) =
  (do! issue_current_request call now in ret BT_OK)
    (at_ (set_complete_user_data ud (set_on_complete cb c2)) u (tr ++ [H_start op])).
Proof.
  intros E. unfold start_operation. unfold emit, set, modify, bind at 1 2 3. world_simpl. unfold bind at 1. rewrite E.
  by unfold bind at 1 2.
Qed.

Lemma converse_ok depth server fuel now past w k : (forall pdu, bytes (server pdu)) -> timely T now -> (k < depth)%nat ->
  ok past k w -> wp (converse depth server fuel now) w (fun _ => ok past k).
Proof.
  intros Hs Hn Hk. revert w. induction fuel as [|fuel IH]; intros w Hw; [by apply wp_ret|]. cbn [converse].
  unfold wp. rewrite bind_gets. change (id w) with w. fold (wp (match last (w_trace w) with
    | Some (H_out pdu) => do! run_api depth (ChannelEvent (gc_l2cap (w_self w)) (E_data (server pdu) now)) in converse depth server fuel now
    | _ => ret tt end) w (fun _ => ok past k)).
  destruct (last (w_trace w)) as [[]|]; try by apply wp_ret. apply wp_bind.
  eapply wp_mono; [eapply gatt_run_api_ok; [done|done| |exact Hk|exact Hw]|intros ? w' Hw'; by apply IH].
  cbn. split; [|done]. destruct Hw as [(Hc & _ & _) _]. by destruct Hc.
Qed.

Lemma converse_step depth server fuel now w pdu R : last (w_trace w) = Some (H_out pdu) ->
  wp (run_api depth (ChannelEvent (gc_l2cap (w_self w)) (E_data (server pdu) now))) w (fun _ w' => wp (converse depth server fuel now) w' R) ->
  wp (converse depth server (S fuel) now) w R.
Proof. intros Hl Hr. cbn [converse]. unfold wp. rewrite bind_gets. change (id w) with w. rewrite Hl. by apply wp_bind. Qed.

(** *** Long reads *)

Section LongRead.
  Context (h mtu : Z) (v : list Z).
  Hypothesis Hh : is_u16 h.
  Hypothesis Hmtu : 2 <= mtu < 2 ^ 16.
  Hypothesis Hv : bytes v.
  Hypothesis Hlen : zlen v <= BT_GATT_CLIENT_MAX_VALUE_LEN.

(** The value has been read up to [gc_result_len]. *)
Definition reading c : Prop :=
  working BT_GATT_CLIENT_OP_READ c /\ gc_pending_handle c = h /\ gc_mtu c = mtu /\ 0 <= gc_result_len c <= zlen v /\
  take (Z.to_nat (gc_result_len c)) (value_of (gc_result c)) = take (Z.to_nat (gc_result_len c)) v.

Definition next_part c : list Z := take (Z.to_nat (mtu - 1)) (drop (Z.to_nat (gc_result_len c)) v).

Definition whole_value (comp : bt_gatt_client_completion) : Prop :=
  cp_result comp = BT_GATT_CLIENT_OK /\ cp_value comp = Some v /\ cp_value_len comp = zlen v.

Lemma serve_request c : reading c -> serve_value v mtu (request_bytes c) =
  (if gc_result_len c =? 0 then BT_ATT_OPCODE_READ_RESPONSE else BT_ATT_OPCODE_READ_BLOB_RESPONSE) :: next_part c.
Proof.
  unfold BT_GATT_CLIENT_MAX_VALUE_LEN in *. intros ((_ & _ & Ho & _) & _ & _ & Hl & _). unfold request_bytes, next_part. rewrite Ho.
  destruct (Z.eqb_spec (gc_result_len c) 0) as [->|]; [by rewrite drop_0|].
  change (serve_value v mtu ([12] ++ le_enc 2 (gc_pending_handle c) ++ le_enc 2 (gc_result_len c))) with
    (BT_ATT_OPCODE_READ_BLOB_RESPONSE :: take (Z.to_nat (mtu - 1)) (drop (Z.to_nat (le_dec (le_enc 2 (gc_result_len c)))) v)).
  rewrite le_dec_enc, Z.mod_small by lia. done.
Qed.

Lemma serve_value_bytes pdu : bytes (serve_value v mtu pdu).
Proof.
  assert (forall k, bytes (take (Z.to_nat (mtu - 1)) (drop k v))) as Hp by (intros; by apply Forall_take, Forall_drop).
  assert (forall b, 0 <= b < 256 -> forall k, bytes (b :: take (Z.to_nat (mtu - 1)) (drop k v))) as Hc by (intros; by constructor).
  unfold serve_value. repeat case_match; subst; try done; try (apply (Hc 11); lia); try (apply (Hc 13); lia).
  specialize (Hc BT_ATT_OPCODE_READ_RESPONSE ltac:(done) 0%nat). by rewrite drop_0 in Hc.
Qed.

Lemma next_part_spec c : reading c -> zlen (next_part c) = Z.min (mtu - 1) (zlen v - gc_result_len c) /\
  take (Z.to_nat (gc_result_len c)) v ++ next_part c = take (Z.to_nat (gc_result_len c + zlen (next_part c))) v.
Proof.
  intros (_ & _ & _ & Hl & _). unfold next_part.
  assert (zlen (take (Z.to_nat (mtu - 1)) (drop (Z.to_nat (gc_result_len c)) v)) = Z.min (mtu - 1) (zlen v - gc_result_len c)) as Ez
    by (rewrite length_take, length_drop; lia).
  split; [done|]. rewrite Ez. destruct (Z.le_gt_cases (mtu - 1) (zlen v - gc_result_len c)).
  - rewrite Z.min_l by lia. rewrite <- (take_drop (Z.to_nat (gc_result_len c)) (take (Z.to_nat (gc_result_len c + _)) v)).
    rewrite take_take, skipn_firstn_comm. f_equal; [f_equal; lia|]. f_equal. lia.
  - rewrite Z.min_r by lia. rewrite (take_ge (drop _ _)) by (rewrite length_drop; lia). rewrite take_drop, take_ge by lia. done.
Qed.

(** One exchange: the next part, and either the next request or the end. *)
Lemma read_step depth now c u tr R : core T c tr -> reading c -> timely T now -> (budget u <= depth)%nat ->
  let server := serve_value v mtu in let rsp := server (request_bytes c) in
  (forall c', core T c' (tr ++ [H_in rsp; H_out (request_bytes c')]) -> deadline_ok T c' -> reading c' ->
     gc_result_len c' = gc_result_len c + (mtu - 1) -> R (at_ c' u (tr ++ [H_in rsp; H_out (request_bytes c')]))) ->
  (forall comp w', whole_value comp -> cp_op comp = BT_GATT_CLIENT_OP_READ ->
     ok (tr ++ [H_in rsp; H_done comp]) depth w' -> R w') ->
  wp (run_api (S depth) (ChannelEvent (gc_l2cap c) (E_data rsp now))) (at_ c u tr) (fun _ => R).
Proof.
  intros Hc Hr Hn Hu server rsp Hnext Hend. subst rsp server. pose proof (serve_request c Hr) as Es. rewrite Es in *. clear Es.
  destruct (next_part_spec c Hr) as [Ez Ep]. pose proof Hr as (Hw & Hpend & Hm & Hl & Ht).
  set (opcode := if gc_result_len c =? 0 then BT_ATT_OPCODE_READ_RESPONSE else BT_ATT_OPCODE_READ_BLOB_RESPONSE) in *.
  assert (opcode = 11 \/ opcode = 13) as Hop by (unfold opcode; destruct (_ =? 0); auto).
  destruct (response_run (run_api depth) opcode (next_part c) now c u tr _ Hc Hw) as (E0 & Hc1 & _); [lia..|].
  cbn [run_api]. unfold wp. rewrite E0. clear E0. cbv zeta in Hc1. revert Hc1.
  set (rsp := opcode :: next_part c). set (c1 := set_event_now_us now (set_l2cap (gc_l2cap c) c)).
  set (tr1 := tr ++ [H_in rsp]). intros Hc1. destruct Hw as (Hl2 & Hb & Ho & Hcb & Hne).
  destruct (read_response_run T (run_api depth) (next_part c) now c1 u tr1
    opcode Hc1 Hb) as (v' & E & Hc2 & Ht2); [by apply Forall_take, Forall_drop|done|done|cbn; lia|].
  change (gc_mtu c1) with (gc_mtu c) in E. change (gc_result_len c1) with (gc_result_len c) in *.
  change (gc_result c1) with (gc_result c) in *. rewrite Ht, Ep in Ht2.
  unfold respond. rewrite (proj2 (Z.eqb_neq opcode BT_ATT_OPCODE_ERROR_RESPONSE)) by (unfold BT_ATT_OPCODE_ERROR_RESPONSE; lia).
  fold (wp (do! handle_read_response (run_api depth) opcode (next_part c) (zlen (next_part c)) now in ret BT_OK) (at_ c1 u tr1) (fun _ => R)).
  apply wp_bind. unfold wp at 1. rewrite E. clear E. rewrite Hm in *.
  set (c2 := set_result_len _ _) in *. replace (u32 (mtu - 1)) with (mtu - 1) by (rewrite u32_small; lia).
  destruct (Z.eqb_spec (zlen (next_part c)) (mtu - 1)) as [Efull|Epart].
  - destruct (issue_up (run_api depth) now c2 u tr1) as (l & Hl' & -> & Hc3 & Hd3); [done|done|by apply (c_collected _ _ _ Hc2)| |done|].
    { etrans; [apply request_short; cbn; congruence|done]. }
    eexists _, _. split; [done|]. apply wp_ret. subst tr1. rewrite <- app_assoc in *.
    apply (Hnext (set_request_deadline_us (request_deadline now) (set_l2cap l c2))); [done|done| |cbn; by rewrite Efull].
    split; [by repeat split|]. split; [done|]. split; [done|]. split; [cbn; lia|exact Ht2].
  - assert (gc_result_len c + zlen (next_part c) = zlen v) as Eall by lia. rewrite Eall in *.
    fold (wp (complete (run_api depth) BT_GATT_CLIENT_OK 0) (at_ c2 u tr1) (fun _ w' => wp (ret BT_OK) w' (fun _ => R))).
    assert (first_entries (value_of v') (zlen v) = Ret v) as Efirst.
    { destruct (first_entries_spec (value_of v') (zlen v)) as [-> _]; [|by rewrite Ht2, Nat2Z.id, firstn_all].
      pose proof (c_collected _ _ _ Hc2 Hb) as Hcol. unfold collected in Hcol. cbn in Hcol. rewrite Ho in Hcol. lia. }
    set (comp := {| cp_result := BT_GATT_CLIENT_OK; cp_op := BT_GATT_CLIENT_OP_READ; cp_att_error_code := 0;
      cp_services := None; cp_characteristics := None; cp_descriptors := None; cp_count := 0; cp_value := Some v; cp_value_len := zlen v |}).
    eapply wp_mono; [apply (finish_run depth (tr ++ [H_in rsp; H_done comp]) _ _ _ _ _ comp); [exact Hc2|done|done|done| |]|].
    + cbn. rewrite Ho, Eall. unfold completion_of. cbn. by rewrite Efirst.
    + subst tr1. by rewrite <- app_assoc.
    + intros [] w' Hw'. apply wp_ret. by apply (Hend comp).
Qed.

Lemma read_converse depth fuel now : timely T now -> forall c u tr, core T c tr -> deadline_ok T c -> reading c ->
  last tr = Some (H_out (request_bytes c)) -> (budget u <= depth)%nat -> zlen v - gc_result_len c < Z.of_nat fuel * (mtu - 1) ->
  wp (converse (S depth) (serve_value v mtu) fuel now) (at_ c u tr) (fun _ w' =>
    exists es comp, Forall is_transfer es /\ cp_op comp = BT_GATT_CLIENT_OP_READ /\ whole_value comp /\
      (tr ++ es ++ [H_done comp]) `prefix_of` w_trace w').
Proof.
  intros Hn. induction fuel as [|fuel IH]; intros c u tr Hc Hd Hr Hlast Hu Hf; [destruct Hr as (_ & _ & _ & Hl & _); lia|].
  eapply converse_step; [exact Hlast|]. apply (read_step depth now c u tr); [done..| |].
  - intros c' Hc' Hd' Hr' El. eapply wp_mono; [apply IH; [done|done|done| |done|rewrite El; lia]|].
    + by rewrite last_app.
    + intros [] w' (es & comp & Hes & Hop & Hcomp & Hp). exists (H_in (serve_value v mtu (request_bytes c)) :: H_out (request_bytes c') :: es), comp.
      split; [by repeat constructor|].
      split; [done|]. split; [done|]. by rewrite <- app_assoc in Hp.
  - intros comp w' Hcomp Hop Hw'. eapply wp_mono; [apply (converse_ok (S depth) _ _ _ _ _ depth serve_value_bytes Hn ltac:(lia) Hw')|].
    intros [] w'' [(_ & _ & Hp) _]. exists [H_in (serve_value v mtu (request_bytes c))], comp. split; [by repeat constructor|]. split; [done|]. split; [done|exact Hp].
Qed.

(** Where a run of calls leaves the client. *)
Definition rests w : Prop := up (gc_l2cap (w_self w)) /\ gc_channel_ready (w_self w) = true /\
  gc_busy (w_self w) = false /\ gc_on_connect (w_self w) = None.

Lemma read_performed depth cb ud now now' fuel w : core T (w_self w) (w_trace w) -> rests w -> gc_mtu (w_self w) = mtu ->
  timely T now -> timely T now' -> (budget (w_user w) <= depth)%nat -> zlen v < Z.of_nat fuel * (mtu - 1) ->
  wp (do! run_api (S depth) (Read h cb ud now) in converse (S depth) (serve_value v mtu) fuel now') w
    (fun _ w' => performed BT_GATT_CLIENT_OP_READ whole_value (w_trace w) (w_trace w')).
Proof.
  destruct w as [c u tr]. cbn [w_self w_user w_trace]. intros Hc (Hl & Hr & Hb & Hcb) Hm Hn Hn' Hu Hf. cbn [w_self] in *.
  apply wp_bind. cbn [run_api run_call]. unfold bt_gatt_client_read. wp_step. rewrite Hr, Hb. cbn [negb orb].
  unfold wp at 1. erewrite start_run by reflexivity.
  set (c2 := set_result_len 0 (set_pending_handle h (set_op BT_GATT_CLIENT_OP_READ (set_busy true c)))).
  set (c3 := set_complete_user_data ud (set_on_complete cb c2)).
  assert (prepared BT_GATT_CLIENT_OP_READ c c2) as Hpr.
  { split; [done|]. do 3 (split; [done|]). split; [by destruct Hc|]. split; [by destruct Hc|]. unfold collected, BT_GATT_CLIENT_MAX_VALUE_LEN.
    cbn. lia. }
  pose proof (start_core T BT_GATT_CLIENT_OP_READ cb ud c c2 tr Hc Hr Hb ltac:(done) Hpr) as Hc3. fold c3 in Hc3.
  destruct (issue_up (run_api depth) now c3 u (tr ++ [H_start BT_GATT_CLIENT_OP_READ])) as (l & Hl' & E & Hc4 & Hd4);
    [done|done|by destruct Hpr as (_ & _ & _ & _ & _ & _ & ?)|etrans; [by apply request_short|done]|done|].
  rewrite (bind_eq _ _ _ _ _ E). eexists _, _. split; [reflexivity|]. rewrite <- app_assoc in Hc4.
  eapply wp_mono; [apply (read_converse depth fuel now'); [done| |done| | |done|]|].
  - rewrite <- app_assoc. exact Hc4.
  - split; [by repeat split|]. split; [done|]. split; [done|]. split; [cbn; lia|done].
  - by rewrite last_app.
  - cbn. lia.
  - intros [] w' (es & comp & Hes & Hop & Hcomp & Hp). exists (H_out (request_bytes c3) :: es), comp. split; [by constructor|].
    split; [done|]. split; [done|]. by rewrite <- !app_assoc in Hp.
Qed.

End LongRead.

(** *** Discovery *)

(** The request of a discovery for the handles from [first] to [last]. *)
Definition discovery_request op (first last : Z) : list Z :=
  let range := le_enc 2 first ++ le_enc 2 last in
  match op with
  | BT_GATT_CLIENT_OP_DISCOVER_SERVICES => [16] ++ range ++ le_enc 2 BT_GATT_UUID_PRIMARY_SERVICE
  | BT_GATT_CLIENT_OP_DISCOVER_CHARACTERISTICS => [8] ++ range ++ le_enc 2 BT_GATT_UUID_CHARACTERISTIC
  | _ => [4] ++ range
  end.

(** The attributes of the server, in the order of their handles, each with
    its own range. *)
Fixpoint ordered {E A} (p : procedure E A) (first last : Z) (es : list E) : Prop :=
  match es with
  | [] => True
  | e :: es => first <= pr_key p e <= pr_cursor p e /\ pr_cursor p e <= last /\ ordered p (pr_cursor p e + 1) last es
  end.

(** The server answers a request with some of the attributes from the handle
    on that are asked for, the next ones and of one length, or with Attribute
    Not Found if there are none. *)
Definition serves {E A} (p : procedure E A) (last : Z) (es : list E) (server : list Z -> list Z) : Prop :=
  (forall pdu, bytes (server pdu)) /\
  forall first, is_u16 first ->
    let rsp := server (discovery_request (pr_op p) first last) in
    match filter (fun e => first <= pr_key p e) es with
    | [] => exists request_opcode, is_byte request_opcode /\
        rsp = BT_ATT_OPCODE_ERROR_RESPONSE :: [request_opcode] ++ le_enc 2 first ++ [BT_ATT_ERROR_ATTRIBUTE_NOT_FOUND]
    | rest => exists n chunk more, rest = chunk ++ more /\ chunk <> [] /\ pr_legal p n /\ Forall (pr_entry_ok p n) chunk /\
        rsp = pr_expected p :: [pr_first_byte p n] ++ mjoin (pr_bytes p <$> chunk)
    end.

(** The items of all attributes, if there is room for them. *)
Definition all_items {E A} (p : procedure E A) (es : list E) (comp : bt_gatt_client_completion) : Prop :=
  let items := omap (pr_select p) es in
  if zlen items <=? pr_max p
  then cp_result comp = BT_GATT_CLIENT_OK /\ pr_out p comp = Some items /\ cp_count comp = zlen items
  else cp_result comp = BT_GATT_CLIENT_ERROR_TOO_LARGE.

(** [call] discovers the attributes [es] between the handles [first] and
    [last] of any server that serves them. *)
Definition discovery {E A} (p : procedure E A) (first last : Z) (call : api CB UD L) (depth : nat) (now : Z) (w : W)
    (es : list E) (server : list Z -> list Z) (fuel : nat) : Prop :=
  ordered p first last es -> serves p last es server -> (length es < fuel)%nat ->
  exists w', (do! run_api (S depth) call in converse (S depth) server fuel now) w = (Ret tt, w') /\
    performed (pr_op p) (all_items p es) (w_trace w) (w_trace w').

(** Services: those with a 16-bit UUID are kept, the others passed over. *)
Definition services_procedure : procedure bt_att_group_entry bt_gatt_service := {|
  pr_op := BT_GATT_CLIENT_OP_DISCOVER_SERVICES;
  pr_expected := BT_ATT_OPCODE_READ_BY_GROUP_TYPE_RESPONSE;
  pr_first_byte := id; pr_bytes := group_bytes; pr_entry_ok := group_ok; pr_legal n := 4 <= n < 256;
  pr_key := ge_handle; pr_cursor := ge_end_group_handle;
  pr_select e := if ge_value_len e =? 2 then
    Some {| sv_start_handle := ge_handle e; sv_end_handle := ge_end_group_handle e; sv_uuid16 := le_dec (ge_value e) |} else None;
  pr_max := BT_GATT_CLIENT_MAX_SERVICES; pr_out := cp_services;
|}.

(** Characteristics: properties, value handle and UUID. *)
Definition characteristics_procedure : procedure bt_att_type_entry bt_gatt_characteristic := {|
  pr_op := BT_GATT_CLIENT_OP_DISCOVER_CHARACTERISTICS;
  pr_expected := BT_ATT_OPCODE_READ_BY_TYPE_RESPONSE;
  pr_first_byte := id; pr_bytes := type_bytes; pr_entry_ok := type_ok; pr_legal n := 2 <= n < 256;
  pr_key := te_handle; pr_cursor := te_handle;
  pr_select e := match te_value e with
    | [properties; v0; v1; u0; u1] =>
        Some {| cc_declaration_handle := te_handle e; cc_value_handle := le_dec [v0; v1]; cc_properties := properties;
                cc_uuid16 := le_dec [u0; u1] |}
    | _ => None end;
  pr_max := BT_GATT_CLIENT_MAX_CHARACTERISTICS; pr_out := cp_characteristics;
|}.

(** Descriptors. *)
Definition descriptors_procedure : procedure bt_att_information_entry bt_gatt_descriptor := {|
  pr_op := BT_GATT_CLIENT_OP_DISCOVER_DESCRIPTORS;
  pr_expected := BT_ATT_OPCODE_FIND_INFORMATION_RESPONSE;
  pr_first_byte n := if n =? 4 then 1 else 2; pr_bytes := info_bytes; pr_entry_ok := info_ok; pr_legal n := n = 4 \/ n = 18;
  pr_key := ie_handle; pr_cursor := ie_handle;
  pr_select e := if ie_uuid_len e =? 2 then Some {| ds_handle := ie_handle e; ds_uuid16 := le_dec (ie_uuid e) |} else None;
  pr_max := BT_GATT_CLIENT_MAX_DESCRIPTORS; pr_out := cp_descriptors;
|}.

(** A server that serves its attributes one by one. *)
Definition list_server {E A} (p : procedure E A) (size : E -> Z) (es : list E) (pdu : list Z) : list Z :=
  let first := le_dec (take 2 (drop 1 pdu)) in
  match filter (fun e => first <= pr_key p e) es with
  | [] => BT_ATT_OPCODE_ERROR_RESPONSE :: [4] ++ le_enc 2 first ++ [BT_ATT_ERROR_ATTRIBUTE_NOT_FOUND]
  | e :: _ => pr_expected p :: [pr_first_byte p (size e)] ++ pr_bytes p e
  end.

Lemma list_server_serves {E A} (p : procedure E A) size last es :
  is_byte (pr_expected p) ->
  Forall (fun e => pr_legal p (size e) /\ pr_entry_ok p (size e) e /\ bytes (pr_bytes p e) /\ is_byte (pr_first_byte p (size e))) es ->
  serves p last es (list_server p size es).
Proof.
  intros Hx Hes. split.
  - intros pdu. unfold list_server. cbv zeta. destruct (filter _ es) as [|e rest] eqn:Ef; [bys; done|].
    assert (e ∈ filter (fun e => le_dec (take 2 (drop 1 pdu)) <= pr_key p e) es) as [_ He]%list_elem_of_filter by (rewrite Ef; apply list_elem_of_here).
    destruct (proj1 (Forall_forall _ _) Hes e He) as (_ & _ & Hb & Hf). cbn.
    by do 2 (apply Forall_cons; split; [done|]).
  - intros first Hfirst. cbv zeta. assert (le_dec (take 2 (drop 1 (discovery_request (pr_op p) first last))) = first) as E1.
    { transitivity (le_dec (le_enc 2 first)); [by destruct (pr_op p)|]. unfold is_u16 in *. rewrite le_dec_enc, Z.mod_small by lia. done. }
    unfold list_server. cbv zeta. rewrite E1. destruct (filter _ es) as [|e rest] eqn:Ef; [exists 4; split; [done|reflexivity]|].
    assert (e ∈ filter (fun e => first <= pr_key p e) es) as [_ He]%list_elem_of_filter by (rewrite Ef; apply list_elem_of_here).
    destruct (proj1 (Forall_forall _ _) Hes e He) as (Hl & Hk & _ & _). exists (size e), [e], rest. split; [done|]. split; [done|].
    split; [done|]. split; [by constructor|]. cbn. by rewrite app_nil_r.
Qed.

Section Discovery.
  Context {E A : Type} (p : procedure E A).
  Context (init : list Z -> Z -> outcome bt_att_iter) (next : M bt_att_iter E) (finished : client -> Z -> bool).
  Context (full : Z -> bool) (items : gatt_result -> list A) (wrap : list A -> gatt_result).
  Context (body : (api CB UD L -> M W bt_status) -> bool * Z -> E -> M W (option (bool * Z))).
Abbreviation op := (pr_op p).
Abbreviation expected := (pr_expected p).
Abbreviation first_byte_of := (pr_first_byte p).
Abbreviation enc := (pr_bytes p).
Abbreviation entry_ok := (pr_entry_ok p).
Abbreviation legal := (pr_legal p).
Abbreviation key := (pr_key p).
Abbreviation cursor := (pr_cursor p).
Abbreviation select := (pr_select p).
Abbreviation max := (pr_max p).
Abbreviation out := (pr_out p).

Definition discovers_op : Prop :=
  op ∈ [BT_GATT_CLIENT_OP_DISCOVER_SERVICES; BT_GATT_CLIENT_OP_DISCOVER_CHARACTERISTICS; BT_GATT_CLIENT_OP_DISCOVER_DESCRIPTORS].

  Hypothesis Hop : discovers_op.
  Hypothesis Hexpected : is_byte expected /\ expected <> 27 /\ expected <> 29.
  Hypothesis Hiter : forall n, legal n -> iterates init next first_byte_of enc entry_ok n.
  Hypothesis Henc : forall n e, entry_ok n e -> bytes (enc e) /\ enc e <> [].
  Hypothesis Hcollects : collects (CB := CB) (UD := UD) (L := L) op max full items wrap.
  Hypothesis Hrespond : forall call params now, respond call op expected params now =
    discovery_response call expected expected (init params (zlen params)) next (zlen params) (body call) finished now.
  Hypothesis Hbody : forall call acc e n, entry_ok n e -> body call acc e =
    match select e with Some a => add_entry call full items wrap (Ret a) (cursor e) | None => ret (Some (true, cursor e)) end.
  Hypothesis Hfinished : forall c x, is_u16 (gc_discover_range_end c) -> is_u16 x -> if finished c x then gc_discover_range_end c <= x else x < 65535.
  Hypothesis Hout : forall u n len, 0 <= n <= zlen (items u) -> exists comp,
    completion_of BT_GATT_CLIENT_OK op 0 u n len = Ret comp /\ cp_op comp = op /\ cp_result comp = BT_GATT_CLIENT_OK /\
    out comp = Some (take (Z.to_nat n) (items u)) /\ cp_count comp = n.

(** The items [l] have been collected. *)
Definition gathered l c : Prop :=
  gc_result_count c = zlen l /\ zlen l <= max /\ zlen l <= zlen (items (gc_result c)) /\ take (length l) (items (gc_result c)) = l.

Definition too_large : bt_gatt_client_completion :=
  {| cp_result := BT_GATT_CLIENT_ERROR_TOO_LARGE; cp_op := op; cp_att_error_code := 0; cp_services := None;
     cp_characteristics := None; cp_descriptors := None; cp_count := 0; cp_value := None; cp_value_len := 0 |}.

Lemma add_gathers depth l a last c u tr : core T c tr -> working op c -> (budget u <= depth)%nat -> gathered l c ->
  wp (add_entry (run_api depth) full items wrap (Ret a) last) (at_ c u tr) (fun r w' =>
    match r with
    | Some acc => acc = (true, last) /\ exists v, let c' := set_result v (set_result_count (gc_result_count c + 1) c) in
        w' = at_ c' u tr /\ core T c' tr /\ gathered (l ++ [a]) c'
    | None => max < zlen (l ++ [a]) /\ ok (tr ++ [H_done too_large]) depth w'
    end).
Proof.
  intros Hc (Hl2 & Hb & Ho & Hcb & Hne) Hu (Hcount & Hmax & Hroom & Htake). destruct Hcollects as (_ & Hfull & Hwrap & Hcol).
  unfold add_entry. wp_step. rewrite Hcount, Hfull by lia. destruct (Z.leb_spec max (zlen l)).
  - apply wp_bind. eapply wp_mono; [apply (finish_run depth (tr ++ [H_done too_large]) _ _ _ _ _ too_large Hc Hb Hcb Hu); [|done]|].
    + rewrite Ho. unfold completion_of. by rewrite bool_decide_false by done.
    + intros [] w' Hw'. apply wp_ret. split; [rewrite length_app; cbn; lia|done].
  - apply wp_bind, wp_ret. destruct (put_at_spec (items (gc_result c)) (zlen l) a) as (l' & El & Hz & Ht); [lia|].
    destruct (Hwrap l') as [Hi Hv]. eapply wp_lift; [exact El|]. repeat wp_step. apply wp_ret. split; [done|].
    exists (wrap l'). split; [done|]. split.
    + apply core_collect; [done|by rewrite Hv|]. apply Hcol; [done|]. cbn. rewrite Hi. lia.
    + split; [cbn; rewrite length_app; cbn; lia|]. split; [rewrite length_app; cbn; lia|]. cbn. rewrite Hi, length_app. cbn.
      split; [lia|]. rewrite Nat2Z.id, Htake in Ht. rewrite <- Ht. f_equal. lia.
Qed.

(** The loop over the entries of one response. *)
Lemma each_gathers depth n chunk : Forall (entry_ok n) chunk -> forall acc l c u tr, core T c tr -> working op c ->
  (budget u <= depth)%nat -> gathered l c ->
  wp (each (body (run_api depth)) chunk acc) (at_ c u tr) (fun r w' =>
    match r with
    | Some acc' => acc' = foldl (fun _ e => (true, cursor e)) acc chunk /\
        exists v k, let c' := set_result v (set_result_count k c) in
          w' = at_ c' u tr /\ core T c' tr /\ gathered (l ++ omap select chunk) c'
    | None => max < zlen (l ++ omap select chunk) /\ ok (tr ++ [H_done too_large]) depth w'
    end).
Proof.
  induction 1 as [|e chunk He Hchunk IH]; intros acc l c u tr Hc Hw Hu Hg; cbn [each foldl].
  { apply wp_ret. split; [done|]. exists (gc_result c), (gc_result_count c). cbn. rewrite app_nil_r.
    replace (set_result (gc_result c) (set_result_count (gc_result_count c) c)) with c by by destruct c. done. }
  apply wp_bind. rewrite (Hbody _ _ _ _ He). cbn [omap list_omap]. destruct (select e) as [a|].
  - eapply wp_mono; [by apply (add_gathers depth l)|]. intros [acc'|] w'.
    + intros (-> & v & -> & Hc' & Hg'). eapply wp_mono; [apply IH; [exact Hc'| |done|exact Hg']|].
      { destruct Hw as (? & ? & ? & ? & ?). by repeat split. }
      cbn [app]. intros [acc''|] w''; rewrite <- app_assoc; [|done].
      intros (-> & v' & k & H1 & H2 & H3). split; [done|]. by exists v', k.
    + intros [Hmax Hw']. apply wp_ret. split; [|done]. rewrite length_app in *. cbn in *. lia.
  - apply wp_ret. by apply IH.
Qed.

(** *** The server's attributes *)

Lemma ordered_from first last es : ordered p first last es -> forall q, q <= first -> filter (fun e => q <= key e) es = es.
Proof.
  revert first. induction es as [|e es IH]; intros first Ho q Hq; [done|]. destruct Ho as (Hk & Hl & Ho).
  rewrite filter_cons_True by lia. f_equal. eapply IH; [exact Ho|lia].
Qed.

Lemma ordered_app first last done_ todo : ordered p first last (done_ ++ todo) ->
  exists q, ordered p q last todo /\ filter (fun e => q <= key e) (done_ ++ todo) = todo /\
    match list.last done_ with Some e => first <= cursor e <= last /\ q = cursor e + 1 | None => q = first end.
Proof.
  revert first. induction done_ as [|e done_ IH]; intros first Ho.
  { exists first. split; [done|]. split; [|done]. eapply ordered_from; [exact Ho|lia]. }
  cbn [app ordered] in Ho. destruct Ho as (Hk & Hl & Ho). destruct (IH _ Ho) as (q & H1 & H2 & H3). rewrite last_cons.
  exists q. split; [done|]. cbn [app]. rewrite filter_cons_False; [|destruct (list.last done_); lia]. split; [done|].
  destruct (list.last done_); lia.
Qed.

Lemma drain_more {S X} (nxt : M S X) n m it l e : drain nxt n it = (l, Fail e) -> (n <= m)%nat -> drain nxt m it = (l, Fail e).
Proof.
  revert m it l. induction n as [|n IH]; intros m it l Hd Hm; [done|]. destruct m as [|m]; [lia|]. cbn [drain] in *.
  destruct (nxt it) as [[x|e'|] it']; [|done..]. destruct (drain nxt n it') as [l' o] eqn:Ed. injection Hd as <- ->.
  by rewrite (IH m it' l' Ed) by lia.
Qed.

Lemma entries_short n chunk : Forall (entry_ok n) chunk -> (length chunk <= length (mjoin (enc <$> chunk)))%nat.
Proof.
  induction 1 as [|e chunk He _ IH]; [done|]. rewrite mjoin_cons, length_app. cbn [length].
  destruct (Henc n e He) as [_ Hne]. destruct (enc e); [done|]. cbn [length]. lia.
Qed.

Lemma last_cursor chunk acc : foldl (fun _ e => (true, cursor e)) acc chunk =
  match list.last chunk with Some e => (true, cursor e) | None => acc end.
Proof.
  revert acc. induction chunk as [|e chunk IH]; intros acc; [done|]. cbn [foldl]. rewrite IH, last_cons. by destruct (list.last chunk).
Qed.

Lemma not_write : op <> BT_GATT_CLIENT_OP_WRITE.
Proof. unfold discovers_op in Hop. intros E0. rewrite E0, !elem_of_cons, elem_of_nil in Hop. by destruct_or? Hop. Qed.

Lemma request_discovery c : gc_op c = op -> request_bytes c = discovery_request op (gc_pending_handle c) (gc_discover_range_end c).
Proof.
  intros Ho. unfold request_bytes, discovery_request. rewrite Ho. unfold discovers_op in Hop.
  rewrite !elem_of_cons, elem_of_nil in Hop. by destruct_or? Hop; rewrite Hop.
Qed.

Lemma not_found_run call ro first now c u tr : working op c -> is_byte ro -> is_u16 first ->
  respond call op BT_ATT_OPCODE_ERROR_RESPONSE ([ro] ++ le_enc 2 first ++ [BT_ATT_ERROR_ATTRIBUTE_NOT_FOUND]) now (at_ c u tr) =
    complete call BT_GATT_CLIENT_OK 0 (at_ c u tr).
Proof.
  intros (_ & _ & Ho & _) Hro Hf. unfold is_byte, is_u16 in *.
  assert (bt_att_parse_error_response ([ro] ++ le_enc 2 first ++ [BT_ATT_ERROR_ATTRIBUTE_NOT_FOUND]) 4 =
    Ret {| er_request_opcode := ro; er_handle_in_error := first; er_error_code := BT_ATT_ERROR_ATTRIBUTE_NOT_FOUND |}) as Eparse.
  { unfold bt_att_parse_error_response, BT_ATT_ERROR_ATTRIBUTE_NOT_FOUND. simpl negb. cbv iota.
    apply (parse_reads _ ([ro] ++ le_enc 2 first ++ [10])); [|bys]. repeat parse_step. auto with wire. }
  unfold respond. rewrite Z.eqb_refl. unfold handle_error_response, get. rewrite bind_gets. cbn [w_self]. change (id c) with c.
  replace (zlen ([ro] ++ le_enc 2 first ++ [BT_ATT_ERROR_ATTRIBUTE_NOT_FOUND])) with 4 by done. rewrite Eparse. cbn [parsed]. rewrite bind_ret.
  rewrite Ho. unfold discovers_op in Hop. rewrite !elem_of_cons, elem_of_nil in Hop. by destruct_or? Hop; rewrite Hop.
Qed.

Section Run.
  Context (first last : Z) (es : list E) (server : list Z -> list Z) (now : Z).
  Hypothesis Hfirst : is_u16 first.
  Hypothesis Hes : ordered p first last es.
  Hypothesis Hserver : serves p last es server.
  Hypothesis Hnow : timely T now.

(** The attributes [found] have been found, [todo] have not. *)
Definition discovering_at (found todo : list E) c : Prop :=
  working op c /\ es = found ++ todo /\ gc_discover_range_end c = last /\ gathered (omap select found) c /\
  filter (fun e => gc_pending_handle c <= key e) es = todo.

(** The end of a discovery that has found everything. *)
Lemma all_found depth c u tr R rsp : core T c (tr ++ [H_in rsp]) -> working op c -> gathered (omap select es) c -> (budget u <= depth)%nat ->
  (forall comp w', all_items p es comp -> cp_op comp = op -> ok (tr ++ [H_in rsp; H_done comp]) depth w' -> R w') ->
  wp (complete (run_api depth) BT_GATT_CLIENT_OK 0) (at_ c u (tr ++ [H_in rsp])) (fun _ => R).
Proof.
  intros Hc (_ & Hb & Ho & Hcb & _) (Hn & Hm & Hr & Ht) Hu HR.
  destruct (Hout (gc_result c) (gc_result_count c) (gc_result_len c)) as (comp & Ec & Eop & Er & Eout & En); [lia|].
  eapply wp_mono; [apply (finish_run depth (tr ++ [H_in rsp; H_done comp]) _ _ _ _ _ comp Hc Hb Hcb Hu)|].
  - by rewrite Ho.
  - by rewrite <- app_assoc.
  - intros [] w' Hw'. apply (HR comp); [|done|done]. unfold all_items. rewrite (proj2 (Z.leb_le _ _)) by lia.
    split; [done|]. rewrite Eout, Hn, Nat2Z.id, Ht in *. split; [done|congruence].
Qed.

(** A response with the entries [chunk], run. *)
Lemma chunk_response depth n chunk c u tr (R : W -> Prop) : legal n -> Forall (entry_ok n) chunk -> chunk <> [] ->
  core T c tr -> working op c -> (budget u <= depth)%nat -> forall l, gathered l c ->
  (forall comp_l w', comp_l = l ++ omap select chunk -> max < zlen comp_l -> ok (tr ++ [H_done too_large]) depth w' -> R w') ->
  (forall e v k, list.last chunk = Some e -> let c' := set_result v (set_result_count k c) in
     core T c' tr -> gathered (l ++ omap select chunk) c' ->
     wp (if finished c (cursor e) then complete (run_api depth) BT_GATT_CLIENT_OK 0
         else do! set (set_pending_handle (u16 (cursor e + 1))) in issue_current_request (run_api depth) now) (at_ c' u tr) (fun _ => R)) ->
  wp (respond (run_api depth) op expected ([first_byte_of n] ++ mjoin (enc <$> chunk)) now) (at_ c u tr) (fun _ => R).
Proof.
  intros Hlegal Hchunk Hne Hc Hw Hu l Hg Hover Hgo. rewrite Hrespond. unfold discovery_response. wp_step. rewrite Z.eqb_refl. cbn [negb].
  destruct (Hiter n Hlegal chunk Hchunk Hne) as (it & Ei & Hdr).
  { eapply Forall_impl; [exact Hchunk|]. intros e He. by apply (Henc n). }
  rewrite Ei. apply wp_bind, wp_ret. apply wp_bind. pose proof (entries_short n chunk Hchunk) as Hz.
  unfold wp at 1. erewrite while_each by (eapply drain_more; [exact Hdr|rewrite length_app; lia]).
  match goal with |- exists b w', ?m ?w = _ /\ @?Q b w' => change (wp m w Q) end.
  eapply wp_mono; [by apply (each_gathers depth n)|]. intros [[any last_]|] w'.
  - rewrite last_cursor. intros (Elast & v & k & -> & Hc' & Hg'). destruct (list.last chunk) as [e|] eqn:El; [|by apply last_None in El].
    injection Elast as -> ->. cbn [negb]. by apply (Hgo e v k).
  - intros [Hmax Hw']. apply wp_ret. by eapply Hover.
Qed.

Lemma discovery_step depth c u tr found todo R : core T c tr -> discovering_at found todo c -> (budget u <= depth)%nat ->
  let rsp := server (request_bytes c) in
  (forall c' found' todo', core T c' (tr ++ [H_in rsp; H_out (request_bytes c')]) -> deadline_ok T c' ->
     discovering_at found' todo' c' -> (length todo' < length todo)%nat -> R (at_ c' u (tr ++ [H_in rsp; H_out (request_bytes c')]))) ->
  (forall comp w', all_items p es comp -> cp_op comp = op -> ok (tr ++ [H_in rsp; H_done comp]) depth w' -> R w') ->
  wp (run_api (S depth) (ChannelEvent (gc_l2cap c) (E_data rsp now))) (at_ c u tr) (fun _ => R).
Proof.
  intros Hc (Hw & Ees & Elast & Hg & Hfilter) Hu rsp Hnext Hend. subst rsp.
  assert (gc_op c = op) as Ho by by destruct Hw as (_ & _ & ? & _). destruct Hserver as [_ Hs].
  specialize (Hs (gc_pending_handle c) ltac:(by destruct Hc)). cbv zeta in Hs. rewrite (request_discovery c Ho), Elast in *.
  rewrite Hfilter in Hs. destruct todo as [|e0 todo].
  - destruct Hs as (ro & Hro & Es). rewrite Es in *. clear Es. rewrite app_nil_r in Ees. rewrite <- Ees in Hg.
    destruct (response_run (run_api depth) BT_ATT_OPCODE_ERROR_RESPONSE ([ro] ++ le_enc 2 (gc_pending_handle c) ++ [BT_ATT_ERROR_ATTRIBUTE_NOT_FOUND])
      now c u tr op Hc Hw) as (E0 & Hc1 & Hw1); [done..|]. cbn [run_api]. unfold wp. rewrite E0. clear E0.
    match goal with |- exists b w', ?m ?w = _ /\ _ => change (wp m w (fun _ => R)) end. apply wp_bind. unfold wp at 1.
    rewrite not_found_run; [|done|done|by destruct Hc].
    match goal with |- exists b w', ?m ?w = _ /\ _ => change (wp m w (fun _ w' => wp (ret BT_OK) w' (fun _ => R))) end.
    eapply all_found; [exact Hc1|exact Hw1|exact Hg|done|]. intros comp w' H1 H2 H3. apply wp_ret. by apply (Hend comp).
  - destruct Hs as (n & chunk & more & Etodo & Hne & Hlegal & Hchunk & Es). rewrite Es in *. clear Es. rewrite Etodo in *. clear Etodo.
    destruct (response_run (run_api depth) expected ([first_byte_of n] ++ mjoin (enc <$> chunk)) now c u tr op Hc Hw) as (E0 & Hc1 & Hw1);
      [naive_solver..|]. cbn [run_api]. unfold wp. rewrite E0. clear E0.
    match goal with |- exists b w', ?m ?w = _ /\ _ => change (wp m w (fun _ => R)) end. apply wp_bind.
    rewrite app_assoc in Ees. assert (ordered p first last ((found ++ chunk) ++ more)) as Hsplit by by rewrite <- Ees.
    destruct (ordered_app first last (found ++ chunk) more Hsplit) as (q & Hmore & Hrest & Hp).
    eapply (chunk_response depth n chunk); [done..|exact Hg| |].
    + intros l w' -> Hmax Hw'. apply wp_ret. rewrite <- app_assoc in Hw'. apply (Hend too_large); [|done|done].
      unfold all_items. rewrite (proj2 (Z.leb_gt _ _)); [done|]. rewrite Ees, !omap_app, !length_app in *. lia.
    + intros e v k El. cbv zeta. intros Hc2 Hg2. rewrite last_app, El in Hp. destruct Hp as [Hcur ->].
      assert (is_u16 (cursor e)) as Hu16 by (unfold is_u16 in *; destruct Hc; unfold is_u16 in *; lia).
      specialize (Hfinished (set_event_now_us now (set_l2cap (gc_l2cap c) c)) (cursor e) ltac:(by destruct Hc) Hu16).
      destruct (finished _ (cursor e)).
      * assert (more = []) as ->.
        { destruct more as [|x more]; [done|]. destruct Hmore as (? & ? & _). change (gc_discover_range_end (set_event_now_us now (set_l2cap (gc_l2cap c) c)))
            with (gc_discover_range_end c) in Hfinished. lia. }
        rewrite app_nil_r in Ees. rewrite <- omap_app, <- Ees in Hg2.
        eapply all_found; [exact Hc2|exact Hw1|exact Hg2|done|]. intros comp w' H1 H2 H3. apply wp_ret. by apply (Hend comp).
      * apply wp_set. world_simpl. rewrite u16_small by (unfold is_u16 in *; lia).
        set (c2 := set_pending_handle _ _). assert (core T c2 (tr ++ [H_in (expected :: [first_byte_of n] ++ mjoin (enc <$> chunk))])) as Hc3.
        { destruct Hc2. constructor; try done; [cbn; unfold is_u16 in *; lia|]. intros Hpt. destruct (c_tidy0 Hpt). by constructor. }
        assert (gc_op c2 = op) as Ho2 by done.
        destruct (issue_up (run_api depth) now c2 u _ Hc3) as (l & Hl' & Eis & Hc4 & Hd4);
          [by destruct Hw1|apply (c_collected _ _ _ Hc3); by destruct Hw as (_ & ? & _)| |done|].
        { etrans; [apply request_short; rewrite Ho2; by apply not_write|done]. }
        unfold wp. rewrite Eis. eexists _, _. split; [done|]. apply wp_ret. rewrite <- app_assoc in Hc4 |- *.
        apply (Hnext (set_request_deadline_us (request_deadline now) (set_l2cap l c2)) (found ++ chunk) more); [exact Hc4|exact Hd4| |].
        -- split; [destruct Hw as (_ & ? & ? & ? & ?); by repeat split|].
           split; [done|]. split; [done|]. split; [by rewrite omap_app|].
           by rewrite Ees.
        -- rewrite length_app. destruct chunk; [done|]. cbn. lia.
Qed.

Lemma discovery_converse depth fuel : (forall pdu, bytes (server pdu)) -> forall found todo c u tr, core T c tr -> deadline_ok T c ->
  discovering_at found todo c -> list.last tr = Some (H_out (request_bytes c)) -> (budget u <= depth)%nat -> (length todo < fuel)%nat ->
  wp (converse (S depth) server fuel now) (at_ c u tr) (fun _ w' =>
    exists hs comp, Forall is_transfer hs /\ cp_op comp = op /\ all_items p es comp /\ (tr ++ hs ++ [H_done comp]) `prefix_of` w_trace w').
Proof.
  intros Hsb. induction fuel as [|fuel IH]; intros found todo c u tr Hc Hd Hr Hlast Hu Hf; [lia|].
  eapply converse_step; [exact Hlast|]. apply (discovery_step depth c u tr found todo); [done..| |].
  - intros c' found' todo' Hc' Hd' Hr' Hlt. eapply wp_mono; [apply (IH found' todo'); [done|done|done| |done|lia]|].
    + by rewrite last_app.
    + intros [] w' (hs & comp & Hhs & Hcop & Hcomp & Hp). exists (H_in (server (request_bytes c)) :: H_out (request_bytes c') :: hs), comp.
      split; [by repeat constructor|]. split; [done|]. split; [done|]. by rewrite <- app_assoc in Hp.
  - intros comp w' Hcomp Hcop Hw'. eapply wp_mono; [apply (converse_ok (S depth) _ _ _ _ _ depth Hsb Hnow ltac:(lia) Hw')|].
    intros [] w'' [(_ & _ & Hp) _]. exists [H_in (server (request_bytes c))], comp. split; [by repeat constructor|].
    split; [done|]. split; [done|exact Hp].
Qed.

Lemma discovery_performed depth a cb ud now0 fuel w : (forall pdu, bytes (server pdu)) -> is_u16 last -> 0 <= max ->
  (forall call, gc_channel_ready (w_self w) = true -> gc_busy (w_self w) = false ->
     run_call call a w = start_operation call op (discover first last) cb ud now0 w) ->
  core T (w_self w) (w_trace w) -> rests w -> timely T now0 -> (budget (w_user w) <= depth)%nat -> (length es < fuel)%nat ->
  wp (do! run_api (S depth) a in converse (S depth) server fuel now) w (fun _ w' => performed op (all_items p es) (w_trace w) (w_trace w')).
Proof.
  destruct w as [c u tr]. cbn [w_self w_user w_trace]. intros Hsb Hlast Hmax0 Ea Hc (Hl & Hr & Hb & Hcb) Hn Hu Hf. cbn [w_self] in *.
  apply wp_bind. cbn [run_api]. unfold wp at 1. rewrite (Ea _ Hr Hb). erewrite start_run by reflexivity.
  set (c2 := set_result_count 0 (set_discover_range_end last (set_pending_handle first (set_op op (set_busy true c))))).
  set (c3 := set_complete_user_data ud (set_on_complete cb c2)). pose proof Hcollects as (Hmtu & _ & _ & Hcol).
  assert (prepared op c c2) as Hpr.
  { split; [done|]. do 4 (split; [done|]). split; [by destruct Hc|]. apply Hcol; [done|]. cbn. lia. }
  pose proof (start_core T op cb ud c c2 tr Hc Hr Hb Hmtu Hpr) as Hc3. fold c3 in Hc3.
  destruct (issue_up (run_api depth) now0 c3 u (tr ++ [H_start op])) as (l & Hl' & Eis & Hc4 & Hd4);
    [done|done|by destruct Hpr as (_ & _ & _ & _ & _ & _ & ?)| |done|].
  { etrans; [apply request_short; cbn; by apply not_write|done]. }
  rewrite (bind_eq _ _ _ _ _ Eis). eexists _, _. split; [reflexivity|]. rewrite <- app_assoc in Hc4.
  eapply wp_mono; [apply (discovery_converse depth fuel Hsb [] es); [|done| | |done|done]|].
  - rewrite <- app_assoc. exact Hc4.
  - split; [by repeat split|]. split; [done|]. split; [done|]. split; [by repeat split; cbn; lia|]. by apply (ordered_from first last).
  - by rewrite last_app.
  - intros [] w' (hs & comp & Hhs & Hcop & Hcomp & Hp). exists (H_out (request_bytes c3) :: hs), comp. split; [by constructor|].
    split; [done|]. split; [done|]. by rewrite <- !app_assoc in Hp.
Qed.
End Run.

Lemma discovery_runs first last a cb ud depth now0 now es server fuel w : is_u16 first -> is_u16 last -> 0 <= max ->
  (forall call, gc_channel_ready (w_self w) = true -> gc_busy (w_self w) = false ->
     run_call call a w = start_operation call op (discover first last) cb ud now0 w) ->
  core T (w_self w) (w_trace w) -> rests w -> timely T now0 -> timely T now -> (budget (w_user w) <= depth)%nat ->
  discovery p first last a depth now w es server fuel.
Proof.
  intros Hf Hl Hm Ha Hc Hr Hn0 Hn Hu Hes Hserver Hfuel.
  edestruct (discovery_performed first last es server now) as ([] & w' & E' & Hp); try done; [by destruct Hserver|]. by exists w'.
Qed.

End Discovery.

(** *** The three procedures *)

Ltac procedure_operation := unfold discovers_op; cbn; rewrite !elem_of_cons; auto.
Ltac procedure_output := intros u_ n_ len_ Hn_; unfold completion_of; cbn in *;
  destruct (first_entries_spec _ _ Hn_) as [-> _]; eexists; by repeat split.
Ltac procedure_call := intros call Hready Hbusy; cbn [run_call];
  unfold bt_gatt_client_discover_services, bt_gatt_client_discover_characteristics, bt_gatt_client_discover_descriptors, get;
  rewrite bind_gets; unfold id; rewrite Hready, Hbusy.

Lemma services_run depth cb ud now0 now es server fuel w : core T (w_self w) (w_trace w) -> rests w -> timely T now0 -> timely T now ->
  (budget (w_user w) <= depth)%nat ->
  discovery services_procedure 1 65535 (DiscoverServices cb ud now0) depth now w es server fuel.
Proof.
  intros Hc Hr Hn0 Hn Hu. refine (discovery_runs services_procedure bt_att_read_by_group_type_response_iter_init
    bt_att_read_by_group_type_response_iter_next _ _ services_of U_services _ _ _ _ _ collects_services (fun _ _ _ => eq_refl) _ _ _
    1 65535 _ cb ud depth now0 now es server fuel w _ _ _ _ Hc Hr Hn0 Hn Hu); try done; cbn -[Z.mul run_call start_operation discover completion_of].
  - procedure_operation.
  - exact group_iter_exact.
  - intros n e (H1 & H2 & H3 & _). split; [unfold group_bytes; bys|by intros [=]].
  - intros call _ e n (_ & _ & Hb & Hl & _). destruct (Z.eqb_spec (ge_value_len e) 2) as [E2|]; [|done].
    by rewrite le16_at, drop_0, take_ge by (done || lia).
  - intros c x Hrange Hx. unfold is_u16 in *. destruct (Z.eqb_spec x 65535); lia.
  - procedure_output.
  - procedure_call. done.
Qed.

Lemma characteristics_run depth s e cb ud now0 now es server fuel w : core T (w_self w) (w_trace w) -> rests w -> timely T now0 -> timely T now ->
  (budget (w_user w) <= depth)%nat -> is_u16 s -> is_u16 e ->
  discovery characteristics_procedure s e (DiscoverCharacteristics s e cb ud now0) depth now w es server fuel.
Proof.
  intros Hc Hr Hn0 Hn Hu Hs He. refine (discovery_runs characteristics_procedure bt_att_read_by_type_response_iter_init
    bt_att_read_by_type_response_iter_next _ _ characteristics_of U_characteristics _ _ _ _ _ collects_characteristics (fun _ _ _ => eq_refl) _ _ _
    s e _ cb ud depth now0 now es server fuel w Hs He _ _ Hc Hr Hn0 Hn Hu); try done; cbn -[Z.mul run_call start_operation discover completion_of].
  - procedure_operation.
  - exact type_iter_exact.
  - intros n x (H1 & H2 & H3 & _). split; [unfold type_bytes; bys|by intros [=]].
  - intros call _ x n (_ & Hb & Hl & _). destruct (Z.eqb_spec (te_value_len x) 5) as [E5|].
    + rewrite !le16_at by (done || lia). destruct (te_value x) as [|b0 [|b1 [|b2 [|b3 [|b4 []]]]]]; cbn in Hl; try lia. done.
    + destruct (te_value x) as [|b0 [|b1 [|b2 [|b3 [|b4 []]]]]]; cbn in Hl; done || lia.
  - intros c x Hrange Hx. unfold is_u16 in *. rewrite Z.geb_leb. destruct (Z.leb_spec (gc_discover_range_end c) x); lia.
  - procedure_output.
  - procedure_call. done.
Qed.

Lemma descriptors_run depth s e cb ud now0 now es server fuel w : core T (w_self w) (w_trace w) -> rests w -> timely T now0 -> timely T now ->
  (budget (w_user w) <= depth)%nat -> 1 <= s <= e -> is_u16 e ->
  discovery descriptors_procedure s e (DiscoverDescriptors s e cb ud now0) depth now w es server fuel.
Proof.
  intros Hc Hr Hn0 Hn Hu Hs He. refine (discovery_runs descriptors_procedure (fun p => bt_att_find_information_response_iter_init (Some p))
    bt_att_find_information_response_iter_next _ _ descriptors_of U_descriptors _ _ _ _ _ collects_descriptors (fun _ _ _ => eq_refl) _ _ _
    s e _ cb ud depth now0 now es server fuel w _ He _ _ Hc Hr Hn0 Hn Hu); try done; cbn -[Z.mul run_call start_operation discover completion_of].
  - procedure_operation.
  - exact info_iter_exact.
  - intros n x (H1 & H2 & H3 & _). split; [unfold info_bytes; bys|by intros [=]].
  - intros call _ x n (_ & Hb & Hl & _). destruct (Z.eqb_spec (ie_uuid_len x) 2) as [E2|]; [|done].
    by rewrite le16_at, drop_0, take_ge by (done || lia).
  - intros c x Hrange Hx. unfold is_u16 in *. rewrite Z.geb_leb. destruct (Z.leb_spec (gc_discover_range_end c) x), (Z.eqb_spec x 65535); cbn; lia.
  - procedure_output.
  - unfold is_u16 in *. lia.
  - procedure_call. rewrite (proj2 (Z.eqb_neq s 0)), Z.gtb_ltb, (proj2 (Z.ltb_ge _ _)) by lia. done.
Qed.

(** The client at the end of a run of calls. *)
Lemma run_reaches_core calls l u depth w : 0 <= T -> l2_ok l -> Forall (call_ok T) calls -> (budget u < S depth)%nat ->
  run_apis (S depth) calls (fresh l u) = (Ret tt, w) -> core T (w_self w) (w_trace w) /\ (budget (w_user w) <= depth)%nat.
Proof.
  intros HT0 Hl Hcalls Hd Erun.
  destruct (gatt_run_apis_ok budget T ltac:(lia) Huser (S depth) [] calls (fresh l u) (budget u) Hcalls Hd) as ([] & w0 & E & [(Hc & _ & _) Hb]).
  { split; [|done]. apply gatt_init_ok; done || lia. }
  rewrite E in Erun. injection Erun as ->. split; [done|lia].
Qed.

End Link.
End Procedures.

(** ** Properties *)

(** C24.  A long read returns the whole value.  When the client is connected and
    at rest after any run of calls, on a link that accepts what is sent, reading
    an attribute of up to 512 bytes from a server that answers every request
    with the part of the value it asks for ends with a successful completion
    that hands out exactly the server's value, after requests and responses
    only; as many exchanges are enough as the value has parts of MTU - 1 bytes,
    and one more. *)
Theorem gatt_reads_whole_value : forall {CB UD L U} `{GattUser CB UD L U} `{FixedChannels L} (budget : U -> nat) T (up : L -> Prop)
    calls l u depth w h cb ud now now' v fuel,
  0 <= T <= UINT64_MAX -> user_ok budget T -> l2_ok l -> Forall (call_ok T) calls -> (budget u < S depth)%nat ->
  run_apis (S depth) calls (fresh l u) = (Ret tt, w) -> stays_up up -> rests up w ->
  is_u16 h -> 2 <= gc_mtu (w_self w) -> bytes v -> zlen v <= BT_GATT_CLIENT_MAX_VALUE_LEN -> timely T now -> timely T now' ->
  zlen v < Z.of_nat fuel * (gc_mtu (w_self w) - 1) ->
  exists w', (do! run_api (S depth) (Read h cb ud now) in
              converse (S depth) (serve_value v (gc_mtu (w_self w))) fuel now') w = (Ret tt, w') /\
    performed BT_GATT_CLIENT_OP_READ (whole_value v) (w_trace w) (w_trace w').
Proof.
  intros CB UD L U HG HF budget T up calls l u depth w h cb ud now now' v fuel HT Huser Hl Hcalls Hd Erun Hup Hrest Hh Hm Hv Hz Hn Hn' Hf.
  destruct (run_reaches_core budget T ltac:(lia) Huser calls l u depth w) as [Hc Hb]; [lia|done..|].
  destruct (read_performed budget T up Hup ltac:(lia) Huser h (gc_mtu (w_self w)) v) with (depth := depth) (cb := cb) (ud := ud)
    (now := now) (now' := now') (fuel := fuel) (w := w) as ([] & w' & E' & Hp); try done; [|by exists w'].
  destruct Hc. unfold is_u16 in *. lia.
Qed.

(** C7.  A discovery finds everything.  When the client is connected and at
    rest after any run of calls, on a link that accepts what is sent, a
    discovery of services, of a range's characteristics or of a range's
    descriptors against any server that answers each request with some of its
    next attributes (however many fit, of any one length), or with Attribute
    Not Found when there are none left, ends: one exchange per attribute and one
    more are enough, nothing but requests and responses happens in between, and
    the completion hands out the server's attributes with a 16-bit UUID, all of
    them, in order, with their handles and values, or reports that they are
    more than there is room for. *)
Theorem gatt_discovery_complete : forall {CB UD L U} `{GattUser CB UD L U} `{FixedChannels L} (budget : U -> nat) T (up : L -> Prop)
    calls l u depth w cb ud now now',
  0 <= T <= UINT64_MAX -> user_ok budget T -> l2_ok l -> Forall (call_ok T) calls -> (budget u < S depth)%nat ->
  run_apis (S depth) calls (fresh l u) = (Ret tt, w) -> stays_up up -> rests up w -> timely T now -> timely T now' ->
  (forall es server fuel, discovery services_procedure 1 65535 (DiscoverServices cb ud now) depth now' w es server fuel) /\
  (forall first last es server fuel, is_u16 first -> is_u16 last ->
     discovery characteristics_procedure first last (DiscoverCharacteristics first last cb ud now) depth now' w es server fuel) /\
  (forall first last es server fuel, 1 <= first <= last -> is_u16 last ->
     discovery descriptors_procedure first last (DiscoverDescriptors first last cb ud now) depth now' w es server fuel).
Proof.
  intros CB UD L U HG HF budget T up calls l u depth w cb ud now now' HT Huser Hl Hcalls Hd Erun Hup Hrest Hn Hn'.
  destruct (run_reaches_core budget T ltac:(lia) Huser calls l u depth w) as [Hc Hb]; [lia|done..|].
  assert (T <= UINT64_MAX) as HT' by lia. split; [|split].
  - intros. by apply (services_run budget T up).
  - intros. by apply (characteristics_run budget T up).
  - intros. by apply (descriptors_run budget T up).
Qed.

(** ** Witnesses *)

Module Demo.
Import ChannelManager.
Import Callbacks GattClient GattLink.

#[local] Instance log_transport : AclTransport (list (list Z)) := {| send_acl t p := (0, t ++ [p]) |}.
Abbreviation demo_link := (ChannelManager.world unit unit inbox (list (list Z))).
#[local] Instance demo_user : GattUser unit unit demo_link unit :=
  {| connect_fn := fun _ _ _ => Done tt; complete_fn := fun _ _ _ => Done tt; notify_fn := fun _ _ _ _ _ _ => Done tt |}.

Lemma demo_user_ok : user_ok (fun _ : unit => 0%nat) 10.
Proof. constructor; by intros. Qed.

Definition demo_start : demo_link :=
  match bt_l2cap_channel_manager_init ChannelDemo.demo_memory 64 5 27 with
  | Ret m => start m [] []
  | _ => start ChannelDemo.demo_memory [] []
  end.

Lemma demo_start_ok : link_ok demo_start.
Proof.
  unfold demo_start. destruct (channel_init_ok ChannelDemo.demo_memory 64 5 27 ([] : inbox) ([] : list (list Z))
    ChannelDemo.channel_demo_memory_ok) as (m & -> & Hw & _); [lia..|]. by split.
Qed.

(** Connect, and the server keeps the default MTU. *)
Definition demo_connect : list (GattClient.api unit unit demo_link) := [Connect (Some tt) None 1].
Definition demo_opened : world (bt_gatt_client unit unit demo_link) unit gatt_event :=
  (run_apis 1 demo_connect (fresh demo_start tt)).2.
Definition demo_calls : list (GattClient.api unit unit demo_link) :=
  demo_connect ++ [ChannelEvent (gc_l2cap (w_self demo_opened)) (E_data [3; 23; 0] 5)].

Lemma demo_links_ok : accepting (T := list (list Z)) /\ stays_up (fun l : demo_link => channel_open 4 l).
Proof.
  assert (accepting (T := list (list Z))) as Ha by done. split; [done|]. intros l data Hl Hok Hb Hz. by apply send_accepted.
Qed.

Lemma demo_connected_ok : Forall (call_ok 10) demo_calls.
Proof.
  assert (Forall (call_ok 10) demo_connect) as Hc by (repeat constructor; cbn; lia).
  apply Forall_app. split; [done|]. apply Forall_singleton. cbn -[link_ok]. split; [|split; [concrete_bytes|unfold timely; lia]].
  destruct (gatt_run_apis_ok (fun _ : unit => 0%nat) 10 ltac:(unfold UINT64_MAX; lia) demo_user_ok 1 [] demo_connect (fresh demo_start tt) 0 Hc ltac:(lia))
    as ([] & w & E & [(Hi & _ & _) _]).
  { split; [|done]. apply gatt_init_ok; [apply demo_start_ok|lia|done]. }
  unfold demo_opened. rewrite E. by destruct Hi.
Qed.

Definition demo_ready : world (bt_gatt_client unit unit demo_link) unit gatt_event :=
  (run_apis 1 demo_calls (fresh demo_start tt)).2.

Lemma demo_ready_run : run_apis 1 demo_calls (fresh demo_start tt) = (Ret tt, demo_ready).
Proof.
  unfold demo_ready. assert ((run_apis 1 demo_calls (fresh demo_start tt)).1 = Ret tt) as E by (vm_compute; reflexivity).
  destruct (run_apis 1 demo_calls (fresh demo_start tt)) as [o w]. cbn in E. by subst o.
Qed.

Lemma demo_ready_rests : rests (fun l : demo_link => channel_open 4 l) demo_ready.
Proof.
  split; [|split; [vm_compute; reflexivity|split; vm_compute; reflexivity]].
  destruct (mg_channels (w_mgr (gc_l2cap (Callbacks.w_self demo_ready))) !! 1%positive) as [c|] eqn:Ec; [|vm_compute in Ec; discriminate].
  exists 1%positive, c. split; [vm_compute; reflexivity|]. split; [done|]. vm_compute in Ec. injection Ec as <-. reflexivity.
Qed.
End Demo.

#[local] Existing Instances Demo.log_transport Demo.demo_user GattLink.manager_channels.

(** Fifty bytes, in three parts of at most 22. *)
Lemma gatt_reads_whole_value_witness : exists w',
  (do! run_api 1 (Read 3 (Some tt) None 6) in converse 1 (serve_value (seqZ 0 50) (gc_mtu (w_self Demo.demo_ready))) 3 7) Demo.demo_ready =
    (Ret tt, w') /\
  performed BT_GATT_CLIENT_OP_READ (whole_value (seqZ 0 50)) (w_trace Demo.demo_ready) (w_trace w') /\
  length (w_trace w') = 14%nat.
Proof.
  assert (gc_mtu (w_self Demo.demo_ready) = 23) as Em by (vm_compute; reflexivity).
  destruct (gatt_reads_whole_value (fun _ : unit => 0%nat) 10 (fun l : Demo.demo_link => GattLink.channel_open 4 l)
    Demo.demo_calls Demo.demo_start tt 0 Demo.demo_ready 3 (Some tt) None 6 7 (seqZ 0 50) 3) as (w' & E & Hp).
  - vm_compute. split; discriminate.
  - exact Demo.demo_user_ok.
  - exact Demo.demo_start_ok.
  - exact Demo.demo_connected_ok.
  - lia.
  - exact Demo.demo_ready_run.
  - exact (proj2 Demo.demo_links_ok).
  - exact Demo.demo_ready_rests.
  - unfold is_u16. lia.
  - rewrite Em. lia.
  - concrete_bytes.
  - vm_compute. discriminate.
  - unfold timely. lia.
  - unfold timely. lia.
  - rewrite Em. vm_compute. reflexivity.
  - exists w'. split; [exact E|]. split; [exact Hp|].
    assert (length (w_trace w') = length (w_trace ((do! run_api 1 (Read 3 (Some tt) None 6) in
      converse 1 (serve_value (seqZ 0 50) (gc_mtu (w_self Demo.demo_ready))) 3 7) Demo.demo_ready).2)) as -> by (rewrite E; reflexivity).
    vm_compute. reflexivity.
Defined.

(** Three services, one of them with a 128-bit UUID. *)
Definition demo_services : list bt_att_group_entry := [
  {| ge_handle := 1; ge_end_group_handle := 5; ge_value := [0; 24]; ge_value_len := 2 |};
  {| ge_handle := 6; ge_end_group_handle := 9; ge_value := seqZ 0 16; ge_value_len := 16 |};
  {| ge_handle := 10; ge_end_group_handle := 65535; ge_value := [15; 24]; ge_value_len := 2 |}].
Definition demo_server : list Z -> list Z := list_server services_procedure (fun e => 4 + ge_value_len e) demo_services.

Lemma demo_services_served : ordered services_procedure 1 65535 demo_services /\ serves services_procedure 65535 demo_services demo_server.
Proof.
  split; [cbn; lia|]. apply list_server_serves; [done|].
  repeat (apply Forall_cons; split; [split; [cbn; lia|]; split; [cbn; unfold group_ok, is_u16; cbn; split_and!; try concrete_bytes; try lia; done|];
    split; [concrete_bytes|unfold is_byte; cbn; lia]|]). by apply Forall_nil_2.
Qed.

Lemma gatt_discovery_complete_witness : exists w',
  (do! run_api 1 (DiscoverServices (Some tt) None 6) in converse 1 demo_server 4 7) Demo.demo_ready = (Ret tt, w') /\
  performed BT_GATT_CLIENT_OP_DISCOVER_SERVICES (all_items services_procedure demo_services) (w_trace Demo.demo_ready) (w_trace w') /\
  omap (pr_select services_procedure) demo_services =
    [{| sv_start_handle := 1; sv_end_handle := 5; sv_uuid16 := 6144 |}; {| sv_start_handle := 10; sv_end_handle := 65535; sv_uuid16 := 6159 |}].
Proof.
  destruct (gatt_discovery_complete (fun _ : unit => 0%nat) 10 (fun l : Demo.demo_link => GattLink.channel_open 4 l)
    Demo.demo_calls Demo.demo_start tt 0 Demo.demo_ready (Some tt) None 6 7) as (Hservices & _).
  - vm_compute. split; discriminate.
  - exact Demo.demo_user_ok.
  - exact Demo.demo_start_ok.
  - exact Demo.demo_connected_ok.
  - lia.
  - exact Demo.demo_ready_run.
  - exact (proj2 Demo.demo_links_ok).
  - exact Demo.demo_ready_rests.
  - unfold timely. lia.
  - unfold timely. lia.
  - destruct (Hservices demo_services demo_server 4%nat (proj1 demo_services_served) (proj2 demo_services_served)) as (w' & E & Hp);
      [cbn; lia|]. exists w'. split; [exact E|]. split; [exact Hp|reflexivity].
Defined.

End GattProcedures.
