(* ===== verification/SdpClient.v ===== *)
(** * SDP client: service searches and attribute requests

    The client of protocols/sdp/sdp_client.c: an exchange of requests and
    responses over a channel of its own, repeated while the server sends a
    continuation, whose parts are put together in a buffer.

    The state is the C structure; the channel manager is the state [L] of an
    interface, [DynamicChannels]; the user's callbacks are programs that may call
    the client again.  A completion holds the bytes its pointer leads to. *)

From Stdlib Require Import ZArith Lia.
From stdpp Require Import base list list_numbers.
From S2P Require Import Prelude Buffer Callbacks Sdp.

Module SdpClient.
Import Buffer Callbacks Sdp.

(** ** Data: include/bluetooth/sdp_client.h, include/bluetooth/sdp.h *)

Definition BT_SDP_CLIENT_MAX_RESULT : Z := 1024.
Definition BT_SDP_CLIENT_MAX_REQUEST_BODY : Z := 64.
Definition BT_SDP_HEADER_LEN : Z := 5.
Definition BT_SDP_PSM : Z := 1.
Definition BT_SDP_PDU_ERROR_RESPONSE : Z := 1.
Definition BT_SDP_PDU_SERVICE_SEARCH_RESPONSE : Z := 3.
Definition BT_SDP_PDU_SERVICE_ATTRIBUTE_RESPONSE : Z := 5.
Definition REQUEST_BUF_LEN : Z := BT_SDP_HEADER_LEN + 4 + 2 + BT_SDP_CLIENT_MAX_REQUEST_BODY + 1 + 16.

Inductive bt_sdp_client_op : Set :=
| BT_SDP_CLIENT_OP_SEARCH
| BT_SDP_CLIENT_OP_ATTRIBUTE.

Inductive bt_sdp_client_result : Set :=
| BT_SDP_CLIENT_OK
| BT_SDP_CLIENT_ERROR_CONNECT
| BT_SDP_CLIENT_ERROR_CLOSED
| BT_SDP_CLIENT_ERROR_PROTOCOL
| BT_SDP_CLIENT_ERROR_TOO_LARGE.

#[global] Instance sdp_op_eq_dec : EqDecision bt_sdp_client_op.
Proof. solve_decision. Defined.
#[global] Instance sdp_result_eq_dec : EqDecision bt_sdp_client_result.
Proof. solve_decision. Defined.

(** [sc_data]: the [sc_data_len] bytes the pointer leads to; [None] is NULL. *)
Record bt_sdp_client_completion : Type := {
  sc_result : bt_sdp_client_result;
  sc_op : bt_sdp_client_op;
  sc_data : option (list Z);
  sc_data_len : Z;
  sc_total_count : Z;
}.

Section Types.
  Context {CB UD L : Type}.

Record bt_sdp_client : Type := {
  sd_l2cap : L;
  sd_local_cid : Z;
  sd_channel_ready : bool;
  sd_next_transaction_id : Z;
  sd_on_connect : option CB;
  sd_connect_user_data : option UD;
  sd_busy : bool;
  sd_op : bt_sdp_client_op;
  sd_pending_transaction_id : Z;
  sd_search_pattern : list Z;
  sd_search_pattern_len : Z;
  sd_search_max_count : Z;
  sd_attr_handle : Z;
  sd_attr_max_bytes : Z;
  sd_attr_id_list : list Z;
  sd_attr_id_list_len : Z;
  sd_continuation : bt_sdp_continuation;
  sd_result : list Z;
  sd_result_len : Z;
  sd_last_total_count : Z;
  sd_on_complete : option CB;
  sd_complete_user_data : option UD;
}.

Definition sdp_eta (c : bt_sdp_client) : bt_sdp_client :=
  {| sd_l2cap := sd_l2cap c; sd_local_cid := sd_local_cid c; sd_channel_ready := sd_channel_ready c;
     sd_next_transaction_id := sd_next_transaction_id c; sd_on_connect := sd_on_connect c;
     sd_connect_user_data := sd_connect_user_data c; sd_busy := sd_busy c; sd_op := sd_op c;
     sd_pending_transaction_id := sd_pending_transaction_id c; sd_search_pattern := sd_search_pattern c;
     sd_search_pattern_len := sd_search_pattern_len c; sd_search_max_count := sd_search_max_count c;
     sd_attr_handle := sd_attr_handle c; sd_attr_max_bytes := sd_attr_max_bytes c;
     sd_attr_id_list := sd_attr_id_list c; sd_attr_id_list_len := sd_attr_id_list_len c;
     sd_continuation := sd_continuation c; sd_result := sd_result c; sd_result_len := sd_result_len c;
     sd_last_total_count := sd_last_total_count c; sd_on_complete := sd_on_complete c;
     sd_complete_user_data := sd_complete_user_data c |}.

Definition set_l2cap (v : L) (c : bt_sdp_client) : bt_sdp_client := ltac:(put_field sdp_eta sd_l2cap v c).
Definition set_local_cid (v : Z) (c : bt_sdp_client) : bt_sdp_client := ltac:(put_field sdp_eta sd_local_cid v c).
Definition set_channel_ready (v : bool) (c : bt_sdp_client) : bt_sdp_client := ltac:(put_field sdp_eta sd_channel_ready v c).
Definition set_next_transaction_id (v : Z) (c : bt_sdp_client) : bt_sdp_client := ltac:(put_field sdp_eta sd_next_transaction_id v c).
Definition set_on_connect (v : option CB) (c : bt_sdp_client) : bt_sdp_client := ltac:(put_field sdp_eta sd_on_connect v c).
Definition set_connect_user_data (v : option UD) (c : bt_sdp_client) : bt_sdp_client := ltac:(put_field sdp_eta sd_connect_user_data v c).
Definition set_busy (v : bool) (c : bt_sdp_client) : bt_sdp_client := ltac:(put_field sdp_eta sd_busy v c).
Definition set_op (v : bt_sdp_client_op) (c : bt_sdp_client) : bt_sdp_client := ltac:(put_field sdp_eta sd_op v c).
Definition set_pending_transaction_id (v : Z) (c : bt_sdp_client) : bt_sdp_client := ltac:(put_field sdp_eta sd_pending_transaction_id v c).
Definition set_search_pattern (v : list Z) (c : bt_sdp_client) : bt_sdp_client := ltac:(put_field sdp_eta sd_search_pattern v c).
Definition set_search_pattern_len (v : Z) (c : bt_sdp_client) : bt_sdp_client := ltac:(put_field sdp_eta sd_search_pattern_len v c).
Definition set_search_max_count (v : Z) (c : bt_sdp_client) : bt_sdp_client := ltac:(put_field sdp_eta sd_search_max_count v c).
Definition set_attr_handle (v : Z) (c : bt_sdp_client) : bt_sdp_client := ltac:(put_field sdp_eta sd_attr_handle v c).
Definition set_attr_max_bytes (v : Z) (c : bt_sdp_client) : bt_sdp_client := ltac:(put_field sdp_eta sd_attr_max_bytes v c).
Definition set_attr_id_list (v : list Z) (c : bt_sdp_client) : bt_sdp_client := ltac:(put_field sdp_eta sd_attr_id_list v c).
Definition set_attr_id_list_len (v : Z) (c : bt_sdp_client) : bt_sdp_client := ltac:(put_field sdp_eta sd_attr_id_list_len v c).
Definition set_continuation (v : bt_sdp_continuation) (c : bt_sdp_client) : bt_sdp_client := ltac:(put_field sdp_eta sd_continuation v c).
Definition set_result (v : list Z) (c : bt_sdp_client) : bt_sdp_client := ltac:(put_field sdp_eta sd_result v c).
Definition set_result_len (v : Z) (c : bt_sdp_client) : bt_sdp_client := ltac:(put_field sdp_eta sd_result_len v c).
Definition set_last_total_count (v : Z) (c : bt_sdp_client) : bt_sdp_client := ltac:(put_field sdp_eta sd_last_total_count v c).
Definition set_on_complete (v : option CB) (c : bt_sdp_client) : bt_sdp_client := ltac:(put_field sdp_eta sd_on_complete v c).
Definition set_complete_user_data (v : option UD) (c : bt_sdp_client) : bt_sdp_client := ltac:(put_field sdp_eta sd_complete_user_data v c).

(** [client->continuation.len = n] *)
Definition set_continuation_len (n : Z) (c : bt_sdp_client) : bt_sdp_client :=
  set_continuation {| ct_len := n; ct_data := ct_data (sd_continuation c) |} c.

(** What the channel manager reports. *)
Inductive channel_event : Type :=
| E_opened
| E_closed
| E_data (data : list Z).

(** The calls of the client; the last one is an event of the channel manager,
    whose state is then [l]. *)
Inductive api : Type :=
| Connect (on_connect : option CB) (user_data : option UD) (now_us : Z)
| Disconnect (now_us : Z)
| Search (service_search_pattern : list Z) (max_record_count : Z) (on_complete : option CB) (user_data : option UD) (now_us : Z)
| GetAttributes (service_record_handle max_attribute_byte_count : Z) (attribute_id_list : list Z) (on_complete : option CB)
    (user_data : option UD) (now_us : Z)
| ChannelEvent (l : L) (event : channel_event).

End Types.
Arguments bt_sdp_client : clear implicits.
Arguments api : clear implicits.

(** ** What the client asks of its user and of the channel manager *)

Class SdpUser (CB UD L U : Type) : Type := {
  connect_fn : CB -> bool -> option UD -> prog U (api CB UD L) bt_status unit;
  complete_fn : CB -> bt_sdp_client_completion -> option UD -> prog U (api CB UD L) bt_status unit;
}.

(** [dl_open psm local_mtu now_us] gives the CID of the new channel and fires
    nothing; [dl_close cid now_us] tells whether it fired CLOSED as its last
    action. *)
Class DynamicChannels (L : Type) : Type := {
  dl_open : Z -> Z -> Z -> M L Z;
  dl_close : Z -> Z -> M L bool;
  dl_send : Z -> list Z -> Z -> M L unit;
  dl_ok : L -> Prop;
  dl_open_ok : forall psm mtu now l, dl_ok l ->
    exists o l', dl_open psm mtu now l = (o, l') /\ o <> Fault /\ dl_ok l';
  dl_close_ok : forall cid now l, dl_ok l -> exists fired l', dl_close cid now l = (Ret fired, l') /\ dl_ok l';
  dl_send_ok : forall cid data l, dl_ok l -> bytes data ->
    exists o l', dl_send cid data (zlen data) l = (o, l') /\ o <> Fault /\ dl_ok l';
}.

(** The history: what the client was told, what it sent, and what it told its
    user. *)
Inductive sdp_event : Type :=
| S_start (op : bt_sdp_client_op)
| S_in (data : list Z)
| S_out (pdu : list Z)
| S_connected (success : bool)
| S_done (completion : bt_sdp_client_completion).

Section Machine.
  Context {CB UD L U : Type} `{SdpUser CB UD L U} `{DynamicChannels L}.
  (** What a local structure holds before it is filled in. *)
  Context (uninit : bt_sdp_service_search_response).
Abbreviation client := (bt_sdp_client CB UD L).
Abbreviation W := (world client U sdp_event).

Definition on_l2cap {A} (m : M L A) : M W A := fun w =>
  let '(o, l) := m (sd_l2cap (w_self w)) in (o, with_self (set_l2cap l (w_self w)) w).

(** A parser on a local reader, whose status is only compared with BT_OK. *)
Definition parsing {A} (m : M bt_buf_reader A) (r : bt_buf_reader) : M W (option A * bt_buf_reader) :=
  match m r with
  | (Ret a, r) => ret (Some a, r)
  | (Fail _, r) => ret (None, r)
  | (Fault, _) => lift Fault
  end.

Section Open.
  Context (call : api CB UD L -> M W bt_status).

(** Where [fail] and [succeed] end. *)
Definition report (completion : bt_sdp_client_completion) (cb : option CB) (ud : option UD) : M W unit :=
  do! emit (S_done completion) in
  match cb with
  | Some cb => run_prog call (complete_fn cb completion ud)
  | None => ret tt
  end.

(** [fail] *)
Definition fail_operation (result : bt_sdp_client_result) : M W unit :=
  let! cb := get sd_on_complete in
  let! ud := get sd_complete_user_data in
  do! set (set_busy false) in
  let! op := get sd_op in
  report {| sc_result := result; sc_op := op; sc_data := None; sc_data_len := 0; sc_total_count := 0 |} cb ud.

Definition succeed : M W unit :=
  let! cb := get sd_on_complete in
  let! ud := get sd_complete_user_data in
  do! set (set_busy false) in
  let! c := get id in
  let! data := lift (ldn (sd_result c) 0 (sd_result_len c)) in
  report {| sc_result := BT_SDP_CLIENT_OK; sc_op := sd_op c; sc_data := Some data; sc_data_len := sd_result_len c;
            sc_total_count := sd_last_total_count c |} cb ud.

(** Whether the data was appended. *)
Definition append_result (data : list Z) (len : Z) : M W bool :=
  let! c := get id in
  if sd_result_len c + len >? BT_SDP_CLIENT_MAX_RESULT then ret false else
  let! bs := lift (ldn data 0 len) in
  let! result := lift (stn (sd_result c) (sd_result_len c) bs) in
  do! set (set_result result) in
  do! set (set_result_len (sd_result_len c + len)) in
  ret true.

(** Reads into [client->continuation], whose length is set even when the rest
    fails. *)
Definition read_continuation_local (r : bt_buf_reader) : M W bool :=
  let! o := parsing bt_buf_reader_read_u8 r in
  match o with
  | (None, _) => ret false
  | (Some len, r) =>
      if len >? 16 then ret false else
      do! set (set_continuation_len len) in
      if len =? 0 then ret true else
      let! o := parsing (bt_buf_reader_read_bytes len) r in
      match o with
      | (None, _) => ret false
      | (Some bs, _) =>
          let! cont := get sd_continuation in
          let! data := lift (stn (ct_data cont) 0 bs) in
          do! set (set_continuation {| ct_len := ct_len cont; ct_data := data |}) in
          ret true
      end
  end.

Definition issue_request (now_us : Z) : M W unit :=
  let! c := get id in
  let cont := if ct_len (sd_continuation c) >? 0 then Some (sd_continuation c) else None in
  let tid := sd_next_transaction_id c in
  do! set (set_pending_transaction_id tid) in
  do! set (set_next_transaction_id (u16 (tid + 1))) in
  let! e := encode_into REQUEST_BUF_LEN
    (match sd_op c with
     | BT_SDP_CLIENT_OP_SEARCH =>
         bt_sdp_encode_service_search_request tid (sd_search_pattern c) (sd_search_pattern_len c) (sd_search_max_count c) cont
     | BT_SDP_CLIENT_OP_ATTRIBUTE =>
         bt_sdp_encode_service_attribute_request tid (sd_attr_handle c) (sd_attr_max_bytes c) (sd_attr_id_list c)
           (sd_attr_id_list_len c) cont
     end) in
  if decide (e.1 <> BT_OK) then fail_operation BT_SDP_CLIENT_ERROR_PROTOCOL else
  do! emit (S_out e.2) in
  let! st := try (on_l2cap (dl_send (sd_local_cid c) e.2 (zlen e.2))) in
  if negb (bool_decide (st = Ret tt)) then fail_operation BT_SDP_CLIENT_ERROR_CLOSED else ret tt.

Definition finish_round (now_us : Z) : M W unit :=
  let! c := get id in
  if ct_len (sd_continuation c) >? 0 then issue_request now_us else
  match sd_op c with
  | BT_SDP_CLIENT_OP_ATTRIBUTE =>
      let! elem := parsing bt_sdp_parse_element (bt_buf_reader_init (sd_result c) (sd_result_len c)) in
      match elem.1 with
      | Some (BT_SDP_ELEM_SEQUENCE seq_data seq_len) =>
          let! bs := lift (ldn seq_data 0 seq_len) in
          let! result := lift (stn (sd_result c) 0 bs) in
          do! set (set_result result) in
          do! set (set_result_len seq_len) in
          succeed
      | _ => fail_operation BT_SDP_CLIENT_ERROR_PROTOCOL
      end
  | BT_SDP_CLIENT_OP_SEARCH => succeed
  end.

Definition handle_search_response (params : list Z) (params_len now_us : Z) : M W unit :=
  match bt_sdp_parse_service_search_response params params_len uninit with
  | Fail _ => fail_operation BT_SDP_CLIENT_ERROR_PROTOCOL
  | Fault => lift Fault
  | Ret rsp =>
      do! set (set_last_total_count (ss_total_record_count rsp)) in
      let! appended := append_result (ss_handles rsp) (ss_current_record_count rsp * 4) in
      if negb appended then fail_operation BT_SDP_CLIENT_ERROR_TOO_LARGE else
      do! set (set_continuation (ss_continuation rsp)) in
      finish_round now_us
  end.

Definition handle_attribute_response (params : list Z) (params_len now_us : Z) : M W unit :=
  let! o := parsing bt_buf_reader_read_be16 (bt_buf_reader_init params params_len) in
  match o with
  | (None, _) => fail_operation BT_SDP_CLIENT_ERROR_PROTOCOL
  | (Some byte_count, r) =>
      let! o := parsing (take_slice byte_count) r in
      match o with
      | (None, _) => fail_operation BT_SDP_CLIENT_ERROR_PROTOCOL
      | (Some chunk, r) =>
          let! appended := append_result chunk byte_count in
          if negb appended then fail_operation BT_SDP_CLIENT_ERROR_TOO_LARGE else
          let! read := read_continuation_local r in
          if negb read then fail_operation BT_SDP_CLIENT_ERROR_PROTOCOL else
          finish_round now_us
      end
  end.

Definition handle_response (data : list Z) (len now_us : Z) : M W unit :=
  let! c := get id in
  if negb (sd_busy c) then ret tt else
  let! o := parsing bt_sdp_parse_header (bt_buf_reader_init data len) in
  match o with
  | (None, _) => fail_operation BT_SDP_CLIENT_ERROR_PROTOCOL
  | (Some hdr, r) =>
      if negb (sh_transaction_id hdr =? sd_pending_transaction_id c) then ret tt else
      let! o := parsing (bt_buf_reader_peek (sh_param_len hdr)) r in
      match o with
      | (Some (Some params), _) =>
          if sh_pdu_id hdr =? BT_SDP_PDU_ERROR_RESPONSE then fail_operation BT_SDP_CLIENT_ERROR_PROTOCOL else
          match sd_op c with
          | BT_SDP_CLIENT_OP_SEARCH =>
              if negb (sh_pdu_id hdr =? BT_SDP_PDU_SERVICE_SEARCH_RESPONSE) then fail_operation BT_SDP_CLIENT_ERROR_PROTOCOL
              else handle_search_response params (sh_param_len hdr) now_us
          | BT_SDP_CLIENT_OP_ATTRIBUTE =>
              if negb (sh_pdu_id hdr =? BT_SDP_PDU_SERVICE_ATTRIBUTE_RESPONSE) then fail_operation BT_SDP_CLIENT_ERROR_PROTOCOL
              else handle_attribute_response params (sh_param_len hdr) now_us
          end
      | _ => fail_operation BT_SDP_CLIENT_ERROR_PROTOCOL
      end
  end.

(** [if (on_connect != NULL) { on_connect = NULL; cb(success, ud); }] *)
Definition report_connect (success : bool) : M W unit :=
  let! cb := get sd_on_connect in
  match cb with
  | Some cb =>
      let! ud := get sd_connect_user_data in
      do! set (set_on_connect None) in
      do! emit (S_connected success) in
      run_prog call (connect_fn cb success ud)
  | None => ret tt
  end.

Definition on_closed : M W unit :=
  do! set (set_channel_ready false) in
  do! report_connect false in
  let! busy := get sd_busy in
  if (busy : bool) then fail_operation BT_SDP_CLIENT_ERROR_CLOSED else ret tt.

Definition on_l2cap_event (event : channel_event) : M W unit :=
  match event with
  | E_opened =>
      do! set (set_channel_ready true) in
      report_connect true
  | E_closed => on_closed
  | E_data data =>
      do! emit (S_in data) in
      handle_response data (zlen data) 0
  end.

(** ** The interface *)

Definition bt_sdp_client_connect (on_connect : option CB) (user_data : option UD) (now_us : Z) : M W bt_status :=
  do! set (set_on_connect on_connect) in
  do! set (set_connect_user_data user_data) in
  let! st := try (on_l2cap (dl_open BT_SDP_PSM 0 now_us)) in
  match st with
  | Ret local_cid =>
      do! set (set_local_cid local_cid) in
      ret BT_OK
  | Fail e => ret e
  | Fault => lift Fault
  end.

Definition bt_sdp_client_disconnect (now_us : Z) : M W unit :=
  let! c := get id in
  do! (if sd_channel_ready c then
         let! fired := on_l2cap (dl_close (sd_local_cid c) now_us) in
         if (fired : bool) then on_closed else ret tt
       else ret tt) in
  set (set_channel_ready false).

Definition bt_sdp_client_search (service_search_pattern : list Z) (pattern_len max_record_count : Z)
    (on_complete : option CB) (user_data : option UD) (now_us : Z) : M W bt_status :=
  let! c := get id in
  if negb (sd_channel_ready c) || sd_busy c then ret BT_ERR_INVALID_ARGUMENT else
  if pattern_len >? BT_SDP_CLIENT_MAX_REQUEST_BODY then ret BT_ERR_INVALID_ARGUMENT else
  do! emit (S_start BT_SDP_CLIENT_OP_SEARCH) in
  do! set (set_busy true) in
  do! set (set_op BT_SDP_CLIENT_OP_SEARCH) in
  let! pattern := lift (let? bs := ldn service_search_pattern 0 pattern_len in stn (sd_search_pattern c) 0 bs) in
  do! set (set_search_pattern pattern) in
  do! set (set_search_pattern_len pattern_len) in
  do! set (set_search_max_count max_record_count) in
  do! set (set_continuation_len 0) in
  do! set (set_result_len 0) in
  do! set (set_last_total_count 0) in
  do! set (set_on_complete on_complete) in
  do! set (set_complete_user_data user_data) in
  do! issue_request now_us in
  ret BT_OK.

Definition bt_sdp_client_get_attributes (service_record_handle max_attribute_byte_count : Z)
    (attribute_id_list : list Z) (attribute_id_list_len : Z)
    (on_complete : option CB) (user_data : option UD) (now_us : Z) : M W bt_status :=
  let! c := get id in
  if negb (sd_channel_ready c) || sd_busy c then ret BT_ERR_INVALID_ARGUMENT else
  if attribute_id_list_len >? BT_SDP_CLIENT_MAX_REQUEST_BODY then ret BT_ERR_INVALID_ARGUMENT else
  do! emit (S_start BT_SDP_CLIENT_OP_ATTRIBUTE) in
  do! set (set_busy true) in
  do! set (set_op BT_SDP_CLIENT_OP_ATTRIBUTE) in
  do! set (set_attr_handle service_record_handle) in
  do! set (set_attr_max_bytes max_attribute_byte_count) in
  let! ids := lift (let? bs := ldn attribute_id_list 0 attribute_id_list_len in stn (sd_attr_id_list c) 0 bs) in
  do! set (set_attr_id_list ids) in
  do! set (set_attr_id_list_len attribute_id_list_len) in
  do! set (set_continuation_len 0) in
  do! set (set_result_len 0) in
  do! set (set_on_complete on_complete) in
  do! set (set_complete_user_data user_data) in
  do! issue_request now_us in
  ret BT_OK.

(** One call; [void] ones return BT_OK here. *)
Definition run_call (a : api CB UD L) : M W bt_status :=
  match a with
  | Connect on_connect ud now => bt_sdp_client_connect on_connect ud now
  | Disconnect now => do! bt_sdp_client_disconnect now in ret BT_OK
  | Search pattern max_count on_complete ud now => bt_sdp_client_search pattern (zlen pattern) max_count on_complete ud now
  | GetAttributes handle max_bytes ids on_complete ud now =>
      bt_sdp_client_get_attributes handle max_bytes ids (zlen ids) on_complete ud now
  | ChannelEvent l event =>
      do! set (set_l2cap l) in
      do! on_l2cap_event event in
      ret BT_OK
  end.

End Open.

(** Calls nested [depth] deep. *)
Fixpoint run_api (depth : nat) (a : api CB UD L) : M W bt_status :=
  match depth with
  | O => lift Fault
  | S depth => run_call (run_api depth) a
  end.

Definition run_apis (depth : nat) (l : list (api CB UD L)) : M W unit :=
  foldr (fun a m => do! run_api depth a in m) (ret tt) l.

Definition bt_sdp_client_init (l2cap : L) : client :=
  {| sd_l2cap := l2cap; sd_local_cid := 0; sd_channel_ready := false; sd_next_transaction_id := 1; sd_on_connect := None;
     sd_connect_user_data := None; sd_busy := false; sd_op := BT_SDP_CLIENT_OP_SEARCH; sd_pending_transaction_id := 0;
     sd_search_pattern := replicate 64 0; sd_search_pattern_len := 0; sd_search_max_count := 0; sd_attr_handle := 0;
     sd_attr_max_bytes := 0; sd_attr_id_list := replicate 64 0; sd_attr_id_list_len := 0;
     sd_continuation := {| ct_len := 0; ct_data := replicate 16 0 |}; sd_result := replicate 1024 0; sd_result_len := 0;
     sd_last_total_count := 0; sd_on_complete := None; sd_complete_user_data := None |}.

End Machine.

(** ** Specification *)

(** Operations by the history: the one under way, if any; [None] if one was
    started while another was under way, or ended that was not. *)
Definition op_step (cur : option (option bt_sdp_client_op)) (e : sdp_event) : option (option bt_sdp_client_op) :=
  match cur with
  | None => None
  | Some cur =>
      match e with
      | S_start op => if decide (cur = None) then Some (Some op) else None
      | S_done c => if decide (cur = Some (sc_op c)) then Some None else None
      | _ => Some cur
      end
  end.
Definition operations (tr : list sdp_event) : option (option bt_sdp_client_op) := foldl op_step (Some None) tr.

(** A completion has its bytes if the operation succeeded, and none if not. *)
Definition results_ok (c : bt_sdp_client_completion) : Prop :=
  if decide (sc_result c = BT_SDP_CLIENT_OK)
  then exists l, sc_data c = Some l /\ zlen l = sc_data_len c /\ sc_data_len c <= BT_SDP_CLIENT_MAX_RESULT /\ bytes l
  else sc_data c = None /\ sc_data_len c = 0.
Definition event_ok (e : sdp_event) : Prop := match e with S_done c => results_ok c | _ => True end.

(** The PDU and transaction of a packet. *)
Definition header_of (pdu : list Z) : option (Z * Z) :=
  match parse pdu (zlen pdu) bt_sdp_parse_header with
  | Ret h => Some (sh_pdu_id h, sh_transaction_id h)
  | _ => None
  end.

(** The response to a request: the next PDU, of the same transaction. *)
Definition answers (req rsp : list Z) : Prop :=
  exists pdu_id tid, header_of req = Some (pdu_id, tid) /\ header_of rsp = Some (pdu_id + 1, tid).

Definition last_out (tr : list sdp_event) : option (list Z) :=
  last (omap (fun e => match e with S_out pdu => Some pdu | _ => None end) tr).

(** The latest event is a response to the latest request. *)
Definition answering (tr : list sdp_event) : Prop :=
  exists before req rsp, tr = before ++ [S_in rsp] /\ last_out before = Some req /\ answers req rsp.

(** Whatever succeeded did so with the response to its latest request. *)
Definition justified (tr : list sdp_event) : Prop :=
  forall before comp, (before ++ [S_done comp]) `prefix_of` tr -> sc_result comp = BT_SDP_CLIENT_OK -> answering before.

Section Invariant.
  Context {CB UD L U : Type} `{SdpUser CB UD L U} `{DynamicChannels L}.
Abbreviation client := (bt_sdp_client CB UD L).
Abbreviation W := (world client U sdp_event).
  Context (budget : U -> nat).
  Implicit Types (c : client) (tr past : list sdp_event) (w : W).

Definition under_way c : option bt_sdp_client_op := if sd_busy c then Some (sd_op c) else None.

(** The arguments of a call; an event comes with the manager's state. *)
Definition call_ok (a : api CB UD L) : Prop :=
  match a with
  | Connect _ _ _ | Disconnect _ => True
  | Search pattern max_count _ _ _ => bytes pattern /\ is_u16 max_count
  | GetAttributes handle max_bytes ids _ _ _ => 0 <= handle < 2 ^ 32 /\ is_u16 max_bytes /\ bytes ids
  | ChannelEvent l (E_data data) => dl_ok l /\ bytes data
  | ChannelEvent l _ => dl_ok l
  end.

(** The user's callbacks call the client as long as the budget lasts. *)
Record user_ok : Prop := {
  user_connect : forall cb b ud, pays budget call_ok (fun _ => True) (connect_fn cb b ud);
  user_complete : forall cb comp ud, pays budget call_ok (fun _ => True) (complete_fn cb comp ud);
}.

(** An array of [n] bytes of which [len] are used. *)
Definition array_ok (n : Z) (a : list Z) (len : Z) : Prop := zlen a = n /\ bytes a /\ 0 <= len <= n.

Record data_ok c : Prop := {
  d_l2cap : dl_ok (sd_l2cap c);
  d_next : is_u16 (sd_next_transaction_id c);
  d_pending : is_u16 (sd_pending_transaction_id c);
  d_pattern : array_ok BT_SDP_CLIENT_MAX_REQUEST_BODY (sd_search_pattern c) (sd_search_pattern_len c);
  d_ids : array_ok BT_SDP_CLIENT_MAX_REQUEST_BODY (sd_attr_id_list c) (sd_attr_id_list_len c);
  d_continuation : cont_ok (sd_continuation c);
  d_result : array_ok BT_SDP_CLIENT_MAX_RESULT (sd_result c) (sd_result_len c);
}.

Record core c tr : Prop := {
  c_data : data_ok c;
  c_operations : operations tr = Some (under_way c);
  c_events : Forall event_ok tr;
  c_justified : justified tr;
}.

(** The continuation the next request carries. *)
Definition next_continuation c : option bt_sdp_continuation :=
  if ct_len (sd_continuation c) >? 0 then Some (sd_continuation c) else None.

Definition request_id (op : bt_sdp_client_op) : Z :=
  match op with
  | BT_SDP_CLIENT_OP_SEARCH => BT_SDP_PDU_SERVICE_SEARCH_REQUEST
  | BT_SDP_CLIENT_OP_ATTRIBUTE => BT_SDP_PDU_SERVICE_ATTRIBUTE_REQUEST
  end.

(** The request of the operation under way, on the wire. *)
Definition request_body c : list Z :=
  match sd_op c with
  | BT_SDP_CLIENT_OP_SEARCH =>
      search_body (take (Z.to_nat (sd_search_pattern_len c)) (sd_search_pattern c)) (sd_search_max_count c) (next_continuation c)
  | BT_SDP_CLIENT_OP_ATTRIBUTE =>
      attribute_body (sd_attr_handle c) (sd_attr_max_bytes c) (take (Z.to_nat (sd_attr_id_list_len c)) (sd_attr_id_list c))
        (next_continuation c)
  end.
Definition request_bytes c : list Z := pdu_bytes (request_id (sd_op c)) (sd_next_transaction_id c) (request_body c).

(** The operation under way has sent its request. *)
Definition asked c tr : Prop := sd_busy c = true ->
  exists req, last_out tr = Some req /\ header_of req = Some (request_id (sd_op c), sd_pending_transaction_id c).

(** [past] is how the history began. *)
Definition I past w : Prop :=
  core (w_self w) (w_trace w) /\ asked (w_self w) (w_trace w) /\ past `prefix_of` w_trace w.
End Invariant.

(** ** Lemmas *)

Lemma sdp_operations_snoc tr e : operations (tr ++ [e]) = op_step (operations tr) e.
Proof. unfold operations. by rewrite foldl_app. Qed.

Lemma last_out_snoc tr e : last_out (tr ++ [e]) = match e with S_out pdu => Some pdu | _ => last_out tr end.
Proof. unfold last_out. rewrite omap_app. cbn. destruct e; cbn; rewrite ?app_nil_r; try done. by rewrite last_snoc. Qed.

Lemma prefix_snoc {A} (l tr : list A) e : l `prefix_of` tr ++ [e] -> l = tr ++ [e] \/ l `prefix_of` tr.
Proof.
  intros [k E]. destruct k as [|x k _] using rev_ind; [left; by rewrite app_nil_r in E|].
  right. rewrite app_assoc in E. apply app_inj_tail in E as [E _]. by exists k.
Qed.

Lemma sdp_justified_snoc tr e : justified tr -> (forall comp, e = S_done comp -> sc_result comp = BT_SDP_CLIENT_OK -> answering tr) ->
  justified (tr ++ [e]).
Proof.
  intros Hj He before comp [Heq|Hp]%prefix_snoc Hr; [|by eapply Hj]. apply app_inj_tail in Heq as [-> Heq]. by eapply He.
Qed.

Lemma justified_other tr e : justified tr -> (forall comp, e <> S_done comp) -> justified (tr ++ [e]).
Proof. intros Hj He. apply sdp_justified_snoc; [done|]. intros comp ->. by destruct (He comp). Qed.

Lemma events_snoc tr e : Forall event_ok tr -> event_ok e -> Forall event_ok (tr ++ [e]).
Proof. intros. apply Forall_app. split; [done|]. by apply Forall_singleton. Qed.

Lemma header_of_pdu pdu_id tid body : 0 <= pdu_id < 2 ^ 8 -> is_u16 tid -> zlen body < 2 ^ 16 -> bytes body ->
  header_of (pdu_bytes pdu_id tid body) = Some (pdu_id, tid).
Proof. intros. unfold header_of. by rewrite pdu_header_parses. Qed.

Section Safety.
  Context {CB UD L U : Type} `{SdpUser CB UD L U} `{DynamicChannels L} (budget : U -> nat).
  Context (uninit : bt_sdp_service_search_response).
Abbreviation client := (bt_sdp_client CB UD L).
Abbreviation W := (world client U sdp_event).
Abbreviation at_ c u tr := ({| w_self := c; w_user := u; w_trace := tr |} : W).
Abbreviation ok past := (within budget (I past)).
  Implicit Types (c : client) (tr past : list sdp_event) (w : W).

(** A field assignment keeps the data well-formed. *)
Ltac keeps_data := match goal with Hd : data_ok ?c |- data_ok _ => destruct Hd; constructor; cbn in *; try done end.

Lemma parsing_spec {A} (m : M bt_buf_reader A) (Q : A -> Prop) r w : rpost Q r (m r) -> exists o r',
  parsing m r w = (Ret (o, r'), w) /\ reader_ok r' /\ forall v, o = Some v -> Q v.
Proof.
  intros Hm. unfold parsing. destruct (m r) as [[v|e|] r']; destruct Hm as (Hf & Hok & _ & _ & _ & Hv); [..|done].
  - exists (Some v), r'. split; [done|]. split; [done|]. intros ? [= <-]. by apply Hv.
  - exists None, r'. by split_and!.
Qed.

Lemma sdp_header_safe : rspec bt_sdp_parse_header (fun h => 0 <= sh_pdu_id h < 2 ^ 8 /\ is_u16 (sh_transaction_id h) /\ is_u16 (sh_param_len h)).
Proof. unfold bt_sdp_parse_header. do 3 safe_step. by apply rspec_ret. Qed.

(** *** Requests *)

Lemma request_spec c : data_ok c -> writes
    (match sd_op c with
     | BT_SDP_CLIENT_OP_SEARCH => bt_sdp_encode_service_search_request (sd_next_transaction_id c) (sd_search_pattern c)
         (sd_search_pattern_len c) (sd_search_max_count c) (next_continuation c)
     | BT_SDP_CLIENT_OP_ATTRIBUTE => bt_sdp_encode_service_attribute_request (sd_next_transaction_id c) (sd_attr_handle c)
         (sd_attr_max_bytes c) (sd_attr_id_list c) (sd_attr_id_list_len c) (next_continuation c)
     end) (request_bytes c) /\
  bytes (request_body c) /\ zlen (request_bytes c) = 5 + zlen (request_body c) /\ zlen (request_bytes c) <= REQUEST_BUF_LEN.
Proof.
  intros [Hl Hn Hp (Hpz & Hpb & Hpl) (Hiz & Hib & Hil) Hco Hr].
  assert (forall k, next_continuation c = Some k -> cont_ok k) as Hnext.
  { unfold next_continuation. intros k. destruct (_ >? 0); [|done]. by intros [= <-]. }
  destruct (opt_cont_ok _ Hnext) as [Hcb Hcl].
  assert (zlen (opt_cont_bytes (next_continuation c)) <= 17) as Hc17.
  { rewrite Hcl. destruct (next_continuation c) as [k|]; [|done]. destruct (Hnext k eq_refl) as [? _]. rewrite u16_small; lia. }
  unfold request_bytes, request_id, request_body, REQUEST_BUF_LEN, BT_SDP_CLIENT_MAX_REQUEST_BODY, BT_SDP_HEADER_LEN,
    BT_SDP_PDU_SERVICE_SEARCH_REQUEST, BT_SDP_PDU_SERVICE_ATTRIBUTE_REQUEST in *. destruct (sd_op c).
  - set (body := search_body _ _ _). assert (zlen body <= 83) as Hz.
    { subst body. unfold search_body. rewrite !length_app, be_enc_length, length_take. lia. }
    destruct (search_request_writes (sd_next_transaction_id c) (sd_search_pattern c) (sd_search_pattern_len c) (sd_search_max_count c)
      (next_continuation c)) as [Hw Hb]; [lia|done..|fold body; lia|]. split; [exact Hw|]. split; [exact Hb|].
    unfold pdu_bytes. rewrite !length_app, !be_enc_length. cbn [length]. lia.
  - set (body := attribute_body _ _ _ _). assert (zlen body <= 87) as Hz.
    { subst body. unfold attribute_body. rewrite !length_app, !be_enc_length, length_take. lia. }
    destruct (attribute_request_writes (sd_next_transaction_id c) (sd_attr_handle c) (sd_attr_max_bytes c) (sd_attr_id_list c)
      (sd_attr_id_list_len c) (next_continuation c)) as [Hw Hb]; [lia|done..|fold body; lia|]. split; [exact Hw|]. split; [exact Hb|].
    unfold pdu_bytes. rewrite !length_app, !be_enc_length. cbn [length]. lia.
Qed.

Lemma request_id_byte op : 0 <= request_id op < 2 ^ 8.
Proof. by destruct op. Qed.

Lemma request_header c : data_ok c -> bytes (request_bytes c) /\
  header_of (request_bytes c) = Some (request_id (sd_op c), sd_next_transaction_id c).
Proof.
  intros Hd. destruct (request_spec c Hd) as (_ & Hb & Hl & Hz). unfold REQUEST_BUF_LEN, BT_SDP_CLIENT_MAX_REQUEST_BODY, BT_SDP_HEADER_LEN in Hz.
  pose proof (request_id_byte (sd_op c)). destruct Hd. split; [unfold request_bytes, pdu_bytes; bys|].
  apply header_of_pdu; [done|done|lia|done].
Qed.

(** *** Completions *)

Section Handlers.
  Context (call : api CB UD L -> M W bt_status) (n : nat).
  Hypothesis Huninit : cont_ok (ss_continuation uninit).
  Hypothesis Huser : user_ok budget.
  Hypothesis Hcall : forall past, callable budget (I past) call_ok call n.

(** A callback, run from a good world. *)
Lemma sdp_wp_user past (p : prog U (api CB UD L) bt_status unit) w R : pays budget call_ok (fun _ => True) p ->
  ok past n w -> (forall w', ok past n w' -> R tt w') -> wp (run_prog call p) w R.
Proof. intros Hp Hw HR. eapply (wp_prog budget (I past)); [done|apply Hcall|done|done|]. intros [] w' _ Hw'. auto. Qed.

Lemma report_spec past comp cb ud c u tr : data_ok c -> sd_busy c = false -> operations tr = Some (Some (sc_op comp)) ->
  Forall event_ok tr -> results_ok comp -> justified tr -> (sc_result comp = BT_SDP_CLIENT_OK -> answering tr) ->
  (budget u <= n)%nat -> past `prefix_of` tr ++ [S_done comp] ->
  wp (report call comp cb ud) (at_ c u tr) (fun _ => ok past n).
Proof.
  intros Hd Hb Ho He Hr Hj Ha Hu Hp. unfold report. wp_step.
  assert (ok past n (at_ c u (tr ++ [S_done comp]))) as Hok.
  { split; [|done]. split; [|split; [intros Hb'; cbn in Hb'; congruence|done]]. constructor; [done|..]; cbn [w_self w_trace].
    - rewrite sdp_operations_snoc, Ho. cbn. unfold under_way. by rewrite decide_True, Hb.
    - by apply events_snoc.
    - apply sdp_justified_snoc; [done|]. by intros ? [= <-]. }
  destruct cb as [cb|]; [|by apply wp_ret]. eapply sdp_wp_user; [apply (user_complete _ Huser)|exact Hok|done].
Qed.

Definition failed result c : bt_sdp_client_completion :=
  {| sc_result := result; sc_op := sd_op c; sc_data := None; sc_data_len := 0; sc_total_count := 0 |}.

Definition succeeded c : bt_sdp_client_completion :=
  {| sc_result := BT_SDP_CLIENT_OK; sc_op := sd_op c; sc_data := Some (take (Z.to_nat (sd_result_len c)) (sd_result c));
     sc_data_len := sd_result_len c; sc_total_count := sd_last_total_count c |}.

Lemma fail_spec past result c u tr : core c tr -> sd_busy c = true -> result <> BT_SDP_CLIENT_OK -> (budget u <= n)%nat ->
  past `prefix_of` tr ++ [S_done (failed result c)] ->
  wp (fail_operation call result) (at_ c u tr) (fun _ => ok past n).
Proof.
  intros [Hd Ho He Hj] Hb Hr Hu Hp. unfold fail_operation. repeat wp_step. apply report_spec; [|done|..|done|]; cbn [sc_op sc_result].
  - keeps_data.
  - rewrite Ho. unfold under_way. by rewrite Hb.
  - done.
  - unfold results_ok. by rewrite decide_False.
  - done.
  - done.
  - exact Hp.
Qed.

Lemma fail_ok past result w : ok past n w -> sd_busy (w_self w) = true -> result <> BT_SDP_CLIENT_OK ->
  wp (fail_operation call result) w (fun _ => ok past n).
Proof. destruct w as [c u tr]. intros [(Hc & _ & Hp) Hu] Hb Hr. apply fail_spec; [done..|]. by apply prefix_app_r. Qed.

Lemma succeed_spec past c u tr : core c tr -> sd_busy c = true -> answering tr -> (budget u <= n)%nat ->
  past `prefix_of` tr ++ [S_done (succeeded c)] ->
  wp (succeed call) (at_ c u tr) (fun _ => ok past n).
Proof.
  intros [Hd Ho He Hj] Hb Ha Hu Hp. unfold succeed. repeat wp_step. pose proof (d_result _ Hd) as (Hz & Hbr & Hl).
  assert (ldn (sd_result c) 0 (sd_result_len c) = Ret (take (Z.to_nat (sd_result_len c)) (sd_result c))) as El.
  { unfold ldn. by rewrite (proj2 (Z.leb_le 0 (sd_result_len c))), (proj2 (Z.leb_le (0 + _) _)) by lia. }
  eapply wp_lift; [exact El|]. apply report_spec; [|done|..|done|]; cbn [sc_op sc_result].
  - keeps_data.
  - cbn. rewrite Ho. unfold under_way. by rewrite Hb.
  - done.
  - unfold results_ok. cbn. eexists. split; [done|]. split; [rewrite length_take; lia|]. split; [lia|]. by apply Forall_take.
  - done.
  - done.
  - exact Hp.
Qed.

(** *** Sending a request *)

Definition issued l c : client :=
  set_l2cap l (set_next_transaction_id (u16 (sd_next_transaction_id c + 1)) (set_pending_transaction_id (sd_next_transaction_id c) c)).

Lemma sdp_issue_run now c u tr : data_ok c ->
  exists o l, dl_send (sd_local_cid c) (request_bytes c) (zlen (request_bytes c)) (sd_l2cap c) = (o, l) /\ dl_ok l /\
  issue_request call now (at_ c u tr) =
    (if bool_decide (o = Ret tt) then ret tt else fail_operation call BT_SDP_CLIENT_ERROR_CLOSED)
      (at_ (issued l c) u (tr ++ [S_out (request_bytes c)])).
Proof.
  intros Hd. destruct (request_spec c Hd) as (Hw & _ & _ & Hl). destruct (request_header c Hd) as [Hb _].
  destruct (dl_send_ok (sd_local_cid c) (request_bytes c) (sd_l2cap c)) as (o & l & Es & Ho & Hl'); [by destruct Hd|done|].
  exists o, l. split; [done|]. split; [done|]. unfold issue_request. unfold get. rewrite bind_gets. cbn [w_self]. change (id c) with c.
  unfold set, modify. unfold bind at 1 2. world_simpl.
  rewrite (bind_eq _ _ _ _ _ (encode_run REQUEST_BUF_LEN _ _ _ Hw Hl)). cbn [fst snd].
  rewrite decide_False by (intros []; done). unfold emit. erewrite bind_eq; [|reflexivity].
  erewrite bind_eq; [|apply try_run; [|exact Ho]; unfold on_l2cap;
    cbn [w_self sd_l2cap set_next_transaction_id set_pending_transaction_id]; by rewrite Es].
  by destruct (bool_decide (o = Ret tt)).
Qed.

Lemma issued_ok l c tr : core c tr -> dl_ok l -> core (issued l c) (tr ++ [S_out (request_bytes c)]) /\
  asked (issued l c) (tr ++ [S_out (request_bytes c)]).
Proof.
  intros [Hd Ho He Hj] Hl. split.
  - constructor.
    + keeps_data. unfold is_u16. apply Z.mod_pos_bound. lia.
    + by rewrite sdp_operations_snoc, Ho.
    + by apply events_snoc.
    + by apply justified_other.
  - intros _. exists (request_bytes c). rewrite last_out_snoc. split; [done|]. by destruct (request_header c Hd).
Qed.

Lemma sdp_issue_spec past now c u tr : core c tr -> sd_busy c = true -> (budget u <= n)%nat -> past `prefix_of` tr ->
  wp (issue_request call now) (at_ c u tr) (fun _ => ok past n).
Proof.
  intros Hc Hb Hu Hp. destruct (sdp_issue_run now c u tr (c_data _ _ Hc)) as (o & l & _ & Hl & E). unfold wp. rewrite E. clear E.
  destruct (issued_ok l c tr Hc Hl) as [Hc' Ha]. case_bool_decide.
  - eexists _, _. split; [done|]. split; [|done]. split; [done|]. split; [done|by apply prefix_app_r].
  - apply fail_ok; [|done|done]. split; [|done]. split; [done|]. split; [done|by apply prefix_app_r].
Qed.

(** *** Responses *)

Lemma append_run data c u tr : data_ok c ->
  append_result data (zlen data) (at_ c u tr) =
    if sd_result_len c + zlen data >? BT_SDP_CLIENT_MAX_RESULT then (Ret false, at_ c u tr)
    else (Ret true, at_ (set_result_len (sd_result_len c + zlen data)
      (set_result (splice (sd_result c) (sd_result_len c) data) c)) u tr).
Proof.
  intros Hd. destruct (d_result _ Hd) as (Hz & _ & Hl). unfold append_result, get. rewrite bind_gets. cbn [w_self]. change (id c) with c.
  rewrite Z.gtb_ltb. destruct (Z.ltb_spec BT_SDP_CLIENT_MAX_RESULT (sd_result_len c + zlen data)); [done|].
  rewrite ldn_whole, bind_lift, stn_spec by lia. rewrite bind_lift. done.
Qed.

Lemma appended_ok data c : data_ok c -> bytes data -> sd_result_len c + zlen data <= BT_SDP_CLIENT_MAX_RESULT ->
  data_ok (set_result_len (sd_result_len c + zlen data) (set_result (splice (sd_result c) (sd_result_len c) data) c)).
Proof.
  intros Hd Hb Hl. pose proof (d_result _ Hd) as (Hz & Hbr & Hl'). keeps_data. split; [rewrite splice_length; lia|].
  split; [by apply splice_bytes|lia].
Qed.

Lemma finish_round_ok past now c u tr : core c tr -> sd_busy c = true -> answering tr -> (budget u <= n)%nat ->
  past `prefix_of` tr -> wp (finish_round call now) (at_ c u tr) (fun _ => ok past n).
Proof.
  intros Hc Hb Ha Hu Hp. unfold finish_round. wp_step. destruct (_ >? 0); [by apply sdp_issue_spec|].
  destruct (sd_op c) eqn:Eop; [by apply succeed_spec; [..|by apply prefix_app_r]|].
  pose proof (d_result _ (c_data _ _ Hc)) as (Hz & Hbr & Hl).
  destruct (parsing_spec bt_sdp_parse_element (elem_below (Z.to_nat (sd_result_len c)))
    (bt_buf_reader_init (sd_result c) (sd_result_len c)) (at_ c u tr)) as (o & r & E & _ & Ho).
  { apply parse_element_below; [apply reader_init_ok; [lia|done]|]. unfold bt_buf_reader_remaining. cbn. lia. }
  apply wp_bind. unfold wp at 1. rewrite E. clear E. eexists _, _. split; [done|]. cbn [fst].
  assert (wp (fail_operation call BT_SDP_CLIENT_ERROR_PROTOCOL) (at_ c u tr) (fun _ => ok past n)) as Hfail
    by (apply fail_spec; [done..|]; by apply prefix_app_r).
  destruct o as [[| | | |seq_data seq_len]|]; try exact Hfail. destruct (Ho _ eq_refl) as [[Hsb Hsz] Hsl].
  eapply wp_lift; [rewrite <- Hsz; apply ldn_whole|]. eapply wp_lift; [apply stn_spec; lia|]. do 2 wp_step.
  apply succeed_spec; [|done..|by apply prefix_app_r]. destruct Hc as [Hd ? ? ?]. constructor; [|done..]. keeps_data.
  split; [rewrite splice_length; lia|]. split; [by apply splice_bytes|lia].
Qed.

(** A response that ends up in the buffer, or does not fit. *)
Lemma fail_in past result c u tr : core c tr -> sd_busy c = true -> result <> BT_SDP_CLIENT_OK -> (budget u <= n)%nat ->
  past `prefix_of` tr -> wp (fail_operation call result) (at_ c u tr) (fun _ => ok past n).
Proof. intros. apply fail_spec; [done..|]. by apply prefix_app_r. Qed.

Lemma core_data c c' tr : core c tr -> data_ok c' -> sd_busy c' = sd_busy c -> sd_op c' = sd_op c -> core c' tr.
Proof. intros [? Ho ? ?] Hd Hb Hop. constructor; [done| |done..]. rewrite Ho. unfold under_way. by rewrite Hb, Hop. Qed.

Lemma search_response_ok past params now c u tr : core c tr -> sd_busy c = true -> answering tr -> bytes params ->
  (budget u <= n)%nat -> past `prefix_of` tr ->
  wp (handle_search_response uninit call params (zlen params) now) (at_ c u tr) (fun _ => ok past n).
Proof.
  intros Hc Hb Ha Hby Hu Hp. unfold handle_search_response.
  pose proof (search_response_safe params (zlen params) uninit ltac:(lia) Hby Huninit) as Hs.
  destruct (bt_sdp_parse_service_search_response _ _ _) as [rsp|e|]; [|by apply fail_in|done]. destruct Hs as (Hz & Hhb & Hco).
  wp_step. set (c1 := set_last_total_count _ c). assert (core c1 tr) as Hc1 by (eapply core_data; [exact Hc| |done..]; destruct Hc; keeps_data).
  apply wp_bind. unfold wp at 1. rewrite <- Hz, append_run by by destruct Hc1. rewrite Z.gtb_ltb.
  destruct (Z.ltb_spec BT_SDP_CLIENT_MAX_RESULT (sd_result_len c1 + zlen (ss_handles rsp))) as [|Hfit];
    (eexists _, _; split; [done|]); cbn [negb]; [by apply fail_in|].
  pose proof (appended_ok (ss_handles rsp) c1 (c_data _ _ Hc1) Hhb Hfit) as Hd2. wp_step.
  apply finish_round_ok; [|done..]. eapply core_data; [exact Hc1| |done..]. keeps_data.
Qed.

Lemma read_continuation_run r c u tr : data_ok c -> reader_ok r -> exists b k,
  read_continuation_local r (at_ c u tr) = (Ret b, at_ (set_continuation k c) u tr) /\ cont_ok k.
Proof.
  intros Hd Hr. pose proof (d_continuation _ Hd) as (Hcl & Hcb & Hcz). unfold read_continuation_local.
  destruct (parsing_spec bt_buf_reader_read_u8 _ r (at_ c u tr) (rspec_u8 r Hr)) as (o & r' & E & Hr' & Ho). rewrite (bind_eq _ _ _ _ _ E).
  assert (at_ c u tr = at_ (set_continuation (sd_continuation c) c) u tr) as Esame by by destruct c.
  destruct o as [len|]; [|exists false, (sd_continuation c); by rewrite <- Esame]. specialize (Ho len eq_refl). rewrite Z.gtb_ltb.
  destruct (Z.ltb_spec 16 len); [exists false, (sd_continuation c); by rewrite <- Esame|]. unfold set at 1, modify. unfold bind at 1. world_simpl.
  set (c1 := set_continuation_len len c). destruct (Z.eqb_spec len 0) as [->|].
  { exists true, {| ct_len := 0; ct_data := ct_data (sd_continuation c) |}. split; [done|]. by split; cbn; [lia|]. }
  destruct (parsing_spec (bt_buf_reader_read_bytes len) _ r' (at_ c1 u tr) (rspec_bytes len ltac:(lia) r' Hr')) as (o & r2 & E2 & _ & Ho2).
  rewrite (bind_eq _ _ _ _ _ E2). destruct o as [bs|]; [|exists false, {| ct_len := len; ct_data := ct_data (sd_continuation c) |}; split; [done|]; by split; cbn; [lia|]].
  destruct (Ho2 bs eq_refl) as [Hbz Hbb]. unfold get. rewrite bind_gets. cbn [w_self sd_continuation c1 set_continuation_len set_continuation ct_data ct_len].
  rewrite stn_spec by lia. rewrite bind_lift. exists true, {| ct_len := len; ct_data := splice (ct_data (sd_continuation c)) 0 bs |}.
  split; [done|]. split; [cbn; lia|]. cbn. rewrite splice_length by lia. split; [by apply splice_bytes|done].
Qed.

Lemma take_slice_at r n0 w : reader_ok r -> 0 <= n0 -> exists o r', parsing (take_slice n0) r w = (Ret (o, r'), w) /\
  reader_ok r' /\ forall bs, o = Some bs -> zlen bs = n0 /\ bytes bs.
Proof. intros Hr Hn. apply parsing_spec. by apply take_slice_safe. Qed.

Lemma attribute_response_ok past params now c u tr : core c tr -> sd_busy c = true -> answering tr -> bytes params ->
  (budget u <= n)%nat -> past `prefix_of` tr ->
  wp (handle_attribute_response call params (zlen params) now) (at_ c u tr) (fun _ => ok past n).
Proof.
  intros Hc Hb Ha Hby Hu Hp. unfold handle_attribute_response. apply wp_bind.
  destruct (parsing_spec bt_buf_reader_read_be16 _ (bt_buf_reader_init params (zlen params)) (at_ c u tr)
    (rspec_be16 _ (reader_init_ok params (zlen params) ltac:(lia) Hby))) as (o & r & E & Hr & Ho).
  unfold wp at 1. rewrite E. clear E. eexists _, _. split; [done|]. destruct o as [byte_count|]; [|by apply fail_in].
  specialize (Ho _ eq_refl). apply wp_bind. destruct (take_slice_at r byte_count (at_ c u tr) Hr ltac:(lia)) as (o & r2 & E & Hr2 & Ho2).
  unfold wp at 1. rewrite E. clear E. eexists _, _. split; [done|]. destruct o as [chunk|]; [|by apply fail_in].
  destruct (Ho2 _ eq_refl) as [<- Hchunk]. apply wp_bind. unfold wp at 1. rewrite append_run by by destruct Hc. rewrite Z.gtb_ltb.
  destruct (Z.ltb_spec BT_SDP_CLIENT_MAX_RESULT (sd_result_len c + zlen chunk)) as [|Hfit];
    (eexists _, _; split; [done|]); cbn [negb]; [by apply fail_in|].
  pose proof (appended_ok chunk c (c_data _ _ Hc) Hchunk Hfit) as Hd2. set (c2 := set_result_len _ _) in *.
  destruct (read_continuation_run r2 c2 u tr Hd2 Hr2) as (b & k & E & Hk). apply wp_bind. unfold wp at 1. rewrite E. clear E.
  eexists _, _. split; [done|]. assert (core (set_continuation k c2) tr) as Hc3 by (eapply core_data; [exact Hc| |done..]; keeps_data).
  destruct b; cbn [negb]; [by apply finish_round_ok|by apply fail_in].
Qed.

Lemma sdp_handle_response_ok past data now c u tr : core c tr -> asked c tr -> bytes data ->
  (budget u <= n)%nat -> past `prefix_of` tr ->
  wp (handle_response uninit call data (zlen data) now) (at_ c u (tr ++ [S_in data])) (fun _ => ok past n).
Proof.
  intros Hc Ha Hby Hu Hp. unfold handle_response. wp_step.
  assert (core c (tr ++ [S_in data])) as Hc'.
  { destruct Hc as [? Ho ? ?]. constructor; [done|by rewrite sdp_operations_snoc, Ho|by apply events_snoc|by apply justified_other]. }
  assert (past `prefix_of` tr ++ [S_in data]) as Hp' by by apply prefix_app_r.
  assert (ok past n (at_ c u (tr ++ [S_in data]))) as Hsame.
  { split; [|done]. split; [done|]. split; [|done]. intros Hb. destruct (Ha Hb) as (req & Hl & Hq).
    exists req. cbn [w_self w_trace]. by rewrite last_out_snoc. }
  destruct (sd_busy c) eqn:Hb; cbn [negb]; [|by apply wp_ret]. apply wp_bind.
  pose proof (sdp_header_safe _ (reader_init_ok data (zlen data) ltac:(lia) Hby)) as Hhs.
  destruct (parsing_spec bt_sdp_parse_header _ _ (at_ c u (tr ++ [S_in data])) Hhs) as (o & r & E & Hr & Ho).
  unfold wp at 1. rewrite E. eexists _, _. split; [done|]. destruct o as [hdr|]; [|by apply fail_in].
  destruct (Ho _ eq_refl) as (Hid & _ & Hlen). destruct (Z.eqb_spec (sh_transaction_id hdr) (sd_pending_transaction_id c)) as [Etid|];
    cbn [negb]; [|by apply wp_ret]. apply wp_bind.
  assert (header_of data = Some (sh_pdu_id hdr, sh_transaction_id hdr)) as Ehdr.
  { unfold header_of, parse. unfold parsing in E. destruct (bt_sdp_parse_header _) as [[h|e|] r0]; [..|done]; injection E; [by intros _ ->|done]. }
  destruct (parsing_spec (bt_buf_reader_peek (sh_param_len hdr)) _ r (at_ c u (tr ++ [S_in data]))
    (rspec_peek (sh_param_len hdr) ltac:(unfold is_u16 in *; lia) r Hr)) as (o & r2 & E2 & _ & Ho2).
  unfold wp at 1. rewrite E2. eexists _, _. split; [done|]. destruct o as [[params|]|]; [|by apply fail_in..].
  destruct (Ho2 _ eq_refl params eq_refl) as [<- Hpb]. destruct (_ =? BT_SDP_PDU_ERROR_RESPONSE); [by apply fail_in|].
  destruct (Ha Hb) as (req & Elast & Ereq).
  assert (sh_pdu_id hdr = request_id (sd_op c) + 1 -> answering (tr ++ [S_in data])) as Hans.
  { intros Epdu. exists tr, req, data. split; [done|]. split; [done|]. exists (request_id (sd_op c)), (sd_pending_transaction_id c).
    split; [done|]. by rewrite Ehdr, Epdu, Etid. }
  destruct (sd_op c).
  - destruct (Z.eqb_spec (sh_pdu_id hdr) BT_SDP_PDU_SERVICE_SEARCH_RESPONSE); cbn [negb]; [|by apply fail_in].
    apply search_response_ok; try done. by apply Hans.
  - destruct (Z.eqb_spec (sh_pdu_id hdr) BT_SDP_PDU_SERVICE_ATTRIBUTE_RESPONSE); cbn [negb]; [|by apply fail_in].
    apply attribute_response_ok; try done. by apply Hans.
Qed.

(** *** The channel *)

(** Fields outside of the operation under way. *)
Lemma field_ok past c c' u tr : ok past n (at_ c u tr) -> data_ok c' -> sd_busy c' = sd_busy c -> sd_op c' = sd_op c ->
  sd_pending_transaction_id c' = sd_pending_transaction_id c -> ok past n (at_ c' u tr).
Proof.
  intros [(Hc & Ha & Hp) Hu] Hd Hb Ho Ht. split; [|done]. split; [by eapply core_data|]. split; [|done].
  unfold asked. cbn [w_self w_trace] in *. rewrite Hb, Ho, Ht. exact Ha.
Qed.

Lemma ok_data past w : ok past n w -> data_ok (w_self w).
Proof. intros [(Hc & _) _]. by destruct Hc. Qed.

Lemma connected_ok past b c u tr : ok past n (at_ c u tr) -> ok past n (at_ c u (tr ++ [S_connected b])).
Proof.
  intros [(Hc & Ha & Hp) Hu]. split; [|done]. split; [|split; [|by apply prefix_app_r]].
  - cbn [w_trace w_self] in *. destruct Hc as [? Ho ? ?].
    constructor; [done|by rewrite sdp_operations_snoc, Ho|by apply events_snoc|by apply justified_other].
  - intros Hb. cbn [w_trace w_self] in *. rewrite last_out_snoc. by apply Ha.
Qed.

Lemma report_connected past b w : ok past n w -> wp (report_connect call b) w (fun _ => ok past n).
Proof.
  destruct w as [c u tr]. intros Hw. unfold report_connect. wp_step. destruct (sd_on_connect c) as [cb|]; [|by apply wp_ret].
  do 3 wp_step. eapply sdp_wp_user; [apply (user_connect _ Huser)| |done]. apply connected_ok.
  eapply field_ok; [exact Hw| |done..]. apply ok_data in Hw. cbn in Hw. keeps_data.
Qed.

Lemma sdp_closed_ok past w : ok past n w -> wp (on_closed call) w (fun _ => ok past n).
Proof.
  destruct w as [c u tr]. intros Hw. unfold on_closed. wp_step. apply wp_bind. eapply wp_mono; [apply report_connected|].
  - eapply field_ok; [exact Hw| |done..]. apply ok_data in Hw. cbn in Hw. keeps_data.
  - intros [] w' Hw'. wp_step. destruct (sd_busy (w_self w')) eqn:Eb; [by apply fail_ok|by apply wp_ret].
Qed.

Lemma sdp_event_ok past l event w : ok past n w -> call_ok (ChannelEvent l event : api CB UD L) ->
  wp (run_call uninit call (ChannelEvent l event)) w (fun _ => ok past n).
Proof.
  destruct w as [c u tr]. intros Hw Hev. cbn [run_call]. wp_step.
  assert (ok past n (at_ (set_l2cap l c) u tr)) as Hw1.
  { eapply field_ok; [exact Hw| |done..]. apply ok_data in Hw. cbn in Hw. keeps_data.
    by destruct event; try destruct Hev. }
  apply wp_bind. eapply (wp_mono _ _ (fun _ => ok past n)); [|intros [] w' Hw'; by apply wp_ret].
  destruct event as [| |data]; cbn [on_l2cap_event].
  - apply wp_set; world_simpl. apply report_connected. eapply field_ok; [exact Hw1| |done..]. apply ok_data in Hw1. cbn in Hw1. keeps_data.
  - by apply sdp_closed_ok.
  - destruct Hev as [_ Hdata]. wp_step. destruct Hw1 as [(Hc & Ha & Hp) Hu]. by apply sdp_handle_response_ok.
Qed.

Lemma sdp_connect_ok past cb ud now w : ok past n w -> wp (bt_sdp_client_connect cb ud now) w (fun _ => ok past n).
Proof.
  destruct w as [c u tr]. intros Hw. unfold bt_sdp_client_connect. do 2 wp_step. apply ok_data in Hw as Hd. cbn in Hd.
  destruct (dl_open_ok BT_SDP_PSM 0 now (sd_l2cap c)) as (o & l & Eo & Ho & Hl); [by destruct Hd|].
  set (c2 := set_connect_user_data ud (set_on_connect cb c)). apply wp_bind. unfold wp at 1.
  rewrite (try_run _ (at_ c2 u tr) o (at_ (set_l2cap l c2) u tr)); [|unfold on_l2cap; cbn [w_self c2 sd_l2cap set_connect_user_data set_on_connect]; by rewrite Eo|done].
  eexists _, _. split; [done|]. destruct o as [cid|e|]; [wp_step|..|done].
  - apply wp_ret. eapply field_ok; [exact Hw| |done..]. keeps_data.
  - apply wp_ret. eapply field_ok; [exact Hw| |done..]. keeps_data.
Qed.

Lemma sdp_disconnect_ok past now w : ok past n w -> wp (bt_sdp_client_disconnect call now) w (fun _ => ok past n).
Proof.
  destruct w as [c u tr]. intros Hw. unfold bt_sdp_client_disconnect. wp_step. apply ok_data in Hw as Hd. cbn in Hd. apply wp_bind.
  eapply (wp_mono _ _ (fun _ => ok past n)).
  - destruct (sd_channel_ready c); [|by apply wp_ret].
    destruct (dl_close_ok (sd_local_cid c) now (sd_l2cap c)) as (fired & l & Ec & Hl); [by destruct Hd|].
    apply wp_bind. unfold wp at 1, on_l2cap. cbn [w_self]. rewrite Ec. eexists _, _. split; [done|].
    assert (ok past n (at_ (set_l2cap l c) u tr)) by (eapply field_ok; [exact Hw| |done..]; keeps_data).
    destruct fired; [by apply sdp_closed_ok|by apply wp_ret].
  - intros [] [c' u' tr'] Hw'. wp_step. eapply field_ok; [exact Hw'| |done..]. apply ok_data in Hw'. cbn in Hw'. keeps_data.
Qed.

(** *** Starting an operation *)

Definition searching pattern max_count cb ud c : client :=
  set_complete_user_data ud (set_on_complete cb (set_last_total_count 0 (set_result_len 0 (set_continuation_len 0
    (set_search_max_count max_count (set_search_pattern_len (zlen pattern)
      (set_search_pattern (splice (sd_search_pattern c) 0 pattern) (set_op BT_SDP_CLIENT_OP_SEARCH (set_busy true c))))))))).

Definition requesting handle max_bytes ids cb ud c : client :=
  set_complete_user_data ud (set_on_complete cb (set_result_len 0 (set_continuation_len 0
    (set_attr_id_list_len (zlen ids) (set_attr_id_list (splice (sd_attr_id_list c) 0 ids)
      (set_attr_max_bytes max_bytes (set_attr_handle handle (set_op BT_SDP_CLIENT_OP_ATTRIBUTE (set_busy true c))))))))).

(** One assignment, run. *)
Ltac run_set := first [rewrite bind_lift | erewrite bind_eq; [|unfold emit, set, modify; reflexivity]; world_simpl].

Lemma search_run pattern max_count cb ud now c u tr : data_ok c -> sd_channel_ready c = true -> sd_busy c = false ->
  zlen pattern <= BT_SDP_CLIENT_MAX_REQUEST_BODY ->
  bt_sdp_client_search call pattern (zlen pattern) max_count cb ud now (at_ c u tr) =
    (do! issue_request call now in ret BT_OK) (at_ (searching pattern max_count cb ud c) u (tr ++ [S_start BT_SDP_CLIENT_OP_SEARCH])).
Proof.
  intros Hd Hr Hb Hl. destruct (d_pattern _ Hd) as (Hz & _). unfold bt_sdp_client_search, get. rewrite bind_gets. cbn [w_self]. unfold id.
  rewrite Hr, Hb. cbn [negb orb]. rewrite Z.gtb_ltb, (proj2 (Z.ltb_ge _ _)), ldn_whole by lia. cbn [obind]. rewrite stn_spec by lia. repeat run_set. reflexivity.
Qed.

Lemma attributes_run handle max_bytes ids cb ud now c u tr : data_ok c -> sd_channel_ready c = true -> sd_busy c = false ->
  zlen ids <= BT_SDP_CLIENT_MAX_REQUEST_BODY ->
  bt_sdp_client_get_attributes call handle max_bytes ids (zlen ids) cb ud now (at_ c u tr) =
    (do! issue_request call now in ret BT_OK) (at_ (requesting handle max_bytes ids cb ud c) u (tr ++ [S_start BT_SDP_CLIENT_OP_ATTRIBUTE])).
Proof.
  intros Hd Hr Hb Hl. destruct (d_ids _ Hd) as (Hz & _). unfold bt_sdp_client_get_attributes, get. rewrite bind_gets. cbn [w_self]. unfold id.
  rewrite Hr, Hb. cbn [negb orb]. rewrite Z.gtb_ltb, (proj2 (Z.ltb_ge _ _)), ldn_whole by lia. cbn [obind]. rewrite stn_spec by lia. repeat run_set. reflexivity.
Qed.

(** An operation that has been prepared. *)
Lemma core_started op c c2 tr : core c tr -> sd_busy c = false -> data_ok c2 -> sd_busy c2 = true -> sd_op c2 = op ->
  core c2 (tr ++ [S_start op]).
Proof.
  intros [? Ho ? ?] Hb Hd Hb2 Hop. constructor; [done| |by apply events_snoc|by apply justified_other].
  rewrite sdp_operations_snoc, Ho. unfold under_way. by rewrite Hb, Hb2, Hop.
Qed.

Lemma cont_len_ok k : cont_ok k -> cont_ok {| ct_len := 0; ct_data := ct_data k |}.
Proof. intros (_ & ? & ?). split; [cbn; lia|done]. Qed.

Lemma placed_ok n0 a bs : zlen a = n0 -> bytes a -> bytes bs -> zlen bs <= n0 -> array_ok n0 (splice a 0 bs) (zlen bs).
Proof. intros Hz Ha Hb Hl. split; [rewrite splice_length; lia|]. split; [by apply splice_bytes|lia]. Qed.

Lemma searching_ok pattern max_count cb ud c : data_ok c -> bytes pattern -> zlen pattern <= BT_SDP_CLIENT_MAX_REQUEST_BODY ->
  data_ok (searching pattern max_count cb ud c).
Proof.
  intros Hd Hp Hl. destruct (d_pattern _ Hd) as (Hz & Hb & _), (d_result _ Hd) as (Hrz & Hrb & _). pose proof (cont_len_ok _ (d_continuation _ Hd)).
  keeps_data. by apply placed_ok.
Qed.

Lemma requesting_ok handle max_bytes ids cb ud c : data_ok c -> bytes ids -> zlen ids <= BT_SDP_CLIENT_MAX_REQUEST_BODY ->
  data_ok (requesting handle max_bytes ids cb ud c).
Proof.
  intros Hd Hp Hl. destruct (d_ids _ Hd) as (Hz & Hb & _), (d_result _ Hd) as (Hrz & Hrb & _). pose proof (cont_len_ok _ (d_continuation _ Hd)).
  keeps_data. by apply placed_ok.
Qed.

Lemma sdp_search_ok past pattern max_count cb ud now w : ok past n w -> bytes pattern ->
  wp (bt_sdp_client_search call pattern (zlen pattern) max_count cb ud now) w (fun _ => ok past n).
Proof.
  destruct w as [c u tr]. intros Hw Hp. apply ok_data in Hw as Hd. cbn in Hd.
  destruct (negb (sd_channel_ready c) || sd_busy c) eqn:Eg.
  { unfold bt_sdp_client_search. wp_step. rewrite Eg. by apply wp_ret. }
  destruct (Z.ltb_spec BT_SDP_CLIENT_MAX_REQUEST_BODY (zlen pattern)) as [|Hl].
  { unfold bt_sdp_client_search. wp_step. rewrite Eg, Z.gtb_ltb, (proj2 (Z.ltb_lt _ _)) by done. by apply wp_ret. }
  apply orb_false_iff in Eg as [Hr%negb_false_iff Hb]. unfold wp. rewrite search_run by done.
  match goal with |- exists b w', ?m ?w = _ /\ @?Q b w' => change (wp m w Q) end. apply wp_bind. destruct Hw as [(Hc & _ & Hpr) Hu].
  eapply wp_mono; [apply sdp_issue_spec; [eapply core_started; [exact Hc|done|by apply searching_ok|done..]|done|exact Hu|by apply prefix_app_r]|]. intros [] w' Hw'. by apply wp_ret.
Qed.

Lemma sdp_attributes_ok past handle max_bytes ids cb ud now w : ok past n w -> bytes ids ->
  wp (bt_sdp_client_get_attributes call handle max_bytes ids (zlen ids) cb ud now) w (fun _ => ok past n).
Proof.
  destruct w as [c u tr]. intros Hw Hp. apply ok_data in Hw as Hd. cbn in Hd.
  destruct (negb (sd_channel_ready c) || sd_busy c) eqn:Eg.
  { unfold bt_sdp_client_get_attributes. wp_step. rewrite Eg. by apply wp_ret. }
  destruct (Z.ltb_spec BT_SDP_CLIENT_MAX_REQUEST_BODY (zlen ids)) as [|Hl].
  { unfold bt_sdp_client_get_attributes. wp_step. rewrite Eg, Z.gtb_ltb, (proj2 (Z.ltb_lt _ _)) by done. by apply wp_ret. }
  apply orb_false_iff in Eg as [Hr%negb_false_iff Hb]. unfold wp. rewrite attributes_run by done.
  match goal with |- exists b w', ?m ?w = _ /\ @?Q b w' => change (wp m w Q) end. apply wp_bind. destruct Hw as [(Hc & _ & Hpr) Hu].
  eapply wp_mono; [apply sdp_issue_spec; [eapply core_started; [exact Hc|done|by apply requesting_ok|done..]|done|exact Hu|by apply prefix_app_r]|]. intros [] w' Hw'. by apply wp_ret.
Qed.

Lemma sdp_call_ok past a w : ok past n w -> call_ok a -> wp (run_call uninit call a) w (fun _ => ok past n).
Proof.
  intros Hw Ha. destruct a as [cb ud now|now|pattern max_count cb ud now|handle max_bytes ids cb ud now|l event]; cbn [run_call].
  - by apply sdp_connect_ok.
  - apply wp_bind. eapply wp_mono; [by apply sdp_disconnect_ok|]. intros [] w' Hw'. by apply wp_ret.
  - destruct Ha. by apply sdp_search_ok.
  - destruct Ha as (_ & _ & ?). by apply sdp_attributes_ok.
  - by apply sdp_event_ok.
Qed.

End Handlers.

(** *** Runs *)

Section Runs.
  Hypothesis Huninit : cont_ok (ss_continuation uninit).
  Hypothesis Huser : user_ok budget.

Lemma sdp_api_ok depth past : callable budget (I past) call_ok (run_api uninit depth) depth.
Proof.
  revert past. induction depth as [|depth IH]; intros past a Ha k Hk w Hw; [lia|]. cbn [run_api].
  apply (sdp_call_ok (run_api uninit depth) k); [done|done| |done|done].
  intros past' a' Ha' k' Hk' w' Hw'. apply IH; [done|lia|done].
Qed.

Lemma sdp_apis_ok depth past l w k : Forall call_ok l -> (k < depth)%nat -> ok past k w ->
  wp (run_apis uninit depth l) w (fun _ => ok past k).
Proof.
  intros Hl Hk. revert w. induction Hl as [|a l Ha Hl IH]; intros w Hw; [by apply wp_ret|]. cbn [run_apis foldr].
  apply wp_bind. eapply wp_mono; [by eapply sdp_api_ok|]. intros st w' Hw'. by apply IH.
Qed.

End Runs.

Lemma sdp_init_ok l u : dl_ok l -> I [] ({| w_self := bt_sdp_client_init l; w_user := u; w_trace := [] |} : W).
Proof.
  intros Hl. split; [|split; [done|done]]. constructor; [|done|done|].
  - assert (forall k, bytes (replicate k 0)) as Hz by (intros; apply Forall_replicate; unfold is_byte; lia).
    constructor; cbn -[replicate]; [done|unfold is_u16; lia|unfold is_u16; lia|by split_and!; try apply Hz; unfold BT_SDP_CLIENT_MAX_REQUEST_BODY; try lia..| |].
    + split; [cbn; lia|]. split; [apply Hz|done].
    + split; [by rewrite length_replicate|]. split; [apply Hz|unfold BT_SDP_CLIENT_MAX_RESULT; lia].
  - intros before comp [k E]. by destruct before.
Qed.
End Safety.

(** A client that has just been initialised. *)
Definition fresh {CB UD L U} (l : L) (u : U) : world (bt_sdp_client CB UD L) U sdp_event :=
  {| w_self := bt_sdp_client_init l; w_user := u; w_trace := [] |}.

(** ** Properties *)

(** C14.  Every SDP operation completes once, on grounds.  Whatever calls are made
    and whatever arrives on the channel, in any order, with callbacks that call
    back into the client as long as they have a budget, the client returns and
    touches no memory outside its objects; what it reports is an operation that
    was started and has not ended; an operation that succeeded hands out at
    most 1024 bytes, and succeeded while it handled the response to its latest
    request: the response's PDU is the request's successor and both carry one
    transaction ID.  Requests are well-formed: the one under way parses back to
    the operation and the transaction that is pending. *)
Theorem sdp_completes_once : forall {CB UD L U} `{SdpUser CB UD L U} `{DynamicChannels L} (budget : U -> nat) uninit calls l u depth,
  cont_ok (ss_continuation uninit) -> user_ok budget -> dl_ok l -> Forall call_ok calls -> (budget u < depth)%nat ->
  exists w, run_apis uninit depth calls (fresh l u) = (Ret tt, w) /\
    operations (w_trace w) = Some (under_way (w_self w)) /\ Forall event_ok (w_trace w) /\ justified (w_trace w) /\
    asked (w_self w) (w_trace w).
Proof.
  intros CB UD L U HG HF budget uninit calls l u depth Huninit Huser Hl Hcalls Hd.
  destruct (sdp_apis_ok budget uninit Huninit Huser depth [] calls (fresh l u) (budget u) Hcalls Hd) as ([] & w & E & [(Hc & Ha & _) _]).
  { split; [|done]. by apply sdp_init_ok. }
  exists w. split; [done|]. by destruct Hc.
Qed.

(** ** Witnesses *)

(** A link that hands out CIDs and keeps what is sent; a user that searches
    when it is connected, and again, as long as it may, when an operation ends. *)
Definition toy_line : Type := Z * list (list Z).
#[local] Instance toy_dynamic : DynamicChannels toy_line.
Proof.
  refine {|
    dl_open := fun _ _ _ (l : toy_line) => (Ret (64 + l.1), (l.1 + 1, l.2));
    dl_close := fun _ _ (l : toy_line) => (Ret false, l);
    dl_send := fun _ data _ (l : toy_line) => (Ret tt, (l.1, l.2 ++ [data]));
    dl_ok := fun _ => True |}; eauto.
  all: intros; eexists (Ret _), _; split_and!; done.
Defined.

Definition toy_pattern : list Z := [53; 3; 25; 17; 36].
Definition toy_searcher : prog nat (api unit unit toy_line) bt_status unit :=
  Get (fun k => match k with O => Done tt | S k => Put k (Call (Search toy_pattern 8 (Some tt) None 7) (fun _ => Done tt)) end).
#[local] Instance toy_sdp_user : SdpUser unit unit toy_line nat :=
  {| connect_fn := fun _ _ _ => toy_searcher; complete_fn := fun _ _ _ => toy_searcher |}.

Lemma toy_sdp_user_ok : user_ok id.
Proof.
  assert (pays id call_ok (fun _ => True) toy_searcher) as Ht.
  { intros [|k]; cbn; [done|]. unfold id, is_u16. repeat split; try lia. concrete_bytes. }
  constructor; intros; apply Ht.
Qed.

Definition toy_uninit : bt_sdp_service_search_response :=
  {| ss_total_record_count := 7; ss_current_record_count := 9; ss_handles := [1];
     ss_continuation := {| ct_len := 3; ct_data := replicate 16 171 |} |}.

(** Connect, and one record handle in answer to the first search. *)
Definition toy_sdp_calls : list (api unit unit toy_line) :=
  [Connect (Some tt) None 1; ChannelEvent (1, []) E_opened; ChannelEvent (1, []) (E_data [3; 0; 1; 0; 9; 0; 1; 0; 1; 0; 1; 0; 0; 0])].

Lemma toy_sdp_calls_ok : Forall call_ok toy_sdp_calls.
Proof. repeat constructor; cbn; try lia; concrete_bytes. Qed.

Lemma sdp_completes_once_witness : exists w, run_apis toy_uninit 3 toy_sdp_calls (fresh (0, []) 2%nat) = (Ret tt, w) /\
  operations (w_trace w) = Some (under_way (w_self w)) /\ justified (w_trace w) /\ asked (w_self w) (w_trace w) /\
  omap (fun e => match e with S_done comp => Some (sc_result comp, sc_data comp) | _ => None end) (w_trace w) =
    [(BT_SDP_CLIENT_OK, Some [0; 1; 0; 0])] /\ length (w_trace w) = 7%nat.
Proof.
  destruct (sdp_completes_once id toy_uninit toy_sdp_calls (0, []) 2%nat 3%nat) as (w & E & Ho & _ & Hj & Ha);
    [split; [cbn; lia|split; [concrete_bytes|done]]|exact toy_sdp_user_ok|done|exact toy_sdp_calls_ok|unfold id; lia|].
  exists w. split; [exact E|]. split; [exact Ho|]. split; [exact Hj|]. split; [exact Ha|]. vm_compute in E. injection E as <-.
  split; vm_compute; reflexivity.
Defined.

(** ** What modelling showed *)

Definition still : SdpUser unit unit toy_line nat :=
  {| connect_fn := fun _ _ _ => Done tt; complete_fn := fun _ _ _ => Done tt |}.
Abbreviation seen_by_still calls := (run_apis (H := still) toy_uninit 3 calls (fresh (0, []) 0%nat)).2.

(** The CLOSED of the channel that was disconnected arrives after the next
    connect: it is reported as the failure of the new connection, which then
    opens and is reported to nobody. *)
Example stale_closed_fails_new_connection :
  let w := seen_by_still [Connect (Some tt) None 1; ChannelEvent (1, []) E_opened; Disconnect 2; Connect (Some tt) None 3;
    ChannelEvent (2, []) E_closed; ChannelEvent (2, []) E_opened] in
  w_trace w = [S_connected true; S_connected false] /\ sd_channel_ready (w_self w) = true /\ sd_local_cid (w_self w) = 65.
Proof. vm_compute. done. Qed.

(** A second connect takes another channel and forgets the CID of the first,
    which nothing can close any more. *)
Example second_connect_leaks_channel :
  let w := seen_by_still [Connect (Some tt) None 1; ChannelEvent (1, []) E_opened; Connect (Some tt) None 3] in
  sd_channel_ready (w_self w) = true /\ sd_local_cid (w_self w) = 65.
Proof. vm_compute. done. Qed.

(** A server that answers with no handles and a continuation keeps a search
    going: the client asks again, and nothing bounds the rounds. *)
Example empty_rounds_go_on :
  let round tid := ChannelEvent (1, []) (E_data [3; 0; tid; 0; 6; 0; 1; 0; 0; 1; 9]) in
  let w := seen_by_still ([Connect (Some tt) None 1; ChannelEvent (1, []) E_opened; Search toy_pattern 8 (Some tt) None 2] ++
    map round [1; 2; 3; 4; 5; 6; 7; 8]) in
  under_way (w_self w) = Some BT_SDP_CLIENT_OP_SEARCH /\ sd_result_len (w_self w) = 0 /\ sd_pending_transaction_id (w_self w) = 9.
Proof. vm_compute. done. Qed.

End SdpClient.
