(* ===== verification/SdpLink.v ===== *)
(** * The channel manager as the SDP client's link

    [ChannelManager] keeps the contract that [SdpClient] asks of a link with
    channels of its own, with the inbox of [GattLink]: opening a channel fires
    nothing, and closing one at most CLOSED. *)

From Stdlib Require Import ZArith Lia.
From stdpp Require Import base list gmap.
From S2P Require Import Prelude Buffer Callbacks Timer L2cap Signaling ChannelManager GattLink SdpClient.

Module SdpLink.
Import Buffer Callbacks Timer L2cap Signaling ChannelManager GattLink.

Section Link.
  Context {T : Type} `{AclTransport T}.
Abbreviation link := (world unit unit inbox T).
  Implicit Types (w : link).

Definition link_open (psm local_mtu now_us : Z) : M link Z :=
  let! cid := bt_l2cap_channel_manager_open psm local_mtu (Some tt) tt now_us in
  let! events := take_inbox in
  match events with [] => ret cid | _ => lift Fault end.

(** Opening a channel fires nothing. *)
Lemma quiet_open psm mtu cb ud now : quiet_link (bt_l2cap_channel_manager_open psm mtu cb ud now : M link Z).
Proof.
  unfold bt_l2cap_channel_manager_open. apply quiet_bind; [by intros w; unfold find_free_channel; destruct (find_channel _ _ _)|].
  intros [chan|]; [|apply quiet_fail]. apply quiet_bind; [done|]. intros cid. apply quiet_bind; [apply quiet_update|]. intros _.
  apply quiet_bind; [done|]. intros id. apply quiet_bind; [apply quiet_update|]. intros _. apply quiet_bind; [apply quiet_timers|]. intros _.
  apply quiet_bind.
  - apply quiet_try. unfold send_connection_request. apply quiet_bind; [done|]. intros c. apply quiet_encode. intros e.
    destruct (decide _); [apply quiet_fail|apply quiet_signal].
  - intros [id'|e|]; [by apply quiet_bind| |done]. apply quiet_bind; [apply quiet_timers|]. intros _.
    apply quiet_bind; [apply quiet_update|]. intros _. apply quiet_fail.
Qed.

Lemma link_open_ok psm mtu now w : link_ok w -> exists o w', link_open psm mtu now w = (o, w') /\ o <> Fault /\ link_ok w'.
Proof.
  intros [Hw Hin]. destruct (open_ok None psm mtu (Some tt) tt now w Hw I) as (o & w' & E & Hf & Hw').
  pose proof (quiet_open psm mtu (Some tt) tt now w) as Hq. rewrite E in Hq. cbn in Hq.
  unfold link_open, bind. rewrite E. destruct o as [cid|e|]; [..|done].
  - unfold take_inbox. rewrite Hq, Hin. eexists (Ret cid), _. split; [done|]. split; [done|]. split; [by apply world_client|done].
  - exists (Fail e), w'. split; [done|]. split; [done|]. split; [done|congruence].
Qed.

#[export] Instance manager_dynamic : SdpClient.DynamicChannels link := {|
  SdpClient.dl_open := link_open;
  SdpClient.dl_close := link_close;
  SdpClient.dl_send := bt_l2cap_channel_manager_send;
  SdpClient.dl_ok := link_ok;
  SdpClient.dl_open_ok := link_open_ok;
  SdpClient.dl_close_ok := link_close_ok;
  SdpClient.dl_send_ok := link_send_ok;
|}.

End Link.
End SdpLink.
