(* ===== verification/SdpProcedures.v ===== *)
(** * SDP client: its operations against a server

    A result that the server sends in parts arrives whole: the handles of a
    service search, and the attributes of a record.  The server is any function
    from requests to responses that serves the parts, [pages], in order, each
    with the continuation the next request has to carry; [exchange] lets it
    answer as long as the client's last act was to send a request. *)

From Stdlib Require Import ZArith Lia.
From stdpp Require Import base list list_numbers.
From S2P Require Import Prelude Buffer Callbacks Sdp ChannelManager GattLink SdpClient SdpLink.

Module SdpProcedures.
Import Buffer Callbacks Sdp SdpClient.

(** ** Specification *)

(** One part of a result: the bytes, the number of records the server counts
    (of a search), and the continuation: empty at the end. *)
Record page : Type := { pg_total : Z; pg_chunk : list Z; pg_next : bt_sdp_continuation }.

Definition page_ok (op : bt_sdp_client_op) (p : page) : Prop :=
  is_u16 (pg_total p) /\ bytes (pg_chunk p) /\ zlen (pg_chunk p) < 2 ^ 15 /\ cont_ok (pg_next p) /\
  match op with
  | BT_SDP_CLIENT_OP_SEARCH => zlen (pg_chunk p) mod 4 = 0
  | BT_SDP_CLIENT_OP_ATTRIBUTE => True
  end.

(** The response that carries a page. *)
Definition page_response (op : bt_sdp_client_op) (tid : Z) (p : page) : list Z :=
  pdu_bytes (request_id op + 1) tid
    (match op with
     | BT_SDP_CLIENT_OP_SEARCH =>
         be_enc 2 (pg_total p) ++ be_enc 2 (zlen (pg_chunk p) / 4) ++ pg_chunk p ++ cont_bytes (pg_next p)
     | BT_SDP_CLIENT_OP_ATTRIBUTE => be_enc 2 (zlen (pg_chunk p)) ++ pg_chunk p ++ cont_bytes (pg_next p)
     end).

(** The request with the parameters [query]. *)
Definition query_pdu (op : bt_sdp_client_op) (query : list Z) (tid : Z) (cont : option bt_sdp_continuation) : list Z :=
  pdu_bytes (request_id op) tid (query ++ opt_cont_bytes cont).

(** The server answers the request of transaction [tid] and continuation [cont]
    with the first page, and so on. *)
Fixpoint serves_pages (op : bt_sdp_client_op) (query : list Z) (server : list Z -> list Z) (tid : Z)
    (cont : option bt_sdp_continuation) (pages : list page) : Prop :=
  match pages with
  | [] => False
  | p :: rest =>
      page_ok op p /\ server (query_pdu op query tid cont) = page_response op tid p /\
      match rest with
      | [] => ct_len (pg_next p) = 0
      | _ => 0 < ct_len (pg_next p) /\ serves_pages op query server (u16 (tid + 1)) (Some (pg_next p)) rest
      end
  end.

(** What has come in, all in all. *)
Definition whole (pages : list page) : list Z := mjoin (pg_chunk <$> pages).

(** The completion of an operation whose whole result is [all]: the handles and
    the server's count, or the elements of the attribute list, which is a
    sequence. *)
Definition final (op : bt_sdp_client_op) (all : list Z) (total : Z) (comp : bt_sdp_client_completion) : Prop :=
  match op with
  | BT_SDP_CLIENT_OP_SEARCH => sc_result comp = BT_SDP_CLIENT_OK /\ sc_data comp = Some all /\ sc_total_count comp = total
  | BT_SDP_CLIENT_OP_ATTRIBUTE =>
      forall ts, tree_ok (TSeq ts) -> all = enc_tree (TSeq ts) -> sc_result comp = BT_SDP_CLIENT_OK /\ sc_data comp = Some (enc_trees ts)
  end.

(** After the pages: too large, or the whole result. *)
Definition outcome_of (op : bt_sdp_client_op) (all : list Z) (pages : list page) (comp : bt_sdp_client_completion) : Prop :=
  if BT_SDP_CLIENT_MAX_RESULT <? zlen all then sc_result comp = BT_SDP_CLIENT_ERROR_TOO_LARGE
  else exists p, last pages = Some p /\ final op all (pg_total p) comp.

(** Requests and responses only. *)
Definition is_transfer (e : sdp_event) : Prop := match e with S_in _ | S_out _ => True | _ => False end.

Definition performed (op : bt_sdp_client_op) (P : bt_sdp_client_completion -> Prop) (tr tr' : list sdp_event) : Prop :=
  exists es comp, Forall is_transfer es /\ sc_op comp = op /\ P comp /\ (tr ++ [S_start op] ++ es ++ [S_done comp]) `prefix_of` tr'.

Section Procedures.
  Context {CB UD L U : Type} `{SdpUser CB UD L U} `{DynamicChannels L} (budget : U -> nat).
  Context (uninit : bt_sdp_service_search_response).
Abbreviation client := (bt_sdp_client CB UD L).
Abbreviation W := (world client U sdp_event).
Abbreviation at_ c u tr := ({| w_self := c; w_user := u; w_trace := tr |} : W).
Abbreviation ok past := (within budget (I past)).
  Implicit Types (c : client) (tr past : list sdp_event) (w : W).

(** The server's response to a request is the client's next event. *)
Fixpoint exchange (depth : nat) (server : list Z -> list Z) (fuel : nat) : M W unit :=
  match fuel with
  | O => ret tt
  | S fuel =>
      let! w := gets id in
      match last (w_trace w) with
      | Some (S_out pdu) =>
          do! run_api uninit depth (ChannelEvent (sd_l2cap (w_self w)) (E_data (server pdu))) in
          exchange depth server fuel
      | _ => ret tt
      end
  end.

(** Channels on which what is sent is accepted, and stays so. *)
Definition stays_up (up : Z -> L -> Prop) : Prop := forall cid l data, up cid l -> dl_ok l -> bytes data -> zlen data <= 512 ->
  exists l', dl_send cid data (zlen data) l = (Ret tt, l') /\ up cid l' /\ dl_ok l'.

(** ** Lemmas *)

Lemma parsing_reads {A} (m : M bt_buf_reader A) a post v r w : reads m a post v -> reader_ok r -> rview r = a ++ post ->
  exists r', parsing m r w = (Ret (Some v, r'), w : W) /\ reader_ok r' /\ rview r' = post.
Proof.
  intros Hm Hr Hv. exists (radvance (zlen a) r). unfold parsing. rewrite (Hm r Hr Hv). split; [done|]. by apply radvance_view_app.
Qed.

Section Link.
  Context (up : Z -> L -> Prop).
  Hypothesis Hup : stays_up up.
  Hypothesis Huninit : cont_ok (ss_continuation uninit).
  Hypothesis Huser : user_ok budget.

(** The parameters of the request, before the continuation. *)
Definition query_of c : list Z :=
  match sd_op c with
  | BT_SDP_CLIENT_OP_SEARCH => take (Z.to_nat (sd_search_pattern_len c)) (sd_search_pattern c) ++ be_enc 2 (sd_search_max_count c)
  | BT_SDP_CLIENT_OP_ATTRIBUTE =>
      be_enc 4 (sd_attr_handle c) ++ be_enc 2 (sd_attr_max_bytes c) ++ take (Z.to_nat (sd_attr_id_list_len c)) (sd_attr_id_list c)
  end.

Lemma request_query c : request_bytes c = query_pdu (sd_op c) (query_of c) (sd_next_transaction_id c) (next_continuation c).
Proof.
  unfold request_bytes, request_body, query_pdu, query_of, search_body, attribute_body. f_equal.
  destruct (sd_op c); by rewrite <- !app_assoc.
Qed.

(** What a response leaves alone. *)
Definition same_request c c' : Prop :=
  sd_l2cap c' = sd_l2cap c /\ sd_local_cid c' = sd_local_cid c /\ sd_busy c' = sd_busy c /\ sd_op c' = sd_op c /\
  sd_pending_transaction_id c' = sd_pending_transaction_id c /\ sd_next_transaction_id c' = sd_next_transaction_id c /\
  query_of c' = query_of c.

(** The buffer holds [acc]. *)
Definition holds acc c : Prop := sd_result_len c = zlen acc /\ take (length acc) (sd_result c) = acc.

(** [acc] has come in of an operation under way. *)
Definition fetching op query acc c : Prop :=
  up (sd_local_cid c) (sd_l2cap c) /\ sd_busy c = true /\ sd_op c = op /\ query_of c = query /\
  sd_next_transaction_id c = u16 (sd_pending_transaction_id c + 1) /\ holds acc c.

(** After a page: too large, or the end of the round. *)
Definition page_arrived (call : api CB UD L -> M W bt_status) (p : page) acc c u tr (handler : M W unit) (now : Z) : Prop :=
  exists c', data_ok c' /\ same_request c c' /\
  if BT_SDP_CLIENT_MAX_RESULT <? zlen (acc ++ pg_chunk p)
  then handler (at_ c u tr) = fail_operation call BT_SDP_CLIENT_ERROR_TOO_LARGE (at_ c' u tr)
  else handler (at_ c u tr) = finish_round call now (at_ c' u tr) /\ holds (acc ++ pg_chunk p) c' /\
    cont_bytes (sd_continuation c') = cont_bytes (pg_next p) /\ (sd_op c = BT_SDP_CLIENT_OP_SEARCH -> sd_last_total_count c' = pg_total p).

Lemma holds_append acc chunk c : data_ok c -> holds acc c -> zlen (acc ++ chunk) <= BT_SDP_CLIENT_MAX_RESULT ->
  holds (acc ++ chunk) (set_result_len (sd_result_len c + zlen chunk) (set_result (splice (sd_result c) (sd_result_len c) chunk) c)).
Proof.
  intros Hd [Hl Ht] Hz. destruct (d_result _ Hd) as (Hrz & _ & Hrl). rewrite length_app in Hz.
  split; cbn [sd_result_len set_result_len sd_result set_result]; [rewrite length_app; lia|].
  rewrite Hl. pose proof (splice_take (sd_result c) (zlen acc) chunk ltac:(lia) ltac:(lia)) as Hs.
  rewrite Nat2Z.id, Ht in Hs. etrans; [|exact Hs]. f_equal. rewrite length_app. lia.
Qed.

Lemma search_arrived call p acc c u tr now : data_ok c -> page_ok BT_SDP_CLIENT_OP_SEARCH p -> holds acc c ->
  let body := be_enc 2 (pg_total p) ++ be_enc 2 (zlen (pg_chunk p) / 4) ++ pg_chunk p ++ cont_bytes (pg_next p) in
  page_arrived call p acc c u tr (handle_search_response uninit call body (zlen body) now) now.
Proof.
  intros Hd (Ht & Hb & Hz & Hc & Hm) Ha body. subst body. unfold page_arrived, handle_search_response.
  pose proof (Z.div_mod (zlen (pg_chunk p)) 4 ltac:(lia)) as Hdiv.
  rewrite search_response_parses by (try done; try (unfold is_u16; lia); by destruct Huninit as (_ & _ & ?)).
  set (c1 := set_last_total_count (pg_total p) c). assert (data_ok c1) as Hd1 by (destruct Hd; constructor; done).
  assert (holds acc c1) as Ha1 by done. cbn [ss_total_record_count ss_handles ss_current_record_count ss_continuation].
  replace (zlen (pg_chunk p) / 4 * 4) with (zlen (pg_chunk p)) by lia.
  rewrite length_app. destruct Ha1 as [Hal Hat]. rewrite Nat2Z.inj_add, <- Hal.
  destruct (Z.ltb_spec BT_SDP_CLIENT_MAX_RESULT (sd_result_len c1 + zlen (pg_chunk p))) as [Hbig|Hfit].
  - exists c1. split; [done|]. split; [done|]. unfold set at 1, modify, bind at 1. world_simpl. fold c1.
    erewrite bind_eq; [|rewrite append_run by done; by rewrite Z.gtb_ltb, (proj2 (Z.ltb_lt _ _))]. done.
  - set (c2 := set_result_len (sd_result_len c1 + zlen (pg_chunk p)) (set_result (splice (sd_result c1) (sd_result_len c1) (pg_chunk p)) c1)).
    pose proof (appended_ok (pg_chunk p) c1 Hd1 Hb Hfit) as Hd2. fold c2 in Hd2.
    set (k := cont_set (ss_continuation uninit) (pg_next p)). exists (set_continuation k c2).
    assert (cont_ok k) as Hk.
    { destruct Huninit as (_ & Hub & Hul), Hc as (Hcl & Hcb & Hcz). split; [done|]. subst k. cbn.
      assert (zlen (take (Z.to_nat (ct_len (pg_next p))) (ct_data (pg_next p))) = ct_len (pg_next p)) by (rewrite length_take; lia).
      split; [apply splice_bytes; [done|by apply Forall_take]|]. rewrite splice_length; lia. }
    split; [destruct Hd2; constructor; done|]. split; [done|]. split; [|split; [|split]].
    + unfold set at 1, modify, bind at 1. world_simpl. fold c1.
      erewrite bind_eq; [|rewrite append_run by done; rewrite Z.gtb_ltb, (proj2 (Z.ltb_ge _ _)) by done; reflexivity]. done.
    + apply (holds_append acc (pg_chunk p) c1); [done|done|rewrite length_app; lia].
    + cbn. apply cont_set_bytes; [by destruct Huninit as (_ & _ & ?)|done].
    + done.
Qed.

Lemma continuation_run r c u tr k : data_ok c -> cont_ok k -> reader_ok r -> rview r = cont_bytes k -> exists k',
  read_continuation_local r (at_ c u tr) = (Ret true, at_ (set_continuation k' c) u tr) /\ cont_ok k' /\ cont_bytes k' = cont_bytes k.
Proof.
  intros Hd (Hkl & Hkb & Hkz) Hr Hv. destruct (d_continuation _ Hd) as (Hl & Hb & Hz). unfold read_continuation_local, cont_bytes in *.
  destruct (parsing_reads bt_buf_reader_read_u8 [ct_len k] _ (ct_len k) r (at_ c u tr) ltac:(apply reads_u8; lia) Hr Hv)
    as (r1 & E & Hr1 & Hv1). rewrite (bind_eq _ _ _ _ _ E). rewrite Z.gtb_ltb, (proj2 (Z.ltb_ge _ _)) by lia.
  unfold set at 1, modify. unfold bind at 1. world_simpl. destruct (Z.eqb_spec (ct_len k) 0) as [E0|E0].
  { exists {| ct_len := ct_len k; ct_data := ct_data (sd_continuation c) |}. split; [done|]. split; [by split|]. cbn. by rewrite E0. }
  rewrite <- (app_nil_r (take _ _)) in Hv1. set (bs := take (Z.to_nat (ct_len k)) (ct_data k)) in *.
  assert (zlen bs = ct_len k) as Hbs by (subst bs; rewrite length_take; lia).
  destruct (parsing_reads (bt_buf_reader_read_bytes (ct_len k)) bs [] bs r1 (at_ (set_continuation_len (ct_len k) c) u tr)
    ltac:(by apply reads_bytes_n) Hr1 Hv1) as (r2 & E2 & _). rewrite (bind_eq _ _ _ _ _ E2).
  unfold get. rewrite bind_gets. cbn [w_self sd_continuation set_continuation_len set_continuation ct_data ct_len].
  rewrite stn_spec by lia. rewrite bind_lift. exists {| ct_len := ct_len k; ct_data := splice (ct_data (sd_continuation c)) 0 bs |}.
  split; [done|]. cbn [ct_len ct_data]. split.
  - split; [done|]. cbn [ct_data]. rewrite splice_length by lia. split; [apply splice_bytes; [done|by apply Forall_take]|done].
  - f_equal. pose proof (splice_take (ct_data (sd_continuation c)) 0 bs ltac:(lia) ltac:(lia)) as Hs. by rewrite Z.add_0_l, Hbs in Hs.
Qed.

Lemma attribute_arrived call p acc c u tr now : data_ok c -> page_ok BT_SDP_CLIENT_OP_ATTRIBUTE p -> holds acc c ->
  sd_op c = BT_SDP_CLIENT_OP_ATTRIBUTE ->
  let body := be_enc 2 (zlen (pg_chunk p)) ++ pg_chunk p ++ cont_bytes (pg_next p) in
  page_arrived call p acc c u tr (handle_attribute_response call body (zlen body) now) now.
Proof.
  intros Hd (Ht & Hb & Hz & Hc & _) Ha Hop body. unfold page_arrived, handle_attribute_response.
  pose proof (cont_bytes_bytes _ Hc) as Hcb. assert (bytes body) as Hbody by (subst body; bys).
  destruct (parsing_reads bt_buf_reader_read_be16 (be_enc 2 (zlen (pg_chunk p))) (pg_chunk p ++ cont_bytes (pg_next p)) (zlen (pg_chunk p))
    (bt_buf_reader_init body (zlen body)) (at_ c u tr)) as (r1 & E1 & Hr1 & Hv1);
    [apply reads_be16; lia|apply reader_init_ok; [lia|done]|by apply rview_init_all|].
  destruct (parsing_reads (take_slice (zlen (pg_chunk p))) (pg_chunk p) (cont_bytes (pg_next p)) (pg_chunk p) r1 (at_ c u tr))
    as (r2 & E2 & Hr2 & Hv2); [by apply take_slice_reads|done|done|].
  rewrite length_app. destruct Ha as [Hal Hat]. rewrite Nat2Z.inj_add, <- Hal.
  destruct (Z.ltb_spec BT_SDP_CLIENT_MAX_RESULT (sd_result_len c + zlen (pg_chunk p))) as [Hbig|Hfit].
  - exists c. split; [done|]. split; [done|]. rewrite (bind_eq _ _ _ _ _ E1), (bind_eq _ _ _ _ _ E2).
    erewrite bind_eq; [|rewrite append_run by done; by rewrite Z.gtb_ltb, (proj2 (Z.ltb_lt _ _))]. done.
  - set (c2 := set_result_len (sd_result_len c + zlen (pg_chunk p)) (set_result (splice (sd_result c) (sd_result_len c) (pg_chunk p)) c)).
    pose proof (appended_ok (pg_chunk p) c Hd Hb Hfit) as Hd2. fold c2 in Hd2.
    destruct (continuation_run r2 c2 u tr (pg_next p) Hd2 Hc Hr2 Hv2) as (k & E3 & Hk & Hkb). exists (set_continuation k c2).
    split; [destruct Hd2; constructor; done|]. split; [done|]. split; [|split; [|split]].
    + rewrite (bind_eq _ _ _ _ _ E1), (bind_eq _ _ _ _ _ E2).
      erewrite bind_eq; [|rewrite append_run by done; rewrite Z.gtb_ltb, (proj2 (Z.ltb_ge _ _)) by done; reflexivity].
      cbn [negb]. fold c2. by rewrite (bind_eq _ _ _ _ _ E3).
    + apply (holds_append acc (pg_chunk p) c); [done|done|rewrite length_app; lia].
    + done.
    + congruence.
Qed.

(** The response to the request under way, run. *)
Lemma sdp_response_run call op p acc c u tr : core c tr -> asked c tr -> page_ok op p -> sd_busy c = true -> sd_op c = op -> holds acc c ->
  let rsp := page_response op (sd_pending_transaction_id c) p in let tr' := tr ++ [S_in rsp] in
  core c tr' /\ answering tr' /\ page_arrived call p acc c u tr' (handle_response uninit call rsp (zlen rsp) 0) 0.
Proof.
  intros Hc Ha Hp Hb Hop Hh rsp tr'. destruct (Ha Hb) as (req & Hlast & Hreq).
  pose proof Hp as (Ht & Hcb & Hcz & Hnext & _). pose proof (cont_bytes_bytes _ Hnext) as Hkb.
  pose proof (cont_bytes_length _ Hnext) as Hkl. destruct Hnext as (Hnl & _).
  set (body := match op with
     | BT_SDP_CLIENT_OP_SEARCH =>
         be_enc 2 (pg_total p) ++ be_enc 2 (zlen (pg_chunk p) / 4) ++ pg_chunk p ++ cont_bytes (pg_next p)
     | BT_SDP_CLIENT_OP_ATTRIBUTE => be_enc 2 (zlen (pg_chunk p)) ++ pg_chunk p ++ cont_bytes (pg_next p) end).
  assert (rsp = pdu_bytes (request_id op + 1) (sd_pending_transaction_id c) body) as Ersp by done.
  assert (bytes body /\ zlen body < 2 ^ 16) as [Hbb Hbl].
  { subst body. destruct op; (split; [bys|]); rewrite !length_app, !be_enc_length; lia. }
  assert (0 <= request_id op + 1 < 2 ^ 8) as Hid by by destruct op.
  assert (is_u16 (sd_pending_transaction_id c)) as Htid by by destruct Hc as [[] _ _ _].
  split; [|split].
  - unfold tr'. destruct Hc as [? Ho ? ?]. constructor; [done|by rewrite sdp_operations_snoc, Ho|by apply events_snoc|by apply justified_other].
  - exists tr, req, rsp. split; [done|]. split; [done|]. exists (request_id op), (sd_pending_transaction_id c).
    split; [by rewrite Hreq, Hop|]. rewrite Ersp. by apply header_of_pdu.
  - assert (bytes rsp) as Hrb by (rewrite Ersp; unfold pdu_bytes; unfold is_u16 in *; bys).
    assert (handle_response uninit call rsp (zlen rsp) 0 (at_ c u tr') = match op with
      | BT_SDP_CLIENT_OP_SEARCH => handle_search_response uninit call body (zlen body) 0 (at_ c u tr')
      | BT_SDP_CLIENT_OP_ATTRIBUTE => handle_attribute_response call body (zlen body) 0 (at_ c u tr') end) as E.
    { unfold handle_response, get. rewrite bind_gets. cbn [w_self]. change (id c) with c. rewrite Hb. cbn [negb].
      destruct (parsing_reads bt_sdp_parse_header ([request_id op + 1] ++ be_enc 2 (sd_pending_transaction_id c) ++ be_enc 2 (zlen body))
        body _ (bt_buf_reader_init rsp (zlen rsp)) (at_ c u tr') ltac:(apply sdp_header_reads; [done|done|unfold is_u16; lia]))
        as (r1 & E1 & Hr1 & Hv1); [apply reader_init_ok; [lia|done]|rewrite rview_init_all, Ersp; unfold pdu_bytes; by rewrite <- !app_assoc|].
      rewrite (bind_eq _ _ _ _ _ E1). cbn [sh_transaction_id sh_param_len sh_pdu_id]. rewrite Z.eqb_refl. cbn [negb].
      rewrite <- (app_nil_r body) in Hv1. 
      destruct (parsing_reads (bt_buf_reader_peek (zlen body)) [] (body ++ []) (Some body) r1 (at_ c u tr')
        ltac:(by apply reads_peek) Hr1 Hv1) as (r2 & E2 & _). rewrite (bind_eq _ _ _ _ _ E2), Hop. by destruct op. }
    destruct op.
    + destruct (search_arrived call p acc c u tr' 0) as (c' & H1 & H2 & H3); [by destruct Hc|done|done|].
      exists c'. split; [done|]. split; [done|]. rewrite E. exact H3.
    + destruct (attribute_arrived call p acc c u tr' 0) as (c' & H1 & H2 & H3); [by destruct Hc|done|done|done|].
      exists c'. split; [done|]. split; [done|]. rewrite E. exact H3.
Qed.


(** *** The end of a round *)

(** What has come in is parsed as what was sent. *)
Lemma sequence_parsed all c u tr ts o r : data_ok c -> holds all c ->
  parsing bt_sdp_parse_element (bt_buf_reader_init (sd_result c) (sd_result_len c)) (at_ c u tr) = (Ret (o, r), at_ c u tr) ->
  tree_ok (TSeq ts) -> all = enc_tree (TSeq ts) -> o = Some (top (TSeq ts)).
Proof.
  intros Hd (Hl & Ht) E Hts ->. pose proof (d_result _ Hd) as (Hz & Hbr & Hlen).
  destruct (parsing_reads bt_sdp_parse_element (enc_tree (TSeq ts)) [] (top (TSeq ts))
    (bt_buf_reader_init (sd_result c) (sd_result_len c)) (at_ c u tr)) as (r' & E' & _).
  - apply parse_element_reads; [done|]. by apply enc_tree_bytes.
  - apply reader_init_ok; [lia|done].
  - rewrite rview_init, app_nil_r, Hl, Nat2Z.id by lia. exact Ht.
  - congruence.
Qed.

Lemma round_ends depth now all c u tr : core c tr -> sd_busy c = true -> answering tr -> holds all c ->
  ct_len (sd_continuation c) = 0 -> (budget u <= depth)%nat ->
  wp (finish_round (run_api uninit depth) now) (at_ c u tr) (fun _ w' => exists comp,
    final (sd_op c) all (sd_last_total_count c) comp /\ sc_op comp = sd_op c /\ ok (tr ++ [S_done comp]) depth w').
Proof.
  intros Hc Hb Ha Hh Hk Hu. unfold finish_round. wp_step. rewrite Hk. cbn [Z.gtb Z.compare]. pose proof Hh as [Hl Ht].
  assert (forall past, callable budget (I past) call_ok (run_api uninit depth) depth) as Hcall by (intros; by apply sdp_api_ok).
  pose proof (d_result _ (c_data _ _ Hc)) as (Hz & Hbr & Hlen).
  destruct (sd_op c) eqn:Eop.
  { eapply wp_mono; [by apply (succeed_spec budget (run_api uninit depth) depth Huser Hcall (tr ++ [S_done (succeeded c)]))|].
    intros [] w' Hw'. exists (succeeded c). split; [|done]. split; [done|]. split; [|done]. cbn. by rewrite Hl, Nat2Z.id, Ht. }
  destruct (parsing_spec bt_sdp_parse_element (elem_below (Z.to_nat (sd_result_len c)))
    (bt_buf_reader_init (sd_result c) (sd_result_len c)) (at_ c u tr)) as (o & r & E & _ & Ho).
  { apply parse_element_below; [apply reader_init_ok; [lia|done]|]. unfold bt_buf_reader_remaining. cbn. lia. }
  pose proof (fun ts => sequence_parsed all c u tr ts o r (c_data _ _ Hc) Hh E) as Htree.
  apply wp_bind. unfold wp at 1. rewrite E. clear E. eexists _, _. split; [done|]. cbn [fst].
  assert ((forall ts, o <> Some (top (TSeq ts))) -> wp (fail_operation (run_api uninit depth) BT_SDP_CLIENT_ERROR_PROTOCOL) (at_ c u tr)
    (fun _ w' => exists comp, final BT_SDP_CLIENT_OP_ATTRIBUTE all (sd_last_total_count c) comp /\
       sc_op comp = BT_SDP_CLIENT_OP_ATTRIBUTE /\ ok (tr ++ [S_done comp]) depth w')) as Hfail.
  { intros Hno. eapply wp_mono; [by apply (fail_spec budget (run_api uninit depth) depth Huser Hcall
      (tr ++ [S_done (failed BT_SDP_CLIENT_ERROR_PROTOCOL c)]))|]. intros [] w' Hw'. eexists. split; [|split; [|exact Hw']; done].
    intros ts Hts Hall. exfalso. by apply (Hno ts), Htree. }
  destruct o as [[| | | |seq_data seq_len]|]; try (apply Hfail; intros ts; done). destruct (Ho _ eq_refl) as [[Hsb Hsz] Hsl].
  eapply wp_lift; [rewrite <- Hsz; apply ldn_whole|]. eapply wp_lift; [apply stn_spec; lia|]. do 2 wp_step. set (c' := set_result_len _ _).
  eapply wp_mono; [apply (succeed_spec budget (run_api uninit depth) depth Huser Hcall (tr ++ [S_done (succeeded c')])); try done|].
  - destruct Hc as [Hd ? ? ?]. constructor; [|done..]. destruct Hd; constructor; try done.
    split; cbn; [rewrite splice_length; lia|]. split; [by apply splice_bytes|lia].
  - intros [] w' Hw'. exists (succeeded c'). split; [|done]. intros ts Hts Hall. split; [done|].
    specialize (Htree ts Hts Hall). injection Htree as -> ->. cbn [succeeded sc_data c' sd_result sd_result_len set_result_len set_result].
    f_equal. pose proof (splice_take (sd_result c) 0 (enc_trees ts) ltac:(lia) ltac:(lia)) as Hs. by rewrite Z.add_0_l in Hs.
Qed.

(** *** One exchange *)

Lemma fetching_same op query acc acc' c c' : fetching op query acc c -> same_request c c' -> holds acc' c' -> fetching op query acc' c'.
Proof. intros (H1 & H2 & H3 & H4 & H5 & _) (E1 & E2 & E3 & E4 & E5 & E6 & E7) Hh. unfold fetching. by rewrite E1, E2, E3, E4, E5, E6, E7. Qed.

(** The next request goes out. *)
Lemma sdp_issue_up call now op query acc c u tr cont : core c tr -> fetching op query acc c ->
  opt_cont_bytes (next_continuation c) = opt_cont_bytes cont -> exists c',
  let q := query_pdu op query (sd_next_transaction_id c) cont in
  issue_request call now (at_ c u tr) = (Ret tt, at_ c' u (tr ++ [S_out q])) /\ core c' (tr ++ [S_out q]) /\ asked c' (tr ++ [S_out q]) /\
  fetching op query acc c' /\ sd_pending_transaction_id c' = sd_next_transaction_id c.
Proof.
  intros Hc (Hl & Hb & Hop & Hq & Ht & Hh) Hcont. destruct (sdp_issue_run call now c u tr (c_data _ _ Hc)) as (o & l & Es & _ & E).
  destruct (request_spec c (c_data _ _ Hc)) as (_ & _ & _ & Hz). destruct (request_header c (c_data _ _ Hc)) as [Hby _].
  destruct (Hup (sd_local_cid c) (sd_l2cap c) (request_bytes c)) as (l' & Es' & Hl' & Hok'); [done|by destruct Hc as [[] _ _ _]|done|etrans; [exact Hz|done]|].
  rewrite Es' in Es. injection Es as <- <-. rewrite bool_decide_true in E by done. destruct (issued_ok l' c tr Hc Hok') as [Hc' Ha].
  exists (issued l' c). cbv zeta.
  assert (request_bytes c = query_pdu op query (sd_next_transaction_id c) cont) as Er.
  { rewrite request_query, Hop, Hq. unfold query_pdu. by rewrite Hcont. }
  rewrite <- Er. split; [exact E|]. split; [done|]. split; [done|]. split; [|done]. by repeat split; try apply Hh.
Qed.

Lemma page_step depth op query p acc c u tr (R : W -> Prop) : core c tr -> asked c tr -> fetching op query acc c -> page_ok op p ->
  (budget u <= depth)%nat -> let rsp := page_response op (sd_pending_transaction_id c) p in let all := acc ++ pg_chunk p in
  (BT_SDP_CLIENT_MAX_RESULT < zlen all -> forall comp w', sc_result comp = BT_SDP_CLIENT_ERROR_TOO_LARGE -> sc_op comp = op ->
     ok (tr ++ [S_in rsp; S_done comp]) depth w' -> R w') ->
  (zlen all <= BT_SDP_CLIENT_MAX_RESULT -> 0 < ct_len (pg_next p) -> forall c',
     let q := query_pdu op query (u16 (sd_pending_transaction_id c + 1)) (Some (pg_next p)) in
     let tr' := tr ++ [S_in rsp; S_out q] in core c' tr' -> asked c' tr' -> fetching op query all c' ->
     sd_pending_transaction_id c' = u16 (sd_pending_transaction_id c + 1) -> R (at_ c' u tr')) ->
  (zlen all <= BT_SDP_CLIENT_MAX_RESULT -> ct_len (pg_next p) = 0 -> forall comp w', final op all (pg_total p) comp -> sc_op comp = op ->
     ok (tr ++ [S_in rsp; S_done comp]) depth w' -> R w') ->
  wp (run_api uninit (S depth) (ChannelEvent (sd_l2cap c) (E_data rsp))) (at_ c u tr) (fun _ => R).
Proof.
  intros Hc Ha Hf Hp Hu rsp all Hbig Hnext Hend. pose proof Hf as (_ & Hb & Hop & _ & Htid & Hh).
  cbn [run_api run_call on_l2cap_event]. apply wp_set; world_simpl. replace (set_l2cap (sd_l2cap c) c) with c by by destruct c.
  apply wp_bind. apply wp_emit; world_simpl. fold rsp.
  destruct (sdp_response_run (run_api uninit depth) op p acc c u tr Hc Ha Hp Hb Hop Hh) as (Hc1 & Hans & c' & Hd' & Hsame & E). fold rsp in Hc1, Hans, E.
  assert (core c' (tr ++ [S_in rsp])) as Hc' by (eapply core_data; [exact Hc1|done|by apply Hsame..]).
  assert (sd_busy c' = true) as Hb' by (destruct Hsame as (_ & _ & -> & _); done).
  assert (sd_op c' = op) as Hop' by (destruct Hsame as (_ & _ & _ & -> & _); done).
  assert (forall past, callable budget (I past) call_ok (run_api uninit depth) depth) as Hcall by (intros; by apply sdp_api_ok).
  fold all in E. unfold wp. destruct (Z.ltb_spec BT_SDP_CLIENT_MAX_RESULT (zlen all)) as [Hlt|Hle].
  - rewrite E. match goal with |- exists b w', ?m ?w = _ /\ ?Q => change (wp m w (fun _ w' => wp (ret BT_OK) w' (fun _ => R))) end.
    eapply wp_mono; [by apply (fail_spec budget (run_api uninit depth) depth Huser Hcall
      ((tr ++ [S_in rsp]) ++ [S_done (failed BT_SDP_CLIENT_ERROR_TOO_LARGE c')]))|]. intros [] w' Hw'. rewrite <- app_assoc in Hw'. apply wp_ret.
    by apply (Hbig Hlt (failed BT_SDP_CLIENT_ERROR_TOO_LARGE c')); [..|exact Hw'].
  - destruct E as (E & Hh' & Hk & Htot). rewrite E.
    match goal with |- exists b w', ?m ?w = _ /\ ?Q => change (wp m w (fun _ w' => wp (ret BT_OK) w' (fun _ => R))) end.
    unfold cont_bytes in Hk. injection Hk as Hkl Hkd. pose proof Hp as (_ & _ & _ & ((Hk0 & _) & _) & _).
    destruct (Z.eq_dec (ct_len (pg_next p)) 0) as [E0|E0].
    + eapply wp_mono; [by apply (round_ends depth 0 all); [..|congruence|]|]. intros [] w' (comp & Hfin & Hco & Hw'). apply wp_ret.
      rewrite <- app_assoc in Hw'. rewrite Hop' in *. apply (Hend Hle E0 comp); [|done|done].
      destruct op; [by rewrite <- (Htot Hop)|exact Hfin].
    + unfold finish_round. wp_step. rewrite Z.gtb_ltb, (proj2 (Z.ltb_lt _ _)) by lia.
      destruct (sdp_issue_up (run_api uninit depth) 0 op query all c' u (tr ++ [S_in rsp]) (Some (pg_next p)) Hc') as (c2 & Ei & Hc2 & Ha2 & Hf2 & Ht2).
      { by apply (fetching_same op query acc all c). }
      { unfold next_continuation. rewrite Z.gtb_ltb, (proj2 (Z.ltb_lt _ _)) by lia. cbn [opt_cont_bytes]. unfold cont_bytes. by rewrite Hkd, Hkl. }
      unfold wp. rewrite Ei. eexists _, _. split; [done|]. apply wp_ret. destruct Hsame as (_ & _ & _ & _ & Ep & En & _).
      rewrite En, Htid in *. rewrite <- app_assoc in *. by apply Hnext; [|lia|..].
Qed.

(** *** Exchanges *)

Lemma exchange_ok depth server fuel past w k : (forall pdu, bytes (server pdu)) -> (k < depth)%nat ->
  ok past k w -> wp (exchange depth server fuel) w (fun _ => ok past k).
Proof.
  intros Hs Hk. revert w. induction fuel as [|fuel IH]; intros w Hw; [by apply wp_ret|]. cbn [exchange].
  unfold wp. rewrite bind_gets. change (id w) with w.
  match goal with |- exists b w', ?m ?w = _ /\ ?Q => change (wp m w (fun _ => ok past k)) end.
  destruct (last (w_trace w)) as [[]|]; try by apply wp_ret. apply wp_bind.
  eapply wp_mono; [eapply sdp_api_ok; [done|done| |exact Hk|exact Hw]|intros ? w' Hw'; by apply IH].
  cbn. split; [|done]. destruct Hw as [([[] _ _ _] & _ & _) _]. done.
Qed.

Lemma exchange_step depth server fuel w pdu R : last (w_trace w) = Some (S_out pdu) ->
  wp (run_api uninit depth (ChannelEvent (sd_l2cap (w_self w)) (E_data (server pdu)))) w (fun _ w' => wp (exchange depth server fuel) w' R) ->
  wp (exchange depth server (S fuel)) w R.
Proof. intros Hl Hr. cbn [exchange]. unfold wp. rewrite bind_gets. change (id w) with w. rewrite Hl. by apply wp_bind. Qed.

Definition done_after (op : bt_sdp_client_op) (P : bt_sdp_client_completion -> Prop) tr tr' : Prop :=
  exists es comp, Forall is_transfer es /\ sc_op comp = op /\ P comp /\ (tr ++ es ++ [S_done comp]) `prefix_of` tr'.

Lemma done_now op (P : bt_sdp_client_completion -> Prop) tr rsp comp depth server fuel w : (forall pdu, bytes (server pdu)) ->
  P comp -> sc_op comp = op -> ok (tr ++ [S_in rsp; S_done comp]) depth w ->
  wp (exchange (S depth) server fuel) w (fun _ w' => done_after op P tr (w_trace w')).
Proof.
  intros Hs HP Ho Hw. eapply wp_mono; [apply (exchange_ok (S depth) server fuel _ _ depth Hs ltac:(lia) Hw)|].
  intros [] w' [(_ & _ & Hp) _]. exists [S_in rsp], comp. split; [by repeat constructor|]. split; [done|]. split; [done|exact Hp].
Qed.

Lemma whole_cons p pages : whole (p :: pages) = pg_chunk p ++ whole pages.
Proof. done. Qed.

Lemma pages_run depth op query server : (forall pdu, bytes (server pdu)) -> forall pages fuel acc c u tr cont,
  core c tr -> asked c tr -> fetching op query acc c ->
  last tr = Some (S_out (query_pdu op query (sd_pending_transaction_id c) cont)) ->
  serves_pages op query server (sd_pending_transaction_id c) cont pages -> (budget u <= depth)%nat -> (length pages <= fuel)%nat ->
  wp (exchange (S depth) server fuel) (at_ c u tr) (fun _ w' => done_after op (outcome_of op (acc ++ whole pages) pages) tr (w_trace w')).
Proof.
  intros Hs. induction pages as [|p pages IH]; intros fuel acc c u tr cont Hc Ha Hf Hlast Hserve Hu Hfuel; [done|].
  destruct fuel as [|fuel]; [cbn in Hfuel; lia|]. destruct Hserve as (Hp & Ersp & Hrest).
  eapply exchange_step; [exact Hlast|]. cbn [w_self]. rewrite Ersp, whole_cons, app_assoc. unfold outcome_of.
  apply (page_step depth op query p acc); [done..| | |].
  - intros Hbig comp w' Hr Ho Hw'. eapply done_now; [done| |done|exact Hw']. cbv beta.
    rewrite (proj2 (Z.ltb_lt _ _)); [done|]. rewrite (length_app (acc ++ _)). lia.
  - intros Hfit Hk c' q tr' Hc' Ha' Hf' Et. destruct pages as [|p' pages]; [lia|]. destruct Hrest as [_ Hrest]. rewrite <- Et in Hrest.
    eapply wp_mono; [apply (IH fuel (acc ++ pg_chunk p) c' u tr' (Some (pg_next p))); [done|done|done| |done|done|cbn in *; lia]|].
    + unfold tr', q. rewrite last_app. cbn. by rewrite Et.
    + intros [] w' (es & comp & Hes & Ho & Hcomp & Hpre). exists (S_in (page_response op (sd_pending_transaction_id c) p) :: S_out q :: es), comp.
      split; [by repeat constructor|]. split; [done|]. split; [exact Hcomp|].
      unfold tr' in Hpre. by rewrite <- app_assoc in Hpre.
  - intros Hfit Hk comp w' Hfin Ho Hw'. destruct pages as [|p' pages]; [|lia]. eapply done_now; [done| |done|exact Hw']. cbv beta.
    change (whole []) with (@nil Z). rewrite app_nil_r, (proj2 (Z.ltb_ge _ _)) by done. by exists p.
Qed.

(** *** Whole operations *)

(** The client is connected and at rest. *)
Definition rests w : Prop := up (sd_local_cid (w_self w)) (sd_l2cap (w_self w)) /\ sd_channel_ready (w_self w) = true /\ sd_busy (w_self w) = false.

Lemma operation_performed depth op query server pages fuel now c c2 u tr : core c tr -> sd_busy c = false -> up (sd_local_cid c2) (sd_l2cap c2) ->
  data_ok c2 -> sd_busy c2 = true -> sd_op c2 = op -> query_of c2 = query -> ct_len (sd_continuation c2) = 0 -> sd_result_len c2 = 0 ->
  (forall pdu, bytes (server pdu)) -> serves_pages op query server (sd_next_transaction_id c2) None pages ->
  (budget u <= depth)%nat -> (length pages <= fuel)%nat ->
  wp (do! (do! issue_request (run_api uninit depth) now in ret BT_OK) in exchange (S depth) server fuel)
    (at_ c2 u (tr ++ [S_start op])) (fun _ w' => performed op (outcome_of op (whole pages) pages) tr (w_trace w')).
Proof.
  intros Hc Hb Hl Hd2 Hb2 Hop Hq Hk Hz Hs Hserve Hu Hfuel. pose proof (core_started op c c2 tr Hc Hb Hd2 Hb2 Hop) as Hc2.
  assert (opt_cont_bytes (next_continuation c2) = opt_cont_bytes None) as Hnone by (unfold next_continuation; by rewrite Hk).
  destruct (sdp_issue_run (run_api uninit depth) now c2 u (tr ++ [S_start op]) Hd2) as (o & l & Es & _ & E).
  destruct (request_spec c2 Hd2) as (_ & _ & _ & Hzl). destruct (request_header c2 Hd2) as [Hby _].
  destruct (Hup (sd_local_cid c2) (sd_l2cap c2) (request_bytes c2)) as (l' & Es' & Hl' & Hok'); [done|by destruct Hd2|done|etrans; [exact Hzl|done]|].
  rewrite Es' in Es. injection Es as <- <-. rewrite bool_decide_true in E by done.
  destruct (issued_ok l' c2 (tr ++ [S_start op]) Hc2 Hok') as [Hc' Ha]. apply wp_bind, wp_bind. unfold wp at 1. rewrite E.
  eexists _, _. split; [done|]. apply wp_ret. rewrite request_query, Hop, Hq in *.
  eapply wp_mono; [apply (pages_run depth op query server Hs pages fuel [] (issued l' c2) u _ (next_continuation c2))|].
  - exact Hc'.
  - exact Ha.
  - by repeat split.
  - by rewrite last_app.
  - replace (next_continuation c2) with (@None bt_sdp_continuation); [exact Hserve|]. unfold next_continuation. by rewrite Hk.
  - done.
  - done.
  - intros [] w' (es & comp & Hes & Ho & Hcomp & Hp). eexists (S_out _ :: es), comp. split; [by constructor|]. split; [done|].
    split; [exact Hcomp|]. by rewrite <- !app_assoc in Hp.
Qed.

Lemma wp_bind_eq {A B} (m1 m2 : M W A) (k : A -> M W B) w1 w2 (Q : B -> W -> Prop) : m1 w1 = m2 w2 -> wp (bind m2 k) w2 Q -> wp (bind m1 k) w1 Q.
Proof. unfold wp, bind. by intros ->. Qed.

Lemma take_placed (a bs : list Z) : zlen bs <= zlen a -> take (Z.to_nat (zlen bs)) (splice a 0 bs) = bs.
Proof. intros Hl. pose proof (splice_take a 0 bs ltac:(lia) ltac:(lia)) as Hs. by rewrite Z.add_0_l in Hs. Qed.

Lemma search_performed depth pattern max_count cb ud now server pages fuel w : core (w_self w) (w_trace w) -> rests w ->
  bytes pattern -> zlen pattern <= BT_SDP_CLIENT_MAX_REQUEST_BODY -> (forall pdu, bytes (server pdu)) ->
  serves_pages BT_SDP_CLIENT_OP_SEARCH (pattern ++ be_enc 2 max_count) server (sd_next_transaction_id (w_self w)) None pages ->
  (budget (w_user w) <= depth)%nat -> (length pages <= fuel)%nat ->
  wp (do! run_api uninit (S depth) (Search pattern max_count cb ud now) in exchange (S depth) server fuel) w
    (fun _ w' => performed BT_SDP_CLIENT_OP_SEARCH (outcome_of BT_SDP_CLIENT_OP_SEARCH (whole pages) pages) (w_trace w) (w_trace w')).
Proof.
  destruct w as [c u tr]. intros Hc (Hl & Hr & Hb) Hp Hz Hs Hserve Hu Hf. cbn [w_self w_user w_trace] in *. pose proof (c_data _ _ Hc) as Hd.
  destruct (d_pattern _ Hd) as (Hpz & _). eapply wp_bind_eq; [exact (search_run (run_api uninit depth) pattern max_count cb ud now c u tr Hd Hr Hb Hz)|].
  apply (operation_performed depth _ (pattern ++ be_enc 2 max_count) server pages fuel now c); try done.
  - by apply searching_ok.
  - unfold query_of. cbn. f_equal. apply take_placed. lia.
Qed.
Lemma attributes_performed depth handle max_bytes ids cb ud now server pages fuel w : core (w_self w) (w_trace w) -> rests w ->
  bytes ids -> zlen ids <= BT_SDP_CLIENT_MAX_REQUEST_BODY -> (forall pdu, bytes (server pdu)) ->
  serves_pages BT_SDP_CLIENT_OP_ATTRIBUTE (be_enc 4 handle ++ be_enc 2 max_bytes ++ ids) server (sd_next_transaction_id (w_self w)) None pages ->
  (budget (w_user w) <= depth)%nat -> (length pages <= fuel)%nat ->
  wp (do! run_api uninit (S depth) (GetAttributes handle max_bytes ids cb ud now) in exchange (S depth) server fuel) w
    (fun _ w' => performed BT_SDP_CLIENT_OP_ATTRIBUTE (outcome_of BT_SDP_CLIENT_OP_ATTRIBUTE (whole pages) pages) (w_trace w) (w_trace w')).
Proof.
  destruct w as [c u tr]. intros Hc (Hl & Hr & Hb) Hp Hz Hs Hserve Hu Hf. cbn [w_self w_user w_trace] in *. pose proof (c_data _ _ Hc) as Hd.
  destruct (d_ids _ Hd) as (Hpz & _).
  eapply wp_bind_eq; [exact (attributes_run (run_api uninit depth) handle max_bytes ids cb ud now c u tr Hd Hr Hb Hz)|].
  apply (operation_performed depth _ (be_enc 4 handle ++ be_enc 2 max_bytes ++ ids) server pages fuel now c); try done.
  - by apply requesting_ok.
  - unfold query_of. cbn -[be_enc]. do 2 f_equal. apply take_placed. lia.
Qed.

Lemma run_reaches_rest calls l u depth w : dl_ok l -> Forall call_ok calls -> (budget u < S depth)%nat ->
  run_apis uninit (S depth) calls (fresh l u) = (Ret tt, w) -> core (w_self w) (w_trace w) /\ (budget (w_user w) <= depth)%nat.
Proof.
  intros Hl Hcalls Hd Erun.
  destruct (sdp_apis_ok budget uninit Huninit Huser (S depth) [] calls (fresh l u) (budget u) Hcalls Hd) as ([] & w0 & E & [(Hc & _ & _) Hb]).
  { split; [|done]. by apply sdp_init_ok. }
  rewrite E in Erun. injection Erun as ->. split; [done|lia].
Qed.

End Link.
End Procedures.

(** ** Property *)

(** C25.  A result that is sent in parts arrives whole.  When the client is
    connected and at rest after any run of calls, on channels that accept what
    is sent, a search or an attribute request of a server that serves its
    result in parts, however it cuts it, ends: one exchange per part is enough,
    nothing but requests and responses happens in between, and the completion
    hands out the handles with the server's count, or the elements of the
    attribute list, or reports that they are more than the buffer holds. *)
Theorem sdp_result_arrives : forall {CB UD L U} `{SdpUser CB UD L U} `{DynamicChannels L} (budget : U -> nat) uninit
    (up : Z -> L -> Prop) calls l u depth w server pages fuel cb ud now,
  cont_ok (ss_continuation uninit) -> user_ok budget -> dl_ok l -> Forall call_ok calls -> (budget u < S depth)%nat ->
  run_apis uninit (S depth) calls (fresh l u) = (Ret tt, w) -> stays_up up -> rests up w ->
  (forall pdu, bytes (server pdu)) -> (length pages <= fuel)%nat ->
  let tid := sd_next_transaction_id (w_self w) in
  let performs op a := exists w', (do! run_api uninit (S depth) a in exchange uninit (S depth) server fuel) w = (Ret tt, w') /\
    performed op (outcome_of op (whole pages) pages) (w_trace w) (w_trace w') in
  (forall pattern max_count, bytes pattern -> zlen pattern <= BT_SDP_CLIENT_MAX_REQUEST_BODY ->
     serves_pages BT_SDP_CLIENT_OP_SEARCH (pattern ++ be_enc 2 max_count) server tid None pages ->
     performs BT_SDP_CLIENT_OP_SEARCH (Search pattern max_count cb ud now)) /\
  (forall handle max_bytes ids, bytes ids -> zlen ids <= BT_SDP_CLIENT_MAX_REQUEST_BODY ->
     serves_pages BT_SDP_CLIENT_OP_ATTRIBUTE (be_enc 4 handle ++ be_enc 2 max_bytes ++ ids) server tid None pages ->
     performs BT_SDP_CLIENT_OP_ATTRIBUTE (GetAttributes handle max_bytes ids cb ud now)).
Proof.
  intros CB UD L U HG HF budget uninit up calls l u depth w server pages fuel cb ud now Hun Huser Hl Hcalls Hd Erun Hup Hrest Hs Hf tid performs.
  destruct (run_reaches_rest budget uninit Hun Huser calls l u depth w) as [Hc Hb]; [done..|]. split.
  - intros pattern max_count Hp Hz Hserve.
    by destruct (search_performed budget uninit up Hup Hun Huser depth pattern max_count cb ud now server pages fuel w) as ([] & w' & E & Hr); [done..|exists w'].
  - intros handle max_bytes ids Hp Hz Hserve.
    by destruct (attributes_performed budget uninit up Hup Hun Huser depth handle max_bytes ids cb ud now server pages fuel w) as ([] & w' & E & Hr); [done..|exists w'].
Qed.

(** ** Witness *)

#[local] Existing Instances toy_dynamic still.

(** The handles of three records, in two parts. *)
Definition two_pages : list page :=
  [{| pg_total := 3; pg_chunk := [0; 1; 0; 0; 0; 1; 0; 1]; pg_next := {| ct_len := 2; ct_data := [9; 8] ++ replicate 14 0 |} |};
   {| pg_total := 3; pg_chunk := [0; 1; 0; 2]; pg_next := {| ct_len := 0; ct_data := replicate 16 0 |} |}].
(** An attribute list, [{256: 1}], in two parts. *)
Definition two_halves : list page :=
  [{| pg_total := 0; pg_chunk := [53; 5; 9; 1]; pg_next := {| ct_len := 1; ct_data := [7] ++ replicate 15 0 |} |};
   {| pg_total := 0; pg_chunk := [0; 8; 1]; pg_next := {| ct_len := 0; ct_data := replicate 16 0 |} |}].

Definition two_part_server (op : bt_sdp_client_op) (pages : list page) (pdu : list Z) : list Z :=
  let tid := match pdu with _ :: _ :: tid :: _ => tid | _ => 0 end in
  match pages !! (Z.to_nat tid - 1)%nat with Some p => page_response op tid p | None => [] end.

Definition connecting : list (api unit unit toy_line) := [Connect (Some tt) None 1; ChannelEvent (1, []) E_opened].
Abbreviation connected := (run_apis toy_uninit 1 connecting (fresh (0, []) 0%nat)).2.

Lemma two_part_server_bytes op pages : Forall (page_ok op) pages -> forall pdu, bytes (two_part_server op pages pdu).
Proof.
  intros Hp pdu. unfold two_part_server. destruct (pages !! _) as [p|] eqn:E; [|done].
  eapply Forall_lookup in Hp as (_ & Hb & Hz & Hc & _); [|exact E]. apply cont_bytes_bytes in Hc.
  unfold page_response, pdu_bytes. destruct op; cbn [request_id]; bys; done.
Qed.

Lemma two_pages_ok : Forall (page_ok BT_SDP_CLIENT_OP_SEARCH) two_pages /\ Forall (page_ok BT_SDP_CLIENT_OP_ATTRIBUTE) two_halves.
Proof.
  unfold two_pages, two_halves. repeat first [split | constructor]; try (vm_compute; done); concrete_bytes.
Qed.

Lemma toy_stays_up : stays_up (L := toy_line) (fun _ _ => True).
Proof. intros cid l data _ _ _ _. eexists. done. Qed.

Lemma sdp_result_arrives_witness : exists w w1 w2, run_apis toy_uninit 1 connecting (fresh (0, []) 0%nat) = (Ret tt, w) /\
  (do! run_api toy_uninit 1 (Search toy_pattern 8 (Some tt) None 2) in
     exchange toy_uninit 1 (two_part_server BT_SDP_CLIENT_OP_SEARCH two_pages) 2) w = (Ret tt, w1) /\
  performed BT_SDP_CLIENT_OP_SEARCH (outcome_of BT_SDP_CLIENT_OP_SEARCH (whole two_pages) two_pages) (w_trace w) (w_trace w1) /\
  (do! run_api toy_uninit 1 (GetAttributes 65536 512 [53; 3; 9; 1; 0] (Some tt) None 2) in
     exchange toy_uninit 1 (two_part_server BT_SDP_CLIENT_OP_ATTRIBUTE two_halves) 2) w = (Ret tt, w2) /\
  performed BT_SDP_CLIENT_OP_ATTRIBUTE (outcome_of BT_SDP_CLIENT_OP_ATTRIBUTE (whole two_halves) two_halves) (w_trace w) (w_trace w2) /\
  whole two_halves = enc_tree (TSeq [TUint 2 256; TUint 1 1]).
Proof.
  assert (Forall call_ok connecting) as Hcalls by (repeat constructor; cbn; lia).
  assert (run_apis toy_uninit 1 connecting (fresh (0, []) 0%nat) = (Ret tt, connected)) as E by (vm_compute; reflexivity).
  destruct two_pages_ok as [Hp1 Hp2]. pose proof (two_part_server_bytes _ _ Hp1) as Hs1. pose proof (two_part_server_bytes _ _ Hp2) as Hs2.
  assert (rests (L := toy_line) (fun _ _ => True) connected) as Hrest by (vm_compute; done).
  assert (cont_ok (ss_continuation toy_uninit)) as Hun by (split; [cbn; lia|split; [concrete_bytes|done]]).
  assert (user_ok (CB := unit) (UD := unit) (L := toy_line) (fun u : nat => u)) as Huser by (constructor; by intros).
  destruct (sdp_result_arrives (fun u : nat => u) toy_uninit (fun _ _ => True) connecting (0, []) 0%nat 0%nat connected
    (two_part_server BT_SDP_CLIENT_OP_SEARCH two_pages) two_pages 2 (Some tt) None 2) as [Hsearch _];
    [done|done|done|done|lia|exact E|exact toy_stays_up|exact Hrest|exact Hs1|done|].
  destruct (sdp_result_arrives (fun u : nat => u) toy_uninit (fun _ _ => True) connecting (0, []) 0%nat 0%nat connected
    (two_part_server BT_SDP_CLIENT_OP_ATTRIBUTE two_halves) two_halves 2 (Some tt) None 2) as [_ Hattr];
    [done|done|done|done|lia|exact E|exact toy_stays_up|exact Hrest|exact Hs2|done|].
  destruct (Hsearch toy_pattern 8) as (w1 & E1 & P1); [concrete_bytes|done| |].
  { apply Forall_cons in Hp1 as [? [? _]%Forall_cons]. split; [done|]. split; [vm_compute; reflexivity|]. split; [done|]. split; [done|].
    split; vm_compute; reflexivity. }
  destruct (Hattr 65536 512 [53; 3; 9; 1; 0]) as (w2 & E2 & P2); [concrete_bytes|done| |].
  { apply Forall_cons in Hp2 as [? [? _]%Forall_cons]. split; [done|]. split; [vm_compute; reflexivity|]. split; [done|]. split; [done|].
    split; vm_compute; reflexivity. }
  exists connected, w1, w2. repeat (split; [assumption|]). vm_compute. reflexivity.
Defined.

End SdpProcedures.
