(* ===== verification/Hogp.v ===== *)
(** * HID over GATT client: profiles/hogp/hogp_client.c

    The client finds the HID service of a device, reads what its reports look
    like, subscribes to the input reports and turns their notifications into
    values and input events; it writes output reports and switches to the boot
    protocol.

    The GATT client is the state [G] of an interface, [GattLayer]: a request is
    accepted or refused, and one that is accepted may end at once, in a failure,
    which is then the last thing the call does.  What the GATT client does by
    itself are the steps of [hogp_input].  The user's completion, value and event
    callbacks are programs that may call the client again ([HogpUser]).
    [input.descriptor] points to a descriptor of the same client: [aimed] reads
    it where it is used.  Local arrays are zero where they are not yet written;
    [retained] is what the stack holds in [bt_hid_input_process]. *)

From Stdlib Require Import ZArith Lia.
From stdpp Require Import base list list_numbers gmap.
From S2P Require Import Prelude HidReport HidInput Callbacks GattClient.

Module Hogp.
Import HidReport HidInput GattClient Callbacks.

(** ** Data: include/bluetooth/hogp_client.h *)

Definition BT_HOGP_UUID_SERVICE : Z := 6162.
Definition BT_HOGP_UUID_REPORT_MAP : Z := 10827.
Definition BT_HOGP_UUID_REPORT : Z := 10829.
Definition BT_HOGP_UUID_PROTOCOL_MODE : Z := 10830.
Definition BT_HOGP_UUID_BOOT_KEYBOARD_INPUT : Z := 10786.
Definition BT_HOGP_UUID_BOOT_KEYBOARD_OUTPUT : Z := 10802.
Definition BT_HOGP_UUID_BOOT_MOUSE_INPUT : Z := 10803.
Definition BT_HOGP_UUID_CCCD : Z := 10498.
Definition BT_HOGP_UUID_REPORT_REFERENCE : Z := 10504.
Definition BT_HOGP_REPORT_TYPE_INPUT : Z := 1.
Definition BT_HOGP_REPORT_TYPE_FEATURE : Z := 3.
Definition BT_HOGP_PROTOCOL_MODE_BOOT : Z := 0.
Definition BT_HOGP_PROTOCOL_MODE_REPORT : Z := 1.
Definition BT_HOGP_MAX_REPORTS : Z := 8.

Inductive bt_hogp_client_result : Set :=
| BT_HOGP_CLIENT_OK
| BT_HOGP_CLIENT_ERROR_GATT
| BT_HOGP_CLIENT_ERROR_NOT_FOUND
| BT_HOGP_CLIENT_ERROR_PROTOCOL
| BT_HOGP_CLIENT_ERROR_TOO_LARGE.

Record bt_hogp_report : Type := {
  rp_value_handle : Z;
  rp_cccd_handle : Z;
  rp_reference_handle : Z;
  rp_report_id : Z;
  rp_report_type : Z;
}.

(** The callbacks the client hands to the GATT client, and its requests. *)
Inductive gatt_callback : Set :=
| on_services_cb
| on_characteristics_cb
| on_descriptors_cb
| on_report_map_cb
| on_report_reference_cb
| on_cccd_write_cb
| on_report_write_cb
| on_protocol_mode_write_cb
| on_boot_cccd_write_cb.

#[global] Instance gatt_callback_eq_dec : EqDecision gatt_callback.
Proof. solve_decision. Defined.

Inductive gatt_request : Type :=
| G_discover_services
| G_discover_characteristics (start_handle end_handle : Z)
| G_discover_descriptors (start_handle end_handle : Z)
| G_read (handle : Z)
| G_write (handle : Z) (value : list Z).

Section Types.
  Context {CB UD G : Type}.

Record bt_hogp_client : Type := {
  ho_gatt : G;
  ho_service : bt_gatt_service;
  ho_characteristics : list bt_gatt_characteristic;
  ho_characteristic_count : Z;
  ho_descriptors : list bt_gatt_descriptor;
  ho_descriptor_count : Z;
  ho_reports : list bt_hogp_report;
  ho_report_count : Z;
  ho_pending_index : Z;
  ho_report_map_handle : Z;
  ho_protocol_mode_handle : Z;
  ho_boot_keyboard_input_handle : Z;
  ho_boot_keyboard_input_cccd : Z;
  ho_boot_keyboard_output_handle : Z;
  ho_boot_mouse_input_handle : Z;
  ho_boot_mouse_input_cccd : Z;
  ho_report_descriptor : bt_hid_report_descriptor;
  ho_input : bt_hid_input;
  ho_boot_keyboard_descriptor : bt_hid_report_descriptor;
  ho_boot_keyboard_input : bt_hid_input;
  ho_boot_mouse_descriptor : bt_hid_report_descriptor;
  ho_boot_mouse_input : bt_hid_input;
  ho_on_complete : option CB;
  ho_on_write_complete : option CB;
  ho_on_mode_complete : option CB;
  ho_on_input : option CB;
  ho_on_event : option CB;
  ho_event_user_data : option UD;
  ho_user_data : option UD;
  ho_write_user_data : option UD;
  ho_mode_user_data : option UD;
  ho_now_us : Z;
  ho_pending_mode : Z;
  ho_boot_subscribe_step : Z;
}.

Definition hogp_eta (c : bt_hogp_client) : bt_hogp_client :=
  {| ho_gatt := ho_gatt c; ho_service := ho_service c; ho_characteristics := ho_characteristics c;
     ho_characteristic_count := ho_characteristic_count c; ho_descriptors := ho_descriptors c;
     ho_descriptor_count := ho_descriptor_count c; ho_reports := ho_reports c; ho_report_count := ho_report_count c;
     ho_pending_index := ho_pending_index c; ho_report_map_handle := ho_report_map_handle c;
     ho_protocol_mode_handle := ho_protocol_mode_handle c; ho_boot_keyboard_input_handle := ho_boot_keyboard_input_handle c;
     ho_boot_keyboard_input_cccd := ho_boot_keyboard_input_cccd c;
     ho_boot_keyboard_output_handle := ho_boot_keyboard_output_handle c;
     ho_boot_mouse_input_handle := ho_boot_mouse_input_handle c; ho_boot_mouse_input_cccd := ho_boot_mouse_input_cccd c;
     ho_report_descriptor := ho_report_descriptor c; ho_input := ho_input c;
     ho_boot_keyboard_descriptor := ho_boot_keyboard_descriptor c; ho_boot_keyboard_input := ho_boot_keyboard_input c;
     ho_boot_mouse_descriptor := ho_boot_mouse_descriptor c; ho_boot_mouse_input := ho_boot_mouse_input c;
     ho_on_complete := ho_on_complete c; ho_on_write_complete := ho_on_write_complete c;
     ho_on_mode_complete := ho_on_mode_complete c; ho_on_input := ho_on_input c; ho_on_event := ho_on_event c;
     ho_event_user_data := ho_event_user_data c; ho_user_data := ho_user_data c; ho_write_user_data := ho_write_user_data c;
     ho_mode_user_data := ho_mode_user_data c; ho_now_us := ho_now_us c; ho_pending_mode := ho_pending_mode c;
     ho_boot_subscribe_step := ho_boot_subscribe_step c |}.

Definition set_gatt (v : G) (c : bt_hogp_client) : bt_hogp_client := ltac:(put_field hogp_eta ho_gatt v c).
Definition set_service (v : bt_gatt_service) (c : bt_hogp_client) : bt_hogp_client := ltac:(put_field hogp_eta ho_service v c).
Definition set_characteristics (v : list bt_gatt_characteristic) (c : bt_hogp_client) : bt_hogp_client := ltac:(put_field hogp_eta ho_characteristics v c).
Definition set_characteristic_count (v : Z) (c : bt_hogp_client) : bt_hogp_client := ltac:(put_field hogp_eta ho_characteristic_count v c).
Definition set_descriptors (v : list bt_gatt_descriptor) (c : bt_hogp_client) : bt_hogp_client := ltac:(put_field hogp_eta ho_descriptors v c).
Definition set_descriptor_count (v : Z) (c : bt_hogp_client) : bt_hogp_client := ltac:(put_field hogp_eta ho_descriptor_count v c).
Definition set_reports (v : list bt_hogp_report) (c : bt_hogp_client) : bt_hogp_client := ltac:(put_field hogp_eta ho_reports v c).
Definition set_report_count (v : Z) (c : bt_hogp_client) : bt_hogp_client := ltac:(put_field hogp_eta ho_report_count v c).
Definition set_pending_index (v : Z) (c : bt_hogp_client) : bt_hogp_client := ltac:(put_field hogp_eta ho_pending_index v c).
Definition set_report_map_handle (v : Z) (c : bt_hogp_client) : bt_hogp_client := ltac:(put_field hogp_eta ho_report_map_handle v c).
Definition set_protocol_mode_handle (v : Z) (c : bt_hogp_client) : bt_hogp_client := ltac:(put_field hogp_eta ho_protocol_mode_handle v c).
Definition set_boot_keyboard_input_handle (v : Z) (c : bt_hogp_client) : bt_hogp_client := ltac:(put_field hogp_eta ho_boot_keyboard_input_handle v c).
Definition set_boot_keyboard_input_cccd (v : Z) (c : bt_hogp_client) : bt_hogp_client := ltac:(put_field hogp_eta ho_boot_keyboard_input_cccd v c).
Definition set_boot_keyboard_output_handle (v : Z) (c : bt_hogp_client) : bt_hogp_client := ltac:(put_field hogp_eta ho_boot_keyboard_output_handle v c).
Definition set_boot_mouse_input_handle (v : Z) (c : bt_hogp_client) : bt_hogp_client := ltac:(put_field hogp_eta ho_boot_mouse_input_handle v c).
Definition set_boot_mouse_input_cccd (v : Z) (c : bt_hogp_client) : bt_hogp_client := ltac:(put_field hogp_eta ho_boot_mouse_input_cccd v c).
Definition set_report_descriptor (v : bt_hid_report_descriptor) (c : bt_hogp_client) : bt_hogp_client := ltac:(put_field hogp_eta ho_report_descriptor v c).
Definition set_input (v : bt_hid_input) (c : bt_hogp_client) : bt_hogp_client := ltac:(put_field hogp_eta ho_input v c).
Definition set_boot_keyboard_input (v : bt_hid_input) (c : bt_hogp_client) : bt_hogp_client := ltac:(put_field hogp_eta ho_boot_keyboard_input v c).
Definition set_boot_mouse_input (v : bt_hid_input) (c : bt_hogp_client) : bt_hogp_client := ltac:(put_field hogp_eta ho_boot_mouse_input v c).
Definition set_on_complete (v : option CB) (c : bt_hogp_client) : bt_hogp_client := ltac:(put_field hogp_eta ho_on_complete v c).
Definition set_on_write_complete (v : option CB) (c : bt_hogp_client) : bt_hogp_client := ltac:(put_field hogp_eta ho_on_write_complete v c).
Definition set_on_mode_complete (v : option CB) (c : bt_hogp_client) : bt_hogp_client := ltac:(put_field hogp_eta ho_on_mode_complete v c).
Definition set_on_input (v : option CB) (c : bt_hogp_client) : bt_hogp_client := ltac:(put_field hogp_eta ho_on_input v c).
Definition set_on_event (v : option CB) (c : bt_hogp_client) : bt_hogp_client := ltac:(put_field hogp_eta ho_on_event v c).
Definition set_event_user_data (v : option UD) (c : bt_hogp_client) : bt_hogp_client := ltac:(put_field hogp_eta ho_event_user_data v c).
Definition set_user_data (v : option UD) (c : bt_hogp_client) : bt_hogp_client := ltac:(put_field hogp_eta ho_user_data v c).
Definition set_write_user_data (v : option UD) (c : bt_hogp_client) : bt_hogp_client := ltac:(put_field hogp_eta ho_write_user_data v c).
Definition set_mode_user_data (v : option UD) (c : bt_hogp_client) : bt_hogp_client := ltac:(put_field hogp_eta ho_mode_user_data v c).
Definition set_now_us (v : Z) (c : bt_hogp_client) : bt_hogp_client := ltac:(put_field hogp_eta ho_now_us v c).
Definition set_pending_mode (v : Z) (c : bt_hogp_client) : bt_hogp_client := ltac:(put_field hogp_eta ho_pending_mode v c).
Definition set_boot_subscribe_step (v : Z) (c : bt_hogp_client) : bt_hogp_client := ltac:(put_field hogp_eta ho_boot_subscribe_step v c).

(** The calls of the client.  [value] is NULL or the [value_len] bytes it
    points to. *)
Inductive api : Type :=
| SetEventHandler (on_event : option CB) (user_data : option UD)
| Discover (on_complete on_input : option CB) (user_data : option UD) (now_us : Z)
| WriteReport (report_id report_type : Z) (value : option (list Z)) (on_complete : option CB) (user_data : option UD) (now_us : Z)
| SetProtocolMode (mode : Z) (on_complete : option CB) (user_data : option UD) (now_us : Z)
| WriteBootKeyboardOutput (leds : Z) (on_complete : option CB) (user_data : option UD) (now_us : Z).

(** What the GATT client does by itself, whose state is then [g]: it completes
    the request under way, hands over a notification, or does something else. *)
Inductive hogp_input : Type :=
| GattCompletes (g : G) (callback : gatt_callback) (completion : bt_gatt_client_completion)
| GattNotifies (g : G) (handle : Z) (value : option (list Z))
| GattChanges (g : G).

End Types.
Arguments bt_hogp_client : clear implicits.
Arguments api : clear implicits.
Arguments hogp_input : clear implicits.

(** ** What the client asks of its user and of the GATT client *)

(** A value or event callback returns whether to go on. *)
Class HogpUser (CB UD U : Type) : Type := {
  complete_fn : CB -> bt_hogp_client_result -> option UD -> prog U (api CB UD) bt_status unit;
  input_fn : CB -> bt_hid_value -> option UD -> prog U (api CB UD) bt_status bool;
  event_fn : CB -> bt_hid_input_event -> option UD -> prog U (api CB UD) bt_status bool;
}.

Definition request_ok (r : gatt_request) : Prop :=
  match r with
  | G_discover_services => True
  | G_discover_characteristics s e | G_discover_descriptors s e => is_u16 s /\ is_u16 e
  | G_read h => is_u16 h
  | G_write h v => is_u16 h /\ bytes v
  end.

(** [gt_start r callback now_us] is the call of the GATT client for [r]; it
    tells whether it called [callback], with a failure, as its last action.
    [gt_waiting]: the callback of the request under way. *)
Class GattLayer (G : Type) : Type := {
  gt_start : gatt_request -> gatt_callback -> Z -> M G bool;
  gt_set_notify_handler : G -> G;
  gt_channel_ready : G -> bool;
  gt_busy : G -> bool;
  gt_event_now_us : G -> Z;
  gt_waiting : G -> option gatt_callback;
  gt_ok : G -> Prop;
  gt_timely : Z -> Prop;
  gt_start_ok : forall r cb now g, gt_ok g -> request_ok r -> gt_timely now ->
    exists o g', gt_start r cb now g = (o, g') /\ gt_ok g' /\
    match o with
    | Ret fired => gt_waiting g = None /\ gt_waiting g' = if (fired : bool) then None else Some cb
    | Fail e => e <> BT_OK /\ gt_waiting g' = gt_waiting g
    | Fault => False
    end;
  gt_notify_ok : forall g, gt_ok g -> gt_ok (gt_set_notify_handler g) /\ gt_waiting (gt_set_notify_handler g) = gt_waiting g;
  gt_event_timely : forall g, gt_ok g -> gt_timely (gt_event_now_us g);
  gt_zero_timely : gt_timely 0;
}.

(** The three operations of the client. *)
Inductive hogp_op : Set := Op_discover | Op_write | Op_mode.

#[global] Instance hogp_op_eq_dec : EqDecision hogp_op.
Proof. solve_decision. Defined.

(** The history: the requests that the GATT client accepted, and what the
    client told its user. *)
Inductive hogp_event : Type :=
| H_ask (callback : gatt_callback) (request : gatt_request)
| H_done (op : hogp_op) (result : bt_hogp_client_result).

(** What fits the request under way; anything else cannot happen, and is
    skipped. *)
Definition possible {G} `{GattLayer G} (waiting : option gatt_callback) (e : hogp_input G) : Prop :=
  match e with
  | GattCompletes g callback _ => waiting = Some callback /\ gt_waiting g = None
  | GattNotifies g _ _ | GattChanges g => gt_waiting g = waiting
  end.
#[global] Instance possible_dec {G} `{GattLayer G} waiting (e : hogp_input G) : Decision (possible waiting e).
Proof. destruct e; unfold possible; apply _. Defined.

(** ** The machine *)

Definition boot_keyboard_map : list Z :=
  [5; 1; 9; 6; 161; 1; 5; 7; 25; 224; 41; 231; 21; 0; 37; 1; 117; 1; 149; 8; 129; 2; 117; 8; 149; 1; 129; 1; 25; 0; 41; 101;
   21; 0; 37; 101; 117; 8; 149; 6; 129; 0; 192].

Definition boot_mouse_map : list Z :=
  [5; 1; 9; 2; 161; 1; 5; 9; 25; 1; 41; 3; 21; 0; 37; 1; 117; 1; 149; 3; 129; 2; 117; 5; 149; 1; 129; 1; 5; 1; 9; 48; 9; 49;
   21; 129; 37; 127; 117; 8; 149; 2; 129; 6; 192].

(** [{1, 0}], as [notify_enabled] and [enabled] are. *)
Definition notify_enabled : list Z := [1; 0].

Section Machine.
  Context {CB UD G U : Type} `{HogpUser CB UD U} `{GattLayer G}.
  Context (retained : list bt_hid_input_array_usage).
Abbreviation client := (bt_hogp_client CB UD G).
Abbreviation W := (world client U hogp_event).

Definition gatt_ok (completion : bt_gatt_client_completion) : bool := bool_decide (cp_result completion = BT_GATT_CLIENT_OK).

Definition characteristic_end (c : client) (index : Z) : outcome Z :=
  if index + 1 <? ho_characteristic_count c then
    let? next := ld (ho_characteristics c) (index + 1) in Ret (u16 (cc_declaration_handle next - 1))
  else Ret (sv_end_handle (ho_service c)).

Fixpoint find_descriptor_loop (descriptors : list bt_gatt_descriptor) (start end_ uuid16 i : Z) (n : nat) : outcome Z :=
  match n with
  | O => Ret 0
  | S n =>
      let? d := ld descriptors i in
      if (ds_handle d >? start) && (ds_handle d <=? end_) && (ds_uuid16 d =? uuid16) then Ret (ds_handle d)
      else find_descriptor_loop descriptors start end_ uuid16 (i + 1) n
  end.

Definition find_descriptor (c : client) (characteristic_index uuid16 : Z) : outcome Z :=
  let? x := ld (ho_characteristics c) characteristic_index in
  let? end_ := characteristic_end c characteristic_index in
  find_descriptor_loop (ho_descriptors c) (cc_value_handle x) end_ uuid16 0 (Z.to_nat (ho_descriptor_count c)).

Definition set_cccd_handle (h : Z) (r : bt_hogp_report) : bt_hogp_report :=
  {| rp_value_handle := rp_value_handle r; rp_cccd_handle := h; rp_reference_handle := rp_reference_handle r;
     rp_report_id := rp_report_id r; rp_report_type := rp_report_type r |}.
Definition set_reference_handle (h : Z) (r : bt_hogp_report) : bt_hogp_report :=
  {| rp_value_handle := rp_value_handle r; rp_cccd_handle := rp_cccd_handle r; rp_reference_handle := h;
     rp_report_id := rp_report_id r; rp_report_type := rp_report_type r |}.
Definition set_report_reference (id type : Z) (r : bt_hogp_report) : bt_hogp_report :=
  {| rp_value_handle := rp_value_handle r; rp_cccd_handle := rp_cccd_handle r; rp_reference_handle := rp_reference_handle r;
     rp_report_id := id; rp_report_type := type |}.

(** The inner [for] of [build_report_list], on a copy of [*report]. *)
Fixpoint attach_descriptors (descriptors : list bt_gatt_descriptor) (end_ j : Z) (n : nat) (report : bt_hogp_report)
    : outcome bt_hogp_report :=
  match n with
  | O => Ret report
  | S n =>
      let? d := ld descriptors j in
      attach_descriptors descriptors end_ (j + 1) n
        (if (ds_handle d <=? rp_value_handle report) || (ds_handle d >? end_) then report
         else if ds_uuid16 d =? BT_HOGP_UUID_CCCD then set_cccd_handle (ds_handle d) report
         else if ds_uuid16 d =? BT_HOGP_UUID_REPORT_REFERENCE then set_reference_handle (ds_handle d) report
         else report)
  end.

Fixpoint build_reports (i : Z) (n : nat) (c : client) : outcome client :=
  match n with
  | O => Ret c
  | S n =>
      let? x := ld (ho_characteristics c) i in
      if negb (cc_uuid16 x =? BT_HOGP_UUID_REPORT) || (ho_report_count c =? BT_HOGP_MAX_REPORTS) then build_reports (i + 1) n c else
      let? end_ := characteristic_end c i in
      let? report := attach_descriptors (ho_descriptors c) end_ 0 (Z.to_nat (ho_descriptor_count c))
        {| rp_value_handle := cc_value_handle x; rp_cccd_handle := 0; rp_reference_handle := 0; rp_report_id := 0; rp_report_type := 0 |} in
      let? reports := st1 (ho_reports c) (ho_report_count c) report in
      build_reports (i + 1) n (set_report_count (ho_report_count c + 1) (set_reports reports c))
  end.

Definition build_report_list (c : client) : outcome client :=
  build_reports 0 (Z.to_nat (ho_characteristic_count c)) (set_report_count 0 c).

(** The body of the [for] of [on_characteristics]. *)
Definition note_characteristic (x : bt_gatt_characteristic) (c : client) : client :=
  if cc_uuid16 x =? BT_HOGP_UUID_REPORT_MAP then set_report_map_handle (cc_value_handle x) c
  else if cc_uuid16 x =? BT_HOGP_UUID_PROTOCOL_MODE then set_protocol_mode_handle (cc_value_handle x) c
  else if cc_uuid16 x =? BT_HOGP_UUID_BOOT_KEYBOARD_INPUT then set_boot_keyboard_input_handle (cc_value_handle x) c
  else if cc_uuid16 x =? BT_HOGP_UUID_BOOT_KEYBOARD_OUTPUT then set_boot_keyboard_output_handle (cc_value_handle x) c
  else if cc_uuid16 x =? BT_HOGP_UUID_BOOT_MOUSE_INPUT then set_boot_mouse_input_handle (cc_value_handle x) c
  else c.

Fixpoint note_characteristics (i : Z) (n : nat) (c : client) : outcome client :=
  match n with
  | O => Ret c
  | S n => let? x := ld (ho_characteristics c) i in note_characteristics (i + 1) n (note_characteristic x c)
  end.

(** The [for] of [on_descriptors]. *)
Fixpoint note_boot_cccds (i : Z) (n : nat) (c : client) : outcome client :=
  match n with
  | O => Ret c
  | S n =>
      let? x := ld (ho_characteristics c) i in
      let? c := (if cc_uuid16 x =? BT_HOGP_UUID_BOOT_KEYBOARD_INPUT then
                   let? h := find_descriptor c i BT_HOGP_UUID_CCCD in Ret (set_boot_keyboard_input_cccd h c)
                 else if cc_uuid16 x =? BT_HOGP_UUID_BOOT_MOUSE_INPUT then
                   let? h := find_descriptor c i BT_HOGP_UUID_CCCD in Ret (set_boot_mouse_input_cccd h c)
                 else Ret c) in
      note_boot_cccds (i + 1) n c
  end.

Fixpoint find_service (services : list bt_gatt_service) (i : Z) (n : nat) : outcome (option bt_gatt_service) :=
  match n with
  | O => Ret None
  | S n =>
      let? s := ld services i in
      if sv_uuid16 s =? BT_HOGP_UUID_SERVICE then Ret (Some s) else find_service services (i + 1) n
  end.

(** The first [while] of [read_next_reference]. *)
Fixpoint skip_reports (reports : list bt_hogp_report) (count i : Z) (n : nat) : outcome Z :=
  match n with
  | O => Fault
  | S n =>
      if i <? count then
        let? r := ld reports i in if rp_reference_handle r =? 0 then skip_reports reports count (i + 1) n else Ret i
      else Ret i
  end.

(** An assignment computed from the fields. *)
Definition update (f : client -> outcome client) : M W unit :=
  let! c := get id in
  let! c' := lift (f c) in
  set (fun _ => c').

Section Open.
  Context (call : api CB UD -> M W bt_status).

Definition finish (result : bt_hogp_client_result) : M W unit :=
  let! callback := get ho_on_complete in
  do! set (set_on_complete None) in
  match callback with
  | Some callback =>
      let! ud := get ho_user_data in
      do! emit (H_done Op_discover result) in
      run_prog call (complete_fn callback result ud)
  | None => ret tt
  end.

(** [on_report_write], after [result]. *)
Definition complete_write (result : bt_hogp_client_result) : M W unit :=
  let! callback := get ho_on_write_complete in
  let! callback_data := get ho_write_user_data in
  do! set (set_on_write_complete None) in
  do! set (set_write_user_data None) in
  match callback with
  | Some callback => do! emit (H_done Op_write result) in run_prog call (complete_fn callback result callback_data)
  | None => ret tt
  end.

Definition complete_mode (result : bt_hogp_client_result) : M W unit :=
  let! callback := get ho_on_mode_complete in
  let! callback_data := get ho_mode_user_data in
  do! set (set_on_mode_complete None) in
  do! set (set_mode_user_data None) in
  match callback with
  | Some callback => do! emit (H_done Op_mode result) in run_prog call (complete_fn callback result callback_data)
  | None => ret tt
  end.

(** What each callback does with a failure. *)
Definition on_failure (callback : gatt_callback) : M W unit :=
  match callback with
  | on_services_cb | on_characteristics_cb | on_descriptors_cb | on_cccd_write_cb => finish BT_HOGP_CLIENT_ERROR_GATT
  | on_report_map_cb | on_report_reference_cb => finish BT_HOGP_CLIENT_ERROR_PROTOCOL
  | on_report_write_cb => complete_write BT_HOGP_CLIENT_ERROR_GATT
  | on_protocol_mode_write_cb | on_boot_cccd_write_cb => complete_mode BT_HOGP_CLIENT_ERROR_GATT
  end.

(** A call of the GATT client. *)
Definition gatt_call (request : gatt_request) (callback : gatt_callback) (now_us : Z) : M W bt_status :=
  let! c := get id in
  match gt_start request callback now_us (ho_gatt c) with
  | (Ret fired, g) =>
      do! set (set_gatt g) in
      do! emit (H_ask callback request) in
      do! (if fired then on_failure callback else ret tt) in
      ret BT_OK
  | (Fail e, g) => do! set (set_gatt g) in ret e
  | (Fault, _) => lift Fault
  end.

Definition event_time : M W Z :=
  let! c := get id in
  do! (if negb (gt_event_now_us (ho_gatt c) =? 0) then set (set_now_us (gt_event_now_us (ho_gatt c))) else ret tt) in
  get ho_now_us.

(** [if (request != BT_OK) finish(client, BT_HOGP_CLIENT_ERROR_GATT)] *)
Definition ask (request : gatt_request) (callback : gatt_callback) : M W unit :=
  let! now := event_time in
  let! st := gatt_call request callback now in
  if bool_decide (st = BT_OK) then ret tt else finish BT_HOGP_CLIENT_ERROR_GATT.

(** The [while] of [on_cccd_write]. *)
Fixpoint subscribe_reports (n : nat) : M W unit :=
  match n with
  | O => lift Fault
  | S n =>
      let! c := get id in
      if ho_pending_index c <? ho_report_count c then
        let! report := lift (ld (ho_reports c) (ho_pending_index c)) in
        do! set (set_pending_index (ho_pending_index c + 1)) in
        if negb (rp_report_type report =? BT_HOGP_REPORT_TYPE_INPUT) then subscribe_reports n else
        if rp_cccd_handle report =? 0 then finish BT_HOGP_CLIENT_ERROR_PROTOCOL else
        ask (G_write (rp_cccd_handle report) notify_enabled) on_cccd_write_cb
      else finish BT_HOGP_CLIENT_OK
  end.

(** [completion] is NULL when [read_next_reference] calls it. *)
Definition on_cccd_write (completion : option bt_gatt_client_completion) : M W unit :=
  if bool_decide (completion <> None) && negb (from_option gatt_ok false completion) then finish BT_HOGP_CLIENT_ERROR_GATT else
  let! c := get id in
  subscribe_reports (S (Z.to_nat (ho_report_count c - ho_pending_index c))).

Definition read_next_reference : M W unit :=
  let! c := get id in
  let! i := lift (skip_reports (ho_reports c) (ho_report_count c) (ho_pending_index c)
    (S (Z.to_nat (ho_report_count c - ho_pending_index c)))) in
  do! set (set_pending_index i) in
  if i =? ho_report_count c then
    do! set (set_pending_index 0) in
    on_cccd_write None
  else
    let! report := lift (ld (ho_reports c) i) in
    ask (G_read (rp_reference_handle report)) on_report_reference_cb.

Definition on_services (completion : bt_gatt_client_completion) : M W unit :=
  if negb (gatt_ok completion) then finish BT_HOGP_CLIENT_ERROR_GATT else
  let! service := lift (find_service (default [] (cp_services completion)) 0 (Z.to_nat (cp_count completion))) in
  match service with
  | Some service =>
      do! set (set_service service) in
      ask (G_discover_characteristics (sv_start_handle service) (sv_end_handle service)) on_characteristics_cb
  | None => finish BT_HOGP_CLIENT_ERROR_NOT_FOUND
  end.

Definition on_characteristics (completion : bt_gatt_client_completion) : M W unit :=
  if negb (gatt_ok completion) || (cp_count completion >? BT_GATT_CLIENT_MAX_CHARACTERISTICS)
  then finish BT_HOGP_CLIENT_ERROR_GATT else
  do! update (fun c =>
    let? found := ldn (default [] (cp_characteristics completion)) 0 (cp_count completion) in
    let? l := stn (ho_characteristics c) 0 found in
    note_characteristics 0 (Z.to_nat (cp_count completion))
      (set_boot_mouse_input_handle 0 (set_boot_keyboard_output_handle 0 (set_boot_keyboard_input_handle 0
        (set_protocol_mode_handle 0 (set_report_map_handle 0
          (set_characteristic_count (cp_count completion) (set_characteristics l c)))))))) in
  let! c := get id in
  if ho_report_map_handle c =? 0 then finish BT_HOGP_CLIENT_ERROR_NOT_FOUND else
  ask (G_discover_descriptors (sv_start_handle (ho_service c)) (sv_end_handle (ho_service c))) on_descriptors_cb.

Definition on_descriptors (completion : bt_gatt_client_completion) : M W unit :=
  if negb (gatt_ok completion) || (cp_count completion >? BT_GATT_CLIENT_MAX_DESCRIPTORS)
  then finish BT_HOGP_CLIENT_ERROR_GATT else
  do! update (fun c =>
    let? found := ldn (default [] (cp_descriptors completion)) 0 (cp_count completion) in
    let? l := stn (ho_descriptors c) 0 found in
    let? c := note_boot_cccds 0 (Z.to_nat (ho_characteristic_count c))
      (set_boot_mouse_input_cccd 0 (set_boot_keyboard_input_cccd 0
        (set_descriptor_count (cp_count completion) (set_descriptors l c)))) in
    build_report_list c) in
  let! c := get id in
  if ho_report_count c =? 0 then finish BT_HOGP_CLIENT_ERROR_NOT_FOUND else
  ask (G_read (ho_report_map_handle c)) on_report_map_cb.

Definition on_report_map (completion : bt_gatt_client_completion) : M W unit :=
  if negb (gatt_ok completion) then finish BT_HOGP_CLIENT_ERROR_PROTOCOL else
  let! c := get id in
  match bt_hid_report_parse (cp_value completion) (cp_value_len completion) (ho_report_descriptor c) with
  | (Ret _, d) =>
      do! set (set_report_descriptor d) in
      do! set (set_input (bt_hid_input_init (Some d))) in
      do! set (set_pending_index 0) in
      read_next_reference
  | (Fail _, d) => do! set (set_report_descriptor d) in finish BT_HOGP_CLIENT_ERROR_PROTOCOL
  | (Fault, _) => lift Fault
  end.

Definition on_report_reference (completion : bt_gatt_client_completion) : M W unit :=
  if negb (gatt_ok completion) || negb (cp_value_len completion =? 2) then finish BT_HOGP_CLIENT_ERROR_PROTOCOL else
  let! type := lift (ld (default [] (cp_value completion)) 1) in
  if (type <? BT_HOGP_REPORT_TYPE_INPUT) || (type >? BT_HOGP_REPORT_TYPE_FEATURE) then finish BT_HOGP_CLIENT_ERROR_PROTOCOL else
  let! id := lift (ld (default [] (cp_value completion)) 0) in
  do! update (fun c =>
    let? r := ld (ho_reports c) (ho_pending_index c) in
    let? rs := st1 (ho_reports c) (ho_pending_index c) (set_report_reference id type r) in
    Ret (set_pending_index (ho_pending_index c + 1) (set_reports rs c))) in
  read_next_reference.

Definition on_report_write (completion : bt_gatt_client_completion) : M W unit :=
  complete_write (if gatt_ok completion then BT_HOGP_CLIENT_OK else BT_HOGP_CLIENT_ERROR_GATT).

(** The [while] of [subscribe_next_boot_input]: the step, and [cccd]. *)
Fixpoint next_boot_cccd (c : client) (step cccd : Z) (n : nat) : outcome (Z * Z) :=
  match n with
  | O => Fault
  | S n =>
      if (step <? 2) && (cccd =? 0)
      then next_boot_cccd c (u8 (step + 1)) (if step =? 0 then ho_boot_keyboard_input_cccd c else ho_boot_mouse_input_cccd c) n
      else Ret (step, cccd)
  end.

Definition subscribe_next_boot_input : M W unit :=
  let! c := get id in
  let! r := lift (next_boot_cccd c (ho_boot_subscribe_step c) 0 3) in
  do! set (set_boot_subscribe_step r.1) in
  if r.2 =? 0 then complete_mode BT_HOGP_CLIENT_OK else
  let! now := event_time in
  let! st := gatt_call (G_write r.2 notify_enabled) on_boot_cccd_write_cb now in
  if bool_decide (st = BT_OK) then ret tt else complete_mode BT_HOGP_CLIENT_ERROR_GATT.

Definition on_protocol_mode_write (completion : bt_gatt_client_completion) : M W unit :=
  if negb (gatt_ok completion) then complete_mode BT_HOGP_CLIENT_ERROR_GATT else
  let! mode := get ho_pending_mode in
  if mode =? BT_HOGP_PROTOCOL_MODE_REPORT then complete_mode BT_HOGP_CLIENT_OK else
  do! set (set_boot_subscribe_step 0) in
  subscribe_next_boot_input.

Definition on_boot_cccd_write (completion : bt_gatt_client_completion) : M W unit :=
  if negb (gatt_ok completion) then complete_mode BT_HOGP_CLIENT_ERROR_GATT else subscribe_next_boot_input.

(** The call of a function pointer. *)
Definition on_gatt_complete (callback : gatt_callback) (completion : bt_gatt_client_completion) : M W unit :=
  match callback with
  | on_services_cb => on_services completion
  | on_characteristics_cb => on_characteristics completion
  | on_descriptors_cb => on_descriptors completion
  | on_report_map_cb => on_report_map completion
  | on_report_reference_cb => on_report_reference completion
  | on_cccd_write_cb => on_cccd_write (Some completion)
  | on_report_write_cb => on_report_write completion
  | on_protocol_mode_write_cb => on_protocol_mode_write completion
  | on_boot_cccd_write_cb => on_boot_cccd_write completion
  end.

(** *** Reports: the callbacks of the HID functions run on the world; the flag
    says that one of them did not return. *)

Abbreviation guarded := (W * bool)%type.

Definition called_back (p : option (prog U (api CB UD) bt_status bool)) (s : guarded) : bool * guarded :=
  match p with
  | None => (true, s)
  | Some p =>
      match run_prog call p s.1 with
      | (Ret go, w) => (go, (w, s.2))
      | (_, w) => (false, (w, true))
      end
  end.

Definition forward_value (value : bt_hid_value) (s : guarded) : bool * guarded :=
  let c := w_self s.1 in
  called_back (match ho_on_input c with Some cb => Some (input_fn cb value (ho_user_data c)) | None => None end) s.

Definition forward_event (event : bt_hid_input_event) (s : guarded) : bool * guarded :=
  let c := w_self s.1 in
  called_back (match ho_on_event c with Some cb => Some (event_fn cb event (ho_event_user_data c)) | None => None end) s.

(** [(void)bt_hid_report_decode_input(descriptor, report, len, forward_value, client)] *)
Definition decode (descriptor : bt_hid_report_descriptor) (report : option (list Z)) (len : Z) : M W unit := fun w =>
  match bt_hid_report_decode_input forward_value (Some descriptor) report len (w, false) with
  | (Fault, (w, _)) | (_, (w, true)) => (Fault, w)
  | (_, (w, false)) => (Ret tt, w)
  end.

(** The input state, with what its descriptor pointer leads to. *)
Definition aimed (d : bt_hid_report_descriptor) (input : bt_hid_input) : bt_hid_input :=
  {| hi_descriptor := (fun _ => d) <$> hi_descriptor input; hi_variables := hi_variables input; hi_arrays := hi_arrays input;
     hi_array_count := hi_array_count input |}.

(** [if (client->on_event != NULL)
       (void)bt_hid_input_process(input, report, len, forward_event, client)] *)
Definition process (descriptor : client -> bt_hid_report_descriptor) (input : client -> bt_hid_input)
    (set_to : bt_hid_input -> client -> client) (report : option (list Z)) (len : Z) : M W unit :=
  let! c := get id in
  if bool_decide (ho_on_event c = None) then ret tt else fun w =>
  match bt_hid_input_process forward_event report len retained (aimed (descriptor c) (input c), (w, false)) with
  | (Fault, (_, (w, _))) | (_, (_, (w, true))) => (Fault, w)
  | (_, (i, (w, false))) => (Ret tt, with_self (set_to i (w_self w)) w)
  end.

(** The [for] of [on_notification]: the report of the handle. *)
Fixpoint find_endpoint (reports : list bt_hogp_report) (handle i : Z) (n : nat) : outcome (option bt_hogp_report) :=
  match n with
  | O => Ret None
  | S n =>
      let? r := ld reports i in
      if negb (rp_value_handle r =? handle) || negb (rp_report_type r =? BT_HOGP_REPORT_TYPE_INPUT)
      then find_endpoint reports handle (i + 1) n else Ret (Some r)
  end.

Definition on_notification (handle : Z) (value : option (list Z)) (value_len : Z) : M W unit :=
  let! c := get id in
  if handle =? ho_boot_keyboard_input_handle c
  then process ho_boot_keyboard_descriptor ho_boot_keyboard_input set_boot_keyboard_input value value_len else
  if handle =? ho_boot_mouse_input_handle c
  then process ho_boot_mouse_descriptor ho_boot_mouse_input set_boot_mouse_input value value_len else
  let! endpoint := lift (find_endpoint (ho_reports c) handle 0 (Z.to_nat (ho_report_count c))) in
  match endpoint with
  | None => ret tt
  | Some endpoint =>
      if hd_uses_report_ids (ho_report_descriptor c) then
        if value_len >? BT_GATT_CLIENT_MAX_VALUE_LEN then ret tt else
        let! report := lift (
          let? report := st1 (replicate 513 0) 0 (rp_report_id endpoint) in
          let? bs := ldn (default [] value) 0 value_len in
          let? report := stn report 1 bs in
          ldn report 0 (value_len + 1)) in
        do! decode (ho_report_descriptor c) (Some report) (value_len + 1) in
        process ho_report_descriptor ho_input set_input (Some report) (value_len + 1)
      else
        do! decode (ho_report_descriptor c) value value_len in
        process ho_report_descriptor ho_input set_input value value_len
  end.

(** *** The interface *)

Definition bt_hogp_client_set_event_handler (on_event : option CB) (user_data : option UD) : M W unit :=
  do! set (set_on_event on_event) in
  set (set_event_user_data user_data).

Definition bt_hogp_client_discover (on_complete on_input : option CB) (user_data : option UD) (now_us : Z) : M W bt_status :=
  let! c := get id in
  if bool_decide (on_complete = None) || negb (gt_channel_ready (ho_gatt c)) || gt_busy (ho_gatt c) ||
     bool_decide (ho_on_complete c <> None) then ret BT_ERR_INVALID_ARGUMENT else
  do! set (set_on_complete on_complete) in
  do! set (set_on_input on_input) in
  do! set (set_user_data user_data) in
  do! set (set_now_us now_us) in
  do! set (fun c => set_gatt (gt_set_notify_handler (ho_gatt c)) c) in
  let! st := gatt_call G_discover_services on_services_cb now_us in
  if bool_decide (st = BT_OK) then ret BT_OK else
  do! set (set_on_complete None) in
  ret BT_ERR_INVALID_ARGUMENT.

(** A write, where [write_report] and [write_boot_keyboard_output] agree. *)
Definition start_write (handle : Z) (value : list Z) (on_complete : option CB) (user_data : option UD) (now_us : Z) : M W bt_status :=
  do! set (set_on_write_complete on_complete) in
  do! set (set_write_user_data user_data) in
  let! st := gatt_call (G_write handle value) on_report_write_cb now_us in
  if bool_decide (st = BT_OK) then ret BT_OK else
  do! set (set_on_write_complete None) in
  do! set (set_write_user_data None) in
  ret BT_ERR_INVALID_ARGUMENT.

Fixpoint find_report_of (reports : list bt_hogp_report) (report_id report_type i : Z) (n : nat) : outcome (option bt_hogp_report) :=
  match n with
  | O => Ret None
  | S n =>
      let? r := ld reports i in
      if negb (rp_report_id r =? report_id) || negb (rp_report_type r =? report_type)
      then find_report_of reports report_id report_type (i + 1) n else Ret (Some r)
  end.

Definition bt_hogp_client_write_report (report_id report_type : Z) (value : option (list Z)) (on_complete : option CB)
    (user_data : option UD) (now_us : Z) : M W bt_status :=
  let! c := get id in
  match value with
  | None => ret BT_ERR_INVALID_ARGUMENT
  | Some value =>
      if bool_decide (on_complete = None) || bool_decide (ho_on_complete c <> None) ||
         bool_decide (ho_on_write_complete c <> None) || (report_type =? BT_HOGP_REPORT_TYPE_INPUT)
      then ret BT_ERR_INVALID_ARGUMENT else
      let! report := lift (find_report_of (ho_reports c) report_id report_type 0 (Z.to_nat (ho_report_count c))) in
      match report with
      | Some report => start_write (rp_value_handle report) value on_complete user_data now_us
      | None => ret BT_ERR_INVALID_ARGUMENT
      end
  end.

Definition bt_hogp_client_set_protocol_mode (mode : Z) (on_complete : option CB) (user_data : option UD) (now_us : Z) : M W bt_status :=
  let! c := get id in
  if bool_decide (on_complete = None) ||
     (negb (mode =? BT_HOGP_PROTOCOL_MODE_BOOT) && negb (mode =? BT_HOGP_PROTOCOL_MODE_REPORT)) ||
     (ho_protocol_mode_handle c =? 0) || bool_decide (ho_on_mode_complete c <> None) ||
     bool_decide (ho_on_write_complete c <> None) || bool_decide (ho_on_complete c <> None)
  then ret BT_ERR_INVALID_ARGUMENT else
  if (mode =? BT_HOGP_PROTOCOL_MODE_BOOT) && (ho_boot_keyboard_input_handle c =? 0) && (ho_boot_mouse_input_handle c =? 0)
  then ret BT_ERR_INVALID_ARGUMENT else
  do! set (set_on_mode_complete on_complete) in
  do! set (set_mode_user_data user_data) in
  do! set (set_pending_mode mode) in
  let! st := gatt_call (G_write (ho_protocol_mode_handle c) [mode]) on_protocol_mode_write_cb now_us in
  if bool_decide (st = BT_OK) then ret BT_OK else
  do! set (set_on_mode_complete None) in
  do! set (set_mode_user_data None) in
  ret BT_ERR_INVALID_ARGUMENT.

Definition bt_hogp_client_write_boot_keyboard_output (leds : Z) (on_complete : option CB) (user_data : option UD) (now_us : Z)
    : M W bt_status :=
  let! c := get id in
  if (ho_boot_keyboard_output_handle c =? 0) || bool_decide (on_complete = None) || bool_decide (ho_on_write_complete c <> None)
  then ret BT_ERR_INVALID_ARGUMENT else
  start_write (ho_boot_keyboard_output_handle c) [leds] on_complete user_data now_us.

Definition run_call (a : api CB UD) : M W bt_status :=
  match a with
  | SetEventHandler on_event ud => do! bt_hogp_client_set_event_handler on_event ud in ret BT_OK
  | Discover on_complete on_input ud now => bt_hogp_client_discover on_complete on_input ud now
  | WriteReport id type value on_complete ud now => bt_hogp_client_write_report id type value on_complete ud now
  | SetProtocolMode mode on_complete ud now => bt_hogp_client_set_protocol_mode mode on_complete ud now
  | WriteBootKeyboardOutput leds on_complete ud now => bt_hogp_client_write_boot_keyboard_output leds on_complete ud now
  end.

Definition run_input (e : hogp_input G) : M W unit :=
  let! waiting := get (fun c => gt_waiting (ho_gatt c)) in
  if negb (bool_decide (possible waiting e)) then ret tt else
  match e with
  | GattCompletes g callback completion =>
      do! set (set_gatt g) in
      on_gatt_complete callback completion
  | GattNotifies g handle value =>
      do! set (set_gatt g) in
      on_notification handle value (zlen (default [] value))
  | GattChanges g => set (set_gatt g)
  end.

End Open.

(** Calls nested [depth] deep. *)
Fixpoint run_api (depth : nat) (a : api CB UD) : M W bt_status :=
  match depth with
  | O => lift Fault
  | S depth => run_call (run_api depth) a
  end.

(** What happens, one thing after the other. *)
Definition run_step (depth : nat) (s : api CB UD + hogp_input G) : M W unit :=
  match s with
  | inl a => do! run_api depth a in ret tt
  | inr e => run_input (run_api depth) e
  end.
Definition run_steps (depth : nat) (l : list (api CB UD + hogp_input G)) : M W unit :=
  foldr (fun s m => do! run_step depth s in m) (ret tt) l.

(** [memset] and the two boot descriptors. *)
Definition bt_hogp_client_init (gatt : G) : client :=
  let keyboard := (bt_hid_report_parse (Some boot_keyboard_map) (zlen boot_keyboard_map) zero_descriptor).2 in
  let mouse := (bt_hid_report_parse (Some boot_mouse_map) (zlen boot_mouse_map) zero_descriptor).2 in
  {| ho_gatt := gatt; ho_service := {| sv_start_handle := 0; sv_end_handle := 0; sv_uuid16 := 0 |};
     ho_characteristics := replicate 16 {| cc_declaration_handle := 0; cc_value_handle := 0; cc_properties := 0; cc_uuid16 := 0 |};
     ho_characteristic_count := 0; ho_descriptors := replicate 32 {| ds_handle := 0; ds_uuid16 := 0 |};
     ho_descriptor_count := 0;
     ho_reports := replicate 8 {| rp_value_handle := 0; rp_cccd_handle := 0; rp_reference_handle := 0; rp_report_id := 0;
                                  rp_report_type := 0 |};
     ho_report_count := 0; ho_pending_index := 0; ho_report_map_handle := 0; ho_protocol_mode_handle := 0;
     ho_boot_keyboard_input_handle := 0; ho_boot_keyboard_input_cccd := 0; ho_boot_keyboard_output_handle := 0;
     ho_boot_mouse_input_handle := 0; ho_boot_mouse_input_cccd := 0; ho_report_descriptor := zero_descriptor;
     ho_input := bt_hid_input_init None; ho_boot_keyboard_descriptor := keyboard;
     ho_boot_keyboard_input := bt_hid_input_init (Some keyboard); ho_boot_mouse_descriptor := mouse;
     ho_boot_mouse_input := bt_hid_input_init (Some mouse); ho_on_complete := None; ho_on_write_complete := None;
     ho_on_mode_complete := None; ho_on_input := None; ho_on_event := None; ho_event_user_data := None; ho_user_data := None;
     ho_write_user_data := None; ho_mode_user_data := None; ho_now_us := 0; ho_pending_mode := 0; ho_boot_subscribe_step := 0 |}.

End Machine.

(** ** Specification *)

Definition owner (cb : gatt_callback) : hogp_op :=
  match cb with
  | on_report_write_cb => Op_write
  | on_protocol_mode_write_cb | on_boot_cccd_write_cb => Op_mode
  | _ => Op_discover
  end.
Definition starts (cb : gatt_callback) : bool :=
  bool_decide (cb = on_services_cb) || bool_decide (cb = on_report_write_cb) || bool_decide (cb = on_protocol_mode_write_cb).

(** Whether operation [k] is under way, by the history: [None] if it was started
    twice or ended twice. *)
Definition op_step (k : hogp_op) (cur : option bool) (e : hogp_event) : option bool :=
  match cur with
  | None => None
  | Some running =>
      match e with
      | H_ask cb _ => if starts cb && bool_decide (owner cb = k) then (if running then None else Some true) else Some running
      | H_done k' _ => if bool_decide (k' = k) then (if running then Some false else None) else Some running
      end
  end.
Definition operations (k : hogp_op) (tr : list hogp_event) : option bool := foldl (op_step k) (Some false) tr.

(** The completions that a request can have, with entries of their C types. *)
Definition op_of (cb : gatt_callback) : bt_gatt_client_op :=
  match cb with
  | on_services_cb => BT_GATT_CLIENT_OP_DISCOVER_SERVICES
  | on_characteristics_cb => BT_GATT_CLIENT_OP_DISCOVER_CHARACTERISTICS
  | on_descriptors_cb => BT_GATT_CLIENT_OP_DISCOVER_DESCRIPTORS
  | on_report_map_cb | on_report_reference_cb => BT_GATT_CLIENT_OP_READ
  | _ => BT_GATT_CLIENT_OP_WRITE
  end.

Definition service_ok (s : bt_gatt_service) : Prop := is_u16 (sv_start_handle s) /\ is_u16 (sv_end_handle s).
Definition characteristic_ok (x : bt_gatt_characteristic) : Prop := is_u16 (cc_declaration_handle x) /\ is_u16 (cc_value_handle x).
Definition gatt_descriptor_ok (d : bt_gatt_descriptor) : Prop := is_u16 (ds_handle d).

Definition fits (cb : gatt_callback) (comp : bt_gatt_client_completion) : Prop :=
  cp_op comp = op_of cb /\ results_ok comp /\ Forall service_ok (default [] (cp_services comp)) /\
  Forall characteristic_ok (default [] (cp_characteristics comp)) /\
  Forall gatt_descriptor_ok (default [] (cp_descriptors comp)) /\ bytes (default [] (cp_value comp)).

Section Invariant.
  Context {CB UD G U : Type} `{HogpUser CB UD U} `{GattLayer G}.
Abbreviation client := (bt_hogp_client CB UD G).
Abbreviation W := (world client U hogp_event).
  Context (budget : U -> nat).
  Implicit Types (c : client) (tr past : list hogp_event) (w : W).

(** Whether [k] is under way, by the field that holds its callback. *)
Definition running (k : hogp_op) c : bool :=
  match k with
  | Op_discover => bool_decide (is_Some (ho_on_complete c))
  | Op_write => bool_decide (is_Some (ho_on_write_complete c))
  | Op_mode => bool_decide (is_Some (ho_on_mode_complete c))
  end.

Definition call_ok (a : api CB UD) : Prop :=
  match a with
  | SetEventHandler _ _ => True
  | Discover _ _ _ now => gt_timely now
  | WriteReport _ _ value _ _ now => bytes (default [] value) /\ gt_timely now
  | SetProtocolMode mode _ _ now => is_byte mode /\ gt_timely now
  | WriteBootKeyboardOutput leds _ _ now => is_byte leds /\ gt_timely now
  end.

Definition input_ok (e : hogp_input G) : Prop :=
  match e with
  | GattCompletes g cb comp => gt_ok g /\ fits cb comp
  | GattNotifies g _ value => gt_ok g /\ bytes (default [] value)
  | GattChanges g => gt_ok g
  end.

Definition step_ok (s : api CB UD + hogp_input G) : Prop := match s with inl a => call_ok a | inr e => input_ok e end.

Record user_ok : Prop := {
  user_complete : forall cb r ud, pays budget call_ok (fun _ => True) (complete_fn cb r ud);
  user_input : forall cb v ud, pays budget call_ok (fun _ => True) (input_fn cb v ud);
  user_event : forall cb e ud, pays budget call_ok (fun _ => True) (event_fn cb e ud);
}.

Definition table {A} (P : A -> Prop) (size : Z) (l : list A) (count : Z) : Prop :=
  zlen l = size /\ Forall P l /\ 0 <= count <= size.

Definition report_ok (r : bt_hogp_report) : Prop :=
  is_u16 (rp_value_handle r) /\ is_u16 (rp_cccd_handle r) /\ is_u16 (rp_reference_handle r) /\ is_byte (rp_report_id r).

(** No report has its type yet. *)
Definition untyped c : Prop := Forall (fun r => rp_report_type r = 0) (take (Z.to_nat (ho_report_count c)) (ho_reports c)).

Definition input_fine (i : bt_hid_input) : Prop := exists vars down, input_rep i vars down.

Record data_ok c : Prop := {
  d_gatt : gt_ok (ho_gatt c);
  d_now : gt_timely (ho_now_us c);
  d_service : service_ok (ho_service c);
  d_characteristics : table characteristic_ok 16 (ho_characteristics c) (ho_characteristic_count c);
  d_descriptors : table gatt_descriptor_ok 32 (ho_descriptors c) (ho_descriptor_count c);
  d_reports : table report_ok 8 (ho_reports c) (ho_report_count c);
  d_pending : 0 <= ho_pending_index c <= 8;
  d_report_map : is_u16 (ho_report_map_handle c);
  d_mode : is_u16 (ho_protocol_mode_handle c);
  d_keyboard_cccd : is_u16 (ho_boot_keyboard_input_cccd c);
  d_keyboard_output : is_u16 (ho_boot_keyboard_output_handle c);
  d_mouse_cccd : is_u16 (ho_boot_mouse_input_cccd c);
  d_input : input_fine (ho_input c);
  d_keyboard : descriptor_ok (ho_boot_keyboard_descriptor c) /\ input_fine (ho_boot_keyboard_input c);
  d_mouse : descriptor_ok (ho_boot_mouse_descriptor c) /\ input_fine (ho_boot_mouse_input c);
  d_step : 0 <= ho_boot_subscribe_step c <= 2;
  d_typed : descriptor_ok (ho_report_descriptor c) \/ untyped c;
}.

(** What the answer to a request relies on. *)
Definition stage_ok (cb : gatt_callback) c : Prop :=
  match cb with
  | on_report_map_cb => untyped c
  | on_report_reference_cb => ho_pending_index c < ho_report_count c /\ descriptor_ok (ho_report_descriptor c)
  | on_cccd_write_cb => ho_pending_index c <= ho_report_count c
  | _ => True
  end.

(** Operation [o] is under way, and no other. *)
Record busy_with (o : option hogp_op) c tr : Prop := {
  b_data : data_ok c;
  b_history : forall k, operations k tr = Some (running k c);
  b_running : forall k, running k c = bool_decide (o = Some k);
}.

(** An operation is under way exactly while a request of it is. *)
Definition core c tr : Prop :=
  busy_with (owner <$> gt_waiting (ho_gatt c)) c tr /\ forall cb, gt_waiting (ho_gatt c) = Some cb -> stage_ok cb c.

(** The invariant, behind the history [past], over a descriptor that stays. *)
Definition I past (d : bt_hid_report_descriptor) w : Prop :=
  core (w_self w) (w_trace w) /\ past `prefix_of` w_trace w /\ ho_report_descriptor (w_self w) = d.

End Invariant.

(** ** Lemmas *)

Lemma hogp_operations_snoc k tr e : operations k (tr ++ [e]) = op_step k (operations k tr) e.
Proof. unfold operations. by rewrite foldl_app. Qed.

(** *** Loops over tables: their entries are [pre ++ l ++ post] *)

(** What a discovery is to find. *)
Definition hid_service (services : list bt_gatt_service) : option bt_gatt_service :=
  head (filter (fun s => sv_uuid16 s = BT_HOGP_UUID_SERVICE) services).

(** Where the characteristic before [rest] ends. *)
Definition range_end (service_end : Z) (rest : list bt_gatt_characteristic) : Z :=
  match rest with next :: _ => u16 (cc_declaration_handle next - 1) | [] => service_end end.

(** The descriptors of a report's range are its CCCD and its Report Reference. *)
Definition attach (end_ : Z) (r : bt_hogp_report) (d : bt_gatt_descriptor) : bt_hogp_report :=
  if (ds_handle d <=? rp_value_handle r) || (ds_handle d >? end_) then r
  else if ds_uuid16 d =? BT_HOGP_UUID_CCCD then set_cccd_handle (ds_handle d) r
  else if ds_uuid16 d =? BT_HOGP_UUID_REPORT_REFERENCE then set_reference_handle (ds_handle d) r
  else r.

Definition new_report (x : bt_gatt_characteristic) : bt_hogp_report :=
  {| rp_value_handle := cc_value_handle x; rp_cccd_handle := 0; rp_reference_handle := 0; rp_report_id := 0; rp_report_type := 0 |}.

(** The reports among the characteristics, in order. *)
Fixpoint reports_of (service_end : Z) (ds : list bt_gatt_descriptor) (xs : list bt_gatt_characteristic) : list bt_hogp_report :=
  match xs with
  | [] => []
  | x :: rest =>
      if cc_uuid16 x =? BT_HOGP_UUID_REPORT
      then foldl (attach (range_end service_end rest)) (new_report x) ds :: reports_of service_end ds rest
      else reports_of service_end ds rest
  end.

Lemma find_service_spec l : forall pre, find_service (pre ++ l) (zlen pre) (length l) = Ret (hid_service l).
Proof.
  unfold hid_service. induction l as [|s l IH]; intros pre; [done|]. cbn [find_service length]. rewrite ld_middle. cbn [obind].
  destruct (Z.eqb_spec (sv_uuid16 s) BT_HOGP_UUID_SERVICE) as [Es|Es]; [by rewrite filter_cons_True|]. rewrite filter_cons_False by done.
  specialize (IH (pre ++ [s])). rewrite <- app_assoc in IH. by replace (zlen pre + 1) with (zlen (pre ++ [s])) by zlist.
Qed.

Lemma attach_spec ds end_ post : forall pre r, attach_descriptors (pre ++ ds ++ post) end_ (zlen pre) (length ds) r = Ret (foldl (attach end_) r ds).
Proof.
  induction ds as [|d ds IH]; intros pre r; [done|]. cbn [attach_descriptors length app foldl]. rewrite ld_middle. cbn [obind].
  specialize (IH (pre ++ [d]) (attach end_ r d)). rewrite <- app_assoc in IH. cbn [app] in IH.
  by replace (zlen pre + 1) with (zlen (pre ++ [d])) by zlist.
Qed.

Lemma find_descriptor_spec ds start end_ uuid post : forall pre, exists h,
  find_descriptor_loop (pre ++ ds ++ post) start end_ uuid (zlen pre) (length ds) = Ret h /\ (Forall gatt_descriptor_ok ds -> is_u16 h).
Proof.
  induction ds as [|d ds IH]; intros pre; [exists 0; split; [done|unfold is_u16; lia]|]. cbn [find_descriptor_loop length app]. rewrite ld_middle. cbn [obind].
  destruct (_ && _); [exists (ds_handle d); split; [done|by intros [? _]%Forall_cons]|].
  destruct (IH (pre ++ [d])) as (h & E & Hh). rewrite <- app_assoc in E. cbn [app] in E. exists h.
  split; [by replace (zlen pre + 1) with (zlen (pre ++ [d])) by zlist|]. intros [_ ?]%Forall_cons. auto.
Qed.

Lemma find_endpoint_spec l handle post : forall pre, find_endpoint (pre ++ l ++ post) handle (zlen pre) (length l) =
  Ret (head (filter (fun r => rp_value_handle r = handle /\ rp_report_type r = BT_HOGP_REPORT_TYPE_INPUT) l)).
Proof.
  induction l as [|r l IH]; intros pre; [done|]. cbn [find_endpoint length app]. rewrite ld_middle. cbn [obind].
  specialize (IH (pre ++ [r])). rewrite <- app_assoc in IH. cbn [app] in IH. replace (zlen (pre ++ [r])) with (zlen pre + 1) in IH by zlist.
  destruct (Z.eqb_spec (rp_value_handle r) handle) as [E1|E1]; cbn [negb orb]; [|by rewrite IH, filter_cons_False by (by intros [? _])].
  destruct (Z.eqb_spec (rp_report_type r) BT_HOGP_REPORT_TYPE_INPUT) as [E2|E2]; cbn [negb];
    [by rewrite filter_cons_True|by rewrite IH, filter_cons_False by (by intros [_ ?])].
Qed.

Lemma find_report_of_spec l id type post : forall pre, find_report_of (pre ++ l ++ post) id type (zlen pre) (length l) =
  Ret (head (filter (fun r => rp_report_id r = id /\ rp_report_type r = type) l)).
Proof.
  induction l as [|r l IH]; intros pre; [done|]. cbn [find_report_of length app]. rewrite ld_middle. cbn [obind].
  specialize (IH (pre ++ [r])). rewrite <- app_assoc in IH. cbn [app] in IH. replace (zlen (pre ++ [r])) with (zlen pre + 1) in IH by zlist.
  destruct (Z.eqb_spec (rp_report_id r) id) as [E1|E1]; cbn [negb orb]; [|by rewrite IH, filter_cons_False by (by intros [? _])].
  destruct (Z.eqb_spec (rp_report_type r) type) as [E2|E2]; cbn [negb];
    [by rewrite filter_cons_True|by rewrite IH, filter_cons_False by (by intros [_ ?])].
Qed.

(** A table is what is in use, and the rest. *)
Lemma table_split {A} (P : A -> Prop) size l count : table P size l count -> exists live post, l = live ++ post /\ count = zlen live /\
  Forall P live /\ live = take (Z.to_nat count) l.
Proof.
  intros (Hz & HP & Hc). exists (take (Z.to_nat count) l), (drop (Z.to_nat count) l). rewrite take_drop, length_take.
  split; [done|]. split; [lia|]. split; [by apply Forall_take|done].
Qed.
Lemma table_ld {A} (P : A -> Prop) size l count i : table P size l count -> 0 <= i < count -> exists x, ld l i = Ret x /\ P x.
Proof.
  intros (Hz & HP & Hc) Hi. destruct (lookup_lt_is_Some_2 l (Z.to_nat i)) as [x Hx]; [lia|]. exists x.
  split; [apply ld_lookup; [lia|done]|]. by eapply Forall_lookup in HP.
Qed.

(** New reports have no type. *)
Definition fresh_report (r : bt_hogp_report) : Prop := report_ok r /\ rp_report_type r = 0.

Lemma attach_fresh end_ ds r : Forall gatt_descriptor_ok ds -> fresh_report r -> fresh_report (foldl (attach end_) r ds).
Proof.
  intros Hds. revert r. induction Hds as [|d ds Hd Hds IH]; intros r Hr; [done|]. cbn [foldl]. apply IH.
  destruct Hr as ((Hv & Hc & Hf & Hi) & Ht). unfold attach. by repeat case_match.
Qed.

Lemma reports_of_fresh service_end ds xs : Forall gatt_descriptor_ok ds -> Forall characteristic_ok xs ->
  Forall fresh_report (reports_of service_end ds xs).
Proof.
  intros Hds. induction 1 as [|x xs [_ Hx] Hxs IH]; [constructor|]. cbn [reports_of]. case_match; [|done]. constructor; [|done].
  apply attach_fresh; [done|]. split; [|done]. cbn. unfold report_ok, is_u16, is_byte in *. cbn. lia.
Qed.

(** The completions of requests that succeeded. *)
Definition success (op : bt_gatt_client_op) (count : Z) (sv : option (list bt_gatt_service)) (xs : option (list bt_gatt_characteristic))
    (ds : option (list bt_gatt_descriptor)) (v : option (list Z)) : bt_gatt_client_completion :=
  {| cp_result := BT_GATT_CLIENT_OK; cp_op := op; cp_att_error_code := 0; cp_services := sv; cp_characteristics := xs;
     cp_descriptors := ds; cp_count := count; cp_value := v; cp_value_len := zlen (default [] v) |}.
Definition services_found l := success BT_GATT_CLIENT_OP_DISCOVER_SERVICES (zlen l) (Some l) None None None.
Definition characteristics_found l := success BT_GATT_CLIENT_OP_DISCOVER_CHARACTERISTICS (zlen l) None (Some l) None None.
Definition descriptors_found l := success BT_GATT_CLIENT_OP_DISCOVER_DESCRIPTORS (zlen l) None None (Some l) None.
Definition value_read v := success BT_GATT_CLIENT_OP_READ 0 None None None (Some v).
Definition value_written := success BT_GATT_CLIENT_OP_WRITE 0 None None None None.

Lemma services_found_fits l : Forall service_ok l -> zlen l <= 16 -> fits on_services_cb (services_found l).
Proof. intros Hl Hz. split; [done|]. split; [by exists l|]. by split_and!. Qed.
Lemma characteristics_found_fits l : Forall characteristic_ok l -> zlen l <= 16 -> fits on_characteristics_cb (characteristics_found l).
Proof. intros Hl Hz. split; [done|]. split; [by exists l|]. by split_and!. Qed.
Lemma descriptors_found_fits l : Forall gatt_descriptor_ok l -> zlen l <= 32 -> fits on_descriptors_cb (descriptors_found l).
Proof. intros Hl Hz. split; [done|]. split; [by exists l|]. by split_and!. Qed.
Lemma value_read_fits cb v : op_of cb = BT_GATT_CLIENT_OP_READ -> bytes v -> zlen v <= 512 -> fits cb (value_read v).
Proof. intros Ho Hv Hz. split; [done|]. split; [by exists v|]. by split_and!. Qed.
Lemma value_written_fits cb : op_of cb = BT_GATT_CLIENT_OP_WRITE -> fits cb value_written.
Proof. intros Ho. split; [done|]. by split_and!. Qed.

(** What a successful completion hands over. *)
Lemma fits_services comp : fits on_services_cb comp -> gatt_ok comp = true -> exists l,
  default [] (cp_services comp) = l /\ cp_count comp = zlen l /\ Forall service_ok l.
Proof.
  intros (Ho & Hr & Hs & _) Hok%bool_decide_eq_true. unfold results_ok in Hr. rewrite decide_True, Ho in Hr by done.
  destruct Hr as (l & E & Hl & _). rewrite E in Hs |- *. by exists l.
Qed.

Lemma fits_characteristics comp : fits on_characteristics_cb comp -> gatt_ok comp = true -> exists l,
  default [] (cp_characteristics comp) = l /\ cp_count comp = zlen l /\ Forall characteristic_ok l /\ zlen l <= 16.
Proof.
  intros (Ho & Hr & _ & Hs & _) Hok%bool_decide_eq_true. unfold results_ok in Hr. rewrite decide_True, Ho in Hr by done.
  destruct Hr as (l & E & Hl & Hm). rewrite E in Hs |- *. exists l. unfold BT_GATT_CLIENT_MAX_CHARACTERISTICS in Hm. rewrite Hl. done.
Qed.

Lemma fits_descriptors comp : fits on_descriptors_cb comp -> gatt_ok comp = true -> exists l,
  default [] (cp_descriptors comp) = l /\ cp_count comp = zlen l /\ Forall gatt_descriptor_ok l /\ zlen l <= 32.
Proof.
  intros (Ho & Hr & _ & _ & Hs & _) Hok%bool_decide_eq_true. unfold results_ok in Hr. rewrite decide_True, Ho in Hr by done.
  destruct Hr as (l & E & Hl & Hm). rewrite E in Hs |- *. exists l. unfold BT_GATT_CLIENT_MAX_DESCRIPTORS in Hm. rewrite Hl. done.
Qed.

Lemma fits_value cb comp : fits cb comp -> op_of cb = BT_GATT_CLIENT_OP_READ -> gatt_ok comp = true -> exists v,
  cp_value comp = Some v /\ cp_value_len comp = zlen v /\ bytes v.
Proof.
  intros (Ho & Hr & _ & _ & _ & Hb) Hop Hok%bool_decide_eq_true. unfold results_ok in Hr. rewrite decide_True, Ho, Hop in Hr by done.
  destruct Hr as (v & E & Hl & _). rewrite E in Hb. by exists v.
Qed.

Section Safety.
  Context {CB UD G U : Type} `{HogpUser CB UD U} `{GattLayer G}.
Abbreviation client := (bt_hogp_client CB UD G).
Abbreviation W := (world client U hogp_event).
Abbreviation at_ c u tr := ({| w_self := c; w_user := u; w_trace := tr |} : W).
  Context (budget : U -> nat) (retained : list bt_hid_input_array_usage).
  Hypothesis Hretained : zlen retained = 32.
  Implicit Types (c : client) (tr past : list hogp_event) (w : W).

(** Assignments that keep the data well-formed. *)
Ltac keeps_hogp := match goal with Hd : data_ok _ |- data_ok _ => destruct Hd; constructor; cbn; first [assumption | done | idtac] end.

Lemma data_gatt c g : data_ok c -> gt_ok g -> data_ok (set_gatt g c).
Proof. intros Hd Hg. by keeps_hogp. Qed.

Lemma busy_gatt o c tr g : busy_with o c tr -> gt_ok g -> busy_with o (set_gatt g c) tr.
Proof. intros [Hd Hh Hr] Hg. constructor; [by apply data_gatt|intros k; by rewrite Hh; destruct k|intros k; rewrite <- Hr; by destruct k]. Qed.

(** Fields that are no operation's. *)
Definition same_ops c c' : Prop := ho_on_complete c' = ho_on_complete c /\ ho_on_write_complete c' = ho_on_write_complete c /\
  ho_on_mode_complete c' = ho_on_mode_complete c.

Lemma busy_same o c c' tr : busy_with o c tr -> data_ok c' -> same_ops c c' -> busy_with o c' tr.
Proof.
  intros [_ Hh Hr] Hd (E1 & E2 & E3). assert (forall k, running k c' = running k c) as E by (intros []; cbn; by rewrite ?E1, ?E2, ?E3).
  constructor; [done|intros k; by rewrite Hh, E|intros k; by rewrite E].
Qed.

Lemma core_rest c tr : busy_with None c tr -> gt_waiting (ho_gatt c) = None -> core c tr.
Proof. intros Hb Hw. split; [by rewrite Hw|]. intros cb. by rewrite Hw. Qed.

Lemma core_waits c tr cb : busy_with (Some (owner cb)) c tr -> gt_waiting (ho_gatt c) = Some cb -> stage_ok cb c -> core c tr.
Proof. intros Hb Hw Hs. split; [by rewrite Hw|]. intros cb'. rewrite Hw. by intros [= <-]. Qed.

Lemma I_user past d w u : I past d w -> I past d (with_user u w).
Proof. done. Qed.

(** *** The loops, on the client's tables *)

Lemma characteristic_end_spec c pre x rest post : ho_characteristics c = pre ++ x :: rest ++ post ->
  ho_characteristic_count c = zlen (pre ++ x :: rest) -> characteristic_end c (zlen pre) = Ret (range_end (sv_end_handle (ho_service c)) rest).
Proof.
  intros El Ec. unfold characteristic_end. rewrite Ec, El. destruct rest as [|y rest]; cbn [range_end].
  - rewrite (proj2 (Z.ltb_ge _ _)) by zlist. done.
  - rewrite (proj2 (Z.ltb_lt _ _)) by zlist. replace (zlen pre + 1) with (zlen (pre ++ [x])) by zlist.
    replace (pre ++ x :: (y :: rest) ++ post) with ((pre ++ [x]) ++ y :: rest ++ post) by by rewrite <- app_assoc.
    by rewrite ld_middle.
Qed.

Definition handles (a p k o m : Z) c : client :=
  set_report_map_handle a (set_protocol_mode_handle p (set_boot_keyboard_input_handle k (set_boot_keyboard_output_handle o
    (set_boot_mouse_input_handle m c)))).

(** The handle of the report map: the last characteristic's. *)
Definition report_map_of (xs : list bt_gatt_characteristic) (a : Z) : Z :=
  foldl (fun a x => if cc_uuid16 x =? BT_HOGP_UUID_REPORT_MAP then cc_value_handle x else a) a xs.

Lemma note_characteristics_spec c post xs : forall pre a p k o m, ho_characteristics c = pre ++ xs ++ post -> exists p' k' o' m',
  note_characteristics (zlen pre) (length xs) (handles a p k o m c) = Ret (handles (report_map_of xs a) p' k' o' m' c) /\
  (Forall characteristic_ok xs -> is_u16 a -> is_u16 p -> is_u16 k -> is_u16 o -> is_u16 m ->
   is_u16 (report_map_of xs a) /\ is_u16 p' /\ is_u16 k' /\ is_u16 o' /\ is_u16 m').
Proof.
  induction xs as [|x xs IH]; intros pre a p k o m El; [by exists p, k, o, m|]. cbn [note_characteristics length].
  change (ho_characteristics (handles a p k o m c)) with (ho_characteristics c). rewrite El. cbn [app]. rewrite ld_middle. cbn [obind].
  assert (ho_characteristics c = (pre ++ [x]) ++ xs ++ post) as El' by by rewrite El, <- app_assoc.
  replace (zlen pre + 1) with (zlen (pre ++ [x])) by zlist. unfold note_characteristic, report_map_of. cbn [foldl].
  change (foldl _ ?a xs) with (report_map_of xs a).
  repeat case_match;
    match goal with |- context [note_characteristics _ _ ?c'] =>
      match c' with
      | set_report_map_handle ?v _ => change c' with (handles v p k o m c)
      | set_protocol_mode_handle ?v _ => change c' with (handles a v k o m c)
      | set_boot_keyboard_input_handle ?v _ => change c' with (handles a p v o m c)
      | set_boot_keyboard_output_handle ?v _ => change c' with (handles a p k v m c)
      | set_boot_mouse_input_handle ?v _ => change c' with (handles a p k o v c)
      | _ => idtac
      end
    end;
    match goal with |- context [note_characteristics _ _ (handles ?a ?p ?k ?o ?m _)] =>
      destruct (IH (pre ++ [x]) a p k o m El') as (p' & k' & o' & m' & E & Hu); exists p', k', o', m'; split; [exact E|] end;
    intros [[_ Hx] Hxs]%Forall_cons; intros; by apply Hu.
Qed.

Lemma note_boot_cccds_spec c ds dpost post xs : ho_descriptors c = ds ++ dpost -> ho_descriptor_count c = zlen ds -> forall pre k m,
  ho_characteristics c = pre ++ xs ++ post -> ho_characteristic_count c = zlen (pre ++ xs) -> exists k' m',
  note_boot_cccds (zlen pre) (length xs) (set_boot_mouse_input_cccd m (set_boot_keyboard_input_cccd k c)) =
    Ret (set_boot_mouse_input_cccd m' (set_boot_keyboard_input_cccd k' c)) /\
  (Forall gatt_descriptor_ok ds -> is_u16 k -> is_u16 m -> is_u16 k' /\ is_u16 m').
Proof.
  intros Eds Edc. induction xs as [|x xs IH]; intros pre k m El Ec; [by exists k, m|]. cbn [note_boot_cccds length].
  set (c1 := set_boot_mouse_input_cccd m (set_boot_keyboard_input_cccd k c)).
  assert (ld (ho_characteristics c1) (zlen pre) = Ret x) as Ex by (cbn; rewrite El; apply ld_middle). rewrite Ex. cbn [obind].
  assert (exists h, find_descriptor c1 (zlen pre) BT_HOGP_UUID_CCCD = Ret h /\ (Forall gatt_descriptor_ok ds -> is_u16 h)) as (h & Eh & Hh).
  { unfold find_descriptor. rewrite Ex. cbn [obind]. rewrite (characteristic_end_spec c1 pre x xs post) by done. cbn [obind].
    change (ho_descriptors c1) with (ho_descriptors c). change (ho_descriptor_count c1) with (ho_descriptor_count c).
    rewrite Eds, Edc, Nat2Z.id. apply (find_descriptor_spec ds _ _ _ dpost []). }
  rewrite Eh. cbn [obind]. assert (ho_characteristics c = (pre ++ [x]) ++ xs ++ post) as El' by by rewrite El, <- app_assoc.
  assert (ho_characteristic_count c = zlen ((pre ++ [x]) ++ xs)) as Ec' by by rewrite Ec, <- app_assoc.
  replace (zlen pre + 1) with (zlen (pre ++ [x])) by zlist.
  repeat case_match; cbn [obind];
    [destruct (IH (pre ++ [x]) h m El' Ec') as (k' & m' & E & Hu)|destruct (IH (pre ++ [x]) k h El' Ec') as (k' & m' & E & Hu)
    |destruct (IH (pre ++ [x]) k m El' Ec') as (k' & m' & E & Hu)]; exists k', m'; (split; [exact E|auto]).
Qed.

Lemma build_reports_spec c ds dpost post : ho_descriptors c = ds ++ dpost -> ho_descriptor_count c = zlen ds -> forall xs pre built free,
  ho_characteristics c = pre ++ xs ++ post -> ho_characteristic_count c = zlen (pre ++ xs) -> zlen (built ++ free) = 8 ->
  let new := take (8 - length built) (reports_of (sv_end_handle (ho_service c)) ds xs) in
  build_reports (zlen pre) (length xs) (set_report_count (zlen built) (set_reports (built ++ free) c)) =
    Ret (set_report_count (zlen (built ++ new)) (set_reports (built ++ new ++ drop (length new) free) c)).
Proof.
  intros Eds Edc. induction xs as [|x xs IH]; intros pre built free El Ec Hz new.
  { subst new. cbn. by rewrite take_nil, app_nil_r. }
  cbn [build_reports length]. set (c1 := set_report_count (zlen built) (set_reports (built ++ free) c)).
  assert (ld (ho_characteristics c1) (zlen pre) = Ret x) as Ex by (cbn; rewrite El; apply ld_middle). rewrite Ex. cbn [obind].
  assert (ho_characteristics c = (pre ++ [x]) ++ xs ++ post) as El' by by rewrite El, <- app_assoc.
  assert (ho_characteristic_count c = zlen ((pre ++ [x]) ++ xs)) as Ec' by by rewrite Ec, <- app_assoc.
  replace (zlen pre + 1) with (zlen (pre ++ [x])) by zlist. subst new. cbn [reports_of].
  change (ho_report_count c1) with (zlen built). unfold BT_HOGP_MAX_REPORTS.
  destruct (Z.eqb_spec (cc_uuid16 x) BT_HOGP_UUID_REPORT) as [Eu|Eu]; cbn [negb orb]; [|exact (IH _ built free El' Ec' Hz)].
  destruct (Z.eqb_spec (zlen built) 8) as [E8|E8].
  { specialize (IH _ built free El' Ec' Hz). replace (8 - length built)%nat with 0%nat in * by lia. rewrite take_0 in *. exact IH. }
  rewrite (characteristic_end_spec c1 pre x xs post) by done. cbn [obind].
  change (ho_descriptors c1) with (ho_descriptors c). change (ho_descriptor_count c1) with (ho_descriptor_count c).
  rewrite Eds, Edc, Nat2Z.id. pose proof (attach_spec ds (range_end (sv_end_handle (ho_service c1)) xs) dpost [] (new_report x)) as Ea.
  cbn [app] in Ea. change (zlen (@nil bt_gatt_descriptor)) with 0 in Ea. unfold new_report in Ea. rewrite Ea. clear Ea. cbn [obind].
  change (ho_reports c1) with (built ++ free). destruct free as [|f free]; [rewrite app_nil_r in Hz; lia|]. rewrite st1_middle. cbn [obind].
  match goal with |- context [built ++ ?r :: free] => set (r0 := r) end.
  specialize (IH (pre ++ [x]) (built ++ [r0]) free El' Ec' ltac:(zlist)).
  replace (8 - length built)%nat with (S (8 - length (built ++ [r0]))) by (rewrite length_app in *; cbn in *; lia). cbn [take].
  replace (built ++ r0 :: free) with ((built ++ [r0]) ++ free) by by rewrite <- app_assoc.
  replace (zlen built + 1) with (zlen (built ++ [r0])) by zlist. etrans; [exact IH|]. rewrite <- !app_assoc. reflexivity.
Qed.

Lemma build_report_list_spec c ds dpost xs post : ho_descriptors c = ds ++ dpost -> ho_descriptor_count c = zlen ds ->
  ho_characteristics c = xs ++ post -> ho_characteristic_count c = zlen xs -> zlen (ho_reports c) = 8 ->
  let new := take 8 (reports_of (sv_end_handle (ho_service c)) ds xs) in
  build_report_list c = Ret (set_report_count (zlen new) (set_reports (new ++ drop (length new) (ho_reports c)) c)).
Proof.
  intros Eds Edc Exs Exc Hz new. unfold build_report_list. rewrite Exc, Nat2Z.id.
  assert (c = set_reports ([] ++ ho_reports c) c) as E by by destruct c. rewrite E at 1.
  exact (build_reports_spec c ds dpost post Eds Edc xs [] [] (ho_reports c) Exs Exc Hz).
Qed.

Lemma skip_reports_spec reports count m : count <= zlen reports -> forall i, 0 <= i <= count -> (Z.to_nat (count - i) < m)%nat -> exists j,
  skip_reports reports count i m = Ret j /\ i <= j <= count /\
  (forall k r, (Z.to_nat i <= k < Z.to_nat j)%nat -> reports !! k = Some r -> rp_reference_handle r = 0) /\
  (j < count -> exists r, ld reports j = Ret r /\ reports !! Z.to_nat j = Some r /\ rp_reference_handle r <> 0).
Proof.
  intros Hz. induction m as [|m IH]; intros i Hi Hm; [lia|]. cbn [skip_reports].
  destruct (Z.ltb_spec i count) as [Hlt|Hge]; [|exists i; split; [done|]; split; [lia|]; split; [lia|]; lia].
  destruct (lookup_lt_is_Some_2 reports (Z.to_nat i)) as [r Hr]; [lia|]. rewrite (ld_lookup reports i r) by (done || lia). cbn [obind].
  destruct (Z.eqb_spec (rp_reference_handle r) 0) as [E0|E0].
  - destruct (IH (i + 1)) as (j & E & Hj & Hk & Hn); [lia|lia|]. exists j. split; [done|]. split; [lia|]. split; [|done].
    intros k r' Hkr Hl. destruct (decide (k = Z.to_nat i)) as [->|]; [congruence|]. apply (Hk k r'); [lia|done].
  - exists i. split; [done|]. split; [lia|]. split; [lia|]. intros _. exists r. split; [apply ld_lookup; [lia|done]|done].
Qed.

(** A request is accepted while operation [o] is under way, or starts it. *)
Lemma busy_asked o c tr cb r : busy_with o c tr ->
  (if starts cb then o = None else o = Some (owner cb)) ->
  forall c', data_ok c' -> (forall k, running k c' = bool_decide (Some (owner cb) = Some k)) -> busy_with (Some (owner cb)) c' (tr ++ [H_ask cb r]).
Proof.
  intros [_ Hh Hr] Ho c' Hd Hk. constructor; [done| |done]. intros k. rewrite hogp_operations_snoc, Hh, Hk. cbn [op_step].
  rewrite Hr. destruct (starts cb); subst o; cbn [andb].
  - rewrite (bool_decide_false (None = Some k)) by done. destruct (decide (owner cb = k)) as [->|]; [by rewrite !bool_decide_true|].
    by rewrite !bool_decide_false by congruence.
  - done.
Qed.

Section Handlers.
  Context (call : api CB UD -> M W bt_status) (n : nat).
Abbreviation ok past d := (within budget (I past d) n).
  Hypothesis Hcall : forall past d, callable budget (I past d) call_ok call n.
  Hypothesis Huser : user_ok budget.

Lemma tell_ok {X} past d (p : prog U (api CB UD) bt_status X) w : pays budget call_ok (fun _ => True) p -> ok past d w ->
  wp (run_prog call p) w (fun _ => ok past d).
Proof. intros Hp Hw. by eapply (wp_prog budget (I past d) call_ok (fun _ => True)). Qed.

(** Operation [k] is over, and nothing is under way. *)
Lemma ended_ok past k r c c' u tr : busy_with (Some k) c tr -> gt_waiting (ho_gatt c) = None -> data_ok c' -> ho_gatt c' = ho_gatt c ->
  (forall k', running k' c' = running k' c && negb (bool_decide (k' = k))) -> past `prefix_of` tr -> (budget u <= n)%nat ->
  ok past (ho_report_descriptor c') (at_ c' u (tr ++ [H_done k r])).
Proof.
  intros [_ Hh Hr] Hw Hd Hg Hk Hp Hu. split; [|done]. split; [|split; [by apply prefix_app_r|done]]. apply core_rest; cbn [w_self w_trace]; [|by rewrite Hg].
  assert (forall k', running k' c' = false) as Hno.
  { intros k'. rewrite Hk, Hr. destruct (decide (k' = k)) as [->|]; [by rewrite (bool_decide_true (k = k)), andb_false_r|].
    by rewrite bool_decide_false by congruence. }
  constructor; [done| |intros k'; by rewrite Hno].
  intros k'. rewrite hogp_operations_snoc, Hh, Hno. cbn [op_step]. rewrite Hr.
  destruct (decide (k = k')) as [->|]; [by rewrite !bool_decide_true|]. by rewrite !bool_decide_false by congruence.
Qed.
(** How an operation ends, from within its handler. *)
Definition inside o past c u tr : Prop := busy_with o c tr /\ gt_waiting (ho_gatt c) = None /\ past `prefix_of` tr /\ (budget u <= n)%nat.

Lemma hogp_finish_ok past r c u tr : inside (Some Op_discover) past c u tr ->
  wp (finish call r) (at_ c u tr) (fun _ => ok past (ho_report_descriptor c)).
Proof.
  intros (Hb & Hw & Hp & Hu). pose proof (b_running _ _ _ Hb Op_discover) as Hr. cbn in Hr. unfold finish. wp_step. apply wp_set; world_simpl.
  destruct (ho_on_complete c) as [cb|] eqn:Ecb; [|by rewrite bool_decide_false in Hr by (by intros [? ?])].
  wp_step. wp_step. apply tell_ok; [by destruct Huser|].
  apply (ended_ok past Op_discover r c (set_on_complete None c)); try done.
  - pose proof (b_data _ _ _ Hb). keeps_hogp.
  - intros []; cbn; by rewrite ?andb_true_r, ?andb_false_r.
Qed.

Lemma complete_write_ok past r c u tr : inside (Some Op_write) past c u tr ->
  wp (complete_write call r) (at_ c u tr) (fun _ => ok past (ho_report_descriptor c)).
Proof.
  intros (Hb & Hw & Hp & Hu). pose proof (b_running _ _ _ Hb Op_write) as Hr. cbn in Hr. unfold complete_write. do 2 wp_step.
  apply wp_set; world_simpl. apply wp_set; world_simpl.
  destruct (ho_on_write_complete c) as [cb|] eqn:Ecb; [|by rewrite bool_decide_false in Hr by (by intros [? ?])].
  wp_step. apply tell_ok; [by destruct Huser|].
  apply (ended_ok past Op_write r c (set_write_user_data None (set_on_write_complete None c))); try done.
  - pose proof (b_data _ _ _ Hb). keeps_hogp.
  - intros []; cbn; by rewrite ?andb_true_r, ?andb_false_r.
Qed.

Lemma complete_mode_ok past r c u tr : inside (Some Op_mode) past c u tr ->
  wp (complete_mode call r) (at_ c u tr) (fun _ => ok past (ho_report_descriptor c)).
Proof.
  intros (Hb & Hw & Hp & Hu). pose proof (b_running _ _ _ Hb Op_mode) as Hr. cbn in Hr. unfold complete_mode. do 2 wp_step.
  apply wp_set; world_simpl. apply wp_set; world_simpl.
  destruct (ho_on_mode_complete c) as [cb|] eqn:Ecb; [|by rewrite bool_decide_false in Hr by (by intros [? ?])].
  wp_step. apply tell_ok; [by destruct Huser|].
  apply (ended_ok past Op_mode r c (set_mode_user_data None (set_on_mode_complete None c))); try done.
  - pose proof (b_data _ _ _ Hb). keeps_hogp.
  - intros []; cbn; by rewrite ?andb_true_r, ?andb_false_r.
Qed.

Lemma on_failure_ok past cb c u tr : inside (Some (owner cb)) past c u tr ->
  wp (on_failure call cb) (at_ c u tr) (fun _ => ok past (ho_report_descriptor c)).
Proof. destruct cb; cbn [owner on_failure]; by (apply hogp_finish_ok || apply complete_write_ok || apply complete_mode_ok). Qed.

(** A call of the GATT client that continues an operation, or starts one:
    [c] is then the client with the operation's callback. *)
Lemma gatt_call_ok past r cb now c u tr (Q : bt_status -> W -> Prop) : data_ok c -> request_ok r -> gt_timely now -> past `prefix_of` tr ->
  (budget u <= n)%nat ->
  (gt_waiting (ho_gatt c) = None -> stage_ok cb c /\ busy_with (Some (owner cb)) c (tr ++ [H_ask cb r])) ->
  (forall w, ok past (ho_report_descriptor c) w -> Q BT_OK w) ->
  (forall e g, e <> BT_OK -> gt_ok g -> gt_waiting g = gt_waiting (ho_gatt c) -> Q e (at_ (set_gatt g c) u tr)) ->
  wp (gatt_call call r cb now) (at_ c u tr) Q.
Proof.
  intros Hd Hr Hn Hp Hu Hbusy HQ HQ'. unfold gatt_call. wp_step. change (id c) with c.
  destruct (gt_start_ok r cb now (ho_gatt c)) as (o & g & -> & Hg & Ho); [by destruct Hd|done..|].
  destruct o as [fired|e|]; [|destruct Ho as [He Hw]; wp_step; apply wp_ret; by apply HQ'|done].
  destruct Ho as [Hnone Hw]. destruct (Hbusy Hnone) as [Hs Hb]. apply (busy_gatt _ _ _ g) in Hb; [|done].
  apply wp_set; world_simpl. apply wp_emit; world_simpl. apply wp_bind. destruct fired.
  - eapply wp_mono; [apply (on_failure_ok past cb (set_gatt g c)); split; [exact Hb|]; split; [done|]; split; [by apply prefix_app_r|done]|].
    intros [] w' Hw'. apply wp_ret. by apply HQ.
  - apply wp_ret, wp_ret, HQ. split; [|done]. split; [|split; [by apply prefix_app_r|done]]. by apply (core_waits _ _ cb).
Qed.

Lemma event_time_ok c u tr Q : data_ok c -> (forall now c', data_ok c' -> gt_timely now -> c' = set_now_us now c -> Q now (at_ c' u tr)) ->
  wp event_time (at_ c u tr) Q.
Proof.
  intros Hd HQ. unfold event_time. wp_step. change (id c) with c. pose proof (d_gatt _ Hd) as Hg. apply gt_event_timely in Hg.
  apply wp_bind. destruct (negb _).
  - eexists _, _. split; [done|]. world_simpl. eexists _, _. split; [done|]. cbn. apply HQ; [keeps_hogp|done|done].
  - apply wp_ret. eexists _, _. split; [done|]. cbn. pose proof (d_now _ Hd). apply HQ; [keeps_hogp|done|by destruct c].
Qed.

(** The next request of a discovery. *)
Lemma ask_ok past r cb c u tr : inside (Some Op_discover) past c u tr -> request_ok r -> stage_ok cb c -> owner cb = Op_discover ->
  starts cb = false -> wp (ask call r cb) (at_ c u tr) (fun _ => ok past (ho_report_descriptor c)).
Proof.
  intros (Hb & Hw & Hp & Hu) Hr Hs Ho Hst. unfold ask. apply wp_bind. apply event_time_ok; [by destruct Hb|].
  intros now c' Hd' Hn ->. assert (busy_with (Some Op_discover) (set_now_us now c) tr) as Hb' by by eapply busy_same.
  apply wp_bind. apply (gatt_call_ok past); try done.
  - intros _. split; [by destruct cb|]. rewrite Ho. rewrite <- Ho. eapply busy_asked; [exact Hb'|by rewrite Hst, Ho|done|].
    intros k. rewrite Ho. by apply Hb'.
  - intros w Hok. rewrite bool_decide_true by done. by apply wp_ret.
  - intros e g He Hg Hw'. rewrite bool_decide_false by done.
    apply (hogp_finish_ok past _ (set_gatt g (set_now_us now c))). split; [by apply busy_gatt|]. split; [by rewrite <- Hw|done].
Qed.
(** *** The handlers of a discovery *)

Lemma inside_same o past c c' u tr : inside o past c u tr -> data_ok c' -> same_ops c c' -> ho_gatt c' = ho_gatt c -> inside o past c' u tr.
Proof. intros (Hb & Hw & Hp) Hd Hs Hg. split; [by eapply busy_same|]. by rewrite Hg. Qed.

Lemma data_pending c i : data_ok c -> 0 <= i <= 8 -> data_ok (set_pending_index i c).
Proof. intros Hd Hi. by keeps_hogp. Qed.

Lemma subscribe_ok past m c u tr : inside (Some Op_discover) past c u tr -> ho_pending_index c <= ho_report_count c ->
  (Z.to_nat (ho_report_count c - ho_pending_index c) < m)%nat ->
  wp (subscribe_reports call m) (at_ c u tr) (fun _ => ok past (ho_report_descriptor c)).
Proof.
  revert c. induction m as [|m IH]; intros c Hi Hp Hm; [lia|]. cbn [subscribe_reports]. wp_step. change (id c) with c.
  destruct (Z.ltb_spec (ho_pending_index c) (ho_report_count c)) as [Hlt|Hge]; [|by apply hogp_finish_ok].
  assert (data_ok c) as Hd by apply Hi. pose proof (d_pending _ Hd) as Hpz. pose proof (d_reports _ Hd) as (Hz & HP & Hc).
  destruct (table_ld report_ok 8 (ho_reports c) (ho_report_count c) (ho_pending_index c)) as (r & Er & Hr); [by apply Hd|lia|].
  eapply wp_lift; [exact Er|]. apply wp_set; world_simpl. set (c1 := set_pending_index (ho_pending_index c + 1) c).
  assert (inside (Some Op_discover) past c1 u tr) as Hi1 by (eapply inside_same; [exact Hi|apply data_pending; [done|lia]|done..]).
  destruct (negb _); [apply (IH c1); [done|cbn; lia|cbn; lia]|].
  destruct (_ =? 0); [by apply (hogp_finish_ok past _ c1)|].
  apply (ask_ok past _ _ c1); try done; [|cbn; lia]. split; [by apply Hr|]. unfold notify_enabled. concrete_bytes.
Qed.

Lemma on_cccd_write_ok past o c u tr : inside (Some Op_discover) past c u tr -> ho_pending_index c <= ho_report_count c ->
  wp (on_cccd_write call o) (at_ c u tr) (fun _ => ok past (ho_report_descriptor c)).
Proof.
  intros Hi Hp. unfold on_cccd_write. destruct (_ && _); [by apply hogp_finish_ok|]. wp_step. change (id c) with c. apply subscribe_ok; [done|done|lia].
Qed.

Lemma read_next_ok past c u tr : inside (Some Op_discover) past c u tr -> ho_pending_index c <= ho_report_count c ->
  descriptor_ok (ho_report_descriptor c) -> wp (read_next_reference call) (at_ c u tr) (fun _ => ok past (ho_report_descriptor c)).
Proof.
  intros Hi Hp Hrd. assert (data_ok c) as Hd by apply Hi. pose proof (d_pending _ Hd) as Hpz.
  pose proof (d_reports _ Hd) as (Hz & HP & Hc). unfold read_next_reference. wp_step. change (id c) with c.
  destruct (skip_reports_spec (ho_reports c) (ho_report_count c) (S (Z.to_nat (ho_report_count c - ho_pending_index c))) ltac:(lia)
    (ho_pending_index c) ltac:(lia) ltac:(lia)) as (j & E & Hj & _ & Hr).
  eapply wp_lift; [exact E|]. apply wp_set; world_simpl. destruct (Z.eqb_spec j (ho_report_count c)) as [Ej|Ej].
  - apply wp_set; world_simpl. set (c1 := set_pending_index 0 (set_pending_index j c)).
    apply (on_cccd_write_ok past None c1); [|cbn; lia]. eapply inside_same; [exact Hi|apply data_pending; [apply data_pending; [done|lia]|lia]|done..].
  - destruct Hr as (r & Er & Hl & _); [lia|]. eapply wp_lift; [exact Er|]. eapply Forall_lookup in HP as Hrok; [|exact Hl].
    apply (ask_ok past _ _ (set_pending_index j c)); try done; [|by apply Hrok|cbn; split; [lia|done]].
    eapply inside_same; [exact Hi|apply data_pending; [done|lia]|done..].
Qed.
(** What the handler leaves: the invariant, over some report descriptor. *)
Abbreviation okx past := (fun _ w => exists d, ok past d w).

Lemma ok_okx past d (m : M W unit) w : wp m w (fun _ => ok past d) -> wp m w (okx past).
Proof. intros Hm. eapply wp_mono; [exact Hm|]. intros [] w' Hw. by exists d. Qed.

Lemma on_services_ok past comp c u tr : inside (Some Op_discover) past c u tr -> fits on_services_cb comp ->
  wp (on_services call comp) (at_ c u tr) (okx past).
Proof.
  intros Hi Hf. apply (ok_okx past (ho_report_descriptor c)). unfold on_services.
  destruct (gatt_ok comp) eqn:Hok; cbn [negb]; [|by apply hogp_finish_ok].
  destruct (fits_services comp Hf Hok) as (l & El & Ec & HP). eapply wp_lift; [rewrite El, Ec, Nat2Z.id; apply (find_service_spec l [])|].
  destruct (hid_service l) as [s|] eqn:Es; [|by apply hogp_finish_ok].
  assert (service_ok s) as Hs.
  { unfold hid_service in Es. apply head_Some_elem_of, list_elem_of_filter in Es as [_ Es]. by eapply Forall_forall in HP. }
  apply wp_set; world_simpl. assert (data_ok c) as Hd by apply Hi.
  apply (ask_ok past _ _ (set_service s c)); try done. eapply inside_same; [exact Hi|by keeps_hogp|done..].
Qed.

(** The tables that a completion fills. *)
Lemma table_filled {A} (P : A -> Prop) size l count new : table P size l count -> Forall P new -> zlen new <= size ->
  table P size (splice l 0 new) (zlen new) /\ exists post, splice l 0 new = new ++ post.
Proof.
  intros (Hz & HP & _) Hn Hl. split; [|by exists (drop (0 + length new) l)].
  split; [by rewrite splice_length by lia|]. split; [|lia]. unfold splice. apply Forall_app. split; [by apply Forall_take|].
  apply Forall_app. split; [done|]. by apply Forall_drop.
Qed.

Lemma on_characteristics_ok past comp c u tr : inside (Some Op_discover) past c u tr -> fits on_characteristics_cb comp ->
  wp (on_characteristics call comp) (at_ c u tr) (okx past).
Proof.
  intros Hi Hf. apply (ok_okx past (ho_report_descriptor c)). unfold on_characteristics. assert (data_ok c) as Hd by apply Hi.
  destruct (gatt_ok comp) eqn:Hok; cbn [negb orb]; [|by apply hogp_finish_ok]. destruct (_ >? _); [by apply hogp_finish_ok|].
  destruct (fits_characteristics comp Hf Hok) as (xs & El & Ec & HP & Hz). rewrite El, Ec.
  destruct (table_filled _ _ _ _ xs (d_characteristics _ Hd) HP Hz) as [Ht [post Epost]].
  set (c0 := set_characteristic_count (zlen xs) (set_characteristics (splice (ho_characteristics c) 0 xs) c)).
  destruct (note_characteristics_spec c0 post xs [] 0 0 0 0 0 Epost) as (p & k & o & m & E & Hu).
  destruct Hu as (Ha & Hp & Hk & Ho & Hm); [done|unfold is_u16; lia..|].
  set (c1 := handles (report_map_of xs 0) p k o m c0) in *. apply wp_bind. unfold update. wp_step. change (id c) with c.
  pose proof (d_characteristics _ Hd) as (Hz16 & _). rewrite ldn_whole. cbn [obind]. rewrite stn_spec by lia. cbn [obind].
  rewrite Nat2Z.id. eapply wp_lift; [exact E|]. apply wp_set_last; world_simpl. wp_step. change (id c1) with c1.
  assert (inside (Some Op_discover) past c1 u tr) as Hi1 by (eapply inside_same; [exact Hi|by keeps_hogp|done..]).
  destruct (_ =? 0); [by apply (hogp_finish_ok past _ c1)|]. apply (ask_ok past _ _ c1); try done. apply Hi1.
Qed.
Lemma on_descriptors_ok past comp c u tr : inside (Some Op_discover) past c u tr -> fits on_descriptors_cb comp ->
  wp (on_descriptors call comp) (at_ c u tr) (okx past).
Proof.
  intros Hi Hf. apply (ok_okx past (ho_report_descriptor c)). unfold on_descriptors. assert (data_ok c) as Hd by apply Hi.
  destruct (gatt_ok comp) eqn:Hok; cbn [negb orb]; [|by apply hogp_finish_ok]. destruct (_ >? _); [by apply hogp_finish_ok|].
  destruct (fits_descriptors comp Hf Hok) as (ds & El & Ec & HP & Hz). rewrite El, Ec.
  destruct (table_filled _ _ _ _ ds (d_descriptors _ Hd) HP Hz) as [Ht [dpost Edpost]].
  destruct (table_split _ _ _ _ (d_characteristics _ Hd)) as (xs & post & Exs & Exc & HX & _).
  set (c0 := set_descriptor_count (zlen ds) (set_descriptors (splice (ho_descriptors c) 0 ds) c)).
  destruct (note_boot_cccds_spec c0 ds dpost post xs Edpost eq_refl [] 0 0 Exs Exc) as (k & m & E & Hu).
  destruct Hu as [Hk Hm]; [done|unfold is_u16; lia..|].
  set (c1 := set_boot_mouse_input_cccd m (set_boot_keyboard_input_cccd k c0)) in *.
  pose proof (d_reports _ Hd) as (Hrz & HR & Hrc).
  pose proof (build_report_list_spec c1 ds dpost xs post Edpost eq_refl Exs Exc Hrz) as E2.
  set (new := take 8 (reports_of (sv_end_handle (ho_service c1)) ds xs)) in *.
  assert (Forall fresh_report new) as Hnew by (by apply Forall_take, reports_of_fresh).
  assert (length new <= 8)%nat as Hnl by (subst new; rewrite length_take; lia).
  set (c2 := set_report_count (zlen new) (set_reports (new ++ drop (length new) (ho_reports c1)) c1)) in *.
  apply wp_bind. unfold update. wp_step. change (id c) with c. pose proof (d_descriptors _ Hd) as (Hz32 & _).
  rewrite ldn_whole. cbn [obind]. rewrite stn_spec by lia. cbn [obind]. rewrite Exc, Nat2Z.id.
  eapply wp_lift; [etrans; [apply (f_equal (fun o => obind o build_report_list)); exact E|exact E2]|]. apply wp_set_last; world_simpl. wp_step. change (id c2) with c2.
  assert (untyped c2) as Hun.
  { unfold untyped. cbn. rewrite Nat2Z.id, take_app_length. eapply Forall_impl; [exact Hnew|]. by intros r [_ ?]. }
  assert (data_ok c2) as Hd2.
  { keeps_hogp; [|by right]. split; [rewrite length_app, length_drop; lia|]. split; [|lia]. apply Forall_app. split; [|by apply Forall_drop].
    eapply Forall_impl; [exact Hnew|]. by intros r [? _]. }
  assert (inside (Some Op_discover) past c2 u tr) as Hi2 by (by eapply inside_same).
  destruct (_ =? 0); [by apply (hogp_finish_ok past _ c2)|]. apply (ask_ok past _ _ c2); try done. apply Hd2.
Qed.

Lemma on_report_map_ok past comp c u tr : inside (Some Op_discover) past c u tr -> fits on_report_map_cb comp -> untyped c ->
  wp (on_report_map call comp) (at_ c u tr) (okx past).
Proof.
  intros Hi Hf Hun. unfold on_report_map. assert (data_ok c) as Hd by apply Hi.
  destruct (gatt_ok comp) eqn:Hok; cbn [negb]; [|apply (ok_okx past (ho_report_descriptor c)); by apply hogp_finish_ok].
  destruct (fits_value _ comp Hf eq_refl Hok) as (v & Ev & En & Hv). rewrite Ev, En. wp_step. change (id c) with c.
  destruct (hid_parse_safe v (ho_report_descriptor c) Hv) as (o & d & E & Ho & Hdo). rewrite E.
  assert (data_ok (set_report_descriptor d c)) as Hd1 by (keeps_hogp; by right).
  destruct o as [[]|e|]; [|apply wp_set; world_simpl|done].
  - specialize (Hdo eq_refl). do 3 (apply wp_set; world_simpl). set (c1 := set_pending_index 0 _).
    assert (data_ok c1) as Hd2.
    { keeps_hogp. eexists _, _. apply input_init_rep. }
    apply (ok_okx past d). apply (read_next_ok past c1); [by eapply inside_same|cbn; apply Hd|done].
  - apply (ok_okx past d). apply (hogp_finish_ok past _ (set_report_descriptor d c)). by eapply inside_same.
Qed.

Lemma on_report_reference_ok past comp c u tr : inside (Some Op_discover) past c u tr -> fits on_report_reference_cb comp ->
  ho_pending_index c < ho_report_count c -> descriptor_ok (ho_report_descriptor c) ->
  wp (on_report_reference call comp) (at_ c u tr) (okx past).
Proof.
  intros Hi Hf Hlt Hrd. unfold on_report_reference. assert (data_ok c) as Hd by apply Hi. apply (ok_okx past (ho_report_descriptor c)).
  destruct (gatt_ok comp) eqn:Hok; cbn [negb orb]; [|by apply hogp_finish_ok].
  destruct (fits_value _ comp Hf eq_refl Hok) as (v & Ev & En & Hv). rewrite Ev, En. cbn [default].
  destruct (Z.eqb_spec (zlen v) 2) as [E2|E2]; cbn [negb]; [|by apply hogp_finish_ok].
  destruct v as [|id [|type [|? ?]]]; try done; [|cbn in E2; lia]. apply Forall_cons in Hv as [Hid Hv].
  eapply wp_lift; [reflexivity|]. destruct (_ || _); [by apply hogp_finish_ok|]. eapply wp_lift; [reflexivity|].
  pose proof (d_reports _ Hd) as (Hrz & HR & Hrc). pose proof (d_pending _ Hd) as Hpz.
  destruct (lookup_lt_is_Some_2 (ho_reports c) (Z.to_nat (ho_pending_index c))) as [r Hr]; [lia|].
  eapply Forall_lookup in HR as Hrok; [|exact Hr]. set (r' := set_report_reference id type r).
  set (c1 := set_pending_index (ho_pending_index c + 1) (set_reports (<[Z.to_nat (ho_pending_index c) := r']> (ho_reports c)) c)).
  apply wp_bind. unfold update. wp_step. change (Datatypes.id c) with c.
  eapply wp_lift.
  { rewrite (ld_lookup _ _ r) by (done || lia). cbn [obind]. rewrite st1_insert by lia. cbn [obind]. reflexivity. }
  apply wp_set_last; world_simpl. apply (read_next_ok past c1); [|cbn; lia|done].
  eapply inside_same; [exact Hi| |done..]. keeps_hogp; [|lia|by left].
  split; [by rewrite length_insert|]. split; [|done]. apply Forall_insert; [done|]. destruct Hrok as (Hv1 & Hv2 & Hv3 & _). exact (conj Hv1 (conj Hv2 (conj Hv3 Hid))).
Qed.
(** *** The handlers of writes and of the protocol mode *)

Lemma next_boot_cccd_spec c step : data_ok c -> 0 <= step <= 2 -> exists step' h, next_boot_cccd c step 0 3 = Ret (step', h) /\ 0 <= step' <= 2 /\ is_u16 h.
Proof.
  intros Hd Hs. pose proof (d_keyboard_cccd _ Hd). pose proof (d_mouse_cccd _ Hd). assert (is_u16 0) by (unfold is_u16; lia).
  assert (step = 0 \/ step = 1 \/ step = 2) as [->|[->| ->]] by lia; cbn [next_boot_cccd Z.ltb Z.eqb andb Z.compare];
    change (u8 (0 + 1)) with 1; change (u8 (1 + 1)) with 2; cbn; repeat case_match; eexists _, _; (split; [reflexivity|]; split; [cbn; lia|done]).
Qed.

Lemma subscribe_boot_ok past c u tr : inside (Some Op_mode) past c u tr -> wp (subscribe_next_boot_input call) (at_ c u tr) (okx past).
Proof.
  intros Hi. assert (data_ok c) as Hd by apply Hi. apply (ok_okx past (ho_report_descriptor c)). unfold subscribe_next_boot_input. wp_step.
  change (id c) with c. destruct (next_boot_cccd_spec c (ho_boot_subscribe_step c) Hd (d_step _ Hd)) as (step & h & E & Hs & Hh).
  eapply wp_lift; [exact E|]. apply wp_set; world_simpl. cbn [fst snd]. set (c1 := set_boot_subscribe_step step c).
  assert (inside (Some Op_mode) past c1 u tr) as Hi1 by (eapply inside_same; [exact Hi|by keeps_hogp|done..]).
  destruct (h =? 0); [by apply (complete_mode_ok past _ c1)|]. destruct Hi1 as (Hb & Hw & Hp & Hu).
  apply wp_bind. apply event_time_ok; [by destruct Hb|]. intros now c' Hd' Hn ->. set (c2 := set_now_us now c1) in *.
  assert (busy_with (Some Op_mode) c2 tr) as Hb' by by eapply busy_same. apply wp_bind. apply (gatt_call_ok past); try done.
  - split; [done|]. unfold notify_enabled. concrete_bytes.
  - intros _. split; [done|]. apply (busy_asked (Some Op_mode) c2 tr on_boot_cccd_write_cb); [done|done|done|]. apply Hb'.
  - intros w Hok. rewrite bool_decide_true by done. by apply wp_ret.
  - intros e g He Hg Hw'. rewrite bool_decide_false by done.
    apply (complete_mode_ok past _ (set_gatt g c2)). split; [by apply busy_gatt|]. split; [by rewrite <- Hw|done].
Qed.

Lemma on_protocol_mode_write_ok past comp c u tr : inside (Some Op_mode) past c u tr ->
  wp (on_protocol_mode_write call comp) (at_ c u tr) (okx past).
Proof.
  intros Hi. unfold on_protocol_mode_write. destruct (negb _); [by apply (ok_okx past (ho_report_descriptor c)), complete_mode_ok|].
  wp_step. destruct (_ =? _); [by apply (ok_okx past (ho_report_descriptor c)), complete_mode_ok|]. apply wp_set; world_simpl.
  assert (data_ok c) as Hd by apply Hi. apply (subscribe_boot_ok past (set_boot_subscribe_step 0 c)).
  eapply inside_same; [exact Hi|by keeps_hogp|done..].
Qed.

(** *** A completion *)

Lemma on_gatt_complete_ok past cb comp c u tr : inside (Some (owner cb)) past c u tr -> stage_ok cb c -> fits cb comp ->
  wp (on_gatt_complete call cb comp) (at_ c u tr) (okx past).
Proof.
  intros Hi Hs Hf. destruct cb; cbn [on_gatt_complete owner stage_ok] in *.
  - by apply on_services_ok.
  - by apply on_characteristics_ok.
  - by apply on_descriptors_ok.
  - by apply on_report_map_ok.
  - destruct Hs. by apply on_report_reference_ok.
  - by apply (ok_okx past (ho_report_descriptor c)), on_cccd_write_ok.
  - by apply (ok_okx past (ho_report_descriptor c)), complete_write_ok.
  - by apply on_protocol_mode_write_ok.
  - unfold on_boot_cccd_write. destruct (negb _); [by apply (ok_okx past (ho_report_descriptor c)), complete_mode_ok|by apply subscribe_boot_ok].
Qed.

(** *** Notifications *)

Definition safe past d (s : W * bool) : Prop := s.2 = false /\ ok past d s.1.

Lemma called_back_ok past d o s : (forall p, o = Some p -> pays budget call_ok (fun _ => True) p) -> safe past d s ->
  safe past d (called_back call o s).2.
Proof.
  intros Hp [Hf Hw]. destruct o as [p|]; [|done]. unfold called_back. destruct (tell_ok past d p s.1 (Hp p eq_refl) Hw) as (go & w' & E & Hw').
  rewrite E. done.
Qed.

Lemma forward_value_ok past d v s : safe past d s -> safe past d (forward_value call v s).2.
Proof. intros Hs. apply called_back_ok; [|done]. intros p. destruct (ho_on_input _); intros [= <-]. by destruct Huser. Qed.

Lemma forward_event_ok past d e s : safe past d s -> safe past d (forward_event call e s).2.
Proof. intros Hs. apply called_back_ok; [|done]. intros p. destruct (ho_on_event _); intros [= <-]. by destruct Huser. Qed.

Lemma decode_ok past d dd report w : descriptor_ok dd -> bytes (default [] report) -> ok past d w ->
  wp (decode call dd report (zlen (default [] report))) w (fun _ => ok past d).
Proof.
  intros Hdd Hb Hw. unfold decode. destruct report as [report|].
  - change (default [] (Some report)) with report in *. destruct (hid_decode_keeps (forward_value call) (safe past d) dd report (w, false) Hdd Hb (forward_value_ok past d))
      as (o & [w' f] & E & Ho & Hf & Hw'); [done|]. cbn in Hf. subst f. exists tt, w'. cbv beta. rewrite E. split; [|done]. by destruct o as [[]| |].
  - by exists tt, w.
Qed.

Lemma core_same c c' tr : core c tr -> data_ok c' -> same_ops c c' -> gt_waiting (ho_gatt c') = gt_waiting (ho_gatt c) -> ho_reports c' = ho_reports c ->
  ho_report_count c' = ho_report_count c -> ho_pending_index c' = ho_pending_index c -> ho_report_descriptor c' = ho_report_descriptor c ->
  core c' tr.
Proof.
  intros [Hb Hs] Hd Hsame Hg E1 E2 E3 E4. split; [rewrite Hg; by eapply busy_same|]. intros cb. rewrite Hg. intros Hw. specialize (Hs cb Hw).
  destruct cb; cbn in *; try done; unfold untyped in *; by rewrite ?E1, ?E2, ?E3, ?E4.
Qed.

Lemma process_ok past d (descriptor : client -> bt_hid_report_descriptor) input set_to report w :
  (forall w, ok past d w -> input_fine (input (w_self w))) -> descriptor_ok (descriptor (w_self w)) ->
  (forall i w, input_fine i -> ok past d w -> ok past d (with_self (set_to i (w_self w)) w)) -> bytes (default [] report) -> ok past d w ->
  wp (process retained call descriptor input set_to report (zlen (default [] report))) w (fun _ => ok past d).
Proof.
  intros Hin Hdd Hset Hb Hw. unfold process. wp_step. change (id (w_self w)) with (w_self w). destruct (bool_decide _); [by apply wp_ret|].
  destruct (Hin w Hw) as (vars & down & Hrep). set (i := aimed (descriptor (w_self w)) (input (w_self w))).
  assert (input_rep i vars down) as Hi by exact Hrep.
  assert (forall o i' w', o <> Fault -> input_fine i' -> ok past d w' ->
    bt_hid_input_process (forward_event call) report (zlen (default [] report)) retained (i, (w, false)) = (o, (i', (w', false))) ->
    wp (fun w => match bt_hid_input_process (forward_event call) report (zlen (default [] report)) retained (i, (w, false)) with
      | (Fault, (_, (w, _))) | (_, (_, (w, true))) => (Fault, w)
      | (_, (i, (w, false))) => (Ret tt, with_self (set_to i (w_self w)) w) end) w (fun _ => ok past d)) as Hrun.
  { intros o i' w' Ho Hi' Hw' E. exists tt, (with_self (set_to i' (w_self w')) w'). rewrite E. split; [by destruct o as [[]| |]|by apply Hset]. }
  destruct (hi_descriptor (input (w_self w))) as [d0|] eqn:E0.
  - destruct report as [report|].
    + change (default [] (Some report)) with report in *. destruct (hid_process_keeps (forward_event call) (safe past d) (descriptor (w_self w)) i (w, false) report retained vars down)
        as (o & i' & [w' f] & vars' & down' & E & Ho & _ & Hr & Hf & Hw'); [by subst i; cbn; rewrite E0|done..|by apply forward_event_ok|done|].
      cbn in Hf. subst f. apply (Hrun o i' w'); [done|by exists vars', down'|done|exact E].
    + apply (Hrun (Fail BT_ERR_INVALID_ARGUMENT) i w); [done|by exists vars, down|done|]. unfold bt_hid_input_process. by destruct (hi_descriptor i).
  - apply (Hrun (Fail BT_ERR_INVALID_ARGUMENT) i w); [done|by exists vars, down|done|]. unfold bt_hid_input_process, i, aimed. cbn. by rewrite E0.
Qed.
Lemma hogp_ok_data past d w : ok past d w -> data_ok (w_self w).
Proof. intros [[[[Hd _ _] _] _] _]. done. Qed.

(** An input state is stored. *)
Lemma stored_ok past d c' w : ok past d w -> data_ok c' -> same_ops (w_self w) c' -> gt_waiting (ho_gatt c') = gt_waiting (ho_gatt (w_self w)) ->
  ho_reports c' = ho_reports (w_self w) -> ho_report_count c' = ho_report_count (w_self w) ->
  ho_pending_index c' = ho_pending_index (w_self w) -> ho_report_descriptor c' = ho_report_descriptor (w_self w) -> ok past d (with_self c' w).
Proof.
  intros [(Hc & Hp & Hrd) Hu] Hd Hs Hg E1 E2 E3 E4. split; [|done]. split; [by eapply core_same|]. split; [done|]. by rewrite <- Hrd, <- E4.
Qed.

Lemma report_processed_ok past d report w : ok past d w -> descriptor_ok d -> bytes (default [] report) ->
  wp (do! decode call d report (zlen (default [] report)) in
      process retained call ho_report_descriptor ho_input set_input report (zlen (default [] report))) w (fun _ => ok past d).
Proof.
  intros Hw Hd Hb. apply wp_bind. eapply wp_mono; [by apply decode_ok|]. intros [] w' Hw'. apply process_ok; [|..|done|done].
  - intros w0 Hw0. apply hogp_ok_data in Hw0. apply Hw0.
  - destruct Hw' as [(_ & _ & ->) _]. done.
  - intros i w0 Hi Hw0. apply hogp_ok_data in Hw0 as Hd0. eapply stored_ok; [exact Hw0|by keeps_hogp|done..].
Qed.

Lemma on_notification_ok past d handle value w : ok past d w -> bytes (default [] value) ->
  wp (on_notification retained call handle value (zlen (default [] value))) w (fun _ => ok past d).
Proof.
  intros Hw Hb. apply hogp_ok_data in Hw as Hd. unfold on_notification. wp_step. change (id (w_self w)) with (w_self w). set (c := w_self w) in *.
  destruct (_ =? _).
  { apply process_ok; [|by apply Hd| |done|done].
    - intros w0 Hw0. apply hogp_ok_data in Hw0. apply Hw0.
    - intros i w0 Hi Hw0. apply hogp_ok_data in Hw0 as Hd0. eapply stored_ok; [exact Hw0| |done..].
      pose proof (d_keyboard _ Hd0) as [? _]. by keeps_hogp. }
  destruct (_ =? _).
  { apply process_ok; [|by apply Hd| |done|done].
    - intros w0 Hw0. apply hogp_ok_data in Hw0. apply Hw0.
    - intros i w0 Hi Hw0. apply hogp_ok_data in Hw0 as Hd0. eapply stored_ok; [exact Hw0| |done..].
      pose proof (d_mouse _ Hd0) as [? _]. by keeps_hogp. }
  destruct (table_split _ _ _ _ (d_reports _ Hd)) as (live & post & El & Ec & HP & Elive).
  eapply wp_lift; [rewrite El, Ec, Nat2Z.id; apply (find_endpoint_spec live handle post [])|].
  destruct (head _) as [e|] eqn:Ee; [|by apply wp_ret]. apply head_Some_elem_of, list_elem_of_filter in Ee as [[_ Et] Ein].
  assert (ho_report_descriptor c = d) as Erd by apply Hw. rewrite Erd.
  assert (descriptor_ok d) as Hdd.
  { destruct (d_typed _ Hd) as [Hdd|Hun]; [by rewrite <- Erd|]. unfold untyped in Hun. rewrite <- Elive in Hun.
    eapply Forall_forall in Hun; [|exact Ein]. rewrite Hun in Et. done. }
  destruct (hd_uses_report_ids d); [|by apply report_processed_ok].
  rewrite Z.gtb_ltb. unfold BT_GATT_CLIENT_MAX_VALUE_LEN. destruct (Z.ltb_spec 512 (zlen (default [] value))) as [|Hl]; [by apply wp_ret|].
  set (v := default [] value) in *.
  eapply (wp_lift _ (rp_report_id e :: v)).
  - rewrite st1_insert by (rewrite length_replicate; lia). cbn [obind]. rewrite ldn_whole. cbn [obind].
    assert (zlen (<[Z.to_nat 0 := rp_report_id e]> (replicate 513 0)) = 513) as E513 by (rewrite length_insert, length_replicate; lia).
    rewrite stn_spec by lia. cbn [obind].
    change (splice _ 1 v) with ([rp_report_id e] ++ v ++ drop (1 + length v) (<[0%nat := rp_report_id e]> (replicate 513 0))).
    rewrite app_assoc. pose proof (ldn_mid [] ([rp_report_id e] ++ v)) as Em. cbn [app] in Em |- *.
    change (zlen (@nil Z)) with 0 in Em. specialize (Em (drop (1 + length v) (<[0%nat := rp_report_id e]> (replicate 513 0)))).
    replace (zlen v + 1) with (zlen (rp_report_id e :: v)) by zlist. exact Em.
  - replace (zlen v + 1) with (zlen (default [] (Some (rp_report_id e :: v)))) by (cbn; lia). apply report_processed_ok; [done|done|].
    constructor; [|done]. eapply Forall_forall in HP; [|exact Ein]. by apply HP.
Qed.
(** *** The calls *)

(** A call that starts operation [k] with the request [r]: [c1] is the client
    with the callback in place, [undo] takes it away again. *)
Lemma hogp_start_ok past d k r cb now c c1 undo u tr : ok past d (at_ c u tr) -> owner cb = k -> starts cb = true -> request_ok r -> gt_timely now ->
  stage_ok cb c1 -> running k c1 = true -> (forall k', k' <> k -> running k' c1 = running k' c) -> data_ok c1 ->
  gt_waiting (ho_gatt c1) = gt_waiting (ho_gatt c) -> ho_report_descriptor c1 = ho_report_descriptor c ->
  (forall g, gt_ok g -> gt_waiting g = gt_waiting (ho_gatt c) -> ok past d (at_ (undo (set_gatt g c1)) u tr)) ->
  wp (let! st := gatt_call call r cb now in
      if bool_decide (st = BT_OK) then ret BT_OK else do! set undo in ret BT_ERR_INVALID_ARGUMENT) (at_ c1 u tr) (fun _ => ok past d).
Proof.
  intros [([Hb Hs] & Hp & Hd) Hu] Ho Hst Hr Hn Hs1 Hrun Hothers Hd1 Hw1 Hrd Hundo. cbn [w_self w_trace w_user] in *. apply wp_bind.
  apply (gatt_call_ok past); try done.
  - intros Hw. split; [done|]. rewrite Hw1 in Hw. rewrite Hw in Hb. cbn in Hb. apply (busy_asked None c); [done|by rewrite Hst|done|].
    intros k'. rewrite Ho. destruct (decide (k' = k)) as [->|Hne]; [by rewrite bool_decide_true, Hrun|].
    rewrite Hothers, (b_running _ _ _ Hb) by done. by rewrite !bool_decide_false by congruence.
  - intros w Hok. rewrite bool_decide_true by done. apply wp_ret. rewrite <- Hd, <- Hrd. done.
  - intros e g He Hg Hw'. rewrite bool_decide_false by done. wp_step. apply wp_ret. apply Hundo; [done|]. by rewrite Hw'.
Qed.

Lemma set_event_handler_ok past d e ud w : ok past d w -> wp (bt_hogp_client_set_event_handler e ud) w (fun _ => ok past d).
Proof.
  intros Hw. unfold bt_hogp_client_set_event_handler. destruct w as [c u tr]. wp_step. apply wp_set_last. apply hogp_ok_data in Hw as Hd.
  eapply (stored_ok past d (set_event_user_data ud (set_on_event e c))) in Hw; [exact Hw| |done..]. cbn in Hd. by keeps_hogp.
Qed.

Lemma hogp_discover_ok past d on_complete on_input ud now w : ok past d w -> gt_timely now ->
  wp (bt_hogp_client_discover call on_complete on_input ud now) w (fun _ => ok past d).
Proof.
  intros Hw Hn. destruct w as [c u tr]. unfold bt_hogp_client_discover. wp_step. change (id c) with c.
  destruct (_ || _) eqn:Eg; [by apply wp_ret|]. apply orb_false_iff in Eg as [[[E1%bool_decide_eq_false _]%orb_false_iff _]%orb_false_iff E2].
  apply bool_decide_eq_false, dec_stable in E2. destruct on_complete as [cb|]; [|done]. apply hogp_ok_data in Hw as Hd. cbn in Hd.
  destruct (gt_notify_ok (ho_gatt c) (d_gatt _ Hd)) as [Hg Hgw]. do 5 (apply wp_set; world_simpl). set (c1 := set_gatt _ _).
  apply (hogp_start_ok past d Op_discover _ _ _ c c1); try done.
  - by intros [].
  - by keeps_hogp.
  - intros g Hg' Hgw'. apply (stored_ok past d (set_on_complete None (set_gatt g c1)) (at_ c u tr)); [done| |by split|done..]. by keeps_hogp.
Qed.

Lemma start_write_ok past d h v cb ud now c u tr : ok past d (at_ c u tr) -> ho_on_write_complete c = None -> is_u16 h -> bytes v ->
  gt_timely now -> wp (start_write call h v (Some cb) ud now) (at_ c u tr) (fun _ => ok past d).
Proof.
  intros Hw Hnone Hh Hv Hn. unfold start_write. do 2 (apply wp_set; world_simpl). set (c1 := set_write_user_data _ _).
  apply hogp_ok_data in Hw as Hd. cbn in Hd.
  apply (hogp_start_ok past d Op_write _ on_report_write_cb now c c1 (fun c => set_write_user_data None (set_on_write_complete None c))); try done.
  - by intros [].
  - by keeps_hogp.
  - intros g Hg Hgw.
    apply (stored_ok past d (set_write_user_data None (set_on_write_complete None (set_gatt g c1))) (at_ c u tr)); [done| |by split|done..].
    by keeps_hogp.
Qed.

Lemma write_report_ok past d id type value on_complete ud now w : ok past d w -> bytes (default [] value) -> gt_timely now ->
  wp (bt_hogp_client_write_report call id type value on_complete ud now) w (fun _ => ok past d).
Proof.
  intros Hw Hv Hn. destruct w as [c u tr]. unfold bt_hogp_client_write_report. wp_step. change (Datatypes.id c) with c.
  destruct value as [v|]; [|by apply wp_ret]. destruct (_ || _) eqn:Eg; [by apply wp_ret|].
  apply orb_false_iff in Eg as [[[E1%bool_decide_eq_false _]%orb_false_iff E2]%orb_false_iff _].
  apply bool_decide_eq_false, dec_stable in E2. destruct on_complete as [cb|]; [|done]. apply hogp_ok_data in Hw as Hd. cbn in Hd.
  destruct (table_split _ _ _ _ (d_reports _ Hd)) as (live & post & El & Ec & HP & _).
  eapply wp_lift; [rewrite El, Ec, Nat2Z.id; apply (find_report_of_spec live id type post [])|].
  destruct (head _) as [r|] eqn:Er; [|by apply wp_ret]. apply head_Some_elem_of, list_elem_of_filter in Er as [_ Er].
  eapply Forall_forall in HP; [|exact Er]. apply start_write_ok; try done. apply HP.
Qed.

Lemma boot_output_ok past d leds on_complete ud now w : ok past d w -> is_byte leds -> gt_timely now ->
  wp (bt_hogp_client_write_boot_keyboard_output call leds on_complete ud now) w (fun _ => ok past d).
Proof.
  intros Hw Hl Hn. destruct w as [c u tr]. unfold bt_hogp_client_write_boot_keyboard_output. wp_step. change (id c) with c.
  destruct (_ || _) eqn:Eg; [by apply wp_ret|]. apply orb_false_iff in Eg as [[_ E1%bool_decide_eq_false]%orb_false_iff E2].
  apply bool_decide_eq_false, dec_stable in E2. destruct on_complete as [cb|]; [|done]. apply hogp_ok_data in Hw as Hd. cbn in Hd.
  apply start_write_ok; try done; [by apply Hd|]. by constructor.
Qed.

Lemma protocol_mode_ok past d mode on_complete ud now w : ok past d w -> is_byte mode -> gt_timely now ->
  wp (bt_hogp_client_set_protocol_mode call mode on_complete ud now) w (fun _ => ok past d).
Proof.
  intros Hw Hm Hn. destruct w as [c u tr]. unfold bt_hogp_client_set_protocol_mode. wp_step. change (id c) with c.
  destruct (_ || _) eqn:Eg; [by apply wp_ret|].
  repeat (apply orb_false_iff in Eg as [Eg ?]). destruct ((mode =? BT_HOGP_PROTOCOL_MODE_BOOT) && _ && _); [by apply wp_ret|]. apply bool_decide_eq_false in Eg. destruct on_complete as [cb|]; [|done].
  assert (ho_on_mode_complete c = None) as Hnone by by apply dec_stable, (bool_decide_eq_false_1 _).
  apply hogp_ok_data in Hw as Hd. cbn in Hd. do 3 (apply wp_set; world_simpl). set (c1 := set_pending_mode mode _).
  apply (hogp_start_ok past d Op_mode _ on_protocol_mode_write_cb now c c1 (fun c => set_mode_user_data None (set_on_mode_complete None c))); try done.
  - split; [apply Hd|by constructor].
  - by intros [].
  - by keeps_hogp.
  - intros g Hg Hgw.
    apply (stored_ok past d (set_mode_user_data None (set_on_mode_complete None (set_gatt g c1))) (at_ c u tr)); [done| |by split|done..]. by keeps_hogp.
Qed.

Lemma hogp_call_ok past d a w : ok past d w -> call_ok a -> wp (run_call call a) w (fun _ => ok past d).
Proof.
  intros Hw Ha. destruct a; cbn [run_call].
  - apply wp_bind. eapply wp_mono; [by apply set_event_handler_ok|]. intros [] w' Hw'. by apply wp_ret.
  - by apply hogp_discover_ok.
  - destruct Ha. by apply write_report_ok.
  - destruct Ha. by apply protocol_mode_ok.
  - destruct Ha. by apply boot_output_ok.
Qed.

(** *** What the GATT client does by itself *)

Lemma gatt_input_ok past d e w : ok past d w -> input_ok e -> wp (run_input retained call e) w (okx past).
Proof.
  intros Hw He. destruct w as [c u tr]. apply hogp_ok_data in Hw as Hd. cbn in Hd. pose proof Hw as [([Hb Hs] & Hp & Hrd) Hu]. cbn [w_self w_trace w_user] in *.
  unfold run_input. wp_step. destruct (bool_decide _) eqn:Ep; cbn [negb]; [|apply wp_ret; by exists d].
  apply bool_decide_eq_true in Ep. destruct e as [g cb comp|g handle value|g]; cbn [possible input_ok] in *.
  - destruct Ep as [Ew Eg], He as [Hg Hf]. apply wp_set; world_simpl. apply on_gatt_complete_ok; [|by apply Hs in Ew; destruct cb|done].
    rewrite Ew in Hb. split; [by apply busy_gatt|]. done.
  - destruct He as [Hg Hv]. apply wp_set; world_simpl. apply (ok_okx past d). apply on_notification_ok; [|done].
    apply (stored_ok past d (set_gatt g c) (at_ c u tr)); [done|by apply data_gatt|by split|done..].
  - apply wp_set_last. exists d. apply (stored_ok past d (set_gatt g c) (at_ c u tr)); [done|by apply data_gatt|by split|done..].
Qed.
End Handlers.

Section Runs.
  Hypothesis Huser : user_ok budget.

Lemma hogp_api_ok depth past d : callable budget (I past d) call_ok (run_api depth) depth.
Proof.
  revert past d. induction depth as [|depth IH]; intros past d a Ha k Hk w Hw; [lia|]. cbn [run_api].
  apply (hogp_call_ok (run_api depth) k); [|done|done|done].
  intros past' d' a' Ha' k' Hk' w' Hw'. apply IH; [done|lia|done].
Qed.

Lemma hogp_step_ok depth past s k w : step_ok s -> (k < depth)%nat -> (exists d, within budget (I past d) k w) ->
  wp (run_step retained depth s) w (fun _ w => exists d, within budget (I past d) k w).
Proof.
  intros Hs Hk [d Hw]. destruct s as [a|e]; cbn [run_step].
  - apply wp_bind. eapply wp_mono; [by eapply hogp_api_ok|]. intros st w' Hw'. apply wp_ret. by exists d.
  - eapply (gatt_input_ok (run_api depth) k); [|done|done|done]. intros past' d' a' Ha' k' Hk' w' Hw'. apply hogp_api_ok; [done|lia|done].
Qed.

Lemma hogp_steps_ok depth past l k w : Forall step_ok l -> (k < depth)%nat -> (exists d, within budget (I past d) k w) ->
  wp (run_steps retained depth l) w (fun _ w => exists d, within budget (I past d) k w).
Proof.
  intros Hl Hk. revert w. induction Hl as [|s l Hs Hl IH]; intros w Hw; [by apply wp_ret|]. cbn [run_steps foldr].
  apply wp_bind. eapply wp_mono; [by apply hogp_step_ok|]. intros [] w' Hw'. by apply IH.
Qed.
End Runs.

Lemma boot_descriptor_ok map : bytes map -> (bt_hid_report_parse (Some map) (zlen map) zero_descriptor).1 = Ret tt ->
  descriptor_ok (bt_hid_report_parse (Some map) (zlen map) zero_descriptor).2.
Proof. intros Hb Hr. destruct (hid_parse_safe map zero_descriptor Hb) as (o & d & E & _ & Hd). rewrite E in *. auto. Qed.

Lemma hogp_init_ok g u : gt_ok g -> gt_waiting g = None -> I [] zero_descriptor (at_ (bt_hogp_client_init g) u []).
Proof.
  intros Hg Hw. assert (is_u16 0) as H16 by (unfold is_u16; lia). assert (is_byte 0) as H8 by (unfold is_byte; lia).
  assert (forall d, input_fine (bt_hid_input_init d)) as Hin by (intros d; eexists _, _; apply input_init_rep).
  assert (forall A (P : A -> Prop) (n : nat) x, P x -> table P (Z.of_nat n) (replicate n x) 0) as Htab.
  { intros A P n x Hx. split; [by rewrite length_replicate|]. split; [by apply Forall_replicate|lia]. }
  pose proof (boot_descriptor_ok boot_keyboard_map ltac:(concrete_bytes) ltac:(vm_compute; reflexivity)) as Hk.
  pose proof (boot_descriptor_ok boot_mouse_map ltac:(concrete_bytes) ltac:(vm_compute; reflexivity)) as Hm.
  unfold bt_hogp_client_init. generalize dependent (bt_hid_report_parse (Some boot_keyboard_map) (zlen boot_keyboard_map) zero_descriptor).2.
  generalize dependent (bt_hid_report_parse (Some boot_mouse_map) (zlen boot_mouse_map) zero_descriptor).2. intros dm Hm dk Hk.
  split; [|split; [by apply prefix_nil|done]]. apply core_rest; [|done]. constructor; [|by intros []..].
  constructor; cbn -[replicate zero_descriptor]; try assumption; try apply gt_zero_timely.
  - done.
  - by apply (Htab _ _ 16%nat).
  - by apply (Htab _ _ 32%nat).
  - by apply (Htab _ _ 8%nat).
  - lia.
  - apply Hin.
  - by split.
  - by split.
  - lia.
  - right. constructor.
Qed.

End Safety.

(** A client that has just been initialised. *)
Definition fresh {CB UD G U} (g : G) (u : U) : world (bt_hogp_client CB UD G) U hogp_event :=
  {| w_self := bt_hogp_client_init g; w_user := u; w_trace := [] |}.

(** ** Property *)

(** C15.  Every operation of the HOGP client ends once, and none is forgotten.
    Whatever calls are made, and whatever the GATT client does (complete the
    request under way with anything that fits it, hand over notifications of
    any handle and any bytes), in any order, with callbacks that call the client
    again as long as they have a budget, the client returns and touches no
    memory outside its objects; a discovery, a write and a change of protocol
    mode each end only when they were started and have not ended; and one of
    them is under way exactly while the GATT client has a request of it, so
    that there is one at a time, which ends when the GATT client stops
    answering it. *)
Theorem hogp_completes_once : forall {CB UD G U} `{HogpUser CB UD U} `{GattLayer G} (budget : U -> nat) retained steps g u depth,
  zlen retained = 32 -> user_ok budget -> gt_ok g -> gt_waiting g = None -> Forall step_ok steps -> (budget u < depth)%nat ->
  exists w, run_steps retained depth steps (fresh g u) = (Ret tt, w) /\
    (forall k, operations k (w_trace w) = Some (running k (w_self w))) /\
    (forall k, running k (w_self w) = true <-> owner <$> gt_waiting (ho_gatt (w_self w)) = Some k) /\
    0 <= ho_pending_index (w_self w) <= BT_HOGP_MAX_REPORTS /\ 0 <= ho_report_count (w_self w) <= BT_HOGP_MAX_REPORTS.
Proof.
  intros CB UD G U HU HG budget retained steps g u depth Hret Huser Hg Hw Hsteps Hd.
  destruct (hogp_steps_ok budget retained Hret Huser depth [] steps (budget u) (fresh g u) Hsteps Hd) as ([] & w & E & d & [([[Hdata Hh Hr] _] & _) _]).
  { exists zero_descriptor. split; [|done]. by apply hogp_init_ok. }
  exists w. split; [done|]. split; [done|]. split; [intros k; by rewrite Hr, bool_decide_eq_true|].
  split; [apply Hdata|]. by destruct (d_reports _ Hdata) as (_ & _ & ?).
Qed.

(** ** Witnesses *)

(** A GATT client that accepts one request at a time. *)
#[local] Instance toy_gatt : GattLayer (option gatt_callback).
Proof.
  refine {|
    gt_start := fun _ cb _ (g : option gatt_callback) => match g with None => (Ret false, Some cb) | Some _ => (Fail BT_ERR_INVALID_ARGUMENT, g) end;
    gt_set_notify_handler := id; gt_channel_ready := fun _ => true; gt_busy := fun g => bool_decide (g <> None);
    gt_event_now_us := fun _ => 0; gt_waiting := id; gt_ok := fun _ => True; gt_timely := fun _ => True |}; try done.
  intros r cb now [cb'|] _ _ _; [by exists (Fail BT_ERR_INVALID_ARGUMENT), (Some cb')|by exists (Ret false), (Some cb)].
Defined.

(** A user that keeps the input events and, as long as it may, goes to the boot
    protocol when something ends. *)
Definition toy_user : Type := nat * list (Z * Z * Z).
Abbreviation toy_prog := (prog toy_user (api unit unit) bt_status).
Definition keep_event (e : bt_hid_input_event) : toy_prog bool :=
  Get (fun u => Put (u.1, u.2 ++ [(ev_usage_page e, ev_usage e, ev_value e)]) (Done true)).
Definition go_to_boot : toy_prog unit :=
  Get (fun u => match u with
    | (O, _) => Done tt
    | (S k, l) => Put (k, l) (Call (SetProtocolMode 0 (Some tt) None 9) (fun _ => Done tt))
    end).
#[local] Instance toy_hogp_user : HogpUser unit unit toy_user :=
  {| complete_fn := fun _ _ _ => go_to_boot; input_fn := fun _ _ _ => Done true; event_fn := fun _ e _ => keep_event e |}.

Lemma toy_hogp_user_ok : user_ok (G := option gatt_callback) fst.
Proof.
  constructor; intros cb x ud [k l].
  - destruct k as [|k]; cbn; [done|]. unfold is_byte. repeat split; lia.
  - done.
  - cbn. lia.
Qed.

(** A keyboard: a report map, an input report and the boot keyboard. *)
Definition toy_service : bt_gatt_service := {| sv_start_handle := 16; sv_end_handle := 40; sv_uuid16 := 6162 |}.
Definition toy_characteristics : list bt_gatt_characteristic :=
  [{| cc_declaration_handle := 17; cc_value_handle := 18; cc_properties := 2; cc_uuid16 := 10827 |};
   {| cc_declaration_handle := 20; cc_value_handle := 21; cc_properties := 18; cc_uuid16 := 10829 |};
   {| cc_declaration_handle := 24; cc_value_handle := 25; cc_properties := 4; cc_uuid16 := 10830 |};
   {| cc_declaration_handle := 26; cc_value_handle := 27; cc_properties := 18; cc_uuid16 := 10786 |}].
Definition toy_descriptors : list bt_gatt_descriptor :=
  [{| ds_handle := 22; ds_uuid16 := 10498 |}; {| ds_handle := 23; ds_uuid16 := 10504 |}; {| ds_handle := 28; ds_uuid16 := 10498 |}].

Definition toy_steps : list (api unit unit + hogp_input (option gatt_callback)) :=
  [inl (SetEventHandler (Some tt) None); inl (Discover (Some tt) None None 5);
   inr (GattCompletes None on_services_cb (services_found [toy_service]));
   inr (GattCompletes None on_characteristics_cb (characteristics_found toy_characteristics));
   inr (GattCompletes None on_descriptors_cb (descriptors_found toy_descriptors));
   inr (GattCompletes None on_report_map_cb (value_read boot_keyboard_map));
   inr (GattCompletes None on_report_reference_cb (value_read [0; 1]));
   inr (GattCompletes None on_cccd_write_cb value_written);
   inr (GattNotifies (Some on_protocol_mode_write_cb) 21 (Some [2; 0; 4; 0; 0; 0; 0; 0]))].

Lemma toy_steps_ok : Forall step_ok toy_steps.
Proof.
  repeat (apply Forall_cons; split); try apply Forall_nil_2; try done; (split; [done|]).
  - apply services_found_fits; [|done]. by repeat constructor.
  - apply characteristics_found_fits; [|done]. by repeat constructor.
  - apply descriptors_found_fits; [|done]. by repeat constructor.
  - apply value_read_fits; [done|concrete_bytes|done].
  - apply value_read_fits; [done|concrete_bytes|done].
  - concrete_bytes.
Qed.

Lemma hogp_completes_once_witness : exists w, run_steps (replicate 32 zero_usage) 2 toy_steps (fresh None (1%nat, [])) = (Ret tt, w) /\
  (forall k, operations k (w_trace w) = Some (running k (w_self w))) /\
  (forall k, running k (w_self w) = true <-> owner <$> gt_waiting (ho_gatt (w_self w)) = Some k) /\
  w_trace w = [H_ask on_services_cb G_discover_services; H_ask on_characteristics_cb (G_discover_characteristics 16 40);
    H_ask on_descriptors_cb (G_discover_descriptors 16 40); H_ask on_report_map_cb (G_read 18);
    H_ask on_report_reference_cb (G_read 23); H_ask on_cccd_write_cb (G_write 22 [1; 0]); H_done Op_discover BT_HOGP_CLIENT_OK;
    H_ask on_protocol_mode_write_cb (G_write 25 [0])] /\
  w_user w = (0%nat, [(7, 225, 1); (7, 4, 1)]).
Proof.
  destruct (hogp_completes_once fst (replicate 32 zero_usage) toy_steps None (1%nat, []) 2%nat) as (w & E & Ho & Hr & _);
    [done|exact toy_hogp_user_ok|done|done|exact toy_steps_ok|cbn; lia|].
  exists w. split; [exact E|]. split; [exact Ho|]. split; [exact Hr|].
  assert (w_trace w = w_trace (run_steps (replicate 32 zero_usage) 2 toy_steps (fresh None (1%nat, []))).2) as -> by (by rewrite E).
  assert (w_user w = w_user (run_steps (replicate 32 zero_usage) 2 toy_steps (fresh None (1%nat, []))).2) as -> by (by rewrite E).
  split; vm_compute; reflexivity.
Defined.
(** ** What modelling showed *)

Abbreviation seen_with calls := (run_steps (replicate 32 zero_usage) 1 calls (fresh None (0%nat, []))).2.

(** Where a device has no boot keyboard the handle of one is 0; a notification
    of handle 0, which is no handle of an attribute, then presses keys. *)
Example phantom_boot_keyboard :
  w_user (seen_with [inl (SetEventHandler (Some tt) None); inl (Discover (Some tt) None None 5);
    inr (GattNotifies (Some on_services_cb) 0 (Some [0; 0; 4; 0; 0; 0; 0; 0]))]) = (0%nat, [(7, 4, 1)]).
Proof. vm_compute. reflexivity. Qed.

(** Nine input reports: the discovery succeeds with eight of them enabled. *)
Definition nine_characteristics : list bt_gatt_characteristic :=
  {| cc_declaration_handle := 17; cc_value_handle := 18; cc_properties := 2; cc_uuid16 := 10827 |} ::
  map (fun k => {| cc_declaration_handle := 20 + 4 * Z.of_nat k; cc_value_handle := 21 + 4 * Z.of_nat k; cc_properties := 18;
                   cc_uuid16 := 10829 |}) (seq 0 9).
Definition nine_descriptors : list bt_gatt_descriptor :=
  mjoin (map (fun k => [{| ds_handle := 22 + 4 * Z.of_nat k; ds_uuid16 := 10498 |};
                        {| ds_handle := 23 + 4 * Z.of_nat k; ds_uuid16 := 10504 |}]) (seq 0 9)).

Example ninth_report_not_enabled :
  let w := seen_with ([inl (Discover (Some tt) None None 5);
    inr (GattCompletes None on_services_cb (services_found [{| sv_start_handle := 16; sv_end_handle := 80; sv_uuid16 := 6162 |}]));
    inr (GattCompletes None on_characteristics_cb (characteristics_found nine_characteristics));
    inr (GattCompletes None on_descriptors_cb (descriptors_found nine_descriptors));
    inr (GattCompletes None on_report_map_cb (value_read boot_keyboard_map))] ++
    replicate 9 (inr (GattCompletes None on_report_reference_cb (value_read [0; 1]))) ++
    replicate 9 (inr (GattCompletes None on_cccd_write_cb value_written))) in
  omap (fun e => match e with H_ask on_cccd_write_cb (G_write h _) => Some h | _ => None end) (w_trace w) =
    [22; 26; 30; 34; 38; 42; 46; 50] /\
  last (w_trace w) = Some (H_done Op_discover BT_HOGP_CLIENT_OK).
Proof. vm_compute. done. Qed.

End Hogp.
