(* ===== verification/InputBridge.v ===== *)
(** * The input bridge of the AROS port: ports/aros/input/input_bridge.c

    HID events become AROS input events: raw key codes with the qualifiers of
    the modifiers that are held, mouse buttons and motion, and wheel clicks.
    The bridge is the callback that is installed on the HID client, so its last
    theorem composes it with [HidInput]: reports in, AROS events out. *)

From Stdlib Require Import ZArith Lia.
From stdpp Require Import base list list_numbers gmap.
From S2P Require Import Prelude HidReport HidInput.

Module InputBridge.
Import HidReport HidInput.

(** ** Events: include/bluetooth/aros_input_bridge.h *)

Definition BT_AROS_IECLASS_RAWKEY : Z := 1.
Definition BT_AROS_IECLASS_RAWMOUSE : Z := 2.
Definition BT_AROS_IECODE_UP_PREFIX : Z := 128.
Definition BT_AROS_IECODE_LBUTTON : Z := 104.
Definition BT_AROS_IECODE_RBUTTON : Z := 105.
Definition BT_AROS_IECODE_MBUTTON : Z := 106.
Definition BT_AROS_IECODE_NOBUTTON : Z := 255.

Record bt_aros_input_event : Type := {
  ie_event_class : Z;
  ie_code : Z;
  ie_qualifier : Z;
  ie_x : Z;
  ie_y : Z;
}.

#[export] Instance event_kind_eq_dec : EqDecision bt_hid_input_event_kind.
Proof. solve_decision. Defined.

#[export] Instance aros_input_event_eq_dec : EqDecision bt_aros_input_event.
Proof. solve_decision. Defined.

(** HID keyboard usage to raw key code; 0xFF where there is none. *)
Definition keyboard_map : list Z :=
  [255; 255; 255; 255;  32;  53;  51;  34;
    18;  35;  36;  37;  23;  38;  39;  40;
    55;  54;  24;  25;  16;  19;  33;  20;
    22;  52;  17;  50;  21;  49;   1;   2;
     3;   4;   5;   6;   7;   8;   9;  10;
    68;  69;  65;  66;  64;  11;  12;  26;
    27;  13;  43;  41;  42;   0;  56;  57;
    58;  98;  80;  81;  82;  83;  84;  85;
    86;  87;  88;  89; 255;  95; 255; 255;
   255; 255; 255; 255;  70; 255; 255;  78;
    79;  77;  76; 255;  92;  93;  74;  94;
    67;  29;  30;  31;  45;  46;  47;  61;
    62;  63;  15;  60;  48; 255; 255; 255].

Section bridge.
  Context {U : Type}.

(** [emit] is the port's, on the state its [context] points to. *)
Record bt_aros_input_bridge : Type := {
  br_emit : option (bt_aros_input_event -> U -> bt_status * U);
  br_qualifier : Z;
}.

Definition set_qualifier (q : Z) (b : bt_aros_input_bridge) : bt_aros_input_bridge :=
  {| br_emit := br_emit b; br_qualifier := q |}.

(** A call works on the bridge and on the state of [emit]. *)
Definition bridge_state : Type := bt_aros_input_bridge * U.

Definition emit (event_class code x y : Z) : M bridge_state bool := fun s =>
  let '(b, u) := s in
  match br_emit b with
  | None => (Fault, s)
  | Some f =>
      let '(status, u) :=
        f {| ie_event_class := event_class; ie_code := code; ie_qualifier := br_qualifier b; ie_x := x; ie_y := y |} u in
      (Ret (bool_decide (status = BT_OK)), (b, u))
  end.

Definition modifier_qualifier (usage : Z) : outcome Z :=
  ld [Z.shiftl 1 3; Z.shiftl 1 0; Z.shiftl 1 4; Z.shiftl 1 6; Z.shiftl 1 3; Z.shiftl 1 1; Z.shiftl 1 5; Z.shiftl 1 7]
     (usage - 224).

Definition modifier_rawkey (usage : Z) : outcome Z := ld [99; 96; 100; 102; 99; 97; 101; 103] (usage - 224).

(** [if (event->value == 0) code |= BT_AROS_IECODE_UP_PREFIX;] *)
Definition with_prefix (event : bt_hid_input_event) (code : Z) : Z :=
  if ev_value event =? 0 then Z.lor code BT_AROS_IECODE_UP_PREFIX else code.

Definition handle_key (event : bt_hid_input_event) : M bridge_state bool :=
  let press rawkey := emit BT_AROS_IECLASS_RAWKEY (with_prefix event rawkey) 0 0 in
  if (ev_usage event >=? 224) && (ev_usage event <=? 231) then
    let! qualifier := lift (modifier_qualifier (ev_usage event)) in
    do! modify (fun s => (set_qualifier
          (if negb (ev_value event =? 0) then Z.lor (br_qualifier s.1) qualifier
           else Z.land (br_qualifier s.1) (u16 (Z.lnot qualifier))) s.1, s.2)) in
    let! rawkey := lift (modifier_rawkey (ev_usage event)) in
    press rawkey
  else if ev_usage event >=? zlen keyboard_map then ret true
  else
    let! rawkey := lift (ld keyboard_map (ev_usage event)) in
    if rawkey =? 255 then ret true else press rawkey.

Definition handle_button (event : bt_hid_input_event) : M bridge_state bool :=
  let press code := emit BT_AROS_IECLASS_RAWMOUSE (with_prefix event code) 0 0 in
  if ev_usage event =? 1 then press BT_AROS_IECODE_LBUTTON
  else if ev_usage event =? 2 then press BT_AROS_IECODE_RBUTTON
  else if ev_usage event =? 3 then press BT_AROS_IECODE_MBUTTON
  else if ev_usage event =? 4 then press 126
  else ret true.

(** [while (count-- != 0)]: a click is a press and a release. *)
Fixpoint wheel_loop (code : Z) (count : nat) : M bridge_state bool :=
  match count with
  | O => ret true
  | S count =>
      let! down := emit BT_AROS_IECLASS_RAWKEY code 0 0 in
      if negb down then ret false else
      let! up := emit BT_AROS_IECLASS_RAWKEY (u16 (Z.lor code BT_AROS_IECODE_UP_PREFIX)) 0 0 in
      if negb up then ret false else wheel_loop code count
  end.

(** [(int16_t)event->value] keeps the low 16 bits; the wheel's count goes
    through [int64_t], so that of the smallest value is not negative. *)
Definition handle_axis (event : bt_hid_input_event) : M bridge_state bool :=
  let move x y := emit BT_AROS_IECLASS_RAWMOUSE BT_AROS_IECODE_NOBUTTON x y in
  if ev_usage event =? 48 then move (s16 (ev_value event)) 0
  else if ev_usage event =? 49 then move 0 (s16 (ev_value event))
  else if (ev_usage event =? 56) && negb (ev_value event =? 0) then
    let code := if ev_value event >? 0 then 122 else 123 in
    let count := u32 (if ev_value event >? 0 then ev_value event else - ev_value event) in
    wheel_loop code (Z.to_nat count)
  else ret true.

Definition handle_consumer (event : bt_hid_input_event) : M bridge_state bool :=
  let press code := emit BT_AROS_IECLASS_RAWKEY (with_prefix event code) 0 0 in
  if ev_usage event =? 181 then press 117
  else if ev_usage event =? 182 then press 116
  else if ev_usage event =? 183 then press 114
  else if ev_usage event =? 205 then press 115
  else ret true.

Definition bt_aros_input_bridge_init (emit_fn : option (bt_aros_input_event -> U -> bt_status * U)) : bt_aros_input_bridge :=
  {| br_emit := emit_fn; br_qualifier := 0 |}.

(** [user_data] points to the bridge, which is the state; [event] is NULL or
    an event. *)
Definition bt_aros_input_bridge_handle (event : option bt_hid_input_event) : M bridge_state bool :=
  let! b := gets fst in
  match event, br_emit b with
  | Some event, Some _ =>
      match ev_kind event with
      | BT_HID_INPUT_EVENT_KEY => handle_key event
      | BT_HID_INPUT_EVENT_BUTTON => handle_button event
      | BT_HID_INPUT_EVENT_AXIS => handle_axis event
      | BT_HID_INPUT_EVENT_CONSUMER => handle_consumer event
      | BT_HID_INPUT_EVENT_GENERIC => ret true
      end
  | _, _ => ret false
  end.

(** The bridge as a [bt_hid_input_event_fn]; that it returns is [handle_spec]. *)
Definition bridge_fn (event : bt_hid_input_event) (s : bridge_state) : bool * bridge_state :=
  match bt_aros_input_bridge_handle (Some event) s with
  | (Ret go, s) => (go, s)
  | (_, s) => (false, s)
  end.

End bridge.
Arguments bt_aros_input_bridge : clear implicits.
Arguments bridge_state : clear implicits.

(** ** Specification: the events a HID event stands for *)

(** The bit and the code of a modifier. *)
Definition modifiers : list (Z * Z) := [(3, 99); (0, 96); (4, 100); (6, 102); (3, 99); (1, 97); (5, 101); (7, 103)].
Definition modifier_of (usage : Z) : option (Z * Z) := if 224 <=? usage then modifiers !! Z.to_nat (usage - 224) else None.

Definition rawkey_of (usage : Z) : option Z :=
  match modifier_of usage with
  | Some (_, code) => Some code
  | None => c ← keyboard_map !! Z.to_nat usage; if c =? 255 then None else Some c
  end.

Definition aros (q class code x y : Z) : bt_aros_input_event :=
  {| ie_event_class := class; ie_code := code; ie_qualifier := q; ie_x := x; ie_y := y |}.

(** A code goes up with 128 added to it: all of them are below. *)
Definition stroke (q class : Z) (ev : bt_hid_input_event) (code : Z) : bt_aros_input_event :=
  aros q class (if ev_value ev =? 0 then code + 128 else code) 0 0.

Definition button_of (usage : Z) : option Z := list_to_map (M := gmap Z Z) [(1, 104); (2, 105); (3, 106); (4, 126)] !! usage.
Definition media_of (usage : Z) : option Z := list_to_map (M := gmap Z Z) [(181, 117); (182, 116); (183, 114); (205, 115)] !! usage.

Definition clicks (q code : Z) (n : nat) : list bt_aros_input_event :=
  mjoin (replicate n [aros q 1 code 0 0; aros q 1 (code + 128) 0 0]).

Definition qualifier_after (ev : bt_hid_input_event) (q : Z) : Z :=
  match ev_kind ev, modifier_of (ev_usage ev) with
  | BT_HID_INPUT_EVENT_KEY, Some (bit, _) => if ev_value ev =? 0 then Z.clearbit q bit else Z.setbit q bit
  | _, _ => q
  end.

(** The events of [ev], with the qualifier [q] that holds after it. *)
Definition aros_events (ev : bt_hid_input_event) (q : Z) : list bt_aros_input_event :=
  match ev_kind ev with
  | BT_HID_INPUT_EVENT_KEY => option_list (stroke q 1 ev <$> rawkey_of (ev_usage ev))
  | BT_HID_INPUT_EVENT_BUTTON => option_list (stroke q 2 ev <$> button_of (ev_usage ev))
  | BT_HID_INPUT_EVENT_CONSUMER => option_list (stroke q 1 ev <$> media_of (ev_usage ev))
  | BT_HID_INPUT_EVENT_GENERIC => []
  | BT_HID_INPUT_EVENT_AXIS =>
      if ev_usage ev =? 48 then [aros q 2 255 (s16 (ev_value ev)) 0]
      else if ev_usage ev =? 49 then [aros q 2 255 0 (s16 (ev_value ev))]
      else if ev_usage ev =? 56 then clicks q (if ev_value ev >? 0 then 122 else 123) (Z.to_nat (Z.abs (ev_value ev)))
      else []
  end.

(** What a 16-bit usage and a 32-bit value can be. *)
Definition event_fits (ev : bt_hid_input_event) : Prop := is_u16 (ev_usage ev) /\ - 2 ^ 31 <= ev_value ev < 2 ^ 31.

(** ** The bridge does what the specification says *)

Lemma stroke_code (ev : bt_hid_input_event) code : 0 <= code < 128 ->
  with_prefix ev code = if ev_value ev =? 0 then code + 128 else code.
Proof.
  intros Hc. unfold with_prefix, BT_AROS_IECODE_UP_PREFIX. destruct (ev_value ev =? 0); [|done].
  change 128 with (Z.shiftl 1 7) at 1. rewrite lor_shiftl by lia. lia.
Qed.

Lemma mask_out q b : is_u16 q -> 0 <= b -> Z.land q (u16 (Z.lnot (2 ^ b))) = Z.clearbit q b.
Proof.
  intros Hq Hb. unfold u16. rewrite <- Z.land_ones by lia. rewrite Z.clearbit_spec', Z.ldiff_land, (Z.land_comm (Z.lnot _)).
  rewrite Z.land_assoc, Z.land_ones by lia. by rewrite Z.mod_small.
Qed.

Lemma u16_setbit q b : is_u16 q -> 0 <= b < 16 -> is_u16 (Z.setbit q b).
Proof.
  intros [H0 H1] Hb. unfold is_u16. rewrite Z.setbit_spec'. split; [apply Z.lor_nonneg; split; [done|]; apply Z.pow_nonneg; lia|].
  assert (Z.lor q (2 ^ b) = Z.lor q (2 ^ b) mod 2 ^ 16) as ->; [|by apply Z.mod_pos_bound].
  rewrite <- Z.land_ones, Z.land_lor_distr_l, !Z.land_ones by lia. rewrite (Z.mod_small q) by done.
  f_equal. symmetry. apply Z.mod_small. split; [apply Z.pow_nonneg; lia|]. apply Z.pow_lt_mono_r; lia.
Qed.

Lemma u16_clearbit q b : is_u16 q -> 0 <= b -> is_u16 (Z.clearbit q b).
Proof.
  intros Hq Hb. rewrite <- mask_out by done. unfold is_u16.
  assert (Z.land q (u16 (Z.lnot (2 ^ b))) = Z.land q (u16 (Z.lnot (2 ^ b))) mod 2 ^ 16) as ->; [|by apply Z.mod_pos_bound].
  rewrite <- Z.land_ones, <- Z.land_assoc by lia. f_equal. unfold u16. rewrite Z.land_ones by lia. by rewrite Zmod_mod.
Qed.

(** A usage is that of a modifier or not. *)
Lemma modifier_cases usage : 0 <= usage ->
  (exists bit code, 224 <= usage <= 231 /\ modifier_of usage = Some (bit, code) /\ 0 <= bit < 8 /\ 0 <= code < 128 /\
     modifier_qualifier usage = Ret (2 ^ bit) /\ modifier_rawkey usage = Ret code) \/
  ((usage < 224 \/ 231 < usage) /\ modifier_of usage = None).
Proof.
  intros H0. destruct (decide (224 <= usage <= 231)) as [H|H].
  - left. replace usage with (224 + (usage - 224)) by lia.
    assert (exists n : nat, (n < 8)%nat /\ usage - 224 = Z.of_nat n) as (n & Hn & ->) by (exists (Z.to_nat (usage - 224)); lia).
    do 8 (destruct n as [|n]; [eexists _, _; split; [lia|]; split; [reflexivity|]; split; [lia|]; split; [lia|]; by split|]). lia.
  - right. split; [lia|]. unfold modifier_of. destruct (Z.leb_spec 224 usage); [|done].
    apply lookup_ge_None_2. change (length modifiers) with 8%nat. lia.
Qed.

Lemma modifier_bit u bit code : modifier_of u = Some (bit, code) -> 0 <= bit.
Proof.
  intros Hm. assert (0 <= u) as H0 by (unfold modifier_of in Hm; destruct (Z.leb_spec 224 u); [lia|done]).
  destruct (modifier_cases u H0) as [(b & k & _ & E & Hb & _)|[_ E]]; rewrite E in Hm; [|done]. injection Hm as <- _. lia.
Qed.

Lemma keyboard_code_range c : c ∈ keyboard_map -> c <> 255 -> 0 <= c < 128.
Proof.
  intros Hc%list_elem_of_In H255. assert (forallb (fun c => (c =? 255) || (0 <=? c) && (c <? 128)) keyboard_map = true) as Hall by reflexivity.
  rewrite forallb_forall in Hall. specialize (Hall c Hc). lia.
Qed.

Section run.
  Context {U : Type} (f : bt_aros_input_event -> U -> bt_status * U).

(** The port's [emit], as a callback that can ask to stop. *)
Definition sink (e : bt_aros_input_event) (u : U) : bool * U := let '(status, u) := f e u in (bool_decide (status = BT_OK), u).

Abbreviation bridge q := {| br_emit := Some f; br_qualifier := q |}.

(** A call of the bridge that emits [evs] and leaves the qualifier [q]. *)
Definition emits (m : M (bridge_state U) bool) (q : Z) (u : U) (q' : Z) (evs : list bt_aros_input_event) : Prop :=
  m (bridge q, u) = let '(go, u) := feed sink evs u in (Ret go, (bridge q', u)).

Lemma emit_emits q u class code x y : emits (emit class code x y) q u q [aros q class code x y].
Proof.
  unfold emits, emit, aros. cbn [feed br_emit br_qualifier]. unfold sink at 1. destruct (f _ u) as [[] u']; by cbn.
Qed.

Lemma nothing_emits q u : emits (ret true) q u q [].
Proof. done. Qed.

Lemma wheel_emits code q : 0 <= code < 128 -> forall n u, emits (wheel_loop code n) q u q (clicks q code n).
Proof.
  intros Hc. induction n as [|n IH]; intros u; [done|]. cbn [wheel_loop].
  change (clicks q code (S n)) with (aros q 1 code 0 0 :: aros q 1 (code + 128) 0 0 :: clicks q code n).
  assert (u16 (Z.lor code BT_AROS_IECODE_UP_PREFIX) = code + 128) as ->.
  { change BT_AROS_IECODE_UP_PREFIX with (Z.shiftl 1 7). rewrite lor_shiftl by lia. rewrite u16_small; lia. }
  pose proof (emit_emits q u BT_AROS_IECLASS_RAWKEY code 0 0) as E. unfold emits in E |- *.
  cbn [feed] in E |- *. unfold bind at 1. rewrite E. clear E.
  change (aros q BT_AROS_IECLASS_RAWKEY code 0 0) with (aros q 1 code 0 0).
  destruct (sink _ u) as [[] u1]; [|done]. cbn [negb].
  pose proof (emit_emits q u1 BT_AROS_IECLASS_RAWKEY (code + 128) 0 0) as E. unfold emits in E. cbn [feed] in E.
  unfold bind at 1. rewrite E. clear E. change (aros q BT_AROS_IECLASS_RAWKEY (code + 128) 0 0) with (aros q 1 (code + 128) 0 0).
  destruct (sink _ u1) as [[] u2]; [|done]. exact (IH u2).
Qed.

Lemma stroke_emits q u class ev code : 0 <= code < 128 -> emits (emit class (with_prefix ev code) 0 0) q u q [stroke q class ev code].
Proof. intros Hc. rewrite stroke_code by done. apply emit_emits. Qed.

(** A usage in a table of a few. *)
Ltac table_cases usage :=
  match goal with
  | |- context [usage =? ?n] => destruct (Z.eqb_spec usage n) as [->|]; [by apply stroke_emits|table_cases usage]
  | _ => cbn [list_to_map foldr curry fst snd]; unfold list_to_map, map_to_list; cbn; rewrite ?lookup_insert_ne by congruence; done
  end.

Lemma handle_emits ev q u : event_fits ev -> is_u16 q ->
  emits (bt_aros_input_bridge_handle (Some ev)) q u (qualifier_after ev q) (aros_events ev (qualifier_after ev q)).
Proof.
  intros [[Hu _] Hv] Hq. unfold bt_aros_input_bridge_handle, emits. unfold bind at 1. cbn [gets fst br_emit].
  unfold qualifier_after, aros_events. destruct (ev_kind ev).
  - destruct (modifier_cases (ev_usage ev) Hu) as [(bit & code & Hr & Hm & Hb & Hc & Eq & Er)|[Hr Hm]]; unfold handle_key, rawkey_of.
    + rewrite Hm, (proj2 (Z.geb_le _ _)), (proj2 (Z.leb_le _ _)) by lia. cbn [andb]. rewrite Eq, Er.
      unfold bind at 1 2 3. cbn [lift modify fst snd set_qualifier br_emit br_qualifier fmap option_fmap option_map option_list].
      rewrite mask_out, <- Z.setbit_spec' by (done || lia). destruct (ev_value ev =? 0); exact (stroke_emits _ u 1 ev code Hc).
    + rewrite Hm. replace ((ev_usage ev >=? 224) && (ev_usage ev <=? 231)) with false by lia.
      change (zlen keyboard_map) with 104. destruct (Z.geb_spec (ev_usage ev) 104) as [H|H].
      * rewrite lookup_ge_None_2; [done|]. change (length keyboard_map) with 104%nat. lia.
      * destruct (ld_spec keyboard_map (ev_usage ev)) as (c & El & Hl); [change (zlen keyboard_map) with 104; lia|]. rewrite Hl.
        unfold bind at 1. rewrite El. cbn [lift mbind option_bind]. destruct (Z.eqb_spec c 255) as [->|Hc]; [done|].
        apply stroke_emits. apply keyboard_code_range; [|done]. by eapply list_elem_of_lookup_2.
  - unfold handle_button, button_of. table_cases (ev_usage ev).
  - unfold handle_axis. destruct (_ =? 48); [apply emit_emits|]. destruct (_ =? 49); [apply emit_emits|].
    destruct (_ =? 56); [|done]. cbn [andb]. destruct (Z.eqb_spec (ev_value ev) 0) as [->|Hz]; [done|]. cbn [negb].
    replace (Z.to_nat (u32 (if ev_value ev >? 0 then ev_value ev else - ev_value ev))) with (Z.to_nat (Z.abs (ev_value ev))).
    + apply wheel_emits. by destruct (_ >? 0).
    + destruct (Z.gtb_spec (ev_value ev) 0); rewrite u32_small; lia.
  - unfold handle_consumer, media_of. table_cases (ev_usage ev).
  - done.
Qed.
End run.
(** ** Reports in, AROS events out *)

(** A port that takes every event, and a history of HID events through the bridge. *)
Definition accept (e : bt_aros_input_event) (out : list bt_aros_input_event) : bt_status * list bt_aros_input_event := (BT_OK, out ++ [e]).

Definition bridge_step (s : Z * list bt_aros_input_event) (ev : bt_hid_input_event) : Z * list bt_aros_input_event :=
  let q := qualifier_after ev s.1 in (q, s.2 ++ aros_events ev q).
Definition bridged (log : list bt_hid_input_event) : Z * list bt_aros_input_event := foldl bridge_step (0, []) log.

(** Whether AROS sees the key [c] down, and the last value of the usage [u]. *)
Definition raw_step (c : Z) (down : bool) (e : bt_aros_input_event) : bool :=
  if negb (ie_event_class e =? 1) then down else if ie_code e =? c then true else if ie_code e =? c + 128 then false else down.
Definition raw_down (c : Z) (out : list bt_aros_input_event) : bool := foldl (raw_step c) false out.

Definition key_step (u : Z) (x : Z) (ev : bt_hid_input_event) : Z :=
  if bool_decide (ev_kind ev = BT_HID_INPUT_EVENT_KEY) && (ev_usage ev =? u) then ev_value ev else x.
Definition last_key (u : Z) (log : list bt_hid_input_event) : Z := foldl (key_step u) 0 log.

Lemma bridged_snoc log ev : bridged (log ++ [ev]) = bridge_step (bridged log) ev.
Proof. unfold bridged. by rewrite foldl_app. Qed.

Lemma raw_down_app c a b : raw_down c (a ++ b) = foldl (raw_step c) (raw_down c a) b.
Proof. apply foldl_app. Qed.

Lemma last_key_app u a b : last_key u (a ++ b) = foldl (key_step u) (last_key u a) b.
Proof. apply foldl_app. Qed.

(** The two control keys share their code and their qualifier; no other keys do. *)
Definition own_code (u : Z) : bool := negb (u =? 224) && negb (u =? 228).

Lemma rawkey_usage u c : rawkey_of u = Some c -> 0 <= u < 232.
Proof.
  unfold rawkey_of. destruct (modifier_of u) as [[b k]|] eqn:Em.
  - intros _. unfold modifier_of in Em. destruct (Z.leb_spec 224 u); [|done]. apply lookup_lt_Some in Em.
    change (length modifiers) with 8%nat in Em. lia.
  - destruct (keyboard_map !! Z.to_nat u) as [k|] eqn:Ek; [|done]. pose proof (lookup_lt_Some _ _ _ Ek) as Hl.
    change (length keyboard_map) with 104%nat in Hl. destruct (decide (u < 0)); [|lia].
    replace (Z.to_nat u) with 0%nat in Ek by lia. injection Ek as <-. done.
Qed.

(** Facts of the tables, by looking at all usages. *)
Definition tables_ok (u v : Z) : bool :=
  match rawkey_of u, rawkey_of v with
  | Some c, Some k =>
      (0 <=? c) && (c <? 114) && ((u =? v) || negb (own_code u) ||
        negb (c =? k) && match modifier_of u, modifier_of v with Some (a, _), Some (b, _) => negb (a =? b) | _, _ => true end)
  | _, _ => true
  end.

Lemma tables_checked u v : 0 <= u < 232 -> 0 <= v < 232 -> tables_ok u v = true.
Proof.
  intros Hu Hv. assert (forallb (fun u => forallb (tables_ok u) (seqZ 0 232)) (seqZ 0 232) = true) as H by (vm_compute; reflexivity).
  rewrite forallb_forall in H. specialize (H u ltac:(apply list_elem_of_In, elem_of_seqZ; lia)).
  rewrite forallb_forall in H. apply H. apply list_elem_of_In, elem_of_seqZ. lia.
Qed.

Lemma rawkey_range u c : rawkey_of u = Some c -> 0 <= c < 114.
Proof.
  intros Hu. pose proof (rawkey_usage u c Hu) as Hr. pose proof (tables_checked u u Hr Hr) as H.
  unfold tables_ok in H. rewrite Hu in H. lia.
Qed.

Lemma own_differs u v c k : rawkey_of u = Some c -> rawkey_of v = Some k -> own_code u = true -> u <> v ->
  c <> k /\ forall a x b y, modifier_of u = Some (a, x) -> modifier_of v = Some (b, y) -> a <> b.
Proof.
  intros Hu Hv Ho Hne. pose proof (tables_checked u v (rawkey_usage u c Hu) (rawkey_usage v k Hv)) as H.
  unfold tables_ok in H. rewrite Hu, Hv, Ho, (proj2 (Z.eqb_neq _ _) Hne) in H. cbn [negb orb] in H.
  apply andb_prop in H as [_ [H2 H3]%andb_prop]. split; [lia|].
  intros a x b y Ha Hb. rewrite Ha, Hb in H3. lia.
Qed.

Section key.
  Context (u c : Z) (Hu : rawkey_of u = Some c) (Hown : own_code u = true).

Lemma clicks_ignored q code n d : 122 <= code <= 123 -> foldl (raw_step c) d (clicks q code n) = d.
Proof.
  intros Hc. pose proof (rawkey_range u c Hu). induction n as [|n IH]; [done|].
  change (clicks q code (S n)) with (aros q 1 code 0 0 :: aros q 1 (code + 128) 0 0 :: clicks q code n).
  cbn [foldl]. unfold raw_step at 2 3. cbn [aros ie_event_class ie_code]. cbn [Z.eqb Pos.eqb negb].
  replace (code =? c) with false by lia. replace (code =? c + 128) with false by lia.
  replace (code + 128 =? c) with false by lia. by replace (code + 128 =? c + 128) with false by lia.
Qed.

Lemma stroke_ignored q class ev k d : 0 <= k < 128 -> k <> c -> foldl (raw_step c) d [stroke q class ev k] = d.
Proof.
  intros Hk Hne. pose proof (rawkey_range u c Hu). cbn [foldl]. unfold raw_step, stroke, aros. cbn [ie_event_class ie_code].
  destruct (negb _); [done|]. destruct (ev_value ev =? 0).
  - replace (k + 128 =? c) with false by lia. by replace (k + 128 =? c + 128) with false by lia.
  - replace (k =? c) with false by lia. by replace (k =? c + 128) with false by lia.
Qed.

Lemma media_codes v k : media_of v = Some k -> 114 <= k <= 117.
Proof. unfold media_of. intros H%elem_of_list_to_map_2. do 4 (apply elem_of_cons in H as [[= -> ->]|H]; [lia|]). by apply elem_of_nil in H. Qed.

(** An event of the HID stack is, for the key, a stroke of it or nothing. *)
Lemma events_step q ev d : foldl (raw_step c) d (aros_events ev q) =
  if bool_decide (ev_kind ev = BT_HID_INPUT_EVENT_KEY) && (ev_usage ev =? u) then negb (ev_value ev =? 0) else d.
Proof.
  pose proof (rawkey_range u c Hu) as Hc. unfold aros_events. destruct (ev_kind ev); cbn [bool_decide]; cbn [andb].
  - destruct (Z.eqb_spec (ev_usage ev) u) as [->|Hne].
    + rewrite Hu. cbn. unfold raw_step, stroke, aros. cbn. destruct (ev_value ev =? 0); cbn.
      * replace (c + 128 =? c) with false by lia. by rewrite Z.eqb_refl.
      * by rewrite Z.eqb_refl.
    + destruct (rawkey_of (ev_usage ev)) as [k|] eqn:Ek; [|done].
      destruct (own_differs u (ev_usage ev) c k Hu Ek Hown ltac:(congruence)) as [Hd _].
      pose proof (rawkey_range _ _ Ek). rewrite andb_false_r. by apply stroke_ignored; lia.
  - destruct (button_of _); done.
  - destruct (_ =? 48); [done|]. destruct (_ =? 49); [done|]. destruct (_ =? 56); [|done]. apply clicks_ignored. by destruct (_ >? 0).
  - destruct (media_of (ev_usage ev)) as [k|] eqn:Em; [|done]. pose proof (media_codes _ _ Em). by apply stroke_ignored; lia.
  - done.
Qed.

Lemma raw_tracks log : raw_down c (bridged log).2 = negb (last_key u log =? 0).
Proof.
  induction log as [|ev log IH] using rev_ind; [done|]. rewrite bridged_snoc, last_key_app. cbn [bridge_step snd foldl key_step].
  rewrite raw_down_app, events_step, IH. unfold key_step. by destruct (bool_decide _ && _).
Qed.

Lemma qualifier_tracks bit k log : modifier_of u = Some (bit, k) -> Z.testbit (bridged log).1 bit = negb (last_key u log =? 0).
Proof.
  intros Hm. pose proof (modifier_bit u bit k Hm) as Hb.
  induction log as [|ev log IH] using rev_ind; [by rewrite Z.bits_0|]. rewrite bridged_snoc, last_key_app.
  cbn [bridge_step fst foldl]. unfold key_step, qualifier_after. destruct (ev_kind ev); cbn [bool_decide]; cbn [andb]; try exact IH.
  rewrite (bool_decide_eq_true_2 (BT_HID_INPUT_EVENT_KEY = _) eq_refl). cbn [andb]. destruct (Z.eqb_spec (ev_usage ev) u) as [->|Hne].
  - rewrite Hm. destruct (ev_value ev =? 0); [apply Z.clearbit_eq|apply Z.setbit_eq; lia].
  - destruct (modifier_of (ev_usage ev)) as [[bit' x]|] eqn:Em; [|exact IH].
    assert (rawkey_of (ev_usage ev) = Some x) as Ex by (unfold rawkey_of; by rewrite Em).
    destruct (own_differs u (ev_usage ev) c x Hu Ex Hown ltac:(congruence)) as [_ Hd]. specialize (Hd _ _ _ _ Hm Em).
    pose proof (modifier_bit _ _ _ Em).
    destruct (ev_value ev =? 0); [rewrite Z.clearbit_neq by congruence; exact IH|]. rewrite Z.setbit_neq by congruence. exact IH.
Qed.
End key.

(** The bridge's callback, and that which keeps the HID events. *)
Definition follows (s : bridge_state (list bt_aros_input_event)) (log : list bt_hid_input_event) : Prop :=
  br_emit s.1 = Some accept /\ is_u16 (br_qualifier s.1) /\ (br_qualifier s.1, s.2) = bridged log.

Lemma feed_accept evs out : feed (sink accept) evs out = (true, out ++ evs).
Proof.
  revert out. induction evs as [|e evs IH]; intros out; [by rewrite app_nil_r|]. cbn [feed]. unfold sink, accept at 1.
  rewrite (bool_decide_eq_true_2 (BT_OK = BT_OK) eq_refl). by rewrite IH, <- app_assoc.
Qed.

Lemma qualifier_u16 ev q : 0 <= ev_usage ev -> is_u16 q -> is_u16 (qualifier_after ev q).
Proof.
  intros Hu Hq. unfold qualifier_after. destruct (ev_kind ev); try done.
  destruct (modifier_cases (ev_usage ev) Hu) as [(bit & code & _ & -> & Hb & _)|[_ ->]]; [|done].
  destruct (ev_value ev =? 0); [apply u16_clearbit|apply u16_setbit]; (done || lia).
Qed.

Lemma bridge_follows ev s log : event_fits ev -> follows s log ->
  (bridge_fn ev s).1 = true /\ follows (bridge_fn ev s).2 (log ++ [ev]).
Proof.
  destruct s as [[em q] out]. intros He (Hem & Hq & Hb). cbn in Hem, Hq, Hb. subst em. unfold bridge_fn.
  rewrite (handle_emits accept ev q out He Hq), feed_accept. cbn [fst snd]. split; [done|]. split; [done|].
  split; [apply qualifier_u16; [apply He|done]|]. rewrite bridged_snoc, <- Hb. done.
Qed.

(** A report through the bridge, told by the events it stands for. *)
Lemma report_follows d input vars down s log report retained input' s' :
  hi_descriptor input = Some d -> descriptor_ok d -> input_rep input vars down -> bytes report -> zlen retained = 32 ->
  (forall k, k ∈ down -> is_u16 (au_usage k)) -> follows s log ->
  bt_hid_input_process bridge_fn (Some report) (zlen report) retained (input, s) = (Ret tt, (input', s')) ->
  exists id payload vs vars' down' log', split_report d report = Some (id, payload) /\ spec_values id payload (live_fields d) = (vs, true) /\
    spec_process log_event id vs true vars down log = (Ret tt, (vars', down', log')) /\
    hi_descriptor input' = Some d /\ input_rep input' vars' down' /\ follows s' log'.
Proof.
  intros Hd Hok Hrep Hb Hret Hdown Hf Hp. rewrite (process_split bridge_fn d) in Hp by done.
  destruct (split_report d report) as [[id payload]|] eqn:Es; [|done].
  destruct (process_runs bridge_fn input vars down s retained Hrep Hret id payload (live_fields d)) as (o & i & u & E & Hdi & H).
  rewrite E in Hp. injection Hp as -> -> ->. assert (Forall field_ok (live_fields d)) as Hfields by (destruct Hok as (? & ((_ & _ & _ & ? & _) & _) & _); done).
  pose proof (values_fit id payload (live_fields d)) as Hfit. destruct (spec_values id payload (live_fields d)) as [vs whole] eqn:Ev.
  pose proof (process_alike bridge_fn log_event follows event_fits) as Halike.
  specialize (Halike ltac:(intros ev u1 u2 He Hu; exact (bridge_follows ev u1 u2 He Hu)) id vs whole vars down s log).
  specialize (Halike ltac:(intros v Hv rel; apply (Hfit v Hfields Hv))).
  specialize (Halike ltac:(intros k [Hk|(v & Hv & <-)] x Hx; (split; [|cbn; lia]); [by apply Hdown|by apply (Hfit v)])).
  specialize (Halike Hf). cbv zeta in Halike.
  destruct (spec_process bridge_fn id vs whole vars down s) as [o2 [[vars' down'] u2]] eqn:E1.
  destruct (spec_process log_event id vs whole vars down log) as [o3 [[vars3 down3] log']] eqn:E2.
  destruct H as (<- & <- & Hrep'), Halike as (H1 & H2 & H3). cbn [fst snd] in H1, H2, H3. subst o3. injection H2 as <- <-.
  assert (whole = true) as ->.
  { unfold spec_process in E2. pose proof (scan_log vs (Build_scan vars [] log)) as Hs.
    destruct (spec_scan log_event vs _) as [[] sc]; [by destruct whole|done|done]. }
  exists id, payload, vs, vars', down', log'. rewrite Hdi. done.
Qed.

(** ** Keys, report by report *)

Section keys.
  Context (d : bt_hid_report_descriptor) (id u : Z) (arr : bool).

Definition is_key (v : bt_hid_value) : Prop := hv_usage_page v = 7 /\ hv_usage v = u.

(** The key [u] is only in the reports [id], and there always in an array or
    always an absolute variable. *)
Definition key_source (vs : list bt_hid_value) : Prop := forall v, v ∈ vs -> is_key v ->
  hv_report_id v = id /\ hv_is_array v = arr /\ (arr = false -> is_relative (hv_flags v) = false).

Definition variable_key : key := (id, 7, u).
Definition key_usage : bt_hid_input_array_usage := {| au_report_id := id; au_usage_page := 7; au_usage := u |}.

(** What the tables and the history of events say about it. *)
Definition key_known (vars : gmap key Z) (down : list bt_hid_input_array_usage) (log : list bt_hid_input_event) : Prop :=
  last_key u log = (if arr then if decide (key_usage ∈ down) then 1 else 0 else default 0 (vars !! variable_key)) /\
  (forall k, k ∈ down -> au_usage_page k = 7 -> au_usage k = u -> arr = true /\ k = key_usage).

Lemma key_step_event x i page usage value rel : key_step u x (event i page usage value rel) =
  if decide (page = 7 /\ usage = u) then value else x.
Proof.
  unfold key_step, event. cbn [ev_kind ev_usage ev_value]. assert (classify page usage = BT_HID_INPUT_EVENT_KEY <-> page = 7) as Hk.
  { unfold classify. destruct (Z.eqb_spec page 7); [done|]. split; [|done]. destruct (page =? 9); [done|]. destruct (page =? 12); [done|].
    by destruct (_ && _). }
  rewrite (bool_decide_ext _ _ Hk). case_bool_decide; destruct (Z.eqb_spec usage u); case_decide; first [done | lia | naive_solver].
Qed.

Lemma value_known v s : key_source [v] -> match spec_value log_event v s with
  | (Go, s') => if arr then last_key u (sc_user s') = last_key u (sc_user s)
                else last_key u (sc_user s) = default 0 (sc_vars s !! variable_key) ->
                     last_key u (sc_user s') = default 0 (sc_vars s' !! variable_key)
  | _ => True
  end.
Proof.
  intros Hsrc. specialize (Hsrc v (list_elem_of_here _ _)). unfold spec_value. destruct (hv_is_array v) eqn:Ha.
  - unfold spec_key. repeat case_decide || destruct (_ <=? _); cbn [sc_user sc_vars]; try done; by destruct arr.
  - unfold spec_variable. case_decide; [done|]. set (old := default 0 (sc_vars s !! value_key v)).
    destruct (decide (is_key v)) as [Hk|Hk].
    + destruct (Hsrc Hk) as (Hid & <- & Hrel). rewrite (Hrel eq_refl). destruct Hk as [Hp Hus].
      assert (value_key v = variable_key) as Hkey by (unfold value_key, variable_key; by rewrite Hid, Hp, Hus). unfold old. rewrite Hkey. cbn [negb].
      match goal with |- context [hv_value v =? ?o] => destruct (Z.eqb_spec (hv_value v) o) as [Ev|] end;
        cbn [negb]; unfold log_event; cbn [andb sc_vars sc_user];
        rewrite lookup_insert_eq; cbn [default from_option].
      * intros ->. symmetry. exact Ev.
      * intros _. rewrite last_key_app. cbn [foldl]. rewrite key_step_event, decide_True; done.
    + assert (value_key v <> variable_key) as Hne.
      { intros [= _ Hp Hus]. by apply Hk. }
      destruct (negb _); unfold log_event; cbn [sc_vars sc_user]; rewrite lookup_insert_ne by done; [|by destruct arr].
      rewrite last_key_app. cbn [foldl]. rewrite key_step_event, decide_False by exact Hk. by destruct arr.
Qed.

Lemma scan_known vs : forall s, key_source vs -> match spec_scan log_event vs s with
  | (Go, s') => if arr then last_key u (sc_user s') = last_key u (sc_user s)
                else last_key u (sc_user s) = default 0 (sc_vars s !! variable_key) ->
                     last_key u (sc_user s') = default 0 (sc_vars s' !! variable_key)
  | _ => True
  end.
Proof.
  induction vs as [|v vs IH]; intros s Hsrc; cbn [spec_scan]; [by destruct arr|].
  pose proof (value_known v s ltac:(intros x Hx; apply Hsrc; apply list_elem_of_singleton in Hx as ->; left)) as Hv.
  destruct (spec_value log_event v s) as [[] s1]; [|done..].
  specialize (IH s1 ltac:(intros x Hx; apply Hsrc; by right)). destruct (spec_scan log_event vs s1) as [[] s2]; [|done..].
  destruct arr; [congruence|tauto].
Qed.

Lemma key_events_step x value ks : (forall k, k ∈ ks -> au_usage_page k = 7 -> au_usage k = u -> k = key_usage) ->
  foldl (key_step u) x (key_events value ks) = if decide (key_usage ∈ ks) then value else x.
Proof.
  revert x. induction ks as [|k ks IH]; intros x Hks; [done|].
  assert (forall k, k ∈ ks -> au_usage_page k = 7 -> au_usage k = u -> k = key_usage) as Hks' by (intros; apply Hks; [by right|done..]).
  unfold key_events. rewrite fmap_cons. cbn [foldl]. fold (key_events value ks). rewrite key_step_event, IH by exact Hks'.
  destruct (decide (key_usage ∈ ks)) as [H|H]; [by rewrite decide_True by (by right)|].
  destruct (decide (au_usage_page k = 7 /\ au_usage k = u)) as [[Hp Hus]|Hn].
  - rewrite (Hks k) by (done || left). by rewrite decide_True by left.
  - rewrite decide_False; [done|]. intros [<-|?]%elem_of_cons; [by apply Hn|done].
Qed.

(** A whole report of any ID keeps what is known of the key. *)
Lemma process_known id' vs vars down log vars' down' log' :
  spec_process log_event id' vs true vars down log = (Ret tt, (vars', down', log')) ->
  key_source vs -> (forall v, v ∈ vs -> hv_report_id v = id') -> key_known vars down log -> key_known vars' down' log'.
Proof.
  intros Hp Hsrc Hids [Hlast Hdown]. destruct (process_log _ _ _ _ _ _ _ _ Hp) as (s & Ego & -> & -> & ->).
  pose proof (scan_known vs (Build_scan vars [] log) Hsrc) as Hs. pose proof (scan_log vs (Build_scan vars [] log)) as Hl.
  rewrite Ego in Hs, Hl. destruct Hl as (_ & Hk & _). cbn [sc_user sc_vars sc_keys] in Hs, Hk.
  assert (forall k, k ∈ sc_keys s -> au_usage_page k = 7 -> au_usage k = u -> arr = true /\ k = key_usage /\ id = id') as Hkeys.
  { intros k [Hin%elem_of_nil|(v & Hv & Ha & <-)]%Hk; [done|]. cbn. intros Hp7 Hus.
    destruct (Hsrc v Hv (conj Hp7 Hus)) as (E1 & E2 & _). split; [congruence|].
    split; [unfold value_usage, key_usage; by rewrite Hp7, Hus, E1|by rewrite <- E1, (Hids v Hv)]. }
  split.
  - rewrite last_key_app, foldl_app. unfold released, pressed, others.
    rewrite (key_events_step _ 1), (key_events_step _ 0) by (intros k [_ Hin]%list_elem_of_filter ??; first [by apply Hkeys|by apply Hdown]).
    assert (key_usage ∈ down -> arr = true) as Hd by (intros Hin; by apply (Hdown _ Hin eq_refl eq_refl)).
    assert (key_usage ∈ sc_keys s -> arr = true /\ id = id') as Hn by (intros Hin; by destruct (Hkeys _ Hin eq_refl eq_refl) as (? & _ & ?)).
    destruct arr.
    + rewrite Hs, Hlast. assert (au_report_id key_usage = id) as Hrep by done.
      destruct (decide (id = id')); repeat case_decide; rewrite ?elem_of_app, ?list_elem_of_filter in *; naive_solver.
    + rewrite decide_False by (intros [_ Hin]%list_elem_of_filter; by destruct (Hn Hin)).
      rewrite decide_False by (intros [_ Hin]%list_elem_of_filter; by specialize (Hd Hin)). by apply Hs.
  - intros k [[_ Hin]%list_elem_of_filter|Hin]%elem_of_app Hp7 Hus; [by apply Hdown|].
    by destruct (Hkeys k Hin Hp7 Hus) as (? & ? & _).
Qed.

(** After a report of its own, the key is what the report says. *)
Definition says (vs : list bt_hid_value) (x : Z) : Prop :=
  (exists v, v ∈ vs /\ is_key v) /\ forall v, v ∈ vs -> is_key v -> hv_value v = x.

Lemma track_says vs x : says vs x -> key_source vs -> arr = false -> forall vars, default 0 (foldl track vars vs !! variable_key) = x.
Proof.
  intros [Hex Hall] Hsrc -> vars. induction vs as [|v vs IH] using rev_ind; [by destruct Hex as (v & ?%elem_of_nil & _)|].
  rewrite foldl_app. cbn [foldl].
  assert (key_source vs /\ key_source [v]) as [Hvs Hv]
    by (split; intros y Hy; apply Hsrc; rewrite elem_of_app; [by left|by right]).
  specialize (Hv v (list_elem_of_here _ _)). unfold track. destruct (decide (is_key v)) as [Hk|Hk].
  - destruct (Hv Hk) as (Hid & -> & Hrel). rewrite (Hrel H). destruct (Hk) as [Hp Hus].
    assert (value_key v = variable_key) as -> by (unfold value_key, variable_key; by rewrite Hid, Hp, Hus).
    rewrite H, lookup_insert_eq. apply Hall; [apply elem_of_app; right; left|done].
  - assert (default 0 (foldl track vars vs !! variable_key) = x) as IHv.
    { apply IH; [|intros y Hy; apply Hall; apply elem_of_app; by left|done].
      destruct Hex as (y & [Hy|Hy%list_elem_of_singleton]%elem_of_app & Hky); [by exists y|by subst y]. }
    destruct (hv_is_array v); [done|]. rewrite lookup_insert_ne; [done|]. intros [= _ Hp Hus]. by apply Hk.
Qed.

Lemma key_reported vs vars down log vars' down' log' :
  spec_process log_event id vs true vars down log = (Ret tt, (vars', down', log')) -> key_source vs ->
  (forall v, v ∈ vs -> hv_is_array v = true -> hv_value v = 1) -> (arr = false -> exists x, says vs x) ->
  key_known vars' down' log' -> last_key u log' <> 0 <-> exists v, v ∈ vs /\ is_key v /\ hv_value v <> 0.
Proof.
  intros Hp Hsrc Hone Hsays [Hlast Hdown]. destruct (process_log _ _ _ _ _ _ _ _ Hp) as (s & Ego & -> & -> & _).
  pose proof (scan_log vs (Build_scan vars [] log)) as Hl. rewrite Ego in Hl. destruct Hl as (Hv & Hk & _).
  cbn [sc_vars sc_keys] in Hv, Hk. rewrite Hlast. destruct arr eqn:Ea.
  - assert (key_usage ∈ others id down ++ sc_keys s <-> exists v, v ∈ vs /\ is_key v) as Hiff.
    { unfold others. rewrite elem_of_app, list_elem_of_filter, Hk, elem_of_nil. split.
      - intros [[Hne _]|[[]|(v & Hin & _ & Hv')]]; [by destruct Hne|]. exists v. split; [done|]. injection Hv' as _ Hp7 Hus. by split.
      - intros (v & Hin & Hkv). right. right. destruct (Hsrc v Hin Hkv) as (Hid & Har & _). exists v. split; [done|]. split; [congruence|].
        destruct Hkv as [Hp7 Hus]. unfold value_usage, key_usage. by rewrite Hid, Hp7, Hus. }
    case_decide as Hd; rewrite Hiff in Hd.
    + split; [|lia]. intros _. destruct Hd as (v & Hin & Hkv). exists v. split; [done|]. split; [done|].
      rewrite (Hone v Hin); [lia|]. destruct (Hsrc v Hin Hkv) as (_ & ? & _). congruence.
    + split; [lia|]. intros (v & Hin & Hkv & _). destruct Hd. by exists v.
  - destruct (Hsays eq_refl) as [x Hx]. rewrite Hv, (track_says vs x Hx Hsrc Ea). destruct Hx as [(v & Hin & Hkv) Hall].
    split; [|intros (w & Hw & Hkw & Hne); by rewrite <- (Hall w Hw Hkw)]. intros Hne. exists v. by rewrite (Hall v Hin Hkv).
Qed.
End keys.

(** Reports, one after the other, as long as each is processed. *)
Fixpoint run_reports {U} (callback : bt_hid_input_event -> U -> bool * U) (retained : list bt_hid_input_array_usage)
    (reports : list (list Z)) (s : bt_hid_input * U) : outcome (bt_hid_input * U) :=
  match reports with
  | [] => Ret s
  | r :: reports =>
      match bt_hid_input_process callback (Some r) (zlen r) retained s with
      | (Ret _, s) => run_reports callback retained reports s
      | (Fail e, _) => Fail e
      | (Fault, _) => Fault
      end
  end.

Lemma run_reports_app {U} (callback : bt_hid_input_event -> U -> bool * U) retained a b s :
  run_reports callback retained (a ++ b) s = obind (run_reports callback retained a s) (run_reports callback retained b).
Proof.
  revert s. induction a as [|r a IH]; intros s; [done|]. cbn [app run_reports].
  destruct (bt_hid_input_process _ _ _ _ _) as [[] s1]; [apply IH|done|done].
Qed.

(** The values of a report. *)
Definition report_values (d : bt_hid_report_descriptor) (r : list Z) : list bt_hid_value :=
  match split_report d r with Some (id, payload) => (spec_values id payload (live_fields d)).1 | None => [] end.

Section reports.
  Context (d : bt_hid_report_descriptor) (id u : Z) (arr : bool) (retained : list bt_hid_input_array_usage).
  Hypothesis Hok : descriptor_ok d.
  Hypothesis Hret : zlen retained = 32.

Definition reported (s : bt_hid_input * bridge_state (list bt_aros_input_event)) : Prop := exists vars down log,
  hi_descriptor s.1 = Some d /\ input_rep s.1 vars down /\ (forall k, k ∈ down -> is_u16 (au_usage k)) /\
  follows s.2 log /\ key_known id u arr vars down log.

Lemma report_step r s s' : bytes r -> key_source id u arr (report_values d r) -> reported s ->
  bt_hid_input_process bridge_fn (Some r) (zlen r) retained s = (Ret tt, s') ->
  reported s' /\ forall payload, split_report d r = Some (id, payload) -> (arr = false -> exists x, says u (report_values d r) x) ->
    exists log, follows s'.2 log /\ (last_key u log <> 0 <-> exists v, v ∈ report_values d r /\ is_key u v /\ hv_value v <> 0).
Proof.
  intros Hb Hsrc (vars & down & log & Hd & Hrep & Hdown & Hf & Hknown) Hp. destruct s as [input s], s' as [input' s'].
  destruct (report_follows d input vars down s log r retained input' s' Hd Hok Hrep Hb Hret Hdown Hf Hp)
    as (id' & payload & vs & vars' & down' & log' & Es & Ev & E & Hd' & Hrep' & Hf').
  assert (report_values d r = vs) as Hvs by (unfold report_values; by rewrite Es, Ev). rewrite Hvs in Hsrc |- *.
  assert (Forall field_ok (live_fields d)) as Hfields by (destruct Hok as (? & ((_ & _ & _ & ? & _) & _) & _); done).
  pose proof (fun v => values_fit id' payload (live_fields d) v Hfields) as Hfit. rewrite Ev in Hfit. cbn [fst] in Hfit.
  pose proof (process_known id u arr id' vs vars down log vars' down' log' E Hsrc (fun v Hv => proj1 (Hfit v Hv)) Hknown) as Hknown'.
  split.
  - exists vars', down', log'. split; [done|]. split; [done|]. split; [|done].
    destruct (process_log _ _ _ _ _ _ _ _ E) as (sc & Ego & _ & -> & _). pose proof (scan_log vs (Build_scan vars [] log)) as Hl.
    rewrite Ego in Hl. destruct Hl as (_ & Hk & _). intros k [[_ Hin]%list_elem_of_filter|Hin]%elem_of_app; [by apply Hdown|].
    apply Hk in Hin as [?%elem_of_nil|(v & Hv & _ & <-)]; [done|]. by apply Hfit.
  - intros payload' E' Hsays. rewrite Es in E'. injection E' as -> ->. exists log'. split; [done|].
    eapply key_reported; try done. intros v Hv. by apply Hfit.
Qed.

Lemma run_reported reports : Forall (fun r => bytes r /\ key_source id u arr (report_values d r)) reports -> forall s s', reported s ->
  run_reports bridge_fn retained reports s = Ret s' -> reported s'.
Proof.
  induction 1 as [|r reports [Hb Hsrc] _ IH]; intros s s' Hs Hrun; [by injection Hrun as <-|]. cbn [run_reports] in Hrun.
  destruct (bt_hid_input_process _ _ _ _ _) as [[[]| |] s1] eqn:E; try done.
  destruct (report_step r s s1 Hb Hsrc Hs E) as [Hs1 _]. by apply (IH s1).
Qed.
End reports.

(** C16.  What AROS sees of a keyboard is what its last report says.  Start with
    fresh HID state and a fresh bridge and let any reports be processed, each
    successfully, into a port that takes every event.  Take a key [u] other
    than the two control keys that only the reports [id] have, always in an
    array or always as one absolute variable.  After a report [last] with that
    ID, AROS sees the key down, by the last stroke of its code, exactly when
    the report has it; and if it is a modifier, exactly then its bit is set in
    the qualifier that the next event will carry. *)
Theorem keyboard_reaches_aros : forall d id u c arr reports last payload retained input b out,
  descriptor_ok d -> zlen retained = 32 -> rawkey_of u = Some c -> own_code u = true ->
  Forall (fun r => bytes r /\ key_source id u arr (report_values d r)) (reports ++ [last]) ->
  split_report d last = Some (id, payload) -> (arr = false -> exists x, says u (report_values d last) x) ->
  run_reports bridge_fn retained (reports ++ [last]) (bt_hid_input_init (Some d), (bt_aros_input_bridge_init (Some accept), [])) =
    Ret (input, (b, out)) ->
  (raw_down c out = true <-> exists v, v ∈ report_values d last /\ hv_usage_page v = 7 /\ hv_usage v = u /\ hv_value v <> 0) /\
  forall bit, modifier_of u = Some (bit, c) -> Z.testbit (br_qualifier b) bit = raw_down c out.
Proof.
  intros d id u c arr reports last payload retained input b out Hok Hret Hu Hown [Hall Hlast]%Forall_app Hs Hsays Hrun.
  apply Forall_cons in Hlast as [[Hb Hsrc] _]. rewrite run_reports_app in Hrun.
  destruct (run_reports bridge_fn retained reports _) as [s1| |] eqn:E1; [|done|done]. cbn [obind run_reports] in Hrun.
  assert (reported d id u arr s1) as H1.
  { refine (run_reported d id u arr retained Hok Hret reports Hall _ s1 _ E1). exists ∅, [], []. split; [done|]. split; [apply input_init_rep|].
    split; [by intros k ?%elem_of_nil|]. split; [by split; [|split; [unfold is_u16; cbn; lia|]]|].
    split; [by destruct arr|by intros k ?%elem_of_nil]. }
  destruct (bt_hid_input_process _ _ _ _ _) as [[[]| |] s2] eqn:E2; try done. injection Hrun as ->.
  destruct (report_step d id u arr retained Hok Hret last s1 _ Hb Hsrc H1 E2) as [_ Hrep].
  destruct (Hrep payload Hs Hsays) as (log & (_ & _ & Hlog) & Hiff). cbn [snd fst] in Hlog.
  pose proof (raw_tracks u c Hu Hown log) as Hraw. pose proof (qualifier_tracks u c Hu Hown) as Hq. rewrite <- Hlog in Hraw.
  cbn [snd] in Hraw. split.
  - rewrite Hraw. unfold is_key in Hiff. rewrite negb_true_iff, Z.eqb_neq, Hiff. naive_solver.
  - intros bit Hm. specialize (Hq bit c log Hm). rewrite <- Hlog in Hq. cbn [fst] in Hq. by rewrite Hq, Hraw.
Qed.
(** ** Witnesses *)

Module BridgeDemo.

(** Left shift and A go down; then B joins and A goes up. *)
Definition reports : list (list Z) := [[2; 4; 0; 0; 0; 0; 0]; [2; 4; 5; 0; 0; 0; 0]].
Definition last : list Z := [2; 5; 0; 0; 0; 0; 0].

(** Both control keys go down, then the right one goes up. *)
Definition controls : list (list Z) := [[17; 0; 0; 0; 0; 0; 0]; [1; 0; 0; 0; 0; 0; 0]].

Definition fresh : bt_hid_input * bridge_state (list bt_aros_input_event) :=
  (bt_hid_input_init (Some KeyboardDemo.descriptor), (bt_aros_input_bridge_init (Some accept), [])).

(** [key_source], by looking. *)
Definition source_check (id u : Z) (arr : bool) (vs : list bt_hid_value) : bool :=
  forallb (fun v => negb ((hv_usage_page v =? 7) && (hv_usage v =? u)) ||
    (hv_report_id v =? id) && Bool.eqb (hv_is_array v) arr && (arr || negb (is_relative (hv_flags v)))) vs.

Lemma source_check_ok id u arr vs : source_check id u arr vs = true -> key_source id u arr vs.
Proof.
  unfold source_check. rewrite forallb_forall. intros H v Hv%list_elem_of_In [Hp Hu]. specialize (H v Hv).
  rewrite Hp, Hu, !Z.eqb_refl in H. cbn [andb negb orb] in H. apply andb_prop in H as [[Hid Har]%andb_prop Hrel].
  split; [lia|]. split; [by apply eqb_prop|]. intros ->. by apply negb_true_iff.
Qed.
End BridgeDemo.

Lemma keyboard_reaches_aros_witness : exists input b out,
  run_reports bridge_fn KeyboardDemo.stack (BridgeDemo.reports ++ [BridgeDemo.last]) BridgeDemo.fresh = Ret (input, (b, out)) /\
  (raw_down 53 out = true <-> exists v, v ∈ report_values KeyboardDemo.descriptor BridgeDemo.last /\ hv_usage_page v = 7 /\ hv_usage v = 5 /\ hv_value v <> 0).
Proof.
  eexists _, _, _. split; [vm_compute; reflexivity|].
  refine (proj1 (keyboard_reaches_aros KeyboardDemo.descriptor 0 5 53 true BridgeDemo.reports BridgeDemo.last [2; 5; 0; 0; 0; 0; 0]
    KeyboardDemo.stack _ _ _ _ _ _ _ _ _ _ _)).
  - exact KeyboardDemo.descriptor_demo_ok.
  - reflexivity.
  - reflexivity.
  - reflexivity.
  - repeat (apply Forall_cons; split; [split; [concrete_bytes|apply BridgeDemo.source_check_ok; vm_compute; reflexivity]|]). constructor.
  - reflexivity.
  - discriminate.
  - vm_compute. reflexivity.
Defined.

(** The left control key is still held when the right one goes up, but the
    qualifier says that no control key is. *)
Example other_control_still_held :
  match run_reports bridge_fn KeyboardDemo.stack BridgeDemo.controls BridgeDemo.fresh with
  | Ret (_, (b, out)) => br_qualifier b = 0 /\ raw_down 99 out = false
  | _ => False
  end.
Proof. vm_compute. by split. Qed.

(** A motion of more than 15 bits turns round. *)
Example far_motion_turns_round :
  (bridge_fn (event 0 1 48 40000 true) (bt_aros_input_bridge_init (Some accept), [])).2.2 = [aros 0 2 255 (-25536) 0].
Proof. vm_compute. reflexivity. Qed.

End InputBridge.
