(* ===== verification/UartTransport.v ===== *)
(** * The UART transport of the AROS port: ports/aros/transport-uart/uart_transport.c

    HCI packets over the bytes of btuart.resource, with [H4]: one packet at a
    time is queued with its type byte and written by the polls, as much as the
    resource takes at a time; what the resource has received is read until it
    is empty and reassembled.

    The resource is an interface, [BtUart], since its code is not part of the
    repository.  [BtUartLaws] is what its counts mean; that a failed call has no
    effect is [fails_quietly], a hypothesis only of what needs it.  The
    transport is part of a larger state [S], on which the receive callback works;
    the callback may send.  [bt_h4_rx_feed] hands over the packets of a chunk
    one by one; here they are delivered after the chunk, which is the same for
    callbacks that leave the receiver alone. *)

From Stdlib Require Import ZArith Lia.
From stdpp Require Import base list list_numbers.
From S2P Require Import Prelude H4.

Module UartTransport.
Import H4.

Definition BT_AROS_UART_TX_MAX : Z := BT_H4_MAX_PACKET_SIZE + 1.
Definition BT_AROS_UART_RX_CHUNK : Z := 256.
Definition BT_AROS_RX_TRACE_LIMIT : Z := 12.
Definition BTUART_API_VERSION : Z := 1.
Definition BTUART_CONFIG_RTS_CTS : Z := 1.
Definition BTUART_OK : Z := 0.

(** [resource] and [receive] are NULL or not; the receive callback is that of
    the state the transport is in. *)
Record bt_aros_uart_transport : Type := {
  ut_resource : bool;
  ut_h4_rx : bt_h4_rx;
  ut_receive : bool;
  ut_tx : list Z;
  ut_tx_length : Z;
  ut_tx_offset : Z;
  ut_opened : bool;
  ut_receiving : bool;
  ut_pkt_traced : Z;
  ut_rx_traced : Z;
}.

Definition set_resource (b : bool) (u : bt_aros_uart_transport) : bt_aros_uart_transport :=
  {| ut_resource := b; ut_h4_rx := ut_h4_rx u; ut_receive := ut_receive u; ut_tx := ut_tx u; ut_tx_length := ut_tx_length u;
     ut_tx_offset := ut_tx_offset u; ut_opened := ut_opened u; ut_receiving := ut_receiving u; ut_pkt_traced := ut_pkt_traced u;
     ut_rx_traced := ut_rx_traced u |}.
Definition set_h4_rx (r : bt_h4_rx) (u : bt_aros_uart_transport) : bt_aros_uart_transport :=
  {| ut_resource := ut_resource u; ut_h4_rx := r; ut_receive := ut_receive u; ut_tx := ut_tx u; ut_tx_length := ut_tx_length u;
     ut_tx_offset := ut_tx_offset u; ut_opened := ut_opened u; ut_receiving := ut_receiving u; ut_pkt_traced := ut_pkt_traced u;
     ut_rx_traced := ut_rx_traced u |}.
Definition set_receive (b : bool) (u : bt_aros_uart_transport) : bt_aros_uart_transport :=
  {| ut_resource := ut_resource u; ut_h4_rx := ut_h4_rx u; ut_receive := b; ut_tx := ut_tx u; ut_tx_length := ut_tx_length u;
     ut_tx_offset := ut_tx_offset u; ut_opened := ut_opened u; ut_receiving := b; ut_pkt_traced := ut_pkt_traced u;
     ut_rx_traced := ut_rx_traced u |}.
Definition set_tx (l : list Z) (u : bt_aros_uart_transport) : bt_aros_uart_transport :=
  {| ut_resource := ut_resource u; ut_h4_rx := ut_h4_rx u; ut_receive := ut_receive u; ut_tx := l; ut_tx_length := ut_tx_length u;
     ut_tx_offset := ut_tx_offset u; ut_opened := ut_opened u; ut_receiving := ut_receiving u; ut_pkt_traced := ut_pkt_traced u;
     ut_rx_traced := ut_rx_traced u |}.
Definition set_tx_window (offset length : Z) (u : bt_aros_uart_transport) : bt_aros_uart_transport :=
  {| ut_resource := ut_resource u; ut_h4_rx := ut_h4_rx u; ut_receive := ut_receive u; ut_tx := ut_tx u; ut_tx_length := length;
     ut_tx_offset := offset; ut_opened := ut_opened u; ut_receiving := ut_receiving u; ut_pkt_traced := ut_pkt_traced u;
     ut_rx_traced := ut_rx_traced u |}.
Definition set_opened (b : bool) (u : bt_aros_uart_transport) : bt_aros_uart_transport :=
  {| ut_resource := ut_resource u; ut_h4_rx := ut_h4_rx u; ut_receive := ut_receive u; ut_tx := ut_tx u; ut_tx_length := ut_tx_length u;
     ut_tx_offset := ut_tx_offset u; ut_opened := b; ut_receiving := ut_receiving u; ut_pkt_traced := ut_pkt_traced u;
     ut_rx_traced := ut_rx_traced u |}.
Definition set_traced (pkt rx : Z) (u : bt_aros_uart_transport) : bt_aros_uart_transport :=
  {| ut_resource := ut_resource u; ut_h4_rx := ut_h4_rx u; ut_receive := ut_receive u; ut_tx := ut_tx u; ut_tx_length := ut_tx_length u;
     ut_tx_offset := ut_tx_offset u; ut_opened := ut_opened u; ut_receiving := ut_receiving u; ut_pkt_traced := pkt;
     ut_rx_traced := rx |}.

(** btuart.resource: its vectors, on the state [R] of the resource.  The owner
    is always this transport.  [btuart_read] returns the count and what the
    buffer holds after the call. *)
Class BtUart (R : Type) : Type := {
  open_resource : R -> bool * R;
  btuart_get_version : R -> Z * R;
  btuart_claim : R -> Z * R;
  btuart_release : R -> R;
  btuart_configure : Z -> Z -> R -> Z * R;
  btuart_set_power : Z -> R -> Z * R;
  btuart_write : list Z -> R -> Z * R;
  btuart_read : Z -> R -> (Z * list Z) * R;
}.

(** The transport and its resource; the packets it accepted and delivered are
    histories that no definition reads. *)
Record port (R : Type) : Type := {
  pt_uart : bt_aros_uart_transport;
  pt_resource : R;
  pt_sent : list (bt_hci_packet_type * list Z);
  pt_received : list (bt_hci_packet_type * list Z);
}.
Arguments pt_uart {R}.
Arguments pt_resource {R}.
Arguments pt_sent {R}.
Arguments pt_received {R}.

Definition with_uart {R} (f : bt_aros_uart_transport -> bt_aros_uart_transport) (p : port R) : port R :=
  {| pt_uart := f (pt_uart p); pt_resource := pt_resource p; pt_sent := pt_sent p; pt_received := pt_received p |}.
Definition with_resource {R} (r : R) (p : port R) : port R :=
  {| pt_uart := pt_uart p; pt_resource := r; pt_sent := pt_sent p; pt_received := pt_received p |}.
Definition note_sent {R} (x : bt_hci_packet_type * list Z) (p : port R) : port R :=
  {| pt_uart := pt_uart p; pt_resource := pt_resource p; pt_sent := pt_sent p ++ [x]; pt_received := pt_received p |}.
Definition note_received {R} (x : bt_hci_packet_type * list Z) (p : port R) : port R :=
  {| pt_uart := pt_uart p; pt_resource := pt_resource p; pt_sent := pt_sent p; pt_received := pt_received p ++ [x] |}.

(** [bt_aros_uart_transport_init] *)
Definition bt_aros_uart_transport_init : bt_aros_uart_transport :=
  {| ut_resource := false; ut_h4_rx := bt_h4_rx_init; ut_receive := false; ut_tx := replicate (Z.to_nat BT_AROS_UART_TX_MAX) 0;
     ut_tx_length := 0; ut_tx_offset := 0; ut_opened := false; ut_receiving := false; ut_pkt_traced := 0; ut_rx_traced := 0 |}.

Definition bt_aros_uart_transport_signal_mask : Z := 0.

(** The state that holds the transport, and its receive callback. *)
Class Host (R S : Type) : Type := {
  host_port : S -> port R;
  host_set : port R -> S -> S;
}.
Class Receiver (S : Type) : Type := { host_receive : bt_hci_packet_type -> list Z -> M S unit }.

Section Transport.
  Context {R S : Type} `{BtUart R} `{Host R S} `{Receiver S}.

Definition uart : M S bt_aros_uart_transport := gets (fun s => pt_uart (host_port s)).
Definition on_port (f : port R -> port R) : M S unit := modify (fun s => host_set (f (host_port s)) s).
Definition on_uart (f : bt_aros_uart_transport -> bt_aros_uart_transport) : M S unit := on_port (with_uart f).

(** A call of the resource. *)
Definition call {A} (f : R -> A * R) : M S A := fun s =>
  let '(a, r) := f (pt_resource (host_port s)) in (Ret a, host_set (with_resource r (host_port s)) s).

Definition uart_open : M S unit :=
  let! u := uart in
  if ut_opened u then fail BT_ERR_INVALID_ARGUMENT else
  let! found := call open_resource in
  do! on_uart (set_resource found) in
  if negb found then fail BT_ERR_IO else
  let! version := call btuart_get_version in
  if negb (version =? BTUART_API_VERSION) then do! on_uart (set_resource false) in fail BT_ERR_IO else
  let! result := call btuart_claim in
  if negb (result =? BTUART_OK) then do! on_uart (set_resource false) in fail BT_ERR_NO_RESOURCES else
  let back_out :=
    do! call (fun r => (tt, btuart_release r)) in
    do! on_uart (set_resource false) in
    fail BT_ERR_IO in
  let! result := call (btuart_configure 115200 BTUART_CONFIG_RTS_CTS) in
  if negb (result =? BTUART_OK) then back_out else
  let! result := call (btuart_set_power 1) in
  if negb (result =? BTUART_OK) then back_out else
  do! on_uart (set_h4_rx bt_h4_rx_init) in
  on_uart (set_opened true).

Definition uart_close : M S unit :=
  let! u := uart in
  if negb (ut_opened u) then ret tt else
  do! on_uart (set_receive false) in
  do! call (fun r => (tt, btuart_release r)) in
  do! on_uart (set_resource false) in
  do! on_uart (set_opened false) in
  on_uart (set_tx_window 0 0).

(** [data] is NULL or an object of [length] bytes at least. *)
Definition queue_packet (type : bt_hci_packet_type) (data : option (list Z)) (length : Z) : M S unit :=
  let! u := uart in
  let wire_type := bt_h4_wire_type type in
  match data with
  | Some data =>
      if negb (ut_opened u) || (length =? 0) || (wire_type =? 0) || (u64 (length + 1) >? BT_AROS_UART_TX_MAX)
      then fail BT_ERR_INVALID_ARGUMENT
      else if negb (ut_tx_offset u =? ut_tx_length u) then fail BT_ERR_NO_RESOURCES else
      let! tx := lift (st1 (ut_tx u) 0 wire_type) in
      let! payload := lift (ldn data 0 length) in
      let! tx := lift (stn tx 1 payload) in
      do! on_uart (set_tx tx) in
      do! on_uart (set_tx_window 0 (length + 1)) in
      on_port (note_sent (type, payload))
  | None => fail BT_ERR_INVALID_ARGUMENT
  end.

Definition uart_send_command (data : option (list Z)) (length : Z) : M S unit := queue_packet BT_HCI_PACKET_COMMAND data length.
Definition uart_send_acl (data : option (list Z)) (length : Z) : M S unit := queue_packet BT_HCI_PACKET_ACL data length.
Definition unsupported_send : M S unit := fail BT_ERR_INVALID_ARGUMENT.

(** [receive] is NULL or the host's callback. *)
Definition uart_start_receive (receive : bool) : M S unit :=
  let! u := uart in
  if negb (ut_opened u) || ut_receiving u || negb receive then fail BT_ERR_INVALID_ARGUMENT
  else on_uart (set_receive true).

Definition uart_stop_receive : M S unit :=
  do! on_uart (set_receive false) in
  on_uart (set_h4_rx bt_h4_rx_init).

Definition deliver_packet (p : bt_hci_packet_type * list Z) : M S unit :=
  do! on_uart (fun u => if ut_pkt_traced u <? BT_AROS_RX_TRACE_LIMIT
                        then set_traced (ut_pkt_traced u + 1) (ut_rx_traced u) u else u) in
  let! u := uart in
  if ut_receiving u && ut_receive u then
    do! on_port (note_received p) in
    host_receive p.1 p.2
  else ret tt.

Fixpoint deliver_all (ps : list (bt_hci_packet_type * list Z)) : M S unit :=
  match ps with
  | [] => ret tt
  | p :: ps => do! deliver_packet p in deliver_all ps
  end.

(** [bt_h4_rx_feed(&uart->h4_rx, rx, count, deliver_packet, uart)] *)
Definition feed_chunk (rx : list Z) (count : Z) : M S unit :=
  let! u := uart in
  let '(o, (r, ps)) := bt_h4_rx_feed (Some rx) count (ut_h4_rx u, []) in
  do! on_uart (set_h4_rx r) in
  do! deliver_all ps in
  lift o.

(** The [do] loop: until the resource has nothing more. *)
Fixpoint rx_loop (fuel : nat) : M S unit :=
  match fuel with
  | O => lift Fault
  | Datatypes.S fuel =>
      let! r := call (btuart_read BT_AROS_UART_RX_CHUNK) in
      let '(count, rx) := r in
      if count <? 0 then fail BT_ERR_IO else
      do! on_uart (fun u => if (count >? 0) && (ut_rx_traced u <? BT_AROS_RX_TRACE_LIMIT)
                            then set_traced (ut_pkt_traced u) (ut_rx_traced u + 1) u else u) in
      if negb (count >? 0) then ret tt else
      fun s => match feed_chunk rx count s with
               | (Ret _, s) => rx_loop fuel s
               | (Fail _, s) => (Fail BT_ERR_IO, s)
               | (Fault, s) => (Fault, s)
               end
  end.

(** The part of the poll before [if (!uart->receiving)]. *)
Definition write_pending : M S unit :=
  let! u := uart in
  if ut_tx_offset u <? ut_tx_length u then
    let! pending := lift (ldn (ut_tx u) (ut_tx_offset u) (ut_tx_length u - ut_tx_offset u)) in
    let! count := call (btuart_write pending) in
    if count <? 0 then fail BT_ERR_IO else
    let offset := ut_tx_offset u + count in
    if offset =? ut_tx_length u then on_uart (set_tx_window 0 0) else on_uart (set_tx_window offset (ut_tx_length u))
  else ret tt.

Definition bt_aros_uart_transport_poll (fuel : nat) : M S unit :=
  let! u := uart in
  if negb (ut_opened u) then fail BT_ERR_INVALID_ARGUMENT else
  do! write_pending in
  let! u := uart in
  if negb (ut_receiving u) then ret tt else rx_loop fuel.

End Transport.

(** ** What the resource and the host promise *)

(** The bytes written so far and those that will be read.  A call takes or gives
    as many bytes as it says; one that fails, with a negative count, may have
    written some of the bytes, or lost some of the input. *)
Class BtUartLaws (R : Type) `{BtUart R} : Type := {
  ur_out : R -> list Z;
  ur_in : R -> list Z;
  write_law : forall d r, let '(n, r') := btuart_write d r in ur_in r' = ur_in r /\
    (n < 0 /\ (exists k, ur_out r' = ur_out r ++ take k d) \/ 0 <= n <= zlen d /\ ur_out r' = ur_out r ++ take (Z.to_nat n) d);
  read_law : forall cap r, 0 <= cap -> let '((n, mem), r') := btuart_read cap r in ur_out r' = ur_out r /\ zlen mem = cap /\
    (n < 0 /\ (exists lost, ur_in r = lost ++ ur_in r') \/ 0 <= n <= cap /\ ur_in r = take (Z.to_nat n) mem ++ ur_in r');
}.

(** A failed call has no effect: what the transport, which goes on where it
    was, relies on. *)
Definition fails_quietly (R : Type) `{BtUartLaws R} : Prop :=
  (forall d r, (btuart_write d r).1 < 0 -> ur_out (btuart_write d r).2 = ur_out r) /\
  (forall cap r, 0 <= cap -> (btuart_read cap r).1.1 < 0 -> ur_in (btuart_read cap r).2 = ur_in r).

Section Laws.
  Context {R S : Type} `{BtUartLaws R} `{Host R S} `{Receiver S}.

Definition accepts (p : port R) (bs : list Z) : Prop :=
  ut_opened (pt_uart p) = true /\ ut_tx_offset (pt_uart p) = ut_tx_length (pt_uart p) /\ 0 < zlen bs <= BT_H4_MAX_PACKET_SIZE /\ bytes bs.

Definition queued (x : bt_hci_packet_type * list Z) (p : port R) : port R :=
  note_sent x (with_uart (fun u => set_tx_window 0 (zlen x.2 + 1) (set_tx (splice (ut_tx u) 0 (bt_h4_wire_type x.1 :: x.2)) u)) p).

(** Fields of a changed port. *)
Ltac port_simpl := unfold with_uart, with_resource, note_sent, note_received, set_resource, set_h4_rx, set_receive, set_tx, set_tx_window,
  set_opened, set_traced;
  cbn [pt_uart pt_resource pt_sent pt_received ut_resource ut_h4_rx ut_receive ut_tx ut_tx_length ut_tx_offset ut_opened ut_receiving
       ut_pkt_traced ut_rx_traced fst snd].

(** What a receive callback may do to the transport. *)
Inductive sends (p : port R) : port R -> Prop :=
| sends_nothing : sends p p
| sends_packet p' x : sends p p' -> accepts p' x.2 -> sends p (queued x p').

(** Laws of the state around the transport, and a callback that returns and
    only sends, in the states [J]. *)
Record lens_laws : Prop := {
  get_set : forall p s, host_port (host_set p s) = p;
  set_set : forall p p' s, host_set p (host_set p' s) = host_set p s;
  set_get : forall s, host_set (host_port s) s = s;
}.

Record host_laws (J : S -> Prop) : Prop := {
  lens : lens_laws;
  set_kept : forall p s, J s -> J (host_set p s);
  receive_law : forall type d s, J s -> bytes d -> zlen (ut_tx (pt_uart (host_port s))) = BT_AROS_UART_TX_MAX -> exists s', host_receive type d s = (Ret tt, s') /\ J s' /\ sends (host_port s) (host_port s');
}.

(** ** The bytes on the wire *)

Definition pending (p : port R) : list Z :=
  take (Z.to_nat (ut_tx_length (pt_uart p) - ut_tx_offset (pt_uart p))) (drop (Z.to_nat (ut_tx_offset (pt_uart p))) (ut_tx (pt_uart p))).

(** What was written and what waits is the frames of what was accepted, if
    failures have no effect. *)
Definition tx_ok (out0 : list Z) (p : port R) : Prop :=
  zlen (ut_tx (pt_uart p)) = BT_AROS_UART_TX_MAX /\
  0 <= ut_tx_offset (pt_uart p) <= ut_tx_length (pt_uart p) /\ ut_tx_length (pt_uart p) <= BT_AROS_UART_TX_MAX /\
  (fails_quietly R -> ur_out (pt_resource p) ++ pending p = out0 ++ on_wire (pt_sent p)).

(** The receiver [h4] has handed over [got] after the stream [c]: all of it, or
    at least what precedes the first byte the receiver refuses. *)
Definition fed (c : list Z) (h4 : bt_h4_rx) (got : list (bt_hci_packet_type * list Z)) : Prop :=
  match spec_feed c (bt_h4_rx_init, []) with
  | (Ret _, (h, l)) => h = h4 /\ l = got
  | (_, (_, l)) => l `prefix_of` got
  end.

(** The transport is open and receives; it has consumed a part of the stream
    [in0], and has yet to deliver [todo]. *)
Definition rx_ok (in0 : list Z) (todo : list (bt_hci_packet_type * list Z)) (p : port R) : Prop :=
  ut_opened (pt_uart p) = true /\ ut_receiving (pt_uart p) = true /\ ut_receive (pt_uart p) = true /\
  h4_ok (ut_h4_rx (pt_uart p)) /\ bytes (ur_in (pt_resource p)) /\
  (fails_quietly R -> exists c, in0 = c ++ ur_in (pt_resource p) /\ fed c (ut_h4_rx (pt_uart p)) (pt_received p ++ todo)).

(** The next bytes of the stream. *)
Lemma fed_app c chunk h4 got o h4' l : fed c h4 got -> spec_feed chunk (h4, []) = (o, (h4', l)) -> fed (c ++ chunk) h4' (got ++ l).
Proof.
  unfold fed. rewrite spec_feed_app. unfold bind. intros Hc Ek.
  destruct (spec_feed c (bt_h4_rx_init, [])) as [[[]|e|] [h got']]; [|by apply prefix_app_r..].
  destruct Hc as [-> ->]. rewrite (adds_feed chunk h4 got), Ek. by destruct o as [[]|e|].
Qed.

Lemma on_wire_snoc l x : on_wire (l ++ [x]) = on_wire l ++ bt_h4_wire_type x.1 :: x.2.
Proof. unfold on_wire. rewrite fmap_app, join_app. cbn. by rewrite app_nil_r. Qed.

Lemma queued_ok out0 p x : accepts p x.2 -> tx_ok out0 p -> tx_ok out0 (queued x p).
Proof.
  intros (_ & Hidle & Hl & _) (Hz & Ho & Hm & E). unfold BT_AROS_UART_TX_MAX in *. unfold tx_ok, pending, queued. port_simpl.
  assert (zlen (bt_h4_wire_type x.1 :: x.2) = zlen x.2 + 1) as Hx by (cbn [length]; lia).
  rewrite splice_length by lia. split; [done|]. split; [lia|]. split; [unfold BT_AROS_UART_TX_MAX; lia|].
  intros Hq. rewrite on_wire_snoc, app_assoc, <- (E Hq). unfold pending. rewrite Hidle, Z.sub_diag. cbn [Z.to_nat take]. rewrite app_nil_r. f_equal.
  rewrite Z.sub_0_r, <- Hx. pose proof (splice_take (ut_tx (pt_uart p)) 0 (bt_h4_wire_type x.1 :: x.2) ltac:(lia) ltac:(lia)) as Ht.
  rewrite Z.add_0_l in Ht. exact Ht.
Qed.

Lemma sends_tx out0 p p' : sends p p' -> tx_ok out0 p -> tx_ok out0 p'.
Proof. induction 1 as [|p' x _ IH Ha]; intros Htx; [done|]. apply queued_ok; auto. Qed.

Lemma sends_rx in0 todo p p' : sends p p' -> rx_ok in0 todo p -> rx_ok in0 todo p'.
Proof. induction 1 as [|p' x _ IH Ha]; intros Hrx; [done|]. exact (IH Hrx). Qed.

Lemma sends_same p p' : sends p p' -> pt_resource p' = pt_resource p /\ exists l, pt_sent p' = pt_sent p ++ l.
Proof.
  induction 1 as [|p' x _ (IH & l & Hl) Ha]; [split; [done|]; exists []; by rewrite app_nil_r|]. split; [done|].
  exists (l ++ [x]). cbn. by rewrite Hl, app_assoc.
Qed.

Section Lens.
  Context (HL : lens_laws).

Lemma on_port_run f s : on_port f s = (Ret tt, host_set (f (host_port s)) s).
Proof. done. Qed.

Lemma uart_run {A} (k : bt_aros_uart_transport -> M S A) s : bind uart k s = k (pt_uart (host_port s)) s.
Proof. done. Qed.

Lemma wire_type_range ty : 0 < bt_h4_wire_type ty < 256.
Proof. destruct ty; cbn; lia. Qed.

Lemma queue_run type bs s : bytes bs -> zlen bs < UINT64_MAX -> zlen (ut_tx (pt_uart (host_port s))) = BT_AROS_UART_TX_MAX ->
  accepts (host_port s) bs /\ queue_packet type (Some bs) (zlen bs) s = (Ret tt, host_set (queued (type, bs) (host_port s)) s) \/
  ~ accepts (host_port s) bs /\ exists e, queue_packet type (Some bs) (zlen bs) s = (Fail e, s).
Proof.
  intros Hb Hlen Hz. unfold queue_packet, accepts, UINT64_MAX in *. rewrite !uart_run.
  set (u := pt_uart (host_port s)) in *. pose proof (wire_type_range type) as Hw. rewrite u64_small by lia.
  replace (bt_h4_wire_type type =? 0) with false by lia. unfold BT_AROS_UART_TX_MAX in *.
  destruct (ut_opened u); cbn [negb orb]; [|right; split; [by intros [? _]|by eexists]].
  destruct (Z.eqb_spec (zlen bs) 0); cbn [orb]; [right; split; [intros (_ & _ & ? & _); lia|by eexists]|].
  destruct (Z.gtb_spec (zlen bs + 1) (BT_H4_MAX_PACKET_SIZE + 1)); cbn [orb]; [right; split; [intros (_ & _ & ? & _); lia|by eexists]|].
  destruct (Z.eqb_spec (ut_tx_offset u) (ut_tx_length u)) as [Hi|Hi]; cbn [negb]; [|right; split; [by intros (_ & ? & _)|by eexists]].
  left. split; [split; [done|]; split; [done|]; split; [lia|done]|]. unfold st1. rewrite ldn_whole.
  rewrite stn_spec by (cbn [length]; lia). unfold bind at 1. cbn [lift]. unfold bind at 1. cbn [lift].
  rewrite stn_spec by (rewrite ?splice_length; cbn [length]; lia).
  unfold bind at 1. cbn [lift]. unfold bind at 1, on_uart at 1. rewrite on_port_run. unfold bind at 1, on_uart at 1.
  rewrite !on_port_run, !(get_set HL), !(set_set HL). do 2 f_equal. unfold queued. port_simpl. fold u.
  do 2 f_equal. refine (splice_splice (ut_tx u) 0 [bt_h4_wire_type type] bs _ _); cbn [length]; lia.
Qed.

End Lens.

Section Calls.
  Context (J : S -> Prop) (HJ : host_laws J).
Let HL : lens_laws := lens J HJ.

Lemma call_run {A} (f : R -> A * R) s :
  call f s = (Ret (f (pt_resource (host_port s))).1, host_set (with_resource (f (pt_resource (host_port s))).2 (host_port s)) s).
Proof. unfold call. by destruct (f _). Qed.

(** The writing half of a poll: some of what waits is written, or nothing. *)
Lemma write_pending_run out0 in0 s : tx_ok out0 (host_port s) -> rx_ok in0 [] (host_port s) -> exists o p,
  write_pending s = (o, host_set p s) /\ o <> Fault /\ tx_ok out0 p /\ rx_ok in0 [] p /\ pt_sent p = pt_sent (host_port s) /\
  ur_in (pt_resource p) = ur_in (pt_resource (host_port s)) /\ pt_received p = pt_received (host_port s).
Proof.
  intros Htx Hrx. pose proof Htx as (Hz & Ho & Hm & E). unfold write_pending. rewrite uart_run. set (p := host_port s) in *.
  destruct (Z.ltb_spec (ut_tx_offset (pt_uart p)) (ut_tx_length (pt_uart p))) as [Hlt|Hge].
  2: { exists (Ret tt), p. unfold p at 1. rewrite (set_get HL). by do 3 (split; [done|]). }
  rewrite ldn_spec by lia. fold (pending p). unfold bind at 1. cbn [lift]. unfold bind at 1. rewrite call_run. fold p.
  pose proof (write_law (pending p) (pt_resource p)) as Hw. destruct (btuart_write (pending p) (pt_resource p)) as [n r'] eqn:Ew.
  cbn [fst snd]. destruct Hw as [Hin Hw].
  assert (zlen (pending p) = ut_tx_length (pt_uart p) - ut_tx_offset (pt_uart p)) as Hpl.
  { unfold pending. rewrite length_take, length_drop. lia. }
  destruct (Z.ltb_spec n 0) as [Hn|Hn].
  - exists (Fail BT_ERR_IO), (with_resource r' p). split; [done|]. split; [done|].
    unfold tx_ok, rx_ok, pending in *. port_simpl. rewrite Hin. split; [|done].
    do 3 (split; [done|]). intros Hq. rewrite <- (E Hq). f_equal. pose proof (proj1 Hq (pending p) (pt_resource p)) as Hquiet.
    unfold pending in Hquiet. rewrite Ew in Hquiet. by apply Hquiet.
  - destruct Hw as [[? _]|[Hr Hout]]; [lia|]. unfold on_uart.
    set (o := if ut_tx_offset (pt_uart p) + n =? ut_tx_length (pt_uart p) then 0 else ut_tx_offset (pt_uart p) + n).
    set (l := if ut_tx_offset (pt_uart p) + n =? ut_tx_length (pt_uart p) then 0 else ut_tx_length (pt_uart p)).
    exists (Ret tt), (with_uart (set_tx_window o l) (with_resource r' p)).
    split; [unfold o, l; destruct (_ =? _); rewrite on_port_run, (get_set HL), (set_set HL); reflexivity|].
    split; [done|]. split; [|split; [unfold rx_ok; port_simpl; rewrite Hin; exact Hrx|by port_simpl]].
    unfold tx_ok, pending in *. port_simpl. split; [done|].
    split; [unfold o, l; destruct (Z.eqb_spec (ut_tx_offset (pt_uart p) + n) (ut_tx_length (pt_uart p))); lia|].
    split; [unfold l; destruct (_ =? _); lia|]. intros Hq. rewrite <- (E Hq), Hout, <- app_assoc. f_equal. unfold o, l.
    destruct (Z.eqb_spec (ut_tx_offset (pt_uart p) + n) (ut_tx_length (pt_uart p))) as [En|En].
    + change (Z.to_nat (0 - 0)) with 0%nat. rewrite take_0, app_nil_r, take_take. f_equal. lia.
    + replace (Z.to_nat (ut_tx_offset (pt_uart p) + n)) with (Z.to_nat (ut_tx_offset (pt_uart p)) + Z.to_nat n)%nat by lia.
      rewrite <- drop_drop. generalize (drop (Z.to_nat (ut_tx_offset (pt_uart p))) (ut_tx (pt_uart p))). intros D. rewrite take_drop_commute.
      replace (Z.to_nat n + Z.to_nat (ut_tx_length (pt_uart p) - (ut_tx_offset (pt_uart p) + n)))%nat
        with (Z.to_nat (ut_tx_length (pt_uart p) - ut_tx_offset (pt_uart p))) by lia. apply take_drop.
Qed.

(** Packets are delivered to a callback that may send meanwhile. *)
Lemma deliver_all_run out0 in0 ps : forall s todo, J s -> tx_ok out0 (host_port s) -> rx_ok in0 (ps ++ todo) (host_port s) ->
  Forall (fun x => bytes x.2) ps -> exists s', deliver_all ps s = (Ret tt, s') /\ J s' /\ tx_ok out0 (host_port s') /\
    rx_ok in0 todo (host_port s') /\ ur_in (pt_resource (host_port s')) = ur_in (pt_resource (host_port s)) /\
    exists l, pt_sent (host_port s') = pt_sent (host_port s) ++ l.
Proof.
  induction ps as [|x ps IH]; intros s todo Hj Htx Hrx Hb.
  { exists s. do 5 (split; [done|]). exists []. by rewrite app_nil_r. }
  apply Forall_cons in Hb as [Hx Hb]. cbn [deliver_all]. unfold deliver_packet. unfold bind at 1.
  set (f := fun u => if ut_pkt_traced u <? BT_AROS_RX_TRACE_LIMIT then set_traced (ut_pkt_traced u + 1) (ut_rx_traced u) u else u).
  unfold bind at 1, on_uart at 1. rewrite on_port_run, uart_run, (get_set HL).
  set (p1 := with_uart f (host_port s)). assert (tx_ok out0 p1 /\ rx_ok in0 (x :: ps ++ todo) p1) as [Htx1 Hrx1].
  { unfold tx_ok, rx_ok, pending, p1, f in *. port_simpl. by destruct (ut_pkt_traced _ <? _). }
  pose proof Hrx1 as (_ & Hr & Hc & _). rewrite Hr, Hc. cbn [andb]. unfold bind at 1. rewrite on_port_run, (get_set HL), (set_set HL).
  set (p2 := note_received x p1). destruct (receive_law J HJ x.1 x.2 (host_set p2 s) (set_kept J HJ p2 s Hj) Hx) as (s' & E & Hj' & Hs);
    [rewrite (get_set HL); exact (proj1 Htx1)|].
  rewrite (get_set HL) in Hs. rewrite E. destruct (sends_same _ _ Hs) as [Hres [l Hl]].
  destruct (IH s' todo Hj' (sends_tx out0 _ _ Hs Htx1)) as (s2 & E2 & Hj2 & Htx2 & Hrx2 & Hin2 & l2 & Hl2); [|done|].
  { apply (sends_rx in0 _ _ _ Hs). destruct Hrx1 as (? & ? & ? & ? & ? & Hfeed). do 5 (split; [done|]). intros Hq. destruct (Hfeed Hq) as (c & ? & Hc').
    exists c. split; [done|]. unfold p2. port_simpl. by rewrite <- app_assoc. }
  exists s2. split; [done|]. split; [done|]. split; [done|]. split; [done|]. split; [by rewrite Hin2, Hres|].
  exists (l ++ l2). by rewrite Hl2, Hl, app_assoc.
Qed.

Section Stream.
  Context (out0 in0 : list Z).

(** A chunk that was read is fed to the receiver. *)
Lemma feed_chunk_run s chunk extra : J s -> tx_ok out0 (host_port s) -> bytes chunk ->
  let p := host_port s in
  ut_opened (pt_uart p) = true -> ut_receiving (pt_uart p) = true -> ut_receive (pt_uart p) = true ->
  h4_ok (ut_h4_rx (pt_uart p)) -> bytes (ur_in (pt_resource p)) ->
  (fails_quietly R -> exists c, in0 = c ++ chunk ++ ur_in (pt_resource p) /\ fed c (ut_h4_rx (pt_uart p)) (pt_received p)) ->
  exists o s', feed_chunk (chunk ++ extra) (zlen chunk) s = (o, s') /\ o <> Fault /\ J s' /\ tx_ok out0 (host_port s') /\
    rx_ok in0 [] (host_port s') /\ ur_in (pt_resource (host_port s')) = ur_in (pt_resource p) /\
    exists l, pt_sent (host_port s') = pt_sent p ++ l.
Proof.
  intros Hj Htx Hbk p Hopen Hrec Hcb Hok Hbr Hfed. unfold feed_chunk. rewrite uart_run, h4_feed_part by done. fold p.
  pose proof (spec_feed_safe chunk (ut_h4_rx (pt_uart p), []) Hok Hbk) as Hs.
  pose proof (stores_feed chunk Hbk (ut_h4_rx (pt_uart p), []) (conj (proj1 (proj2 Hok)) (Forall_nil_2 _))) as [_ Hl].
  unfold safe in Hs. destruct (spec_feed chunk (ut_h4_rx (pt_uart p), [])) as [o [h4' l]] eqn:Ek. destruct Hs as [Ho Hok'].
  cbn [snd] in Hl. unfold bind at 1, on_uart. rewrite on_port_run. fold p.
  destruct (deliver_all_run out0 in0 l (host_set (with_uart (set_h4_rx h4') p) s) []) as (s' & E & Hj' & Htx' & Hrx' & Hin' & Hs').
  - by apply (set_kept J HJ).
  - rewrite (get_set HL). exact Htx.
  - rewrite (get_set HL). unfold rx_ok. port_simpl. do 5 (split; [done|]). intros Hq. destruct (Hfed Hq) as (c & Ein & Hc).
    exists (c ++ chunk). rewrite app_nil_r, <- app_assoc. split; [done|]. by eapply fed_app.
  - done.
  - rewrite (get_set HL) in Hin', Hs'. exists o, s'. unfold bind. rewrite E. cbn [lift]. by do 6 (split; [done|]).
Qed.

Lemma rx_loop_run fuel : forall s, J s -> tx_ok out0 (host_port s) -> rx_ok in0 [] (host_port s) ->
  (length (ur_in (pt_resource (host_port s))) < fuel)%nat -> exists o s', rx_loop fuel s = (o, s') /\ o <> Fault /\ J s' /\
    tx_ok out0 (host_port s') /\ rx_ok in0 [] (host_port s') /\ (length (ur_in (pt_resource (host_port s'))) <= length (ur_in (pt_resource (host_port s))))%nat /\
    exists l, pt_sent (host_port s') = pt_sent (host_port s) ++ l.
Proof.
  induction fuel as [|fuel IH]; intros s Hj Htx Hrx Hf; [lia|]. cbn [rx_loop]. unfold bind at 1. rewrite call_run.
  set (p := host_port s) in *. pose proof (read_law BT_AROS_UART_RX_CHUNK (pt_resource p) ltac:(unfold BT_AROS_UART_RX_CHUNK; lia)) as Hr.
  destruct (btuart_read BT_AROS_UART_RX_CHUNK (pt_resource p)) as [[n mem] r'] eqn:Er. cbn [fst snd].
  destruct Hr as (Hout & Hmem & Hr). destruct Hrx as (Hopen & Hrec & Hcb & Hok & Hbr & Hfed). rewrite app_nil_r in Hfed.
  destruct (Z.ltb_spec n 0) as [Hn|Hn].
  - destruct Hr as [[_ [lost Hin]]|[? _]]; [|lia]. exists (Fail BT_ERR_IO), (host_set (with_resource r' p) s). split; [done|]. split; [done|].
    split; [by apply (set_kept J HJ)|]. rewrite (get_set HL). unfold tx_ok, rx_ok, pending in *. port_simpl. rewrite Hout.
    split; [exact Htx|]. rewrite Hin in Hbr |- *. apply Forall_app in Hbr as [_ Hbr].
    split; [|split; [rewrite length_app; lia|exists []; by rewrite app_nil_r]].
    do 5 (split; [done|]). intros Hq. rewrite app_nil_r. pose proof (proj2 Hq BT_AROS_UART_RX_CHUNK (pt_resource p)) as Hquiet. rewrite Er in Hquiet.
    cbn [fst snd] in Hquiet. rewrite Hquiet; [by apply Hfed|unfold BT_AROS_UART_RX_CHUNK; lia|done].
  - destruct Hr as [[? _]|[Hr Hin]]; [lia|]. unfold bind at 1, on_uart. rewrite on_port_run, (get_set HL), (set_set HL).
    set (f := fun u => if (n >? 0) && (ut_rx_traced u <? BT_AROS_RX_TRACE_LIMIT)
                       then set_traced (ut_pkt_traced u) (ut_rx_traced u + 1) u else u).
    set (p2 := with_uart f (with_resource r' p)).
    assert (pt_resource p2 = r' /\ ut_h4_rx (pt_uart p2) = ut_h4_rx (pt_uart p) /\ pt_received p2 = pt_received p /\ pt_sent p2 = pt_sent p /\
      ut_opened (pt_uart p2) = true /\ ut_receiving (pt_uart p2) = true /\ ut_receive (pt_uart p2) = true /\ tx_ok out0 p2)
      as (E1 & E2 & E3 & E4 & E5 & E6 & E7 & Htx2).
    { unfold tx_ok, pending, p2, f in *. port_simpl. rewrite Hout. by destruct ((n >? 0) && _). }
    assert (J (host_set p2 s)) as Hj2 by by apply (set_kept J HJ). rewrite Hin in Hbr. apply Forall_app in Hbr as [Hbk Hbr].
    destruct (Z.gtb_spec n 0) as [Hpos|Hz]; cbn [negb].
    + assert (zlen (take (Z.to_nat n) mem) = n) as Hl by (rewrite length_take; lia).
      destruct (feed_chunk_run (host_set p2 s) (take (Z.to_nat n) mem) (drop (Z.to_nat n) mem)) as (o & s3 & E & Ho & Hj3 & Htx3 & Hrx3 & Hin3 & l3 & Hs3);
        rewrite ?(get_set HL), ?E1, ?E2, ?E3; try done; [by rewrite <- Hin|].
      rewrite take_drop, Hl in E. rewrite E. rewrite (get_set HL), E4 in Hs3. rewrite (get_set HL), E1 in Hin3.
      assert (length (ur_in (pt_resource p)) = length (ur_in r') + Z.to_nat n)%nat as Hlen by (rewrite Hin, length_app; lia).
      destruct o as [[]|e|]; [| |done].
      * destruct (IH s3 Hj3 Htx3 Hrx3) as (o & s4 & E' & Ho' & Hj4 & Htx4 & Hrx4 & Hle & l4 & Hs4); [rewrite Hin3; lia|].
        exists o, s4. do 5 (split; [done|]). split; [rewrite Hin3 in Hle; lia|]. exists (l3 ++ l4). by rewrite Hs4, Hs3, app_assoc.
      * exists (Fail BT_ERR_IO), s3. do 5 (split; [done|]). split; [rewrite Hin3; lia|]. by exists l3.
    + replace n with 0 in Hin by lia. change (ur_in (pt_resource p) = ur_in r') in Hin. exists (Ret tt), (host_set p2 s). split; [done|]. split; [done|]. split; [done|].
      rewrite (get_set HL). split; [done|]. unfold rx_ok. rewrite E1, E2, E3, E4, Hin, app_nil_r.
      split; [by do 5 (split; [done|]); rewrite <- Hin|]. split; [done|]. exists []. by rewrite app_nil_r.
Qed.

(** ** Polls and sends *)

Inductive api : Type :=
| Send (type : bt_hci_packet_type) (data : list Z)
| Poll.

Definition run_call (fuel : nat) (a : api) : M S unit :=
  match a with
  | Send BT_HCI_PACKET_COMMAND data => uart_send_command (Some data) (zlen data)
  | Send BT_HCI_PACKET_ACL data => uart_send_acl (Some data) (zlen data)
  | Send _ _ => unsupported_send
  | Poll => bt_aros_uart_transport_poll fuel
  end.

(** The calls, one after the other, with the packets of the sends that were accepted. *)
Fixpoint run_calls (fuel : nat) (l : list api) (s : S) : outcome (list (bt_hci_packet_type * list Z) * S) :=
  match l with
  | [] => Ret ([], s)
  | a :: l =>
      match run_call fuel a s with
      | (Fault, _) => Fault
      | (o, s) =>
          let? r := run_calls fuel l s in
          Ret (match a, o with Send type data, Ret _ => (type, data) :: r.1 | _, _ => r.1 end, r.2)
      end
  end.

Definition api_ok (a : api) : Prop := match a with Send _ data => bytes data /\ zlen data < UINT64_MAX | Poll => True end.

Definition session (s : S) : Prop := J s /\ tx_ok out0 (host_port s) /\ rx_ok in0 [] (host_port s).

Lemma uart_call_ok fuel a s : api_ok a -> session s -> (length (ur_in (pt_resource (host_port s))) < fuel)%nat ->
  exists o s', run_call fuel a s = (o, s') /\ o <> Fault /\ session s' /\
    (length (ur_in (pt_resource (host_port s'))) <= length (ur_in (pt_resource (host_port s))))%nat /\
    exists l, pt_sent (host_port s') = pt_sent (host_port s) ++ l /\
      match a, o with Send type data, Ret _ => l = [(type, data)] | _, _ => True end.
Proof.
  intros Ha (Hj & Htx & Hrx) Hf.
  assert (forall e, exists o s', (Fail e : outcome unit, s) = (o, s') /\ o <> Fault /\ session s' /\
    (length (ur_in (pt_resource (host_port s'))) <= length (ur_in (pt_resource (host_port s))))%nat /\
    exists l, pt_sent (host_port s') = pt_sent (host_port s) ++ l /\ match a, o with Send type data, Ret _ => l = [(type, data)] | _, _ => True end) as Hfail.
  { intros e. exists (Fail e), s. do 4 (split; [done|]). exists []. rewrite app_nil_r. split; [done|]. by destruct a. }
  destruct a as [type data|].
  - destruct Ha as [Hb Hlen]. assert (forall ty, (ty = BT_HCI_PACKET_COMMAND \/ ty = BT_HCI_PACKET_ACL) -> type = ty -> exists o s',
      queue_packet ty (Some data) (zlen data) s = (o, s') /\ o <> Fault /\ session s' /\
      (length (ur_in (pt_resource (host_port s'))) <= length (ur_in (pt_resource (host_port s))))%nat /\
      exists l, pt_sent (host_port s') = pt_sent (host_port s) ++ l /\ match o with Ret _ => l = [(type, data)] | _ => True end) as Hq.
    { intros ty _ ->. destruct (queue_run HL ty data s Hb Hlen (proj1 Htx)) as [[Hacc E]|[_ [e E]]]; rewrite E.
      - exists (Ret tt), (host_set (queued (ty, data) (host_port s)) s). split; [done|]. split; [done|]. unfold session. rewrite (get_set HL).
        split; [split; [by apply (set_kept J HJ)|]; split; [by apply queued_ok|exact Hrx]|]. split; [done|]. by exists [(ty, data)].
      - exists (Fail e), s. do 4 (split; [done|]). exists []. by rewrite app_nil_r. }
    destruct type; cbn [run_call]; try apply Hfail; apply Hq; auto.
  - cbn [run_call]. unfold bt_aros_uart_transport_poll. rewrite uart_run. pose proof (proj1 Hrx) as Hopen. rewrite Hopen. cbn [negb].
    destruct (write_pending_run out0 in0 s Htx Hrx) as (o & p & E & Ho & Htx' & Hrx' & Hs & Hin & _). unfold bind at 1. rewrite E.
    assert (J (host_set p s)) as Hj' by by apply (set_kept J HJ).
    destruct o as [[]|e|]; [| |done].
    + rewrite uart_run, (get_set HL). pose proof Hrx' as (_ & Hrec & _). rewrite Hrec. cbn [negb].
      destruct (rx_loop_run fuel (host_set p s) Hj') as (o & s' & E' & Ho' & Hj2 & Htx2 & Hrx2 & Hle & l & Hl); rewrite ?(get_set HL); try done;
        [by rewrite Hin|]. rewrite (get_set HL) in Hle, Hl. exists o, s'. do 3 (split; [done|]). split; [by rewrite <- Hin|].
      exists l. by rewrite Hl, Hs.
    + exists (Fail e), (host_set p s). unfold session. rewrite (get_set HL), Hin, Hs. do 4 (split; [done|]). exists []. by rewrite app_nil_r.
Qed.

Lemma run_calls_ok fuel l : forall s, Forall api_ok l -> session s -> (length (ur_in (pt_resource (host_port s))) < fuel)%nat ->
  exists acc s', run_calls fuel l s = Ret (acc, s') /\ session s' /\ exists l', pt_sent (host_port s') = pt_sent (host_port s) ++ l' /\ sublist acc l'.
Proof.
  induction l as [|a l IH]; intros s Hl Hs Hf.
  { exists [], s. do 2 (split; [done|]). exists []. by rewrite app_nil_r. }
  apply Forall_cons in Hl as [Ha Hl]. cbn [run_calls]. destruct (uart_call_ok fuel a s Ha Hs Hf) as (o & s1 & E & Ho & Hs1 & Hle & l1 & Hl1 & Hacc).
  rewrite E. destruct (IH s1 Hl Hs1 ltac:(lia)) as (acc & s2 & E2 & Hs2 & l2 & Hl2 & Hsub). rewrite E2. cbn [obind fst snd].
  assert (forall x, pt_sent (host_port s2) = pt_sent (host_port s) ++ l1 ++ l2 /\ (l1 = [x] -> sublist (x :: acc) (l1 ++ l2)) /\ sublist acc (l1 ++ l2)) as Hx.
  { intros x. split; [by rewrite Hl2, Hl1, app_assoc|]. split; [intros ->; by apply sublist_skip|by apply sublist_inserts_l]. }
  destruct o as [[]|e|]; [| |done]; (eexists _, _; split; [reflexivity|]; split; [done|]; exists (l1 ++ l2)); destruct a as [type data|];
    destruct (Hx (BT_HCI_PACKET_COMMAND, [])) as (H1' & _ & H3'); split; try done; by apply Hx.
Qed.
End Stream.
End Calls.

(** An open transport that receives and has nothing under way. *)
Definition fresh (p : port R) : Prop :=
  ut_opened (pt_uart p) = true /\ ut_receiving (pt_uart p) = true /\ ut_receive (pt_uart p) = true /\
  ut_h4_rx (pt_uart p) = bt_h4_rx_init /\ zlen (ut_tx (pt_uart p)) = BT_AROS_UART_TX_MAX /\
  ut_tx_offset (pt_uart p) = 0 /\ ut_tx_length (pt_uart p) = 0 /\ pt_sent p = [] /\ pt_received p = [].

Lemma fresh_session J s : J s -> fresh (host_port s) -> bytes (ur_in (pt_resource (host_port s))) ->
  session J (ur_out (pt_resource (host_port s))) (ur_in (pt_resource (host_port s))) s.
Proof.
  intros Hj (H1' & H2' & H3' & H4' & H5' & H6' & H7' & H8' & H9') Hb. split; [done|]. split.
  - unfold tx_ok, pending, BT_AROS_UART_TX_MAX, BT_H4_MAX_PACKET_SIZE in *. rewrite H6', H7', H8'. split; [done|]. split; [lia|]. by split; [lia|].
  - do 3 (split; [done|]). rewrite H4', H9'. split; [apply init_ok|]. split; [done|]. intros _. by exists [].
Qed.

(** Frames of packets, and what the receiver handed over. *)
Lemma fed_packets ps rest c left h4 got : Forall wf_packet ps -> c ++ left = on_wire ps ++ rest -> fed c h4 got ->
  (got `prefix_of` ps \/ ps `prefix_of` got) /\ ((length left <= length rest)%nat -> ps `prefix_of` got) /\
  (rest = [] -> got `prefix_of` ps).
Proof.
  intros Hwf E Hc. destruct (stream_spec ps bt_h4_rx_init [] Hwf init_ok eq_refl) as (last & Ew & _). cbn [app] in Ew. unfold fed in Hc.
  assert (forall c2, on_wire ps = c ++ c2 -> got `prefix_of` ps /\ (c2 = [] -> ps = got)) as Hshort.
  { intros c2 Ec. rewrite Ec in Ew. apply spec_feed_prefix in Ew as ([h1 got1] & E1 & E2). rewrite E1 in Hc. destruct Hc as [-> ->].
    split; [|intros ->; by injection E2]. rewrite (adds_feed c2 h4 got) in E2.
    destruct (spec_feed c2 (h4, [])) as [o [r l2]]. injection E2 as _ _ <-. by exists l2. }
  assert (forall c2, c = on_wire ps ++ c2 -> ps `prefix_of` got) as Hlong.
  { intros c2 Ec. rewrite Ec, spec_feed_app in Hc. unfold bind in Hc. rewrite Ew, (adds_feed c2 last ps) in Hc.
    destruct (spec_feed c2 (last, [])) as [[[]|e|] [r l2]]; [destruct Hc as [_ <-]; by exists l2|by eapply prefix_app_l..]. }
  apply app_eq_inv in E as [(k & Ec & Er)|(k & Ec & Er)].
  - split; [right; by eapply Hlong|]. split; [intros _; by eapply Hlong|]. intros ->. symmetry in Er. apply app_nil in Er as [-> ->].
    rewrite app_nil_r in Ec. apply (Hshort []). by rewrite Ec, app_nil_r.
  - destruct (Hshort k Ec) as [Hp Hall]. split; [by left|]. split; [|done]. rewrite Er, length_app. intros Hle.
    destruct k; [by rewrite Hall|cbn in Hle; lia].
Qed.

(** C18.  The UART carries packets unchanged, both ways.  On a transport that is
    open, receives and has nothing under way, let any sends and polls be made,
    with a receive callback that may send, while the resource takes and gives
    as many bytes at a time as it likes, and may fail, and any bytes come in.
    Every call returns without a fault, and the packets whose sends were
    accepted are kept in order.  Where a call of the resource that fails has no
    effect (its code is not here: an assumption the transport makes), the bytes
    written, with those of the packet that is under way, are the frames of the
    packets that were accepted, in order, those accepted from the callback
    included; and if what comes in is, or begins with, the frames of some
    packets, the callback gets these packets, whole and in order and before any
    others, and has all of them once their frames have been read. *)
Theorem uart_carries_packets : forall (J : S -> Prop) l fuel s,
  host_laws J -> J s -> fresh (host_port s) -> bytes (ur_in (pt_resource (host_port s))) ->
  Forall api_ok l -> (length (ur_in (pt_resource (host_port s))) < fuel)%nat -> exists acc s',
  run_calls fuel l s = Ret (acc, s') /\ sublist acc (pt_sent (host_port s')) /\ (fails_quietly R ->
    ur_out (pt_resource (host_port s')) ++ pending (host_port s') = ur_out (pt_resource (host_port s)) ++ on_wire (pt_sent (host_port s')) /\
    forall ps rest, Forall wf_packet ps -> ur_in (pt_resource (host_port s)) = on_wire ps ++ rest ->
      let got := pt_received (host_port s') in
      (got `prefix_of` ps \/ ps `prefix_of` got) /\
      ((length (ur_in (pt_resource (host_port s'))) <= length rest)%nat -> ps `prefix_of` got) /\
      (rest = [] -> got `prefix_of` ps)).
Proof.
  intros J l fuel s HJ Hj Hfresh Hb Hl Hf.
  destruct (run_calls_ok J HJ (ur_out (pt_resource (host_port s))) (ur_in (pt_resource (host_port s))) fuel l s Hl)
    as (acc & s' & Erun & (_ & Htx & Hrx) & l' & Hs & Hsub); [by apply fresh_session|done|].
  exists acc, s'. split; [done|]. destruct Hfresh as (_ & _ & _ & _ & _ & _ & _ & Hnone & _). rewrite Hnone in Hs. cbn [app] in Hs.
  split; [by rewrite Hs|]. intros Hq. split; [destruct Htx as (_ & _ & _ & Hout); by apply Hout|].
  intros ps rest Hwf Hin. destruct Hrx as (_ & _ & _ & _ & _ & Hfed). destruct (Hfed Hq) as (c & Ec & Hc). rewrite app_nil_r in Hc.
  eapply fed_packets; [done|by rewrite <- Ec|done].
Qed.
(** ** Opening and closing *)

(** Whether the transport owns the resource. *)
Record owner_laws (owned : R -> bool) : Prop := {
  open_owned : forall r, owned (open_resource r).2 = owned r;
  version_owned : forall r, owned (btuart_get_version r).2 = owned r;
  claim_owned : forall r, owned r = false -> owned (btuart_claim r).2 = ((btuart_claim r).1 =? BTUART_OK);
  configure_owned : forall baud flags r, owned (btuart_configure baud flags r).2 = owned r;
  power_owned : forall on r, owned (btuart_set_power on r).2 = owned r;
  release_owned : forall r, owned (btuart_release r) = false;
}.

(** Closed, and without the resource. *)
Definition closed (owned : R -> bool) (p : port R) : Prop :=
  ut_opened (pt_uart p) = false /\ ut_resource (pt_uart p) = false /\ owned (pt_resource p) = false.

Lemma call_bind {A B} (f : R -> A * R) (k : A -> M S B) s :
  bind (call f) k s = k (f (pt_resource (host_port s))).1 (host_set (with_resource (f (pt_resource (host_port s))).2 (host_port s)) s).
Proof. unfold bind, call. by destruct (f _). Qed.

Lemma on_uart_bind {A} f (k : unit -> M S A) s : bind (on_uart f) k s = k tt (host_set (with_uart f (host_port s)) s).
Proof. done. Qed.

(** One call of the resource during opening, with the law it obeys; and an
    opening that failed. *)
Ltac resource_call HL law O :=
  rewrite call_bind, ?(get_set HL), ?(set_set HL); port_simpl;
  match goal with |- context [(?f ?r).1] => pose proof law as O; destruct (f r) as [? ?] end;
  cbn [fst snd] in O |- *.
Ltac refused Hfail :=
  edestruct Hfail as (o & s' & E & Hc); [|exists o, s'; split; [exact E|by destruct o]]; unfold closed; port_simpl.

Lemma close_opened owned s : lens_laws -> owner_laws owned -> ut_opened (pt_uart (host_port s)) = true ->
  exists s', uart_close s = (Ret tt, s') /\ closed owned (host_port s') /\ pending (host_port s') = [].
Proof.
  intros HL HO Hop. unfold uart_close. rewrite uart_run, Hop. cbn [negb]. rewrite on_uart_bind, call_bind, !on_uart_bind.
  eexists. split; [unfold on_uart; rewrite on_port_run; reflexivity|]. rewrite !(get_set HL). unfold closed, pending. port_simpl.
  split; [|done]. do 2 (split; [done|]). apply (release_owned owned HO).
Qed.

(** C37.  Opening is all or nothing.  Whatever the resource answers, opening
    returns: with BT_OK the transport is open, owns the resource and has an
    idle receiver; with an error it is closed and does not own the resource, so
    that it can be opened again.  Opening twice is refused, and closing gives
    the resource back. *)
Theorem uart_open_close : forall owned s, lens_laws -> owner_laws owned -> closed owned (host_port s) ->
  exists o s', uart_open s = (o, s') /\ match o with
  | Ret _ => ut_opened (pt_uart (host_port s')) = true /\ ut_resource (pt_uart (host_port s')) = true /\
      owned (pt_resource (host_port s')) = true /\ ut_h4_rx (pt_uart (host_port s')) = bt_h4_rx_init /\
      uart_open s' = (Fail BT_ERR_INVALID_ARGUMENT, s') /\
      exists s'', uart_close s' = (Ret tt, s'') /\ closed owned (host_port s'') /\ pending (host_port s'') = []
  | Fail _ => closed owned (host_port s')
  | Fault => False
  end.
Proof.
  intros owned s HL HO (Hop & Hres & Hown). unfold uart_open at 1. rewrite uart_run, Hop.
  assert (forall e p, closed owned p -> exists o s', (Fail e : outcome unit, host_set p s) = (o, s') /\ match o with
    | Ret _ => False | Fail _ => closed owned (host_port s') | Fault => False end) as Hfail.
  { intros e p Hp. exists (Fail e), (host_set p s). by rewrite (get_set HL). }
  resource_call HL (open_owned owned HO (pt_resource (host_port s))) O1.
  rewrite on_uart_bind, (get_set HL), (set_set HL). destruct b; cbn [negb]; [|refused Hfail; by rewrite O1].
  resource_call HL (version_owned owned HO r) O2. destruct (negb _).
  { rewrite on_uart_bind, (get_set HL), (set_set HL). refused Hfail. by rewrite O2, O1. }
  resource_call HL (claim_owned owned HO r0 ltac:(by rewrite O2, O1)) O3. destruct (_ =? _) in O3 |- *; cbn [negb].
  2: { rewrite on_uart_bind, (get_set HL), (set_set HL). by refused Hfail. }
  resource_call HL (configure_owned owned HO 115200 BTUART_CONFIG_RTS_CTS r1) O4. destruct (negb _).
  { rewrite call_bind, on_uart_bind, !(get_set HL), !(set_set HL). refused Hfail. by rewrite (release_owned owned HO). }
  resource_call HL (power_owned owned HO 1 r2) O5. destruct (negb _).
  { rewrite call_bind, on_uart_bind, !(get_set HL), !(set_set HL). refused Hfail. by rewrite (release_owned owned HO). }
  rewrite on_uart_bind, !(get_set HL), !(set_set HL). unfold on_uart. rewrite on_port_run, (get_set HL), (set_set HL).
  eexists _, _. split; [reflexivity|]. rewrite (get_set HL). port_simpl. do 2 (split; [done|]).
  split; [by rewrite O5, O4, O3|]. split; [done|]. split; [unfold uart_open; by rewrite uart_run, (get_set HL)|].
  apply (close_opened owned); [done..|by rewrite (get_set HL)].
Qed.
End Laws.

(** ** Witnesses *)

Module UartDemo.

(** A resource that takes three bytes and gives two at a time. *)
Record slow_uart : Type := { su_in : list Z; su_out : list Z; su_owned : bool }.

#[export] Instance slow_resource : BtUart slow_uart := {|
  open_resource r := (true, r);
  btuart_get_version r := (1, r);
  btuart_claim r := if su_owned r then (1, r) else (0, {| su_in := su_in r; su_out := su_out r; su_owned := true |});
  btuart_release r := {| su_in := su_in r; su_out := su_out r; su_owned := false |};
  btuart_configure _ _ r := (0, r);
  btuart_set_power _ r := (0, r);
  btuart_write d r := (Z.min 3 (zlen d), {| su_in := su_in r; su_out := su_out r ++ take 3 d; su_owned := su_owned r |});
  btuart_read cap r :=
    let n := Z.min cap (Z.min 2 (zlen (su_in r))) in
    ((n, take (Z.to_nat n) (su_in r) ++ replicate (Z.to_nat (cap - n)) 0),
     {| su_in := drop (Z.to_nat n) (su_in r); su_out := su_out r; su_owned := su_owned r |});
|}.

#[export] Instance slow_laws : BtUartLaws slow_uart.
Proof.
  refine {| ur_out := su_out; ur_in := su_in |}.
  - intros d r. cbn. split; [done|]. right. split; [lia|]. f_equal. destruct (decide (length d <= 3)%nat).
    + by rewrite !take_ge by lia.
    + f_equal. lia.
  - intros cap r Hcap. cbn. set (n := Z.min cap (Z.min 2 (zlen (su_in r)))).
    assert (0 <= n <= cap /\ n <= zlen (su_in r)) as Hn by lia. clearbody n. split; [done|].
    assert (length (take (Z.to_nat n) (su_in r)) = Z.to_nat n) as Hl by (rewrite length_take; lia).
    split; [rewrite length_app, Hl, length_replicate; lia|]. right. split; [lia|].
    rewrite take_app_le, take_ge, take_drop by lia. done.
Defined.

(** A callback that answers an event with a command. *)
#[export] Instance demo_host : Host slow_uart (port slow_uart) := {| host_port p := p; host_set p _ := p |}.
#[export] Instance answering : Receiver (port slow_uart) := {|
  host_receive type d := fun s =>
    (Ret tt, match type with BT_HCI_PACKET_EVENT => (uart_send_command (Some [3; 12; 0]) 3 s).2 | _ => s end) |}.

Definition start : port slow_uart := {|
  pt_uart := set_receive true (set_opened true (set_resource true bt_aros_uart_transport_init));
  pt_resource := {| su_in := on_wire [(BT_HCI_PACKET_EVENT, [14; 1; 7]); (BT_HCI_PACKET_ACL, [1; 32; 2; 0; 9; 8])] ++ [9; 9]; su_out := []; su_owned := true |};
  pt_sent := []; pt_received := [] |}.

Lemma demo_lens : lens_laws (R := slow_uart) (S := port slow_uart).
Proof. by split. Qed.

Lemma demo_host_laws : host_laws (R := slow_uart) (S := port slow_uart) (fun _ => True).
Proof.
  split; [exact demo_lens|done|]. intros type d s _ _ Hz. eexists. split; [reflexivity|]. split; [done|].
  destruct type; try constructor. 
  change (uart_send_command (Some [3; 12; 0]) 3 s) with (queue_packet BT_HCI_PACKET_COMMAND (Some [3; 12; 0]) (zlen [3; 12; 0]) s).
  destruct (queue_run demo_lens BT_HCI_PACKET_COMMAND [3; 12; 0] s) as [[Hacc E]|[_ [e E]]];
    [concrete_bytes|unfold UINT64_MAX; cbn; lia|exact Hz| |]; rewrite E; [|constructor].
  apply (sends_packet s s (BT_HCI_PACKET_COMMAND, [3; 12; 0])); [constructor|exact Hacc].
Qed.

Lemma demo_owner : owner_laws su_owned.
Proof. split; cbn; try done. by intros r ->. Qed.

Definition idle : port slow_uart := {|
  pt_uart := bt_aros_uart_transport_init; pt_resource := {| su_in := []; su_out := []; su_owned := false |}; pt_sent := []; pt_received := [] |}.
End UartDemo.
Import UartDemo.

Lemma slow_fails_quietly : fails_quietly UartDemo.slow_uart.
Proof. split; intros; cbn in *; lia. Qed.

(** A command goes out in three polls, while the event comes in and is answered,
    followed by a packet and two bytes that are none. *)
Lemma uart_carries_packets_witness : exists acc (s' : port UartDemo.slow_uart),
  run_calls (R := UartDemo.slow_uart) 20 [Send BT_HCI_PACKET_COMMAND [1; 4; 1; 5]; Poll; Poll; Poll] UartDemo.start = Ret (acc, s') /\
  sublist acc (pt_sent s') /\ [(BT_HCI_PACKET_EVENT, [14; 1; 7]); (BT_HCI_PACKET_ACL, [1; 32; 2; 0; 9; 8])] `prefix_of` pt_received s' /\
  acc = [(BT_HCI_PACKET_COMMAND, [1; 4; 1; 5])].
Proof.
  destruct (uart_carries_packets (S := port UartDemo.slow_uart) (fun _ => True)
    [Send BT_HCI_PACKET_COMMAND [1; 4; 1; 5]; Poll; Poll; Poll] 20 UartDemo.start) as (acc & s' & E & Hsub & Hq).
  - exact UartDemo.demo_host_laws.
  - done.
  - vm_compute. by repeat split.
  - concrete_bytes.
  - repeat constructor; unfold UINT64_MAX; cbn; lia.
  - cbn. lia.
  - destruct (Hq slow_fails_quietly) as [_ Hrx].
    destruct (Hrx [(BT_HCI_PACKET_EVENT, [14; 1; 7]); (BT_HCI_PACKET_ACL, [1; 32; 2; 0; 9; 8])] [9; 9]) as (_ & Hall & _);
      [repeat constructor; simpl; unfold is_byte; lia || discriminate|reflexivity|].
    exists acc, s'. split; [exact E|]. split; [exact Hsub|]. vm_compute in E. injection E as <- <-.
    split; [apply Hall; cbn; lia|done].
Defined.

Lemma uart_open_close_witness : exists s' : port UartDemo.slow_uart, uart_open (R := UartDemo.slow_uart) UartDemo.idle = (Ret tt, s') /\
  exists s'', uart_close (R := UartDemo.slow_uart) s' = (Ret tt, s'') /\ closed UartDemo.su_owned s''.
Proof.
  destruct (uart_open_close (S := port UartDemo.slow_uart) UartDemo.su_owned UartDemo.idle) as (o & s' & E & Ho).
  - exact UartDemo.demo_lens.
  - exact UartDemo.demo_owner.
  - by repeat split.
  - destruct o as [[]|e|]; [|vm_compute in E; discriminate|done]. destruct Ho as (_ & _ & _ & _ & _ & s'' & E'' & Hc & _).
    exists s'. split; [exact E|]. by exists s''.
Defined.

End UartTransport.
