(* ===== verification/VirtualTransport.v ===== *)
(** * The virtual controller of the test host: ports/test-host/virtual_transport

    A transport that answers commands itself, from inside [send_command], so
    that the command queue is re-entered before its send returns.  It is an
    instance of the transport that [CommandQueue] and [Controller] ask for; the
    last theorem runs the whole bring-up on it. *)

From Stdlib Require Import ZArith Lia.
From stdpp Require Import base list list_numbers gmap.
From S2P Require Import Prelude Endian Buffer Queue Timer Addr Hci DeviceRegistry CommandQueue Controller.

Module VirtualTransport.
Import Buffer Hci DeviceRegistry CommandQueue Controller.

Definition BT_HCI_EVENT_HEADER_LEN : Z := 2.

(** [recv] is NULL or the manager's receive callback. *)
Record bt_virtual_transport : Type := { vt_recv : bool; vt_is_open : bool; vt_reset_done : bool }.

Definition bt_virtual_transport_init : bt_virtual_transport := {| vt_recv := false; vt_is_open := false; vt_reset_done := false |}.

Definition vt_open (vt : bt_virtual_transport) : Z * bt_virtual_transport :=
  (0, {| vt_recv := vt_recv vt; vt_is_open := true; vt_reset_done := false |}).
Definition vt_close (vt : bt_virtual_transport) : bt_virtual_transport :=
  {| vt_recv := vt_recv vt; vt_is_open := false; vt_reset_done := vt_reset_done vt |}.
Definition vt_start_receive (vt : bt_virtual_transport) : Z * bt_virtual_transport :=
  (0, {| vt_recv := true; vt_is_open := vt_is_open vt; vt_reset_done := vt_reset_done vt |}).
Definition vt_stop_receive (vt : bt_virtual_transport) : bt_virtual_transport :=
  {| vt_recv := false; vt_is_open := vt_is_open vt; vt_reset_done := vt_reset_done vt |}.
Definition set_reset_done (vt : bt_virtual_transport) : bt_virtual_transport :=
  {| vt_recv := vt_recv vt; vt_is_open := vt_is_open vt; vt_reset_done := true |}.

(** ACL, SCO and ISO data are refused. *)
Definition vt_send_unsupported : Z := -1.

(** A buffer of [cap] bytes on the stack, as far as it was written.  The code
    ignores the writers' statuses; [answers_written] shows that they are BT_OK. *)
Definition built (cap : Z) (m : M bt_buf_writer unit) : list Z := wout (m (bt_buf_writer_init (replicate (Z.to_nat cap) 0) cap)).2.

Abbreviation run := (tprog bt_virtual_transport).

Definition emit_event (vt : bt_virtual_transport) (event : list Z) (k : bt_virtual_transport -> run) : run :=
  if vt_recv vt then TRecv vt event k else k vt.

Definition command_complete (opcode : Z) (return_params : list Z) : list Z :=
  built (BT_HCI_EVENT_HEADER_LEN + 3 + 16)
    (do! bt_buf_writer_write_u8 BT_HCI_EVENT_COMMAND_COMPLETE in
     do! bt_buf_writer_write_u8 (u8 (3 + zlen return_params)) in
     do! bt_buf_writer_write_u8 1 in
     do! bt_buf_writer_write_le16 opcode in
     bt_buf_writer_write_bytes return_params (zlen return_params)).

Definition emit_command_complete (vt : bt_virtual_transport) (opcode : Z) (return_params : list Z)
    (k : bt_virtual_transport -> run) : run := emit_event vt (command_complete opcode return_params) k.

Definition command_status (opcode status : Z) : list Z :=
  built (BT_HCI_EVENT_HEADER_LEN + 4)
    (do! bt_buf_writer_write_u8 BT_HCI_EVENT_COMMAND_STATUS in
     do! bt_buf_writer_write_u8 4 in
     do! bt_buf_writer_write_u8 status in
     do! bt_buf_writer_write_u8 1 in
     bt_buf_writer_write_le16 opcode).

Definition emit_command_status (vt : bt_virtual_transport) (opcode status : Z) (k : bt_virtual_transport -> run) : run :=
  emit_event vt (command_status opcode status) k.

Definition fake_inquiry_result : list Z :=
  built (BT_HCI_EVENT_HEADER_LEN + 1 + 14)
    (do! bt_buf_writer_write_u8 BT_HCI_EVENT_INQUIRY_RESULT in
     do! bt_buf_writer_write_u8 (1 + 14) in
     do! bt_buf_writer_write_u8 1 in
     do! bt_buf_writer_write_bytes [1; 2; 3; 4; 5; 6] 6 in
     do! bt_buf_writer_write_u8 1 in
     do! bt_buf_writer_write_le16 0 in
     do! bt_buf_writer_write_le24 2031876 in
     bt_buf_writer_write_le16 0).

Definition fake_inquiry_complete : list Z :=
  built (BT_HCI_EVENT_HEADER_LEN + 1)
    (do! bt_buf_writer_write_u8 BT_HCI_EVENT_INQUIRY_COMPLETE in
     do! bt_buf_writer_write_u8 1 in
     bt_buf_writer_write_u8 0).

Definition emit_fake_inquiry_sequence (vt : bt_virtual_transport) (k : bt_virtual_transport -> run) : run :=
  emit_event vt fake_inquiry_result (fun vt => emit_event vt fake_inquiry_complete k).

Definition fake_le_adv_report : list Z :=
  built (BT_HCI_EVENT_HEADER_LEN + 2 + 10)
    (do! bt_buf_writer_write_u8 BT_HCI_EVENT_LE_META in
     do! bt_buf_writer_write_u8 (2 + 10) in
     do! bt_buf_writer_write_u8 BT_HCI_LE_META_SUBEVENT_ADVERTISING_REPORT in
     do! bt_buf_writer_write_u8 1 in
     do! bt_buf_writer_write_u8 0 in
     do! bt_buf_writer_write_u8 0 in
     do! bt_buf_writer_write_bytes [17; 18; 19; 20; 21; 22] 6 in
     do! bt_buf_writer_write_u8 0 in
     bt_buf_writer_write_u8 (u8 (-55))).

Definition emit_fake_le_adv_report (vt : bt_virtual_transport) (k : bt_virtual_transport -> run) : run :=
  emit_event vt fake_le_adv_report k.

(** The return parameters of each command; None for those that are accepted
    without an answer. *)
Definition return_params (opcode : Z) : option (list Z) :=
  let rp m := Some (built 16 m) in
  if opcode =? BT_HCI_OPCODE_RESET then rp (bt_buf_writer_write_u8 0)
  else if opcode =? BT_HCI_OPCODE_READ_LOCAL_VERSION_INFO then
    rp (do! bt_buf_writer_write_u8 0 in
        do! bt_buf_writer_write_u8 12 in
        do! bt_buf_writer_write_le16 0 in
        do! bt_buf_writer_write_u8 12 in
        do! bt_buf_writer_write_le16 65535 in
        bt_buf_writer_write_le16 1)
  else if opcode =? BT_HCI_OPCODE_READ_LOCAL_SUPPORTED_FEATURES then
    rp (do! bt_buf_writer_write_u8 0 in
        bt_buf_writer_write_bytes [255; 254; 141; 254; 155; 249; 0; 128] 8)
  else if opcode =? BT_HCI_OPCODE_READ_BUFFER_SIZE then
    rp (do! bt_buf_writer_write_u8 0 in
        do! bt_buf_writer_write_le16 200 in
        do! bt_buf_writer_write_u8 0 in
        do! bt_buf_writer_write_le16 8 in
        bt_buf_writer_write_le16 0)
  else if (opcode =? BT_HCI_OPCODE_LE_SET_SCAN_PARAMETERS) || (opcode =? BT_HCI_OPCODE_LE_SET_SCAN_ENABLE)
  then rp (bt_buf_writer_write_u8 0)
  else None.

Definition command_header : M bt_buf_reader (Z * Z) :=
  let! opcode := bt_buf_reader_read_le16 in
  let! param_len := bt_buf_reader_read_u8 in
  ret (opcode, param_len).

Definition vt_send_command (vt : bt_virtual_transport) (data : list Z) : run :=
  if negb (vt_is_open vt) then TDone (-1) vt else
  match command_header (bt_buf_reader_init data (zlen data)) with
  | (Ret (opcode, param_len), r) =>
      if negb (bt_buf_reader_remaining r =? param_len) then TDone (-1) vt else
      let done := TDone 0 in
      if opcode =? BT_HCI_OPCODE_INQUIRY then
        emit_command_status vt opcode 0 (fun vt => emit_fake_inquiry_sequence vt done)
      else
        let vt := if opcode =? BT_HCI_OPCODE_RESET then set_reset_done vt else vt in
        match return_params opcode with
        | None => done vt
        | Some rp =>
            emit_command_complete vt opcode rp (fun vt =>
              if opcode =? BT_HCI_OPCODE_LE_SET_SCAN_ENABLE then emit_fake_le_adv_report vt done else done vt)
        end
  | (_, r) => TDone (-1) vt
  end.

#[export] Instance virtual_transport : CmdqTransport bt_virtual_transport := { send_command := vt_send_command }.

Definition bt_virtual_transport_ops : transport_ops (T := bt_virtual_transport) :=
  {| tr_open := vt_open; tr_start_receive := vt_start_receive; tr_stop_receive := vt_stop_receive; tr_close := vt_close |}.

(** ** The events it sends *)

Lemma built_bytes cap m bs : writes m bs -> zlen bs <= cap -> built cap m = bs.
Proof.
  intros Hm Hl. unfold built. pose proof (Nat2Z.is_nonneg (length bs)).
  assert (writer_ok (bt_buf_writer_init (replicate (Z.to_nat cap) 0) cap)) as Hok.
  { apply writer_init_ok. rewrite length_replicate. lia. }
  destruct (Hm _ Hok) as [E _]. rewrite E by (cbn; lia). cbn [snd]. rewrite wput_out by (done || cbn; lia). by rewrite wout_init.
Qed.

Lemma command_complete_is op rp : zlen rp <= 16 -> command_complete op rp = complete_event 1 op rp.
Proof.
  intros Hl. apply built_bytes.
  - unfold complete_event. print_all.
    by rewrite !(u8_small (3 + zlen rp)) by lia.
  - unfold complete_event, BT_HCI_EVENT_HEADER_LEN. rewrite !length_app, le_enc_length. cbn [length]. lia.
Qed.

Lemma command_status_is op : command_status op 0 = status_event 0 1 op.
Proof. apply built_bytes; [unfold status_event; print_all|]. unfold status_event, BT_HCI_EVENT_HEADER_LEN. rewrite !length_app, le_enc_length. cbn. lia. Qed.

(** The commands that are answered with a Command Complete. *)
Lemma answered_opcode op rp : return_params op = Some rp -> op ∈ [BT_HCI_OPCODE_RESET; BT_HCI_OPCODE_READ_LOCAL_VERSION_INFO;
  BT_HCI_OPCODE_READ_LOCAL_SUPPORTED_FEATURES; BT_HCI_OPCODE_READ_BUFFER_SIZE; BT_HCI_OPCODE_LE_SET_SCAN_PARAMETERS;
  BT_HCI_OPCODE_LE_SET_SCAN_ENABLE] /\ bytes rp /\ zlen rp <= 16.
Proof.
  unfold return_params. intros H.
  repeat match type of H with (if ?b then _ else _) = _ => destruct b eqn:?E end; try done.
  all: injection H as <-; repeat match goal with E : _ = true |- _ => apply orb_prop in E as [E|E] || apply Z.eqb_eq in E as -> end.
  all: split; [apply list_elem_of_In; vm_compute; tauto|split; [concrete_bytes|vm_compute; discriminate]].
Qed.

Lemma answered_u16 op rp : return_params op = Some rp -> 0 <= op < 2 ^ 16.
Proof.
  intros [Hop _]%answered_opcode. repeat (apply elem_of_cons in Hop as [->|Hop]; [vm_compute; split; congruence|]).
  by apply elem_of_nil in Hop.
Qed.

Lemma complete_fits n op rp : is_byte n -> 0 <= op < 2 ^ 16 -> bytes rp -> zlen rp <= 252 -> event_fit (complete_event n op rp).
Proof.
  intros Hn Hop Hb Hl. assert (bytes ([n] ++ le_enc 2 op ++ rp)) as Hbb by bys.
  assert (zlen ([n] ++ le_enc 2 op ++ rp) = 3 + zlen rp) as Hbl by (rewrite !length_app, le_enc_length; simpl; lia).
  destruct (event_header_runs BT_HCI_EVENT_COMMAND_COMPLETE ([n] ++ le_enc 2 op ++ rp)) as (r & Hh & _);
    [unfold is_byte, BT_HCI_EVENT_COMMAND_COMPLETE; lia|lia|done|]. rewrite Hbl in Hh. unfold event_fit, complete_event. split.
  - unfold BT_HCI_EVENT_COMMAND_COMPLETE. bys.
  - rewrite Hh. by intros [? _].
Qed.

(** A closed event, by running the parser. *)
Ltac closed_fits := split; [concrete_bytes|vm_compute; by intros [? _]].

(** Every event it delivers is legal, so the queue's and the controller's
    contracts hold over it. *)
Lemma emit_ok vt ev k : event_fit ev -> (forall t, tprog_ok event_fit (k t)) -> tprog_ok event_fit (emit_event vt ev k).
Proof. intros He Hk. unfold emit_event. destruct (vt_recv vt); [by split|apply Hk]. Qed.

Lemma virtual_legal (t : bt_virtual_transport) wire : tprog_ok event_fit (send_command t wire).
Proof.
  cbn [send_command virtual_transport]. unfold vt_send_command. destruct (negb (vt_is_open t)); [done|].
  destruct (command_header _) as [[[op len]|e|] r]; [|done..]. destruct (negb _); [done|].
  destruct (Z.eqb_spec op BT_HCI_OPCODE_INQUIRY) as [->|].
  - apply emit_ok; [closed_fits|]. intros t1. apply emit_ok; [closed_fits|]. intros t2. by apply emit_ok; [closed_fits|].
  - destruct (return_params op) as [rp|] eqn:Erp; [|done]. destruct (answered_opcode op rp Erp) as (_ & Hb & Hl).
    pose proof (answered_u16 op rp Erp) as Hop. apply emit_ok.
    + rewrite command_complete_is by done. apply complete_fits; [unfold is_byte; lia|done|done|lia].
    + intros t1. destruct (_ =? _); [|done]. by apply emit_ok; [closed_fits|].
Qed.

(** ** The bring-up *)

Section Bringup.
  Context (hook : bool).

#[local] Instance client : CmdqClient complete_fn unit bt_manager := controller_client hook.
Abbreviation W := (world complete_fn unit bt_manager bt_virtual_transport).

(** The answer to a command of the bring-up. *)
Definition answer (cb : complete_fn) : list Z := match bringup cb with Some (op, _) => default [] (return_params op) | None => [] end.

Definition answering (t : bt_virtual_transport) : Prop := vt_is_open t = true /\ vt_recv t = true.

Lemma bringup_answered cb op st t : bringup cb = Some (op, st) -> answering t -> exists t', answering t' /\
  send_command t (wire_of (no_params op cb)) = TRecv t' (complete_event 1 op (answer cb)) (TDone 0).
Proof.
  intros Hcb [Ho Hr]. destruct t as [rc op' rd]. cbn in Ho, Hr. subst.
  destruct cb; [..|done]; injection Hcb as <- <-; (eexists; split; [|vm_compute; reflexivity]); done.
Qed.

(** The command that waits for [cb] is in the queue and not yet sent. *)
Definition sending (w : W) (cb : complete_fn) (i : bt_controller_info) (tr : list (tev complete_fn unit)) : Prop :=
  exists op st slot s, bringup cb = Some (op, st) /\ inv w [slot] [] /\ cq_outstanding (w_q w) = None /\
    cq_command_credits (w_q w) <> 0 /\ cq_pool (w_q w) !! slot = Some s /\ cmd_of s = no_params op cb /\ ct_state (ct w) = st /\
    ct_info (ct w) = i /\ mg_state (w_client w) = BT_MANAGER_STATE_STARTING /\ answering (w_transport w) /\ w_trace w = tr.

Lemma answer_success cb op st : bringup cb = Some (op, st) -> success 1 (answer cb) /\ 0 <= op < 2 ^ 16.
Proof.
  destruct cb; [..|done]; intros [= <- <-];
    (split; [split; [unfold is_byte; lia|]; split; [lia|]; split; [concrete_bytes|]; split; [vm_compute; discriminate|reflexivity]|
             vm_compute; split; congruence]).
Qed.

(** The callback of a successful answer. *)
Lemma answered_prog cb op st params m i' : bringup cb = Some (op, st) -> absorbed cb params (ct_info (mg_controller m)) = Ret i' ->
  run_complete_fn cb {| cm_result := BT_CMDQ_RESULT_COMPLETE; cm_opcode := op; cm_status := 0; cm_return_params := Some params;
    cm_return_params_len := zlen params |} m =
  match following cb with
  | Some cb' => match bringup cb' with
                | Some (op', st') => submit_next op' cb' (set_state st' (set_info i' m))
                | None => CFault
                end
  | None => CDone (set_state BT_CONTROLLER_STATE_READY (set_info i' m))
  end.
Proof.
  destruct m as [[cs ci cd tr] ms]. intros Hcb Habs. destruct cb; [..|done]; cbn [absorbed mg_controller ct_info] in Habs;
    cbn [run_complete_fn following bringup].
  - by injection Habs as <-.
  - unfold on_version_complete. change (step_ok _) with true. cbn [negb]. unfold return_bytes. cbn [cm_return_params cm_return_params_len default].
    change (from_option id [] (Some params)) with params. destruct (bt_hci_parse_local_version _ _); [|done..]. by injection Habs as <-.
  - unfold on_features_complete. change (step_ok _) with true. cbn [negb]. unfold return_bytes. cbn [cm_return_params cm_return_params_len default].
    change (from_option id [] (Some params)) with params. destruct (bt_hci_parse_local_features _ _); [|done..]. by injection Habs as <-.
  - unfold on_buffer_size_complete. change (step_ok _) with true. cbn [negb]. unfold return_bytes. cbn [cm_return_params cm_return_params_len default].
    change (from_option id [] (Some params)) with params. destruct (bt_hci_parse_buffer_size _ _); [|done..]. by injection Habs as <-.
Qed.

Lemma submit_next_simple op cb (m : bt_manager) : simple (submit_next op cb m).
Proof. split; [reflexivity|]. eexists. cbn [submit_next]. rewrite decide_True by done. reflexivity. Qed.

(** It is answered before its send returns, and the next one is in the queue. *)
Lemma virtual_step fuel w cb i tr now op st i' : sending w cb i tr -> bringup cb = Some (op, st) ->
  absorbed cb (answer cb) i = Ret i' -> exists w1 now1,
  let tr' := tr ++ [ESend (wire_of (no_params op cb)); EComplete (no_params op cb) BT_CMDQ_RESULT_COMPLETE 0] in
  match following cb with
  | Some cb' => exists op' st', bringup cb' = Some (op', st') /\ sending w1 cb' i' (tr' ++ [ESubmit (no_params op' cb')])
  | None => idle w1 /\ ct_state (ct w1) = BT_CONTROLLER_STATE_READY /\ ct_info (ct w1) = i' /\
      mg_state (w_client w1) = BT_MANAGER_STATE_STARTING /\ w_trace w1 = tr'
  end /\
  forall w', bt_cmdq_pump fuel w1 now1 = Ret w' -> bt_cmdq_pump (S fuel) w now = Ret w'.
Proof.
  intros (op0 & st0 & slot & s & Hcb0 & Hi & Ho & Hc & Hs & Hcmd & Hst & Hinfo & Hms & Hans & Htr) Hcb Habs.
  rewrite Hcb in Hcb0. injection Hcb0 as <- <-. subst i tr.
  destruct (bringup_answered cb op st (w_transport w) Hcb Hans) as (t & Hans' & Hsend). rewrite <- Hcmd in Hsend |- *.
  assert (sl_opcode s = op /\ sl_on_complete s = Some cb) as [Hop Hcbs] by (by injection Hcmd).
  destruct (answer_success cb op st Hcb) as [(Hn & _ & Hb & Hl & Hhd) Hr].
  pose proof (answered_prog cb op st (answer cb) (w_client w) i' Hcb Habs) as Hprog.
  destruct (pump_answered (H := client) fuel w slot s now 1 (answer cb) cb t Hi Ho Hc Hs Hcbs) as (w1 & now1 & Hst1 & Hpump);
    rewrite ?Hop; try done; [by cbn; unfold accepting; rewrite Hms| |].
  { cbn [client client_complete controller_client]. rewrite Hhd. change (default 255 (Some 0)) with 0. rewrite Hprog.
    clear. destruct cb; cbn [following bringup]; [apply submit_next_simple..|exact I|exact I]. }
  exists w1, now1. cbv zeta. split.
  2:{ intros w' Hw'. apply Hpump; [exact Hw'|]. rewrite Hop. by apply discovery_none. }
  rewrite Hop, Hhd in Hst1. change (default 255 (Some 0)) with 0 in Hst1.
  cbn [client client_complete controller_client] in Hst1. rewrite Hprog in Hst1.
  clear Hprog Hpump Habs Hsend Hhd Hb Hl Hn Hr Hcbs.
  destruct cb; [..|done]; cbn [following bringup] in *; unfold submit_next in Hst1; cbn [answered_state] in Hst1.
  1-3: (destruct (Hst1 eq_refl _ ltac:(rewrite decide_True by done; reflexivity))
      as (j & s1 & Hi1 & Ho1 & Hc1 & Hs1 & Hcmd1 & Hcl1 & Htp1 & Ht1);
    do 2 eexists; split; [done|]; do 4 eexists; split; [done|]; split; [exact Hi1|]; split; [done|]; split; [lia|]; split; [done|];
    split; [exact Hcmd1|]; unfold ct; rewrite Hcl1, Htp1, Ht1, <- app_assoc; done).
  destruct Hst1 as (Hid & Hcl & Htp & Ht1). split; [done|]. unfold ct. by rewrite Hcl, Ht1.
Qed.

(** The commands of the bring-up, with their history. *)
Definition answered (cb : complete_fn) : list (tev complete_fn unit) :=
  match bringup cb with
  | Some (op, _) => [ESubmit (no_params op cb); ESend (wire_of (no_params op cb)); EComplete (no_params op cb) BT_CMDQ_RESULT_COMPLETE 0]
  | None => []
  end.

(** What the virtual controller says of itself. *)
Definition virtual_info : bt_controller_info := {|
  in_version := {| lv_status := 0; lv_hci_version := 12; lv_hci_revision := 0; lv_lmp_pal_version := 12;
                   lv_manufacturer_name := 65535; lv_lmp_pal_subversion := 1 |};
  in_features := {| lf_status := 0; lf_features := [255; 254; 141; 254; 155; 249; 0; 128] |};
  in_buffer_size := {| bs_status := 0; bs_acl_data_packet_length := 200; bs_sco_data_packet_length := 0;
                       bs_total_num_acl_data_packets := 8; bs_total_num_sco_data_packets := 0 |} |}.

Lemma virtual_pumped fuel w i now : sending w On_reset_complete i [ESubmit (no_params BT_HCI_OPCODE_RESET On_reset_complete)] ->
  exists w', bt_cmdq_pump (5 + fuel) w now = Ret w' /\ idle w' /\ ct_state (ct w') = BT_CONTROLLER_STATE_READY /\
    ct_info (ct w') = virtual_info /\
    w_trace w' = answered On_reset_complete ++ answered On_version_complete ++ answered On_features_complete ++ answered On_buffer_size_complete.
Proof.
  intros H0.
  destruct (virtual_step (4 + fuel) w _ _ _ now _ _ i H0 eq_refl eq_refl) as (w1 & now1 & (op1 & st1 & [= <- <-] & H1) & E1).
  destruct (virtual_step (3 + fuel) w1 _ _ _ now1 _ _ _ H1 eq_refl ltac:(vm_compute; reflexivity)) as (w2 & now2 & (op2 & st2 & [= <- <-] & H2) & E2).
  destruct (virtual_step (2 + fuel) w2 _ _ _ now2 _ _ _ H2 eq_refl ltac:(vm_compute; reflexivity)) as (w3 & now3 & (op3 & st3 & [= <- <-] & H3) & E3).
  destruct (virtual_step (1 + fuel) w3 _ _ _ now3 _ _ _ H3 eq_refl ltac:(vm_compute; reflexivity)) as (w4 & now4 & (Hid & Hst & Hinfo & _ & Ht) & E4).
  exists (advance_clock w4 now4). destruct (advance_trace w4 now4) as (Ht4 & Hc4 & _).
  split; [exact (E1 _ (E2 _ (E3 _ (E4 _ (pump_idle fuel w4 now4 Hid)))))|]. split; [by apply idle_advance|].
  unfold ct in *. rewrite Hc4, Ht4. split; [done|]. split; [|by rewrite Ht].
  rewrite Hinfo. reflexivity.
Qed.

(** The Reset of the bring-up waits in the queue. *)
Lemma virtual_started (w : W) : idle w -> cq_command_credits (w_q w) <> 0 ->
  ct_state (ct w) = BT_CONTROLLER_STATE_UNINITIALIZED -> mg_state (w_client w) = BT_MANAGER_STATE_STARTING ->
  answering (w_transport w) -> w_trace w = [] ->
  exists w1, submit w BT_HCI_OPCODE_RESET None 0 0 (Some On_reset_complete) tt = Ret (BT_OK, w1) /\
    sending (on_client (set_state BT_CONTROLLER_STATE_RESETTING) w1) On_reset_complete (ct_info (ct w))
      [ESubmit (no_params BT_HCI_OPCODE_RESET On_reset_complete)].
Proof.
  intros Hid Hc Hst Hms Hans Htr.
  destruct (submit_idle w BT_HCI_OPCODE_RESET None 0 0 (Some On_reset_complete) tt Hid) as
    (w1 & slot & s & Hsub & Hi & Ho & Hc1 & Hs & Hcmd & Hcl & Htp & Ht); [done|done|].
  exists w1. split; [exact Hsub|]. do 4 eexists. split; [reflexivity|].
  split; [by apply inv_with_client|]. split; [done|]. split; [by cbn; rewrite Hc1|]. split; [exact Hs|]. split; [exact Hcmd|].
  unfold ct in *. cbn. rewrite Hcl, Htp, Ht, Htr. done.
Qed.

(** C17.  The whole stack comes up on the virtual controller inside one call.
    From any memory, an initialised and stopped manager that is started on the
    virtual transport returns BT_OK from [bt_manager_start] with the manager
    RUNNING, the controller READY, the command queue idle again and the
    controller's description the one the virtual controller reports; the four
    commands were sent in order, each one answered from inside its own send
    before the next was sent.  Five rounds of the pump are enough. *)
Theorem virtual_bringup : forall fuel w now, controller_memory BT_MANAGER_STATE_STOPPED w ->
  exists w0 w', bt_controller_init w = Ret w0 /\
    bt_manager_start hook bt_virtual_transport_ops (5 + fuel) w0 now = Ret (BT_OK, w') /\
    idle w' /\ mg_state (w_client w') = BT_MANAGER_STATE_RUNNING /\
    ct_state (ct w') = BT_CONTROLLER_STATE_READY /\ ct_info (ct w') = virtual_info /\
    w_trace w' = answered On_reset_complete ++ answered On_version_complete ++ answered On_features_complete ++
      answered On_buffer_size_complete.
Proof.
  intros fuel w now Hm. destruct (controller_init_idle _ w Hm) as (w0 & Hinit & Hid & Hc & Ht & Hst & Hinfo).
  destruct (controller_init_good _ w Hm) as (w0' & Hinit' & _ & _ & _ & _ & Hms).
  rewrite Hinit in Hinit'. injection Hinit' as <-. exists w0.
  set (wa := with_transport (vt_start_receive (vt_open (w_transport w0)).2).2
    (on_client (set_manager_state BT_MANAGER_STATE_STARTING) w0)).
  destruct (virtual_started wa) as (w1 & Hsub & Hs); [destruct Hid as [Hi Ho]; split; [by apply inv_with_transport, inv_with_client|exact Ho]|cbn; lia|done..|].
  destruct (virtual_pumped fuel _ _ now Hs) as (w2 & Hp & Hid2 & Hst2 & Hinfo2 & Ht2).
  assert (bt_controller_start hook (5 + fuel) wa now = Ret (BT_OK, w2)) as Hcs.
  { unfold bt_controller_start. change (ct wa) with (mg_controller (w_client wa)).
    unfold ct in Hst. cbn [wa w_client with_transport on_client with_client set_manager_state mg_controller]. rewrite Hst.
    rewrite bool_decide_true by done. cbn [negb]. rewrite Hsub. cbn [obind].
    rewrite bool_decide_true by done. cbn [negb]. cbv zeta.
    unfold client in Hp. by rewrite Hp. }
  exists (on_client (set_manager_state BT_MANAGER_STATE_RUNNING) w2). split; [exact Hinit|]. split.
  - unfold bt_manager_start. rewrite Hms. rewrite bool_decide_true by done. cbn [negb]. cbv zeta.
    cbn [bt_virtual_transport_ops tr_open tr_start_receive vt_open vt_start_receive Z.eqb negb].
    change (with_transport _ (with_transport _ _)) with wa. rewrite Hcs. cbn [obind].
    rewrite Hst2. done.
  - split; [by apply idle_client|]. split; [done|]. split; [exact Hst2|]. split; [exact Hinfo2|]. exact Ht2.
Qed.

End Bringup.

(** ** Concrete runs *)

Definition demo_world : world complete_fn unit bt_manager bt_virtual_transport :=
  {| w_q := w_q CtrlDemo.demo_world; w_timers := w_timers CtrlDemo.demo_world; w_client := w_client CtrlDemo.demo_world;
     w_transport := bt_virtual_transport_init; w_trace := [] |}.

Lemma virtual_demo_memory : controller_memory BT_MANAGER_STATE_STOPPED demo_world.
Proof. exact CtrlDemo.demo_memory. Qed.

(** The devices found so far: address and signal strength. *)
Definition found (r : outcome (world complete_fn unit bt_manager bt_virtual_transport)) : option (list (list Z * Z)) :=
  match r with
  | Ret w => let reg := ct_devices (ct w) in
             Some ((fun d => (dd_addr d, dd_last_rssi d)) <$> take (Z.to_nat (dr_count reg)) (dr_devices reg))
  | _ => None
  end.

(** The stack, up. *)
Definition up : outcome (world complete_fn unit bt_manager bt_virtual_transport) :=
  let? w := bt_controller_init demo_world in
  let? r := bt_manager_start false bt_virtual_transport_ops 9 w 0 in
  Ret r.2.

(** A scan for LE devices finds the one device there is. *)
Example le_scan_finds_device :
  found (let? w := up in let? r := bt_controller_start_le_scan false 9 w 5 in Ret r.2) = Some [([17; 18; 19; 20; 21; 22], -55)].
Proof. vm_compute. reflexivity. Qed.

(** Switching the scan off makes the virtual controller report a device too:
    it does not look at the enable parameter. *)
Example disabled_scan_reports :
  found (let? w := up in let? r := bt_controller_stop_le_scan false 9 w 5 in Ret r.2) = Some [([17; 18; 19; 20; 21; 22], -55)].
Proof. vm_compute. reflexivity. Qed.

(** An inquiry finds nothing.  The controller asks for the extended results
    first, the virtual controller accepts that command and never answers it,
    and the Inquiry waits behind it; the scan for LE devices that follows waits
    as well. *)
Example inquiry_never_sent :
  let after := (let? w := up in let? r := bt_controller_start_classic_inquiry false 9 w 8 0 in Ret r.2) in
  found after = Some [] /\
  (let? w := after in Ret (last (w_trace w))) = Ret (Some (ESend [69; 12; 1; 2])) /\
  found (let? w := after in let? r := bt_controller_start_le_scan false 9 w 0 in Ret r.2) = Some [].
Proof. vm_compute. repeat split. Qed.

(** Only when that command has timed out is the Inquiry sent, and its result found. *)
Example inquiry_after_timeout :
  found (let? w := up in let? r := bt_controller_start_classic_inquiry false 9 w 8 0 in
         bt_controller_tick false 9 r.2 BT_CMDQ_DEFAULT_TIMEOUT_US) = Some [([1; 2; 3; 4; 5; 6], 0)].
Proof. vm_compute. reflexivity. Qed.

Lemma virtual_bringup_witness : exists w0 w', bt_controller_init demo_world = Ret w0 /\
  bt_manager_start true bt_virtual_transport_ops 5 w0 7 = Ret (BT_OK, w') /\
  mg_state (w_client w') = BT_MANAGER_STATE_RUNNING /\ bs_acl_data_packet_length (in_buffer_size (ct_info (ct w'))) = 200.
Proof.
  destruct (virtual_bringup true 0 demo_world 7 virtual_demo_memory) as (w0 & w' & Hi & Hs & _ & Hr & _ & Hinfo & _).
  exists w0, w'. split; [exact Hi|]. split; [exact Hs|]. split; [exact Hr|]. rewrite Hinfo. reflexivity.
Defined.

End VirtualTransport.
